(* ===== verification/_CoqProject ===== *)
-Q . S2P
Prelude.v
Def.v
Ip4Addr.v
Opts.v
Connection.v
ConnectionFacts.v
ConnectionProps.v
Mem.v
MemFacts.v
Memp.v
Pbuf.v
PbufFacts.v
PbufOps.v
Chksum.v
Timeouts.v
TcpPcb.v
TcpOut.v
TcpIn.v
TcpStream.v
TcpRun.v
TcpOverrun.v
TcpWrite.v
TcpWriteRef.v
TcpStack.v
TcpInput.v
TcpTimer.v
TcpFrame.v
TcpSafety.v
TcpCalls.v
TcpSafeIn.v
TcpSafeRun.v
TcpSafeTmr.v
TcpSafeApi.v
TcpProps.v
Ip4Hdr.v
Ip4Frag.v
Ip4FragFacts.v
Ip4Reass.v
Ip4FragOut.v
Ip4FragProps.v
Raw.v
Netif.v
NetifFacts.v
NetifProps.v
Ip4Out.v
Ip4OutFacts.v
Ip4.v
Ip4Facts.v
Ip4Props.v
TcpListen.v
TcpPort.v
TcpWire.v
TcpWf.v
TcpWfRun.v
IpStack.v
IpStackFacts.v
IpStackProps.v
PoolBufs.v
TunPath.v
TunWf.v
Tunnel.v
Log.v
OcLog.v
ConnInfo.v
Clock.v
Scheduler.v
ConnLwip.v
