(* ===== verification/Prelude.v ===== *)
(** * TunForge: a verification of its TCP/IP core

    TunForge turns the IP packets of a tunnel into TCP connections.  Packets
    enter lwIP (src/Sources/Lwip, a copy of lwIP with a hook that accepts every
    SYN), lwIP runs the connections, and each accepted connection is an
    Objective-C object (src/Sources/TunForgeCore) between lwIP's callbacks on
    the packets queue and the user's handlers on the connections queue.

    ** Files

    - Prelude: machine integers, record updates, tactics, shared lemmas.
    - Def: core/def.c.  Ip4Addr: core/ipv4/ip4_addr.c.
    - Opts: lwipopts.h and its two platform files; [ios] and [macos].
    - Connection: TFTCPConnection.m and TFObjectRef.m, every method and callback
      as a function on a [world] (object, bridge object, pcb view, both queues),
      lwIP through the class [TcpApi].  ConnectionFacts and ConnectionProps: the
      life cycle, ownership of buffers, notifications, window accounting.
    - Mem, MemFacts: core/mem.c, the heap.  Memp: core/memp.c, the pools.
    - Pbuf, PbufFacts, PbufOps: core/pbuf.c on a store of buffers with
      reference counts.
    - Chksum: core/inet_chksum.c against RFC 1071.
    - Timeouts: core/timeouts.c.
    - TcpPcb, TcpOut, TcpIn: the code that works on one pcb, from tcp_out.c,
      tcp_in.c ([tcp_receive], [tcp_parseopt]) and the window functions of tcp.c.
      TcpStream, TcpRun: reassembly and a connection over whole runs.
      TcpOverrun: a segment queued beyond the receive window.
      TcpWrite, TcpWriteRef: [tcp_write], copying its data and referring to it.
    - TcpStack: all pcbs together, tcp.c: the lists, allocation, opening,
      closing, aborting, the backlog.  TcpInput: [tcp_input], [tcp_process], the
      callbacks, tcp_in.c.  TcpTimer: [tcp_fasttmr], [tcp_slowtmr], [tcp_tmr].
    - TcpFrame: what the code for one pcb leaves alone.  TcpSafety, TcpCalls,
      TcpSafeIn, TcpSafeRun, TcpSafeTmr, TcpSafeApi: every operation keeps the
      lists.  TcpProps: the theorems about the stack.  TcpListen: what leaves
      the listeners alone.  TcpPort: the search for a local port.  TcpWire: the
      bytes of a segment, and that [tcp_input] reads them back.  TcpWf, TcpWfRun:
      the ranges of the fields of pcbs and segments, kept by every operation.
    - Ip4Hdr: the IP header and received packets, prot/ip4.h.  Ip4Frag:
      core/ipv4/ip4_frag.c, reassembly and fragmentation; Ip4FragFacts, Ip4Reass,
      Ip4FragOut, Ip4FragProps: their lemmas and theorems.
    - Raw: core/raw.c.  Netif: core/netif.c with what a change of address does to
      TCP and raw pcbs, and [ip4_route]; NetifFacts, NetifProps.
    - Ip4Out, Ip4OutFacts: sending, core/ipv4/ip4.c.  Ip4, Ip4Facts: receiving.
      Ip4Props: the theorems about both.
    - IpStack: TFIPStack.m and the bridge objects of TFObjectRef.m, on the timers
      of Timeouts, whose environment is TCP, reassembly and the clock;
      IpStackFacts, IpStackProps.  PoolBufs: the buffers of a packet from the
      tunnel against pbuf.c.  TunPath: a segment from TCP through IP and the
      tunnel to another stack's TCP.  TunWf: these ranges and the bytes of all
      queues, through every method.  Tunnel: a method together with the segments
      TCP sends meanwhile, through IP and the driver to the outbound handler.
    - Log: the log and assertion hooks, custom/tf_lwip_log.c.  OcLog: the log of
      the Objective-C layer, TFTunForgeLog.m.  ConnInfo: TFTCPConnectionInfo.m.
    - Clock: custom/sys_arch.c, with arithmetic on doubles.
    - Scheduler: TFGlobalScheduler.m and TFQueueHelpers, with libdispatch as a
      parameter.
    - ConnLwip: the stack of TcpStack as the [TcpApi] of Connection.

    ** What the theorems show

    - The stack object ([IpStackProps]): from construction on, over any sequence
      of starts, stops, packets of any content, timer ticks at any times and
      calls of the connections, no freed pcb and no released bridge of the stack
      object is touched and nothing loops, unless an assertion of lwIP stops the
      program; each pool buffer is in exactly one place and no bridge of the stack
      object is leaked; [stop] silences the stack, [start] works whenever TCP has
      room.
    - The way out ([TcpWfRun], [Tunnel]): every segment TCP makes fits a packet
      of the tunnel, leaves in one piece behind a right header, and the outbound
      handler gets all of them in order, and nothing else, while the stack runs.
    - The queues ([Scheduler]): if the upper layer has bound the keys, work is done
      on the queue it is meant for and [dispatch_sync] is never called on the queue
      it targets; if it has not, nested synchronous calls do that.
    - IPv4: every packet is handled safely and malformed ones have no effect; the
      fragments of a packet, in any order, are reassembled to it, so what one
      side sends the other side's TCP gets; interfaces have distinct numbers, and
      removing one ends exactly the connections that use its address.  Some
      theorems show limits: MTUs that are too small or unaligned, 255 interfaces,
      packets of 64 KB and more.
    - The stack ([TcpProps]): over any sequence of packets, timer ticks and API
      calls on live pcbs, with callbacks that return, close or abort, no freed
      pcb is touched, every loop ends and the axioms of tcp_priv.h about the
      lists hold; segments move a synchronized connection only along the state
      diagram; a reset needs the exact sequence number; both timers end and handle
      every active pcb in each tick.  The receive callback is assumed neither to
      close nor to abort, as TunForge's does not; theorems show what happens
      otherwise and when a peer ignores the window ([TcpOverrun]).
    - A connection: the bytes handed to the application are exactly the peer's
      stream ([TcpRun], a refinement of the stream by out-of-order, overlapping
      segments on wrapping sequence numbers); [tcp_write] is all or nothing.
    - The connection object: its life-cycle invariant, each buffer freed exactly
      once, at most one notification, the reason given for every way to end, the
      window credited exactly; and lwIP implements the interface this is proved
      against ([ConnLwip]).  Its bridge object can be messaged after it was freed
      once the user has dropped a closed connection, and only then.
    - Memory: the heap's blocks stay disjoint and aligned, fragments merge again,
      pools neither lose nor duplicate elements; pbuf operations do to the bytes
      of a chain what they should, with reference counts.
    - The clock never decreases and is right to a millisecond for 49 days, after
      which it is undefined instead of wrapping around.
    - Checksums are RFC 1071's for every split of the data; the timer list is
      sorted across the wrap of the clock and its processing ends; addresses
      round-trip through text.

    ** Conventions

    Integers keep their width: [u8], [u16], [u32] wrap.  A failed assertion (or a
    read outside of a buffer) is [None], or [Failed] in the files on the stack,
    where [Dangling] is a use of a freed pcb and [Stuck] a loop that runs past its
    bound.  Theorems about runs of the stack exclude the last two; those about one
    pcb, the heap, reassembly and the timers also failed assertions.  A failed
    assertion calls [abort] (custom/tf_lwip_log.c), so that a run ends there.

    The loops over the queues of one pcb are structural, and the one of
    [tcp_write] is bounded by the queue length it checks, so that [None] of the
    code for one pcb is never a loop without end ([lift]).  Where the stack calls
    code that is proved to give a result (timers, reassembly, output), that it does
    is demanded again: [sure] makes a missing result [Stuck].  Other loops take
    fuel: buffer and option loops get the number of elements they can consume;
    the timers of TCP get [(n+1)^2] steps for [n] active pcbs, since a walk may
    start over after each pcb it handles; the port search one round of the port
    range; fragmentation one step per byte; the search for an interface number 256
    rounds, which is more than it has numbers; a check of [n] timers [2n+1] steps,
    since each can be due once more at the same time; each is proved to be enough,
    or the loop to have no end.

    The clock stands still while one method of the stack object runs, and with it
    while due timers are handled: [sys_check_timeouts] reads it once before its
    loop, but a handler that sets its timer again reads it once more, where the
    model gives it the same value.

    In the TCP files a pbuf chain is the list of the bytes of its buffers (what
    the chain operations do is proved in the Pbuf files); each allocation of a
    segment or buffer succeeds or fails as the next element of a list says, and
    so does [ip_output_if]; routing and the netif are the class [IpLayer]; what
    an application callback does is the next element of a list of reactions.

    ** Not modelled

    In [Tunnel] the segments an operation causes are handed to IP when it is over,
    in the order in which TCP made them, while the code hands each down at once;
    its header says why that makes no difference here.  The connection object
    calls lwIP through the interface [TcpApi], which the model of TCP implements
    (ConnLwip); in the other direction the stack calls the application as lists of
    reactions, not as the callbacks of that object.  Left out for good: statistics and debug output, and the parts of
    lwIP that lwipopts.h does not compile or the program does not use (UDP, ICMP,
    IP forwarding, DNS, DHCP, ARP, IPv6, PPP, altcp, sockets, the bundled
    applications): with this configuration their files compile to nothing, so a
    model of them would say nothing about the program. *)

From stdpp Require Export base numbers list gmap sorting.
From stdpp Require Import options.
From Stdlib Require Export ZArith Lia.
Global Open Scope Z_scope.

(** ** Machine integers

    A C value of an unsigned type of width [w] is a [Z] in [0 <= z < 2^w];
    every C expression whose result is converted to such a type is wrapped
    explicitly. *)
Definition u8 (z : Z) : Z := z mod 256.
Definition u16 (z : Z) : Z := z mod 65536.
Definition u32 (z : Z) : Z := z mod 4294967296.
Definition u64 (z : Z) : Z := z mod 18446744073709551616.

(** Conversion to [s32_t] / [s16_t] / [s8_t] (two's complement). *)
Definition s32 (z : Z) : Z := let r := z mod 4294967296 in if r <? 2147483648 then r else r - 4294967296.
Definition s16 (z : Z) : Z := let r := z mod 65536 in if r <? 32768 then r else r - 65536.
Definition s8 (z : Z) : Z := let r := z mod 256 in if r <? 128 then r else r - 256.

Definition is_u8 (z : Z) : Prop := 0 <= z < 256.
Definition is_u16 (z : Z) : Prop := 0 <= z < 65536.
Definition is_u32 (z : Z) : Prop := 0 <= z < 4294967296.

(** C truth values of an integer expression. *)
Definition b2z (b : bool) : Z := if b then 1 else 0.
Definition ctrue (z : Z) : bool := negb (z =? 0).

(** [flags & f] tested as a condition. *)
Definition flag_set (flags f : Z) : bool := negb (Z.land flags f =? 0).

(** ** Record update

    [r <| f := v |>] is the record [r] with field [f] replaced.  A record type
    is made updatable by one [Eta] instance that rebuilds it from its
    projections; the setter of each field is then computed from it. *)
Class Eta (R : Type) := eta : R -> R.
Class Setter {R T : Type} (proj : R -> T) := setf : (T -> T) -> R -> R.
Arguments setf {R T} proj {_} _ _.

Ltac solve_setter :=
  match goal with
  | |- @Setter ?R ?T ?proj =>
      let inst := constr:(_ : Eta R) in
      let upd := fresh "upd" in
      let r := fresh "r" in
      unfold Setter; intros upd r;
      let e := eval hnf in (inst r) in
      let p := eval pattern (proj r) in e in
      match p with
      | ?F _ => let t := eval cbv beta in (F (upd (proj r))) in exact t
      end
  end.

#[global] Hint Extern 1 (Setter _) => solve_setter : typeclass_instances.

Declare Scope record_scope.
Delimit Scope record_scope with rec.
Notation "r <| f := v |>" := (setf f (fun _ => v) r)
  (at level 1, left associativity, format "r  <| f  :=  v |>") : record_scope.
Global Open Scope record_scope.

(** ** C strings and buffers

    A NUL-terminated [const char *] is the list of its characters (none of
    them 0); reading at the end of the list gives the terminator. *)
Abbreviation cstr := (list Z).
Definition chr (s : cstr) : Z := hd 0 s.

(** [l[i]] and [l[i] = x] on a buffer addressed by [Z]. *)
Definition getz (l : list Z) (i : Z) : option Z := if i <? 0 then None else l !! Z.to_nat i.
Definition setz (l : list Z) (i x : Z) : list Z := if i <? 0 then l else <[Z.to_nat i := x]> l.

(** Lengths, prefixes and suffixes measured in [Z]. *)
Definition lenz {A} (l : list A) : Z := Z.of_nat (length l).
Definition takez {A} (n : Z) (l : list A) : list A := take (Z.to_nat n) l.
Definition dropz {A} (n : Z) (l : list A) : list A := drop (Z.to_nat n) l.

(** ** Results of operations that can hit an assertion

    [None] stands for a failed [LWIP_ASSERT], a dereference of a pointer that
    points to no object, or a loop that runs past its bound; the theorems show
    that it does not occur. *)
Notation "'let?' x := e 'in' k" := (match e with Some x => k | None => None end)
  (at level 10, x pattern, e at level 200, k at level 200).
Notation "'assert!' b 'in' k" := (if b then k else None)
  (at level 10, b at level 200, k at level 200).

(** ** Tactics *)
Ltac Zify.zify_post_hook ::= Z.to_euclidean_division_equations.

(** Unfold the integer conversions and call [lia]. *)
Ltac zlia := unfold u8, u16, u32, u64, is_u8, is_u16, is_u32, lenz, b2z, ctrue in *; lia.

(** Turn boolean tests in hypotheses and goal into propositions. *)
Ltac bprop :=
  repeat match goal with
  | H : (_ && _)%bool = true |- _ => apply andb_true_iff in H; destruct H
  | H : (_ || _)%bool = false |- _ => apply orb_false_iff in H; destruct H
  | H : negb _ = true |- _ => apply negb_true_iff in H
  | H : negb _ = false |- _ => apply negb_false_iff in H
  | H : bool_decide _ = true |- _ => apply bool_decide_eq_true in H
  | H : bool_decide _ = false |- _ => apply bool_decide_eq_false in H
  | H : (_ =? _) = true |- _ => apply Z.eqb_eq in H
  | H : (_ =? _) = false |- _ => apply Z.eqb_neq in H
  | H : (_ <? _) = true |- _ => apply Z.ltb_lt in H
  | H : (_ <? _) = false |- _ => apply Z.ltb_ge in H
  | H : (_ <=? _) = true |- _ => apply Z.leb_le in H
  | H : (_ <=? _) = false |- _ => apply Z.leb_gt in H
  end.

(** Compute projections of updated records: [f (r <| g := v |>)] is [f r], or
    [v] when [g] is [f]. *)
Ltac rsimpl_term p g u r :=
  first [ change (p (setf g u r)) with (p r)
        | let t := eval cbv beta in (u (p r)) in change (p (setf g u r)) with t ].
Ltac rsimpl := repeat match goal with |- context [?p (@setf _ _ ?g _ ?u ?r)] => rsimpl_term p g u r end.
Ltac rsimpl_term_in p g u r H :=
  first [ change (p (setf g u r)) with (p r) in H
        | let t := eval cbv beta in (u (p r)) in change (p (setf g u r)) with t in H ].
Ltac rsimpl_in H := repeat match type of H with context [?p (@setf _ _ ?g _ ?u ?r)] => rsimpl_term_in p g u r H end.

(** Case on the condition of the first [if] of the goal. *)
Ltac cif :=
  match goal with
  | |- context [if ?b then _ else _] => let E := fresh "E" in destruct b eqn:E; bprop
  end.

(** ** Facts *)
Create HintDb cint discriminated.
Create Rewrite HintDb cintr.

Lemma u8_range z : is_u8 (u8 z).
Proof. zlia. Qed.

Lemma u16_range z : is_u16 (u16 z).
Proof. zlia. Qed.

Lemma u32_range z : is_u32 (u32 z).
Proof. zlia. Qed.

Lemma u8_id z : is_u8 z -> u8 z = z.
Proof. zlia. Qed.

Lemma u16_id z : is_u16 z -> u16 z = z.
Proof. zlia. Qed.

Lemma u32_id z : is_u32 z -> u32 z = z.
Proof. zlia. Qed.

#[export] Hint Resolve u8_range u16_range u32_range : cint.

Lemma lenz_app {A} (l k : list A) : lenz (l ++ k) = lenz l + lenz k.
Proof. unfold lenz. rewrite length_app. lia. Qed.

Lemma lenz_cons {A} (x : A) l : lenz (x :: l) = 1 + lenz l.
Proof. unfold lenz. simpl. lia. Qed.

Lemma lenz_nil {A} : lenz (@nil A) = 0.
Proof. done. Qed.

Lemma lenz_nonneg {A} (l : list A) : 0 <= lenz l.
Proof. unfold lenz. lia. Qed.

Lemma lenz_takez {A} n (l : list A) : 0 <= n <= lenz l -> lenz (takez n l) = n.
Proof. unfold lenz, takez. intros H. rewrite length_take. lia. Qed.

Lemma lenz_dropz {A} n (l : list A) : 0 <= n <= lenz l -> lenz (dropz n l) = lenz l - n.
Proof. unfold lenz, dropz. intros H. rewrite length_drop. lia. Qed.

Lemma takez_0 {A} n (l : list A) : n <= 0 -> takez n l = [].
Proof. intros H. unfold takez. by replace (Z.to_nat n) with 0%nat by lia. Qed.

Lemma dropz_0 {A} n (l : list A) : n <= 0 -> dropz n l = l.
Proof. intros H. unfold dropz. by replace (Z.to_nat n) with 0%nat by lia. Qed.

Lemma takez_all {A} n (l : list A) : lenz l <= n -> takez n l = l.
Proof. unfold lenz, takez. intros H. apply take_ge. lia. Qed.

Lemma dropz_all {A} n (l : list A) : lenz l <= n -> dropz n l = [].
Proof. unfold lenz, dropz. intros H. apply drop_ge. lia. Qed.

Lemma takez_nil {A} n : takez n (@nil A) = [].
Proof. apply take_nil. Qed.

Lemma dropz_nil {A} n : dropz n (@nil A) = [].
Proof. apply drop_nil. Qed.

Lemma takez_app {A} n (l k : list A) : 0 <= n -> takez n (l ++ k) = takez n l ++ takez (n - lenz l) k.
Proof. unfold lenz, takez. intros H. rewrite take_app. do 2 f_equal. lia. Qed.

Lemma dropz_app {A} n (l k : list A) : 0 <= n -> dropz n (l ++ k) = dropz n l ++ dropz (n - lenz l) k.
Proof. unfold lenz, dropz. intros H. rewrite drop_app. do 2 f_equal. lia. Qed.

Lemma takez_dropz {A} n (l : list A) : takez n l ++ dropz n l = l.
Proof. apply take_drop. Qed.

Lemma takez_app_eq {A} n (l k : list A) : n = lenz l -> takez n (l ++ k) = l.
Proof. intros ->. unfold lenz, takez. rewrite Nat2Z.id. apply take_app_length. Qed.

Lemma dropz_app_eq {A} n (l k : list A) : n = lenz l -> dropz n (l ++ k) = k.
Proof. intros ->. unfold lenz, dropz. rewrite Nat2Z.id. apply drop_app_length. Qed.

#[export] Hint Rewrite @lenz_app @lenz_cons @lenz_nil : cintr.

(** Bit operations as arithmetic: a byte field of a word, and the disjunction
    of two words with disjoint bits. *)
Lemma land_byte_at x k : 0 <= k -> Z.land x (Z.shiftl 255 k) = Z.shiftl ((x / 2 ^ k) mod 256) k.
Proof.
  intros Hk. rewrite <- Z.shiftr_div_pow2 by lia.
  change 256 with (2 ^ 8). rewrite <- Z.land_ones by lia.
  apply Z.bits_inj'. intros i Hi. change (Z.ones 8) with 255.
  rewrite Z.land_spec, !Z.shiftl_spec, Z.land_spec by lia.
  destruct (Z.ltb_spec (i - k) 0).
  - rewrite !(Z.testbit_neg_r _ (i - k)) by lia. by rewrite andb_false_r.
  - rewrite Z.shiftr_spec by lia. by replace (i - k + k) with i by lia.
Qed.

Lemma land_shiftl_low a b k : 0 <= k -> 0 <= b < 2 ^ k -> Z.land (Z.shiftl a k) b = 0.
Proof.
  intros Hk Hb. destruct (Z.eq_dec b 0) as [->|Hb0]; [by rewrite Z.land_0_r|].
  apply Z.bits_inj'. intros i Hi.
  rewrite Z.land_spec, Z.shiftl_spec, Z.bits_0 by lia.
  destruct (Z.ltb_spec i k); [by rewrite Z.testbit_neg_r by lia|].
  rewrite (Z.bits_above_log2 b i); [by rewrite andb_false_r|lia|].
  apply Z.log2_lt_pow2; [lia|]. eapply Z.lt_le_trans; [apply Hb|]. apply Z.pow_le_mono_r; lia.
Qed.

Lemma lor_shiftl_add a b k : 0 <= k -> 0 <= b < 2 ^ k -> Z.lor (Z.shiftl a k) b = a * 2 ^ k + b.
Proof.
  intros Hk Hb. rewrite <- Z.shiftl_mul_pow2 by lia.
  symmetry. apply Z.add_nocarry_lor. by apply land_shiftl_low.
Qed.

Lemma sorted_lookup {A} (R : A -> A -> Prop) l i j x y :
  StronglySorted R l -> l !! i = Some x -> l !! j = Some y -> (i < j)%nat -> R x y.
Proof.
  intros Hs. revert i j. induction Hs as [|a l Hs IH Hf]; intros i j Hi Hj Hij; [done|].
  destruct j as [|j]; [lia|]. destruct i as [|i]; cbn in *.
  - simplify_eq. rewrite Forall_lookup in Hf. by eapply Hf.
  - eapply IH; [done|done|lia].
Qed.

Lemma list_snoc_destruct {A} (l : list A) : l = [] \/ exists l' x, l = l' ++ [x].
Proof. induction l using rev_ind; [by left|right; eauto]. Qed.

Lemma flag_lor f g m : flag_set (Z.lor f g) m = flag_set f m || flag_set g m.
Proof.
  unfold flag_set. rewrite Z.land_lor_distr_l. destruct (Z.eqb_spec (Z.lor (Z.land f m) (Z.land g m)) 0) as [E|E].
  - apply Z.lor_eq_0_iff in E as [-> ->]. done.
  - destruct (Z.eqb_spec (Z.land f m) 0) as [Hf|]; [|done]. destruct (Z.eqb_spec (Z.land g m) 0) as [Hg|]; [|done]. by rewrite Hf, Hg in E.
Qed.
