(* ===== verification/Def.v ===== *)
(** * Def: src/Sources/Lwip/src/core/def.c

    Byte-order conversion, the string helpers and the constant-time compare
    of lwIP on a little-endian target.  A [char *] string is the list of its
    characters before the terminator; [char] values are compared as the
    [0 .. 255] codes the tests of the code use. *)

From S2P Require Import Prelude.

(** ** Definitions *)

(** [PP_HTONS], [PP_HTONL] (def.h) and the functions that call them. *)
Definition PP_HTONS (x : Z) : Z :=
  u16 (Z.lor (Z.shiftl (Z.land x 0xff) 8) (Z.shiftr (Z.land x 0xff00) 8)).
Definition PP_HTONL (x : Z) : Z :=
  Z.lor (Z.lor (Z.lor (Z.shiftl (Z.land x 0xff) 24) (Z.shiftl (Z.land x 0xff00) 8))
           (Z.shiftr (Z.land x 0xff0000) 8)) (Z.shiftr (Z.land x 0xff000000) 24).
Definition lwip_htons (n : Z) : Z := PP_HTONS n.
Definition lwip_htonl (n : Z) : Z := PP_HTONL n.

(** [LWIP_MAKEU32] (def.h). *)
Definition LWIP_MAKEU32 (a b c d : Z) : Z :=
  Z.lor (Z.lor (Z.lor (Z.shiftl (Z.land a 0xff) 24) (Z.shiftl (Z.land b 0xff) 16))
           (Z.shiftl (Z.land c 0xff) 8)) (Z.land d 0xff).

(** C library [strncmp(s, t, n) == 0]. *)
Fixpoint strncmp_eq (s t : cstr) (n : nat) : bool :=
  match n with
  | O => true
  | S n => if negb (chr s =? chr t) then false
           else if chr s =? 0 then true else strncmp_eq (tl s) (tl t) n
  end.

(** The scan of [lwip_strnstr]: [p] is the rest of the buffer at offset [i]. *)
Fixpoint strnstr_loop (p token : cstr) (tokenlen n i : Z) : option Z :=
  match p with
  | [] => None
  | c :: p' =>
      if i + tokenlen <=? n then
        if (c =? chr token) && strncmp_eq p token (Z.to_nat tokenlen) then Some i
        else strnstr_loop p' token tokenlen n (i + 1)
      else None
  end.

(** [lwip_strnstr]: the offset of the returned pointer in [buffer]. *)
Definition lwip_strnstr (buffer token : cstr) (n : Z) : option Z :=
  if lenz token =? 0 then Some 0 else strnstr_loop buffer token (lenz token) n 0.

(** The body of the compare loops: [true] when [c1] and [c2] are taken as equal. *)
Definition icmp_char (c1 c2 : Z) : bool :=
  if c1 =? c2 then true
  else let c1_upc := Z.lor c1 0x20 in
       if (97 <=? c1_upc) && (c1_upc <=? 122) then c1_upc =? Z.lor c2 0x20 else false.

(** [lwip_stricmp] reads both strings up to and including the terminator of
    [str1]; [fuel] is the number of characters it may read. *)
Fixpoint stricmp_loop (fuel : nat) (s1 s2 : cstr) : option Z :=
  match fuel with
  | O => None
  | S fuel => if negb (icmp_char (chr s1) (chr s2)) then Some 1
              else if chr s1 =? 0 then Some 0 else stricmp_loop fuel (tl s1) (tl s2)
  end.

Definition lwip_stricmp (str1 str2 : cstr) : option Z := stricmp_loop (S (length str1)) str1 str2.

(** [lwip_strnicmp]: [len] is a [size_t], decremented before it is tested. *)
Fixpoint strnicmp_loop (fuel : nat) (s1 s2 : cstr) (len : Z) : option Z :=
  match fuel with
  | O => None
  | S fuel => if negb (icmp_char (chr s1) (chr s2)) then Some 1
              else let len := u64 (len - 1) in
                   if negb (len =? 0) && negb (chr s1 =? 0)
                   then strnicmp_loop fuel (tl s1) (tl s2) len else Some 0
  end.

Definition lwip_strnicmp (str1 str2 : cstr) (len : Z) : option Z :=
  strnicmp_loop (S (length str1)) str1 str2 len.

(** The scan of [lwip_strnistr]. *)
Fixpoint strnistr_loop (p token : cstr) (tokenlen n i : Z) : option Z :=
  match p with
  | [] => None
  | c :: p' =>
      if i + tokenlen <=? n then
        match lwip_strnicmp p token tokenlen with
        | Some 0 => Some i
        | _ => strnistr_loop p' token tokenlen n (i + 1)
        end
      else None
  end.

Definition lwip_strnistr (buffer token : cstr) (n : Z) : option Z :=
  if lenz token =? 0 then Some 0 else strnistr_loop buffer token (lenz token) n 0.

(** [lwip_itoa]: the digit loop writes backwards from [tmp]; [int] is 32 bits. *)
Fixpoint itoa_loop (fuel : nat) (buf : list Z) (tmp res n : Z) : list Z * Z * Z :=
  match fuel with
  | O => (buf, tmp, n)
  | S fuel =>
      if negb (n =? 0) && (res <? tmp) then
        itoa_loop fuel (setz buf (tmp - 1) (48 + Z.rem n 10)) (tmp - 1) res (Z.quot n 10)
      else (buf, tmp, n)
  end.

(** [memmove(res, tmp, len)] inside one buffer. *)
Definition memmove_in (buf : list Z) (res tmp len : Z) : list Z :=
  takez res buf ++ takez len (dropz tmp buf) ++ dropz (res + len) buf.

Definition lwip_itoa (result : list Z) (number : Z) : list Z :=
  let bufsize := lenz result in
  let n := if 0 <=? number then number else s32 (- number) in
  if bufsize <? 2 then (if bufsize =? 1 then setz result 0 0 else result)
  else
    let result1 := if number <? 0 then setz result 0 45 else result in
    let res := if number <? 0 then 1 else 0 in
    let tmp := bufsize - 1 in
    let result2 := setz result1 tmp 0 in
    let '(buf, tmp, n) := itoa_loop (length result) result2 tmp res n in
    if ctrue n then setz buf 0 0
    else if match getz buf tmp with Some c => c =? 0 | None => false end
         then setz (setz buf res 48) (res + 1) 0
         else memmove_in buf res tmp (bufsize - tmp).

(** [lwip_memcmp_consttime] on two buffers of [len] bytes. *)
Fixpoint memcmp_loop (a1 a2 : list Z) (ret : Z) : Z :=
  match a1, a2 with
  | x :: a1, y :: a2 => memcmp_loop a1 a2 (u8 (Z.lor ret (Z.lxor x y)))
  | _, _ => ret
  end.

Definition lwip_memcmp_consttime (s1 s2 : list Z) (len : Z) : Z :=
  memcmp_loop (takez len s1) (takez len s2) 0.

(** ** Facts *)

Lemma PP_HTONL_bytes a b c d :
  is_u8 a -> is_u8 b -> is_u8 c -> is_u8 d ->
  PP_HTONL (a * 2 ^ 24 + b * 2 ^ 16 + c * 2 ^ 8 + d) = d * 2 ^ 24 + c * 2 ^ 16 + b * 2 ^ 8 + a.
Proof.
  unfold is_u8, PP_HTONL. intros Ha Hb Hc Hd.
  set (x := a * 2 ^ 24 + b * 2 ^ 16 + c * 2 ^ 8 + d).
  change 0xff with (Z.shiftl 255 0). change 0xff00 with (Z.shiftl 255 8).
  change 0xff0000 with (Z.shiftl 255 16). change 0xff000000 with (Z.shiftl 255 24).
  rewrite !land_byte_at by lia.
  replace ((x / 2 ^ 0) mod 256) with d by (unfold x; lia).
  replace ((x / 2 ^ 8) mod 256) with c by (unfold x; lia).
  replace ((x / 2 ^ 16) mod 256) with b by (unfold x; lia).
  replace ((x / 2 ^ 24) mod 256) with a by (unfold x; lia).
  rewrite !Z.shiftl_0_r, Z.shiftl_shiftl, !Z.shiftr_shiftl_l, Z.shiftl_0_r by lia.
  change (8 + 8) with 16. change (16 - 8) with 8.
  rewrite <- !Z.lor_assoc.
  rewrite (lor_shiftl_add b a 8), (lor_shiftl_add c _ 16), (lor_shiftl_add d _ 24) by lia.
  lia.
Qed.

Lemma u32_bytes n :
  is_u32 n -> n = (n / 2 ^ 24) * 2 ^ 24 + (n / 2 ^ 16) mod 256 * 2 ^ 16 + (n / 2 ^ 8) mod 256 * 2 ^ 8 + n mod 256.
Proof. zlia. Qed.

(** Converting a [u32_t] to network order twice gives it back, and the
    conversion reverses the four bytes. *)
Theorem lwip_htonl_reverses n :
  is_u32 n ->
  lwip_htonl n = (n mod 256) * 2 ^ 24 + (n / 2 ^ 8) mod 256 * 2 ^ 16 + (n / 2 ^ 16) mod 256 * 2 ^ 8 + n / 2 ^ 24
  /\ lwip_htonl (lwip_htonl n) = n.
Proof.
  intros Hn. unfold lwip_htonl.
  assert (E : PP_HTONL n = (n mod 256) * 2 ^ 24 + (n / 2 ^ 8) mod 256 * 2 ^ 16 + (n / 2 ^ 16) mod 256 * 2 ^ 8 + n / 2 ^ 24)
    by (rewrite (u32_bytes n Hn) at 1; rewrite PP_HTONL_bytes; zlia).
  split; [done|]. rewrite E, PP_HTONL_bytes; [symmetry; by apply u32_bytes|zlia..].
Qed.

Lemma lwip_htonl_reverses_witness :
  is_u32 0x0a000001 /\ lwip_htonl (lwip_htonl 0x0a000001) = 0x0a000001.
Proof.
  assert (H : is_u32 0x0a000001) by (unfold is_u32; lia).
  split; [exact H|]. exact (proj2 (lwip_htonl_reverses 0x0a000001 H)).
Defined.

(** Lower-case form of an ASCII code. *)
Definition lower (c : Z) : Z := if (65 <=? c) && (c <=? 90) then c + 32 else c.

Lemma icmp_char_table :
  forallb (fun i => forallb (fun j => Bool.eqb (icmp_char (Z.of_nat i) (Z.of_nat j))
                                     (lower (Z.of_nat i) =? lower (Z.of_nat j))) (seq 0 256)) (seq 0 256) = true.
Proof. vm_compute. reflexivity. Qed.

Lemma icmp_char_spec c1 c2 : is_u8 c1 -> is_u8 c2 -> icmp_char c1 c2 = (lower c1 =? lower c2).
Proof.
  intros H1 H2. pose proof icmp_char_table as T. rewrite forallb_forall in T.
  specialize (T (Z.to_nat c1)). rewrite in_seq in T. specialize (T ltac:(zlia)).
  rewrite forallb_forall in T. specialize (T (Z.to_nat c2)). rewrite in_seq in T.
  specialize (T ltac:(zlia)). apply eqb_prop in T. rewrite !Z2Nat.id in T by zlia. done.
Qed.

Lemma chr_u8 s : Forall is_u8 s -> is_u8 (chr s).
Proof. intros [|]; simpl; zlia. Qed.

Lemma Forall_tl {A} (P : A -> Prop) l : Forall P l -> Forall P (tl l).
Proof. by intros [|]. Qed.

(** The first [n] characters of two strings agree up to case, or both end. *)
Fixpoint caseless_eqn (n : nat) (s1 s2 : cstr) : bool :=
  match n with
  | O => true
  | S n => (lower (chr s1) =? lower (chr s2)) && ((chr s1 =? 0) || caseless_eqn n (tl s1) (tl s2))
  end.

Lemma strnicmp_loop_spec fuel s1 s2 n :
  (length s1 < fuel)%nat -> Forall is_u8 s1 -> Forall is_u8 s2 -> Z.of_nat (S n) < 2 ^ 64 ->
  strnicmp_loop fuel s1 s2 (Z.of_nat (S n)) = Some (b2z (negb (caseless_eqn (S n) s1 s2))).
Proof.
  revert s1 s2 n. induction fuel as [|fuel IH]; intros s1 s2 n Hf H1 H2 Hn; [lia|].
  cbn [strnicmp_loop caseless_eqn].
  rewrite icmp_char_spec by (by apply chr_u8).
  destruct (lower (chr s1) =? lower (chr s2)); [|done]. simpl.
  replace (u64 (Z.of_nat (S n) - 1)) with (Z.of_nat n) by zlia.
  destruct n as [|n]; [simpl; by rewrite orb_true_r|].
  replace (Z.of_nat (S n) =? 0) with false by (symmetry; apply Z.eqb_neq; lia). simpl negb.
  destruct (chr s1 =? 0) eqn:E; [done|]. simpl.
  destruct s1 as [|c s1]; [done|].
  rewrite IH; [done|simpl in *; lia|by apply Forall_tl|by apply Forall_tl|lia].
Qed.

(** [lwip_strnicmp] with a positive length returns 0 exactly when the first
    [len] characters are equal up to ASCII case (a common terminator ends the
    comparison), and 1 otherwise. *)
Theorem lwip_strnicmp_correct s1 s2 len :
  Forall is_u8 s1 -> Forall is_u8 s2 -> 0 < len < 2 ^ 64 ->
  lwip_strnicmp s1 s2 len = Some (if caseless_eqn (Z.to_nat len) s1 s2 then 0 else 1).
Proof.
  intros H1 H2 Hl. unfold lwip_strnicmp.
  replace len with (Z.of_nat (S (Z.to_nat (len - 1)))) at 1 by lia.
  rewrite strnicmp_loop_spec by (done || lia).
  replace (S (Z.to_nat (len - 1))) with (Z.to_nat len) by lia.
  by destruct (caseless_eqn _ _ _).
Qed.

Lemma lwip_strnicmp_correct_witness :
  lwip_strnicmp [72; 111; 115; 116] [104; 79; 83; 116; 33] 4 = Some 0.
Proof.
  rewrite (lwip_strnicmp_correct [72; 111; 115; 116] [104; 79; 83; 116; 33] 4).
  - reflexivity.
  - repeat constructor; unfold is_u8; lia.
  - repeat constructor; unfold is_u8; lia.
  - lia.
Defined.

(** with [len == 0] the decrement wraps and [lwip_strnicmp] compares the
    first characters instead of nothing: two strings that differ there are
    reported as different. *)
Theorem lwip_strnicmp_zero_len s1 s2 :
  Forall is_u8 s1 -> Forall is_u8 s2 -> lower (chr s1) <> lower (chr s2) ->
  lwip_strnicmp s1 s2 0 = Some 1.
Proof.
  intros H1 H2 Hne. unfold lwip_strnicmp. cbn [strnicmp_loop].
  rewrite icmp_char_spec by (by apply chr_u8).
  by apply Z.eqb_neq in Hne as ->.
Qed.

Lemma lwip_strnicmp_zero_len_witness : lwip_strnicmp [97] [98] 0 = Some 1.
Proof.
  apply lwip_strnicmp_zero_len.
  - repeat constructor; unfold is_u8; lia.
  - repeat constructor; unfold is_u8; lia.
  - vm_compute. discriminate.
Defined.
