(* ===== verification/Ip4Addr.v ===== *)
(** * Ip4Addr: src/Sources/Lwip/src/core/ipv4/ip4_addr.c

    Broadcast and netmask tests, and the text form of IPv4 addresses.  An
    [ip4_addr_t] is its [u32_t] in network order, that is, on a little-endian
    target, with the first octet in the low byte. *)

From S2P Require Import Prelude Def.

(** ** Definitions *)

Definition IPADDR_ANY : Z := 0.
Definition IPADDR_BROADCAST : Z := 0xffffffff.
Definition IPADDR_NONE : Z := 0xffffffff.
Definition NETIF_FLAG_BROADCAST : Z := 0x02.

(** [IP4_ADDR] (ip4_addr.h). *)
Definition IP4_ADDR (a b c d : Z) : Z := PP_HTONL (LWIP_MAKEU32 a b c d).

(** [~x] on [u32_t]. *)
Definition not32 (x : Z) : Z := 0xffffffff - x.

(** The fields of [struct netif] the address tests read. *)
Record netif_addr := mk_netif_addr { nif_ip_addr : Z; nif_netmask : Z; nif_flags : Z }.

Definition ip4_addr_net_eq (a1 a2 mask : Z) : bool := Z.land a1 mask =? Z.land a2 mask.

Definition ip4_addr_isbroadcast_u32 (addr : Z) (netif : netif_addr) : bool :=
  if (not32 addr =? IPADDR_ANY) || (addr =? IPADDR_ANY) then true
  else if negb (flag_set (nif_flags netif) NETIF_FLAG_BROADCAST) then false
  else if addr =? nif_ip_addr netif then false
  else if ip4_addr_net_eq addr (nif_ip_addr netif) (nif_netmask netif)
          && (Z.land addr (not32 (nif_netmask netif))
              =? Z.land IPADDR_BROADCAST (not32 (nif_netmask netif))) then true
  else false.

(** The two loops of [ip4_addr_netmask_valid]: [mask] is [1 << (n - 1)], and
    0 when [n] is 0. *)
Fixpoint netmask_skip_ones (nm : Z) (n : nat) : nat :=
  match n with
  | O => O
  | S k => if Z.land nm (Z.shiftl 1 (Z.of_nat k)) =? 0 then n else netmask_skip_ones nm k
  end.

Fixpoint netmask_no_ones (nm : Z) (n : nat) : bool :=
  match n with
  | O => true
  | S k => if negb (Z.land nm (Z.shiftl 1 (Z.of_nat k)) =? 0) then false else netmask_no_ones nm k
  end.

Definition ip4_addr_netmask_valid (netmask : Z) : bool :=
  let nm_hostorder := lwip_htonl netmask in
  netmask_no_ones nm_hostorder (netmask_skip_ones nm_hostorder 32).

(** Character classes (arch.h). *)
Definition in_range (c lo up : Z) : bool := (lo <=? c) && (c <=? up).
Definition lwip_isdigit (c : Z) : bool := in_range c 48 57.
Definition lwip_isxdigit (c : Z) : bool := lwip_isdigit c || in_range c 97 102 || in_range c 65 70.
Definition lwip_islower (c : Z) : bool := in_range c 97 122.
Definition lwip_isspace (c : Z) : bool :=
  (c =? 32) || (c =? 12) || (c =? 10) || (c =? 13) || (c =? 9) || (c =? 11).

(** The digit loop of [ip4addr_aton]: the value wraps at 32 bits. *)
Fixpoint aton_digits (base : Z) (cp : cstr) (val : Z) : Z * cstr :=
  match cp with
  | [] => (val, [])
  | c :: cp' =>
      if lwip_isdigit c then
        if (base =? 8) && (8 <=? c - 48) then (val, cp)
        else aton_digits base cp' (u32 (val * base + (c - 48)))
      else if (base =? 16) && lwip_isxdigit c then
        aton_digits base cp'
          (Z.lor (u32 (Z.shiftl val 4)) (u32 (c + 10 - (if lwip_islower c then 97 else 65))))
      else (val, cp)
  end.

(** Radix prefix: [0x] hexadecimal, [0] octal, otherwise decimal. *)
Definition aton_number (cp : cstr) : Z * cstr :=
  if chr cp =? 48 then
    let cp1 := tl cp in
    if (chr cp1 =? 120) || (chr cp1 =? 88) then aton_digits 16 (tl cp1) 0
    else aton_digits 8 cp1 0
  else aton_digits 10 cp 0.

(** The loop over the dotted parts; [parts] holds those already stored. *)
Fixpoint aton_parts (fuel : nat) (cp : cstr) (parts : list Z) : option (Z * list Z * cstr) :=
  match fuel with
  | O => None
  | S fuel =>
      if negb (lwip_isdigit (chr cp)) then None
      else let '(val, cp1) := aton_number cp in
           if chr cp1 =? 46 then
             if 3 <=? lenz parts then None else aton_parts fuel (tl cp1) (parts ++ [val])
           else Some (val, parts, cp1)
  end.

(** [ip4addr_aton]: the address in network order, or [None] for result 0. *)
Definition ip4addr_aton (cp : cstr) : option Z :=
  match aton_parts 4 cp [] with
  | None => None
  | Some (val, parts, rest) =>
      if negb (chr rest =? 0) && negb (lwip_isspace (chr rest)) then None
      else
        match parts with
        | [] => Some (lwip_htonl val)
        | [p0] => if (0xffffff <? val) || (0xff <? p0) then None
                  else Some (lwip_htonl (Z.lor val (Z.shiftl p0 24)))
        | [p0; p1] => if (0xffff <? val) || (0xff <? p0) || (0xff <? p1) then None
                      else Some (lwip_htonl (Z.lor val (Z.lor (Z.shiftl p0 24) (Z.shiftl p1 16))))
        | [p0; p1; p2] =>
            if (0xff <? val) || (0xff <? p0) || (0xff <? p1) || (0xff <? p2) then None
            else Some (lwip_htonl (Z.lor val (Z.lor (Z.lor (Z.shiftl p0 24) (Z.shiftl p1 16)) (Z.shiftl p2 8))))
        | _ => None
        end
  end.

Definition ipaddr_addr (cp : cstr) : Z :=
  match ip4addr_aton cp with Some v => v | None => IPADDR_NONE end.

(** The digits of one octet, most significant first ([inv] read backwards). *)
Fixpoint ntoa_digits (fuel : nat) (ap : Z) (acc : list Z) : list Z :=
  match fuel with
  | O => acc
  | S fuel => let acc := (48 + ap mod 10) :: acc in
              if ap / 10 =? 0 then acc else ntoa_digits fuel (ap / 10) acc
  end.

(** [if (len++ >= buflen) return NULL; *rp++ = c] for each character. *)
Fixpoint ntoa_put (cs out : list Z) (buflen : Z) : option (list Z) :=
  match cs with
  | [] => Some out
  | c :: cs => if buflen <=? lenz out then None else ntoa_put cs (out ++ [c]) buflen
  end.

Definition ip4addr_ntoa_r (addr buflen : Z) : option cstr :=
  let octet n := (addr / 2 ^ (8 * n)) mod 256 in
  let? o0 := ntoa_put (ntoa_digits 3 (octet 0) [] ++ [46]) [] buflen in
  let? o1 := ntoa_put (ntoa_digits 3 (octet 1) [] ++ [46]) o0 buflen in
  let? o2 := ntoa_put (ntoa_digits 3 (octet 2) [] ++ [46]) o1 buflen in
  let? o3 := ntoa_put (ntoa_digits 3 (octet 3) [] ++ [46]) o2 buflen in
  Some (removelast o3).

Definition IP4ADDR_STRLEN_MAX : Z := 16.
Definition ip4addr_ntoa (addr : Z) : option cstr := ip4addr_ntoa_r addr IP4ADDR_STRLEN_MAX.

(** ** Facts *)

Lemma ntoa_put_ok cs out n :
  lenz out + lenz cs <= n -> ntoa_put cs out n = Some (out ++ cs).
Proof.
  revert out. induction cs as [|c cs IH]; intros out H; simpl; [by rewrite app_nil_r|].
  rewrite lenz_cons in H. pose proof (lenz_nonneg cs).
  destruct (Z.leb_spec n (lenz out)); [lia|].
  rewrite IH; [by rewrite <- app_assoc|]. rewrite lenz_app, lenz_cons, lenz_nil. lia.
Qed.

Lemma ntoa_put_fail cs out n :
  n < lenz out + lenz cs -> lenz out <= n -> ntoa_put cs out n = None.
Proof.
  revert out. induction cs as [|c cs IH]; intros out H Ho; simpl; [rewrite lenz_nil in H; lia|].
  rewrite lenz_cons in H. destruct (Z.leb_spec n (lenz out)); [done|].
  apply IH; rewrite lenz_app, lenz_cons, lenz_nil; lia.
Qed.

(** The decimal digits of an octet: one to three, no leading zero, and they
    read back as the octet. *)
Definition octet_ok (b : nat) : bool :=
  let ds := ntoa_digits 3 (Z.of_nat b) [] in
  forallb lwip_isdigit ds && (1 <=? lenz ds) && (lenz ds <=? 3)
  && (fold_left (fun v c => u32 (v * 10 + (c - 48))) ds 0 =? Z.of_nat b)
  && (negb (chr ds =? 48) || (bool_decide (ds = [48]) && (Z.of_nat b =? 0))).

Lemma octet_table : forallb octet_ok (seq 0 256) = true.
Proof. vm_compute. reflexivity. Qed.

Lemma octet_spec b :
  is_u8 b ->
  let ds := ntoa_digits 3 b [] in
  forallb lwip_isdigit ds = true /\ 1 <= lenz ds <= 3
  /\ fold_left (fun v c => u32 (v * 10 + (c - 48))) ds 0 = b
  /\ (chr ds = 48 -> ds = [48] /\ b = 0).
Proof.
  intros Hb ds. pose proof octet_table as T. rewrite forallb_forall in T.
  specialize (T (Z.to_nat b)). rewrite in_seq in T. specialize (T ltac:(zlia)).
  unfold octet_ok in T. rewrite Z2Nat.id in T by zlia. fold ds in T. cbv zeta in T.
  apply andb_true_iff in T as [T Hz]. bprop. split_and!; [done..|].
  intros Hc. apply orb_true_iff in Hz as [Hz|Hz]; bprop; done.
Qed.

Lemma aton_digits_app ds rest v :
  forallb lwip_isdigit ds = true -> lwip_isdigit (chr rest) = false ->
  aton_digits 10 (ds ++ rest) v = (fold_left (fun v c => u32 (v * 10 + (c - 48))) ds v, rest).
Proof.
  revert v. induction ds as [|d ds IH]; intros v Hd Hr; simpl.
  - destruct rest as [|c rest]; [done|]. simpl in *. by rewrite Hr.
  - simpl in Hd. apply andb_true_iff in Hd as [Hd Hds]. rewrite Hd. simpl. by apply IH.
Qed.

Lemma aton_number_octet b rest :
  is_u8 b -> lwip_isdigit (chr rest) = false -> (chr rest =? 120) = false -> (chr rest =? 88) = false ->
  aton_number (ntoa_digits 3 b [] ++ rest) = (b, rest).
Proof.
  intros Hb Hr Hx HX. destruct (octet_spec b Hb) as (Hd & Hl & Hf & Hz).
  set (ds := ntoa_digits 3 b []) in *. clearbody ds.
  destruct ds as [|d ds]; [rewrite lenz_nil in *; lia|].
  unfold aton_number. simpl chr in *. simpl app.
  destruct (Z.eqb_spec d 48) as [->|Hd48].
  - destruct (Hz eq_refl) as [[= ->] ->]. simpl. rewrite Hx, HX. simpl.
    destruct rest as [|c rest]; [done|]. simpl in *. by rewrite Hr.
  - change (d :: ds ++ rest) with ((d :: ds) ++ rest). rewrite aton_digits_app by done. by f_equal.
Qed.

Lemma octet_head b rest : is_u8 b -> lwip_isdigit (chr (ntoa_digits 3 b [] ++ rest)) = true.
Proof.
  intros Hb. destruct (octet_spec b Hb) as (Hd & Hl & _).
  destruct (ntoa_digits 3 b []) as [|d ds]; [rewrite lenz_nil in *; lia|].
  simpl in *. by apply andb_true_iff in Hd as [-> _].
Qed.

Lemma aton_parts_octet fuel b rest parts :
  is_u8 b -> lenz parts < 3 ->
  aton_parts (S fuel) (ntoa_digits 3 b [] ++ 46 :: rest) parts = aton_parts fuel rest (parts ++ [b]).
Proof.
  intros Hb Hp. cbn [aton_parts]. rewrite octet_head by done. simpl negb. cbv iota.
  rewrite aton_number_octet by done. simpl chr. simpl tl.
  by destruct (Z.leb_spec 3 (lenz parts)); [lia|].
Qed.

Lemma aton_parts_last fuel b parts :
  is_u8 b -> aton_parts (S fuel) (ntoa_digits 3 b []) parts = Some (b, parts, []).
Proof.
  intros Hb. rewrite <- (app_nil_r (ntoa_digits 3 b [])). cbn [aton_parts].
  rewrite octet_head by done. simpl negb. cbv iota. by rewrite aton_number_octet.
Qed.

Lemma dotted_quad_value a b c d :
  is_u8 a -> is_u8 b -> is_u8 c -> is_u8 d ->
  Z.lor d (Z.lor (Z.lor (Z.shiftl a 24) (Z.shiftl b 16)) (Z.shiftl c 8)) = a * 2 ^ 24 + b * 2 ^ 16 + c * 2 ^ 8 + d.
Proof.
  unfold is_u8. intros. rewrite Z.lor_comm, <- !Z.lor_assoc.
  rewrite (lor_shiftl_add c d 8), (lor_shiftl_add b _ 16), (lor_shiftl_add a _ 24) by lia. lia.
Qed.

(** The dotted form [ip4addr_ntoa_r] writes. *)
Definition dotted (addr : Z) : cstr :=
  let octet n := ntoa_digits 3 ((addr / 2 ^ (8 * n)) mod 256) [] in
  octet 0 ++ 46 :: octet 1 ++ 46 :: octet 2 ++ 46 :: octet 3.

Lemma ip4addr_ntoa_r_dotted addr n : 16 <= n -> ip4addr_ntoa_r addr n = Some (dotted addr).
Proof.
  intros Hn. unfold ip4addr_ntoa_r, dotted.
  assert (L : forall k, 1 <= lenz (ntoa_digits 3 ((addr / 2 ^ (8 * k)) mod 256) []) <= 3)
    by (intros k; apply octet_spec; zlia).
  pose proof (L 0); pose proof (L 1); pose proof (L 2); pose proof (L 3).
  rewrite !ntoa_put_ok; autorewrite with cintr; try lia.
  rewrite !app_assoc, removelast_last. f_equal. simpl app. rewrite <- !app_assoc. done.
Qed.

(** The text form round-trips: [ip4addr_aton] reads back every address that
    [ip4addr_ntoa_r] writes, whatever follows the buffer size of 16 characters. *)
Theorem ip4addr_aton_ntoa addr n :
  is_u32 addr -> IP4ADDR_STRLEN_MAX <= n ->
  exists s, ip4addr_ntoa_r addr n = Some s /\ lenz s < IP4ADDR_STRLEN_MAX /\ ip4addr_aton s = Some addr.
Proof.
  intros Ha Hn. exists (dotted addr). unfold IP4ADDR_STRLEN_MAX in *.
  split; [by apply ip4addr_ntoa_r_dotted|].
  assert (U : forall k, is_u8 ((addr / 2 ^ (8 * k)) mod 256)) by (intros; zlia).
  split.
  - unfold dotted. autorewrite with cintr.
    pose proof (proj1 (proj2 (octet_spec _ (U 0)))); pose proof (proj1 (proj2 (octet_spec _ (U 1)))).
    pose proof (proj1 (proj2 (octet_spec _ (U 2)))); pose proof (proj1 (proj2 (octet_spec _ (U 3)))). lia.
  - unfold ip4addr_aton, dotted.
    rewrite !aton_parts_octet, aton_parts_last by (apply U || (autorewrite with cintr; lia)).
    simpl. repeat match goal with |- context [0xff <? ?x] =>
      replace (0xff <? x) with false by (symmetry; apply Z.ltb_ge; zlia) end. simpl.
    rewrite dotted_quad_value by apply U. unfold lwip_htonl. rewrite PP_HTONL_bytes by apply U.
    f_equal. zlia.
Qed.

Lemma ip4addr_aton_ntoa_witness :
  exists s, ip4addr_ntoa_r (IP4_ADDR 198 18 0 1) 16 = Some s /\ lenz s < IP4ADDR_STRLEN_MAX
            /\ ip4addr_aton s = Some (IP4_ADDR 198 18 0 1).
Proof.
  apply ip4addr_aton_ntoa.
  - vm_compute. split; [discriminate|reflexivity].
  - vm_compute. discriminate.
Defined.

Lemma land_bit h k : (Z.land h (Z.shiftl 1 (Z.of_nat k)) =? 0) = negb (Z.testbit h (Z.of_nat k)).
Proof.
  rewrite Z.shiftl_1_l. destruct (Z.testbit h (Z.of_nat k)) eqn:E; simpl.
  - apply Z.eqb_neq. intros H. apply (f_equal (fun z => Z.testbit z (Z.of_nat k))) in H.
    rewrite Z.land_spec, Z.pow2_bits_true, E, Z.bits_0 in H by lia. done.
  - apply Z.eqb_eq, Z.bits_inj'. intros i Hi. rewrite Z.land_spec, Z.bits_0, Z.pow2_bits_eqb by lia.
    destruct (Z.eqb_spec (Z.of_nat k) i) as [<-|]; [by rewrite E|by rewrite andb_false_r].
Qed.

Lemma netmask_no_ones_spec h n :
  netmask_no_ones h n = true <-> forall i, 0 <= i < Z.of_nat n -> Z.testbit h i = false.
Proof.
  induction n as [|n IH]; cbn [netmask_no_ones]; [split; intros; [lia|done]|].
  rewrite land_bit, negb_involutive. destruct (Z.testbit h (Z.of_nat n)) eqn:E.
  - split; [done|]. intros H. rewrite H in E by lia. done.
  - rewrite IH. split; intros H i Hi; [|apply H; lia].
    destruct (Z.eq_dec i (Z.of_nat n)) as [->|]; [done|apply H; lia].
Qed.

Lemma netmask_skip_ones_spec h n :
  (netmask_skip_ones h n <= n)%nat
  /\ (forall i, Z.of_nat (netmask_skip_ones h n) <= i < Z.of_nat n -> Z.testbit h i = true)
  /\ (netmask_skip_ones h n = O \/ Z.testbit h (Z.of_nat (netmask_skip_ones h n) - 1) = false).
Proof.
  induction n as [|n (I1 & I2 & I3)]; cbn [netmask_skip_ones]; [split_and!; [lia|lia|by left]|].
  rewrite land_bit. destruct (Z.testbit h (Z.of_nat n)) eqn:E; simpl negb; cbv iota.
  - split_and!; [lia| |done]. intros i Hi.
    destruct (Z.eq_dec i (Z.of_nat n)) as [->|]; [done|apply I2; lia].
  - split_and!; [lia|lia|]. right. by replace (Z.of_nat (S n) - 1) with (Z.of_nat n) by lia.
Qed.

Lemma netmask_bits h k :
  is_u32 h -> (k <= 32)%nat ->
  h = 2 ^ 32 - 2 ^ Z.of_nat k <->
  (forall i, 0 <= i < Z.of_nat k -> Z.testbit h i = false) /\ (forall i, Z.of_nat k <= i < 32 -> Z.testbit h i = true).
Proof.
  intros Hh Hk.
  replace (2 ^ 32 - 2 ^ Z.of_nat k) with (Z.shiftl (Z.ones (32 - Z.of_nat k)) (Z.of_nat k)).
  2:{ rewrite Z.shiftl_mul_pow2, Z.ones_equiv by lia.
      replace 32 with ((32 - Z.of_nat k) + Z.of_nat k) at 2 by lia. rewrite Z.pow_add_r by lia. lia. }
  split.
  - intros ->. split; intros i Hi; rewrite Z.shiftl_spec by lia.
    + by rewrite Z.testbit_neg_r by lia.
    + apply Z.ones_spec_low. lia.
  - intros [H0 H1]. apply Z.bits_inj'. intros i Hi. rewrite Z.shiftl_spec by lia.
    destruct (Z.ltb_spec i (Z.of_nat k)); [rewrite H0, Z.testbit_neg_r by lia; done|].
    destruct (Z.ltb_spec i 32); [rewrite H1, Z.ones_spec_low by lia; done|].
    rewrite Z.ones_spec_high by lia. destruct (Z.eq_dec h 0) as [->|]; [apply Z.bits_0|].
    apply Z.bits_above_log2; [zlia|]. apply Z.log2_lt_pow2; [zlia|].
    eapply Z.lt_le_trans with (2 ^ 32); [zlia|]. apply Z.pow_le_mono_r; lia.
Qed.

Lemma htonl_u32 m : is_u32 m -> is_u32 (lwip_htonl m).
Proof. intros H. unfold lwip_htonl. rewrite (u32_bytes m H), PP_HTONL_bytes; zlia. Qed.

(** A netmask is accepted exactly when, in host order, it is a run of ones
    followed by a run of zeros. *)
Theorem ip4_addr_netmask_valid_iff m :
  is_u32 m ->
  ip4_addr_netmask_valid m = true <-> exists k, (k <= 32)%nat /\ lwip_htonl m = 2 ^ 32 - 2 ^ Z.of_nat k.
Proof.
  intros Hm. pose proof (htonl_u32 m Hm) as Hh. unfold ip4_addr_netmask_valid.
  set (h := lwip_htonl m) in *. destruct (netmask_skip_ones_spec h 32) as (S1 & S2 & S3).
  set (k := netmask_skip_ones h 32) in *. rewrite netmask_no_ones_spec. split.
  - intros H. exists k. split; [done|]. apply netmask_bits; [done|done|split; [done|exact S2]].
  - intros (j & Hj & E). apply netmask_bits in E as [E0 E1]; [|done|done].
    intros i Hi. apply E0. destruct S3 as [S3|S3]; [lia|].
    destruct (Z.ltb_spec i (Z.of_nat j)); [lia|]. rewrite E1 in S3 by lia. done.
Qed.

Lemma ip4_addr_netmask_valid_iff_witness : ip4_addr_netmask_valid (IP4_ADDR 255 255 0 0) = true.
Proof.
  apply ip4_addr_netmask_valid_iff.
  - vm_compute. split; [discriminate|reflexivity].
  - exists 16%nat. split; [lia|reflexivity].
Defined.
