(* ===== verification/Opts.v ===== *)
(** * Opts: src/Sources/Lwip/custom/include/lwipopts*.h and lwip/err.h

    The compile-time configuration: the options both platforms share are
    constants, the options [lwipopts_ios.h] and [lwipopts_macos.h] set
    differently are the fields of [Opts], with one instance per platform, and
    the error codes of lwIP. *)

From S2P Require Import Prelude.

(** ** Shared options (lwipopts.h) *)
Definition TCP_MSS : Z := 1460.
Definition TCP_TMR_INTERVAL : Z := 250.
Definition TCP_MSL : Z := 15000.
Definition MEMP_NUM_TCP_PCB_LISTEN : Z := 32.
Definition TUNFORGE_NETIF_IPV4_MTU : Z := 1500.
Definition MEM_ALIGNMENT : Z := 8.

(** ** Platform options *)
Class Opts := {
  MEM_SIZE : Z;
  LWIP_WND_SCALE : bool;
  TCP_RCV_SCALE : Z;
  TCP_WND : Z;
  TCP_SND_BUF : Z;
  (** [None] where the platform does not define the macro *)
  TCP_SNDLOWAT : option Z;
  TCP_RCVLOWAT : option Z;
  MEMP_NUM_TCP_PCB : Z;
  MEMP_NUM_TCP_SEG : Z;
  PBUF_POOL_SIZE : Z;
  TCP_MAXRTX : Z;
  TCP_SYNMAXRTX : Z;
  TCP_TTL : Z;
}.

(** lwipopts_ios.h; [TCP_MAXRTX], [TCP_SYNMAXRTX] and [TCP_TTL] are the
    defaults of opt.h. *)
Definition ios : Opts := {|
  MEM_SIZE := 16 * 1024 * 1024;
  LWIP_WND_SCALE := false;
  TCP_RCV_SCALE := 0;
  TCP_WND := 32 * 1024;
  TCP_SND_BUF := 16 * 1024;
  TCP_SNDLOWAT := Some (2 * TCP_MSS);
  TCP_RCVLOWAT := None;
  MEMP_NUM_TCP_PCB := 256;
  MEMP_NUM_TCP_SEG := 1024;
  PBUF_POOL_SIZE := 512;
  TCP_MAXRTX := 12;
  TCP_SYNMAXRTX := 6;
  TCP_TTL := 255;
|}.

(** lwipopts_macos.h. *)
Definition macos : Opts := {|
  MEM_SIZE := 64 * 1024 * 1024;
  LWIP_WND_SCALE := true;
  TCP_RCV_SCALE := 4;
  TCP_WND := 65535;
  TCP_SND_BUF := 512 * 1024;
  TCP_SNDLOWAT := Some (2 * TCP_MSS);
  TCP_RCVLOWAT := Some (2 * TCP_MSS);
  MEMP_NUM_TCP_PCB := 512;
  MEMP_NUM_TCP_SEG := (512 * 1024 / TCP_MSS) * 2;
  PBUF_POOL_SIZE := 2048;
  TCP_MAXRTX := 8;
  TCP_SYNMAXRTX := 4;
  TCP_TTL := 64;
|}.

(** What the components rely on about a configuration. *)
Class OptsOk (o : Opts) := {
  tcp_wnd_range : 2 * TCP_MSS <= TCP_WND <= 65535;
  tcp_snd_buf_range : 2 * TCP_MSS <= TCP_SND_BUF < 2 ^ 32;
  tcp_snd_buf_u16 : LWIP_WND_SCALE = false -> TCP_SND_BUF <= 65535;
  tcp_rcv_scale_range : 0 <= TCP_RCV_SCALE <= 14;
  mem_size_range : 65536 <= MEM_SIZE < 2 ^ 31 /\ MEM_SIZE mod 8 = 0;
  tcp_ttl_range : 0 <= TCP_TTL <= 255;
}.

#[export] Instance ios_ok : OptsOk ios.
Proof. split; vm_compute; intuition congruence. Qed.

#[export] Instance macos_ok : OptsOk macos.
Proof. split; vm_compute; intuition congruence. Qed.

(** [TCP_SND_QUEUELEN] (lwipopts.h, derived parameters). *)
Definition TCP_SND_QUEUELEN {o : Opts} : Z := 2 * (TCP_SND_BUF / TCP_MSS).

(** ** Error codes (err.h) *)
Inductive err_t :=
  | ERR_OK | ERR_MEM | ERR_BUF | ERR_TIMEOUT | ERR_RTE | ERR_INPROGRESS | ERR_VAL
  | ERR_WOULDBLOCK | ERR_USE | ERR_ALREADY | ERR_ISCONN | ERR_CONN | ERR_IF
  | ERR_ABRT | ERR_RST | ERR_CLSD | ERR_ARG.

#[export] Instance err_t_eq_dec : EqDecision err_t.
Proof. solve_decision. Defined.

Definition err_ok (e : err_t) : bool := bool_decide (e = ERR_OK).
