(* ===== verification/Connection.v ===== *)
(** * Connection: src/Sources/TunForgeCore/TFTCPConnection.m

    One intercepted TCP connection: the Objective-C object that sits between
    lwIP's raw API (the packets queue) and the user's callbacks (the
    connections queue).  The methods and the lwIP callbacks are functions on a
    [world] that holds the object, its [TFObjectRef] bridge, the view of the
    lwIP pcb it owns, and the blocks scheduled on the two queues.

    lwIP is seen through the interface [TcpApi]; [TcpApiOk] states what the
    window accounting relies on. *)

From S2P Require Import Prelude Opts.

(** ** The lwIP interface *)

Class TcpApi := {
  (** lwIP's state for the pcb of this connection *)
  tcp : Type;
  pcb_mss : tcp -> Z;
  tcp_sndbuf : tcp -> Z;
  rcv_wnd : tcp -> Z;
  wnd_max : tcp -> Z;
  tcp_recved : tcp -> Z -> tcp;
  tcp_write : tcp -> list Z -> err_t * tcp;
  tcp_output : tcp -> tcp;
  tcp_shutdown : tcp -> bool -> bool -> tcp;
  (** the error, and whether the pcb was freed during the call *)
  tcp_close : tcp -> err_t * bool * tcp;
  tcp_abort : tcp -> tcp;
  tcp_backlog_accepted : tcp -> tcp;
}.

(** The receive window: [tcp_recved] credits it up to its maximum; sending,
    half-closing and the backlog do not touch it. *)
Class TcpApiOk (api : TcpApi) := {
  tcp_recved_wnd : forall t len, 0 <= len <= 65535 -> 0 <= rcv_wnd t <= wnd_max t ->
    rcv_wnd (tcp_recved t len) = Z.min (rcv_wnd t + len) (wnd_max t);
  tcp_recved_max : forall t len, wnd_max (tcp_recved t len) = wnd_max t;
  tcp_write_wnd : forall t d, rcv_wnd (tcp_write t d).2 = rcv_wnd t /\ wnd_max (tcp_write t d).2 = wnd_max t;
  tcp_output_wnd : forall t, rcv_wnd (tcp_output t) = rcv_wnd t /\ wnd_max (tcp_output t) = wnd_max t;
  tcp_shutdown_tx_wnd : forall t,
    rcv_wnd (tcp_shutdown t false true) = rcv_wnd t /\ wnd_max (tcp_shutdown t false true) = wnd_max t;
  tcp_backlog_accepted_wnd : forall t,
    rcv_wnd (tcp_backlog_accepted t) = rcv_wnd t /\ wnd_max (tcp_backlog_accepted t) = wnd_max t;
  (** a close that frees the pcb succeeds *)
  tcp_close_freed : forall t, (tcp_close t).1.2 = true -> (tcp_close t).1.1 = ERR_OK;
}.

(** ** Data *)

Inductive TFTCPConnectionState :=
  | TFTCPConnectionNew | TFTCPConnectionActive | TFTCPConnectionClosing | TFTCPConnectionClosed.

Inductive TFTCPConnectionTerminationReason :=
  | ReasonNone | ReasonClose | ReasonReset | ReasonAbort | ReasonDestroyed.

Inductive TFTCPWriteStatus :=
  | TFTCPWriteOK | TFTCPWriteOverflow | TFTCPWriteWouldBlock | TFTCPWriteClosed | TFTCPWriteError.

#[export] Instance state_eq_dec : EqDecision TFTCPConnectionState.
Proof. solve_decision. Defined.

#[export] Instance reason_eq_dec : EqDecision TFTCPConnectionTerminationReason.
Proof. solve_decision. Defined.

(** Which handler properties are non-nil. *)
Record handlers := mk_handlers {
  onActivated : bool; onReadable : bool; onReadableBytes : bool; onWritableChanged : bool;
  onSentBytes : bool; onReadEOF : bool; onTerminated : bool;
}.

(** The object's properties; [pcb] is a pointer, [0] for NULL. *)
Record TFTCPConnection := mk_conn {
  pcb : Z;
  newStateStartMs : Z;
  alive : bool;
  writable : bool;
  readEOF : bool;
  writeFIN : bool;
  state : TFTCPConnectionState;
  terminationReason : TFTCPConnectionTerminationReason;
  didNotifyActive : bool;
  didNotifyTerminated : bool;
  pendingClose : bool;
  recvEnabled : bool;
  inflightAckBytes : Z;
  hs : handlers;
}.

#[export] Instance eta_conn : Eta TFTCPConnection := fun c =>
  mk_conn (pcb c) (newStateStartMs c) (alive c) (writable c) (readEOF c) (writeFIN c) (state c)
    (terminationReason c) (didNotifyActive c) (didNotifyTerminated c) (pendingClose c)
    (recvEnabled c) (inflightAckBytes c) (hs c).

(** Blocks on the connections queue (one per [connectionsPerformAsync] of the
    source) and on the packets queue (the buffer release). *)
Inductive cblock :=
  | BActivated
  | BReadableBytes (p : Z) (slices : list Z) (tot : Z)
  | BReadable (data : list Z)
  | BWritable (v : bool)
  | BSent (len : Z)
  | BReadEOF
  | BTerminated (r : TFTCPConnectionTerminationReason).

Inductive pblock :=
  | PFree (p : Z).

(** A received pbuf chain: its address and the payloads of its buffers. *)
Record rpbuf := mk_rpbuf { rp : Z; rp_bufs : list (list Z) }.
Definition rp_data (p : rpbuf) : list Z := concat (rp_bufs p).
Definition rp_tot_len (p : rpbuf) : Z := u16 (lenz (rp_data p)).

Section Connection.
Context {o : Opts} {api : TcpApi}.

Record world := mk_world {
  conn : TFTCPConnection;
  (** a strong reference to the connection object exists *)
  conn_held : bool;
  (** the [TFObjectRef]: its [alive] flag, and its retain count *)
  ref_alive : bool;
  ref_rc : Z;
  (** lwIP: the pcb, whether it is allocated, whether our callbacks are set *)
  lw : tcp;
  pcb_allocated : bool;
  cb_registered : bool;
  connectionsQueue : list cblock;
  packetsQueue : list pblock;
  (** buffers handed to the user whose completion has not been called *)
  with_user : list Z;
  (** arguments of [pbuf_free], oldest first *)
  freed : list Z;
  (** a deallocated [TFObjectRef] was messaged *)
  fault : bool;
}.

#[global] Instance eta_world : Eta world := fun w =>
  mk_world (conn w) (conn_held w) (ref_alive w) (ref_rc w) (lw w) (pcb_allocated w)
    (cb_registered w) (connectionsQueue w) (packetsQueue w) (with_user w) (freed w) (fault w).

Definition upd (f : TFTCPConnection -> TFTCPConnection) (w : world) : world := w <| conn := f (conn w) |>.
Definition sched (b : cblock) (w : world) : world := w <| connectionsQueue := connectionsQueue w ++ [b] |>.
Definition pbuf_free (p : Z) (w : world) : world := w <| freed := freed w ++ [p] |>.

(** ** Helpers *)

(** [pcb->mss ?: TCP_MSS]. *)
Definition low_water (lowat : option Z) (t : tcp) : Z :=
  match lowat with Some l => l | None => 2 * (if pcb_mss t =? 0 then TCP_MSS else pcb_mss t) end.

Definition tf_tcp_write_ready (t : tcp) : bool := low_water TCP_SNDLOWAT t <=? tcp_sndbuf t.
Definition tf_tcp_read_ready (t : tcp) : bool := low_water TCP_RCVLOWAT t <=? rcv_wnd t.

(** ** Setup *)

(** The object [initWithTCPPcb:] builds, before [setupPcb]. *)
Definition initWithTCPPcb (p now : Z) (h : handlers) : TFTCPConnection := {|
  pcb := p; newStateStartMs := now; alive := true; writable := false; readEOF := false;
  writeFIN := false; state := TFTCPConnectionNew; terminationReason := ReasonNone;
  didNotifyActive := false; didNotifyTerminated := false; pendingClose := false;
  recvEnabled := false; inflightAckBytes := 0; hs := h |}.

(** [setupPcb]: a fresh [TFObjectRef] held by the object (retain count 1) and
    by the pcb's ext-arg ([retainedVoidPointer], count 2), and the callbacks. *)
Definition setupPcb (w : world) : world :=
  if pcb (conn w) =? 0 then w
  else w <| ref_alive := true |> <| ref_rc := 2 |> <| cb_registered := true |>.

Definition connect (p now : Z) (h : handlers) (t : tcp) : world :=
  setupPcb {| conn := initWithTCPPcb p now h; conn_held := true; ref_alive := false; ref_rc := 0;
              lw := t; pcb_allocated := true; cb_registered := false; connectionsQueue := [];
              packetsQueue := []; with_user := []; freed := []; fault := false |}.

(** ** Private methods *)

Definition shouldAllowRecv (w : world) : bool :=
  if negb (recvEnabled (conn w)) then false
  else if negb (alive (conn w)) || negb (bool_decide (state (conn w) = TFTCPConnectionActive)) then false
  else tf_tcp_read_ready (lw w).

(** [updateInflightAckBytes:]; the property is a [uint64_t]. *)
Definition updateInflightAckBytes (delta : Z) (w : world) : world :=
  let i := inflightAckBytes (conn w) in
  if 0 <=? delta then upd (fun c => c <| inflightAckBytes := u64 (i + delta) |>) w
  else let dec := - delta in
       upd (fun c => c <| inflightAckBytes := if i <=? dec then 0 else i - dec |>) w.

Definition clearCallbackLocked (w : world) : world :=
  let w := if pcb (conn w) =? 0 then w else w <| cb_registered := false |> in
  w <| ref_alive := false |>.

Definition terminateLocked (reason : TFTCPConnectionTerminationReason) (w : world) : world :=
  if didNotifyTerminated (conn w) then w
  else
    let w := upd (fun c => c <| didNotifyTerminated := true |>) w in
    let w := if pcb (conn w) =? 0 then w else clearCallbackLocked w in
    let w := upd (fun c => c <| alive := false |> <| state := TFTCPConnectionClosed |>
                             <| terminationReason := reason |> <| pendingClose := false |>) w in
    if onTerminated (hs (conn w)) then sched (BTerminated reason) w else w.

Definition notifyActiveOnceLocked (w : world) : world :=
  if didNotifyActive (conn w) then w
  else
    let w := upd (fun c => c <| didNotifyActive := true |>) w in
    if onActivated (hs (conn w)) then sched BActivated w else w.

Definition updateWritableLocked (newValue : bool) (w : world) : world :=
  if Bool.eqb (writable (conn w)) newValue then w
  else
    let w := upd (fun c => c <| writable := newValue |>) w in
    if onWritableChanged (hs (conn w)) then sched (BWritable newValue) w else w.

Definition handlePeerFINLocked (w : world) : world :=
  if readEOF (conn w) then w
  else
    let w := upd (fun c => c <| readEOF := true |>) w in
    if onReadEOF (hs (conn w)) then sched BReadEOF w else w.

Definition receivedPcbDestroyed (w : world) : world :=
  if didNotifyTerminated (conn w) then w
  else terminateLocked ReasonDestroyed (upd (fun c => c <| pcb := 0 |>) w).

(** [ref.object]: the weak reference is cleared by [invalidate] and when the
    connection object is gone. *)
Definition ref_object (w : world) : bool := ref_alive w && conn_held w.

(** [tf_tcp_extarg_destroy], called from [tcp_free] with the retained pointer. *)
Definition tf_tcp_extarg_destroy (w : world) : world :=
  let obj := ref_object w in
  let w := w <| ref_alive := false |> in
  let w := if obj then receivedPcbDestroyed w else w in
  w <| ref_rc := ref_rc w - 1 |>.

(** [tcp_free]: the ext-arg callback, then the pcb goes back to its pool. *)
Definition tcp_free (w : world) : world :=
  (tf_tcp_extarg_destroy w) <| pcb_allocated := false |> <| cb_registered := false |>.

(** [abortLocked:]; the callbacks are cleared first, so that [tcp_abort] finds
    no error callback to invoke. *)
Definition abortLocked (reason : TFTCPConnectionTerminationReason) (w : world) : world :=
  if negb (alive (conn w)) then w
  else if bool_decide (state (conn w) = TFTCPConnectionClosed) then w
  else
    let w := upd (fun c => c <| state := TFTCPConnectionClosing |>) w in
    let w :=
      if pcb (conn w) =? 0 then w
      else
        let w := clearCallbackLocked w in
        let w := upd (fun c => c <| pcb := 0 |>) w in
        tcp_free (w <| lw := tcp_abort (lw w) |>) in
    terminateLocked reason w.

Definition tryGracefulCloseLocked (w : world) : world :=
  if negb (alive (conn w)) || bool_decide (state (conn w) = TFTCPConnectionClosed) then w
  else if pcb (conn w) =? 0 then terminateLocked ReasonClose w
  else
    let w := upd (fun c => c <| state := TFTCPConnectionClosing |>) w in
    let '(err, was_freed, t) := tcp_close (lw w) in
    let w := w <| lw := t |> in
    let w := if was_freed then tcp_free w else w in
    match err with
    | ERR_OK => terminateLocked ReasonClose (upd (fun c => c <| pcb := 0 |> <| pendingClose := false |>) w)
    | ERR_MEM => upd (fun c => c <| pendingClose := true |>) w
    | _ => abortLocked ReasonAbort w
    end.

(** ** Public methods *)

Definition markActive (w : world) : world :=
  if negb (alive (conn w)) || (pcb (conn w) =? 0) then w
  else if negb (bool_decide (state (conn w) = TFTCPConnectionNew)) then w
  else
    let w := upd (fun c => c <| state := TFTCPConnectionActive |>) w in
    notifyActiveOnceLocked (w <| lw := tcp_backlog_accepted (lw w) |>).

Definition setInboundDeliveryEnabled (enabled : bool) (w : world) : world :=
  if Bool.eqb (recvEnabled (conn w)) enabled then w
  else upd (fun c => c <| recvEnabled := enabled |>) w.

(** The credit loop of [acknowledgeDeliveredBytes:]: chunks of at most
    [UINT16_MAX]. *)
Fixpoint credit_loop (fuel : nat) (remaining : Z) (t : tcp) : option tcp :=
  if remaining <=? 0 then Some t
  else match fuel with
       | O => None
       | S fuel => let chunk := u16 (Z.min remaining 65535) in
                   credit_loop fuel (remaining - chunk) (tcp_recved t chunk)
       end.

Definition credit_fuel (credit : Z) : nat := S (Z.to_nat (credit / 65535)).

Definition acknowledgeDeliveredBytes (bytes : Z) (w : world) : world :=
  if negb (alive (conn w)) || (pcb (conn w) =? 0) then w
  else if negb (bool_decide (state (conn w) = TFTCPConnectionActive)) then w
  else if (bytes =? 0) || (inflightAckBytes (conn w) =? 0) then w
  else
    let credit := Z.min bytes (inflightAckBytes (conn w)) in
    match credit_loop (credit_fuel credit) credit (lw w) with
    | Some t => updateInflightAckBytes (- credit) (w <| lw := t |>)
    | None => w
    end.

(** [writeBytes:length:] with the bytes as a list ([[]] for NULL or length 0). *)
Definition writeBytes (data : list Z) (w : world) : Z * TFTCPWriteStatus * world :=
  let length := lenz data in
  if length =? 0 then (0, TFTCPWriteOverflow, w)
  else if 65535 <? length then (0, TFTCPWriteOverflow, w)
  else if negb (alive (conn w)) || (pcb (conn w) =? 0)
          || negb (bool_decide (state (conn w) = TFTCPConnectionActive)) || writeFIN (conn w)
  then (0, TFTCPWriteClosed, w)
  else
    let '(err, t) := tcp_write (lw w) data in
    let w := w <| lw := t |> in
    match err with
    | ERR_OK => let w := w <| lw := tcp_output (lw w) |> in
                (length, TFTCPWriteOK, updateWritableLocked (tf_tcp_write_ready (lw w)) w)
    | ERR_MEM => (0, TFTCPWriteWouldBlock, updateWritableLocked false w)
    | _ => (0, TFTCPWriteError, abortLocked ReasonAbort w)
    end.

Definition writeData (data : list Z) (w : world) : Z * TFTCPWriteStatus * world :=
  if 65535 <? lenz data then (0, TFTCPWriteOverflow, w) else writeBytes data w.

Definition shutdownWrite (w : world) : world :=
  if negb (alive (conn w)) || (pcb (conn w) =? 0) then w
  else if bool_decide (state (conn w) = TFTCPConnectionClosed) then w
  else if writeFIN (conn w) then w
  else
    let w := upd (fun c => c <| writeFIN := true |>) w in
    w <| lw := tcp_output (tcp_shutdown (lw w) false true) |>.

Definition gracefulClose (w : world) : world :=
  if negb (alive (conn w)) then w
  else if pcb (conn w) =? 0 then terminateLocked ReasonClose w
  else tryGracefulCloseLocked w.

Definition abort (w : world) : world := abortLocked ReasonAbort w.

(** ** lwIP callbacks *)

(** [tf_conn_from_arg]: messaging the bridge object is a fault once its retain
    count is 0; otherwise the connection, if the bridge is still alive. *)
Definition tf_conn_from_arg (w : world) : bool * world :=
  if ref_rc w <=? 0 then (false, w <| fault := true |>)
  else (ref_alive w && ref_object w, w).

(** The guard [!conn || !conn.alive || conn.pcb != pcb] of the callbacks. *)
Definition tf_conn_ok (p : Z) (w : world) : bool * world :=
  let '(c, w) := tf_conn_from_arg w in
  (c && alive (conn w) && (pcb (conn w) =? p), w).

(** [tf_tcp_recv]; [None] is the NULL pbuf of a FIN, [malloc_ok] the result of
    the allocation of the slice array or copy. *)
Definition tf_tcp_recv (lpcb : Z) (p : option rpbuf) (err : err_t) (malloc_ok : bool) (w : world)
  : err_t * world :=
  let free_opt w := match p with Some p => pbuf_free (rp p) w | None => w end in
  let '(ok, w) := tf_conn_ok lpcb w in
  if negb ok then (ERR_OK, free_opt w)
  else if negb (err_ok err) then (ERR_OK, abortLocked ReasonAbort (free_opt w))
  else
    match p with
    | None => (ERR_OK, handlePeerFINLocked w)
    | Some p =>
        let tot := rp_tot_len p in
        if tot =? 0 then (ERR_OK, pbuf_free (rp p) w)
        else if negb (shouldAllowRecv w) then (ERR_MEM, w)
        else
          let w := updateInflightAckBytes tot w in
          if onReadableBytes (hs (conn w)) then
            if negb malloc_ok then (ERR_OK, pbuf_free (rp p) w)
            else (ERR_OK, sched (BReadableBytes (rp p) (map lenz (rp_bufs p)) tot) w)
          else if onReadable (hs (conn w)) then
            if negb malloc_ok then (ERR_OK, pbuf_free (rp p) w)
            else
              let data := takez tot (rp_data p) in
              let w := pbuf_free (rp p) w in
              let w := acknowledgeDeliveredBytes tot w in
              (ERR_OK, sched (BReadable data) w)
          else (ERR_OK, pbuf_free (rp p) (w <| lw := tcp_recved (lw w) tot |>))
    end.

Definition tf_tcp_sent (lpcb len : Z) (w : world) : world :=
  let '(ok, w) := tf_conn_ok lpcb w in
  if negb ok then w
  else
    let w := updateWritableLocked (tf_tcp_write_ready (lw w)) w in
    if onSentBytes (hs (conn w)) then sched (BSent len) w else w.

Definition kTCPNewStateRejectTimeoutMs : Z := 10000.

Definition tf_tcp_poll (lpcb now : Z) (w : world) : world :=
  let '(ok, w) := tf_conn_ok lpcb w in
  if negb ok then w
  else if bool_decide (state (conn w) = TFTCPConnectionNew)
          && (kTCPNewStateRejectTimeoutMs <=? u32 (now - newStateStartMs (conn w)))
  then abortLocked ReasonAbort w
  else
    let w := updateWritableLocked (tf_tcp_write_ready (lw w)) w in
    if pendingClose (conn w) then tryGracefulCloseLocked w else w.

Definition tf_tcp_err (err : err_t) (w : world) : world :=
  let '(c, w) := tf_conn_from_arg w in
  if negb (c && alive (conn w)) then w
  else
    let w := upd (fun c => c <| pcb := 0 |>) w in
    terminateLocked (if bool_decide (err = ERR_RST) then ReasonReset else ReasonAbort) w.

(** ** How lwIP ends a pcb

    [tcp_abandon] and the removal in [tcp_slowtmr] (tcp.c) read the error
    callback, free the pcb and then report [ERR_ABRT]; [tcp_input] (tcp_in.c)
    reports [ERR_RST] or [ERR_CLSD] first and then frees the pcb. *)
Definition lwip_abandon (w : world) : world :=
  let had := cb_registered w in
  let w := tcp_free w in
  if had then tf_tcp_err ERR_ABRT w else w.

Definition lwip_input_err (e : err_t) (w : world) : world :=
  let w := if cb_registered w then tf_tcp_err e w else w in
  tcp_free w.

(** ** The connections queue *)

(** What the user's handlers see. *)
Inductive uevent :=
  | UActivated
  | UReadableBytes (p : Z) (slices : list Z) (tot : Z)
  | UReadable (data : list Z)
  | UWritable (v : bool)
  | USent (len : Z)
  | UReadEOF
  | UTerminated (r : TFTCPConnectionTerminationReason).

(** Running a block: the weak reference must still give an object, and every
    handler but the termination handler also requires [alive]. *)
Definition run_block (b : cblock) (w : world) : option uevent * world :=
  let ok := conn_held w && alive (conn w) in
  match b with
  | BActivated => (if ok then Some UActivated else None, w)
  | BReadableBytes p s t =>
      if ok then (Some (UReadableBytes p s t), w <| with_user := with_user w ++ [p] |>)
      else (None, w <| packetsQueue := packetsQueue w ++ [PFree p] |>)
  | BReadable d => (if ok then Some (UReadable d) else None, w)
  | BWritable v => (if ok then Some (UWritable v) else None, w)
  | BSent n => (if ok then Some (USent n) else None, w)
  | BReadEOF => (if ok then Some UReadEOF else None, w)
  | BTerminated r => (if conn_held w then Some (UTerminated r) else None, w)
  end.

(** Drop the first occurrence. *)
Fixpoint remove1 (p : Z) (l : list Z) : list Z :=
  match l with
  | [] => []
  | x :: l => if x =? p then l else x :: remove1 p l
  end.

(** The [completion] block of a buffer the user holds. *)
Definition completion (p : Z) (w : world) : world :=
  w <| with_user := remove1 p (with_user w) |> <| packetsQueue := packetsQueue w ++ [PFree p] |>.

Definition run_pblock (b : pblock) (w : world) : world :=
  match b with PFree p => pbuf_free p w end.

(** ** Event sequences

    The calls the environment can make: the user's method calls (while the
    user holds the object), lwIP's callbacks (while the pcb is allocated and
    the callbacks are set), lwIP's own processing, and the queues. *)
Inductive event :=
  | EMarkActive
  | ESetInbound (b : bool)
  | EAck (n : Z)
  | EWrite (data : list Z)
  | EShutdownWrite
  | EGracefulClose
  | EAbort
  | EHandlers (h : handlers)
  | ERelease
  | ERecv (p : option rpbuf) (err : err_t) (malloc_ok : bool)
  | ESent (len : Z)
  | EPoll (now : Z)
  | EAbandon
  | EInputErr (e : err_t)
  | EFree
  | ELwip (t : tcp)
  | ERunBlock
  | ECompletion (p : Z)
  | ERunPackets.

(** The last strong reference to the connection object is dropped: it releases
    its [pcbRef]. *)
Definition release_conn (w : world) : world := w <| conn_held := false |> <| ref_rc := ref_rc w - 1 |>.

Definition user (w : world) (r : world) : option (option uevent * world) :=
  if conn_held w then Some (None, r) else None.

Definition lwip_cb (w : world) (r : world) : option (option uevent * world) :=
  if pcb_allocated w && cb_registered w then Some (None, r) else None.

(** [P] is the address of the pcb. *)
Definition exec (P : Z) (e : event) (w : world) : option (option uevent * world) :=
  match e with
  | EMarkActive => user w (markActive w)
  | ESetInbound b => user w (setInboundDeliveryEnabled b w)
  | EAck n => if 0 <=? n then user w (acknowledgeDeliveredBytes n w) else None
  | EWrite d => user w (writeData d w).2
  | EShutdownWrite => user w (shutdownWrite w)
  | EGracefulClose => user w (gracefulClose w)
  | EAbort => user w (abort w)
  | EHandlers h => user w (upd (fun c => c <| hs := h |>) w)
  | ERelease => user w (release_conn w)
  | ERecv p err m => lwip_cb w (tf_tcp_recv P p err m w).2
  | ESent n => lwip_cb w (tf_tcp_sent P n w)
  | EPoll now => lwip_cb w (tf_tcp_poll P now w)
  | EAbandon => if pcb_allocated w then Some (None, lwip_abandon w) else None
  | EInputErr e => if pcb_allocated w then Some (None, lwip_input_err e w) else None
  | EFree => if pcb_allocated w then Some (None, tcp_free w) else None
  | ELwip t => if pcb_allocated w then Some (None, w <| lw := t |>) else None
  | ERunBlock => match connectionsQueue w with
                 | b :: q => Some (run_block b (w <| connectionsQueue := q |>))
                 | [] => None
                 end
  | ECompletion p => if bool_decide (p ∈ with_user w) then Some (None, completion p w) else None
  | ERunPackets => match packetsQueue w with
                   | b :: q => Some (None, run_pblock b (w <| packetsQueue := q |>))
                   | [] => None
                   end
  end.

(** Running a sequence of events collects what the user's handlers saw. *)
Fixpoint run (P : Z) (es : list event) (w : world) : option (list uevent * world) :=
  match es with
  | [] => Some ([], w)
  | e :: es =>
      let? (u, w) := exec P e w in
      let? (us, w) := run P es w in
      Some (match u with Some u => u :: us | None => us end, w)
  end.

End Connection.
