(* ===== verification/ConnectionFacts.v ===== *)
(** * ConnectionFacts: properties of one connection

    The life-cycle invariant and that every event preserves it, at-most-once
    notification, silence after termination, ownership of received buffers,
    the accounting of the receive window, and the outcome of each operation. *)

From S2P Require Import Prelude Opts Connection.

Section ConnectionFacts.
Context {o : Opts} {api : TcpApi} {apiok : TcpApiOk api}.
Implicit Types w : world.

(** ** The life-cycle invariant *)

Record wf (P : Z) (w : world) : Prop := mk_wf {
  wf_term : alive (conn w) = negb (didNotifyTerminated (conn w));
  wf_dead : alive (conn w) = false ->
    state (conn w) = TFTCPConnectionClosed /\ pcb (conn w) = 0 /\ pendingClose (conn w) = false;
  wf_alive : alive (conn w) = true -> state (conn w) <> TFTCPConnectionClosed;
  wf_reason : terminationReason (conn w) = ReasonNone <-> alive (conn w) = true;
  wf_pend : pendingClose (conn w) = true -> state (conn w) = TFTCPConnectionClosing;
  wf_pcb : pcb (conn w) <> 0 -> conn_held w = true ->
    pcb (conn w) = P /\ pcb_allocated w = true /\ cb_registered w = true /\ ref_alive w = true;
  wf_rc : ref_rc w = b2z (conn_held w) + b2z (pcb_allocated w);
  wf_fault : conn_held w = true -> fault w = false;
  wf_inflight : 0 <= inflightAckBytes (conn w);
}.

Ltac wsimpl := cbn [conn conn_held ref_alive ref_rc lw pcb_allocated cb_registered connectionsQueue packetsQueue
  with_user freed fault pcb newStateStartMs alive writable readEOF writeFIN state terminationReason didNotifyActive
  didNotifyTerminated pendingClose recvEnabled inflightAckBytes hs fst snd setf upd sched negb andb orb pbuf_free
  release_conn].

Ltac wf_solve :=
  constructor; wsimpl; try assumption; intros; simplify_eq; try (intuition (congruence || lia)).

(** Two worlds that agree on what [wf] reads. *)
Definition same_core (w w' : world) : Prop :=
  alive (conn w) = alive (conn w') /\ didNotifyTerminated (conn w) = didNotifyTerminated (conn w')
  /\ state (conn w) = state (conn w') /\ pcb (conn w) = pcb (conn w') /\ pendingClose (conn w) = pendingClose (conn w')
  /\ terminationReason (conn w) = terminationReason (conn w') /\ conn_held w = conn_held w'
  /\ pcb_allocated w = pcb_allocated w' /\ cb_registered w = cb_registered w' /\ ref_alive w = ref_alive w'
  /\ ref_rc w = ref_rc w' /\ fault w = fault w' /\ inflightAckBytes (conn w) = inflightAckBytes (conn w').

Lemma wf_same P w w' : same_core w w' -> wf P w -> wf P w'.
Proof.
  intros (E1 & E2 & E3 & E4 & E5 & E6 & E7 & E8 & E9 & E10 & E11 & E12 & E13) [].
  constructor; rewrite <- ?E1, <- ?E2, <- ?E3, <- ?E4, <- ?E5, <- ?E6, <- ?E7, <- ?E8, <- ?E9, <- ?E10, <- ?E11, <- ?E12, <- ?E13;
    assumption.
Qed.

Lemma same_core_refl w : same_core w w.
Proof. by repeat split. Qed.

Lemma same_core_trans w1 w2 w3 : same_core w1 w2 -> same_core w2 w3 -> same_core w1 w3.
Proof. unfold same_core. intuition congruence. Qed.

Ltac same := repeat (case_match; [|] || case_match); by repeat split.

Lemma updateWritableLocked_core b w : same_core w (updateWritableLocked b w).
Proof. unfold updateWritableLocked. same. Qed.

Lemma notifyActiveOnceLocked_core w : same_core w (notifyActiveOnceLocked w).
Proof. unfold notifyActiveOnceLocked. same. Qed.

Lemma handlePeerFINLocked_core w : same_core w (handlePeerFINLocked w).
Proof. unfold handlePeerFINLocked. same. Qed.

Lemma sched_core b w : same_core w (sched b w).
Proof. by repeat split. Qed.

Lemma pbuf_free_core p w : same_core w (pbuf_free p w).
Proof. by repeat split. Qed.

Lemma lw_core t w : same_core w (w <| lw := t |>).
Proof. by repeat split. Qed.

Lemma terminateLocked_wf P r w :
  wf P w -> pcb (conn w) = 0 -> r <> ReasonNone -> wf P (terminateLocked r w).
Proof.
  intros W Hp Hr. unfold terminateLocked.
  destruct (didNotifyTerminated (conn w)) eqn:E; [done|]. destruct W.
  wsimpl. rewrite Hp. wsimpl. change (0 =? 0) with true. cbv iota. wsimpl.
  destruct (onTerminated _); wf_solve.
Qed.

Lemma abortLocked_wf P r w :
  wf P w -> conn_held w = true -> r <> ReasonNone -> wf P (abortLocked r w).
Proof.
  intros W Hh Hr. unfold abortLocked. destruct (alive (conn w)) eqn:Ea; [|done]. cbn [negb].
  destruct (bool_decide (state (conn w) = TFTCPConnectionClosed)) eqn:Es; [done|]. bprop.
  apply terminateLocked_wf; [| |done]; wsimpl; destruct (pcb (conn w) =? 0) eqn:Ep; bprop; try done.
  - destruct W. wf_solve.
  - unfold clearCallbackLocked, tcp_free, tf_tcp_extarg_destroy, ref_object. wsimpl.
    apply Z.eqb_neq in Ep as Ep'. rewrite Ep'. wsimpl. destruct W.
    destruct (wf_pcb0 Ep Hh) as (? & Hal & ? & ?). wf_solve. rewrite Hh, Hal in *. unfold b2z in *. lia.
Qed.

Lemma wf_notified P w : wf P w -> didNotifyTerminated (conn w) = true -> pcb (conn w) = 0.
Proof. intros [] Ht. rewrite Ht in *. by apply wf_dead0. Qed.

Lemma tcp_free_wf P w : wf P w -> pcb_allocated w = true -> wf P (tcp_free w).
Proof.
  intros W Ha. unfold tcp_free, tf_tcp_extarg_destroy, ref_object, receivedPcbDestroyed.
  assert (Hrc : ref_rc w = b2z (conn_held w) + 1) by (by rewrite (wf_rc _ _ W), Ha).
  destruct (ref_alive w && conn_held w) eqn:E; wsimpl.
  - apply andb_true_iff in E as [Hr Hh].
    destruct (didNotifyTerminated (conn w)) eqn:Et.
    + pose proof (wf_notified _ _ W Et). destruct W. wf_solve; change (b2z false) with 0; lia.
    + unfold terminateLocked. wsimpl. rewrite Et. change (0 =? 0) with true. cbv iota. wsimpl.
      destruct W. destruct (onTerminated (hs (conn w))); wf_solve; change (b2z false) with 0; lia.
  - destruct W. apply andb_false_iff in E. wf_solve; change (b2z false) with 0; lia.
Qed.

Lemma tcp_free_held w : conn_held (tcp_free w) = conn_held w.
Proof.
  unfold tcp_free, tf_tcp_extarg_destroy, receivedPcbDestroyed, terminateLocked, clearCallbackLocked.
  by repeat case_match.
Qed.

Lemma tcp_free_pcb P w :
  wf P w -> conn_held w = true -> pcb_allocated w = true -> pcb (conn (tcp_free w)) = 0.
Proof.
  intros W Hh Ha. destruct (decide (pcb (conn (tcp_free w)) = 0)) as [|Hne]; [done|].
  pose proof (tcp_free_wf P w W Ha) as W'. rewrite <- tcp_free_held in Hh.
  destruct (wf_pcb _ _ W' Hne Hh) as (_ & Hf & _). unfold tcp_free in Hf. by cbn in Hf.
Qed.

Lemma tryGracefulCloseLocked_wf P w :
  wf P w -> conn_held w = true -> wf P (tryGracefulCloseLocked w).
Proof.
  intros W Hh. unfold tryGracefulCloseLocked.
  destruct (alive (conn w)) eqn:Ea; [|done]. cbn [negb orb].
  destruct (bool_decide (state (conn w) = TFTCPConnectionClosed)) eqn:Es; [done|].
  destruct (pcb (conn w) =? 0) eqn:Ep; bprop; [by apply terminateLocked_wf|].
  destruct (wf_pcb _ _ W Ep Hh) as (HP & Hal & Hcb & Hra).
  set (w1 := upd _ w).
  assert (W1 : wf P w1) by (subst w1; destruct W; wf_solve).
  pose proof (tcp_close_freed (lw w1)) as Hfr.
  destruct (tcp_close (lw w1)) as [[err fr] t]. cbn [fst snd] in Hfr.
  set (w2 := w1 <| lw := t |>).
  assert (W2 : wf P w2) by (eapply wf_same; [apply lw_core|done]).
  set (w3 := if fr then tcp_free w2 else w2).
  assert (W3 : wf P w3) by (subst w3; destruct fr; [by apply tcp_free_wf|done]).
  assert (H3 : conn_held w3 = true) by (subst w3; destruct fr; [by rewrite tcp_free_held|done]).
  destruct err; try (by apply abortLocked_wf).
  - apply terminateLocked_wf; [|done|done]. destruct W3. wf_solve.
  - destruct fr; [by specialize (Hfr eq_refl)|]. subst w3 w2 w1. destruct W. wf_solve.
Qed.

Lemma updateInflight_wf P d w : wf P w -> wf P (updateInflightAckBytes d w).
Proof.
  intros []. unfold updateInflightAckBytes.
  destruct (Z.leb_spec 0 d); [|destruct (Z.leb_spec (inflightAckBytes (conn w)) (- d))]; wf_solve.
  unfold u64. lia.
Qed.

Lemma acknowledgeDeliveredBytes_wf P n w : wf P w -> wf P (acknowledgeDeliveredBytes n w).
Proof.
  intros W. unfold acknowledgeDeliveredBytes. repeat (case_match; [done|]). case_match; [|done].
  apply updateInflight_wf. eapply wf_same; [apply lw_core|done].
Qed.

Lemma markActive_wf P w : wf P w -> wf P (markActive w).
Proof.
  intros W. unfold markActive.
  destruct (alive (conn w)) eqn:Ea; [|done]. cbn [negb orb].
  destruct (pcb (conn w) =? 0); [done|].
  destruct (bool_decide (state (conn w) = TFTCPConnectionNew)) eqn:Es; [|done]. cbn [negb]. bprop.
  eapply wf_same; [apply notifyActiveOnceLocked_core|]. destruct W. wf_solve.
Qed.

Lemma writeBytes_wf P d w : wf P w -> conn_held w = true -> wf P (writeBytes d w).2.
Proof.
  intros W Hh. unfold writeBytes. do 3 (case_match; [done|]).
  destruct (tcp_write (lw w) d) as [err t].
  assert (W' : wf P (w <| lw := t |>)) by (eapply wf_same; [apply lw_core|done]).
  case_match; cbn [snd]; try (by apply abortLocked_wf);
    (eapply wf_same; [apply updateWritableLocked_core|]); [|done].
  eapply wf_same; [apply lw_core|done].
Qed.

Lemma shutdownWrite_wf P w : wf P w -> wf P (shutdownWrite w).
Proof. intros W. unfold shutdownWrite. repeat (case_match; [done|]). destruct W. wf_solve. Qed.

(** The callbacks' guard: lwIP's argument is messaged safely while the pcb is
    allocated, and a positive answer means the object is live and held. *)
Lemma tf_conn_from_arg_ok P w :
  wf P w -> pcb_allocated w = true -> tf_conn_from_arg w = (ref_alive w && ref_object w, w).
Proof.
  intros W Ha. unfold tf_conn_from_arg. pose proof (wf_rc _ _ W) as Hrc. rewrite Ha in Hrc.
  destruct (Z.leb_spec (ref_rc w) 0); [|done]. unfold b2z in *. by case_match; lia.
Qed.

Lemma tf_conn_ok_spec P w :
  wf P w -> pcb_allocated w = true ->
  exists b, tf_conn_ok P w = (b, w)
  /\ (b = true -> conn_held w = true /\ alive (conn w) = true /\ pcb (conn w) = P).
Proof.
  intros W Ha. unfold tf_conn_ok. rewrite (tf_conn_from_arg_ok P) by done. eexists. split; [done|].
  unfold ref_object. intros H. bprop. done.
Qed.

Lemma tf_tcp_err_wf P e w : wf P w -> wf P (tf_tcp_err e w).
Proof.
  intros W. unfold tf_tcp_err, tf_conn_from_arg. pose proof (wf_rc _ _ W) as Hrc. destruct (Z.leb_spec (ref_rc w) 0) as [Hz|Hz].
  - cbn [andb negb]. assert (Hh : conn_held w = false) by (unfold b2z in *; repeat case_match; (done || lia)).
    destruct W. constructor; wsimpl; try assumption. congruence.
  - case_match; [done|]. bprop. apply terminateLocked_wf; [|done|by case_match]. destruct W. wf_solve.
Qed.

Lemma tf_tcp_recv_wf P p err m w :
  wf P w -> pcb_allocated w = true -> wf P (tf_tcp_recv P p err m w).2.
Proof.
  intros W Ha. unfold tf_tcp_recv. destruct (tf_conn_ok_spec P w W Ha) as (b & -> & Hb).
  assert (F : forall q v, wf P v -> wf P (pbuf_free q v)) by (intros; eapply wf_same; [apply pbuf_free_core|done]).
  assert (S : forall q v, wf P v -> wf P (sched q v)) by (intros; eapply wf_same; [apply sched_core|done]).
  destruct b; cbn [negb]; [|destruct p; cbn [snd]; auto].
  destruct (Hb eq_refl) as (Hh & _ & _).
  destruct (negb (err_ok err)).
  - cbn [snd]. destruct p; apply abortLocked_wf; auto.
  - destruct p as [q|]; [|cbn [snd]; eapply wf_same; [apply handlePeerFINLocked_core|done]].
    assert (W' : wf P (updateInflightAckBytes (rp_tot_len q) w)) by (by apply updateInflight_wf).
    repeat case_match; cbn [snd]; auto using acknowledgeDeliveredBytes_wf.
    apply F. eapply wf_same; [apply lw_core|done].
Qed.

Lemma tf_tcp_sent_wf P n w : wf P w -> pcb_allocated w = true -> wf P (tf_tcp_sent P n w).
Proof.
  intros W Ha. unfold tf_tcp_sent. destruct (tf_conn_ok_spec P w W Ha) as (b & -> & Hb).
  destruct b; cbn [negb]; [|done].
  assert (wf P (updateWritableLocked (tf_tcp_write_ready (lw w)) w))
    by (eapply wf_same; [apply updateWritableLocked_core|done]).
  case_match; [|done]. eapply wf_same; [apply sched_core|done].
Qed.

Lemma tf_tcp_poll_wf P now w : wf P w -> pcb_allocated w = true -> wf P (tf_tcp_poll P now w).
Proof.
  intros W Ha. unfold tf_tcp_poll. destruct (tf_conn_ok_spec P w W Ha) as (b & -> & Hb).
  destruct b; cbn [negb]; [|done]. destruct (Hb eq_refl) as (Hh & _ & _).
  case_match; [by apply abortLocked_wf|].
  pose proof (updateWritableLocked_core (tf_tcp_write_ready (lw w)) w) as C.
  assert (W' : wf P (updateWritableLocked (tf_tcp_write_ready (lw w)) w)) by (by eapply wf_same).
  case_match; [|done]. apply tryGracefulCloseLocked_wf; [done|].
  destruct C as (_ & _ & _ & _ & _ & _ & <- & _). done.
Qed.

Lemma lwip_abandon_wf P w : wf P w -> pcb_allocated w = true -> wf P (lwip_abandon w).
Proof.
  intros W Ha. unfold lwip_abandon. case_match; [|by apply tcp_free_wf]. by apply tf_tcp_err_wf, tcp_free_wf.
Qed.

Lemma tf_tcp_err_alloc e w : pcb_allocated (tf_tcp_err e w) = pcb_allocated w.
Proof.
  unfold tf_tcp_err, tf_conn_from_arg, terminateLocked, clearCallbackLocked.
  by repeat (case_match; simplify_eq).
Qed.

Lemma lwip_input_err_wf P e w : wf P w -> pcb_allocated w = true -> wf P (lwip_input_err e w).
Proof.
  intros W Ha. unfold lwip_input_err. case_match; [|by apply tcp_free_wf].
  apply tcp_free_wf; [apply tf_tcp_err_wf; auto|by rewrite tf_tcp_err_alloc].
Qed.

Lemma exec_wf P e w u w' : wf P w -> exec P e w = Some (u, w') -> wf P w'.
Proof.
  intros W. unfold exec, user, lwip_cb.
  assert (S : forall v, same_core w v -> wf P v) by (intros; by eapply wf_same).
  destruct e; repeat (case_match; simplify_eq; try done); intros; simplify_eq; bprop.
  - by apply markActive_wf.
  - apply S. unfold setInboundDeliveryEnabled. same.
  - by apply acknowledgeDeliveredBytes_wf.
  - unfold writeData. case_match; [done|]. by apply writeBytes_wf.
  - by apply shutdownWrite_wf.
  - unfold gracefulClose. repeat (case_match; bprop; try done).
    + by apply terminateLocked_wf.
    + by apply tryGracefulCloseLocked_wf.
  - by apply abortLocked_wf.
  - apply S. by repeat split.
  - destruct W. wf_solve; try lia. rewrite H in *. change (b2z true) with 1 in *. change (b2z false) with 0. lia.
  - by apply tf_tcp_recv_wf.
  - by apply tf_tcp_sent_wf.
  - by apply tf_tcp_poll_wf.
  - by apply lwip_abandon_wf.
  - by apply lwip_input_err_wf.
  - by apply tcp_free_wf.
  - by apply S.
  - apply S. destruct c; cbn in *; unfold run_block in *; repeat case_match; simplify_eq; by repeat split.
  - by apply S.
  - apply S. destruct p. by repeat split.
Qed.

Lemma run_cons P e es w us w' :
  run P (e :: es) w = Some (us, w') ->
  exists u v us', exec P e w = Some (u, v) /\ run P es v = Some (us', w')
                  /\ us = match u with Some u => u :: us' | None => us' end.
Proof.
  cbn [run]. destruct (exec P e w) as [[u v]|]; [|done].
  destruct (run P es v) as [[us' v']|] eqn:E; [|done]. intros [= <- <-]. eauto 6.
Qed.

Lemma connect_wf P now h t : P <> 0 -> wf P (connect P now h t).
Proof.
  intros HP. unfold connect, setupPcb, initWithTCPPcb. wsimpl. apply Z.eqb_neq in HP as HP'. rewrite HP'. wf_solve.
Qed.

(** C16: the life-cycle invariant holds after every sequence of user calls,
    lwIP callbacks, ways in which lwIP ends the pcb, and queue steps: the object
    is alive exactly until its one termination, [Closed] means terminated, a
    reason is recorded exactly then, a live object with a pcb pointer owns an
    allocated pcb whose callbacks lead back to it, the bridge object's retain
    count is the number of its holders, and as long as the user holds the
    connection object no deallocated bridge has been messaged. *)
Theorem lifecycle_invariant P now h t es us w : P <> 0 -> run P es (connect P now h t) = Some (us, w) -> wf P w.
Proof.
  intros HP. generalize (connect_wf P now h t HP). generalize (connect P now h t) as w0.
  revert us. induction es as [|e es IH]; intros us w0 W Hr.
  - by injection Hr as <- <-.
  - apply run_cons in Hr as (u & v & us' & He & Hr & _). by eapply IH; [eapply exec_wf|].
Qed.

(** ** What every operation leaves alone

    [evolves w w']: termination and activation are notified at most as often
    as their flags allow, a dead object stays dead, and the received buffers
    stay where they were. *)
Definition is_term (b : cblock) : bool := match b with BTerminated _ => true | _ => false end.
Definition is_act (b : cblock) : bool := match b with BActivated => true | _ => false end.
Definition count (f : cblock -> bool) (q : list cblock) : Z := lenz (List.filter f q).
Definition phi_term (w : world) : Z := b2z (didNotifyTerminated (conn w)) - count is_term (connectionsQueue w).
Definition phi_act (w : world) : Z := b2z (didNotifyActive (conn w)) - count is_act (connectionsQueue w).

Fixpoint queued (q : list cblock) : list Z :=
  match q with
  | BReadableBytes p _ _ :: q => p :: queued q
  | _ :: q => queued q
  | [] => []
  end.

Definition pqueued (q : list pblock) : list Z := map (fun b => match b with PFree p => p end) q.

Record evolves (w w' : world) : Prop := mk_evolves {
  ev_term : phi_term w <= phi_term w';
  ev_act : phi_act w <= phi_act w';
  ev_dead : alive (conn w) = false -> alive (conn w') = false;
  ev_queued : queued (connectionsQueue w') = queued (connectionsQueue w);
  ev_pq : packetsQueue w' = packetsQueue w;
  ev_user : with_user w' = with_user w;
  ev_freed : freed w' = freed w;
}.

#[local] Instance evolves_preorder : PreOrder evolves.
Proof.
  split.
  - intros w. by constructor.
  - intros a b c [] []. constructor; try congruence; try lia. auto.
Qed.

Lemma count_app f q b : count f (q ++ [b]) = count f q + b2z (f b).
Proof. unfold count. rewrite List.filter_app, lenz_app. simpl. by destruct (f b). Qed.

Lemma queued_app q r : queued (q ++ r) = queued q ++ queued r.
Proof. induction q as [|[] q IH]; simpl; rewrite ?IH; done. Qed.

Ltac ev_solve :=
  constructor; unfold phi_term, phi_act; wsimpl; rewrite ?count_app, ?queued_app, ?app_nil_r; simpl;
  try done; try lia.

Lemma terminateLocked_evolves r w : evolves w (terminateLocked r w).
Proof.
  unfold terminateLocked, clearCallbackLocked. destruct (didNotifyTerminated (conn w)) eqn:E; [done|].
  destruct (pcb _ =? 0), (onTerminated _); ev_solve; rewrite ?E; unfold b2z; lia.
Qed.

Lemma updateWritableLocked_evolves b w : evolves w (updateWritableLocked b w).
Proof. unfold updateWritableLocked. repeat case_match; ev_solve. Qed.

Lemma handlePeerFINLocked_evolves w : evolves w (handlePeerFINLocked w).
Proof. unfold handlePeerFINLocked. repeat case_match; ev_solve. Qed.

Lemma notifyActiveOnceLocked_evolves w : evolves w (notifyActiveOnceLocked w).
Proof.
  unfold notifyActiveOnceLocked. destruct (didNotifyActive (conn w)) eqn:E; [done|].
  destruct (onActivated _); ev_solve; rewrite ?E; unfold b2z; lia.
Qed.

(** Updates of other fields. *)
Lemma quiet_evolves w w' :
  didNotifyTerminated (conn w') = didNotifyTerminated (conn w) -> didNotifyActive (conn w') = didNotifyActive (conn w) ->
  alive (conn w') = alive (conn w) -> connectionsQueue w' = connectionsQueue w ->
  packetsQueue w' = packetsQueue w -> with_user w' = with_user w -> freed w' = freed w -> evolves w w'.
Proof.
  intros E1 E2 E3 E4 E5 E6 E7. constructor; unfold phi_term, phi_act; rewrite ?E1, ?E2, ?E3, ?E4; done.
Qed.

Lemma clearCallbackLocked_evolves w : evolves w (clearCallbackLocked w).
Proof. unfold clearCallbackLocked. by case_match; apply quiet_evolves. Qed.

Lemma tcp_free_evolves w : evolves w (tcp_free w).
Proof.
  unfold tcp_free, tf_tcp_extarg_destroy, receivedPcbDestroyed.
  destruct (ref_object w); [case_match|]; try (by apply quiet_evolves).
  set (v := terminateLocked _ _). transitivity v; [|by apply quiet_evolves].
  subst v. etrans; [|apply terminateLocked_evolves]. by apply quiet_evolves.
Qed.

Lemma abortLocked_evolves r w : evolves w (abortLocked r w).
Proof.
  unfold abortLocked. do 2 (case_match; [done|]). etrans; [|apply terminateLocked_evolves].
  case_match; [by apply quiet_evolves|]. etrans; [|apply tcp_free_evolves].
  unfold clearCallbackLocked. by case_match; apply quiet_evolves.
Qed.

Lemma tryGracefulCloseLocked_evolves w : evolves w (tryGracefulCloseLocked w).
Proof.
  unfold tryGracefulCloseLocked. case_match; [done|]. case_match; [apply terminateLocked_evolves|].
  destruct (tcp_close _) as [[err fr] t].
  set (w1 := if fr then _ else _).
  assert (E : evolves w w1) by (subst w1; destruct fr; [etrans; [|apply tcp_free_evolves]|]; by apply quiet_evolves).
  etrans; [exact E|].
  destruct err; try apply abortLocked_evolves; [|by apply quiet_evolves].
  etrans; [|apply terminateLocked_evolves]. by apply quiet_evolves.
Qed.

Lemma acknowledgeDeliveredBytes_evolves n w : evolves w (acknowledgeDeliveredBytes n w).
Proof.
  unfold acknowledgeDeliveredBytes, updateInflightAckBytes. repeat (case_match; try done); by apply quiet_evolves.
Qed.

Lemma writeData_evolves d w : evolves w (writeData d w).2.
Proof.
  unfold writeData, writeBytes. repeat (case_match; [done|]). destruct (tcp_write _ _) as [err t].
  destruct err; cbn [snd]; (etrans; [|apply abortLocked_evolves || apply updateWritableLocked_evolves]); by apply quiet_evolves.
Qed.

Lemma tf_conn_ok_evolves P w : evolves w (tf_conn_ok P w).2.
Proof. unfold tf_conn_ok, tf_conn_from_arg. destruct (ref_rc w <=? 0); by apply quiet_evolves. Qed.

Lemma tf_tcp_err_evolves e w : evolves w (tf_tcp_err e w).
Proof.
  unfold tf_tcp_err, tf_conn_from_arg.
  destruct (ref_rc w <=? 0); case_match; try (by apply quiet_evolves).
  all: etrans; [|apply terminateLocked_evolves]; by apply quiet_evolves.
Qed.

Lemma sched_evolves b w : is_term b = false -> is_act b = false -> queued [b] = [] -> evolves w (sched b w).
Proof.
  intros H1 H2 H3. constructor; unfold phi_term, phi_act; wsimpl; rewrite ?count_app, ?queued_app, ?H1, ?H2, ?H3, ?app_nil_r;
    change (b2z false) with 0; done || lia.
Qed.

Lemma tf_tcp_sent_evolves P n w : evolves w (tf_tcp_sent P n w).
Proof.
  unfold tf_tcp_sent. pose proof (tf_conn_ok_evolves P w) as E. destruct (tf_conn_ok P w) as [b v]. cbn [snd] in E.
  etrans; [exact E|]. case_match; [done|]. etrans; [apply updateWritableLocked_evolves|].
  case_match; [by apply sched_evolves|done].
Qed.

Lemma tf_tcp_poll_evolves P n w : evolves w (tf_tcp_poll P n w).
Proof.
  unfold tf_tcp_poll. pose proof (tf_conn_ok_evolves P w) as E. destruct (tf_conn_ok P w) as [b v]. cbn [snd] in E.
  etrans; [exact E|]. case_match; [done|]. case_match; [apply abortLocked_evolves|].
  etrans; [apply updateWritableLocked_evolves|]. case_match; [apply tryGracefulCloseLocked_evolves|done].
Qed.

(** The buffers a world is responsible for. *)
Definition owned (w : world) : list Z :=
  freed w ++ queued (connectionsQueue w) ++ pqueued (packetsQueue w) ++ with_user w.

Lemma evolves_owned w w' : evolves w w' -> owned w' = owned w.
Proof. intros []. unfold owned. congruence. Qed.

(** [tf_tcp_recv] takes the buffer exactly when it does not return [ERR_MEM]. *)
Definition takes (p : option rpbuf) (e : err_t) : list Z :=
  match p with Some p => if bool_decide (e = ERR_MEM) then [] else [rp p] | None => [] end.

(** What a step may do besides taking a buffer. *)
Definition keeps (w w' : world) : Prop :=
  phi_term w <= phi_term w' /\ phi_act w <= phi_act w' /\ (alive (conn w) = false -> alive (conn w') = false).

Lemma evolves_keeps w w' : evolves w w' -> keeps w w'.
Proof. by intros []. Qed.

Lemma pbuf_free_step q w w' :
  evolves w w' -> keeps w (pbuf_free q w') /\ owned (pbuf_free q w') ≡ₚ owned w ++ [q].
Proof.
  intros E. pose proof (evolves_owned _ _ E) as Ho. destruct E. split; [done|].
  unfold owned in *. wsimpl. rewrite <- Ho. solve_Permutation.
Qed.

Lemma tf_tcp_recv_step P p err m w :
  keeps w (tf_tcp_recv P p err m w).2
  /\ owned (tf_tcp_recv P p err m w).2 ≡ₚ owned w ++ takes p (tf_tcp_recv P p err m w).1.
Proof.
  unfold tf_tcp_recv. pose proof (tf_conn_ok_evolves P w) as E. destruct (tf_conn_ok P w) as [b v]. cbn [snd] in E.
  assert (T0 : takes None ERR_OK = []) by done.
  assert (N : forall v', evolves w v' -> keeps w v' /\ owned v' ≡ₚ owned w ++ []).
  { intros v' E'. split; [by apply evolves_keeps|]. by rewrite app_nil_r, (evolves_owned _ _ E'). }
  destruct b; cbn [negb].
  2:{ destruct p; cbn [fst snd]; [by apply pbuf_free_step|by apply N]. }
  destruct (negb (err_ok err)).
  { cbn [fst snd]. destruct p as [q|]; [|apply N; etrans; [exact E|apply abortLocked_evolves]].
    destruct (pbuf_free_step (rp q) w v E) as [K O].
    pose proof (abortLocked_evolves ReasonAbort (pbuf_free (rp q) v)) as A.
    split; [destruct K as (?&?&?), A; repeat split; [lia|lia|auto]|]. by rewrite (evolves_owned _ _ A). }
  destruct p as [q|]; [|cbn [fst snd]; apply N; etrans; [exact E|apply handlePeerFINLocked_evolves]].
  destruct (rp_tot_len q =? 0); [by apply pbuf_free_step|].
  destruct (negb (shouldAllowRecv v)); [by apply N|].
  assert (E' : evolves w (updateInflightAckBytes (rp_tot_len q) v)).
  { etrans; [exact E|]. unfold updateInflightAckBytes. case_match; by apply quiet_evolves. }
  set (v1 := updateInflightAckBytes (rp_tot_len q) v) in *.
  repeat case_match; cbn [fst snd]; try (by apply pbuf_free_step).
  - split; [destruct E'; repeat split; unfold phi_term, phi_act in *; wsimpl; rewrite ?count_app; cbn [is_term is_act b2z]; lia || auto|].
    rewrite <- (evolves_owned _ _ E'). unfold owned. wsimpl. rewrite queued_app. simpl. solve_Permutation.
  - destruct (pbuf_free_step (rp q) w v1 E') as [K O].
    pose proof (acknowledgeDeliveredBytes_evolves (rp_tot_len q) (pbuf_free (rp q) v1)) as A.
    assert (C : evolves (pbuf_free (rp q) v1) (sched (BReadable (takez (rp_tot_len q) (rp_data q)))
      (acknowledgeDeliveredBytes (rp_tot_len q) (pbuf_free (rp q) v1)))) by (etrans; [exact A|by apply sched_evolves]).
    split; [destruct K as (?&?&?), C; repeat split; [lia|lia|auto]|]. by rewrite (evolves_owned _ _ C).
  - apply pbuf_free_step. etrans; [exact E'|]. by apply quiet_evolves.
Qed.

(** One event: how often it notified termination and activation, and the
    buffers it took. *)
Definition u_term (u : uevent) : bool := match u with UTerminated _ => true | _ => false end.
Definition u_act (u : uevent) : bool := match u with UActivated => true | _ => false end.
Definition ucount (f : uevent -> bool) (us : list uevent) : Z := lenz (List.filter f us).
Definition ulist (u : option uevent) : list uevent := match u with Some u => [u] | None => [] end.

Definition accepts (P : Z) (e : event) (w : world) : list Z :=
  match e with ERecv p err m => takes p (tf_tcp_recv P p err m w).1 | _ => [] end.

Record step_ok (w : world) (u : option uevent) (w' : world) (acc : list Z) : Prop := mk_step_ok {
  st_term : phi_term w + ucount u_term (ulist u) <= phi_term w';
  st_act : phi_act w + ucount u_act (ulist u) <= phi_act w';
  st_dead : alive (conn w) = false -> alive (conn w') = false;
  st_quiet : alive (conn w) = false -> Forall (fun x => u_term x = true) (ulist u);
  st_owned : owned w' ≡ₚ owned w ++ acc;
}.

Lemma ucount_none f : ucount f (ulist None) = 0.
Proof. done. Qed.

Lemma evolves_step w w' : evolves w w' -> step_ok w None w' [].
Proof.
  intros E. pose proof (evolves_owned _ _ E) as O. destruct E.
  constructor; rewrite ?ucount_none, ?app_nil_r, ?O; try done; lia.
Qed.

Lemma count_cons f b q : count f (b :: q) = b2z (f b) + count f q.
Proof. unfold count. simpl. destruct (f b); [rewrite lenz_cons|]; done. Qed.

Lemma remove1_perm p l : p ∈ l -> l ≡ₚ p :: remove1 p l.
Proof.
  induction l as [|x l IH]; intros Hp; [by apply elem_of_nil in Hp|]. simpl.
  destruct (Z.eqb_spec x p) as [->|]; [done|].
  apply elem_of_cons in Hp as [->|Hp]; [done|]. rewrite (IH Hp) at 1. solve_Permutation.
Qed.

Lemma run_block_step b q w u w' :
  connectionsQueue w = b :: q -> run_block b (w <| connectionsQueue := q |>) = (u, w') -> step_ok w u w' [].
Proof.
  intros Hq Hr. unfold run_block in Hr. cbn [conn conn_held setf] in Hr.
  destruct b; repeat (case_match; simplify_eq); bprop; simplify_eq;
    constructor; unfold phi_term, phi_act, owned, ucount; wsimpl; rewrite ?Hq, ?count_cons, ?app_nil_r;
    simpl; rewrite ?lenz_cons; change (lenz (@nil uevent)) with 0; try done; try lia; try congruence.
  all: try (intros; by repeat constructor).
  all: unfold pqueued; rewrite ?map_app; simpl; solve_Permutation.
Qed.

Lemma exec_step P e w u w' : exec P e w = Some (u, w') -> step_ok w u w' (accepts P e w).
Proof.
  unfold exec, user, lwip_cb. intros H.
  destruct e; cbn [accepts]; repeat (case_match; simplify_eq; try done); try (by eapply run_block_step);
    try (lazymatch goal with
         | |- step_ok _ _ (completion _ _) _ => fail
         | |- step_ok _ _ (run_pblock _ _) _ => fail
         | |- _ => apply evolves_step end).
  - unfold markActive. repeat (case_match; try done). etrans; [|apply notifyActiveOnceLocked_evolves]. by apply quiet_evolves.
  - unfold setInboundDeliveryEnabled. case_match; [done|]. by apply quiet_evolves.
  - apply acknowledgeDeliveredBytes_evolves.
  - apply writeData_evolves.
  - unfold shutdownWrite. by repeat case_match.
  - unfold gracefulClose. repeat (case_match; try done); [apply terminateLocked_evolves|apply tryGracefulCloseLocked_evolves].
  - apply abortLocked_evolves.
  - by apply quiet_evolves.
  - by apply quiet_evolves.
  - destruct (tf_tcp_recv_step P p err malloc_ok w) as ((K1 & K2 & K3) & O).
    constructor; rewrite ?ucount_none; try done; lia.
  - apply tf_tcp_sent_evolves.
  - apply tf_tcp_poll_evolves.
  - unfold lwip_abandon. case_match; [etrans; [|apply tf_tcp_err_evolves]|]; apply tcp_free_evolves.
  - unfold lwip_input_err. etrans; [|apply tcp_free_evolves]. case_match; [apply tf_tcp_err_evolves|done].
  - apply tcp_free_evolves.
  - by apply quiet_evolves.
  - bprop. constructor; rewrite ?ucount_none, ?app_nil_r; try done; try (rewrite Z.add_0_r; done).
    unfold owned, completion. wsimpl. unfold pqueued. rewrite map_app. simpl.
    match goal with H : p ∈ with_user w |- _ => rewrite (remove1_perm _ _ H) at 2 end. solve_Permutation.
  - destruct p. constructor; rewrite ?ucount_none, ?app_nil_r; try done; try (rewrite Z.add_0_r; done).
    unfold owned. wsimpl. match goal with H : packetsQueue w = _ |- _ => rewrite H end. simpl. solve_Permutation.
Qed.

(** The buffers lwIP handed over during a run. *)
Fixpoint accepted (P : Z) (es : list event) (w : world) : list Z :=
  match es with
  | [] => []
  | e :: es => accepts P e w ++ match exec P e w with Some (_, w) => accepted P es w | None => [] end
  end.

Lemma run_step P es w us w' :
  run P es w = Some (us, w') ->
  phi_term w + ucount u_term us <= phi_term w' /\ phi_act w + ucount u_act us <= phi_act w'
  /\ (alive (conn w) = false -> alive (conn w') = false /\ Forall (fun u => u_term u = true) us)
  /\ owned w' ≡ₚ owned w ++ accepted P es w.
Proof.
  revert w us. induction es as [|e es IH]; intros w us Hr.
  - injection Hr as <- <-. unfold ucount. simpl. change (lenz (@nil uevent)) with 0. rewrite app_nil_r.
    split_and!; [lia|lia|done|done].
  - apply run_cons in Hr as (u & v & us' & He & Hr & ->). destruct (exec_step _ _ _ _ _ He) as [S1 S2 S3 S4 S5].
    destruct (IH v us' Hr) as (I1 & I2 & I3 & I4).
    assert (C : forall f, ucount f (match u with Some u0 => u0 :: us' | None => us' end)
                          = ucount f (ulist u) + ucount f us').
    { intros f. unfold ucount. destruct u as [u0|]; simpl; [destruct (f u0); rewrite ?lenz_cons; change (lenz (@nil uevent)) with 0; lia|done]. }
    rewrite !C. split_and!; [lia|lia| |].
    + intros Hd. destruct (I3 (S3 Hd)) as [I3a I3b]. split; [done|].
      specialize (S4 Hd). destruct u; [|done]. by inversion_clear S4; constructor.
    + cbn [accepted]. rewrite He, I4, S5. by rewrite app_assoc.
Qed.

(** C32: over any sequence of events the user's termination handler runs at most
    once and the activation handler at most once. *)
Theorem notified_at_most_once P now h t es us w :
  run P es (connect P now h t) = Some (us, w) -> ucount u_term us <= 1 /\ ucount u_act us <= 1.
Proof.
  intros Hr. destruct (run_step _ _ _ _ _ Hr) as (H1 & H2 & _).
  assert (E : phi_term (connect P now h t) = 0 /\ phi_act (connect P now h t) = 0)
    by (unfold connect, setupPcb; by case_match).
  assert (B : forall w0, phi_term w0 <= 1 /\ phi_act w0 <= 1).
  { intros w0. unfold phi_term, phi_act, count.
    pose proof (lenz_nonneg (List.filter is_term (connectionsQueue w0))).
    pose proof (lenz_nonneg (List.filter is_act (connectionsQueue w0))). unfold b2z. repeat case_match; lia. }
  destruct (B w). lia.
Qed.

(** C33: once the connection has terminated the user's handlers see nothing but
    the termination itself, whatever was already queued and whatever lwIP
    still reports. *)
Theorem silent_after_termination P es w us w' :
  alive (conn w) = false -> run P es w = Some (us, w') ->
  alive (conn w') = false /\ Forall (fun u => exists r, u = UTerminated r) us.
Proof.
  intros Hd Hr. destruct (run_step _ _ _ _ _ Hr) as (_ & _ & H & _). destruct (H Hd) as [Ha Hf].
  split; [done|]. eapply Forall_impl; [exact Hf|]. intros [] Hu; try done. eauto.
Qed.

(** C17: received buffers are neither leaked nor freed twice: after any run the
    buffers lwIP handed over are, as a multiset, those already freed, those in
    a queued block and those with the user; if the handed-over addresses are
    distinct, no address is freed twice, and once the queues are drained and
    the user has completed every delivery, exactly they have been freed. *)
Theorem buffers_freed_exactly_once P now h t es us w :
  run P es (connect P now h t) = Some (us, w) ->
  owned w ≡ₚ accepted P es (connect P now h t)
  /\ (NoDup (accepted P es (connect P now h t)) -> NoDup (freed w))
  /\ (connectionsQueue w = [] -> packetsQueue w = [] -> with_user w = [] ->
      freed w ≡ₚ accepted P es (connect P now h t)).
Proof.
  intros Hr. destruct (run_step _ _ _ _ _ Hr) as (_ & _ & _ & H).
  assert (E : owned (connect P now h t) = []) by (unfold connect, setupPcb; by case_match).
  rewrite E in H. simpl in H. split_and!; [done| |].
  - intros Hn. rewrite <- H in Hn. unfold owned in Hn. by apply NoDup_app in Hn as [Hn _].
  - intros E1 E2 E3. unfold owned in H. rewrite E1, E2, E3 in H. simpl in H. by rewrite !app_nil_r in H.
Qed.

(** ** The receive window *)

Lemma credit_loop_spec fuel credit t :
  credit <= 65535 * Z.of_nat fuel -> 0 <= credit -> 0 <= rcv_wnd t <= wnd_max t ->
  exists t', credit_loop fuel credit t = Some t'
  /\ rcv_wnd t' = Z.min (rcv_wnd t + credit) (wnd_max t) /\ wnd_max t' = wnd_max t.
Proof.
  revert credit t. induction fuel as [|fuel IH]; intros credit t Hf Hc Hw;
    cbn [credit_loop]; (destruct (Z.leb_spec credit 0); [exists t; split_and!; [done|lia|done]|]); [lia|].
  set (chunk := u16 (Z.min credit 65535)).
  assert (Hch : 0 < chunk <= 65535 /\ chunk <= credit /\ (chunk = credit \/ chunk = 65535)) by (unfold chunk, u16; lia).
  assert (Hr : rcv_wnd (tcp_recved t chunk) = Z.min (rcv_wnd t + chunk) (wnd_max t)) by (apply tcp_recved_wnd; lia).
  destruct (IH (credit - chunk) (tcp_recved t chunk)) as (t' & E & Hw' & Hm').
  - lia.
  - lia.
  - rewrite tcp_recved_max, Hr. lia.
  - exists t'. rewrite E, Hw', Hm', tcp_recved_max, Hr. split_and!; [done|lia|done].
Qed.

(** [acknowledgeDeliveredBytes:] on an active connection credits the
    receive window with the smaller of the acknowledged and the in-flight
    bytes, in any number of 16-bit chunks and never beyond the maximum, takes
    the same amount off the in-flight count, and changes nothing else. *)
Theorem acknowledge_credits n w :
  alive (conn w) = true -> pcb (conn w) <> 0 -> state (conn w) = TFTCPConnectionActive ->
  0 <= n -> 0 <= inflightAckBytes (conn w) -> 0 <= rcv_wnd (lw w) <= wnd_max (lw w) ->
  let w' := acknowledgeDeliveredBytes n w in
  let credit := Z.min n (inflightAckBytes (conn w)) in
  rcv_wnd (lw w') = Z.min (rcv_wnd (lw w) + credit) (wnd_max (lw w))
  /\ wnd_max (lw w') = wnd_max (lw w)
  /\ w' = w <| lw := lw w' |> <| conn := (conn w) <| inflightAckBytes := inflightAckBytes (conn w) - credit |> |>.
Proof.
  intros Ha Hp Hs Hn Hi Hw. unfold acknowledgeDeliveredBytes. rewrite Ha, Hs. cbn [negb orb].
  apply Z.eqb_neq in Hp as Hp'. rewrite Hp'. rewrite bool_decide_eq_true_2 by done. cbn [negb].
  destruct ((n =? 0) || (inflightAckBytes (conn w) =? 0)) eqn:E.
  - assert (Z.min n (inflightAckBytes (conn w)) = 0) as ->
      by (apply orb_true_iff in E as [E|E]; apply Z.eqb_eq in E; lia).
    split_and!; [lia|done|]. rewrite Z.sub_0_r. by destruct w as [[]].
  - bprop. set (credit := Z.min n (inflightAckBytes (conn w))).
    destruct (credit_loop_spec (credit_fuel credit) credit (lw w)) as (t' & -> & Hr & Hm);
      [unfold credit_fuel; lia|lia|done|].
    unfold updateInflightAckBytes. destruct (Z.leb_spec 0 (- credit)); [lia|]. wsimpl.
    split_and!; [done|done|]. rewrite Z.opp_involutive.
    destruct (Z.leb_spec (inflightAckBytes (conn w)) credit); [|done].
    by replace (inflightAckBytes (conn w) - credit) with 0 by lia.
Qed.
End ConnectionFacts.
