(* ===== verification/ConnectionProps.v ===== *)
(** * ConnectionProps: the outcome of a connection's operations

    The accounting of the receive window across deliveries, the stall of a
    large refused delivery, the activation time-out, what the user is told when
    lwIP or the user ends the connection, and the safety of the callbacks'
    argument.  The last section instantiates the lwIP interface by a small
    window-keeping pcb and evaluates the theorems of this file and of
    [ConnectionFacts] on concrete runs. *)

From S2P Require Import Prelude Opts Connection ConnectionFacts.

Section ConnectionProps.
Context {o : Opts} {api : TcpApi} {apiok : TcpApiOk api}.
Implicit Types w : world.

Ltac wsimpl := cbn [conn conn_held ref_alive ref_rc lw pcb_allocated cb_registered connectionsQueue packetsQueue
  with_user freed fault pcb newStateStartMs alive writable readEOF writeFIN state terminationReason didNotifyActive
  didNotifyTerminated pendingClose recvEnabled inflightAckBytes hs fst snd setf upd sched negb andb orb pbuf_free
  release_conn].

(** The connection is attached: held by the user, alive, with an allocated pcb
    whose callbacks lead back to it. *)
Record attached (P : Z) (w : world) : Prop := mk_attached {
  at_wf : wf P w;
  at_held : conn_held w = true;
  at_alive : alive (conn w) = true;
  at_pcb : pcb (conn w) = P;
  at_nz : P <> 0;
}.

Lemma attached_reg P w : attached P w ->
  pcb_allocated w = true /\ cb_registered w = true /\ ref_alive w = true /\ ref_rc w = 2.
Proof.
  intros [W Hh Ha Hp Hn]. destruct (wf_pcb _ _ W) as (_ & H1 & H2 & H3); [congruence|done|].
  split_and!; try done. by rewrite (wf_rc _ _ W), Hh, H1.
Qed.

Lemma attached_ok P w : attached P w -> tf_conn_ok P w = (true, w).
Proof.
  intros A. destruct (attached_reg _ _ A) as (H1 & H2 & H3 & H4). destruct A as [W Hh Ha Hp Hn].
  unfold tf_conn_ok, tf_conn_from_arg, ref_object. rewrite H4, H3, Hh. cbn [Z.leb].
  change (2 <=? 0) with false. cbv iota. rewrite Ha, Hp, Z.eqb_refl. done.
Qed.

Lemma attached_state P w : attached P w -> bool_decide (state (conn w) = TFTCPConnectionClosed) = false.
Proof. intros [W _ Ha _ _]. apply bool_decide_eq_false_2. by apply (wf_alive _ _ W). Qed.

(** ** The receive window across a delivery

    [accounted]: the bytes of the window that are announced to the peer or
    with the user.  The rest of the maximum is data lwIP still holds. *)
Definition accounted (w : world) : Z := rcv_wnd (lw w) + inflightAckBytes (conn w).

Definition hears (w : world) : bool := onReadableBytes (hs (conn w)) || onReadable (hs (conn w)).

Lemma ack_accounted n w :
  0 <= n -> 0 <= inflightAckBytes (conn w) -> 0 <= rcv_wnd (lw w) ->
  accounted w <= wnd_max (lw w) ->
  accounted (acknowledgeDeliveredBytes n w) = accounted w
  /\ wnd_max (lw (acknowledgeDeliveredBytes n w)) = wnd_max (lw w).
Proof.
  intros Hn Hi Hr Hw. unfold acknowledgeDeliveredBytes, accounted in *.
  repeat (case_match; [done|]). bprop.
  set (credit := Z.min n _) in *.
  destruct (credit_loop_spec (credit_fuel credit) credit (lw w)) as (t' & -> & Hr' & Hm);
    [unfold credit_fuel; lia|lia|lia|].
  unfold updateInflightAckBytes. destruct (Z.leb_spec 0 (- credit)); [lia|]. wsimpl.
  rewrite Hr', Hm. split; [|done]. case_match; bprop; lia.
Qed.

(** A delivery to a connection with a read handler moves exactly the
    delivered bytes from lwIP's hands to the accounted part of the window (the
    user's side of it, or straight back to the peer for the copying handler),
    and a refused delivery changes nothing. *)
Theorem delivery_conserves_window P p m w :
  attached P w -> hears w = true -> (onReadableBytes (hs (conn w)) = true \/ m = true) ->
  0 <= rcv_wnd (lw w) -> inflightAckBytes (conn w) < 2 ^ 63 ->
  accounted w + rp_tot_len p <= wnd_max (lw w) -> 0 < rp_tot_len p ->
  let r := tf_tcp_recv P (Some p) ERR_OK m w in
  if shouldAllowRecv w
  then r.1 = ERR_OK /\ accounted r.2 = accounted w + rp_tot_len p /\ wnd_max (lw r.2) = wnd_max (lw w)
  else r = (ERR_MEM, w).
Proof.
  intros A Hh Hm Hr Hi Hw Ht. unfold tf_tcp_recv. rewrite (attached_ok _ _ A). wsimpl.
  change (err_ok ERR_OK) with true. cbn [negb].
  assert (rp_tot_len p =? 0 = false) as -> by (apply Z.eqb_neq; lia).
  destruct (shouldAllowRecv w) eqn:Hs; [|done]. cbn [negb].
  pose proof (wf_inflight _ _ (at_wf _ _ A)) as Hi0.
  assert (Hu : accounted (updateInflightAckBytes (rp_tot_len p) w) = accounted w + rp_tot_len p
    /\ inflightAckBytes (conn (updateInflightAckBytes (rp_tot_len p) w)) = inflightAckBytes (conn w) + rp_tot_len p).
  { unfold accounted, updateInflightAckBytes. destruct (Z.leb_spec 0 (rp_tot_len p)); [|lia]. wsimpl.
    unfold rp_tot_len in *. unfold u64, u16 in *. lia. }
  assert (El : lw (updateInflightAckBytes (rp_tot_len p) w) = lw w /\ hs (conn (updateInflightAckBytes (rp_tot_len p) w)) = hs (conn w))
    by (unfold updateInflightAckBytes; by case_match).
  destruct El as [El Eh], Hu as [Hu1 Hu2]. rewrite Eh. set (w1 := updateInflightAckBytes _ _) in *.
  destruct (onReadableBytes (hs (conn w))) eqn:Hb.
  - destruct m; wsimpl; (split; [done|]); rewrite <- Hu1, <- El; done.
  - destruct Hm as [Hm| ->]; [done|]. unfold hears in Hh. rewrite Hb in Hh. cbn [orb] in Hh. rewrite Hh. wsimpl.
    split; [done|].
    destruct (ack_accounted (rp_tot_len p) (pbuf_free (rp p) w1)) as [E1 E2];
      unfold accounted in *; cbn [pbuf_free setf conn lw] in *; rewrite ?El in *; try lia.
    unfold pbuf_free in *. cbn in E1, E2 |- *. rewrite E1, E2. split; [lia|done].
Qed.

(** With no read handler installed the bytes are credited to the peer and
    also stay counted as in flight, so that the accounted window grows by
    twice the delivery: a handler installed later can acknowledge, and the
    peer be credited for, bytes that were never delivered to it. *)
Theorem drop_counts_twice P p m w :
  attached P w -> hears w = false -> shouldAllowRecv w = true ->
  0 <= rcv_wnd (lw w) -> inflightAckBytes (conn w) < 2 ^ 63 ->
  accounted w + rp_tot_len p <= wnd_max (lw w) -> 0 < rp_tot_len p ->
  let r := tf_tcp_recv P (Some p) ERR_OK m w in
  r.1 = ERR_OK /\ connectionsQueue r.2 = connectionsQueue w
  /\ inflightAckBytes (conn r.2) = inflightAckBytes (conn w) + rp_tot_len p
  /\ accounted r.2 = accounted w + 2 * rp_tot_len p.
Proof.
  intros A Hh Hs Hr Hi Hw Ht. unfold tf_tcp_recv. rewrite (attached_ok _ _ A). wsimpl.
  change (err_ok ERR_OK) with true. cbn [negb].
  assert (rp_tot_len p =? 0 = false) as -> by (apply Z.eqb_neq; lia). rewrite Hs. cbn [negb].
  pose proof (wf_inflight _ _ (at_wf _ _ A)) as Hi0. apply orb_false_iff in Hh as [Hb1 Hb2].
  unfold updateInflightAckBytes. destruct (Z.leb_spec 0 (rp_tot_len p)); [|lia]. wsimpl. rewrite Hb1, Hb2.
  unfold accounted in *. wsimpl. assert (0 <= rp_tot_len p <= 65535) by (unfold rp_tot_len, u16; lia).
  rewrite tcp_recved_wnd by lia. unfold u64. split_and!; try done; lia.
Qed.

(** ** A refused delivery that can never be accepted *)

(** The user's and lwIP's moves that could make room: crediting, enabling, and
    presenting the refused buffer again. *)
Definition retry (q : rpbuf) (e : event) : Prop :=
  match e with
  | EAck _ | ESetInbound _ => True
  | ERecv (Some p) ERR_OK _ => p = q
  | _ => False
  end.

(** C36: [shouldAllowRecv:] compares the window left after the refused buffer
    was taken off it with the low-water mark, so that when nothing is in
    flight and the refused buffer alone leaves less than the mark, no
    acknowledgement, re-enabling or retry ever gets it accepted. *)
Theorem refused_delivery_stalls P q es w us w' :
  attached P w -> inflightAckBytes (conn w) = 0 -> 0 < rp_tot_len q ->
  rcv_wnd (lw w) < low_water TCP_RCVLOWAT (lw w) ->
  Forall (retry q) es -> run P es w = Some (us, w') ->
  us = [] /\ rcv_wnd (lw w') = rcv_wnd (lw w) /\ connectionsQueue w' = connectionsQueue w
  /\ forall m, (tf_tcp_recv P (Some q) ERR_OK m w').1 = ERR_MEM.
Proof.
  intros A Hi Hq Hl Hes. revert us w A Hi Hl.
  assert (Href : forall v m, attached P v -> rcv_wnd (lw v) < low_water TCP_RCVLOWAT (lw v) ->
    tf_tcp_recv P (Some q) ERR_OK m v = (ERR_MEM, v)).
  { intros v m Av Hv. unfold tf_tcp_recv. rewrite (attached_ok _ _ Av). wsimpl.
    change (err_ok ERR_OK) with true. cbn [negb].
    assert (rp_tot_len q =? 0 = false) as -> by (apply Z.eqb_neq; lia).
    assert (shouldAllowRecv v = false) as ->; [|done].
    unfold shouldAllowRecv, tf_tcp_read_ready. destruct (Z.leb_spec (low_water TCP_RCVLOWAT (lw v)) (rcv_wnd (lw v))); [lia|].
    by repeat case_match. }
  induction Hes as [|e es He Hes IH]; intros us w A Hi Hl Hr.
  - injection Hr as <- <-. split_and!; try done. intros m. by rewrite Href.
  - apply run_cons in Hr as (u & v & us' & Hx & Hr & ->).
    assert (Av : attached P v /\ lw v = lw w /\ inflightAckBytes (conn v) = 0 /\ connectionsQueue v = connectionsQueue w /\ u = None).
    { destruct A as [W Hh Ha Hp Hn]. unfold exec, user, lwip_cb in Hx. destruct e; try done.
      - unfold setInboundDeliveryEnabled in Hx. rewrite Hh in Hx. repeat case_match; simplify_eq; split_and!; try done.
        split; try done. eapply wf_same; [|done]. by repeat split.
      - rewrite Hh in Hx. unfold acknowledgeDeliveredBytes in Hx. rewrite Hi in Hx. change (0 =? 0) with true in Hx.
        rewrite orb_true_r in Hx. repeat case_match; simplify_eq; split_and!; by try split.
      - destruct p as [p|]; [|done]. destruct err; try done. cbn in He. subst p.
        rewrite Href in Hx by done. case_match; simplify_eq. split_and!; by try split. }
    destruct Av as (Av & E1 & E2 & E3 & ->).
    destruct (IH us' v Av E2 ltac:(by rewrite E1) Hr) as (-> & F1 & F2 & F3).
    split_and!; [done|by rewrite F1, E1|by rewrite F2, E3|done].
Qed.

(** ** How a connection ends *)

(** Terminated with reason [r], the pcb back in its pool and the bridge object
    kept by the connection object alone. *)
Definition ended (r : TFTCPConnectionTerminationReason) (w : world) : Prop :=
  alive (conn w) = false /\ state (conn w) = TFTCPConnectionClosed /\ terminationReason (conn w) = r
  /\ pcb (conn w) = 0 /\ pcb_allocated w = false /\ cb_registered w = false /\ ref_rc w = 1 /\ fault w = false
  /\ (onTerminated (hs (conn w)) = true -> last (connectionsQueue w) = Some (BTerminated r)).

Ltac ended_solve :=
  unfold ended; wsimpl; split_and!; try assumption; try reflexivity; try lia; try congruence;
  intros; rewrite ?last_snoc; congruence.

Lemma attached_fresh P w : attached P w -> didNotifyTerminated (conn w) = false /\ fault w = false.
Proof.
  intros [W Hh Ha _ _]. pose proof (wf_term _ _ W) as H. rewrite Ha in H. split; [by destruct (didNotifyTerminated _)|].
  by apply (wf_fault _ _ W).
Qed.

Lemma abortLocked_ended P r w : attached P w -> ended r (abortLocked r w).
Proof.
  intros A. destruct (attached_reg _ _ A) as (H1 & H2 & H3 & H4), (attached_fresh _ _ A) as [H5 H6].
  pose proof (attached_state _ _ A) as Hs. destruct A as [W Hh Ha Hp Hn].
  unfold abortLocked. rewrite Ha, Hs. wsimpl. rewrite Hp. apply Z.eqb_neq in Hn as Hn'. rewrite Hn'.
  unfold tcp_free, tf_tcp_extarg_destroy, ref_object, clearCallbackLocked. wsimpl. rewrite Hp, Hn'. wsimpl.
  unfold terminateLocked. wsimpl. rewrite H5. change (0 =? 0) with true. cbv iota. wsimpl.
  destruct (onTerminated _) eqn:Ho; ended_solve.
Qed.

Lemma tcp_free_ended P w : attached P w -> ended ReasonDestroyed (tcp_free w).
Proof.
  intros A. destruct (attached_reg _ _ A) as (H1 & H2 & H3 & H4), (attached_fresh _ _ A) as [H5 H6].
  destruct A as [W Hh Ha Hp Hn].
  unfold tcp_free, tf_tcp_extarg_destroy, ref_object, receivedPcbDestroyed. wsimpl. rewrite Hh, H3, H5. wsimpl.
  unfold terminateLocked. wsimpl. rewrite H5. change (0 =? 0) with true. cbv iota. wsimpl.
  destruct (onTerminated _) eqn:Ho; ended_solve.
Qed.

Lemma lwip_abandon_ended P w : attached P w -> ended ReasonDestroyed (lwip_abandon w).
Proof.
  intros A. unfold lwip_abandon. destruct (attached_reg _ _ A) as (_ & -> & _ & _).
  pose proof (tcp_free_ended _ _ A) as E. unfold tf_tcp_err, tf_conn_from_arg.
  destruct E as (E1 & E2 & E3 & E4 & E5 & E6 & E7 & E8 & E9). rewrite E7. change (1 <=? 0) with false. cbv iota.
  rewrite E1, andb_false_r. by repeat split.
Qed.

Lemma lwip_input_err_ended P e w : attached P w ->
  ended (if bool_decide (e = ERR_RST) then ReasonReset else ReasonAbort) (lwip_input_err e w).
Proof.
  intros A. destruct (attached_reg _ _ A) as (H1 & H2 & H3 & H4), (attached_fresh _ _ A) as [H5 H6].
  destruct A as [W Hh Ha Hp Hn]. unfold lwip_input_err. rewrite H2. unfold tf_tcp_err, tf_conn_from_arg, ref_object.
  rewrite H3, H4, Hh. change (2 <=? 0) with false. cbv iota. cbn [andb]. rewrite Ha. wsimpl.
  unfold terminateLocked. wsimpl. rewrite H5. change (0 =? 0) with true. cbv iota. wsimpl.
  unfold tcp_free, tf_tcp_extarg_destroy, ref_object, receivedPcbDestroyed.
  destruct (onTerminated _) eqn:Ho; wsimpl; rewrite Hh, H3; cbn [andb]; wsimpl; ended_solve.
Qed.

(** Marking the connection as closing does not detach it. *)
Lemma attached_closing P t w : attached P w ->
  attached P (upd (fun c => c <| state := TFTCPConnectionClosing |>) w <| lw := t |>).
Proof.
  intros [W Hh Ha Hp Hn]. split; try done. destruct W. constructor; wsimpl; try done; try intuition congruence.
Qed.

(** Closed by the user: terminated with reason [Close], while lwIP keeps the
    pcb, with the callbacks still set, until the FIN handshake is over. *)
Definition closed (w : world) : Prop :=
  alive (conn w) = false /\ state (conn w) = TFTCPConnectionClosed /\ terminationReason (conn w) = ReasonClose
  /\ pcb (conn w) = 0 /\ pcb_allocated w = true /\ cb_registered w = true /\ ref_rc w = 2 /\ fault w = false
  /\ (onTerminated (hs (conn w)) = true -> last (connectionsQueue w) = Some (BTerminated ReasonClose)).

(** What [tcp_close] leads to. *)
Definition close_reason (w : world) : option TFTCPConnectionTerminationReason :=
  match (tcp_close (lw w)).1 with
  | (ERR_OK, was_freed) => Some (if was_freed then ReasonDestroyed else ReasonClose)
  | (ERR_MEM, _) => None
  | _ => Some ReasonAbort
  end.

(** Whether an event ends a live connection, and the reason it gives. *)
Definition end_reason (e : event) (w : world) : option TFTCPConnectionTerminationReason :=
  match e with
  | EAbort => Some ReasonAbort
  | EGracefulClose => close_reason w
  | EWrite d =>
      if bool_decide (1 <= lenz d <= 65535 /\ state (conn w) = TFTCPConnectionActive /\ writeFIN (conn w) = false) then
        match (tcp_write (lw w) d).1 with ERR_OK | ERR_MEM => None | _ => Some ReasonAbort end
      else None
  | ERecv _ err _ => if err_ok err then None else Some ReasonAbort
  | EPoll now =>
      if bool_decide (state (conn w) = TFTCPConnectionNew /\ 10000 <= u32 (now - newStateStartMs (conn w))) then Some ReasonAbort
      else if pendingClose (conn w) then close_reason w else None
  | EAbandon | EFree => Some ReasonDestroyed
  | EInputErr err => Some (if bool_decide (err = ERR_RST) then ReasonReset else ReasonAbort)
  | _ => None
  end.

(** The connection goes on. *)
Definition goes_on (w w' : world) : Prop :=
  alive (conn w') = alive (conn w) /\ didNotifyTerminated (conn w') = didNotifyTerminated (conn w) /\ terminationReason (conn w') = terminationReason (conn w).

Definition outcome (r : option TFTCPConnectionTerminationReason) (w w' : world) : Prop :=
  match r with
  | None => goes_on w w'
  | Some ReasonClose => closed w'
  | Some r => ended r w'
  end.

Lemma core_goes_on w w' : same_core w w' -> goes_on w w'.
Proof. intros (E1 & E2 & _ & _ & _ & E6 & _). by split_and!. Qed.

Lemma goes_on_trans w1 w2 w3 : goes_on w1 w2 -> goes_on w2 w3 -> goes_on w1 w3.
Proof. unfold goes_on. intuition congruence. Qed.

Lemma attached_core P w w' : same_core w w' -> attached P w -> attached P w'.
Proof.
  intros C [W Hh Ha Hp Hn]. pose proof (wf_same _ _ _ C W) as W'. destruct C as (E1 & _ & _ & E4 & _ & _ & E7 & _). split; try done; congruence.
Qed.

Lemma inflight_goes_on d w : goes_on w (updateInflightAckBytes d w).
Proof. unfold updateInflightAckBytes. by case_match. Qed.

Lemma ack_goes_on n w : goes_on w (acknowledgeDeliveredBytes n w).
Proof.
  unfold acknowledgeDeliveredBytes. repeat (case_match; [done|]). cbv zeta. destruct (credit_loop _ _ _) as [t|]; [|done]. eapply goes_on_trans; [|apply inflight_goes_on]. done.
Qed.

Lemma close_outcome P w : attached P w -> outcome (close_reason w) w (tryGracefulCloseLocked w).
Proof.
  intros A. pose proof (attached_state _ _ A) as Hs. destruct (attached_reg _ _ A) as (H1 & H2 & H3 & H4). destruct (attached_fresh _ _ A) as [H5 H6].
  unfold close_reason, tryGracefulCloseLocked. rewrite (at_alive _ _ A), Hs. cbn [negb orb].
  assert (pcb (conn w) =? 0 = false) as -> by (apply Z.eqb_neq; rewrite (at_pcb _ _ A); by apply (at_nz _ _ A)).
  cbn [upd lw setf]. wsimpl. pose proof (tcp_close_freed (lw w)) as Hf. destruct (tcp_close (lw w)) as [[err fr] t] eqn:Ec. cbn [fst snd] in Hf |- *. pose proof (attached_closing P t w A) as Ac.
  assert (Hab : fr = false -> ended ReasonAbort (abortLocked ReasonAbort (upd (fun c => c <| state := TFTCPConnectionClosing |>) w <| lw := t |>))) by (intros _; by eapply abortLocked_ended).
  destruct err; [|by destruct fr; [discriminate Hf|split_and!]|(destruct fr; [by discriminate Hf|exact (Hab eq_refl)])..].
  destruct fr; cbn [outcome].
  - pose proof (tcp_free_ended _ _ Ac) as E. revert E. wsimpl. set (v := tcp_free _). intros (E1 & E2 & E3 & E4 & E5 & E6 & E7 & E8 & E9).
    assert (Ed : didNotifyTerminated (conn v) = true).
    { pose proof (wf_term _ _ (tcp_free_wf P _ (at_wf _ _ Ac) H1)) as T. revert T. change (tcp_free _) with v. rewrite E1. by destruct (didNotifyTerminated (conn v)). }
    unfold terminateLocked. wsimpl. rewrite Ed. unfold ended. wsimpl. split_and!; done.
  - unfold terminateLocked, clearCallbackLocked. wsimpl. rewrite H5. change (0 =? 0) with true. wsimpl.
    destruct (onTerminated _) eqn:Ho; unfold closed; wsimpl; split_and!; try done; intros; rewrite ?last_snoc; congruence.
Qed.

Lemma write_outcome P d w : attached P w -> outcome (end_reason (EWrite d) w) w (writeData d w).2.
Proof.
  intros A. cbn [end_reason]. unfold writeData, writeBytes. pose proof (lenz_nonneg d). destruct (Z.ltb_spec 65535 (lenz d)); [rewrite bool_decide_eq_false_2 by lia; done|].
  destruct (Z.eqb_spec (lenz d) 0); [rewrite bool_decide_eq_false_2 by lia; done|]. rewrite (at_alive _ _ A).
  assert (pcb (conn w) =? 0 = false) as -> by (apply Z.eqb_neq; rewrite (at_pcb _ _ A); by apply (at_nz _ _ A)). cbn [negb orb].
  destruct (decide (state (conn w) = TFTCPConnectionActive)) as [Hs|Hs]; [|rewrite (bool_decide_eq_false_2 _ Hs), bool_decide_eq_false_2 by tauto; done].
  rewrite (bool_decide_eq_true_2 _ Hs). cbn [negb orb]. destruct (writeFIN (conn w)) eqn:Hw; [rewrite bool_decide_eq_false_2 by (intros (_ & _ & ?); done); done|].
  rewrite bool_decide_eq_true_2 by (split_and!; try done; lia). destruct (tcp_write (lw w) d) as [err t]. cbn [fst snd].
  assert (At : attached P (w <| lw := t |>)) by (eapply attached_core; [apply lw_core|done]).
  destruct err; cbn [outcome snd]; try (by eapply abortLocked_ended).
  - apply core_goes_on. eapply same_core_trans; [apply (lw_core t)|]. eapply same_core_trans; [apply lw_core|]. apply updateWritableLocked_core.
  - apply core_goes_on. eapply same_core_trans; [apply (lw_core t)|]. apply updateWritableLocked_core.
Qed.

Lemma recv_outcome P p err m w : attached P w -> outcome (end_reason (ERecv p err m) w) w (tf_tcp_recv P p err m w).2.
Proof.
  intros A. cbn [end_reason]. unfold tf_tcp_recv. rewrite (attached_ok _ _ A). cbn [negb]. destruct (err_ok err); cbn [negb].
  - destruct p as [p|]; cbn [outcome]; [|apply core_goes_on, handlePeerFINLocked_core]. cbv zeta. destruct (_ =? 0); [done|]. destruct (negb _); [done|].
    pose proof (inflight_goes_on (rp_tot_len p) w) as Hi. set (v := updateInflightAckBytes _ w) in *. clearbody v.
    destruct (onReadableBytes _); [by destruct (negb m)|]. destruct (onReadable _); [|done]. destruct (negb m); [done|]. cbn [snd].
    eapply goes_on_trans; [exact Hi|]. exact (ack_goes_on (rp_tot_len p) (pbuf_free (rp p) v)).
  - cbn [outcome snd]. eapply abortLocked_ended, attached_core; [|exact A]. destruct p; [apply pbuf_free_core|apply same_core_refl].
Qed.

Lemma poll_outcome P now w : attached P w -> outcome (end_reason (EPoll now) w) w (tf_tcp_poll P now w).
Proof.
  intros A. cbn [end_reason]. unfold tf_tcp_poll. rewrite (attached_ok _ _ A). cbn [negb]. unfold kTCPNewStateRejectTimeoutMs. set (dt := u32 _).
  assert (bool_decide (state (conn w) = TFTCPConnectionNew /\ 10000 <= dt) = bool_decide (state (conn w) = TFTCPConnectionNew) && (10000 <=? dt)) as ->.
  { destruct (decide (state (conn w) = TFTCPConnectionNew)) as [Hs|Hs]; [rewrite (bool_decide_eq_true_2 _ Hs)|rewrite (bool_decide_eq_false_2 _ Hs), bool_decide_eq_false_2 by tauto; done].
    cbn [andb]. destruct (Z.leb_spec 10000 dt); [by rewrite bool_decide_eq_true_2|rewrite bool_decide_eq_false_2; [done|lia]]. }
  destruct (_ && _); [by eapply abortLocked_ended|]. pose proof (updateWritableLocked_core (tf_tcp_write_ready (lw w)) w) as C.
  assert (El : lw (updateWritableLocked (tf_tcp_write_ready (lw w)) w) = lw w) by (unfold updateWritableLocked; by repeat case_match).
  set (v := updateWritableLocked _ w) in *. clearbody v. pose proof (core_goes_on _ _ C) as G. pose proof (attached_core _ _ _ C A) as Av.
  destruct C as (_ & _ & _ & _ & <- & _). destruct (pendingClose (conn w)); [|done]. pose proof (close_outcome P v Av) as Ho. unfold close_reason in *. rewrite El in Ho.
  destruct (tcp_close (lw w)).1 as [[] []]; cbn [outcome] in *; try exact Ho; by eapply goes_on_trans.
Qed.

(** C34: when a live connection ends, and what the user is told.  Of all user
    calls, lwIP callbacks and queue steps only these end it, each with its
    reason, and all others leave it alive: [abort], a refused write other than
    for lack of memory, a receive error and the activation time-out of the poll
    callback give [Abort]; lwIP giving the pcb up gives [Destroyed] (it frees the
    pcb before it reports, and the later report is ignored); an error report
    gives [Reset] for ERR_RST and [Abort] otherwise; a graceful close, also when
    the poll callback repeats it, gives [Close], or [Destroyed] if lwIP reset the
    peer and freed the pcb at once, [Abort] if it failed, and nothing yet if
    memory was short.  In all cases but [Close] the pcb is back in its pool; after
    [Close] lwIP still has it.  The last block queued is that one notification. *)
Theorem termination_reasons P e w u w' : attached P w -> exec P e w = Some (u, w') -> outcome (end_reason e w) w w'.
Proof.
  intros A. destruct (attached_reg _ _ A) as (H1 & H2 & H3 & H4). pose proof (at_held _ _ A) as Hh. unfold exec, user, lwip_cb. rewrite Hh, H1, H2. cbn [andb].
  assert (Hpcb : pcb (conn w) =? 0 = false) by (apply Z.eqb_neq; rewrite (at_pcb _ _ A); by apply (at_nz _ _ A)).
  destruct e; try (intros [= <- <-]).
  - unfold markActive. destruct (_ || _); [done|]. destruct (negb _); [done|]. cbn [end_reason outcome]. cbv zeta. eapply goes_on_trans; [|apply core_goes_on, notifyActiveOnceLocked_core]. done.
  - unfold setInboundDeliveryEnabled. by case_match.
  - case_match; [|done]. intros [= <- <-]. apply ack_goes_on.
  - by apply (write_outcome P).
  - unfold shutdownWrite. by repeat (case_match; [done|]).
  - unfold gracefulClose. rewrite (at_alive _ _ A), Hpcb. by apply (close_outcome P).
  - by eapply abortLocked_ended.
  - done.
  - done.
  - by apply recv_outcome.
  - unfold tf_tcp_sent. rewrite (attached_ok _ _ A). cbn [negb end_reason outcome]. cbv zeta. pose proof (core_goes_on _ _ (updateWritableLocked_core (tf_tcp_write_ready (lw w)) w)) as G. by case_match.
  - by apply poll_outcome.
  - by eapply lwip_abandon_ended.
  - cbn [end_reason]. pose proof (lwip_input_err_ended P e w A) as E. by destruct (bool_decide _).
  - by eapply tcp_free_ended.
  - done.
  - destruct (connectionsQueue w) as [|b q]; [done|]. intros [= E]. cbn [end_reason outcome]. revert E. by destruct b; cbn; repeat case_match; intros [= <- <-].
  - case_match; [|done]. by intros [= <- <-].
  - destruct (packetsQueue w) as [|b q]; [done|]. intros [= <- <-]. by destruct b.
Qed.

(** C35: messaging the callbacks' argument is safe as long as the connection
    object is held, but a graceful close leaves the callbacks registered (the
    pcb pointer is cleared before the step that detaches them): if the user
    then drops the connection and lwIP times the closing pcb out, the bridge
    object is freed with the pcb and the error report messages it afterwards. *)
Theorem closed_callbacks_dangle P w :
  attached P w -> (tcp_close (lw w)).1 = (ERR_OK, false) ->
  (forall es us v, run P es w = Some (us, v) -> conn_held v = true -> fault v = false)
  /\ exists us v, run P [EGracefulClose; ERelease; EAbandon] w = Some (us, v) /\ fault v = true.
Proof.
  intros A Hc. split.
  - intros es. generalize (at_wf _ _ A). clear A Hc. revert w. induction es as [|e es IH]; intros w W us v Hr.
    + injection Hr as <- <-. by apply (wf_fault _ _ W).
    + apply run_cons in Hr as (u & x & us' & He & Hr & _). by eapply IH; [eapply exec_wf|].
  - destruct (attached_reg _ _ A) as (H1 & H2 & H3 & H4), (attached_fresh _ _ A) as [H5 H6].
    pose proof (attached_state _ _ A) as Hs. destruct A as [W Hh Ha Hp Hn]. apply Z.eqb_neq in Hn.
    destruct (tcp_close (lw w)) as [[err fr] t] eqn:Ec. cbn in Hc. injection Hc as -> ->.
    destruct (onTerminated (hs (conn w))) eqn:Ho; eexists _, _; cbn [run]; unfold exec at 1, user; rewrite Hh; unfold gracefulClose, tryGracefulCloseLocked;
    rewrite Ha, Hs, Hp, Hn; cbn [negb orb]; wsimpl; rewrite Ec; cbv beta iota zeta;
    unfold terminateLocked; wsimpl; rewrite H5; change (0 =? 0) with true; cbv iota; wsimpl; rewrite Ho;
    unfold exec, user, lwip_abandon, tcp_free, tf_tcp_extarg_destroy, ref_object, tf_tcp_err, tf_conn_from_arg;
    wsimpl; rewrite Hh; wsimpl; rewrite H1; wsimpl; rewrite H2, H3; wsimpl; rewrite H4;
      change (2 - 1 - 1 <=? 0) with true; split; reflexivity.
Qed.

(** ** The activation time-out *)

(** A connection the user has not activated is rejected by the first poll
    at least ten seconds after it was accepted, also when the 32-bit
    millisecond clock wraps in between; before that the poll leaves it new. *)
Theorem activation_timeout P t0 t1 w :
  attached P w -> state (conn w) = TFTCPConnectionNew -> newStateStartMs (conn w) = u32 t0 ->
  t0 <= t1 < t0 + 2 ^ 32 ->
  let w' := tf_tcp_poll P (u32 t1) w in
  if 10000 <=? t1 - t0 then ended ReasonAbort w' else state (conn w') = TFTCPConnectionNew /\ alive (conn w') = true.
Proof.
  intros A Hs Hm Ht. unfold tf_tcp_poll. rewrite (attached_ok _ _ A). cbn [negb].
  rewrite (bool_decide_eq_true_2 _ Hs), Hm.
  assert (u32 (u32 t1 - u32 t0) = t1 - t0) as -> by (unfold u32; lia).
  unfold kTCPNewStateRejectTimeoutMs. cbn [andb]. destruct (10000 <=? t1 - t0); [by eapply abortLocked_ended|].
  assert (Hpc : pendingClose (conn w) = false).
  { destruct (pendingClose (conn w)) eqn:E; [|done]. apply (wf_pend _ _ (at_wf _ _ A)) in E. congruence. }
  pose proof (updateWritableLocked_core (tf_tcp_write_ready (lw w)) w) as C.
  destruct C as (C1 & _ & C3 & _ & C5 & _). rewrite <- C5, Hpc, <- C1, <- C3. split; [done|by apply (at_alive _ _ A)].
Qed.

(** ** Writing *)

(** [writeData:] is all or nothing: [OK] means lwIP took every byte (and
    was asked to send); every other status means none was taken; only [Error]
    ends the connection, and a write after [shutdownWrite], on a closing or a
    not yet active connection never reaches lwIP. *)
Theorem writeData_all_or_nothing P data w :
  attached P w ->
  let '(n, st, w') := writeData data w in
  match st with
  | TFTCPWriteOK => n = lenz data /\ 0 < n <= 65535 /\ state (conn w) = TFTCPConnectionActive /\ writeFIN (conn w) = false
      /\ (tcp_write (lw w) data).1 = ERR_OK /\ lw w' = tcp_output (tcp_write (lw w) data).2
      /\ writable (conn w') = tf_tcp_write_ready (lw w')
  | TFTCPWriteOverflow => n = 0 /\ w' = w /\ (data = [] \/ 65535 < lenz data)
  | TFTCPWriteClosed => n = 0 /\ w' = w /\ (state (conn w) <> TFTCPConnectionActive \/ writeFIN (conn w) = true)
  | TFTCPWriteWouldBlock => n = 0 /\ (tcp_write (lw w) data).1 = ERR_MEM /\ writable (conn w') = false /\ alive (conn w') = true
  | TFTCPWriteError => n = 0 /\ ended ReasonAbort w'
  end.
Proof.
  intros A. unfold writeData, writeBytes. pose proof (lenz_nonneg data) as Hl.
  destruct (Z.ltb_spec 65535 (lenz data)); [split_and!; try done; by right|].
  destruct (Z.eqb_spec (lenz data) 0); [split_and!; try done; left; by apply nil_length_inv; unfold lenz in *; lia|].
  rewrite (at_alive _ _ A), (at_pcb _ _ A). pose proof (at_nz _ _ A) as Hn. apply Z.eqb_neq in Hn. rewrite Hn. cbn [negb orb].
  destruct (bool_decide (state (conn w) = TFTCPConnectionActive)) eqn:Es; bprop; cbn [negb orb]; [|split_and!; try done; by left].
  destruct (writeFIN (conn w)) eqn:Ef; [split_and!; try done; by right|].
  assert (U : forall b v, writable (conn (updateWritableLocked b v)) = b /\ lw (updateWritableLocked b v) = lw v
     /\ alive (conn (updateWritableLocked b v)) = alive (conn v)).
  { intros b v. unfold updateWritableLocked. destruct (Bool.eqb _ _) eqn:E; [apply Bool.eqb_prop in E|]; by repeat case_match. }
  destruct (tcp_write (lw w) data) as [err t] eqn:Ew. cbn [fst snd].
  destruct err; try (split; [done|]; eapply (abortLocked_ended P);
    destruct A as [W ????]; split; try done; eapply wf_same; [|exact W]; by repeat split).
  - destruct (U (tf_tcp_write_ready (tcp_output t)) (w <| lw := t |> <| lw := tcp_output t |>)) as (U1 & U2 & _).
    wsimpl. split_and!; try done; try lia. rewrite U2. exact U1.
  - destruct (U false (w <| lw := t |>)) as (U1 & _ & U3). split_and!; try done. rewrite U3. by apply (at_alive _ _ A).
Qed.
End ConnectionProps.

(** ** Concrete runs

    A pcb that keeps its windows and resets on close when data is unread. *)
Record sim_tcp := mk_sim { sim_mss : Z; sim_sndbuf : Z; sim_wnd : Z; sim_max : Z }.

#[export] Instance eta_sim : Eta sim_tcp := fun t => mk_sim (sim_mss t) (sim_sndbuf t) (sim_wnd t) (sim_max t).

#[local] Instance sim_api : TcpApi := {|
  tcp := sim_tcp;
  pcb_mss := sim_mss; tcp_sndbuf := sim_sndbuf; rcv_wnd := sim_wnd; wnd_max := sim_max;
  tcp_recved := fun t n => t <| sim_wnd := Z.min (sim_wnd t + n) (sim_max t) |>;
  tcp_write := fun t d => if lenz d <=? sim_sndbuf t then (ERR_OK, t <| sim_sndbuf := sim_sndbuf t - lenz d |>) else (ERR_MEM, t);
  tcp_output := fun t => t;
  tcp_shutdown := fun t _ _ => t;
  tcp_close := fun t => (ERR_OK, negb (sim_wnd t =? sim_max t), t);
  tcp_abort := fun t => t;
  tcp_backlog_accepted := fun t => t;
|}.

#[local] Instance sim_ok : TcpApiOk sim_api.
Proof. split; cbn; intros; try done. by case_match. Qed.

Definition sim_hs (bytes : bool) : handlers := mk_handlers true false bytes true true true true.
Definition sim_deaf : handlers := mk_handlers true false false true true true true.
Definition sim_pcb (wnd : Z) : tcp := mk_sim 1460 16384 wnd 32768.

#[local] Instance sim_opts : Opts := ios.

(** An accepted connection, activated and enabled. *)
Definition sim_new (h : handlers) (wnd : Z) : world := connect 7 5 h (sim_pcb wnd).
Definition sim_active (h : handlers) (wnd : Z) : world :=
  setInboundDeliveryEnabled true (markActive (sim_new h wnd)).

Definition sim_buf (n : Z) : rpbuf := mk_rpbuf 100 [repeat 1 (Z.to_nat n); repeat 2 (Z.to_nat n)].

(** Activate, receive, deliver, acknowledge, release the buffer, abort. *)
Definition sim_run : list (event) :=
  [EMarkActive; ESetInbound true; ERunBlock; ERecv (Some (sim_buf 4)) ERR_OK true; ERunBlock; EAck 8;
   ECompletion 100; ERunPackets; EAbort; ERunBlock].

Definition sim_result : option (list uevent * world) := run 7 sim_run (sim_new (sim_hs true) 32760).
Definition sim_final : list uevent * world :=
  Eval vm_compute in match sim_result with Some r => r | None => ([], sim_new (sim_hs true) 0) end.

Lemma sim_run_ok : run 7 sim_run (sim_new (sim_hs true) 32760) = Some (sim_final.1, sim_final.2).
Proof. vm_compute. reflexivity. Qed.

Lemma sim_attached h wnd : attached 7 (sim_active h wnd).
Proof.
  split; [unfold sim_active|by destruct h as [[]]..|lia].
  assert (W : wf 7 (markActive (sim_new h wnd))) by (apply markActive_wf, connect_wf; lia).
  revert W. generalize (markActive (sim_new h wnd)). intros w W. eapply wf_same; [|exact W].
  unfold setInboundDeliveryEnabled. destruct (Bool.eqb _ _); by repeat split.
Qed.

Lemma sim_new_attached h wnd : attached 7 (sim_new h wnd).
Proof. split; [apply connect_wf; lia|reflexivity|reflexivity|reflexivity|lia]. Qed.

Lemma lifecycle_invariant_witness : wf 7 sim_final.2.
Proof.
  apply (lifecycle_invariant 7 5 (sim_hs true) (sim_pcb 32760) sim_run sim_final.1 sim_final.2);
    [lia|exact sim_run_ok].
Defined.

Lemma notified_at_most_once_witness :
  sim_final.1 = [UActivated; UReadableBytes 100 [4; 4] 8; UTerminated ReasonAbort] /\
  ucount u_term sim_final.1 <= 1 /\ ucount u_act sim_final.1 <= 1.
Proof.
  split; [reflexivity|]. apply (notified_at_most_once 7 5 (sim_hs true) (sim_pcb 32760) sim_run _ sim_final.2 sim_run_ok).
Defined.

Lemma silent_after_termination_witness :
  let w := abort (sim_active (sim_hs true) 32768) in
  match run 7 [ERunBlock; ERunBlock] w with
  | Some (us, w') => us = [UTerminated ReasonAbort] /\ alive (conn w') = false
  | None => False
  end.
Proof.
  cbv zeta. destruct (run 7 [ERunBlock; ERunBlock] (abort (sim_active (sim_hs true) 32768))) as [[us w']|] eqn:E; [|vm_compute in E; discriminate].
  split; [|exact (proj1 (silent_after_termination 7 [ERunBlock; ERunBlock] (abort (sim_active (sim_hs true) 32768)) us w' eq_refl E))].
  vm_compute in E. injection E as <- <-. reflexivity.
Defined.

Lemma buffers_freed_exactly_once_witness : owned sim_final.2 ≡ₚ [100].
Proof.
  exact (proj1 (buffers_freed_exactly_once 7 5 (sim_hs true) (sim_pcb 32760) sim_run _ sim_final.2 sim_run_ok)).
Defined.

Lemma acknowledge_credits_witness :
  let w := upd (fun c => c <| inflightAckBytes := 2000 |>) (sim_active (sim_hs true) 30000) in
  sim_wnd (lw (acknowledgeDeliveredBytes 1500 w)) = 31500.
Proof.
  cbv zeta. set (w := upd _ _).
  destruct (acknowledge_credits 1500 w) as [H _]; [reflexivity|vm_compute; discriminate|reflexivity|lia|vm_compute; discriminate|vm_compute; split; discriminate|exact H].
Defined.

Lemma delivery_conserves_window_witness :
  let r := tf_tcp_recv 7 (Some (sim_buf 500)) ERR_OK true (sim_active (sim_hs true) 31000) in
  r.1 = ERR_OK /\ accounted r.2 = 32000.
Proof.
  pose proof (delivery_conserves_window 7 (sim_buf 500) true (sim_active (sim_hs true) 31000)
    (sim_attached _ _) eq_refl (or_introl eq_refl)) as H.
  cbv zeta in H |- *. destruct H as (H1 & H2 & _); [vm_compute; congruence..|]. split; [exact H1|]. rewrite H2. reflexivity.
Defined.

Lemma drop_counts_twice_witness :
  let r := tf_tcp_recv 7 (Some (sim_buf 500)) ERR_OK true (sim_active sim_deaf 31000) in
  accounted r.2 = 33000.
Proof.
  pose proof (drop_counts_twice 7 (sim_buf 500) true (sim_active sim_deaf 31000)
    (sim_attached _ _) eq_refl eq_refl) as H.
  cbv zeta in H |- *. destruct H as (_ & _ & _ & H); [vm_compute; congruence..|]. rewrite H. reflexivity.
Defined.

Lemma refused_delivery_stalls_witness :
  let w := sim_active (sim_hs true) (32768 - 30000) in
  match run 7 [ERecv (Some (sim_buf 15000)) ERR_OK true; EAck 30000; ERecv (Some (sim_buf 15000)) ERR_OK true] w with
  | Some (us, w') => us = [] /\ rcv_wnd (lw w') = 2768
  | None => False
  end.
Proof.
  cbv zeta. destruct (run 7 _ _) as [[us w']|] eqn:E; [|vm_compute in E; discriminate].
  assert (Hr : Forall (retry (sim_buf 15000))
    [ERecv (Some (sim_buf 15000)) ERR_OK true; EAck 30000; ERecv (Some (sim_buf 15000)) ERR_OK true]) by by repeat constructor.
  destruct (refused_delivery_stalls 7 (sim_buf 15000) _ _ us w' (sim_attached (sim_hs true) (32768 - 30000)) eq_refl
    ltac:(vm_compute; reflexivity) ltac:(vm_compute; reflexivity) Hr E) as (H1 & H2 & _).
  split; [exact H1|rewrite H2; reflexivity].
Defined.

(** The user closes, and lwIP keeps the pcb. *)
Lemma termination_reasons_witness : let w := sim_active (sim_hs true) 32768 in end_reason EGracefulClose w = Some ReasonClose /\ closed (gracefulClose w).
Proof.
  cbv zeta. assert (E : end_reason EGracefulClose (sim_active (sim_hs true) 32768) = Some ReasonClose) by (vm_compute; reflexivity). split; [exact E|].
  assert (Ex : exec 7 EGracefulClose (sim_active (sim_hs true) 32768) = Some (None, gracefulClose (sim_active (sim_hs true) 32768))) by (vm_compute; reflexivity).
  pose proof (termination_reasons 7 EGracefulClose _ None _ (sim_attached (sim_hs true) 32768) Ex) as H. rewrite E in H. exact H.
Defined.

Lemma closed_callbacks_dangle_witness :
  exists us v, run 7 [EGracefulClose; ERelease; EAbandon] (sim_active (sim_hs true) 32768) = Some (us, v) /\ fault v = true.
Proof. exact (proj2 (closed_callbacks_dangle 7 _ (sim_attached (sim_hs true) 32768) eq_refl)). Defined.

Lemma activation_timeout_witness : ended ReasonAbort (tf_tcp_poll 7 (u32 10005) (sim_new (sim_hs true) 32768)).
Proof.
  exact (activation_timeout 7 5 10005 _ (sim_new_attached (sim_hs true) 32768) eq_refl eq_refl ltac:(lia)).
Defined.

Lemma writeData_all_or_nothing_witness :
  let r := writeData [1; 2; 3] (sim_active (sim_hs true) 32768) in
  r.1 = (3, TFTCPWriteOK) /\ sim_sndbuf (lw r.2) = 16381.
Proof.
  pose proof (writeData_all_or_nothing 7 [1; 2; 3] _ (sim_attached (sim_hs true) 32768)) as H.
  cbv zeta. destruct (writeData [1; 2; 3] (sim_active (sim_hs true) 32768)) as [[n st] w'] eqn:E.
  assert (st = TFTCPWriteOK) as -> by (vm_compute in E; congruence).
  destruct H as (-> & _ & _ & _ & _ & Hl & _). split; [reflexivity|]. cbn [snd]. rewrite Hl. reflexivity.
Defined.
