(* ===== verification/Mem.v ===== *)
(** * Mem: the heap allocator, src/Sources/Lwip/src/core/mem.c

    The configuration is lwIP's own first-fit heap ([MEM_LIBC_MALLOC = 0],
    [MEM_USE_POOLS = 0], no overflow checks, no freeing from other contexts).
    A [struct mem *] is its offset in [ram]; the headers found at the offsets
    are a finite map, in which headers of merged blocks stay behind as stale
    memory, as they do in the C heap. *)

From S2P Require Import Prelude Opts.

(** ** Constants (64-bit layout, [MEM_ALIGNMENT = 8], [mem_size_t] = [u32_t]) *)
Definition MEM_ALIGNMENT : Z := 8.
Definition LWIP_MEM_ALIGN_SIZE (size : Z) : Z := Z.land (size + MEM_ALIGNMENT - 1) (Z.lnot (MEM_ALIGNMENT - 1)).
Definition MIN_SIZE_ALIGNED : Z := LWIP_MEM_ALIGN_SIZE 12.
Definition SIZEOF_STRUCT_MEM : Z := LWIP_MEM_ALIGN_SIZE 12.

Lemma align_eq n : LWIP_MEM_ALIGN_SIZE n = (n + 7) / 8 * 8.
Proof.
  unfold LWIP_MEM_ALIGN_SIZE, MEM_ALIGNMENT. replace (n + 8 - 1) with (n + 7) by lia. change (8 - 1) with (Z.ones 3).
  rewrite <- Z.ldiff_land, Z.ldiff_ones_r by lia. rewrite Z.shiftr_div_pow2, Z.shiftl_mul_pow2 by lia. done.
Qed.

(** ** State *)
Record mem_hdr := mk_hdr { next : Z; prev : Z; used : bool }.
#[export] Instance eta_hdr : Eta mem_hdr := fun m => mk_hdr (next m) (prev m) (used m).

Record mem_state := mk_mem { ram : Z; hdrs : gmap Z mem_hdr; lfree : Z }.
#[export] Instance eta_mem : Eta mem_state := fun s => mk_mem (ram s) (hdrs s) (lfree s).

Section Mem.
Context {o : Opts}.

Definition MEM_SIZE_ALIGNED : Z := LWIP_MEM_ALIGN_SIZE MEM_SIZE.
Definition ram_end : Z := MEM_SIZE_ALIGNED.

(** [ptr_to_mem(p)->f = v]. *)
Definition hdr_at (p : Z) (s : mem_state) : option mem_hdr := hdrs s !! p.
Definition put_hdr (p : Z) (m : mem_hdr) (s : mem_state) : mem_state := s <| hdrs := <[p := m]> (hdrs s) |>.
Definition upd_hdr (p : Z) (f : mem_hdr -> mem_hdr) (s : mem_state) : option mem_state :=
  let? m := hdr_at p s in Some (put_hdr p (f m) s).

(** [if (p != MEM_SIZE_ALIGNED) ptr_to_mem(p)->prev = q]. *)
Definition set_prev (p q : Z) (s : mem_state) : option mem_state :=
  if p =? MEM_SIZE_ALIGNED then Some s else upd_hdr p (fun m => m <| prev := q |>) s.

Definition plug_holes (mem : Z) (s : mem_state) : option mem_state :=
  let? m := hdr_at mem s in
  assert! (0 <=? mem) in
  assert! (mem <? ram_end) in
  assert! negb (used m) in
  assert! (next m <=? MEM_SIZE_ALIGNED) in
  let nmem := next m in
  let? n := hdr_at nmem s in
  let? s :=
    (if negb (mem =? nmem) && negb (used n) && negb (nmem =? ram_end) then
       let s := if lfree s =? nmem then s <| lfree := mem |> else s in
       let s := put_hdr mem (m <| next := next n |>) s in
       set_prev (next n) mem s
     else Some s) in
  let? m := hdr_at mem s in
  let pmem := prev m in
  let? pm := hdr_at pmem s in
  if negb (pmem =? mem) && negb (used pm) then
    let s := if lfree s =? mem then s <| lfree := pmem |> else s in
    let s := put_hdr pmem (pm <| next := next m |>) s in
    set_prev (next m) pmem s
  else Some s.

Definition mem_init (heap : Z) : mem_state :=
  {| ram := Z.land (heap + MEM_ALIGNMENT - 1) (Z.lnot (MEM_ALIGNMENT - 1));
     hdrs := <[ram_end := mk_hdr MEM_SIZE_ALIGNED MEM_SIZE_ALIGNED true]>
             (<[0 := mk_hdr MEM_SIZE_ALIGNED 0 false]> ∅);
     lfree := 0 |}.

Definition mem_link_valid (mem : Z) (s : mem_state) : option bool :=
  let? m := hdr_at mem s in
  if (MEM_SIZE_ALIGNED <? next m) || (MEM_SIZE_ALIGNED <? prev m) then Some false
  else
    let? pm := hdr_at (prev m) s in
    if negb (prev m =? mem) && negb (next pm =? mem) then Some false
    else
      let? nm := hdr_at (next m) s in
      Some (negb (negb (next m =? ram_end) && negb (prev nm =? mem))).

(** [LWIP_MEM_ILLEGAL_FREE] is an assertion, hence [None]. *)
Definition mem_free (rmem : Z) (s : mem_state) : option mem_state :=
  if rmem =? 0 then Some s
  else
    assert! (Z.land rmem (MEM_ALIGNMENT - 1) =? 0) in
    let mem := rmem - SIZEOF_STRUCT_MEM - ram s in
    assert! negb ((mem <? 0) || (ram s + ram_end <? rmem + MIN_SIZE_ALIGNED)) in
    let? m := hdr_at mem s in
    assert! used m in
    let? valid := mem_link_valid mem s in
    assert! valid in
    let s := put_hdr mem (m <| used := false |>) s in
    let s := if mem <? lfree s then s <| lfree := mem |> else s in
    plug_holes mem s.

(** [mem_trim]: the pointer (0 for NULL) and the new heap. *)
Definition mem_trim (rmem new_size : Z) (s : mem_state) : option (Z * mem_state) :=
  let newsize := u32 (LWIP_MEM_ALIGN_SIZE new_size) in
  let newsize := if newsize <? MIN_SIZE_ALIGNED then MIN_SIZE_ALIGNED else newsize in
  if (MEM_SIZE_ALIGNED <? newsize) || (newsize <? new_size) then Some (0, s)
  else
    assert! (ram s <=? rmem) && (rmem <? ram s + ram_end) in
    let mem := rmem - SIZEOF_STRUCT_MEM - ram s in
    let ptr := mem in
    let? m := hdr_at mem s in
    let size := u32 (next m - ptr - SIZEOF_STRUCT_MEM) in
    assert! (newsize <=? size) in
    if newsize =? size then Some (rmem, s)
    else
      let mem2 := next m in
      let? m2 := hdr_at mem2 s in
      if negb (used m2) then
        assert! negb (next m =? MEM_SIZE_ALIGNED) in
        let next2 := next m2 in
        let ptr2 := u32 (ptr + SIZEOF_STRUCT_MEM + newsize) in
        let s := if lfree s =? mem2 then s <| lfree := ptr2 |> else s in
        let s := put_hdr ptr2 (mk_hdr next2 ptr false) s in
        let s := put_hdr mem (m <| next := ptr2 |>) s in
        let? s := set_prev next2 ptr2 s in
        Some (rmem, s)
      else if newsize + SIZEOF_STRUCT_MEM + MIN_SIZE_ALIGNED <=? size then
        let ptr2 := u32 (ptr + SIZEOF_STRUCT_MEM + newsize) in
        assert! negb (next m =? MEM_SIZE_ALIGNED) in
        let s := if ptr2 <? lfree s then s <| lfree := ptr2 |> else s in
        let s := put_hdr ptr2 (mk_hdr (next m) ptr false) s in
        let s := put_hdr mem (m <| next := ptr2 |>) s in
        let? s := set_prev (next m) ptr2 s in
        Some (rmem, s)
      else Some (rmem, s).

(** [while (cur->used && cur != ram_end) cur = ptr_to_mem(cur->next)]. *)
Fixpoint adjust_lfree (fuel : nat) (cur : Z) (s : mem_state) : option Z :=
  let? m := hdr_at cur s in
  if used m && negb (cur =? ram_end) then
    match fuel with O => None | S fuel => adjust_lfree fuel (next m) s end
  else Some cur.

(** The offset of the first free block of at least [size] bytes, if any. *)
Fixpoint find_fit (fuel : nat) (size ptr : Z) (s : mem_state) : option (option Z) :=
  if ptr <? MEM_SIZE_ALIGNED - size then
    let? m := hdr_at ptr s in
    if negb (used m) && (size <=? next m - (ptr + SIZEOF_STRUCT_MEM)) then Some (Some ptr)
    else match fuel with O => None | S fuel => find_fit fuel size (next m) s end
  else Some None.

Definition mem_malloc (size_in : Z) (s : mem_state) : option (Z * mem_state) :=
  if size_in =? 0 then Some (0, s)
  else
    let size := u32 (LWIP_MEM_ALIGN_SIZE size_in) in
    let size := if size <? MIN_SIZE_ALIGNED then MIN_SIZE_ALIGNED else size in
    if (MEM_SIZE_ALIGNED <? size) || (size <? size_in) then Some (0, s)
    else
      let? r := find_fit (base.size (hdrs s)) size (lfree s) s in
      match r with
      | None => Some (0, s)
      | Some ptr =>
          let? m := hdr_at ptr s in
          let? s :=
            (if size + SIZEOF_STRUCT_MEM + MIN_SIZE_ALIGNED <=? next m - (ptr + SIZEOF_STRUCT_MEM) then
               let ptr2 := u32 (ptr + SIZEOF_STRUCT_MEM + size) in
               assert! negb (ptr2 =? MEM_SIZE_ALIGNED) in
               let s := put_hdr ptr2 (mk_hdr (next m) ptr false) s in
               let s := put_hdr ptr (mk_hdr ptr2 (prev m) true) s in
               set_prev (next m) ptr2 s
             else Some (put_hdr ptr (m <| used := true |>) s)) in
          let? s :=
            (if ptr =? lfree s then
               let? cur := adjust_lfree (base.size (hdrs s)) (lfree s) s in
               Some (s <| lfree := cur |>)
             else Some s) in
          assert! (ram s + ptr + SIZEOF_STRUCT_MEM + size <=? ram s + ram_end) in
          assert! ((ram s + ptr + SIZEOF_STRUCT_MEM) mod MEM_ALIGNMENT =? 0) in
          assert! (Z.land (ram s + ptr) (MEM_ALIGNMENT - 1) =? 0) in
          Some (ram s + ptr + SIZEOF_STRUCT_MEM, s)
      end.

(** [mem_calloc]; the bytes to clear are the returned count. *)
Definition mem_calloc (count size : Z) (s : mem_state) : option (Z * Z * mem_state) :=
  let alloc_size := u64 (count * size) in
  if negb (u32 alloc_size =? alloc_size) then Some (0, 0, s)
  else let? (p, s) := mem_malloc (u32 alloc_size) s in Some (p, if p =? 0 then 0 else alloc_size, s).

End Mem.
