(* ===== verification/MemFacts.v ===== *)
(** * MemFacts: the heap allocator is correct

    The heap is at all times a list of adjacent blocks that tile
    [0, MEM_SIZE_ALIGNED) with correct links, no two adjacent ones free, and
    [lfree] at the first free one; the live blocks are the used ones.
    [mem_malloc], [mem_free] and [mem_trim] act on the live blocks as an
    allocator should. *)

From S2P Require Import Prelude Opts Mem.

(** ** Block lists

    A block is its offset and its [used] flag; it ends where the next one
    starts, the last one at [e]. *)
Abbreviation block := (Z * bool)%type.

Definition nx (l : list block) (e : Z) : Z := match l with [] => e | (a, _) :: _ => a end.

Fixpoint seg (m : gmap Z mem_hdr) (p : Z) (l : list block) (e : Z) : Prop :=
  match l with
  | [] => True
  | (a, u) :: t => m !! a = Some (mk_hdr (nx t e) p u) /\ a + 32 <= nx t e /\ a mod 8 = 0 /\ seg m a t e
  end.

(** The offset of the last block, [p] if there is none. *)
Definition lastp (p : Z) (l : list block) : Z := match last l with Some (a, _) => a | None => p end.

(** No two adjacent free blocks, given the [used] flag before the list. *)
Fixpoint noadj (pu : bool) (l : list block) : Prop :=
  match l with [] => True | (_, u) :: t => pu || u = true /\ noadj u t end.
Definition lastu (pu : bool) (l : list block) : bool := match last l with Some (_, u) => u | None => pu end.

(** The offset of the first free block, or [e]. *)
Fixpoint first_free (l : list block) (e : Z) : Z :=
  match l with [] => e | (a, u) :: t => if u then first_free t e else a end.

(** The used blocks: address and usable size. *)
Fixpoint live (base : Z) (l : list block) (e : Z) : list (Z * Z) :=
  match l with
  | [] => []
  | (a, u) :: t => (if u then [(base + a + 16, nx t e - a - 16)] else []) ++ live base t e
  end.

(** A free block of at least [n] usable bytes. *)
Fixpoint room (n : Z) (l : list block) (e : Z) : Prop :=
  match l with
  | [] => False
  | (a, u) :: t => (u = false /\ n <= nx t e - a - 16) \/ room n t e
  end.

Lemma nx_app l1 l2 e : nx (l1 ++ l2) e = nx l1 (nx l2 e).
Proof. by destruct l1 as [|[]]. Qed.

Lemma lastp_cons p a u l : lastp p ((a, u) :: l) = lastp a l.
Proof. unfold lastp. destruct l as [|b l]; [done|]. change (last ((a, u) :: b :: l)) with (last (b :: l)). destruct (last (b :: l)) as [[]|] eqn:E; [done|]. by apply last_None in E. Qed.

Lemma lastu_cons p a u l : lastu p ((a, u) :: l) = lastu u l.
Proof. unfold lastu. destruct l as [|b l]; [done|]. change (last ((a, u) :: b :: l)) with (last (b :: l)). destruct (last (b :: l)) as [[]|] eqn:E; [done|]. by apply last_None in E. Qed.

Lemma seg_app m p l1 l2 e : seg m p (l1 ++ l2) e <-> seg m p l1 (nx l2 e) /\ seg m (lastp p l1) l2 e.
Proof.
  revert p. induction l1 as [|[a u] l1 IH]; intros p; [by split; [|intros []]|].
  cbn [app seg]. rewrite nx_app, IH, lastp_cons. tauto.
Qed.

Lemma noadj_app p l1 l2 : noadj p (l1 ++ l2) <-> noadj p l1 /\ noadj (lastu p l1) l2.
Proof.
  revert p. induction l1 as [|[a u] l1 IH]; intros p; [by split; [|intros []]|].
  cbn [app noadj]. rewrite IH, lastu_cons. tauto.
Qed.

Lemma first_free_app l1 l2 e : first_free (l1 ++ l2) e = first_free l1 (first_free l2 e).
Proof. induction l1 as [|[a []] l1 IH]; cbn; congruence. Qed.

Lemma live_app b l1 l2 e : live b (l1 ++ l2) e = live b l1 (nx l2 e) ++ live b l2 e.
Proof. induction l1 as [|[a u] l1 IH]; [done|]. cbn [app live]. by rewrite nx_app, IH, app_assoc. Qed.

Lemma room_app n l1 l2 e : room n (l1 ++ l2) e <-> room n l1 (nx l2 e) \/ room n l2 e.
Proof. induction l1 as [|[a u] l1 IH]; cbn [app room]; [tauto|]. rewrite nx_app, IH. tauto. Qed.

(** ** Bounds and frame *)
Lemma seg_bounds m p l e : seg m p l e ->
  nx l e <= e /\ Forall (fun b => nx l e <= b.1 /\ b.1 + 32 <= e) l.
Proof.
  revert p. induction l as [|[a u] l IH]; intros p; [intros; cbn; split; [lia|constructor]|].
  intros (_ & Hs & _ & Hl). destruct (IH _ Hl) as [H1 H2]. cbn. split; [lia|].
  constructor; [cbn; lia|]. eapply Forall_impl; [exact H2|]. cbn. intros; lia.
Qed.

Lemma seg_frame m p l e x h : seg m p l e -> x < nx l e \/ e <= x -> seg (<[x := h]> m) p l e.
Proof.
  revert p. induction l as [|[a u] l IH]; intros p; [done|]. intros (H1 & H2 & H3 & H4) Hx.
  destruct (seg_bounds _ _ _ _ H4) as [H5 _]. cbn [nx] in Hx.
  cbn. rewrite lookup_insert_ne by lia. split_and!; try done. apply IH; [done|lia].
Qed.

Lemma seg_mod m p l e : seg m p l e -> Forall (fun b => b.1 mod 8 = 0) l.
Proof.
  revert p. induction l as [|[a u] l IH]; intros p; [constructor|].
  intros (_ & _ & H & Hl). constructor; [done|by eapply IH].
Qed.

Lemma seg_sorted m p l e : seg m p l e -> NoDup (map fst l) /\ Forall (fun k => k ∈ dom m) (map fst l).
Proof.
  revert p. induction l as [|[a u] l IH]; intros p; [by split; constructor|].
  intros (H1 & H2 & _ & H4). destruct (IH _ H4) as [I1 I2]. split.
  - constructor; [|done]. intros Hin. apply list_elem_of_fmap in Hin as ([b v] & Eb & Hb). cbn in Eb.
    destruct (seg_bounds _ _ _ _ H4) as [_ F]. rewrite Forall_forall in F. specialize (F _ Hb). cbn in *. lia.
  - constructor; [|done]. cbn. by apply elem_of_dom.
Qed.

Lemma seg_length m p l e : seg m p l e -> (length l <= size m)%nat.
Proof.
  intros H. destruct (seg_sorted _ _ _ _ H) as [H1 H2].
  rewrite <- (length_map fst l), <- size_dom. unfold size, set_size.
  apply submseteq_length, NoDup_submseteq; [done|]. intros x Hx. apply elem_of_elements.
  rewrite Forall_forall in H2. by apply H2.
Qed.

Lemma first_free_bound m p l e : seg m p l e -> nx l e <= first_free l e <= e.
Proof.
  revert p. induction l as [|[a u] l IH]; intros p; cbn; [lia|].
  intros (_ & H2 & _ & H4). specialize (IH _ H4). destruct (seg_bounds _ _ _ _ H4) as [H5 _]. destruct u; lia.
Qed.

(** Either every block is used, or the first free one does not depend on the end. *)
Lemma first_free_cases m p l e : seg m p l e ->
  (Forall (fun b => b.2 = true) l /\ forall x, first_free l x = x) \/
  (first_free l e < e /\ forall x, first_free l x = first_free l e).
Proof.
  revert p. induction l as [|[a []] l IH]; intros p; cbn; [by left| |].
  - intros (_ & _ & _ & S). destruct (IH _ S) as [[F1 F2]|[F1 F2]]; [left; split; [by constructor|done]|by right].
  - intros (_ & H & _ & S). destruct (seg_bounds _ _ _ _ S). right. split; [lia|done].
Qed.

(** Splitting at the first free block. *)
Lemma first_free_split l e : first_free l e = e /\ Forall (fun b => b.2 = true) l \/
  exists l1 l2, l = l1 ++ (first_free l e, false) :: l2 /\ Forall (fun b => b.2 = true) l1.
Proof.
  induction l as [|[a []] l IH]; [left; by split|..].
  - cbn [first_free]. destruct IH as [[H1 H2]|(l1 & l2 & E & F)]; [left; split; [done|by constructor]|].
    right. exists ((a, true) :: l1), l2. split; [by rewrite E at 1|by constructor].
  - right. exists [], l. by split.
Qed.

Lemma first_free_used l e : Forall (fun b : block => b.2 = true) l -> first_free l e = e.
Proof. induction 1 as [|[a u] l Hu _ IH]; [done|]. cbn in *. by rewrite Hu. Qed.

Section MemFacts.
Context {o : Opts} {ok : OptsOk o}.

Lemma end_eq : MEM_SIZE_ALIGNED = MEM_SIZE /\ 65536 <= MEM_SIZE_ALIGNED < 2 ^ 31 /\ MEM_SIZE_ALIGNED mod 8 = 0.
Proof. unfold MEM_SIZE_ALIGNED. rewrite align_eq. pose proof mem_size_range. lia. Qed.

Lemma sizes_eq : MIN_SIZE_ALIGNED = 16 /\ SIZEOF_STRUCT_MEM = 16.
Proof. split; reflexivity. Qed.

Abbreviation END := MEM_SIZE_ALIGNED.

(** ** The invariant *)
Record heap_inv (s : mem_state) (l : list block) : Prop := {
  inv_seg : seg (hdrs s) 0 l END;
  inv_first : nx l END = 0;
  inv_noadj : noadj true l;
  inv_lfree : lfree s = first_free l END;
  inv_end : hdrs s !! END = Some (mk_hdr END END true);
  inv_ram : 0 <= ram s /\ ram s mod 8 = 0;
}.

Definition live_blocks (s : mem_state) (l : list block) : list (Z * Z) := live (ram s) l END.

Lemma set_next_eq a b u x : (mk_hdr a b u) <| next := x |> = mk_hdr x b u.
Proof. done. Qed.

(** The link of the block after the first [l1] is redirected. *)
Lemma set_prev_ok s p l q :
  seg (hdrs s) p l END -> hdrs s !! END = Some (mk_hdr END END true) ->
  exists s', set_prev (nx l END) q s = Some s' /\ ram s' = ram s /\ lfree s' = lfree s
  /\ seg (hdrs s') q l END
  /\ hdrs s' !! END = Some (mk_hdr END END true)
  /\ (forall p0 l0, seg (hdrs s) p0 l0 (nx l END) -> seg (hdrs s') p0 l0 (nx l END)).
Proof.
  intros Hs He. unfold set_prev. destruct l as [|[a u] l]; cbn [nx].
  - rewrite Z.eqb_refl. exists s. by split_and!.
  - destruct Hs as (H1 & H2 & H3 & H4). destruct (seg_bounds _ _ _ _ H4) as [Hb _].
    assert (a =? END = false) as -> by (apply Z.eqb_neq; lia).
    unfold upd_hdr, hdr_at. rewrite H1. eexists. split; [reflexivity|]. split; [done|]. split; [done|].
    cbn [put_hdr hdrs setf]. split_and!; try lia.
    + cbn. rewrite lookup_insert_eq. split_and!; try done. apply seg_frame; [done|lia].
    + by rewrite lookup_insert_ne by lia.
    + intros p0 l0 Hs0. apply seg_frame; [done|lia].
Qed.

(** ** plug_holes *)

(** The heap with the block at [mem] just freed: only the adjacency condition
    may fail around it. *)
Record nearly (s : mem_state) (l1 : list block) (mem : Z) (l2 : list block) : Prop := {
  nr_seg : seg (hdrs s) 0 (l1 ++ (mem, false) :: l2) END;
  nr_first : nx (l1 ++ (mem, false) :: l2) END = 0;
  nr_adj1 : noadj true l1;
  nr_adj2 : noadj true l2;
  nr_lfree : lfree s = first_free (l1 ++ (mem, false) :: l2) END;
  nr_end : hdrs s !! END = Some (mk_hdr END END true);
  nr_ram : 0 <= ram s /\ ram s mod 8 = 0;
}.

Lemma noadj_weaken l : noadj false l -> noadj true l.
Proof. destruct l as [|[a []] l]; cbn; tauto. Qed.

(** Merging with a free block on the right. *)
Lemma merge_next s l1 mem n l2 :
  nearly s l1 mem ((n, false) :: l2) ->
  exists s', set_prev (nx l2 END) mem
    (put_hdr mem (mk_hdr (nx l2 END) (lastp 0 l1) false)
       (if lfree s =? n then s <| lfree := mem |> else s)) = Some s'
  /\ nearly s' l1 mem l2 /\ ram s' = ram s.
Proof.
  intros [Hs Hf A1 A2 Hl He Hr]. set (s1 := put_hdr _ _ _).
  apply seg_app in Hs as [S1 S2]. destruct S2 as (M1 & M2 & M3 & N1 & N2 & N3 & S3). cbn [nx] in *.
  destruct (seg_bounds _ _ _ _ S3) as [Hb _].
  assert (Hh : hdrs s1 = <[mem := mk_hdr (nx l2 END) (lastp 0 l1) false]> (hdrs s)) by (unfold s1; by case_match).
  assert (Hr1 : ram s1 = ram s) by (unfold s1; by case_match).
  assert (Hl1 : lfree s1 = lfree s).
  { unfold s1. case_match; [|done]. bprop. cbn. rewrite first_free_app in Hl. cbn in Hl.
    pose proof (first_free_bound _ _ _ _ S1). lia. }
  destruct (set_prev_ok s1 n l2 mem) as (s' & E & E1 & E2 & E3 & E4 & E5).
  { rewrite Hh. apply seg_frame; [done|lia]. }
  { by rewrite Hh, lookup_insert_ne by lia. }
  exists s'. split; [done|]. split; [|congruence]. constructor.
  - apply seg_app. cbn [nx seg]. split_and!; try done; try lia.
    + assert (S1' : seg (hdrs s1) 0 (l1 ++ [(mem, false)]) (nx l2 END)).
      { apply seg_app. cbn [seg nx]. rewrite Hh, lookup_insert_eq. split_and!; try done; try lia. apply seg_frame; [done|lia]. }
      apply E5 in S1'. apply seg_app in S1' as [S1' _]. exact S1'.
    + assert (S1' : seg (hdrs s1) (lastp 0 l1) [(mem, false)] (nx l2 END)).
      { cbn [seg nx]. rewrite Hh, lookup_insert_eq. split_and!; try done; lia. }
      apply E5 in S1'. apply S1'.
  - rewrite nx_app in *. exact Hf.
  - done.
  - by destruct A2 as [_ A2]; apply noadj_weaken.
  - rewrite E2, Hl1, Hl, !first_free_app. done.
  - done.
  - by rewrite E1, Hr1.
Qed.

(** Merging with a free block on the left. *)
Lemma merge_prev s l1 p mem l2 :
  nearly s (l1 ++ [(p, false)]) mem l2 -> noadj false l2 ->
  exists s', set_prev (nx l2 END) p
    (put_hdr p (mk_hdr (nx l2 END) (lastp 0 l1) false)
       (if lfree s =? mem then s <| lfree := p |> else s)) = Some s'
  /\ heap_inv s' (l1 ++ (p, false) :: l2) /\ ram s' = ram s.
Proof.
  intros [Hs Hf A1 _ Hl He Hr] A2. set (s1 := put_hdr _ _ _). rewrite <- app_assoc in *. cbn [app] in *.
  apply seg_app in Hs as [S1 S2]. destruct S2 as (M1 & M2 & M3 & N1 & N2 & N3 & S3). cbn [nx] in *.
  destruct (seg_bounds _ _ _ _ S3) as [Hb _]. apply noadj_app in A1 as [A1 A3]. cbn in A3.
  assert (Hh : hdrs s1 = <[p := mk_hdr (nx l2 END) (lastp 0 l1) false]> (hdrs s)) by (unfold s1; by case_match).
  assert (Hr1 : ram s1 = ram s) by (unfold s1; by case_match).
  assert (Hl1 : lfree s1 = lfree s).
  { unfold s1. case_match; [|done]. bprop. cbn. rewrite first_free_app in Hl. cbn in Hl.
    pose proof (first_free_bound _ _ _ _ S1). lia. }
  destruct (set_prev_ok s1 mem l2 p) as (s' & E & E1 & E2 & E3 & E4 & E5).
  { rewrite Hh. apply seg_frame; [done|lia]. }
  { by rewrite Hh, lookup_insert_ne by lia. }
  assert (S1' : seg (hdrs s') 0 (l1 ++ [(p, false)]) (nx l2 END)).
  { apply E5, seg_app. cbn [seg nx]. rewrite Hh, lookup_insert_eq. split_and!; try done; try lia. apply seg_frame; [done|lia]. }
  exists s'. split; [done|]. split; [|congruence]. constructor.
  - rewrite (cons_middle (p, false)), app_assoc. apply seg_app. split; [done|]. unfold lastp. by rewrite last_snoc.
  - rewrite nx_app in *. exact Hf.
  - apply noadj_app. split; [done|]. cbn. split; [apply A3|done].
  - rewrite E2, Hl1, Hl, !first_free_app. done.
  - done.
  - by rewrite E1, Hr1.
Qed.

(** [plug_holes] restores the invariant and keeps the live blocks. *)
Lemma plug_holes_ok s l1 mem l2 :
  nearly s l1 mem l2 ->
  exists s' l', plug_holes mem s = Some s' /\ heap_inv s' l' /\ ram s' = ram s
  /\ live_blocks s' l' = live_blocks s (l1 ++ (mem, false) :: l2).
Proof.
  intros N. pose proof N as [Hs Hf A1 A2 Hl He Hr]. apply seg_app in Hs as [S1 S2].
  destruct S2 as (M1 & M2 & M3 & S3). destruct (seg_bounds _ _ _ _ S3) as [Hb _].
  destruct (seg_bounds _ _ _ _ S1) as [Hb1 _]. rewrite nx_app in Hf. cbn [nx] in Hf, Hb1.
  unfold plug_holes, hdr_at, ram_end. rewrite M1. cbn [next used prev]. cbn [negb].
  destruct (Z.leb_spec 0 mem); [|lia]. destruct (Z.ltb_spec mem END); [|lia]. destruct (Z.leb_spec (nx l2 END) END); [|lia].
  set (post := fun s' l2' => nearly s' l1 mem l2' /\ noadj false l2' /\ ram s' = ram s
    /\ live (ram s) l2' END = live (ram s) l2 END).
  assert (Step : exists n s' l2', hdrs s !! nx l2 END = Some n /\
    (if negb (mem =? nx l2 END) && negb (used n) && negb (nx l2 END =? END)
     then set_prev (next n) mem (put_hdr mem (mk_hdr (next n) (lastp 0 l1) false)
            (if lfree s =? nx l2 END then s <| lfree := mem |> else s))
     else Some s) = Some s' /\ post s' l2').
  { destruct l2 as [|[n [|]] l2]; cbn [nx] in *.
    - eexists _, s, []. split; [exact He|]. cbn [used negb]. rewrite andb_false_r. by split_and!.
    - destruct S3 as (N1 & _). eexists _, s, ((n, true) :: l2). split; [exact N1|]. cbn [used negb]. rewrite andb_false_r. by split_and!.
    - pose proof S3 as (N1 & N2 & _ & S4). destruct (seg_bounds _ _ _ _ S4) as [Hb2 _].
      destruct (merge_next _ _ _ _ _ N) as (s' & E & N' & Er).
      eexists _, s', l2. rewrite N1. cbn [used next]. split; [done|]. split.
      + assert (mem =? n = false) as -> by (apply Z.eqb_neq; lia). assert (n =? END = false) as -> by (apply Z.eqb_neq; lia).
        cbn [negb andb]. exact E.
      + destruct A2 as [_ A2]. by split_and!. }
  destruct Step as (n & s1 & l2' & -> & Es & N1 & A3 & Hr1 & Hlv).
  rewrite set_next_eq, Es. clear Es.
  pose proof N1 as [Hs' _ _ _ _ _ _]. apply seg_app in Hs' as [S1' S2']. destruct S2' as (M1' & M2' & M3' & S3').
  rewrite M1'. cbn [prev next].
  assert (Hlive : live_blocks s1 (l1 ++ (mem, false) :: l2') = live_blocks s (l1 ++ (mem, false) :: l2)).
  { unfold live_blocks. rewrite !live_app. cbn. rewrite Hr1, Hlv. done. }
  assert (Stay : noadj (lastu true l1 && true) l2' -> lastu true l1 = true -> heap_inv s1 (l1 ++ (mem, false) :: l2')).
  { intros _ Hu. destruct N1. constructor; try done. apply noadj_app. split; [done|]. cbn. by rewrite Hu. }
  destruct (list_snoc_destruct l1) as [->|(l1' & [p [|]] & ->)].
  - cbn [app nx lastp last] in *. rewrite Hf in *. rewrite M1'. rewrite Z.eqb_refl. cbn [negb andb].
    exists s1, ((0, false) :: l2'). split_and!; try done. apply Stay; [|done]. by apply noadj_weaken.
  - unfold lastp in *. rewrite last_snoc in *. apply seg_app in S1' as [_ (P1 & P2 & _)]. rewrite P1. cbn [used negb].
    rewrite andb_false_r. eexists s1, _. split_and!; [done| |done|exact Hlive].
    apply Stay; unfold lastu; rewrite last_snoc; [by apply noadj_weaken|done].
  - unfold lastp in *. rewrite last_snoc in *. pose proof S1' as S1''. apply seg_app in S1'' as [_ (P1 & P2 & _)]. rewrite P1. cbn [used].
    cbn [nx] in P2. assert (p =? mem = false) as -> by (apply Z.eqb_neq; lia). cbn [negb andb].
    destruct (merge_prev _ _ _ _ _ N1 A3) as (s' & E & I & Er). cbn [setf prev next used]. rewrite set_next_eq. exists s'. eexists.
    split_and!; [exact E|exact I|congruence|]. rewrite <- Hlive. unfold live_blocks. rewrite Er, <- app_assoc. cbn [app].
    rewrite !live_app. cbn. done.
Qed.

(** ** mem_free *)

Lemma live_split b l e p k : (p, k) ∈ live b l e ->
  exists l1 a l2, l = l1 ++ (a, true) :: l2 /\ p = b + a + 16 /\ k = nx l2 e - a - 16.
Proof.
  induction l as [|[a u] l IH]; cbn; [by intros ?%not_elem_of_nil|].
  intros [H|H]%elem_of_app.
  - destruct u; [|by apply not_elem_of_nil in H]. apply list_elem_of_singleton in H. simplify_eq. by exists [], a, l.
  - destruct (IH H) as (l1 & c & l2 & -> & -> & ->). by exists ((a, u) :: l1), c, l2.
Qed.

Lemma land7 z : Z.land z (MEM_ALIGNMENT - 1) = z mod 8.
Proof. unfold MEM_ALIGNMENT. change (8 - 1) with (Z.ones 3). by rewrite Z.land_ones. Qed.

Lemma link_valid_ok s l1 a u l2 :
  heap_inv s (l1 ++ (a, u) :: l2) -> mem_link_valid a s = Some true.
Proof.
  intros [Hs Hf _ _ He _]. apply seg_app in Hs as [S1 S2]. destruct S2 as (M1 & M2 & M3 & S3).
  destruct (seg_bounds _ _ _ _ S3) as [Hb _]. rewrite nx_app in Hf. cbn [nx] in *.
  destruct (seg_bounds _ _ _ _ S1) as [Hb1 _].
  unfold mem_link_valid, hdr_at, ram_end. rewrite M1. cbn [next prev].
  destruct (Z.ltb_spec END (nx l2 END)); [lia|].
  assert (Hp : lastp 0 l1 <= a /\ exists pm, hdrs s !! lastp 0 l1 = Some pm /\ (lastp 0 l1 = a \/ next pm = a)).
  { destruct (list_snoc_destruct l1) as [->|(l1' & [p v] & ->)].
    - cbn in *. subst a. split; [lia|]. rewrite M1. eauto.
    - unfold lastp. rewrite last_snoc. apply seg_app in S1 as [_ (P1 & P2 & _)]. cbn [nx] in *. split; [lia|]. rewrite P1. eauto. }
  destruct Hp as (Hp & pm & -> & Hn). destruct (Z.ltb_spec END (lastp 0 l1)); [lia|]. cbn [orb].
  assert (negb (lastp 0 l1 =? a) && negb (next pm =? a) = false) as ->.
  { destruct (Z.eqb_spec (lastp 0 l1) a), (Z.eqb_spec (next pm) a); cbn; try done. by destruct Hn. }
  destruct l2 as [|[b v] l2]; cbn [nx].
  - rewrite He, Z.eqb_refl. done.
  - destruct S3 as (N1 & _). rewrite N1. cbn [prev]. rewrite Z.eqb_refl. by rewrite andb_false_r.
Qed.

(** [mem_free] of a live block succeeds, keeps the heap well-formed (the
    freed block merged with its free neighbours) and removes exactly that
    block from the live ones. *)
Lemma mem_free_ok s l p k :
  heap_inv s l -> (p, k) ∈ live_blocks s l ->
  exists s' l', mem_free p s = Some s' /\ heap_inv s' l' /\ ram s' = ram s
  /\ live_blocks s l ≡ₚ (p, k) :: live_blocks s' l'.
Proof.
  intros I Hp. apply live_split in Hp as (l1 & a & l2 & -> & -> & ->).
  pose proof (link_valid_ok _ _ _ _ _ I) as Hv. destruct I as [Hs Hf Ha Hl He Hr].
  pose proof Hs as Hs'. apply seg_app in Hs' as [S1 (M1 & M2 & M3 & S3)].
  destruct (seg_bounds _ _ _ _ S3) as [Hb _]. rewrite nx_app in Hf. cbn [nx] in *.
  destruct (seg_bounds _ _ _ _ S1) as [Hb1 _]. destruct sizes_eq as [Z1 Z2].
  unfold mem_free. rewrite land7, Z2, Z1. unfold ram_end.
  destruct (Z.eqb_spec (ram s + a + 16) 0); [lia|].
  assert ((ram s + a + 16) mod 8 =? 0 = true) as -> by (apply Z.eqb_eq; lia).
  replace (ram s + a + 16 - 16 - ram s) with a by lia.
  destruct (Z.ltb_spec a 0); [lia|]. destruct (Z.ltb_spec (ram s + END) (ram s + a + 16 + 16)); [lia|].
  cbn [orb negb]. unfold hdr_at. rewrite M1, Hv. cbn [used].
  set (s0 := put_hdr a _ s). set (s1 := if a <? lfree s0 then _ else _).
  assert (Hh : hdrs s1 = <[a := mk_hdr (nx l2 END) (lastp 0 l1) false]> (hdrs s)) by (unfold s1; by case_match).
  assert (Hr1 : ram s1 = ram s) by (unfold s1; by case_match).
  apply noadj_app in Ha as [A1 [_ A2]].
  assert (N : nearly s1 l1 a l2).
  { constructor; try done.
    - apply seg_app. cbn [seg nx]. rewrite Hh, lookup_insert_eq. split_and!; try done; apply seg_frame; try done; lia.
    - by rewrite nx_app.
    - pose proof (first_free_bound _ _ _ _ S3). rewrite first_free_app in Hl |- *. cbn [first_free] in Hl |- *.
      change (lfree s0) with (lfree s) in s1. subst s1.
      destruct (Z.ltb_spec a (lfree s)), (first_free_cases _ _ _ _ S1) as [[F1 F2]|[F1 F2]];
        pose proof (F2 a); pose proof (F2 (first_free l2 END)); cbn [setf lfree]; change (lfree s0) with (lfree s); lia.
    - by rewrite Hh, lookup_insert_ne by lia.
    - by rewrite Hr1. }
  destruct (plug_holes_ok _ _ _ _ N) as (s' & l' & E & I' & Er & Elv).
  exists s', l'. split_and!; [exact E|done|congruence|]. rewrite Elv. unfold live_blocks. rewrite !live_app, Hr1. cbn.
  by rewrite Permutation_middle.
Qed.

(** ** mem_malloc *)

Lemma adjust_lfree_ok s p l fuel :
  seg (hdrs s) p l END -> hdrs s !! END = Some (mk_hdr END END true) -> (length l <= fuel)%nat ->
  adjust_lfree fuel (nx l END) s = Some (first_free l END).
Proof.
  revert p l. induction fuel as [|fuel IH]; intros p l Hs He Hf.
  - destruct l; [|cbn in Hf; lia]. cbn. unfold hdr_at. rewrite He. cbn. by rewrite Z.eqb_refl.
  - destruct l as [|[a u] l]; cbn [nx first_free].
    + cbn. unfold hdr_at. rewrite He. cbn. by rewrite Z.eqb_refl.
    + destruct Hs as (H1 & H2 & H3 & H4). destruct (seg_bounds _ _ _ _ H4) as [Hb _].
      cbn [adjust_lfree]. unfold hdr_at, ram_end. rewrite H1. cbn [used next].
      assert (a =? END = false) as -> by (apply Z.eqb_neq; lia).
      destruct u; cbn [andb negb]; [|done]. eapply IH; [done|done|cbn in Hf; lia].
Qed.

Lemma find_fit_ok s p l n fuel :
  seg (hdrs s) p l END -> 0 <= n -> (length l <= fuel)%nat ->
  (find_fit fuel n (nx l END) s = Some None /\ ~ room n l END) \/
  (exists l1 a l2, l = l1 ++ (a, false) :: l2 /\ find_fit fuel n (nx l END) s = Some (Some a) /\ n <= nx l2 END - a - 16).
Proof.
  revert p l. induction fuel as [|fuel IH]; intros p l Hs Hn Hf;
    (destruct l as [|[a u] l]; [left; cbn; split; [|tauto]; destruct (Z.ltb_spec END (END - n)); [lia|done]|]);
    [cbn in Hf; lia|].
  destruct Hs as (H1 & H2 & H3 & H4). destruct (seg_bounds _ _ _ _ H4) as [Hb Fb].
  cbn [find_fit nx]. unfold hdr_at. destruct sizes_eq as [_ ->]. destruct (Z.ltb_spec a (END - n)).
  - rewrite H1. cbn [used next]. destruct (negb u && (n <=? nx l END - (a + 16))) eqn:E.
    + bprop. subst u. right. exists [], a, l. split_and!; try done. lia.
    + destruct (IH a l H4 Hn ltac:(cbn in Hf; lia)) as [[E1 E2]|(l1 & b & l2 & -> & E1 & E2)].
      * left. split; [done|]. cbn. intros [[-> Hr]|Hr]; [|tauto]. cbn in E. bprop. lia.
      * right. by exists ((a, u) :: l1), b, l2.
  - left. split; [done|]. intros Hr. assert (R : forall l, room n l END -> forall q, seg (hdrs s) q l END -> END - n <= nx l END -> False).
    { clear - Hn. induction l as [|[b v] l IH]; cbn; [done|]. intros [[_ Hr]|Hr] q (_ & S2 & _ & S4) Hq;
        destruct (seg_bounds _ _ _ _ S4) as [Sb _]; [lia|]. eapply IH; [done|done|lia]. }
    eapply (R ((a, u) :: l) Hr p); [by repeat split|cbn; lia].
Qed.

(** Carving the block at [a]: its header now says [used], and the rest of it,
    when large enough, becomes a free block. *)
Lemma carve_ok s l1 a l2 n :
  heap_inv s (l1 ++ (a, false) :: l2) -> 16 <= n <= nx l2 END - a - 16 -> n mod 8 = 0 ->
  let m := mk_hdr (nx l2 END) (lastp 0 l1) false in
  exists s' lt,
    (if n + SIZEOF_STRUCT_MEM + MIN_SIZE_ALIGNED <=? next m - (a + SIZEOF_STRUCT_MEM) then
       let ptr2 := u32 (a + SIZEOF_STRUCT_MEM + n) in
       assert! negb (ptr2 =? MEM_SIZE_ALIGNED) in
       let s := put_hdr ptr2 (mk_hdr (next m) a false) s in
       let s := put_hdr a (mk_hdr ptr2 (prev m) true) s in
       set_prev (next m) ptr2 s
     else Some (put_hdr a (m <| used := true |>) s)) = Some s'
  /\ seg (hdrs s') 0 (l1 ++ (a, true) :: lt) END /\ noadj true lt
  /\ hdrs s' !! END = Some (mk_hdr END END true) /\ ram s' = ram s /\ lfree s' = lfree s
  /\ n <= nx lt END - a - 16 /\ live (ram s) lt END = live (ram s) l2 END.
Proof.
  intros [Hs Hf Ha Hl He Hr] Hn Hm. cbv zeta. destruct sizes_eq as [-> ->]. cbn [next prev].
  apply seg_app in Hs as [S1 (M1 & M2 & M3 & S3)]. apply noadj_app in Ha as [A1 [A2 A3]].
  destruct (seg_bounds _ _ _ _ S3) as [Hb _]. destruct (seg_bounds _ _ _ _ S1) as [Hb1 _].
  rewrite nx_app in Hf. cbn [nx] in *. pose proof end_eq as [_ [He2 _]].
  destruct (Z.leb_spec (n + 16 + 16) (nx l2 END - (a + 16))).
  - assert (u32 (a + 16 + n) = a + 16 + n) as -> by zlia.
    assert (a + 16 + n =? END = false) as -> by (apply Z.eqb_neq; lia). cbn [negb].
    set (s1 := put_hdr a _ _).
    assert (Hh : hdrs s1 = <[a := mk_hdr (a + 16 + n) (lastp 0 l1) true]>
      (<[a + 16 + n := mk_hdr (nx l2 END) a false]> (hdrs s))) by done.
    destruct (set_prev_ok s1 a l2 (a + 16 + n)) as (s' & -> & E1 & E2 & E3 & E4 & E5).
    { rewrite Hh. do 2 (apply seg_frame; [|lia]). done. }
    { rewrite Hh. by rewrite !lookup_insert_ne by lia. }
    exists s', ((a + 16 + n, false) :: l2).
    assert (S' : seg (hdrs s') 0 (l1 ++ [(a, true); (a + 16 + n, false)]) (nx l2 END)).
    { apply E5, seg_app. cbn [seg nx]. rewrite Hh, lookup_insert_eq.
      rewrite lookup_insert_ne by lia. rewrite lookup_insert_eq. split_and!; try done; try lia.
      do 2 (apply seg_frame; [|lia]). done. }
    split_and!; try done; try (cbn; lia).
    replace (l1 ++ (a, true) :: (a + 16 + n, false) :: l2) with ((l1 ++ [(a, true); (a + 16 + n, false)]) ++ l2)
      by by rewrite <- app_assoc.
    apply seg_app. split; [done|]. unfold lastp. rewrite last_app. done.
  - eexists _, l2. split; [reflexivity|]. cbn [put_hdr setf hdrs]. split_and!; try done; try lia.
    + apply seg_app. cbn [seg nx]. rewrite lookup_insert_eq. split_and!; try done; apply seg_frame; try done; lia.
    + by apply noadj_weaken.
    + by rewrite lookup_insert_ne by lia.
Qed.

(** The size [mem_malloc] and [mem_trim] round a request up to. *)
Definition rounded (n : Z) : Z := Z.max 16 (LWIP_MEM_ALIGN_SIZE n).

Lemma rounded_ok n : 0 <= n -> n <= rounded n /\ 16 <= rounded n /\ rounded n mod 8 = 0.
Proof. intros. unfold rounded. rewrite align_eq. lia. Qed.

(** The size computation of [mem_malloc] and [mem_trim], with its 32-bit wrap. *)
Definition request (n : Z) : Z :=
  if u32 (LWIP_MEM_ALIGN_SIZE n) <? 16 then 16 else u32 (LWIP_MEM_ALIGN_SIZE n).

Lemma request_too_big n : 0 <= n < 2 ^ 32 -> (END <? request n) || (request n <? n) = true -> END < rounded n.
Proof.
  unfold request, rounded. rewrite align_eq. pose proof end_eq as (_ & He & _). intros Hn.
  destruct (u32 ((n + 7) / 8 * 8) <? 16) eqn:?; intros [E|E]%orb_true_iff; bprop; zlia.
Qed.

Lemma request_fits n : 0 <= n < 2 ^ 32 -> (END <? request n) || (request n <? n) = false -> request n = rounded n /\ rounded n <= END.
Proof.
  unfold request, rounded. rewrite align_eq. pose proof end_eq as (_ & He & _). intros Hn.
  destruct (u32 ((n + 7) / 8 * 8) <? 16) eqn:?; intros [E1 E2]%orb_false_iff; bprop; zlia.
Qed.

Lemma room_bound s p n l : seg (hdrs s) p l END -> room n l END -> nx l END + n + 16 <= END.
Proof.
  revert p. induction l as [|[a u] l IH]; cbn; [done|]. intros p (_ & H2 & _ & H4) [[_ H]|H];
    destruct (seg_bounds _ _ _ _ H4) as [Hb _]; [lia|]. specialize (IH _ H4 H). lia.
Qed.

Lemma room_used n l e : Forall (fun b : block => b.2 = true) l -> ~ room n l e.
Proof. induction 1 as [|[a u] l Hu _ IH]; cbn in *; [tauto|]. intros [[-> _]|H]; [done|tauto]. Qed.

(** The suffix of the block list that starts at [lfree]. *)
Lemma suffix_from_lfree s l : heap_inv s l ->
  exists l0 lt, l = l0 ++ lt /\ nx lt END = lfree s /\ Forall (fun b => b.2 = true) l0.
Proof.
  intros I. destruct (first_free_split l END) as [[H1 H2]|(l1 & l2 & E & F)].
  - exists l, []. rewrite app_nil_r. split_and!; [done|by rewrite (inv_lfree _ _ I), H1|done].
  - exists l1, ((first_free l END, false) :: l2). split_and!; [done|by rewrite (inv_lfree _ _ I)|done].
Qed.

(** After the block at [a] was taken, [lfree] is moved on if it pointed there. *)
Lemma lfree_ok s s1 l1 a l4 lt :
  lfree s = first_free (l1 ++ (a, false) :: l4) END -> seg (hdrs s) 0 l1 a ->
  seg (hdrs s1) 0 (l1 ++ (a, true) :: lt) END -> hdrs s1 !! END = Some (mk_hdr END END true) -> lfree s1 = lfree s ->
  exists s2, (if a =? lfree s1 then let? cur := adjust_lfree (size (hdrs s1)) (lfree s1) s1 in Some (s1 <| lfree := cur |>)
              else Some s1) = Some s2
  /\ hdrs s2 = hdrs s1 /\ ram s2 = ram s1 /\ lfree s2 = first_free (l1 ++ (a, true) :: lt) END.
Proof.
  intros Hl S1 C1 C3 C5. rewrite first_free_app in Hl |- *. cbn [first_free] in Hl |- *. rewrite C5.
  destruct (Z.eqb_spec a (lfree s)) as [Ea|Ea].
  - pose proof (seg_length _ _ _ _ C1) as Hlen1. rewrite length_app in Hlen1. apply seg_app in C1 as [D1 D2].
    assert (Ead : adjust_lfree (size (hdrs s1)) a s1 = Some (first_free ((a, true) :: lt) END))
      by (apply (adjust_lfree_ok s1 (lastp 0 l1) ((a, true) :: lt)); [done|done|lia]).
    rewrite <- Ea, Ead. eexists. split; [done|]. split_and!; try done. cbn [setf lfree first_free].
    destruct (first_free_cases _ _ _ _ S1) as [[_ F]|[F _]]; [by rewrite F|lia].
  - exists s1. split_and!; try done.
    destruct (first_free_cases _ _ _ _ S1) as [[_ F]|[_ F]]; [rewrite F in Hl; lia|]. by rewrite C5, F.
Qed.

(** [mem_malloc] of a positive size never fails an assertion and keeps the
    heap well-formed; it returns NULL exactly when no free block is large
    enough for the rounded size, and then changes nothing; otherwise it returns
    an aligned block of at least the requested size, and the live blocks are
    the former ones and this one. *)
Lemma mem_malloc_ok s l n :
  heap_inv s l -> 0 < n < 2 ^ 32 ->
  exists p s' l', mem_malloc n s = Some (p, s') /\ heap_inv s' l' /\ ram s' = ram s
  /\ (p = 0 /\ s' = s /\ ~ room (rounded n) l END \/
      0 < p /\ p mod 8 = 0 /\ exists k, n <= k /\ live_blocks s' l' ≡ₚ (p, k) :: live_blocks s l).
Proof.
  intros I Hn. destruct (rounded_ok n) as (R1 & R2 & R3); [lia|]. pose proof end_eq as [_ [He2 He3]].
  unfold mem_malloc. destruct (Z.eqb_spec n 0); [lia|]. destruct sizes_eq as [Z1 Z2]. rewrite Z1.
  destruct (_ || _) eqn:Eg; [apply request_too_big in Eg; [|lia]|apply request_fits in Eg as [Erq Eg]; [unfold request in Erq; rewrite Erq|lia]].
  { exists 0, s, l. split_and!; try done. left. split_and!; try done. intros Hroom.
    apply (room_bound s 0) in Hroom; [|apply I]. rewrite (inv_first _ _ I) in Hroom. lia. }
  destruct (suffix_from_lfree _ _ I) as (l0 & lt & -> & Hlt & Hu). pose proof (inv_seg _ _ I) as Hs.
  pose proof (seg_length _ _ _ _ Hs) as Hlen. rewrite length_app in Hlen. apply seg_app in Hs as [S0 St].
  destruct (find_fit_ok s _ lt (rounded n) (size (hdrs s)) St) as [[Ef Hno]|(l3 & a & l4 & -> & Ef & Hfit)]; [lia|lia| |];
    rewrite Hlt in Ef; rewrite Ef; clear Ef.
  { exists 0, s, (l0 ++ lt). split_and!; try done. left. split_and!; try done. rewrite room_app. intros [Hu'|Hu']; [|tauto].
    by apply room_used in Hu'. }
  rewrite app_assoc in *. set (l1 := l0 ++ l3) in *. pose proof I as [Hs Hf Ha Hl He Hr].
  apply seg_app in Hs as [S1 (M1 & M2 & M3 & S4)]. unfold hdr_at at 1. rewrite M1.
  cbn [nx] in S1. destruct (seg_bounds _ _ _ _ S1) as [Hb1 _]. rewrite nx_app in Hf. cbn [nx] in Hf.
  destruct (carve_ok _ _ _ _ (rounded n) I) as (s1 & lt' & E & C1 & C2 & C3 & C4 & C5 & C6 & C7); [lia|done|].
  cbv zeta in E. rewrite Z1 in E. rewrite E. clear E.
  pose proof C1 as C1'. apply seg_app in C1' as [D1 D2].
  destruct (seg_bounds _ _ _ _ (proj2 (proj2 (proj2 D2)))) as [D3 _].
  destruct (lfree_ok s s1 l1 a l4 lt' Hl S1 C1 C3 C5) as (s2 & -> & L1 & L2 & L3).
  rewrite Z2, L2, C4, land7. unfold ram_end, MEM_ALIGNMENT.
  destruct (Z.leb_spec (ram s + a + 16 + rounded n) (ram s + END)); [|lia].
  assert ((ram s + a + 16) mod 8 =? 0 = true) as -> by (apply Z.eqb_eq; lia).
  assert ((ram s + a) mod 8 =? 0 = true) as -> by (apply Z.eqb_eq; lia).
  exists (ram s + a + 16), s2, (l1 ++ (a, true) :: lt'). split; [done|]. split; [|split; [congruence|]].
  - constructor; try (by rewrite ?L1, ?L2, ?C4); [by rewrite nx_app|].
    apply noadj_app in Ha as [A1 [A2 _]]. apply noadj_app. split; [done|]. cbn. by rewrite orb_true_r.
  - right. split_and!; [lia|lia|]. exists (nx lt' END - a - 16). split; [lia|].
    unfold live_blocks. rewrite !live_app, L2, C4. cbn. rewrite C7. by rewrite Permutation_middle.
Qed.

(** ** mem_trim *)

(** Replacing the tail after the used block at [a] by a free block at [c]. *)
Lemma retail_ok s l1 a tl c l2 :
  seg (hdrs s) 0 (l1 ++ (a, true) :: tl) END -> hdrs s !! END = Some (mk_hdr END END true) ->
  (exists q, seg (hdrs s) q l2 END) -> a + 32 <= c -> c + 32 <= nx l2 END -> c mod 8 = 0 ->
  forall s1, hdrs s1 = hdrs s ->
  exists s', set_prev (nx l2 END) c
    (put_hdr a (mk_hdr c (lastp 0 l1) true) (put_hdr c (mk_hdr (nx l2 END) a false) s1)) = Some s'
  /\ seg (hdrs s') 0 (l1 ++ (a, true) :: (c, false) :: l2) END /\ hdrs s' !! END = Some (mk_hdr END END true)
  /\ ram s' = ram s1 /\ lfree s' = lfree s1.
Proof.
  intros Hs He [q Sq] H1 H2 H3 s1 Hh1. apply seg_app in Hs as [S1 (M1 & M2 & M3 & _)]. cbn [nx] in S1.
  destruct (seg_bounds _ _ _ _ Sq) as [Hb _]. destruct (seg_bounds _ _ _ _ S1) as [Hb1 _]. set (s2 := put_hdr a _ _).
  assert (Hh : hdrs s2 = <[a := mk_hdr c (lastp 0 l1) true]> (<[c := mk_hdr (nx l2 END) a false]> (hdrs s)))
    by (unfold s2; cbn; by rewrite Hh1).
  destruct (set_prev_ok s2 q l2 c) as (s' & -> & E1 & E2 & E3 & E4 & E5).
  { rewrite Hh. do 2 (apply seg_frame; [|lia]). done. }
  { rewrite Hh. by rewrite !lookup_insert_ne by lia. }
  exists s'. split_and!; try done.
  assert (S' : seg (hdrs s') 0 (l1 ++ [(a, true); (c, false)]) (nx l2 END)).
  { apply E5, seg_app. cbn [seg nx]. rewrite Hh, lookup_insert_eq. rewrite lookup_insert_ne by lia.
    rewrite lookup_insert_eq. split_and!; try done; try lia. do 2 (apply seg_frame; [|lia]). done. }
  replace (l1 ++ (a, true) :: (c, false) :: l2) with ((l1 ++ [(a, true); (c, false)]) ++ l2) by by rewrite <- app_assoc.
  apply seg_app. split; [done|]. unfold lastp. by rewrite last_app.
Qed.

Lemma nx_mod m p l : seg m p l END -> nx l END mod 8 = 0.
Proof. destruct l as [|[a u] l]; cbn; [intros _; apply end_eq|by intros (_ & _ & H & _)]. Qed.

(** The block [(p, k)] of [s] became [(p, k')] with [n <= k' <= k]; the other
    live blocks are the same. *)
Definition trimmed (s : mem_state) (l : list block) (p k n : Z) (r : option (Z * mem_state)) : Prop :=
  exists s' l' k' rest, r = Some (p, s') /\ heap_inv s' l' /\ ram s' = ram s
  /\ n <= k' <= k /\ live_blocks s l ≡ₚ (p, k) :: rest /\ live_blocks s' l' ≡ₚ (p, k') :: rest.

Lemma live_middle b l1 a t e :
  live b (l1 ++ (a, true) :: t) e ≡ₚ (b + a + 16, nx t e - a - 16) :: live b l1 a ++ live b t e.
Proof. rewrite live_app. cbn. by rewrite Permutation_middle. Qed.

Lemma trimmed_same s l1 a l2 n :
  heap_inv s (l1 ++ (a, true) :: l2) -> n <= nx l2 END - a - 16 ->
  trimmed s (l1 ++ (a, true) :: l2) (ram s + a + 16) (nx l2 END - a - 16) n (Some (ram s + a + 16, s)).
Proof.
  intros I Hn. exists s, (l1 ++ (a, true) :: l2), (nx l2 END - a - 16), (live (ram s) l1 a ++ live (ram s) l2 END).
  split_and!; try done; try lia; apply live_middle.
Qed.

(** The tail [l2] after the block at [a] is replaced by a free block at [c]
    followed by [tl]. *)
Lemma trimmed_cut s l1 a l2 c tl n s1 :
  heap_inv s (l1 ++ (a, true) :: l2) -> (exists q, seg (hdrs s) q tl END) -> noadj false tl ->
  live (ram s) tl END = live (ram s) l2 END ->
  a + 32 <= c -> c + 32 <= nx tl END -> c mod 8 = 0 -> n <= c - a - 16 -> c <= nx l2 END ->
  hdrs s1 = hdrs s -> ram s1 = ram s -> lfree s1 = first_free l1 c ->
  trimmed s (l1 ++ (a, true) :: l2) (ram s + a + 16) (nx l2 END - a - 16) n
    (let? s' := set_prev (nx tl END) c
       (put_hdr a (mk_hdr c (lastp 0 l1) true) (put_hdr c (mk_hdr (nx tl END) a false) s1)) in
     Some (ram s + a + 16, s')).
Proof.
  intros I Htl Hadj Hlive H1 H2 H3 H4 H5 Hh1 Hr1 Hl1. pose proof I as [Hs Hf Ha Hl He Hr].
  destruct (retail_ok s l1 a l2 c tl Hs He Htl H1 H2 H3 s1 Hh1) as (s' & -> & T1 & T2 & T3 & T4).
  apply noadj_app in Ha as [A1 [A2 _]]. rewrite nx_app in Hf. cbn [nx] in Hf.
  exists s', (l1 ++ (a, true) :: (c, false) :: tl), (c - a - 16), (live (ram s) l1 a ++ live (ram s) l2 END).
  split_and!; try done; try lia.
  - constructor; try done; [by rewrite nx_app|apply noadj_app; split; [done|]; cbn; by rewrite orb_true_r| |by rewrite T3, Hr1].
    rewrite T4, Hl1, first_free_app. done.
  - apply live_middle.
  - unfold live_blocks. rewrite T3, Hr1, live_middle. cbn [nx live app]. by rewrite Hlive.
Qed.

(** [mem_trim] to a size that fits a live block returns the same block, cut
    to at least the requested size, and leaves every other live block alone;
    except that a block that reaches the very end of the heap fails an
    assertion when there is room to cut. *)
Theorem mem_trim_ok s l p k n :
  heap_inv s l -> (p, k) ∈ live_blocks s l -> 0 <= n < 2 ^ 32 -> rounded n <= k ->
  if (p + k =? ram s + MEM_SIZE_ALIGNED) && (rounded n + 32 <=? k) then mem_trim p n s = None
  else trimmed s l p k n (mem_trim p n s).
Proof.
  intros I Hp Hn Hk. apply live_split in Hp as (l1 & a & l2 & -> & -> & ->).
  pose proof I as [Hs Hf Ha Hl He Hr]. apply seg_app in Hs as [S1 (M1 & M2 & M3 & S2)]. cbn [nx] in S1.
  destruct (seg_bounds _ _ _ _ S2) as [Hb _]. destruct (seg_bounds _ _ _ _ S1) as [Hb1 _]. rewrite nx_app in Hf. cbn [nx] in Hf.
  destruct (rounded_ok n) as (R1 & R2 & R3); [lia|]. pose proof end_eq as [_ [He2 He3]]. pose proof (nx_mod _ _ _ S2) as Hm8.
  apply noadj_app in Ha as [A1 [_ A2]]. rewrite first_free_app in Hl. cbn [first_free] in Hl.
  unfold mem_trim. destruct sizes_eq as [Z1 Z2]. rewrite Z1, Z2. unfold ram_end.
  destruct ((END <? _) || _) eqn:Eg; [apply request_too_big in Eg; lia|].
  apply request_fits in Eg as [Erq _]; [unfold request in Erq; rewrite Erq|lia].
  destruct (Z.leb_spec (ram s) (ram s + a + 16)); [|lia]. destruct (Z.ltb_spec (ram s + a + 16) (ram s + END)); [|lia].
  cbn [andb]. replace (ram s + a + 16 - 16 - ram s) with a by lia. unfold hdr_at. rewrite M1. cbn [next].
  assert (u32 (nx l2 END - a - 16) = nx l2 END - a - 16) as -> by zlia.
  destruct (Z.leb_spec (rounded n) (nx l2 END - a - 16)); [|lia].
  assert (u32 (a + 16 + rounded n) = a + 16 + rounded n) as -> by zlia. rewrite set_next_eq.
  destruct (Z.eqb_spec (rounded n) (nx l2 END - a - 16)) as [Eq|Eq].
  { destruct (_ && _) eqn:Ec; [bprop; lia|]. apply trimmed_same; [done|lia]. }
  destruct l2 as [|[b [|]] l2]; cbn [nx] in *.
  - rewrite He. cbn [used negb]. rewrite Z.eqb_refl. replace (ram s + a + 16 + (END - a - 16)) with (ram s + END) by lia.
    rewrite Z.eqb_refl. cbn [andb negb].
    destruct (Z.leb_spec (rounded n + 32) (END - a - 16)), (Z.leb_spec (rounded n + 16 + 16) (END - a - 16)); try lia; [done|].
    apply (trimmed_same s l1 a []); [done|cbn; lia].
  - destruct S2 as (B1 & B2 & B3 & S4). destruct (seg_bounds _ _ _ _ S4) as [Hb2 _]. rewrite B1. cbn [used negb].
    destruct (Z.eqb_spec (ram s + a + 16 + (b - a - 16)) (ram s + END)); [lia|]. cbn [andb].
    destruct (Z.leb_spec (rounded n + 16 + 16) (b - a - 16)); [|by apply (trimmed_same s l1 a ((b, true) :: l2)); [done|cbn; lia]].
    assert (b =? END = false) as -> by (apply Z.eqb_neq; lia). cbn [negb].
    eapply (trimmed_cut s l1 a ((b, true) :: l2) (a + 16 + rounded n) ((b, true) :: l2)); cbn [nx]; try done; try lia;
      try (by destruct (a + 16 + rounded n <? lfree s)).
    + exists a. by repeat split.
    + pose proof (first_free_bound _ _ _ _ S4). cbn [first_free] in Hl.
      destruct (first_free_cases _ _ _ _ S1) as [[_ F]|[F1 F]]; pose proof (F (a + 16 + rounded n)) as F3; pose proof (F (first_free l2 END)) as F4;
        destruct (Z.ltb_spec (a + 16 + rounded n) (lfree s)); cbn [setf lfree]; lia.
  - destruct S2 as (B1 & B2 & B3 & S4). destruct (seg_bounds _ _ _ _ S4) as [Hb2 _]. rewrite B1. cbn [used negb next].
    destruct (Z.eqb_spec (ram s + a + 16 + (b - a - 16)) (ram s + END)); [lia|]. cbn [andb].
    assert (b =? END = false) as -> by (apply Z.eqb_neq; lia). cbn [negb].
    eapply (trimmed_cut s l1 a ((b, false) :: l2) (a + 16 + rounded n) l2); cbn [nx live app]; try done; try lia;
      try (by destruct (lfree s =? b)).
    + by exists b.
    + by destruct A2.
    + cbn [first_free] in Hl.
      destruct (first_free_cases _ _ _ _ S1) as [[_ F]|[F1 F]]; pose proof (F (a + 16 + rounded n)) as F3; pose proof (F b) as F4;
        destruct (Z.eqb_spec (lfree s) b); cbn [setf lfree]; lia.
Qed.

(** ** What clients see *)

Lemma mem_init_ok heap : 0 <= heap -> heap_inv (mem_init heap) [(0, false)].
Proof.
  intros Hh. pose proof end_eq as [_ [He _]]. constructor; cbn [seg nx noadj first_free hdrs mem_init ram lfree]; try done.
  - unfold ram_end. rewrite lookup_insert_ne by lia. rewrite lookup_insert_eq. split_and!; try done; lia.
  - by rewrite lookup_insert_eq.
  - pose proof (align_eq heap) as E. unfold LWIP_MEM_ALIGN_SIZE in E. rewrite E. lia.
Qed.

(** Two live blocks do not overlap, and both lie inside the heap. *)
Lemma live_sorted b m p l e : seg m p l e ->
  StronglySorted (fun x y => x.1 + x.2 + 16 <= y.1) (live b l e)
  /\ Forall (fun x => b + nx l e + 16 <= x.1 /\ x.1 + x.2 <= b + e /\ (b + 0) mod 8 = x.1 mod 8) (live b l e).
Proof.
  revert p. induction l as [|[a u] l IH]; intros p; [by split; constructor|].
  intros (_ & H2 & H3 & H4). destruct (IH _ H4) as [I1 I2]. destruct (seg_bounds _ _ _ _ H4) as [Hb _].
  assert (Forall (fun x => b + a + 16 <= x.1 /\ x.1 + x.2 <= b + e /\ (b + 0) mod 8 = x.1 mod 8) (live b l e)).
  { eapply Forall_impl; [exact I2|]. cbn. intros x. lia. }
  cbn [live nx]. destruct u; cbn [app]; split; try done; constructor; try done; cbn; try lia.
  eapply Forall_impl; [exact I2|]. cbn. intros x. lia.
Qed.

(** A client: requests, and releases of blocks it holds. *)
Inductive heap_op := HMalloc (n : Z) | HFree (i : nat).

Definition heap_step (op : heap_op) (sc : mem_state * list (Z * Z)) : option (mem_state * list (Z * Z)) :=
  let '(s, held) := sc in
  match op with
  | HMalloc n => let? (p, s) := mem_malloc n s in Some (s, if p =? 0 then held else (p, n) :: held)
  | HFree i => match held !! i with
               | Some (p, _) => let? s := mem_free p s in Some (s, delete i held)
               | None => Some (s, held)
               end
  end.

Fixpoint heap_run (ops : list heap_op) (sc : mem_state * list (Z * Z)) : option (mem_state * list (Z * Z)) :=
  match ops with [] => Some sc | op :: ops => let? sc := heap_step op sc in heap_run ops sc end.

Definition heap_op_ok (op : heap_op) : Prop := match op with HMalloc n => 0 < n < 2 ^ 32 | HFree _ => True end.

(** The blocks a client holds are the live ones, each at least as large as requested. *)
Definition held_ok (s : mem_state) (held : list (Z * Z)) : Prop :=
  exists l lv, heap_inv s l /\ lv ≡ₚ live_blocks s l /\ Forall2 (fun x y => x.1 = y.1 /\ x.2 <= y.2) held lv.

Lemma heap_step_ok op s held :
  held_ok s held -> heap_op_ok op ->
  exists s' held', heap_step op (s, held) = Some (s', held') /\ held_ok s' held' /\ ram s' = ram s.
Proof.
  intros (l & lv & I & Hp & Hf) Hop. destruct op as [n|i]; cbn [heap_step].
  - destruct (mem_malloc_ok s l n I Hop) as (p & s' & l' & -> & I' & Er & [(-> & -> & _)|(Hp0 & _ & k & Hk & Hl)]).
    + eexists s, held. split; [done|]. split; [|done]. by exists l, lv.
    + assert (p =? 0 = false) as -> by (apply Z.eqb_neq; lia). eexists s', _. split; [done|]. split; [|done].
      exists l', ((p, k) :: lv). split; [done|]. split; [by rewrite Hl, Hp|]. by constructor.
  - destruct (held !! i) as [[p n]|] eqn:Ei; [|by eexists s, held; split; [done|]; split; [exists l, lv|]].
    destruct (Forall2_lookup_l _ _ _ _ _ Hf Ei) as ([p' k] & El & E1 & E2). cbn in E1, E2. subst p'.
    assert (Hin : (p, k) ∈ live_blocks s l) by (rewrite <- Hp; by eapply list_elem_of_lookup_2).
    destruct (mem_free_ok s l p k I Hin) as (s' & l' & -> & I' & Er & Hl). eexists s', _. split; [done|]. split; [|done].
    exists l', (delete i lv). split_and!; [done| |by apply Forall2_delete].
    apply (Permutation_cons_inv (a := (p, k))). rewrite <- Hl, <- Hp. symmetry. by apply delete_Permutation.
Qed.

(** C18: the heap allocator is safe for every client: any sequence of requests
    and of releases of held blocks, from the initial heap, passes all its
    assertions, and the blocks held are at each point aligned, inside the heap
    and pairwise disjoint for their whole requested sizes. *)
Theorem heap_safety heap ops :
  0 <= heap -> Forall heap_op_ok ops ->
  exists s held, heap_run ops (mem_init heap, []) = Some (s, held)
  /\ Forall (fun x => ram s <= x.1 /\ x.1 + x.2 <= ram s + MEM_SIZE_ALIGNED /\ x.1 mod 8 = 0) held
  /\ forall i j x y, held !! i = Some x -> held !! j = Some y -> i <> j -> x.1 + x.2 <= y.1 \/ y.1 + y.2 <= x.1.
Proof.
  intros Hh Hops.
  assert (H : forall s held, held_ok s held -> exists s' held', heap_run ops (s, held) = Some (s', held') /\ held_ok s' held').
  { induction Hops as [|op ops Hop _ IH]; intros s held Hok; [by exists s, held|].
    destruct (heap_step_ok op s held Hok Hop) as (s1 & held1 & E & Hok1 & _). cbn [heap_run]. rewrite E. by apply IH. }
  destruct (H (mem_init heap) []) as (s & held & E & l & lv & I & Hp & Hf).
  { exists [(0, false)], []. split_and!; [by apply mem_init_ok|done|constructor]. }
  exists s, held. split; [done|]. destruct (live_sorted (ram s) _ _ _ _ (inv_seg _ _ I)) as [Hs Hb].
  rewrite (inv_first _ _ I) in Hb. pose proof (inv_ram _ _ I) as Hr. split.
  - apply Forall_lookup. intros i x Hx. destruct (Forall2_lookup_l _ _ _ _ _ Hf Hx) as (y & Hy & E1 & E2).
    assert (Hin : y ∈ live_blocks s l) by (rewrite <- Hp; by eapply list_elem_of_lookup_2).
    rewrite Forall_forall in Hb. specialize (Hb _ Hin). cbn in *. lia.
  - intros i j x y Hx Hy Hij.
    destruct (Forall2_lookup_l _ _ _ _ _ Hf Hx) as (x' & Hx' & X1 & X2).
    destruct (Forall2_lookup_l _ _ _ _ _ Hf Hy) as (y' & Hy' & Y1 & Y2).
    assert (D : forall i j a b, live_blocks s l !! i = Some a -> live_blocks s l !! j = Some b -> (i < j)%nat -> a.1 + a.2 + 16 <= b.1).
    { intros i0 j0 a b Ha Hb0 Hlt. exact (sorted_lookup _ _ _ _ _ _ Hs Ha Hb0 Hlt). }
    destruct (proj1 (Permutation_inj _ _) Hp) as (_ & f & Finj & Ff). rewrite Ff in Hx', Hy'.
    destruct (Nat.lt_trichotomy (f i) (f j)) as [Hl|[Hl|Hl]].
    + left. specialize (D _ _ _ _ Hx' Hy' Hl). lia.
    + apply Finj in Hl. congruence.
    + right. specialize (D _ _ _ _ Hy' Hx' Hl). lia.
Qed.

(** The heap does not stay fragmented: when no block is live it is one free
    block again, and any request up to its whole size succeeds. *)
Theorem heap_defragments s l n :
  heap_inv s l -> live_blocks s l = [] -> 0 < n -> rounded n <= MEM_SIZE_ALIGNED - 16 ->
  l = [(0, false)] /\ exists p s', mem_malloc n s = Some (p, s') /\ p <> 0.
Proof.
  intros I Hl Hn Hr. pose proof end_eq as [_ [He _]].
  assert (E : l = [(0, false)]).
  { destruct I as [Hs Hf Ha _ _ _]. destruct l as [|[a u] l]; cbn in Hf; [lia|]. subst a. unfold live_blocks in Hl. cbn in Hl.
    destruct u; [done|]. cbn in Ha. destruct Ha as [_ Ha]. destruct l as [|[b v] l]; [done|]. cbn in Hl, Ha.
    destruct v; [done|]. by destruct Ha. }
  split; [done|]. destruct (rounded_ok n) as (R1 & _ & _); [lia|].
  destruct (mem_malloc_ok s l n I ltac:(lia)) as (p & s' & l' & E' & _ & _ & [(_ & _ & Hno)|(Hp & _)]).
  - exfalso. apply Hno. subst l. cbn. left. split; [done|lia].
  - exists p, s'. split; [done|lia].
Qed.

End MemFacts.

(** ** Concrete heaps *)
Definition demo_ops : list heap_op := [HMalloc 100; HMalloc 5000; HMalloc 1; HFree 1; HMalloc 4000; HFree 0].

Lemma heap_safety_witness :
  exists s held, heap_run (o := ios) demo_ops (mem_init (o := ios) 4099, []) = Some (s, held) /\ length held = 2%nat.
Proof.
  destruct (heap_safety (o := ios) 4099 demo_ops ltac:(lia)) as (s & held & E & _ & _).
  { repeat constructor; cbn; lia. }
  exists s, held. split; [exact E|]. vm_compute in E. injection E as <- <-. reflexivity.
Defined.

Lemma heap_defragments_witness :
  exists p s', mem_malloc (o := ios) 16000000 (mem_init (o := ios) 4096) = Some (p, s') /\ p <> 0.
Proof.
  apply (heap_defragments (o := ios) (mem_init 4096) [(0, false)] 16000000).
  - apply mem_init_ok. lia.
  - reflexivity.
  - lia.
  - vm_compute. discriminate.
Defined.

(** The whole heap is one block; shrinking it hits the assertion. *)
Definition full_heap : mem_state := mk_mem 4096
  (<[16777216 := mk_hdr 16777216 16777216 true]> (<[0 := mk_hdr 16777216 0 true]> ∅)) 16777216.

Lemma mem_trim_ok_witness : mem_trim (o := ios) 4112 1000 full_heap = None.
Proof.
  apply (mem_trim_ok (o := ios) full_heap [(0, true)] 4112 (16777216 - 16) 1000).
  - constructor; done.
  - apply list_elem_of_singleton. reflexivity.
  - lia.
  - vm_compute. discriminate.
Defined.
