(* ===== verification/Memp.v ===== *)
(** * Memp: fixed-size pools, src/Sources/Lwip/src/core/memp.c

    [MEMP_MEM_MALLOC = 0], [MEMP_OVERFLOW_CHECK = 0], [MEMP_STATS = 0]: a pool
    is a linked list of free elements, threaded through the elements; it is
    the list of their addresses.  The theorem at the end states that the free
    elements and the ones held by clients are always exactly the pool's. *)

From S2P Require Import Prelude Opts Mem.

(** The pools of memp_std.h in this configuration. *)
Inductive memp_t :=
  | MEMP_RAW_PCB | MEMP_TCP_PCB | MEMP_TCP_PCB_LISTEN | MEMP_TCP_SEG | MEMP_REASSDATA
  | MEMP_FRAG_PBUF | MEMP_SYS_TIMEOUT | MEMP_PBUF | MEMP_PBUF_POOL.

#[export] Instance memp_t_eq_dec : EqDecision memp_t.
Proof. solve_decision. Defined.

(** [struct memp_desc]: the aligned element size, the number of elements and
    the memory they occupy. *)
Record memp_desc := mk_desc { d_size : Z; d_num : Z; d_base : Z }.

(** The heads of the free lists, [*desc->tab]. *)
Definition memp_state := memp_t -> list Z.

Definition set_tab (t : memp_t) (l : list Z) (st : memp_state) : memp_state :=
  fun t' => if decide (t' = t) then l else st t'.

Definition MEMP_SIZE : Z := 0.

(** The loop of [memp_init_pool]: each element is pushed in front. *)
Fixpoint init_loop (n : nat) (size memp : Z) (tab : list Z) : list Z :=
  match n with
  | O => tab
  | S n => init_loop n size (memp + MEMP_SIZE + size) (memp :: tab)
  end.

Definition memp_init_pool (d : memp_desc) : list Z :=
  init_loop (Z.to_nat (d_num d)) (d_size d) (LWIP_MEM_ALIGN_SIZE (d_base d)) [].

Definition memp_init (descs : memp_t -> memp_desc) : memp_state := fun t => memp_init_pool (descs t).

(** The element (0 for NULL). *)
Definition do_memp_malloc_pool (t : memp_t) (st : memp_state) : option (Z * memp_state) :=
  match st t with
  | memp :: rest =>
      assert! (memp mod MEM_ALIGNMENT =? 0) in
      Some (memp + MEMP_SIZE, set_tab t rest st)
  | [] => Some (0, st)
  end.

Definition memp_malloc (t : memp_t) (st : memp_state) : option (Z * memp_state) := do_memp_malloc_pool t st.

Definition do_memp_free_pool (t : memp_t) (mem : Z) (st : memp_state) : option memp_state :=
  assert! (mem mod MEM_ALIGNMENT =? 0) in
  Some (set_tab t ((mem - MEMP_SIZE) :: st t) st).

Definition memp_free (t : memp_t) (mem : Z) (st : memp_state) : option memp_state :=
  if mem =? 0 then Some st else do_memp_free_pool t mem st.

(** ** Facts *)

Lemma set_tab_eq t l st : set_tab t l st t = l.
Proof. unfold set_tab. by rewrite decide_True. Qed.

Lemma set_tab_ne t t' l st : t' <> t -> set_tab t l st t' = st t'.
Proof. intros. unfold set_tab. by rewrite decide_False. Qed.

(** The addresses of the elements of a pool. *)
Definition slots (d : memp_desc) : list Z :=
  map (fun i => LWIP_MEM_ALIGN_SIZE (d_base d) + Z.of_nat i * d_size d) (seq 0 (Z.to_nat (d_num d))).

Lemma init_loop_spec n size a tab :
  init_loop n size a tab = rev (map (fun i => a + Z.of_nat i * size) (seq 0 n)) ++ tab.
Proof.
  revert a tab. induction n as [|n IH]; intros a tab; [done|]. cbn [init_loop]. rewrite IH. unfold MEMP_SIZE.
  rewrite <- cons_seq, <- seq_shift, map_cons, map_map. cbn [rev]. rewrite <- app_assoc. cbn [app].
  f_equal; [|f_equal; lia]. f_equal. apply map_ext. intros i. lia.
Qed.

Lemma memp_init_slots d : memp_init_pool d ≡ₚ slots d.
Proof. unfold memp_init_pool, slots. rewrite init_loop_spec, app_nil_r. by rewrite <- Permutation_rev. Qed.

(** A descriptor as [LWIP_MEMPOOL_DECLARE] makes it. *)
Definition desc_ok (d : memp_desc) : Prop := 0 < d_size d /\ d_size d mod 8 = 0 /\ 0 < d_base d /\ 0 <= d_num d.

Lemma slots_aligned d : desc_ok d -> Forall (fun p => p mod 8 = 0 /\ 0 < p) (slots d).
Proof.
  intros (H1 & H2 & H3 & _). unfold slots. apply Forall_map, Forall_forall. intros i _. cbn.
  rewrite align_eq. split; [|nia]. rewrite (Z.div_mod (d_size d) 8), H2 by lia.
  replace ((d_base d + 7) / 8 * 8 + Z.of_nat i * (8 * (d_size d / 8) + 0))
    with (((d_base d + 7) / 8 + Z.of_nat i * (d_size d / 8)) * 8) by ring. apply Z.mod_mul. lia.
Qed.

Lemma slots_nodup d : desc_ok d -> NoDup (slots d).
Proof.
  intros (H1 & _). unfold slots. apply NoDup_fmap_2_strong; [|apply NoDup_seq]. intros i j _ _ H. nia.
Qed.

(** Clients: allocate, and free an element they hold. *)
Inductive pool_op := PMalloc (t : memp_t) | PFree (t : memp_t) (i : nat).

Definition pool_step (op : pool_op) (sc : memp_state * memp_state) : option (memp_state * memp_state) :=
  let '(st, held) := sc in
  match op with
  | PMalloc t => let? (p, st) := memp_malloc t st in Some (st, if p =? 0 then held else set_tab t (p :: held t) held)
  | PFree t i => match held t !! i with
                 | Some p => let? st := memp_free t p st in Some (st, set_tab t (delete i (held t)) held)
                 | None => Some (st, held)
                 end
  end.

Fixpoint pool_run (ops : list pool_op) (sc : memp_state * memp_state) : option (memp_state * memp_state) :=
  match ops with [] => Some sc | op :: ops => let? sc := pool_step op sc in pool_run ops sc end.

Definition pools_ok (descs : memp_t -> memp_desc) (st held : memp_state) : Prop :=
  forall t, st t ++ held t ≡ₚ slots (descs t).

Lemma pool_step_ok descs op st held :
  (forall t, desc_ok (descs t)) -> pools_ok descs st held ->
  exists st' held', pool_step op (st, held) = Some (st', held') /\ pools_ok descs st' held'.
Proof.
  intros Hd Hp. assert (Hal : forall t p, p ∈ st t \/ p ∈ held t -> p mod 8 = 0 /\ 0 < p).
  { intros t p H. pose proof (slots_aligned _ (Hd t)) as F. rewrite <- (Hp t) in F. rewrite Forall_forall in F.
    apply F, elem_of_app, H. }
  destruct op as [t|t i]; cbn [pool_step].
  - unfold memp_malloc, do_memp_malloc_pool. destruct (st t) as [|p rest] eqn:E.
    + exists st, held. by rewrite Z.eqb_refl.
    + destruct (Hal t p) as [Ha Hp0]; [rewrite E; left; set_solver|]. unfold MEM_ALIGNMENT, MEMP_SIZE. rewrite Ha. cbn [Z.eqb].
      rewrite Z.add_0_r. assert (p =? 0 = false) as -> by (apply Z.eqb_neq; lia). eexists _, _. split; [done|].
      intros t'. unfold set_tab. destruct (decide (t' = t)) as [->|]; [|apply Hp].
      rewrite <- (Hp t), E. cbn. by rewrite Permutation_middle.
  - destruct (held t !! i) as [p|] eqn:Ei; [|by exists st, held].
    destruct (Hal t p) as [Ha Hp0]; [right; by eapply list_elem_of_lookup_2|].
    unfold memp_free, do_memp_free_pool, MEM_ALIGNMENT, MEMP_SIZE. assert (p =? 0 = false) as -> by (apply Z.eqb_neq; lia).
    rewrite Ha. cbn [Z.eqb]. eexists _, _. split; [done|]. intros t'. unfold set_tab. destruct (decide (t' = t)) as [->|]; [|apply Hp].
    rewrite <- (Hp t), Z.sub_0_r. cbn. by rewrite Permutation_middle, <- (delete_Permutation _ _ _ Ei).
Qed.

(** Over any sequence of allocations and releases no pool loses or
    duplicates an element: the free elements and the held ones are together
    exactly the pool's slots, all distinct and aligned, and an allocation
    fails only when the clients hold every element of that pool. *)
Theorem pools_conserve descs ops :
  (forall t, desc_ok (descs t)) ->
  exists st held, pool_run ops (memp_init descs, fun _ => []) = Some (st, held)
  /\ forall t, st t ++ held t ≡ₚ slots (descs t) /\ NoDup (st t ++ held t)
       /\ ((exists st', memp_malloc t st = Some (0, st')) <-> lenz (held t) = d_num (descs t)).
Proof.
  intros Hd.
  assert (H : forall st held, pools_ok descs st held -> exists st' held', pool_run ops (st, held) = Some (st', held') /\ pools_ok descs st' held').
  { induction ops as [|op ops IH]; intros st held Hp; [by exists st, held|].
    destruct (pool_step_ok descs op st held Hd Hp) as (st1 & held1 & E & Hp1). cbn [pool_run]. rewrite E. by apply IH. }
  destruct (H (memp_init descs) (fun _ => [])) as (st & held & E & Hp).
  { intros t. rewrite app_nil_r. apply memp_init_slots. }
  exists st, held. split; [done|]. intros t. split; [apply Hp|]. split; [rewrite (Hp t); by apply slots_nodup|].
  pose proof (Permutation_length (Hp t)) as L. unfold slots in L. rewrite length_app, length_map, length_seq in L.
  destruct (Hd t) as (_ & _ & _ & Hn). unfold memp_malloc, do_memp_malloc_pool, lenz. destruct (st t) as [|p rest] eqn:Es; cbn [length] in L.
  - split; [intros _; lia|]. intros _. by exists st.
  - split; [|lia]. intros [st' Hm]. exfalso. pose proof (slots_aligned _ (Hd t)) as F. rewrite <- (Hp t), Es in F.
    apply Forall_cons_1 in F as [[Fa Fp] _]. unfold MEM_ALIGNMENT, MEMP_SIZE in Hm. rewrite Fa in Hm. cbn [Z.eqb] in Hm.
    simplify_eq. lia.
Qed.

Lemma pools_conserve_witness :
  exists st held, pool_run [PMalloc MEMP_PBUF; PMalloc MEMP_PBUF; PFree MEMP_PBUF 1]
    (memp_init (fun _ => mk_desc 24 16 1000), fun _ => []) = Some (st, held) /\ held MEMP_PBUF = [1336].
Proof.
  destruct (pools_conserve (fun _ => mk_desc 24 16 1000) [PMalloc MEMP_PBUF; PMalloc MEMP_PBUF; PFree MEMP_PBUF 1]) as (st & held & E & _).
  { intros t. vm_compute. intuition congruence. }
  exists st, held. split; [exact E|]. vm_compute in E. injection E as <- <-. reflexivity.
Defined.
