(* ===== verification/Pbuf.v ===== *)
(** * Pbuf: packet buffers, src/Sources/Lwip/src/core/pbuf.c

    A [struct pbuf *] is an address ([0] for NULL); the allocated structures
    are a finite map from addresses, payload bytes another one.  An operation
    returns [None] when it dereferences an address that holds no structure or
    fails an assertion.  Loops over chains take the number of structures as
    their bound. *)

From S2P Require Import Prelude Opts Mem Memp.

(** ** Constants (pbuf.h, opt.h) *)
Definition PBUF_TYPE_FLAG_STRUCT_DATA_CONTIGUOUS : Z := 128.
Definition PBUF_TYPE_ALLOC_SRC_MASK : Z := 15.
Definition SRC_HEAP : Z := 0.
Definition SRC_MEMP_PBUF : Z := 1.
Definition SRC_MEMP_PBUF_POOL : Z := 2.

Inductive pbuf_type := PBUF_RAM | PBUF_ROM | PBUF_REF | PBUF_POOL.
Definition pbuf_type_val (t : pbuf_type) : Z :=
  match t with PBUF_RAM => 512 + 128 | PBUF_ROM => 1 | PBUF_REF => 64 + 1 | PBUF_POOL => 256 + 128 + 2 end.

Inductive pbuf_layer := PBUF_TRANSPORT | PBUF_IP | PBUF_LINK | PBUF_RAW_TX | PBUF_RAW.
Definition pbuf_layer_val (l : pbuf_layer) : Z :=
  match l with PBUF_TRANSPORT => 54 | PBUF_IP => 34 | PBUF_LINK => 14 | PBUF_RAW_TX => 0 | PBUF_RAW => 0 end.

Definition PBUF_FLAG_IS_CUSTOM : Z := 2.
Definition PBUF_FLAG_TCP_FIN : Z := 32.
Definition NETIF_NO_INDEX : Z := 0.

Definition SIZEOF_STRUCT_PBUF : Z := LWIP_MEM_ALIGN_SIZE 24.
Definition PBUF_POOL_BUFSIZE_ALIGNED : Z := LWIP_MEM_ALIGN_SIZE (LWIP_MEM_ALIGN_SIZE (TCP_MSS + 40)).

(** ** State *)
Record pbuf := mk_pbuf {
  next : Z; payload : Z; tot_len : Z; len : Z;
  type_internal : Z; flags : Z; ref : Z; if_idx : Z;
}.
#[export] Instance eta_pbuf : Eta pbuf := fun p =>
  mk_pbuf (next p) (payload p) (tot_len p) (len p) (type_internal p) (flags p) (ref p) (if_idx p).

Record heap := mk_heap {
  pbufs : gmap Z pbuf;
  bytes : gmap Z Z;
  pools : memp_state;
  ram_heap : mem_state;
  pbuf_free_ooseq_pending : bool;
}.
#[export] Instance eta_heap : Eta heap := fun h =>
  mk_heap (pbufs h) (bytes h) (pools h) (ram_heap h) (pbuf_free_ooseq_pending h).

(** [custom_free_function] of a [struct pbuf_custom], set by whoever made it. *)
Class CustomFree := custom_free_function : Z -> heap -> option heap.

(** ** Memory access *)
Definition byte_at (m : gmap Z Z) (a : Z) : Z := default 0 (m !! a).
Definition mread (m : gmap Z Z) (a n : Z) : list Z := map (fun i => byte_at m (a + Z.of_nat i)) (seq 0 (Z.to_nat n)).
Fixpoint mwrite (m : gmap Z Z) (a : Z) (bs : list Z) : gmap Z Z :=
  match bs with [] => m | b :: bs => mwrite (<[a := b]> m) (a + 1) bs end.

Definition put (p : Z) (b : pbuf) (h : heap) : heap := h <| pbufs := <[p := b]> (pbufs h) |>.

(** Bound for a walk along [next] pointers. *)
Definition walk (h : heap) : nat := S (size (pbufs h)).

Definition pbuf_get_allocsrc (b : pbuf) : Z := Z.land (type_internal b) PBUF_TYPE_ALLOC_SRC_MASK.
Definition pbuf_match_allocsrc (b : pbuf) (t : Z) : bool := pbuf_get_allocsrc b =? Z.land t PBUF_TYPE_ALLOC_SRC_MASK.

Section Pbuf.
Context {o : Opts} {cf : CustomFree}.

Definition pbuf_pool_is_empty (h : heap) : heap := h <| pbuf_free_ooseq_pending := true |>.

Definition pbuf_init_alloced_pbuf (p pay tot ln : Z) (type : pbuf_type) (fl : Z) (h : heap) : heap :=
  put p {| next := 0; payload := pay; tot_len := tot; len := ln; type_internal := u8 (pbuf_type_val type);
           flags := fl; ref := 1; if_idx := NETIF_NO_INDEX |} h.

(** ** Releasing *)

(** The structure goes back to where it came from. *)
Definition pbuf_dealloc (p : Z) (b : pbuf) (h : heap) : option heap :=
  let alloc_src := pbuf_get_allocsrc b in
  if flag_set (flags b) PBUF_FLAG_IS_CUSTOM then custom_free_function p h
  else
    let h := h <| pbufs := delete p (pbufs h) |> in
    if alloc_src =? SRC_MEMP_PBUF_POOL then
      let? ps := memp_free MEMP_PBUF_POOL p (pools h) in Some (h <| pools := ps |>)
    else if alloc_src =? SRC_MEMP_PBUF then
      let? ps := memp_free MEMP_PBUF p (pools h) in Some (h <| pools := ps |>)
    else if alloc_src =? SRC_HEAP then
      let? s := mem_free p (ram_heap h) in Some (h <| ram_heap := s |>)
    else None.

Fixpoint free_loop (fuel : nat) (count p : Z) (h : heap) : option (Z * heap) :=
  if p =? 0 then Some (count, h)
  else match fuel with
  | O => None
  | S fuel =>
      let? b := pbufs h !! p in
      assert! (0 <? ref b) in
      let b := b <| ref := ref b - 1 |> in
      let h := put p b h in
      if ref b =? 0 then
        let q := next b in
        let? h := pbuf_dealloc p b h in
        free_loop fuel (u8 (count + 1)) q h
      else Some (count, h)
  end.

(** The number of structures released, a [u8_t]. *)
Definition pbuf_free (p : Z) (h : heap) : option (Z * heap) :=
  assert! negb (p =? 0) in free_loop (walk h) 0 p h.

(** ** Allocation *)
Definition pbuf_alloc_reference (pay length : Z) (type : pbuf_type) (h : heap) : option (Z * heap) :=
  assert! (match type with PBUF_REF | PBUF_ROM => true | _ => false end) in
  let? (p, ps) := memp_malloc MEMP_PBUF (pools h) in
  let h := h <| pools := ps |> in
  if p =? 0 then Some (0, h)
  else Some (p, pbuf_init_alloced_pbuf p pay length length type 0 h).

(** The [do ... while (rem_len > 0)] of the [PBUF_POOL] case. *)
Fixpoint alloc_pool_loop (fuel : nat) (p last rem_len offset : Z) (h : heap) : option (Z * heap) :=
  match fuel with
  | O => None
  | S fuel =>
      let? (q, ps) := memp_malloc MEMP_PBUF_POOL (pools h) in
      let h := h <| pools := ps |> in
      if q =? 0 then
        let h := pbuf_pool_is_empty h in
        let? h := (if p =? 0 then Some h else let? (_, h) := pbuf_free p h in Some h) in
        Some (0, h)
      else
        let qlen := Z.min rem_len (u16 (PBUF_POOL_BUFSIZE_ALIGNED - LWIP_MEM_ALIGN_SIZE offset)) in
        let pay := LWIP_MEM_ALIGN_SIZE (q + SIZEOF_STRUCT_PBUF + offset) in
        let h := pbuf_init_alloced_pbuf q pay rem_len qlen PBUF_POOL 0 h in
        assert! (pay mod MEM_ALIGNMENT =? 0) in
        assert! (0 <? PBUF_POOL_BUFSIZE_ALIGNED - LWIP_MEM_ALIGN_SIZE offset) in
        let? ph :=
          (if p =? 0 then Some (q, h)
           else let? lb := pbufs h !! last in Some (p, put last (lb <| next := q |>) h)) in
        let '(p, h) := ph in
        let rem_len := u16 (rem_len - qlen) in
        if 0 <? rem_len then alloc_pool_loop fuel p q rem_len 0 h else Some (p, h)
  end.

Definition pbuf_alloc (layer : pbuf_layer) (length : Z) (type : pbuf_type) (h : heap) : option (Z * heap) :=
  let offset := u16 (pbuf_layer_val layer) in
  match type with
  | PBUF_REF | PBUF_ROM => pbuf_alloc_reference 0 length type h
  | PBUF_POOL => alloc_pool_loop (S (List.length (pools h MEMP_PBUF_POOL))) 0 0 length offset h
  | PBUF_RAM =>
      let payload_len := u32 (LWIP_MEM_ALIGN_SIZE offset + LWIP_MEM_ALIGN_SIZE length) in
      let alloc_len := u32 (LWIP_MEM_ALIGN_SIZE SIZEOF_STRUCT_PBUF + payload_len) in
      if (payload_len <? LWIP_MEM_ALIGN_SIZE length) || (alloc_len <? LWIP_MEM_ALIGN_SIZE length) then Some (0, h)
      else
        let? (p, s) := mem_malloc alloc_len (ram_heap h) in
        let h := h <| ram_heap := s |> in
        if p =? 0 then Some (0, h)
        else
          let pay := LWIP_MEM_ALIGN_SIZE (p + SIZEOF_STRUCT_PBUF + offset) in
          let h := pbuf_init_alloced_pbuf p pay length length type 0 h in
          assert! (pay mod MEM_ALIGNMENT =? 0) in
          Some (p, h)
  end.

Definition pbuf_alloced_custom (l : pbuf_layer) (length : Z) (type : pbuf_type) (p payload_mem payload_mem_len : Z)
  (h : heap) : Z * heap :=
  let offset := u16 (pbuf_layer_val l) in
  if payload_mem_len <? LWIP_MEM_ALIGN_SIZE offset + length then (0, h)
  else
    let pay := if payload_mem =? 0 then 0 else payload_mem + LWIP_MEM_ALIGN_SIZE offset in
    (p, pbuf_init_alloced_pbuf p pay length length type PBUF_FLAG_IS_CUSTOM h).

(** ** Shrinking *)

(** The [while (rem_len > q->len)] loop: the pbuf to cut and the bytes left for it. *)
Fixpoint realloc_loop (fuel : nat) (q rem_len shrink : Z) (h : heap) : option (Z * Z * heap) :=
  let? b := pbufs h !! q in
  if len b <? rem_len then
    match fuel with
    | O => None
    | S fuel =>
        let rem_len := u16 (rem_len - len b) in
        let h := put q (b <| tot_len := u16 (tot_len b - shrink) |>) h in
        let q := next b in
        assert! negb (q =? 0) in
        realloc_loop fuel q rem_len shrink h
    end
  else Some (q, rem_len, h).

Definition pbuf_realloc (p new_len : Z) (h : heap) : option heap :=
  assert! negb (p =? 0) in
  let? b := pbufs h !! p in
  if tot_len b <=? new_len then Some h
  else
    let shrink := u16 (tot_len b - new_len) in
    let? r := realloc_loop (walk h) p new_len shrink h in
    let '(q, rem_len, h) := r in
    let? bq := pbufs h !! q in
    let? h :=
      (if pbuf_match_allocsrc bq SRC_HEAP && negb (rem_len =? len bq) && negb (flag_set (flags bq) PBUF_FLAG_IS_CUSTOM) then
         let? (r, s) := mem_trim q (u32 (payload bq - q + rem_len)) (ram_heap h) in
         assert! negb (r =? 0) in
         assert! (r =? q) in
         Some (h <| ram_heap := s |>)
       else Some h) in
    let h := put q (bq <| len := rem_len |> <| tot_len := rem_len |>) h in
    let? h := (if next bq =? 0 then Some h else let? (_, h) := pbuf_free (next bq) h in Some h) in
    let? bq := pbufs h !! q in
    Some (put q (bq <| next := 0 |>) h).

(** ** Headers *)

Definition pbuf_add_header_impl (p header_size_increment : Z) (force : bool) (h : heap) : option (Z * heap) :=
  assert! negb (p =? 0) in
  if 65535 <? header_size_increment then Some (1, h)
  else if header_size_increment =? 0 then Some (0, h)
  else
    let? b := pbufs h !! p in
    let inc := u16 header_size_increment in
    if u16 (inc + tot_len b) <? inc then Some (1, h)
    else
      let pay := payload b - header_size_increment in
      let ok :=
        if flag_set (type_internal b) PBUF_TYPE_FLAG_STRUCT_DATA_CONTIGUOUS
        then negb (pay <? p + SIZEOF_STRUCT_PBUF) else force in
      if ok then
        Some (0, put p (b <| payload := pay |> <| len := u16 (len b + inc) |> <| tot_len := u16 (tot_len b + inc) |>) h)
      else Some (1, h).

Definition pbuf_add_header (p n : Z) (h : heap) : option (Z * heap) := pbuf_add_header_impl p n false h.
Definition pbuf_add_header_force (p n : Z) (h : heap) : option (Z * heap) := pbuf_add_header_impl p n true h.

Definition pbuf_remove_header (p header_size_decrement : Z) (h : heap) : option (Z * heap) :=
  assert! negb (p =? 0) in
  if 65535 <? header_size_decrement then Some (1, h)
  else if header_size_decrement =? 0 then Some (0, h)
  else
    let? b := pbufs h !! p in
    let dec := u16 header_size_decrement in
    if len b <? dec then Some (1, h)
    else Some (0, put p (b <| payload := payload b + header_size_decrement |> <| len := u16 (len b - dec) |>
                           <| tot_len := u16 (tot_len b - dec) |>) h).

Definition pbuf_header_impl (p inc : Z) (force : bool) (h : heap) : option (Z * heap) :=
  if inc <? 0 then pbuf_remove_header p (- inc) h else pbuf_add_header_impl p inc force h.
Definition pbuf_header (p inc : Z) (h : heap) : option (Z * heap) := pbuf_header_impl p inc false h.
Definition pbuf_header_force (p inc : Z) (h : heap) : option (Z * heap) := pbuf_header_impl p inc true h.

Fixpoint free_header_loop (fuel : nat) (p free_left : Z) (h : heap) : option (Z * heap) :=
  if negb (free_left =? 0) && negb (p =? 0) then
    match fuel with
    | O => None
    | S fuel =>
        let? b := pbufs h !! p in
        if len b <=? free_left then
          let h := put p (b <| next := 0 |>) h in
          let? (_, h) := pbuf_free p h in
          free_header_loop fuel (next b) (u16 (free_left - len b)) h
        else
          let? (_, h) := pbuf_remove_header p free_left h in Some (p, h)
    end
  else Some (p, h).

Definition pbuf_free_header (q size : Z) (h : heap) : option (Z * heap) := free_header_loop (walk h) q size h.

(** ** Chains *)

Fixpoint clen_loop (fuel : nat) (n p : Z) (h : heap) : option Z :=
  if p =? 0 then Some n
  else match fuel with
       | O => None
       | S fuel => let? b := pbufs h !! p in clen_loop fuel (u16 (n + 1)) (next b) h
       end.
Definition pbuf_clen (p : Z) (h : heap) : option Z := clen_loop (walk h) 0 p h.

Definition pbuf_ref (p : Z) (h : heap) : option heap :=
  if p =? 0 then Some h
  else
    let? b := pbufs h !! p in
    let b := b <| ref := u8 (ref b + 1) |> in
    assert! (0 <? ref b) in
    Some (put p b h).

(** The walk of [pbuf_cat]: [tot_len] of every pbuf but the last grows by [t_tot]. *)
Fixpoint cat_loop (fuel : nat) (p t_tot : Z) (h : heap) : option (Z * heap) :=
  let? b := pbufs h !! p in
  if next b =? 0 then Some (p, h)
  else match fuel with
       | O => None
       | S fuel => cat_loop fuel (next b) t_tot (put p (b <| tot_len := u16 (tot_len b + t_tot) |>) h)
       end.

Definition pbuf_cat (hd t : Z) (h : heap) : option heap :=
  if (hd =? 0) || (t =? 0) then Some h
  else
    assert! negb (hd =? t) in
    let? bt := pbufs h !! t in
    let? (p, h) := cat_loop (walk h) hd (tot_len bt) h in
    let? b := pbufs h !! p in
    assert! (tot_len b =? len b) in
    assert! (next b =? 0) in
    Some (put p (b <| tot_len := u16 (tot_len b + tot_len bt) |> <| next := t |>) h).

Definition pbuf_chain (hd t : Z) (h : heap) : option heap :=
  let? h := pbuf_cat hd t h in pbuf_ref t h.

Definition pbuf_dechain (p : Z) (h : heap) : option (Z * heap) :=
  let? b := pbufs h !! p in
  let q := next b in
  let? r :=
    (if q =? 0 then Some (1, h)
     else
       let? bq := pbufs h !! q in
       assert! (tot_len bq =? tot_len b - len b) in
       let h := put q (bq <| tot_len := u16 (tot_len b - len b) |>) h in
       let h := put p (b <| next := 0 |> <| tot_len := len b |>) h in
       pbuf_free q h) in
  let '(tail_gone, h) := r in
  let? b := pbufs h !! p in
  assert! (tot_len b =? len b) in
  Some (if 0 <? tail_gone then 0 else q, h).

(** ** Copying

    [size_t] differences are computed modulo 2^64. *)

Definition chk_queue (p : Z) (h : heap) : option bool :=
  if p =? 0 then Some true
  else let? b := pbufs h !! p in Some (negb (len b =? tot_len b) || (next b =? 0)).

Fixpoint copy_pbuf_loop (fuel : nat) (p_to p_from copy_len offset_to offset_from : Z) (h : heap) : option (err_t * heap) :=
  match fuel with
  | O => None
  | S fuel =>
      let? bt := pbufs h !! p_to in
      let? bf := pbufs h !! p_from in
      let n := if u64 (len bf - offset_from) <=? u64 (len bt - offset_to)
               then u64 (len bf - offset_from) else u64 (len bt - offset_to) in
      let n := Z.min copy_len n in
      let h := h <| bytes := mwrite (bytes h) (payload bt + offset_to) (mread (bytes h) (payload bf + offset_from) n) |> in
      let offset_to := u64 (offset_to + n) in
      let offset_from := u64 (offset_from + n) in
      let copy_len := u16 (copy_len - n) in
      assert! (offset_to <=? len bt) in
      assert! (offset_from <=? len bf) in
      let '(p_from, offset_from) := if len bf <=? offset_from then (next bf, 0) else (p_from, offset_from) in
      if (p_from =? 0) && negb (copy_len =? 0) then Some (ERR_ARG, h)
      else
        let '(p_to, offset_to) := if offset_to =? len bt then (next bt, 0) else (p_to, offset_to) in
        if (p_to =? 0) && negb (copy_len =? 0) then Some (ERR_ARG, h)
        else
          let? okf := chk_queue p_from h in
          if negb okf then Some (ERR_VAL, h)
          else
            let? okt := chk_queue p_to h in
            if negb okt then Some (ERR_VAL, h)
            else if copy_len =? 0 then Some (ERR_OK, h)
            else copy_pbuf_loop fuel p_to p_from copy_len offset_to offset_from h
  end.

Definition pbuf_copy_partial_pbuf (p_to p_from copy_len offset : Z) (h : heap) : option (err_t * heap) :=
  if p_from =? 0 then Some (ERR_ARG, h)
  else
    let? bf := pbufs h !! p_from in
    if negb (copy_len <=? tot_len bf) then Some (ERR_ARG, h)
    else if p_to =? 0 then Some (ERR_ARG, h)
    else
      let? bt := pbufs h !! p_to in
      if negb (offset + copy_len <=? tot_len bt) then Some (ERR_ARG, h)
      else copy_pbuf_loop (2 * walk h) p_to p_from copy_len offset 0 h.

Definition pbuf_copy (p_to p_from : Z) (h : heap) : option (err_t * heap) :=
  if p_from =? 0 then Some (ERR_ARG, h)
  else let? bf := pbufs h !! p_from in pbuf_copy_partial_pbuf p_to p_from (tot_len bf) 0 h.

(** The bytes written to [dataptr] from its start, and their number. *)
Fixpoint copy_partial_loop (fuel : nat) (p n offset copied : Z) (out : list Z) (h : heap) : option (Z * list Z) :=
  if negb (n =? 0) && negb (p =? 0) then
    match fuel with
    | O => None
    | S fuel =>
        let? b := pbufs h !! p in
        if negb (offset =? 0) && (len b <=? offset) then
          copy_partial_loop fuel (next b) n (u16 (offset - len b)) copied out h
        else
          let k := u16 (len b - offset) in
          let k := if n <? k then n else k in
          copy_partial_loop fuel (next b) (u16 (n - k)) 0 (u16 (copied + k))
            (out ++ mread (bytes h) (payload b + offset) k) h
    end
  else Some (copied, out).

Definition pbuf_copy_partial (p n offset : Z) (h : heap) : option (Z * list Z) :=
  if p =? 0 then Some (0, []) else copy_partial_loop (walk h) p n offset 0 [] h.

Fixpoint skip_loop (fuel : nat) (q offset_left : Z) (h : heap) : option (Z * Z) :=
  if q =? 0 then Some (q, offset_left)
  else match fuel with
       | O => None
       | S fuel =>
           let? b := pbufs h !! q in
           if len b <=? offset_left then skip_loop fuel (next b) (u16 (offset_left - len b)) h
           else Some (q, offset_left)
       end.

Definition pbuf_skip_const (p in_offset : Z) (h : heap) : option (Z * Z) := skip_loop (walk h) p in_offset h.
Definition pbuf_skip (p in_offset : Z) (h : heap) : option (Z * Z) := pbuf_skip_const p in_offset h.

(** [pbuf_get_contiguous] with a caller buffer of [bufsize] bytes (or none):
    where the bytes are, and what they are. *)
Inductive contiguous := InPlace (a : Z) | InBuffer (bs : list Z) | NotContiguous.

Definition pbuf_get_contiguous (p : Z) (buffer : option Z) (n offset : Z) (h : heap) : option contiguous :=
  if p =? 0 then Some NotContiguous
  else if match buffer with Some bufsize => bufsize <? n | None => false end then Some NotContiguous
  else
    let? (q, out_offset) := pbuf_skip_const p offset h in
    if q =? 0 then Some NotContiguous
    else
      let? b := pbufs h !! q in
      if out_offset + n <=? len b then Some (InPlace (payload b + out_offset))
      else match buffer with
           | None => Some NotContiguous
           | Some _ =>
               let? (k, bs) := pbuf_copy_partial q n out_offset h in
               Some (if k =? n then InBuffer bs else NotContiguous)
           end.

Fixpoint split_loop (fuel : nat) (i r tot_len_front : Z) (h : heap) : option (Z * Z) :=
  if r =? 0 then Some (i, r)
  else match fuel with
       | O => None
       | S fuel =>
           let? b := pbufs h !! r in
           if tot_len_front <=? u16 (tot_len_front + len b)
           then split_loop fuel r (next b) (u16 (tot_len_front + len b)) h
           else Some (i, r)
       end.

Fixpoint split_fix (fuel : nat) (i r_tot : Z) (h : heap) : option heap :=
  if i =? 0 then Some h
  else match fuel with
       | O => None
       | S fuel =>
           let? b := pbufs h !! i in
           let b := b <| tot_len := u16 (tot_len b - r_tot) |> in
           assert! negb (next b =? 0) || (tot_len b =? len b) in
           split_fix fuel (next b) r_tot (put i b h)
       end.

(** [pbuf_split_64k]: [*rest]. *)
Definition pbuf_split_64k (p : Z) (h : heap) : option (Z * heap) :=
  if p =? 0 then Some (0, h)
  else
    let? b := pbufs h !! p in
    if next b =? 0 then Some (0, h)
    else
      let? (i, r) := split_loop (walk h) p (next b) (len b) h in
      let? bi := pbufs h !! i in
      let h := put i (bi <| next := 0 |>) h in
      if r =? 0 then Some (0, h)
      else
        let? br := pbufs h !! r in
        let? h := split_fix (walk h) p (tot_len br) h in
        let? b := pbufs h !! p in
        let? br := pbufs h !! r in
        let h := if flag_set (flags b) PBUF_FLAG_TCP_FIN
                 then put r (br <| flags := Z.lor (flags br) PBUF_FLAG_TCP_FIN |>) h else h in
        Some (r, h).

(** [pbuf_take] of the bytes [data] ([len] is their number). *)
Fixpoint take_loop (fuel : nat) (p : Z) (data : list Z) (h : heap) : option heap :=
  if lenz data =? 0 then Some h
  else match fuel with
       | O => None
       | S fuel =>
           assert! negb (p =? 0) in
           let? b := pbufs h !! p in
           let k := if len b <? lenz data then len b else lenz data in
           take_loop fuel (next b) (dropz k data) (h <| bytes := mwrite (bytes h) (payload b) (takez k data) |>)
       end.

Definition pbuf_take (p : Z) (data : list Z) (h : heap) : option (err_t * heap) :=
  if p =? 0 then Some (ERR_ARG, h)
  else
    let? b := pbufs h !! p in
    if tot_len b <? lenz data then Some (ERR_MEM, h)
    else let? h := take_loop (walk h) p data h in Some (ERR_OK, h).

Definition pbuf_take_at (p : Z) (data : list Z) (offset : Z) (h : heap) : option (err_t * heap) :=
  let? (q, target_offset) := pbuf_skip p offset h in
  if q =? 0 then Some (ERR_MEM, h)
  else
    let? b := pbufs h !! q in
    if tot_len b <? target_offset + lenz data then Some (ERR_MEM, h)
    else
      assert! (target_offset <? len b) in
      let k := u16 (Z.min (len b - target_offset) (lenz data)) in
      let h := h <| bytes := mwrite (bytes h) (payload b + target_offset) (takez k data) |> in
      if 0 <? u16 (lenz data - k) then pbuf_take (next b) (dropz k data) h
      else Some (ERR_OK, h).

Definition pbuf_clone (layer : pbuf_layer) (type : pbuf_type) (p : Z) (h : heap) : option (Z * heap) :=
  let? b := pbufs h !! p in
  let? (q, h) := pbuf_alloc layer (tot_len b) type h in
  if q =? 0 then Some (0, h)
  else
    let? (err, h) := pbuf_copy q p h in
    assert! err_ok err in
    Some (q, h).

Definition pbuf_coalesce (p : Z) (layer : pbuf_layer) (h : heap) : option (Z * heap) :=
  let? b := pbufs h !! p in
  if next b =? 0 then Some (p, h)
  else
    let? (q, h) := pbuf_clone layer PBUF_RAM p h in
    if q =? 0 then Some (p, h)
    else let? (_, h) := pbuf_free p h in Some (q, h).

(** ** Byte access and search *)
Definition pbuf_try_get_at (p offset : Z) (h : heap) : option Z :=
  let? (q, q_idx) := pbuf_skip_const p offset h in
  if q =? 0 then Some (-1)
  else let? b := pbufs h !! q in
       Some (if q_idx <? len b then byte_at (bytes h) (payload b + q_idx) else -1).

Definition pbuf_get_at (p offset : Z) (h : heap) : option Z :=
  let? r := pbuf_try_get_at p offset h in Some (if 0 <=? r then u8 r else 0).

Definition pbuf_put_at (p offset data : Z) (h : heap) : option heap :=
  let? (q, q_idx) := pbuf_skip p offset h in
  if q =? 0 then Some h
  else let? b := pbufs h !! q in
       Some (if q_idx <? len b then h <| bytes := <[payload b + q_idx := data]> (bytes h) |> else h).

(** The comparison loop from index [i] on; [s2] is the rest of the pattern. *)
Fixpoint memcmp_loop (q start i : Z) (s2 : list Z) (h : heap) : option Z :=
  match s2 with
  | [] => Some 0
  | b :: s2 =>
      let? a := pbuf_get_at q (u16 (start + i)) h in
      if a =? b then memcmp_loop q start (i + 1) s2 h else Some (Z.min (i + 1) 65535)
  end.

Definition pbuf_memcmp (p offset : Z) (s2 : list Z) (h : heap) : option Z :=
  let? b := pbufs h !! p in
  if tot_len b <? offset + lenz s2 then Some 65535
  else
    let? (q, start) := skip_loop (walk h) p offset h in
    memcmp_loop q start 0 s2 h.

Fixpoint memfind_loop (fuel : nat) (p i max_cmp_start : Z) (mem : list Z) (h : heap) : option Z :=
  if i <=? max_cmp_start then
    match fuel with
    | O => None
    | S fuel =>
        let? plus := pbuf_memcmp p i mem h in
        if plus =? 0 then Some i else memfind_loop fuel p (u16 (i + 1)) max_cmp_start mem h
    end
  else Some 65535.

Definition pbuf_memfind (p : Z) (mem : list Z) (start_offset : Z) (h : heap) : option Z :=
  let? b := pbufs h !! p in
  let max_cmp_start := u16 (tot_len b - lenz mem) in
  if lenz mem + start_offset <=? tot_len b
  then memfind_loop (S (Z.to_nat max_cmp_start)) p start_offset max_cmp_start mem h
  else Some 65535.

Definition pbuf_strstr (p : Z) (substr : cstr) (h : heap) : option Z :=
  if chr substr =? 0 then Some 65535
  else
    let? b := pbufs h !! p in
    if tot_len b =? 65535 then Some 65535
    else if 65535 <=? lenz substr then Some 65535
    else pbuf_memfind p substr 0 h.

End Pbuf.
