(* ===== verification/PbufFacts.v ===== *)
(** * PbufFacts: properties of packet buffers

    [chain m p l]: the structures from [p] along [next] are [l].  On chains
    with consistent totals the operations of pbuf.c act on the payload bytes
    as list operations do. *)

From S2P Require Import Prelude Opts Mem Memp Pbuf.

Abbreviation node := (Z * pbuf)%type.

(** ** Chains *)
Fixpoint chain (m : gmap Z pbuf) (p : Z) (l : list node) : Prop :=
  match l with
  | [] => p = 0
  | (a, b) :: l => p = a /\ a <> 0 /\ m !! a = Some b /\ chain m (next b) l
  end.

(** The bytes of all buffers, and consistent [tot_len] fields. *)
Definition ltot (l : list node) : Z := foldr (fun x n => len x.2 + n) 0 l.

Fixpoint totals (l : list node) : Prop :=
  match l with
  | [] => True
  | (_, b) :: t => 0 <= len b /\ tot_len b = len b + ltot t /\ totals t
  end.

Definition ok_chain (l : list node) : Prop := totals l /\ ltot l < 65536.

Definition cdata (m : gmap Z Z) (l : list node) : list Z := concat (map (fun x => mread m (payload x.2) (len x.2)) l).

Lemma chain_det m p l l' : chain m p l -> chain m p l' -> l = l'.
Proof.
  revert p l'. induction l as [|[a b] l IH]; intros p [|[a' b'] l']; cbn; try done.
  - intros -> (-> & H & _). done.
  - intros (-> & H & _) ->. done.
  - intros (-> & H1 & H2 & H3) (-> & _ & H4 & H5). rewrite H2 in H4. injection H4 as <-. f_equal. by eapply IH.
Qed.

Lemma chain_app m p l1 l2 : chain m p (l1 ++ l2) -> exists q, chain m q l2.
Proof.
  revert p. induction l1 as [|[a b] l1 IH]; intros p; [by exists p|]. intros (_ & _ & _ & H). by eapply IH.
Qed.

Lemma chain_nodup m p l : chain m p l -> NoDup (map fst l).
Proof.
  revert p. induction l as [|[a b] l IH]; intros p H; [constructor|]. pose proof H as (-> & H1 & H2 & H3).
  constructor; [|by eapply IH]. intros Hin. apply list_elem_of_fmap in Hin as ([c d] & E & Hin). cbn in E. subst c.
  apply list_elem_of_split in Hin as (l1 & l2 & ->). destruct (chain_app _ _ _ _ H3) as [q Hq].
  pose proof Hq as (-> & _ & H4 & H5). rewrite H2 in H4. injection H4 as <-.
  pose proof (chain_det _ _ _ _ H Hq) as E. apply (f_equal length) in E. cbn in E. rewrite length_app in E. cbn in E. lia.
Qed.

Lemma chain_dom m p l : chain m p l -> Forall (fun a => is_Some (m !! a)) (map fst l).
Proof. revert p. induction l as [|[a b] l IH]; intros p; [constructor|]. intros (_ & _ & H & H'). constructor; [by exists b|by eapply IH]. Qed.

Lemma chain_length m p l : chain m p l -> (length l <= size m)%nat.
Proof.
  intros H. rewrite <- (length_map fst l), <- size_dom. apply submseteq_length, NoDup_submseteq; [by eapply chain_nodup|].
  intros x Hx. apply elem_of_elements, elem_of_dom. pose proof (chain_dom _ _ _ H) as F. rewrite Forall_forall in F. by apply F.
Qed.

Lemma chain_walk h p l : chain (pbufs h) p l -> (length l < walk h)%nat.
Proof. intros H%chain_length. unfold walk. lia. Qed.

(** Changing structures outside the chain. *)
Lemma chain_frame m m' p l : chain m p l -> (forall a, a ∈ map fst l -> m' !! a = m !! a) -> chain m' p l.
Proof.
  revert p. induction l as [|[a b] l IH]; intros p; [done|]. intros (-> & H1 & H2 & H3) Hm. cbn in Hm.
  cbn. split_and!; try done; [rewrite Hm; [done|set_solver]|]. apply IH; [done|]. intros c Hc. apply Hm. set_solver.
Qed.

Lemma chain_insert m p l a b : chain m p l -> a ∉ map fst l -> chain (<[a := b]> m) p l.
Proof. intros H Ha. eapply chain_frame; [done|]. intros c Hc. rewrite lookup_insert_ne; [done|]. by intros ->. Qed.

Lemma ltot_cons a b l : ltot ((a, b) :: l) = len b + ltot l.
Proof. done. Qed.

Lemma ltot_nonneg l : totals l -> 0 <= ltot l.
Proof. induction l as [|[a b] l IH]; [done|]. intros (H1 & _ & H2). specialize (IH H2). rewrite ltot_cons. lia. Qed.

Lemma ltot_app l1 l2 : ltot (l1 ++ l2) = ltot l1 + ltot l2.
Proof. induction l1 as [|[a b] l1 IH]; [done|]. cbn [app]. rewrite !ltot_cons, IH. lia. Qed.

Lemma ok_chain_cons a b l : ok_chain ((a, b) :: l) -> 0 <= len b < 65536 /\ tot_len b = len b + ltot l /\ ok_chain l /\ 0 <= ltot l.
Proof. unfold ok_chain. rewrite ltot_cons. intros [(H1 & H2 & H3) H4]. pose proof (ltot_nonneg _ H3). split_and!; try done; lia. Qed.

(** ** Memory *)
Lemma lenz_mread m a n : 0 <= n -> lenz (mread m a n) = n.
Proof. intros. unfold lenz, mread. rewrite length_map, length_seq. lia. Qed.

Lemma mread_lookup m a n i : (i < Z.to_nat n)%nat -> mread m a n !! i = Some (byte_at m (a + Z.of_nat i)).
Proof. intros Hi. unfold mread. change (map ?f ?l) with (f <$> l). rewrite list_lookup_fmap, lookup_seq_lt by done. done. Qed.

Lemma mread_app m a n k : 0 <= n -> 0 <= k -> mread m a (n + k) = mread m a n ++ mread m (a + n) k.
Proof.
  intros Hn Hk. unfold mread. rewrite Z2Nat.inj_add by lia. rewrite seq_app, map_app. f_equal. cbn [Nat.add].
  rewrite <- (Nat.add_0_r (Z.to_nat n)) at 1. rewrite <- fmap_add_seq. change (map ?f ?l) with (f <$> l) at 1.
  rewrite <- list_fmap_compose. apply list_fmap_ext. intros i x _. cbn. f_equal. lia.
Qed.

Lemma mread_sub m a n i k : 0 <= i -> 0 <= k -> i + k <= n -> mread m (a + i) k = takez k (dropz i (mread m a n)).
Proof.
  intros Hi Hk Hn. replace n with (i + (k + (n - i - k))) by lia. rewrite !mread_app by lia.
  rewrite dropz_app by lia. rewrite dropz_all by (rewrite lenz_mread; lia). rewrite lenz_mread, Z.sub_diag by lia.
  rewrite dropz_0 by lia. cbn. rewrite takez_app_eq; [done|]. by rewrite lenz_mread.
Qed.

Lemma byte_mwrite m a bs x : byte_at (mwrite m a bs) x =
  if (a <=? x) && (x <? a + lenz bs) then default 0 (bs !! Z.to_nat (x - a)) else byte_at m x.
Proof.
  revert m a. induction bs as [|b bs IH]; intros m a; cbn [mwrite].
  - change (lenz (@nil Z)) with 0. destruct (Z.leb_spec a x), (Z.ltb_spec x (a + 0)); cbn; try done; lia.
  - rewrite IH, lenz_cons. pose proof (lenz_nonneg bs). unfold byte_at.
    destruct (Z.leb_spec (a + 1) x), (Z.ltb_spec x (a + 1 + lenz bs)), (Z.leb_spec a x), (Z.ltb_spec x (a + (1 + lenz bs)));
      cbn [andb]; try lia; try (rewrite lookup_insert_ne by lia; done).
    + replace (Z.to_nat (x - a)) with (S (Z.to_nat (x - (a + 1)))) by lia. done.
    + replace x with a by lia. rewrite lookup_insert_eq. by rewrite Z.sub_diag.
Qed.

Lemma mread_ext m m' a n : (forall x, a <= x < a + n -> byte_at m' x = byte_at m x) -> mread m' a n = mread m a n.
Proof. intros H. unfold mread. apply map_ext_in. intros i Hi%in_seq. apply H. lia. Qed.

Lemma mread_mwrite_ne m a bs b n : a + lenz bs <= b \/ b + n <= a -> mread (mwrite m a bs) b n = mread m b n.
Proof.
  intros H. apply mread_ext. intros x Hx. rewrite byte_mwrite.
  destruct (Z.leb_spec a x), (Z.ltb_spec x (a + lenz bs)); cbn; try done; lia.
Qed.

Lemma mread_mwrite_prefix m a bs n : lenz bs <= n -> mread (mwrite m a bs) a n = bs ++ dropz (lenz bs) (mread m a n).
Proof.
  intros Hn. pose proof (lenz_nonneg bs). replace n with (lenz bs + (n - lenz bs)) by lia. rewrite !mread_app by lia.
  rewrite dropz_app_eq by (rewrite lenz_mread; lia). f_equal; [|apply mread_mwrite_ne; lia].
  apply list_eq. intros i. destruct (decide (i < length bs)%nat) as [Hi|Hi].
  - rewrite mread_lookup by (unfold lenz; lia). rewrite byte_mwrite.
    destruct (Z.leb_spec a (a + Z.of_nat i)); [|lia]. destruct (Z.ltb_spec (a + Z.of_nat i) (a + lenz bs)); [|unfold lenz in *; lia].
    cbn [andb]. replace (Z.to_nat (a + Z.of_nat i - a)) with i by lia. by destruct (lookup_lt_is_Some_2 bs i Hi) as [x ->].
  - rewrite !lookup_ge_None_2; [done|lia|]. unfold mread. rewrite length_map, length_seq. unfold lenz. lia.
Qed.

Definition lens_ok (l : list node) : Prop := Forall (fun x => 0 <= len x.2) l.

Lemma totals_lens l : totals l -> lens_ok l.
Proof. induction l as [|[a b] l IH]; [by constructor|]. intros (H1 & _ & H2). constructor; [done|by apply IH]. Qed.

Lemma lenz_cdata m l : lens_ok l -> lenz (cdata m l) = ltot l.
Proof.
  unfold cdata. induction 1 as [|[a b] l H1 _ IH]; [done|]. cbn [map concat]. rewrite lenz_app, IH, lenz_mread by done. done.
Qed.

Lemma ltot_lens l : lens_ok l -> 0 <= ltot l.
Proof. intros H. rewrite <- (lenz_cdata ∅ l H). apply lenz_nonneg. Qed.

Lemma cdata_cons m a b l : cdata m ((a, b) :: l) = mread m (payload b) (len b) ++ cdata m l.
Proof. done. Qed.

Lemma cdata_app m l1 l2 : cdata m (l1 ++ l2) = cdata m l1 ++ cdata m l2.
Proof. unfold cdata. by rewrite map_app, concat_app. Qed.

(** ** Reading *)
Section Reading.
Context {o : Opts} {cf : CustomFree}.

Lemma copy_partial_loop_ok h l p n off c out fuel :
  chain (pbufs h) p l -> ok_chain l -> (length l < fuel)%nat -> 0 <= off < 65536 -> 0 <= n -> 0 <= c -> c + n < 65536 ->
  let r := takez n (dropz off (cdata (bytes h) l)) in
  copy_partial_loop fuel p n off c out h = Some (c + lenz r, out ++ r).
Proof.
  revert p n off c out fuel. induction l as [|[a b] l IH]; intros p n off c out fuel Hc Hok Hf Ho Hn Hcn Hb; cbv zeta.
  - cbn in Hc. subst p. destruct fuel; cbn [copy_partial_loop]; rewrite Z.eqb_refl, andb_false_r;
      change (cdata (bytes h) []) with (@nil Z); rewrite dropz_nil, takez_nil;
      change (lenz (@nil Z)) with 0; by rewrite Z.add_0_r, app_nil_r.
  - destruct fuel as [|fuel]; [lia|]. destruct Hc as (-> & Hnz & Hl & Hc). destruct (ok_chain_cons _ _ _ Hok) as (H1 & H2 & Hok' & H3).
    cbn [copy_partial_loop]. apply Z.eqb_neq in Hnz as ->. cbn [negb]. rewrite andb_true_r.
    destruct (Z.eqb_spec n 0) as [->|Hn0]; cbn [negb].
    { rewrite takez_0 by lia. change (lenz (@nil Z)) with 0. by rewrite Z.add_0_r, app_nil_r. }
    rewrite Hl, cdata_cons. cbn in Hf. rewrite dropz_app by lia. rewrite lenz_mread by lia.
    destruct (negb (off =? 0) && (len b <=? off)) eqn:Es.
    + bprop. rewrite u16_id by zlia. rewrite IH by (done || lia).
      rewrite (dropz_all off (mread _ _ _)) by (rewrite lenz_mread; lia). done.
    + assert (Hol : off <= len b) by (apply andb_false_iff in Es as [Es|Es]; bprop; lia).
      rewrite (u16_id (len b - off)) by zlia.
      set (k := if n <? len b - off then n else len b - off).
      assert (Hk : k = Z.min n (len b - off)) by (unfold k; destruct (Z.ltb_spec n (len b - off)); lia).
      rewrite (u16_id (n - k)), (u16_id (c + k)) by zlia.
      rewrite IH by (done || lia). rewrite dropz_0 by lia. rewrite (dropz_0 (off - len b)) by lia.
      rewrite takez_app by lia. rewrite lenz_dropz by (rewrite lenz_mread; lia). rewrite lenz_mread by lia.
      rewrite (mread_sub _ _ (len b)) by lia.
      assert (E : takez k (dropz off (mread (bytes h) (payload b) (len b))) = takez n (dropz off (mread (bytes h) (payload b) (len b)))).
      { destruct (Z.le_gt_cases n (len b - off)); [by replace k with n by lia|].
        rewrite !takez_all by (rewrite lenz_dropz; rewrite ?lenz_mread; lia). done. }
      assert (L : lenz (takez k (dropz off (mread (bytes h) (payload b) (len b)))) = k)
        by (apply lenz_takez; rewrite lenz_dropz; rewrite ?lenz_mread; lia).
      rewrite E in L |- *. rewrite <- app_assoc. assert (E2 : takez (n - k) (cdata (bytes h) l) = takez (n - (len b - off)) (cdata (bytes h) l)).
      { destruct (Z.le_gt_cases n (len b - off)); [by rewrite !takez_0 by lia|]. by replace k with (len b - off) by lia. }
      rewrite E2, lenz_app, L. do 2 f_equal. lia.
Qed.

(** [pbuf_copy_partial] reads a range of the chain's bytes. *)
Lemma copy_partial_ok h l p n off :
  chain (pbufs h) p l -> ok_chain l -> 0 <= n < 65536 -> 0 <= off < 65536 ->
  let r := takez n (dropz off (cdata (bytes h) l)) in
  pbuf_copy_partial p n off h = Some (lenz r, r).
Proof.
  intros Hc Hok Hn Ho. cbv zeta. unfold pbuf_copy_partial. destruct (Z.eqb_spec p 0) as [->|Hp].
  - destruct l as [|[a b] l]; [|by destruct Hc as (<- & ? & _)]. change (cdata (bytes h) []) with (@nil Z). by rewrite dropz_nil, takez_nil.
  - rewrite (copy_partial_loop_ok h l) by (done || lia || by eapply chain_walk). done.
Qed.

Lemma skip_loop_ok h l p off fuel :
  chain (pbufs h) p l -> ok_chain l -> (length l < fuel)%nat -> 0 <= off < 65536 ->
  exists l1 l2 q, l = l1 ++ l2 /\ skip_loop fuel p off h = Some (q, off - ltot l1) /\ chain (pbufs h) q l2
  /\ ltot l1 <= off /\ match l2 with [] => True | (_, b) :: _ => off - ltot l1 < len b end.
Proof.
  revert p off fuel. induction l as [|[a b] l IH]; intros p off fuel Hc Hok Hf Ho.
  - cbn in Hc. subst p. exists [], [], 0. destruct fuel; cbn; rewrite Z.sub_0_r; split_and!; try done; lia.
  - destruct fuel as [|fuel]; [lia|]. pose proof Hc as (-> & Hnz & Hl & Hc'). destruct (ok_chain_cons _ _ _ Hok) as (H1 & H2 & Hok' & H3).
    cbn [skip_loop]. apply Z.eqb_neq in Hnz as Hnz'. rewrite Hnz', Hl. destruct (Z.leb_spec (len b) off).
    + rewrite u16_id by zlia. destruct (IH (next b) (off - len b) fuel) as (l1 & l2 & q & -> & -> & H5 & H6 & H7); [done|done|cbn in Hf; lia|lia|].
      exists ((a, b) :: l1), l2, q. rewrite ltot_cons. split_and!; try done; [do 2 f_equal; lia|lia|].
      destruct l2 as [|[c d] l2]; [done|lia].
    + exists [], ((a, b) :: l), a. change (ltot []) with 0. rewrite Z.sub_0_r. split_and!; try done; lia.
Qed.

(** One byte of the chain, or none past its end. *)
Lemma try_get_at_ok h l p off :
  chain (pbufs h) p l -> ok_chain l -> 0 <= off < 65536 ->
  pbuf_try_get_at p off h = Some (default (-1) (cdata (bytes h) l !! Z.to_nat off)).
Proof.
  intros Hc Hok Ho. unfold pbuf_try_get_at, pbuf_skip_const.
  destruct (skip_loop_ok h l p off (walk h) Hc Hok (chain_walk _ _ _ Hc) Ho) as (l1 & l2 & q & -> & -> & Hq & H1 & H2).
  destruct Hok as [Ht%totals_lens Hb]. rewrite cdata_app. apply Forall_app in Ht as [L1 L2].
  rewrite lookup_app_r by (pose proof (lenz_cdata (bytes h) _ L1); unfold lenz in *; lia).
  replace (Z.to_nat off - length (cdata (bytes h) l1))%nat with (Z.to_nat (off - ltot l1))
    by (pose proof (lenz_cdata (bytes h) _ L1); unfold lenz in *; lia).
  destruct l2 as [|[a b] l2]; [cbn in Hq; by subst q|]. destruct Hq as (-> & Hnz%Z.eqb_neq & Hl & _). rewrite Hnz, Hl.
  destruct (Z.ltb_spec (off - ltot l1) (len b)); [|lia]. rewrite cdata_cons.
  assert (Hi : (Z.to_nat (off - ltot l1) < Z.to_nat (len b))%nat) by lia.
  rewrite lookup_app_l by (unfold mread; rewrite length_map, length_seq; lia). rewrite mread_lookup by done. cbn. do 2 f_equal. lia.
Qed.

(** ** Searching *)
Definition matches (d mem : list Z) (j : Z) : Prop := takez (lenz mem) (dropz j d) = mem.

Lemma takez_dropz_cons (d : list Z) j n x : 0 <= j -> 0 <= n -> d !! Z.to_nat j = Some x ->
  takez (1 + n) (dropz j d) = x :: takez n (dropz (j + 1) d).
Proof.
  intros Hj Hn Hx. unfold takez, dropz. rewrite (drop_S _ _ _ Hx). rewrite Z2Nat.inj_add by lia. cbn [Nat.add].
  change (Z.to_nat 1) with 1%nat. cbn [Nat.add take]. do 2 f_equal. by rewrite <- (Z2Nat.inj_succ j) by lia.
Qed.

Lemma memcmp_loop_ok h l q start i s2 :
  chain (pbufs h) q l -> ok_chain l -> Forall is_u8 (cdata (bytes h) l) ->
  0 <= start -> 0 <= i -> start + i + lenz s2 <= ltot l ->
  exists r, memcmp_loop q start i s2 h = Some r /\ (r = 0 <-> matches (cdata (bytes h) l) s2 (start + i)).
Proof.
  intros Hc Hok Hb Hs. pose proof Hok as [Ht Hlt]. pose proof (lenz_cdata (bytes h) _ (totals_lens _ Ht)) as Hlen.
  revert i. induction s2 as [|b s2 IH]; intros i Hi Hn; cbn [memcmp_loop].
  - exists 0. split; [done|]. unfold matches. change (lenz (@nil Z)) with 0. by rewrite takez_0 by lia.
  - rewrite lenz_cons in Hn. pose proof (lenz_nonneg s2). unfold pbuf_get_at. rewrite u16_id by zlia.
    rewrite (try_get_at_ok h l q) by (done || lia).
    destruct (lookup_lt_is_Some_2 (cdata (bytes h) l) (Z.to_nat (start + i))) as [x Hx]; [unfold lenz in *; lia|].
    rewrite Hx. cbn [default from_option]. unfold id. rewrite Forall_lookup in Hb. pose proof (Hb _ _ Hx) as Hx8. unfold is_u8 in Hx8.
    destruct (Z.leb_spec 0 x); [|lia]. rewrite u8_id by done.
    unfold matches in *. rewrite lenz_cons, (takez_dropz_cons _ _ _ x) by (done || lia).
    destruct (Z.eqb_spec x b) as [->|Hne].
    + destruct (IH (i + 1)) as (r & E & Er); [lia|lia|]. exists r. split; [done|].
      replace (start + i + 1) with (start + (i + 1)) by lia. rewrite Er. split; [intros Em; f_equal; exact Em|by injection 1].
    + exists (Z.min (i + 1) 65535). split; [done|]. split; [lia|congruence].
Qed.

Lemma memcmp_ok h l p off s2 :
  chain (pbufs h) p l -> ok_chain l -> l <> [] -> Forall is_u8 (cdata (bytes h) l) -> 0 <= off -> off + lenz s2 <= ltot l ->
  exists r, pbuf_memcmp p off s2 h = Some r /\ (r = 0 <-> matches (cdata (bytes h) l) s2 off).
Proof.
  intros Hc Hok Hne Hb Ho Hn. pose proof (lenz_nonneg s2). pose proof Hok as [Ht Hlt].
  unfold pbuf_memcmp. destruct (skip_loop_ok h l p off (walk h) Hc Hok (chain_walk _ _ _ Hc) ltac:(lia)) as (l1 & l2 & q & El & -> & Hq & H1 & _).
  destruct l as [|[a b] l]; [done|]. pose proof Hc as (-> & _ & -> & _). destruct (ok_chain_cons _ _ _ Hok) as (_ & -> & _ & _).
  rewrite ltot_cons in *. destruct (Z.ltb_spec (len b + ltot l) (off + lenz s2)); [lia|].
  assert (Hok2 : ok_chain l2).
  { rewrite <- ltot_cons with (a := a), El in *. clear - Ht Hlt. rewrite ltot_app in Hlt.
    split; [|]. - clear Hlt. revert Ht. induction l1 as [|[c d] l1 IH]; [done|]. intros (_ & _ & Ht). by apply IH.
    - pose proof (totals_lens _ Ht) as L. apply Forall_app in L as [L _]. rewrite <- (lenz_cdata ∅ _ L) in Hlt.
      pose proof (lenz_nonneg (cdata ∅ l1)). lia. }
  pose proof (totals_lens _ Ht) as L. rewrite El in L, Hb |- *. apply Forall_app in L as [L1 L2]. rewrite cdata_app in *.
  apply Forall_app in Hb as [_ Hb]. assert (E : len b + ltot l = ltot l1 + ltot l2) by (rewrite <- ltot_app, <- El; done).
  destruct (memcmp_loop_ok h l2 q (off - ltot l1) 0 s2 Hq Hok2 Hb) as (r & E1 & E2); [lia|lia|lia|].
  exists r. split; [done|]. rewrite E2. unfold matches. rewrite dropz_app by lia.
  rewrite (dropz_all off) by (rewrite lenz_cdata; done). rewrite lenz_cdata by done. by rewrite Z.add_0_r.
Qed.

Lemma memfind_loop_ok h l p i mem fuel :
  chain (pbufs h) p l -> ok_chain l -> l <> [] -> Forall is_u8 (cdata (bytes h) l) ->
  0 <= i -> (0 < lenz mem \/ i <= ltot l) -> lenz mem <= ltot l -> ltot l - lenz mem < i + Z.of_nat fuel ->
  exists r, memfind_loop fuel p i (ltot l - lenz mem) mem h = Some r /\
  ((i <= r <= ltot l - lenz mem /\ matches (cdata (bytes h) l) mem r /\ forall j, i <= j < r -> ~ matches (cdata (bytes h) l) mem j)
   \/ (r = 65535 /\ forall j, i <= j <= ltot l - lenz mem -> ~ matches (cdata (bytes h) l) mem j)).
Proof.
  intros Hc Hok Hne Hb. pose proof Hok as [Ht Hlt]. pose proof (lenz_nonneg mem).
  revert i. induction fuel as [|fuel IH]; intros i Hi Hm Hml Hf; cbn [memfind_loop];
    (destruct (Z.leb_spec i (ltot l - lenz mem)); [|exists 65535; split; [done|]; right; split; [done|]; intros; lia]); [lia|].
  destruct (memcmp_ok h l p i mem Hc Hok Hne Hb) as (r & -> & Hr); [lia|lia|].
  destruct (Z.eqb_spec r 0) as [->|Hr0].
  - exists i. split; [done|]. left. split_and!; [lia|lia|by apply Hr|intros; lia].
  - assert (Hnm : ~ matches (cdata (bytes h) l) mem i) by tauto.
    assert (Hpos : 0 < lenz mem).
    { destruct (decide (lenz mem = 0)) as [E0|]; [|lia]. exfalso. apply Hnm. unfold matches. rewrite E0, takez_0 by lia.
      symmetry. by apply nil_length_inv; unfold lenz in *; lia. }
    rewrite u16_id by zlia. destruct (IH (i + 1)) as (r' & -> & Hr'); [lia|by left|done|lia|]. exists r'. split; [done|].
    assert (forall P : Z -> Prop, ~ P i -> forall a, (forall j, i + 1 <= j < a -> ~ P j) -> forall j, i <= j < a -> ~ P j).
    { intros P Hi0 a Ha j Hj. destruct (decide (j = i)) as [->|]; [done|apply Ha; lia]. }
    destruct Hr' as [(R1 & R2 & R3)|(-> & R3)].
    + left. split_and!; [lia|lia|done|]. by apply H1.
    + right. split; [done|]. intros j Hj. destruct (decide (j = i)) as [->|]; [done|apply R3; lia].
Qed.

(** [pbuf_memfind] finds the first occurrence of a byte string at or after
    an offset, wherever the chain's buffer boundaries fall, and returns 0xFFFF
    when there is none. *)
Theorem pbuf_memfind_first h l p mem start :
  chain (pbufs h) p l -> ok_chain l -> l <> [] -> Forall is_u8 (cdata (bytes h) l) ->
  0 <= start -> lenz mem + start <= ltot l ->
  exists r, pbuf_memfind p mem start h = Some r /\
  ((start <= r <= ltot l - lenz mem /\ matches (cdata (bytes h) l) mem r
    /\ forall j, start <= j < r -> ~ matches (cdata (bytes h) l) mem j)
   \/ (r = 65535 /\ forall j, start <= j <= ltot l - lenz mem -> ~ matches (cdata (bytes h) l) mem j)).
Proof.
  intros Hc Hok Hne Hb Hs Hm. pose proof (lenz_nonneg mem). pose proof Hok as [Ht Hlt].
  assert (E : exists b, pbufs h !! p = Some b /\ tot_len b = ltot l).
  { destruct l as [|[a b] l]; [done|]. pose proof Hc as (-> & _ & Hl & _). destruct (ok_chain_cons _ _ _ Hok) as (_ & E & _). by exists b. }
  destruct E as (b & Hl & Eb). unfold pbuf_memfind. rewrite Hl, Eb. rewrite u16_id by zlia.
  destruct (Z.leb_spec (lenz mem + start) (ltot l)); [|lia]. apply memfind_loop_ok; try done; lia.
Qed.

End Reading.

(** ** Writing *)

(** The payloads of a chain do not overlap. *)
Definition apart (b c : pbuf) : Prop := payload b + len b <= payload c \/ payload c + len c <= payload b.

Fixpoint disjoint_payloads (l : list node) : Prop :=
  match l with [] => True | (_, b) :: t => Forall (fun x => apart b x.2) t /\ disjoint_payloads t end.

(** Addresses outside every payload of the chain. *)
Definition outside (l : list node) (x : Z) : Prop := Forall (fun y => x < payload y.2 \/ payload y.2 + len y.2 <= x) l.

Section Writing.
Context {o : Opts} {cf : CustomFree}.

Lemma cdata_ext m m' l : lens_ok l -> (forall x, ~ outside l x -> byte_at m' x = byte_at m x) -> cdata m' l = cdata m l.
Proof.
  intros Hl Hm. unfold cdata. f_equal. apply map_ext_in. intros [a b] Hin%list_elem_of_In. cbn. apply mread_ext. intros x Hx.
  apply Hm. unfold outside. rewrite Forall_forall. intros H. specialize (H _ Hin). cbn in H. lia.
Qed.

Lemma take_loop_ok h l p data fuel :
  chain (pbufs h) p l -> lens_ok l -> disjoint_payloads l -> (length l < fuel)%nat -> lenz data <= ltot l ->
  exists m, take_loop fuel p data h = Some (h <| bytes := m |>)
  /\ cdata m l = data ++ dropz (lenz data) (cdata (bytes h) l) /\ forall x, outside l x -> byte_at m x = byte_at (bytes h) x.
Proof.
  revert p data h fuel. induction l as [|[a b] l IH]; intros p data h fuel Hc Hl Hd Hf Hn; pose proof (lenz_nonneg data) as Hn0.
  - change (ltot []) with 0 in Hn. assert (data = []) as -> by (apply nil_length_inv; unfold lenz in *; lia).
    exists (bytes h). destruct fuel; cbn [take_loop]; change (lenz (@nil Z)) with 0; rewrite Z.eqb_refl; (split; [by destruct h|]);
      (split; [by rewrite dropz_0|done]).
  - destruct fuel as [|fuel]; [lia|]. destruct Hc as (-> & Hnz%Z.eqb_neq & Hlk & Hc). inversion Hl as [|? ? H0 Hl']; subst. cbn in H0.
    destruct Hd as [Hd1 Hd2]. rewrite ltot_cons in Hn. cbn [take_loop]. rewrite Hnz, Hlk. cbn [negb].
    destruct (Z.eqb_spec (lenz data) 0) as [E0|E0].
    { assert (data = []) as -> by (apply nil_length_inv; unfold lenz in *; lia). exists (bytes h). split; [by destruct h|].
      split; [by rewrite dropz_0|done]. }
    pose proof (ltot_lens _ Hl') as Hl0. set (k := if len b <? lenz data then len b else lenz data).
    assert (Hk : k = Z.min (len b) (lenz data)) by (unfold k; destruct (Z.ltb_spec (len b) (lenz data)); lia).
    set (m1 := mwrite (bytes h) (payload b) (takez k data)).
    assert (Lk : lenz (takez k data) = k) by (apply lenz_takez; lia).
    assert (Hm1 : forall x, x < payload b \/ payload b + len b <= x -> byte_at m1 x = byte_at (bytes h) x).
    { intros x Hx. unfold m1. rewrite byte_mwrite, Lk.
      destruct (Z.leb_spec (payload b) x), (Z.ltb_spec x (payload b + k)); cbn; try done; lia. }
    destruct (IH (next b) (dropz k data) (h <| bytes := m1 |>) fuel) as (m & E & Ed & Eo); [done|done|done|cbn in Hf; lia|rewrite lenz_dropz; lia|].
    exists m. rewrite E. split; [by destruct h|]. cbn [setf bytes] in Ed, Eo. rewrite !cdata_cons, Ed.
    assert (Em : mread m (payload b) (len b) = takez k data ++ dropz k (mread (bytes h) (payload b) (len b))).
    { rewrite (mread_ext m1); [unfold m1; rewrite mread_mwrite_prefix, Lk by lia; done|].
      intros x Hx. apply Eo. unfold outside. eapply Forall_impl; [exact Hd1|]. intros [c d]. unfold apart. cbn. lia. }
    assert (El : cdata m1 l = cdata (bytes h) l).
    { apply cdata_ext; [done|]. intros x Hx. apply Hm1. destruct (Z.lt_ge_cases x (payload b)); [by left|]. right.
      destruct (Z.le_gt_cases (payload b + len b) x); [done|]. exfalso. apply Hx. unfold outside.
      eapply Forall_impl; [exact Hd1|]. intros [c d]. unfold apart. cbn. lia. }
    rewrite El, Em. rewrite <- (takez_dropz k data) at 4. split.
    + rewrite <- !app_assoc. f_equal. rewrite dropz_app by lia. rewrite lenz_mread, lenz_dropz by lia.
      destruct (Z.le_gt_cases (lenz data) (len b)).
      * replace k with (lenz data) by lia. rewrite (dropz_all (lenz data) data) by lia. rewrite !(dropz_0 _ (cdata _ _)) by lia. done.
      * replace k with (len b) by lia. rewrite (dropz_all (len b)), (dropz_all (lenz data)) by (rewrite lenz_mread; lia). done.
    + intros x Hx. inversion Hx as [|? ? Hx1 Hx2]; subst. rewrite Eo by done. by apply Hm1.
Qed.

(** [pbuf_take] writes the bytes at the front of the chain. *)
Lemma pbuf_take_ok h l p data :
  chain (pbufs h) p l -> ok_chain l -> l <> [] -> disjoint_payloads l -> lenz data <= ltot l ->
  exists m, pbuf_take p data h = Some (ERR_OK, h <| bytes := m |>)
  /\ cdata m l = data ++ dropz (lenz data) (cdata (bytes h) l) /\ forall x, outside l x -> byte_at m x = byte_at (bytes h) x.
Proof.
  intros Hc Hok Hne Hd Hn. pose proof Hok as [Ht Hlt]. unfold pbuf_take.
  destruct (take_loop_ok h l p data (walk h) Hc (totals_lens _ Ht) Hd (chain_walk _ _ _ Hc) Hn) as (m & E & H).
  destruct l as [|[a b] l]; [done|]. pose proof Hc as (-> & Hnz%Z.eqb_neq & Hlk & _). rewrite Hnz, Hlk.
  destruct (ok_chain_cons _ _ _ Hok) as (_ & -> & _). rewrite ltot_cons in Hn. destruct (Z.ltb_spec (len b + ltot l) (lenz data)); [lia|].
  rewrite E. by exists m.
Qed.

(** C37: what [pbuf_take] stores, [pbuf_copy_partial] reads back: after storing
    [data] at the front of a chain, any range of the chain reads as that range
    of [data] followed by what the chain held after it, and no byte outside
    the chain's payloads has changed. *)
Theorem pbuf_take_copy_roundtrip h l p data :
  chain (pbufs h) p l -> ok_chain l -> l <> [] -> disjoint_payloads l -> lenz data <= ltot l ->
  exists h', pbuf_take p data h = Some (ERR_OK, h')
  /\ (forall n off, 0 <= n < 65536 -> 0 <= off < 65536 ->
       let r := takez n (dropz off (data ++ dropz (lenz data) (cdata (bytes h) l))) in
       pbuf_copy_partial p n off h' = Some (lenz r, r))
  /\ pbufs h' = pbufs h /\ forall x, outside l x -> byte_at (bytes h') x = byte_at (bytes h) x.
Proof.
  intros Hc Hok Hne Hd Hn. destruct (pbuf_take_ok h l p data Hc Hok Hne Hd Hn) as (m & E & Ed & Eo).
  set (h' := h <| bytes := m |>). assert (Eb : bytes h' = m) by reflexivity.
  exists h'. split; [done|]. split; [|done]. intros n off H1 H2. rewrite <- Ed, <- Eb.
  apply copy_partial_ok; done.
Qed.
End Writing.

(** ** Releasing *)

(** The pool a structure came from. *)
Definition home (b : pbuf) : memp_t := if pbuf_get_allocsrc b =? SRC_MEMP_PBUF_POOL then MEMP_PBUF_POOL else MEMP_PBUF.

(** Structures [pbuf_free] can release to a pool. *)
Definition pooled (x : node) : Prop :=
  x.1 mod 8 = 0 /\ 0 < ref x.2 < 256 /\ flag_set (flags x.2) PBUF_FLAG_IS_CUSTOM = false
  /\ (pbuf_get_allocsrc x.2 = SRC_MEMP_PBUF_POOL \/ pbuf_get_allocsrc x.2 = SRC_MEMP_PBUF).

(** The chain up to the first structure somebody else also refers to, and from there on. *)
Fixpoint sole (l : list node) : list node :=
  match l with (a, b) :: t => if ref b =? 1 then (a, b) :: sole t else [] | [] => [] end.
Fixpoint shared (l : list node) : list node :=
  match l with (a, b) :: t => if ref b =? 1 then shared t else (a, b) :: t | [] => [] end.

Definition drop_pbufs (m : gmap Z pbuf) (l : list node) : gmap Z pbuf := foldl (fun m x => delete x.1 m) m l.
Definition give_back (ps : memp_state) (l : list node) : memp_state :=
  foldl (fun ps x => set_tab (home x.2) (x.1 :: ps (home x.2)) ps) ps l.
Definition unref (m : gmap Z pbuf) (l : list node) : gmap Z pbuf :=
  match l with (a, b) :: _ => <[a := b <| ref := ref b - 1 |>]> m | [] => m end.

Lemma sole_shared l : l = sole l ++ shared l.
Proof. induction l as [|[a b] l IH]; [done|]. cbn. destruct (ref b =? 1); [cbn; by f_equal|done]. Qed.

Lemma drop_pbufs_lookup m l a : a ∉ map fst l -> drop_pbufs m l !! a = m !! a.
Proof.
  revert m. induction l as [|[c d] l IH]; intros m Ha; [done|]. cbn in *. unfold drop_pbufs in *. cbn.
  rewrite IH by set_solver. apply lookup_delete_ne. set_solver.
Qed.

Section Releasing.
Context {o : Opts} {cf : CustomFree}.

Lemma pbuf_dealloc_ok p b h : pooled (p, b <| ref := 1 |>) -> p <> 0 ->
  pbuf_dealloc p (b <| ref := 0 |>) h =
  Some (h <| pbufs := delete p (pbufs h) |> <| pools := set_tab (home b) (p :: pools h (home b)) (pools h) |>).
Proof.
  intros (Hm & _ & Hc & Hs) Hp%Z.eqb_neq. unfold pbuf_dealloc. cbn in Hm, Hc, Hs.
  change (flags (b <| ref := 0 |>)) with (flags b). rewrite Hc.
  change (pbuf_get_allocsrc (b <| ref := 0 |>)) with (pbuf_get_allocsrc b).
  unfold memp_free, do_memp_free_pool, home, MEM_ALIGNMENT, MEMP_SIZE in *.
  change (pools (h <| pbufs := delete p (pbufs h) |>)) with (pools h). rewrite Hp, Hm, Z.sub_0_r.
  change (pbuf_get_allocsrc b = SRC_MEMP_PBUF_POOL \/ pbuf_get_allocsrc b = SRC_MEMP_PBUF) in Hs.
  destruct Hs as [-> | ->]; reflexivity.
Qed.

Lemma free_loop_ok h l p c fuel :
  chain (pbufs h) p l -> Forall pooled l -> (length l < fuel)%nat -> is_u8 c ->
  free_loop fuel c p h =
  Some (u8 (c + lenz (sole l)),
        h <| pbufs := unref (drop_pbufs (pbufs h) (sole l)) (shared l) |> <| pools := give_back (pools h) (sole l) |>).
Proof.
  revert p c h fuel. induction l as [|[a b] l IH]; intros p c h fuel Hc Hp Hf Hc8.
  - cbn in Hc. subst p. change (lenz (sole [])) with 0. rewrite Z.add_0_r, u8_id by done. destruct fuel; by destruct h.
  - destruct fuel as [|fuel]; [lia|]. pose proof (chain_nodup _ _ _ Hc) as Hnd. inversion Hnd as [|? ? Hna _]; subst.
    destruct Hc as (-> & Hnz & Hl & Hc). inversion Hp as [|? ? Hpa Hpl]; subst. pose proof Hpa as (Hm & Hr & Hcu & Hs). cbn in Hr.
    cbn [free_loop]. apply Z.eqb_neq in Hnz as Hnz'. rewrite Hnz', Hl. destruct (Z.ltb_spec 0 (ref b)); [|lia].
    cbn [sole shared]. change (ref (b <| ref := ref b - 1 |>)) with (ref b - 1).
    destruct (Z.eqb_spec (ref b) 1) as [E1|E1].
    + rewrite E1. cbn [Z.eqb Z.sub Z.opp Z.add Z.pos_sub]. change (1 - 1) with 0. cbn [Z.eqb].
      rewrite pbuf_dealloc_ok by (done || (split_and!; cbn in *; done || lia)).
      cbn [put setf pbufs pools]. rewrite delete_insert_eq.
      rewrite IH; [|eapply chain_frame; [exact Hc|]; intros x Hx; cbn; apply lookup_delete_ne; set_solver|done|cbn in Hf; lia|apply u8_range].
      cbn [setf pbufs pools]. unfold drop_pbufs, give_back. cbn [foldl fst snd]. f_equal. f_equal. rewrite lenz_cons. zlia.
    + destruct (Z.eqb_spec (ref b - 1) 0); [lia|]. cbn. change (lenz (@nil node)) with 0. rewrite Z.add_0_r, u8_id by done. by destruct h.
Qed.

(** [pbuf_free] releases exactly the structures from the head of the chain
    that nobody else refers to, each to the pool it came from, takes one
    reference off the first shared structure, touches nothing else, and
    returns the number released modulo 256. *)
Theorem pbuf_free_releases h l p :
  chain (pbufs h) p l -> l <> [] -> Forall pooled l ->
  pbuf_free p h =
  Some (u8 (lenz (sole l)),
        h <| pbufs := unref (drop_pbufs (pbufs h) (sole l)) (shared l) |> <| pools := give_back (pools h) (sole l) |>).
Proof.
  intros Hc Hne Hp. unfold pbuf_free. destruct l as [|[a b] l]; [done|]. pose proof Hc as (-> & Hnz%Z.eqb_neq & _). rewrite Hnz. cbn [negb].
  rewrite (free_loop_ok h ((a, b) :: l)); [done|done|done|by eapply chain_walk|zlia].
Qed.
End Releasing.

(** ** Allocation from the pool *)

Definition pool_node (q off rem nxt : Z) : node :=
  (q, {| next := nxt; payload := LWIP_MEM_ALIGN_SIZE (q + SIZEOF_STRUCT_PBUF + off); tot_len := rem;
         len := Z.min rem (u16 (PBUF_POOL_BUFSIZE_ALIGNED - LWIP_MEM_ALIGN_SIZE off));
         type_internal := 130; flags := 0; ref := 1; if_idx := 0 |}).

Definition first (l : list node) : Z := match l with [] => 0 | (a, _) :: _ => a end.

(** The structures an allocation of [rem] bytes makes of the free elements. *)
Fixpoint plan (free : list Z) (rem off : Z) : option (list node) :=
  match free with
  | [] => None
  | q :: free =>
      let qlen := Z.min rem (u16 (PBUF_POOL_BUFSIZE_ALIGNED - LWIP_MEM_ALIGN_SIZE off)) in
      if 0 <? rem - qlen then
        let? l := plan free (rem - qlen) 0 in Some (pool_node q off rem (first l) :: l)
      else Some [pool_node q off rem 0]
  end.

(** The last structure of a chain now points to [q]. *)
Fixpoint relink (l : list node) (q : Z) : list node :=
  match l with [] => [] | [(a, b)] => [(a, b <| next := q |>)] | x :: l => x :: relink l q end.

Definition last_addr (l : list node) : Z := match last l with Some (a, _) => a | None => 0 end.

(** The layers leave room for data in every buffer. *)
Definition layer_off (off : Z) : Prop := 0 <= off <= 64.

Lemma buf_room off : layer_off off -> 1432 <= u16 (PBUF_POOL_BUFSIZE_ALIGNED - LWIP_MEM_ALIGN_SIZE off) <= 1504
  /\ 0 < PBUF_POOL_BUFSIZE_ALIGNED - LWIP_MEM_ALIGN_SIZE off.
Proof.
  intros Ho. rewrite align_eq. change PBUF_POOL_BUFSIZE_ALIGNED with 1504. unfold layer_off in Ho. zlia.
Qed.

Lemma align8 x : LWIP_MEM_ALIGN_SIZE x mod 8 = 0 /\ x <= LWIP_MEM_ALIGN_SIZE x < x + 8.
Proof. rewrite align_eq. lia. Qed.

Lemma plan_spec free rem off l :
  plan free rem off = Some l -> 0 <= rem < 65536 -> layer_off off ->
  l <> [] /\ totals l /\ ltot l = rem /\ map fst l = take (length l) free /\ first l = hd 0 free
  /\ Forall (fun x => ref x.2 = 1 /\ flags x.2 = 0 /\ type_internal x.2 = 130
              /\ x.1 + 24 <= payload x.2 /\ payload x.2 + len x.2 <= x.1 + 24 + 1504 + 8) l.
Proof.
  revert rem off l. induction free as [|q free IH]; intros rem off l; cbn [plan]; [done|]. intros Hp Hr Ho.
  pose proof (buf_room _ Ho) as [Hb _]. set (k := u16 (PBUF_POOL_BUFSIZE_ALIGNED - LWIP_MEM_ALIGN_SIZE off)) in *.
  assert (Hn : forall n, ref (pool_node q off rem n).2 = 1 /\ flags (pool_node q off rem n).2 = 0 /\ type_internal (pool_node q off rem n).2 = 130
     /\ (pool_node q off rem n).1 + 24 <= payload (pool_node q off rem n).2
     /\ payload (pool_node q off rem n).2 + len (pool_node q off rem n).2 <= q + 24 + 1504 + 8).
  { intros n. cbn. change SIZEOF_STRUCT_PBUF with 24. pose proof (align8 (q + 24 + off)). fold k.
    pose proof (align8 off) as [_ Ha]. unfold layer_off in Ho. split_and!; try done; try lia.
    assert (k = 1504 - LWIP_MEM_ALIGN_SIZE off) by (unfold k; change PBUF_POOL_BUFSIZE_ALIGNED with 1504; zlia). lia. }
  destruct (Z.ltb_spec 0 (rem - Z.min rem k)).
  - destruct (plan free (rem - Z.min rem k) 0) as [l'|] eqn:E; [|done]. injection Hp as <-.
    destruct (IH _ _ _ E) as (H1 & H2 & H3 & H4 & H5 & H6); [lia|unfold layer_off; lia|]. split_and!; try done.
    + cbn [totals pool_node len tot_len]. fold k. rewrite H3. split_and!; try done; lia.
    + unfold pool_node. rewrite ltot_cons. cbn [len]. fold k. lia.
    + cbn. by rewrite H4.
    + constructor; [apply Hn|done].
  - injection Hp as <-. split_and!; try done.
    + cbn [totals pool_node len tot_len ltot foldr]. fold k. split_and!; try done; lia.
    + unfold pool_node. rewrite ltot_cons. cbn [len]. fold k. change (ltot []) with 0. lia.
    + constructor; [apply Hn|constructor].
Qed.

(** The number of buffers an allocation needs. *)
Lemma plan_none free rem off : 0 <= rem < 65536 -> layer_off off ->
  plan free rem off = None -> Z.of_nat (length free) * 1432 < rem \/ free = [].
Proof.
  revert rem off. induction free as [|q free IH]; intros rem off Hr Ho; cbn [plan]; [by right|].
  pose proof (buf_room _ Ho) as [Hb _]. set (k := u16 (PBUF_POOL_BUFSIZE_ALIGNED - LWIP_MEM_ALIGN_SIZE off)) in *.
  destruct (Z.ltb_spec 0 (rem - Z.min rem k)); [|done].
  destruct (plan free (rem - Z.min rem k) 0) eqn:E; [done|]. intros _. left.
  destruct (IH (rem - Z.min rem k) 0) as [H'| ->]; [lia|unfold layer_off; lia|done| |]; cbn [length]; lia.
Qed.

Lemma chain_extend m p l0 a b q nb :
  chain m p (l0 ++ [(a, b)]) -> q <> 0 -> m !! q = None -> next nb = 0 ->
  chain (<[a := b <| next := q |>]> (<[q := nb]> m)) p (l0 ++ [(a, b <| next := q |>); (q, nb)]).
Proof.
  intros Hc Hq Hm Hn. revert p Hc. induction l0 as [|[c d] l0 IH]; intros p Hc; cbn [app].
  - destruct Hc as (-> & Ha & Hl & _). assert (a <> q) by congruence. cbn [chain].
    rewrite lookup_insert_eq. rewrite lookup_insert_ne by done. rewrite lookup_insert_eq. by split_and!.
  - pose proof (chain_nodup _ _ _ Hc) as Hnd. cbn in Hnd. inversion Hnd as [|? ? Hc' _]; subst.
    destruct Hc as (-> & Hz & Hl & Hc). cbn [chain]. split_and!; try done; [|by apply IH].
    rewrite !lookup_insert_ne; [done|congruence|]. intros ->. apply Hc'. rewrite map_app. set_solver.
Qed.

Lemma relink_snoc l a b q : relink (l ++ [(a, b)]) q = l ++ [(a, b <| next := q |>)].
Proof. induction l as [|x l IH]; [done|]. cbn [app relink]. rewrite IH. destruct (l ++ [(a, b)]) eqn:E; [by destruct l|by destruct x]. Qed.

Lemma relink_fst l q : map fst (relink l q) = map fst l.
Proof. induction l as [|[a b] l IH]; [done|]. cbn [relink]. destruct l; [done|]. cbn [map]. by rewrite IH. Qed.

(** Structures as [pbuf_alloc] makes them: one reference, from the pool. *)
Definition fresh_node (x : node) : Prop := x.1 mod 8 = 0 /\ ref x.2 = 1 /\ flags x.2 = 0 /\ type_internal x.2 = 130.

Lemma fresh_pooled x : fresh_node x -> pooled x /\ home x.2 = MEMP_PBUF_POOL.
Proof.
  intros (H1 & H2 & H3 & H4). unfold pooled, home, pbuf_get_allocsrc. rewrite H2, H3, H4. split; [|done].
  split_and!; try done; lia || by left.
Qed.

Lemma fresh_sole l : Forall fresh_node l -> sole l = l /\ shared l = [].
Proof. induction 1 as [|[a b] l (_ & Hr & _) _ [I1 I2]]; [done|]. cbn in *. rewrite Hr. cbn. by rewrite I1, I2. Qed.

Lemma give_back_fresh ps l : Forall fresh_node l ->
  give_back ps l MEMP_PBUF_POOL = rev (map fst l) ++ ps MEMP_PBUF_POOL
  /\ forall t, t <> MEMP_PBUF_POOL -> give_back ps l t = ps t.
Proof.
  intros H. revert ps. induction H as [|x l Hx _ IH]; intros ps; [done|]. destruct (fresh_pooled _ Hx) as [_ Hh].
  unfold give_back in *. cbn [foldl]. rewrite Hh. destruct (IH (set_tab MEMP_PBUF_POOL (x.1 :: ps MEMP_PBUF_POOL) ps)) as [I1 I2].
  split; [rewrite I1, set_tab_eq; cbn; by rewrite <- app_assoc|]. intros t Ht. rewrite I2 by done. by apply set_tab_ne.
Qed.

Section Allocating.
Context {o : Opts} {cf : CustomFree}.

(** The free elements of the pool hold no structure. *)
Definition free_ok (h : heap) (free : list Z) : Prop :=
  NoDup free /\ Forall (fun q => q mod 8 = 0 /\ 0 < q /\ pbufs h !! q = None) free.

(** What a failed allocation leaves behind: nothing. *)
Definition unwound (h h' : heap) (lp : list node) (free : list Z) : Prop :=
  (forall a, pbufs h' !! a = if decide (a ∈ map fst lp) then None else pbufs h !! a)
  /\ pools h' MEMP_PBUF_POOL ≡ₚ map fst lp ++ free /\ (forall t, t <> MEMP_PBUF_POOL -> pools h' t = pools h t)
  /\ bytes h' = bytes h /\ ram_heap h' = ram_heap h /\ pbuf_free_ooseq_pending h' = true.

Definition allocated (h h' : heap) (lp l : list node) (free : list Z) : Prop :=
  chain (pbufs h') (first (lp ++ l)) (relink lp (first l) ++ l)
  /\ (forall a, a ∉ map fst lp ++ map fst l -> pbufs h' !! a = pbufs h !! a)
  /\ (forall t, pools h' t = set_tab MEMP_PBUF_POOL (drop (length l) free) (pools h) t)
  /\ bytes h' = bytes h /\ ram_heap h' = ram_heap h /\ pbuf_free_ooseq_pending h' = pbuf_free_ooseq_pending h.

(** The pool is empty: what was built so far is released. *)
Lemma unwind_ok h p lp fuel last rem off :
  chain (pbufs h) p lp -> Forall fresh_node lp -> pools h MEMP_PBUF_POOL = [] ->
  exists h', alloc_pool_loop (S fuel) p last rem off h = Some (0, h') /\ unwound h h' lp [].
Proof.
  intros Hc Hf Hp. cbn [alloc_pool_loop]. unfold memp_malloc, do_memp_malloc_pool. rewrite Hp. cbn [Z.eqb].
  destruct lp as [|[a b] lp].
  - cbn in Hc. subst p. cbn [Z.eqb]. eexists. split; [done|]. split_and!; try done. cbn. by rewrite Hp.
  - pose proof Hc as (-> & Hnz%Z.eqb_neq & _). rewrite Hnz. unfold pbuf_free. rewrite Hnz. cbn [negb]. set (h1 := pbuf_pool_is_empty _).
    rewrite (free_loop_ok h1 ((a, b) :: lp)); [|done| |exact (chain_walk h1 a _ Hc)|zlia].
    2:{ eapply Forall_impl; [exact Hf|]. intros x Hx. by apply fresh_pooled. }
    destruct (fresh_sole _ Hf) as [-> ->]. eexists. split; [done|]. destruct (give_back_fresh (pools h1) _ Hf) as [G1 G2].
    cbn [unref setf pbufs pools bytes ram_heap pbuf_free_ooseq_pending h1 pbuf_pool_is_empty] in *. unfold unwound. cbn [setf pbufs pools bytes ram_heap pbuf_free_ooseq_pending].
    split_and!; try done.
    + intros x. destruct (decide (x ∈ map fst ((a, b) :: lp))) as [Hx|Hx]; [|by apply drop_pbufs_lookup].
      clear - Hx. generalize (pbufs h). revert Hx. generalize ((a, b) :: lp). intros l. induction l as [|[c d] l IH]; intros Hx m; [set_solver|].
      unfold drop_pbufs in *. cbn in *. destruct (decide (x ∈ map fst l)); [by apply IH|].
      rewrite (drop_pbufs_lookup _ l x) by done. assert (x = c) as -> by set_solver. apply lookup_delete_eq.
    + rewrite G1, Hp. by rewrite !app_nil_r, <- Permutation_rev.
Qed.

(** One round of the loop: the structure is made and linked. *)
Definition link_round (h : heap) (lp : list node) (q rem off : Z) (free : list Z) : heap :=
  let h := h <| pools := set_tab MEMP_PBUF_POOL free (pools h) |> in
  let h := put q (pool_node q off rem 0).2 h in
  match last lp with Some (a, b) => put a (b <| next := q |>) h | None => h end.

Lemma link_round_ok h p lp q rem off free :
  chain (pbufs h) p lp -> q <> 0 -> pbufs h !! q = None ->
  let h1 := link_round h lp q rem off free in
  chain (pbufs h1) (first (lp ++ [pool_node q off rem 0])) (relink lp q ++ [pool_node q off rem 0])
  /\ (forall a, a ∉ q :: map fst lp -> pbufs h1 !! a = pbufs h !! a).
Proof.
  intros Hc Hq Hn. cbv zeta. unfold link_round.
  destruct lp as [|x lp] using rev_ind; [|destruct x as [a b]; clear IHlp].
  - cbn. rewrite lookup_insert_eq. split_and!; try done. intros a Ha. apply lookup_insert_ne. set_solver.
  - rewrite last_snoc, relink_snoc, <- !app_assoc. cbn [app]. cbn [put setf pbufs]. split.
    + replace (first (lp ++ _)) with p by (destruct lp as [|[c d] lp]; by destruct Hc as (-> & _)).
      by apply (chain_extend _ _ lp a b q (pool_node q off rem 0).2).
    + intros c Hc'. rewrite map_app in Hc'. cbn in Hc'. rewrite !lookup_insert_ne by set_solver. done.
Qed.

Lemma alloc_pool_loop_ok fuel : forall h p lp last rem off free,
  chain (pbufs h) p lp -> (lp <> [] -> last = last_addr lp) -> Forall fresh_node lp ->
  pools h MEMP_PBUF_POOL = free -> free_ok h free -> (length free < fuel)%nat -> 0 <= rem < 65536 -> layer_off off ->
  match plan free rem off with
  | Some l => exists h', alloc_pool_loop fuel p last rem off h = Some (first (lp ++ l), h') /\ allocated h h' lp l free
  | None => exists h', alloc_pool_loop fuel p last rem off h = Some (0, h') /\ unwound h h' lp free
  end.
Proof.
  induction fuel as [|fuel IH]; intros h p lp last rem off free Hc Hlast Hf Hp [Hnd Hfree] Hfu Hr Ho; [lia|].
  destruct free as [|q free]; [by apply unwind_ok|]. cbn [plan].
  apply Forall_cons_1 in Hfree as [(Hq8 & Hq0 & Hqn) Hfree]. apply NoDup_cons in Hnd as [Hqf Hnd].
  pose proof (buf_room _ Ho) as [Hb Hb0]. pose proof (align8 (q + SIZEOF_STRUCT_PBUF + off)) as [Ha8 _].
  cbn [alloc_pool_loop]. unfold memp_malloc, do_memp_malloc_pool, MEM_ALIGNMENT, MEMP_SIZE. rewrite Hp, Hq8, Z.add_0_r. cbn [Z.eqb].
  assert (q =? 0 = false) as -> by (apply Z.eqb_neq; lia). rewrite Ha8. cbn [Z.eqb].
  destruct (Z.ltb_spec 0 (PBUF_POOL_BUFSIZE_ALIGNED - LWIP_MEM_ALIGN_SIZE off)); [|lia].
  set (k := Z.min rem _). set (h0 := pbuf_init_alloced_pbuf _ _ _ _ _ _ _).
  assert (Link : (if p =? 0 then Some (q, h0) else let? lb := pbufs h0 !! last in Some (p, put last (lb <| next := q |>) h0))
    = Some (first (lp ++ [pool_node q off rem 0]), link_round h lp q rem off free)).
  { unfold link_round. destruct lp as [|[a b] lp'] eqn:El; [cbn in Hc; by subst p|]. rewrite <- El in *.
    assert (Hpa : p = a) by (rewrite El in Hc; by destruct Hc). assert (Ha0 : a <> 0) by (rewrite El in Hc; by destruct Hc as (_ & ? & _)).
    assert (p =? 0 = false) as -> by (apply Z.eqb_neq; congruence). rewrite (Hlast ltac:(by rewrite El)). unfold last_addr.
    destruct (list.last lp) as [[c d]|] eqn:Elast; [|by apply last_None in Elast; rewrite Elast in El].
    assert (Hcd : pbufs h !! c = Some d /\ c <> q).
    { apply last_Some in Elast as [l0 E0]. rewrite E0 in Hc. destruct (chain_app _ _ _ _ Hc) as [r (-> & _ & Hl & _)]. split; [done|congruence]. }
    cbn [h0 pbuf_init_alloced_pbuf put setf pbufs]. rewrite lookup_insert_ne by (by destruct Hcd). destruct Hcd as [-> _].
    rewrite El. cbn [app first]. subst p. done. }
  rewrite Link. destruct (link_round_ok h p lp q rem off free Hc ltac:(lia) Hqn) as [L1 L2]. set (h1 := link_round _ _ _ _ _ _) in *.
  assert (P1 : pools h1 = set_tab MEMP_PBUF_POOL free (pools h)) by (unfold h1, link_round; by destruct (list.last lp) as [[]|]).
  assert (B1 : bytes h1 = bytes h /\ ram_heap h1 = ram_heap h /\ pbuf_free_ooseq_pending h1 = pbuf_free_ooseq_pending h)
    by (unfold h1, link_round; by destruct (list.last lp) as [[]|]).
  rewrite u16_id by zlia. set (lp1 := relink lp q ++ [pool_node q off rem 0]) in *.
  assert (F1 : map fst lp1 = map fst lp ++ [q]) by (unfold lp1; by rewrite map_app, relink_fst).
  assert (First : forall l, first (lp1 ++ l) = first (lp ++ pool_node q off rem (first l) :: l))
    by (intros l; unfold lp1; destruct lp as [|[c d] [|]]; done).
  destruct (Z.ltb_spec 0 (rem - k)).
  2:{ exists h1. split; [done|]. split; [exact L1|]. split; [|split; [|done]].
      - intros a Ha. apply L2. cbn in Ha. set_solver.
      - intros t. by rewrite P1. }
  specialize (IH h1 (first (lp ++ [pool_node q off rem 0])) lp1 q (rem - k) 0 free).
  assert (Hin : forall a, a ∈ free -> a ∉ q :: map fst lp).
  { intros a Ha Hin. apply elem_of_cons in Hin as [->|Hin]; [done|]. pose proof (chain_dom _ _ _ Hc) as Hd.
    rewrite Forall_forall in Hd, Hfree. destruct (Hd _ Hin) as [x Hx]. destruct (Hfree _ Ha) as (_ & _ & Hno). congruence. }
  destruct B1 as (B1 & B2 & B3).
  assert (Hfr : free_ok h1 free).
  { split; [done|]. rewrite Forall_forall in Hfree |- *. intros a Ha. rewrite L2 by (by apply Hin). by apply Hfree. }
  assert (Hf1 : Forall fresh_node lp1).
  { unfold lp1. apply Forall_app. split; [|by apply Forall_singleton]. clear - Hf. induction Hf as [|[c d] l Hx Hl IHl]; [constructor|].
    cbn [relink]. destruct l; [apply Forall_singleton; exact Hx|]. by constructor. }
  assert (Hla : last_addr lp1 = q) by (unfold last_addr, lp1; by rewrite last_snoc).
  specialize (IH L1 (fun _ => eq_sym Hla) Hf1 ltac:(by rewrite P1, set_tab_eq) Hfr ltac:(cbn in Hfu; lia) ltac:(lia) ltac:(unfold layer_off; lia)).
  destruct (plan free (rem - k) 0) as [l|]; destruct IH as (h' & E & IH); exists h'.
  - rewrite E, First. split; [done|]. destruct IH as (C1 & C2 & C3 & C4 & C5 & C6). split_and!; try congruence.
    + rewrite First in C1. change lp1 with (relink lp q ++ [(q, (pool_node q off rem 0).2)]) in C1. rewrite relink_snoc, <- app_assoc in C1. exact C1.
    + intros a Ha. cbn in Ha. rewrite C2 by (rewrite F1; set_solver). apply L2. set_solver.
    + intros t. rewrite C3, P1. unfold set_tab. by case_decide.
  - split; [done|]. destruct IH as (C1 & C2 & C3 & C4 & C5 & C6). split_and!; try congruence.
    + intros a. rewrite C1, F1. destruct (decide (a = q)) as [->|Hne].
      * rewrite decide_True by set_solver. rewrite Hqn. by case_decide.
      * destruct (decide (a ∈ map fst lp)); [rewrite decide_True by set_solver; done|].
        rewrite decide_False by set_solver. apply L2. set_solver.
    + rewrite C2, F1, <- app_assoc. done.
    + intros t Ht. rewrite C3, P1 by done. by apply set_tab_ne.
Qed.

(** [pbuf_alloc] from the pool either gives a chain whose lengths add up to
    the request, made of the first free elements with one reference each and
    payloads inside their own elements, and changes nothing else; or, when the
    elements do not suffice, returns NULL with every element back in the pool
    and no structure left, and asks for out-of-order data to be dropped. *)
Theorem pbuf_alloc_pool h layer length :
  free_ok h (pools h MEMP_PBUF_POOL) -> 0 <= length < 65536 ->
  exists p h', pbuf_alloc layer length PBUF_POOL h = Some (p, h') /\
  ((exists l, p <> 0 /\ chain (pbufs h') p l /\ ok_chain l /\ ltot l = length
      /\ Forall (fun x => ref x.2 = 1 /\ x.1 + 24 <= payload x.2 /\ payload x.2 + len x.2 <= x.1 + 24 + 1504 + 8) l
      /\ map fst l ++ pools h' MEMP_PBUF_POOL = pools h MEMP_PBUF_POOL
      /\ (forall t, t <> MEMP_PBUF_POOL -> pools h' t = pools h t)
      /\ (forall a, a ∉ map fst l -> pbufs h' !! a = pbufs h !! a) /\ bytes h' = bytes h /\ ram_heap h' = ram_heap h)
   \/ (p = 0 /\ unwound h h' [] (pools h MEMP_PBUF_POOL)
       /\ (lenz (pools h MEMP_PBUF_POOL) * 1432 < length \/ pools h MEMP_PBUF_POOL = []))).
Proof.
  intros Hfr Hn. unfold pbuf_alloc. set (free := pools h MEMP_PBUF_POOL) in *.
  assert (Ho : layer_off (u16 (pbuf_layer_val layer))) by (destruct layer; vm_compute; split; discriminate).
  pose proof (alloc_pool_loop_ok (S (List.length free)) h 0 [] 0 length _ free eq_refl ltac:(done) (Forall_nil_2 _) eq_refl Hfr ltac:(lia) Hn Ho) as H.
  destruct (plan free length (u16 (pbuf_layer_val layer))) as [l|] eqn:Ep; destruct H as (h' & E & H); eexists _, h'; (split; [exact E|]).
  - left. exists l. destruct (plan_spec _ _ _ _ Ep Hn Ho) as (P1 & P2 & P3 & P4 & P5 & P6). destruct H as (C1 & C2 & C3 & C4 & C5 & _).
    cbn [app relink] in C1. split_and!; try done.
    + destruct l as [|[a b] l]; [done|]. by destruct C1 as (_ & H & _).
    + split; [done|lia].
    + eapply Forall_impl; [exact P6|]. cbn. intros x (Q1 & _ & _ & Q2 & Q3). done.
    + rewrite C3, set_tab_eq, P4. apply take_drop.
    + intros t Ht. rewrite C3. by apply set_tab_ne.
  - right. split; [done|]. split; [exact H|]. unfold lenz. by eapply plan_none.
Qed.
End Allocating.
