(* ===== verification/PbufOps.v ===== *)
(** * PbufOps: headers, concatenation and shrinking of packet buffers

    The rest of pbuf.c's operations on chains: adding and removing headers are
    inverse, [pbuf_cat] concatenates, [pbuf_realloc] truncates, and
    [pbuf_copy_partial_pbuf] is limited to offsets inside the first buffer. *)

From S2P Require Import Prelude Opts Mem Memp Pbuf PbufFacts.

Section PbufOps.
Context {o : Opts} {cf : CustomFree}.

(** ** Headers *)
Lemma put_put p b b' h : put p b (put p b' h) = put p b h.
Proof. unfold put. cbn [setf pbufs]. by rewrite insert_insert_eq. Qed.

Lemma put_lookup p b h : pbufs (put p b h) !! p = Some b.
Proof. apply lookup_insert_eq. Qed.

Lemma put_id p b h : pbufs h !! p = Some b -> put p b h = h.
Proof. intros H. unfold put. rewrite insert_id by done. by destruct h. Qed.

(** Adding a header makes the payload start [n] bytes earlier, inside the
    element, and removing it gives the very same state back; conversely a
    removed header can be restored as long as the payload did not start before
    the structure's end. *)
Theorem pbuf_header_roundtrip p b n h :
  p <> 0 -> pbufs h !! p = Some b -> 0 <= len b <= tot_len b -> tot_len b < 65536 -> 0 < n < 65536 ->
  flag_set (type_internal b) PBUF_TYPE_FLAG_STRUCT_DATA_CONTIGUOUS = true ->
  (if (tot_len b + n <? 65536) && (p + SIZEOF_STRUCT_PBUF <=? payload b - n)
   then exists h', pbuf_add_header p n h = Some (0, h') /\ pbuf_remove_header p n h' = Some (0, h)
   else pbuf_add_header p n h = Some (1, h))
  /\ (if n <=? len b
      then exists h', pbuf_remove_header p n h = Some (0, h')
           /\ (p + SIZEOF_STRUCT_PBUF <= payload b -> pbuf_add_header p n h' = Some (0, h))
      else pbuf_remove_header p n h = Some (1, h)).
Proof.
  intros Hp%Z.eqb_neq Hb Hl Ht Hn Hf. unfold pbuf_add_header, pbuf_add_header_impl, pbuf_remove_header. rewrite Hp, Hb. cbn [negb].
  destruct (Z.ltb_spec 65535 n); [lia|]. destruct (Z.eqb_spec n 0); [lia|]. rewrite (u16_id n) by zlia. rewrite Hf. split.
  - destruct (Z.ltb_spec (tot_len b + n) 65536) as [Hw|Hw]; cbn [andb].
    + rewrite (u16_id (n + tot_len b)) by zlia. destruct (Z.ltb_spec (n + tot_len b) n); [lia|].
      destruct (Z.ltb_spec (payload b - n) (p + SIZEOF_STRUCT_PBUF)), (Z.leb_spec (p + SIZEOF_STRUCT_PBUF) (payload b - n)); try lia; cbn [negb]; [done|].
      eexists. split; [reflexivity|]. rewrite put_lookup, put_put. cbn [setf len tot_len payload].
      rewrite (u16_id (len b + n)), (u16_id (tot_len b + n)) by zlia. destruct (Z.ltb_spec (len b + n) n); [lia|].
      do 2 f_equal. apply put_id. rewrite Hb. f_equal. destruct b as [nx py tl ln ty fl rf ix]. unfold setf. cbn in *. f_equal; zlia.
    + destruct (Z.ltb_spec (u16 (n + tot_len b)) n); [done|zlia].
  - destruct (Z.leb_spec n (len b)), (Z.ltb_spec (len b) n); try lia; [|done].
    eexists. split; [reflexivity|]. intros Hpay. rewrite put_lookup, put_put. cbn [setf len tot_len payload type_internal].
    rewrite (u16_id (len b - n)), (u16_id (tot_len b - n)) by zlia. rewrite (u16_id (n + (tot_len b - n))) by zlia.
    destruct (Z.ltb_spec (n + (tot_len b - n)) n); [lia|]. rewrite Hf, Z.add_simpl_r.
    destruct (Z.ltb_spec (payload b) (p + SIZEOF_STRUCT_PBUF)); [lia|]. cbn [negb].
    do 2 f_equal. apply put_id. rewrite Hb. f_equal. destruct b as [nx py tl ln ty fl rf ix]. unfold setf. cbn in *. f_equal; zlia.
Qed.

(** ** Concatenation *)

(** The structures walked over by [pbuf_cat]: each [tot_len] but the last grows by [n]. *)
Fixpoint bump (l : list node) (n : Z) : list node :=
  match l with
  | [] => []
  | [x] => [x]
  | (a, b) :: l => (a, b <| tot_len := u16 (tot_len b + n) |>) :: bump l n
  end.

(** New [tot_len] fields, everything else as before. *)
Definition retot (f : Z -> Z) (l : list node) : list node := map (fun y => (y.1, y.2 <| tot_len := f (tot_len y.2) |>)) l.

Lemma retot_facts f m l : map fst (retot f l) = map fst l /\ ltot (retot f l) = ltot l /\ cdata m (retot f l) = cdata m l
  /\ (lens_ok (retot f l) <-> lens_ok l).
Proof.
  unfold retot. induction l as [|[x y] l (I1 & I2 & I3 & I4)]; [done|]. cbn [map fst snd]. rewrite !ltot_cons, !cdata_cons, I1, I2, I3.
  split_and!; try done. unfold lens_ok in *. by rewrite !Forall_cons, I4.
Qed.

Lemma retot_app f l1 l2 : retot f (l1 ++ l2) = retot f l1 ++ retot f l2.
Proof. apply map_app. Qed.

(** Splitting a list of structures with new [tot_len] fields. *)
Lemma retot_split f l k c d k' : retot f l = k ++ (c, d) :: k' ->
  exists k0 d0 k1, l = k0 ++ (c, d0) :: k1 /\ d = d0 <| tot_len := f (tot_len d0) |> /\ k' = retot f k1.
Proof.
  unfold retot. change (map ?g ?x) with (g <$> x). intros E. apply fmap_app_inv in E as (k0 & [|[c0 d0] k1] & -> & E1 & ->); [done|].
  cbn in E1. injection E1 as -> -> ->. by exists k0, d0, k1.
Qed.

Lemma bump_snoc l x n : bump (l ++ [x]) n = retot (fun t => u16 (t + n)) l ++ [x].
Proof. induction l as [|[a b] l IH]; [by destruct x|]. cbn [app retot map fst snd]. fold (retot (fun t => u16 (t + n)) l). rewrite <- IH. cbn [bump]. destruct (l ++ [x]) eqn:E; [by destruct l|done]. Qed.

Lemma cat_loop_ok h p l n fuel :
  chain (pbufs h) p l -> l <> [] -> (length l <= S fuel)%nat ->
  exists m, cat_loop fuel p n h = Some (last_addr l, h <| pbufs := m |>) /\ chain m p (bump l n)
  /\ forall a, a ∉ map fst l -> m !! a = pbufs h !! a.
Proof.
  revert p h fuel. induction l as [|[a b] l IH]; intros p h fuel Hc Hne Hf; [done|].
  pose proof (chain_nodup _ _ _ Hc) as Hnd. inversion Hnd as [|? ? Hna _]; subst. pose proof Hc as (-> & Hnz & Hl & Hc').
  destruct l as [|[c d] l].
  - cbn in Hc'. exists (pbufs h). destruct fuel; cbn [cat_loop]; rewrite Hl, Hc'; (split; [by destruct h|done]).
  - destruct fuel as [|fuel]; [cbn in Hf; lia|]. pose proof Hc' as (Hn & Hcz & _). cbn [cat_loop]. rewrite Hl, Hn.
    apply Z.eqb_neq in Hcz as ->. rewrite Hn in Hc'. set (h1 := put a _ h).
    destruct (IH c h1 fuel) as (m & E & C1 & C2); [by apply chain_insert|done|cbn in *; lia|].
    exists m. rewrite E. split; [by destruct h|]. split; [|intros x Hx; cbn in Hx; rewrite C2 by set_solver; apply lookup_insert_ne; set_solver].
    change (bump ((a, b) :: (c, d) :: l) n) with ((a, b <| tot_len := u16 (tot_len b + n) |>) :: bump ((c, d) :: l) n).
    cbn [chain]. split_and!; try done; [rewrite C2 by done; apply lookup_insert_eq|]. change (next (b <| tot_len := _ |>)) with (next b). by rewrite Hn.
Qed.

(** The last structure of the front now points to the tail. *)
Lemma chain_join m p l0 a b t l2 b' :
  chain m p (l0 ++ [(a, b)]) -> chain m t l2 -> a ∉ map fst l2 -> next b' = t ->
  chain (<[a := b']> m) p (l0 ++ (a, b') :: l2).
Proof.
  intros Hc Ht Ha Hn. revert p Hc. induction l0 as [|[c d] l0 IH]; intros p Hc; cbn [app].
  - destruct Hc as (-> & Hz & _ & _). cbn. rewrite lookup_insert_eq, Hn. split_and!; try done. by apply chain_insert.
  - pose proof (chain_nodup _ _ _ Hc) as Hnd. cbn in Hnd. inversion Hnd as [|? ? Hc' _]; subst.
    destruct Hc as (-> & Hz & Hl & Hc). cbn. rewrite lookup_insert_ne; [split_and!; try done; by apply IH|].
    intros ->. apply Hc'. rewrite map_app. set_solver.
Qed.

Lemma totals_app l1 l2 : totals (l1 ++ l2) <->
  lens_ok l1 /\ (forall l0 a b l1', l1 = l0 ++ (a, b) :: l1' -> tot_len b = len b + ltot l1' + ltot l2) /\ totals l2.
Proof.
  induction l1 as [|[a b] l1 IH].
  - cbn. split; [intros; split_and!; try done; [constructor|by intros []]|tauto].
  - cbn [app totals]. rewrite IH, ltot_app. split.
    + intros (H1 & H2 & H3 & H4 & H5). split_and!; try done; [by constructor|].
      intros [|[c d] l0] x y l1' E; cbn in E; simplify_eq; [lia|by eapply H4].
    + intros (H1 & H2 & H3). inversion H1; subst. split_and!; try done; [rewrite (H2 [] a b l1 eq_refl); lia|].
      intros l0 x y l1' ->. by eapply (H2 ((a, b) :: l0)).
Qed.

(** [pbuf_cat] makes one consistent chain of two: its bytes are those of the
    first followed by those of the second, as long as the total fits 16 bits,
    and no other structure changes. *)
Theorem pbuf_cat_concatenates hd t h l1 l2 :
  chain (pbufs h) hd l1 -> chain (pbufs h) t l2 -> l1 <> [] -> l2 <> [] -> totals l1 -> totals l2 -> ltot l1 + ltot l2 < 65536 ->
  (forall a, a ∈ map fst l1 -> a ∉ map fst l2) ->
  exists h' l, pbuf_cat hd t h = Some h' /\ chain (pbufs h') hd l /\ ok_chain l /\ map fst l = map fst l1 ++ map fst l2
  /\ cdata (bytes h') l = cdata (bytes h) l1 ++ cdata (bytes h) l2
  /\ forall a, a ∉ map fst l1 -> pbufs h' !! a = pbufs h !! a.
Proof.
  intros H1 H2 N1 N2 T1 T2 Hw Hdis. pose proof (ltot_nonneg _ T1) as L1. pose proof (ltot_nonneg _ T2) as L2.
  destruct (cat_loop_ok h hd l1 (ltot l2) (walk h) H1 N1 ltac:(pose proof (chain_walk _ _ _ H1); lia)) as (m & E & C1 & C2).
  destruct (list_snoc_destruct l1) as [->|(l0 & [a b] & ->)]; [done|].
  assert (Htl : exists bt, pbufs h !! t = Some bt /\ tot_len bt = ltot l2 /\ t <> 0 /\ t ∈ map fst l2).
  { destruct l2 as [|[c d] l2]; [done|]. pose proof H2 as (-> & Hz & Hl & _). destruct T2 as (_ & Ht & _). exists d. split_and!; try done. set_solver. }
  destruct Htl as (bt & Hbt & Htt & Htz & Htin).
  assert (Hhd : hd ∈ map fst (l0 ++ [(a, b)]) /\ hd <> 0).
  { destruct l0 as [|[c d] l0]; cbn in H1 |- *; destruct H1 as (-> & Hz & _); split; try done; set_solver. }
  unfold pbuf_cat. assert (hd =? 0 = false) as -> by (apply Z.eqb_neq; by destruct Hhd). assert (t =? 0 = false) as -> by (by apply Z.eqb_neq). cbn [orb].
  assert (hd =? t = false) as -> by (apply Z.eqb_neq; intros ->; by apply (Hdis t); [destruct Hhd|]). cbn [negb].
  rewrite Hbt, Htt, E. unfold last_addr. rewrite last_snoc. cbn [setf pbufs]. rewrite bump_snoc in C1. set (l0' := retot _ l0) in C1.
  destruct (chain_app _ _ _ _ C1) as [q (_ & _ & Ha & Hnb)]. cbn in Hnb. rewrite Ha, Hnb.
  assert (Tb : tot_len b = len b /\ 0 <= len b /\ lens_ok l0).
  { apply totals_app in T1 as (Hl & _ & H0 & Ht & _). split_and!; try done. rewrite Ht. change (ltot []) with 0. lia. }
  destruct Tb as (Tb & Hb0 & Hl0). rewrite Tb, Z.eqb_refl. cbn [Z.eqb].
  set (b' := b <| tot_len := _ |> <| next := t |>). exists (put a b' (h <| pbufs := m |>)), (l0' ++ (a, b') :: l2).
  rewrite ltot_app, ltot_cons in Hw, L1. change (ltot []) with 0 in *.
  destruct (retot_facts (fun t => u16 (t + ltot l2)) (bytes h) l0) as (F1 & F2 & F3 & F4). fold l0' in F1, F2, F3, F4. split; [done|]. split_and!.
  - eapply (chain_join m hd l0' a b t l2 b'); [done| |by apply Hdis; rewrite map_app; set_solver|done].
    eapply chain_frame; [exact H2|]. intros x Hx. cbn. apply C2. intros Hx'. by apply (Hdis x).
  - split.
    + apply totals_app. split_and!.
      * by apply F4.
      * intros k c d k' Ek. apply retot_split in Ek as (k0 & d0 & k1 & El & -> & ->).
        apply totals_app in T1 as (_ & Ht & _). pose proof (Ht _ _ _ _ El) as Ed. rewrite El in Hw, Hl0.
        apply Forall_app in Hl0 as [K0 K1]. apply Forall_cons in K1 as [Kd K1]. apply ltot_lens in K0, K1. cbn in Kd.
        destruct (retot_facts (fun t => u16 (t + ltot l2)) ∅ k1) as (_ & -> & _ & _). rewrite ltot_app, !ltot_cons in *. change (ltot []) with 0 in *.
        change (tot_len (d0 <| tot_len := u16 (tot_len d0 + ltot l2) |>)) with (u16 (tot_len d0 + ltot l2)).
        change (len (d0 <| tot_len := u16 (tot_len d0 + ltot l2) |>)) with (len d0). change (len b') with (len b). rewrite u16_id by zlia. lia.
      * pose proof (ltot_lens _ Hl0). cbn. rewrite u16_id by zlia. split_and!; try done; lia.
    + rewrite ltot_app, ltot_cons, F2. change (len b') with (len b). lia.
  - rewrite map_app, F1, map_app. cbn. by rewrite <- app_assoc.
  - cbn [put setf bytes]. rewrite !cdata_app, F3, !cdata_cons. change (cdata (bytes h) []) with (@nil Z). rewrite app_nil_r, <- app_assoc. done.
  - intros x Hx. cbn [put setf pbufs]. rewrite map_app in Hx. cbn in Hx. rewrite lookup_insert_ne by set_solver. apply C2. rewrite map_app. set_solver.
Qed.

(** ** Shrinking *)

Lemma realloc_loop_ok h p l n s fuel :
  chain (pbufs h) p l -> l <> [] -> lens_ok l -> 0 <= n <= ltot l -> ltot l < 65536 -> (length l <= S fuel)%nat ->
  exists l1 a b l2 m, l = l1 ++ (a, b) :: l2 /\ realloc_loop fuel p n s h = Some (a, n - ltot l1, h <| pbufs := m |>)
  /\ 0 <= n - ltot l1 <= len b /\ chain m p (retot (fun t => u16 (t - s)) l1 ++ (a, b) :: l2)
  /\ forall x, x ∉ map fst l1 -> m !! x = pbufs h !! x.
Proof.
  revert p n h fuel. induction l as [|[a b] l IH]; intros p n h fuel Hc Hne Hl Hn Hw Hf; [done|].
  pose proof (chain_nodup _ _ _ Hc) as Hnd. inversion Hnd as [|? ? Hna _]; subst. pose proof Hc as (-> & Hnz & Hlk & Hc').
  inversion Hl as [|? ? Hb Hl']; subst. cbn in Hb. rewrite ltot_cons in *. pose proof (ltot_lens _ Hl') as H0.
  destruct (Z.ltb_spec (len b) n) as [Hlt|Hge].
  - destruct l as [|[c d] l]; [change (ltot []) with 0 in *; lia|]. destruct fuel as [|fuel]; [cbn in Hf; lia|].
    pose proof Hc' as (Hnx & Hcz & _). cbn [realloc_loop]. rewrite Hlk. destruct (Z.ltb_spec (len b) n); [|lia]. rewrite Hnx.
    apply Z.eqb_neq in Hcz as ->. cbn [negb]. rewrite u16_id by zlia. set (h1 := put a _ h). rewrite Hnx in Hc'.
    destruct (IH c (n - len b) h1 fuel) as (l1 & x & y & l2 & m & E & Er & Hr & C1 & C2); [by apply chain_insert|done|done|lia|lia|cbn in *; lia|].
    exists ((a, b) :: l1), x, y, l2, m. rewrite E, Er, ltot_cons. split; [done|]. split; [by replace (n - (len b + ltot l1)) with (n - len b - ltot l1) by lia; destruct h|]. split; [lia|].
    assert (Ha : m !! a = Some (b <| tot_len := u16 (tot_len b - s) |>)).
    { rewrite C2; [apply lookup_insert_eq|]. rewrite E, map_app in Hna. set_solver. }
    split; [cbn; split_and!; try done; by rewrite Hnx|]. intros z Hz. cbn in Hz. rewrite C2 by set_solver. apply lookup_insert_ne. set_solver.
  - exists [], a, b, l, (pbufs h). change (ltot []) with 0. rewrite Z.sub_0_r.
    destruct fuel; cbn [realloc_loop]; rewrite Hlk; (destruct (Z.ltb_spec (len b) n); [lia|]); (split; [done|]); (split; [by destruct h|]); (split; [lia|done]).
Qed.

Lemma chain_cut m m' p l1 a b l2 b' :
  chain m p (l1 ++ (a, b) :: l2) -> (forall x, x ∈ map fst l1 -> m' !! x = m !! x) -> m' !! a = Some b' -> next b' = 0 ->
  chain m' p (l1 ++ [(a, b')]).
Proof.
  revert p. induction l1 as [|[c d] l1 IH]; intros p; cbn [app].
  - intros (-> & Hz & _) _ Ha Hn. cbn. by split_and!.
  - intros (-> & Hz & Hl & Hc) Hm Ha Hn. cbn. cbn in Hm. split_and!; try done; [rewrite Hm by set_solver; done|].
    apply IH; try done. intros x Hx. apply Hm. set_solver.
Qed.

(** Releasing a chain leaves the other structures alone. *)
Lemma free_other h l p :
  chain (pbufs h) p l -> l <> [] -> Forall pooled l ->
  exists c h', pbuf_free p h = Some (c, h') /\ bytes h' = bytes h /\ ram_heap h' = ram_heap h
  /\ forall a, a ∉ map fst l -> pbufs h' !! a = pbufs h !! a.
Proof.
  intros Hc Hne Hp. unfold pbuf_free. destruct l as [|[a b] l]; [done|]. pose proof Hc as (-> & Hnz%Z.eqb_neq & _). rewrite Hnz. cbn [negb].
  rewrite (free_loop_ok h ((a, b) :: l)); [|done|done|by eapply chain_walk|zlia]. eexists _, _. split; [done|]. cbn [setf pbufs bytes ram_heap].
  split_and!; try done. intros x Hx. rewrite (sole_shared ((a, b) :: l)), map_app in Hx.
  assert (drop_pbufs (pbufs h) (sole ((a, b) :: l)) !! x = pbufs h !! x) as E by (apply drop_pbufs_lookup; set_solver).
  destruct (shared ((a, b) :: l)) as [|[c d] l'] eqn:Es; [exact E|]. cbn [unref]. rewrite lookup_insert_ne; [exact E|]. set_solver.
Qed.

(** The lengths of a chain cut inside the buffer [(a, b)]. *)
Lemma cut_totals l l1 a b b2 l2 n : l = l1 ++ (a, b) :: l2 -> totals l -> ltot l < 65536 -> 0 <= n - ltot l1 -> n <= ltot l ->
  len b2 = n - ltot l1 -> tot_len b2 = n - ltot l1 -> totals (retot (fun t => u16 (t - (ltot l - n))) l1 ++ [(a, b2)]).
Proof.
  intros El Ht Hw Hr Hn Hlen Htot. pose proof (totals_lens _ Ht) as Hl. rewrite El in Hl. apply Forall_app in Hl as [Hl1 Hl2]. apply Forall_cons in Hl2 as [Hlb Hl2]. cbn in Hlb.
  apply totals_app. split_and!; [by apply (retot_facts _ ∅)| |cbn; lia]. intros k c d k' Ek. apply retot_split in Ek as (k0 & d0 & k1 & El1 & -> & ->).
  destruct (retot_facts (fun t => u16 (t - (ltot l - n))) ∅ k1) as (_ & -> & _ & _).
  pose proof Ht as Ht'. rewrite El in Ht'. apply totals_app in Ht' as (_ & Ht' & _). pose proof (Ht' _ _ _ _ El1) as Ed.
  rewrite El1 in Hl1. apply Forall_app in Hl1 as [K0 K1]. apply Forall_cons in K1 as [Kd K1]. cbn in Kd. apply ltot_lens in K0, K1, Hl2.
  change (tot_len (d0 <| tot_len := ?x |>)) with x. change (len (d0 <| tot_len := ?x |>)) with (len d0).
  assert (E1 : ltot l1 = ltot k0 + len d0 + ltot k1) by (rewrite El1, ltot_app, ltot_cons; lia).
  assert (E2 : ltot l = ltot l1 + len b + ltot l2) by (rewrite El, ltot_app, ltot_cons; lia).
  rewrite !ltot_cons in *. change (ltot []) with 0. rewrite u16_id by zlia. lia.
Qed.

(** [pbuf_realloc] of a chain of pool buffers truncates it: the bytes become
    the first [n], the lengths stay consistent, the surplus buffers are given
    up, and no structure outside the chain changes; a length that is not
    smaller changes nothing. *)
Theorem pbuf_realloc_truncates h p l n :
  chain (pbufs h) p l -> l <> [] -> ok_chain l -> Forall pooled l -> 0 <= n ->
  exists h' l', pbuf_realloc p n h = Some h' /\ chain (pbufs h') p l' /\ ok_chain l' /\ ltot l' = Z.min n (ltot l)
  /\ cdata (bytes h') l' = takez n (cdata (bytes h) l) /\ forall a, a ∉ map fst l -> pbufs h' !! a = pbufs h !! a.
Proof.
  intros Hc Hne [Ht Hw] Hp Hn. pose proof (totals_lens _ Ht) as Hl. pose proof (ltot_lens _ Hl) as H0. unfold pbuf_realloc.
  assert (Hd : exists b, pbufs h !! p = Some b /\ tot_len b = ltot l /\ p <> 0).
  { destruct l as [|[a b] l]; [done|]. pose proof Hc as (-> & Hz & Hlk & _). destruct Ht as (_ & Et & _). by exists b. }
  destruct Hd as (b0 & Hb0 & Et0 & Hz%Z.eqb_neq). rewrite Hz, Hb0, Et0. cbn [negb].
  destruct (Z.leb_spec (ltot l) n).
  { exists h, l. split_and!; try done; [lia|]. by rewrite takez_all by (rewrite lenz_cdata; done || lia). }
  rewrite u16_id by zlia.
  destruct (realloc_loop_ok h p l n (ltot l - n) (walk h) Hc Hne Hl ltac:(lia) Hw ltac:(pose proof (chain_walk _ _ _ Hc); lia))
    as (l1 & a & b & l2 & m & El & -> & Hr & C1 & C2).
  set (r := n - ltot l1) in *. cbn [setf pbufs]. pose proof (chain_nodup _ _ _ Hc) as Hnd. rewrite El, map_app in Hnd. cbn in Hnd.
  apply NoDup_app in Hnd as (_ & Hd1 & Hd2). apply NoDup_cons in Hd2 as [Hd2 _].
  destruct (chain_app _ _ _ _ C1) as [q (-> & _ & Ha & Hc2)]. rewrite Ha.
  rewrite El in Hp. apply Forall_app in Hp as [_ Hp]. apply Forall_cons in Hp as [(_ & _ & _ & Hsrc) Hp2]. cbn in Hsrc.
  assert (pbuf_match_allocsrc b SRC_HEAP = false) as -> by (unfold pbuf_match_allocsrc; destruct Hsrc as [-> | ->]; reflexivity). cbn [andb].
  set (b1 := b <| len := r |> <| tot_len := r |>). set (h1 := put a b1 _).
  assert (Free : exists h2, (if next b =? 0 then Some h1 else let? (_, h2) := pbuf_free (next b) h1 in Some h2) = Some h2
    /\ bytes h2 = bytes h /\ forall x, x ∉ map fst l2 -> pbufs h2 !! x = pbufs h1 !! x).
  { assert (Hc3 : chain (pbufs h1) (next b) l2) by (unfold h1; cbn [put setf pbufs]; by apply chain_insert).
    destruct l2 as [|[c d] l2]; [cbn in Hc3; rewrite Hc3; by exists h1|]. pose proof Hc3 as (En & Hcz%Z.eqb_neq & _). rewrite <- En in Hcz. rewrite Hcz.
    destruct (free_other h1 _ _ Hc3 ltac:(done) Hp2) as (cnt & h2 & -> & E1 & _ & E3). by exists h2. }
  destruct Free as (h2 & -> & F1 & F2). assert (Ha2 : pbufs h2 !! a = Some b1) by (rewrite F2 by done; apply lookup_insert_eq).
  rewrite Ha2. set (b2 := b1 <| next := 0 |>). exists (put a b2 h2), (retot (fun t => u16 (t - (ltot l - n))) l1 ++ [(a, b2)]).
  destruct (retot_facts (fun t => u16 (t - (ltot l - n))) (bytes h) l1) as (R1 & R2 & R3 & R4).
  rewrite El in Hl. apply Forall_app in Hl as [Hl1 Hl2]. apply Forall_cons in Hl2 as [Hlb Hl2]. cbn in Hlb.
  assert (Lr : ltot (retot (fun t => u16 (t - (ltot l - n))) l1 ++ [(a, b2)]) = n).
  { rewrite ltot_app, R2, ltot_cons. change (len b2) with r. change (ltot []) with 0. lia. }
  split; [done|]. split_and!.
  - eapply chain_cut; [exact C1| |apply lookup_insert_eq|done]. rewrite R1. intros x Hx. cbn [put setf pbufs].
    assert (x <> a) by (intros ->; apply (Hd1 a Hx); set_solver). rewrite lookup_insert_ne by done.
    rewrite F2 by (intros Hx2; apply (Hd1 x Hx); set_solver). cbn [h1 put setf pbufs]. by rewrite lookup_insert_ne.
  - split; [|lia]. apply (cut_totals l l1 a b b2 l2 n); try done; lia.
  - lia.
  - cbn [put setf bytes]. rewrite F1, cdata_app, R3, El, cdata_app, !cdata_cons. change (payload b2) with (payload b). change (len b2) with r.
    change (cdata (bytes h) []) with (@nil Z). rewrite app_nil_r, takez_app by lia. rewrite lenz_cdata by done. fold r.
    rewrite takez_all by (rewrite lenz_cdata by done; lia). f_equal. rewrite takez_app, lenz_mread by lia. rewrite (takez_0 (r - len b)), app_nil_r by lia.
    rewrite <- (dropz_0 0 (mread _ _ (len b))), <- mread_sub, Z.add_0_r by lia. done.
  - intros x Hx. rewrite El, map_app in Hx. cbn in Hx. cbn [put setf pbufs]. rewrite lookup_insert_ne by set_solver. rewrite F2 by set_solver.
    cbn [h1 put setf pbufs]. rewrite lookup_insert_ne by set_solver. apply C2. set_solver.
Qed.

(** ** Copying between chains *)

(** [pbuf_copy_partial_pbuf] accepts an offset beyond the first target
    buffer (its checks only look at the totals), but then the [size_t]
    difference [p_to->len - offset_to] wraps, the first copy lands behind the
    first buffer's payload, and the assertion after it fails. *)
Theorem copy_partial_pbuf_overrun p_to p_from h bt bf copy_len offset :
  p_to <> 0 -> p_from <> 0 -> pbufs h !! p_to = Some bt -> pbufs h !! p_from = Some bf ->
  0 < copy_len <= tot_len bf -> offset + copy_len <= tot_len bt -> tot_len bt < 65536 ->
  0 <= len bt < offset -> 0 < len bf < 65536 ->
  pbuf_copy_partial_pbuf p_to p_from copy_len offset h = None.
Proof.
  intros Ht%Z.eqb_neq Hf%Z.eqb_neq Hbt Hbf Hc Ho Hw Hl Hlf. unfold pbuf_copy_partial_pbuf. rewrite Ht, Hf, Hbt, Hbf.
  destruct (Z.leb_spec copy_len (tot_len bf)); [|lia]. destruct (Z.leb_spec (offset + copy_len) (tot_len bt)); [|lia]. cbn [negb].
  unfold walk. cbn [Nat.mul Nat.add copy_pbuf_loop]. rewrite Hbt, Hbf.
  assert (E : u64 (len bf - 0) <=? u64 (len bt - offset) = true) by (apply Z.leb_le; zlia). rewrite E.
  destruct (Z.leb_spec (u64 (offset + Z.min copy_len (u64 (len bf - 0)))) (len bt)); [|done]. zlia.
Qed.
End PbufOps.

(** ** Concrete chains *)
Definition no_custom : CustomFree := fun _ _ => None.

(** Two pool buffers of 4 and 3 bytes at 8192, one of 2 bytes at 24576. *)
Definition demo_b1 : pbuf := mk_pbuf 16384 8216 7 4 130 0 1 0.
Definition demo_b2 : pbuf := mk_pbuf 0 16408 3 3 130 0 1 0.
Definition demo_b3 : pbuf := mk_pbuf 0 24600 2 2 130 0 1 0.
Definition demo_heap : heap := {|
  pbufs := <[8192 := demo_b1]> (<[16384 := demo_b2]> (<[24576 := demo_b3]> ∅));
  bytes := mwrite (mwrite (mwrite ∅ 8216 [1; 2; 3; 4]) 16408 [5; 6; 7]) 24600 [8; 9];
  pools := fun t => if decide (t = MEMP_PBUF_POOL) then [32768; 40960] else [];
  ram_heap := mk_mem 0 ∅ 0; pbuf_free_ooseq_pending := false |}.
Definition demo_l : list node := [(8192, demo_b1); (16384, demo_b2)].
Definition demo_l3 : list node := [(24576, demo_b3)].

Lemma demo_chain : chain (pbufs demo_heap) 8192 demo_l /\ ok_chain demo_l /\ disjoint_payloads demo_l /\ Forall pooled demo_l.
Proof.
  split_and!.
  - vm_compute. repeat split; discriminate.
  - vm_compute. repeat split; discriminate.
  - vm_compute. split; [|by split]. constructor; [|constructor]. left. discriminate.
  - repeat constructor; reflexivity || (left; reflexivity).
Qed.

Lemma demo_chain3 : chain (pbufs demo_heap) 24576 demo_l3 /\ ok_chain demo_l3.
Proof. split; vm_compute; repeat split; discriminate. Qed.

Lemma pbuf_memfind_first_witness : pbuf_memfind 8192 [4; 5; 6] 0 demo_heap = Some 3.
Proof.
  destruct (pbuf_memfind_first demo_heap demo_l 8192 [4; 5; 6] 0) as (r & E & _);
    [apply demo_chain|apply demo_chain|done|vm_compute; repeat constructor; discriminate|lia|vm_compute; discriminate|].
  rewrite E. vm_compute in E. injection E as <-. reflexivity.
Defined.

Lemma pbuf_take_copy_roundtrip_witness :
  exists h', pbuf_take 8192 [10; 11; 12; 13; 14] demo_heap = Some (ERR_OK, h') /\ pbuf_copy_partial 8192 7 0 h' = Some (7, [10; 11; 12; 13; 14; 6; 7]).
Proof.
  destruct (pbuf_take_copy_roundtrip demo_heap demo_l 8192 [10; 11; 12; 13; 14]) as (h' & E & H & _);
    [apply demo_chain|apply demo_chain|done|apply demo_chain|vm_compute; discriminate|].
  exists h'. split; [exact E|]. rewrite (H 7 0) by lia. reflexivity.
Defined.

Lemma pbuf_free_releases_witness :
  exists h', pbuf_free (o := ios) (cf := no_custom) 8192 demo_heap = Some (2, h') /\ pools h' MEMP_PBUF_POOL = [16384; 8192; 32768; 40960].
Proof.
  eexists. split;
    [exact (pbuf_free_releases (o := ios) (cf := no_custom) demo_heap demo_l 8192 (proj1 demo_chain) ltac:(done) (proj2 (proj2 (proj2 demo_chain))))|].
  reflexivity.
Defined.

Lemma pbuf_alloc_pool_witness :
  exists p h', pbuf_alloc (o := ios) (cf := no_custom) PBUF_RAW 2000 PBUF_POOL demo_heap = Some (p, h') /\ p = 32768.
Proof.
  destruct (pbuf_alloc_pool (o := ios) (cf := no_custom) demo_heap PBUF_RAW 2000) as (p & h' & E & _).
  { split; [repeat constructor; set_solver|]. repeat constructor. }
  { lia. }
  exists p, h'. split; [exact E|]. vm_compute in E. injection E as <- _. reflexivity.
Defined.

Lemma pbuf_header_roundtrip_witness : exists h', pbuf_remove_header 8192 3 demo_heap = Some (0, h') /\ pbuf_add_header 8192 3 h' = Some (0, demo_heap).
Proof.
  destruct (pbuf_header_roundtrip 8192 demo_b1 3 demo_heap) as [_ (h' & E & H)]; try done; try (cbn; lia).
  exists h'. split; [exact E|]. apply H. vm_compute. discriminate.
Defined.

Lemma pbuf_cat_concatenates_witness :
  exists h' l, pbuf_cat 8192 24576 demo_heap = Some h' /\ cdata (bytes h') l = [1; 2; 3; 4; 5; 6; 7; 8; 9].
Proof.
  destruct (pbuf_cat_concatenates 8192 24576 demo_heap demo_l demo_l3) as (h' & l & E & _ & _ & _ & H & _);
    [apply demo_chain|apply demo_chain3|done|done|apply demo_chain|apply demo_chain3|cbn; lia|vm_compute; set_solver|].
  exists h', l. split; [exact E|]. rewrite H. reflexivity.
Defined.

Lemma pbuf_realloc_truncates_witness :
  exists h' l', pbuf_realloc (o := ios) (cf := no_custom) 8192 3 demo_heap = Some h' /\ cdata (bytes h') l' = [1; 2; 3].
Proof.
  destruct (pbuf_realloc_truncates (o := ios) (cf := no_custom) demo_heap 8192 demo_l 3) as (h' & l' & E & _ & _ & _ & H & _);
    [apply demo_chain|done|apply demo_chain|apply demo_chain|lia|].
  exists h', l'. split; [exact E|]. rewrite H. reflexivity.
Defined.

Lemma copy_partial_pbuf_overrun_witness : pbuf_copy_partial_pbuf 8192 24576 1 5 demo_heap = None.
Proof. apply (copy_partial_pbuf_overrun 8192 24576 demo_heap demo_b1 demo_b3 1 5); done || cbn; lia. Defined.
