(* ===== verification/Chksum.v ===== *)
(** * Chksum: the Internet checksum, src/Sources/Lwip/src/core/inet_chksum.c

    [LWIP_CHKSUM_ALGORITHM = 2] on a little-endian machine.  The reference is
    RFC 1071: the one's-complement sum of the data's 16-bit words.  The
    routines handle unaligned data and buffers of odd length by swapping
    bytes; the theorems show that the result does not depend on either. *)

From S2P Require Import Prelude Opts Def Mem Memp Pbuf PbufFacts.

(** ** inet_chksum.h *)
Definition SWAP_BYTES_IN_WORD (w : Z) : Z := Z.lor (Z.shiftl (Z.land w 255) 8) (Z.shiftr (Z.land w 65280) 8).
Definition FOLD_U32T (u : Z) : Z := u32 (Z.shiftr u 16 + Z.land u 65535).

(** ** inet_chksum.c *)

(** [while (len > 1) { sum += *ps++; len -= 2; }]: the sum and the bytes left. *)
Fixpoint chksum_words (sum : Z) (bs : list Z) : Z * list Z :=
  match bs with
  | lo :: hi :: bs => chksum_words (u32 (sum + (lo + 256 * hi))) bs
  | _ => (sum, bs)
  end.

(** [lwip_standard_chksum(dataptr, len)]; [t] is built from its two bytes. *)
Definition lwip_standard_chksum (dataptr : Z) (bs : list Z) : Z :=
  let odd := negb (Z.land dataptr 1 =? 0) in
  let '(t1, pb) := match bs with b :: rest => if odd then (b, rest) else (0, bs) | [] => (0, bs) end in
  let '(sum, ps) := chksum_words 0 pb in
  let t0 := match ps with b :: _ => b | [] => 0 end in
  let sum := u32 (sum + (t0 + 256 * t1)) in
  let sum := FOLD_U32T sum in
  let sum := FOLD_U32T sum in
  let sum := if odd then SWAP_BYTES_IN_WORD sum else sum in
  u16 sum.

Definition LWIP_CHKSUM (m : gmap Z Z) (dataptr n : Z) : Z := lwip_standard_chksum dataptr (mread m dataptr n).

(** The loop over the chain of [inet_cksum_pseudo_base] and [inet_chksum_pbuf]. *)
Fixpoint chksum_chain (fuel : nat) (q : Z) (acc : Z) (swapped : bool) (h : heap) : option (Z * bool) :=
  if q =? 0 then Some (acc, swapped)
  else match fuel with
  | O => None
  | S fuel =>
      let? b := pbufs h !! q in
      let acc := u32 (acc + LWIP_CHKSUM (bytes h) (payload b) (len b)) in
      let acc := FOLD_U32T acc in
      let '(acc, swapped) := if negb (len b mod 2 =? 0) then (SWAP_BYTES_IN_WORD acc, negb swapped) else (acc, swapped) in
      chksum_chain fuel (next b) acc swapped h
  end.

Definition chksum_finish (acc : Z) : Z := u16 (Z.lnot (Z.land acc 65535)).

Definition inet_cksum_pseudo_base (p proto proto_len acc : Z) (h : heap) : option Z :=
  let? (acc, swapped) := chksum_chain (walk h) p acc false h in
  let acc := if swapped : bool then SWAP_BYTES_IN_WORD acc else acc in
  let acc := u32 (acc + lwip_htons (u16 proto)) in
  let acc := u32 (acc + lwip_htons proto_len) in
  let acc := FOLD_U32T acc in
  let acc := FOLD_U32T acc in
  Some (chksum_finish acc).

(** The address words of the pseudo header, folded. *)
Definition pseudo_acc (src dest : Z) : Z :=
  let acc := Z.land src 65535 in
  let acc := u32 (acc + Z.land (Z.shiftr src 16) 65535) in
  let acc := u32 (acc + Z.land dest 65535) in
  let acc := u32 (acc + Z.land (Z.shiftr dest 16) 65535) in
  let acc := FOLD_U32T acc in
  FOLD_U32T acc.

Definition inet_chksum_pseudo (p proto proto_len src dest : Z) (h : heap) : option Z :=
  inet_cksum_pseudo_base p proto proto_len (pseudo_acc src dest) h.

Definition ip_chksum_pseudo (p proto proto_len src dest : Z) (h : heap) : option Z :=
  inet_chksum_pseudo p proto proto_len src dest h.

Fixpoint chksum_chain_partial (fuel : nat) (q chksum_len acc : Z) (swapped : bool) (h : heap) : option (Z * bool) :=
  if (q =? 0) || negb (0 <? chksum_len) then Some (acc, swapped)
  else match fuel with
  | O => None
  | S fuel =>
      let? b := pbufs h !! q in
      let chklen := if chksum_len <? len b then chksum_len else len b in
      let acc := u32 (acc + LWIP_CHKSUM (bytes h) (payload b) chklen) in
      let chksum_len := u16 (chksum_len - chklen) in
      assert! (chksum_len <? 32767) in
      let acc := FOLD_U32T acc in
      let '(acc, swapped) := if negb (len b mod 2 =? 0) then (SWAP_BYTES_IN_WORD acc, negb swapped) else (acc, swapped) in
      chksum_chain_partial fuel (next b) chksum_len acc swapped h
  end.

Definition inet_cksum_pseudo_partial_base (p proto proto_len chksum_len acc : Z) (h : heap) : option Z :=
  let? (acc, swapped) := chksum_chain_partial (walk h) p chksum_len acc false h in
  let acc := if swapped : bool then SWAP_BYTES_IN_WORD acc else acc in
  let acc := u32 (acc + lwip_htons (u16 proto)) in
  let acc := u32 (acc + lwip_htons proto_len) in
  let acc := FOLD_U32T acc in
  let acc := FOLD_U32T acc in
  Some (chksum_finish acc).

Definition inet_chksum_pseudo_partial (p proto proto_len chksum_len src dest : Z) (h : heap) : option Z :=
  inet_cksum_pseudo_partial_base p proto proto_len chksum_len (pseudo_acc src dest) h.

Definition ip_chksum_pseudo_partial (p proto proto_len chksum_len src dest : Z) (h : heap) : option Z :=
  inet_chksum_pseudo_partial p proto proto_len chksum_len src dest h.

Definition inet_chksum (dataptr : Z) (bs : list Z) : Z := u16 (Z.lnot (lwip_standard_chksum dataptr bs)).

Definition inet_chksum_pbuf (p : Z) (h : heap) : option Z :=
  let? (acc, swapped) := chksum_chain (walk h) p 0 false h in
  let acc := if swapped : bool then SWAP_BYTES_IN_WORD acc else acc in
  Some (chksum_finish acc).

(** ** The reference: RFC 1071 *)

(** The sum of the 16-bit words of the data, in memory order; with [odd] the
    first byte is the high byte of a word. *)
Fixpoint wsum (odd : bool) (bs : list Z) : Z :=
  match bs with [] => 0 | b :: bs => (if odd then 256 * b else b) + wsum (negb odd) bs end.

(** One's-complement reduction to 16 bits. *)
Definition ones_sum (x : Z) : Z := if x =? 0 then 0 else (x - 1) mod 65535 + 1.

(** [a] is [x] reduced. *)
Definition reduced (a x : Z) : Prop := 0 <= a <= 65535 /\ 0 <= x /\ a mod 65535 = x mod 65535 /\ (a = 0 <-> x = 0).

Lemma reduced_ones a x : reduced a x -> a = ones_sum x.
Proof. intros (H1 & H2 & H3 & H4). unfold ones_sum. destruct (Z.eqb_spec x 0); [tauto|]. lia. Qed.

Lemma ones_reduced x : 0 <= x -> reduced (ones_sum x) x.
Proof. intros H. unfold reduced, ones_sum. destruct (Z.eqb_spec x 0); lia. Qed.

Lemma reduced_cong a x y : reduced a x -> 0 <= y -> x mod 65535 = y mod 65535 -> (x = 0 <-> y = 0) -> reduced a y.
Proof. intros (H1 & H2 & H3 & H4) Hy Hm Hz. unfold reduced. split_and!; try lia; tauto. Qed.

Lemma fold_eq u : 0 <= u < 2 ^ 32 -> FOLD_U32T u = u / 65536 + u mod 65536.
Proof.
  intros Hu. unfold FOLD_U32T. rewrite Z.shiftr_div_pow2 by lia. change 65535 with (Z.ones 16) at 1. rewrite Z.land_ones by lia.
  change (2 ^ 16) with 65536. rewrite u32_id by zlia. done.
Qed.

(** One fold is enough below 2^17, two below 2^32. *)
Lemma fold1_reduced u : 0 <= u <= 131070 -> reduced (FOLD_U32T u) u.
Proof. intros Hu. rewrite fold_eq by lia. unfold reduced. lia. Qed.

Lemma fold2_reduced u : 0 <= u < 2 ^ 32 -> reduced (FOLD_U32T (FOLD_U32T u)) u.
Proof. intros Hu. rewrite (fold_eq u) by lia. rewrite fold_eq by lia. unfold reduced. lia. Qed.

Lemma swap_eq w : 0 <= w < 65536 -> SWAP_BYTES_IN_WORD w = (w mod 256) * 256 + w / 256.
Proof.
  intros Hw. unfold SWAP_BYTES_IN_WORD. change 255 with (Z.ones 8) at 1. rewrite Z.land_ones by lia.
  change 65280 with (Z.shiftl 255 8). rewrite land_byte_at by lia. rewrite Z.shiftr_shiftl_l by lia. cbn [Z.sub Z.add Z.opp Z.pos_sub].
  rewrite Z.shiftl_0_r. rewrite lor_shiftl_add by lia. change (2 ^ 8) with 256. lia.
Qed.

Lemma swap_reduced a x : reduced a x -> reduced (SWAP_BYTES_IN_WORD a) (256 * x).
Proof. intros (H1 & H2 & H3 & H4). rewrite swap_eq by lia. unfold reduced. split_and!; try lia. Qed.

Lemma add_reduced a x b y : reduced a x -> reduced b y -> reduced (FOLD_U32T (u32 (a + b))) (x + y).
Proof.
  intros (H1 & H2 & H3 & H4) (H5 & H6 & H7 & H8). rewrite u32_id by zlia.
  pose proof (fold1_reduced (a + b) ltac:(lia)) as (F1 & F2 & F3 & F4). unfold reduced. lia.
Qed.

(** ** Word sums *)
Definition is_odd (n : Z) : bool := negb (n mod 2 =? 0).

Lemma wsum_nonneg o bs : Forall is_u8 bs -> 0 <= wsum o bs <= 65280 * lenz bs.
Proof.
  intros H. revert o. induction H as [|b bs Hb _ IH]; intros o; [done|]. cbn [wsum]. rewrite lenz_cons. specialize (IH (negb o)).
  unfold is_u8 in Hb. destruct o; lia.
Qed.

Lemma wsum_app o a b : wsum o (a ++ b) = wsum o a + wsum (xorb o (is_odd (lenz a))) b.
Proof.
  revert o. induction a as [|x a IH]; intros o; cbn [app wsum].
  - change (is_odd (lenz (@nil Z))) with false. by rewrite xorb_false_r.
  - rewrite IH, lenz_cons, Z.add_assoc. f_equal. f_equal. unfold is_odd.
    assert (E : ((1 + lenz a) mod 2 =? 0) = negb (lenz a mod 2 =? 0)).
    { destruct (Z.eqb_spec ((1 + lenz a) mod 2) 0), (Z.eqb_spec (lenz a mod 2) 0); cbn; try done; lia. }
    rewrite E. by destruct o, (lenz a mod 2 =? 0).
Qed.

(** Moving the data by one byte multiplies its sum by 256, modulo 65535. *)
Lemma wsum_shift o bs : Forall is_u8 bs -> wsum (negb o) bs mod 65535 = (256 * wsum o bs) mod 65535 /\ (wsum (negb o) bs = 0 <-> wsum o bs = 0).
Proof.
  intros H. revert o. induction H as [|b bs Hb Hbs IH]; intros o; [done|]. cbn [wsum]. destruct (IH (negb o)) as [I1 I2].
  pose proof (wsum_nonneg o bs Hbs). pose proof (wsum_nonneg (negb o) bs Hbs). rewrite negb_involutive in *. unfold is_u8 in Hb.
  split; [|destruct o; cbn [negb] in *; lia]. destruct o; cbn [negb] in *; lia.
Qed.

Lemma chksum_words_spec bs : forall sum, 0 <= sum -> Forall is_u8 bs -> sum + 65280 * (lenz bs) < 2 ^ 32 ->
  exists s ps, chksum_words sum bs = (s, ps) /\ (ps = [] \/ exists b, ps = [b] /\ is_u8 b)
  /\ s + (match ps with b :: _ => b | [] => 0 end) = sum + wsum false bs /\ 0 <= s.
Proof.
  assert (W : forall n bs, (length bs <= n)%nat -> forall sum, 0 <= sum -> Forall is_u8 bs -> sum + 65280 * (lenz bs) < 2 ^ 32 ->
    exists s ps, chksum_words sum bs = (s, ps) /\ (ps = [] \/ exists b, ps = [b] /\ is_u8 b)
    /\ s + (match ps with b :: _ => b | [] => 0 end) = sum + wsum false bs /\ 0 <= s).
  { induction n as [|n IH]; intros l Hl sum Hs Hb Hw.
    - destruct l; [|cbn in Hl; lia]. exists sum, []. split_and!; try done. by left.
    - destruct l as [|lo [|hi l]].
      + exists sum, []. split_and!; try done. by left.
      + exists sum, [lo]. inversion Hb; subst. cbn. split_and!; try done; [|lia]. right. by exists lo.
      + inversion Hb as [|? ? H1 Hb']; subst. inversion Hb' as [|? ? H2 Hb'']; subst. rewrite !lenz_cons in Hw. unfold is_u8 in *.
        cbn [chksum_words]. pose proof (lenz_nonneg l). rewrite u32_id by zlia.
        destruct (IH l ltac:(cbn in Hl; lia) (sum + (lo + 256 * hi)) ltac:(lia) Hb'' ltac:(lia)) as (s & ps & E & P & Q & R).
        exists s, ps. split_and!; try done. rewrite Q. cbn. lia. }
  intros. by eapply W.
Qed.

(** The checksum of one buffer. *)
Lemma standard_chksum_reduced dataptr bs :
  Forall is_u8 bs -> lenz bs < 65536 -> reduced (lwip_standard_chksum dataptr bs) (wsum false bs).
Proof.
  intros Hb Hl. unfold lwip_standard_chksum. set (odd := negb _).
  pose proof (wsum_nonneg false bs Hb) as Hn.
  assert (R16 : forall a x, reduced a x -> reduced (u16 a) x) by (intros a x (H1 & H); rewrite u16_id by zlia; by split).
  destruct bs as [|b bs]; [apply R16; by destruct odd|]. pose proof Hb as Hb0. inversion Hb as [|? ? H1 Hb']; subst. unfold is_u8 in H1.
  rewrite lenz_cons in Hl. pose proof (lenz_nonneg bs). destruct odd.
  - destruct (chksum_words_spec bs 0) as (s & ps & -> & Hp & Hs & Hs0); [lia|done|lia|]. pose proof (wsum_nonneg false bs Hb').
    rewrite u32_id by (destruct Hp as [->|(c & -> & Hc)]; zlia).
    apply R16. destruct (wsum_shift true (b :: bs) Hb0) as [W1 W2]. cbn [negb] in W1, W2. eapply reduced_cong; [apply swap_reduced, fold2_reduced| | |].
    + destruct Hp as [->|(c & -> & Hc)]; unfold is_u8 in *; lia.
    + lia.
    + rewrite W1. cbn [wsum negb]. f_equal. destruct Hp as [->|(c & -> & Hc)]; lia.
    + rewrite W2. cbn [wsum negb]. destruct Hp as [->|(c & -> & Hc)]; lia.
  - destruct (chksum_words_spec (b :: bs) 0) as (s & ps & -> & Hp & Hs & Hs0); [lia|done|rewrite lenz_cons; lia|]. rewrite lenz_cons in Hn.
    apply R16. rewrite u32_id by (destruct Hp as [->|(c & -> & Hc)]; zlia). replace (s + _) with (wsum false (b :: bs)) by lia.
    apply fold2_reduced. lia.
Qed.

(** Data with its checksum filled in at an even offset. *)
Lemma chksum_filled dataptr dataptr' pre post :
  Forall is_u8 (pre ++ post) -> lenz (pre ++ post) < 65534 -> lenz pre mod 2 = 0 ->
  let s := lwip_standard_chksum dataptr (pre ++ [0; 0] ++ post) in
  let c := inet_chksum dataptr (pre ++ [0; 0] ++ post) in
  reduced s (wsum false (pre ++ [0; 0] ++ post)) /\ c = 65535 - s
  /\ inet_chksum dataptr' (pre ++ [c mod 256; c / 256] ++ post) = 0.
Proof.
  intros Hb Hl He. apply Forall_app in Hb as [Hb1 Hb2]. rewrite lenz_app in Hl.
  assert (N : forall a x, reduced a x -> u16 (Z.lnot a) = 65535 - a) by (intros a x (H & _); unfold Z.lnot; zlia).
  assert (R : forall d x y, is_u8 x -> is_u8 y -> reduced (lwip_standard_chksum d (pre ++ [x; y] ++ post)) (wsum false (pre ++ [x; y] ++ post))).
  { intros d x y Hx Hy. apply standard_chksum_reduced; [apply Forall_app; split; [done|]; do 2 (constructor; [done|]); done|].
    rewrite !lenz_app. change (lenz [x; y]) with 2. lia. }
  assert (W : forall x y, wsum false (pre ++ [x; y] ++ post) = wsum false pre + x + 256 * y + wsum false post).
  { intros x y. rewrite wsum_app. assert (is_odd (lenz pre) = false) as -> by (unfold is_odd; by rewrite He). cbn. lia. }
  cbv zeta. unfold inet_chksum. assert (Z0 : is_u8 0) by zlia.
  pose proof (R dataptr 0 0 Z0 Z0) as R0. rewrite (N _ _ R0). pose proof R0 as (B0 & _). split; [done|]. split; [done|].
  set (s := lwip_standard_chksum dataptr (pre ++ [0; 0] ++ post)) in *.
  assert (H1 : is_u8 ((65535 - s) mod 256)) by zlia. assert (H2 : is_u8 ((65535 - s) / 256)) by zlia.
  pose proof (R dataptr' _ _ H1 H2) as R1. rewrite (N _ _ R1). rewrite W in R0, R1.
  destruct R0 as (P1 & P2 & P3 & P4), R1 as (Q1 & Q2 & Q3 & Q4). pose proof (wsum_nonneg false pre Hb1). pose proof (wsum_nonneg false post Hb2). lia.
Qed.

(** C39: [inet_chksum] is the RFC 1071 checksum (the complement of the
    one's-complement sum of the 16-bit words, a last odd byte taken as the low
    byte of a word) of any up to 65535 bytes, whatever the alignment of the data.
    And it can be checked: if two bytes of the data at an even offset are 0 and
    the checksum is put in their place, the checksum of the result is 0, at
    whatever address it arrives. *)
Theorem inet_chksum_rfc1071 dataptr data : Forall is_u8 data -> lenz data <= 65535 ->
  let c := inet_chksum dataptr data in
  c = 65535 - ones_sum (wsum false data)
  /\ (forall dataptr' pre post, data = pre ++ [0; 0] ++ post -> lenz pre mod 2 = 0 -> inet_chksum dataptr' (pre ++ [c mod 256; c / 256] ++ post) = 0).
Proof.
  intros Hb Hl. cbv zeta. split.
  - pose proof (standard_chksum_reduced dataptr data Hb ltac:(lia)) as R. rewrite <- (reduced_ones _ _ R). destruct R as (H & _). unfold inet_chksum, Z.lnot. zlia.
  - intros dataptr' pre post -> He. rewrite !lenz_app in Hl. change (lenz [0; 0]) with 2 in Hl. apply Forall_app in Hb as [Hb1 [_ [_ Hb2]%Forall_cons]%Forall_cons].
    destruct (chksum_filled dataptr dataptr' pre post) as (_ & _ & H0); [by apply Forall_app|rewrite lenz_app; lia|done|exact H0].
Qed.

(** ** Chains *)

(** The accumulator stands for [v], byte-swapped if [sw]. *)
Definition stands (acc : Z) (sw : bool) (v : Z) : Prop := 0 <= v /\ reduced acc (if sw then 256 * v else v).

Lemma stands_add acc sw v c bs : stands acc sw v -> Forall is_u8 bs -> reduced c (wsum false bs) ->
  stands (FOLD_U32T (u32 (acc + c))) sw (v + wsum sw bs).
Proof.
  intros [Hv Ha] Hb Hc. pose proof (add_reduced _ _ _ _ Ha Hc) as H. pose proof (wsum_nonneg false bs Hb). pose proof (wsum_nonneg sw bs Hb).
  split; [lia|]. destruct sw; [|exact H]. destruct (wsum_shift false bs Hb) as [W1 W2]. cbn [negb] in *.
  eapply reduced_cong; [exact H|lia| |]; lia.
Qed.

Lemma stands_swap acc sw v : stands acc sw v -> stands (SWAP_BYTES_IN_WORD acc) (negb sw) v.
Proof.
  intros [Hv Ha]. split; [done|]. apply swap_reduced in Ha. destruct sw; cbn [negb]; [|exact Ha].
  eapply reduced_cong; [exact Ha|lia| |]; lia.
Qed.

Lemma chksum_chain_ok h l p acc sw v fuel :
  chain (pbufs h) p l -> ok_chain l -> Forall is_u8 (cdata (bytes h) l) -> (length l < fuel)%nat -> stands acc sw v ->
  exists acc', chksum_chain fuel p acc sw h = Some (acc', xorb sw (is_odd (ltot l)))
  /\ stands acc' (xorb sw (is_odd (ltot l))) (v + wsum sw (cdata (bytes h) l)).
Proof.
  revert p acc sw v fuel. induction l as [|[a b] l IH]; intros p acc sw v fuel Hc Hok Hb Hf Hs.
  - cbn in Hc. subst p. exists acc. change (is_odd (ltot [])) with false. rewrite xorb_false_r. change (cdata (bytes h) []) with (@nil Z).
    cbn [wsum]. rewrite Z.add_0_r. by destruct fuel.
  - destruct fuel as [|fuel]; [lia|]. destruct Hc as (-> & Hz%Z.eqb_neq & Hl & Hc). destruct (ok_chain_cons _ _ _ Hok) as (H1 & _ & Hok' & H0).
    rewrite cdata_cons in *. apply Forall_app in Hb as [Hb1 Hb2]. cbn [chksum_chain]. rewrite Hz, Hl. unfold LWIP_CHKSUM.
    pose proof (standard_chksum_reduced (payload b) _ Hb1 ltac:(rewrite lenz_mread; lia)) as Hr.
    pose proof (stands_add _ _ _ _ _ Hs Hb1 Hr) as Hs1. set (acc1 := FOLD_U32T _) in *.
    assert (Ep : is_odd (ltot ((a, b) :: l)) = xorb (is_odd (len b)) (is_odd (ltot l))).
    { rewrite ltot_cons. unfold is_odd. destruct (Z.eqb_spec (len b mod 2) 0), (Z.eqb_spec (ltot l mod 2) 0), (Z.eqb_spec ((len b + ltot l) mod 2) 0); cbn; try done; lia. }
    rewrite Ep, wsum_app, lenz_mread, Z.add_assoc by lia. change (negb (len b mod 2 =? 0)) with (is_odd (len b)).
    destruct (is_odd (len b)).
    + destruct (IH (next b) (SWAP_BYTES_IN_WORD acc1) (negb sw) (v + wsum sw (mread (bytes h) (payload b) (len b))) fuel Hc Hok' Hb2)
        as (acc' & E & H); [cbn in Hf; lia|by apply stands_swap|]. rewrite E. exists acc'.
      by destruct sw, (is_odd (ltot l)).
    + rewrite xorb_false_r, xorb_false_l. apply IH; try done. cbn in Hf; lia.
Qed.

(** The words of the pseudo header. *)
Definition pseudo_words (proto proto_len src dest : Z) : Z :=
  src mod 65536 + src / 65536 + dest mod 65536 + dest / 65536 + lwip_htons (u16 proto) + lwip_htons proto_len.

Lemma pseudo_acc_reduced src dest : is_u32 src -> is_u32 dest ->
  reduced (pseudo_acc src dest) (src mod 65536 + src / 65536 + dest mod 65536 + dest / 65536).
Proof.
  intros Hs Hd. unfold pseudo_acc. change 65535 with (Z.ones 16). rewrite !Z.land_ones, !Z.shiftr_div_pow2 by lia. change (2 ^ 16) with 65536.
  rewrite (Z.mod_small (src / 65536)), (Z.mod_small (dest / 65536)) by zlia.
  rewrite (u32_id (src mod 65536 + src / 65536)), (u32_id (_ + _ + dest mod 65536)), (u32_id (_ + dest / 65536)) by zlia.
  apply fold2_reduced. zlia.
Qed.

Lemma htons_u16 x : is_u16 x -> is_u16 (lwip_htons x).
Proof. intros H. unfold lwip_htons, PP_HTONS. apply u16_range. Qed.

Lemma pseudo_base_ok h l p proto proto_len acc v :
  chain (pbufs h) p l -> ok_chain l -> Forall is_u8 (cdata (bytes h) l) -> is_u16 proto_len -> reduced acc v ->
  let total := v + wsum false (cdata (bytes h) l) + lwip_htons (u16 proto) + lwip_htons proto_len in
  inet_cksum_pseudo_base p proto proto_len acc h = Some (65535 - ones_sum total).
Proof.
  intros Hc Hok Hb Hp Ha. cbv zeta. unfold inet_cksum_pseudo_base.
  destruct (chksum_chain_ok h l p acc false v (walk h) Hc Hok Hb (chain_walk _ _ _ Hc)) as (acc1 & -> & Hv & H1); [split; [apply Ha|done]|].
  set (sw := xorb false _) in *. set (w := v + wsum false (cdata (bytes h) l)) in *.
  assert (H2 : reduced (if sw then SWAP_BYTES_IN_WORD acc1 else acc1) w).
  { destruct sw; [|done]. destruct (stands_swap acc1 true w) as [_ H]; done. }
  cbv zeta. set (acc2 := if sw then SWAP_BYTES_IN_WORD acc1 else acc1) in *. clearbody acc2. pose proof (htons_u16 _ (u16_range proto)) as T1. pose proof (htons_u16 _ Hp) as T2.
  unfold is_u16 in T1, T2. destruct H2 as (B1 & B2 & B3 & B4). rewrite (u32_id (acc2 + _)) by zlia. rewrite (u32_id (_ + _)) by zlia.
  pose proof (fold2_reduced (acc2 + lwip_htons (u16 proto) + lwip_htons proto_len) ltac:(lia)) as F. set (r := FOLD_U32T (FOLD_U32T _)) in *.
  assert (F' : reduced r (w + lwip_htons (u16 proto) + lwip_htons proto_len)).
  { eapply reduced_cong; [exact F|lia|lia|lia]. }
  rewrite <- (reduced_ones _ _ F'). destruct F' as (R1 & _). unfold chksum_finish. change 65535 with (Z.ones 16) at 1.
  rewrite Z.land_ones, Z.mod_small by lia. f_equal. unfold Z.lnot. zlia.
Qed.

(** C25: [inet_chksum_pseudo] over a chain, whose checksum field at an even offset
    is 0, is the RFC 1071 checksum of its bytes and the pseudo header, however the
    bytes are split into buffers (also of odd length and at odd addresses); and the
    segment that carries that checksum there checks to 0, also when it is received
    in differently split buffers. *)
Theorem pseudo_chksum_verifies h1 l1 p1 h2 l2 p2 proto proto_len src dest pre post c :
  chain (pbufs h1) p1 l1 -> ok_chain l1 -> chain (pbufs h2) p2 l2 -> ok_chain l2 ->
  Forall is_u8 (pre ++ post) -> is_u16 proto_len -> is_u32 src -> is_u32 dest -> lenz pre mod 2 = 0 ->
  cdata (bytes h1) l1 = pre ++ [0; 0] ++ post ->
  inet_chksum_pseudo p1 proto proto_len src dest h1 = Some c ->
  cdata (bytes h2) l2 = pre ++ [c mod 256; c / 256] ++ post ->
  c = 65535 - ones_sum (pseudo_words proto proto_len src dest + wsum false (pre ++ [0; 0] ++ post))
  /\ inet_chksum_pseudo p2 proto proto_len src dest h2 = Some 0.
Proof.
  intros Hc1 Hok1 Hc2 Hok2 Hb Hpl Hs Hd He D1 E1 D2. apply Forall_app in Hb as [Hb1 Hb2].
  assert (W : forall x y, wsum false (pre ++ [x; y] ++ post) = wsum false pre + x + 256 * y + wsum false post).
  { intros x y. rewrite wsum_app. assert (is_odd (lenz pre) = false) as -> by (unfold is_odd; by rewrite He). cbn. lia. }
  assert (B : forall x y, is_u8 x -> is_u8 y -> Forall is_u8 (pre ++ [x; y] ++ post)).
  { intros x y Hx Hy. apply Forall_app. split; [done|]. do 2 (constructor; [done|]). done. }
  unfold inet_chksum_pseudo in *. pose proof (pseudo_acc_reduced src dest Hs Hd) as Ha.
  rewrite (pseudo_base_ok h1 l1 p1 proto proto_len _ _ Hc1 Hok1 ltac:(rewrite D1; apply B; zlia) Hpl Ha) in E1. injection E1 as E1.
  rewrite D1 in E1. unfold pseudo_words. set (aw := src mod 65536 + src / 65536 + dest mod 65536 + dest / 65536) in *.
  pose proof (htons_u16 _ (u16_range proto)) as T1. pose proof (htons_u16 _ Hpl) as T2. unfold is_u16 in T1, T2.
  pose proof (wsum_nonneg false pre Hb1). pose proof (wsum_nonneg false post Hb2). assert (Haw : 0 <= aw) by (unfold aw; zlia).
  rewrite !W in *. split; [rewrite <- E1; do 2 f_equal; lia|].
  pose proof (ones_reduced (aw + (wsum false pre + 0 + 256 * 0 + wsum false post) + lwip_htons (u16 proto) + lwip_htons proto_len) ltac:(lia)) as (O1 & O2 & O3 & O4).
  assert (Hc : 0 <= c <= 65535) by lia.
  rewrite (pseudo_base_ok h2 l2 p2 proto proto_len _ _ Hc2 Hok2 ltac:(rewrite D2; apply B; zlia) Hpl Ha), D2, W. f_equal.
  pose proof (ones_reduced (aw + (wsum false pre + c mod 256 + 256 * (c / 256) + wsum false post) + lwip_htons (u16 proto) + lwip_htons proto_len) ltac:(lia)) as (Q1 & Q2 & Q3 & Q4).
  lia.
Qed.

(** ** Concrete data *)
Ltac u8_list := cbn; repeat (apply Forall_cons_2; [zlia|]); apply Forall_nil_2.

Lemma inet_chksum_rfc1071_witness : inet_chksum 1000 [69; 0; 0; 40; 0; 0; 1; 2; 3] = 65535 - ones_sum (wsum false [69; 0; 0; 40; 0; 0; 1; 2; 3])
  /\ inet_chksum 1001 ([69; 0; 0; 40] ++ [182; 213] ++ [1; 2; 3]) = 0.
Proof.
  destruct (inet_chksum_rfc1071 1000 [69; 0; 0; 40; 0; 0; 1; 2; 3]) as [H1 H2]; [u8_list|discriminate|]. split; [exact H1|].
  exact (H2 1001 [69; 0; 0; 40] [1; 2; 3] eq_refl eq_refl).
Defined.

(** The same segment in two buffers of odd length, and received in one. *)
Definition sum_heap1 : heap := {|
  pbufs := <[1000 := mk_pbuf 2000 1024 7 3 130 0 1 0]> (<[2000 := mk_pbuf 0 2025 4 4 130 0 1 0]> ∅);
  bytes := mwrite (mwrite ∅ 1024 [1; 2; 3]) 2025 [4; 0; 0; 5];
  pools := fun _ => []; ram_heap := mk_mem 0 ∅ 0; pbuf_free_ooseq_pending := false |}.
Definition sum_l1 : list node := [(1000, mk_pbuf 2000 1024 7 3 130 0 1 0); (2000, mk_pbuf 0 2025 4 4 130 0 1 0)].
Definition sum_heap2 (c : Z) : heap := {|
  pbufs := <[3000 := mk_pbuf 0 3024 7 7 130 0 1 0]> ∅;
  bytes := mwrite ∅ 3024 [1; 2; 3; 4; c mod 256; c / 256; 5];
  pools := fun _ => []; ram_heap := mk_mem 0 ∅ 0; pbuf_free_ooseq_pending := false |}.
Definition sum_l2 : list node := [(3000, mk_pbuf 0 3024 7 7 130 0 1 0)].

Lemma pseudo_chksum_verifies_witness :
  exists c, inet_chksum_pseudo 1000 6 7 16909060 84281096 sum_heap1 = Some c
  /\ inet_chksum_pseudo 3000 6 7 16909060 84281096 (sum_heap2 c) = Some 0.
Proof.
  destruct (inet_chksum_pseudo 1000 6 7 16909060 84281096 sum_heap1) as [c|] eqn:E; [|vm_compute in E; discriminate].
  exists c. split; [reflexivity|].
  apply (pseudo_chksum_verifies sum_heap1 sum_l1 1000 (sum_heap2 c) sum_l2 3000 6 7 16909060 84281096 [1; 2; 3; 4] [5] c);
    try exact E; try reflexivity; try (vm_compute; repeat split; discriminate); try zlia; u8_list.
Defined.
