(* ===== verification/Timeouts.v ===== *)
(** * Timeouts: the timer list, src/Sources/Lwip/src/core/timeouts.c

    The list of pending timeouts, sorted by due time on a 32-bit millisecond
    clock that wraps.  What the timers drive (TCP, reassembly, the clock) is
    seen through the interface [TimerEnv]. *)

From S2P Require Import Prelude Opts Mem Memp.

(** What the timers drive: the clock, [tcp_tmr], whether a TCP pcb needs the
    timer, [ip_reass_tmr], the dropping of out-of-order data, and handlers
    registered by others. *)
Class TimerEnv := {
  env : Type;
  sys_now : env -> Z;
  tcp_tmr : env -> env;
  tcp_pcbs_need_timer : env -> bool;
  ip_reass_tmr : env -> env;
  pbuf_check_free_ooseq : env -> env;
  other_handler : Z -> env -> env;
}.

Definition LWIP_MAX_TIMEOUT : Z := 2147483647.
Definition TIME_LESS_THAN (t compare_to : Z) : bool := LWIP_MAX_TIMEOUT <? u32 (t - compare_to).
Definition IP_TMR_INTERVAL : Z := 1000.
Definition SYS_TIMEOUTS_SLEEPTIME_INFINITE : Z := 4294967295.

(** Handlers, by identity; [lwip_cyclic_timer]'s argument is the index of its
    entry in [lwip_cyclic_timers]. *)
Inductive sys_timeout_handler := H_tcpip_tcp_timer | H_lwip_cyclic_timer | H_other (id : Z).
#[export] Instance handler_eq_dec : EqDecision sys_timeout_handler.
Proof. solve_decision. Defined.

(** [lwip_cyclic_timers]: intervals; entry 0 is TCP's. *)
Definition lwip_cyclic_timers : list Z := [TCP_TMR_INTERVAL; IP_TMR_INTERVAL].

Record sys_timeo := mk_timeo { time : Z; h : sys_timeout_handler; arg : Z; addr : Z }.
#[export] Instance eta_timeo : Eta sys_timeo := fun t => mk_timeo (time t) (h t) (arg t) (addr t).

Section Timeouts.
Context {te : TimerEnv}.

Record timers := mk_timers {
  next_timeout : list sys_timeo;
  current_timeout_due_time : Z;
  tcpip_tcp_timer_active : bool;
  tpools : memp_state;
  tenv : env;
  (** handlers called so far, oldest first *)
  called : list sys_timeo;
}.
#[global] Instance eta_timers : Eta timers := fun s =>
  mk_timers (next_timeout s) (current_timeout_due_time s) (tcpip_tcp_timer_active s) (tpools s) (tenv s) (called s).

(** The walk of [sys_timeout_abs] after the head: the entry goes in front of
    the first one it is less than. *)
Fixpoint insert_after (x : sys_timeo) (l : list sys_timeo) : list sys_timeo :=
  match l with
  | [] => [x]
  | t :: l => if TIME_LESS_THAN (time x) (time t) then x :: t :: l else t :: insert_after x l
  end.

Definition sys_timeout_abs (abs_time : Z) (hd : sys_timeout_handler) (a : Z) (s : timers) : option timers :=
  let? (timeout, ps) := memp_malloc MEMP_SYS_TIMEOUT (tpools s) in
  let s := s <| tpools := ps |> in
  assert! negb (timeout =? 0) in
  let x := mk_timeo abs_time hd a timeout in
  Some (s <| next_timeout :=
    match next_timeout s with
    | [] => [x]
    | t :: l => if TIME_LESS_THAN abs_time (time t) then x :: t :: l else t :: insert_after x l
    end |>).

Definition sys_timeout (msecs : Z) (hd : sys_timeout_handler) (a : Z) (s : timers) : option timers :=
  assert! (msecs <=? 4294967295 / 4) in
  sys_timeout_abs (u32 (sys_now (tenv s) + msecs)) hd a s.

Definition tcpip_tcp_timer (s : timers) : option timers :=
  let s := s <| tenv := tcp_tmr (tenv s) |> in
  if tcp_pcbs_need_timer (tenv s) then sys_timeout TCP_TMR_INTERVAL H_tcpip_tcp_timer 0 s
  else Some (s <| tcpip_tcp_timer_active := false |>).

(** [tcp_timer_needed], with the condition on the pcb lists given. *)
Definition tcp_timer_check (wanted : bool) (s : timers) : option timers :=
  if negb (tcpip_tcp_timer_active s) && wanted then
    sys_timeout TCP_TMR_INTERVAL H_tcpip_tcp_timer 0 (s <| tcpip_tcp_timer_active := true |>)
  else Some s.
Definition tcp_timer_needed (s : timers) : option timers := tcp_timer_check (tcp_pcbs_need_timer (tenv s)) s.

(** Several calls of it, by their conditions. *)
Fixpoint run_timer_calls (l : list bool) (s : timers) : option timers :=
  match l with [] => Some s | b :: l => let? s := tcp_timer_check b s in run_timer_calls l s end.

(** The handler of a cyclic timer, by index. *)
Definition cyclic_handler (i : Z) : env -> env := if i =? 0 then tcp_tmr else ip_reass_tmr.

Definition lwip_cyclic_timer (i : Z) (s : timers) : option timers :=
  let? interval := lwip_cyclic_timers !! Z.to_nat i in
  let s := s <| tenv := cyclic_handler i (tenv s) |> in
  let now := sys_now (tenv s) in
  let next_timeout_time := u32 (current_timeout_due_time s + interval) in
  if TIME_LESS_THAN next_timeout_time now
  then sys_timeout_abs (u32 (now + interval)) H_lwip_cyclic_timer i s
  else sys_timeout_abs next_timeout_time H_lwip_cyclic_timer i s.

(** [for (i = 1; ...)]: every cyclic timer but TCP's. *)
Definition sys_timeouts_init (s : timers) : option timers :=
  sys_timeout IP_TMR_INTERVAL H_lwip_cyclic_timer 1 s.

Fixpoint untimeout (hd : sys_timeout_handler) (a : Z) (l : list sys_timeo) : option (sys_timeo * list sys_timeo) :=
  match l with
  | [] => None
  | t :: l => if bool_decide (h t = hd) && (arg t =? a) then Some (t, l)
              else match untimeout hd a l with Some (x, l) => Some (x, t :: l) | None => None end
  end.

Definition sys_untimeout (hd : sys_timeout_handler) (a : Z) (s : timers) : option timers :=
  match untimeout hd a (next_timeout s) with
  | None => Some s
  | Some (t, l) =>
      let s := s <| next_timeout := l |> in
      let? ps := memp_free MEMP_SYS_TIMEOUT (addr t) (tpools s) in Some (s <| tpools := ps |>)
  end.

Definition run_handler (t : sys_timeo) (s : timers) : option timers :=
  let s := s <| called := called s ++ [t] |> in
  match h t with
  | H_tcpip_tcp_timer => tcpip_tcp_timer s
  | H_lwip_cyclic_timer => lwip_cyclic_timer (arg t) s
  | H_other id => Some (s <| tenv := other_handler id (tenv s) |>)
  end.

(** The [do ... while (1)] loop; the bound is the caller's. *)
Fixpoint check_loop (fuel : nat) (now : Z) (s : timers) : option timers :=
  match fuel with
  | O => None
  | S fuel =>
      let s := s <| tenv := pbuf_check_free_ooseq (tenv s) |> in
      match next_timeout s with
      | [] => Some s
      | t :: rest =>
          if TIME_LESS_THAN now (time t) then Some s
          else
            let s := s <| next_timeout := rest |> <| current_timeout_due_time := time t |> in
            let? ps := memp_free MEMP_SYS_TIMEOUT (addr t) (tpools s) in
            let s := s <| tpools := ps |> in
            let? s := run_handler t s in
            check_loop fuel now s
      end
  end.

Definition sys_check_timeouts (fuel : nat) (s : timers) : option timers := check_loop fuel (sys_now (tenv s)) s.

Definition sys_restart_timeouts (s : timers) : timers :=
  match next_timeout s with
  | [] => s
  | t :: _ =>
      let now := sys_now (tenv s) in
      let base := time t in
      s <| next_timeout := map (fun t => t <| time := u32 (u32 (time t - base) + now) |>) (next_timeout s) |>
  end.

Definition sys_timeouts_sleeptime (s : timers) : option Z :=
  match next_timeout s with
  | [] => Some SYS_TIMEOUTS_SLEEPTIME_INFINITE
  | t :: _ =>
      let now := sys_now (tenv s) in
      if TIME_LESS_THAN (time t) now then Some 0
      else let ret := u32 (time t - now) in assert! (ret <=? LWIP_MAX_TIMEOUT) in Some ret
  end.

(** ** The order of the list

    Times are compared by their distance from a base, which the wrap-around
    comparison gets right while all distances are below 2^31. *)
Definition off (base : Z) (x : Z) : Z := u32 (x - base).
Definition near (base x : Z) : Prop := off base x <= LWIP_MAX_TIMEOUT.

Definition in_order (base : Z) (l : list sys_timeo) : Prop :=
  StronglySorted (fun a b => off base (time a) <= off base (time b)) l /\ Forall (fun t => near base (time t)) l.

Lemma less_than_off base x y : near base x -> near base y -> TIME_LESS_THAN x y = (off base x <? off base y).
Proof.
  unfold near, off, TIME_LESS_THAN, LWIP_MAX_TIMEOUT. intros Hx Hy.
  destruct (Z.ltb_spec 2147483647 (u32 (x - y))), (Z.ltb_spec (u32 (x - base)) (u32 (y - base))); try done; zlia.
Qed.

Lemma insert_after_perm x l : insert_after x l ≡ₚ x :: l.
Proof. induction l as [|t l IH]; [done|]. cbn. case_match; [done|]. rewrite IH. by rewrite Permutation_swap. Qed.

(** Insertion is stable: the new entry goes after those due no later. *)
Lemma insert_after_split base x l : near base (time x) -> in_order base l ->
  exists l1 l2, l = l1 ++ l2 /\ insert_after x l = l1 ++ x :: l2
  /\ Forall (fun t => off base (time t) <= off base (time x)) l1 /\ Forall (fun t => off base (time x) < off base (time t)) l2.
Proof.
  intros Hx [Hs Hn]. induction l as [|t l IH]; cbn [insert_after]; [by exists [], []|].
  apply Forall_cons in Hn as [Ht Hn]. inversion Hs as [|? ? Hs' Hf]; subst. rewrite (less_than_off base) by done.
  destruct (Z.ltb_spec (off base (time x)) (off base (time t))).
  - exists [], (t :: l). split_and!; try done. constructor; [done|]. eapply Forall_impl; [exact Hf|]. cbn. intros y. lia.
  - destruct (IH Hs' Hn) as (l1 & l2 & -> & -> & F1 & F2). exists (t :: l1), l2. split_and!; try done. by constructor.
Qed.

Lemma in_order_insert base l1 x l2 : in_order base (l1 ++ l2) -> near base (time x) ->
  Forall (fun t => off base (time t) <= off base (time x)) l1 -> Forall (fun t => off base (time x) < off base (time t)) l2 ->
  in_order base (l1 ++ x :: l2).
Proof.
  intros [Hs Hn] Hx F1 F2. apply Forall_app in Hn as [N1 N2]. split; [|apply Forall_app; split; [done|by constructor]].
  induction l1 as [|t l1 IH]; cbn in *.
  - constructor; [done|]. eapply Forall_impl; [exact F2|]. cbn. intros y. lia.
  - inversion Hs as [|? ? Hs' Hf]; subst. inversion N1; subst. inversion F1; subst. apply Forall_app in Hf as [Hf1 Hf2]. constructor; [by apply IH|].
    apply Forall_app. split; [done|]. by constructor.
Qed.

(** [sys_timeout_abs] keeps the timer list sorted by due time across the
    wrap of the 32-bit clock (all due times lying within 2^31 ms of a base),
    puts the new timer after those due no later, and fails only when the
    timer pool is empty. *)
Theorem sys_timeout_abs_sorted base abs hd a s p ps :
  near base abs -> in_order base (next_timeout s) -> memp_malloc MEMP_SYS_TIMEOUT (tpools s) = Some (p, ps) -> p <> 0 ->
  exists s' l1 l2, sys_timeout_abs abs hd a s = Some s' /\ next_timeout s = l1 ++ l2
  /\ next_timeout s' = l1 ++ mk_timeo abs hd a p :: l2 /\ in_order base (next_timeout s')
  /\ Forall (fun t => off base (time t) <= off base abs) l1 /\ Forall (fun t => off base abs < off base (time t)) l2.
Proof.
  intros Ha Ho Hm Hp%Z.eqb_neq. unfold sys_timeout_abs. rewrite Hm, Hp. cbn [negb]. set (x := mk_timeo abs hd a p).
  assert (E : match next_timeout s with [] => [x] | t :: l => if TIME_LESS_THAN abs (time t) then x :: t :: l else t :: insert_after x l end
     = insert_after x (next_timeout s)) by (by destruct (next_timeout s)).
  destruct (insert_after_split base x _ Ha Ho) as (l1 & l2 & E1 & E2 & F1 & F2).
  eexists _, l1, l2. split; [done|]. rewrite E1 in Ho. cbn. rewrite E, E2. split_and!; try done. by apply in_order_insert.
Qed.

(** ** Checking *)

(** The due part of the list. *)
Definition is_due (base now : Z) (t : sys_timeo) : bool := off base (time t) <=? off base now.

(** A timer of this program: a cyclic timer carries an index into
    [lwip_cyclic_timers], and its structure is an element of the pool. *)
Definition timer_ok (t : sys_timeo) : Prop :=
  (h t = H_lwip_cyclic_timer -> 0 <= arg t < 2) /\ addr t mod 8 = 0 /\ addr t <> 0.

(** How often the loop can still run a timer: a due cyclic timer is run again
    only when it is re-armed for exactly the present time. *)
Definition weight (base now : Z) (t : sys_timeo) : nat :=
  if is_due base now t then (if off base (time t) =? off base now then 1%nat else 2%nat) else 0%nat.
Definition weights (base now : Z) (l : list sys_timeo) : nat := sum_list_with (weight base now) l.

Lemma weights_insert base now x l : weights base now (insert_after x l) = (weight base now x + weights base now l)%nat.
Proof. unfold weights. by rewrite insert_after_perm. Qed.

Lemma weights_le base now l : (weights base now l <= 2 * length l)%nat.
Proof. unfold weights. induction l as [|t l IH]; cbn; [done|]. unfold weight at 1. repeat case_match; lia. Qed.

Lemma insert_after_head x l :
  match l with [] => [x] | t :: l' => if TIME_LESS_THAN (time x) (time t) then x :: t :: l' else t :: insert_after x l' end = insert_after x l.
Proof. by destruct l. Qed.

Lemma timeout_abs_rearm nxt hd a p ps s :
  tpools s MEMP_SYS_TIMEOUT = p :: ps -> p mod 8 = 0 -> p <> 0 ->
  exists s', sys_timeout_abs nxt hd a s = Some s' /\ next_timeout s' = insert_after (mk_timeo nxt hd a p) (next_timeout s)
  /\ called s' = called s /\ tenv s' = tenv s.
Proof.
  intros E Ha Hp%Z.eqb_neq. unfold sys_timeout_abs, memp_malloc, do_memp_malloc_pool, MEM_ALIGNMENT. rewrite E, Ha. cbn [Z.eqb].
  unfold MEMP_SIZE. rewrite Z.add_0_r, Hp. cbn [negb]. eexists. split; [done|]. split_and!; [|done..].
  exact (insert_after_head (mk_timeo nxt hd a p) (next_timeout s)).
Qed.

(** The clock stands still while a check runs. *)
Definition clock_stops : Prop :=
  (forall e, sys_now (tcp_tmr e) = sys_now e) /\ (forall e, sys_now (ip_reass_tmr e) = sys_now e)
  /\ (forall e, sys_now (pbuf_check_free_ooseq e) = sys_now e) /\ (forall id e, sys_now (other_handler id e) = sys_now e).

(** One due timer: its handler succeeds, for the pool has the structure that
    was just released, and re-arms it no earlier than now or not at all. *)
Lemma run_handler_ok base t s ps :
  clock_stops -> near base (sys_now (tenv s)) -> off base (sys_now (tenv s)) + 1000 <= LWIP_MAX_TIMEOUT ->
  is_u32 (sys_now (tenv s)) -> off base (time t) <= off base (sys_now (tenv s)) -> timer_ok t ->
  current_timeout_due_time s = time t -> tpools s MEMP_SYS_TIMEOUT = addr t :: ps ->
  exists s', run_handler t s = Some s' /\ called s' = called s ++ [t] /\ sys_now (tenv s') = sys_now (tenv s)
  /\ (next_timeout s' = next_timeout s
     \/ exists x, next_timeout s' = insert_after x (next_timeout s) /\ timer_ok x /\ near base (time x)
        /\ off base (sys_now (tenv s)) <= off base (time x)
        /\ (off base (time x) = off base (sys_now (tenv s)) -> off base (time t) < off base (sys_now (tenv s)))).
Proof.
  intros (C1 & C2 & C3 & C4) Hn Hroom Hu Hd (Hc & Hal & Ha0) Hcur Hpool. unfold run_handler.
  destruct t as [tt hh aa ad]. cbn [time h arg addr] in *.
  assert (Hfwd : forall k, 0 < k <= 1000 -> near base (u32 (sys_now (tenv s) + k)) /\ off base (u32 (sys_now (tenv s) + k)) = off base (sys_now (tenv s)) + k).
  { unfold near, off, LWIP_MAX_TIMEOUT in *. intros k Hk. split; zlia. }
  destruct hh as [| |id].
  - unfold tcpip_tcp_timer. cbn [tenv setf]. case_match.
    + unfold sys_timeout. rewrite (proj2 (Z.leb_le _ _)) by (unfold TCP_TMR_INTERVAL; vm_compute; congruence).
      edestruct (timeout_abs_rearm (u32 (sys_now (tcp_tmr (tenv s)) + TCP_TMR_INTERVAL)) H_tcpip_tcp_timer 0 ad ps
        (s <| called := called s ++ [mk_timeo tt H_tcpip_tcp_timer aa ad] |> <| tenv := tcp_tmr (tenv s) |>)) as (s' & E & N & K & T); [done..|].
      exists s'. rewrite K, T. split; [exact E|]. split; [done|]. split; [apply C1|]. right. eexists. split; [exact N|].
      rewrite C1. destruct (Hfwd TCP_TMR_INTERVAL) as [F1 F2]; [unfold TCP_TMR_INTERVAL; lia|]. unfold timer_ok. cbn [time h arg addr].
      unfold TCP_TMR_INTERVAL in *. split_and!; try done; rewrite ?F2; lia.
    + eexists. split; [done|]. split; [done|]. split; [apply C1|]. by left.
  - unfold lwip_cyclic_timer.
    assert (exists iv, lwip_cyclic_timers !! Z.to_nat aa = Some iv /\ 0 < iv <= 1000) as (iv & -> & Hiv).
    { assert (aa = 0 \/ aa = 1) as [-> | ->] by lia; eexists; (split; [done|]); unfold TCP_TMR_INTERVAL, IP_TMR_INTERVAL; lia. }
    set (s1 := (s <| called := _ |>) <| tenv := _ |>).
    assert (Hnow : sys_now (tenv s1) = sys_now (tenv s)) by (unfold s1; cbn; unfold cyclic_handler; case_match; auto).
    rewrite Hnow. change (current_timeout_due_time s1) with (current_timeout_due_time s). rewrite Hcur.
    assert (Hstep : forall nxt, near base nxt -> off base (sys_now (tenv s)) <= off base nxt ->
      (off base nxt = off base (sys_now (tenv s)) -> off base tt < off base (sys_now (tenv s))) ->
      exists s', sys_timeout_abs nxt H_lwip_cyclic_timer aa s1 = Some s' /\ called s' = called s ++ [mk_timeo tt H_lwip_cyclic_timer aa ad]
      /\ sys_now (tenv s') = sys_now (tenv s) /\ (next_timeout s' = next_timeout s \/ exists x, next_timeout s' = insert_after x (next_timeout s) /\ timer_ok x
        /\ near base (time x) /\ off base (sys_now (tenv s)) <= off base (time x)
        /\ (off base (time x) = off base (sys_now (tenv s)) -> off base tt < off base (sys_now (tenv s))))).
    { intros nxt F1 F2 F3. destruct (timeout_abs_rearm nxt H_lwip_cyclic_timer aa ad ps s1) as (s' & E & N & K & T); [done..|].
      exists s'. rewrite K, T. split_and!; [done..|]. right. eexists. split; [exact N|]. by split_and!. }
    destruct (TIME_LESS_THAN (u32 (tt + iv)) (sys_now (tenv s))) eqn:EL; apply Hstep.
    1-3: destruct (Hfwd iv Hiv) as [F1 F2]; rewrite ?F2; try done; lia.
    all: unfold TIME_LESS_THAN, near, off, LWIP_MAX_TIMEOUT in *; bprop; zlia.
  - eexists. split; [done|]. split; [done|]. split; [apply C4|]. by left.
Qed.

Lemma insert_in_order base x l : near base (time x) -> in_order base l -> in_order base (insert_after x l).
Proof. intros Hx Ho. destruct (insert_after_split base x l Hx Ho) as (l1 & l2 & -> & -> & F1 & F2). by apply in_order_insert. Qed.

(** The loop, by induction on what it still has to run. *)
Lemma check_loop_ok base now : clock_stops -> near base now -> off base now + 1000 <= LWIP_MAX_TIMEOUT -> is_u32 now ->
  forall fuel s, sys_now (tenv s) = now -> in_order base (next_timeout s) -> Forall timer_ok (next_timeout s) ->
  (weights base now (next_timeout s) < fuel)%nat ->
  exists s' ran, check_loop fuel now s = Some s' /\ called s' = called s ++ ran
  /\ Forall (fun t => is_due base now t = false) (next_timeout s') /\ in_order base (next_timeout s')
  /\ StronglySorted (fun a b => off base (time a) <= off base (time b)) ran
  /\ filter (fun t => is_due base now t = true) (next_timeout s) ⊆+ ran
  /\ Forall (fun t => is_due base now t = true) ran
  /\ (forall b, b <= off base now -> Forall (fun t => b <= off base (time t)) (next_timeout s) -> Forall (fun t => b <= off base (time t)) ran).
Proof.
  intros Hc Hn Hroom Hu. induction fuel as [|fuel IH]; intros s Hnow Ho Hok Hw; [lia|]. cbn [check_loop].
  set (s0 := s <| tenv := _ |>). change (next_timeout s0) with (next_timeout s).
  destruct (next_timeout s) as [|t l] eqn:El.
  { exists s0, []. rewrite app_nil_r. change (next_timeout s0) with (next_timeout s). rewrite El.
    split_and!; try done; try (by constructor). }
  assert (Hnow0 : sys_now (tenv s0) = now) by (unfold s0; cbn; destruct Hc as (_ & _ & -> & _); done).
  pose proof Ho as [Hs Hnr]. apply StronglySorted_inv in Hs as [Hs' Hf]. apply Forall_cons in Hnr as [Ht Hnr]. apply Forall_cons in Hok as [Htok Hok].
  rewrite (less_than_off base) by done. destruct (Z.ltb_spec (off base now) (off base (time t))) as [Hlt|Hge].
  { assert (Hnd : forall u, u ∈ t :: l -> is_due base now u = false).
    { intros u Hu'. unfold is_due. apply Z.leb_gt. apply elem_of_cons in Hu' as [->|Hu']; [done|]. rewrite Forall_forall in Hf. specialize (Hf u Hu'). cbn in Hf. lia. }
    exists s0, []. rewrite app_nil_r. change (next_timeout s0) with (next_timeout s). rewrite El.
    split_and!; try done; try (by constructor).
    - by apply Forall_forall.
    - enough (filter (fun u => is_due base now u = true) (t :: l) = []) as -> by done.
      apply elem_of_nil_inv. intros u [E Hu']%list_elem_of_filter. by rewrite Hnd in E. }
  set (s1 := (s0 <| next_timeout := l |>) <| current_timeout_due_time := time t |>).
  destruct Htok as (Hcy & Hal & Ha0). pose proof Ha0 as Ha0'%Z.eqb_neq. unfold memp_free, do_memp_free_pool, MEM_ALIGNMENT. rewrite Ha0', Hal. cbn [Z.eqb].
  set (s2 := s1 <| tpools := _ |>).
  destruct (run_handler_ok base t s2 (tpools s1 MEMP_SYS_TIMEOUT)) as (s3 & E3 & K3 & N3 & L3); try done;
    try (change (tenv s2) with (tenv s0); rewrite Hnow0; done).
  { change (tpools s2 MEMP_SYS_TIMEOUT) with (set_tab MEMP_SYS_TIMEOUT ((addr t - MEMP_SIZE) :: tpools s1 MEMP_SYS_TIMEOUT) (tpools s1) MEMP_SYS_TIMEOUT).
    rewrite set_tab_eq. unfold MEMP_SIZE. by rewrite Z.sub_0_r. }
  rewrite E3. change (tenv s2) with (tenv s0) in *. change (next_timeout s2) with l in *. rewrite Hnow0 in *.
  assert (Hdue : is_due base now t = true) by (unfold is_due; apply Z.leb_le; lia).
  assert (Hwt : weights base now (t :: l) = (weight base now t + weights base now l)%nat) by done.
  assert (Hnext : in_order base (next_timeout s3) /\ Forall timer_ok (next_timeout s3) /\ (weights base now (next_timeout s3) < fuel)%nat
    /\ (exists x, next_timeout s3 = l \/ next_timeout s3 ≡ₚ x :: l /\ off base now <= off base (time x))).
  { destruct L3 as [->|(x & -> & Xok & Xn & Xl & Xe)].
    - split_and!; [done..| |exists t; by left]. unfold weight in Hwt. rewrite Hdue in Hwt. case_match; lia.
    - split_and!; [by apply insert_in_order| | |exists x; right; split; [apply insert_after_perm|done]].
      + rewrite insert_after_perm. by constructor.
      + rewrite weights_insert. revert Hwt. unfold weight. rewrite Hdue. unfold is_due.
        destruct (Z.leb_spec (off base (time x)) (off base now)), (Z.eqb_spec (off base (time x)) (off base now)), (Z.eqb_spec (off base (time t)) (off base now)); lia. }
  destruct Hnext as (I1 & I2 & I3 & x & Hx).
  destruct (IH s3) as (s' & ran & R1 & R2 & R3 & R4 & R5 & R6 & R7 & R8); try done.
  exists s', (t :: ran). rewrite R2, K3, <- app_assoc. split_and!; try done.
  - constructor; [done|]. apply R8; [lia|]. destruct Hx as [->|[-> Hx]]; [done|constructor; [lia|done]].
  - rewrite filter_cons_True by done. apply submseteq_skip. transitivity (filter (fun u => is_due base now u = true) (next_timeout s3)); [|done].
    destruct Hx as [->|[-> Hx]]; [done|]. rewrite filter_cons. case_match; [by apply submseteq_cons|done].
  - by constructor.
  - intros b Hb [F1 F2]%Forall_cons. constructor; [done|]. apply R8; [done|]. destruct Hx as [->|[-> Hx]]; [done|constructor; [lia|done]].
Qed.

(** C40: [sys_check_timeouts] terminates without a failed assertion, whatever
    mix of TCP, cyclic and registered timers is pending, within two rounds of
    the list; it runs every timer that was due, in the order of due times, only
    due timers, and leaves a sorted list in which nothing is due any more.  A
    handler can always re-arm its timer: the structure released before the call
    is there for it.  (All due times lie within 2^31 ms of a base, with room
    for one interval after the present; the clock stands still meanwhile.) *)
Theorem check_timeouts_runs_due base s :
  let now := sys_now (tenv s) in
  clock_stops -> off base now + 1000 <= LWIP_MAX_TIMEOUT -> is_u32 now ->
  in_order base (next_timeout s) -> Forall timer_ok (next_timeout s) ->
  exists s' ran, sys_check_timeouts (S (2 * length (next_timeout s))) s = Some s' /\ called s' = called s ++ ran
  /\ filter (fun t => is_due base now t = true) (next_timeout s) ⊆+ ran
  /\ Forall (fun t => is_due base now t = true) ran
  /\ StronglySorted (fun a b => off base (time a) <= off base (time b)) ran
  /\ Forall (fun t => is_due base now t = false) (next_timeout s') /\ in_order base (next_timeout s').
Proof.
  intros now Hc Hroom Hu Ho Hok. unfold sys_check_timeouts. fold now.
  destruct (check_loop_ok base now Hc ltac:(unfold near; lia) Hroom Hu (S (2 * length (next_timeout s))) s)
    as (s' & ran & R1 & R2 & R3 & R4 & R5 & R6 & R7 & R8); try done.
  { pose proof (weights_le base now (next_timeout s)). lia. }
  by exists s', ran.
Qed.

(** a cyclic timer neither drifts nor bursts: called at or after its due
    time, it is next due one interval after that due time, or, if that has
    already passed, one interval from now: in any case not before now and at
    most one interval after it. *)
Theorem cyclic_timer_next i interval s d n p ps :
  lwip_cyclic_timers !! Z.to_nat i = Some interval ->
  current_timeout_due_time s = u32 d -> sys_now (cyclic_handler i (tenv s)) = u32 n -> d <= n < d + 2 ^ 31 - 1000 ->
  next_timeout s = [] -> memp_malloc MEMP_SYS_TIMEOUT (tpools s) = Some (p, ps) -> p <> 0 ->
  exists s' nxt, lwip_cyclic_timer i s = Some s' /\ next_timeout s' = [mk_timeo (u32 nxt) H_lwip_cyclic_timer i p]
  /\ nxt = (if d + interval <? n then n + interval else d + interval) /\ n <= nxt <= n + interval.
Proof.
  intros Hi Hd Hn Hr Hl Hm Hp%Z.eqb_neq. unfold lwip_cyclic_timer. rewrite Hi. cbn [setf tenv].
  assert (Hiv : 250 <= interval <= 1000).
  { unfold lwip_cyclic_timers in Hi. destruct (Z.to_nat i) as [|[|k]]; cbn in Hi; simplify_eq; unfold TCP_TMR_INTERVAL, IP_TMR_INTERVAL; lia. }
  change (tenv (s <| tenv := cyclic_handler i (tenv s) |>)) with (cyclic_handler i (tenv s)).
  change (current_timeout_due_time (s <| tenv := cyclic_handler i (tenv s) |>)) with (current_timeout_due_time s). rewrite Hn, Hd.
  assert (E : TIME_LESS_THAN (u32 (u32 d + interval)) (u32 n) = (d + interval <? n)).
  { unfold TIME_LESS_THAN, LWIP_MAX_TIMEOUT. destruct (Z.ltb_spec 2147483647 (u32 (u32 (u32 d + interval) - u32 n))), (Z.ltb_spec (d + interval) n); try done; zlia. }
  rewrite E. unfold sys_timeout_abs.
  change (tpools (s <| tenv := cyclic_handler i (tenv s) |>)) with (tpools s). rewrite Hm, Hp. cbn [negb].
  change (next_timeout (s <| tenv := cyclic_handler i (tenv s) |> <| tpools := ps |>)) with (next_timeout s). rewrite Hl.
  destruct (Z.ltb_spec (d + interval) n); eexists _, _; (split; [reflexivity|]); (split; [|split; [reflexivity|lia]]); cbn; do 2 f_equal; zlia.
Qed.
End Timeouts.

(** ** A concrete clock and timer list *)

(** An environment that is a clock reading and a count of TCP timer ticks; the
    TCP timer is needed for three ticks. *)
Definition demo_timer_env : TimerEnv := {|
  env := Z * Z; sys_now := fst; tcp_tmr := fun e => (fst e, snd e + 1); tcp_pcbs_need_timer := fun e => snd e <? 3;
  ip_reass_tmr := fun e => e; pbuf_check_free_ooseq := fun e => e; other_handler := fun _ e => e |}.

Definition demo_pools : memp_state := fun t => if decide (t = MEMP_SYS_TIMEOUT) then [800; 864] else [].

(** 25 ms after the clock has wrapped: the TCP timer and the reassembly timer
    are due, the latter from before the wrap; a third one is not. *)
Definition demo_timers : @timers demo_timer_env :=
  @mk_timers demo_timer_env
    [mk_timeo 4294967196 H_lwip_cyclic_timer 1 8; mk_timeo 20 H_tcpip_tcp_timer 0 16; mk_timeo 500 (H_other 7) 0 24] 0 true
    demo_pools (25, 0) [].

Lemma sys_timeout_abs_sorted_witness :
  exists s' l1 l2, @sys_timeout_abs demo_timer_env 20 (H_other 9) 0 demo_timers = Some s'
  /\ next_timeout demo_timers = l1 ++ l2
  /\ next_timeout s' = l1 ++ mk_timeo 20 (H_other 9) 0 800 :: l2 /\ in_order 4294967000 (next_timeout s')
  /\ Forall (fun t => off 4294967000 (time t) <= off 4294967000 20) l1 /\ Forall (fun t => off 4294967000 20 < off 4294967000 (time t)) l2.
Proof.
  eapply (@sys_timeout_abs_sorted demo_timer_env 4294967000 20 (H_other 9) 0 demo_timers 800); [by vm_compute| |reflexivity|lia].
  split; cbn; repeat constructor; by vm_compute.
Defined.

Lemma check_timeouts_runs_due_witness :
  exists s' ran, @sys_check_timeouts demo_timer_env (S (2 * length (next_timeout demo_timers))) demo_timers = Some s'
  /\ called s' = called demo_timers ++ ran
  /\ filter (fun t => is_due 4294967000 25 t = true) (next_timeout demo_timers) ⊆+ ran
  /\ Forall (fun t => is_due 4294967000 25 t = true) ran
  /\ StronglySorted (fun a b => off 4294967000 (time a) <= off 4294967000 (time b)) ran
  /\ Forall (fun t => is_due 4294967000 25 t = false) (next_timeout s') /\ in_order 4294967000 (next_timeout s').
Proof.
  apply (@check_timeouts_runs_due demo_timer_env 4294967000 demo_timers); [done|by vm_compute|by vm_compute| |].
  - split; cbn; repeat constructor; by vm_compute.
  - cbn. repeat constructor; cbn; try lia; try done.
Defined.

(** Called 120 ms late, across the wrap. *)
Lemma cyclic_timer_next_witness :
  exists s' nxt, @lwip_cyclic_timer demo_timer_env 1 (@mk_timers demo_timer_env [] 4294967196 true demo_pools (20, 0) []) = Some s'
  /\ next_timeout s' = [mk_timeo (u32 nxt) H_lwip_cyclic_timer 1 800]
  /\ nxt = (if 4294967196 + IP_TMR_INTERVAL <? 4294967316 then 4294967316 + IP_TMR_INTERVAL else 4294967196 + IP_TMR_INTERVAL)
  /\ 4294967316 <= nxt <= 4294967316 + IP_TMR_INTERVAL.
Proof.
  eapply (@cyclic_timer_next demo_timer_env 1 IP_TMR_INTERVAL (@mk_timers demo_timer_env [] 4294967196 true demo_pools (20, 0) []) 4294967196 4294967316 800);
    first [reflexivity | lia].
Defined.
