(* ===== verification/TcpPcb.v ===== *)
(** * TcpPcb: the data TCP works on, src/Sources/Lwip/src/include/lwip/tcp.h,
    priv/tcp_priv.h and the window functions of core/tcp.c

    The protocol control block, segments, sequence-number arithmetic and the
    receive window.  A segment's buffer is seen as the list of the data parts
    of its pbufs (the header the segment structure points to is kept in its own
    fields, in host byte order); what truncating, dropping from the front and
    concatenating do to these bytes is what the theorems on pbufs say.  The
    features lwipopts.h leaves out (timestamps, SACK, keep-alive options) are
    not compiled and have no fields. *)

From S2P Require Import Prelude Opts.

(** ** Constants *)
Definition TCP_HLEN : Z := 20.
Definition IP_HLEN : Z := 20.
Definition TCP_FIN : Z := 1.
Definition TCP_SYN : Z := 2.
Definition TCP_RST : Z := 4.
Definition TCP_PSH : Z := 8.
Definition TCP_ACK : Z := 16.
Definition TF_ACK_DELAY : Z := 1.
Definition TF_ACK_NOW : Z := 2.
Definition TF_INFR : Z := 4.
Definition TF_CLOSEPEND : Z := 8.
Definition TF_RXCLOSED : Z := 16.
Definition TF_FIN : Z := 32.
Definition TF_NODELAY : Z := 64.
Definition TF_NAGLEMEMERR : Z := 128.
Definition TF_WND_SCALE : Z := 256.
Definition TF_BACKLOGPEND : Z := 512.
Definition TF_RTO : Z := 2048.
Definition TF_RESET : Z := 8.
Definition TF_CLOSED : Z := 16.
Definition TF_GOT_FIN : Z := 32.
Definition TF_SEG_OPTS_MSS : Z := 1.
Definition TF_SEG_OPTS_WND_SCALE : Z := 8.
Definition TCP_WRITE_FLAG_COPY : Z := 1.
Definition TCP_WRITE_FLAG_MORE : Z := 2.
Definition TCP_SNDQUEUELEN_OVERFLOW : Z := 65535 - 3.
Definition TCP_SLOW_INTERVAL : Z := 2 * TCP_TMR_INTERVAL.
Definition INITIAL_MSS : Z := 536.
Definition LWIP_TCP_RTO_TIME : Z := 3000.
Definition TCP_OVERSIZE : Z := TCP_MSS.
Definition NETIF_NO_INDEX : Z := 0.

Inductive tcp_state :=
  | CLOSED | LISTEN | SYN_SENT | SYN_RCVD | ESTABLISHED | FIN_WAIT_1 | FIN_WAIT_2 | CLOSE_WAIT | CLOSING | LAST_ACK | TIME_WAIT.

#[export] Instance tcp_state_eq_dec : EqDecision tcp_state.
Proof. solve_decision. Defined.

(** The number of a state: the code compares states. *)
Definition state_num (s : tcp_state) : Z :=
  match s with
  | CLOSED => 0 | LISTEN => 1 | SYN_SENT => 2 | SYN_RCVD => 3 | ESTABLISHED => 4 | FIN_WAIT_1 => 5 | FIN_WAIT_2 => 6
  | CLOSE_WAIT => 7 | CLOSING => 8 | LAST_ACK => 9 | TIME_WAIT => 10
  end.
Definition state_is (s t : tcp_state) : bool := bool_decide (s = t).

(** ** Sequence numbers *)
Definition TCP_SEQ_LT (a b : Z) : bool := negb (Z.land (u32 (u32 a - u32 b)) 2147483648 =? 0).
Definition TCP_SEQ_LEQ (a b : Z) : bool := negb (TCP_SEQ_LT b a).
Definition TCP_SEQ_GT (a b : Z) : bool := TCP_SEQ_LT b a.
Definition TCP_SEQ_GEQ (a b : Z) : bool := TCP_SEQ_LEQ b a.
Definition TCP_SEQ_BETWEEN (a b c : Z) : bool := TCP_SEQ_GEQ a b && TCP_SEQ_LEQ a c.

(** ** Buffers *)
Definition chain := list (list Z).
Definition cbytes (c : chain) : list Z := concat c.
Definition tot_len (c : chain) : Z := lenz (cbytes c).

(** [pbuf_realloc]: the buffer that holds the last byte is cut, the ones after
    it are released. *)
Fixpoint ctrunc (n : Z) (c : chain) : chain :=
  match c with
  | [] => []
  | q :: c => if n <=? lenz q then [takez n q] else q :: ctrunc (n - lenz q) c
  end.

Definition pbuf_realloc (c : chain) (n : Z) : chain := if tot_len c <=? n then c else ctrunc n c.

(** The front trimming of [tcp_receive]: buffers before the offset are emptied,
    the one it falls into loses a header of that size. *)
Fixpoint cdrop (off : Z) (c : chain) : chain :=
  match c with
  | [] => []
  | q :: c => if lenz q <? off then [] :: cdrop (off - lenz q) c else dropz off q :: c
  end.

(** ** Segments *)
Record tcp_seg := mk_seg {
  s_p : chain; s_len : Z; s_oversize_left : Z; s_flags : Z;
  h_seqno : Z; h_ackno : Z; h_flags : Z; h_wnd : Z;
  (** references to the first pbuf *)
  s_ref : Z }.
#[export] Instance eta_seg : Eta tcp_seg := fun s =>
  mk_seg (s_p s) (s_len s) (s_oversize_left s) (s_flags s) (h_seqno s) (h_ackno s) (h_flags s) (h_wnd s) (s_ref s).

Definition TCP_TCPLEN (s : tcp_seg) : Z := s_len s + (if flag_set (h_flags s) (Z.lor TCP_FIN TCP_SYN) then 1 else 0).

(** ** The protocol control block *)
Record tcp_pcb := mk_pcb {
  local_ip : Z; remote_ip : Z; netif_idx : Z; so_options : Z; tos : Z; ttl : Z;
  state : tcp_state; prio : Z; local_port : Z; remote_port : Z; flags : Z;
  polltmr : Z; pollinterval : Z; last_timer : Z; tmr : Z;
  rcv_nxt : Z; rcv_wnd : Z; rcv_ann_wnd : Z; rcv_ann_right_edge : Z;
  rtime : Z; mss : Z; rttest : Z; rtseq : Z; sa : Z; sv : Z; rto : Z; nrtx : Z; dupacks : Z; lastack : Z;
  cwnd : Z; ssthresh : Z; rto_end : Z;
  snd_nxt : Z; snd_wl1 : Z; snd_wl2 : Z; snd_lbb : Z; snd_wnd : Z; snd_wnd_max : Z;
  snd_buf : Z; snd_queuelen : Z; unsent_oversize : Z; bytes_acked : Z;
  unsent : list tcp_seg; unacked : list tcp_seg; ooseq : list tcp_seg; refused_data : option chain;
  keep_idle : Z; persist_cnt : Z; persist_backoff : Z; persist_probe : Z; keep_cnt_sent : Z;
  snd_scale : Z; rcv_scale : Z }.
#[export] Instance eta_pcb : Eta tcp_pcb := fun p =>
  mk_pcb (local_ip p) (remote_ip p) (netif_idx p) (so_options p) (tos p) (ttl p)
    (state p) (prio p) (local_port p) (remote_port p) (flags p) (polltmr p) (pollinterval p) (last_timer p) (tmr p)
    (rcv_nxt p) (rcv_wnd p) (rcv_ann_wnd p) (rcv_ann_right_edge p)
    (rtime p) (mss p) (rttest p) (rtseq p) (sa p) (sv p) (rto p) (nrtx p) (dupacks p) (lastack p)
    (cwnd p) (ssthresh p) (rto_end p)
    (snd_nxt p) (snd_wl1 p) (snd_wl2 p) (snd_lbb p) (snd_wnd p) (snd_wnd_max p)
    (snd_buf p) (snd_queuelen p) (unsent_oversize p) (bytes_acked p)
    (unsent p) (unacked p) (ooseq p) (refused_data p)
    (keep_idle p) (persist_cnt p) (persist_backoff p) (persist_probe p) (keep_cnt_sent p) (snd_scale p) (rcv_scale p).

Definition tcp_set_flags (f : Z) (p : tcp_pcb) : tcp_pcb := p <| flags := u16 (Z.lor (flags p) f) |>.
Definition tcp_clear_flags (f : Z) (p : tcp_pcb) : tcp_pcb := p <| flags := Z.land (flags p) (Z.land (Z.lnot f) 65535) |>.
Definition tcp_ack_now (p : tcp_pcb) : tcp_pcb := tcp_set_flags TF_ACK_NOW p.
Definition tcp_ack (p : tcp_pcb) : tcp_pcb :=
  if flag_set (flags p) TF_ACK_DELAY then tcp_ack_now (tcp_clear_flags TF_ACK_DELAY p) else tcp_set_flags TF_ACK_DELAY p.

Section Windows.
Context {o : Opts}.

(** [tcpwnd_size_t] *)
Definition tcpwnd (z : Z) : Z := if LWIP_WND_SCALE then u32 z else u16 z.
Definition TCPWND_MIN16 (x : Z) : Z := if LWIP_WND_SCALE then u16 (Z.min x 65535) else x.
Definition TCP_WND_MAX (p : tcp_pcb) : Z :=
  if LWIP_WND_SCALE then (if flag_set (flags p) TF_WND_SCALE then u32 TCP_WND else u16 (Z.min TCP_WND 65535)) else TCP_WND.
Definition RCV_WND_SCALE (p : tcp_pcb) (wnd : Z) : Z := if LWIP_WND_SCALE then Z.shiftr wnd (rcv_scale p) else wnd.
(** the header's window is an [int] when shifted *)
Definition SND_WND_SCALE (p : tcp_pcb) (wnd : Z) : Z := if LWIP_WND_SCALE then u32 (Z.shiftl wnd (snd_scale p)) else wnd.
Definition TCP_WND_INC (wnd inc : Z) : Z := if wnd <=? tcpwnd (wnd + inc) then tcpwnd (wnd + inc) else tcpwnd (-1).
Definition TCP_WND_UPDATE_THRESHOLD : Z := Z.min (TCP_WND / 4) (TCP_MSS * 4).

(** Returns how far the right edge would move. *)
Definition tcp_update_rcv_ann_wnd (p : tcp_pcb) : option (Z * tcp_pcb) :=
  let new_right_edge := u32 (rcv_nxt p + rcv_wnd p) in
  if TCP_SEQ_GEQ new_right_edge (rcv_ann_right_edge p + Z.min (TCP_WND / 2) (mss p)) then
    Some (u32 (new_right_edge - rcv_ann_right_edge p), p <| rcv_ann_wnd := rcv_wnd p |>)
  else if TCP_SEQ_GT (rcv_nxt p) (rcv_ann_right_edge p) then
    Some (0, p <| rcv_ann_wnd := 0 |>)
  else
    let new_rcv_ann_wnd := u32 (rcv_ann_right_edge p - rcv_nxt p) in
    assert! (LWIP_WND_SCALE || (new_rcv_ann_wnd <=? 65535)) in
    Some (0, p <| rcv_ann_wnd := tcpwnd new_rcv_ann_wnd |>).

(** The window part of [tcp_recved]; the boolean tells whether an update is to
    be sent ([tcp_recved] itself is in TcpOut). *)
Definition recved_window (len : Z) (p : tcp_pcb) : option (bool * tcp_pcb) :=
  assert! (negb (state_is (state p) LISTEN)) in
  let w := tcpwnd (rcv_wnd p + len) in
  let p := p <| rcv_wnd := if (TCP_WND_MAX p <? w) || (w <? rcv_wnd p) then TCP_WND_MAX p else w |> in
  let? (wnd_inflation, p) := tcp_update_rcv_ann_wnd p in
  Some (TCP_WND_UPDATE_THRESHOLD <=? wnd_inflation, p).
End Windows.
