(* ===== verification/TcpOut.v ===== *)
(** * TcpOut: sending, src/Sources/Lwip/src/core/tcp_out.c

    Every function of tcp_out.c that is compiled (no timestamps, no SACK, no
    checksum on copy), on one pcb.  What lies outside is seen as follows: each
    allocation of a segment or pbuf succeeds or fails as the next element of
    [allocs] says, each [ip_output_if] returns the next element of [ipres],
    and the packets handed to IP are recorded in [wire]; routing is the
    interface [IpLayer].  [tcp_write] is the copying case, the only one the
    program uses; the other one is in TcpWriteRef. *)

From S2P Require Import Prelude Ip4Addr Opts Mem TcpPcb.

(** What TCP uses of interfaces and routing. *)
Class IpLayer := {
  netif : Type;
  ip_route : Z -> Z -> option netif;
  netif_get_by_index : Z -> option netif;
  netif_mtu : netif -> Z;
  netif_ip_addr4 : netif -> Z;
  netif_get_index : netif -> Z;
  (** address, mask and flags, as the broadcast test sees them *)
  netif_cfg : netif -> netif_addr;
}.

(** A packet handed to [ip_output_if]. *)
Record packet := mk_packet {
  pk_src : Z; pk_dst : Z; pk_sport : Z; pk_dport : Z; pk_seqno : Z; pk_ackno : Z; pk_flags : Z; pk_wnd : Z;
  pk_opts : list Z; pk_data : list Z; pk_ttl : Z; pk_tos : Z }.

Record tcp_st := mk_st {
  pcb : tcp_pcb;
  tcp_ticks : Z;
  (** [tcp_input_pcb == pcb] *)
  is_input_pcb : bool;
  allocs : list bool;
  ipres : list err_t;
  wire : list packet }.
#[export] Instance eta_st : Eta tcp_st := fun s =>
  mk_st (pcb s) (tcp_ticks s) (is_input_pcb s) (allocs s) (ipres s) (wire s).

(** An update of the pcb. *)
Definition updp (f : tcp_pcb -> tcp_pcb) (s : tcp_st) : tcp_st := s <| pcb := f (pcb s) |>.

(** An allocation: does it succeed? *)
Definition alloc (s : tcp_st) : bool * tcp_st :=
  match allocs s with b :: l => (b, s <| allocs := l |>) | [] => (false, s) end.

Definition ip_output_if (k : packet) (s : tcp_st) : err_t * tcp_st :=
  let s := s <| wire := wire s ++ [k] |> in
  match ipres s with e :: l => (e, s <| ipres := l |>) | [] => (ERR_OK, s) end.

(** Big-endian bytes of a 16-bit value. *)
Definition be16 (z : Z) : list Z := [z / 256; z mod 256].

Section TcpOut.
Context {o : Opts} {ip : IpLayer}.

Definition LWIP_TCP_OPT_LENGTH (f : Z) : Z :=
  (if flag_set f TF_SEG_OPTS_MSS then 4 else 0) + (if LWIP_WND_SCALE && flag_set f TF_SEG_OPTS_WND_SCALE then 4 else 0).

Definition tcp_route (p : option tcp_pcb) (src dst : Z) : option netif :=
  match p with
  | Some p => if negb (netif_idx p =? NETIF_NO_INDEX) then netif_get_by_index (netif_idx p) else ip_route src dst
  | None => ip_route src dst
  end.

Definition tcp_eff_send_mss_netif (sendmss : Z) (outif : option netif) : Z :=
  match outif with
  | None => sendmss
  | Some n =>
      let mtu := netif_mtu n in
      if negb (mtu =? 0) then Z.min sendmss (if IP_HLEN + TCP_HLEN <? mtu then u16 (mtu - (IP_HLEN + TCP_HLEN)) else 0)
      else sendmss
  end.

(** [tcp_create_segment]; the buffer was allocated with room for the header. *)
Definition tcp_create_segment (p : chain) (hdrflags seqno optflags : Z) (s : tcp_st) : option tcp_seg * tcp_st :=
  let (ok, s) := alloc s in
  if ok then (Some (mk_seg p (tot_len p) 0 optflags (u32 seqno) 0 hdrflags 0 1), s) else (None, s).

(** The size of the buffer and the oversize, if the allocation succeeds. *)
Definition tcp_pbuf_prealloc (length max_length apiflags : Z) (first_seg : bool) (s : tcp_st) : option Z * tcp_st :=
  let p := pcb s in
  let alc :=
    if length <? max_length then
      if flag_set apiflags TCP_WRITE_FLAG_MORE
         || (negb (flag_set (flags p) TF_NODELAY) && (negb first_seg || negb (bool_decide (unsent p = [])) || negb (bool_decide (unacked p = []))))
      then Z.min max_length (LWIP_MEM_ALIGN_SIZE (length + TCP_OVERSIZE))
      else length
    else length in
  let (ok, s) := alloc s in
  if ok then (Some (u16 (alc - length)), s) else (None, s).

Definition tcp_write_checks (len : Z) (s : tcp_st) : option (err_t * tcp_st) :=
  let p := pcb s in
  if negb (state_is (state p) ESTABLISHED) && negb (state_is (state p) CLOSE_WAIT)
     && negb (state_is (state p) SYN_SENT) && negb (state_is (state p) SYN_RCVD)
  then Some (ERR_CONN, s)
  else if len =? 0 then Some (ERR_OK, s)
  else if snd_buf p <? len then Some (ERR_MEM, updp (tcp_set_flags TF_NAGLEMEMERR) s)
  else if Z.min TCP_SND_QUEUELEN (TCP_SNDQUEUELEN_OVERFLOW + 1) <=? snd_queuelen p
  then Some (ERR_MEM, updp (tcp_set_flags TF_NAGLEMEMERR) s)
  else if negb (snd_queuelen p =? 0) then
    assert! (negb (bool_decide (unacked p = [])) || negb (bool_decide (unsent p = []))) in Some (ERR_OK, s)
  else
    assert! (bool_decide (unacked p = []) && bool_decide (unsent p = [])) in Some (ERR_OK, s).

(** ** Phase 3 of [tcp_write]

    Each round counts the new pbuf, and the loop ends when the queue gets longer
    than [qlimit], so it has at most [qroom] rounds, whatever the segment size. *)
Definition qlimit : Z := Z.min TCP_SND_QUEUELEN TCP_SNDQUEUELEN_OVERFLOW.
Definition qroom (queuelen : Z) : nat :=
  if bool_decide (0 <= queuelen <= qlimit) then Z.to_nat (qlimit + 1 - queuelen) else Z.to_nat (qlimit + 2).

Lemma qroom_step q n : ~ qlimit < u16 (q + 1) -> (qroom q < S n)%nat -> (qroom (u16 (q + 1)) < n)%nat.
Proof.
  intros H1 H2. unfold qroom in *. assert (qlimit <= 65532) by (unfold qlimit, TCP_SNDQUEUELEN_OVERFLOW; lia).
  unfold u16 in *. pose proof (Z.mod_pos_bound (q + 1) 65536 ltac:(lia)). rewrite (bool_decide_eq_true_2 (0 <= (q + 1) mod 65536 <= qlimit)) by lia.
  case_bool_decide; [rewrite Z.mod_small in * by lia|]; lia.
Qed.

(** New segments for the rest of the data; [None] as the queue stands for [goto
    memerr].  The recursion is on a bound of the rounds that are left. *)
Fixpoint write_loop (rounds : nat) (arg : list Z) (pos mss_local oversize queuelen apiflags : Z) (queue : list tcp_seg) (s : tcp_st)
  : (qroom queuelen < rounds)%nat -> option (list tcp_seg * Z * Z) * tcp_st :=
  match rounds with
  | O => fun H => match Nat.nlt_0_r _ H with end
  | S rounds => fun H =>
      let len := lenz arg in
      if pos <? len then
        let left := len - pos in
        let max_len := mss_local in
        let seglen := Z.min left max_len in
        let (ov, s) := tcp_pbuf_prealloc seglen mss_local apiflags (bool_decide (queue = [])) s in
        match ov with
        | None => (None, s)
        | Some oversize =>
            match decide (qlimit < u16 (queuelen + 1)) with
            | left _ => (None, s)
            | right Hq =>
                let (seg, s) := tcp_create_segment [takez seglen (dropz pos arg)] 0 (snd_lbb (pcb s) + pos) 0 s in
                match seg with
                | None => (None, s)
                | Some seg =>
                    write_loop rounds arg (pos + seglen) mss_local oversize (u16 (queuelen + 1)) apiflags
                      (queue ++ [seg <| s_oversize_left := oversize |>]) s (qroom_step queuelen rounds Hq H)
                end
            end
        end
      else (Some (queue, oversize, queuelen), s)
  end.

(** Append to the last pbuf of a chain. *)
Fixpoint cappend (c : chain) (d : list Z) : chain :=
  match c with
  | [] => []
  | [q] => [q ++ d]
  | q :: c => q :: cappend c d
  end.

Definition write_memerr (s : tcp_st) : option (err_t * tcp_st) :=
  let s := updp (tcp_set_flags TF_NAGLEMEMERR) s in
  assert! ((snd_queuelen (pcb s) =? 0) || negb (bool_decide (unacked (pcb s) = [])) || negb (bool_decide (unsent (pcb s) = []))) in
  Some (ERR_MEM, s).

(** Set the PSH flag on the last segment that holds data of this write. *)
Definition set_psh (x : tcp_seg) : tcp_seg := x <| h_flags := Z.lor (h_flags x) TCP_PSH |>.
Fixpoint psh_last (l : list tcp_seg) : list tcp_seg :=
  match l with [] => [] | [x] => [set_psh x] | x :: l => x :: psh_last l end.

(** What phases 1 and 2 of [tcp_write] decide about the last unsent segment:
    bytes for its spare room, bytes for a buffer concatenated to it (with the
    spare room of that buffer), and whether it is to carry PSH. *)
Record tail_use := mk_tail { oversize_used : Z; concat_p : option (list Z); oversize_add : Z; touches_last : bool }.

(** Phases 1 and 2: the last unsent segment.  [None] inside stands for [goto
    memerr]; otherwise the use made of that segment, the spare room, the pbuf
    count and the position reached in the data. *)
Definition write_tail (arg : list Z) (mss_local apiflags : Z) (s : tcp_st) : option (option (tail_use * Z * Z * Z) * tcp_st) :=
  let len := lenz arg in
  let p := pcb s in
  match last (unsent p) with
  | Some last_unsent =>
      let unsent_optlen := LWIP_TCP_OPT_LENGTH (s_flags last_unsent) in
      assert! (s_len last_unsent + unsent_optlen <=? mss_local) in
      let space := mss_local - (s_len last_unsent + unsent_optlen) in
      assert! (unsent_oversize p =? s_oversize_left last_unsent) in
      let oversize := unsent_oversize p in
      assert! ((oversize =? 0) || (oversize <=? space)) in
      let used := if 0 <? oversize then Z.min space (Z.min oversize len) else 0 in
      let pos := used in
      let oversize' := oversize - used in
      let space := space - used in
      assert! ((oversize' =? 0) || (pos =? len)) in
      if (pos <? len) && (0 <? space) && (0 <? s_len last_unsent) then
        let seglen := Z.min space (len - pos) in
        let (ov, s) := tcp_pbuf_prealloc seglen space apiflags true s in
        match ov with
        | None => Some (None, s)
        | Some ov =>
            Some (Some (mk_tail used (Some (takez seglen (dropz pos arg))) ov true, ov, u16 (snd_queuelen p + 1), pos + seglen), s)
        end
      else Some (Some (mk_tail used None 0 (0 <? oversize), oversize', snd_queuelen p, pos), s)
  | None =>
      assert! (unsent_oversize p =? 0) in
      Some (Some (mk_tail 0 None 0 false, 0, snd_queuelen p, 0), s)
  end.

(** What happens to the last unsent segment once nothing can fail any more. *)
Definition extend_last (arg : list Z) (t : tail_use) (x : tcp_seg) : option tcp_seg :=
  let x := x <| s_oversize_left := u16 (s_oversize_left x + oversize_add t) |> in
  let? x :=
    (if 0 <? oversize_used t then
       assert! (oversize_used t <=? s_oversize_left x) in
       Some (x <| s_p := cappend (s_p x) (takez (oversize_used t) arg) |> <| s_len := u16 (s_len x + oversize_used t) |>
               <| s_oversize_left := s_oversize_left x - oversize_used t |>)
     else Some x) in
  Some (match concat_p t with
        | Some d => x <| s_p := s_p x ++ [d] |> <| s_len := u16 (s_len x + lenz d) |>
        | None => x
        end).

(** Everything is allocated: change the pcb.  [old] is the queue of unsent
    segments with its last one extended, [touched] tells whether data went there. *)
Definition commit_queue (arg : list Z) (apiflags : Z) (touched : bool) (old queue : list tcp_seg) (oversize queuelen : Z) (s : tcp_st)
  : option (err_t * tcp_st) :=
  let p := pcb s in
  let more := flag_set apiflags TCP_WRITE_FLAG_MORE in
  let l :=
    if more then old ++ queue
    else if bool_decide (queue = []) then (if touched then psh_last old else old)
    else old ++ psh_last queue in
  let len := lenz arg in
  let p := p <| unsent_oversize := oversize |> <| unsent := l |>
             <| snd_lbb := u32 (snd_lbb p + len) |> <| snd_buf := tcpwnd (snd_buf p - len) |> <| snd_queuelen := queuelen |> in
  assert! ((snd_queuelen p =? 0) || negb (bool_decide (unacked p = [])) || negb (bool_decide (unsent p = []))) in
  Some (ERR_OK, s <| pcb := p |>).

Definition write_commit (arg : list Z) (apiflags : Z) (t : tail_use) (queue : list tcp_seg) (oversize queuelen : Z) (s : tcp_st)
  : option (err_t * tcp_st) :=
  let? old :=
    match last (unsent (pcb s)) with
    | None => Some []
    | Some x => let? x := extend_last arg t x in Some (removelast (unsent (pcb s)) ++ [x])
    end in
  commit_queue arg apiflags (touches_last t) old queue oversize queuelen s.

Definition tcp_write (arg : list Z) (apiflags : Z) (s : tcp_st) : option (err_t * tcp_st) :=
  let len := lenz arg in
  let p := pcb s in
  let mss_local := Z.min (mss p) (TCPWND_MIN16 (snd_wnd_max p / 2)) in
  let mss_local := if mss_local =? 0 then mss p else mss_local in
  let? (err, s) := tcp_write_checks len s in
  if negb (err_ok err) then Some (err, s)
  else
    let? (r, s) := write_tail arg mss_local apiflags s in
    match r with
    | None => write_memerr s
    | Some (t, oversize, queuelen, pos) =>
        let (q, s) := write_loop (S (qroom queuelen)) arg pos mss_local oversize queuelen apiflags [] s (Nat.lt_succ_diag_r _) in
        match q with
        | None => write_memerr s
        | Some (queue, oversize, queuelen) => write_commit arg apiflags t queue oversize queuelen s
        end
    end.

(** [split_flags]/[remainder_flags]: the flags the code means the two parts to
    have; [TCPH_SET_FLAG] then ORs the first into the header it came from. *)
Definition tcp_split_unsent_seg (split : Z) (s : tcp_st) : option (err_t * tcp_st) :=
  match unsent (pcb s) with
  | [] => Some (ERR_MEM, s)
  | useg :: rest =>
      assert! (negb (split =? 0)) in
      if s_len useg <=? split then Some (ERR_OK, s)
      else
        assert! (split <=? mss (pcb s)) in
        assert! (0 <? s_len useg) in
        let optflags := s_flags useg in
        let remainder := s_len useg - split in
        let (ok, s) := alloc s in
        if negb ok then Some (ERR_MEM, s)
        else
          let data := takez remainder (dropz (tot_len (s_p useg) - s_len useg + split) (cbytes (s_p useg))) in
          if negb (lenz data =? remainder) then Some (ERR_MEM, s)
          else
            let split_flags := h_flags useg in
            let remainder_flags := Z.lor (Z.land split_flags TCP_PSH) (Z.land split_flags TCP_FIN) in
            let split_flags := Z.land split_flags (Z.lnot (Z.lor TCP_PSH TCP_FIN)) in
            let (seg, s) := tcp_create_segment [data] remainder_flags (h_seqno useg + split) optflags s in
            match seg with
            | None => Some (ERR_MEM, s)
            | Some seg =>
                let p := pcb s in
                let qlen := u16 (snd_queuelen p - lenz (s_p useg)) in
                let useg := useg <| s_p := pbuf_realloc (s_p useg) (tot_len (s_p useg) - remainder) |> <| s_len := s_len useg - remainder |>
                                 <| h_flags := Z.lor (h_flags useg) split_flags |> <| s_oversize_left := 0 |> in
                let qlen := u16 (qlen + lenz (s_p useg)) in
                let qlen := u16 (qlen + lenz (s_p seg)) in
                let p := p <| snd_queuelen := qlen |> <| unsent := useg :: seg :: rest |> in
                let p := if bool_decide (rest = []) then p <| unsent_oversize := 0 |> else p in
                Some (ERR_OK, s <| pcb := p |>)
            end
  end.

Definition tcp_enqueue_flags (fl : Z) (s : tcp_st) : option (err_t * tcp_st) :=
  assert! (flag_set fl (Z.lor TCP_SYN TCP_FIN)) in
  let optflags :=
    if flag_set fl TCP_SYN then
      Z.lor TF_SEG_OPTS_MSS
        (if LWIP_WND_SCALE && (negb (state_is (state (pcb s)) SYN_RCVD) || flag_set (flags (pcb s)) TF_WND_SCALE) then TF_SEG_OPTS_WND_SCALE else 0)
    else 0 in
  let (ok, s) := alloc s in
  if negb ok then Some (ERR_MEM, updp (tcp_set_flags TF_NAGLEMEMERR) s)
  else
    let (seg, s) := tcp_create_segment [[]] fl (snd_lbb (pcb s)) optflags s in
    match seg with
    | None => Some (ERR_MEM, updp (tcp_set_flags TF_NAGLEMEMERR) s)
    | Some seg =>
        assert! (s_len seg =? 0) in
        let p := pcb s in
        let p := p <| unsent := unsent p ++ [seg] |> <| unsent_oversize := 0 |> <| snd_lbb := u32 (snd_lbb p + 1) |> in
        let p := if flag_set fl TCP_FIN then tcp_set_flags TF_FIN p else p in
        let p := p <| snd_queuelen := u16 (snd_queuelen p + lenz (s_p seg)) |> in
        assert! ((snd_queuelen p =? 0) || negb (bool_decide (unacked p = [])) || negb (bool_decide (unsent p = []))) in
        Some (ERR_OK, s <| pcb := p |>)
    end.

Definition tcp_send_fin (s : tcp_st) : option (err_t * tcp_st) :=
  match last (unsent (pcb s)) with
  | Some x =>
      if negb (flag_set (h_flags x) (Z.lor TCP_SYN (Z.lor TCP_FIN TCP_RST))) then
        let x := x <| h_flags := Z.lor (h_flags x) TCP_FIN |> in
        Some (ERR_OK, updp (tcp_set_flags TF_FIN) (updp (fun p => p <| unsent := removelast (unsent p) ++ [x] |>) s))
      else tcp_enqueue_flags TCP_FIN s
  | None => tcp_enqueue_flags TCP_FIN s
  end.

(** ** Control segments *)

(** [tcp_output_control_segment] on a header already filled in. *)
Definition tcp_output_control_segment (p : option tcp_pcb) (k : packet) (s : tcp_st) : err_t * tcp_st :=
  match tcp_route p (pk_src k) (pk_dst k) with
  | None => (ERR_RTE, s)
  | Some _ => ip_output_if k s
  end.

(** [tcp_output_alloc_header] with the packet it fills in. *)
Definition tcp_output_alloc_header (fl : Z) (data : list Z) (seqno : Z) (s : tcp_st) : option packet * tcp_st :=
  let p := pcb s in
  let (ok, s) := alloc s in
  if ok then
    (Some (mk_packet (local_ip p) (remote_ip p) (local_port p) (remote_port p) (u32 seqno) (rcv_nxt p) fl
             (u16 (TCPWND_MIN16 (RCV_WND_SCALE p (rcv_ann_wnd p)))) [] data (ttl p) (tos p)),
     updp (fun p => p <| rcv_ann_right_edge := u32 (rcv_nxt p + rcv_ann_wnd p) |>) s)
  else (None, s).

Definition tcp_send_empty_ack (s : tcp_st) : err_t * tcp_st :=
  let (k, s) := tcp_output_alloc_header TCP_ACK [] (snd_nxt (pcb s)) s in
  match k with
  | None => (ERR_BUF, updp (tcp_set_flags (Z.lor TF_ACK_DELAY TF_ACK_NOW)) s)
  | Some k =>
      let (err, s) := tcp_output_control_segment (Some (pcb s)) k s in
      if negb (err_ok err) then (err, updp (tcp_set_flags (Z.lor TF_ACK_DELAY TF_ACK_NOW)) s)
      else (err, updp (tcp_clear_flags (Z.lor TF_ACK_DELAY TF_ACK_NOW)) s)
  end.

Definition tcp_keepalive (s : tcp_st) : err_t * tcp_st :=
  let (k, s) := tcp_output_alloc_header TCP_ACK [] (snd_nxt (pcb s) - 1) s in
  match k with
  | None => (ERR_MEM, s)
  | Some k => tcp_output_control_segment (Some (pcb s)) k s
  end.

Definition tcp_zero_window_probe (s : tcp_st) : err_t * tcp_st :=
  match unsent (pcb s) with
  | [] => (ERR_OK, s)
  | seg :: _ =>
      let s := updp (fun p => p <| persist_probe := if persist_probe p <? 255 then persist_probe p + 1 else persist_probe p |>) s in
      let is_fin := flag_set (h_flags seg) TCP_FIN && (s_len seg =? 0) in
      let data := if is_fin then [] else takez 1 (dropz (tot_len (s_p seg) - s_len seg) (cbytes (s_p seg))) in
      let (k, s) := tcp_output_alloc_header (if is_fin then Z.lor TCP_ACK TCP_FIN else TCP_ACK) data (h_seqno seg) s in
      match k with
      | None => (ERR_MEM, s)
      | Some k =>
          let nxt := u32 (h_seqno seg + 1) in
          let s := updp (fun p => p <| snd_nxt := if TCP_SEQ_LT (snd_nxt p) nxt then nxt else snd_nxt p |>) s in
          tcp_output_control_segment (Some (pcb s)) k s
      end
  end.

(** [PP_HTONS]: the window of a reset is swapped here and again when the header
    is filled in. *)
Definition swap16 (z : Z) : Z := u16 (z mod 256 * 256 + z / 256 mod 256).

Definition tcp_rst (p : option tcp_pcb) (seqno ackno local_ip remote_ip local_port remote_port : Z) (s : tcp_st) : tcp_st :=
  let wnd := swap16 (if LWIP_WND_SCALE then Z.land (Z.shiftr TCP_WND TCP_RCV_SCALE) 65535 else TCP_WND) in
  let (ok, s) := alloc s in
  if ok then
    snd (tcp_output_control_segment p
           (mk_packet local_ip remote_ip local_port remote_port (u32 seqno) (u32 ackno) (Z.lor TCP_RST TCP_ACK) wnd [] []
              (match p with Some p => ttl p | None => TCP_TTL end) (match p with Some p => tos p | None => 0 end)) s)
  else s.

(** ** Output *)
Definition tcp_do_output_nagle (p : tcp_pcb) : bool :=
  bool_decide (unacked p = []) || flag_set (flags p) (Z.lor TF_NODELAY TF_INFR)
  || match unsent p with [] => false | x :: l => negb (bool_decide (l = [])) || (mss p <=? s_len x) end
  || (snd_buf p =? 0) || (TCP_SND_QUEUELEN <=? snd_queuelen p).

(** The lower layers still hold the segment. *)
Definition tcp_output_segment_busy (x : tcp_seg) : bool := negb (s_ref x =? 1).

Definition seg_opts (x : tcp_seg) (n : netif) : list Z :=
  (if flag_set (s_flags x) TF_SEG_OPTS_MSS then [2; 4] ++ be16 (tcp_eff_send_mss_netif TCP_MSS (Some n)) else [])
  ++ (if LWIP_WND_SCALE && flag_set (s_flags x) TF_SEG_OPTS_WND_SCALE then [1; 3; 3; TCP_RCV_SCALE] else []).

(** Sends the segment and returns it with its header filled in. *)
Definition tcp_output_segment (x : tcp_seg) (n : netif) (s : tcp_st) : option (err_t * tcp_seg * tcp_st) :=
  if tcp_output_segment_busy x then Some (ERR_OK, x, s)
  else
    let p := pcb s in
    let w := if LWIP_WND_SCALE && flag_set (s_flags x) TF_SEG_OPTS_WND_SCALE then TCPWND_MIN16 (rcv_ann_wnd p)
             else TCPWND_MIN16 (RCV_WND_SCALE p (rcv_ann_wnd p)) in
    let x := x <| h_ackno := rcv_nxt p |> <| h_wnd := u16 w |> in
    let p := p <| rcv_ann_right_edge := u32 (rcv_nxt p + rcv_ann_wnd p) |> in
    let p := p <| rtime := if rtime p <? 0 then 0 else rtime p |> in
    let p := if rttest p =? 0 then p <| rttest := tcp_ticks s |> <| rtseq := h_seqno x |> else p in
    assert! (lenz (seg_opts x n) =? LWIP_TCP_OPT_LENGTH (s_flags x)) in
    let k := mk_packet (local_ip p) (remote_ip p) (local_port p) (remote_port p) (h_seqno x) (h_ackno x) (h_flags x) (h_wnd x)
               (seg_opts x n) (cbytes (s_p x)) (ttl p) (tos p) in
    let (err, s) := ip_output_if k (s <| pcb := p |>) in
    Some (err, x, s).

(** The insertion of a segment by sequence number into a queue. *)
Fixpoint insert_seq (x : tcp_seg) (l : list tcp_seg) : list tcp_seg :=
  match l with
  | [] => [x]
  | y :: l => if TCP_SEQ_LT (h_seqno y) (h_seqno x) then y :: insert_seq x l else x :: y :: l
  end.

(** A sent segment goes to [unacked]: at the end unless it is older than the
    last one there. *)
Definition put_unacked (x : tcp_seg) (l : list tcp_seg) : list tcp_seg :=
  match last l with
  | None => [x]
  | Some useg => if TCP_SEQ_LT (h_seqno x) (h_seqno useg) then insert_seq x l else l ++ [x]
  end.

(** [lwip_ntohl(seg->tcphdr->seqno) - pcb->lastack + seg->len] *)
Definition seg_right (p : tcp_pcb) (x : tcp_seg) : Z := u32 (h_seqno x - lastack p + s_len x).

(** The [while] loop of [tcp_output], by recursion on the queue [pcb->unsent],
    of which each round takes the first segment. *)
Fixpoint output_loop (l : list tcp_seg) (wnd : Z) (n : netif) (s : tcp_st) : option (err_t * tcp_st) :=
  match l with
  | [] => Some (ERR_OK, s)
  | seg :: rest =>
      if negb (seg_right (pcb s) seg <=? wnd) then Some (ERR_OK, s)
      else
        assert! (negb (flag_set (h_flags seg) TCP_RST)) in
        if negb (tcp_do_output_nagle (pcb s)) && negb (flag_set (flags (pcb s)) (Z.lor TF_NAGLEMEMERR TF_FIN)) then Some (ERR_OK, s)
        else
          let seg := if state_is (state (pcb s)) SYN_SENT then seg else seg <| h_flags := Z.lor (h_flags seg) TCP_ACK |> in
          let? (err, seg, s) := tcp_output_segment seg n s in
          if negb (err_ok err) then
            Some (err, updp (fun p => tcp_set_flags TF_NAGLEMEMERR (p <| unsent := seg :: rest |>)) s)
          else
            let seg := seg <| s_oversize_left := 0 |> in
            let p := (pcb s) <| unsent := rest |> in
            let p := if state_is (state p) SYN_SENT then p else tcp_clear_flags (Z.lor TF_ACK_DELAY TF_ACK_NOW) p in
            let nxt := u32 (h_seqno seg + TCP_TCPLEN seg) in
            let p := if TCP_SEQ_LT (snd_nxt p) nxt then p <| snd_nxt := nxt |> else p in
            let p := if 0 <? TCP_TCPLEN seg then p <| unacked := put_unacked seg (unacked p) |> else p in
            output_loop rest wnd n (s <| pcb := p |>)
  end.

Definition output_done (s : tcp_st) : option (err_t * tcp_st) := Some (ERR_OK, updp (tcp_clear_flags TF_NAGLEMEMERR) s).

Definition tcp_output (s : tcp_st) : option (err_t * tcp_st) :=
  assert! (negb (state_is (state (pcb s)) LISTEN)) in
  if is_input_pcb s then Some (ERR_OK, s)
  else
    let wnd := Z.min (snd_wnd (pcb s)) (cwnd (pcb s)) in
    match unsent (pcb s) with
    | [] => if flag_set (flags (pcb s)) TF_ACK_NOW then Some (tcp_send_empty_ack s) else output_done s
    | seg :: _ =>
        match tcp_route (Some (pcb s)) (local_ip (pcb s)) (remote_ip (pcb s)) with
        | None => Some (ERR_RTE, s)
        | Some n =>
            let s := if local_ip (pcb s) =? 0 then updp (fun p => p <| local_ip := netif_ip_addr4 n |>) s else s in
            if wnd <? seg_right (pcb s) seg then
              let p := pcb s in
              let s := if (wnd =? snd_wnd p) && bool_decide (unacked p = []) && (persist_backoff p =? 0)
                       then updp (fun p => p <| persist_cnt := 0 |> <| persist_backoff := 1 |> <| persist_probe := 0 |>) s else s in
              if flag_set (flags (pcb s)) TF_ACK_NOW then Some (tcp_send_empty_ack s) else output_done s
            else
              let s := updp (fun p => p <| persist_backoff := 0 |>) s in
              let? (err, s) := output_loop (unsent (pcb s)) wnd n s in
              if negb (err_ok err) then Some (err, s)
              else
                let s := updp (fun p => if bool_decide (unsent p = []) then p <| unsent_oversize := 0 |> else p) s in
                output_done s
        end
    end.

(** ** Retransmission *)
Definition tcp_rexmit_rto_prepare (s : tcp_st) : err_t * tcp_st :=
  let p := pcb s in
  match last (unacked p) with
  | None => (ERR_VAL, s)
  | Some seg =>
      if existsb tcp_output_segment_busy (unacked p) then (ERR_VAL, s)
      else
        let p := if bool_decide (unsent p = []) then p <| unsent_oversize := s_oversize_left seg |> else p in
        let p := p <| unsent := unacked p ++ unsent p |> <| unacked := [] |> in
        let p := tcp_set_flags TF_RTO p in
        (ERR_OK, s <| pcb := p <| rto_end := u32 (h_seqno seg + TCP_TCPLEN seg) |> <| rttest := 0 |> |>)
  end.

Definition tcp_rexmit_rto_commit (s : tcp_st) : option tcp_st :=
  let s := updp (fun p => if nrtx p <? 255 then p <| nrtx := nrtx p + 1 |> else p) s in
  let? (_, s) := tcp_output s in Some s.

Definition tcp_rexmit_rto (s : tcp_st) : option tcp_st :=
  let (err, s) := tcp_rexmit_rto_prepare s in
  if err_ok err then tcp_rexmit_rto_commit s else Some s.

Definition tcp_rexmit (s : tcp_st) : err_t * tcp_st :=
  match unacked (pcb s) with
  | [] => (ERR_VAL, s)
  | seg :: rest =>
      if tcp_output_segment_busy seg then (ERR_VAL, s)
      else
        let p := (pcb s) <| unacked := rest |> in
        (* [seg->next == NULL]: it went behind all of them *)
        let at_end := forallb (fun y => TCP_SEQ_LT (h_seqno y) (h_seqno seg)) (unsent p) in
        let p := p <| unsent := insert_seq seg (unsent p) |> in
        let p := if at_end then p <| unsent_oversize := 0 |> else p in
        let p := if nrtx p <? 255 then p <| nrtx := nrtx p + 1 |> else p in
        (ERR_OK, s <| pcb := p <| rttest := 0 |> |>)
  end.

Definition tcp_rexmit_fast (s : tcp_st) : tcp_st :=
  if negb (bool_decide (unacked (pcb s) = [])) && negb (flag_set (flags (pcb s)) TF_INFR) then
    let (err, s) := tcp_rexmit s in
    if err_ok err then
      updp (fun p =>
        let p := p <| ssthresh := tcpwnd (Z.min (cwnd p) (snd_wnd p) / 2) |> in
        let p := if ssthresh p <? 2 * mss p then p <| ssthresh := tcpwnd (2 * mss p) |> else p in
        let p := p <| cwnd := tcpwnd (ssthresh p + 3 * mss p) |> in
        (tcp_set_flags TF_INFR p) <| rtime := 0 |>) s
    else s
  else s.

(** ** Acknowledging received data (tcp.c) *)
Definition tcp_recved (len : Z) (s : tcp_st) : option tcp_st :=
  let? (upd, p) := recved_window len (pcb s) in
  let s := s <| pcb := p |> in
  if upd then let? (_, s) := tcp_output (updp tcp_ack_now s) in Some s else Some s.
End TcpOut.
