(* ===== verification/TcpIn.v ===== *)
(** * TcpIn: receiving, src/Sources/Lwip/src/core/tcp_in.c

    The option parser, the acknowledgement processing and the reassembly of
    [tcp_receive], on one pcb.  The file-static variables of tcp_in.c that
    describe the segment being processed are the record [tcp_in]. *)

From S2P Require Import Prelude Opts TcpPcb TcpOut.

Record tcp_in := mk_in {
  st : tcp_st;
  seqno : Z; ackno : Z; hdr_wnd : Z; in_flags : Z; tcplen : Z;
  inseg : tcp_seg;
  recv_acked : Z; recv_flags : Z;
  (** the data for the application, [None] for NULL *)
  recv_data : option chain;
  (** options: their length, the part in the first pbuf, the bytes after the
      header in the first pbuf, and those of the second *)
  tcphdr_optlen : Z; tcphdr_opt1len : Z; opt1 : list Z; tcphdr_opt2 : option (list Z) }.
#[export] Instance eta_in : Eta tcp_in := fun t =>
  mk_in (st t) (seqno t) (ackno t) (hdr_wnd t) (in_flags t) (tcplen t) (inseg t) (recv_acked t) (recv_flags t) (recv_data t)
    (tcphdr_optlen t) (tcphdr_opt1len t) (opt1 t) (tcphdr_opt2 t).

(** The pcb being processed, and its update. *)
Definition ipcb (t : tcp_in) : tcp_pcb := pcb (st t).
Definition updi (f : tcp_pcb -> tcp_pcb) (t : tcp_in) : tcp_in := t <| st := updp f (st t) |>.

(** ** Results of the stack

    [Failed] is a failed assertion or a read outside of a buffer, [Dangling] a use
    of a freed object, [Stuck] a loop that runs past its bound. *)
Inductive res (A : Type) := Ok (a : A) | Failed | Dangling | Stuck.
Arguments Ok {A} _.
Arguments Failed {A}.
Arguments Dangling {A}.
Arguments Stuck {A}.

Definition rbind {A B} (r : res A) (k : A -> res B) : res B :=
  match r with Ok a => k a | Failed => Failed | Dangling => Dangling | Stuck => Stuck end.
Notation "'let+' x := e 'in' k" := (rbind e (fun x => k)) (at level 10, x pattern, e at level 200, k at level 200).
Notation "'check!' b 'in' k" := (if b then k else Failed) (at level 10, b at level 200, k at level 200).

(** Code for one pcb: it has no loop that could run out of rounds, so that [None]
    is a failed assertion. *)
Definition lift {A} (x : option A) : res A := match x with Some a => Ok a | None => Failed end.

(** Code that is proved to give a result: it is held to that, since every theorem
    about the stack excludes [Stuck]. *)
Definition sure {A} (x : option A) : res A := match x with Some a => Ok a | None => Stuck end.

Section TcpIn.
Context {o : Opts} {ip : IpLayer}.

(** ** Options *)

(** The byte at [optidx], a [u8_t], and the next index; [None] is a read outside
    the buffer. *)
Definition tcp_get_next_optbyte (t : tcp_in) (optidx : Z) : option (Z * Z) :=
  let nxt := u16 (optidx + 1) in
  match tcphdr_opt2 t with
  | Some b =>
      if optidx <? tcphdr_opt1len t then let? x := getz (opt1 t) optidx in Some (u8 x, nxt)
      else let? x := getz b (u8 (optidx - tcphdr_opt1len t)) in Some (u8 x, nxt)
  | None => let? x := getz (opt1 t) optidx in Some (u8 x, nxt)
  end.

Definition LWIP_TCP_OPT_LEN_MSS : Z := 4.
Definition LWIP_TCP_OPT_LEN_WS : Z := 3.

Definition parse_ws (t : tcp_in) (data : Z) (p : tcp_pcb) : option tcp_pcb :=
  if flag_set (in_flags t) TCP_SYN && negb (flag_set (flags p) TF_WND_SCALE) then
    let p := p <| snd_scale := if 14 <? data then 14 else data |> <| rcv_scale := TCP_RCV_SCALE |> in
    let p := tcp_set_flags TF_WND_SCALE p in
    assert! (rcv_wnd p =? TCPWND_MIN16 TCP_WND) in
    assert! (rcv_ann_wnd p =? TCPWND_MIN16 TCP_WND) in
    Some (p <| rcv_wnd := TCP_WND |> <| rcv_ann_wnd := TCP_WND |>)
  else Some p.

Fixpoint parseopt_loop (fuel : nat) (t : tcp_in) (optidx : Z) (p : tcp_pcb) : res tcp_pcb :=
  match fuel with
  | O => Stuck
  | S fuel =>
      let optlen := tcphdr_optlen t in
      if optidx <? optlen then
        let+ (opt, i) := lift (tcp_get_next_optbyte t optidx) in
        if opt =? 0 then Ok p
        else if opt =? 1 then parseopt_loop fuel t i p
        else if opt =? 2 then
          let+ (l, i) := lift (tcp_get_next_optbyte t i) in
          if negb (l =? LWIP_TCP_OPT_LEN_MSS) || (optlen <? i - 2 + LWIP_TCP_OPT_LEN_MSS) then Ok p
          else
            let+ (hi, i) := lift (tcp_get_next_optbyte t i) in
            let+ (lo, i) := lift (tcp_get_next_optbyte t i) in
            let m := Z.lor (u16 (Z.shiftl hi 8)) lo in
            parseopt_loop fuel t i (p <| mss := if (TCP_MSS <? m) || (m =? 0) then TCP_MSS else m |>)
        else if LWIP_WND_SCALE && (opt =? 3) then
          let+ (l, i) := lift (tcp_get_next_optbyte t i) in
          if negb (l =? LWIP_TCP_OPT_LEN_WS) || (optlen <? i - 2 + LWIP_TCP_OPT_LEN_WS) then Ok p
          else
            let+ (data, i) := lift (tcp_get_next_optbyte t i) in
            let+ p := lift (parse_ws t data p) in
            parseopt_loop fuel t i p
        else
          let+ (data, i) := lift (tcp_get_next_optbyte t i) in
          if data <? 2 then Ok p
          else parseopt_loop fuel t (u16 (i + (data - 2))) p
      else Ok p
  end.

(** Every round consumes at least one of at most 40 bytes: [parseopt_ends]. *)
Definition tcp_parseopt (t : tcp_in) : res tcp_in :=
  if negb (tcphdr_optlen t =? 0) then
    let+ p := parseopt_loop (S (Z.to_nat (tcphdr_optlen t))) t 0 (ipcb t) in
    Ok (updi (fun _ => p) t)
  else Ok t.

(** ** Out-of-sequence data *)

(** [tcp_seg_copy] (tcp.c): the copy shares the buffer. *)
Definition tcp_seg_copy (x : tcp_seg) (s : tcp_st) : option tcp_seg * tcp_st :=
  let (ok, s) := alloc s in
  if ok then (Some (x <| s_ref := s_ref x + 1 |>), s) else (None, s).

(** The [while] loop of [tcp_oos_insert_segment]. *)
Fixpoint oos_absorb (sq : Z) (cseg : tcp_seg) (next : list tcp_seg) : tcp_seg * list tcp_seg :=
  match next with
  | x :: rest =>
      if TCP_SEQ_GEQ (sq + s_len cseg) (h_seqno x + s_len x) then
        oos_absorb sq (if flag_set (h_flags x) TCP_FIN then cseg <| h_flags := Z.lor (h_flags cseg) TCP_FIN |> else cseg) rest
      else (cseg, next)
  | [] => (cseg, [])
  end.

Definition tcp_oos_insert_segment (sq : Z) (cseg : tcp_seg) (next : list tcp_seg) : list tcp_seg :=
  if flag_set (h_flags cseg) TCP_FIN then [cseg]
  else
    let (cseg, next) := oos_absorb sq cseg next in
    match next with
    | x :: _ =>
        if TCP_SEQ_GT (sq + s_len cseg) (h_seqno x) then
          let cseg := cseg <| s_len := u16 (h_seqno x - sq) |> in
          cseg <| s_p := pbuf_realloc (s_p cseg) (s_len cseg) |> :: next
        else cseg :: next
    | [] => [cseg]
    end.

(** Cut a queued segment where the new one begins. *)
Definition oos_cut (sq : Z) (x : tcp_seg) : tcp_seg :=
  if TCP_SEQ_GT (h_seqno x + s_len x) sq then
    let x := x <| s_len := u16 (sq - h_seqno x) |> in x <| s_p := pbuf_realloc (s_p x) (s_len x) |>
  else x.

(** Cut the new last segment to the receive window. *)
Definition oos_fit_window (sq tl : Z) (p : tcp_pcb) (cseg : tcp_seg) : option tcp_seg :=
  if TCP_SEQ_GT (tl + sq) (rcv_nxt p + rcv_wnd p) then
    let cseg := if flag_set (h_flags cseg) TCP_FIN then cseg <| h_flags := Z.land (h_flags cseg) (Z.lnot TCP_FIN) |> else cseg in
    let cseg := cseg <| s_len := u16 (rcv_nxt p + rcv_wnd p - sq) |> in
    let cseg := cseg <| s_p := pbuf_realloc (s_p cseg) (s_len cseg) |> in
    assert! (u32 (sq + u16 (TCP_TCPLEN cseg)) =? u32 (rcv_nxt p + rcv_wnd p)) in
    Some cseg
  else Some cseg.

(** The [for] loop over [ooseq] with its trailing pointer [prev]: the result
    replaces [prev] (if there is one) and everything from [l] on. *)
Fixpoint oos_walk (iseg : tcp_seg) (sq tl : Z) (prev : option tcp_seg) (l : list tcp_seg) (s : tcp_st) : option (list tcp_seg * tcp_st) :=
  let front := match prev with Some pv => [pv] | None => [] end in
  match l with
  | [] => Some (front, s)
  | next :: rest =>
      if sq =? h_seqno next then
        if (s_len next <? s_len iseg) && negb (bool_decide (rest = [])) then
          let (c, s) := tcp_seg_copy iseg s in
          match c with
          | Some cseg => Some (front ++ tcp_oos_insert_segment sq cseg l, s)
          | None => Some (front ++ l, s)
          end
        else Some (front ++ l, s)
      else
        let here :=
          match prev with
          | None => TCP_SEQ_LT sq (h_seqno next)
          | Some pv => TCP_SEQ_BETWEEN sq (h_seqno pv + 1) (h_seqno next - 1)
          end in
        if here then
          let (c, s) := tcp_seg_copy iseg s in
          match c with
          | Some cseg =>
              let front := match prev with Some pv => [oos_cut sq pv] | None => [] end in
              Some (front ++ tcp_oos_insert_segment sq cseg l, s)
          | None => Some (front ++ l, s)
          end
        else if bool_decide (rest = []) && TCP_SEQ_GT sq (h_seqno next) then
          if flag_set (h_flags next) TCP_FIN then Some (front ++ l, s)
          else
            let (c, s) := tcp_seg_copy iseg s in
            match c with
            | Some cseg =>
                let? cseg := oos_fit_window sq tl (pcb s) cseg in
                Some (front ++ [oos_cut sq next; cseg], s)
            | None => Some (front ++ l, s)
            end
        else
          let? (l', s) := oos_walk iseg sq tl (Some next) rest s in
          Some (front ++ l', s)
  end.

(** The out-of-order branch: queue the segment and send a duplicate ACK. *)
Definition receive_oos (t : tcp_in) : option tcp_in :=
  let s := st t in
  let? s :=
    match ooseq (pcb s) with
    | [] =>
        let (c, s) := tcp_seg_copy (inseg t) s in
        Some (updp (fun p => p <| ooseq := match c with Some x => [x] | None => [] end |>) s)
    | l =>
        let? (l', s) := oos_walk (inseg t) (seqno t) (tcplen t) None l s in
        Some (updp (fun p => p <| ooseq := l' |>) s)
    end in
  let (_, s) := tcp_send_empty_ack s in
  Some (t <| st := s |>).

(** ** In-sequence data *)

(** The queued segments an in-sequence segment covers: it takes over a FIN. *)
Fixpoint inseg_absorb (sq : Z) (iseg : tcp_seg) (next : list tcp_seg) : tcp_seg * list tcp_seg :=
  match next with
  | x :: rest =>
      if TCP_SEQ_GEQ (sq + u16 (TCP_TCPLEN iseg)) (h_seqno x + s_len x) then
        inseg_absorb sq
          (if flag_set (h_flags x) TCP_FIN && negb (flag_set (h_flags iseg) TCP_SYN)
           then iseg <| h_flags := Z.lor (h_flags iseg) TCP_FIN |> else iseg) rest
      else (iseg, next)
  | [] => (iseg, [])
  end.

(** Cut the in-sequence segment to a length; a SYN takes one number. *)
Definition inseg_cut (n : Z) (x : tcp_seg) : tcp_seg :=
  let n := u16 n in
  let n := if flag_set (h_flags x) TCP_SYN then u16 (n - 1) else n in
  x <| s_len := n |> <| s_p := pbuf_realloc (s_p x) n |>.

(** Hand [x], of length [tl], to the application: sequence number, window, data
    and FIN ([recv_data] is NULL before the first one). *)
Definition take_seg (x : tcp_seg) (tl : Z) (t : tcp_in) : option tcp_in :=
  let p := ipcb t in
  let p := p <| rcv_nxt := u32 (h_seqno x + tl) |> in
  assert! (tl <=? rcv_wnd p) in
  let p := p <| rcv_wnd := rcv_wnd p - tl |> in
  let? (_, p) := tcp_update_rcv_ann_wnd p in
  let t := updi (fun _ => p) t in
  let t := if 0 <? tot_len (s_p x) then
             t <| recv_data := Some (match recv_data t with Some d => d ++ s_p x | None => s_p x end) |>
           else t in
  Some (if flag_set (h_flags x) TCP_FIN then t <| recv_flags := Z.lor (recv_flags t) TF_GOT_FIN |> else t).

(** The queued segments that have become in-sequence. *)
Fixpoint deliver_oos (q : list tcp_seg) (t : tcp_in) : option tcp_in :=
  match q with
  | [] => Some (updi (fun p => p <| ooseq := [] |>) t)
  | x :: rest =>
      if h_seqno x =? rcv_nxt (ipcb t) then
        let? t := take_seg x (TCP_TCPLEN x) t in
        let t := if flag_set (h_flags x) TCP_FIN && state_is (state (ipcb t)) ESTABLISHED
                 then updi (fun p => p <| state := CLOSE_WAIT |>) t else t in
        deliver_oos rest (t <| seqno := h_seqno x |>)
      else Some (updi (fun p => p <| ooseq := q |>) t)
  end.

Definition receive_inseq (t : tcp_in) : option tcp_in :=
  let p := ipcb t in
  let x := inseg t in
  let sq := seqno t in
  (* cut to the window *)
  let? x :=
    (if rcv_wnd p <? u16 (TCP_TCPLEN x) then
       let x := if flag_set (h_flags x) TCP_FIN then x <| h_flags := Z.land (h_flags x) (Z.lnot TCP_FIN) |> else x in
       assert! (negb LWIP_WND_SCALE || (rcv_wnd p <=? 65535)) in
       let x := inseg_cut (rcv_wnd p) x in
       assert! (u32 (sq + u16 (TCP_TCPLEN x)) =? u32 (rcv_nxt p + rcv_wnd p)) in
       Some x
     else Some x) in
  (* the queued segments it covers or runs into *)
  let? (x, q) :=
    match ooseq p with
    | [] => Some (x, [])
    | l =>
        if flag_set (h_flags x) TCP_FIN then Some (x, [])
        else
          let (x, q) := inseg_absorb sq x l in
          match q with
          | y :: _ =>
              if TCP_SEQ_GT (sq + u16 (TCP_TCPLEN x)) (h_seqno y) then
                let x := inseg_cut (h_seqno y - sq) x in
                assert! (u32 (sq + u16 (TCP_TCPLEN x)) =? h_seqno y) in
                Some (x, q)
              else Some (x, q)
          | [] => Some (x, [])
          end
    end in
  let t := (updi (fun p => p <| ooseq := q |>) t) <| inseg := x |> <| tcplen := u16 (TCP_TCPLEN x) |> in
  let? t := take_seg x (tcplen t) t in
  let? t := deliver_oos q t in
  Some (updi tcp_ack t).

(** The part of [tcp_receive] that handles the segment's text. *)
Definition receive_text (t : tcp_in) : option tcp_in :=
  let p := ipcb t in
  if (0 <? tcplen t) && (state_num (state p) <? state_num CLOSE_WAIT) then
    let? t :=
      (if TCP_SEQ_BETWEEN (rcv_nxt p) (seqno t + 1) (seqno t + tcplen t - 1) then
         let off := u32 (rcv_nxt p - seqno t) in
         assert! (off <? 65535) in
         assert! (off <=? tot_len (s_p (inseg t))) in
         let x := inseg t in
         let x := x <| s_len := u16 (s_len x - off) |> <| s_p := cdrop off (s_p x) |> <| h_seqno := rcv_nxt p |> in
         Some (t <| inseg := x |> <| seqno := rcv_nxt p |>)
       else if TCP_SEQ_LT (seqno t) (rcv_nxt p) then Some (updi tcp_ack_now t)
       else Some t) in
    if TCP_SEQ_BETWEEN (seqno t) (rcv_nxt p) (rcv_nxt p + rcv_wnd p - 1) then
      if rcv_nxt p =? seqno t then receive_inseq t else receive_oos t
    else Some (t <| st := snd (tcp_send_empty_ack (st t)) |>)
  else if negb (TCP_SEQ_BETWEEN (seqno t) (rcv_nxt p) (rcv_nxt p + rcv_wnd p - 1)) then Some (updi tcp_ack_now t)
  else Some t.

(** ** Acknowledgements *)

(** [tcp_free_acked_segments] on one queue; [other] tells whether the other
    queue is non-empty.  Returns the queue, the pbuf count and the bytes
    acknowledged so far. *)
Fixpoint tcp_free_acked_segments (ack : Z) (l : list tcp_seg) (other : bool) (qlen acked : Z) : option (list tcp_seg * Z * Z) :=
  match l with
  | x :: rest =>
      if TCP_SEQ_LEQ (h_seqno x + TCP_TCPLEN x) ack then
        let clen := lenz (s_p x) in
        assert! (clen <=? qlen) in
        let qlen := u16 (qlen - clen) in
        let acked := tcpwnd (acked + s_len x) in
        assert! ((qlen =? 0) || negb (bool_decide (rest = [])) || other) in
        tcp_free_acked_segments ack rest other qlen acked
      else Some (l, qlen, acked)
  | [] => Some ([], qlen, acked)
  end.

(** The send window the segment announces. *)
Definition update_snd_wnd (t : tcp_in) (p : tcp_pcb) : tcp_pcb :=
  let w := SND_WND_SCALE p (hdr_wnd t) in
  if TCP_SEQ_LT (snd_wl1 p) (seqno t) || ((snd_wl1 p =? seqno t) && TCP_SEQ_LT (snd_wl2 p) (ackno t))
     || ((snd_wl2 p =? ackno t) && (snd_wnd p <? w)) then
    let p := p <| snd_wnd := w |> in
    let p := if snd_wnd_max p <? snd_wnd p then p <| snd_wnd_max := snd_wnd p |> else p in
    p <| snd_wl1 := seqno t |> <| snd_wl2 := ackno t |>
  else p.

(** A duplicate acknowledgement. *)
Definition dup_ack (right_wnd_edge : Z) (t : tcp_in) : tcp_in :=
  let p := ipcb t in
  if (tcplen t =? 0) && (u32 (snd_wl2 p + snd_wnd p) =? right_wnd_edge) && (0 <=? rtime p) && (lastack p =? ackno t) then
    let t := updi (fun p => p <| dupacks := if dupacks p <? u8 (dupacks p + 1) then dupacks p + 1 else dupacks p |>) t in
    let t := updi (fun p => if 3 <? dupacks p then p <| cwnd := TCP_WND_INC (cwnd p) (mss p) |> else p) t in
    if 3 <=? dupacks (ipcb t) then t <| st := tcp_rexmit_fast (st t) |> else t
  else t.

(** The congestion window on new data acknowledged. *)
Definition grow_cwnd (acked : Z) (p : tcp_pcb) : tcp_pcb :=
  if cwnd p <? ssthresh p then
    let num_seg := if flag_set (flags p) TF_RTO then 1 else 2 in
    p <| cwnd := TCP_WND_INC (cwnd p) (Z.min acked (tcpwnd (num_seg * mss p))) |>
  else
    let p := p <| bytes_acked := TCP_WND_INC (bytes_acked p) acked |> in
    if cwnd p <=? bytes_acked p then
      p <| bytes_acked := tcpwnd (bytes_acked p - cwnd p) |> <| cwnd := TCP_WND_INC (cwnd p) (mss p) |>
    else p.

(** The retransmitted data has all been acknowledged. *)
Definition clear_rto (p : tcp_pcb) : tcp_pcb :=
  if flag_set (flags p) TF_RTO then
    match unacked p with
    | [] =>
        match unsent p with
        | [] => tcp_clear_flags TF_RTO p
        | x :: _ => if TCP_SEQ_LEQ (rto_end p) (h_seqno x) then tcp_clear_flags TF_RTO p else p
        end
    | x :: _ => if TCP_SEQ_LEQ (rto_end p) (h_seqno x) then tcp_clear_flags TF_RTO p else p
    end
  else p.

(** New data is acknowledged. *)
Definition new_ack (t : tcp_in) : option tcp_in :=
  let p := ipcb t in
  let p := if flag_set (flags p) TF_INFR then (tcp_clear_flags TF_INFR p) <| cwnd := ssthresh p |> <| bytes_acked := 0 |> else p in
  let p := p <| nrtx := 0 |> <| rto := s16 (Z.shiftr (sa p) 3 + sv p) |> in
  let acked := tcpwnd (ackno t - lastack p) in
  let p := p <| dupacks := 0 |> <| lastack := ackno t |> in
  let p := if state_num ESTABLISHED <=? state_num (state p) then grow_cwnd acked p else p in
  let? (l, qlen, a) := tcp_free_acked_segments (ackno t) (unacked p) (negb (bool_decide (unsent p = []))) (snd_queuelen p) (recv_acked t) in
  let p := p <| unacked := l |> <| snd_queuelen := qlen |> in
  let? (l, qlen, a) := tcp_free_acked_segments (ackno t) (unsent p) (negb (bool_decide (unacked p = []))) (snd_queuelen p) a in
  let p := p <| unsent := l |> <| snd_queuelen := qlen |> in
  let p := p <| rtime := if bool_decide (unacked p = []) then -1 else 0 |> <| polltmr := 0 |> in
  let p := if bool_decide (unsent p = []) then p <| unsent_oversize := 0 |> else p in
  let p := p <| snd_buf := tcpwnd (snd_buf p + a) |> in
  Some ((updi (fun _ => clear_rto p) t) <| recv_acked := a |>).

(** The round-trip estimate (Van Jacobson). *)
Definition rtt_sample (ticks : Z) (p : tcp_pcb) : tcp_pcb :=
  let m := s16 (ticks - rttest p) in
  let m := s16 (m - Z.shiftr (sa p) 3) in
  let p := p <| sa := s16 (sa p + m) |> in
  let m := if m <? 0 then s16 (- m) else m in
  let m := s16 (m - Z.shiftr (sv p) 2) in
  let p := p <| sv := s16 (sv p + m) |> in
  p <| rto := s16 (Z.shiftr (sa p) 3 + sv p) |> <| rttest := 0 |>.

Definition receive_ack (t : tcp_in) : option tcp_in :=
  let right_wnd_edge := u32 (snd_wnd (ipcb t) + snd_wl2 (ipcb t)) in
  let t := updi (update_snd_wnd t) t in
  let p := ipcb t in
  let? t :=
    (if TCP_SEQ_LEQ (ackno t) (lastack p) then Some (dup_ack right_wnd_edge t)
     else if TCP_SEQ_BETWEEN (ackno t) (lastack p + 1) (snd_nxt p) then new_ack t
     else Some (t <| st := snd (tcp_send_empty_ack (st t)) |>)) in
  let p := ipcb t in
  Some (if negb (rttest p =? 0) && TCP_SEQ_LT (rtseq p) (ackno t) then updi (rtt_sample (tcp_ticks (st t))) t else t).

Definition tcp_receive (t : tcp_in) : option tcp_in :=
  assert! (state_num ESTABLISHED <=? state_num (state (ipcb t))) in
  let? t := (if flag_set (in_flags t) TCP_ACK then receive_ack t else Some t) in
  receive_text t.
End TcpIn.
