(* ===== verification/TcpStream.v ===== *)
(** * TcpStream: what reassembly promises

    The peer sends a byte stream, possibly ended by a FIN; segments are pieces
    of it that may arrive duplicated, overlapping and out of order.  The
    theorems state that [tcp_receive] hands exactly the stream to the
    application, in order and without gaps, that it takes the FIN for what it
    is, and that no assertion fails, on sequence numbers that wrap. *)

From S2P Require Import Prelude Opts TcpPcb TcpOut TcpIn.

(** ** Flag bits *)

Lemma flag_bit f k : 0 <= k -> flag_set f (2 ^ k) = Z.testbit f k.
Proof.
  intros Hk. unfold flag_set. destruct (Z.testbit f k) eqn:E.
  - apply negb_true_iff, Z.eqb_neq. intros H. apply (f_equal (fun z => Z.testbit z k)) in H.
    rewrite Z.land_spec, Z.bits_0, E, Z.pow2_bits_true in H by lia. done.
  - apply negb_false_iff, Z.eqb_eq, Z.bits_inj'. intros i Hi. rewrite Z.land_spec, Z.bits_0.
    destruct (Z.eq_dec i k) as [->|]; [by rewrite E|]. rewrite Z.pow2_bits_false by lia. by rewrite andb_false_r.
Qed.

Lemma flag_lor_mask f a b : flag_set f (Z.lor a b) = flag_set f a || flag_set f b.
Proof.
  unfold flag_set. rewrite Z.land_lor_distr_r. destruct (Z.eqb_spec (Z.lor (Z.land f a) (Z.land f b)) 0) as [E|E].
  - apply Z.lor_eq_0_iff in E as [-> ->]. done.
  - destruct (Z.eqb_spec (Z.land f a) 0) as [E1|], (Z.eqb_spec (Z.land f b) 0) as [E2|]; try done. by rewrite E1, E2 in E.
Qed.

Lemma flag_fin f : flag_set f TCP_FIN = Z.testbit f 0.
Proof. exact (flag_bit f 0 ltac:(lia)). Qed.

Lemma flag_syn f : flag_set f TCP_SYN = Z.testbit f 1.
Proof. exact (flag_bit f 1 ltac:(lia)). Qed.

Lemma set_fin f : flag_set (Z.lor f TCP_FIN) TCP_FIN = true /\ flag_set (Z.lor f TCP_FIN) TCP_SYN = flag_set f TCP_SYN.
Proof. rewrite !flag_fin, !flag_syn, !Z.lor_spec. change (Z.testbit TCP_FIN 0) with true. change (Z.testbit TCP_FIN 1) with false.
  by rewrite orb_true_r, orb_false_r. Qed.

Lemma clear_fin f : flag_set (Z.land f (Z.lnot TCP_FIN)) TCP_FIN = false /\ flag_set (Z.land f (Z.lnot TCP_FIN)) TCP_SYN = flag_set f TCP_SYN.
Proof. rewrite !flag_fin, !flag_syn, !Z.land_spec. change (Z.testbit (Z.lnot TCP_FIN) 0) with false. change (Z.testbit (Z.lnot TCP_FIN) 1) with true.
  by rewrite andb_false_r, andb_true_r. Qed.

Lemma TCPLEN_fin x : flag_set (h_flags x) TCP_SYN = false ->
  TCP_TCPLEN x = s_len x + (if flag_set (h_flags x) TCP_FIN then 1 else 0).
Proof. intros H. unfold TCP_TCPLEN. rewrite flag_lor_mask, H, orb_false_r. done. Qed.

(** ** Chains and bytes *)

Lemma cbytes_cons q c : cbytes (q :: c) = q ++ cbytes c.
Proof. done. Qed.

Lemma cbytes_app c d : cbytes (c ++ d) = cbytes c ++ cbytes d.
Proof. apply concat_app. Qed.

Lemma ctrunc_bytes n c : 0 <= n -> cbytes (ctrunc n c) = takez n (cbytes c).
Proof.
  revert n. induction c as [|q c IH]; intros n Hn; [symmetry; exact (takez_nil n)|]. cbn [ctrunc]. rewrite cbytes_cons.
  rewrite takez_app by done. destruct (Z.leb_spec n (lenz q)).
  - rewrite (takez_0 (n - lenz q)) by lia. rewrite app_nil_r. unfold cbytes. cbn. by rewrite app_nil_r.
  - rewrite cbytes_cons, IH by lia. by rewrite (takez_all n q) by lia.
Qed.

Lemma pbuf_realloc_bytes c n : 0 <= n -> cbytes (pbuf_realloc c n) = takez n (cbytes c).
Proof.
  intros Hn. unfold pbuf_realloc. destruct (Z.leb_spec (tot_len c) n); [by rewrite takez_all|by apply ctrunc_bytes].
Qed.

Lemma cdrop_bytes off c : 0 <= off <= tot_len c -> cbytes (cdrop off c) = dropz off (cbytes c).
Proof.
  unfold tot_len. revert off. induction c as [|q c IH]; intros off [H0 Hl]; [symmetry; exact (dropz_nil off)|]. cbn [cdrop]. rewrite cbytes_cons in *.
  rewrite lenz_app in Hl. rewrite dropz_app by done. destruct (Z.ltb_spec (lenz q) off).
  - rewrite cbytes_cons, IH by lia. by rewrite (dropz_all off q) by lia.
  - rewrite cbytes_cons. by rewrite (dropz_0 (off - lenz q)) by lia.
Qed.

(** ** The stream and the sequence numbers of its bytes *)
Section Stream.
Context {o : Opts} {ook : OptsOk o} {ip : IpLayer}.
(** The bytes of the stream, the position after the last one if the peer has
    ended it, and the sequence number of position 0. *)
Context (strm : Z -> Z) (fin : option Z) (isn : Z).

Definition seqn (a : Z) : Z := u32 (isn + a).

Definition slice (a n : Z) : list Z := map (fun i => strm (a + Z.of_nat i)) (seq 0 (Z.to_nat n)).

Lemma slice_len a n : 0 <= n -> lenz (slice a n) = n.
Proof. intros H. unfold slice, lenz. rewrite length_map, length_seq. lia. Qed.

Lemma slice_0 a n : n <= 0 -> slice a n = [].
Proof. intros H. unfold slice. by replace (Z.to_nat n) with 0%nat by lia. Qed.

Lemma slice_app a n m : 0 <= n -> 0 <= m -> slice a n ++ slice (a + n) m = slice a (n + m).
Proof.
  intros Hn Hm. unfold slice. rewrite Z2Nat.inj_add by lia. rewrite seq_app, map_app. f_equal.
  replace (0 + Z.to_nat n)%nat with (Z.to_nat n + 0)%nat by lia. rewrite <- fmap_add_seq.
  change (list_fmap _ _) with (@map nat nat). rewrite map_map. apply map_ext. intros i. f_equal. lia.
Qed.

Lemma slice_take a n m : 0 <= m <= n -> takez m (slice a n) = slice a m.
Proof.
  intros H. replace n with (m + (n - m)) by lia. rewrite <- slice_app by lia.
  apply takez_app_eq. by rewrite slice_len by lia.
Qed.

Lemma slice_drop a n m : 0 <= m <= n -> dropz m (slice a n) = slice (a + m) (n - m).
Proof.
  intros H. replace n with (m + (n - m)) at 1 by lia. rewrite <- slice_app by lia.
  apply dropz_app_eq. by rewrite slice_len by lia.
Qed.

Lemma land_bit31 z : 0 <= z < 4294967296 -> (Z.land z 2147483648 =? 0) = (z <? 2147483648).
Proof.
  intros H. change 2147483648 with (2 ^ 31). pose proof (flag_bit z 31 ltac:(lia)) as E. unfold flag_set in E.
  apply (f_equal negb) in E. rewrite negb_involutive in E. rewrite E.
  rewrite Z.testbit_eqb by lia. destruct (Z.ltb_spec z (2 ^ 31)); [rewrite Z.div_small by lia; done|].
  replace (z / 2 ^ 31) with 1; [done|]. apply Z.div_unique with (r := z - 2 ^ 31); lia.
Qed.

Lemma SEQ_LT_off a b x y : u32 x = seqn a -> u32 y = seqn b -> Z.abs (a - b) < 2147483648 -> TCP_SEQ_LT x y = (a <? b).
Proof.
  unfold TCP_SEQ_LT. intros -> -> H. rewrite land_bit31 by (apply u32_range). unfold seqn.
  destruct (Z.ltb_spec a b), (Z.ltb_spec (u32 (u32 (isn + a) - u32 (isn + b))) 2147483648); try done; zlia.
Qed.

Lemma SEQ_GT_off a b x y : u32 x = seqn a -> u32 y = seqn b -> Z.abs (a - b) < 2147483648 -> TCP_SEQ_GT x y = (b <? a).
Proof. intros. unfold TCP_SEQ_GT. apply SEQ_LT_off; [done..|lia]. Qed.

Lemma SEQ_GEQ_off a b x y : u32 x = seqn a -> u32 y = seqn b -> Z.abs (a - b) < 2147483648 -> TCP_SEQ_GEQ x y = (b <=? a).
Proof. intros. unfold TCP_SEQ_GEQ, TCP_SEQ_LEQ. rewrite (SEQ_LT_off a b) by done. by rewrite Z.leb_antisym. Qed.

Lemma SEQ_LEQ_off a b x y : u32 x = seqn a -> u32 y = seqn b -> Z.abs (a - b) < 2147483648 -> TCP_SEQ_LEQ x y = (a <=? b).
Proof. intros. unfold TCP_SEQ_LEQ. rewrite (SEQ_LT_off b a) by (done || lia). by rewrite Z.leb_antisym. Qed.

Lemma SEQ_BETWEEN_off a b c x y z : u32 x = seqn a -> u32 y = seqn b -> u32 z = seqn c ->
  Z.abs (a - b) < 2147483648 -> Z.abs (a - c) < 2147483648 -> TCP_SEQ_BETWEEN x y z = (b <=? a) && (a <=? c).
Proof. intros. unfold TCP_SEQ_BETWEEN. by rewrite (SEQ_GEQ_off a b), (SEQ_LEQ_off a c) by done. Qed.

Lemma seqn_inj a b : Z.abs (a - b) < 2147483648 -> seqn a = seqn b -> a = b.
Proof. unfold seqn. zlia. Qed.

Lemma seqn_eqb a b : Z.abs (a - b) < 2147483648 -> (seqn a =? seqn b) = (a =? b).
Proof.
  intros H. destruct (Z.eqb_spec (seqn a) (seqn b)) as [E|E], (Z.eqb_spec a b) as [E'|E']; try done.
  - by apply seqn_inj in E.
  - by subst.
Qed.

Lemma seqn_add a k : u32 (seqn a + k) = seqn (a + k).
Proof. unfold seqn. zlia. Qed.

Lemma seqn_sub a k : u32 (seqn a - k) = seqn (a - k).
Proof. unfold seqn. zlia. Qed.

Lemma seqn_u32 a : u32 (seqn a) = seqn a.
Proof. unfold seqn. zlia. Qed.

Lemma seqn_diff a b : 0 <= a - b < 65536 -> u16 (seqn a - seqn b) = a - b.
Proof. unfold seqn. zlia. Qed.

(** ** Segments of the stream *)
Record seg_at (a : Z) (x : tcp_seg) : Prop := {
  sa_seqno : h_seqno x = seqn a;
  sa_len : 0 <= s_len x < 65535;
  sa_bytes : cbytes (s_p x) = slice a (s_len x);
  sa_nosyn : flag_set (h_flags x) TCP_SYN = false;
  sa_fin : flag_set (h_flags x) TCP_FIN = true -> fin = Some (a + s_len x);
  sa_in : forall l, fin = Some l -> a + s_len x <= l;
  sa_pos : 0 < TCP_TCPLEN x;
}.

(** The out-of-order queue from [lo] to [hi]: segments of the stream in order,
    without overlap; a FIN comes last. *)
Inductive oosq (hi : Z) : Z -> list tcp_seg -> Prop :=
  | oosq_nil lo : oosq hi lo []
  | oosq_cons lo a x l :
      lo <= a -> seg_at a x -> a + TCP_TCPLEN x <= hi -> oosq hi (a + s_len x) l ->
      (flag_set (h_flags x) TCP_FIN = true -> l = []) -> oosq hi lo (x :: l).

Lemma oosq_weaken hi lo lo' l : oosq hi lo l -> lo' <= lo -> oosq hi lo' l.
Proof. intros H Hl. inversion H; subst; [apply oosq_nil|]. eapply oosq_cons; [|done..]. lia. Qed.

Lemma oosq_raise hi hi' lo l : oosq hi lo l -> hi <= hi' -> oosq hi' lo l.
Proof. intros H Hh. induction H; [apply oosq_nil|eapply oosq_cons; eauto; lia]. Qed.

Lemma seg_at_tcplen a x : seg_at a x -> TCP_TCPLEN x = s_len x + (if flag_set (h_flags x) TCP_FIN then 1 else 0).
Proof. intros H. by apply TCPLEN_fin, sa_nosyn with a. Qed.

Lemma seg_at_nofin_len a x : seg_at a x -> flag_set (h_flags x) TCP_FIN = false -> 0 < s_len x /\ TCP_TCPLEN x = s_len x.
Proof. intros H Hf. pose proof (sa_pos _ _ H). rewrite (seg_at_tcplen _ _ H), Hf in *. lia. Qed.

(** Cutting a segment without FIN. *)
Lemma seg_at_cut a x n : seg_at a x -> flag_set (h_flags x) TCP_FIN = false -> 0 < n <= s_len x ->
  seg_at a (x <| s_len := n |> <| s_p := pbuf_realloc (s_p x) n |>)
  /\ TCP_TCPLEN (x <| s_len := n |>) = n.
Proof.
  intros H Hf Hn. pose proof (sa_len _ _ H).
  assert (E : TCP_TCPLEN (x <| s_len := n |> <| s_p := pbuf_realloc (s_p x) n |>) = n).
  { rewrite TCPLEN_fin by (rsimpl; apply H). rsimpl. rewrite Hf. lia. }
  split; [|exact E]. split; try (rewrite E; lia); rsimpl; try apply H; try lia.
  - rewrite pbuf_realloc_bytes by lia. rewrite (sa_bytes _ _ H). apply slice_take. lia.
  - by rewrite Hf.
  - intros l Hl. pose proof (sa_in _ _ H l Hl). lia.
Qed.

(** Taking over the FIN of a segment that ends where this one ends. *)
Lemma seg_at_setfin a x : seg_at a x -> fin = Some (a + s_len x) -> seg_at a (x <| h_flags := Z.lor (h_flags x) TCP_FIN |>).
Proof.
  intros H Hf. split; rsimpl; try apply H.
  - by rewrite (proj2 (set_fin _)), (sa_nosyn _ _ H).
  - done.
  - rewrite TCPLEN_fin by (rsimpl; rewrite (proj2 (set_fin _)); apply H). rsimpl. rewrite (proj1 (set_fin _)). pose proof (sa_len _ _ H). lia.
Qed.

Lemma seg_at_ref a x n : seg_at a x -> seg_at a (x <| s_ref := n |>).
Proof. intros H. split; apply H. Qed.

(** ** The out-of-order queue *)

(** Offsets of interest lie within [2^30] of each other. *)
Local Ltac seqs := rewrite ?seqn_add, ?seqn_sub, ?seqn_u32; try done; try lia.

Lemma oosq_hi hi lo l : oosq hi lo l -> l <> [] -> lo < hi.
Proof. intros H Hl. inversion H as [|? a x l' ? Hx]; subst; [done|]. pose proof (sa_pos _ _ Hx). lia. Qed.

Lemma oos_absorb_ok a c hi l : seg_at a c -> flag_set (h_flags c) TCP_FIN = false -> a + TCP_TCPLEN c <= hi ->
  oosq hi (a + 1) l -> hi - a < 1073741824 ->
  exists c' l', oos_absorb (seqn a) c l = (c', l') /\ seg_at a c' /\ s_len c' = s_len c /\ s_p c' = s_p c /\ a + TCP_TCPLEN c' <= hi
  /\ oosq hi (a + 1) l' /\ (flag_set (h_flags c') TCP_FIN = true -> l' = [])
  /\ match l' with [] => True | x :: _ => exists b, seg_at b x /\ a + 1 <= b /\ a + s_len c < b + s_len x /\ oosq hi b l' end.
Proof.
  intros Hc Hf Hhi Hl Hsm. revert c Hc Hf Hhi. induction l as [|x l IH]; intros c Hc Hf Hhi.
  { exists c, []. split_and!; done. }
  inversion Hl as [|? b ? ? Hlo Hx Hxh Hl' Hxf]; subst. cbn [oos_absorb]. rewrite (sa_seqno _ _ Hx).
  pose proof (sa_len _ _ Hc). pose proof (sa_len _ _ Hx). pose proof (sa_pos _ _ Hx). pose proof (seg_at_tcplen _ _ Hx) as Tx.
  assert (Hmid : 0 <= b - a <= hi - a /\ s_len x <= TCP_TCPLEN x) by (rewrite Tx; case_match; lia).
  rewrite (SEQ_GEQ_off (a + s_len c) (b + s_len x)) by seqs.
  destruct (Z.leb_spec (b + s_len x) (a + s_len c)) as [Hge|Hlt].
  2: { exists c, (x :: l). rewrite Hf. split_and!; try done. exists b. split_and!; try done; try lia. eapply oosq_cons; eauto. lia. }
  destruct (flag_set (h_flags x) TCP_FIN) eqn:Fx.
  - rewrite (Hxf eq_refl). pose proof (sa_fin _ _ Hx Fx) as Efin. pose proof (sa_in _ _ Hc _ Efin).
    assert (Efin' : fin = Some (a + s_len c)) by (rewrite Efin; f_equal; lia).
    pose proof (seg_at_setfin a c Hc Efin') as Hc'. cbn [oos_absorb]. exists (c <| h_flags := Z.lor (h_flags c) TCP_FIN |>), [].
    split_and!; try done; [|apply oosq_nil]. rewrite (seg_at_tcplen _ _ Hc'). rsimpl. rewrite (proj1 (set_fin _)), Tx in *. lia.
  - apply IH; try done. eapply oosq_weaken; [done|]. rewrite Tx in *. lia.
Qed.

(** Inserting a segment in front of later ones. *)
Lemma oos_insert_ok a c hi lo l : seg_at a c -> lo <= a -> a + TCP_TCPLEN c <= hi -> oosq hi (a + 1) l -> hi - a < 65536 ->
  oosq hi lo (tcp_oos_insert_segment (seqn a) c l).
Proof.
  intros Hc Hlo Hhi Hl Hsm. unfold tcp_oos_insert_segment. destruct (flag_set (h_flags c) TCP_FIN) eqn:Fc.
  { eapply oosq_cons; eauto. apply oosq_nil. }
  destruct (oos_absorb_ok a c hi l) as (c' & l' & -> & Hc' & El & Ep & Hh' & Hl' & Hf' & Hx); try done; [lia|].
  destruct l' as [|x l']; [eapply oosq_cons; eauto; apply oosq_nil|]. destruct Hx as (b & Hx & Hb & Hcov & Hl2).
  pose proof (sa_len _ _ Hc'). pose proof (oosq_hi _ _ _ Hl2 ltac:(done)). rewrite (sa_seqno _ _ Hx).
  destruct (flag_set (h_flags c') TCP_FIN) eqn:Fc'; [by specialize (Hf' eq_refl)|].
  destruct (seg_at_nofin_len _ _ Hc' Fc') as [Hp' Et']. rewrite Et' in Hh'.
  rewrite (SEQ_GT_off (a + s_len c') b) by seqs. destruct (Z.ltb_spec b (a + s_len c')).
  - rsimpl. rewrite seqn_diff by lia. destruct (seg_at_cut a c' (b - a) Hc' Fc') as [Hcut Etl]; [lia|].
    eapply oosq_cons; [done|exact Hcut|rsimpl; rewrite Etl; lia|rsimpl|rsimpl; by rewrite Fc']. eapply oosq_weaken; [done|lia].
  - eapply oosq_cons; [done|done|lia| |by rewrite Fc']. eapply oosq_weaken; [done|lia].
Qed.

(** Replacing a segment by a longer one with the same sequence number. *)
Lemma oos_insert_same a c hi lo x l : seg_at a c -> seg_at a x -> s_len x < s_len c -> lo <= a -> a + TCP_TCPLEN c <= hi ->
  a + TCP_TCPLEN x <= hi -> oosq hi (a + s_len x) l -> (flag_set (h_flags x) TCP_FIN = true -> l = []) -> l <> [] -> hi - a < 65536 ->
  oosq hi lo (tcp_oos_insert_segment (seqn a) c (x :: l)).
Proof.
  intros Hc Hx Hlen Hlo Hhi Hxh Hl Hxf Hne Hsm. pose proof (sa_len _ _ Hc). pose proof (sa_len _ _ Hx).
  destruct (flag_set (h_flags x) TCP_FIN) eqn:Fx; [by rewrite Hxf in Hne|]. destruct (seg_at_nofin_len _ _ Hx Fx) as [Hp Et].
  assert (E : tcp_oos_insert_segment (seqn a) c (x :: l) = tcp_oos_insert_segment (seqn a) c l).
  { unfold tcp_oos_insert_segment. destruct (flag_set (h_flags c) TCP_FIN) eqn:Fc; [done|]. cbn [oos_absorb].
    rewrite (sa_seqno _ _ Hx), Fx, (SEQ_GEQ_off (a + s_len c) (a + s_len x)) by seqs. by rewrite (proj2 (Z.leb_le _ _)) by lia. }
  rewrite E. apply oos_insert_ok; try done. eapply oosq_weaken; [done|lia].
Qed.

(** Cutting the segment in front of the new one. *)
Lemma oos_cut_ok a b x hi : seg_at b x -> flag_set (h_flags x) TCP_FIN = false -> b < a -> b + TCP_TCPLEN x <= hi -> a - b < 65536 ->
  seg_at b (oos_cut (seqn a) x) /\ b + s_len (oos_cut (seqn a) x) <= a /\ flag_set (h_flags (oos_cut (seqn a) x)) TCP_FIN = false
  /\ b + TCP_TCPLEN (oos_cut (seqn a) x) <= hi.
Proof.
  intros Hx Fx Hb Hh Hsm. pose proof (sa_len _ _ Hx). destruct (seg_at_nofin_len _ _ Hx Fx) as [Hp Et]. unfold oos_cut. rewrite (sa_seqno _ _ Hx).
  rewrite (SEQ_GT_off (b + s_len x) a) by seqs. destruct (Z.ltb_spec a (b + s_len x)); [|by split_and!; try lia].
  rsimpl. rewrite seqn_diff by lia. destruct (seg_at_cut b x (a - b) Hx Fx) as [Hcut Etl]; [lia|].
  split_and!; [exact Hcut|rsimpl; lia|done|rewrite Etl; lia].
Qed.

Lemma seg_copy_pcb x s : pcb (snd (tcp_seg_copy x s)) = pcb s.
Proof. unfold tcp_seg_copy, alloc. destruct (allocs s) as [|[] l]; done. Qed.

Lemma seg_copy_at a x s y s' : seg_at a x -> tcp_seg_copy x s = (Some y, s') -> seg_at a y /\ TCP_TCPLEN y = TCP_TCPLEN x /\ s_len y = s_len x.
Proof.
  intros Hx. unfold tcp_seg_copy, alloc. destruct (allocs s) as [|[] l]; intros E; simplify_eq. split_and!; try done. by apply seg_at_ref.
Qed.

(** The queue behind the walk: [prev], if there is one, starts before [a]. *)
Definition walk_pre (hi lo a : Z) (prev : option tcp_seg) (l : list tcp_seg) : Prop :=
  match prev with
  | None => oosq hi lo l
  | Some pv => exists b, lo <= b < a /\ seg_at b pv /\ b + TCP_TCPLEN pv <= hi /\ oosq hi (b + s_len pv) l
                 /\ (flag_set (h_flags pv) TCP_FIN = true -> l = [])
  end.
Definition front (prev : option tcp_seg) : list tcp_seg := match prev with Some pv => [pv] | None => [] end.

(** What the walk leaves untouched is still a queue. *)
Lemma walk_keep hi lo a prev l : walk_pre hi lo a prev l -> oosq hi lo (front prev ++ l).
Proof. destruct prev as [pv|]; [|done]. intros (b & ? & ? & ? & ? & ?). eapply oosq_cons; eauto. lia. Qed.

(** A queue put in place of what follows [prev]. *)
Lemma walk_replace hi lo a prev l l' : walk_pre hi lo a prev l -> l <> [] ->
  match prev with None => oosq hi lo l' | Some pv => forall b, seg_at b pv -> lo <= b < a -> oosq hi (b + s_len pv) l' end ->
  oosq hi lo (front prev ++ l').
Proof.
  intros Hpre Hne Hl'. destruct prev as [pv|]; [|done]. destruct Hpre as (b & Hb & Hpv & Hh & Hl & Hf).
  cbn. eapply oosq_cons; [|exact Hpv|done|by apply Hl'|]; [lia|]. intros F. by rewrite (Hf F) in Hne.
Qed.

Lemma oos_walk_ok iseg a hi R E : seg_at a iseg -> a + TCP_TCPLEN iseg <= hi -> R < a -> hi <= E < R + 65536 ->
  forall l prev lo s, rcv_nxt (pcb s) = seqn R -> rcv_wnd (pcb s) = E - R -> R < lo <= a -> walk_pre hi lo a prev l ->
  exists l' s', oos_walk iseg (seqn a) (TCP_TCPLEN iseg) prev l s = Some (l', s') /\ oosq hi lo l' /\ pcb s' = pcb s.
Proof.
  intros Hi Hih HR Hsm. pose proof (sa_len _ _ Hi) as Li. pose proof (sa_pos _ _ Hi) as Pi.
  induction l as [|nx rest IH]; intros prev lo s Hn Hw Hlo Hpre.
  { eexists _, s. split; [done|]. split; [|done]. rewrite <- (app_nil_r (match prev with Some _ => _ | None => _ end)). by apply walk_keep with a. }
  pose proof (walk_keep _ _ _ _ _ Hpre) as Hkeep. unfold front in Hkeep.
  assert (exists lo', (forall b pv, prev = Some pv -> seg_at b pv -> lo <= b < a -> b < lo' /\ lo' = b + s_len pv) /\ (prev = None -> lo' = lo)
    /\ R < lo' /\ oosq hi lo' (nx :: rest)) as (lo' & Hpv & Hnone & HRl & Hl).
  { destruct prev as [pv|]; [|by exists lo; split_and!; try lia]. destruct Hpre as (b & Hb & Hp & Hh & Hl & Hf).
    destruct (flag_set (h_flags pv) TCP_FIN) eqn:F; [by specialize (Hf eq_refl)|]. destruct (seg_at_nofin_len _ _ Hp F).
    exists (b + s_len pv). split_and!; try done; [|lia]. intros b' pv' [= <-] Hp' Hb'.
    assert (b' = b) as -> by (apply seqn_inj; [lia|]; by rewrite <- (sa_seqno _ _ Hp), <- (sa_seqno _ _ Hp')). lia. }
  inversion Hl as [|? c ? ? Hc Hnx Hnh Hrest Hnf]; subst. pose proof (sa_len _ _ Hnx). pose proof (sa_pos _ _ Hnx).
  cbn [oos_walk]. rewrite (sa_seqno _ _ Hnx), seqn_eqb by lia.
  destruct (Z.eqb_spec a c) as [->|Hne].
  { destruct ((s_len nx <? s_len iseg) && negb (bool_decide (rest = []))) eqn:Eg; [|by eexists _, s].
    bprop. destruct (tcp_seg_copy iseg s) as [[y|] s'] eqn:Ecp; (eexists _, s'; split; [done|]; split; [|by rewrite <- (seg_copy_pcb iseg s), Ecp]); [|done].
    destruct (seg_copy_at _ _ _ _ _ Hi Ecp) as (Hy & Ty & Ly).
    apply (walk_replace hi lo c prev (nx :: rest)); [done..|].
    assert (Hins : forall lo2, lo2 <= c -> oosq hi lo2 (tcp_oos_insert_segment (seqn c) y (nx :: rest))).
    { intros lo2 Hlo2. apply oos_insert_same; try done; try lia. }
    destruct prev as [pv|]; [|apply Hins; lia]. intros b Hb Hb'. apply Hins. destruct (Hpv b pv eq_refl Hb Hb'). lia. }
  set (here := match prev with None => _ | Some _ => _ end). assert (Ehere : here = (a <? c)).
  { unfold here. destruct prev as [pv|]; [|by rewrite (SEQ_LT_off a c) by seqs]. destruct Hpre as (b & Hb & Hp & Hph & _).
    destruct (Hpv b pv eq_refl Hp Hb) as [Hb1 Hb2]. rewrite (sa_seqno _ _ Hp).
    rewrite (SEQ_BETWEEN_off a (b + 1) (c - 1)) by seqs. rewrite (proj2 (Z.leb_le (b + 1) a)) by lia.
    destruct (Z.leb_spec a (c - 1)), (Z.ltb_spec a c); try done; lia. }
  rewrite Ehere. destruct (Z.ltb_spec a c) as [Hac|Hac].
  { destruct (tcp_seg_copy iseg s) as [[y|] s'] eqn:Ecp; (eexists _, s'; split; [done|]; split; [|by rewrite <- (seg_copy_pcb iseg s), Ecp]); [|done].
    destruct (seg_copy_at _ _ _ _ _ Hi Ecp) as (Hy & Ty & Ly).
    assert (Hins : forall lo2, lo2 <= a -> oosq hi lo2 (tcp_oos_insert_segment (seqn a) y (nx :: rest))).
    { intros lo2 Hlo2. apply oos_insert_ok; try done; try lia. eapply oosq_cons; eauto. lia. }
    destruct prev as [pv|]; [|apply Hins; lia]. destruct Hpre as (b & Hb & Hp & Hph & Hpl & Hpf).
    destruct (flag_set (h_flags pv) TCP_FIN) eqn:F; [by specialize (Hpf eq_refl)|].
    destruct (oos_cut_ok a b pv hi Hp F) as (Q1 & Q2 & Q3 & Q4); [lia..|].
    cbn. eapply oosq_cons; [|exact Q1|done|by apply Hins|by rewrite Q3]. lia. }
  rewrite (SEQ_GT_off a c) by seqs. rewrite (proj2 (Z.ltb_lt c a)), andb_true_r by lia.
  destruct (bool_decide (rest = [])) eqn:Er; bprop.
  - subst rest. destruct (flag_set (h_flags nx) TCP_FIN) eqn:Fn; [by eexists _, s|].
    destruct (tcp_seg_copy iseg s) as [[y|] s'] eqn:Ecp;
      [|eexists _, s'; split; [done|]; split; [done|by rewrite <- (seg_copy_pcb iseg s), Ecp]].
    assert (Ep : pcb s' = pcb s) by (by rewrite <- (seg_copy_pcb iseg s), Ecp).
    destruct (seg_copy_at _ _ _ _ _ Hi Ecp) as (Hy & Ty & Ly). unfold oos_fit_window. rewrite Ep, Hn, Hw.
    rewrite (SEQ_GT_off (a + TCP_TCPLEN iseg) E) by (rewrite ?seqn_add; first [f_equal; unfold seqn; zlia | lia]).
    rewrite (proj2 (Z.ltb_ge E (a + TCP_TCPLEN iseg))) by lia.
    eexists _, s'. split; [done|]. split; [|done]. apply (walk_replace hi lo a prev [nx]); [done..|].
    destruct (oos_cut_ok a c nx hi Hnx Fn) as (Q1 & Q2 & Q3 & Q4); [lia..|].
    assert (Hins : forall lo2, lo2 <= c -> oosq hi lo2 [oos_cut (seqn a) nx; y]).
    { intros lo2 Hlo2. eapply oosq_cons; [done|exact Q1|done| |by rewrite Q3]. eapply oosq_cons; [|exact Hy|by rewrite Ty|apply oosq_nil|done]. lia. }
    destruct prev as [pv|]; [|apply Hins; lia]. intros b Hb Hb'. apply Hins. destruct (Hpv b pv eq_refl Hb Hb'). lia.
  - destruct (IH (Some nx) lo' s Hn Hw) as (l' & s' & -> & Hl' & Ep'); [lia|by exists c; split_and!; try lia|].
    eexists _, s'. split; [done|]. split; [|done]. apply (walk_replace hi lo a prev (nx :: rest)); [done..|].
    destruct prev as [pv|]; [|by rewrite <- Hnone]. intros b Hb Hb'. destruct (Hpv b pv eq_refl Hb Hb') as [? <-]. done.
Qed.

(** ** The receive window *)

(** The receive side of a pcb: the next position expected is [R], the window
    ends at [E], the peer has been told of the window up to [A]. *)
Record rx_base (R E A : Z) (p : tcp_pcb) : Prop := {
  rx_nxt : rcv_nxt p = seqn R;
  rx_wnd : rcv_wnd p = E - R;
  rx_rng : R <= E < R + 65536;
  rx_edge : rcv_ann_right_edge p = seqn A;
  rx_edge_rng : A <= E < A + 1073741824;
  rx_ann : A <= R + rcv_ann_wnd p <= E /\ 0 <= rcv_ann_wnd p;
  rx_mss : 0 <= mss p < 65536;
}.

(** With the queue of out-of-order segments, which end at [M] at the latest. *)
Definition rx_inv (R E A M : Z) (p : tcp_pcb) : Prop := rx_base R E A p /\ oosq M (R + 1) (ooseq p) /\ R <= M <= E.

Lemma rx_inv_raise R E A M M' p : rx_inv R E A M p -> M <= M' <= E -> rx_inv R E A M' p.
Proof. intros (H1 & H2 & H3) H4. split_and!; [done| |lia|lia]. eapply oosq_raise; [done|lia]. Qed.

(** The announced window: it ends neither before what was announced nor after
    the window. *)
Lemma ann_wnd_ok R E A p : rcv_nxt p = seqn R -> rcv_wnd p = E - R -> R <= E < R + 65536 -> rcv_ann_right_edge p = seqn A ->
  A <= E < A + 1073741824 -> 0 <= mss p < 65536 ->
  exists n w, tcp_update_rcv_ann_wnd p = Some (n, p <| rcv_ann_wnd := w |>) /\ A <= R + w <= E /\ 0 <= w
  /\ (n = 0 \/ n = E - A).
Proof.
  intros Hn Hw Hr He Ha Hm. pose proof tcp_wnd_range. unfold TCP_MSS in *. unfold tcp_update_rcv_ann_wnd. rewrite Hn, Hw, He.
  assert (0 <= Z.min (TCP_WND / 2) (mss p) <= 65535) as Hmin by lia.
  rewrite (SEQ_GEQ_off E (A + Z.min (TCP_WND / 2) (mss p))) by (rewrite ?seqn_add, ?seqn_u32; first [f_equal; lia | lia]).
  destruct (Z.leb_spec (A + Z.min (TCP_WND / 2) (mss p)) E).
  { eexists _, (E - R). split; [done|]. split; [lia|]. split; [lia|]. right. unfold seqn. zlia. }
  rewrite (SEQ_GT_off R A) by seqs. destruct (Z.ltb_spec A R).
  { exists 0, 0. split; [done|]. lia. }
  replace (u32 (seqn A - seqn R)) with (A - R) by (unfold seqn; zlia). rewrite (proj2 (Z.leb_le (A - R) 65535)) by lia. rewrite orb_true_r.
  exists 0, (A - R). replace (tcpwnd (A - R)) with (A - R) by (unfold tcpwnd; case_match; zlia). split; [done|]. lia.
Qed.

(** What a segment adds to the data for the application. *)
Definition rdata (t : tcp_in) : list Z := match recv_data t with Some c => cbytes c | None => [] end.
Definition got_fin (t : tcp_in) : bool := flag_set (recv_flags t) TF_GOT_FIN.

Definition delivered (R R' : Z) (f : bool) (t t' : tcp_in) : Prop :=
  R + b2z f <= R' /\ rdata t' = rdata t ++ slice R (R' - R - b2z f) /\ got_fin t' = got_fin t || f /\ (f = true -> fin = Some (R' - 1))
  /\ (R < R' -> forall l, fin = Some l -> R' - b2z f <= l).

Lemma delivered_trans R R1 R2 f t t1 t2 : delivered R R1 false t t1 -> delivered R1 R2 f t1 t2 -> delivered R R2 f t t2.
Proof.
  intros (H1 & D1 & G1 & _ & L1) (H2 & D2 & G2 & F2 & L2). unfold delivered. cbn [b2z] in *. assert (0 <= b2z f) by (destruct f; cbn; lia).
  split_and!; [lia| |by rewrite G2, G1, orb_false_r|done|].
  2: { intros HRR l Hl. destruct (Z.eq_dec R1 R2) as [<-|]; [|by apply L2; [lia|]]. destruct f; cbn [b2z] in *; [lia|].
       pose proof (L1 HRR l Hl). lia. }
  rewrite D2, D1, <- app_assoc. f_equal. replace R1 with (R + (R1 - R - 0)) at 2 by lia.
  rewrite slice_app by lia. f_equal. lia.
Qed.

Lemma got_fin_set f : flag_set (Z.lor f TF_GOT_FIN) TF_GOT_FIN = true.
Proof. change TF_GOT_FIN with (2 ^ 5) at 2. rewrite flag_bit, Z.lor_spec by lia. apply orb_true_r. Qed.

(** Taking one segment that is next in sequence. *)
Lemma take_seg_ok R E A x t : rx_base R E A (ipcb t) -> seg_at R x -> R + TCP_TCPLEN x <= E ->
  exists t', take_seg x (TCP_TCPLEN x) t = Some t' /\ rx_base (R + TCP_TCPLEN x) E A (ipcb t') /\ ooseq (ipcb t') = ooseq (ipcb t)
  /\ state (ipcb t') = state (ipcb t)
  /\ delivered R (R + TCP_TCPLEN x) (flag_set (h_flags x) TCP_FIN) t t'.
Proof.
  intros Hb Hx Hh. pose proof (sa_pos _ _ Hx) as Hp. pose proof (sa_len _ _ Hx) as Hlen. destruct Hb as [Bn Bw Br Be Bt Ba Bm].
  unfold take_seg. rewrite (sa_seqno _ _ Hx), seqn_add.
  set (p1 := (ipcb t) <| rcv_nxt := _ |>). change (rcv_wnd p1) with (rcv_wnd (ipcb t)). rewrite Bw.
  rewrite (proj2 (Z.leb_le _ _)) by lia. set (p2 := p1 <| rcv_wnd := _ |>).
  destruct (ann_wnd_ok (R + TCP_TCPLEN x) E A p2) as (n & w & -> & W1 & W2 & _); try done; try lia; [unfold p2, p1; rsimpl; lia|].
  eexists. split; [done|].
  assert (Hdel : forall t0, rdata t0 = rdata t -> got_fin t0 = got_fin t ->
    delivered R (R + TCP_TCPLEN x) (flag_set (h_flags x) TCP_FIN) t
      (let t1 := if 0 <? tot_len (s_p x) then t0 <| recv_data := Some (match recv_data t0 with Some d => d ++ s_p x | None => s_p x end) |> else t0 in
       if flag_set (h_flags x) TCP_FIN then t1 <| recv_flags := Z.lor (recv_flags t1) TF_GOT_FIN |> else t1)).
  { intros t0 Hd Hg. cbv zeta. set (t1 := if 0 <? tot_len (s_p x) then _ else _).
    assert (H1 : rdata t1 = rdata t ++ slice R (s_len x)).
    { rewrite <- Hd, <- (sa_bytes _ _ Hx). unfold t1, tot_len. destruct (Z.ltb_spec 0 (lenz (cbytes (s_p x)))) as [|Hz].
      - unfold rdata. rsimpl. destruct (recv_data t0); [apply cbytes_app|done].
      - pose proof (lenz_nonneg (cbytes (s_p x))). destruct (cbytes (s_p x)); [by rewrite app_nil_r|rewrite lenz_cons in *; pose proof (lenz_nonneg l); lia]. }
    assert (G1 : got_fin t1 = got_fin t) by (unfold t1, got_fin; case_match; done).
    unfold delivered. rewrite (seg_at_tcplen _ _ Hx). destruct (flag_set (h_flags x) TCP_FIN) eqn:F; cbn [b2z].
    - split_and!; [lia| | | |].
      + change (rdata (t1 <| recv_flags := _ |>)) with (rdata t1). rewrite H1. do 2 f_equal. lia.
      + unfold got_fin at 1. rsimpl. by rewrite got_fin_set, orb_true_r.
      + intros _. rewrite (sa_fin _ _ Hx F). f_equal. lia.
      + intros _ l Hl. pose proof (sa_in _ _ Hx l Hl). lia.
    - split_and!; [lia| |by rewrite orb_false_r|done|intros _ l Hl; pose proof (sa_in _ _ Hx l Hl); lia]. rewrite H1. do 2 f_equal. lia. }
  assert (Hip : forall t0, ipcb (let t1 := if 0 <? tot_len (s_p x) then t0 <| recv_data := Some (match recv_data t0 with Some d => d ++ s_p x | None => s_p x end) |> else t0 in
       if flag_set (h_flags x) TCP_FIN then t1 <| recv_flags := Z.lor (recv_flags t1) TF_GOT_FIN |> else t1) = ipcb t0) by (intros t0; cbv zeta; repeat case_match; done).
  cbv zeta in Hdel, Hip. rewrite !Hip. change (ipcb (updi _ t)) with (p2 <| rcv_ann_wnd := w |>).
  split; [split; try done; try lia; unfold p2, p1; rsimpl; lia|]. split; [done|]. split; [done|].
  by apply Hdel.
Qed.

Lemma delivered_refl R t t' : rdata t' = rdata t -> got_fin t' = got_fin t -> delivered R R false t t'.
Proof.
  intros Hd Hg. unfold delivered. cbn [b2z]. rewrite Hd, Hg, slice_0, app_nil_r, orb_false_r by lia. split_and!; try done; lia.
Qed.

Lemma rx_base_ext R E A p p' : rx_base R E A p -> rcv_nxt p' = rcv_nxt p -> rcv_wnd p' = rcv_wnd p ->
  rcv_ann_right_edge p' = rcv_ann_right_edge p -> rcv_ann_wnd p' = rcv_ann_wnd p -> mss p' = mss p -> rx_base R E A p'.
Proof. intros [] H1 H2 H3 H4 H5. split; rewrite ?H1, ?H2, ?H3, ?H4, ?H5; done. Qed.

Lemma rx_inv_flags R E A M p f : rx_inv R E A M p -> rx_inv R E A M (p <| flags := f |>).
Proof. intros (Hb & Ho & Hm). split_and!; try done; try lia. by eapply rx_base_ext. Qed.

Lemma tcp_ack_rx R E A M p : rx_inv R E A M p -> rx_inv R E A M (tcp_ack p).
Proof. intros H. unfold tcp_ack. case_match; by repeat apply rx_inv_flags. Qed.

(** The queue after in-sequence data: all that has become in-sequence is
    delivered. *)
Lemma deliver_oos_ok E A M : M <= E -> forall q R t, rx_base R E A (ipcb t) -> oosq M R q -> R <= M ->
  exists t' R' f, deliver_oos q t = Some t' /\ delivered R R' f t t' /\ rx_inv R' E A M (ipcb t')
  /\ match q with [] => True | y :: _ => seg_at R y -> R + TCP_TCPLEN y <= R' end.
Proof.
  intros HM. induction q as [|x rest IH]; intros R t Hb Hq HRM; cbn [deliver_oos].
  { eexists _, R, false. split; [done|]. split; [by apply delivered_refl|]. split; [|done]. split_and!; [by eapply rx_base_ext|apply oosq_nil|lia|lia]. }
  inversion Hq as [|? b ? ? Hlo Hx Hxh Hrest Hxf]; subst. pose proof (sa_pos _ _ Hx) as Hp.
  pose proof (rx_rng _ _ _ _ Hb). rewrite (sa_seqno _ _ Hx), (rx_nxt _ _ _ _ Hb), seqn_eqb by lia.
  destruct (Z.eqb_spec b R) as [->|Hne].
  2: { eexists _, R, false. split; [done|]. split; [by apply delivered_refl|]. split.
       - split_and!; [by eapply rx_base_ext| |lia|lia]. change (ooseq _) with (x :: rest). eapply oosq_cons; eauto. lia.
       - intros Hy. exfalso. apply Hne. apply seqn_inj; [lia|]. by rewrite <- (sa_seqno _ _ Hx), <- (sa_seqno _ _ Hy). }
  destruct (take_seg_ok R E A x t Hb Hx ltac:(lia)) as (t1 & -> & Hb1 & Ho1 & _ & Hd1).
  set (t2 := if flag_set _ _ && _ then _ else _). set (t3 := t2 <| seqno := _ |>).
  assert (Hd3 : delivered R (R + TCP_TCPLEN x) (flag_set (h_flags x) TCP_FIN) t t3).
  { assert (E3 : rdata t3 = rdata t1 /\ got_fin t3 = got_fin t1) by (unfold t3, t2; by destruct (_ && _)).
    unfold delivered. rewrite (proj1 E3), (proj2 E3). exact Hd1. }
  assert (Hb3 : rx_base (R + TCP_TCPLEN x) E A (ipcb t3)).
  { eapply rx_base_ext; [exact Hb1|..]; unfold t3, t2; by destruct (_ && _). }
  destruct (flag_set (h_flags x) TCP_FIN) eqn:F.
  - rewrite (Hxf eq_refl). cbn [deliver_oos]. eexists _, (R + TCP_TCPLEN x), true. split; [done|]. split; [|split; [|done]].
    + exact Hd3.
    + split_and!; [by eapply rx_base_ext|apply oosq_nil|lia|lia].
  - destruct (seg_at_nofin_len _ _ Hx F) as [_ Et]. rewrite <- Et in Hrest.
    destruct (IH (R + TCP_TCPLEN x) t3 Hb3 Hrest ltac:(lia)) as (t' & R' & f & E' & Hd' & Hi' & _).
    exists t', R', f. split; [exact E'|]. split; [by eapply delivered_trans|]. split; [done|]. intros _. destruct Hd' as [Hr' _].
    destruct f; cbn [b2z] in Hr'; lia.
Qed.

(** ** A segment that is next in sequence *)
Lemma u16_tcplen a x hi : seg_at a x -> a + TCP_TCPLEN x <= hi -> hi < a + 65536 -> u16 (TCP_TCPLEN x) = TCP_TCPLEN x.
Proof. intros Hx H1 H2. pose proof (sa_pos _ _ Hx). apply u16_id. zlia. Qed.

Lemma inseg_absorb_ok R hi : hi < R + 65536 -> forall l x, seg_at R x -> flag_set (h_flags x) TCP_FIN = false -> R + TCP_TCPLEN x <= hi ->
  oosq hi (R + 1) l ->
  exists x' q, inseg_absorb (seqn R) x l = (x', q) /\ seg_at R x' /\ s_len x' = s_len x /\ R + TCP_TCPLEN x <= R + TCP_TCPLEN x' <= hi
  /\ (flag_set (h_flags x') TCP_FIN = true -> q = [])
  /\ match q with [] => True | y :: _ => exists c, seg_at c y /\ R + 1 <= c /\ R + s_len x < c + s_len y /\ oosq hi c q end.
Proof.
  intros Hsm. induction l as [|y l IH]; intros x Hx F Hh Hl; cbn [inseg_absorb].
  { exists x, []. split_and!; try done; lia. }
  inversion Hl as [|? c ? ? Hc Hy Hyh Hl' Hyf]; subst. pose proof (sa_len _ _ Hx). pose proof (sa_len _ _ Hy). pose proof (sa_pos _ _ Hy).
  destruct (seg_at_nofin_len _ _ Hx F) as [Hp Et]. pose proof (seg_at_tcplen _ _ Hy) as Ty.
  rewrite (u16_tcplen R x hi), (sa_seqno _ _ Hy), (SEQ_GEQ_off (R + s_len x) (c + s_len y)) by (rewrite ?Et; seqs).
  destruct (Z.leb_spec (c + s_len y) (R + s_len x)).
  2: { exists x, (y :: l). rewrite F. split_and!; try done; try lia. exists c. split_and!; try done; try lia. eapply oosq_cons; eauto. lia. }
  rewrite (sa_nosyn _ _ Hx), andb_true_r. destruct (flag_set (h_flags y) TCP_FIN) eqn:Fy.
  - rewrite (Hyf eq_refl). pose proof (sa_fin _ _ Hy Fy) as Ef. pose proof (sa_in _ _ Hx _ Ef).
    pose proof (seg_at_setfin R x Hx ltac:(rewrite Ef; f_equal; lia)) as Hx'. cbn [inseg_absorb].
    eexists _, []. split; [done|]. rewrite (seg_at_tcplen _ _ Hx'). rsimpl. rewrite (proj1 (set_fin _)). split_and!; try done; lia.
  - apply IH; try done. eapply oosq_weaken; [done|]. lia.
Qed.

Lemma inseg_cut_ok R x n : seg_at R x -> flag_set (h_flags x) TCP_FIN = false -> 0 < n <= s_len x ->
  seg_at R (inseg_cut n x) /\ TCP_TCPLEN (inseg_cut n x) = n /\ s_len (inseg_cut n x) = n /\ flag_set (h_flags (inseg_cut n x)) TCP_FIN = false.
Proof.
  intros Hx F Hn. pose proof (sa_len _ _ Hx). unfold inseg_cut. rewrite (sa_nosyn _ _ Hx), u16_id by zlia.
  destruct (seg_at_cut R x n Hx F Hn) as [H1 H2]. by split_and!.
Qed.

Lemma seg_at_clearfin a x : seg_at a x -> 0 < s_len x ->
  let y := if flag_set (h_flags x) TCP_FIN then x <| h_flags := Z.land (h_flags x) (Z.lnot TCP_FIN) |> else x in
  seg_at a y /\ flag_set (h_flags y) TCP_FIN = false /\ s_len y = s_len x.
Proof.
  intros Hx Hp. destruct (flag_set (h_flags x) TCP_FIN) eqn:F; [|by split_and!]. cbv zeta. destruct (clear_fin (h_flags x)) as [C1 C2].
  split_and!; try done. split; rsimpl; try apply Hx.
  - by rewrite C2, (sa_nosyn _ _ Hx).
  - by rewrite C1.
  - rewrite TCPLEN_fin by (rsimpl; rewrite C2; apply Hx). rsimpl. rewrite C1. lia.
Qed.

(** What is delivered at least: the segment, up to the end of the window. *)
Lemma receive_inseq_ok R E A M t : rx_inv R E A M (ipcb t) -> R < E -> seg_at R (inseg t) -> seqno t = seqn R ->
  exists t' R' f, receive_inseq t = Some t' /\ delivered R R' f t t' /\ rx_inv R' E A (Z.max M (Z.min (R + TCP_TCPLEN (inseg t)) E)) (ipcb t') /\ Z.min (R + TCP_TCPLEN (inseg t)) E <= R'.
Proof.
  intros Hi HRE Hx Hs. set (M' := Z.max M (Z.min (R + TCP_TCPLEN (inseg t)) E)).
  pose proof Hi as (_ & _ & HM). apply (rx_inv_raise _ _ _ _ M') in Hi; [|unfold M'; lia]. destruct Hi as (Hb & Hq & HM').
  pose proof Hb as [Bn Bw Br Be Bt Ba Bm].
  unfold receive_inseq. rewrite Hs. pose proof (sa_len _ _ Hx). pose proof (sa_pos _ _ Hx). pose proof (seg_at_tcplen _ _ Hx) as Tx.
  rewrite (u16_id (TCP_TCPLEN (inseg t))) by (revert Tx; case_match; intros; zlia).
  (* the window *)
  set (cut := if rcv_wnd (ipcb t) <? _ then _ else _).
  assert (exists x, cut = Some x /\ seg_at R x /\ R + TCP_TCPLEN x <= M' /\ Z.min (R + TCP_TCPLEN (inseg t)) E <= R + TCP_TCPLEN x) as (x & -> & Hx1 & Hh1 & Hm1).
  { unfold cut. rewrite Bw. destruct (Z.ltb_spec (E - R) (TCP_TCPLEN (inseg t))) as [Hov|]; [|by exists (inseg t); split_and!; try lia].
    assert (E - R <= s_len (inseg t)) by (revert Tx; case_match; intros; lia).
    destruct (seg_at_clearfin R (inseg t) Hx ltac:(lia)) as (Hc & Fc & Lc). set (y := if flag_set _ _ then _ <| h_flags := _ |> else _) in *.
    rewrite (proj2 (Z.leb_le (E - R) 65535)), orb_true_r by lia.
    destruct (inseg_cut_ok R y (E - R) Hc Fc) as (C1 & C2 & C3 & C4); [lia|]. exists (inseg_cut (E - R) y).
    rewrite C2, Bn, (u16_id (E - R)), Z.eqb_refl by zlia. split_and!; try done; lia. }
  (* the queue *)
  set (prep := match ooseq (ipcb t) with [] => _ | _ => _ end).
  assert (exists x' q, prep = Some (x', q) /\ seg_at R x' /\ R + TCP_TCPLEN x' <= M' /\ oosq M' (R + TCP_TCPLEN x') q
    /\ (flag_set (h_flags x') TCP_FIN = true -> q = []) /\ (R + TCP_TCPLEN x <= R + TCP_TCPLEN x' \/ exists y l, q = y :: l /\ seg_at (R + TCP_TCPLEN x') y /\ R + TCP_TCPLEN x <= R + TCP_TCPLEN x' + s_len y))
    as (x' & q & -> & Hx2 & Hh2 & Hq2 & Hf2 & Hcov).
  { unfold prep. destruct (ooseq (ipcb t)) as [|y0 l0] eqn:Eq; [exists x, []; split_and!; try done; try apply oosq_nil; left; lia|]. rewrite <- Eq in *.
    destruct (flag_set (h_flags x) TCP_FIN) eqn:F; [exists x, []; split_and!; try done; try apply oosq_nil; left; lia|].
    destruct (inseg_absorb_ok R M' ltac:(lia) (ooseq (ipcb t)) x Hx1 F Hh1 Hq) as (x2 & q2 & -> & Hx2 & L2 & Hh2 & F2 & Hy).
    destruct q2 as [|y l]; [exists x2, []; split_and!; try done; try lia; try apply oosq_nil; left; lia|]. destruct Hy as (c & Hy & Hc & Hcov & Hq2).
    destruct (flag_set (h_flags x2) TCP_FIN) eqn:F'; [by specialize (F2 eq_refl)|]. destruct (seg_at_nofin_len _ _ Hx2 F') as [Hp2 Et2].
    destruct (seg_at_nofin_len _ _ Hx1 F) as [_ Et1]. pose proof (oosq_hi _ _ _ Hq2 ltac:(done)). pose proof (sa_len _ _ Hx2).
    rewrite (u16_tcplen R x2 M'), Et2, (sa_seqno _ _ Hy), (SEQ_GT_off (R + s_len x2) c) by seqs.
    destruct (Z.ltb_spec c (R + s_len x2)) as [Hlt|Hge].
    - replace (inseg_cut (seqn c - seqn R) x2) with (inseg_cut (c - R) x2)
        by (unfold inseg_cut; rewrite seqn_diff by lia; by rewrite (u16_id (c - R)) by zlia).
      destruct (inseg_cut_ok R x2 (c - R) Hx2 F') as (C1 & C2 & C3 & C4); [lia|].
      rewrite C2, (u16_id (c - R)), seqn_add by zlia. replace (R + (c - R)) with c by lia. rewrite Z.eqb_refl.
      exists (inseg_cut (c - R) x2), (y :: l). rewrite C2. replace (R + (c - R)) with c by lia. split_and!; try done; try lia; [by rewrite C4|]. right. exists y, l. split_and!; try done. lia.
    - exists x2, (y :: l). rewrite Et2, F' in *. split_and!; try done; try lia. eapply oosq_weaken; [done|lia]. }
  set (t1 := _ <| tcplen := _ |>).
  assert (Hb1 : rx_base R E A (ipcb t1)) by (by eapply rx_base_ext).
  change (tcplen t1) with (u16 (TCP_TCPLEN x')). rewrite (u16_tcplen R x' M') by (done || lia).
  destruct (take_seg_ok R E A x' t1 Hb1 Hx2 ltac:(lia)) as (t2 & -> & Hb2 & Ho2 & _ & Hd2).
  destruct (flag_set (h_flags x') TCP_FIN) eqn:F.
  - rewrite (Hf2 eq_refl) in *. cbn [deliver_oos]. eexists _, _, true. split; [done|]. split; [exact Hd2|]. split.
    + apply tcp_ack_rx. split_and!; [by eapply rx_base_ext|apply oosq_nil|lia|lia].
    + destruct Hcov as [|(y & l & ? & _)]; [lia|done].
  - destruct (deliver_oos_ok E A M' ltac:(lia) q (R + TCP_TCPLEN x') t2 Hb2 Hq2 ltac:(lia)) as (t3 & R' & f & -> & Hd3 & Hi3 & Hprog).
    eexists _, R', f. split; [done|]. split; [|split].
    + eapply delivered_trans; [exact Hd2|exact Hd3].
    + by apply tcp_ack_rx.
    + assert (R + TCP_TCPLEN x' <= R') by (destruct Hd3 as [Hr _]; destruct f; cbn [b2z] in Hr; lia).
      destruct Hcov as [|(y & l & -> & Hy & Hcov)]; [lia|]. specialize (Hprog Hy). pose proof (seg_at_tcplen _ _ Hy) as Ty.
      destruct (flag_set (h_flags y) TCP_FIN); lia.
Qed.

(** ** A segment out of order, or not wanted *)

(** An empty acknowledgement may tell the peer of more window. *)
Lemma empty_ack_rx R E A M s : rx_inv R E A M (pcb s) -> exists A', A <= A' /\ rx_inv R E A' M (pcb (snd (tcp_send_empty_ack s))).
Proof.
  intros (Hb & Ho & HM). unfold tcp_send_empty_ack, tcp_output_alloc_header, tcp_output_control_segment, ip_output_if.
  pose proof Hb as [Bn Bw Br Be Bt Ba Bm].
  assert (Hnew : rx_inv R E (R + rcv_ann_wnd (pcb s)) M ((pcb s) <| rcv_ann_right_edge := u32 (rcv_nxt (pcb s) + rcv_ann_wnd (pcb s)) |>)).
  { split_and!; try done; try lia. split; rsimpl; try done; try lia. by rewrite Bn, seqn_add. }
  unfold alloc. destruct (allocs s) as [|[] l].
  - exists A. split; [lia|]. by apply rx_inv_flags.
  - exists (R + rcv_ann_wnd (pcb s)). split; [lia|].
    destruct (tcp_route _ _ _); [|by apply rx_inv_flags].
    destruct (ipres _) as [|e l']; [by apply rx_inv_flags|]. cbn [fst snd]. destruct (negb (err_ok e)); by apply rx_inv_flags.
  - exists A. split; [lia|]. by apply rx_inv_flags.
Qed.

Lemma receive_oos_ok R E A M a t : rx_inv R E A M (ipcb t) -> seg_at a (inseg t) -> seqno t = seqn a -> tcplen t = TCP_TCPLEN (inseg t) ->
  R < a -> a + TCP_TCPLEN (inseg t) <= E ->
  exists t' A', receive_oos t = Some t' /\ A <= A' /\ rx_inv R E A' (Z.max M (a + TCP_TCPLEN (inseg t))) (ipcb t') /\ rdata t' = rdata t /\ got_fin t' = got_fin t.
Proof.
  intros Hi Hx Hs Ht HRa Hh. set (M' := Z.max M (a + TCP_TCPLEN (inseg t))). pose proof Hi as (_ & _ & HM).
  apply (rx_inv_raise _ _ _ _ M') in Hi; [|unfold M'; lia]. destruct Hi as (Hb & Ho & HM').
  unfold receive_oos. unfold ipcb in *. pose proof Hb as [Bn Bw Br Be Bt Ba Bm].
  set (r := match ooseq (pcb (st t)) with [] => _ | _ => _ end).
  assert (exists s, r = Some s /\ rx_inv R E A M' (pcb s)) as (s & -> & Hi).
  { unfold r. destruct (ooseq (pcb (st t))) as [|y l] eqn:Eq.
    - destruct (tcp_seg_copy (inseg t) (st t)) as [c s] eqn:Ec.
      assert (Ep : pcb s = pcb (st t)) by (by rewrite <- (seg_copy_pcb (inseg t) (st t)), Ec).
      eexists. split; [done|]. split_and!; [eapply rx_base_ext; [exact Hb|..]; unfold updp; rsimpl; by rewrite Ep| |lia|lia].
      change (oosq M' (R + 1) (match c with Some x => [x] | None => [] end)). destruct c as [x|]; [|apply oosq_nil].
      destruct (seg_copy_at _ _ _ _ _ Hx Ec) as (Hy & Ty & Ly). eapply oosq_cons; [|exact Hy|rewrite Ty; lia|apply oosq_nil|done]. lia.
    - rewrite <- Eq in *. rewrite Hs, Ht.
      destruct (oos_walk_ok (inseg t) a M' R E Hx ltac:(lia) HRa ltac:(lia) (ooseq (pcb (st t))) None (R + 1) (st t) Bn Bw) as (l' & s' & -> & Hl' & Ep); [lia|done|].
      eexists. split; [done|]. split_and!; [eapply rx_base_ext; [exact Hb|..]; unfold updp; rsimpl; by rewrite Ep|done|lia|lia]. }
  destruct (empty_ack_rx R E A M' s Hi) as (A' & HA & Hi'). destruct (tcp_send_empty_ack s) as [e s'].
  eexists _, A'. by split_and!.
Qed.

(** ** [tcp_receive] *)

(** A segment whose text starts at [a], as [tcp_input] hands it over. *)
Record in_seg (a : Z) (t : tcp_in) : Prop := {
  is_seg : seg_at a (inseg t);
  is_seqno : seqno t = seqn a;
  is_tcplen : tcplen t = TCP_TCPLEN (inseg t);
}.

(** Cutting what was received before off the front. *)
Lemma front_trim a R x : seg_at a x -> a < R -> R < a + TCP_TCPLEN x ->
  let y := x <| s_len := u16 (s_len x - (R - a)) |> <| s_p := cdrop (R - a) (s_p x) |> <| h_seqno := seqn R |> in
  R - a <= s_len x /\ seg_at R y /\ R + TCP_TCPLEN y = a + TCP_TCPLEN x.
Proof.
  intros Hx H1 H2. pose proof (sa_len _ _ Hx). rewrite (seg_at_tcplen _ _ Hx) in *.
  assert (Hle : R - a <= s_len x) by (destruct (flag_set (h_flags x) TCP_FIN); lia). rewrite u16_id by zlia. cbv zeta.
  assert (ET : TCP_TCPLEN (x <| s_len := s_len x - (R - a) |> <| s_p := cdrop (R - a) (s_p x) |> <| h_seqno := seqn R |>)
     = s_len x - (R - a) + (if flag_set (h_flags x) TCP_FIN then 1 else 0)) by (rewrite TCPLEN_fin by (rsimpl; apply Hx); done).
  rewrite ET. split_and!; [lia| |lia]. split; try (rewrite ET; lia); rsimpl; try apply Hx; try lia.
  - rewrite cdrop_bytes by (unfold tot_len; rewrite (sa_bytes _ _ Hx), slice_len; lia). rewrite (sa_bytes _ _ Hx).
    rewrite slice_drop by lia. f_equal; lia.
  - intros F. rewrite (sa_fin _ _ Hx F). f_equal. lia.
  - intros l Hl. pose proof (sa_in _ _ Hx l Hl). lia.
Qed.

(** The outcome of a segment at [a] for a receiver at [R]: bytes from [R] on and
    possibly the FIN are delivered; a segment that continues the stream is
    taken up to the end of the window. *)
Definition rx_step (R E A M a : Z) (t t' : tcp_in) : Prop :=
  exists R' A' f, delivered R R' f t t' /\ rx_inv R' E A' (Z.max M (Z.min (a + TCP_TCPLEN (inseg t)) E)) (ipcb t') /\ A <= A'
  /\ (state_num (state (ipcb t)) < state_num CLOSE_WAIT -> a <= R < a + TCP_TCPLEN (inseg t) -> Z.min (a + TCP_TCPLEN (inseg t)) E <= R').

(** Nothing is delivered, and nothing had to be. *)
Lemma rx_step_skip R E A M a t t' : rdata t' = rdata t -> got_fin t' = got_fin t ->
  (exists A', A <= A' /\ rx_inv R E A' M (ipcb t')) ->
  (state_num (state (ipcb t)) < state_num CLOSE_WAIT -> a <= R < a + TCP_TCPLEN (inseg t) -> E <= R) -> rx_step R E A M a t t'.
Proof.
  intros H1 H2 (A' & H3 & H4) H5. exists R, A', false. pose proof H4 as (_ & _ & HM). split_and!; try done; [by apply delivered_refl|eapply rx_inv_raise; [done|lia]|]. intros. specialize (H5 ltac:(done) ltac:(done)). lia.
Qed.

Lemma rx_step_empty_ack R E A M a t t1 : rdata t1 = rdata t -> got_fin t1 = got_fin t -> rx_inv R E A M (ipcb t1) ->
  (state_num (state (ipcb t)) < state_num CLOSE_WAIT -> a <= R < a + TCP_TCPLEN (inseg t) -> E <= R) ->
  rx_step R E A M a t (t1 <| st := snd (tcp_send_empty_ack (st t1)) |>).
Proof. intros H1 H2 H3 H4. apply rx_step_skip; [done..| |done]. by apply empty_ack_rx. Qed.

Lemma receive_text_ok R E A M a t : rx_inv R E A M (ipcb t) -> in_seg a t -> Z.abs (a - R) < 1073741824 ->
  (R < a < E -> a + TCP_TCPLEN (inseg t) <= E) ->
  exists t', receive_text t = Some t' /\ rx_step R E A M a t t'.
Proof.
  intros Hi [Hx Hs Ht] Hnear Hwin. pose proof Hi as ([Bn Bw Br Be Bt Ba Bm] & Ho & HM). unfold receive_text. rewrite Hs, Ht, Bn, Bw.
  pose proof (sa_pos _ _ Hx) as Hp. pose proof (sa_len _ _ Hx) as Hlen. pose proof (seg_at_tcplen _ _ Hx) as Tx.
  assert (Hnt : TCP_TCPLEN (inseg t) <= 65535) by (rewrite Tx; case_match; lia).
  assert (HE : u32 (seqn R + (E - R) - 1) = seqn (E - 1)) by (unfold seqn; zlia).
  rewrite (proj2 (Z.ltb_lt 0 _)) by lia. cbn [andb].
  destruct (Z.ltb_spec (state_num (state (ipcb t))) (state_num CLOSE_WAIT)) as [Hst|Hst].
  2: { destruct (negb (TCP_SEQ_BETWEEN _ _ _)); (eexists; split; [done|]); apply rx_step_skip; try done; try lia; exists A; (split; [lia|]); first [done | by apply rx_inv_flags]. }
  rewrite (SEQ_BETWEEN_off R (a + 1) (a + TCP_TCPLEN (inseg t) - 1)) by (rewrite ?seqn_add, ?seqn_u32; first [done | lia | unfold seqn; zlia]).
  destruct ((a + 1 <=? R) && (R <=? a + TCP_TCPLEN (inseg t) - 1)) eqn:Etrim.
  - bprop. destruct (front_trim a R (inseg t) Hx) as (Hoff & Hy & Hend); [lia..|].
    replace (u32 (seqn R - seqn a)) with (R - a) by (unfold seqn; zlia). rewrite (proj2 (Z.ltb_lt (R - a) 65535)) by lia.
    rewrite (proj2 (Z.leb_le (R - a) (tot_len (s_p (inseg t))))) by (unfold tot_len; rewrite (sa_bytes _ _ Hx), slice_len; lia).
    set (y := _ <| h_seqno := _ |>) in *. set (t1 := _ <| seqno := _ |>). change (seqno t1) with (seqn R).
    rewrite (SEQ_BETWEEN_off R R (E - 1)) by seqs. rewrite Z.leb_refl. cbn [andb]. rewrite Z.eqb_refl.
    destruct (Z.leb_spec R (E - 1)); [|eexists; split; [done|]; apply (rx_step_empty_ack R E A M a t t1); try done; lia].
    destruct (receive_inseq_ok R E A M t1 Hi ltac:(lia) Hy eq_refl) as (t' & R' & f & -> & Hd & Hi' & Hm).
    change (inseg t1) with y in Hi', Hm. rewrite Hend in Hi', Hm. exists t'. split; [done|]. exists R', A, f. split_and!; try done; lia.
  - rewrite (SEQ_LT_off a R) by seqs. set (t1o := if a <? R then _ else _).
    assert (exists t1, t1o = Some t1 /\ rx_inv R E A M (ipcb t1) /\ inseg t1 = inseg t /\ tcplen t1 = tcplen t /\ seqno t1 = seqn a /\ rdata t1 = rdata t
      /\ got_fin t1 = got_fin t) as (t1 & -> & Hi1 & Ex1 & Et1 & Es1 & Ed1 & Eg1).
    { unfold t1o. destruct (a <? R); eexists; (split; [done|]); split_and!; done. }
    rewrite Es1, (SEQ_BETWEEN_off a R (E - 1)) by seqs. rewrite seqn_eqb by lia.
    apply andb_false_iff in Etrim.
    destruct ((R <=? a) && (a <=? E - 1)) eqn:Ein; bprop.
    + destruct (Z.eqb_spec R a) as [<-|Hne].
      * rewrite <- Ex1 in Hx. destruct (receive_inseq_ok R E A M t1 Hi1 ltac:(lia) Hx Es1) as (t' & R' & f & -> & Hd & Hi' & Hm).
        exists t'. split; [done|]. exists R', A, f. rewrite <- Ex1. unfold delivered in *. rewrite Ed1, Eg1 in Hd. split_and!; try done; try lia; apply Hd.
      * rewrite <- Ex1 in Hx. destruct (receive_oos_ok R E A M a t1 Hi1 Hx Es1) as (t' & A' & -> & HA & Hi' & Hd & Hg); [by rewrite Et1, Ht, Ex1|lia|rewrite Ex1; apply Hwin; lia|].
        exists t'. split; [done|]. exists R, A', false. rewrite Ex1 in Hi'.
        split_and!; try done; [apply delivered_refl; by rewrite ?Hd, ?Hg|rewrite Z.min_l by (apply Hwin; lia); done|lia].
    + eexists. split; [done|]. apply (rx_step_empty_ack R E A M a t t1); try done. apply andb_false_iff in Ein.
      destruct Ein as [Ein|Ein], Etrim as [Et|Et]; bprop; lia.
Qed.
End Stream.
