(* ===== verification/TcpRun.v ===== *)
(** * TcpRun: [tcp_receive], [tcp_output] and [tcp_recved] together

    The send queues keep the accounting the assertions of tcp_in.c and
    tcp_out.c rely on, so neither processing acknowledgements nor sending can
    fail an assertion; sending tells the peer of window but never takes any
    back.  Together with TcpStream this gives the behaviour of a connection
    over whole sequences of arriving segments and reads by the application. *)

From S2P Require Import Prelude Ip4Addr Opts TcpPcb TcpOut TcpIn TcpStream.

(** ** The send queues *)

(** The pbufs of a queue. *)
Fixpoint qsum (l : list tcp_seg) : Z := match l with [] => 0 | x :: l => lenz (s_p x) + qsum l end.

Lemma qsum_app l k : qsum (l ++ k) = qsum l + qsum k.
Proof. induction l as [|x l IH]; cbn; [done|]. rewrite IH. lia. Qed.

Lemma qsum_nonneg l : 0 <= qsum l.
Proof. induction l as [|x l IH]; cbn; [done|]. pose proof (lenz_nonneg (s_p x)). lia. Qed.

Lemma qsum_perm l k : l ≡ₚ k -> qsum l = qsum k.
Proof. induction 1; cbn; lia. Qed.

(** A segment on a send queue takes sequence numbers and is no reset. *)
Definition tx_seg (x : tcp_seg) : Prop := flag_set (h_flags x) TCP_RST = false /\ 0 < TCP_TCPLEN x.

Record tx_ok (p : tcp_pcb) : Prop := {
  tx_state : state p <> LISTEN;
  tx_qlen : snd_queuelen p = qsum (unacked p ++ unsent p) /\ snd_queuelen p < 65536;
  tx_segs : Forall tx_seg (unacked p ++ unsent p);
}.

Lemma tx_ok_ext p p' : tx_ok p -> state p' = state p -> snd_queuelen p' = snd_queuelen p -> unacked p' ++ unsent p' ≡ₚ unacked p ++ unsent p -> tx_ok p'.
Proof. intros [H1 [H2 H3] H4] E1 E2 E3. split; rewrite ?E1, ?E2; [done| |by rewrite E3]. rewrite H2, (qsum_perm _ _ E3). lia. Qed.

Lemma insert_seq_perm x l : insert_seq x l ≡ₚ x :: l.
Proof. induction l as [|y l IH]; cbn; [done|]. case_match; [|done]. rewrite IH. apply Permutation_swap. Qed.

Lemma put_unacked_perm x l : put_unacked x l ≡ₚ x :: l.
Proof.
  unfold put_unacked. destruct (last l) as [y|] eqn:E; [|by apply last_None in E as ->]. case_match; [apply insert_seq_perm|].
  by rewrite Permutation_app_comm.
Qed.

Lemma set_ack_flags f : flag_set (Z.lor f TCP_ACK) TCP_RST = flag_set f TCP_RST
  /\ flag_set (Z.lor f TCP_ACK) (Z.lor TCP_FIN TCP_SYN) = flag_set f (Z.lor TCP_FIN TCP_SYN).
Proof.
  rewrite !flag_lor_mask, !flag_fin, !flag_syn. change TCP_RST with (2 ^ 2). rewrite !flag_bit by lia. rewrite !Z.lor_spec.
  change (Z.testbit TCP_ACK 2) with false. change (Z.testbit TCP_ACK 0) with false. change (Z.testbit TCP_ACK 1) with false. by rewrite !orb_false_r.
Qed.

Section Run.
Context {o : Opts} {ook : OptsOk o} {ip : IpLayer}.
Context (strm : Z -> Z) (fin : option Z) (isn : Z).

Notation rx_inv := (rx_inv strm fin isn).

Lemma seg_opts_len x n : lenz (seg_opts x n) = LWIP_TCP_OPT_LENGTH (s_flags x).
Proof. unfold seg_opts, LWIP_TCP_OPT_LENGTH, be16. repeat case_match; done. Qed.

(** Receive-side fields do not depend on the send side. *)
Lemma rx_inv_ext R E A M p p' : rx_inv R E A M p -> rcv_nxt p' = rcv_nxt p -> rcv_wnd p' = rcv_wnd p ->
  rcv_ann_right_edge p' = rcv_ann_right_edge p -> rcv_ann_wnd p' = rcv_ann_wnd p -> mss p' = mss p -> ooseq p' = ooseq p -> rx_inv R E A M p'.
Proof. intros (H1 & H2 & H3) E1 E2 E3 E4 E5 E6. split_and!; [by eapply rx_base_ext|by rewrite E6|lia|lia]. Qed.

(** Sending a segment announces the window. *)
Lemma rx_inv_announce R E A M p : rx_inv R E A M p ->
  A <= R + rcv_ann_wnd p /\ rx_inv R E (R + rcv_ann_wnd p) M (p <| rcv_ann_right_edge := u32 (rcv_nxt p + rcv_ann_wnd p) |>).
Proof.
  intros (Hb & Ho & HM). pose proof Hb as [Bn Bw Br Be Bt Ba Bm]. split; [lia|]. split_and!; try done; try lia.
  split; rsimpl; try done; try lia. by rewrite Bn, seqn_add.
Qed.

(** ** Output *)

(** What sending does to the receive side: it may announce window. *)
Definition rx_told (p p' : tcp_pcb) : Prop := forall R E A M, rx_inv R E A M p -> exists A', A <= A' /\ rx_inv R E A' M p'.

Lemma rx_told_trans p q r : rx_told p q -> rx_told q r -> rx_told p r.
Proof. intros H1 H2 R E A M H. destruct (H1 _ _ _ _ H) as (A1 & ? & Hq). destruct (H2 _ _ _ _ Hq) as (A2 & ? & Hr). exists A2. split; [lia|done]. Qed.

Lemma rx_told_ext p p' : rcv_nxt p' = rcv_nxt p -> rcv_wnd p' = rcv_wnd p -> rcv_ann_right_edge p' = rcv_ann_right_edge p ->
  rcv_ann_wnd p' = rcv_ann_wnd p -> mss p' = mss p -> ooseq p' = ooseq p -> rx_told p p'.
Proof. intros E1 E2 E3 E4 E5 E6 R E A M H. exists A. split; [lia|]. by eapply rx_inv_ext. Qed.

Lemma ip_output_pcb k s : pcb (snd (ip_output_if k s)) = pcb s.
Proof. unfold ip_output_if. by case_match. Qed.

Lemma tcp_output_segment_ok x n s : exists e x' s', tcp_output_segment x n s = Some (e, x', s')
  /\ s_p x' = s_p x /\ h_flags x' = h_flags x /\ s_len x' = s_len x /\ h_seqno x' = h_seqno x
  /\ state (pcb s') = state (pcb s) /\ snd_queuelen (pcb s') = snd_queuelen (pcb s) /\ unacked (pcb s') = unacked (pcb s) /\ unsent (pcb s') = unsent (pcb s)
  /\ rx_told (pcb s) (pcb s').
Proof.
  unfold tcp_output_segment. destruct (tcp_output_segment_busy x).
  { exists ERR_OK, x, s. split_and!; try done. by apply rx_told_ext. }
  set (x' := _ <| h_wnd := _ |>). set (p1 := _ <| rcv_ann_right_edge := _ |>). set (p2 := p1 <| rtime := _ |>).
  set (p3 := if rttest p2 =? 0 then _ else _). rewrite seg_opts_len. change (s_flags x') with (s_flags x). rewrite Z.eqb_refl.
  destruct (ip_output_if _ _) as [e s'] eqn:Eo. exists e, x', s'.
  assert (Ep : pcb s' = p3) by (pose proof (ip_output_pcb (mk_packet (local_ip p3) (remote_ip p3) (local_port p3) (remote_port p3) (h_seqno x') (h_ackno x') (h_flags x') (h_wnd x')
               (seg_opts x' n) (cbytes (s_p x')) (ttl p3) (tos p3)) (s <| pcb := p3 |>)) as H; rewrite Eo in H; exact H).
  rewrite Ep. split_and!; try done; try (unfold p3; case_match; done).
  intros R E A M Hi. destruct (rx_inv_announce R E A M (pcb s) Hi) as [HA Hi']. exists (R + rcv_ann_wnd (pcb s)). split; [done|].
  unfold p3; case_match; by eapply rx_inv_ext.
Qed.

Lemma output_loop_ok wnd n : forall l s, tx_ok (pcb s) -> unsent (pcb s) = l ->
  exists e s', output_loop l wnd n s = Some (e, s') /\ tx_ok (pcb s') /\ rx_told (pcb s) (pcb s').
Proof.
  induction l as [|seg rest IH]; intros s Ht Eu; cbn [output_loop]; [exists ERR_OK, s; split_and!; try done; by apply rx_told_ext|].
  destruct (negb (seg_right (pcb s) seg <=? wnd)); [exists ERR_OK, s; split_and!; try done; by apply rx_told_ext|].
  pose proof Ht as [T1 [T2 T2'] T3]. rewrite Eu in T2, T3. apply Forall_app in T3 as [T3 [[T4 T5] T6]%Forall_cons]. rewrite T4. cbn [negb].
  destruct (negb (tcp_do_output_nagle (pcb s)) && _); [exists ERR_OK, s; split_and!; try done; by apply rx_told_ext|].
  set (seg1 := if state_is _ _ then seg else _).
  assert (S1 : s_p seg1 = s_p seg /\ tx_seg seg1).
  { unfold seg1. case_match; [done|]. split; [done|]. destruct (set_ack_flags (h_flags seg)) as [F1 F2]. split; rsimpl; [by rewrite F1|].
    unfold TCP_TCPLEN. rsimpl. by rewrite F2. }
  destruct S1 as [S1 [S2 S3]].
  destruct (tcp_output_segment_ok seg1 n s) as (e & seg2 & s2 & -> & Q1 & Q2 & Q3 & Q4 & Q5 & Q6 & Q7 & Q8 & Q9).
  assert (S4 : tx_seg seg2) by (split; [by rewrite Q2|unfold TCP_TCPLEN in *; by rewrite Q2, Q3]).
  destruct (negb (err_ok e)).
  { eexists _, _. split; [done|]. split; [|eapply rx_told_trans; [exact Q9|by apply rx_told_ext]]. split; unfold updp, tcp_set_flags; rsimpl.
    - by rewrite Q5.
    - rewrite Q6, Q7, T2. rewrite !qsum_app in *. cbn [qsum]. rewrite Q1, S1. cbn [qsum] in T2. lia.
    - rewrite Q7. apply Forall_app. split; [done|]. by constructor. }
  set (seg3 := seg2 <| s_oversize_left := 0 |>). set (p1 := (pcb s2) <| unsent := rest |>). set (p2 := if state_is (state p1) SYN_SENT then p1 else _).
  set (p3 := if TCP_SEQ_LT (snd_nxt p2) _ then _ else p2). assert (H3 : 0 < TCP_TCPLEN seg3) by apply S4. rewrite (proj2 (Z.ltb_lt 0 _)) by done.
  set (p4 := p3 <| unacked := _ |>).
  assert (P4 : state p4 = state (pcb s) /\ snd_queuelen p4 = snd_queuelen (pcb s) /\ unsent p4 = rest /\ unacked p4 = put_unacked seg3 (unacked (pcb s))).
  { unfold p4, p3, p2. rsimpl. rewrite <- Q5, <- Q6, <- Q7. repeat case_match; done. }
  destruct P4 as (P1 & P2 & P3 & P4).
  assert (R4 : rx_told (pcb s2) p4) by (apply rx_told_ext; unfold p4, p3, p2; rsimpl; repeat case_match; done).
  destruct (IH (s2 <| pcb := p4 |>)) as (e' & s' & E' & Ht' & Hr').
  - rsimpl. split; rewrite ?P1, ?P2, ?P3, ?P4; [done| |].
    + split; [|done]. rewrite T2, !qsum_app, (qsum_perm _ _ (put_unacked_perm seg3 _)). cbn [qsum]. change (s_p seg3) with (s_p seg2). rewrite Q1, S1. lia.
    + rewrite put_unacked_perm. constructor; [done|]. by apply Forall_app.
  - exact P3.
  - exists e', s'. split; [exact E'|]. split; [done|]. eapply rx_told_trans; [exact Q9|]. by eapply rx_told_trans.
Qed.

(** The send side is left alone, the connection may go to CLOSE_WAIT. *)
Definition tx_same (p p' : tcp_pcb) : Prop :=
  (state p' = state p \/ state p' = CLOSE_WAIT) /\ snd_queuelen p' = snd_queuelen p /\ unacked p' = unacked p /\ unsent p' = unsent p.

Lemma tx_same_refl p : tx_same p p.
Proof. unfold tx_same. auto. Qed.

Lemma tx_same_trans p q r : tx_same p q -> tx_same q r -> tx_same p r.
Proof. intros ([S1|S1] & Q1 & A1 & U1) ([S2|S2] & Q2 & A2 & U2); unfold tx_same; rewrite S2, Q2, A2, U2; auto. Qed.

Lemma tx_same_ok p p' : tx_same p p' -> tx_ok p -> tx_ok p'.
Proof. intros (S & Q & A & U) [T1 T2 T3]. split; rewrite ?Q, ?A, ?U; try done. destruct S as [-> | ->]; done. Qed.

Lemma empty_ack_tx s : tx_same (pcb s) (pcb (snd (tcp_send_empty_ack s))).
Proof.
  unfold tcp_send_empty_ack, tcp_output_alloc_header, tcp_output_control_segment, ip_output_if, alloc.
  destruct (allocs s) as [|[] l]; cbn [fst snd]; unfold tx_same, updp, tcp_set_flags; rsimpl; auto.
  repeat case_match; simplify_eq; unfold updp, tcp_set_flags, tcp_clear_flags; rsimpl; auto.
Qed.

Lemma empty_ack_told s : rx_told (pcb s) (pcb (snd (tcp_send_empty_ack s))).
Proof. intros R E A M Hi. by apply empty_ack_rx. Qed.

Lemma tcp_output_ok s : tx_ok (pcb s) ->
  exists e s', tcp_output s = Some (e, s') /\ tx_ok (pcb s') /\ rx_told (pcb s) (pcb s').
Proof.
  intros Ht. unfold tcp_output. rewrite (proj2 (negb_true_iff _)) by (unfold state_is; by apply bool_decide_eq_false, tx_state).
  destruct (is_input_pcb s); [exists ERR_OK, s; split_and!; try done; by apply rx_told_ext|].
  assert (Hdone : forall s1, tx_ok (pcb s1) -> rx_told (pcb s) (pcb s1) ->
    exists e s', (if flag_set (flags (pcb s1)) TF_ACK_NOW then Some (tcp_send_empty_ack s1) else output_done s1) = Some (e, s') /\ tx_ok (pcb s') /\ rx_told (pcb s) (pcb s')).
  { intros s1 H1 H2. destruct (flag_set _ _).
    - pose proof (empty_ack_tx s1) as E1. pose proof (empty_ack_told s1) as E2. destruct (tcp_send_empty_ack s1) as [e s']. exists e, s'.
      split; [done|]. split; [by eapply tx_same_ok|by eapply rx_told_trans].
    - eexists _, _. split; [done|]. split; [by eapply tx_ok_ext|]. eapply rx_told_trans; [done|]. by apply rx_told_ext. }
  destruct (unsent (pcb s)) as [|seg rest] eqn:Eu; [apply Hdone; [done|by apply rx_told_ext]|].
  destruct (tcp_route _ _ _) as [n|]; [|exists ERR_RTE, s; split_and!; try done; by apply rx_told_ext].
  set (s1 := if local_ip (pcb s) =? 0 then _ else s).
  assert (H1 : tx_ok (pcb s1) /\ rx_told (pcb s) (pcb s1)) by (unfold s1; case_match; (split; [by eapply tx_ok_ext|by apply rx_told_ext])).
  destruct H1 as [H1 H1']. destruct (_ <? seg_right (pcb s1) seg).
  { apply Hdone; case_match; try done; [by eapply tx_ok_ext|]. eapply rx_told_trans; [done|]. by apply rx_told_ext. }
  set (s2 := updp (fun p => p <| persist_backoff := 0 |>) s1).
  destruct (output_loop_ok (Z.min (snd_wnd (pcb s)) (cwnd (pcb s))) n (unsent (pcb s2)) s2) as (e & s3 & -> & H3 & H3'); [by eapply tx_ok_ext|done|].
  assert (H4 : rx_told (pcb s) (pcb s3)) by (eapply rx_told_trans; [exact H1'|]; eapply rx_told_trans; [|exact H3']; by apply rx_told_ext).
  destruct (negb (err_ok e)); [by exists e, s3|]. eexists _, _. split; [done|].
  unfold updp. rsimpl. split.
  - destruct (bool_decide (unsent (pcb s3) = [])); by eapply tx_ok_ext.
  - eapply rx_told_trans; [exact H4|]. destruct (bool_decide (unsent (pcb s3) = [])); by apply rx_told_ext.
Qed.

(** The application reads: the window grows by what it read, up to the maximum. *)
Lemma tcp_recved_ok R E A M n s : tx_ok (pcb s) -> rx_inv R E A M (pcb s) -> 0 <= n < 65536 -> R <= A -> rcv_wnd (pcb s) <= TCP_WND ->
  exists s' E' A', tcp_recved n s = Some s' /\ tx_ok (pcb s') /\ rx_inv R E' A' M (pcb s') /\ A <= A'
  /\ E' = Z.min (E + n) (R + TCP_WND).
Proof.
  intros Ht (Hb & Ho & HM) Hn HA Hw. pose proof Hb as [Bn Bw Br Be Bt Ba Bm]. pose proof tcp_wnd_range as HW. unfold TCP_MSS in *.
  unfold tcp_recved, recved_window. rewrite (proj2 (negb_true_iff _)) by (unfold state_is; by apply bool_decide_eq_false, tx_state).
  assert (Emax : TCP_WND_MAX (pcb s) = TCP_WND) by (unfold TCP_WND_MAX; repeat case_match; zlia).
  set (w := if (TCP_WND_MAX (pcb s) <? _) || _ then _ else _).
  assert (Ew : w = Z.min (E + n) (R + TCP_WND) - R).
  { unfold w. rewrite Emax, Bw. rewrite Bw in Hw. unfold tcpwnd. destruct LWIP_WND_SCALE.
    - rewrite u32_id by zlia. destruct (Z.ltb_spec TCP_WND (E - R + n)); cbn [orb]; [lia|]. destruct (Z.ltb_spec (E - R + n) (E - R)); lia.
    - destruct (Z.ltb_spec TCP_WND (u16 (E - R + n))); cbn [orb]; [zlia|]. destruct (Z.ltb_spec (u16 (E - R + n)) (E - R)); zlia. }
  set (E' := Z.min (E + n) (R + TCP_WND)). fold E' in Ew. rewrite Bw in Hw. assert (HE : E <= E') by (unfold E'; lia). assert (HE2 : E' <= R + 65535) by (unfold E'; lia).
  set (p1 := (pcb s) <| rcv_wnd := w |>).
  destruct (ann_wnd_ok strm isn R E' A p1) as (k & v & -> & V1 & V2 & _); try done; try lia.
  set (p2 := p1 <| rcv_ann_wnd := v |>).
  assert (H2 : rx_inv R E' A M p2) by (split_and!; [split; try done; unfold p2, p1; rsimpl; lia|done|lia|lia]).
  assert (Ht2 : tx_ok p2) by (by eapply tx_ok_ext).
  destruct (TCP_WND_UPDATE_THRESHOLD <=? k).
  - destruct (tcp_output_ok (updp tcp_ack_now (s <| pcb := p2 |>))) as (e & s' & -> & T' & R'); [by eapply tx_ok_ext|].
    destruct (R' R E' A M) as (A' & HA' & Hi'); [by eapply rx_inv_ext|]. exists s', E', A'. by split_and!.
  - exists (s <| pcb := p2 |>), E', A. by split_and!.
Qed.

(** ** Acknowledgements *)

Lemma free_acked_ok ack other osum : (other = false -> osum = 0) -> 0 <= osum -> forall l qlen acked, Forall tx_seg l ->
  qlen = qsum l + osum -> qlen < 65536 ->
  exists l' a', tcp_free_acked_segments ack l other qlen acked = Some (l', qsum l' + osum, a') /\ Forall tx_seg l' /\ qsum l' <= qsum l.
Proof.
  intros Ho Hos. induction l as [|x l IH]; intros qlen acked Hl Hq Hlt; cbn [tcp_free_acked_segments].
  { exists [], acked. rewrite Hq. split_and!; try done. }
  cbn [qsum] in Hq. apply Forall_cons in Hl as [Hx Hl]. pose proof (lenz_nonneg (s_p x)). pose proof (qsum_nonneg l).
  destruct (TCP_SEQ_LEQ _ _); [|exists (x :: l), acked; split_and!; [rewrite Hq; cbn [qsum]; done|by constructor|done]].
  rewrite (proj2 (Z.leb_le _ _)) by lia. rewrite u16_id by zlia.
  replace ((qlen - lenz (s_p x) =? 0) || negb (bool_decide (l = [])) || other) with true.
  { destruct (IH (qlen - lenz (s_p x)) (tcpwnd (acked + s_len x)) Hl) as (l' & a' & -> & H1 & H2); [lia..|]. exists l', a'. cbn [qsum]. split_and!; try done. lia. }
  symmetry. destruct l as [|y l]; [|by rewrite orb_true_r]. cbn [qsum] in *. destruct other; [by rewrite orb_true_r|].
  rewrite (Ho eq_refl) in *. rewrite (proj2 (Z.eqb_eq _ _)) by lia. done.
Qed.

(** The send side keeps its invariant, the receive side may announce window. *)
Definition step_ok (p p' : tcp_pcb) : Prop := (tx_ok p -> tx_ok p') /\ rx_told p p'.

Lemma step_ok_trans p q r : step_ok p q -> step_ok q r -> step_ok p r.
Proof. intros [H1 H2] [H3 H4]. split; [auto|by eapply rx_told_trans]. Qed.

Lemma step_ok_ext p p' : rcv_nxt p' = rcv_nxt p -> rcv_wnd p' = rcv_wnd p -> rcv_ann_right_edge p' = rcv_ann_right_edge p ->
  rcv_ann_wnd p' = rcv_ann_wnd p -> mss p' = mss p -> ooseq p' = ooseq p ->
  state p' = state p -> snd_queuelen p' = snd_queuelen p -> unacked p' ++ unsent p' ≡ₚ unacked p ++ unsent p -> step_ok p p'.
Proof. intros. split; [intros; by eapply tx_ok_ext|by apply rx_told_ext]. Qed.

Lemma rexmit_fast_ok s : step_ok (pcb s) (pcb (tcp_rexmit_fast s)).
Proof.
  unfold tcp_rexmit_fast. case_match; [|by apply step_ok_ext]. unfold tcp_rexmit.
  destruct (unacked (pcb s)) as [|x rest] eqn:Eu; [by apply step_ok_ext|]. destruct (tcp_output_segment_busy x); [by apply step_ok_ext|].
  change (err_ok ERR_OK) with true. cbv iota beta zeta. set (p1 := (pcb s) <| unacked := rest |>).
  set (p2 := p1 <| unsent := _ |>). set (p3 := if forallb _ _ then _ else p2). set (p4 := if nrtx p3 <? 255 then _ else p3).
  assert (H2 : step_ok (pcb s) p2).
  { apply step_ok_ext; try done. unfold p2, p1. rsimpl. rewrite insert_seq_perm, Eu. symmetry. apply Permutation_middle. }
  assert (H5 : step_ok p2 (p4 <| rttest := 0 |>)) by (apply step_ok_ext; unfold p4, p3; repeat case_match; done).
  eapply step_ok_trans; [exact H2|]. eapply step_ok_trans; [exact H5|]. generalize (p4 <| rttest := 0 |>). clear. intros q.
  unfold updp. rsimpl. destruct (_ <? 2 * _); by apply step_ok_ext.
Qed.

Lemma update_snd_wnd_ok t p : step_ok p (update_snd_wnd t p).
Proof. unfold update_snd_wnd. repeat case_match; by apply step_ok_ext. Qed.

Lemma dup_ack_ok e t : step_ok (ipcb t) (ipcb (dup_ack e t)).
Proof.
  unfold dup_ack. case_match; [|by apply step_ok_ext]. set (t1 := updi _ t). set (t2 := updi _ t1).
  assert (H1 : step_ok (ipcb t) (ipcb t2)).
  { apply step_ok_ext; unfold t2, ipcb, updi, updp; rsimpl; case_match; done. }
  case_match; [|done]. eapply step_ok_trans; [exact H1|]. apply rexmit_fast_ok.
Qed.

Lemma grow_cwnd_ok a p : step_ok p (grow_cwnd a p).
Proof. unfold grow_cwnd. repeat case_match; by apply step_ok_ext. Qed.

Lemma clear_rto_ok p : step_ok p (clear_rto p).
Proof. unfold clear_rto. repeat case_match; by apply step_ok_ext. Qed.

Lemma rtt_sample_ok n p : step_ok p (rtt_sample n p).
Proof. by apply step_ok_ext. Qed.

Lemma new_ack_ok t : tx_ok (ipcb t) -> exists t', new_ack t = Some t' /\ step_ok (ipcb t) (ipcb t').
Proof.
  intros Ht. unfold new_ack. set (p1 := if flag_set _ TF_INFR then _ else _). set (p2 := (p1 <| nrtx := _ |>) <| rto := _ |>).
  set (p3 := (p2 <| dupacks := 0 |>) <| lastack := _ |>). set (p4 := if _ <=? state_num _ then _ else p3).
  assert (H4 : step_ok (ipcb t) p4).
  { assert (step_ok (ipcb t) p3) by (apply step_ok_ext; unfold p3, p2, p1; rsimpl; case_match; done).
    unfold p4. case_match; [|done]. eapply step_ok_trans; [done|]. apply grow_cwnd_ok. }
  pose proof (proj1 H4 Ht) as [T1 [T2 T2'] T3]. rewrite qsum_app in T2. apply Forall_app in T3 as [T3 T4].
  destruct (free_acked_ok (ackno t) (negb (bool_decide (unsent p4 = []))) (qsum (unsent p4))) with (l := unacked p4) (qlen := snd_queuelen p4) (acked := recv_acked t)
    as (l1 & a1 & -> & L1 & Q1); try done; [|apply qsum_nonneg|].
  { rewrite negb_false_iff, bool_decide_eq_true. by intros ->. }
  set (p5 := (p4 <| unacked := l1 |>) <| snd_queuelen := _ |>). pose proof (qsum_nonneg l1). pose proof (qsum_nonneg (unsent p4)).
  destruct (free_acked_ok (ackno t) (negb (bool_decide (unacked p5 = []))) (qsum l1)) with (l := unsent p5) (qlen := snd_queuelen p5) (acked := a1)
    as (l2 & a2 & -> & L2 & Q2); try done; [|unfold p5; rsimpl; lia..|].
  { rewrite negb_false_iff, bool_decide_eq_true. unfold p5. rsimpl. by intros ->. }
  change (unsent p5) with (unsent p4) in Q2. set (p6 := (p5 <| unsent := l2 |>) <| snd_queuelen := _ |>). set (p7 := (p6 <| rtime := _ |>) <| polltmr := 0 |>).
  set (p8 := if bool_decide (unsent p7 = []) then _ else p7). set (p9 := p8 <| snd_buf := _ |>).
  assert (H9 : tx_ok p9).
  { assert (E9 : state p9 = state p4 /\ snd_queuelen p9 = qsum l2 + qsum l1 /\ unacked p9 = l1 /\ unsent p9 = l2) by (unfold p9, p8; rsimpl; case_match; done).
    destruct E9 as (E1 & E2 & E3 & E4). split; rewrite ?E1, ?E2, ?E3, ?E4; [done| |by apply Forall_app]. rewrite qsum_app. lia. }
  assert (R9 : rx_told p4 p9) by (apply rx_told_ext; unfold p9, p8; rsimpl; case_match; done).
  eexists. split; [done|]. change (step_ok (ipcb t) (clear_rto p9)). eapply step_ok_trans; [|apply clear_rto_ok].
  split; [done|]. eapply rx_told_trans; [apply H4|done].
Qed.

Lemma receive_ack_ok t : tx_ok (ipcb t) ->
  exists t', receive_ack t = Some t' /\ step_ok (ipcb t) (ipcb t')
  /\ inseg t' = inseg t /\ seqno t' = seqno t /\ tcplen t' = tcplen t /\ recv_data t' = recv_data t /\ recv_flags t' = recv_flags t.
Proof.
  intros Ht. unfold receive_ack. set (t1 := updi _ t).
  assert (H1 : step_ok (ipcb t) (ipcb t1)) by apply update_snd_wnd_ok.
  set (r := if TCP_SEQ_LEQ _ _ then _ else _).
  assert (exists t2, r = Some t2 /\ step_ok (ipcb t1) (ipcb t2) /\ inseg t2 = inseg t /\ seqno t2 = seqno t /\ tcplen t2 = tcplen t
    /\ recv_data t2 = recv_data t /\ recv_flags t2 = recv_flags t) as (t2 & -> & H2 & F1 & F2 & F3 & F4 & F5).
  { unfold r. destruct (TCP_SEQ_LEQ _ _).
    { eexists. split; [done|]. split; [apply dup_ack_ok|]. unfold dup_ack. destruct (_ && _); [|done]. by destruct (3 <=? _). }
    destruct (TCP_SEQ_BETWEEN _ _ _).
    - destruct (new_ack_ok t1 (proj1 H1 Ht)) as (t2 & E2 & S2). exists t2. split; [done|]. split; [done|].
      revert E2. unfold new_ack. destruct (tcp_free_acked_segments _ _ _ _ _) as [[[? ?] ?]|]; [|done].
      destruct (tcp_free_acked_segments _ _ _ _ _) as [[[? ?] ?]|]; [|done]. by intros [= <-].
    - eexists. split; [done|]. split; [|done]. split; [apply tx_same_ok, empty_ack_tx|apply empty_ack_told]. }
  eexists. split; [done|]. case_match; [|by split; [eapply step_ok_trans|]].
  split; [|done]. eapply step_ok_trans; [exact H1|]. eapply step_ok_trans; [exact H2|]. apply rtt_sample_ok.
Qed.

(** ** The segment's text leaves the send side alone *)

Local Ltac txs := unfold tx_same; split_and!; [left|..]; reflexivity.

Lemma take_seg_tx x tl t t' : take_seg x tl t = Some t' -> tx_same (ipcb t) (ipcb t').
Proof.
  unfold take_seg, tcp_update_rcv_ann_wnd. set (p1 := (ipcb t) <| rcv_nxt := _ |>). destruct (tl <=? _); [|done].
  set (p2 := p1 <| rcv_wnd := _ |>). set (r := if TCP_SEQ_GEQ _ _ then _ else _).
  assert (forall n p, r = Some (n, p) -> tx_same (ipcb t) p) as Hr.
  { intros n p. unfold r. destruct (TCP_SEQ_GEQ _ _); [intros [= <- <-]; txs|].
    destruct (TCP_SEQ_GT _ _); [intros [= <- <-]; txs|]. destruct (_ || _); [|done]. intros [= <- <-]; txs. }
  destruct r as [[n p]|]; [|done]. specialize (Hr n p eq_refl). destruct (0 <? _), (flag_set _ _); by intros [= <-].
Qed.

Lemma deliver_oos_tx q : forall t t', deliver_oos q t = Some t' -> tx_same (ipcb t) (ipcb t').
Proof.
  induction q as [|x q IH]; intros t t'; cbn [deliver_oos]; [intros [= <-]; txs|].
  destruct (_ =? _); [|intros [= <-]; txs]. destruct (take_seg x _ t) as [t1|] eqn:E1; [|done].
  intros E2%IH. eapply tx_same_trans; [by eapply take_seg_tx|]. eapply tx_same_trans; [|exact E2].
  destruct (_ && _); [|txs]. unfold tx_same. auto.
Qed.

Lemma oos_walk_pcb i sq tl l : forall prev s l' s', oos_walk i sq tl prev l s = Some (l', s') -> pcb s' = pcb s.
Proof.
  induction l as [|x l IH]; intros prev s l' s'; cbn [oos_walk]; [by intros [= <- <-]|]. pose proof (seg_copy_pcb i s) as Hc.
  destruct (tcp_seg_copy i s) as [[c|] s1]; cbn [snd] in Hc.
  - destruct (sq =? _); [destruct (_ && _); intros [= <- <-]; done|].
    destruct (match prev with None => _ | Some _ => _ end); [by intros [= <- <-]|].
    destruct (_ && _); [destruct (flag_set _ _); [by intros [= <- <-]|]; destruct (oos_fit_window _ _ _ _); by intros [= <- <-]|].
    destruct (oos_walk i sq tl (Some x) l s) as [[l2 s2]|] eqn:E; [|done]. intros [= <- <-]. by eapply IH.
  - destruct (sq =? _); [destruct (_ && _); intros [= <- <-]; done|].
    destruct (match prev with None => _ | Some _ => _ end); [by intros [= <- <-]|].
    destruct (_ && _); [destruct (flag_set _ _); by intros [= <- <-]|].
    destruct (oos_walk i sq tl (Some x) l s) as [[l2 s2]|] eqn:E; [|done]. intros [= <- <-]. by eapply IH.
Qed.

Lemma receive_oos_tx t t' : receive_oos t = Some t' -> tx_same (ipcb t) (ipcb t').
Proof.
  unfold receive_oos. set (r := match ooseq _ with [] => _ | _ => _ end).
  assert (Hr : forall s, r = Some s -> tx_same (ipcb t) (pcb s)).
  { intros s. unfold r. destruct (ooseq (pcb (st t))) as [|x l].
    - pose proof (seg_copy_pcb (inseg t) (st t)) as Hc. destruct (tcp_seg_copy _ _) as [c s1]. intros [= <-]. unfold ipcb, tx_same, updp. rsimpl. cbn in Hc. rewrite Hc. auto.
    - destruct (oos_walk _ _ _ _ _ _) as [[l2 s2]|] eqn:E; [|done]. apply oos_walk_pcb in E. intros [= <-]. unfold ipcb, tx_same, updp. rsimpl. rewrite E. auto. }
  destruct r as [s|]; [|done]. specialize (Hr s eq_refl). pose proof (empty_ack_tx s) as He. destruct (tcp_send_empty_ack s) as [e s1]. intros [= <-].
  eapply tx_same_trans; [exact Hr|exact He].
Qed.

Lemma receive_inseq_tx t t' : receive_inseq t = Some t' -> tx_same (ipcb t) (ipcb t').
Proof.
  unfold receive_inseq. destruct (if _ <? _ then _ else _) as [x|]; [|done].
  destruct (match ooseq (ipcb t) with [] => _ | _ => _ end) as [[y q]|]; [|done].
  set (t1 := _ <| tcplen := _ |>). destruct (take_seg y _ t1) as [t2|] eqn:E2; [|done]. destruct (deliver_oos q t2) as [t3|] eqn:E3; [|done]. intros [= <-].
  eapply tx_same_trans; [|eapply tx_same_trans; [eapply take_seg_tx; exact E2|eapply tx_same_trans; [eapply deliver_oos_tx; exact E3|]]]; [txs|].
  change (tx_same (ipcb t3) (tcp_ack (ipcb t3))). unfold tcp_ack. case_match; txs.
Qed.

Lemma receive_text_tx t t' : receive_text t = Some t' -> tx_same (ipcb t) (ipcb t').
Proof.
  unfold receive_text. destruct (_ && _).
  2: { destruct (negb _); intros [= <-]; txs. }
  set (r := if TCP_SEQ_BETWEEN _ _ _ then _ else _).
  assert (Hr : forall t1, r = Some t1 -> tx_same (ipcb t) (ipcb t1)).
  { intros t1. unfold r. destruct (TCP_SEQ_BETWEEN _ _ _).
    - destruct (_ <? 65535); [|done]. destruct (_ <=? _); [|done]. intros [= <-]. txs.
    - destruct (TCP_SEQ_LT _ _); intros [= <-]; txs. }
  destruct r as [t1|]; [|done]. specialize (Hr t1 eq_refl). destruct (TCP_SEQ_BETWEEN _ _ _).
  - destruct (_ =? _); intros E; (eapply tx_same_trans; [exact Hr|]); [by apply receive_inseq_tx|by apply receive_oos_tx].
  - intros [= <-]. eapply tx_same_trans; [exact Hr|]. apply empty_ack_tx.
Qed.

(** ** One segment *)

(** [tcp_receive] on a segment of the stream, whatever acknowledgement it
    carries and whatever memory or the network refuse meanwhile. *)
Lemma tcp_receive_ok R E A M a t : tx_ok (ipcb t) -> rx_inv R E A M (ipcb t) -> in_seg strm fin isn a t ->
  state_num ESTABLISHED <= state_num (state (ipcb t)) -> Z.abs (a - R) < 1073741824 -> (R < a < E -> a + TCP_TCPLEN (inseg t) <= E) ->
  exists t' R' A' f, tcp_receive t = Some t' /\ tx_ok (ipcb t') /\ delivered strm fin R R' f t t' /\ A <= A'
  /\ rx_inv R' E A' (Z.max M (Z.min (a + TCP_TCPLEN (inseg t)) E)) (ipcb t').
Proof.
  intros Ht Hi [Hx Hs Hl] Hst Hn Hw. unfold tcp_receive. rewrite (proj2 (Z.leb_le _ _)) by done.
  set (r := if flag_set (in_flags t) TCP_ACK then _ else _).
  assert (exists t1, r = Some t1 /\ step_ok (ipcb t) (ipcb t1) /\ inseg t1 = inseg t /\ seqno t1 = seqno t /\ tcplen t1 = tcplen t
    /\ recv_data t1 = recv_data t /\ recv_flags t1 = recv_flags t) as (t1 & -> & [S1 S2] & F1 & F2 & F3 & F4 & F5).
  { unfold r. case_match; [by apply receive_ack_ok|]. exists t. split; [done|]. split; [by apply step_ok_ext|done]. }
  destruct (S2 _ _ _ _ Hi) as (A1 & HA1 & Hi1).
  destruct (receive_text_ok strm fin isn R E A1 M a t1 Hi1) as (t' & E' & (R' & A' & f & Hd & Hi' & HA' & _)); try done.
  { split; rewrite ?F1, ?F2, ?F3; done. }
  { by rewrite F1. }
  rewrite F1 in Hi'. exists t', R', A', f. split_and!; try done; [|unfold delivered, rdata, got_fin in *; by rewrite F4, F5 in Hd|lia].
  eapply tx_same_ok; [by apply receive_text_tx|auto].
Qed.

(** ** Whole connections *)

(** The state of [tcp_input] when it has found the pcb for segment [x]. *)
Definition seg_input (x : tcp_seg) (ack wnd : Z) (s : tcp_st) : tcp_in :=
  mk_in s (h_seqno x) ack wnd (h_flags x) (TCP_TCPLEN x) x 0 0 None 0 0 [] None.

(** How far the peer has been told the window goes, from [rcv_nxt]. *)
Definition told (p : tcp_pcb) : Z := u32 (rcv_ann_right_edge p - rcv_nxt p).

(** A piece of the stream from [a], sent by a peer that keeps to the window it
    was told. *)
Definition honest (R a : Z) (x : tcp_seg) (p : tcp_pcb) : Prop :=
  seg_at strm fin isn a x /\ Z.abs (a - R) < 1073741824 /\ a + TCP_TCPLEN x <= R + told p.

(** Segments arrive and the application reads, in any order: the data and
    whether a FIN was delivered, from position [R] to position [R']. *)
Inductive runs : Z -> tcp_st -> list Z -> bool -> Z -> tcp_st -> Prop :=
  | runs_done R s : runs R s [] false R s
  | runs_seg R s a x ack wnd t d f R2 s2 :
      honest R a x (pcb s) -> tcp_receive (seg_input x ack wnd s) = Some t ->
      runs (R + u32 (rcv_nxt (ipcb t) - rcv_nxt (pcb s))) (st t) d f R2 s2 ->
      runs R s (rdata t ++ d) (got_fin t || f) R2 s2
  | runs_recved R s n s1 d f R2 s2 :
      0 <= n < 65536 -> tcp_recved n s = Some s1 -> runs R s1 d f R2 s2 -> runs R s d f R2 s2.

(** A connection in good order at position [R]. *)
Definition conn_ok (R : Z) (s : tcp_st) : Prop :=
  tx_ok (pcb s) /\ exists E A M, rx_inv R E A M (pcb s) /\ M <= A /\ rcv_wnd (pcb s) <= TCP_WND.

Lemma told_off R E A M p : rx_inv R E A M p -> M <= A -> R + told p = A.
Proof. intros ([Bn Bw Br Be Bt Ba Bm] & _ & HM) HA. unfold told. rewrite Bn, Be. unfold seqn. zlia. Qed.

Lemma conn_seg R s a x ack wnd : conn_ok R s -> honest R a x (pcb s) -> state_num ESTABLISHED <= state_num (state (pcb s)) ->
  exists t R' f, tcp_receive (seg_input x ack wnd s) = Some t /\ R' = R + u32 (rcv_nxt (ipcb t) - rcv_nxt (pcb s)) /\ conn_ok R' (st t)
  /\ R + b2z f <= R' /\ rdata t = slice strm R (R' - R - b2z f) /\ got_fin t = f /\ (f = true -> fin = Some (R' - 1))
  /\ (R < R' -> forall l, fin = Some l -> R' - b2z f <= l).
Proof.
  intros [Ht (E & A & M & Hi & HM & Hw)] (Hx & Hn & Hh) Hst. rewrite (told_off _ _ _ _ _ Hi HM) in Hh.
  pose proof (rx_edge_rng _ _ _ _ _ (proj1 Hi)). destruct (tcp_receive_ok R E A M a (seg_input x ack wnd s)) as (t & R' & A' & f & E' & Ht' & (D1 & D2 & D3 & D4 & D5) & HA & Hi'); try done.
  { split; [done|apply Hx|done]. }
  { change (inseg (seg_input x ack wnd s)) with x. lia. }
  exists t, R', f. split; [done|]. destruct Hi as ([Bn Bw Br _ _ _ _] & _ & _). pose proof Hi' as ([Bn' Bw' Br' _ _ _ _] & _ & HR'). cbn in HR'.
  assert (0 <= b2z f) by (destruct f; cbn; lia). split; [rewrite Bn, Bn'; unfold seqn; zlia|].
  split; [|by split_and!]. split; [done|]. exists E, A', (Z.max M (Z.min (a + TCP_TCPLEN x) E)). split_and!; [done|lia|].
  change (pcb (st t)) with (ipcb t). rewrite Bw'. rewrite Bw in Hw. lia.
Qed.

Lemma conn_recved R s n : conn_ok R s -> 0 <= n < 65536 -> exists s', tcp_recved n s = Some s' /\ conn_ok R s'.
Proof.
  intros [Ht (E & A & M & Hi & HM & Hw)] Hn. pose proof Hi as (_ & _ & HR).
  destruct (tcp_recved_ok R E A M n s Ht Hi Hn ltac:(lia) Hw) as (s' & E' & A' & E1 & Ht' & Hi' & HA & HE).
  exists s'. split; [done|]. split; [done|]. exists E', A', M. split_and!; [done|lia|]. rewrite (rx_wnd _ _ _ _ _ (proj1 Hi')), HE. lia.
Qed.

(** C3: TCP delivers the peer's byte stream.  Over any sequence of arriving
    segments of a stream (duplicated, overlapping, out of order, carrying any
    acknowledgements, from a peer that keeps to the announced window) and of
    reads by the application, with allocations and transmissions failing at
    will: the data handed to the application is exactly the stream from the
    first position to the last one reached, without gap or repetition; a FIN is
    reported exactly once, when the whole stream has been delivered; and the
    connection stays in good order, so that neither the next segment nor the
    next read can fail an assertion. *)
Theorem tcp_delivers_stream R s d f R2 s2 : runs R s d f R2 s2 -> conn_ok R s ->
  R + b2z f <= R2 /\ d = slice strm R (R2 - R - b2z f) /\ (f = true -> fin = Some (R2 - 1)) /\ conn_ok R2 s2
  /\ (forall a x ack wnd, honest R2 a x (pcb s2) -> state_num ESTABLISHED <= state_num (state (pcb s2)) ->
        exists t, tcp_receive (seg_input x ack wnd s2) = Some t)
  /\ (forall n, 0 <= n < 65536 -> exists s', tcp_recved n s2 = Some s').
Proof.
  intros Hr Hc.
  enough (R + b2z f <= R2 /\ d = slice strm R (R2 - R - b2z f) /\ (f = true -> fin = Some (R2 - 1)) /\ conn_ok R2 s2
    /\ (R < R2 -> forall l, fin = Some l -> R2 - b2z f <= l)) as (H1 & H2 & H3 & H4 & _).
  { split_and!; try done.
    - intros a x ack wnd Hh Hst. destruct (conn_seg R2 s2 a x ack wnd H4 Hh Hst) as (t & _ & _ & E & _). by exists t.
    - intros n Hn. destruct (conn_recved R2 s2 n H4 Hn) as (s' & E & _). by exists s'. }
  induction Hr as [R s|R s a x ack wnd t d f R2 s2 Hh E Hr IH|R s n s1 d f R2 s2 Hn E Hr IH].
  - cbn [b2z]. rewrite slice_0 by lia. split_and!; try done; lia.
  - assert (Hst : state_num ESTABLISHED <= state_num (state (pcb s))).
    { revert E. unfold tcp_receive. change (ipcb (seg_input x ack wnd s)) with (pcb s). destruct (Z.leb_spec (state_num ESTABLISHED) (state_num (state (pcb s)))); done. }
    destruct (conn_seg R s a x ack wnd Hc Hh Hst) as (t' & R1 & f1 & E' & ER & Hc1 & D1 & D2 & D3 & D4 & D5). rewrite E in E'. simplify_eq E'. intros <-.
    rewrite <- ER in *. destruct (IH Hc1) as (I1 & I2 & I3 & I4 & I5). rewrite D2, D3, I2.
    assert (0 <= b2z f <= 1 /\ 0 <= b2z f1 <= 1) as [B1 B2] by (destruct f, f1; cbn; lia).
    destruct f1; cbn [orb b2z] in *.
    + specialize (D4 eq_refl). assert (R2 = R1) as -> by (destruct (Z.eq_dec R1 R2); [done|]; specialize (I5 ltac:(lia) _ D4); lia).
      destruct f; cbn [b2z] in *; [lia|]. rewrite (slice_0 strm R1) by lia. rewrite app_nil_r. split_and!; try done. 
    + split_and!; try done; try lia.
      * replace R1 with (R + (R1 - R - 0)) at 2 by lia. rewrite slice_app by lia. f_equal. lia.
      * intros HR l Hl. destruct (Z.eq_dec R1 R2) as [<-|]; [|apply I5; [lia|done]]. specialize (D5 HR l Hl). lia.
  - destruct (conn_recved R s n Hc Hn) as (s' & E' & Hc'). rewrite E in E'. simplify_eq. by apply IH.
Qed.
End Run.

(** ** An example connection *)

(** One interface with an MTU of 1500 and a route to everywhere. *)
Definition demo_ip : IpLayer := {|
  netif := unit; ip_route _ _ := Some (); netif_get_by_index _ := Some (); netif_mtu _ := 1500; netif_ip_addr4 _ := 167772161;
  netif_get_index _ := 1; netif_cfg _ := mk_netif_addr 167772161 16777215 5;
|}.

(** An established connection with nothing in flight whose next byte from the
    peer is three before the wrap of the sequence numbers. *)
Definition demo_pcb : tcp_pcb := {|
  local_ip := 167772161; remote_ip := 167772162; netif_idx := 0; so_options := 0; tos := 0; ttl := 255;
  state := ESTABLISHED; prio := 64; local_port := 80; remote_port := 50000; flags := 0;
  polltmr := 0; pollinterval := 0; last_timer := 0; tmr := 0;
  rcv_nxt := 2 ^ 32 - 3; rcv_wnd := 32768; rcv_ann_wnd := 32768; rcv_ann_right_edge := 32765;
  rtime := -1; mss := 1460; rttest := 0; rtseq := 0; sa := 0; sv := 6; rto := 6; nrtx := 0; dupacks := 0; lastack := 5000;
  cwnd := 5840; ssthresh := 16384; rto_end := 0;
  snd_nxt := 5000; snd_wl1 := 2 ^ 32 - 4; snd_wl2 := 5000; snd_lbb := 5000; snd_wnd := 20000; snd_wnd_max := 20000;
  snd_buf := 16384; snd_queuelen := 0; unsent_oversize := 0; bytes_acked := 0;
  unsent := []; unacked := []; ooseq := []; refused_data := None;
  keep_idle := 7200000; persist_cnt := 0; persist_backoff := 0; persist_probe := 0; keep_cnt_sent := 0;
  snd_scale := 0; rcv_scale := 0;
|}.

(** The first allocations succeed; the second packet is refused by IP. *)
Definition demo_st : tcp_st := mk_st demo_pcb 100 true [true; true; true; true; true; true; true; true] [ERR_OK; ERR_IF] [].

(** A segment of the peer's at position [a] of the stream. *)
Definition demo_seg (a : Z) (c : chain) (f : Z) : tcp_seg := mk_seg c (tot_len c) 0 0 (u32 (2 ^ 32 - 3 + a)) 5000 f 20000 1.

Section Demo.
#[local] Existing Instances ios demo_ip.

Definition demo_x1 : tcp_seg := demo_seg 2 [[2; 3]] (Z.lor TCP_ACK TCP_PSH).
Definition demo_x2 : tcp_seg := demo_seg 0 [[0; 1]; [2]] TCP_ACK.
Definition demo_x3 : tcp_seg := demo_seg 3 [[3; 4]; [5]] (Z.lor TCP_ACK TCP_FIN).
Definition demo_in (x : tcp_seg) (s : tcp_st) : tcp_in := seg_input x 5000 20000 s.
Definition demo_t1 : tcp_in := Eval vm_compute in default (demo_in demo_x1 demo_st) (tcp_receive (demo_in demo_x1 demo_st)).
Definition demo_t2 : tcp_in := Eval vm_compute in default (demo_in demo_x2 (st demo_t1)) (tcp_receive (demo_in demo_x2 (st demo_t1))).
Definition demo_s3 : tcp_st := Eval vm_compute in default (st demo_t2) (tcp_recved 4 (st demo_t2)).
Definition demo_t4 : tcp_in := Eval vm_compute in default (demo_in demo_x3 demo_s3) (tcp_receive (demo_in demo_x3 demo_s3)).

Lemma runs_seg_eq strm fin isn R s a x ack wnd t R1 d1 f1 d f R2 s2 : honest strm fin isn R a x (pcb s) ->
  tcp_receive (seg_input x ack wnd s) = Some t -> R + u32 (rcv_nxt (ipcb t) - rcv_nxt (pcb s)) = R1 -> rdata t = d1 -> got_fin t = f1 ->
  runs strm fin isn R1 (st t) d f R2 s2 -> runs strm fin isn R s (d1 ++ d) (f1 || f) R2 s2.
Proof. intros H1 H2 <- <- <- H3. by eapply runs_seg. Qed.

#[local] Ltac demo_honest :=
  split; [split; try reflexivity; try (vm_compute; intuition congruence); intros l [= <-]; vm_compute; congruence|vm_compute; intuition congruence].

(** Out of order, overlapping, across the wrap of the sequence numbers, with a
    read in between and a FIN at the end. *)
Lemma tcp_delivers_stream_witness :
  runs (fun i => i) (Some 6) (2 ^ 32 - 3) 0 demo_st [0; 1; 2; 3; 4; 5] true 7 (st demo_t4)
  /\ [0; 1; 2; 3; 4; 5] = slice (fun i => i) 0 6 /\ conn_ok (fun i => i) (Some 6) (2 ^ 32 - 3) 7 (st demo_t4).
Proof.
  assert (runs (fun i => i) (Some 6) (2 ^ 32 - 3) 0 demo_st [0; 1; 2; 3; 4; 5] true 7 (st demo_t4)) as Hr.
  { apply (runs_seg_eq _ _ _ 0 demo_st 2 demo_x1 5000 20000 demo_t1 0 [] false); [demo_honest|by vm_compute..|].
    apply (runs_seg_eq _ _ _ 0 (st demo_t1) 0 demo_x2 5000 20000 demo_t2 4 [0; 1; 2; 3] false [4; 5]); [demo_honest|by vm_compute..|].
    apply (runs_recved _ _ _ 4 (st demo_t2) 4 demo_s3); [lia|by vm_compute|].
    apply (runs_seg_eq _ _ _ 4 demo_s3 3 demo_x3 5000 20000 demo_t4 7 [4; 5] true [] false); [demo_honest|by vm_compute..|]. apply runs_done. }
  split; [exact Hr|].
  destruct (tcp_delivers_stream _ _ _ _ _ _ _ _ _ Hr) as (_ & H2 & _ & H4 & _).
  { split; [by split|]. exists 32768, 32768, 0. split; [split; [by split|split; [constructor|done]]|done]. }
  split; [exact H2|exact H4].
Defined.
End Demo.
