(* ===== verification/TcpOverrun.v ===== *)
(** * TcpOverrun: a segment queued beyond the receive window

    [tcp_receive] cuts an in-sequence segment and the last of several
    out-of-sequence ones to the receive window, but not the first one it queues.
    This file follows such a segment until the gap before it is filled. *)

From S2P Require Import Prelude Opts TcpPcb TcpOut TcpIn TcpStream TcpRun.

(** What the acknowledgement of a segment leaves alone. *)
Definition rx_same (p q : tcp_pcb) : Prop := rcv_nxt q = rcv_nxt p /\ rcv_wnd q = rcv_wnd p /\ ooseq q = ooseq p /\ state q = state p.

#[export] Instance rx_same_preorder : PreOrder rx_same.
Proof. split; [by intros p|]. intros p q r (H1 & H2 & H3 & H4) (K1 & K2 & K3 & K4). split_and!; congruence. Qed.

Ltac rxdone := first [done | unfold tcp_set_flags, tcp_clear_flags; split_and!; reflexivity].

Section Overrun.
Context {o : Opts} {ip : IpLayer}.

Lemma rx_updp f s : pcb (updp f s) = f (pcb s).
Proof. done. Qed.

Lemma rx_alloc s : pcb (snd (alloc s)) = pcb s.
Proof. unfold alloc. by repeat case_match. Qed.

Lemma rx_ip_output k s : pcb (snd (ip_output_if k s)) = pcb s.
Proof. unfold ip_output_if. by repeat case_match. Qed.

Lemma rx_empty_ack s : rx_same (pcb s) (pcb (snd (tcp_send_empty_ack s))).
Proof.
  unfold tcp_send_empty_ack, tcp_output_alloc_header. pose proof (rx_alloc s) as H. destruct (alloc s) as [b s1]. cbn [snd] in H. destruct b.
  2: { cbn [snd]. rewrite rx_updp, H. rxdone. }
  set (s2 := updp _ s1). set (k := mk_packet _ _ _ _ _ _ _ _ _ _ _ _). assert (H2 : rx_same (pcb s) (pcb s2)) by (unfold s2; rewrite rx_updp, H; rxdone). clearbody s2 k.
  assert (H3 : pcb (snd (tcp_output_control_segment (Some (pcb s2)) k s2)) = pcb s2) by (unfold tcp_output_control_segment; destruct (tcp_route _ _ _); [apply rx_ip_output|done]).
  destruct (tcp_output_control_segment _ _ _) as [e s3]. cbn [snd] in H3. etransitivity; [exact H2|]. rewrite <- H3. destruct (negb _); cbn [snd]; rewrite rx_updp; rxdone.
Qed.

Lemma rx_rexmit_fast s : rx_same (pcb s) (pcb (tcp_rexmit_fast s)).
Proof.
  unfold tcp_rexmit_fast. case_match; [|done]. unfold tcp_rexmit. destruct (unacked (pcb s)) as [|x rest]; [done|]. destruct (tcp_output_segment_busy x); [done|].
  cbv zeta. unfold updp. rsimpl. repeat case_match; rxdone.
Qed.

Lemma rx_new_ack t u : new_ack t = Some u -> rx_same (ipcb t) (ipcb u).
Proof.
  unfold new_ack. cbv zeta. set (p0 := if flag_set _ TF_INFR then _ else _). assert (H0 : rx_same (ipcb t) p0) by (unfold p0; case_match; rxdone). clearbody p0.
  set (p1 := if _ <=? _ then _ else _). assert (H1 : rx_same (ipcb t) p1) by (etransitivity; [exact H0|]; unfold p1, grow_cwnd; repeat case_match; rxdone).
  clearbody p1. destruct (tcp_free_acked_segments _ _ _ _ _) as [[[l1 q1] a1]|]; [|done]. destruct (tcp_free_acked_segments _ _ _ _ _) as [[[l2 q2] a2]|]; [|done].
  intros [= <-]. etransitivity; [exact H1|].
  match goal with |- rx_same _ (ipcb ((updi (fun _ => clear_rto ?p) ?t) <| recv_acked := _ |>)) => change (rx_same p1 (clear_rto p)); assert (Hp : rx_same p1 p) by (case_match; rxdone); revert Hp; generalize p end.
  intros p Hp. etransitivity; [exact Hp|]. unfold clear_rto. repeat case_match; rxdone.
Qed.

Lemma rx_dup_ack e t : rx_same (ipcb t) (ipcb (dup_ack e t)).
Proof.
  unfold dup_ack. destruct (_ && _); [|done]. cbv zeta. set (t3 := updi _ (updi _ t)).
  assert (H3 : rx_same (ipcb t) (ipcb t3)) by (unfold t3, updi, ipcb; rsimpl; rewrite !rx_updp; do 2 case_match; rxdone).
  clearbody t3. destruct (3 <=? _); [|done]. etransitivity; [exact H3|]. apply rx_rexmit_fast.
Qed.

(** The acknowledgement does not touch the receive side nor the segment. *)
Definition same_text (t u : tcp_in) : Prop := rx_same (ipcb t) (ipcb u) /\ inseg u = inseg t /\ seqno u = seqno t /\ tcplen u = tcplen t.

Lemma rx_receive_ack t u : receive_ack t = Some u -> same_text t u.
Proof.
  unfold receive_ack. cbv zeta. set (t1 := updi (update_snd_wnd t) t).
  assert (H1 : same_text t t1) by (split; [|done]; unfold t1, updi, ipcb; rsimpl; rewrite rx_updp; unfold update_snd_wnd; repeat case_match; rxdone).
  clearbody t1. set (r := if TCP_SEQ_LEQ _ _ then _ else _). assert (Hr : forall t2, r = Some t2 -> same_text t1 t2).
  { intros t2. unfold r. destruct (TCP_SEQ_LEQ _ _); [|destruct (TCP_SEQ_BETWEEN _ _ _)].
    - intros [= <-]. split; [apply rx_dup_ack|]. unfold dup_ack. repeat case_match; done.
    - intros E. split; [by apply rx_new_ack|]. revert E. unfold new_ack. cbv zeta. destruct (tcp_free_acked_segments _ _ _ _ _) as [[[? ?] ?]|]; [|done].
      destruct (tcp_free_acked_segments _ _ _ _ _) as [[[? ?] ?]|]; [|done]. by intros [= <-].
    - intros [= <-]. split; [apply rx_empty_ack|done]. }
  destruct r as [t2|]; [|done]. destruct (Hr t2 eq_refl) as (H2 & F1 & F2 & F3). destruct H1 as (H1 & G1 & G2 & G3). intros [= <-].
  split; [etransitivity; [exact H1|]; etransitivity; [exact H2|]|split_and!; case_match; cbn; congruence].
  case_match; [|done]. unfold updi, ipcb. rsimpl. rewrite rx_updp. unfold rtt_sample. rxdone.
Qed.

(** A state in which text is taken: ESTABLISHED, FIN-WAIT-1 or FIN-WAIT-2. *)
Definition takes_text (p : tcp_pcb) : Prop := state_num ESTABLISHED <= state_num (state p) < state_num CLOSE_WAIT.

(** [tcp_receive] is its text part in a state with the same receive side. *)
Lemma receive_is_text x ack wnd s : takes_text (pcb s) ->
  tcp_receive (seg_input x ack wnd s) = None \/ exists t, same_text (seg_input x ack wnd s) t /\ tcp_receive (seg_input x ack wnd s) = receive_text t.
Proof.
  intros [Hs _]. unfold tcp_receive. change (ipcb (seg_input x ack wnd s)) with (pcb s). rewrite (proj2 (Z.leb_le _ _)) by done. destruct (flag_set _ TCP_ACK).
  - destruct (receive_ack _) as [t|] eqn:E; [|by left]. right. exists t. split; [by apply rx_receive_ack|done].
  - right. exists (seg_input x ack wnd s). by split.
Qed.

(** Neither SYN nor FIN. *)
Definition plain (x : tcp_seg) : Prop := flag_set (h_flags x) (Z.lor TCP_FIN TCP_SYN) = false.

Lemma plain_len x : plain x -> TCP_TCPLEN x = s_len x.
Proof. unfold plain, TCP_TCPLEN. intros ->. lia. Qed.

(** The segment is ahead of the next expected byte and inside the window. *)
Record ahead (gap : Z) (t : tcp_in) : Prop := {
  ah_state : takes_text (ipcb t);
  ah_nxt : is_u32 (rcv_nxt (ipcb t));
  ah_wnd : 0 < gap < rcv_wnd (ipcb t) /\ rcv_wnd (ipcb t) < 1073741824;
  ah_seq : seqno t = u32 (rcv_nxt (ipcb t) + gap);
  ah_len : 0 < tcplen t < 65536;
}.

(** As the first one of the queue it is kept as it is. *)
Lemma receive_first gap t u : ahead gap t -> ooseq (ipcb t) = [] -> receive_text t = Some u ->
  rcv_nxt (ipcb u) = rcv_nxt (ipcb t) /\ rcv_wnd (ipcb u) = rcv_wnd (ipcb t) /\ state (ipcb u) = state (ipcb t)
  /\ (ooseq (ipcb u) = [] \/ ooseq (ipcb u) = [(inseg t) <| s_ref := s_ref (inseg t) + 1 |>]).
Proof.
  intros [[_ H1] H2 [H3 H4] H5 H6] Hq. unfold receive_text. set (p := ipcb t) in *. rewrite (proj2 (Z.ltb_lt 0 _)), (proj2 (Z.ltb_lt (state_num _) _)) by lia. cbn [andb].
  pose proof (u32_id _ H2) as Hn. set (n := rcv_nxt p) in *. assert (En : u32 n = seqn n 0) by (unfold seqn; f_equal; lia). assert (Es : forall k, u32 (seqno t + k) = seqn n (gap + k)) by (intros k; rewrite H5; apply (seqn_add id)).
  rewrite (SEQ_BETWEEN_off id n 0 (gap + 1) (gap + (tcplen t - 1))) by first [exact En | lia | apply Es | rewrite <- Es; f_equal; lia].
  rewrite (proj2 (Z.leb_gt _ _)) by lia. cbn [andb].
  assert (Es0 : u32 (seqno t) = seqn n gap) by (rewrite <- (Z.add_0_r (seqno t)), Es; f_equal; lia).
  rewrite (SEQ_LT_off id n gap 0) by (done || lia). rewrite (proj2 (Z.ltb_ge _ _)) by lia.
  rewrite (SEQ_BETWEEN_off id n gap 0 (rcv_wnd p - 1)) by first [done | lia | unfold seqn; f_equal; lia].
  rewrite (proj2 (Z.leb_le _ _)), (proj2 (Z.leb_le _ _)) by lia. cbn [andb].
  destruct (Z.eqb_spec n (seqno t)) as [E|_].
  { apply (f_equal u32) in E. rewrite En, Es0 in E. apply (seqn_inj id) in E; lia. }
  unfold receive_oos. change (pcb (st t)) with p. rewrite Hq. unfold tcp_seg_copy. pose proof (rx_alloc (st t)) as Ha. destruct (alloc (st t)) as [b s1]. cbn [snd] in Ha. change (pcb (st t)) with p in Ha.
  destruct b; cbv beta iota zeta; (match goal with |- context [tcp_send_empty_ack ?s] => pose proof (rx_empty_ack s) as (K1 & K2 & K3 & K4); destruct (tcp_send_empty_ack s) as [e s2] end);
    intros [= <-]; rewrite rx_updp, Ha in *; change (ipcb (t <| st := s2 |>)) with (pcb s2); cbn [snd] in *; rewrite K1, K2, K3, K4; (split_and!; [reflexivity..|]); [by right|by left].
Qed.

Lemma take_seg_wnd x tl t u : take_seg x tl t = Some u -> rcv_nxt (ipcb u) = u32 (h_seqno x + tl) /\ rcv_wnd (ipcb u) = rcv_wnd (ipcb t) - tl /\ tl <= rcv_wnd (ipcb t).
Proof.
  unfold take_seg. cbv zeta. set (p := (ipcb t) <| rcv_nxt := _ |>). destruct (Z.leb_spec tl (rcv_wnd p)) as [Hl|]; [|done]. change (rcv_wnd p) with (rcv_wnd (ipcb t)) in *.
  set (p1 := p <| rcv_wnd := _ |>). destruct (tcp_update_rcv_ann_wnd p1) as [[m q]|] eqn:Ea; [|done].
  assert (Hq : rcv_nxt q = rcv_nxt p1 /\ rcv_wnd q = rcv_wnd p1) by (revert Ea; unfold tcp_update_rcv_ann_wnd; repeat case_match; try done; by intros [= _ <-]).
  set (t2 := if 0 <? _ then _ else _). assert (Ht : ipcb t2 = q) by (unfold t2; by case_match). clearbody t2. intros [= <-]. destruct Hq as [Hq1 Hq2].
  assert (E : ipcb (if flag_set (h_flags x) TCP_FIN then t2 <| recv_flags := Z.lor (recv_flags t2) TF_GOT_FIN |> else t2) = q) by (by case_match). rewrite E. split_and!; [exact Hq1|exact Hq2|done].
Qed.

(** The segment that fills the gap up to the queued one. *)
Lemma receive_fill gap t y : takes_text (ipcb t) -> is_u32 (rcv_nxt (ipcb t)) -> 0 < gap < rcv_wnd (ipcb t) -> rcv_wnd (ipcb t) < 1073741824 -> gap < 65536 ->
  seqno t = rcv_nxt (ipcb t) -> h_seqno (inseg t) = rcv_nxt (ipcb t) -> plain (inseg t) -> s_len (inseg t) = gap -> tcplen t = gap ->
  ooseq (ipcb t) = [y] -> plain y -> h_seqno y = u32 (rcv_nxt (ipcb t) + gap) -> rcv_wnd (ipcb t) - gap < s_len y < 65536 ->
  receive_text t = None.
Proof.
  intros [_ H1] H2 H3 H4 H5 Hs Hx Px Lx Ht Hq Py Hy Ly. unfold receive_text. set (p := ipcb t) in *. rewrite (proj2 (Z.ltb_lt 0 _)), (proj2 (Z.ltb_lt (state_num _) _)) by lia. cbn [andb].
  pose proof (u32_id _ H2) as Hn. set (n := rcv_nxt p) in *. assert (En : u32 n = seqn n 0) by (unfold seqn; f_equal; lia). rewrite Hs, Ht.
  rewrite (SEQ_BETWEEN_off id n 0 1 (gap - 1)) by first [done | lia | unfold seqn; f_equal; lia]. change (1 <=? 0) with false. cbn [andb].
  rewrite (SEQ_LT_off id n 0 0) by (done || lia). change (0 <? 0) with false. cbv beta iota. rewrite Hs.
  rewrite (SEQ_BETWEEN_off id n 0 0 (rcv_wnd p - 1)) by first [done | lia | unfold seqn; f_equal; lia].
  change (0 <=? 0) with true. rewrite (proj2 (Z.leb_le 0 (rcv_wnd p - 1))) by lia. cbn [andb]. rewrite Z.eqb_refl.
  unfold receive_inseq. change (ipcb t) with p. assert (Hl : u16 (TCP_TCPLEN (inseg t)) = gap) by (rewrite plain_len, Lx by done; apply u16_id; unfold is_u16; lia).
  rewrite Hl, (proj2 (Z.ltb_ge (rcv_wnd p) gap)) by lia. cbv beta iota. rewrite Hq. unfold plain in Px. rewrite flag_lor_mask in Px. apply orb_false_elim in Px as [Pf Ps]. rewrite Pf. cbn [inseg_absorb]. rewrite Hl, Hs.
  assert (Ey : forall k, u32 (h_seqno y + k) = seqn n (gap + k)) by (intros k; rewrite Hy; apply (seqn_add id)).
  rewrite (SEQ_GEQ_off id n gap (gap + s_len y)) by first [done | lia | apply Ey]. rewrite (proj2 (Z.leb_gt (gap + s_len y) gap)) by lia. cbv beta iota. rewrite Hl.
  rewrite (SEQ_GT_off id n gap gap); [|done|rewrite <- (Z.add_0_r (h_seqno y)), Ey; f_equal; lia|lia]. rewrite Z.ltb_irrefl. cbv beta iota. rewrite Hl.
  set (t1 := _ <| tcplen := gap |>). change (tcplen t1) with gap. destruct (take_seg (inseg t) gap t1) as [t2|] eqn:E2; [|done]. apply take_seg_wnd in E2 as (N2 & W2 & _).
  change (rcv_wnd (ipcb t1)) with (rcv_wnd p) in W2. cbn [deliver_oos]. rewrite N2, Hx, Hy, Z.eqb_refl. rewrite (plain_len y) by done.
  destruct (take_seg y _ t2) as [t3|] eqn:E3; [|done]. apply take_seg_wnd in E3 as (_ & _ & W3). lia.
Qed.

(** C38: a peer can make an assertion of [tcp_receive] fail with two segments.
    [x1] begins [gap] bytes ahead, inside the window, and ends beyond it; with
    nothing queued yet it is queued as it is, where a later one would be cut to
    the window ([ooseq] is not empty afterwards, that is, the copy could be
    allocated).  When [x2] then fills the gap, in whatever state of the send
    side and with whatever acknowledgements on the two segments, "tcp_receive:
    ooseq tcplen > rcv_wnd" fails. *)
Theorem oos_overrun_asserts s x1 x2 ack1 wnd1 ack2 wnd2 gap t1 :
  let p := pcb s in
  takes_text p -> is_u32 (rcv_nxt p) -> ooseq p = [] -> rcv_wnd p < 1073741824 ->
  plain x1 -> plain x2 -> 0 < gap < rcv_wnd p -> gap < 65536 ->
  h_seqno x1 = u32 (rcv_nxt p + gap) -> rcv_wnd p - gap < s_len x1 < 65536 ->
  h_seqno x2 = rcv_nxt p -> s_len x2 = gap ->
  tcp_receive (seg_input x1 ack1 wnd1 s) = Some t1 -> ooseq (ipcb t1) <> [] ->
  tcp_receive (seg_input x2 ack2 wnd2 (st t1)) = None.
Proof.
  cbv zeta. intros H1 H2 Hq Hw P1 P2 Hg Hg2 S1 L1 S2 L2 E1 Hne.
  destruct (receive_is_text x1 ack1 wnd1 s H1) as [E|(t & ((K1 & K2 & K3 & K4) & F1 & F2 & F3) & E)]; [congruence|].
  rewrite E in E1. cbn in K1, K2, K3, K4, F1, F2, F3. change (ipcb (seg_input x1 ack1 wnd1 s)) with (pcb s) in *.
  apply (receive_first gap) in E1 as (R1 & R2 & R3 & R4); [| |congruence].
  2: { split; unfold takes_text in *; rewrite ?K1, ?K2, ?K4, ?F2, ?F3; try done. rewrite plain_len by done. lia. }
  destruct R4 as [R4|R4]; [done|]. rewrite F1 in R4. rewrite K1 in R1. rewrite K2 in R2. rewrite K4 in R3. change (ipcb t1) with (pcb (st t1)) in *.
  assert (H1' : takes_text (pcb (st t1))) by (unfold takes_text; by rewrite R3).
  destruct (receive_is_text x2 ack2 wnd2 (st t1) H1') as [E2|(t2 & ((J1 & J2 & J3 & J4) & G1 & G2 & G3) & E2)]; [done|]. rewrite E2.
  change (ipcb (seg_input x2 ack2 wnd2 (st t1))) with (pcb (st t1)) in *. cbn in G1, G2, G3. rewrite plain_len in G3 by done.
  eapply (receive_fill gap t2); unfold takes_text; rewrite ?J1, ?J2, ?J3, ?J4, ?R1, ?R2, ?R3, ?R4, ?G1, ?G2, ?G3; try done; lia.
Qed.
End Overrun.

(** ** A connection whose window is down to ten bytes *)
Section Demo.
#[local] Existing Instances ios demo_ip.

Definition low_st : tcp_st := demo_st <| pcb := demo_pcb <| rcv_wnd := 10 |> <| rcv_ann_wnd := 10 |> <| rcv_ann_right_edge := 7 |> |>.
Definition low_x1 : tcp_seg := demo_seg 5 [repeat 7 20] TCP_ACK.
Definition low_x2 : tcp_seg := demo_seg 0 [repeat 7 5] TCP_ACK.
Definition low_t1 : tcp_in := Eval vm_compute in default (demo_in low_x1 low_st) (tcp_receive (demo_in low_x1 low_st)).

Lemma oos_overrun_asserts_witness : tcp_receive (demo_in low_x1 low_st) = Some low_t1 /\ tcp_receive (demo_in low_x2 (st low_t1)) = None.
Proof.
  assert (E1 : tcp_receive (demo_in low_x1 low_st) = Some low_t1) by (vm_compute; reflexivity). split; [exact E1|].
  apply (oos_overrun_asserts low_st low_x1 low_x2 5000 20000 5000 20000 5 low_t1); vm_compute; intuition congruence.
Defined.
End Demo.
