(* ===== verification/TcpWrite.v ===== *)
(** * TcpWrite: what [tcp_write] promises

    [tcp_write] queues all of the data or none of it, whatever allocation
    fails: the bytes waiting to be sent become the old ones followed by the new
    ones, cut into segments that follow each other in sequence numbers, none
    longer than the maximum segment size allows; the accounting of buffer
    space, pbufs and spare room stays right. *)

From S2P Require Import Prelude Opts Mem TcpPcb TcpOut TcpIn TcpStream TcpRun.

(** The bytes of a queue. *)
Fixpoint qbytes (l : list tcp_seg) : list Z := match l with [] => [] | x :: l => cbytes (s_p x) ++ qbytes l end.

Lemma qbytes_app l k : qbytes (l ++ k) = qbytes l ++ qbytes k.
Proof. induction l as [|x l IH]; cbn; [done|]. by rewrite IH, app_assoc. Qed.

(** The sequence numbers a queue takes. *)
Fixpoint tlen (l : list tcp_seg) : Z := match l with [] => 0 | x :: l => TCP_TCPLEN x + tlen l end.

Lemma tlen_app l k : tlen (l ++ k) = tlen l + tlen k.
Proof. induction l as [|x l IH]; cbn [tlen app]; [done|]. rewrite IH. lia. Qed.

(** Segments that follow each other from sequence number [q] on. *)
Fixpoint contiguous (q : Z) (l : list tcp_seg) : Prop :=
  match l with [] => True | x :: l => h_seqno x = u32 q /\ contiguous (q + TCP_TCPLEN x) l end.

Lemma contiguous_app q l k : contiguous q (l ++ k) <-> contiguous q l /\ contiguous (q + tlen l) k.
Proof.
  revert q. induction l as [|x l IH]; intros q; cbn [contiguous tlen app].
  - rewrite Z.add_0_r. tauto.
  - rewrite IH. replace (q + TCP_TCPLEN x + tlen l) with (q + (TCP_TCPLEN x + tlen l)) by lia. tauto.
Qed.

Lemma last_split {A} (l : list A) x : last l = Some x -> l = removelast l ++ [x].
Proof.
  intros H. destruct (list_snoc_destruct l) as [->|(l' & y & ->)]; [done|]. rewrite last_snoc in H. simplify_eq. by rewrite removelast_last.
Qed.

Lemma cappend_spec c d : c <> [] -> cbytes (cappend c d) = cbytes c ++ d /\ lenz (cappend c d) = lenz c.
Proof.
  induction c as [|q c IH]; [done|]. intros _. destruct c as [|q2 c]; [unfold cbytes; cbn; by rewrite !app_nil_r|].
  change (cappend (q :: q2 :: c) d) with (q :: cappend (q2 :: c) d). destruct (IH ltac:(done)) as [I1 I2].
  rewrite !(cbytes_cons q), I1, !(lenz_cons q), I2. by rewrite app_assoc.
Qed.

Lemma psh_flags f : flag_set (Z.lor f TCP_PSH) TCP_RST = flag_set f TCP_RST
  /\ flag_set (Z.lor f TCP_PSH) (Z.lor TCP_FIN TCP_SYN) = flag_set f (Z.lor TCP_FIN TCP_SYN).
Proof.
  rewrite !flag_lor_mask, !flag_fin, !flag_syn. change TCP_RST with (2 ^ 2). rewrite !flag_bit by lia. rewrite !Z.lor_spec.
  change (Z.testbit TCP_PSH 2) with false. change (Z.testbit TCP_PSH 0) with false. change (Z.testbit TCP_PSH 1) with false. by rewrite !orb_false_r.
Qed.

Section Write.
Context {o : Opts} {ook : OptsOk o} {ip : IpLayer}.

(** The segment size [tcp_write] works with. *)
Definition mss_local (p : tcp_pcb) : Z :=
  let m := Z.min (mss p) (TCPWND_MIN16 (snd_wnd_max p / 2)) in if m =? 0 then mss p else m.

(** The data and the options of a segment fit the segment size. *)
Definition fits (m : Z) (x : tcp_seg) : Prop := s_len x + LWIP_TCP_OPT_LENGTH (s_flags x) <= m.

(** A queued segment that may still grow: its length is that of its data, and
    the spare room recorded for it fits the segment size. *)
Record grow_ok (m ov : Z) (x : tcp_seg) : Prop := {
  g_len : s_len x = tot_len (s_p x);
  g_chain : s_p x <> [];
  g_left : s_oversize_left x = ov;
  g_fit : s_len x + LWIP_TCP_OPT_LENGTH (s_flags x) + ov <= m;
  g_ov : 0 <= ov;
  (** a segment with SYN or FIN has no spare room and is not grown *)
  g_flag : flag_set (h_flags x) (Z.lor TCP_FIN TCP_SYN) = true -> ov = 0 /\ s_len x = 0;
}.

Lemma grow_fits m ov x : grow_ok m ov x -> fits m x.
Proof. intros []. unfold fits. lia. Qed.

Record wr_inv (p : tcp_pcb) : Prop := {
  w_mss : 0 < mss p <= TCP_MSS;
  w_wnd : 0 <= snd_wnd_max p;
  w_buf : 0 <= snd_buf p <= TCP_SND_BUF;
  w_last : match last (unsent p) with None => unsent_oversize p = 0 | Some x => grow_ok (mss_local p) (unsent_oversize p) x end;
  w_seq : exists q, contiguous q (unsent p) /\ snd_lbb p = u32 (q + tlen (unsent p));
  w_chains : Forall (fun x => s_p x <> []) (unacked p ++ unsent p);
  w_qlen : snd_queuelen p < 65535;
  w_fit : Forall (fits (mss p)) (unsent p);
}.

Lemma mss_local_range p : 0 < mss p <= TCP_MSS -> 0 <= snd_wnd_max p -> 0 < mss_local p <= TCP_MSS.
Proof.
  intros H1 H2. unfold mss_local. assert (0 <= TCPWND_MIN16 (snd_wnd_max p / 2)) by (unfold TCPWND_MIN16; case_match; zlia).
  destruct (Z.eqb_spec (Z.min (mss p) (TCPWND_MIN16 (snd_wnd_max p / 2))) 0); lia.
Qed.

Lemma mss_local_le p : 0 < mss p <= TCP_MSS -> mss_local p <= mss p.
Proof. intros H. unfold mss_local. case_match; lia. Qed.

Lemma alloc_pcb s b s' : alloc s = (b, s') -> pcb s' = pcb s.
Proof. unfold alloc. destruct (allocs s); intros [= <- <-]; done. Qed.

Lemma prealloc_ok n m fl first s ov s' : 0 < n <= m -> m <= TCP_MSS -> tcp_pbuf_prealloc n m fl first s = (ov, s') ->
  pcb s' = pcb s /\ match ov with Some v => 0 <= v <= m - n | None => True end.
Proof.
  intros Hn Hm. unfold tcp_pbuf_prealloc. set (alc := if n <? m then _ else _). assert (n <= alc <= m).
  { unfold alc. rewrite align_eq. unfold TCP_OVERSIZE, TCP_MSS in *. destruct (Z.ltb_spec n m); [|lia]. case_match; lia. }
  destruct (alloc s) as [ok s1] eqn:Ea. apply alloc_pcb in Ea. unfold TCP_MSS in *. destruct ok; intros [= <- <-]; (split; [done|]); [|done]. zlia.
Qed.

(** New segments for the data from [pos] on. *)
Record new_segs (m q n ov : Z) (data : list Z) (new : list tcp_seg) : Prop := {
  n_bytes : qbytes new = data;
  n_seq : contiguous q new;
  n_len : tlen new = n;
  n_tx : Forall tx_seg new;
  n_chains : Forall (fun x => s_p x <> []) new;
  n_last : match last new with None => True | Some x => grow_ok m ov x end;
  n_fit : Forall (fits m) new;
}.

Lemma new_segs_snoc m q n ov ov' d d' new x : new_segs m q n ov d new -> cbytes (s_p x) = d' -> h_seqno x = u32 (q + n) ->
  tx_seg x -> grow_ok m ov' x -> new_segs m q (n + TCP_TCPLEN x) ov' (d ++ d') (new ++ [x]).
Proof.
  intros [N1 N2 N3 N4 N5 N7 N8] H1 H2 H4 H5. split.
  - rewrite qbytes_app, N1. cbn. by rewrite H1, app_nil_r.
  - apply contiguous_app. rewrite N3. cbn. done.
  - rewrite tlen_app, N3. cbn [tlen]. lia.
  - apply Forall_app. auto.
  - apply Forall_app. split; [done|]. apply Forall_cons. split; [apply H5|done].
  - by rewrite last_snoc.
  - apply Forall_app. split; [done|]. apply Forall_singleton. by eapply grow_fits.
Qed.

Lemma contiguous_seq q q' l : u32 q = u32 q' -> contiguous q l -> contiguous q' l.
Proof.
  revert q q'. induction l as [|x l IH]; intros q q' E; [done|]. cbn [contiguous]. intros [H1 H2]. split; [by rewrite <- E|].
  revert H2. apply IH. unfold u32 in *. rewrite <- (Zplus_mod_idemp_l q), <- (Zplus_mod_idemp_l q'). by rewrite E.
Qed.

Lemma new_segs_seq m q q' n ov d new : new_segs m q n ov d new -> u32 q = u32 q' -> new_segs m q' n ov d new.
Proof. intros [N1 N2 N3 N4 N5 N7 N8] E. split; try done. by eapply contiguous_seq. Qed.

(** The data after another piece of it. *)
Lemma data_step (d arg : list Z) n pos : 0 <= pos -> 0 <= n -> (d ++ takez n (dropz pos arg)) ++ dropz (pos + n) arg = d ++ dropz pos arg.
Proof. intros H1 H2. rewrite <- app_assoc. f_equal. rewrite <- (takez_dropz n (dropz pos arg)) at 2. f_equal. unfold dropz. rewrite drop_drop. f_equal. lia. Qed.

Lemma write_loop_ok arg p fl : 0 < mss p <= TCP_MSS -> 0 <= snd_wnd_max p -> forall k pos ov ql queue s d H,
  pcb s = p -> 0 <= pos <= lenz arg -> 0 <= ql < 65535 ->
  new_segs (mss_local p) (snd_lbb p + (pos - tlen queue)) (tlen queue) ov d queue ->
  exists r s', write_loop k arg pos (mss_local p) ov ql fl queue s H = (r, s') /\ pcb s' = p /\
    match r with
    | None => True
    | Some (q', ov', ql') => new_segs (mss_local p) (snd_lbb p + (pos - tlen queue)) (tlen queue + (lenz arg - pos)) ov' (d ++ dropz pos arg) q'
        /\ ql' = ql + qsum q' - qsum queue /\ ql' < 65535 /\ (q' = queue -> ov' = ov)
    end.
Proof.
  intros Hm Hw. pose proof (mss_local_range p Hm Hw) as Hml.
  induction k as [|k IH]; intros pos ov ql queue s d H Hp Hpos Hq Hn; [lia|]. cbn [write_loop].
  destruct (Z.ltb_spec pos (lenz arg)) as [Hlt|Hge].
  2: { eexists _, s. split; [done|]. split; [done|]. rewrite dropz_all, app_nil_r by lia. replace (tlen queue + (lenz arg - pos)) with (tlen queue) by lia.
       split_and!; [done|lia|lia|done]. }
  set (n := Z.min (lenz arg - pos) (mss_local p)). destruct (tcp_pbuf_prealloc n _ _ _ s) as [ov1 s1] eqn:E1.
  apply prealloc_ok in E1 as [P1 O1]; [|unfold n; lia|lia]. destruct ov1 as [ov1|]; [|eexists None, s1; split_and!; try done; by rewrite P1].
  destruct (decide (qlimit < u16 (ql + 1))) as [|Hq1]; [eexists None, s1; split_and!; try done; by rewrite P1|].
  assert (Eq : u16 (ql + 1) = ql + 1) by (apply u16_id; zlia). assert (Hq2 : ql + 1 < 65535) by (rewrite Eq in Hq1; unfold qlimit, TCP_SNDQUEUELEN_OVERFLOW in Hq1; lia).
  unfold tcp_create_segment. destruct (alloc s1) as [ok s2] eqn:E2. apply alloc_pcb in E2.
  destruct ok; [|eexists None, s2; split_and!; try done; by rewrite E2, P1].
  set (x := mk_seg _ _ _ _ _ _ _ _ _). set (x1 := x <| s_oversize_left := ov1 |>).
  assert (Ln : lenz (takez n (dropz pos arg)) = n) by (apply lenz_takez; rewrite lenz_dropz by lia; unfold n; lia).
  assert (Lx : s_len x1 = n) by (unfold x1, x, tot_len, cbytes; rsimpl; cbn; by rewrite app_nil_r).
  assert (Tx : TCP_TCPLEN x1 = n) by (unfold TCP_TCPLEN; change (flag_set (h_flags x1) _) with false; lia).
  assert (Hx : new_segs (mss_local p) (snd_lbb p + (pos - tlen queue)) (tlen queue + TCP_TCPLEN x1) ov1 (d ++ takez n (dropz pos arg)) (queue ++ [x1])).
  { apply (new_segs_snoc _ _ _ ov); try done.
    - unfold x1, x, cbytes. cbn. by rewrite app_nil_r.
    - unfold x1, x. cbn. rewrite P1, Hp. f_equal. lia.
    - split; [done|]. rewrite Tx. unfold n. lia.
    - assert (E0 : LWIP_TCP_OPT_LENGTH (s_flags x1) = 0) by (unfold LWIP_TCP_OPT_LENGTH; by destruct LWIP_WND_SCALE).
      split; try done; [rewrite Lx, E0; lia|lia]. }
  destruct (IH (pos + n) ov1 (u16 (ql + 1)) (queue ++ [x1]) s2 (d ++ takez n (dropz pos arg)) (qroom_step ql k Hq1 H)) as (r & s' & -> & P' & R'); try (rewrite ?Eq; unfold n in *; lia).
  { by rewrite E2, P1. }
  { rewrite tlen_app. cbn [tlen]. rewrite Tx, Z.add_0_r. replace (snd_lbb p + (pos + n - (tlen queue + n))) with (snd_lbb p + (pos - tlen queue)) by lia.
    rewrite Tx in Hx. exact Hx. }
  exists r, s'. split; [done|]. split; [done|]. destruct r as [[[q' ov'] ql']|]; [|done]. destruct R' as (R1 & R2 & R3 & R4). rewrite Eq in R2.
  rewrite tlen_app in R1. cbn [tlen] in R1. rewrite Tx in R1. split_and!.
  - replace (snd_lbb p + (pos - tlen queue)) with (snd_lbb p + (pos + n - (tlen queue + (n + 0)))) by lia.
    replace (tlen queue + (lenz arg - pos)) with (tlen queue + (n + 0) + (lenz arg - (pos + n))) by lia.
    by rewrite data_step in R1 by (unfold n; lia).
  - rewrite qsum_app in R2. change (qsum [x1]) with 1 in R2. lia.
  - done.
  - intros ->. pose proof (n_len _ _ _ _ _ _ R1). unfold n in *. lia.
Qed.

(** ** The last unsent segment *)

(** [x] grown by the first [pos] bytes of the data, in [k] more pbufs. *)
Record grown (m ov pos k : Z) (arg : list Z) (x x' : tcp_seg) : Prop := {
  gr_bytes : cbytes (s_p x') = cbytes (s_p x) ++ takez pos arg;
  gr_tcplen : TCP_TCPLEN x' = TCP_TCPLEN x + pos;
  gr_pbufs : lenz (s_p x') = lenz (s_p x) + k;
  gr_seqno : h_seqno x' = h_seqno x;
  gr_flags : h_flags x' = h_flags x;
  gr_ok : grow_ok m ov x';
}.

(** Nothing to put there: data found no room. *)
Lemma grown_nothing m ov arg x : grow_ok m ov x -> grown m ov 0 0 arg x x.
Proof. intros H. split; try done; try lia. by rewrite takez_0, app_nil_r by lia. Qed.

Lemma extend_last_ok m ov ovn n k d arg x : grow_ok m ov x -> m <= TCP_MSS -> 0 <= n <= lenz arg -> n <= ov ->
  (0 < n \/ d <> None -> flag_set (h_flags x) (Z.lor TCP_FIN TCP_SYN) = false) ->
  match d with
  | None => k = 0 /\ ovn = ov - n
  | Some b => k = 1 /\ ov = n /\ 0 <= ovn /\ s_len x + LWIP_TCP_OPT_LENGTH (s_flags x) + n + lenz b + ovn <= m /\ takez (n + lenz b) arg = takez n arg ++ b
  end -> 0 <= LWIP_TCP_OPT_LENGTH (s_flags x) ->
  forall u, exists x', extend_last arg (mk_tail n d (match d with Some _ => ovn | None => 0 end) u) x = Some x'
  /\ grown m ovn (n + match d with Some b => lenz b | None => 0 end) k arg x x'.
Proof.
  intros [G1 G2 G3 G4 G5 G6] Hm Hn Hov Hfl Hd Hopt u. unfold extend_last. cbn [oversize_used concat_p oversize_add]. rewrite G3.
  pose proof (lenz_nonneg (cbytes (s_p x))) as Hnn. unfold tot_len in G1. unfold TCP_MSS in Hm.
  set (add := match d with Some _ => ovn | None => 0 end).
  assert (Hadd : 0 <= ov + add <= 1460) by (unfold add; destruct d as [b|]; [destruct Hd as (_ & ? & ? & ? & _); pose proof (lenz_nonneg b)|]; lia).
  rewrite (u16_id (ov + add)) by zlia.
  set (x0 := x <| s_oversize_left := ov + add |>).
  set (r := if 0 <? n then _ else _).
  assert (exists x1, r = Some x1 /\ cbytes (s_p x1) = cbytes (s_p x) ++ takez n arg /\ s_len x1 = s_len x + n /\ lenz (s_p x1) = lenz (s_p x)
    /\ s_oversize_left x1 = ov + add - n /\ h_seqno x1 = h_seqno x /\ h_flags x1 = h_flags x /\ s_flags x1 = s_flags x /\ s_p x1 <> [])
    as (x1 & -> & X1 & X2 & X3 & X4 & X5 & X6 & X7 & X8).
  { unfold r. destruct (Z.ltb_spec 0 n).
    - change (s_oversize_left x0) with (ov + add). rewrite (proj2 (Z.leb_le _ _)) by (unfold add; destruct d as [b|]; [destruct Hd as (_ & ? & ? & _)|]; lia). eexists. split; [done|].
      destruct (cappend_spec (s_p x) (takez n arg) G2) as [C1 C2]. split_and!; try done.
      + change (u16 (s_len x + n) = s_len x + n). apply u16_id. zlia.
      + intros E. change (cappend (s_p x) (takez n arg) = []) in E.
        rewrite E in C2. destruct (s_p x); [done|]. rewrite lenz_cons in C2. pose proof (lenz_nonneg c). rewrite lenz_nil in C2. lia.
    - assert (n = 0) as -> by lia. exists x0. rewrite takez_0, app_nil_r by lia. split_and!; try done; change (s_len x0) with (s_len x); change (s_oversize_left x0) with (ov + add); lia. }
  destruct d as [b|]; eexists; (split; [done|]).
  - destruct Hd as (-> & Ho & H0 & Hfit & Htk). pose proof (lenz_nonneg b). assert (Hb : u16 (s_len x1 + lenz b) = s_len x + n + lenz b) by (rewrite X2; apply u16_id; zlia).
    rewrite Hb. assert (F : flag_set (h_flags x1) (Z.lor TCP_FIN TCP_SYN) = false) by (rewrite X6; apply Hfl; by right).
    split; try done.
    + change (cbytes (s_p x1 ++ [b]) = cbytes (s_p x) ++ takez (n + lenz b) arg). rewrite cbytes_app, X1, Htk, <- app_assoc. unfold cbytes. cbn. by rewrite app_nil_r.
    + unfold TCP_TCPLEN. rsimpl. rewrite F, <- X6, F. lia.
    + change (lenz (s_p x1 ++ [b]) = lenz (s_p x) + 1). rewrite lenz_app, X3. done.
    + split; rsimpl; try done.
      * unfold tot_len. rewrite cbytes_app, X1, !lenz_app, lenz_takez by lia. unfold cbytes at 2. cbn. rewrite app_nil_r. lia.
      * by destruct (s_p x1).
      * rewrite X4. unfold add. lia.
      * rewrite X7. lia.
      * by rewrite F.
  - destruct Hd as (-> & ->). rewrite Z.add_0_r. split; try done; [|lia|].
    + unfold TCP_TCPLEN. rewrite X2, X6. lia.
    + split; try done.
      * unfold tot_len. rewrite X1, lenz_app, lenz_takez by lia. lia.
      * rewrite X4. unfold add. lia.
      * rewrite X2, X7. lia.
      * lia.
      * rewrite X6, X2. intros F. destruct (G6 F) as [-> ->]. lia.
Qed.

Lemma OPT_LENGTH_nonneg f : 0 <= LWIP_TCP_OPT_LENGTH f.
Proof. unfold LWIP_TCP_OPT_LENGTH. repeat case_match; lia. Qed.

(** Phases 1 and 2 never fail an assertion; they leave the pcb alone, and what
    they decide about the last unsent segment can be carried out. *)
Lemma write_tail_ok arg fl s : wr_inv (pcb s) -> 0 <= snd_queuelen (pcb s) ->
  exists r s', write_tail arg (mss_local (pcb s)) fl s = Some (r, s') /\ pcb s' = pcb s /\
  match r with
  | None => True
  | Some (t, ov, ql, pos) =>
      0 <= pos <= lenz arg /\ snd_queuelen (pcb s) <= ql <= snd_queuelen (pcb s) + Z.min 1 (lenz arg) /\
      match last (unsent (pcb s)) with
      | None => ov = 0 /\ pos = 0 /\ ql = snd_queuelen (pcb s)
      | Some x => exists x', extend_last arg t x = Some x' /\ grown (mss_local (pcb s)) ov pos (ql - snd_queuelen (pcb s)) arg x x'
      end
  end.
Proof.
  intros [W1 W2 W3 W4 W5 W6 W7 _] Hq0. pose proof (mss_local_range _ W1 W2) as Hm. pose proof (lenz_nonneg arg) as Hla. unfold write_tail.
  destruct (last (unsent (pcb s))) as [x|] eqn:El.
  2: { rewrite W4. cbn [Z.eqb]. eexists _, s. split; [done|]. split; [done|]. split_and!; try done; lia. }
  pose proof W4 as [G1 G2 G3 G4 G5 G6]. pose proof (OPT_LENGTH_nonneg (s_flags x)) as Hopt. set (ov := unsent_oversize (pcb s)) in *. set (m := mss_local (pcb s)) in *.
  assert (Hlx : 0 <= s_len x) by (rewrite G1; apply lenz_nonneg).
  rewrite (proj2 (Z.leb_le _ m)) by lia. rewrite G3, Z.eqb_refl. rewrite (proj2 (Z.leb_le ov _)), orb_true_r by lia.
  set (used := if 0 <? ov then _ else _). assert (Eu : used = Z.min ov (lenz arg)) by (unfold used; destruct (Z.ltb_spec 0 ov); lia). rewrite Eu. clear used Eu.
  set (n := Z.min ov (lenz arg)). replace ((ov - n =? 0) || (n =? lenz arg)) with true
    by (symmetry; apply orb_true_iff; destruct (Z.le_gt_cases ov (lenz arg)); [left|right]; apply Z.eqb_eq; unfold n; lia).
  destruct ((n <? lenz arg) && (0 <? m - (s_len x + LWIP_TCP_OPT_LENGTH (s_flags x)) - n) && (0 <? s_len x)) eqn:Ec.
  - bprop. set (sp := m - (s_len x + LWIP_TCP_OPT_LENGTH (s_flags x)) - n) in *. set (k := Z.min sp (lenz arg - n)).
    assert (Fx : flag_set (h_flags x) (Z.lor TCP_FIN TCP_SYN) = false) by (destruct (flag_set _ _) eqn:F; [destruct (G6 eq_refl); lia|done]).
    destruct (tcp_pbuf_prealloc k sp fl true s) as [ov1 s1] eqn:E1. apply prealloc_ok in E1 as [P1 O1]; [|unfold k; lia|unfold sp; lia].
    destruct ov1 as [ov1|]; [|eexists None, s1; by split_and!].
    assert (Lk : lenz (takez k (dropz n arg)) = k) by (apply lenz_takez; rewrite lenz_dropz by (unfold n; lia); unfold k, n; lia).
    destruct (extend_last_ok m ov ov1 n 1 (Some (takez k (dropz n arg))) arg x W4) with (u := true) as (x' & E' & G'); try done; try (unfold n; lia).
    { rewrite Lk. split_and!; try (unfold n, k, sp in *; lia). 
      rewrite <- (takez_dropz n arg) at 1. rewrite takez_app by (unfold n, k; lia). rewrite lenz_takez by (unfold n; lia).
      replace (n + k - n) with k by lia. f_equal. apply takez_all. rewrite lenz_takez by (unfold n; lia). unfold k. lia. }
    rewrite Lk in G'. exists (Some (mk_tail n (Some (takez k (dropz n arg))) ov1 true, ov1, u16 (snd_queuelen (pcb s) + 1), n + k)), s1.
    split; [done|]. split; [done|]. rewrite u16_id by zlia. split; [unfold k, n; lia|]. split; [lia|].
    exists x'. split; [done|]. by replace (snd_queuelen (pcb s) + 1 - snd_queuelen (pcb s)) with 1 by lia.
  - destruct (extend_last_ok m ov (ov - n) n 0 None arg x W4) with (u := 0 <? ov) as (x' & E' & G'); try done; try (unfold n; lia).
    { intros [Hn|]; [|done]. destruct (flag_set _ _) eqn:F; [|done]. destruct (G6 eq_refl). unfold n in Hn. lia. }
    eexists _, s. split; [done|]. split; [done|]. split; [unfold n; lia|]. split; [lia|]. exists x'. split; [exact E'|].
    rewrite Z.add_0_r in G'. by rewrite Z.sub_diag.
Qed.

(** ** The commit *)

(** Setting PSH changes nothing that matters here. *)
Definition shape (x y : tcp_seg) : Prop := y = x \/ y = set_psh x.

Lemma psh_last_shape l : Forall2 shape l (psh_last l).
Proof.
  induction l as [|x l IH]; [constructor|]. destruct l as [|y l]; [constructor; [by right|constructor]|].
  change (psh_last (x :: y :: l)) with (x :: psh_last (y :: l)). constructor; [by left|done].
Qed.

Lemma shape_refl l : Forall2 shape l l.
Proof. induction l; constructor; [by left|done]. Qed.

Lemma shape_fields x y : shape x y -> s_p y = s_p x /\ TCP_TCPLEN y = TCP_TCPLEN x /\ h_seqno y = h_seqno x /\ (tx_seg x -> tx_seg y)
  /\ (forall m ov, grow_ok m ov x -> grow_ok m ov y).
Proof.
  intros [-> | ->]; [by split_and!|]. destruct (psh_flags (h_flags x)) as [F1 F2].
  assert (ET : TCP_TCPLEN (set_psh x) = TCP_TCPLEN x) by (unfold TCP_TCPLEN, set_psh; rsimpl; by rewrite F2).
  split_and!; try done.
  - intros [T1 T2]. split; [unfold set_psh; rsimpl; by rewrite F1|by rewrite ET].
  - intros m ov [G1 G2 G3 G4 G5 G6]. split; try done. unfold set_psh. rsimpl. by rewrite F2.
Qed.

Lemma shape_queue l k : Forall2 shape l k ->
  qbytes k = qbytes l /\ tlen k = tlen l /\ qsum k = qsum l /\ (forall q, contiguous q l -> contiguous q k)
  /\ (Forall tx_seg l -> Forall tx_seg k) /\ (Forall (fun x => s_p x <> []) l -> Forall (fun x => s_p x <> []) k)
  /\ match last l, last k with None, None => True | Some x, Some y => shape x y | _, _ => False end.
Proof.
  induction 1 as [|x y l k Hs Hf IH]; [by split_and!|]. destruct IH as (I1 & I2 & I3 & I4 & I5 & I6 & I7).
  destruct (shape_fields x y Hs) as (S1 & S2 & S3 & S4 & S5). cbn [qbytes tlen qsum contiguous]. rewrite S1, S2, S3, I1, I2, I3. split_and!; try done.
  - intros q [H1 H2]. split; [done|]. by apply I4.
  - intros [H1 H2]%Forall_cons. constructor; auto.
  - intros [H1 H2]%Forall_cons. constructor; [by rewrite S1|auto].
  - destruct l as [|x2 l], k as [|y2 k]; try done; by inversion Hf.
Qed.

Lemma shape_fits m l k : Forall2 shape l k -> Forall (fits m) l -> Forall (fits m) k.
Proof. induction 1 as [|x y l k Hs Hf IH]; [done|]. intros [H1 H2]%Forall_cons. constructor; [|auto]. destruct Hs as [-> | ->]; exact H1. Qed.

(** A queue of unsent segments from [q] on that holds [data]. *)
Record queue_ok (M m ov q : Z) (data : list Z) (l : list tcp_seg) : Prop := {
  q_bytes : qbytes l = data;
  q_seq : contiguous q l;
  q_tx : Forall tx_seg l;
  q_chains : Forall (fun x => s_p x <> []) l;
  q_last : match last l with None => ov = 0 | Some x => grow_ok m ov x end;
  q_fit : Forall (fits M) l;
}.

(** The unsent queue with its last segment grown. *)
Lemma old_ok p q arg (ext : tcp_seg -> option tcp_seg) ov ql pos : wr_inv p -> contiguous q (unsent p) -> Forall tx_seg (unsent p) -> 0 <= pos ->
  match last (unsent p) with
  | None => ov = 0 /\ pos = 0 /\ ql = snd_queuelen p
  | Some x => exists x', ext x = Some x' /\ grown (mss_local p) ov pos (ql - snd_queuelen p) arg x x'
  end ->
  exists old, match last (unsent p) with None => Some [] | Some x => let? x := ext x in Some (removelast (unsent p) ++ [x]) end = Some old
  /\ queue_ok (mss p) (mss_local p) ov q (qbytes (unsent p) ++ takez pos arg) old
  /\ tlen old = tlen (unsent p) + pos /\ qsum old = qsum (unsent p) + (ql - snd_queuelen p).
Proof.
  intros [W1 W2 _ _ _ W6 _ W8] Hc Ht Hp Hx. apply Forall_app in W6 as [_ W6]. destruct (last (unsent p)) as [x|] eqn:El.
  2: { apply last_None in El as ->. destruct Hx as (-> & -> & ->). exists []. split; [done|]. rewrite takez_0 by lia. split; [by split|]. cbn. lia. }
  destruct Hx as (x' & -> & [G1 G2 G3 G4 G5 G6]). eexists. split; [done|]. apply last_split in El. rewrite El in Hc, Ht, W6, W8 |- *. apply Forall_app in W8 as [W8 _]. rewrite removelast_last.
  apply contiguous_app in Hc as [Hc1 [Hc2 _]]. apply Forall_app in Ht as [Ht1 [[Ht2 Ht3] _]%Forall_cons]. apply Forall_app in W6 as [W6 _].
  split; [|rewrite !tlen_app, !qsum_app; cbn [tlen qsum]; lia]. split.
  - rewrite !qbytes_app. cbn [qbytes]. by rewrite G1, !app_nil_r, app_assoc.
  - apply contiguous_app. split; [done|]. cbn. by rewrite G4.
  - apply Forall_app. split; [done|]. apply Forall_singleton. split; [by rewrite G5|lia].
  - apply Forall_app. split; [done|]. apply Forall_singleton. apply G6.
  - by rewrite last_snoc.
  - apply Forall_app. split; [done|]. apply Forall_singleton. apply grow_fits in G6. unfold fits in *. pose proof (mss_local_le p W1). lia.
Qed.

Lemma queue_app M m ov0 ov q d d' old new : m <= M -> queue_ok M m ov0 q d old -> new_segs m (q + tlen old) (tlen new) ov d' new -> (new = [] -> ov = ov0) ->
  queue_ok M m ov q (d ++ d') (old ++ new).
Proof.
  intros HM [Q1 Q2 Q3 Q4 Q5 Q6] [N1 N2 N3 N4 N5 N7 N8] Hn. split.
  - by rewrite qbytes_app, Q1, N1.
  - by apply contiguous_app.
  - by apply Forall_app.
  - by apply Forall_app.
  - destruct (list_snoc_destruct new) as [->|(l & x & ->)]; [rewrite app_nil_r, Hn by done; exact Q5|]. rewrite app_assoc, last_snoc. by rewrite last_snoc in N7.
  - apply Forall_app. split; [done|]. eapply Forall_impl; [exact N8|]. unfold fits. intros. lia.
Qed.

Lemma queue_shape M m ov q d l k : queue_ok M m ov q d l -> Forall2 shape l k -> queue_ok M m ov q d k.
Proof.
  intros [Q1 Q2 Q3 Q4 Q5 Q6] Hs. destruct (shape_queue l k Hs) as (S1 & S2 & S3 & S4 & S5 & S6 & S7).
  split; [by rewrite S1|auto..| |by eapply shape_fits]. destruct (last l), (last k); try done. destruct (shape_fields _ _ S7) as (_ & _ & _ & _ & S8). auto.
Qed.

(** Queues and their pbuf count agree on being empty. *)
Lemma queues_empty p : tx_ok p -> Forall (fun x => s_p x <> []) (unacked p ++ unsent p) -> snd_queuelen p = 0 <-> unacked p = [] /\ unsent p = [].
Proof.
  intros [_ [T2 _] _] Hc. rewrite T2. split; [|by intros [-> ->]]. intros H. destruct (unacked p ++ unsent p) as [|x l] eqn:E; [by apply app_eq_nil in E|].
  apply Forall_cons in Hc as [Hx _]. cbn in H. pose proof (qsum_nonneg l). destruct (s_p x) as [|b c]; [done|]. rewrite lenz_cons in H. pose proof (lenz_nonneg c). lia.
Qed.

Lemma queue_assert p : tx_ok p -> (snd_queuelen p =? 0) || negb (bool_decide (unacked p = [])) || negb (bool_decide (unsent p = [])) = true.
Proof.
  intros [_ [T2 _] _]. destruct (unacked p) as [|x l] eqn:E1; [|by rewrite orb_true_r]. destruct (unsent p) as [|y k] eqn:E2; [|by rewrite orb_true_r].
  by rewrite T2.
Qed.

(** The pcb after a failed write. *)
Definition unchanged (p p' : tcp_pcb) : Prop :=
  unsent p' = unsent p /\ unacked p' = unacked p /\ snd_buf p' = snd_buf p /\ snd_lbb p' = snd_lbb p /\ snd_queuelen p' = snd_queuelen p.

Lemma wr_inv_flags p f : wr_inv p -> wr_inv (p <| flags := f |>).
Proof. intros []. by split. Qed.

Lemma write_memerr_ok s : tx_ok (pcb s) -> wr_inv (pcb s) ->
  exists s', write_memerr s = Some (ERR_MEM, s') /\ tx_ok (pcb s') /\ wr_inv (pcb s') /\ unchanged (pcb s) (pcb s').
Proof.
  intros Ht Hw. unfold write_memerr. assert (Ht' : tx_ok (pcb (updp (tcp_set_flags TF_NAGLEMEMERR) s))) by (by eapply tx_ok_ext).
  rewrite (queue_assert _ Ht'). eexists. split; [done|]. split; [done|]. split; [by apply wr_inv_flags|done].
Qed.

Lemma write_checks_ok n s : tx_ok (pcb s) -> wr_inv (pcb s) -> 0 <= n ->
  exists e s', tcp_write_checks n s = Some (e, s') /\ tx_ok (pcb s') /\ wr_inv (pcb s') /\ unchanged (pcb s) (pcb s')
  /\ (e = ERR_OK -> s' = s /\ n <= snd_buf (pcb s) /\ snd_queuelen (pcb s) + 2 * Z.min 1 n < 65535).
Proof.
  intros Ht Hw Hn. pose proof (w_buf _ Hw) as Hb. pose proof (queues_empty _ Ht (w_chains _ Hw)) as Hq. unfold tcp_write_checks.
  assert (Herr : forall e, e <> ERR_OK -> exists e' s', Some (e, updp (tcp_set_flags TF_NAGLEMEMERR) s) = Some (e', s') /\ tx_ok (pcb s') /\ wr_inv (pcb s')
    /\ unchanged (pcb s) (pcb s') /\ (e' = ERR_OK -> s' = s /\ n <= snd_buf (pcb s) /\ snd_queuelen (pcb s) + 2 * Z.min 1 n < 65535)).
  { intros e He. eexists _, _. split; [done|]. split; [by eapply tx_ok_ext|]. split; [by apply wr_inv_flags|]. split; [done|]. by intros ->. }
  case_match; [by eexists _, s|]. destruct (Z.eqb_spec n 0); [pose proof (w_qlen _ Hw); eexists _, s; split_and!; try done; intros _; split_and!; [done|lia..]|].
  destruct (Z.ltb_spec (snd_buf (pcb s)) n); [by apply Herr|]. destruct (Z.leb_spec (Z.min TCP_SND_QUEUELEN (TCP_SNDQUEUELEN_OVERFLOW + 1)) (snd_queuelen (pcb s))) as [|Hl]; [by apply Herr|].
  unfold TCP_SNDQUEUELEN_OVERFLOW in Hl. assert (Hr : s = s /\ n <= snd_buf (pcb s) /\ snd_queuelen (pcb s) + 2 * Z.min 1 n < 65535) by (split_and!; [done|lia..]).
  destruct (Z.eqb_spec (snd_queuelen (pcb s)) 0) as [E|E]; cbn [negb].
  - apply Hq in E as [-> ->]. cbn [bool_decide]. by eexists _, s.
  - pose proof (queue_assert _ Ht) as Ha. rewrite (proj2 (Z.eqb_neq _ _)) in Ha by done. cbn [orb] in Ha. rewrite Ha. by eexists _, s.
Qed.

Lemma snd_buf_sub p n : 0 <= n <= snd_buf p -> 0 <= snd_buf p <= TCP_SND_BUF -> tcpwnd (snd_buf p - n) = snd_buf p - n.
Proof.
  intros H1 H2. pose proof tcp_snd_buf_range as H3. unfold tcpwnd. destruct LWIP_WND_SCALE eqn:E; [zlia|]. pose proof (tcp_snd_buf_u16 E). zlia.
Qed.

(** The commit: what was planned is put in place. *)
Lemma commit_queue_ok arg fl touched old queue ov0 ov ql pos q s s1 : tx_ok (pcb s) -> wr_inv (pcb s) -> pcb s1 = pcb s -> lenz arg <= snd_buf (pcb s) ->
  snd_lbb (pcb s) = u32 (q + tlen (unsent (pcb s))) -> 0 <= pos <= lenz arg ->
  queue_ok (mss (pcb s)) (mss_local (pcb s)) ov0 q (qbytes (unsent (pcb s)) ++ takez pos arg) old -> tlen old = tlen (unsent (pcb s)) + pos ->
  new_segs (mss_local (pcb s)) (q + tlen old) (lenz arg - pos) ov (dropz pos arg) queue -> (queue = [] -> ov = ov0) ->
  ql = snd_queuelen (pcb s) + (qsum old - qsum (unsent (pcb s))) + qsum queue -> ql < 65535 ->
  exists s', commit_queue arg fl touched old queue ov ql s1 = Some (ERR_OK, s') /\ tx_ok (pcb s') /\ wr_inv (pcb s') /\ unacked (pcb s') = unacked (pcb s)
    /\ qbytes (unsent (pcb s')) = qbytes (unsent (pcb s)) ++ arg /\ snd_buf (pcb s') = snd_buf (pcb s) - lenz arg
    /\ snd_lbb (pcb s') = u32 (snd_lbb (pcb s) + lenz arg).
Proof.
  intros Ht Hw E1 Hbuf Hlbb Hpos Hold Lold Hnew Hov Eql Hql. unfold commit_queue. rewrite E1.
  set (l := if flag_set fl _ then _ else _). set (p := (pcb s) <| unsent_oversize := ov |> <| unsent := l |> <| snd_lbb := _ |> <| snd_buf := _ |> <| snd_queuelen := ql |>).
  pose proof (lenz_nonneg arg) as Hla. pose proof (qsum_nonneg queue) as Hlq.
  pose proof Ht as [T1 [T2 T2'] T3]. rewrite qsum_app in T2. apply Forall_app in T3 as [T3 T4]. pose proof Hw as [W1 W2 W3 W4 _ W6 W7 _]. apply Forall_app in W6 as [W6 _].
  assert (Hl : Forall2 shape (old ++ queue) l).
  { unfold l. destruct (flag_set fl _); [apply shape_refl|]. case_bool_decide as Eq.
    - rewrite Eq, app_nil_r. destruct touched; [apply psh_last_shape|apply shape_refl].
    - apply Forall2_app; [apply shape_refl|apply psh_last_shape]. }
  pose proof (n_len _ _ _ _ _ _ Hnew) as Lnew.
  assert (HQ : queue_ok (mss (pcb s)) (mss_local (pcb s)) ov q ((qbytes (unsent (pcb s)) ++ takez pos arg) ++ dropz pos arg) l).
  { eapply queue_shape; [|exact Hl]. eapply queue_app; [by apply mss_local_le|exact Hold| |exact Hov]. by rewrite Lnew. }
  rewrite <- app_assoc, takez_dropz in HQ. destruct HQ as [Q1 Q2 Q3 Q4 Q5 Q6]. destruct (shape_queue _ _ Hl) as (_ & S2 & S3 & _). rewrite tlen_app in S2. rewrite qsum_app in S3.
  assert (Ht' : tx_ok p).
  { split; [exact T1| |by apply Forall_app]. change (ql = qsum (unacked (pcb s) ++ l) /\ ql < 65536). rewrite qsum_app. lia. }
  assert (Hb : snd_buf p = snd_buf (pcb s) - lenz arg) by (apply snd_buf_sub; lia).
  assert (Hlb : snd_lbb p = u32 (snd_lbb (pcb s) + lenz arg)) by done.
  rewrite (queue_assert p Ht'). exists (s1 <| pcb := p |>). split; [done|]. change (pcb (s1 <| pcb := p |>)) with p. split_and!; try done.
  split; [exact W1|exact W2|lia|exact Q5| |by apply Forall_app|exact Hql|exact Q6].
  exists q. split; [exact Q2|]. rewrite Hlb, Hlbb. change (unsent p) with l. rewrite S2, Lold, Lnew. unfold u32. rewrite Zplus_mod_idemp_l. f_equal. lia.
Qed.

(** What a write promises: all of [arg] is queued, or nothing is changed. *)
Definition written (arg : list Z) (s : tcp_st) (r : option (err_t * tcp_st)) : Prop :=
  exists e s', r = Some (e, s') /\ tx_ok (pcb s') /\ wr_inv (pcb s') /\ unacked (pcb s') = unacked (pcb s) /\
    if err_ok e then
      qbytes (unsent (pcb s')) = qbytes (unsent (pcb s)) ++ arg /\ snd_buf (pcb s') = snd_buf (pcb s) - lenz arg
      /\ snd_lbb (pcb s') = u32 (snd_lbb (pcb s) + lenz arg)
    else unchanged (pcb s) (pcb s').

Lemma written_fail arg s e s' : e <> ERR_OK -> tx_ok (pcb s') -> wr_inv (pcb s') -> unchanged (pcb s) (pcb s') -> written arg s (Some (e, s')).
Proof. intros He H1 H2 H3. exists e, s'. unfold err_ok. rewrite bool_decide_eq_false_2 by done. split_and!; try done; apply H3. Qed.

Lemma written_memerr arg s s1 : tx_ok (pcb s) -> wr_inv (pcb s) -> pcb s1 = pcb s -> written arg s (write_memerr s1).
Proof. intros Ht Hw E1. destruct (write_memerr_ok s1) as (s2 & -> & M1 & M2 & M3); [by rewrite E1..|]. rewrite E1 in M3. by apply written_fail. Qed.

(** The checks at the beginning, before the actual work. *)
Lemma written_checks arg s k : tx_ok (pcb s) -> wr_inv (pcb s) ->
  (lenz arg <= snd_buf (pcb s) -> snd_queuelen (pcb s) + 2 * Z.min 1 (lenz arg) < 65535 -> written arg s (k s)) ->
  written arg s (let? (err, s) := tcp_write_checks (lenz arg) s in if negb (err_ok err) then Some (err, s) else k s).
Proof.
  intros Ht Hw Hk. destruct (write_checks_ok (lenz arg) s Ht Hw (lenz_nonneg arg)) as (e & s0 & -> & C1 & C2 & C3 & C4).
  destruct (err_ok e) eqn:Ee; cbn [negb]; [|apply written_fail; try done; intros ->; done]. unfold err_ok in Ee. bprop. destruct (C4 Ee) as (-> & Hbuf & Hq1). by apply Hk.
Qed.

Lemma tcp_write_written arg fl s : tx_ok (pcb s) -> wr_inv (pcb s) -> written arg s (tcp_write arg fl s).
Proof.
  intros Ht Hw. unfold tcp_write. fold (mss_local (pcb s)). pose proof (lenz_nonneg arg) as Hla. apply (written_checks arg s (fun s0 => _)); [done|done|]. intros Hbuf Hq1.
  pose proof Ht as [_ [T2 _] T3]. apply Forall_app in T3 as [_ T4]. pose proof Hw as [W1 W2 _ _ (q & W5 & W5') _ _ _].
  pose proof (qsum_nonneg (unacked (pcb s) ++ unsent (pcb s))).
  destruct (write_tail_ok arg fl s Hw ltac:(lia)) as (r & s1 & -> & P1 & R1). destruct r as [[[[t ov] ql] pos]|]; [|by apply written_memerr].
  destruct R1 as (Hpos & Hql & Hx). destruct (old_ok (pcb s) q arg (extend_last arg t) ov ql pos Hw W5 T4 ltac:(lia) Hx) as (old & Eold & Hold & Lold & Sold).
  destruct (write_loop_ok arg (pcb s) fl W1 W2 (S (qroom ql)) pos ov ql [] s1 [] (Nat.lt_succ_diag_r _)) as (r & s2 & -> & P2 & R2); try done; try lia.
  destruct r as [[[queue ov'] ql']|]; [|by apply written_memerr]. destruct R2 as (N1 & N2 & N3 & N4). cbn [tlen app qsum] in N1, N2. rewrite Z.sub_0_r, Z.add_0_l in N1.
  unfold write_commit. rewrite P2, Eold. cbn [mbind option_bind].
  destruct (commit_queue_ok arg fl (touches_last t) old queue ov ov' ql' pos q s s2) as (s' & -> & K); try done; [|lia|].
  { eapply new_segs_seq; [exact N1|]. rewrite W5', Lold. unfold u32. rewrite Zplus_mod_idemp_l. f_equal. lia. }
  exists ERR_OK, s'. split; [done|]. exact K.
Qed.
End Write.
