(* ===== verification/TcpWriteRef.v ===== *)
(** * TcpWriteRef: [tcp_write] without [TCP_WRITE_FLAG_COPY]

    The other half of [tcp_write] (src/Sources/Lwip/src/core/tcp_out.c): the
    data is not copied, segments refer to it.  New segments are a pbuf for the
    headers and a ROM pbuf for the data; what fits the last unsent segment goes
    into a ROM pbuf of its own or, when the data directly follows in memory what
    the last ROM pbuf refers to, extends that one.  Phase 1 (spare room of a
    copying write before) copies in both modes.  [tcp_write_any] is the whole
    function, and it is all or nothing in both modes. *)

From S2P Require Import Prelude Opts Mem TcpPcb TcpOut TcpIn TcpStream TcpRun TcpWrite.

(** What phases 1 and 2 decide about the last unsent segment: bytes for its spare
    room, bytes for a ROM pbuf concatenated to it, bytes by which its last ROM
    pbuf is extended, and whether it is to carry PSH. *)
Record ref_use := mk_ref { ref_used : Z; ref_concat : option (list Z); extendlen : Z; ref_touches : bool }.

Section Ref.
Context {o : Opts} {ip : IpLayer}.

(** The last pbuf of the last unsent segment is a ROM pbuf whose data ends where
    [arg] begins. *)
Variable follows_rom : bool.

Definition write_tail_ref (arg : list Z) (mss_local : Z) (s : tcp_st) : option (option (ref_use * Z * Z * Z) * tcp_st) :=
  let len := lenz arg in
  let p := pcb s in
  match last (unsent p) with
  | Some last_unsent =>
      let unsent_optlen := LWIP_TCP_OPT_LENGTH (s_flags last_unsent) in
      assert! (s_len last_unsent + unsent_optlen <=? mss_local) in
      let space := mss_local - (s_len last_unsent + unsent_optlen) in
      assert! (unsent_oversize p =? s_oversize_left last_unsent) in
      let oversize := unsent_oversize p in
      assert! ((oversize =? 0) || (oversize <=? space)) in
      let used := if 0 <? oversize then Z.min space (Z.min oversize len) else 0 in
      let pos := used in
      let oversize' := oversize - used in
      let space := space - used in
      assert! ((oversize' =? 0) || (pos =? len)) in
      if (pos <? len) && (0 <? space) && (0 <? s_len last_unsent) then
        let seglen := Z.min space (len - pos) in
        if follows_rom then
          assert! (pos =? 0) in
          Some (Some (mk_ref used None seglen true, oversize', snd_queuelen p, pos + seglen), s)
        else
          let (ok, s) := alloc s in
          if ok : bool then Some (Some (mk_ref used (Some (takez seglen (dropz pos arg))) 0 true, oversize', u16 (snd_queuelen p + 1), pos + seglen), s)
          else Some (None, s)
      else Some (Some (mk_ref used None 0 (0 <? oversize), oversize', snd_queuelen p, pos), s)
  | None =>
      assert! (unsent_oversize p =? 0) in
      Some (Some (mk_ref 0 None 0 false, 0, snd_queuelen p, 0), s)
  end.

(** Phase 3: the pbuf for the data is allocated first, then that for the headers. *)
Fixpoint write_loop_ref (fuel : nat) (arg : list Z) (pos mss_local oversize queuelen : Z) (queue : list tcp_seg) (s : tcp_st)
  : option (option (list tcp_seg * Z * Z) * tcp_st) :=
  match fuel with
  | O => None
  | S fuel =>
      let len := lenz arg in
      if pos <? len then
        let left := len - pos in
        let max_len := mss_local in
        let seglen := Z.min left max_len in
        assert! (oversize =? 0) in
        let (p2, s) := alloc s in
        if negb p2 then Some (None, s)
        else
          let (p, s) := alloc s in
          if negb p then Some (None, s)
          else
            let queuelen := u16 (queuelen + 2) in
            if Z.min TCP_SND_QUEUELEN TCP_SNDQUEUELEN_OVERFLOW <? queuelen then Some (None, s)
            else
              let (seg, s) := tcp_create_segment [[]; takez seglen (dropz pos arg)] 0 (snd_lbb (pcb s) + pos) 0 s in
              match seg with
              | None => Some (None, s)
              | Some seg =>
                  write_loop_ref fuel arg (pos + seglen) mss_local oversize queuelen (queue ++ [seg <| s_oversize_left := oversize |>]) s
              end
      else Some (Some (queue, oversize, queuelen), s)
  end.

(** The last unsent segment once nothing can fail any more: [extend_last] for the
    first two cases, then the extension of the ROM pbuf. *)
Definition extend_ref (arg : list Z) (t : ref_use) (x : tcp_seg) : option tcp_seg :=
  let? x := extend_last arg (mk_tail (ref_used t) (ref_concat t) 0 (ref_touches t)) x in
  Some (match ref_concat t with
        | Some _ => x
        | None =>
            if 0 <? extendlen t then x <| s_p := cappend (s_p x) (takez (extendlen t) arg) |> <| s_len := u16 (s_len x + extendlen t) |>
            else x
        end).

Definition write_commit_ref (arg : list Z) (apiflags : Z) (t : ref_use) (queue : list tcp_seg) (oversize queuelen : Z) (s : tcp_st)
  : option (err_t * tcp_st) :=
  let? old :=
    match last (unsent (pcb s)) with
    | None => Some []
    | Some x => let? x := extend_ref arg t x in Some (removelast (unsent (pcb s)) ++ [x])
    end in
  commit_queue arg apiflags (ref_touches t) old queue oversize queuelen s.

Definition tcp_write_ref (arg : list Z) (apiflags : Z) (s : tcp_st) : option (err_t * tcp_st) :=
  let len := lenz arg in
  let p := pcb s in
  let mss_local := Z.min (mss p) (TCPWND_MIN16 (snd_wnd_max p / 2)) in
  let mss_local := if mss_local =? 0 then mss p else mss_local in
  let? (err, s) := tcp_write_checks len s in
  if negb (err_ok err) then Some (err, s)
  else
    let? (r, s) := write_tail_ref arg mss_local s in
    match r with
    | None => write_memerr s
    | Some (t, oversize, queuelen, pos) =>
        let? (q, s) := write_loop_ref (Z.to_nat (len + TCP_SND_QUEUELEN) + 2) arg pos mss_local oversize queuelen [] s in
        match q with
        | None => write_memerr s
        | Some (queue, oversize, queuelen) => write_commit_ref arg apiflags t queue oversize queuelen s
        end
    end.

(** The whole function. *)
Definition tcp_write_any (arg : list Z) (apiflags : Z) (s : tcp_st) : option (err_t * tcp_st) :=
  if flag_set apiflags TCP_WRITE_FLAG_COPY then tcp_write arg apiflags s else tcp_write_ref arg apiflags s.
End Ref.

Section Proofs.
Context {o : Opts} {ook : OptsOk o} {ip : IpLayer}.

(** A segment with its headers and its data in two pbufs. *)
Lemma write_loop_ref_ok arg p : 0 < mss p <= TCP_MSS -> 0 <= snd_wnd_max p -> forall fuel pos ov ql queue s d,
  pcb s = p -> 0 <= pos <= lenz arg -> (Z.to_nat (lenz arg - pos) < fuel)%nat -> 0 <= ql < 65535 -> (pos < lenz arg -> ov = 0 /\ ql < 65534) ->
  new_segs (mss_local p) (snd_lbb p + (pos - tlen queue)) (tlen queue) ov d queue ->
  exists r s', write_loop_ref fuel arg pos (mss_local p) ov ql queue s = Some (r, s') /\ pcb s' = p /\
    match r with
    | None => True
    | Some (q', ov', ql') => new_segs (mss_local p) (snd_lbb p + (pos - tlen queue)) (tlen queue + (lenz arg - pos)) ov' (d ++ dropz pos arg) q'
        /\ ql' = ql + qsum q' - qsum queue /\ ql' < 65535 /\ ov' = ov
    end.
Proof.
  intros Hm Hw. pose proof (mss_local_range p Hm Hw) as Hml.
  induction fuel as [|fuel IH]; intros pos ov ql queue s d Hp Hpos Hf Hq Hov Hn; [lia|]. cbn [write_loop_ref].
  destruct (Z.ltb_spec pos (lenz arg)) as [Hlt|Hge].
  2: { eexists _, s. split; [done|]. split; [done|]. rewrite dropz_all, app_nil_r by lia. replace (tlen queue + (lenz arg - pos)) with (tlen queue) by lia.
       split_and!; [done|lia|lia|done]. }
  destruct (Hov Hlt) as [-> Hq2]. cbn [Z.eqb]. set (n := Z.min (lenz arg - pos) (mss_local p)).
  destruct (alloc s) as [ok1 s1] eqn:E1. apply alloc_pcb in E1. destruct ok1; cbn [negb]; [|eexists None, s1; split_and!; try done; congruence].
  destruct (alloc s1) as [ok2 s2] eqn:E2. apply alloc_pcb in E2. destruct ok2; cbn [negb]; [|eexists None, s2; split_and!; try done; congruence].
  destruct (Z.ltb_spec (Z.min TCP_SND_QUEUELEN TCP_SNDQUEUELEN_OVERFLOW) (u16 (ql + 2))) as [|Hq1]; [eexists None, s2; split_and!; try done; congruence|].
  rewrite u16_id in * by zlia. unfold TCP_SNDQUEUELEN_OVERFLOW in Hq1.
  unfold tcp_create_segment. destruct (alloc s2) as [ok s3] eqn:E3. apply alloc_pcb in E3.
  destruct ok; [|eexists None, s3; split_and!; try done; congruence].
  set (x := mk_seg _ _ _ _ _ _ _ _ _). set (x1 := x <| s_oversize_left := 0 |>).
  assert (Ln : lenz (takez n (dropz pos arg)) = n) by (apply lenz_takez; rewrite lenz_dropz by lia; unfold n; lia).
  assert (Lx : s_len x1 = n) by (unfold x1, x, tot_len, cbytes; rsimpl; cbn; by rewrite app_nil_r).
  assert (Tx : TCP_TCPLEN x1 = n) by (unfold TCP_TCPLEN; change (flag_set (h_flags x1) _) with false; lia).
  assert (Hx : new_segs (mss_local p) (snd_lbb p + (pos - tlen queue)) (tlen queue + TCP_TCPLEN x1) 0 (d ++ takez n (dropz pos arg)) (queue ++ [x1])).
  { apply (new_segs_snoc _ _ _ 0); try done.
    - unfold x1, x, cbytes. cbn. by rewrite app_nil_r.
    - unfold x1, x. cbn. rewrite E2, E1, Hp. f_equal. lia.
    - split; [done|]. rewrite Tx. unfold n. lia.
    - assert (E0 : LWIP_TCP_OPT_LENGTH (s_flags x1) = 0) by (unfold LWIP_TCP_OPT_LENGTH; by destruct LWIP_WND_SCALE).
      split; try done. rewrite Lx, E0. lia. }
  destruct (IH (pos + n) 0 (ql + 2) (queue ++ [x1]) s3 (d ++ takez n (dropz pos arg))) as (r & s' & -> & P' & R'); try (unfold n in *; lia).
  { congruence. }
  { rewrite tlen_app. cbn [tlen]. rewrite Tx, Z.add_0_r. replace (snd_lbb p + (pos + n - (tlen queue + n))) with (snd_lbb p + (pos - tlen queue)) by lia.
    rewrite Tx in Hx. exact Hx. }
  exists r, s'. split; [done|]. split; [done|]. destruct r as [[[q' ov'] ql']|]; [|done]. destruct R' as (R1 & R2 & R3 & R4).
  rewrite tlen_app in R1. cbn [tlen] in R1. rewrite Tx in R1. split_and!; [|rewrite qsum_app in R2; change (qsum [x1]) with 2 in R2; lia|done|done].
  replace (snd_lbb p + (pos - tlen queue)) with (snd_lbb p + (pos + n - (tlen queue + (n + 0)))) by lia.
  replace (tlen queue + (lenz arg - pos)) with (tlen queue + (n + 0) + (lenz arg - (pos + n))) by lia.
  by rewrite data_step in R1 by (unfold n; lia).
Qed.

(** The last ROM pbuf is extended. *)
Lemma extend_rom_ok m n arg x u : grow_ok m 0 x -> m <= TCP_MSS -> 0 < n <= lenz arg -> s_len x + LWIP_TCP_OPT_LENGTH (s_flags x) + n <= m -> 0 < s_len x ->
  exists x', extend_ref arg (mk_ref 0 None n u) x = Some x' /\ grown m 0 n 0 arg x x'.
Proof.
  intros G Hm Hn Hfit Hlen. pose proof (OPT_LENGTH_nonneg (s_flags x)) as Hopt. assert (Fx : flag_set (h_flags x) (Z.lor TCP_FIN TCP_SYN) = false) by (destruct (flag_set _ _) eqn:F; [destruct (g_flag _ _ _ G F); lia|done]).
  destruct (extend_last_ok m 0 0 0 0 None arg x G) with (u := u) as (x1 & E1 & [X1 X2 X3 X4 X5 [G1 G2 G3 G4 G5 G6]]); try done; try lia. cbn [ref_concat] in E1.
  assert (L1 : s_len x1 = s_len x) by (unfold TCP_TCPLEN in X2; rewrite X5 in X2; lia). rewrite takez_0, app_nil_r in X1 by lia.
  unfold extend_ref. cbn [ref_used ref_concat ref_touches extendlen]. rewrite E1. rewrite (proj2 (Z.ltb_lt 0 n)) by lia. eexists. split; [done|]. destruct (cappend_spec (s_p x1) (takez n arg) G2) as [C1 C2].
  rewrite L1. unfold TCP_MSS in Hm. rewrite (u16_id (s_len x + n)) by zlia. assert (L2 : tot_len (cappend (s_p x1) (takez n arg)) = s_len x + n) by (unfold tot_len in *; rewrite C1, lenz_app, lenz_takez by lia; lia).
  assert (Hopt1 : s_flags x1 = s_flags x) by (unfold extend_last in E1; cbn in E1; by injection E1 as <-).
  split; rsimpl; try done.
  - by rewrite C1, X1.
  - unfold TCP_TCPLEN. rsimpl. rewrite X5. lia.
  - rewrite C2, X3. lia.
  - split; rsimpl; try done; [|rewrite Hopt1; lia|by rewrite X5, Fx]. intros E. rewrite E in C2. destruct (s_p x1); [done|]. rewrite lenz_cons, lenz_nil in C2. pose proof (lenz_nonneg c). lia.
Qed.

(** Phases 1 and 2 never fail an assertion, as long as a ROM pbuf has no spare
    room, and what they decide can be carried out. *)
Lemma write_tail_ref_ok rom arg s : wr_inv (pcb s) -> 0 <= snd_queuelen (pcb s) -> (rom = true -> unsent_oversize (pcb s) = 0) ->
  exists r s', write_tail_ref rom arg (mss_local (pcb s)) s = Some (r, s') /\ pcb s' = pcb s /\
  match r with
  | None => True
  | Some (t, ov, ql, pos) =>
      0 <= pos <= lenz arg /\ snd_queuelen (pcb s) <= ql <= snd_queuelen (pcb s) + Z.min 1 (lenz arg) /\ (pos < lenz arg -> ov = 0) /\
      match last (unsent (pcb s)) with
      | None => ov = 0 /\ pos = 0 /\ ql = snd_queuelen (pcb s)
      | Some x => exists x', extend_ref arg t x = Some x' /\ grown (mss_local (pcb s)) ov pos (ql - snd_queuelen (pcb s)) arg x x'
      end
  end.
Proof.
  intros [W1 W2 W3 W4 W5 W6 W7 _] Hq0 Hrom. pose proof (mss_local_range _ W1 W2) as Hm. pose proof (lenz_nonneg arg) as Hla. unfold write_tail_ref.
  destruct (last (unsent (pcb s))) as [x|] eqn:El.
  2: { rewrite W4. cbn [Z.eqb]. eexists _, s. split; [done|]. split; [done|]. split_and!; try done; lia. }
  pose proof W4 as [G1 G2 G3 G4 G5 G6]. pose proof (OPT_LENGTH_nonneg (s_flags x)) as Hopt. set (ov := unsent_oversize (pcb s)) in *. set (m := mss_local (pcb s)) in *.
  assert (Hlx : 0 <= s_len x) by (rewrite G1; apply lenz_nonneg).
  rewrite (proj2 (Z.leb_le _ m)) by lia. rewrite G3, Z.eqb_refl. rewrite (proj2 (Z.leb_le ov _)), orb_true_r by lia.
  set (used := if 0 <? ov then _ else _). assert (Eu : used = Z.min ov (lenz arg)) by (unfold used; destruct (Z.ltb_spec 0 ov); lia). rewrite Eu. clear used Eu.
  set (n := Z.min ov (lenz arg)). replace ((ov - n =? 0) || (n =? lenz arg)) with true
    by (symmetry; apply orb_true_iff; destruct (Z.le_gt_cases ov (lenz arg)); [left|right]; apply Z.eqb_eq; unfold n; lia).
  destruct ((n <? lenz arg) && (0 <? m - (s_len x + LWIP_TCP_OPT_LENGTH (s_flags x)) - n) && (0 <? s_len x)) eqn:Ec.
  - bprop. set (sp := m - (s_len x + LWIP_TCP_OPT_LENGTH (s_flags x)) - n) in *. set (k := Z.min sp (lenz arg - n)). assert (En : ov = n) by (unfold n in *; lia).
    assert (Fx : flag_set (h_flags x) (Z.lor TCP_FIN TCP_SYN) = false) by (destruct (flag_set _ _) eqn:F; [destruct (G6 eq_refl); lia|done]). destruct rom.
    + assert (E0 : n = 0) by (specialize (Hrom eq_refl); lia). rewrite E0. cbn [Z.eqb]. destruct (extend_rom_ok m k arg x true) as (x' & E' & G'); [rewrite <- E0, <- En; exact W4|lia|unfold k, sp in *; lia|unfold k, sp in *; lia|lia|].
      eexists _, s. split; [done|]. split; [done|]. split; [unfold k, sp in *; lia|]. split; [lia|]. split; [lia|]. exists x'. split; [exact E'|]. rewrite Z.sub_diag, En, E0. exact G'.
    + destruct (alloc s) as [ok s1] eqn:E1. apply alloc_pcb in E1. destruct ok; [|eexists None, s1; by split_and!].
      assert (Lk : lenz (takez k (dropz n arg)) = k) by (apply lenz_takez; rewrite lenz_dropz by (unfold n; lia); unfold k, n; lia).
      destruct (extend_last_ok m ov 0 n 1 (Some (takez k (dropz n arg))) arg x W4) with (u := true) as (x' & E' & G'); try done; try (unfold n; lia).
      { rewrite Lk. split_and!; try (unfold n, k, sp in *; lia).
        rewrite <- (takez_dropz n arg) at 1. rewrite takez_app by (unfold n, k; lia). rewrite lenz_takez by (unfold n; lia).
        replace (n + k - n) with k by lia. f_equal. apply takez_all. rewrite lenz_takez by (unfold n; lia). unfold k. lia. }
      rewrite Lk in G'. eexists _, s1. split; [done|]. split; [done|]. rewrite u16_id by zlia. split; [unfold k, n; lia|]. split; [lia|]. split; [lia|].
      exists x'. split; [unfold extend_ref; cbn [ref_used ref_concat ref_touches]; by rewrite E'|]. rewrite En, Z.sub_diag. by replace (snd_queuelen (pcb s) + 1 - snd_queuelen (pcb s)) with 1 by lia.
  - destruct (extend_last_ok m ov (ov - n) n 0 None arg x W4) with (u := 0 <? ov) as (x' & E' & G'); try done; try (unfold n; lia).
    { intros [Hn|]; [|done]. destruct (flag_set _ _) eqn:F; [|done]. destruct (G6 eq_refl). unfold n in Hn. lia. }
    eexists _, s. split; [done|]. split; [done|]. split; [unfold n; lia|]. split; [lia|]. split; [unfold n; lia|]. exists x'. split; [unfold extend_ref; cbn [ref_used ref_concat ref_touches extendlen]; by rewrite E'|].
    rewrite Z.add_0_r in G'. by rewrite Z.sub_diag.
Qed.

Lemma tcp_write_ref_written rom arg fl s : tx_ok (pcb s) -> wr_inv (pcb s) -> (rom = true -> unsent_oversize (pcb s) = 0) -> written arg s (tcp_write_ref rom arg fl s).
Proof.
  intros Ht Hw Hrom. unfold tcp_write_ref. fold (mss_local (pcb s)). pose proof (lenz_nonneg arg) as Hla. apply (written_checks arg s (fun s0 => _)); [done|done|]. intros Hbuf Hq1.
  pose proof Ht as [_ [T2 _] T3]. apply Forall_app in T3 as [_ T4]. pose proof Hw as [W1 W2 _ _ (q & W5 & W5') _ _ _].
  pose proof (qsum_nonneg (unacked (pcb s) ++ unsent (pcb s))).
  destruct (write_tail_ref_ok rom arg s Hw ltac:(lia) Hrom) as (r & s1 & -> & P1 & R1). destruct r as [[[[t ov] ql] pos]|]; [|by apply written_memerr].
  destruct R1 as (Hpos & Hql & Hov & Hx). destruct (old_ok (pcb s) q arg (extend_ref arg t) ov ql pos Hw W5 T4 ltac:(lia) Hx) as (old & Eold & Hold & Lold & Sold).
  destruct (write_loop_ref_ok arg (pcb s) W1 W2 (Z.to_nat (lenz arg + TCP_SND_QUEUELEN) + 2) pos ov ql [] s1 []) as (r & s2 & -> & P2 & R2); try done; try lia.
  { pose proof tcp_snd_buf_range. unfold TCP_SND_QUEUELEN, TCP_MSS. zlia. }
  destruct r as [[[queue ov'] ql']|]; [|by apply written_memerr]. destruct R2 as (N1 & N2 & N3 & N4). cbn [tlen app qsum] in N1, N2. rewrite Z.sub_0_r, Z.add_0_l in N1.
  unfold write_commit_ref. rewrite P2, Eold. cbn [mbind option_bind].
  destruct (commit_queue_ok arg fl (ref_touches t) old queue ov ov' ql' pos q s s2) as (s' & -> & K); try done; [|lia|].
  { eapply new_segs_seq; [exact N1|]. rewrite W5', Lold. unfold u32. rewrite Zplus_mod_idemp_l. f_equal. lia. }
  exists ERR_OK, s'. split; [done|]. exact K.
Qed.

(** C10: [tcp_write] is all or nothing and keeps the send queue in order, whether
    it copies the data or refers to it, as long as the send queue is in order
    before ([tx_ok], [wr_inv]: counts and sequence numbers agree, and the queued
    segments, the last one with the room it has, fit the current segment size; a
    peer that lowers its MSS in mid-stream can break the last).  Then it fails no
    assertion, whatever allocation fails.  On success the bytes waiting to be sent
    are the old ones followed by exactly the new data, cut into segments with
    consecutive sequence numbers that fit the segment size, and the buffer space
    shrinks by as much; on any error the queue, the space and the sequence numbers
    are as before.  Either way the queue is in order again, so that the next write
    is safe. *)
Theorem tcp_write_all_or_nothing rom arg fl s : tx_ok (pcb s) -> wr_inv (pcb s) -> (rom = true -> unsent_oversize (pcb s) = 0) ->
  exists e s', tcp_write_any rom arg fl s = Some (e, s') /\ tx_ok (pcb s') /\ wr_inv (pcb s') /\ unacked (pcb s') = unacked (pcb s) /\
    if err_ok e then
      qbytes (unsent (pcb s')) = qbytes (unsent (pcb s)) ++ arg /\ snd_buf (pcb s') = snd_buf (pcb s) - lenz arg
      /\ snd_lbb (pcb s') = u32 (snd_lbb (pcb s) + lenz arg)
    else unchanged (pcb s) (pcb s').
Proof. intros Ht Hw Hrom. unfold tcp_write_any. destruct (flag_set fl TCP_WRITE_FLAG_COPY); [by apply tcp_write_written|by apply tcp_write_ref_written]. Qed.
End Proofs.

(** Two writes on the example connection that refer to their data, the second
    directly behind the first: its beginning extends the last ROM pbuf. *)
Definition demo_refs (d e : list Z) (s : tcp_st) : option (err_t * tcp_st) :=
  let? (_, s) := tcp_write_any (o := ios) false d 0 s in tcp_write_any (o := ios) true e 0 s.

Lemma tcp_write_all_or_nothing_witness :
  exists s1 s', tcp_write_any (o := ios) false (repeat 7 1000) 0 demo_st = Some (ERR_OK, s1) /\ tcp_write_any (o := ios) true (repeat 8 1000) 0 s1 = Some (ERR_OK, s')
  /\ qbytes (unsent (pcb s')) = repeat 7 1000 ++ repeat 8 1000 /\ map (fun x => map lenz (s_p x)) (unsent (pcb s')) = [[0; 1460]; [0; 540]].
Proof.
  destruct (tcp_write_all_or_nothing (o := ios) false (repeat 7 1000) 0 demo_st) as (e & s1 & E & T1 & W1 & _ & H).
  { by split. } { split; try done. by exists 5000. } { done. }
  assert (Hc : match tcp_write_any (o := ios) false (repeat 7 1000) 0 demo_st with Some (e, s) => err_ok e && (unsent_oversize (pcb s) =? 0) && bool_decide (qbytes (unsent (pcb s)) = repeat 7 1000) | None => false end = true) by (vm_compute; reflexivity).
  rewrite E in Hc. apply andb_prop in Hc as [Hc Hb%bool_decide_eq_true]. apply andb_prop in Hc as [He Ho%Z.eqb_eq].
  destruct (tcp_write_all_or_nothing (o := ios) true (repeat 8 1000) 0 s1 T1 W1 (fun _ => Ho)) as (e' & s' & E' & _ & _ & _ & H').
  assert (Hc : match demo_refs (repeat 7 1000) (repeat 8 1000) demo_st with Some (e, s) => err_ok e && bool_decide (map (fun x => map lenz (s_p x)) (unsent (pcb s)) = [[0; 1460]; [0; 540]]) | None => false end = true) by (vm_compute; reflexivity).
  unfold demo_refs in Hc. rewrite E in Hc. cbn [mbind option_bind] in Hc. rewrite E' in Hc. apply andb_prop in Hc as [He' Hm%bool_decide_eq_true]. rewrite He' in H'. destruct H' as (H' & _).
  exists s1, s'. apply bool_decide_eq_true in He, He'. subst e e'. split; [exact E|]. split; [exact E'|]. split; [rewrite H', Hb; reflexivity|exact Hm].
Defined.
