(* ===== verification/TcpStack.v ===== *)
(** * TcpStack: all pcbs together, src/Sources/Lwip/src/core/tcp.c

    The pcbs by address, the four lists, the pools, and the operations of tcp.c
    on them: allocation, binding, listening, closing, aborting, the backlog.
    What one pcb does alone (TcpOut, TcpIn) is run on a view of it.

    The application is seen from here through its callbacks.  What a callback
    does is the next element of a list: calls of the TCP API on its pcb, then a
    return, possibly after [tcp_abort] or [tcp_close].  The error callback and
    the destructor of the ext-args only record that they ran; in TunForge they
    make no TCP call. *)

From S2P Require Import Prelude Ip4Addr Opts TcpPcb TcpOut TcpIn.

(** ** The application *)
Inductive api_call :=
  | ARecved (n : Z) | AWrite (d : list Z) (fl : Z) | AOutput | AShutdownTx
  | ABacklogDelayed | ABacklogAccepted | ASetup | AClear.
Inductive ending := Return (e : err_t) | AbortReturn (e : err_t) | CloseReturn (e : err_t).
Record reaction := mk_reaction { calls : list api_call; ends : ending }.
Record application := mk_app {
  on_accept : list reaction; on_connected : list reaction; on_sent : list reaction; on_recv : list reaction; on_poll : list reaction }.
#[export] Instance eta_app : Eta application := fun a => mk_app (on_accept a) (on_connected a) (on_sent a) (on_recv a) (on_poll a).

Inductive event :=
  | EvAccept (a : Z) (e : err_t) | EvConnected (a : Z) | EvSent (a n : Z) | EvRecv (a : Z) (d : chain) | EvClosed (a : Z)
  | EvPoll (a : Z) | EvErr (a : Z) (e : err_t) | EvDestroyed (a : Z) | EvTimerNeeded (needed : bool).

(** ** Data *)
Inductive recv_fn := RecvNULL | Recv_tcp_recv_null | RecvApp.
Inductive accept_fn := AcceptNULL | Accept_tcp_accept_null | AcceptApp.

(** A pcb: what TcpPcb has of it, and the rest. *)
Record pcb_obj := mk_obj {
  core : tcp_pcb;
  (** address of the listener, 0 for NULL *)
  listener : Z;
  recv : recv_fn;
  sent : bool; poll : bool; errf : bool; connected : bool;
  (** ext-args with a destructor are set *)
  ext_args : bool;
  (** [PBUF_FLAG_TCP_FIN] of [refused_data] *)
  refused_fin : bool }.
#[export] Instance eta_obj : Eta pcb_obj := fun c =>
  mk_obj (core c) (listener c) (recv c) (sent c) (poll c) (errf c) (connected c) (ext_args c) (refused_fin c).

Record tcp_pcb_listen := mk_lpcb {
  l_local_ip : Z; l_netif_idx : Z; l_so_options : Z; l_prio : Z; l_local_port : Z;
  accept : accept_fn; backlog : Z; accepts_pending : Z; l_ext_args : bool }.
#[export] Instance eta_lpcb : Eta tcp_pcb_listen := fun l =>
  mk_lpcb (l_local_ip l) (l_netif_idx l) (l_so_options l) (l_prio l) (l_local_port l) (accept l) (backlog l) (accepts_pending l) (l_ext_args l).

Record stack := mk_stack {
  pcbs : gmap Z pcb_obj;
  lpcbs : gmap Z tcp_pcb_listen;
  tcp_listen_pcbs : list Z; tcp_bound_pcbs : list Z; tcp_active_pcbs : list Z; tcp_tw_pcbs : list Z;
  tcp_active_pcbs_changed : bool;
  tcp_timer : Z; tcp_timer_ctr : Z; ticks : Z; iss : Z; tcp_port : Z;
  (** [tcp_input_pcb], 0 for NULL, and [recv_flags] of tcp_in.c *)
  tcp_input_pcb : Z; in_recv_flags : Z;
  (** free elements of [MEMP_TCP_PCB] and [MEMP_TCP_PCB_LISTEN] *)
  pcb_pool : list Z; lpcb_pool : list Z;
  g_allocs : list bool; g_ipres : list err_t; g_wire : list packet;
  app : application;
  events : list event }.
#[export] Instance eta_stack : Eta stack := fun S =>
  mk_stack (pcbs S) (lpcbs S) (tcp_listen_pcbs S) (tcp_bound_pcbs S) (tcp_active_pcbs S) (tcp_tw_pcbs S) (tcp_active_pcbs_changed S)
    (tcp_timer S) (tcp_timer_ctr S) (ticks S) (iss S) (tcp_port S) (tcp_input_pcb S) (in_recv_flags S) (pcb_pool S) (lpcb_pool S)
    (g_allocs S) (g_ipres S) (g_wire S) (app S) (events S).

Definition note (e : event) (S : stack) : stack := S <| events := events S ++ [e] |>.

Inductive pcb_list := LListen | LBound | LActive | LTw.
Definition get_list (w : pcb_list) (S : stack) : list Z :=
  match w with LListen => tcp_listen_pcbs S | LBound => tcp_bound_pcbs S | LActive => tcp_active_pcbs S | LTw => tcp_tw_pcbs S end.
Definition set_list (w : pcb_list) (l : list Z) (S : stack) : stack :=
  match w with
  | LListen => S <| tcp_listen_pcbs := l |> | LBound => S <| tcp_bound_pcbs := l |>
  | LActive => S <| tcp_active_pcbs := l |> | LTw => S <| tcp_tw_pcbs := l |>
  end.
(** Is the element of that list allocated? *)
Definition live (w : pcb_list) (S : stack) (a : Z) : bool :=
  match w with LListen => bool_decide (is_Some (lpcbs S !! a)) | _ => bool_decide (is_Some (pcbs S !! a)) end.

Definition get (a : Z) (S : stack) : res pcb_obj := match pcbs S !! a with Some c => Ok c | None => Dangling end.
Definition getl (a : Z) (S : stack) : res tcp_pcb_listen := match lpcbs S !! a with Some c => Ok c | None => Dangling end.
Definition put (a : Z) (c : pcb_obj) (S : stack) : stack := S <| pcbs := <[a := c]> (pcbs S) |>.
Definition putl (a : Z) (l : tcp_pcb_listen) (S : stack) : stack := S <| lpcbs := <[a := l]> (lpcbs S) |>.

(** ** Running the code for one pcb *)
Definition view (a : Z) (c : pcb_obj) (S : stack) : tcp_st :=
  mk_st (core c) (ticks S) (tcp_input_pcb S =? a) (g_allocs S) (g_ipres S) (g_wire S).
Definition back (a : Z) (c : pcb_obj) (s : tcp_st) (S : stack) : stack :=
  (put a (c <| core := pcb s |>) S) <| g_allocs := allocs s |> <| g_ipres := ipres s |> <| g_wire := wire s |>.
Definition on {R} (a : Z) (f : tcp_st -> option (R * tcp_st)) (S : stack) : res (R * stack) :=
  let+ c := get a S in
  let+ (r, s) := lift (f (view a c S)) in
  Ok (r, back a c s S).
Definition on_ (a : Z) (f : tcp_st -> option tcp_st) (S : stack) : res stack :=
  let+ (_, S) := on a (fun s => let? s := f s in Some ((), s)) S in Ok S.
Definition upd (a : Z) (f : pcb_obj -> pcb_obj) (S : stack) : res stack := let+ c := get a S in Ok (put a (f c) S).
Definition updc (a : Z) (f : tcp_pcb -> tcp_pcb) : stack -> res stack := upd a (fun c => c <| core := f (core c) |>).

(** ** The lists (tcp_priv.h) *)

(** The condition of [tcp_timer_needed] on the lists, noted for the timers. *)
Definition timer_wanted (S : stack) : bool := match tcp_active_pcbs S, tcp_tw_pcbs S with [], [] => false | _, _ => true end.

Definition TCP_REG (w : pcb_list) (a : Z) (S : stack) : res stack :=
  if live w S a then let S := set_list w (a :: get_list w S) S in Ok (note (EvTimerNeeded (timer_wanted S)) S) else Dangling.

(** The walk to the predecessor of [a]; the elements before it are read. *)
Fixpoint rmv (alive : Z -> bool) (a : Z) (l : list Z) : option (list Z) :=
  match l with
  | [] => Some []
  | x :: l => if x =? a then Some l else if alive x then let? l := rmv alive a l in Some (x :: l) else None
  end.

Definition TCP_RMV (w : pcb_list) (a : Z) (S : stack) : res stack :=
  if live w S a then
    match rmv (live w S) a (get_list w S) with Some l => Ok (set_list w l S) | None => Dangling end
  else Dangling.

Definition TCP_REG_ACTIVE (a : Z) (S : stack) : res stack :=
  let+ S := TCP_REG LActive a S in Ok (S <| tcp_active_pcbs_changed := true |>).
Definition TCP_RMV_ACTIVE (a : Z) (S : stack) : res stack :=
  let+ S := TCP_RMV LActive a S in Ok (S <| tcp_active_pcbs_changed := true |>).

Section Stack.
Context {o : Opts} {ip : IpLayer}.

(** ** Freeing *)
Definition tcp_free (a : Z) (S : stack) : res stack :=
  let+ c := get a S in
  check! (negb (state_is (state (core c)) LISTEN)) in
  let S := if ext_args c then note (EvDestroyed a) S else S in
  Ok (S <| pcbs := delete a (pcbs S) |> <| pcb_pool := a :: pcb_pool S |>).

Definition tcp_backlog_delayed (a : Z) (S : stack) : res stack :=
  let+ c := get a S in
  if negb (flag_set (flags (core c)) TF_BACKLOGPEND) && negb (listener c =? 0) then
    let+ l := getl (listener c) S in
    let n := u8 (accepts_pending l + 1) in
    check! (negb (n =? 0)) in
    updc a (tcp_set_flags TF_BACKLOGPEND) (putl (listener c) (l <| accepts_pending := n |>) S)
  else Ok S.

Definition tcp_backlog_accepted (a : Z) (S : stack) : res stack :=
  let+ c := get a S in
  if flag_set (flags (core c)) TF_BACKLOGPEND && negb (listener c =? 0) then
    let+ l := getl (listener c) S in
    check! (negb (accepts_pending l =? 0)) in
    updc a (tcp_clear_flags TF_BACKLOGPEND) (putl (listener c) (l <| accepts_pending := accepts_pending l - 1 |>) S)
  else Ok S.

Definition tcp_free_ooseq (p : tcp_pcb) : tcp_pcb := p <| ooseq := [] |>.

(** Is the pcb in a state in which it has queues? *)
Definition purgeable (st : tcp_state) : bool := negb (state_is st CLOSED) && negb (state_is st TIME_WAIT) && negb (state_is st LISTEN).

Definition tcp_pcb_purge (a : Z) (S : stack) : res stack :=
  let+ c := get a S in
  if purgeable (state (core c)) then
    let+ S := tcp_backlog_accepted a S in
    updc a (fun p =>
      (tcp_free_ooseq (p <| refused_data := None |>)) <| rtime := -1 |> <| unacked := [] |> <| unsent := [] |> <| unsent_oversize := 0 |>) S
  else Ok S.

(** [tcp_pcb_remove] of a connection's pcb. *)
Definition tcp_pcb_remove (w : pcb_list) (a : Z) (S : stack) : res stack :=
  let+ S := TCP_RMV w a S in
  let+ S := tcp_pcb_purge a S in
  let+ c := get a S in
  let+ S :=
    (if negb (state_is (state (core c)) TIME_WAIT) && negb (state_is (state (core c)) LISTEN) && flag_set (flags (core c)) TF_ACK_DELAY then
       let+ S := updc a tcp_ack_now S in
       let+ (_, S) := on a tcp_output S in Ok S
     else Ok S) in
  let+ c := get a S in
  let p := core c in
  check! (state_is (state p) LISTEN || (bool_decide (unsent p = []) && bool_decide (unacked p = []) && bool_decide (ooseq p = []))) in
  updc a (fun p => p <| state := CLOSED |> <| local_port := 0 |>) S.

Definition TCP_PCB_REMOVE_ACTIVE (a : Z) (S : stack) : res stack :=
  let+ S := tcp_pcb_remove LActive a S in Ok (S <| tcp_active_pcbs_changed := true |>).

(** ** Listeners *)

(** [tcp_remove_listener] on one list. *)
Fixpoint tcp_remove_listener (l : list Z) (lp : Z) (S : stack) : res stack :=
  match l with
  | [] => Ok S
  | a :: l =>
      let+ S := upd a (fun c => if listener c =? lp then c <| listener := 0 |> else c) S in
      tcp_remove_listener l lp S
  end.

Definition tcp_listen_closed (lp : Z) (S : stack) : res stack :=
  let+ S := tcp_remove_listener (tcp_bound_pcbs S) lp S in
  let+ S := tcp_remove_listener (tcp_active_pcbs S) lp S in
  tcp_remove_listener (tcp_tw_pcbs S) lp S.

(** [tcp_close] of a listener: [tcp_pcb_remove] only unlinks it and
    [tcp_free_listen] returns it to its pool. *)
Definition tcp_close_listen (lp : Z) (S : stack) : res stack :=
  let+ l := getl lp S in
  let+ S := tcp_listen_closed lp S in
  let+ S := TCP_RMV LListen lp S in
  let S := if l_ext_args l then note (EvDestroyed lp) S else S in
  Ok (S <| lpcbs := delete lp (lpcbs S) |> <| lpcb_pool := lp :: lpcb_pool S |>).

(** ** Closing *)
Definition send_fin_to (a : Z) (next : tcp_state) (S : stack) : res (err_t * stack) :=
  let+ (err, S) := on a tcp_send_fin S in
  if err_ok err then let+ S := updc a (fun p => p <| state := next |>) S in Ok (err, S) else Ok (err, S).

Definition tcp_close_shutdown_fin (a : Z) (S : stack) : res (err_t * stack) :=
  let+ c := get a S in
  let finish (r : res (err_t * stack)) : res (err_t * stack) :=
    let+ (err, S) := r in
    if err_ok err then let+ (_, S) := on a tcp_output S in Ok (err, S)
    else if bool_decide (err = ERR_MEM) then let+ S := updc a (tcp_set_flags TF_CLOSEPEND) S in Ok (ERR_OK, S)
    else Ok (err, S) in
  match state (core c) with
  | SYN_RCVD =>
      finish (let+ (err, S) := on a tcp_send_fin S in
              if err_ok err then
                let+ S := tcp_backlog_accepted a S in
                let+ S := updc a (fun p => p <| state := FIN_WAIT_1 |>) S in Ok (err, S)
              else Ok (err, S))
  | ESTABLISHED => finish (send_fin_to a FIN_WAIT_1 S)
  | CLOSE_WAIT => finish (send_fin_to a LAST_ACK S)
  | _ => Ok (ERR_OK, S)
  end.

(** [tcp_rst] about the pcb's own connection. *)
Definition rst_own (a seqno ackno lport : Z) : stack -> res stack :=
  on_ a (fun s => let p := pcb s in
    Some (tcp_rst (Some p) seqno ackno (local_ip p) (remote_ip p) lport (remote_port p) s)).

Definition tcp_trigger_input_pcb_close (S : stack) : stack := S <| in_recv_flags := Z.lor (in_recv_flags S) TF_CLOSED |>.

Definition tcp_close_shutdown (a : Z) (rst_on_unacked_data : bool) (S : stack) : res (err_t * stack) :=
  let+ c := get a S in
  let p := core c in
  if rst_on_unacked_data && (state_is (state p) ESTABLISHED || state_is (state p) CLOSE_WAIT)
     && (negb (bool_decide (refused_data p = None)) || negb (rcv_wnd p =? TCP_WND_MAX p)) then
    check! (flag_set (flags p) TF_RXCLOSED) in
    let+ S := rst_own a (snd_nxt p) (rcv_nxt p) (local_port p) S in
    let+ S := tcp_pcb_purge a S in
    let+ S := TCP_RMV_ACTIVE a S in
    let+ S := (if tcp_input_pcb S =? a then Ok (tcp_trigger_input_pcb_close S) else tcp_free a S) in
    Ok (ERR_OK, S)
  else
    match state p with
    | CLOSED =>
        let+ S := (if negb (local_port p =? 0) then TCP_RMV LBound a S else Ok S) in
        let+ S := tcp_free a S in Ok (ERR_OK, S)
    | SYN_SENT =>
        let+ S := TCP_PCB_REMOVE_ACTIVE a S in
        let+ S := tcp_free a S in Ok (ERR_OK, S)
    | _ => tcp_close_shutdown_fin a S
    end.

Definition tcp_close (a : Z) (S : stack) : res (err_t * stack) :=
  let+ S := updc a (tcp_set_flags TF_RXCLOSED) S in
  tcp_close_shutdown a true S.

Definition tcp_shutdown (a : Z) (shut_rx shut_tx : bool) (S : stack) : res (err_t * stack) :=
  let+ S := (if shut_rx then updc a (tcp_set_flags TF_RXCLOSED) S else Ok S) in
  if shut_rx && shut_tx then tcp_close_shutdown a true S
  else
    let+ S := (if shut_rx then updc a (fun p => p <| refused_data := None |>) S else Ok S) in
    if shut_tx then
      let+ c := get a S in
      match state (core c) with
      | SYN_RCVD | ESTABLISHED | CLOSE_WAIT => tcp_close_shutdown a shut_rx S
      | _ => Ok (ERR_CONN, S)
      end
    else Ok (ERR_OK, S).

Definition tcp_abandon (a : Z) (reset : bool) (S : stack) : res stack :=
  let+ c := get a S in
  let p := core c in
  check! (negb (state_is (state p) LISTEN)) in
  if state_is (state p) TIME_WAIT then
    let+ S := tcp_pcb_remove LTw a S in tcp_free a S
  else
    let closed := state_is (state p) CLOSED in
    let+ S :=
      (if closed then (if negb (local_port p =? 0) then TCP_RMV LBound a S else Ok S)
       else TCP_PCB_REMOVE_ACTIVE a S) in
    let+ S := tcp_backlog_accepted a S in
    let+ S := (if negb closed && reset then rst_own a (snd_nxt p) (rcv_nxt p) (local_port p) S else Ok S) in
    let+ S := tcp_free a S in
    Ok (if errf c then note (EvErr a ERR_ABRT) S else S).

Definition tcp_abort (a : Z) : stack -> res stack := tcp_abandon a true.

(** ** Allocation *)

(** The last pcb of the list for which [better pcb best-so-far] holds. *)
Fixpoint pick {B} (better : tcp_pcb -> B -> option B) (l : list Z) (best : B) (found : Z) (S : stack) : res Z :=
  match l with
  | [] => Ok found
  | a :: l =>
      let+ c := get a S in
      match better (core c) best with
      | Some best => pick better l best a S
      | None => pick better l best found S
      end
  end.

Definition tcp_kill_prio (prio0 : Z) (S : stack) : res stack :=
  let mprio := Z.min 127 prio0 in
  if mprio =? 0 then Ok S
  else
    let+ a := pick (fun p '(mprio, inactivity) =>
                let idle := u32 (ticks S - tmr p) in
                if (prio p <? mprio) || ((prio p =? mprio) && (inactivity <=? idle)) then Some (prio p, idle) else None)
              (tcp_active_pcbs S) (mprio - 1, 0) 0 S in
    if a =? 0 then Ok S else tcp_abort a S.

(** The oldest pcb of a list that satisfies a test. *)
Definition oldest (test : tcp_pcb -> bool) (l : list Z) (S : stack) : res Z :=
  pick (fun p inactivity => let idle := u32 (ticks S - tmr p) in if test p && (inactivity <=? idle) then Some idle else None) l 0 0 S.

Definition tcp_kill_state (st : tcp_state) (S : stack) : res stack :=
  check! (state_is st CLOSING || state_is st LAST_ACK) in
  let+ a := oldest (fun p => state_is (state p) st) (tcp_active_pcbs S) S in
  if a =? 0 then Ok S else tcp_abandon a false S.

Definition tcp_kill_timewait (S : stack) : res stack :=
  let+ a := oldest (fun _ => true) (tcp_tw_pcbs S) S in
  if a =? 0 then Ok S else tcp_abort a S.

Definition closepend_one (a : Z) (S : stack) : res stack :=
  let+ c := get a S in
  if flag_set (flags (core c)) TF_CLOSEPEND then
    let+ S := updc a (tcp_clear_flags TF_CLOSEPEND) S in
    let+ (_, S) := tcp_close_shutdown_fin a S in Ok S
  else Ok S.

Fixpoint closepend_walk (l : list Z) (S : stack) : res stack :=
  match l with [] => Ok S | a :: l => let+ S := closepend_one a S in closepend_walk l S end.

Definition tcp_handle_closepend (S : stack) : res stack := closepend_walk (tcp_active_pcbs S) S.

(** [memp_malloc(MEMP_TCP_PCB)], or after [more] if the pool is empty. *)
Definition pcb_malloc_or (more : stack -> res (Z * stack)) (S : stack) : res (Z * stack) :=
  match pcb_pool S with
  | a :: l => Ok (a, S <| pcb_pool := l |>)
  | [] => more S
  end.

Definition new_pcb (prio ticks ctr : Z) : tcp_pcb := {|
  local_ip := 0; remote_ip := 0; netif_idx := 0; so_options := 0; tos := 0; ttl := TCP_TTL;
  state := CLOSED; TcpPcb.prio := prio; local_port := 0; remote_port := 0; flags := 0;
  polltmr := 0; pollinterval := 0; last_timer := ctr; tmr := ticks;
  rcv_nxt := 0; rcv_wnd := TCPWND_MIN16 TCP_WND; rcv_ann_wnd := TCPWND_MIN16 TCP_WND; rcv_ann_right_edge := 0;
  rtime := -1; mss := INITIAL_MSS; rttest := 0; rtseq := 0; sa := 0;
  sv := LWIP_TCP_RTO_TIME / TCP_SLOW_INTERVAL; rto := LWIP_TCP_RTO_TIME / TCP_SLOW_INTERVAL;
  nrtx := 0; dupacks := 0; lastack := 0; cwnd := 1; ssthresh := TCP_SND_BUF; rto_end := 0;
  snd_nxt := 0; snd_wl1 := 0; snd_wl2 := 0; snd_lbb := 0; snd_wnd := 0; snd_wnd_max := 0;
  snd_buf := TCP_SND_BUF; snd_queuelen := 0; unsent_oversize := 0; bytes_acked := 0;
  unsent := []; unacked := []; ooseq := []; refused_data := None;
  keep_idle := 7200000; persist_cnt := 0; persist_backoff := 0; persist_probe := 0; keep_cnt_sent := 0;
  snd_scale := 0; rcv_scale := 0 |}.

(** Returns 0 when no pcb can be had. *)
Definition tcp_alloc (prio : Z) (S : stack) : res (Z * stack) :=
  let+ (a, S) :=
    pcb_malloc_or (fun S =>
      let+ S := tcp_handle_closepend S in
      let+ S := tcp_kill_timewait S in
      pcb_malloc_or (fun S =>
        let+ S := tcp_kill_state LAST_ACK S in
        pcb_malloc_or (fun S =>
          let+ S := tcp_kill_state CLOSING S in
          pcb_malloc_or (fun S =>
            let+ S := tcp_kill_prio prio S in
            pcb_malloc_or (fun S => Ok (0, S)) S) S) S) S) S in
  if a =? 0 then Ok (0, S)
  else Ok (a, put a (mk_obj (new_pcb prio (ticks S) (tcp_timer_ctr S)) 0 Recv_tcp_recv_null false false false false false false) S).

Definition TCP_PRIO_NORMAL : Z := 64.
Definition tcp_new : stack -> res (Z * stack) := tcp_alloc TCP_PRIO_NORMAL.

(** ** Ports, binding, listening *)

(** The local ports in use, list by list. *)
Fixpoint ports_of (l : list Z) (S : stack) : res (list (Z * Z)) :=
  match l with
  | [] => Ok []
  | a :: l => let+ c := get a S in let+ ps := ports_of l S in Ok ((local_port (core c), local_ip (core c)) :: ps)
  end.
Fixpoint lports_of (l : list Z) (S : stack) : res (list (Z * Z)) :=
  match l with
  | [] => Ok []
  | a :: l => let+ c := getl a S in let+ ps := lports_of l S in Ok ((l_local_port c, l_local_ip c) :: ps)
  end.
Definition all_ports (S : stack) : res (list (Z * Z)) :=
  let+ p1 := lports_of (tcp_listen_pcbs S) S in
  let+ p2 := ports_of (tcp_bound_pcbs S) S in
  let+ p3 := ports_of (tcp_active_pcbs S) S in
  let+ p4 := ports_of (tcp_tw_pcbs S) S in
  Ok (p1 ++ p2 ++ p3 ++ p4).

Definition TCP_LOCAL_PORT_RANGE_START : Z := 49152.
Definition TCP_LOCAL_PORT_RANGE_END : Z := 65535.

Fixpoint new_port_loop (fuel : nat) (used : list Z) (port n : Z) : res (Z * Z) :=
  match fuel with
  | O => Stuck
  | Datatypes.S fuel =>
      let port := u16 (port + 1) in
      let port := if port =? TCP_LOCAL_PORT_RANGE_END then TCP_LOCAL_PORT_RANGE_START else port in
      if existsb (Z.eqb port) used then
        let n := u16 (n + 1) in
        if TCP_LOCAL_PORT_RANGE_END - TCP_LOCAL_PORT_RANGE_START <? n then Ok (0, port) else new_port_loop fuel used port n
      else Ok (port, port)
  end.

Definition tcp_new_port (S : stack) : res (Z * stack) :=
  let+ ps := all_ports S in
  let+ (r, port) := new_port_loop 16385 (map fst ps) (tcp_port S) 0 in
  Ok (r, S <| tcp_port := port |>).

Definition tcp_bind (a ipaddr port : Z) (S : stack) : res (err_t * stack) :=
  let+ c := get a S in
  if negb (state_is (state (core c)) CLOSED) then Ok (ERR_VAL, S)
  else
    let+ (r, S) :=
      (if port =? 0 then
         let+ (q, S) := tcp_new_port S in Ok (if q =? 0 then inl ERR_BUF else inr q, S)
       else
         let+ ps := all_ports S in
         Ok (if existsb (fun '(q, i) => (q =? port) && ((i =? 0) || (ipaddr =? 0) || (i =? ipaddr))) ps then inl ERR_USE else inr port, S)) in
    match r with
    | inl e => Ok (e, S)
    | inr q =>
        let+ S := updc a (fun p => (if ipaddr =? 0 then p else p <| local_ip := ipaddr |>) <| local_port := q |>) S in
        let+ S := TCP_REG LBound a S in Ok (ERR_OK, S)
    end.

(** Returns the listener, 0 on failure. *)
Definition tcp_listen_with_backlog_and_err (a bl : Z) (S : stack) : res (Z * err_t * stack) :=
  let+ c := get a S in
  let p := core c in
  if negb (state_is (state p) CLOSED) then Ok (0, ERR_CLSD, S)
  else
    match lpcb_pool S with
    | [] => Ok (0, ERR_MEM, S)
    | l :: rest =>
        let S := S <| lpcb_pool := rest |> in
        let lp := mk_lpcb (local_ip p) (netif_idx p) (so_options p) (TcpPcb.prio p) (local_port p) Accept_tcp_accept_null
                    (if bl =? 0 then 1 else bl) 0 (ext_args c) in
        let+ S := (if negb (local_port p =? 0) then TCP_RMV LBound a S else Ok S) in
        let+ S := tcp_free a S in
        let+ S := TCP_REG LListen l (putl l lp S) in
        Ok (l, ERR_OK, S)
    end.

Definition tcp_accept (lp : Z) (f : accept_fn) (S : stack) : res stack :=
  let+ l := getl lp S in Ok (putl lp (l <| accept := f |>) S).

(** [tcp_next_iss]. *)
Definition tcp_next_iss (S : stack) : Z * stack := let i := u32 (iss S + ticks S) in (i, S <| iss := i |>).

Definition tcp_connect (a ipaddr port : Z) (f : bool) (S : stack) : res (err_t * stack) :=
  let+ c := get a S in
  if negb (state_is (state (core c)) CLOSED) then Ok (ERR_ISCONN, S)
  else
    let+ S := updc a (fun p => p <| remote_ip := ipaddr |> <| remote_port := port |>) S in
    let+ c := get a S in
    match tcp_route (Some (core c)) (local_ip (core c)) (remote_ip (core c)) with
    | None => Ok (ERR_RTE, S)
    | Some n =>
        let+ S := (if local_ip (core c) =? 0 then updc a (fun p => p <| local_ip := netif_ip_addr4 n |>) S else Ok S) in
        let old_local_port := local_port (core c) in
        let+ (q, S) := (if old_local_port =? 0 then tcp_new_port S else Ok (old_local_port, S)) in
        let+ S := updc a (fun p => p <| local_port := q |>) S in
        if q =? 0 then Ok (ERR_BUF, S)
        else
          let (i, S) := tcp_next_iss S in
          let+ S := upd a (fun c => c <| connected := f |> <| core := (core c)
            <| rcv_nxt := 0 |> <| snd_nxt := i |> <| lastack := u32 (i - 1) |> <| snd_wl2 := u32 (i - 1) |> <| snd_lbb := u32 (i - 1) |>
            <| rcv_wnd := TCPWND_MIN16 TCP_WND |> <| rcv_ann_wnd := TCPWND_MIN16 TCP_WND |> <| rcv_ann_right_edge := 0 |> <| snd_wnd := TCP_WND |>
            <| mss := tcp_eff_send_mss_netif INITIAL_MSS (Some n) |> <| cwnd := 1 |> |>) S in
          let+ (ret, S) := on a (tcp_enqueue_flags TCP_SYN) S in
          if err_ok ret then
            let+ S := updc a (fun p => p <| state := SYN_SENT |>) S in
            let+ S := (if negb (old_local_port =? 0) then TCP_RMV LBound a S else Ok S) in
            let+ S := TCP_REG_ACTIVE a S in
            let+ (_, S) := on a tcp_output S in
            Ok (ret, S)
          else Ok (ret, S)
    end.
End Stack.
