(* ===== verification/TcpInput.v ===== *)
(** * TcpInput: from an IP packet to the callbacks,
    src/Sources/Lwip/src/core/tcp_in.c and the callback macros of priv/tcp_priv.h

    [tcp_input] with everything it calls: the header checks, the search for the
    pcb, the listener, TIME-WAIT, the state machine [tcp_process], and the
    delivery to the application. *)

From S2P Require Import Prelude Def Ip4Addr Opts Chksum TcpPcb TcpOut TcpIn TcpStack.

(** What is known of the packet: addresses ([ip_data]), ports, interface. *)
Record segment_ids := mk_ids { c_src : Z; c_dest : Z; c_sport : Z; c_dport : Z; c_idx : Z }.

(** [pbuf_split_64k] on the buffers of a chain. *)
Fixpoint split_rest (tot_len_front : Z) (c : chain) : chain * chain :=
  match c with
  | r :: c' =>
      if tot_len_front <=? u16 (tot_len_front + lenz r) then
        let (f, rest) := split_rest (u16 (tot_len_front + lenz r)) c' in (r :: f, rest)
      else ([], c)
  | [] => ([], [])
  end.
Definition pbuf_split_64k (c : chain) : chain * option chain :=
  match c with
  | p :: c' => let (f, rest) := split_rest (lenz p) c' in (p :: f, match rest with [] => None | _ => Some rest end)
  | [] => (c, None)
  end.

Section Input.
Context {o : Opts} {ip : IpLayer}.

(** ** Setting fields of a pcb (tcp.c) *)
Definition tcp_bind_netif (a : Z) (n : option netif) : stack -> res stack :=
  updc a (fun p => p <| netif_idx := match n with Some n => netif_get_index n | None => NETIF_NO_INDEX end |>).
Definition tcp_setprio (a pr : Z) : stack -> res stack := updc a (fun p => p <| prio := pr |>).

(** The callbacks may be set on connections only. *)
Definition set_callback (a : Z) (f : pcb_obj -> pcb_obj) (S : stack) : res stack :=
  let+ c := get a S in check! (negb (state_is (state (core c)) LISTEN)) in upd a f S.
Definition tcp_recv (a : Z) (f : recv_fn) : stack -> res stack := set_callback a (fun c => c <| recv := f |>).
Definition tcp_sent (a : Z) (f : bool) : stack -> res stack := set_callback a (fun c => c <| sent := f |>).
Definition tcp_err (a : Z) (f : bool) : stack -> res stack := set_callback a (fun c => c <| errf := f |>).
Definition tcp_poll (a : Z) (f : bool) (interval : Z) : stack -> res stack :=
  set_callback a (fun c => c <| poll := f |> <| core := (core c) <| pollinterval := interval |> |>).
Definition tcp_ext_arg_set (a : Z) : stack -> res stack := upd a (fun c => c <| ext_args := true |>).

(** ** Callbacks *)
Definition run_call (a : Z) (c : api_call) (S : stack) : res stack :=
  match c with
  | ARecved n => on_ a (tcp_recved (u16 n)) S
  | AWrite d fl => let+ (_, S) := on a (tcp_write d fl) S in Ok S
  | AOutput => let+ (_, S) := on a tcp_output S in Ok S
  | AShutdownTx => let+ (_, S) := tcp_shutdown a false true S in Ok S
  | ABacklogDelayed => tcp_backlog_delayed a S
  | ABacklogAccepted => tcp_backlog_accepted a S
  | ASetup =>
      let+ S := tcp_recv a RecvApp S in let+ S := tcp_sent a true S in let+ S := tcp_poll a true 2 S in let+ S := tcp_err a true S in tcp_ext_arg_set a S
  | AClear =>
      let+ S := tcp_recv a RecvNULL S in let+ S := tcp_sent a false S in let+ S := tcp_poll a false 0 S in tcp_err a false S
  end.

Fixpoint run_calls (a : Z) (l : list api_call) (S : stack) : res stack :=
  match l with [] => Ok S | c :: l => let+ S := run_call a c S in run_calls a l S end.

Definition respond (a : Z) (r : reaction) (S : stack) : res (err_t * stack) :=
  let+ S := run_calls a (calls r) S in
  match ends r with
  | Return e => Ok (e, S)
  | AbortReturn e => let+ S := tcp_abort a S in Ok (e, S)
  | CloseReturn e => let+ (_, S) := tcp_close a S in Ok (e, S)
  end.

(** The next reaction of a list; an application that has nothing more to do
    returns [ERR_OK]. *)
Definition next_reaction (l : list reaction) : reaction * list reaction :=
  match l with r :: l => (r, l) | [] => (mk_reaction [] (Return ERR_OK), []) end.

(** [tcp_recv_null] for data and for the end of the stream. *)
Definition tcp_recv_null (a : Z) (p : option chain) (S : stack) : res (err_t * stack) :=
  match p with
  | Some d => let+ S := on_ a (tcp_recved (u16 (tot_len d))) S in Ok (ERR_OK, S)
  | None => tcp_close a S
  end.

Definition TCP_EVENT_SENT (a space : Z) (S : stack) : res (err_t * stack) :=
  let+ c := get a S in
  if sent c then
    let (r, l) := next_reaction (on_sent (app S)) in
    respond a r (note (EvSent a space) (S <| app := (app S) <| on_sent := l |> |>))
  else Ok (ERR_OK, S).

Definition TCP_EVENT_RECV (a : Z) (d : chain) (S : stack) : res (err_t * stack) :=
  let+ c := get a S in
  match recv c with
  | RecvApp =>
      let (r, l) := next_reaction (on_recv (app S)) in
      respond a r (note (EvRecv a d) (S <| app := (app S) <| on_recv := l |> |>))
  | _ => tcp_recv_null a (Some d) S
  end.

Definition TCP_EVENT_CLOSED (a : Z) (S : stack) : res (err_t * stack) :=
  let+ c := get a S in
  match recv c with
  | RecvApp =>
      let (r, l) := next_reaction (on_recv (app S)) in
      respond a r (note (EvClosed a) (S <| app := (app S) <| on_recv := l |> |>))
  | Recv_tcp_recv_null => tcp_recv_null a None S
  | RecvNULL => Ok (ERR_OK, S)
  end.

Definition TCP_EVENT_CONNECTED (a : Z) (S : stack) : res (err_t * stack) :=
  let+ c := get a S in
  if connected c then
    let (r, l) := next_reaction (on_connected (app S)) in
    respond a r (note (EvConnected a) (S <| app := (app S) <| on_connected := l |> |>))
  else Ok (ERR_OK, S).

Definition TCP_EVENT_POLL (a : Z) (S : stack) : res (err_t * stack) :=
  let+ c := get a S in
  if poll c then
    let (r, l) := next_reaction (on_poll (app S)) in
    respond a r (note (EvPoll a) (S <| app := (app S) <| on_poll := l |> |>))
  else Ok (ERR_OK, S).

(** A new connection is handed over; [a] is its pcb. *)
Definition TCP_EVENT_ACCEPT (lp a : Z) (S : stack) : res (err_t * stack) :=
  let+ l := getl lp S in
  match accept l with
  | AcceptApp =>
      let (r, l) := next_reaction (on_accept (app S)) in
      respond a r (note (EvAccept a ERR_OK) (S <| app := (app S) <| on_accept := l |> |>))
  | Accept_tcp_accept_null => let+ S := tcp_abort a S in Ok (ERR_ABRT, S)
  | AcceptNULL => Ok (ERR_ARG, S)
  end.

(** The listener is told that no pcb could be had. *)
Definition TCP_EVENT_ACCEPT_ERR (lp : Z) (S : stack) : res stack :=
  let+ l := getl lp S in
  match accept l with
  | AcceptApp => Ok (note (EvAccept 0 ERR_MEM) S)
  | Accept_tcp_accept_null => Failed
  | AcceptNULL => Ok S
  end.

(** ** Data the application refused (tcp.c) *)
Fixpoint refused_loop (fuel : nat) (a : Z) (S : stack) : res (err_t * stack) :=
  match fuel with
  | O => Stuck
  | Datatypes.S fuel =>
      let+ c := get a S in
      match refused_data (core c) with
      | None => if LWIP_WND_SCALE then Ok (ERR_OK, S) else Failed
      | Some d =>
          let fin := refused_fin c in
          let (front, rest) := if LWIP_WND_SCALE then pbuf_split_64k d else (d, None) in
          let+ S := updc a (fun p => p <| refused_data := rest |>) S in
          let+ (err, S) := TCP_EVENT_RECV a front S in
          if err_ok err then
            let+ (err, S) :=
              (if fin && bool_decide (rest = None) then
                 let+ S := updc a (fun p => if negb (rcv_wnd p =? TCP_WND_MAX p) then p <| rcv_wnd := tcpwnd (rcv_wnd p + 1) |> else p) S in
                 TCP_EVENT_CLOSED a S
               else Ok (ERR_OK, S)) in
            if bool_decide (err = ERR_ABRT) then Ok (ERR_ABRT, S)
            else if LWIP_WND_SCALE then refused_loop fuel a S
            else Ok (ERR_OK, S)
          else if bool_decide (err = ERR_ABRT) then Ok (ERR_ABRT, S)
          else
            let+ S := updc a (fun p => p <| refused_data := Some (front ++ default [] rest) |>) S in
            Ok (ERR_INPROGRESS, S)
      end
  end.

(** Every round takes at least one buffer off the data; the last one sees that
    nothing is left. *)
Definition tcp_process_refused_data (a : Z) (S : stack) : res (err_t * stack) :=
  let+ c := get a S in
  refused_loop (2 + length (default [] (refused_data (core c)))) a S.

(** ** The state machine *)

(** Code of TcpIn on the pcb [a]; [recv_flags] is a variable of the file. *)
Definition run_in (a : Z) (f : tcp_in -> option tcp_in) (t : tcp_in) (S : stack) : res (tcp_in * stack) :=
  let+ c := get a S in
  let+ t := lift (f (t <| st := view a c S |> <| recv_flags := in_recv_flags S |>)) in
  Ok (t, (back a c (st t) S) <| in_recv_flags := recv_flags t |>).

Definition run_parseopt (a : Z) (t : tcp_in) (S : stack) : res (tcp_in * stack) :=
  let+ c := get a S in
  let+ t := tcp_parseopt (t <| st := view a c S |> <| recv_flags := in_recv_flags S |>) in
  Ok (t, (back a c (st t) S) <| in_recv_flags := recv_flags t |>).

(** [tcp_rst] in answer to the segment. *)
Definition rst_answer (a : Z) (i : segment_ids) (t : tcp_in) : stack -> res stack :=
  on_ a (fun s => Some (tcp_rst (Some (pcb s)) (ackno t) (seqno t + tcplen t) (c_dest i) (c_src i) (c_dport i) (c_sport i) s)).

(** [tcp_rst_netif] on the interface the segment came in on. *)
Definition tcp_rst_netif (i : segment_ids) (t : tcp_in) (S : stack) : stack :=
  let wnd := swap16 (if LWIP_WND_SCALE then Z.land (Z.shiftr TCP_WND TCP_RCV_SCALE) 65535 else TCP_WND) in
  match g_allocs S with
  | true :: l =>
      let k := mk_packet (c_dest i) (c_src i) (c_dport i) (c_sport i) (u32 (ackno t)) (u32 (seqno t + tcplen t)) (Z.lor TCP_RST TCP_ACK) wnd [] [] TCP_TTL 0 in
      S <| g_allocs := l |> <| g_wire := g_wire S ++ [k] |> <| g_ipres := tl (g_ipres S) |>
  | _ :: l => S <| g_allocs := l |>
  | [] => S
  end.

Definition LWIP_TCP_CALC_INITIAL_CWND (m : Z) : Z := tcpwnd (Z.min (4 * m) (Z.max (2 * m) 4380)).

Definition tcp_eff_send_mss (sendmss src dest : Z) : Z := tcp_eff_send_mss_netif sendmss (ip_route src dest).

Definition got_fin_flag (S : stack) : bool := flag_set (in_recv_flags S) TF_GOT_FIN.

(** Our FIN (everything we sent) is acknowledged. *)
Definition fin_acked (t : tcp_in) (p : tcp_pcb) : bool :=
  flag_set (in_flags t) TCP_ACK && (ackno t =? snd_nxt p) && bool_decide (unsent p = []).

(** The pcb goes to TIME-WAIT. *)
Definition to_time_wait (a : Z) (S : stack) : res stack :=
  let+ S := tcp_pcb_purge a S in
  let+ S := TCP_RMV_ACTIVE a S in
  let+ S := updc a (fun p => p <| state := TIME_WAIT |>) S in
  TCP_REG LTw a S.

(** SYN-SENT: the peer's SYN acknowledges ours. *)
Definition syn_sent_pcb (t : tcp_in) (p : tcp_pcb) : option tcp_pcb :=
  let p := p <| rcv_nxt := u32 (seqno t + 1) |> in
  let p := p <| rcv_ann_right_edge := rcv_nxt p |> <| lastack := ackno t |> <| snd_wnd := hdr_wnd t |> <| snd_wnd_max := hdr_wnd t |>
             <| snd_wl1 := u32 (seqno t - 1) |> <| state := ESTABLISHED |> in
  let p := p <| mss := tcp_eff_send_mss (mss p) (local_ip p) (remote_ip p) |> in
  let p := p <| cwnd := LWIP_TCP_CALC_INITIAL_CWND (mss p) |> in
  assert! (0 <? snd_queuelen p) in
  let p := p <| snd_queuelen := snd_queuelen p - 1 |> in
  let? p :=
    match unacked p, unsent p with
    | _ :: l, _ => Some (p <| unacked := l |>)
    | [], _ :: l => Some (p <| unsent := l |>)
    | [], [] => None
    end in
  Some (if bool_decide (unacked p = []) then p <| rtime := -1 |> else p <| rtime := 0 |> <| nrtx := 0 |>).

Definition process_syn_sent (a : Z) (i : segment_ids) (t : tcp_in) (S : stack) : res (err_t * tcp_in * stack) :=
  let+ c := get a S in
  let p := core c in
  if flag_set (in_flags t) TCP_ACK && flag_set (in_flags t) TCP_SYN && (ackno t =? u32 (lastack p + 1)) then
    let+ p := lift (syn_sent_pcb t p) in
    let+ S := updc a (fun _ => p) S in
    let+ (err, S) := TCP_EVENT_CONNECTED a S in
    if bool_decide (err = ERR_ABRT) then Ok (ERR_ABRT, t, S)
    else let+ S := updc a tcp_ack_now S in Ok (ERR_OK, t, S)
  else if flag_set (in_flags t) TCP_ACK then
    let+ S := rst_answer a i t S in
    let+ c := get a S in
    if nrtx (core c) <? TCP_SYNMAXRTX then
      let+ S := on_ a (fun s => tcp_rexmit_rto (updp (fun p => p <| rtime := 0 |>) s)) S in Ok (ERR_OK, t, S)
    else Ok (ERR_OK, t, S)
  else Ok (ERR_OK, t, S).

(** [tcp_receive], and CLOSE-WAIT on a FIN. *)
Definition receive_passive (a : Z) (t : tcp_in) (S : stack) : res (tcp_in * stack) :=
  let+ (t, S) := run_in a tcp_receive t S in
  if got_fin_flag S then let+ S := updc a (fun p => (tcp_ack_now p) <| state := CLOSE_WAIT |>) S in Ok (t, S) else Ok (t, S).

Definition process_syn_rcvd (a : Z) (i : segment_ids) (t : tcp_in) (S : stack) : res (err_t * tcp_in * stack) :=
  let+ c := get a S in
  let p := core c in
  if flag_set (in_flags t) TCP_SYN then
    if seqno t =? u32 (rcv_nxt p - 1) then let+ (_, S) := on a (fun s => Some (tcp_rexmit s)) S in Ok (ERR_OK, t, S) else Ok (ERR_OK, t, S)
  else if flag_set (in_flags t) TCP_ACK then
    if TCP_SEQ_BETWEEN (ackno t) (lastack p + 1) (snd_nxt p) then
      let+ S := updc a (fun p => p <| state := ESTABLISHED |>) S in
      let+ (err, S) :=
        (if listener c =? 0 then Ok (ERR_VAL, S)
         else
           let+ l := getl (listener c) S in
           check! (match accept l with AcceptNULL => false | _ => true end) in
           let+ S := tcp_backlog_accepted a S in
           TCP_EVENT_ACCEPT (listener c) a S) in
      if negb (err_ok err) then
        let+ S := (if bool_decide (err = ERR_ABRT) then Ok S else tcp_abort a S) in Ok (ERR_ABRT, t, S)
      else
        let+ (t, S) := run_in a tcp_receive t S in
        let t := if negb (recv_acked t =? 0) then t <| recv_acked := recv_acked t - 1 |> else t in
        let+ S := updc a (fun p => p <| cwnd := LWIP_TCP_CALC_INITIAL_CWND (mss p) |>) S in
        let+ S := (if got_fin_flag S then updc a (fun p => (tcp_ack_now p) <| state := CLOSE_WAIT |>) S else Ok S) in
        Ok (ERR_OK, t, S)
    else let+ S := rst_answer a i t S in Ok (ERR_OK, t, S)
  else Ok (ERR_OK, t, S).

Definition process_fin_wait_1 (a : Z) (t : tcp_in) (S : stack) : res (err_t * tcp_in * stack) :=
  let+ (t, S) := run_in a tcp_receive t S in
  let+ c := get a S in
  if got_fin_flag S then
    let+ S := updc a tcp_ack_now S in
    let+ S := (if fin_acked t (core c) then to_time_wait a S else updc a (fun p => p <| state := CLOSING |>) S) in
    Ok (ERR_OK, t, S)
  else if fin_acked t (core c) then
    let+ S := updc a (fun p => p <| state := FIN_WAIT_2 |>) S in Ok (ERR_OK, t, S)
  else Ok (ERR_OK, t, S).

Definition process_fin_wait_2 (a : Z) (t : tcp_in) (S : stack) : res (err_t * tcp_in * stack) :=
  let+ (t, S) := run_in a tcp_receive t S in
  if got_fin_flag S then
    let+ S := updc a tcp_ack_now S in
    let+ S := to_time_wait a S in Ok (ERR_OK, t, S)
  else Ok (ERR_OK, t, S).

Definition process_closing (a : Z) (t : tcp_in) (S : stack) : res (err_t * tcp_in * stack) :=
  let+ (t, S) := run_in a tcp_receive t S in
  let+ c := get a S in
  if fin_acked t (core c) then let+ S := to_time_wait a S in Ok (ERR_OK, t, S) else Ok (ERR_OK, t, S).

Definition process_last_ack (a : Z) (t : tcp_in) (S : stack) : res (err_t * tcp_in * stack) :=
  let+ (t, S) := run_in a tcp_receive t S in
  let+ c := get a S in
  if fin_acked t (core c) then Ok (ERR_OK, t, tcp_trigger_input_pcb_close S) else Ok (ERR_OK, t, S).

(** A reset: accepted only with exactly the next sequence number (RFC 5961);
    one elsewhere in the window is answered with an ACK. *)
Definition process_rst (a : Z) (t : tcp_in) (S : stack) : res (err_t * tcp_in * stack) :=
  let+ c := get a S in
  let p := core c in
  let syn_sent := state_is (state p) SYN_SENT in
  if (if syn_sent then ackno t =? snd_nxt p else seqno t =? rcv_nxt p) then
    check! (negb (state_is (state p) CLOSED)) in
    let+ S := updc a (tcp_clear_flags TF_ACK_DELAY) (S <| in_recv_flags := Z.lor (in_recv_flags S) TF_RESET |>) in
    Ok (ERR_RST, t, S)
  else if negb syn_sent && TCP_SEQ_BETWEEN (seqno t) (rcv_nxt p) (rcv_nxt p + rcv_wnd p) then
    let+ S := updc a tcp_ack_now S in Ok (ERR_OK, t, S)
  else Ok (ERR_OK, t, S).

Definition tcp_process (a : Z) (i : segment_ids) (t : tcp_in) (S : stack) : res (err_t * tcp_in * stack) :=
  let+ c := get a S in
  let st0 := state (core c) in
  if flag_set (in_flags t) TCP_RST then process_rst a t S
  else if flag_set (in_flags t) TCP_SYN && negb (state_is st0 SYN_SENT) && negb (state_is st0 SYN_RCVD) then
    let+ S := updc a tcp_ack_now S in Ok (ERR_OK, t, S)
  else
    let+ S := updc a (fun p => (if flag_set (flags p) TF_RXCLOSED then p else p <| tmr := ticks S |>)
                                <| keep_cnt_sent := 0 |> <| persist_probe := 0 |>) S in
    let+ (t, S) := run_parseopt a t S in
    match st0 with
    | SYN_SENT => process_syn_sent a i t S
    | SYN_RCVD => process_syn_rcvd a i t S
    | CLOSE_WAIT | ESTABLISHED => let+ (t, S) := receive_passive a t S in Ok (ERR_OK, t, S)
    | FIN_WAIT_1 => process_fin_wait_1 a t S
    | FIN_WAIT_2 => process_fin_wait_2 a t S
    | CLOSING => process_closing a t S
    | LAST_ACK => process_last_ack a t S
    | _ => Ok (ERR_OK, t, S)
    end.

Definition tcp_timewait_input (a : Z) (i : segment_ids) (t : tcp_in) (S : stack) : res stack :=
  if flag_set (in_flags t) TCP_RST then Ok S
  else
    let+ c := get a S in
    let p := core c in
    if flag_set (in_flags t) TCP_SYN && TCP_SEQ_BETWEEN (seqno t) (rcv_nxt p) (rcv_nxt p + rcv_wnd p) then rst_answer a i t S
    else
      let+ S := (if negb (flag_set (in_flags t) TCP_SYN) && flag_set (in_flags t) TCP_FIN
                 then updc a (fun p => p <| tmr := ticks S |>) S else Ok S) in
      if 0 <? tcplen t then
        let+ S := updc a tcp_ack_now S in
        let+ (_, S) := on a tcp_output S in Ok S
      else Ok S.

(** ** Passive open *)
Definition SOF_INHERITED : Z := 12.

(** The pcb of the new connection, in SYN-RCVD. *)
Definition syn_rcvd_pcb (i : segment_ids) (t : tcp_in) (l : tcp_pcb_listen) (isn : Z) (p : tcp_pcb) : tcp_pcb :=
  (tcp_set_flags TF_BACKLOGPEND p)
    <| local_ip := c_dest i |> <| remote_ip := c_src i |> <| local_port := c_dport i |> <| remote_port := c_sport i |> <| state := SYN_RCVD |>
    <| rcv_nxt := u32 (seqno t + 1) |> <| rcv_ann_right_edge := u32 (seqno t + 1) |>
    <| snd_wl2 := isn |> <| snd_nxt := isn |> <| lastack := isn |> <| snd_lbb := isn |> <| snd_wl1 := u32 (seqno t - 1) |>
    <| so_options := Z.land (l_so_options l) SOF_INHERITED |> <| netif_idx := l_netif_idx l |>.

Definition tcp_listen_input (lp : Z) (i : segment_ids) (t : tcp_in) (S : stack) : res stack :=
  if flag_set (in_flags t) TCP_RST then Ok S
  else if flag_set (in_flags t) TCP_ACK then Ok (tcp_rst_netif i t S)
  else if flag_set (in_flags t) TCP_SYN then
    let+ l := getl lp S in
    if backlog l <=? accepts_pending l then Ok S
    else
      let+ (a, S) := tcp_alloc (l_prio l) S in
      if a =? 0 then TCP_EVENT_ACCEPT_ERR lp S
      else
        let+ l := getl lp S in
        let S := putl lp (l <| accepts_pending := u8 (accepts_pending l + 1) |>) S in
        let (isn, S) := tcp_next_iss S in
        let+ S := upd a (fun c => c <| core := syn_rcvd_pcb i t l isn (core c) |> <| listener := lp |>) S in
        let+ S := TCP_REG_ACTIVE a S in
        let+ (_, S) := run_parseopt a t S in
        let+ S := updc a (fun p => let p := p <| snd_wnd := hdr_wnd t |> <| snd_wnd_max := hdr_wnd t |> in
                                   p <| mss := tcp_eff_send_mss (mss p) (local_ip p) (remote_ip p) |>) S in
        let+ (rc, S) := on a (tcp_enqueue_flags (Z.lor TCP_SYN TCP_ACK)) S in
        if negb (err_ok rc) then tcp_abandon a false S
        else let+ (_, S) := on a tcp_output S in Ok S
  else Ok S.

(** ** The packet *)
Definition ip4_addr_ismulticast (addr : Z) : bool := Z.land addr (PP_HTONL 4026531840) =? PP_HTONL 3758096384.

Definition be_at (b : list Z) (k : nat) : Z := 256 * nth k b 0 + nth (k + 1) b 0.
Definition be32_at (b : list Z) (k : nat) : Z := 65536 * be_at b k + be_at b (k + 2).

(** [ip_chksum_pseudo] over the whole packet: the RFC 1071 sum (Chksum). *)
Definition tcp_chksum (src dest : Z) (p : chain) : Z := 65535 - ones_sum (pseudo_words 6 (tot_len p) src dest + wsum false (cbytes p)).

(** The checks of [tcp_input] up to the search, and the variables they set;
    [None] drops the packet. *)
Definition tcp_input_header (src dest : Z) (n : netif) (p : chain) : res (option (segment_ids * tcp_in)) :=
  match p with
  | [] => Failed
  | b :: rest =>
      if lenz b <? TCP_HLEN then Ok None
      else if ip4_addr_isbroadcast_u32 dest (netif_cfg n) || ip4_addr_ismulticast dest then Ok None
      else if negb (tcp_chksum src dest p =? 0) then Ok None
      else
        let hdrlen := 4 * (u8 (nth 12 b 0) / 16) in
        if (hdrlen <? TCP_HLEN) || (tot_len p <? hdrlen) then Ok None
        else
          let optlen := hdrlen - TCP_HLEN in
          let+ r :=
            (if hdrlen <=? lenz b then Ok (Some (optlen, None, dropz hdrlen b :: rest))
             else
               match rest with
               | [] => Failed
               | b2 :: rest =>
                   let opt1len := lenz b - TCP_HLEN in
                   let opt2len := u16 (optlen - opt1len) in
                   if lenz b2 <? opt2len then Ok None
                   else Ok (Some (opt1len, Some b2, [] :: dropz opt2len b2 :: rest))
               end) in
          match r with
          | None => Ok None
          | Some (opt1len, opt2, q) =>
              let seqno := be32_at b 4 in
              let ackno := be32_at b 8 in
              let wnd := be_at b 14 in
              let flags := Z.land (be_at b 12) 63 in
              let tcplen := tot_len q + (if flag_set flags (Z.lor TCP_FIN TCP_SYN) then 1 else 0) in
              if 65535 <? tcplen then Ok None
              else
                let x := mk_seg q (tot_len q) 0 0 seqno ackno flags wnd 1 in
                let s0 := mk_st (new_pcb 0 0 0) 0 false [] [] [] in
                Ok (Some (mk_ids src dest (be_at b 0) (be_at b 2) (netif_get_index n),
                          mk_in s0 seqno ackno wnd flags tcplen x 0 0 None optlen opt1len (dropz TCP_HLEN b) opt2))
          end
  end.

(** ** The search *)
Definition pcb_matches (i : segment_ids) (p : tcp_pcb) : bool :=
  ((netif_idx p =? NETIF_NO_INDEX) || (netif_idx p =? c_idx i))
  && (remote_port p =? c_sport i) && (local_port p =? c_dport i) && (remote_ip p =? c_src i) && (local_ip p =? c_dest i).

(** The first matching pcb of a list; [ok] is what the code asserts of the
    states it sees.  0 if there is none. *)
Fixpoint find_pcb (ok : tcp_state -> bool) (i : segment_ids) (l : list Z) (S : stack) : res Z :=
  match l with
  | [] => Ok 0
  | a :: l =>
      let+ c := get a S in
      check! (ok (state (core c))) in
      if pcb_matches i (core c) then Ok a else find_pcb ok i l S
  end.

Definition active_state (st : tcp_state) : bool := negb (state_is st CLOSED) && negb (state_is st TIME_WAIT) && negb (state_is st LISTEN).

(** A found element goes to the front of its list. *)
Definition to_front (a : Z) (l : list Z) : list Z := a :: default l (rmv (fun _ => true) a l).

Fixpoint find_lpcb (i : segment_ids) (l : list Z) (S : stack) : res Z :=
  match l with
  | [] => Ok 0
  | a :: l =>
      let+ c := getl a S in
      if ((l_netif_idx c =? NETIF_NO_INDEX) || (l_netif_idx c =? c_idx i)) && (l_local_port c =? c_dport i)
         && ((l_local_ip c =? c_dest i) || (l_local_ip c =? IPADDR_ANY))
      then Ok a else find_lpcb i l S
  end.

(** ** Delivery *)
Definition tcp_input_delayed_close (a : Z) (S : stack) : res (bool * stack) :=
  if flag_set (in_recv_flags S) TF_CLOSED then
    let+ c := get a S in
    let S := if negb (flag_set (flags (core c)) TF_RXCLOSED) && errf c then note (EvErr a ERR_CLSD) S else S in
    let+ S := tcp_pcb_remove LActive a S in
    let+ S := tcp_free a S in
    Ok (true, S)
  else Ok (false, S).

(** The acknowledged bytes are reported in 16-bit pieces.  The boolean tells
    whether the connection was aborted. *)
Fixpoint sent_loop (fuel : nat) (a acked : Z) (S : stack) : res (bool * stack) :=
  if 0 <? acked then
    match fuel with
    | O => Stuck
    | Datatypes.S fuel =>
        let n := if LWIP_WND_SCALE then Z.min acked 65535 else u16 acked in
        let+ (err, S) := TCP_EVENT_SENT a n S in
        if bool_decide (err = ERR_ABRT) then Ok (true, S)
        else if LWIP_WND_SCALE then sent_loop fuel a (acked - n) S
        else Ok (false, S)
    end
  else Ok (false, S).

Fixpoint recv_loop (fuel : nat) (a : Z) (d : option chain) (S : stack) : res (bool * stack) :=
  match d with
  | None => Ok (false, S)
  | Some d =>
      match fuel with
      | O => Stuck
      | Datatypes.S fuel =>
          let (front, rest) := if LWIP_WND_SCALE then pbuf_split_64k d else (d, None) in
          let+ c := get a S in
          check! (bool_decide (refused_data (core c) = None)) in
          if flag_set (flags (core c)) TF_RXCLOSED then let+ S := tcp_abort a S in Ok (true, S)
          else
            let+ (err, S) := TCP_EVENT_RECV a front S in
            if bool_decide (err = ERR_ABRT) then Ok (true, S)
            else if negb (err_ok err) then
              let+ S := upd a (fun c => c <| core := (core c) <| refused_data := Some (front ++ default [] rest) |> |> <| refused_fin := false |>) S in
              Ok (false, S)
            else recv_loop fuel a rest S
      end
  end.

Definition deliver_fin (a : Z) (S : stack) : res (bool * stack) :=
  if got_fin_flag S then
    let+ c := get a S in
    match refused_data (core c) with
    | Some _ => let+ S := upd a (fun c => c <| refused_fin := true |>) S in Ok (false, S)
    | None =>
        let+ S := updc a (fun p => if negb (rcv_wnd p =? TCP_WND_MAX p) then p <| rcv_wnd := tcpwnd (rcv_wnd p + 1) |> else p) S in
        let+ (err, S) := TCP_EVENT_CLOSED a S in
        Ok (bool_decide (err = ERR_ABRT), S)
    end
  else Ok (false, S).

(** After [tcp_process] without abort or reset. *)
Definition deliver (a : Z) (t : tcp_in) (S : stack) : res stack :=
  let+ (gone, S) := sent_loop (Z.to_nat (recv_acked t / 65535) + 1) a (recv_acked t) S in
  if gone then Ok S
  else
    let+ (gone, S) := tcp_input_delayed_close a S in
    if gone then Ok S
    else
      let+ (gone, S) := recv_loop (length (default [] (recv_data t)) + 1) a (recv_data t) S in
      if gone then Ok S
      else
        let+ (gone, S) := deliver_fin a S in
        if gone then Ok S
        else
          let S := S <| tcp_input_pcb := 0 |> in
          let+ (gone, S) := tcp_input_delayed_close a S in
          if gone then Ok S else let+ (_, S) := on a tcp_output S in Ok S.

(** A reset was accepted. *)
Definition input_reset (a : Z) (S : stack) : res stack :=
  let+ c := get a S in
  let S := if errf c then note (EvErr a ERR_RST) S else S in
  let+ S := tcp_pcb_remove LActive a S in
  tcp_free a S.

(** The segment belongs to the active pcb [a]. *)
Definition input_active (a : Z) (i : segment_ids) (t : tcp_in) (S : stack) : res stack :=
  let S := S <| in_recv_flags := 0 |> in
  let+ c := get a S in
  let+ (go, S) :=
    match refused_data (core c) with
    | None => Ok (true, S)
    | Some _ =>
        let+ (err, S) := tcp_process_refused_data a S in
        let+ drop :=
          (if bool_decide (err = ERR_ABRT) then Ok true
           else let+ c := get a S in Ok (negb (bool_decide (refused_data (core c) = None)) && (0 <? tcplen t))) in
        if drop then
          let+ c := get a S in
          if rcv_ann_wnd (core c) =? 0 then let+ (_, S) := on a (fun s => Some (tcp_send_empty_ack s)) S in Ok (false, S) else Ok (false, S)
        else Ok (true, S)
    end in
  if negb go then Ok (S <| tcp_input_pcb := 0 |>)
  else
    let+ (err, t, S) := tcp_process a i t (S <| tcp_input_pcb := a |>) in
    let+ S :=
      (if bool_decide (err = ERR_ABRT) then Ok S
       else if flag_set (in_recv_flags S) TF_RESET then input_reset a S
       else deliver a t S) in
    Ok (S <| tcp_input_pcb := 0 |>).

Definition tcp_input (src dest : Z) (n : netif) (p : chain) (S : stack) : res stack :=
  let+ h := tcp_input_header src dest n p in
  match h with
  | None => Ok S
  | Some (i, t) =>
      let+ a := find_pcb active_state i (tcp_active_pcbs S) S in
      if negb (a =? 0) then input_active a i t (S <| tcp_active_pcbs := to_front a (tcp_active_pcbs S) |>)
      else
        let+ a := find_pcb (fun st => state_is st TIME_WAIT) i (tcp_tw_pcbs S) S in
        if negb (a =? 0) then tcp_timewait_input a i t S
        else
          check! (match tcp_listen_pcbs S with _ :: _ :: _ => false | _ => true end) in
          match tcp_listen_pcbs S with
          | lp :: _ =>
              if flag_set (in_flags t) TCP_SYN && negb (flag_set (in_flags t) TCP_ACK) then tcp_listen_input lp i t S
              else
                let+ lp := find_lpcb i (tcp_listen_pcbs S) S in
                if negb (lp =? 0) then tcp_listen_input lp i t (S <| tcp_listen_pcbs := to_front lp (tcp_listen_pcbs S) |>)
                else Ok (if flag_set (in_flags t) TCP_RST then S else tcp_rst_netif i t S)
          | [] => Ok (if flag_set (in_flags t) TCP_RST then S else tcp_rst_netif i t S)
          end
  end.
End Input.
