(* ===== verification/TcpTimer.v ===== *)
(** * TcpTimer: the TCP timers, src/Sources/Lwip/src/core/tcp.c

    [tcp_fasttmr] (delayed ACKs, pending closes, refused data), [tcp_slowtmr]
    (retransmission, persist, keep-alive, time-outs, polling) and [tcp_tmr],
    which runs them. *)

From S2P Require Import Prelude Ip4Addr Opts TcpPcb TcpOut TcpIn TcpStack TcpInput.

Definition tcp_backoff : list Z := [1; 2; 3; 4; 5; 6; 7; 7; 7; 7; 7; 7; 7].
Definition tcp_persist_backoff : list Z := [3; 6; 12; 24; 48; 96; 120].
Definition TCP_FIN_WAIT_TIMEOUT : Z := 20000.
Definition TCP_SYN_RCVD_TIMEOUT : Z := 20000.
Definition TCP_OOSEQ_TIMEOUT : Z := 6.
Definition TCP_MSL : Z := 15000.
Definition SOF_KEEPALIVE : Z := 8.
Definition TCP_KEEPINTVL_DEFAULT : Z := 75000.
Definition TCP_MAXIDLE : Z := 9 * TCP_KEEPINTVL_DEFAULT.

Section Timer.
Context {o : Opts} {ip : IpLayer}.

(** ** One pcb *)

(** The persist timer: probes while the window is too small.  The boolean asks
    for the pcb to be removed. *)
Definition slow_persist (s : tcp_st) : option (bool * tcp_st) :=
  let p := pcb s in
  assert! (bool_decide (unacked p = [])) in
  assert! (negb (bool_decide (unsent p = []))) in
  if TCP_MAXRTX <=? persist_probe p then Some (true, s)
  else
    let? backoff_cnt := getz tcp_persist_backoff (persist_backoff p - 1) in
    let s := updp (fun p => if persist_cnt p <? backoff_cnt then p <| persist_cnt := persist_cnt p + 1 |> else p) s in
    if backoff_cnt <=? persist_cnt (pcb s) then
      let? (next_slot, s) :=
        (if snd_wnd (pcb s) =? 0 then
           let (e, s) := tcp_zero_window_probe s in Some (err_ok e, s)
         else
           let? (e, s) := tcp_split_unsent_seg (u16 (snd_wnd (pcb s))) s in
           if err_ok e then let? (e, s) := tcp_output s in Some (negb (err_ok e), s) else Some (true, s)) in
      Some (false,
        if next_slot then
          updp (fun p => let p := p <| persist_cnt := 0 |> in if persist_backoff p <? 7 then p <| persist_backoff := persist_backoff p + 1 |> else p) s
        else s)
    else Some (false, s).

(** The retransmission timer. *)
Definition slow_rexmit (s : tcp_st) : option tcp_st :=
  let s := updp (fun p => if (0 <=? rtime p) && (rtime p <? 32767) then p <| rtime := rtime p + 1 |> else p) s in
  if rto (pcb s) <=? rtime (pcb s) then
    let (e, s) := tcp_rexmit_rto_prepare s in
    if err_ok e || (bool_decide (unacked (pcb s) = []) && negb (bool_decide (unsent (pcb s) = []))) then
      let? s :=
        (if state_is (state (pcb s)) SYN_SENT then Some s
         else
           let? b := getz tcp_backoff (Z.min (nrtx (pcb s)) 12) in
           Some (updp (fun p => p <| rto := s16 (Z.min (Z.shiftl (Z.shiftr (sa p) 3 + sv p) b) 32767) |>) s)) in
      tcp_rexmit_rto_commit (updp (fun p =>
        let p := p <| rtime := 0 |> <| ssthresh := Z.min (cwnd p) (snd_wnd p) / 2 |> in
        let p := if ssthresh p <? tcpwnd (2 * mss p) then p <| ssthresh := tcpwnd (2 * mss p) |> else p in
        p <| cwnd := mss p |> <| bytes_acked := 0 |>) s)
    else Some s
  else Some s.

(** How long nothing has been heard, in slow-timer ticks. *)
Definition idle (s : tcp_st) : Z := u32 (tcp_ticks s - tmr (pcb s)).

(** Keep-alive; the boolean asks for removal with a reset. *)
Definition slow_keepalive (s : tcp_st) : bool * tcp_st :=
  let p := pcb s in
  if flag_set (so_options p) SOF_KEEPALIVE && (state_is (state p) ESTABLISHED || state_is (state p) CLOSE_WAIT) then
    if (keep_idle p + TCP_MAXIDLE) / TCP_SLOW_INTERVAL <? idle s then (true, s)
    else if (keep_idle p + keep_cnt_sent p * TCP_KEEPINTVL_DEFAULT) / TCP_SLOW_INTERVAL <? idle s then
      let (e, s) := tcp_keepalive s in
      (false, if err_ok e then updp (fun p => p <| keep_cnt_sent := u8 (keep_cnt_sent p + 1) |>) s else s)
    else (false, s)
  else (false, s).

(** The slow timer for one active pcb: is it to be removed, with a reset? *)
Definition slow_pcb (ctr : Z) (s : tcp_st) : option (bool * bool * tcp_st) :=
  let s := updp (fun p => p <| last_timer := ctr |>) s in
  let p := pcb s in
  let? (rm1, s) :=
    (if state_is (state p) SYN_SENT && (TCP_SYNMAXRTX <=? nrtx p) then Some (true, s)
     else if TCP_MAXRTX <=? nrtx p then Some (true, s)
     else if 0 <? persist_backoff p then slow_persist s
     else let? s := slow_rexmit s in Some (false, s)) in
  let rm2 := state_is (state (pcb s)) FIN_WAIT_2 && flag_set (flags (pcb s)) TF_RXCLOSED && (TCP_FIN_WAIT_TIMEOUT / TCP_SLOW_INTERVAL <? idle s) in
  let (rm3, s) := slow_keepalive s in
  let s := if negb (bool_decide (ooseq (pcb s) = [])) && (u32 (u32 (rto (pcb s)) * TCP_OOSEQ_TIMEOUT) <=? idle s)
           then updp tcp_free_ooseq s else s in
  let rm4 := state_is (state (pcb s)) SYN_RCVD && (TCP_SYN_RCVD_TIMEOUT / TCP_SLOW_INTERVAL <? idle s) in
  let rm5 := state_is (state (pcb s)) LAST_ACK && (2 * TCP_MSL / TCP_SLOW_INTERVAL <? idle s) in
  Some (rm1 || rm2 || rm3 || rm4 || rm5, rm3, s).

(** ** The slow timer *)

(** A pcb of the active list is removed. *)
Definition slow_remove (a : Z) (reset : bool) (S : stack) : res stack :=
  let+ c0 := get a S in
  let+ S := tcp_pcb_purge a S in
  let+ S := TCP_RMV LActive a S in
  let+ c := get a S in
  let p := core c in
  let+ S := (if reset then rst_own a (snd_nxt p) (rcv_nxt p) (local_port p) S else Ok S) in
  let+ S := tcp_free a S in
  let S := S <| tcp_active_pcbs_changed := false |> in
  Ok (if errf c0 then note (EvErr a ERR_ABRT) S else S).

(** Polling; the boolean asks for a new start because the list changed. *)
Definition slow_poll (a : Z) (S : stack) : res (bool * stack) :=
  let+ S := updc a (fun p => p <| polltmr := u8 (polltmr p + 1) |>) S in
  let+ c := get a S in
  if pollinterval (core c) <=? polltmr (core c) then
    let+ S := updc a (fun p => p <| polltmr := 0 |>) (S <| tcp_active_pcbs_changed := false |>) in
    let+ (err, S) := TCP_EVENT_POLL a S in
    if tcp_active_pcbs_changed S then Ok (true, S)
    else if err_ok err then let+ (_, S) := on a tcp_output S in Ok (false, S)
    else Ok (false, S)
  else Ok (false, S).

(** The walk over the active list; [l] is the rest of the list. *)
Fixpoint slow_active (fuel : nat) (l : list Z) (S : stack) : res stack :=
  match l with
  | [] => Ok S
  | a :: l =>
      match fuel with
      | O => Stuck
      | Datatypes.S fuel =>
          let+ c := get a S in
          check! (active_state (state (core c))) in
          if last_timer (core c) =? tcp_timer_ctr S then slow_active fuel l S
          else
            let+ (rm, reset, S) := on a (fun s => let? (rm, reset, s) := slow_pcb (tcp_timer_ctr S) s in Some ((rm, reset), s)) S in
            if rm then
              let+ S := slow_remove a reset S in
              slow_active fuel (if tcp_active_pcbs_changed S then tcp_active_pcbs S else l) S
            else
              let+ (again, S) := slow_poll a S in
              slow_active fuel (if again then tcp_active_pcbs S else l) S
      end
  end.

Fixpoint slow_tw (l : list Z) (S : stack) : res stack :=
  match l with
  | [] => Ok S
  | a :: l =>
      let+ c := get a S in
      check! (state_is (state (core c)) TIME_WAIT) in
      if 2 * TCP_MSL / TCP_SLOW_INTERVAL <? u32 (ticks S - tmr (core c)) then
        let+ S := tcp_pcb_purge a S in
        let+ S := TCP_RMV LTw a S in
        let+ S := tcp_free a S in
        slow_tw l S
      else slow_tw l S
  end.

(** A start over is possible after each pcb that was handled, and a walk skips
    at most all pcbs. *)
Definition slow_fuel (S : stack) : nat := let n := length (tcp_active_pcbs S) in (Datatypes.S n * Datatypes.S n)%nat.

Definition tcp_slowtmr (S : stack) : res stack :=
  let S := S <| ticks := u32 (ticks S + 1) |> <| tcp_timer_ctr := u8 (tcp_timer_ctr S + 1) |> in
  let+ S := slow_active (slow_fuel S) (tcp_active_pcbs S) S in
  slow_tw (tcp_tw_pcbs S) S.

(** ** The fast timer *)
Definition fast_pcb (a : Z) (S : stack) : res stack :=
  let+ S := updc a (fun p => p <| last_timer := tcp_timer_ctr S |>) S in
  let+ c := get a S in
  let+ S :=
    (if flag_set (flags (core c)) TF_ACK_DELAY then
       let+ S := updc a tcp_ack_now S in
       let+ (_, S) := on a tcp_output S in
       updc a (tcp_clear_flags (Z.lor TF_ACK_DELAY TF_ACK_NOW)) S
     else Ok S) in
  closepend_one a S.

Fixpoint fast_active (fuel : nat) (l : list Z) (S : stack) : res stack :=
  match l with
  | [] => Ok S
  | a :: l =>
      match fuel with
      | O => Stuck
      | Datatypes.S fuel =>
          let+ c := get a S in
          if last_timer (core c) =? tcp_timer_ctr S then fast_active fuel l S
          else
            let+ S := fast_pcb a S in
            let+ c := get a S in
            match refused_data (core c) with
            | Some _ =>
                let+ (_, S) := tcp_process_refused_data a (S <| tcp_active_pcbs_changed := false |>) in
                fast_active fuel (if tcp_active_pcbs_changed S then tcp_active_pcbs S else l) S
            | None => fast_active fuel l S
            end
      end
  end.

Definition tcp_fasttmr (S : stack) : res stack :=
  let S := S <| tcp_timer_ctr := u8 (tcp_timer_ctr S + 1) |> in
  fast_active (slow_fuel S) (tcp_active_pcbs S) S.

Definition tcp_tmr (S : stack) : res stack :=
  let+ S := tcp_fasttmr S in
  let S := S <| tcp_timer := u8 (tcp_timer S + 1) |> in
  if Z.odd (tcp_timer S) then tcp_slowtmr S else Ok S.

Fixpoint txnow_walk (l : list Z) (S : stack) : res stack :=
  match l with
  | [] => Ok S
  | a :: l =>
      let+ c := get a S in
      let+ S := (if flag_set (flags (core c)) TF_NAGLEMEMERR then let+ (_, S) := on a tcp_output S in Ok S else Ok S) in
      txnow_walk l S
  end.

Definition tcp_txnow (S : stack) : res stack := txnow_walk (tcp_active_pcbs S) S.
End Timer.
