(* ===== verification/TcpFrame.v ===== *)
(** * TcpFrame: what the code for one pcb leaves alone

    Sending, receiving and the timers' work on one pcb never change the fields
    the lists of pcbs depend on: the state (but for a FIN that arrives), the
    local port, the refused data and the timer mark. *)

From S2P Require Import Prelude Ip4Addr Opts TcpPcb TcpOut TcpIn TcpStack TcpInput TcpTimer.

Definition keeps (p q : tcp_pcb) : Prop :=
  state q = state p /\ local_port q = local_port p /\ refused_data q = refused_data p /\ last_timer q = last_timer p.

#[export] Instance keeps_preorder : PreOrder keeps.
Proof. split; [by intros p|]. intros p q r (H1 & H2 & H3 & H4) (K1 & K2 & K3 & K4). unfold keeps. rewrite K1, K2, K3, K4. by rewrite H1, H2, H3, H4. Qed.

(** Case analysis on every test, then the fields are the same by computation. *)
Ltac kdone := unfold keeps; split_and!; reflexivity.
Ltac kcases := repeat (case_match; try discriminate); simplify_eq; try (by kdone).

Section Frame.
Context {o : Opts} {ip : IpLayer}.

Lemma pcb_updp f s : pcb (updp f s) = f (pcb s).
Proof. done. Qed.

Lemma keeps_alloc s : pcb (snd (alloc s)) = pcb s.
Proof. unfold alloc. by destruct (allocs s). Qed.

Lemma keeps_ip_output k s : pcb (snd (ip_output_if k s)) = pcb s.
Proof. unfold ip_output_if. by destruct (ipres _). Qed.

Lemma keeps_control p k s : pcb (snd (tcp_output_control_segment p k s)) = pcb s.
Proof. unfold tcp_output_control_segment. destruct (tcp_route _ _ _); [apply keeps_ip_output|done]. Qed.

Lemma keeps_rst p a b c d e f s : pcb (tcp_rst p a b c d e f s) = pcb s.
Proof.
  unfold tcp_rst. pose proof (keeps_alloc s) as H. destruct (alloc s) as [b' s1]. cbn in H. destruct b'; [|done]. by rewrite keeps_control.
Qed.

Lemma keeps_alloc_header fl d n s : keeps (pcb s) (pcb (snd (tcp_output_alloc_header fl d n s))).
Proof.
  unfold tcp_output_alloc_header. pose proof (keeps_alloc s) as H. destruct (alloc s) as [b s1]. cbn [snd] in H. destruct b; cbn [snd]; [|by rewrite H].
  unfold updp. rsimpl. rewrite H. kdone.
Qed.

Lemma keeps_empty_ack s : keeps (pcb s) (pcb (snd (tcp_send_empty_ack s))).
Proof.
  unfold tcp_send_empty_ack. pose proof (keeps_alloc_header TCP_ACK [] (snd_nxt (pcb s)) s) as H. destruct (tcp_output_alloc_header _ _ _ s) as [[k|] s1]; cbn [snd] in *.
  2: { etransitivity; [exact H|]. kdone. }
  pose proof (keeps_control (Some (pcb s1)) k s1) as H2. destruct (tcp_output_control_segment _ _ _) as [e s2]. cbn [snd] in H2. etransitivity; [exact H|]. rewrite <- H2.
  destruct (negb _); kdone.
Qed.

Lemma keeps_output_segment x n s e x' s' : tcp_output_segment x n s = Some (e, x', s') -> keeps (pcb s) (pcb s').
Proof.
  unfold tcp_output_segment. destruct (tcp_output_segment_busy x); [by intros [= <- <- <-]|].
  destruct (_ =? _); [|done]. match goal with |- context [ip_output_if ?k ?s] => pose proof (keeps_ip_output k s) as H; destruct (ip_output_if k s) as [e1 s1] end.
  intros [= <- <- <-]. cbn [snd] in H. rewrite H. rsimpl. destruct (_ =? 0); kdone.
Qed.

Lemma keeps_output_loop w n l : forall s e s', output_loop l w n s = Some (e, s') -> keeps (pcb s) (pcb s').
Proof.
  induction l as [|x l IH]; intros s e s'; cbn [output_loop]; [by intros [= <- <-]|].
  destruct (negb _); [by intros [= <- <-]|]. destruct (negb _); [|done]. destruct (_ && _); [by intros [= <- <-]|].
  match goal with |- context [tcp_output_segment ?x n s] => destruct (tcp_output_segment x n s) as [[[e1 x1] s1]|] eqn:E1; [|done] end.
  apply keeps_output_segment in E1. destruct (negb (err_ok e1)).
  - intros [= <- <-]. etransitivity; [exact E1|]. kdone.
  - intros E2%IH. etransitivity; [exact E1|]. etransitivity; [|exact E2]. rsimpl. destruct (state_is _ _), (TCP_SEQ_LT _ _), (0 <? _); kdone.
Qed.

Lemma keeps_output s e s' : tcp_output s = Some (e, s') -> keeps (pcb s) (pcb s').
Proof.
  unfold tcp_output, output_done. destruct (negb _); [|done]. destruct (is_input_pcb s); [by intros [= <- <-]|].
  destruct (unsent (pcb s)) as [|x l]; [destruct (flag_set _ _)|].
  { intros [= E]. pose proof (keeps_empty_ack s) as H. by rewrite E in H. }
  { intros [= <- <-]. kdone. }
  destruct (tcp_route _ _ _) as [n|]; [|by intros [= <- <-]].
  set (s1 := if local_ip (pcb s) =? 0 then _ else s). assert (H1 : keeps (pcb s) (pcb s1)) by (unfold s1; case_match; kdone). clearbody s1.
  destruct (_ <? _).
  - set (s2 := if _ && _ && _ then _ else s1). assert (H2 : keeps (pcb s) (pcb s2)) by (etransitivity; [exact H1|]; unfold s2; case_match; kdone). clearbody s2.
    destruct (flag_set _ _); intros [= E]; (etransitivity; [exact H2|]); [pose proof (keeps_empty_ack s2) as H; by rewrite E in H|subst; kdone].
  - destruct (output_loop _ _ _ _) as [[e1 s2]|] eqn:E; [|done]. apply keeps_output_loop in E. assert (H2 : keeps (pcb s) (pcb s2)) by (etransitivity; [exact H1|exact E]).
    destruct (negb _); intros [= <- <-]; [exact H2|]. etransitivity; [exact H2|]. unfold updp. rsimpl. case_match; kdone.
Qed.

Lemma keeps_rexmit s : keeps (pcb s) (pcb (snd (tcp_rexmit s))).
Proof.
  unfold tcp_rexmit. destruct (unacked (pcb s)); [done|]. destruct (tcp_output_segment_busy _); [done|]. cbn [snd]. rsimpl. do 2 case_match; kdone.
Qed.

Lemma keeps_rexmit_fast s : keeps (pcb s) (pcb (tcp_rexmit_fast s)).
Proof.
  unfold tcp_rexmit_fast. destruct (_ && _); [|done]. pose proof (keeps_rexmit s) as H. destruct (tcp_rexmit s) as [e s1]. cbn [snd] in H.
  destruct (err_ok e); [|exact H]. etransitivity; [exact H|]. rewrite pcb_updp. generalize (pcb s1). intros p. cbv zeta. case_match; kdone.
Qed.

Lemma keeps_rto_prepare s : keeps (pcb s) (pcb (snd (tcp_rexmit_rto_prepare s))).
Proof.
  unfold tcp_rexmit_rto_prepare. destruct (last _); [|done]. destruct (existsb _ _); [done|]. cbn [snd]. case_match; kdone.
Qed.

Lemma keeps_rto_commit s s' : tcp_rexmit_rto_commit s = Some s' -> keeps (pcb s) (pcb s').
Proof.
  unfold tcp_rexmit_rto_commit. destruct (tcp_output _) as [[e s1]|] eqn:E; [|done]. intros [= <-]. apply keeps_output in E. etransitivity; [|exact E].
  unfold updp. rsimpl. case_match; kdone.
Qed.

Lemma keeps_rexmit_rto s s' : tcp_rexmit_rto s = Some s' -> keeps (pcb s) (pcb s').
Proof.
  unfold tcp_rexmit_rto. pose proof (keeps_rto_prepare s) as H. destruct (tcp_rexmit_rto_prepare s) as [e s1]. cbn [snd] in H.
  destruct (err_ok e); [|by intros [= <-]]. intros E%keeps_rto_commit. by etransitivity.
Qed.

Lemma keeps_ann_wnd p n q : tcp_update_rcv_ann_wnd p = Some (n, q) -> keeps p q.
Proof. unfold tcp_update_rcv_ann_wnd. destruct (TCP_SEQ_GEQ _ _); [|destruct (TCP_SEQ_GT _ _); [|destruct (_ || _); [|done]]]; intros [= <- <-]; kdone. Qed.

Lemma keeps_recved n s s' : tcp_recved n s = Some s' -> keeps (pcb s) (pcb s').
Proof.
  unfold tcp_recved, recved_window. destruct (negb _); [|done]. destruct (tcp_update_rcv_ann_wnd _) as [[k q]|] eqn:E; [|done].
  apply keeps_ann_wnd in E. assert (H : keeps (pcb s) q) by (etransitivity; [|exact E]; kdone).
  destruct (_ <=? _); [|by intros [= <-]]. destruct (tcp_output _) as [[e s1]|] eqn:E1; [|done]. intros [= <-]. apply keeps_output in E1.
  etransitivity; [exact H|]. etransitivity; [|exact E1]. kdone.
Qed.

(** ** Queueing *)
Lemma keeps_create p fl n ofl s : pcb (snd (tcp_create_segment p fl n ofl s)) = pcb s.
Proof. unfold tcp_create_segment. pose proof (keeps_alloc s) as H. destruct (alloc s) as [b s1]. by destruct b. Qed.

Lemma keeps_prealloc n m fl b s : pcb (snd (tcp_pbuf_prealloc n m fl b s)) = pcb s.
Proof. unfold tcp_pbuf_prealloc. pose proof (keeps_alloc s) as H. destruct (alloc s) as [c s1]. by destruct c. Qed.

Lemma keeps_enqueue fl s e s' : tcp_enqueue_flags fl s = Some (e, s') -> keeps (pcb s) (pcb s').
Proof.
  unfold tcp_enqueue_flags. destruct (flag_set fl _); [|done]. pose proof (keeps_alloc s) as H. destruct (alloc s) as [b s1]. cbn [snd] in H.
  destruct b; cbn [negb]; [|intros [= <- <-]; rewrite pcb_updp, H; kdone].
  match goal with |- context [tcp_create_segment ?a ?b ?c ?d s1] => pose proof (keeps_create a b c d s1) as H2; destruct (tcp_create_segment a b c d s1) as [[x|] s2] end; cbn [snd] in H2.
  - destruct (_ =? 0); [|done]. destruct (_ || _); [|done]. intros [= <- <-]. change (pcb (s2 <| pcb := ?p |>)) with p. rewrite H2, H. destruct (flag_set _ _); kdone.
  - intros [= <- <-]. rewrite pcb_updp, H2, H. kdone.
Qed.

Lemma keeps_send_fin s e s' : tcp_send_fin s = Some (e, s') -> keeps (pcb s) (pcb s').
Proof.
  unfold tcp_send_fin. destruct (last _) as [x|]; [|apply keeps_enqueue]. destruct (negb _); [|apply keeps_enqueue]. intros [= <- <-]. rewrite !pcb_updp. kdone.
Qed.

Lemma enqueue_err fl s e s' : tcp_enqueue_flags fl s = Some (e, s') -> e = ERR_OK \/ e = ERR_MEM.
Proof.
  unfold tcp_enqueue_flags. destruct (flag_set fl _); [|done]. destruct (alloc s) as [b s1]. destruct b; cbn [negb]; [|intros [= <- _]; auto].
  destruct (tcp_create_segment _ _ _ _ s1) as [[x|] s2]; [|intros [= <- _]; auto]. destruct (_ =? 0); [|done]. destruct (_ || _); [|done]. intros [= <- _]; auto.
Qed.

Lemma send_fin_err s e s' : tcp_send_fin s = Some (e, s') -> e = ERR_OK \/ e = ERR_MEM.
Proof.
  unfold tcp_send_fin. destruct (last _) as [x|]; [|apply enqueue_err]. destruct (negb _); [|apply enqueue_err]. intros [= <- _]; auto.
Qed.

Lemma keeps_write_loop arg m fl k : forall pos ov ql q s H r s', write_loop k arg pos m ov ql fl q s H = (r, s') -> pcb s' = pcb s.
Proof.
  induction k as [|k IH]; intros pos ov ql q s Hr r s'; [lia|]. cbn [write_loop]. destruct (_ <? _); [|by intros [= <- <-]].
  match goal with |- context [tcp_pbuf_prealloc ?a ?b ?c ?d s] => pose proof (keeps_prealloc a b c d s) as H; destruct (tcp_pbuf_prealloc a b c d s) as [[v|] s1] end; cbn [snd] in H.
  2: { by intros [= <- <-]. }
  destruct (decide _); [by intros [= <- <-]|].
  match goal with |- context [tcp_create_segment ?a ?b ?c ?d s1] => pose proof (keeps_create a b c d s1) as H2; destruct (tcp_create_segment a b c d s1) as [[x|] s2] end; cbn [snd] in H2.
  - intros E%IH. by rewrite E, H2, H.
  - intros [= <- <-]. by rewrite H2, H.
Qed.

Lemma keeps_write_tail arg m fl s r s' : write_tail arg m fl s = Some (r, s') -> pcb s' = pcb s.
Proof.
  unfold write_tail. destruct (last _) as [x|]; [|destruct (_ =? 0); [|done]; by intros [= <- <-]].
  destruct (_ <=? _); [|done]. destruct (_ =? _); [|done]. destruct (_ || _); [|done]. destruct (_ || _); [|done].
  destruct (_ && _ && _); [|by intros [= <- <-]].
  match goal with |- context [tcp_pbuf_prealloc ?a ?b ?c ?d s] => pose proof (keeps_prealloc a b c d s) as H; destruct (tcp_pbuf_prealloc a b c d s) as [[v|] s1] end; cbn [snd] in H;
    by intros [= <- <-].
Qed.

Lemma keeps_write arg fl s e s' : tcp_write arg fl s = Some (e, s') -> keeps (pcb s) (pcb s').
Proof.
  unfold tcp_write. destruct (tcp_write_checks _ _) as [[e0 s0]|] eqn:E0; [|done].
  assert (H0 : keeps (pcb s) (pcb s0)).
  { revert E0. unfold tcp_write_checks. destruct (_ && _); [by intros [= <- <-]|]. destruct (_ =? 0); [by intros [= <- <-]|].
    destruct (_ <? _); [intros [= <- <-]; kdone|]. destruct (_ <=? _); [intros [= <- <-]; kdone|].
    destruct (negb _); [destruct (_ || _)|destruct (_ && _)]; try done; by intros [= <- <-]. }
  destruct (negb _); [by intros [= <- <-]|]. destruct (write_tail _ _ _ _) as [[r s1]|] eqn:E1; [|done]. apply keeps_write_tail in E1. rewrite <- E1 in H0.
  assert (Hm : forall s2, pcb s2 = pcb s1 -> forall e s', write_memerr s2 = Some (e, s') -> keeps (pcb s) (pcb s')).
  { intros s2 E2 e2 s3. unfold write_memerr. destruct (_ || _); [|done]. intros [= <- <-]. etransitivity; [exact H0|]. rewrite pcb_updp, E2. kdone. }
  destruct r as [[[[t ov] ql] pos]|]; [|by apply Hm]. destruct (write_loop _ _ _ _ _ _ _ _ _ _) as [q s2] eqn:E2. apply keeps_write_loop in E2.
  destruct q as [[[q ov'] ql']|]; [|by apply Hm]. unfold write_commit, commit_queue. destruct (match last _ with None => _ | Some _ => _ end) as [old|]; [|done].
  destruct (_ || _); [|done]. intros [= <- <-]. etransitivity; [exact H0|]. change (pcb (s2 <| pcb := ?p |>)) with p. rewrite E2. kdone.
Qed.

Lemma keeps_split n s e s' : tcp_split_unsent_seg n s = Some (e, s') -> keeps (pcb s) (pcb s').
Proof.
  unfold tcp_split_unsent_seg. destruct (unsent (pcb s)) as [|x l]; [by intros [= <- <-]|]. destruct (negb _); [|done]. destruct (_ <=? n); [by intros [= <- <-]|].
  destruct (_ <=? _); [|done]. destruct (_ <? _); [|done]. pose proof (keeps_alloc s) as H. destruct (alloc s) as [b s1]. cbn [snd] in H.
  destruct b; cbn [negb]; [|intros [= <- <-]; by rewrite H]. destruct (negb _); [intros [= <- <-]; by rewrite H|].
  match goal with |- context [tcp_create_segment ?a ?b ?c ?d s1] => pose proof (keeps_create a b c d s1) as H2; destruct (tcp_create_segment a b c d s1) as [[y|] s2] end; cbn [snd] in H2.
  - intros [= <- <-]. change (pcb (s2 <| pcb := ?p |>)) with p. rewrite <- H, <- H2. case_match; kdone.
  - intros [= <- <-]. by rewrite H2, H.
Qed.

(** ** Timers *)
Lemma keeps_probe s : keeps (pcb s) (pcb (snd (tcp_zero_window_probe s))).
Proof.
  unfold tcp_zero_window_probe. destruct (unsent (pcb s)) as [|x l]; [done|]. cbv zeta.
  match goal with |- context [tcp_output_alloc_header ?a ?b ?c ?d] => pose proof (keeps_alloc_header a b c d) as H; destruct (tcp_output_alloc_header a b c d) as [[k|] s1] end; cbn [snd] in *.
  - rewrite keeps_control, pcb_updp. etransitivity; [|etransitivity; [exact H|]]; [rewrite pcb_updp|]; kdone.
  - etransitivity; [|exact H]. rewrite pcb_updp. kdone.
Qed.

Lemma keeps_keepalive s : keeps (pcb s) (pcb (snd (tcp_keepalive s))).
Proof.
  unfold tcp_keepalive. pose proof (keeps_alloc_header TCP_ACK [] (snd_nxt (pcb s) - 1) s) as H. destruct (tcp_output_alloc_header _ _ _ s) as [[k|] s1]; cbn [snd] in *; [|done].
  by rewrite keeps_control.
Qed.

Lemma keeps_persist s b s' : slow_persist s = Some (b, s') -> keeps (pcb s) (pcb s').
Proof.
  unfold slow_persist. destruct (bool_decide _); [|done]. destruct (negb _); [|done]. destruct (_ <=? _); [by intros [= <- <-]|].
  destruct (getz _ _) as [k|]; [|done]. set (s1 := updp _ s). assert (H1 : keeps (pcb s) (pcb s1)) by (unfold s1; rewrite pcb_updp; case_match; kdone). clearbody s1.
  destruct (_ <=? _); [|by intros [= <- <-]].
  set (r := if snd_wnd _ =? 0 then _ else _). assert (Hr : forall b s2, r = Some (b, s2) -> keeps (pcb s) (pcb s2)).
  { intros b2 s2. unfold r. destruct (_ =? 0).
    - pose proof (keeps_probe s1) as H2. destruct (tcp_zero_window_probe s1) as [e s3]. intros [= <- <-]. by etransitivity.
    - destruct (tcp_split_unsent_seg _ _) as [[e s3]|] eqn:E3; [|done]. apply keeps_split in E3. destruct (err_ok e); [|intros [= <- <-]; by etransitivity].
      destruct (tcp_output s3) as [[e2 s4]|] eqn:E4; [|done]. apply keeps_output in E4. intros [= <- <-]. by do 2 (etransitivity; [eassumption|]). }
  destruct r as [[nx s2]|]; [|done]. specialize (Hr _ _ eq_refl). intros [= <- <-]. destruct nx; [|exact Hr]. etransitivity; [exact Hr|]. rewrite pcb_updp. cbv zeta. case_match; kdone.
Qed.

Lemma keeps_slow_rexmit s s' : slow_rexmit s = Some s' -> keeps (pcb s) (pcb s').
Proof.
  unfold slow_rexmit. set (s1 := updp _ s). assert (H1 : keeps (pcb s) (pcb s1)) by (unfold s1; rewrite pcb_updp; case_match; kdone). clearbody s1.
  destruct (_ <=? _); [|by intros [= <-]]. pose proof (keeps_rto_prepare s1) as H2. destruct (tcp_rexmit_rto_prepare s1) as [e s2]. cbn [snd] in H2.
  assert (H : keeps (pcb s) (pcb s2)) by (by etransitivity). destruct (_ || _); [|by intros [= <-]].
  set (r := if state_is _ _ then _ else _). assert (Hr : forall s3, r = Some s3 -> keeps (pcb s) (pcb s3)).
  { intros s3. unfold r. destruct (state_is _ _); [by intros [= <-]|]. destruct (getz _ _); [|done]. intros [= <-]. etransitivity; [exact H|]. rewrite pcb_updp. kdone. }
  destruct r as [s3|]; [|done]. specialize (Hr _ eq_refl). intros E%keeps_rto_commit. etransitivity; [exact Hr|]. etransitivity; [|exact E].
  rewrite pcb_updp. cbv zeta. case_match; kdone.
Qed.

Lemma keeps_slow_keepalive s : keeps (pcb s) (pcb (snd (slow_keepalive s))).
Proof.
  unfold slow_keepalive. destruct (_ && _); [|done]. destruct (_ <? _); [done|]. destruct (_ <? _); [|done].
  pose proof (keeps_keepalive s) as H. destruct (tcp_keepalive s) as [e s1]. cbn [snd] in *. destruct (err_ok e); [|done]. etransitivity; [exact H|]. rewrite pcb_updp. kdone.
Qed.

(** Up to the mark it sets. *)
Lemma keeps_slow_pcb ctr s a b s' : slow_pcb ctr s = Some (a, b, s') -> keeps ((pcb s) <| last_timer := ctr |>) (pcb s').
Proof.
  unfold slow_pcb. set (s1 := updp _ s). change ((pcb s) <| last_timer := ctr |>) with (pcb s1). clearbody s1.
  set (r := if state_is _ _ && _ then _ else _). assert (Hr : forall b s2, r = Some (b, s2) -> keeps (pcb s1) (pcb s2)).
  { intros b2 s2. unfold r. destruct (_ && _); [by intros [= <- <-]|]. destruct (_ <=? _); [by intros [= <- <-]|]. destruct (_ <? _); [apply keeps_persist|].
    destruct (slow_rexmit s1) as [s3|] eqn:E; [|done]. intros [= <- <-]. by apply keeps_slow_rexmit. }
  destruct r as [[rm1 s2]|]; [|done]. specialize (Hr _ _ eq_refl). pose proof (keeps_slow_keepalive s2) as H. destruct (slow_keepalive s2) as [rm3 s3]. cbn [snd] in H.
  intros [= <- <- <-]. etransitivity; [exact Hr|]. etransitivity; [exact H|]. case_match; [rewrite pcb_updp; kdone|done].
Qed.

(** ** Receiving *)

(** What [tcp_receive] may change: a FIN found among the queued segments ends
    the ESTABLISHED state, and is noted in [recv_flags]. *)
Definition keeps_in (t u : tcp_in) : Prop :=
  local_port (ipcb u) = local_port (ipcb t) /\ refused_data (ipcb u) = refused_data (ipcb t) /\ last_timer (ipcb u) = last_timer (ipcb t)
  /\ (state (ipcb u) = state (ipcb t) \/ state (ipcb t) = ESTABLISHED /\ state (ipcb u) = CLOSE_WAIT)
  /\ (recv_flags u = recv_flags t \/ recv_flags u = Z.lor (recv_flags t) TF_GOT_FIN).

#[export] Instance keeps_in_preorder : PreOrder keeps_in.
Proof.
  split; [by intros t; split_and!; auto|]. intros t u v (H1 & H2 & H3 & H4 & H5) (K1 & K2 & K3 & K4 & K5). split_and!; try congruence.
  - destruct H4 as [H4|[H4 H4']], K4 as [K4|[K4 K4']]; rewrite ?H4, ?H4' in *; auto; congruence.
  - destruct H5 as [H5|H5], K5 as [K5|K5]; rewrite ?H5 in K5; auto. right. by rewrite K5, <- Z.lor_assoc, Z.lor_diag.
Qed.

Lemma keeps_keeps_in t u : keeps (ipcb t) (ipcb u) -> recv_flags u = recv_flags t -> keeps_in t u.
Proof. intros (H1 & H2 & H3 & H4) E. split_and!; auto. Qed.

Lemma keeps_parse_ws t d p q : parse_ws t d p = Some q -> keeps p q.
Proof. unfold parse_ws. destruct (_ && _); [|by intros [= <-]]. destruct (_ =? _); [|done]. destruct (_ =? _); [|done]. intros [= <-]. kdone. Qed.

Lemma lift_Ok {A B} (x : option A) (k : A -> res B) r : rbind (lift x) k = Ok r -> exists a, x = Some a /\ k a = Ok r.
Proof. destruct x as [a|]; [|done]. cbn. intros H. by exists a. Qed.

Lemma keeps_parseopt_loop t fuel : forall i p q, parseopt_loop fuel t i p = Ok q -> keeps p q.
Proof.
  induction fuel as [|fuel IH]; intros i p q; [done|]. cbn [parseopt_loop]. destruct (_ <? _); [|by intros [= <-]].
  intros ([opt i1] & _ & H)%lift_Ok. revert H. destruct (_ =? 0); [by intros [= <-]|]. destruct (_ =? 1); [apply IH|]. destruct (_ =? 2).
  - intros ([l i2] & _ & H)%lift_Ok. revert H. destruct (_ || _); [by intros [= <-]|].
    intros ([hi i3] & _ & H)%lift_Ok. revert H. intros ([lo i4] & _ & H)%lift_Ok. apply IH in H. etransitivity; [|exact H]. kdone.
  - destruct (_ && _); intros ([l i2] & _ & H)%lift_Ok; revert H.
    + destruct (_ || _); [by intros [= <-]|]. intros ([d i3] & _ & H)%lift_Ok. revert H. intros (p1 & E1 & H)%lift_Ok. apply keeps_parse_ws in E1. apply IH in H. by etransitivity.
    + destruct (_ <? 2); [by intros [= <-]|]. apply IH.
Qed.

Lemma keeps_parseopt t u : tcp_parseopt t = Ok u -> keeps (ipcb t) (ipcb u) /\ recv_flags u = recv_flags t /\ recv_acked u = recv_acked t /\ recv_data u = recv_data t
  /\ in_flags u = in_flags t /\ tcphdr_optlen u = tcphdr_optlen t.
Proof.
  unfold tcp_parseopt. destruct (negb _); [|by intros [= <-]]. destruct (parseopt_loop _ _ _ _) as [p| | |] eqn:E; try done. apply keeps_parseopt_loop in E. by intros [= <-].
Qed.

(** At most 40 bytes of options; then the loop ends: its index grows and does not
    wrap around. *)
Definition opts_fit (t : tcp_in) : Prop := 0 <= tcphdr_optlen t <= 40.

Lemma optbyte_next t i : match tcp_get_next_optbyte t i with Some (x, n) => 0 <= x <= 255 /\ n = u16 (i + 1) | None => True end.
Proof. unfold tcp_get_next_optbyte. cbv zeta. repeat case_match; try done; cbn in *; simplify_option_eq; split; try done; zlia. Qed.

(** The result is a value or a failed assertion. *)
Definition settles {A} (r : res A) : Prop := match r with Ok _ | Failed => True | _ => False end.
Lemma lift_settles {A B} (x : option A) (k : A -> res B) : (forall a, x = Some a -> settles (k a)) -> settles (rbind (lift x) k).
Proof. destruct x as [a|]; cbn; auto. Qed.

Lemma parseopt_loop_ends t fuel : opts_fit t -> forall i p, 0 <= i -> (Z.to_nat (tcphdr_optlen t - i) < fuel)%nat -> settles (parseopt_loop fuel t i p).
Proof.
  intros [Ht1 Ht2]. assert (Hget : forall i x n, 0 <= i <= 200 -> tcp_get_next_optbyte t i = Some (x, n) -> 0 <= x <= 255 /\ n = i + 1).
  { intros i x n Hi E. pose proof (optbyte_next t i) as H. rewrite E in H. destruct H as [H1 ->]. split; [done|]. apply u16_id. zlia. }
  induction fuel as [|fuel IH]; intros i p Hi Hf; [lia|]. cbn [parseopt_loop]. destruct (Z.ltb_spec i (tcphdr_optlen t)); [|done].
  apply lift_settles. intros [opt i1] [_ ->]%Hget; [|lia]. destruct (_ =? 0); [done|]. destruct (_ =? 1); [apply IH; lia|]. destruct (_ =? 2).
  - apply lift_settles. intros [l i2] [_ ->]%Hget; [|lia]. destruct (_ || _); [done|]. apply lift_settles. intros [hi i3] [_ ->]%Hget; [|lia]. apply lift_settles. intros [lo i4] [_ ->]%Hget; [|lia]. apply IH; lia.
  - destruct (_ && _); apply lift_settles; intros [l i2] [Hl ->]%Hget; try lia.
    + destruct (_ || _); [done|]. apply lift_settles. intros [d i3] [_ ->]%Hget; [|lia]. apply lift_settles. intros p1 _. apply IH; lia.
    + destruct (Z.ltb_spec l 2); [done|]. rewrite u16_id by zlia. apply IH; lia.
Qed.

(** [tcp_parseopt] ends. *)
Lemma parseopt_ends t : opts_fit t -> settles (tcp_parseopt t).
Proof.
  intros Ht. unfold tcp_parseopt. destruct (negb _); [|done]. pose proof (parseopt_loop_ends t (S (Z.to_nat (tcphdr_optlen t))) Ht 0 (ipcb t) ltac:(lia) ltac:(lia)) as H. by destruct (parseopt_loop _ _ _ _).
Qed.

Lemma keeps_seg_copy x s : pcb (snd (tcp_seg_copy x s)) = pcb s.
Proof. unfold tcp_seg_copy. pose proof (keeps_alloc s) as H. destruct (alloc s) as [b s1]. by destruct b. Qed.

Lemma keeps_oos_walk i sq tl l : forall prev s l' s', oos_walk i sq tl prev l s = Some (l', s') -> pcb s' = pcb s.
Proof.
  induction l as [|x l IH]; intros prev s l' s'; cbn [oos_walk]; [by intros [= <- <-]|]. pose proof (keeps_seg_copy i s) as Hc.
  destruct (tcp_seg_copy i s) as [c s1]; cbn [snd] in Hc.
  destruct (sq =? _); [destruct (_ && _), c; intros [= <- <-]; done|].
  destruct (match prev with None => _ | Some _ => _ end); [destruct c; by intros [= <- <-]|].
  destruct (_ && _); [destruct (flag_set _ _); [by intros [= <- <-]|]; destruct c; [destruct (oos_fit_window _ _ _ _); [|done]|]; by intros [= <- <-]|].
  destruct (oos_walk i sq tl (Some x) l s) as [[l2 s2]|] eqn:E; [|done]. intros [= <- <-]. by eapply IH.
Qed.

Lemma keeps_take_seg x tl t u : take_seg x tl t = Some u -> keeps_in t u.
Proof.
  unfold take_seg. destruct (_ <=? _); [|done]. destruct (tcp_update_rcv_ann_wnd _) as [[n p]|] eqn:E; [|done]. apply keeps_ann_wnd in E.
  destruct E as (E1 & E2 & E3 & E4). intros [= <-]. destruct (0 <? _), (flag_set _ _); split_and!; auto.
Qed.

Lemma keeps_deliver_oos q : forall t u, deliver_oos q t = Some u -> keeps_in t u.
Proof.
  induction q as [|x q IH]; intros t u; cbn [deliver_oos]; [intros [= <-]; split_and!; auto|].
  destruct (_ =? _); [|intros [= <-]; split_and!; auto]. destruct (take_seg x _ t) as [t1|] eqn:E1; [|done]. apply keeps_take_seg in E1.
  intros E2%IH. etransitivity; [exact E1|]. etransitivity; [|exact E2].
  destruct (_ && _) eqn:E; [|split_and!; auto]. bprop. apply bool_decide_eq_true in H0. split_and!; auto.
Qed.

Lemma keeps_receive_text t u : receive_text t = Some u -> keeps_in t u.
Proof.
  unfold receive_text. destruct (_ && _).
  2: { destruct (negb _); intros [= <-]; [|done]. apply keeps_keeps_in; [kdone|done]. }
  set (r := if TCP_SEQ_BETWEEN _ _ _ then _ else _).
  assert (Hr : forall t1, r = Some t1 -> keeps_in t t1).
  { intros t1. unfold r. destruct (TCP_SEQ_BETWEEN _ _ _).
    - destruct (_ <? 65535); [|done]. destruct (_ <=? _); [|done]. intros [= <-]. split_and!; auto.
    - destruct (TCP_SEQ_LT _ _); intros [= <-]; [|done]. apply keeps_keeps_in; [kdone|done]. }
  destruct r as [t1|]; [|done]. specialize (Hr t1 eq_refl). destruct (TCP_SEQ_BETWEEN _ _ _).
  2: { intros [= <-]. etransitivity; [exact Hr|]. apply keeps_keeps_in; [apply keeps_empty_ack|done]. }
  destruct (_ =? _).
  - unfold receive_inseq. destruct (if _ <? _ then _ else _) as [x|]; [|done]. destruct (match ooseq _ with [] => _ | _ => _ end) as [[y q]|]; [|done].
    set (t2 := _ <| tcplen := _ |>). assert (H2 : keeps_in t t2) by (etransitivity; [exact Hr|]; split_and!; auto). clearbody t2.
    destruct (take_seg y _ t2) as [t3|] eqn:E3; [|done]. apply keeps_take_seg in E3. destruct (deliver_oos q t3) as [t4|] eqn:E4; [|done]. apply keeps_deliver_oos in E4.
    intros [= <-]. etransitivity; [exact H2|]. etransitivity; [exact E3|]. etransitivity; [exact E4|]. apply keeps_keeps_in; [|done].
    change (keeps (ipcb t4) (tcp_ack (ipcb t4))). unfold tcp_ack. case_match; kdone.
  - unfold receive_oos. set (r2 := match ooseq _ with [] => _ | _ => _ end).
    assert (Hr2 : forall s, r2 = Some s -> keeps (ipcb t1) (pcb s)).
    { intros s. unfold r2. destruct (ooseq (pcb (st t1))) as [|x l].
      - pose proof (keeps_seg_copy (inseg t1) (st t1)) as Hc. destruct (tcp_seg_copy _ _) as [c s1]. cbn [snd] in Hc. intros [= <-]. rewrite pcb_updp, Hc. kdone.
      - destruct (oos_walk _ _ _ _ _ _) as [[l2 s2]|] eqn:E; [|done]. apply keeps_oos_walk in E. intros [= <-]. rewrite pcb_updp, E. kdone. }
    destruct r2 as [s|]; [|done]. specialize (Hr2 s eq_refl). pose proof (keeps_empty_ack s) as He. destruct (tcp_send_empty_ack s) as [e s1]. cbn [snd] in He.
    intros [= <-]. etransitivity; [exact Hr|]. apply keeps_keeps_in; [|done]. by etransitivity.
Qed.

Lemma keeps_receive_ack t u : receive_ack t = Some u -> keeps (ipcb t) (ipcb u) /\ recv_flags u = recv_flags t.
Proof.
  unfold receive_ack. cbv zeta. set (t1 := updi (update_snd_wnd t) t).
  assert (H1 : keeps (ipcb t) (ipcb t1) /\ recv_flags t1 = recv_flags t) by (split; [|done]; unfold t1, updi, ipcb; rsimpl; rewrite pcb_updp; unfold update_snd_wnd; repeat case_match; kdone).
  clearbody t1. set (r := if TCP_SEQ_LEQ _ _ then _ else _). assert (Hr : forall t2, r = Some t2 -> keeps (ipcb t1) (ipcb t2) /\ recv_flags t2 = recv_flags t1).
  { intros t2. unfold r. destruct (TCP_SEQ_LEQ _ _); [|destruct (TCP_SEQ_BETWEEN _ _ _)].
    - intros [= <-]. unfold dup_ack. destruct (_ && _); [|done]. cbv zeta. set (t3 := updi _ (updi _ t1)).
      assert (H3 : keeps (ipcb t1) (ipcb t3) /\ recv_flags t3 = recv_flags t1) by (split; [|done]; unfold t3, updi, ipcb; rsimpl; rewrite !pcb_updp; do 2 case_match; kdone).
      clearbody t3. destruct H3 as [H3 F3]. destruct (3 <=? _); [|done]. split; [|done]. etransitivity; [exact H3|]. apply keeps_rexmit_fast.
    - unfold new_ack. cbv zeta. set (p0 := if flag_set _ TF_INFR then _ else _). assert (H0 : keeps (ipcb t1) p0) by (unfold p0; case_match; kdone). clearbody p0.
      set (p1 := if _ <=? _ then _ else _). assert (Hp1 : keeps (ipcb t1) p1).
      { etransitivity; [exact H0|]. unfold p1. destruct (_ <=? _); [|kdone]. unfold grow_cwnd. repeat case_match; kdone. }
      clearbody p1. destruct (tcp_free_acked_segments _ _ _ _ _) as [[[l1 q1] a1]|]; [|done]. destruct (tcp_free_acked_segments _ _ _ _ _) as [[[l2 q2] a2]|]; [|done].
      intros [= <-]. split; [|done]. etransitivity; [exact Hp1|].
      match goal with |- keeps _ (ipcb ((updi (fun _ => clear_rto ?p) ?t) <| recv_acked := _ |>)) => change (keeps p1 (clear_rto p)); assert (Hp : keeps p1 p) by (case_match; kdone); revert Hp; generalize p end.
      intros p Hp. etransitivity; [exact Hp|]. unfold clear_rto. repeat case_match; kdone.
    - intros [= <-]. split; [|done]. apply keeps_empty_ack. }
  destruct r as [t2|]; [|done]. destruct (Hr t2 eq_refl) as [H2 F2]. destruct H1 as [H1 F1]. intros [= <-]. rewrite <- F1, <- F2. split; [|by case_match].
  etransitivity; [exact H1|]. etransitivity; [exact H2|]. case_match; [|done]. unfold updi, ipcb. rsimpl. rewrite pcb_updp. generalize (pcb (st t2)). intros p. unfold rtt_sample. kdone.
Qed.

Lemma keeps_receive t u : tcp_receive t = Some u -> keeps_in t u.
Proof.
  unfold tcp_receive. destruct (_ <=? _); [|done]. destruct (flag_set _ _); [|apply keeps_receive_text].
  destruct (receive_ack t) as [t1|] eqn:E; [|done]. apply keeps_receive_ack in E as [E1 E2]. intros H%keeps_receive_text. etransitivity; [|exact H]. by apply keeps_keeps_in.
Qed.
End Frame.
