(* ===== verification/TcpSafety.v ===== *)
(** * TcpSafety: the lists of pcbs

    priv/tcp_priv.h states four "axioms" about the lists of pcbs: every pcb
    that is not closed is in one of the lists, in only one of them, and the
    lists hold pcbs in the right states.  Here they are an invariant of every
    operation of the stack, and with it the code never touches a pcb it has
    freed, whatever packets arrive and whatever a polite application does in
    its callbacks. *)

From S2P Require Import Prelude Ip4Addr Opts TcpPcb TcpOut TcpIn TcpStack TcpInput TcpTimer TcpFrame.

(** ** Results *)

(** The operation neither touches a freed pcb nor loops forever, and if no
    assertion fails, [Q] holds afterwards. *)
Definition post {A} (r : res A) (Q : A -> Prop) : Prop :=
  match r with Ok a => Q a | Failed => True | Dangling | Stuck => False end.

Lemma post_bind {A B} (r : res A) (k : A -> res B) (P : A -> Prop) (Q : B -> Prop) :
  post r P -> (forall a, P a -> post (k a) Q) -> post (rbind r k) Q.
Proof. destruct r; cbn; auto. Qed.

Lemma post_mono {A} (r : res A) (P Q : A -> Prop) : post r P -> (forall a, P a -> Q a) -> post r Q.
Proof. destruct r; cbn; auto. Qed.

Lemma post_lift {A B} (x : option A) (k : A -> res B) (Q : B -> Prop) : (forall a, x = Some a -> post (k a) Q) -> post (rbind (lift x) k) Q.
Proof. intros H. destruct x; cbn; auto. Qed.

(** ** The application *)

(** It returns [ERR_ABRT] exactly when it has aborted the connection. *)
Definition nice (r : reaction) : Prop :=
  match ends r with Return e => e <> ERR_ABRT | AbortReturn e => e = ERR_ABRT | CloseReturn e => e <> ERR_ABRT end.

(** The receive callback neither closes nor aborts. *)
Definition calm (r : reaction) : Prop := match ends r with Return e => e <> ERR_ABRT | _ => False end.

Record polite (a : application) : Prop := {
  po_accept : Forall nice (on_accept a);
  po_connected : Forall nice (on_connected a);
  po_sent : Forall nice (on_sent a);
  po_recv : Forall calm (on_recv a);
}.

(** ** The invariant *)
(** Data is refused by the application's receive callback only. *)
Definition rok (c : pcb_obj) : Prop := refused_data (core c) <> None -> recv c <> Recv_tcp_recv_null.

Record obj_ok (x a : Z) (c : pcb_obj) (S : stack) : Prop := {
  ob_addr : a <> 0 /\ a ∉ pcb_pool S;
  ob_state : state (core c) <> LISTEN;
  ob_listener : listener c = 0 \/ is_Some (lpcbs S !! listener c);
  ob_refused : rok c;
  ob_listed : a <> x -> (state (core c) = CLOSED /\ listener c = 0) \/ a ∈ tcp_active_pcbs S \/ a ∈ tcp_tw_pcbs S;
}.

(** [x] is a pcb that may be in no list for the moment; 0 stands for none. *)
Record sane (x : Z) (S : stack) : Prop := {
  sn_lists : NoDup (tcp_bound_pcbs S ++ tcp_active_pcbs S ++ tcp_tw_pcbs S);
  sn_bound : forall a, a ∈ tcp_bound_pcbs S -> exists c, pcbs S !! a = Some c /\ state (core c) = CLOSED /\ local_port (core c) <> 0;
  sn_active : forall a, a ∈ tcp_active_pcbs S -> exists c, pcbs S !! a = Some c /\ active_state (state (core c)) = true;
  sn_tw : forall a, a ∈ tcp_tw_pcbs S -> exists c, pcbs S !! a = Some c /\ state (core c) = TIME_WAIT;
  sn_pcbs : forall a c, pcbs S !! a = Some c -> obj_ok x a c S;
  sn_pool : NoDup (pcb_pool S) /\ 0 ∉ pcb_pool S;
  sn_listen : NoDup (tcp_listen_pcbs S) /\ (forall a, a ∈ tcp_listen_pcbs S <-> is_Some (lpcbs S !! a)) /\ lpcbs S !! 0 = None;
  sn_lpool : NoDup (lpcb_pool S) /\ 0 ∉ lpcb_pool S /\ forall a, a ∈ lpcb_pool S -> lpcbs S !! a = None;
  sn_app : polite (app S);
}.

(** What callbacks and timers do to the rest: no new pcbs, timer marks stay,
    and the active list is only cut. *)
Record ev (S S' : stack) : Prop := {
  ev_pcbs : forall a c', pcbs S' !! a = Some c' -> exists c, pcbs S !! a = Some c /\ last_timer (core c') = last_timer (core c);
  ev_active : tcp_active_pcbs S' `sublist_of` tcp_active_pcbs S;
  ev_ctr : tcp_timer_ctr S' = tcp_timer_ctr S;
  ev_input : tcp_input_pcb S' = tcp_input_pcb S;
  ev_lpcbs : forall l, is_Some (lpcbs S !! l) -> is_Some (lpcbs S' !! l);
  ev_reset : flag_set (in_recv_flags S') TF_RESET = flag_set (in_recv_flags S) TF_RESET;
}.

#[export] Instance ev_preorder : PreOrder ev.
Proof.
  split.
  - intros S. split; try done. intros a c H. by exists c.
  - intros S1 S2 S3 [H2 H3 H4 H5 H6 H7] [K2 K3 K4 K5 K6 K7]. split; try congruence.
    + intros a c' E. destruct (K2 a c' E) as (c2 & E2 & L2). destruct (H2 a c2 E2) as (c1 & E1 & L1). exists c1. split; congruence.
    + by etransitivity.
    + auto.
Qed.

(** A cut of the active list is noted in [tcp_active_pcbs_changed]. *)
Definition noted (S S' : stack) : Prop :=
  tcp_active_pcbs_changed S' = false -> tcp_active_pcbs_changed S = false /\ tcp_active_pcbs S' = tcp_active_pcbs S.

Lemma noted_trans S1 S2 S3 : noted S1 S2 -> noted S2 S3 -> noted S1 S3.
Proof. intros H1 H2 E. destruct (H2 E) as [E2 L2]. destruct (H1 E2) as [E1 L1]. split; congruence. Qed.

(** The pcbs, the lists and the pools are the same. *)
Definition same (S S' : stack) : Prop :=
  pcbs S' = pcbs S /\ lpcbs S' = lpcbs S /\ (tcp_listen_pcbs S' = tcp_listen_pcbs S /\ tcp_bound_pcbs S' = tcp_bound_pcbs S
  /\ tcp_active_pcbs S' = tcp_active_pcbs S /\ tcp_tw_pcbs S' = tcp_tw_pcbs S) /\ pcb_pool S' = pcb_pool S /\ lpcb_pool S' = lpcb_pool S.

Lemma sane_same x S S' : sane x S -> same S S' -> polite (app S') -> sane x S'.
Proof.
  intros [] (E1 & E2 & (E3 & E4 & E5 & E6) & E7 & E8) Ha. split; rewrite ?E1, ?E2, ?E3, ?E4, ?E5, ?E6, ?E7, ?E8; try done.
  intros a c E. destruct (sn_pcbs0 a c E). split; by rewrite ?E2, ?E5, ?E6, ?E7.
Qed.

Lemma ev_same S S' : same S S' -> tcp_timer_ctr S' = tcp_timer_ctr S -> tcp_input_pcb S' = tcp_input_pcb S ->
  flag_set (in_recv_flags S') TF_RESET = flag_set (in_recv_flags S) TF_RESET -> ev S S'.
Proof.
  intros (E1 & E2 & (E3 & E4 & E5 & E6) & E7 & E8) H1 H2 H3. split; rewrite ?E1, ?E2, ?E5; try done. intros a c E. by exists c.
Qed.

(** Close a goal about fields that were not touched. *)
Ltac untouched H := first
  [ eapply sane_same; [exact H|by split_and!|by apply H]
  | etransitivity; [exact H|apply ev_same; [by split_and!|done|done|first [done | etransitivity; [apply flag_lor|apply orb_false_r]]]] ].

Section Safety.
Context {o : Opts} {ip : IpLayer}.

Lemma sane_weaken a S : sane 0 S -> sane a S.
Proof.
  intros []. split; try done. intros b c H. destruct (sn_pcbs0 b c H) as [[A1 A2] A3 A4 A5 A6]. split; try done. auto.
Qed.

(** A pcb that is where it belongs. *)
Definition listed (a : Z) (S : stack) : Prop :=
  forall c, pcbs S !! a = Some c -> (state (core c) = CLOSED /\ listener c = 0) \/ a ∈ tcp_active_pcbs S \/ a ∈ tcp_tw_pcbs S.

Lemma sane_listed a S : sane a S -> listed a S -> sane 0 S.
Proof.
  intros [] Hl. split; try done. intros b c H. destruct (sn_pcbs0 b c H) as [[A1 A2] A3 A4 A5 A6]. split; try done.
  intros _. destruct (decide (b = a)) as [->|]; [by apply Hl|auto].
Qed.

Lemma sane_free_listed a S : sane a S -> pcbs S !! a = None -> sane 0 S.
Proof. intros H Hn. apply (sane_listed a); [done|]. intros c E. congruence. Qed.

(** ** Changing one pcb *)

(** How a pcb may change: it keeps its state, or it may move to another one,
    or it may also have other refused data. *)
Inductive mode := Stay | Move | Any.

(** A state the code for one pcb may go to. *)
Definition moves (b : mode) (s s' : tcp_state) : Prop := s' = s \/ (b <> Stay /\ active_state s = true /\ active_state s' = true /\ s' <> SYN_SENT).

(** Only the pcb [a] changes, and it stays where it is. *)
Record mild (b : mode) (a : Z) (S S' : stack) : Prop := {
  mi_obj : exists c c', pcbs S !! a = Some c /\ pcbs S' !! a = Some c' /\ moves b (state (core c)) (state (core c'))
    /\ local_port (core c') = local_port (core c) /\ last_timer (core c') = last_timer (core c) /\ listener c' = listener c
    /\ (rok c -> rok c') /\ (recv c <> Recv_tcp_recv_null -> recv c' <> Recv_tcp_recv_null)
    /\ (b <> Any -> refused_data (core c') = refused_data (core c) \/ refused_data (core c') = None);
  mi_others : forall y, y <> a -> pcbs S' !! y = pcbs S !! y;
  mi_lists : tcp_listen_pcbs S' = tcp_listen_pcbs S /\ tcp_bound_pcbs S' = tcp_bound_pcbs S /\ tcp_active_pcbs S' = tcp_active_pcbs S /\ tcp_tw_pcbs S' = tcp_tw_pcbs S;
  mi_vars : tcp_active_pcbs_changed S' = tcp_active_pcbs_changed S /\ tcp_timer_ctr S' = tcp_timer_ctr S /\ tcp_input_pcb S' = tcp_input_pcb S
    /\ ticks S' = ticks S /\ in_recv_flags S' = in_recv_flags S;
  mi_pools : pcb_pool S' = pcb_pool S /\ lpcb_pool S' = lpcb_pool S /\ (polite (app S) -> polite (app S'));
  mi_lpcbs : forall l, is_Some (lpcbs S' !! l) <-> is_Some (lpcbs S !! l);
}.

Lemma moves_trans b s1 s2 s3 : moves b s1 s2 -> moves b s2 s3 -> moves b s1 s3.
Proof. unfold moves. intros [->|(H0 & H1 & H2 & H3)] [->|(K0 & K1 & K2 & K3)]; auto. Qed.

Lemma mild_trans b a S1 S2 S3 : mild b a S1 S2 -> mild b a S2 S3 -> mild b a S1 S3.
Proof.
  intros [(c & d & E1 & E2 & A1 & A2 & A3 & A4 & A5 & A6 & A7) B1 (C1 & C2 & C3 & C4) (D1 & D2 & D3 & D4 & D5) (F1 & F2 & F3) G]
         [(d' & e & E2' & E3 & K1 & K2 & K3 & K4 & K5 & K6 & K7) L1 (M1 & M2 & M3 & M4) (N1 & N2 & N3 & N4 & N5) (P1 & P2 & P3) Q].
  assert (d' = d) as -> by congruence. split; try (split_and!; congruence).
  - exists c, e. split_and!; try congruence; [by eapply moves_trans|auto|auto|].
    intros Hb. destruct (A7 Hb), (K7 Hb); (left; congruence) || (right; congruence).
  - intros y Hb. rewrite L1, B1 by done. done.
  - split_and!; [congruence|congruence|auto].
  - intros l. rewrite Q. apply G.
Qed.

Lemma mild_live b a S S' : mild b a S S' -> is_Some (pcbs S' !! a).
Proof. intros [(c & d & _ & E & _) _ _ _ _ _]. by exists d. Qed.

Lemma mild_ev b a S S' : mild b a S S' -> ev S S'.
Proof.
  intros [(c & d & E1 & E2 & _ & _ & A3 & _) B1 (C1 & C2 & C3 & C4) (D1 & D2 & D3 & D4 & D5) (F1 & F2 & F3) G]. split; try done.
  - intros y c' H. destruct (decide (y = a)) as [->|Hb]; [exists c; split; congruence|]. exists c'. split; [|done]. by rewrite <- B1.
  - by rewrite C3.
  - intros l Hl. by apply G.
  - by rewrite D5.
Qed.

Lemma mild_noted b a S S' : mild b a S S' -> noted S S'.
Proof. intros [_ _ (_ & _ & C3 & _) (D1 & _) _ _]. unfold noted. rewrite D1, C3. done. Qed.

Lemma active_not st : active_state st = true -> st <> CLOSED /\ st <> TIME_WAIT /\ st <> LISTEN.
Proof. by destruct st. Qed.

Lemma sane_mild b x a S S' : sane x S -> mild b a S S' -> sane x S'.
Proof.
  intros Hs [(c & d & E1 & E2 & A1 & A2 & A3 & A4 & A5 & A6 & A7) B1 (C1 & C2 & C3 & C4) (D1 & D2 & D3 & D4 & D5) (F1 & F2 & F3) G].
  destruct Hs as [I1 I2 I3 I4 I5 I6 I7 I8 I9].
  assert (Hget : forall y e, pcbs S !! y = Some e -> exists e', pcbs S' !! y = Some e' /\ moves b (state (core e)) (state (core e')) /\ local_port (core e') = local_port (core e)).
  { intros y e E. destruct (decide (y = a)) as [->|Hb]; [assert (e = c) as -> by congruence; by exists d|]. exists e. rewrite B1 by done. split_and!; [done|by left|done]. }
  split.
  - by rewrite C2, C3, C4.
  - rewrite C2. intros y Hb. destruct (I2 y Hb) as (e & E & H1 & H2). destruct (Hget y e E) as (e' & E' & M & P). exists e'. split; [done|]. rewrite P. split; [|done].
    destruct M as [->|(_ & M & _)]; [done|]. by rewrite H1 in M.
  - rewrite C3. intros y Hb. destruct (I3 y Hb) as (e & E & H1). destruct (Hget y e E) as (e' & E' & M & P). exists e'. split; [done|]. by destruct M as [->|(_ & _ & M & _)].
  - rewrite C4. intros y Hb. destruct (I4 y Hb) as (e & E & H1). destruct (Hget y e E) as (e' & E' & M & P). exists e'. split; [done|].
    destruct M as [->|(_ & M & _)]; [done|]. by rewrite H1 in M.
  - intros y e E. destruct (decide (y = a)) as [->|Hb].
    + assert (e = d) as -> by congruence. destruct (I5 a c E1) as [J1 J2 J3 J4 J5]. split.
      * by rewrite F1.
      * destruct A1 as [->|(_ & _ & A1 & _)]; [done|]. by apply active_not in A1 as (_ & _ & ?).
      * rewrite A4. destruct J3 as [J3|J3]; [by left|right; by apply G].
      * auto.
      * intros Hx. rewrite C3, C4, A4. destruct (J5 Hx) as [[H1 H2]|H]; [left|by right]. split; [|done]. destruct A1 as [->|(_ & A1 & _)]; [done|]. by rewrite H1 in A1.
    + rewrite B1 in E by done. destruct (I5 y e E) as [J1 J2 J3 J4 J5]. split; try done.
      * by rewrite F1.
      * destruct J3 as [J3|J3]; [by left|right; by apply G].
      * by rewrite C3, C4.
  - by rewrite F1.
  - rewrite C1. destruct I7 as (H1 & H2 & H3). split_and!; [done| |].
    + intros y. by rewrite H2, G.
    + destruct (lpcbs S' !! 0) eqn:E; [|done]. assert (is_Some (lpcbs S !! 0)) as [? ?] by (apply G; by rewrite E). congruence.
  - rewrite F2. destruct I8 as (H1 & H2 & H3). split_and!; [done|done|]. intros y Hb. specialize (H3 y Hb). destruct (lpcbs S' !! y) eqn:E; [|done].
    assert (is_Some (lpcbs S !! y)) as [? ?] by (apply G; by rewrite E). congruence.
  - auto.
Qed.

(** ** The primitives *)
Lemma put_mild b a c c' S : pcbs S !! a = Some c -> moves b (state (core c)) (state (core c')) -> local_port (core c') = local_port (core c) ->
  last_timer (core c') = last_timer (core c) -> listener c' = listener c -> (rok c -> rok c') ->
  (recv c <> Recv_tcp_recv_null -> recv c' <> Recv_tcp_recv_null) ->
  (b <> Any -> refused_data (core c') = refused_data (core c) \/ refused_data (core c') = None) -> mild b a S (put a c' S).
Proof.
  intros E. intros. split; try done.
  - exists c, c'. split; [done|]. split; [unfold put; rsimpl; by rewrite lookup_insert_eq|done].
  - intros y Hb. unfold put. rsimpl. by rewrite lookup_insert_ne.
Qed.

(** Fields that do not matter here. *)
Lemma mild_vars b a S S' S'' : mild b a S S' -> pcbs S'' = pcbs S' -> lpcbs S'' = lpcbs S' ->
  tcp_listen_pcbs S'' = tcp_listen_pcbs S' -> tcp_bound_pcbs S'' = tcp_bound_pcbs S' -> tcp_active_pcbs S'' = tcp_active_pcbs S' -> tcp_tw_pcbs S'' = tcp_tw_pcbs S' ->
  tcp_active_pcbs_changed S'' = tcp_active_pcbs_changed S' -> tcp_timer_ctr S'' = tcp_timer_ctr S' -> tcp_input_pcb S'' = tcp_input_pcb S' ->
  ticks S'' = ticks S' -> in_recv_flags S'' = in_recv_flags S' -> pcb_pool S'' = pcb_pool S' -> lpcb_pool S'' = lpcb_pool S' -> (polite (app S') -> polite (app S'')) -> mild b a S S''.
Proof.
  intros [A B (C1 & C2 & C3 & C4) (D1 & D2 & D3 & D4 & D5) (F1 & F2 & F3) G] E1 E2. intros.
  split; [by rewrite E1|by rewrite E1|split_and!; first [congruence|auto]..|by rewrite E2].
Qed.

Lemma on_mild {R} b a (f : tcp_st -> option (R * tcp_st)) S : is_Some (pcbs S !! a) -> (forall s r s', f s = Some (r, s') -> keeps (pcb s) (pcb s')) ->
  post (on a f S) (fun '(_, S') => mild b a S S').
Proof.
  intros [c E] Hf. unfold on, get. rewrite E. cbn [rbind]. apply post_lift. intros [r s'] Es. apply Hf in Es as (K1 & K2 & K3 & K4).
  cbn. eapply mild_vars; [apply (put_mild b a c (c <| core := pcb s' |>)); try done; [by left|unfold rok; cbn; by rewrite K3|by left]|done..].
Qed.

Lemma on__mild b a (f : tcp_st -> option tcp_st) S : is_Some (pcbs S !! a) -> (forall s s', f s = Some s' -> keeps (pcb s) (pcb s')) ->
  post (on_ a f S) (mild b a S).
Proof.
  intros Hl Hf. unfold on_. eapply post_bind; [apply on_mild; [done|]|].
  - intros s r s'. destruct (f s) as [s1|] eqn:E; [|done]. intros [= <- <-]. by apply Hf.
  - intros [r S'] H. exact H.
Qed.

Lemma upd_mild b a (f : pcb_obj -> pcb_obj) S : is_Some (pcbs S !! a) ->
  (forall c, moves b (state (core c)) (state (core (f c))) /\ local_port (core (f c)) = local_port (core c) /\ last_timer (core (f c)) = last_timer (core c)
    /\ listener (f c) = listener c /\ (rok c -> rok (f c)) /\ (recv c <> Recv_tcp_recv_null -> recv (f c) <> Recv_tcp_recv_null)
    /\ (b <> Any -> refused_data (core (f c)) = refused_data (core c) \/ refused_data (core (f c)) = None)) ->
  post (upd a f S) (mild b a S).
Proof. intros [c E] Hf. unfold upd, get. rewrite E. cbn. destruct (Hf c) as (H1 & H2 & H3 & H4 & H5 & H6 & H7). by apply (put_mild b a c). Qed.

Lemma updc_mild b a (f : tcp_pcb -> tcp_pcb) S : is_Some (pcbs S !! a) -> (forall p, keeps p (f p)) -> post (updc a f S) (mild b a S).
Proof.
  intros Hl Hf. apply upd_mild; [done|]. intros c. destruct (Hf (core c)) as (K1 & K2 & K3 & K4). split_and!; try done; [by left|unfold rok; cbn; by rewrite K3|by left].
Qed.

Lemma post_upd_bind {B} b a f S (k : stack -> res B) Q : is_Some (pcbs S !! a) -> (forall p, keeps p (f p)) ->
  (forall S', mild b a S S' -> post (k S') Q) -> post (rbind (updc a f S) k) Q.
Proof. intros Hl Hf Hk. eapply post_bind; [by apply updc_mild|done]. Qed.

(** A listener's counter changes. *)
Lemma putl_mild b a lp l l' S : is_Some (pcbs S !! a) -> lpcbs S !! lp = Some l -> mild b a S (putl lp l' S).
Proof.
  intros [c E] El. split; try done; [exists c, c; split_and!; try done; by left|]. intros y. unfold putl. rsimpl.
  destruct (decide (y = lp)) as [->|]; [rewrite lookup_insert_eq, El; split; eauto|by rewrite lookup_insert_ne].
Qed.

Lemma mild_refl b a S : is_Some (pcbs S !! a) -> mild b a S S.
Proof. intros [c E]. split; try done. exists c, c. split_and!; try done; by left. Qed.

(** ** Operations on one pcb *)
Lemma backlog_accepted_mild b x a S : sane x S -> is_Some (pcbs S !! a) -> post (tcp_backlog_accepted a S) (mild b a S).
Proof.
  intros Hs [c E]. unfold tcp_backlog_accepted, get. rewrite E. cbn [rbind]. destruct (_ && _) eqn:Eb; [|by apply mild_refl].
  bprop. destruct (ob_listener _ _ _ _ (sn_pcbs _ _ Hs _ _ E)) as [|[l El]]; [done|]. unfold getl. rewrite El. cbn [rbind].
  destruct (negb _); [|done]. eapply post_mono; [apply updc_mild; [by exists c|]|].
  - intros p. unfold tcp_clear_flags. kdone.
  - intros S' HS. eapply mild_trans; [|exact HS]. by apply (putl_mild b a _ l).
Qed.

Lemma backlog_delayed_mild b x a S : sane x S -> is_Some (pcbs S !! a) -> post (tcp_backlog_delayed a S) (mild b a S).
Proof.
  intros Hs [c E]. unfold tcp_backlog_delayed, get. rewrite E. cbn [rbind]. destruct (_ && _) eqn:Eb; [|by apply mild_refl].
  bprop. destruct (ob_listener _ _ _ _ (sn_pcbs _ _ Hs _ _ E)) as [|[l El]]; [done|]. unfold getl. rewrite El. cbn [rbind]. cbv zeta.
  destruct (negb _); [|done]. eapply post_mono; [apply updc_mild; [by exists c|]|].
  - intros p. unfold tcp_set_flags. kdone.
  - intros S' HS. eapply mild_trans; [|exact HS]. by apply (putl_mild b a _ l).
Qed.

Lemma mild_weak a S S' : mild Stay a S S' -> mild Move a S S'.
Proof.
  intros [(c & d & E1 & E2 & A1 & A2 & A3 & A4 & A5 & A6 & A7) B1 C D F G]. split; try done. exists c, d. split_and!; try done; [|auto].
  destruct A1 as [->|(? & _)]; [by left|done].
Qed.

Lemma mild_any b a S S' : mild b a S S' -> mild Any a S S'.
Proof.
  intros [(c & d & E1 & E2 & A1 & A2 & A3 & A4 & A5 & A6 & A7) B1 C D F G]. split; try done. exists c, d. split_and!; try done.
  destruct A1 as [->|(? & ?)]; [by left|right; by split].
Qed.

Lemma purge_mild b x a S : sane x S -> is_Some (pcbs S !! a) -> post (tcp_pcb_purge a S) (mild b a S).
Proof.
  intros Hs [c E]. unfold tcp_pcb_purge, get. rewrite E. cbn [rbind]. destruct (purgeable _); [|by apply mild_refl].
  eapply post_bind; [by eapply backlog_accepted_mild|]. intros S1 H1. cbn beta.
  eapply post_mono; [apply (upd_mild b); [by eapply mild_live|]|].
  - intros c1. split_and!; try done; [by left|by unfold rok|by right].
  - intros S' H2. by eapply mild_trans.
Qed.

Lemma mild_state a c S S' : mild Stay a S S' -> pcbs S !! a = Some c ->
  exists c', pcbs S' !! a = Some c' /\ state (core c') = state (core c) /\ local_port (core c') = local_port (core c) /\ listener c' = listener c.
Proof. intros [(c0 & d & E1 & E2 & [A1|(A1 & _)] & A2 & A3 & A4 & A5) _ _ _ _ _] E; [|done]. assert (c0 = c) as -> by congruence. by exists d. Qed.

(** A step to another state. *)
Lemma updc_state a c next S : pcbs S !! a = Some c -> active_state (state (core c)) = true -> active_state next = true -> next <> SYN_SENT ->
  post (updc a (fun p => p <| state := next |>) S) (mild Move a S).
Proof. intros E H1 H2 H3. unfold updc, upd, get. rewrite E. cbn. apply (put_mild Move a c); try done; [by right|by left]. Qed.

Lemma send_fin_mild a c next S : pcbs S !! a = Some c -> active_state (state (core c)) = true -> active_state next = true -> next <> SYN_SENT ->
  post (send_fin_to a next S) (fun '(_, S') => mild Move a S S').
Proof.
  intros E H1 H2 H3. unfold send_fin_to. eapply post_bind; [apply (on_mild Stay); [by exists c|apply keeps_send_fin]|]. intros [e S1] M1. cbn beta.
  destruct (err_ok e); [|by apply mild_weak]. destruct (mild_state a c _ _ M1 E) as (c1 & E1 & S1' & _).
  eapply post_bind; [apply (updc_state a c1); [done|by rewrite S1'|done|done]|]. intros S2 M2. eapply mild_trans; [by apply mild_weak|done].
Qed.

Lemma tcp_output_mild b a S : is_Some (pcbs S !! a) -> post (on a tcp_output S) (fun '(_, S') => mild b a S S').
Proof. intros H. apply on_mild; [done|apply keeps_output]. Qed.

Lemma close_fin_mild x a S : sane x S -> is_Some (pcbs S !! a) -> post (tcp_close_shutdown_fin a S) (fun '(_, S') => mild Move a S S').
Proof.
  intros Hs [c E]. unfold tcp_close_shutdown_fin, get. rewrite E. cbn [rbind].
  assert (Hfin : forall r, post r (fun '(_, S') => mild Move a S S') ->
    post (let+ (err, T) := r in
          if err_ok err then let+ (_, T) := on a tcp_output T in Ok (err, T)
          else if bool_decide (err = ERR_MEM) then let+ T := updc a (tcp_set_flags TF_CLOSEPEND) T in Ok (ERR_OK, T) else Ok (err, T)) (fun '(_, S') => mild Move a S S')).
  { intros r Hr. eapply post_bind; [exact Hr|]. intros [e S1] M1. cbn beta. destruct (err_ok e).
    - eapply post_bind; [apply (tcp_output_mild Move); by eapply mild_live|]. intros [e2 S2] M2. by eapply mild_trans.
    - case_bool_decide; [|exact M1]. eapply post_bind; [apply (updc_mild Move); [by eapply mild_live|intros p; kdone]|]. intros S2 M2. by eapply mild_trans. }
  destruct (state (core c)) eqn:Est; try (by apply mild_refl); try (apply Hfin; apply (send_fin_mild a c); by rewrite ?Est).
  apply Hfin. eapply post_bind; [apply (on_mild Stay); [by exists c|apply keeps_send_fin]|]. intros [e S1] M1. cbn beta.
  destruct (err_ok e); [|by apply mild_weak]. eapply post_bind; [eapply (backlog_accepted_mild Stay); [by eapply sane_mild|by eapply mild_live]|]. intros S2 M2.
  assert (M : mild Stay a S S2) by (by eapply mild_trans). destruct (mild_state a c _ _ M E) as (c2 & E2 & St2 & _).
  eapply post_bind; [apply (updc_state a c2); [done|by rewrite St2, Est|done|done]|]. intros S3 M3. eapply mild_trans; [by apply mild_weak|done].
Qed.

Lemma shutdown_tx_mild x a S : sane x S -> is_Some (pcbs S !! a) -> post (tcp_shutdown a false true S) (fun '(_, S') => mild Move a S S').
Proof.
  intros Hs [c E]. unfold tcp_shutdown. cbn [rbind andb]. unfold get at 1. rewrite E. cbn [rbind].
  assert (post (tcp_close_shutdown a false S) (fun '(_, S') => mild Move a S S') \/ (state (core c) <> SYN_RCVD /\ state (core c) <> ESTABLISHED /\ state (core c) <> CLOSE_WAIT)) as [H|H].
  { destruct (state (core c)) eqn:Est; try (by right); left; unfold tcp_close_shutdown, get; rewrite E; cbn [rbind andb]; rewrite Est; by apply (close_fin_mild x). }
  - destruct (state (core c)); try (by apply mild_refl); done.
  - destruct (state (core c)); try (by apply mild_refl); naive_solver.
Qed.

Lemma set_callback_mild b a f S : is_Some (pcbs S !! a) ->
  (forall c, keeps (core c) (core (f c)) /\ listener (f c) = listener c /\ (recv (f c) = recv c \/ recv (f c) <> Recv_tcp_recv_null)) ->
  post (set_callback a f S) (mild b a S).
Proof.
  intros [c E] Hf. unfold set_callback, get. rewrite E. cbn [rbind]. destruct (negb _); [|done]. apply upd_mild; [by exists c|]. intros d. destruct (Hf d) as ((K1 & K2 & K3 & K4) & K5 & K6).
  split_and!; try done; [by left|unfold rok; rewrite K3; destruct K6 as [->|]; auto|destruct K6 as [->|]; auto|by left].
Qed.

Ltac callback_ok := intros ?c; split; [by split_and!|split; [done|first [by left|by right]]].

Lemma run_call_mild x a k S : sane x S -> is_Some (pcbs S !! a) -> post (run_call a k S) (mild Move a S).
Proof.
  intros Hs Hl. destruct k; cbn [run_call].
  - apply on__mild; [done|apply keeps_recved].
  - eapply post_bind; [apply (on_mild Move); [done|apply keeps_write]|]. by intros [e S1] M.
  - eapply post_bind; [by apply (tcp_output_mild Move)|]. by intros [e S1] M.
  - eapply post_bind; [by eapply shutdown_tx_mild|]. by intros [e S1] M.
  - by eapply backlog_delayed_mild.
  - by eapply backlog_accepted_mild.
  - eapply post_bind; [apply (set_callback_mild Move); [done|callback_ok]|]. intros S1 M1. eapply post_bind; [apply (set_callback_mild Move); [by eapply mild_live|callback_ok]|]. intros S2 M2.
    eapply post_bind; [apply (set_callback_mild Move); [by eapply mild_live|callback_ok]|]. intros S3 M3. eapply post_bind; [apply (set_callback_mild Move); [by eapply mild_live|callback_ok]|]. intros S4 M4.
    eapply post_mono; [apply (upd_mild Move); [by eapply mild_live|intros c; split_and!; try done; by left]|]. intros S5 M5. cbn beta in *. eapply mild_trans; [exact M1|]. eapply mild_trans; [exact M2|]. eapply mild_trans; [exact M3|]. by eapply mild_trans.
  - eapply post_bind; [apply (set_callback_mild Move); [done|callback_ok]|]. intros S1 M1. eapply post_bind; [apply (set_callback_mild Move); [by eapply mild_live|callback_ok]|]. intros S2 M2.
    eapply post_bind; [apply (set_callback_mild Move); [by eapply mild_live|callback_ok]|]. intros S3 M3.
    eapply post_mono; [apply (set_callback_mild Move); [by eapply mild_live|callback_ok]|]. intros S4 M4. cbn beta in *. eapply mild_trans; [exact M1|]. eapply mild_trans; [exact M2|]. by eapply mild_trans.
Qed.

Lemma run_calls_mild x a l : forall S, sane x S -> is_Some (pcbs S !! a) -> post (run_calls a l S) (mild Move a S).
Proof.
  induction l as [|k l IH]; intros S Hs Hl; cbn [run_calls]; [by apply mild_refl|]. eapply post_bind; [by eapply run_call_mild|]. intros S1 M1.
  eapply post_mono; [apply IH; [by eapply sane_mild|by eapply mild_live]|]. intros S2 M2. by eapply mild_trans.
Qed.

(** ** Unlinking and freeing *)
Definition without (a : Z) (l : list Z) : list Z := filter (fun y => y <> a) l.

Lemma without_other a l : a ∉ l -> without a l = l.
Proof.
  unfold without. induction l as [|y l IH]; [done|]. intros [H1 H2]%not_elem_of_cons. rewrite filter_cons_True by done. by rewrite IH.
Qed.

Lemma rmv_spec alive a l : (forall y, y ∈ l -> alive y = true) -> NoDup l -> rmv alive a l = Some (without a l).
Proof.
  unfold without. induction l as [|y l IH]; intros Hl Hn; [done|]. apply NoDup_cons in Hn as [Hn1 Hn2]. cbn [rmv]. destruct (Z.eqb_spec y a) as [->|Hy].
  - rewrite filter_cons_False by (by intros H). f_equal. symmetry. by apply without_other.
  - rewrite Hl by (by left). rewrite IH; [|intros z Hz; apply Hl; by right|done]. by rewrite filter_cons_True.
Qed.

Definition detached (a : Z) (S : stack) : Prop := a ∉ tcp_bound_pcbs S /\ a ∉ tcp_active_pcbs S /\ a ∉ tcp_tw_pcbs S.

Lemma sane_live w x S y : sane x S -> y ∈ get_list w S -> live w S y = true.
Proof.
  intros Hs H. destruct w; apply bool_decide_eq_true; cbn in H.
  - by apply (sn_listen _ _ Hs).
  - destruct (sn_bound _ _ Hs y H) as (c & E & _). by exists c.
  - destruct (sn_active _ _ Hs y H) as (c & E & _). by exists c.
  - destruct (sn_tw _ _ Hs y H) as (c & E & _). by exists c.
Qed.

Lemma sane_nodup w x S : sane x S -> NoDup (get_list w S).
Proof. intros Hs. pose proof (sn_lists _ _ Hs) as H. apply NoDup_app in H as (H1 & _ & H). apply NoDup_app in H as (H2 & _ & H3). destruct w; try done. apply Hs. Qed.

Lemma RMV_ok w x a S : sane x S -> live w S a = true -> TCP_RMV w a S = Ok (set_list w (without a (get_list w S)) S).
Proof.
  intros Hs Hl. unfold TCP_RMV. rewrite Hl. rewrite rmv_spec; [done| |by eapply sane_nodup]. intros y. by apply (sane_live w x).
Qed.

Lemma live_pcb w S a : w <> LListen -> is_Some (pcbs S !! a) -> live w S a = true.
Proof. intros Hw H. destruct w; try done; by apply bool_decide_eq_true. Qed.

Lemma elem_without y a l : y ∈ without a l <-> y <> a /\ y ∈ l.
Proof. unfold without. by rewrite list_elem_of_filter. Qed.

Lemma sane_unlink w x a S : w <> LListen -> sane x S -> x = 0 \/ x = a -> sane a (set_list w (without a (get_list w S)) S).
Proof.
  intros Hw Hs Hx. destruct Hs as [I1 I2 I3 I4 I5 I6 I7 I8 I9]. set (S' := set_list w _ S).
  assert (Hsub : forall v, get_list v S' = get_list v S \/ get_list v S' = without a (get_list v S)) by (intros v; unfold S'; destruct w, v; auto).
  assert (Hin : forall v y, y ∈ get_list v S' -> y ∈ get_list v S) by (intros v y; destruct (Hsub v) as [-> | ->]; [done|]; by intros [_ ?]%elem_without).
  assert (Hin' : forall v y, y ∈ get_list v S -> y <> a -> y ∈ get_list v S') by (intros v y H1 H2; destruct (Hsub v) as [-> | ->]; [done|]; by apply elem_without).
  assert (Hp : pcbs S' = pcbs S /\ lpcbs S' = lpcbs S /\ pcb_pool S' = pcb_pool S /\ lpcb_pool S' = lpcb_pool S /\ app S' = app S /\ tcp_listen_pcbs S' = tcp_listen_pcbs S) by (by destruct w).
  destruct Hp as (P1 & P2 & P3 & P4 & P5 & P6). split.
  - eapply sublist_NoDup; [exact I1|]. repeat apply sublist_app; [destruct (Hsub LBound) as [H|H]|destruct (Hsub LActive) as [H|H]|destruct (Hsub LTw) as [H|H]]; cbn in H; rewrite H; try done; apply sublist_filter.
  - intros y Hy. rewrite P1. apply I2. by apply (Hin LBound).
  - intros y Hy. rewrite P1. apply I3. by apply (Hin LActive).
  - intros y Hy. rewrite P1. apply I4. by apply (Hin LTw).
  - intros y c. rewrite P1. intros E. destruct (I5 y c E) as [J1 J2 J3 J4 J5]. split; rewrite ?P2, ?P3; try done. intros Hy.
    assert (Hxy : y <> x) by (destruct Hx as [-> | ->]; [apply J1|done]). destruct (J5 Hxy) as [J|[J|J]]; [by left|right; left|right; right].
    + by apply (Hin' LActive).
    + by apply (Hin' LTw).
  - by rewrite P3.
  - by rewrite P6, P2.
  - by rewrite P4, P2.
  - by rewrite P5.
Qed.

Lemma ev_unlink w a S : ev S (set_list w (without a (get_list w S)) S).
Proof. destruct w; split; try done; try (by eauto). apply sublist_filter. Qed.

Lemma free_ok a S : sane a S -> detached a S -> is_Some (pcbs S !! a) ->
  post (tcp_free a S) (fun S' => sane 0 S' /\ pcbs S' !! a = None /\ ev S S' /\ tcp_active_pcbs S' = tcp_active_pcbs S
    /\ tcp_active_pcbs_changed S' = tcp_active_pcbs_changed S /\ tcp_tw_pcbs S' = tcp_tw_pcbs S /\ tcp_bound_pcbs S' = tcp_bound_pcbs S /\ ticks S' = ticks S).
Proof.
  intros Hs (D1 & D2 & D3) [c E]. unfold tcp_free, get. rewrite E. cbn [rbind]. destruct (negb _); [|done]. cbn [post].
  assert (Hk : forall y, y <> a -> delete a (pcbs S) !! y = pcbs S !! y) by (intros y Hy; by rewrite lookup_delete_ne).
  destruct Hs as [I1 I2 I3 I4 I5 I6 I7 I8 I9]. set (S' := _ <| pcb_pool := _ |>).
  assert (HS : pcbs S' = delete a (pcbs S) /\ pcb_pool S' = a :: pcb_pool S /\ tcp_bound_pcbs S' = tcp_bound_pcbs S /\ tcp_active_pcbs S' = tcp_active_pcbs S
    /\ tcp_tw_pcbs S' = tcp_tw_pcbs S /\ tcp_listen_pcbs S' = tcp_listen_pcbs S /\ lpcbs S' = lpcbs S /\ lpcb_pool S' = lpcb_pool S /\ app S' = app S
    /\ tcp_active_pcbs_changed S' = tcp_active_pcbs_changed S /\ tcp_timer_ctr S' = tcp_timer_ctr S /\ tcp_input_pcb S' = tcp_input_pcb S /\ ticks S' = ticks S
    /\ in_recv_flags S' = in_recv_flags S)
    by (unfold S'; destruct (ext_args c); done). clearbody S'.
  destruct HS as (P1 & P2 & P3 & P4 & P5 & P6 & P7 & P8 & P9 & P10 & P11 & P12 & P13 & P14). split_and!; try done.
  - split.
    + by rewrite P3, P4, P5.
    + intros y. rewrite P3, P1. intros Hy. rewrite Hk by (intros ->; done). auto.
    + intros y. rewrite P4, P1. intros Hy. rewrite Hk by (intros ->; done). auto.
    + intros y. rewrite P5, P1. intros Hy. rewrite Hk by (intros ->; done). auto.
    + intros y d. rewrite P1. intros [Hy Ed]%lookup_delete_Some. destruct (I5 y d Ed) as [[J1 J1'] J2 J3 J4 J5]. split; try done; rewrite ?P2, ?P4, ?P5, ?P7; try done.
      * split; [done|]. apply not_elem_of_cons. done.
      * intros _. apply J5. done.
    + rewrite P2. destruct I6 as [H1 H2]. destruct (I5 a c E) as [[J1 J1'] _ _ _ _]. split; [by constructor|]. apply not_elem_of_cons. done.
    + by rewrite P6, P7.
    + by rewrite P8, P7.
    + by rewrite P9.
  - rewrite P1. apply lookup_delete_eq.
  - split; try done.
    + intros y d. rewrite P1. intros [Hy Ed]%lookup_delete_Some. by exists d.
    + by rewrite P4.
    + by rewrite P7.
    + by rewrite P14.
Qed.

Lemma mild_detached b a S S' : mild b a S S' -> detached a S -> detached a S'.
Proof. intros [_ _ (_ & C2 & C3 & C4) _ _ _]. unfold detached. by rewrite C2, C3, C4. Qed.

Lemma sane_detached_put a c c' S : sane a S -> detached a S -> pcbs S !! a = Some c -> state (core c') <> LISTEN ->
  (listener c' = 0 \/ is_Some (lpcbs S !! listener c')) -> rok c' -> sane a (put a c' S).
Proof.
  intros [I1 I2 I3 I4 I5 I6 I7 I8 I9] (D1 & D2 & D3) E H1 H2 H3.
  assert (Hk : forall y, y <> a -> pcbs (put a c' S) !! y = pcbs S !! y) by (intros y Hy; unfold put; rsimpl; by rewrite lookup_insert_ne).
  split; try done.
  - intros y Hy. rewrite Hk by (intros ->; done). auto.
  - intros y Hy. rewrite Hk by (intros ->; done). auto.
  - intros y Hy. rewrite Hk by (intros ->; done). auto.
  - intros y d. destruct (decide (y = a)) as [->|Hy].
    + unfold put. rsimpl. rewrite lookup_insert_eq. intros [= <-]. destruct (I5 a c E) as [J1 J2 J3 J4 J5]. by split.
    + rewrite Hk by done. intros Ed. destruct (I5 y d Ed). by split.
Qed.

Lemma ev_put a c c' S : pcbs S !! a = Some c -> last_timer (core c') = last_timer (core c) -> ev S (put a c' S).
Proof.
  intros E Hl. split; try done. intros y d. unfold put. rsimpl. rewrite lookup_insert_Some. intros [[<- <-]|[? ?]]; eauto.
Qed.

(** The list a pcb in some state is in, if any. *)
Definition home (st : tcp_state) (w : pcb_list) : Prop :=
  match w with LActive => active_state st = true | LTw => st = TIME_WAIT | _ => False end.

Lemma home_detached w x a c S : sane x S -> pcbs S !! a = Some c -> home (state (core c)) w -> detached a (set_list w (without a (get_list w S)) S).
Proof.
  intros Hs E Hh.
  assert (Hb : a ∈ tcp_bound_pcbs S -> state (core c) = CLOSED) by (intros H; destruct (sn_bound _ _ Hs a H) as (d & E' & H1 & _); by assert (d = c) as -> by congruence).
  assert (Ha : a ∈ tcp_active_pcbs S -> active_state (state (core c)) = true) by (intros H; destruct (sn_active _ _ Hs a H) as (d & E' & H1); by assert (d = c) as -> by congruence).
  assert (Ht : a ∈ tcp_tw_pcbs S -> state (core c) = TIME_WAIT) by (intros H; destruct (sn_tw _ _ Hs a H) as (d & E' & H1); by assert (d = c) as -> by congruence).
  destruct w; try done; cbn in Hh; unfold detached, set_list; rsimpl; cbn [get_list].
  - apply active_not in Hh as (H1 & H2 & _). split_and!; [naive_solver|by intros [? _]%elem_without|naive_solver].
  - rewrite Hh in *. split_and!; [naive_solver| |by intros [? _]%elem_without]. intros H. by apply Ha in H.
Qed.

Lemma remove_ok w x a c S : sane x S -> x = 0 \/ x = a -> pcbs S !! a = Some c -> home (state (core c)) w ->
  post (tcp_pcb_remove w a S) (fun S' => sane a S' /\ detached a S' /\ (exists c', pcbs S' !! a = Some c' /\ state (core c') = CLOSED) /\ ev S S'
    /\ tcp_active_pcbs S' = (match w with LActive => without a (tcp_active_pcbs S) | _ => tcp_active_pcbs S end)
    /\ tcp_active_pcbs_changed S' = tcp_active_pcbs_changed S).
Proof.
  intros Hs Hx E Hh. assert (Hw : w <> LListen) by (by destruct w). unfold tcp_pcb_remove.
  rewrite (RMV_ok w x) by first [done | by apply live_pcb; [done|exists c]]. cbn [rbind]. pose proof (ev_unlink w a S) as Hev.
  assert (Hs1 : sane a (set_list w (without a (get_list w S)) S)) by (by eapply sane_unlink). pose proof (home_detached w x a c S Hs E Hh) as Hd.
  assert (Hact : tcp_active_pcbs (set_list w (without a (get_list w S)) S) = match w with LActive => without a (tcp_active_pcbs S) | _ => tcp_active_pcbs S end) by (by destruct w).
  assert (Hchg : tcp_active_pcbs_changed (set_list w (without a (get_list w S)) S) = tcp_active_pcbs_changed S) by (by destruct w).
  assert (E1 : pcbs (set_list w (without a (get_list w S)) S) !! a = Some c) by (by destruct w). set (S1 := set_list w _ S) in *. clearbody S1.
  eapply post_bind; [apply (purge_mild Stay a); [done|by exists c]|]. intros S2 M2. cbn beta. destruct (mild_state a c _ _ M2 E1) as (c2 & E2 & _).
  unfold get at 1. rewrite E2. cbn [rbind].
  eapply (post_bind _ _ (mild Stay a S1)).
  { destruct (_ && _ && _); [|exact M2]. eapply post_bind; [apply (updc_mild Stay); [by exists c2|intros p; kdone]|]. intros S3 M3. cbn beta.
    eapply post_bind; [apply (tcp_output_mild Stay); by eapply mild_live|]. intros [e S4] M4. cbn. eapply mild_trans; [exact M2|]. by eapply mild_trans. }
  intros S5 M5. destruct (mild_state a c _ _ M5 E1) as (c5 & E5 & _). unfold get. rewrite E5. cbn [rbind]. destruct (_ || _); [|done].
  unfold updc, upd, get. rewrite E5. cbn [rbind post]. set (c6 := c5 <| core := _ |>).
  assert (Hs5 : sane a S5) by (by eapply sane_mild). assert (Hd5 : detached a S5) by (by eapply mild_detached).
  destruct (sn_pcbs _ _ Hs5 _ _ E5) as [J1 J2 J3 J4 J5]. split_and!.
  - by apply (sane_detached_put a c5).
  - exact Hd5.
  - exists c6. split; [|done]. unfold put. rsimpl. by rewrite lookup_insert_eq.
  - etransitivity; [exact Hev|]. etransitivity; [by eapply mild_ev|]. by apply (ev_put a c5).
  - destruct M5 as [_ _ (_ & _ & C3 & _) _ _ _]. unfold put. rsimpl. by rewrite C3.
  - destruct M5 as [_ _ _ (D1 & _) _ _]. unfold put. rsimpl. by rewrite D1.
Qed.

(** The pcb is freed; a cut of the active list is noted. *)
Definition gone (a : Z) (S S' : stack) : Prop := sane 0 S' /\ pcbs S' !! a = None /\ ev S S' /\ noted S S'.

Lemma rst_own_mild b a s k lp S : is_Some (pcbs S !! a) -> post (rst_own a s k lp S) (mild b a S).
Proof. intros H. apply on__mild; [done|]. intros s1 s2 [= <-]. by rewrite keeps_rst. Qed.

Lemma state_cases st : st <> LISTEN -> st = CLOSED \/ st = TIME_WAIT \/ active_state st = true.
Proof. destruct st; cbn; auto. Qed.

(** The pcb is in no list any more. *)
Definition cut (a : Z) (S S' : stack) : Prop := sane a S' /\ detached a S' /\ is_Some (pcbs S' !! a) /\ ev S S' /\ noted S S'.

Lemma cut_mild b a S S1 S2 : cut a S S1 -> mild b a S1 S2 -> cut a S S2.
Proof.
  intros (K1 & K2 & K3 & K4 & K5) M. split_and!; [by eapply sane_mild|by eapply mild_detached|by eapply mild_live| |].
  - etransitivity; [exact K4|by eapply mild_ev].
  - eapply noted_trans; [exact K5|by eapply mild_noted].
Qed.

Lemma free_gone a S S1 : cut a S S1 -> post (tcp_free a S1) (gone a S).
Proof.
  intros (K1 & K2 & K3 & K4 & K5). eapply post_mono; [by apply free_ok|]. intros S2 (F1 & F2 & F3 & F4 & F5 & _). split_and!; [done|done|by etransitivity|].
  eapply noted_trans; [exact K5|]. intros E. by rewrite <- F5, F4.
Qed.

Lemma gone_note a e S S' : gone a S S' -> gone a S (note e S').
Proof. intros (G1 & G2 & G3 & G4). split_and!; [untouched G1|done|untouched G3|done]. Qed.

Lemma remove_tw_cut x a c S : sane x S -> x = 0 \/ x = a -> pcbs S !! a = Some c -> state (core c) = TIME_WAIT -> post (tcp_pcb_remove LTw a S) (cut a S).
Proof.
  intros Hs Hx E Hc. eapply post_mono; [by apply (remove_ok LTw x a c)|]. intros S1 (R1 & R2 & (c1 & R3 & _) & R4 & R5 & R6).
  split_and!; [done|done|by exists c1|done|]. intros Ec. split; congruence.
Qed.

Lemma remove_active_cut x a c S : sane x S -> x = 0 \/ x = a -> pcbs S !! a = Some c -> active_state (state (core c)) = true ->
  post (TCP_PCB_REMOVE_ACTIVE a S) (cut a S).
Proof.
  intros Hs Hx E Hc. eapply post_bind; [by apply (remove_ok LActive x a c)|]. intros S1 (R1 & R2 & (c1 & R3 & _) & R4 & R5 & R6). cbn [post].
  split_and!; [untouched R1|done|by exists c1|untouched R4|done].
Qed.

(** A pcb that is closed is at most bound. *)
Lemma closed_cut x a c S : sane x S -> x = 0 \/ x = a -> pcbs S !! a = Some c -> state (core c) = CLOSED ->
  post (if negb (local_port (core c) =? 0) then TCP_RMV LBound a S else Ok S) (cut a S).
Proof.
  intros Hs Hx E Hc. assert (Hnl : a ∉ tcp_active_pcbs S /\ a ∉ tcp_tw_pcbs S).
  { split; intros H; [destruct (sn_active _ _ Hs a H) as (d & E' & H1)|destruct (sn_tw _ _ Hs a H) as (d & E' & H1)]; assert (d = c) as -> by congruence; by rewrite Hc in H1. }
  destruct (Z.eqb_spec (local_port (core c)) 0) as [Hp|Hp]; cbn [negb].
  - cbn. split_and!; [| |by exists c|done|done].
    + destruct Hx as [-> | ->]; [by apply sane_weaken|done].
    + split_and!; [|apply Hnl..]. intros H. destruct (sn_bound _ _ Hs a H) as (d & E' & _ & H2). assert (d = c) as -> by congruence. done.
  - rewrite (RMV_ok LBound x) by first [done | by apply live_pcb; [done|exists c]]. cbn.
    split_and!; [by apply (sane_unlink LBound x)| |by exists c|apply (ev_unlink LBound)|done]. split_and!; [by intros [? _]%elem_without|apply Hnl..].
Qed.

Lemma abandon_ok x a reset S : sane x S -> x = 0 \/ x = a -> is_Some (pcbs S !! a) -> post (tcp_abandon a reset S) (gone a S).
Proof.
  intros Hs Hx [c E]. unfold tcp_abandon, get. rewrite E. cbn [rbind]. destruct (negb _) eqn:En; [|done]. unfold state_is in En. bprop.
  destruct (state_is (state (core c)) TIME_WAIT) eqn:Etw; unfold state_is in Etw; bprop.
  { eapply post_bind; [by apply (remove_tw_cut x a c)|]. intros S1 K. by apply free_gone. }
  eapply (post_bind _ _ (cut a S)).
  { unfold state_is. case_bool_decide as Hc; [by apply (closed_cut x)|]. apply (remove_active_cut x a c); try done.
    by destruct (state_cases (state (core c)) ltac:(done)) as [?|[?|?]]. }
  intros S1 K1. eapply post_bind; [eapply (backlog_accepted_mild Stay); apply K1|]. intros S2 M2. cbn beta.
  assert (K2 : cut a S S2) by (by eapply cut_mild). eapply (post_bind _ _ (cut a S)).
  { destruct (_ && _); [|done]. eapply post_mono; [apply (rst_own_mild Stay); apply K2|]. intros S3 M3. by eapply cut_mild. }
  intros S3 K3. eapply post_bind; [by apply free_gone|]. intros S4 G. cbn. destruct (errf c); [by apply gone_note|done].
Qed.
End Safety.
