(* ===== verification/TcpCalls.v ===== *)
(** * TcpCalls: closing and callbacks keep the lists

    [tcp_close] and the callbacks, on top of the operations of TcpSafety: what
    the code may still do with a pcb after it called the application. *)

From S2P Require Import Prelude Ip4Addr Opts TcpPcb TcpOut TcpIn TcpStack TcpInput TcpTimer TcpFrame TcpSafety.

(** Only [x] may be missing from the lists, and only if it is to be removed
    when the callbacks are done. *)
Definition held (x : Z) (S : stack) : Prop := sane x S /\ (flag_set (in_recv_flags S) TF_CLOSED = false -> sane 0 S).

(** The pcb may be freed. *)
Definition fate (x a : Z) (S' : stack) : Prop := match pcbs S' !! a with Some _ => held x S' | None => sane 0 S' end.

Definition after (x a : Z) (S S' : stack) : Prop := fate x a S' /\ ev S S' /\ noted S S'.

(** Only the pcb at work may be missing, and it must be allowed to if it is
    the one [tcp_input] works on. *)
Definition fit (x a : Z) (S : stack) : Prop := held x S /\ (x = 0 \/ x = a) /\ (tcp_input_pcb S = a -> x = a).

(** The pcb can be delivered to: synchronized, and not in TIME-WAIT if it is
    to be removed from the active list. *)
Definition up_state (tw : bool) (st : tcp_state) : bool := active_state st || (tw && state_is st TIME_WAIT).
Definition up (tw : bool) (a : Z) (S : stack) : Prop :=
  exists c, pcbs S !! a = Some c /\ up_state tw (state (core c)) = true /\ state (core c) <> SYN_SENT
    /\ (flag_set (in_recv_flags S) TF_CLOSED = true -> active_state (state (core c)) = true).

Lemma held_sane x S : held x S -> sane x S.
Proof. by intros []. Qed.

Lemma held_0 x S : sane 0 S -> held x S.
Proof. split; [|done]. by apply sane_weaken. Qed.

Lemma held_mild b x a S S' : held x S -> mild b a S S' -> held x S'.
Proof. intros [H1 H2] M. split; [by eapply sane_mild|]. destruct M as [A B C (D1 & D2 & D3 & D4 & D5) F G] eqn:E. rewrite D5. intros H%H2. by eapply sane_mild. Qed.
#[local] Hint Resolve held_sane : core.

Lemma fit_sane x a S : fit x a S -> sane x S.
Proof. intros (? & _). auto. Qed.
#[local] Hint Resolve fit_sane : core.

Lemma fate_live x a S : fate x a S -> is_Some (pcbs S !! a) -> held x S.
Proof. unfold fate. intros H [c E]. by rewrite E in H. Qed.

Lemma after_mild b x a S S' : held x S -> mild b a S S' -> after x a S S'.
Proof.
  intros Hs M. split_and!; [|by eapply mild_ev|by eapply mild_noted]. unfold fate. destruct (mild_live _ _ _ _ M) as [c ->]. by eapply held_mild.
Qed.

Lemma after_gone x a S S' : gone a S S' -> after x a S S'.
Proof. intros (G1 & G2 & G3 & G4). split_and!; try done. unfold fate. by rewrite G2. Qed.

Lemma after_trans x a S1 S2 S3 : after x a S1 S2 -> after x a S2 S3 -> after x a S1 S3.
Proof. intros (_ & H1 & H2) (K1 & K2 & K3). split_and!; [done|by etransitivity|by eapply noted_trans]. Qed.

Lemma after_mild_l b x a S1 S2 S3 : mild b a S1 S2 -> after x a S2 S3 -> after x a S1 S3.
Proof. intros M (K1 & K2 & K3). split_and!; [done|etransitivity; [by eapply mild_ev|done]|eapply noted_trans; [by eapply mild_noted|done]]. Qed.

Lemma up_live tw a S : up tw a S -> is_Some (pcbs S !! a).
Proof. intros (c & E & _). by exists c. Qed.

Lemma mild_input b a S S' : mild b a S S' -> tcp_input_pcb S' = tcp_input_pcb S.
Proof. intros M. apply M. Qed.

Lemma mild_up b tw a S S' : mild b a S S' -> up tw a S -> up tw a S'.
Proof.
  intros [(c & d & E1 & E2 & A1 & _) _ _ (_ & _ & _ & _ & D5) _ _] (c0 & E & H1 & H2 & H3). assert (c0 = c) as -> by congruence. exists d. rewrite D5.
  destruct A1 as [->|(_ & A1 & A2 & A3)]; [done|]. split_and!; try done. unfold up_state. by rewrite A2.
Qed.

Lemma fit_mild b x a S S' : fit x a S -> mild b a S S' -> fit x a S'.
Proof. intros (H1 & H2 & H3) M. split_and!; [by eapply held_mild|done|]. by rewrite (mild_input _ _ _ _ M). Qed.

Section Calls.
Context {o : Opts} {ip : IpLayer}.

(** ** Closing *)
Lemma close_rst_ok x a c S : fit x a S -> pcbs S !! a = Some c -> active_state (state (core c)) = true -> state (core c) <> SYN_SENT ->
  post (let+ T := rst_own a (snd_nxt (core c)) (rcv_nxt (core c)) (local_port (core c)) S in
        let+ T := tcp_pcb_purge a T in
        let+ T := TCP_RMV_ACTIVE a T in
        let+ T := (if tcp_input_pcb T =? a then Ok (tcp_trigger_input_pcb_close T) else tcp_free a T) in
        Ok (ERR_OK, T)) (fun '(_, S') => after x a S S' /\ (tcp_input_pcb S = a -> forall tw, up tw a S')).
Proof.
  intros ([Hs _] & Hx & Hi) E Hst Hsn. eapply post_bind; [apply (rst_own_mild Stay); by exists c|]. intros S1 M1. cbn beta.
  eapply post_bind; [eapply (purge_mild Stay x); [by eapply sane_mild|by eapply mild_live]|]. intros S2 M2. cbn beta.
  assert (M : mild Stay a S S2) by (by eapply mild_trans). destruct (mild_state a c _ _ M E) as (c2 & E2 & St2 & _).
  assert (Hs2 : sane x S2) by (by eapply sane_mild). unfold TCP_RMV_ACTIVE.
  rewrite (RMV_ok LActive x) by first [done | by apply live_pcb; [done|exists c2]]. cbn [rbind]. set (S3 := _ <| tcp_active_pcbs_changed := true |>).
  pose proof (sane_unlink LActive x a S2 ltac:(done) Hs2 Hx) as Hu. pose proof (home_detached LActive x a c2 S2 Hs2 E2 ltac:(by rewrite St2)) as Hd.
  assert (K : cut a S S3) by (split_and!; [untouched Hu|done..|by exists c2|etransitivity; [by eapply mild_ev|]; etransitivity; [apply (ev_unlink LActive)|by apply ev_same]|done]).
  assert (E3 : pcbs S3 !! a = Some c2) by done. change (tcp_input_pcb S3) with (tcp_input_pcb S2). rewrite (mild_input _ _ _ _ M).
  destruct (Z.eqb_spec (tcp_input_pcb S) a) as [Hia|Hia].
  - cbn [rbind post]. clearbody S3. destruct K as (K1 & K2 & K3 & K4 & K5). rewrite (Hi Hia) in *. split; [split_and!|intros _ tw].
    + unfold fate. cbn. rewrite E3. split; [untouched K1|]. cbn. by rewrite flag_lor, orb_true_r.
    + untouched K4.
    + exact K5.
    + exists c2. split; [done|]. rewrite St2. unfold up_state. rewrite Hst. done.
  - eapply post_bind; [by apply free_gone|]. intros S4 G. cbn. split; [by apply after_gone|done].
Qed.

Lemma close_shutdown_ok x a r S : fit x a S -> is_Some (pcbs S !! a) ->
  post (tcp_close_shutdown a r S) (fun '(_, S') => after x a S S' /\ (forall tw, up tw a S -> tcp_input_pcb S = a -> up tw a S')).
Proof.
  intros Hf [c E]. unfold tcp_close_shutdown, get. rewrite E. cbn [rbind]. destruct (r && _ && _) eqn:Eb.
  { destruct (flag_set _ _); [|done]. eapply post_mono; [apply (close_rst_ok x a c S Hf E)|].
    - apply andb_prop in Eb as [[_ Eb]%andb_prop _]. unfold state_is in Eb. by apply orb_prop in Eb as [->%bool_decide_eq_true | ->%bool_decide_eq_true].
    - apply andb_prop in Eb as [[_ Eb]%andb_prop _]. unfold state_is in Eb. by apply orb_prop in Eb as [->%bool_decide_eq_true | ->%bool_decide_eq_true].
    - intros [e S'] [H1 H2]. split; auto. }
  assert (Hup : forall tw, up tw a S -> up_state tw (state (core c)) = true /\ state (core c) <> SYN_SENT) by (intros tw (d & E' & H1 & H2 & _); by assert (d = c) as -> by congruence).
  destruct Hf as (Hh & Hx & Hi). pose proof (held_sane _ _ Hh) as Hs. destruct (state (core c)) eqn:Est;
    try (eapply post_mono; [eapply close_fin_mild; [exact Hs|by exists c]|]; intros [e S'] M; split; [by eapply after_mild|intros; by eapply mild_up]).
  - eapply post_bind; [by apply (closed_cut x)|]. intros S1 K. eapply post_bind; [by apply free_gone|]. intros S2 G. split; [by apply after_gone|]. intros tw [? _]%Hup. by destruct tw.
  - eapply post_bind; [apply (remove_active_cut x a c); [done..|by rewrite Est]|]. intros S1 K. eapply post_bind; [by apply free_gone|]. intros S2 G. split; [by apply after_gone|]. intros tw [_ ?]%Hup. done.
Qed.

Lemma close_ok x a S : fit x a S -> is_Some (pcbs S !! a) ->
  post (tcp_close a S) (fun '(_, S') => after x a S S' /\ (forall tw, up tw a S -> tcp_input_pcb S = a -> up tw a S')).
Proof.
  intros Hf Hl. eapply post_bind; [apply (updc_mild Stay); [done|intros p; kdone]|]. intros S1 M1. cbn beta.
  eapply post_mono; [apply (close_shutdown_ok x); [by eapply fit_mild|by eapply mild_live]|]. intros [e S2] [H1 H2]. split; [by eapply after_mild_l|].
  intros tw Hu Hi. apply H2; [by eapply mild_up|]. by rewrite (mild_input _ _ _ _ M1).
Qed.

Lemma rbind_Ok {A B} (r : res A) (k : A -> res B) y : rbind r k = Ok y -> exists v, r = Ok v /\ k v = Ok y.
Proof. destruct r; cbn; try done. eauto. Qed.

Lemma on_Ok {R} a (f : tcp_st -> option (R * tcp_st)) S r S' : on a f S = Ok (r, S') -> exists s s', f s = Some (r, s').
Proof.
  unfold on. intros (c & _ & H)%rbind_Ok. apply rbind_Ok in H as ([r1 s1] & H1 & [= <- _]). unfold lift in H1. destruct (f _) as [[r2 s2]|] eqn:E; [|done].
  injection H1 as -> ->. eauto.
Qed.

(** Closing reports no error: if the FIN cannot be sent now, it is sent later. *)
Lemma close_fin_err a S e S' : tcp_close_shutdown_fin a S = Ok (e, S') -> e = ERR_OK.
Proof.
  unfold tcp_close_shutdown_fin. intros (c & _ & H)%rbind_Ok.
  assert (Hfin : forall r, (forall e1 S1, r = Ok (e1, S1) -> e1 = ERR_OK \/ e1 = ERR_MEM) ->
    (let+ (err, T) := r in
     if err_ok err then let+ (_, T) := on a tcp_output T in Ok (err, T)
     else if bool_decide (err = ERR_MEM) then let+ T := updc a (tcp_set_flags TF_CLOSEPEND) T in Ok (ERR_OK, T) else Ok (err, T)) = Ok (e, S') -> e = ERR_OK).
  { intros r Hr ([e1 S1] & E1 & H1)%rbind_Ok. apply Hr in E1 as [-> | ->]; cbn in H1.
    - apply rbind_Ok in H1 as ([e2 S2] & _ & [= <- _]). done.
    - apply rbind_Ok in H1 as (S2 & _ & [= <- _]). done. }
  assert (Hsend : forall next e1 S1, send_fin_to a next S = Ok (e1, S1) -> e1 = ERR_OK \/ e1 = ERR_MEM).
  { intros next e1 S1 ([e2 S2] & E2 & H2)%rbind_Ok. apply on_Ok in E2 as (s & s' & E2%send_fin_err).
    destruct (err_ok e2); [apply rbind_Ok in H2 as (S3 & _ & [= <- _])|injection H2 as <- _]; done. }
  destruct (state (core c)); try (by injection H as <- _); try (revert H; apply Hfin; apply Hsend).
  revert H. apply Hfin. intros e1 S1 ([e2 S2] & E2 & H2)%rbind_Ok. apply on_Ok in E2 as (s & s' & E2%send_fin_err).
  destruct (err_ok e2); [apply rbind_Ok in H2 as (S3 & _ & H2); apply rbind_Ok in H2 as (S4 & _ & [= <- _])|injection H2 as <- _]; done.
Qed.

Lemma close_err a S e S' : tcp_close a S = Ok (e, S') -> e = ERR_OK.
Proof.
  unfold tcp_close, tcp_close_shutdown. intros (S1 & _ & H)%rbind_Ok. apply rbind_Ok in H as (c & _ & H). destruct (_ && _ && _).
  - destruct (flag_set _ _); [|done]. do 4 (apply rbind_Ok in H as (? & _ & H)). by injection H as <- _.
  - destruct (state (core c)); try (by apply close_fin_err in H); do 2 (apply rbind_Ok in H as (? & _ & H)); by injection H as <- _.
Qed.

(** ** Reactions *)
Lemma respond_ok x a r S : fit x a S -> is_Some (pcbs S !! a) -> post (respond a r S) (fun '(_, S') => after x a S S').
Proof.
  intros Hf Hl. unfold respond. eapply post_bind; [apply (run_calls_mild x); [apply Hf|done]|]. intros S1 M1. cbn beta.
  assert (Hf1 : fit x a S1) by (by eapply fit_mild). pose proof (mild_live _ _ _ _ M1) as Hl1. destruct (ends r).
  - eapply after_mild; [apply Hf|done].
  - eapply post_bind; [apply (abandon_ok x); [by eapply fit_sane|apply Hf1|done]|]. intros S2 G. cbn. eapply after_mild_l; [exact M1|by apply after_gone].
  - eapply post_bind; [by apply (close_ok x)|]. intros [e2 S2] [H _]. cbn. by eapply after_mild_l.
Qed.

Lemma respond_up tw x a r S : fit x a S -> nice r -> up tw a S -> tcp_input_pcb S = a ->
  post (respond a r S) (fun '(e, S') => e <> ERR_ABRT -> up tw a S').
Proof.
  intros Hf Hn Hu Hi. unfold respond. eapply post_bind; [apply (run_calls_mild x); [apply Hf|by eapply up_live]|]. intros S1 M1. cbn beta.
  assert (Hf1 : fit x a S1) by (by eapply fit_mild). pose proof (mild_live _ _ _ _ M1) as Hl1. assert (Hu1 : up tw a S1) by (by eapply mild_up). unfold nice in Hn. destruct (ends r).
  - by intros _.
  - eapply post_bind; [apply (abandon_ok x); [by eapply fit_sane|apply Hf1|done]|]. intros S2 G. cbn. intros Hne. by destruct Hne.
  - eapply post_bind; [by apply (close_ok x)|]. intros [e2 S2] [_ H]. cbn. intros _. apply H; [done|]. by rewrite (mild_input _ _ _ _ M1).
Qed.

Lemma respond_calm x a r S : sane x S -> calm r -> is_Some (pcbs S !! a) -> post (respond a r S) (fun '(e, S') => e <> ERR_ABRT /\ mild Move a S S').
Proof.
  intros Hs Hc Hl. unfold respond, calm in *. eapply post_bind; [by apply (run_calls_mild x)|]. intros S1 M1. by destruct (ends r).
Qed.

(** ** Events *)
Lemma mild_quiet b a e A S : is_Some (pcbs S !! a) -> (polite (app S) -> polite A) -> mild b a S (note e (S <| app := A |>)).
Proof. intros Hl Ha. eapply mild_vars; [by apply mild_refl|done..]. Qed.

Lemma next_nice (P : reaction -> Prop) l r l' : P (mk_reaction [] (Return ERR_OK)) -> next_reaction l = (r, l') -> Forall P l -> P r /\ Forall P l'.
Proof. intros H0. destruct l; cbn; intros [= <- <-]; [done|]. by intros [? ?]%Forall_cons. Qed.

Lemma post_impl {A} (r : res A) (P Q : A -> Prop) (H : Prop) : post r P -> (H -> post r Q) -> post r (fun y => P y /\ (H -> Q y)).
Proof. destruct r; cbn; auto. Qed.

Lemma post_ok {A} (r : res A) (P Q : A -> Prop) : post r P -> (forall y, r = Ok y -> P y -> Q y) -> post r Q.
Proof. destruct r; cbn; auto. Qed.

(** What is known after a callback that does as it should. *)
Definition told (x a : Z) (S : stack) (v : err_t * stack) : Prop :=
  after x a S (snd v) /\ (fst v = ERR_ABRT -> gone a S (snd v)) /\ (forall tw, up tw a S -> tcp_input_pcb S = a -> fst v <> ERR_ABRT -> up tw a (snd v)).

Lemma told_mild b x a S e S' : held x S -> e <> ERR_ABRT -> mild b a S S' -> told x a S (e, S').
Proof. intros Hs He M. split_and!; cbn; [by eapply after_mild|done|]. intros tw Hu _ _. by eapply mild_up. Qed.

Lemma told_mild_l b x a S S1 v : mild b a S S1 -> told x a S1 v -> told x a S v.
Proof.
  intros M (H1 & H2 & H3). split_and!; [by eapply after_mild_l| |].
  - intros (G1 & G2 & G3 & G4)%H2. split_and!; [done|done|etransitivity; [by eapply mild_ev|done]|eapply noted_trans; [by eapply mild_noted|done]].
  - intros tw Hu Hi He. apply H3; [by eapply mild_up| |done]. by rewrite (mild_input _ _ _ _ M).
Qed.

Lemma close_told x a S : fit x a S -> is_Some (pcbs S !! a) -> post (tcp_close a S) (told x a S).
Proof.
  intros Hf Hl. eapply post_ok; [by apply (close_ok x)|]. intros [e S'] ->%close_err [H1 H2]. split_and!; cbn; auto. done.
Qed.

Lemma respond_gone x a r S : fit x a S -> nice r -> is_Some (pcbs S !! a) -> post (respond a r S) (fun v => fst v = ERR_ABRT -> gone a S (snd v)).
Proof.
  intros Hf Hn Hl. unfold respond. eapply post_bind; [apply (run_calls_mild x); [apply Hf|done]|]. intros S1 M1. cbn beta.
  assert (Hf1 : fit x a S1) by (by eapply fit_mild). pose proof (mild_live _ _ _ _ M1) as Hl1. unfold nice in Hn. destruct (ends r).
  - by cbn.
  - eapply post_bind; [apply (abandon_ok x); [by eapply fit_sane|apply Hf1|done]|]. intros S2 (G1 & G2 & G3 & G4) _. cbn.
    split_and!; [done|done|etransitivity; [by eapply mild_ev|done]|eapply noted_trans; [by eapply mild_noted|done]].
  - eapply post_bind; [by apply (close_ok x)|]. intros [e2 S2] _. by cbn.
Qed.

Lemma respond_told x a r S : fit x a S -> nice r -> is_Some (pcbs S !! a) -> post (respond a r S) (told x a S).
Proof.
  intros Hf Hn Hl. pose proof (respond_ok x a r S Hf Hl) as H1. pose proof (respond_gone x a r S Hf Hn Hl) as H2.
  assert (H3 : forall tw, up tw a S /\ tcp_input_pcb S = a -> post (respond a r S) (fun '(e, S') => e <> ERR_ABRT -> up tw a S')) by (intros tw [Hu Hi]; by apply (respond_up tw x)).
  destruct (respond a r S) as [[e S']| | |]; cbn in *; try done. split_and!; cbn; auto.
Qed.

(** Take the next reaction of a list: the callback runs on a state that
    differs in the application and the events only. *)
Ltac react a S M :=
  match goal with |- context [respond a ?r (note ?e (S <| app := ?A |>))] =>
    assert (M : mild Move a S (note e (S <| app := A |>)))
      by (apply mild_quiet; [done|intros [? ? ? ?]; repeat match goal with E : next_reaction ?l = (r, ?l'), F : Forall _ ?l |- _ => apply next_nice in F as [? ?]; [|done|exact E] end; by split]) end.

Lemma event_sent_ok x a n S : fit x a S -> is_Some (pcbs S !! a) -> post (TCP_EVENT_SENT a n S) (told x a S).
Proof.
  intros Hf [c E]. unfold TCP_EVENT_SENT, get. rewrite E. cbn [rbind]. assert (Hl : is_Some (pcbs S !! a)) by (by exists c).
  destruct (sent c); [|eapply (told_mild Stay); [apply Hf|done|by apply mild_refl]]. destruct (next_reaction _) as [r l'] eqn:Er.
  destruct (next_nice nice _ r l' ltac:(done) Er) as [Hr Hl']; [apply (fit_sane _ _ _ Hf)|]. react a S M.
  eapply post_mono; [apply (respond_told x); [by eapply fit_mild|done|by eapply mild_live]|]. intros v H. by eapply told_mild_l.
Qed.

Lemma event_connected_ok x a S : fit x a S -> is_Some (pcbs S !! a) -> post (TCP_EVENT_CONNECTED a S) (told x a S).
Proof.
  intros Hf [c E]. unfold TCP_EVENT_CONNECTED, get. rewrite E. cbn [rbind]. assert (Hl : is_Some (pcbs S !! a)) by (by exists c).
  destruct (connected c); [|eapply (told_mild Stay); [apply Hf|done|by apply mild_refl]]. destruct (next_reaction _) as [r l'] eqn:Er.
  destruct (next_nice nice _ r l' ltac:(done) Er) as [Hr Hl']; [apply (fit_sane _ _ _ Hf)|]. react a S M.
  eapply post_mono; [apply (respond_told x); [by eapply fit_mild|done|by eapply mild_live]|]. intros v H. by eapply told_mild_l.
Qed.

Lemma event_accept_ok x a lp S : fit x a S -> is_Some (pcbs S !! a) -> is_Some (lpcbs S !! lp) -> post (TCP_EVENT_ACCEPT lp a S) (told x a S).
Proof.
  intros Hf Hl [l El]. unfold TCP_EVENT_ACCEPT, getl. rewrite El. cbn [rbind]. destruct (accept l).
  - eapply (told_mild Stay); [apply Hf|done|by apply mild_refl].
  - eapply post_bind; [apply (abandon_ok x); [by eapply fit_sane|apply Hf|done]|]. intros S2 G. split_and!; cbn; [by apply after_gone|done|done].
  - destruct (next_reaction _) as [r l'] eqn:Er. destruct (next_nice nice _ r l' ltac:(done) Er) as [Hr Hl']; [apply (fit_sane _ _ _ Hf)|]. react a S M.
    eapply post_mono; [apply (respond_told x); [by eapply fit_mild|done|by eapply mild_live]|]. intros v H. by eapply told_mild_l.
Qed.

Lemma event_poll_ok x a S : fit x a S -> is_Some (pcbs S !! a) -> post (TCP_EVENT_POLL a S) (fun '(_, S') => after x a S S').
Proof.
  intros Hf [c E]. unfold TCP_EVENT_POLL, get. rewrite E. cbn [rbind]. assert (Hl : is_Some (pcbs S !! a)) by (by exists c).
  destruct (poll c); [|eapply (after_mild Stay); [apply Hf|by apply mild_refl]]. destruct (next_reaction _) as [r l'] eqn:Er. react a S M.
  eapply post_mono; [apply (respond_ok x); [by eapply fit_mild|by eapply mild_live]|]. intros [e S'] H. by eapply after_mild_l.
Qed.

(** Data is handed over; the receive callback only takes or refuses it. *)
Lemma event_recv_ok x a d S : sane x S -> is_Some (pcbs S !! a) ->
  post (TCP_EVENT_RECV a d S) (fun '(e, S') => e <> ERR_ABRT /\ mild Move a S S' /\ (e <> ERR_OK -> forall c, pcbs S' !! a = Some c -> recv c <> Recv_tcp_recv_null)).
Proof.
  intros Hs [c E]. unfold TCP_EVENT_RECV, get. rewrite E. cbn [rbind]. assert (Hl : is_Some (pcbs S !! a)) by (by exists c).
  assert (Hnull : post (tcp_recv_null a (Some d) S) (fun '(e, S') => e <> ERR_ABRT /\ mild Move a S S' /\ (e <> ERR_OK -> forall c, pcbs S' !! a = Some c -> recv c <> Recv_tcp_recv_null))).
  { cbn. eapply post_bind; [apply (on__mild Move); [done|apply keeps_recved]|]. intros S1 M1. by split_and!. }
  destruct (recv c) eqn:Ec; [exact Hnull|exact Hnull|]. destruct (next_reaction _) as [r l'] eqn:Er.
  destruct (next_nice calm _ r l' ltac:(done) Er) as [Hr Hl']; [apply Hs|]. react a S M.
  eapply post_mono; [apply (respond_calm x); [by eapply sane_mild|done|by eapply mild_live]|]. intros [e S'] [He M2].
  assert (M3 : mild Move a S S') by (by eapply mild_trans). split_and!; [done|done|]. intros _ c'. destruct M3 as [(c0 & c1 & E0 & E1 & _ & _ & _ & _ & _ & A6 & _) _ _ _ _ _].
  intros E'. assert (c0 = c) as -> by congruence. assert (c1 = c') as -> by congruence. apply A6. by rewrite Ec.
Qed.

Lemma event_closed_ok x a S : fit x a S -> is_Some (pcbs S !! a) ->
  post (TCP_EVENT_CLOSED a S) (fun v => told x a S v /\ ((forall c, pcbs S !! a = Some c -> recv c <> Recv_tcp_recv_null) -> fst v <> ERR_ABRT /\ mild Move a S (snd v))).
Proof.
  intros Hf [c E]. unfold TCP_EVENT_CLOSED, get. rewrite E. cbn [rbind]. assert (Hl : is_Some (pcbs S !! a)) by (by exists c). assert (Hs : sane x S) by (by eapply fit_sane).
  destruct (recv c) eqn:Ec.
  - split; [eapply (told_mild Stay); [apply Hf|done|by apply mild_refl]|]. intros _. split; [done|by apply mild_refl].
  - eapply post_mono; [by apply (close_told x)|]. intros v H. split; [done|]. intros Hc. by specialize (Hc c eq_refl).
  - destruct (next_reaction _) as [r l'] eqn:Er. destruct (next_nice calm _ r l' ltac:(done) Er) as [Hr Hl']; [apply Hs|]. react a S M.
    eapply post_mono; [apply (respond_calm x); [by eapply sane_mild|done|by eapply mild_live]|]. intros [e S'] [He M2].
    assert (M3 : mild Move a S S') by (by eapply mild_trans). split; [by eapply told_mild; [apply Hf|..]|]. by intros _.
Qed.

(** ** Refused data *)
Lemma split_rest_length k c : (length (snd (split_rest k c)) <= length c)%nat.
Proof.
  revert k. induction c as [|r c IH]; intros k; cbn [split_rest]; [done|]. destruct (_ <=? _); [|done].
  specialize (IH (u16 (k + lenz r))). destruct (split_rest _ c). cbn in *. lia.
Qed.

Lemma split_64k_length d f rest : pbuf_split_64k d = (f, Some rest) -> (length rest < length d)%nat.
Proof.
  destruct d as [|p d]; cbn; [done|]. pose proof (split_rest_length (lenz p) d) as H. destruct (split_rest _ d) as [g r]. cbn in H. destruct r; intros [= _ <-]. cbn in *. lia.
Qed.

Lemma mild_get b a c S S' : mild b a S S' -> pcbs S !! a = Some c -> exists c', pcbs S' !! a = Some c'
  /\ (recv c <> Recv_tcp_recv_null -> recv c' <> Recv_tcp_recv_null)
  /\ (b <> Any -> refused_data (core c') = refused_data (core c) \/ refused_data (core c') = None)
  /\ last_timer (core c') = last_timer (core c) /\ moves b (state (core c)) (state (core c')).
Proof. intros [(c0 & d & E1 & E2 & A1 & _ & A3 & _ & _ & A6 & A7) _ _ _ _ _] E. assert (c0 = c) as -> by congruence. by exists d. Qed.

Lemma set_refused_mild a c v S : pcbs S !! a = Some c -> recv c <> Recv_tcp_recv_null ->
  post (updc a (fun p => p <| refused_data := v |>) S)
    (fun S' => mild Any a S S' /\ exists c', pcbs S' !! a = Some c' /\ refused_data (core c') = v /\ recv c' <> Recv_tcp_recv_null).
Proof.
  intros E Hr. unfold updc, upd, get. rewrite E. cbn [rbind post]. split.
  - apply (put_mild Any a c); try done; [by left|by intros _ _].
  - eexists. split; [apply lookup_insert_eq|done].
Qed.

Lemma refused_closed_ok x a S (b : bool) : fit x a S -> (exists c, pcbs S !! a = Some c /\ recv c <> Recv_tcp_recv_null) ->
  post (if b then
          let+ T := updc a (fun p => if negb (rcv_wnd p =? TCP_WND_MAX p) then p <| rcv_wnd := tcpwnd (rcv_wnd p + 1) |> else p) S in TCP_EVENT_CLOSED a T
        else Ok (ERR_OK, S)) (fun v => fst v <> ERR_ABRT /\ mild Move a S (snd v)).
Proof.
  intros Hf (c & E & Hr). assert (Hl : is_Some (pcbs S !! a)) by (by exists c). destruct b; [|split; [done|by apply mild_refl]].
  eapply post_bind; [apply (updc_mild Move); [done|intros p; case_match; kdone]|]. intros S1 M1. cbn beta. destruct (mild_get _ _ _ _ _ M1 E) as (c1 & E1 & Hr1 & _).
  eapply post_mono; [apply (event_closed_ok x); [by eapply fit_mild|by exists c1]|]. intros v [_ H]. destruct H as [He M2]; [|split; [done|by eapply mild_trans]].
  intros c2 E2. assert (c2 = c1) as -> by congruence. auto.
Qed.

(** What is left to hand over: the buffers, and a last look. *)
Definition pieces (d : option chain) : nat := match d with Some d => 1 + length d | None => 0 end.

Lemma refused_loop_ok x a n : forall S, fit x a S ->
  (exists c, pcbs S !! a = Some c /\ recv c <> Recv_tcp_recv_null /\ (pieces (refused_data (core c)) < n)%nat) ->
  post (refused_loop n a S) (fun '(e, S') => e <> ERR_ABRT /\ mild Any a S S').
Proof.
  induction n as [|n IH]; intros S Hf (c & E & Hr & Hn); [lia|]. cbn [refused_loop]. unfold get at 1. rewrite E. cbn [rbind].
  destruct (refused_data (core c)) as [d|] eqn:Ed; [|destruct LWIP_WND_SCALE; [|done]; split; [done|apply mild_refl; by exists c]].
  destruct (if LWIP_WND_SCALE then pbuf_split_64k d else (d, None)) as [front rest] eqn:Ef.
  assert (Hrest : forall k, rest = Some k -> (1 + length k < n)%nat).
  { intros k ->. cbn in Hn. destruct LWIP_WND_SCALE; [|done]. apply split_64k_length in Ef. lia. }
  eapply post_bind; [by apply (set_refused_mild a c)|]. intros S1 (M1 & c1 & E1 & Hd1 & Hr1). cbn beta.
  assert (Hf1 : fit x a S1) by (by eapply fit_mild). eapply post_bind; [apply (event_recv_ok x); [apply Hf1|by eapply mild_live]|]. intros [e S2] (He & M2 & Hrec). cbn beta.
  assert (Hf2 : fit x a S2) by (by eapply fit_mild). destruct (mild_get _ _ _ _ _ M2 E1) as (c2 & E2 & Hr2 & Hd2 & _).
  assert (M12 : mild Any a S S2) by (eapply mild_trans; [exact M1|by eapply mild_any]). destruct (err_ok e).
  - eapply post_bind; [apply (refused_closed_ok x); [done|exists c2; auto]|]. intros [e3 S3] [He3 M3]. cbn [fst snd] in *.
    rewrite bool_decide_eq_false_2 by done. assert (M13 : mild Any a S S3) by (eapply mild_trans; [exact M12|by eapply mild_any]).
    destruct LWIP_WND_SCALE; [|by split]. destruct (mild_get _ _ _ _ _ M3 E2) as (c3 & E3 & Hr3 & Hd3 & _).
    eapply post_mono; [apply IH; [by eapply fit_mild|]|intros [e4 S4] [He4 M4]; split; [done|by eapply mild_trans]].
    exists c3. split_and!; [done|auto|]. assert (refused_data (core c3) = rest \/ refused_data (core c3) = None) as [-> | ->].
    { destruct (Hd3 ltac:(done)) as [-> | ->]; [|auto]. rewrite <- Hd1. auto. }
    + destruct rest as [k|]; cbn in *; [by apply Hrest|]. lia.
    + cbn in *. lia.
  - rewrite bool_decide_eq_false_2 by done. eapply post_bind; [apply (set_refused_mild a c2); [done|auto]|]. intros S3 (M3 & _). split; [done|by eapply mild_trans].
Qed.

Lemma process_refused_ok x a S : fit x a S -> (exists c, pcbs S !! a = Some c /\ refused_data (core c) <> None) ->
  post (tcp_process_refused_data a S) (fun '(e, S') => e <> ERR_ABRT /\ mild Any a S S').
Proof.
  intros Hf (c & E & Hd). unfold tcp_process_refused_data, get. rewrite E. cbn [rbind]. apply (refused_loop_ok x); [done|]. exists c. split_and!; [done| |destruct (refused_data (core c)); cbn; lia].
  destruct Hf as ([Hs _] & _). by apply (sn_pcbs _ _ Hs a c E).
Qed.
End Calls.
