(* ===== verification/TcpSafeIn.v ===== *)
(** * TcpSafeIn: an arriving segment keeps the lists *)

From S2P Require Import Prelude Ip4Addr Opts TcpPcb TcpOut TcpIn TcpStack TcpInput TcpTimer TcpFrame TcpSafety TcpCalls.

Section InputSafe.
Context {o : Opts} {ip : IpLayer}.

(** ** The code of TcpIn *)
Lemma run_parseopt_ok b a t S : is_Some (pcbs S !! a) -> opts_fit t ->
  post (run_parseopt a t S) (fun '(u, S') => mild b a S S' /\ recv_acked u = recv_acked t /\ recv_data u = recv_data t /\ opts_fit u).
Proof.
  intros [c E] Ho. unfold run_parseopt, get. rewrite E. cbn [rbind]. set (v := t <| st := _ |> <| recv_flags := _ |>). pose proof (parseopt_ends v Ho) as He.
  destruct (tcp_parseopt v) as [u| | |] eqn:Eu; try done. cbn [rbind post]. apply keeps_parseopt in Eu as (K & F1 & F2 & F3 & F4 & F5). split_and!; try done; [|unfold opts_fit; by rewrite F5].
  destruct K as (K1 & K2 & K3 & K4). unfold ipcb in K3. cbn in K3. eapply mild_vars; [apply (put_mild b a c (c <| core := pcb (TcpIn.st u) |>)); try done; [by left|unfold rok; cbn; by rewrite K3|by left]|done..].
Qed.

(** [tcp_receive] ran: it may have found a FIN. *)
Definition received (a : Z) (S S' : stack) : Prop :=
  mild Move a (S <| in_recv_flags := in_recv_flags S' |>) S' /\ (in_recv_flags S' = in_recv_flags S \/ in_recv_flags S' = Z.lor (in_recv_flags S) TF_GOT_FIN).

Lemma run_receive_ok a t S : is_Some (pcbs S !! a) -> post (run_in a tcp_receive t S) (fun '(_, S') => received a S S').
Proof.
  intros [c E]. unfold run_in, get. rewrite E. cbn [rbind]. apply post_lift. intros u (K1 & K2 & K3 & K4 & K5)%keeps_receive. cbn [post]. split; [|exact K5].
  eapply mild_vars; [apply (put_mild Move a c (c <| core := pcb (TcpIn.st u) |>)); try done|done..].
  - destruct K4 as [K4|[K4 K4']]; [by left|right]. change (state (core c) = ESTABLISHED) in K4. cbn. unfold ipcb in K4'. by rewrite K4, K4'.
  - unfold rok. cbn. unfold ipcb in K2. by rewrite K2.
  - by left.
Qed.

Lemma received_flag a S S' m : received a S S' -> flag_set TF_GOT_FIN m = false -> flag_set (in_recv_flags S') m = flag_set (in_recv_flags S) m.
Proof. intros [_ [-> | ->]] H; [done|]. by rewrite flag_lor, H, orb_false_r. Qed.

Lemma received_sane x a S S' : received a S S' -> sane x S -> sane x S'.
Proof. intros [M _] Hs. eapply sane_mild; [|exact M]. untouched Hs. Qed.

Lemma received_up tw a S S' : received a S S' -> up tw a S -> up tw a S'.
Proof.
  intros R (c & E & H1 & H2 & H3). assert (Hf := received_flag a S S' TF_CLOSED R eq_refl). destruct R as [M _]. apply (mild_up Move tw a _ _ M). exists c. cbn. by rewrite Hf.
Qed.

Lemma received_held x a S S' : received a S S' -> held x S -> held x S'.
Proof.
  intros R [H1 H2]. split; [by eapply received_sane|]. rewrite (received_flag a S S' TF_CLOSED R eq_refl). intros H%H2. by eapply received_sane.
Qed.

Lemma received_input a S S' : received a S S' -> tcp_input_pcb S' = tcp_input_pcb S.
Proof. intros [M _]. by rewrite (mild_input _ _ _ _ M). Qed.

(** ** TIME-WAIT *)
Lemma reg_tw_ok a c S : sane a S -> detached a S -> pcbs S !! a = Some c -> state (core c) = TIME_WAIT -> post (TCP_REG LTw a S) (fun S' => sane 0 S' /\ pcbs S' = pcbs S /\ tcp_input_pcb S' = tcp_input_pcb S /\ in_recv_flags S' = in_recv_flags S).
Proof.
  intros [I1 I2 I3 I4 I5 I6 I7 I8 I9] (D1 & D2 & D3) E Hc. unfold TCP_REG. rewrite live_pcb by (by eauto). cbn [post]. split_and!; try done. split; try done; cbn.
  - rewrite (app_assoc (tcp_bound_pcbs S)) in *. rewrite <- Permutation_middle. constructor; [|done]. rewrite !elem_of_app. tauto.
  - intros y [->|Hy]%elem_of_cons; [by exists c|auto].
  - intros y d Ed. destruct (I5 y d Ed) as [J1 J2 J3 J4 J5]. split; try done. intros _. destruct (decide (y = a)) as [->|Hy].
    + right. right. cbn. by left.
    + destruct (J5 Hy) as [J|[J|J]]; [by left|by right; left|right; right]. cbn. by right.
Qed.

Lemma to_time_wait_ok x a c S : sane x S -> x = 0 \/ x = a -> pcbs S !! a = Some c -> active_state (state (core c)) = true ->
  post (to_time_wait a S) (fun S' => sane 0 S' /\ (exists c', pcbs S' !! a = Some c' /\ state (core c') = TIME_WAIT) /\ tcp_input_pcb S' = tcp_input_pcb S /\ in_recv_flags S' = in_recv_flags S).
Proof.
  intros Hs Hx E Hc. unfold to_time_wait. eapply post_bind; [eapply (purge_mild Stay); [exact Hs|by exists c]|]. intros S1 M1. cbn beta.
  destruct (mild_state a c _ _ M1 E) as (c1 & E1 & St1 & _). assert (Hs1 : sane x S1) by (by eapply sane_mild). unfold TCP_RMV_ACTIVE.
  rewrite (RMV_ok LActive x) by first [done | by apply live_pcb; [done|exists c1]]. cbn [rbind]. set (S2 := _ <| tcp_active_pcbs_changed := true |>).
  pose proof (sane_unlink LActive x a S1 ltac:(done) Hs1 Hx) as Hu. pose proof (home_detached LActive x a c1 S1 Hs1 E1 ltac:(by rewrite St1)) as Hd.
  assert (Hs2 : sane a S2) by untouched Hu. assert (Hd2 : detached a S2) by done. assert (E2 : pcbs S2 !! a = Some c1) by done.
  assert (HS : tcp_input_pcb S2 = tcp_input_pcb S /\ in_recv_flags S2 = in_recv_flags S) by (destruct M1 as [_ _ _ (_ & _ & D3 & _ & D5) _ _]; by rewrite <- D3, <- D5).
  clearbody S2. destruct HS as [HS1 HS2]. unfold updc, upd, get. rewrite E2. cbn [rbind]. set (c2 := c1 <| core := _ |>). destruct (sn_pcbs _ _ Hs2 a c1 E2) as [J1 J2 J3 J4 J5].
  eapply post_mono; [apply (reg_tw_ok a c2); [by apply (sane_detached_put a c1)|done|apply lookup_insert_eq|done]|].
  intros S3 (T1 & T2 & T3 & T4). split_and!; [done| |by rewrite T3|by rewrite T4]. exists c2. rewrite T2. split; [apply lookup_insert_eq|done].
Qed.

(** ** The state machine *)

(** Nothing is to be delivered. *)
Definition quiet (a : Z) (t : tcp_in) (S : stack) : Prop := is_Some (pcbs S !! a) /\ in_recv_flags S = 0 /\ recv_acked t = 0 /\ recv_data t = None.

(** What [tcp_process] leaves: an aborted pcb, one that a reset ends, or one
    that can be delivered to. *)
Definition processed (a : Z) (v : err_t * tcp_in * stack) : Prop :=
  let '(e, t, S') := v in
  (e = ERR_ABRT -> sane 0 S') /\
  (e <> ERR_ABRT -> held a S' /\ tcp_input_pcb S' = a /\
    (if flag_set (in_recv_flags S') TF_RESET then sane 0 S' /\ exists c, pcbs S' !! a = Some c /\ active_state (state (core c)) = true
     else up true a S' \/ quiet a t S')).

(** The state in which the segment meets the pcb. *)
Record meets (a : Z) (c : pcb_obj) (t : tcp_in) (S : stack) : Prop := {
  me_sane : sane 0 S;
  me_pcb : pcbs S !! a = Some c;
  me_active : active_state (state (core c)) = true;
  me_input : tcp_input_pcb S = a;
  me_flags : in_recv_flags S = 0;
  me_seg : recv_acked t = 0 /\ recv_data t = None;
  me_opts : opts_fit t;
}.

Lemma meets_live a c t S : meets a c t S -> is_Some (pcbs S !! a).
Proof. intros H. exists c. apply H. Qed.

Lemma meets_fit a c t S : meets a c t S -> fit a a S.
Proof. intros H. split_and!; [apply held_0, H|by right|done]. Qed.

Lemma meets_up a c t S : meets a c t S -> state (core c) <> SYN_SENT -> up false a S.
Proof. intros H Hs. exists c. unfold up_state. rewrite (me_active _ _ _ _ H), (me_flags _ _ _ _ H). split_and!; try done. apply H. Qed.

Lemma processed_mild b a c t S e S' : meets a c t S -> e <> ERR_ABRT -> mild b a S S' -> processed a (e, t, S').
Proof.
  intros H He M. split; [done|]. intros _. assert (Hs : sane 0 S') by (eapply sane_mild; [apply H|done]).
  assert (Hf : in_recv_flags S' = 0) by (destruct M as [_ _ _ (_ & _ & _ & _ & D5) _ _]; by rewrite D5, (me_flags _ _ _ _ H)).
  split_and!; [by apply held_0|by rewrite (mild_input _ _ _ _ M), (me_input _ _ _ _ H)|]. rewrite Hf. cbn. right. split_and!; [by eapply mild_live|done|apply H..].
Qed.

Lemma processed_up tw a t e S' : e <> ERR_ABRT -> held a S' -> tcp_input_pcb S' = a -> flag_set (in_recv_flags S') TF_RESET = false -> up tw a S' -> processed a (e, t, S').
Proof.
  intros He Hh Hi Hr (c & E & H1 & H2 & H3). split; [done|]. intros _. split_and!; [done|done|]. rewrite Hr. left. exists c. split_and!; try done.
  unfold up_state in *. destruct (active_state _); [done|]. cbn in *. by destruct tw.
Qed.

Lemma processed_gone a t S S' : gone a S S' -> processed a (ERR_ABRT, t, S').
Proof. intros (G & _). split; [done|]. by intros []. Qed.

Lemma process_rst_ok a c t S : meets a c t S -> post (process_rst a t S) (processed a).
Proof.
  intros H. pose proof (meets_live _ _ _ _ H) as Hl. unfold process_rst, get. rewrite (me_pcb _ _ _ _ H). cbn [rbind].
  destruct (if state_is _ _ then _ else _).
  - destruct (negb _); [|done]. set (S1 := S <| in_recv_flags := _ |>). assert (Hs1 : sane 0 S1) by (pose proof (me_sane _ _ _ _ H) as Hs; untouched Hs).
    eapply post_bind; [apply (updc_mild Stay); [exact Hl|intros p; kdone]|]. intros S2 M2. split; [done|]. intros _.
    assert (Hs2 : sane 0 S2) by (by eapply sane_mild). destruct (mild_state a c _ _ M2 (me_pcb _ _ _ _ H)) as (c2 & E2 & St2 & _).
    split_and!; [by apply held_0|rewrite (mild_input _ _ _ _ M2); apply H|].
    assert (Hf : in_recv_flags S2 = Z.lor (in_recv_flags S) TF_RESET) by (by destruct M2 as [_ _ _ (_ & _ & _ & _ & D5) _ _]). rewrite Hf, flag_lor, orb_true_r.
    split; [done|]. exists c2. split; [done|]. rewrite St2. apply H.
  - destruct (_ && _); [|by eapply (processed_mild Stay); [..|apply mild_refl]].
    eapply post_bind; [apply (updc_mild Stay); [exact Hl|intros p; kdone]|]. intros S2 M2. by eapply processed_mild.
Qed.

(** A callback was made; what follows changes the pcb only a little. *)
Lemma told_processed b a t c u S S1 S2 e : meets a c t S -> mild b a S S1 -> told a a S1 (e, S2) -> up false a S1 -> e <> ERR_ABRT -> forall S3, mild Move a S2 S3 -> processed a (ERR_OK, u, S3).
Proof.
  intros H M1 ((A1 & A2 & _) & _ & A3) Hu He S3 M3. cbn in *. assert (Hi : tcp_input_pcb S1 = a) by (rewrite (mild_input _ _ _ _ M1); apply H).
  specialize (A3 false Hu Hi He). apply (processed_up false); [done| | | |by eapply mild_up].
  - eapply held_mild; [|exact M3]. eapply fate_live; [exact A1|by eapply up_live].
  - rewrite (mild_input _ _ _ _ M3), (ev_input _ _ A2). done.
  - rewrite (ev_reset _ _ (mild_ev _ _ _ _ M3)), (ev_reset _ _ A2), (ev_reset _ _ (mild_ev _ _ _ _ M1)), (me_flags _ _ _ _ H). done.
Qed.

Lemma keeps_syn_sent t p q : syn_sent_pcb t p = Some q ->
  state q = ESTABLISHED /\ local_port q = local_port p /\ refused_data q = refused_data p /\ last_timer q = last_timer p.
Proof.
  unfold syn_sent_pcb. cbv zeta.
  match goal with |- (if 0 <? snd_queuelen ?q then _ else _) = _ -> _ =>
    assert (H : state q = ESTABLISHED /\ local_port q = local_port p /\ refused_data q = refused_data p /\ last_timer q = last_timer p) by (split_and!; reflexivity);
    revert H; generalize q end.
  intros q1 H1. destruct (0 <? _); [|done]. set (q2 := q1 <| snd_queuelen := _ |>). change (unacked q2) with (unacked q1). change (unsent q2) with (unsent q1).
  destruct (unacked q1) as [|x l]; [destruct (unsent q1) as [|x l]; [done|]|]; intros [= <-]; case_bool_decide; exact H1.
Qed.

Lemma process_syn_sent_ok a i c t S : meets a c t S -> state (core c) = SYN_SENT -> post (process_syn_sent a i t S) (processed a).
Proof.
  intros H Hst. pose proof (meets_live _ _ _ _ H) as Hl. unfold process_syn_sent, get. rewrite (me_pcb _ _ _ _ H). cbn [rbind]. destruct (_ && _).
  - apply post_lift. intros q (K1 & K2 & K3 & K4)%keeps_syn_sent. unfold updc at 1, upd at 1, get at 1. rewrite (me_pcb _ _ _ _ H). cbn [rbind]. set (S1 := put a _ S).
    assert (M1 : mild Move a S S1).
    { apply (put_mild Move a c); try done; [apply H|right|by unfold rok; cbn; rewrite K3|by left]. cbn. by rewrite K1, Hst. }
    assert (Hu1 : up false a S1) by (eexists; split; [apply lookup_insert_eq|]; cbn; rewrite K1; split_and!; done).
    clearbody S1. eapply post_bind; [apply (event_connected_ok a); [eapply fit_mild; [by eapply meets_fit|done]|by eapply mild_live]|]. intros [e S2] T. cbn beta.
    case_bool_decide as He; [destruct T as (_ & T & _); by eapply processed_gone, T|].
    eapply post_bind; [apply (updc_mild Move); [|intros p; kdone]|intros S3 M3; by eapply (told_processed Move)].
    destruct T as (_ & _ & T). eapply (up_live false), T; [done|rewrite (mild_input _ _ _ _ M1); apply H|done].
  - destruct (flag_set _ _); [|by eapply (processed_mild Stay); [..|apply mild_refl]].
    eapply post_bind; [apply (on__mild Stay); [done|]|]. { intros s s' [= <-]. by rewrite keeps_rst. }
    intros S1 M1. cbn beta. destruct (mild_live _ _ _ _ M1) as [c1 E1]. unfold get. rewrite E1. cbn [rbind]. destruct (_ <? _); [|by eapply processed_mild].
    eapply post_bind; [apply (on__mild Stay); [by exists c1|]|]. { intros s s' E%keeps_rexmit_rto. etransitivity; [|exact E]. rewrite pcb_updp. kdone. }
    intros S2 M2. eapply processed_mild; [done|done|by eapply mild_trans].
Qed.

(** A synchronized pcb in the active list took the segment in. *)
Record taken (a : Z) (S : stack) : Prop := {
  tk_held : held a S;
  tk_up : up false a S;
  tk_input : tcp_input_pcb S = a;
  tk_reset : flag_set (in_recv_flags S) TF_RESET = false;
}.

Lemma taken_live a S : taken a S -> is_Some (pcbs S !! a).
Proof. intros []. by eapply up_live. Qed.

Lemma taken_active a S : taken a S -> exists c, pcbs S !! a = Some c /\ active_state (state (core c)) = true.
Proof. intros [_ (c & E & H & _) _ _]. exists c. split; [done|]. unfold up_state in H. by rewrite orb_false_r in H. Qed.

Lemma taken_mild b a S S' : taken a S -> mild b a S S' -> taken a S'.
Proof.
  intros [T1 T2 T3 T4] M. split; [by eapply held_mild|by eapply mild_up|by rewrite (mild_input _ _ _ _ M)|by rewrite (ev_reset _ _ (mild_ev _ _ _ _ M))].
Qed.

Lemma taken_processed a t S : taken a S -> processed a (ERR_OK, t, S).
Proof. intros [T1 T2 T3 T4]. by apply (processed_up false). Qed.

Lemma received_taken a S S' : taken a S -> received a S S' -> taken a S'.
Proof.
  intros [T1 T2 T3 T4] R. split; [by eapply received_held|by eapply received_up|by rewrite (received_input _ _ _ R)|by rewrite (received_flag _ _ _ TF_RESET R)].
Qed.

Lemma receive_taken a t S : taken a S -> post (run_in a tcp_receive t S) (fun '(_, S') => taken a S').
Proof. intros T. eapply post_mono; [by apply run_receive_ok, taken_live|]. intros [u S'] R. by eapply received_taken. Qed.

Lemma meets_taken a c t S : meets a c t S -> state (core c) <> SYN_SENT -> taken a S.
Proof. intros H Hs. split; [apply (meets_fit _ _ _ _ H)|by eapply meets_up|apply H|]. by rewrite (me_flags _ _ _ _ H). Qed.

(** A little change of the pcb, and possibly another state. *)
Lemma updc_taken a f S : taken a S -> (forall p, keeps p (f p)) -> post (updc a f S) (taken a).
Proof. intros T Hf. eapply post_mono; [apply (updc_mild Stay); [by apply taken_live|done]|]. intros S' M. by eapply taken_mild. Qed.

Lemma state_taken a f next S : taken a S -> (forall p, keeps p (f p)) -> active_state next = true -> next <> SYN_SENT ->
  post (updc a (fun p => (f p) <| state := next |>) S) (taken a).
Proof.
  intros T Hf H1 H2. destruct (taken_active _ _ T) as (c & E & Hc). unfold updc, upd, get. rewrite E. cbn [rbind post]. eapply (taken_mild Move); [exact T|].
  destruct (Hf (core c)) as (K1 & K2 & K3 & K4). apply (put_mild Move a c); try done; [by right|unfold rok; cbn; by rewrite K3|by left].
Qed.

Lemma time_wait_processed a t S : taken a S -> post (to_time_wait a S) (fun S' => flag_set (in_recv_flags S) TF_CLOSED = false -> processed a (ERR_OK, t, S')).
Proof.
  intros T. destruct (taken_active _ _ T) as (c & E & Hc). eapply post_mono; [apply (to_time_wait_ok a a c); [apply T|by right|done..]|].
  intros S' (K1 & (c' & E' & Hc') & K3 & K4) Hf. apply (processed_up true); [done|by apply held_0|rewrite K3; apply T|rewrite K4; apply T|].
  exists c'. rewrite K4, Hf, Hc'. done.
Qed.

(** The pcb is not about to be removed, since no callback was made. *)
Lemma receive_open a c t S : meets a c t S -> state (core c) <> SYN_SENT ->
  post (run_in a tcp_receive t S) (fun '(_, S') => taken a S' /\ flag_set (in_recv_flags S') TF_CLOSED = false).
Proof.
  intros H Hs. eapply post_mono; [apply run_receive_ok; by eapply meets_live|]. intros [u S'] R. split; [eapply received_taken; [by eapply meets_taken|done]|].
  rewrite (received_flag _ _ _ TF_CLOSED R) by done. by rewrite (me_flags _ _ _ _ H).
Qed.

Lemma flags_mild b a S S' m : mild b a S S' -> flag_set (in_recv_flags S') m = flag_set (in_recv_flags S) m.
Proof. intros [_ _ _ (_ & _ & _ & _ & D5) _ _]. by rewrite D5. Qed.

Lemma receive_passive_ok a c t S : meets a c t S -> state (core c) <> SYN_SENT -> post (receive_passive a t S) (fun '(u, S') => processed a (ERR_OK, u, S')).
Proof.
  intros H Hs. unfold receive_passive. eapply post_bind; [by eapply receive_open|]. intros [u S1] [T1 _]. cbn beta. destruct (got_fin_flag S1); [|by apply taken_processed].
  eapply post_bind; [apply (state_taken a tcp_ack_now CLOSE_WAIT); [done|intros p; kdone|done|done]|]. intros S2 T2. by apply taken_processed.
Qed.

Lemma ack_open a S : taken a S -> flag_set (in_recv_flags S) TF_CLOSED = false -> post (updc a tcp_ack_now S) (fun S' => taken a S' /\ flag_set (in_recv_flags S') TF_CLOSED = false).
Proof.
  intros T Hf. eapply post_mono; [apply (updc_mild Stay); [by apply taken_live|intros p; kdone]|]. intros S' M. split; [by eapply taken_mild|]. by rewrite (flags_mild _ _ _ _ _ M).
Qed.

Lemma process_fin_wait_1_ok a c t S : meets a c t S -> state (core c) <> SYN_SENT -> post (process_fin_wait_1 a t S) (processed a).
Proof.
  intros H Hs. unfold process_fin_wait_1. eapply post_bind; [by eapply receive_open|]. intros [u S1] [T1 F1]. cbn beta.
  destruct (taken_live _ _ T1) as [c1 E1]. unfold get. rewrite E1. cbn [rbind]. destruct (got_fin_flag S1).
  - eapply post_bind; [by apply ack_open|]. intros S2 [T2 F2]. cbn beta. destruct (fin_acked u (core c1)).
    + eapply post_bind; [by apply (time_wait_processed a u)|]. intros S3 K. exact (K F2).
    + eapply post_bind; [apply (state_taken a (fun p => p) CLOSING); [done|done|done|done]|]. intros S3 T3. by apply taken_processed.
  - destruct (fin_acked u (core c1)); [|by apply taken_processed].
    eapply post_bind; [apply (state_taken a (fun p => p) FIN_WAIT_2); done|]. intros S3 T3. by apply taken_processed.
Qed.

Lemma process_fin_wait_2_ok a c t S : meets a c t S -> state (core c) <> SYN_SENT -> post (process_fin_wait_2 a t S) (processed a).
Proof.
  intros H Hs. unfold process_fin_wait_2. eapply post_bind; [by eapply receive_open|]. intros [u S1] [T1 F1]. cbn beta.
  destruct (got_fin_flag S1); [|by apply taken_processed]. eapply post_bind; [by apply ack_open|]. intros S2 [T2 F2]. cbn beta.
  eapply post_bind; [by apply (time_wait_processed a u)|]. intros S3 K. exact (K F2).
Qed.

Lemma process_closing_ok a c t S : meets a c t S -> state (core c) <> SYN_SENT -> post (process_closing a t S) (processed a).
Proof.
  intros H Hs. unfold process_closing. eapply post_bind; [by eapply receive_open|]. intros [u S1] [T1 F1]. cbn beta.
  destruct (taken_live _ _ T1) as [c1 E1]. unfold get. rewrite E1. cbn [rbind]. destruct (fin_acked u (core c1)); [|by apply taken_processed].
  eapply post_bind; [by apply (time_wait_processed a u)|]. intros S3 K. exact (K F1).
Qed.

Lemma process_last_ack_ok a c t S : meets a c t S -> state (core c) <> SYN_SENT -> post (process_last_ack a t S) (processed a).
Proof.
  intros H Hs. unfold process_last_ack. eapply post_bind; [by eapply receive_open|]. intros [u S1] [T1 F1]. cbn beta.
  destruct (taken_live _ _ T1) as [c1 E1]. unfold get. rewrite E1. cbn [rbind]. destruct (fin_acked u (core c1)); [|by apply taken_processed].
  destruct (taken_active _ _ T1) as (c2 & E2 & Hc2). destruct T1 as [[T1 T1'] (c3 & E3 & T2 & T2' & _) T3 T4]. apply (processed_up false); [done| |done| |].
  - pose proof (T1' F1) as Hs0. apply held_0. untouched Hs0.
  - cbn. by rewrite flag_lor, T4.
  - exists c3. split_and!; try done. intros _. by assert (c2 = c3) as <- by congruence.
Qed.

Lemma process_syn_rcvd_ok a i c t S : meets a c t S -> state (core c) <> SYN_SENT -> post (process_syn_rcvd a i t S) (processed a).
Proof.
  intros H Hs. pose proof (meets_live _ _ _ _ H) as Hl. pose proof (me_pcb _ _ _ _ H) as E. unfold process_syn_rcvd, get at 1. rewrite E. cbn [rbind]. destruct (flag_set _ TCP_SYN).
  { destruct (_ =? _); [|by eapply (processed_mild Stay); [..|apply mild_refl]].
    eapply post_bind; [apply (on_mild Stay); [done|]|intros [e S1] M1; by eapply processed_mild]. intros s r s' [= Er]. pose proof (keeps_rexmit s) as K. by rewrite Er in K. }
  destruct (flag_set _ TCP_ACK); [|by eapply (processed_mild Stay); [..|apply mild_refl]]. destruct (TCP_SEQ_BETWEEN _ _ _).
  2: { eapply post_bind; [apply (on__mild Stay); [done|]|intros S1 M1; by eapply processed_mild]. intros s s' [= <-]. by rewrite keeps_rst. }
  eapply post_bind; [by apply (updc_state a c ESTABLISHED S E (me_active _ _ _ _ H))|]. intros S1 M1. cbn beta.
  eapply (post_bind _ _ (fun v => (fst v = ERR_ABRT -> sane 0 (snd v)) /\ (fst v <> ERR_ABRT -> taken a (snd v)))).
  - assert (T1 : taken a S1) by (eapply taken_mild; [by eapply meets_taken|done]). destruct (Z.eqb_spec (listener c) 0) as [Hz|Hz]; [by split|].
    destruct (ob_listener _ _ _ _ (sn_pcbs _ _ (me_sane _ _ _ _ H) _ _ E)) as [|Hlp]; [done|]. apply (mi_lpcbs _ _ _ _ M1) in Hlp.
    destruct Hlp as [l El]. unfold getl. rewrite El. cbn [rbind]. destruct (match accept l with AcceptNULL => _ | _ => _ end); [|done].
    eapply post_bind; [apply (backlog_accepted_mild Stay a); [apply T1|by apply taken_live]|]. intros S2 M2. cbn beta. assert (T2 : taken a S2) by (by eapply taken_mild).
    eapply post_mono; [apply (event_accept_ok a); [split_and!; [apply T2|by right|done]|by apply taken_live|apply (mi_lpcbs _ _ _ _ M2); by exists l]|].
    intros [e S3] ((A1 & A2 & _) & A3 & A4). cbn in *. split; [intros Ha; by apply A3|]. intros Ha. specialize (A4 false (tk_up _ _ T2) (tk_input _ _ T2) Ha).
    split; [eapply fate_live; [exact A1|by eapply up_live]|done|rewrite (ev_input _ _ A2); apply T2|rewrite (ev_reset _ _ A2); apply T2].
  - intros [e S3] [A1 A2]. cbn [fst snd] in *. cbn beta. destruct (negb (err_ok e)) eqn:Ee.
    + case_bool_decide as Ha; [by split; [auto|]; intros []|]. specialize (A2 Ha).
      eapply post_bind; [apply (abandon_ok a); [apply A2|by right|by apply taken_live]|]. intros S4 G. by eapply processed_gone.
    + assert (Ha : e <> ERR_ABRT) by (by intros ->). eapply post_bind; [by apply receive_taken, A2|]. intros [u S4] T4. cbn beta.
      eapply post_bind; [apply updc_taken; [done|intros p; kdone]|]. intros S5 T5. cbn beta.
      eapply (post_bind _ _ (taken a)); [destruct (got_fin_flag S5); [|done]; apply (state_taken a tcp_ack_now CLOSE_WAIT); [done|intros p; kdone|done|done]|]. intros S6 T6. by apply taken_processed.
Qed.

Lemma meets_mild a c t u S S' : meets a c t S -> mild Stay a S S' -> recv_acked u = recv_acked t -> recv_data u = recv_data t -> opts_fit u ->
  exists c', meets a c' u S' /\ state (core c') = state (core c).
Proof.
  intros H M R1 R2 R3. destruct (mild_state a c _ _ M (me_pcb _ _ _ _ H)) as (c' & E' & St & _). exists c'. split; [|done].
  destruct H as [H1 H2 H3 H4 H5 [H6 H7] _]. split; [by eapply sane_mild|done|by rewrite St|by rewrite (mild_input _ _ _ _ M)| |by rewrite R1, R2|done].
  destruct M as [_ _ _ (_ & _ & _ & _ & D5) _ _]. congruence.
Qed.

Lemma tcp_process_ok a i c t S : meets a c t S -> post (tcp_process a i t S) (processed a).
Proof.
  intros H. pose proof (meets_live _ _ _ _ H) as Hl. unfold tcp_process, get at 1. rewrite (me_pcb _ _ _ _ H). cbn [rbind]. destruct (flag_set _ TCP_RST); [by eapply process_rst_ok|].
  destruct (_ && _ && _). { eapply post_bind; [apply (updc_mild Stay); [done|intros p; kdone]|]. intros S1 M1. by eapply processed_mild. }
  eapply post_bind; [apply (updc_mild Stay); [done|intros p; case_match; kdone]|]. intros S1 M1. cbn beta.
  eapply post_bind; [apply (run_parseopt_ok Stay); [by eapply mild_live|apply H]|]. intros [u S2] (M2 & R1 & R2 & R3). cbn beta.
  destruct (meets_mild a c t u S S2 H ltac:(by eapply mild_trans) R1 R2 R3) as (c2 & H2 & St). rewrite <- St.
  assert (Hok : state (core c2) <> SYN_SENT -> post (Ok (ERR_OK, u, S2)) (processed a)) by (intros Hs; by eapply taken_processed, meets_taken).
  destruct (state (core c2)) eqn:E2; try (by apply Hok); try (by eapply process_syn_sent_ok); try (eapply process_syn_rcvd_ok; [done|by rewrite E2]);
    try (eapply process_fin_wait_1_ok; [done|by rewrite E2]); try (eapply process_fin_wait_2_ok; [done|by rewrite E2]);
    try (eapply process_closing_ok; [done|by rewrite E2]); try (eapply process_last_ack_ok; [done|by rewrite E2]);
    (eapply post_bind; [eapply receive_passive_ok; [done|by rewrite E2]|]); by intros [v S3] K.
Qed.

(** ** Delivery *)

(** The state between callbacks. *)
Definition calling (a : Z) (S : stack) : Prop := held a S /\ up true a S /\ tcp_input_pcb S = a.

(** A step that may have ended the pcb. *)
Definition goes (a : Z) (v : bool * stack) : Prop := if fst v then sane 0 (snd v) else calling a (snd v).

Lemma calling_live a S : calling a S -> is_Some (pcbs S !! a).
Proof. intros (_ & H & _). by eapply up_live. Qed.

Lemma calling_fit a S : calling a S -> fit a a S.
Proof. intros (H1 & H2 & H3). split_and!; [done|by right|done]. Qed.

Lemma calling_mild b a S S' : calling a S -> mild b a S S' -> calling a S'.
Proof. intros (H1 & H2 & H3) M. split_and!; [by eapply held_mild|by eapply mild_up|by rewrite (mild_input _ _ _ _ M)]. Qed.

Lemma told_calling a S v : calling a S -> told a a S v -> fst v <> ERR_ABRT -> calling a (snd v).
Proof.
  intros (H1 & H2 & H3) ((A1 & A2 & _) & _ & A3) He. specialize (A3 true H2 H3 He). split_and!; [eapply fate_live; [exact A1|by eapply up_live]|done|].
  by rewrite (ev_input _ _ A2).
Qed.

Lemma sent_loop_ok a n : forall acked S, acked <= 65535 * Z.of_nat n -> calling a S -> post (sent_loop n a acked S) (goes a).
Proof.
  induction n as [|n IH]; intros acked S Hn Hc; cbn [sent_loop]; destruct (Z.ltb_spec 0 acked); try done; [lia|].
  eapply post_bind; [apply (event_sent_ok a); [by apply calling_fit|by apply calling_live]|]. intros [e S1] T. cbn beta. case_bool_decide as He.
  - apply T. done.
  - assert (Hc1 : calling a S1) by (by apply (told_calling a S (e, S1))). destruct LWIP_WND_SCALE; [|done]. apply IH; [lia|done].
Qed.

Lemma delayed_close_ok a S : held a S -> up true a S -> post (tcp_input_delayed_close a S) (fun '(g, S') => if g then sane 0 S' /\ tcp_input_pcb S' = tcp_input_pcb S else S' = S /\ sane 0 S).
Proof.
  intros [H1 H2] (c & E & U1 & U2 & U3). unfold tcp_input_delayed_close. destruct (flag_set _ TF_CLOSED) eqn:Ef; [|split; auto].
  unfold get. rewrite E. cbn [rbind]. set (S1 := if _ && _ then _ else _).
  assert (HS : sane a S1 /\ pcbs S1 !! a = Some c /\ tcp_input_pcb S1 = tcp_input_pcb S) by (unfold S1; destruct (_ && _); [split_and!; [untouched H1|done|done]|done]).
  clearbody S1. destruct HS as (K1 & K2 & K3). eapply post_bind; [apply (remove_ok LActive a a c); [done|by right|done|by apply U3]|].
  intros S2 (R1 & R2 & (c2 & R3 & _) & R4 & _). eapply post_bind; [apply free_ok; [done|done|by exists c2]|]. intros S3 (F1 & F2 & F3 & _). cbn. split; [done|].
  by rewrite (ev_input _ _ F3), (ev_input _ _ R4).
Qed.

Lemma recv_loop_ok a n : forall d S, (pieces d <= n)%nat -> calling a S -> post (recv_loop n a d S) (goes a).
Proof.
  induction n as [|n IH]; intros d S Hn Hc; destruct d as [d|]; cbn [recv_loop]; try done; [cbn in Hn; lia|].
  destruct (if LWIP_WND_SCALE then pbuf_split_64k d else (d, None)) as [front rest] eqn:Ef.
  assert (Hrest : (pieces rest <= n)%nat).
  { destruct rest as [k|]; cbn in *; [|lia]. destruct LWIP_WND_SCALE; [|done]. apply split_64k_length in Ef. lia. }
  destruct (calling_live _ _ Hc) as [c E]. assert (Hs : sane a S) by apply Hc. unfold get. rewrite E. cbn [rbind]. destruct (bool_decide _); [|done]. destruct (flag_set _ TF_RXCLOSED).
  { eapply post_bind; [apply (abandon_ok a); [done|by right|by exists c]|]. intros S1 G. apply G. }
  eapply post_bind; [apply (event_recv_ok a); [done|by exists c]|]. intros [e S1] (He & M1 & Hr). cbn beta. rewrite bool_decide_eq_false_2 by done.
  assert (Hc1 : calling a S1) by (by eapply calling_mild). destruct (calling_live _ _ Hc1) as [c1 E1]. destruct (negb (err_ok e)) eqn:Ee; [|by apply IH].
  unfold upd, get. rewrite E1. cbn [rbind post]. eapply (calling_mild Any); [exact Hc1|]. assert (Hr1 : recv c1 <> Recv_tcp_recv_null) by (apply Hr; [by intros ->|done]).
  apply (put_mild Any a c1); try done; [by left|by intros _ _].
Qed.

Lemma deliver_fin_ok a S : calling a S -> post (deliver_fin a S) (goes a).
Proof.
  intros Hc. unfold deliver_fin. destruct (got_fin_flag S); [|done]. destruct (calling_live _ _ Hc) as [c E]. unfold get. rewrite E. cbn [rbind]. destruct (refused_data (core c)).
  - eapply post_bind; [apply (upd_mild Stay); [by exists c|]|intros S1 M1; by eapply calling_mild]. intros d. split_and!; try done; by left.
  - eapply post_bind; [apply (updc_mild Stay); [by exists c|intros p; case_match; kdone]|]. intros S1 M1. cbn beta. assert (Hc1 : calling a S1) by (by eapply calling_mild).
    eapply post_bind; [apply (event_closed_ok a); [by apply calling_fit|by apply calling_live]|]. intros [e S2] [T _]. cbn [post]. unfold goes. cbn [fst snd].
    case_bool_decide as He; [by apply T|]. by apply (told_calling a S1 (e, S2)).
Qed.

(** The end of [deliver]. *)
Lemma deliver_end a S : held a S -> up true a S ->
  post (let+ (g, T) := tcp_input_delayed_close a S in if g then Ok T else let+ (_, T) := on a tcp_output T in Ok T) (sane 0).
Proof.
  intros H1 H2. eapply post_bind; [by apply delayed_close_ok|]. intros [g S1]. destruct g; [by intros []|]. intros [-> Hs].
  eapply post_bind; [apply (tcp_output_mild Stay); by eapply up_live|]. intros [e S2] M2. by eapply sane_mild.
Qed.

Lemma deliver_ok a t S : calling a S -> post (deliver a t S) (sane 0).
Proof.
  intros Hc. unfold deliver. eapply post_bind; [apply sent_loop_ok; [|exact Hc]; pose proof (Z.div_mod (recv_acked t) 65535); pose proof (Z.mod_pos_bound (recv_acked t) 65535); lia|].
  intros [g S1] G1. destruct g; [exact G1|]. unfold goes in G1. cbn [fst snd] in G1.
  eapply post_bind; [apply delayed_close_ok; apply G1|]. intros [g S2]. destruct g; [by intros []|]. intros [-> _].
  eapply post_bind; [apply recv_loop_ok; [|exact G1]; destruct (recv_data t); cbn; lia|]. intros [g S3] G3. destruct g; [exact G3|]. unfold goes in G3. cbn [fst snd] in G3.
  eapply post_bind; [by apply deliver_fin_ok|]. intros [g S4] G4. destruct g; [exact G4|]. destruct G4 as ([G4 G4'] & G5 & _). apply deliver_end; [|exact G5].
  split; [untouched G4|]. intros Hf. specialize (G4' Hf). untouched G4'.
Qed.

Lemma deliver_quiet a t S : quiet a t S -> sane 0 S -> post (deliver a t S) (sane 0).
Proof.
  intros (Q1 & Q2 & Q3 & Q4) Hs. unfold deliver. rewrite Q3, Q4. change (sent_loop _ a 0 S) with (Ok (false, S)). cbn [rbind].
  assert (Hd : forall T, in_recv_flags T = 0 -> tcp_input_delayed_close a T = Ok (false, T)) by (intros T HT; unfold tcp_input_delayed_close; by rewrite HT).
  rewrite (Hd S Q2). cbn [rbind]. change (recv_loop _ a None S) with (Ok (false, S)). cbn [rbind].
  unfold deliver_fin, got_fin_flag. rewrite Q2. change (flag_set 0 TF_GOT_FIN) with false. cbn [rbind]. rewrite Hd by exact Q2. cbn [rbind].
  eapply post_bind; [apply (tcp_output_mild Stay); exact Q1|]. intros [e S2] M2. eapply sane_mild; [|exact M2]. untouched Hs.
Qed.

Lemma input_reset_ok a c S : sane 0 S -> pcbs S !! a = Some c -> active_state (state (core c)) = true -> post (input_reset a S) (sane 0).
Proof.
  intros Hs E Hc. unfold input_reset, get. rewrite E. cbn [rbind]. set (S1 := if errf c then _ else _).
  assert (HS : sane 0 S1 /\ pcbs S1 !! a = Some c) by (unfold S1; destruct (errf c); [split; [untouched Hs|done]|done]). clearbody S1. destruct HS as [K1 K2].
  eapply post_bind; [apply (remove_ok LActive 0 a c); [done|by left|done|done]|].
  intros S2 (R1 & R2 & (c2 & R3 & _) & R4 & _). eapply post_mono; [apply free_ok; [done|done|by exists c2]|]. by intros S3 (F1 & _).
Qed.

(** ** The active pcb *)

(** Between packets. *)
Definition safe (S : stack) : Prop := sane 0 S /\ tcp_input_pcb S = 0.

Lemma safe_fit a S : safe S -> is_Some (pcbs S !! a) -> fit 0 a S.
Proof.
  intros [Hs Hi] [c E]. split_and!; [by apply held_0|by left|]. rewrite Hi. intros <-. destruct (ob_addr _ _ _ _ (sn_pcbs _ _ Hs _ _ E)). done.
Qed.

Lemma safe_mild b a S S' : safe S -> mild b a S S' -> safe S'.
Proof. intros [Hs Hi] M. split; [by eapply sane_mild|by rewrite (mild_input _ _ _ _ M)]. Qed.

Lemma safe_gone a S S' : safe S -> gone a S S' -> safe S'.
Proof. intros [Hs Hi] (G1 & _ & G3 & _). split; [done|by rewrite (ev_input _ _ G3)]. Qed.

(** Data refused earlier is offered again; the boolean tells to go on. *)
Lemma refused_first_ok a c t S : safe S -> pcbs S !! a = Some c -> active_state (state (core c)) = true -> in_recv_flags S = 0 ->
  post (match refused_data (core c) with
        | None => Ok (true, S)
        | Some _ =>
            let+ (err, T) := tcp_process_refused_data a S in
            let+ drop :=
              (if bool_decide (err = ERR_ABRT) then Ok true
               else let+ c := get a T in Ok (negb (bool_decide (refused_data (core c) = None)) && (0 <? tcplen t))) in
            if drop then
              let+ c := get a T in
              if rcv_ann_wnd (core c) =? 0 then let+ (_, T) := on a (fun s => Some (tcp_send_empty_ack s)) T in Ok (false, T) else Ok (false, T)
            else Ok (true, T)
        end) (fun '(go, S') => safe S' /\ in_recv_flags S' = 0 /\ exists c', pcbs S' !! a = Some c' /\ active_state (state (core c')) = true).
Proof.
  intros Hs E Hc Hf. destruct (refused_data (core c)) eqn:Ed; [|split_and!; [done|done|by exists c]].
  eapply post_bind; [apply (process_refused_ok 0); [apply safe_fit; [done|by exists c]|exists c; by rewrite Ed]|]. intros [e S1] [He M1]. cbn beta.
  rewrite bool_decide_eq_false_2 by done. destruct (mild_get _ _ _ _ _ M1 E) as (c1 & E1 & _ & _ & _ & Mv). unfold get. rewrite E1. cbn [rbind].
  assert (K1 : safe S1 /\ in_recv_flags S1 = 0 /\ exists c', pcbs S1 !! a = Some c' /\ active_state (state (core c')) = true).
  { split_and!; [by eapply safe_mild| |exists c1; split; [done|]]; [by destruct M1 as [_ _ _ (_ & _ & _ & _ & ->) _ _]|]. by destruct Mv as [->|(_ & _ & ? & _)]. }
  destruct (_ && _); [|exact K1]. destruct (_ =? 0); [|exact K1]. destruct K1 as (K1 & K2 & (c' & K3 & K4)).
  eapply post_bind; [apply (on_mild Stay); [by exists c'|]|]. { intros s r s' [= Er]. pose proof (keeps_empty_ack s) as K. by rewrite Er in K. }
  intros [r S2] M2. destruct (mild_state a c' _ _ M2 K3) as (c2 & E2 & St2 & _). split_and!; [by eapply safe_mild|by destruct M2 as [_ _ _ (_ & _ & _ & _ & ->) _ _]|].
  exists c2. by rewrite St2.
Qed.

Lemma input_active_ok a c i t S : safe S -> pcbs S !! a = Some c -> active_state (state (core c)) = true -> recv_acked t = 0 -> recv_data t = None -> opts_fit t ->
  post (input_active a i t S) safe.
Proof.
  intros [Hs Hi] E Hc R1 R2 R3. unfold input_active. set (S0 := S <| in_recv_flags := 0 |>). assert (H0 : safe S0) by (split; [untouched Hs|done]).
  assert (E0 : pcbs S0 !! a = Some c) by done. assert (F0 : in_recv_flags S0 = 0) by done. clearbody S0. unfold get at 1. rewrite E0. cbn [rbind].
  eapply post_bind; [by apply refused_first_ok|]. intros [go S1] (K1 & K2 & c1 & K3 & K4). cbn beta. destruct K1 as [K1 K1']. destruct go; cbn [negb]; [|split; [untouched K1|done]].
  assert (Hm : meets a c1 t (S1 <| tcp_input_pcb := a |>)) by (split; try done; untouched K1).
  eapply post_bind; [by eapply tcp_process_ok|]. intros [[e u] S2] P. cbn beta. unfold processed in P. destruct P as [P1 P2].
  eapply (post_bind _ _ (sane 0)); [|intros S3 K; split; [untouched K|done]]. case_bool_decide as He; [by apply P1|]. destruct (P2 He) as (Q1 & Q2 & Q3).
  destruct (flag_set _ TF_RESET); [destruct Q3 as (Q3 & c2 & Q4 & Q5); by eapply input_reset_ok|]. destruct Q3 as [Q3|Q3]; [by apply deliver_ok|].
  apply deliver_quiet; [done|]. apply Q1. by destruct Q3 as (_ & -> & _).
Qed.

Lemma timewait_input_ok a i t S : safe S -> is_Some (pcbs S !! a) -> post (tcp_timewait_input a i t S) safe.
Proof.
  intros Hs [c E]. unfold tcp_timewait_input. destruct (flag_set _ TCP_RST); [done|]. unfold get. rewrite E. cbn [rbind]. destruct (_ && _).
  { eapply post_mono; [apply (on__mild Stay); [by exists c|]|intros S1 M1; by eapply safe_mild]. intros s s' [= <-]. by rewrite keeps_rst. }
  eapply (post_bind _ _ (mild Stay a S)). { destruct (_ && _); [|by apply mild_refl]. apply updc_mild; [by exists c|intros p; kdone]. }
  intros S1 M1. destruct (0 <? _); [|by eapply safe_mild]. eapply post_bind; [apply (updc_mild Stay); [by eapply mild_live|intros p; kdone]|]. intros S2 M2. cbn beta.
  eapply post_bind; [apply (tcp_output_mild Stay); by eapply mild_live|]. intros [e S3] M3. eapply safe_mild; [exact Hs|]. eapply mild_trans; [exact M1|]. by eapply mild_trans.
Qed.
End InputSafe.
