(* ===== verification/TcpSafeRun.v ===== *)
(** * TcpSafeRun: every operation keeps the lists

    Allocation, the listener, [tcp_input], the timers and the API, and the
    theorem: no sequence of packets, timer ticks and API calls on live pcbs
    makes the stack touch a freed pcb or loop forever. *)

From S2P Require Import Prelude Ip4Addr Opts TcpPcb TcpOut TcpIn TcpStack TcpInput TcpTimer TcpFrame TcpSafety TcpCalls TcpSafeIn.

Section SafeRun.
Context {o : Opts} {ip : IpLayer}.

(** ** Allocation *)

(** What a search for a victim may return. *)
Lemma pick_ok {B} (better : tcp_pcb -> B -> option B) S l : forall best found, (forall y, y ∈ l -> is_Some (pcbs S !! y)) ->
  post (pick better l best found S) (fun r => r = found \/ r ∈ l).
Proof.
  induction l as [|y l IH]; intros best found Hl; cbn [pick]; [by left|]. destruct (Hl y ltac:(by left)) as [c E]. unfold get. rewrite E. cbn [rbind].
  assert (Hl' : forall z, z ∈ l -> is_Some (pcbs S !! z)) by (intros z Hz; apply Hl; by right).
  destruct (better _ _); (eapply post_mono; [by apply IH|]); intros r [->|Hr]; [right; by left|right; by right|by left|right; by right].
Qed.

(** The stack after something that removes pcbs and changes none of the
    listeners' existence. *)
Definition trim (S S' : stack) : Prop := safe S' /\ forall l, is_Some (lpcbs S !! l) -> is_Some (lpcbs S' !! l).

Lemma trim_refl S : safe S -> trim S S.
Proof. by split. Qed.

Lemma trim_trans S1 S2 S3 : trim S1 S2 -> trim S2 S3 -> trim S1 S3.
Proof. intros [H1 H2] [K1 K2]. split; auto. Qed.

Lemma trim_mild b a S S' : safe S -> mild b a S S' -> trim S S'.
Proof. intros Hs M. split; [by eapply safe_mild|]. intros l Hl. by apply (mi_lpcbs _ _ _ _ M). Qed.

Lemma abandon_trim a r S : safe S -> is_Some (pcbs S !! a) -> post (tcp_abandon a r S) (trim S).
Proof.
  intros Hs Hl. eapply post_mono; [apply (abandon_ok 0); [apply Hs|by left|done]|]. intros S' G. split; [by eapply safe_gone|]. destruct G as (_ & _ & G & _). apply G.
Qed.

(** Kill what was picked. *)
Lemma kill_ok w r (f : stack -> res Z) S : safe S -> (forall y, y ∈ get_list w S -> is_Some (pcbs S !! y)) -> post (f S) (fun a => a = 0 \/ a ∈ get_list w S) ->
  post (let+ a := f S in if a =? 0 then Ok S else tcp_abandon a r S) (trim S).
Proof.
  intros Hs Hw Hf. eapply post_bind; [exact Hf|]. intros a Ha. cbn beta. destruct (Z.eqb_spec a 0) as [Hz|Hz]; [by apply trim_refl|].
  apply abandon_trim; [done|]. destruct Ha; [done|auto].
Qed.

Lemma list_live w S y : w <> LListen -> safe S -> y ∈ get_list w S -> is_Some (pcbs S !! y).
Proof. intros Hw [Hs _] Hy. pose proof (sane_live w 0 S y Hs Hy) as H. destruct w; try done; by apply bool_decide_eq_true in H. Qed.

Lemma kill_prio_ok p S : safe S -> post (tcp_kill_prio p S) (trim S).
Proof.
  intros Hs. unfold tcp_kill_prio. destruct (_ =? 0); [by apply trim_refl|].
  match goal with |- context [pick ?b _ ?i 0 S] => apply (kill_ok LActive true (fun S => pick b (tcp_active_pcbs S) i 0 S)) end; [done|intros y; by apply list_live|].
  apply pick_ok. intros y. by apply (list_live LActive).
Qed.

Lemma kill_state_ok st S : safe S -> post (tcp_kill_state st S) (trim S).
Proof.
  intros Hs. unfold tcp_kill_state. destruct (_ || _); [|done].
  apply (kill_ok LActive false (fun S => oldest (fun p => state_is (state p) st) (tcp_active_pcbs S) S)); [done|intros y; by apply list_live|].
  apply pick_ok. intros y. by apply (list_live LActive).
Qed.

Lemma kill_timewait_ok S : safe S -> post (tcp_kill_timewait S) (trim S).
Proof.
  intros Hs. unfold tcp_kill_timewait. apply (kill_ok LTw true (fun S => oldest (fun _ => true) (tcp_tw_pcbs S) S)); [done|intros y; by apply list_live|].
  apply pick_ok. intros y. by apply (list_live LTw).
Qed.

Lemma closepend_one_ok x a S : sane x S -> is_Some (pcbs S !! a) -> post (closepend_one a S) (mild Move a S).
Proof.
  intros Hs [c E]. unfold closepend_one, get. rewrite E. cbn [rbind]. destruct (flag_set _ _); [|apply mild_refl; by exists c].
  eapply post_bind; [apply (updc_mild Move); [by exists c|intros p; kdone]|]. intros S1 M1. cbn beta.
  eapply post_bind; [apply (close_fin_mild x); [by eapply sane_mild|by eapply mild_live]|]. intros [e S2] M2. by eapply mild_trans.
Qed.

Lemma closepend_walk_ok l : forall S, safe S -> (forall y, y ∈ l -> y ∈ tcp_active_pcbs S) -> post (closepend_walk l S) (trim S).
Proof.
  induction l as [|a l IH]; intros S Hs Hl; cbn [closepend_walk]; [by apply trim_refl|].
  eapply post_bind; [apply (closepend_one_ok 0); [apply Hs|apply (list_live LActive); [done|done|apply Hl; by left]]|]. intros S1 M1.
  eapply post_mono; [apply IH; [by eapply safe_mild|]|intros S2 T; eapply trim_trans; [by eapply trim_mild|done]].
  intros y Hy. destruct M1 as [_ _ (_ & _ & -> & _) _ _ _]. apply Hl. by right.
Qed.

(** A fresh element of the pool. *)
Definition fresh (a : Z) (S : stack) : Prop := sane 0 S /\ a <> 0 /\ a ∉ pcb_pool S /\ pcbs S !! a = None.

Definition malloced (S : stack) (v : Z * stack) : Prop := trim S (snd v) /\ (fst v = 0 \/ fresh (fst v) (snd v)).

Lemma malloc_or_ok more S : safe S -> post (more S) (malloced S) -> post (pcb_malloc_or more S) (malloced S).
Proof.
  intros [Hs Hi] Hm. unfold pcb_malloc_or. destruct (pcb_pool S) as [|a l] eqn:E; [done|]. cbn [post]. destruct Hs as [I1 I2 I3 I4 I5 I6 I7 I8 I9]. rewrite E in I6. destruct I6 as [N Z0].
  apply NoDup_cons in N as [N1 N2]. apply not_elem_of_cons in Z0 as [Z1 Z2].
  assert (Hs' : sane 0 (S <| pcb_pool := l |>)).
  { split; try done. intros y c Ey. destruct (I5 y c Ey) as [[J1 J1'] J2 J3 J4 J5]. split; try done. split; [done|]. rewrite E in J1'. by apply not_elem_of_cons in J1' as [_ ?]. }
  split; [by split|]. right. cbn [fst snd]. split_and!; try done. cbn. destruct (pcbs S !! a) as [c|] eqn:Ea; [|done]. destruct (I5 a c Ea) as [[_ J] _ _ _ _]. rewrite E in J. by destruct J; left.
Qed.

Lemma malloced_trim S S1 v : trim S S1 -> malloced S1 v -> malloced S v.
Proof. intros T [H1 H2]. split; [by eapply trim_trans|done]. Qed.

Lemma after_kill (f : stack -> res stack) more S : post (f S) (trim S) -> (forall S1, safe S1 -> post (more S1) (malloced S1)) -> post (let+ T := f S in more T) (malloced S).
Proof. intros Hf Hm. eapply post_bind; [exact Hf|]. intros S1 T. eapply post_mono; [apply Hm, T|]. intros v. by apply malloced_trim. Qed.

(** The new pcb is in no list. *)
Lemma fresh_detached a S : fresh a S -> detached a S.
Proof.
  intros (Hs & _ & _ & Hn). split_and!; intros H; [destruct (sn_bound _ _ Hs a H) as (c & E & _)|destruct (sn_active _ _ Hs a H) as (c & E & _)|destruct (sn_tw _ _ Hs a H) as (c & E & _)]; congruence.
Qed.

Lemma fresh_put a c S : fresh a S -> state (core c) = CLOSED -> listener c = 0 -> rok c -> sane 0 (put a c S).
Proof.
  intros Hf H1 H2 H3. destruct (fresh_detached _ _ Hf) as (D1 & D2 & D3). destruct Hf as (Hs & A1 & A2 & Hn). destruct Hs as [I1 I2 I3 I4 I5 I6 I7 I8 I9].
  assert (Hk : forall y, y <> a -> pcbs (put a c S) !! y = pcbs S !! y) by (intros y Hy; unfold put; cbn; by rewrite lookup_insert_ne).
  split; try done.
  - intros y Hy. rewrite Hk by (intros ->; done). auto.
  - intros y Hy. rewrite Hk by (intros ->; done). auto.
  - intros y Hy. rewrite Hk by (intros ->; done). auto.
  - intros y d. destruct (decide (y = a)) as [->|Hy].
    + unfold put. cbn. rewrite lookup_insert_eq. intros [= <-]. split; try done; [by rewrite H1|by left|by left].
    + rewrite Hk by done. intros Ed. destruct (I5 y d Ed). by split.
Qed.

Lemma alloc_ok p S : safe S -> post (tcp_alloc p S) (fun '(a, S') => trim S S' /\ (a = 0 \/ detached a S' /\ exists c, pcbs S' !! a = Some c /\
  state (core c) = CLOSED /\ local_port (core c) = 0 /\ refused_data (core c) = None /\ listener c = 0)).
Proof.
  intros Hs. unfold tcp_alloc. eapply (post_bind _ _ (malloced S)).
  - apply malloc_or_ok; [done|]. apply (after_kill tcp_handle_closepend); [by apply closepend_walk_ok|]. intros S1 H1. apply (after_kill tcp_kill_timewait); [by apply kill_timewait_ok|].
    intros S2 H2. apply malloc_or_ok; [done|]. apply (after_kill (tcp_kill_state LAST_ACK)); [by apply kill_state_ok|].
    intros S3 H3. apply malloc_or_ok; [done|]. apply (after_kill (tcp_kill_state CLOSING)); [by apply kill_state_ok|].
    intros S4 H4. apply malloc_or_ok; [done|]. apply (after_kill (tcp_kill_prio p)); [by apply kill_prio_ok|].
    intros S5 H5. apply malloc_or_ok; [done|]. cbn. split; [by apply trim_refl|by left].
  - intros [a S1] [[[T1 T1'] T2] Hf]. cbn [fst snd] in *. cbn beta. destruct (Z.eqb_spec a 0) as [->|Hz]; cbn [post]; [split; [split; [by split|done]|by left]|]. destruct Hf as [|Hf]; [done|]. split.
    + split; [|done]. split; [|done]. apply fresh_put; [done|done|done|by unfold rok].
    + right. split; [by apply fresh_detached in Hf|]. eexists. split; [apply lookup_insert_eq|done].
Qed.

(** ** Passive open *)

(** A detached pcb in an active state goes to the active list. *)
Lemma reg_active_ok a c S : sane a S -> detached a S -> pcbs S !! a = Some c -> active_state (state (core c)) = true -> tcp_input_pcb S = 0 ->
  post (TCP_REG_ACTIVE a S) (fun S' => safe S' /\ pcbs S' = pcbs S).
Proof.
  intros [I1 I2 I3 I4 I5 I6 I7 I8 I9] (D1 & D2 & D3) E Hc Hi. unfold TCP_REG_ACTIVE, TCP_REG. rewrite live_pcb by (by eauto). cbn [rbind post]. split_and!; try done.
  split; try done. split; try done; cbn.
  - rewrite <- Permutation_middle. constructor; [|done]. rewrite !elem_of_app. tauto.
  - intros y [->|Hy]%elem_of_cons; [by exists c|auto].
  - intros y d Ed. destruct (I5 y d Ed) as [J1 J2 J3 J4 J5]. split; try done. intros _. destruct (decide (y = a)) as [->|Hy].
    + right. left. cbn. by left.
    + destruct (J5 Hy) as [J|[J|J]]; [by left|right; left|by right; right]. cbn. by right.
Qed.

Lemma listen_input_ok lp i t S : safe S -> is_Some (lpcbs S !! lp) -> opts_fit t -> post (tcp_listen_input lp i t S) safe.
Proof.
  intros Hs [l El] Ho. assert (Hrst : forall T, safe T -> safe (tcp_rst_netif i t T)).
  { intros T [HT HT']. unfold tcp_rst_netif. destruct (g_allocs T) as [|[] ?]; (split; [untouched HT|done]). }
  unfold tcp_listen_input. destruct (flag_set _ TCP_RST); [done|]. destruct (flag_set _ TCP_ACK); [by apply Hrst|]. destruct (flag_set _ TCP_SYN); [|done].
  unfold getl at 1. rewrite El. cbn [rbind]. destruct (_ <=? _); [done|]. eapply post_bind; [by apply alloc_ok|]. intros [a S1] ([T1 T1'] & Ha). cbn beta.
  destruct (T1' lp ltac:(by exists l)) as [l1 El1]. destruct (Z.eqb_spec a 0) as [->|Hz].
  { unfold TCP_EVENT_ACCEPT_ERR, getl. rewrite El1. cbn [rbind]. destruct (accept l1); try done. destruct T1 as [T1 T2]. split; [untouched T1|done]. }
  destruct Ha as [|(Hd & c & Ec & C1 & C2 & C3 & C4)]; [done|]. unfold getl. rewrite El1. cbn [rbind]. destruct (tcp_next_iss _) as [isn S3] eqn:E3. unfold upd at 1, get at 1.
  unfold tcp_next_iss in E3. injection E3 as _ E3. assert (Ec3 : pcbs S3 !! a = Some c) by (by rewrite <- E3). rewrite Ec3. cbn [rbind].
  assert (Hs3 : sane a S3 /\ detached a S3 /\ tcp_input_pcb S3 = 0 /\ is_Some (lpcbs S3 !! lp)).
  { rewrite <- E3. destruct T1 as [T1 T2]. assert (M : mild Stay a S1 (putl lp (l1 <| accepts_pending := u8 (accepts_pending l1 + 1) |>) S1)) by (eapply putl_mild; [by exists c|done]).
    split_and!; [|exact Hd|exact T2|cbn; rewrite lookup_insert_eq; eauto]. assert (Hm : sane a (putl lp (l1 <| accepts_pending := u8 (accepts_pending l1 + 1) |>) S1)) by (eapply sane_mild; [by apply sane_weaken|done]).
    untouched Hm. }
  clear E3. destruct Hs3 as (Hs3 & Hd3 & Hi3 & Hl3). set (c3 := c <| core := _ |> <| listener := lp |>).
  eapply post_bind; [apply (reg_active_ok a c3); [|done|apply lookup_insert_eq|done|done]|].
  { apply (sane_detached_put a c); try done; [by right|]. unfold rok. cbn. by rewrite C3. }
  intros S4 [H4 E4]. cbn beta. assert (L4 : is_Some (pcbs S4 !! a)) by (rewrite E4; unfold put; cbn; rewrite lookup_insert_eq; eauto).
  eapply post_bind; [by apply (run_parseopt_ok Stay)|]. intros [u S5] [M5 _]. cbn beta.
  eapply post_bind; [apply (updc_mild Stay); [by eapply mild_live|intros p; kdone]|]. intros S6 M6. cbn beta.
  eapply post_bind; [apply (on_mild Stay); [by eapply mild_live|apply keeps_enqueue]|]. intros [rc S7] M7. cbn beta.
  assert (H7 : safe S7) by (eapply safe_mild; [eapply safe_mild; [by eapply safe_mild|done]|done]). destruct (negb _).
  - eapply post_mono; [apply abandon_trim; [done|by eapply mild_live]|]. by intros S8 [? _].
  - eapply post_bind; [apply (tcp_output_mild Stay); by eapply mild_live|]. intros [e S8] M8. by eapply safe_mild.
Qed.

(** ** Packets *)
Lemma find_pcb_ok ok i S l : (forall y, y ∈ l -> is_Some (pcbs S !! y)) -> post (find_pcb ok i l S) (fun r => r = 0 \/ r ∈ l).
Proof.
  induction l as [|y l IH]; intros Hl; cbn [find_pcb]; [by left|]. destruct (Hl y ltac:(by left)) as [c E]. unfold get. rewrite E. cbn [rbind]. destruct (ok _); [|done].
  destruct (pcb_matches _ _); [right; by left|]. eapply post_mono; [apply IH; intros z Hz; apply Hl; by right|]. intros r [->|Hr]; [by left|right; by right].
Qed.

Lemma find_lpcb_ok i S l : (forall y, y ∈ l -> is_Some (lpcbs S !! y)) -> post (find_lpcb i l S) (fun r => r = 0 \/ r ∈ l).
Proof.
  induction l as [|y l IH]; intros Hl; cbn [find_lpcb]; [by left|]. destruct (Hl y ltac:(by left)) as [c E]. unfold getl. rewrite E. cbn [rbind].
  destruct (_ && _); [right; by left|]. eapply post_mono; [apply IH; intros z Hz; apply Hl; by right|]. intros r [->|Hr]; [by left|right; by right].
Qed.

Lemma to_front_perm a l : NoDup l -> a ∈ l -> to_front a l ≡ₚ l.
Proof.
  intros Hn Ha. unfold to_front. rewrite rmv_spec by done. change (default l (Some ?w)) with w. apply NoDup_Permutation; [|done|].
  - constructor; [by intros [? _]%elem_without|by apply NoDup_filter].
  - intros y. rewrite elem_of_cons, elem_without. destruct (decide (y = a)) as [->|]; [tauto|]. split; [intros [?|[_ ?]]; done|auto].
Qed.

Lemma active_front a S : sane 0 S -> a ∈ tcp_active_pcbs S -> sane 0 (S <| tcp_active_pcbs := to_front a (tcp_active_pcbs S) |>).
Proof.
  intros Hs Ha. pose proof (to_front_perm a _ (sane_nodup LActive 0 S Hs) Ha) as P. cbn [get_list] in P. revert P. generalize (to_front a (tcp_active_pcbs S)). intros l P. destruct Hs as [I1 I2 I3 I4 I5 I6 I7 I8 I9]. split; try done; cbn.
  - by rewrite P.
  - intros y. rewrite P. auto.
  - intros y c E. destruct (I5 y c E) as [J1 J2 J3 J4 J5]. split; try done. intros Hy. cbn. rewrite P. auto.
Qed.

Lemma listen_front a S : sane 0 S -> a ∈ tcp_listen_pcbs S -> sane 0 (S <| tcp_listen_pcbs := to_front a (tcp_listen_pcbs S) |>).
Proof.
  intros Hs Ha. pose proof (to_front_perm a _ (sane_nodup LListen 0 S Hs) Ha) as P. cbn [get_list] in P. revert P. generalize (to_front a (tcp_listen_pcbs S)). intros l P. destruct Hs as [I1 I2 I3 I4 I5 I6 I7 I8 I9]. split; try done; cbn.
  - intros y c E. destruct (I5 y c E). by split.
  - destruct I7 as (H1 & H2 & H3). split_and!; [by rewrite P| |done]. intros y. by rewrite P.
Qed.

Lemma header_ok src dest n p : post (tcp_input_header src dest n p) (fun h => match h with Some (_, t) => recv_acked t = 0 /\ recv_data t = None /\ opts_fit t | None => True end).
Proof.
  unfold tcp_input_header. destruct p as [|b rest]; [done|]. destruct (_ <? _); [done|]. destruct (_ || _); [done|]. destruct (negb _); [done|]. cbv zeta. destruct (_ || _) eqn:Eh; [done|]. apply orb_false_iff in Eh as [Eh _].
  assert (Ho : 0 <= 4 * (u8 (nth 12 b 0) / 16) - TCP_HLEN <= 40).
  { apply Z.ltb_ge in Eh. unfold TCP_HLEN in *. pose proof (u8_range (nth 12 b 0)) as Hu. unfold is_u8 in Hu. split; [lia|]. assert (u8 (nth 12 b 0) / 16 <= 15); [|lia]. apply Z.lt_succ_r, Z.div_lt_upper_bound; lia. }
  eapply (post_bind _ _ (fun _ => True)).
  - clear Eh. destruct (_ <=? _); [done|]. destruct rest; [done|]. by destruct (_ <? _).
  - intros [[[k q] c]|] _; [|done]. clear Eh. destruct (_ <? _); [done|]. by split_and!.
Qed.

Lemma tcp_input_ok src dest n p S : safe S -> post (tcp_input src dest n p S) safe.
Proof.
  intros Hs. unfold tcp_input. eapply post_bind; [apply header_ok|]. intros [[i t]|] R; [|done]. destruct R as (R1 & R2 & R3).
  assert (Hrst : safe (if flag_set (in_flags t) TCP_RST then S else tcp_rst_netif i t S)).
  { destruct (flag_set _ _); [done|]. destruct Hs as [HT HT']. unfold tcp_rst_netif. destruct (g_allocs S) as [|[] ?]; (split; [untouched HT|done]). }
  eapply post_bind; [apply find_pcb_ok; intros y; by apply (list_live LActive)|]. intros a Ha. cbn beta. destruct (Z.eqb_spec a 0) as [_|Hz]; cbn [negb].
  2: { destruct Ha as [|Ha]; [done|]. destruct (sn_active _ _ (proj1 Hs) a Ha) as (c & E & Hc). apply (input_active_ok a c); try done. split; [by apply active_front; [apply Hs|]|apply Hs]. }
  eapply post_bind; [apply find_pcb_ok; intros y; by apply (list_live LTw)|]. intros b Hb. cbn beta. destruct (Z.eqb_spec b 0) as [_|Hz]; cbn [negb].
  2: { destruct Hb as [|Hb]; [done|]. apply timewait_input_ok; [done|]. by apply (list_live LTw). }
  destruct (match tcp_listen_pcbs S with [] => _ | _ => _ end); [|done]. destruct (tcp_listen_pcbs S) as [|lp l] eqn:El; [exact Hrst|].
  assert (Hlive : forall y, y ∈ lp :: l -> is_Some (lpcbs S !! y)) by (intros y; rewrite <- El; apply (sn_listen _ _ (proj1 Hs))).
  destruct (_ && _); [apply listen_input_ok; [done|apply Hlive; by left|done]|].
  eapply post_bind; [by apply find_lpcb_ok|]. intros q Hq. cbn beta. destruct (Z.eqb_spec q 0) as [_|Hz]; cbn [negb]; [exact Hrst|]. destruct Hq as [|Hq]; [done|].
  apply listen_input_ok; [|by apply Hlive|done]. split; [|apply Hs]. rewrite <- El. apply listen_front; [apply Hs|by rewrite El].
Qed.
End SafeRun.
