(* ===== verification/TcpSafeTmr.v ===== *)
(** * TcpSafeTmr: the timers keep the lists, and end

    Both timers walk the active list and may start over when a callback has
    changed it.  A pcb is handled once per tick, since it is marked, so the
    number of unmarked pcbs bounds the restarts. *)

From S2P Require Import Prelude Ip4Addr Opts TcpPcb TcpOut TcpIn TcpStack TcpInput TcpTimer TcpFrame TcpSafety TcpCalls TcpSafeIn TcpSafeRun.

Section SafeTimer.
Context {o : Opts} {ip : IpLayer}.

(** ** Marks *)
Definition unmarked (S : stack) (a : Z) : Prop := match pcbs S !! a with Some c => last_timer (core c) <> tcp_timer_ctr S | None => True end.
#[export] Instance unmarked_dec S a : Decision (unmarked S a).
Proof. unfold unmarked. destruct (pcbs S !! a); apply _. Defined.

Definition todo (S : stack) : nat := length (filter (unmarked S) (tcp_active_pcbs S)).

Lemma filter_sublist (P Q : Z -> Prop) `{!forall y, Decision (P y), !forall y, Decision (Q y)} l k :
  l `sublist_of` k -> (forall y, y ∈ l -> P y -> Q y) -> (length (filter P l) <= length (filter Q k))%nat.
Proof.
  induction 1 as [|y l k Hs IH|y l k Hs IH]; intros Hl; [done| |].
  - assert (Hl' : forall z, z ∈ l -> P z -> Q z) by (intros z Hz; apply Hl; by right). specialize (IH Hl'). rewrite !filter_cons.
    destruct (decide (P y)) as [Hp|Hp]; [rewrite decide_True by (apply Hl; [by left|done])|destruct (decide (Q y))]; cbn [length]; lia.
  - specialize (IH Hl). rewrite (filter_cons Q). destruct (decide (Q y)); cbn [length]; lia.
Qed.

Lemma todo_ev x S S' : sane x S' -> ev S S' -> (todo S' <= todo S)%nat.
Proof.
  intros Hs He. apply filter_sublist; [apply He|]. intros y Hy. unfold unmarked. destruct (sn_active _ _ Hs y Hy) as (c' & E' & _). rewrite E'.
  destruct (ev_pcbs _ _ He y c' E') as (c & -> & Hl). by rewrite Hl, (ev_ctr _ _ He).
Qed.

Lemma todo_le S : (todo S <= length (tcp_active_pcbs S))%nat.
Proof. apply length_filter. Qed.

(** Changing fields of a pcb that the lists do not depend on. *)
Lemma sane_put x a c c' S : sane x S -> pcbs S !! a = Some c -> state (core c') = state (core c) -> (a ∈ tcp_bound_pcbs S -> local_port (core c') <> 0) ->
  listener c' = listener c -> rok c' -> sane x (put a c' S).
Proof.
  intros Hs E H1 H2 H3 H4. destruct Hs as [I1 I2 I3 I4 I5 I6 I7 I8 I9].
  assert (Hk : forall y d, pcbs S !! y = Some d -> exists d', pcbs (put a c' S) !! y = Some d' /\ state (core d') = state (core d) /\ (y <> a -> d' = d) /\ (y = a -> d' = c')).
  { intros y d Ed. unfold put. cbn. destruct (decide (y = a)) as [->|Hy]; [exists c'; rewrite lookup_insert_eq; by assert (d = c) as -> by congruence|exists d; by rewrite lookup_insert_ne]. }
  split; try done.
  - intros y Hy. destruct (I2 y Hy) as (d & Ed & Hd & Hp). destruct (Hk y d Ed) as (d' & Ed' & Hd' & N1 & N2). exists d'. split_and!; [done|congruence|].
    destruct (decide (y = a)) as [->|Hya]; [rewrite N2 by done; auto|by rewrite N1].
  - intros y Hy. destruct (I3 y Hy) as (d & Ed & Hd). destruct (Hk y d Ed) as (d' & Ed' & Hd' & _). exists d'. by rewrite Hd'.
  - intros y Hy. destruct (I4 y Hy) as (d & Ed & Hd). destruct (Hk y d Ed) as (d' & Ed' & Hd' & _). exists d'. by rewrite Hd'.
  - intros y d. unfold put. cbn. rewrite lookup_insert_Some. intros [[<- <-]|[Hya Ed]].
    + destruct (I5 a c E) as [J1 J2 J3 J4 J5]. split; try done; rewrite ?H1, ?H3; done.
    + destruct (I5 y d Ed). by split.
Qed.

Definition mark (a : Z) (c : pcb_obj) (S : stack) : stack := put a (c <| core := (core c) <| last_timer := tcp_timer_ctr S |> |>) S.

Lemma mark_ok a c S : safe S -> pcbs S !! a = Some c -> safe (mark a c S).
Proof.
  intros [Hs Hi] E. split; [|done]. apply (sane_put 0 a c); try done; [|apply (sn_pcbs _ _ Hs a c E)].
  intros Hb. destruct (sn_bound _ _ Hs a Hb) as (d & Ed & _ & Hp). by assert (d = c) as <- by congruence.
Qed.

Lemma mark_todo a c S : sane 0 S -> a ∈ tcp_active_pcbs S -> pcbs S !! a = Some c -> last_timer (core c) <> tcp_timer_ctr S -> (todo (mark a c S) < todo S)%nat.
Proof.
  intros Hs Ha E Hm. unfold todo. change (tcp_active_pcbs (mark a c S)) with (tcp_active_pcbs S). pose proof (sane_nodup LActive 0 S Hs) as Hn. cbn [get_list] in Hn.
  assert (Hu : unmarked S a) by (unfold unmarked; by rewrite E).
  assert (Hk : forall y, y <> a -> unmarked (mark a c S) y <-> unmarked S y) by (intros y Hy; unfold unmarked, mark, put; cbn; by rewrite lookup_insert_ne).
  assert (Hna : ~ unmarked (mark a c S) a) by (unfold unmarked, mark, put; cbn; rewrite lookup_insert_eq; cbn; auto).
  induction (tcp_active_pcbs S) as [|y l IH]; [by apply not_elem_of_nil in Ha|]. apply NoDup_cons in Hn as [N1 N2].
  apply elem_of_cons in Ha as [<-|Ha].
  - rewrite filter_cons_False, filter_cons_True by done. cbn [length]. apply Nat.lt_succ_r. apply filter_sublist; [done|]. intros z Hz. apply Hk. by intros ->.
  - specialize (IH Ha N2). rewrite !filter_cons. destruct (decide (y = a)) as [->|Hy]; [done|].
    destruct (decide (unmarked (mark a c S) y)) as [Hp|Hp]; [rewrite decide_True by (by apply Hk)|rewrite decide_False by (by rewrite <- Hk)]; cbn [length]; lia.
Qed.

(** The pcbs that have not been handled in this tick are in [l]. *)
Definition pending (l : list Z) (S : stack) : Prop := forall y, y ∈ tcp_active_pcbs S -> unmarked S y -> y ∈ l.

Lemma pending_ev x l S S' : sane x S' -> ev S S' -> pending l S -> pending l S'.
Proof.
  intros Hs He Hp y Hy Hu. apply Hp; [eapply sublist_subseteq; [apply He|done]|]. revert Hu. unfold unmarked. destruct (sn_active _ _ Hs y Hy) as (c' & E' & _). rewrite E'.
  destruct (ev_pcbs _ _ He y c' E') as (c & -> & Hl). by rewrite Hl, (ev_ctr _ _ He).
Qed.

Lemma pending_all S : pending (tcp_active_pcbs S) S.
Proof. by intros y. Qed.

Lemma pending_skip a c l S : pcbs S !! a = Some c -> last_timer (core c) = tcp_timer_ctr S -> pending (a :: l) S -> pending l S.
Proof. intros E Hm Hp y Hy Hu. destruct (proj1 (elem_of_cons _ _ _) (Hp y Hy Hu)) as [->|]; [|done]. unfold unmarked in Hu. by rewrite E in Hu. Qed.

Lemma pending_mark a c l S : pending (a :: l) S -> pending l (mark a c S).
Proof.
  intros Hp y Hy Hu. revert Hu. unfold unmarked, mark, put. cbn. destruct (decide (y = a)) as [->|Hya]; [rewrite lookup_insert_eq; by intros []|].
  rewrite lookup_insert_ne by done. intros Hu. by destruct (proj1 (elem_of_cons _ _ _) (Hp y Hy Hu)).
Qed.

(** All active pcbs have been handled. *)
Definition ticked (S : stack) : Prop := forall a, a ∈ tcp_active_pcbs S -> exists c, pcbs S !! a = Some c /\ last_timer (core c) = tcp_timer_ctr S.

Lemma pending_none x S : sane x S -> pending [] S -> ticked S.
Proof.
  intros Hs Hp a Ha. destruct (sn_active _ _ Hs a Ha) as (c & E & _). exists c. split; [done|]. destruct (decide (unmarked S a)) as [Hu|Hu]; [by apply Hp, not_elem_of_nil in Hu|].
  unfold unmarked in Hu. rewrite E in Hu. by destruct (decide (last_timer (core c) = tcp_timer_ctr S)).
Qed.

(** The slow timer of one pcb marks it first. *)
Lemma slow_pcb_ok a c S : pcbs S !! a = Some c ->
  post (on a (fun s => let? (rm, reset, s) := slow_pcb (tcp_timer_ctr S) s in Some ((rm, reset), s)) S) (fun '(_, S') => mild Stay a (mark a c S) S').
Proof.
  intros E. unfold on, get. rewrite E. cbn [rbind]. apply post_lift. intros [r s'] Es. destruct (slow_pcb _ _) as [[[rm reset] s1]|] eqn:E1; [|done]. injection Es as _ <-.
  apply keeps_slow_pcb in E1 as (K1 & K2 & K3 & K4). cbn [post]. split; try done.
  - exists (c <| core := (core c) <| last_timer := tcp_timer_ctr S |> |>), (c <| core := pcb s1 |>). unfold mark, put, back. cbn. rewrite !lookup_insert_eq.
    split_and!; try done; [by left|unfold rok; cbn; cbn in K3; by rewrite K3|by left].
  - intros y Hy. unfold mark, put, back, put. cbn. by rewrite !lookup_insert_ne.
Qed.

(** ** The slow timer *)
Lemma slow_remove_ok a r c S : safe S -> pcbs S !! a = Some c -> active_state (state (core c)) = true ->
  post (slow_remove a r S) (fun S' => safe S' /\ ev S S' /\ tcp_active_pcbs S' = without a (tcp_active_pcbs S) /\ tcp_active_pcbs_changed S' = false).
Proof.
  intros [Hs Hi] E Hc. unfold slow_remove, get at 1. rewrite E. cbn [rbind]. eapply post_bind; [apply (purge_mild Stay 0); [done|by exists c]|]. intros S1 M1. cbn beta.
  destruct (mild_state a c _ _ M1 E) as (c1 & E1 & St1 & _). assert (Hs1 : sane 0 S1) by (by eapply sane_mild).
  rewrite (RMV_ok LActive 0) by first [done | by apply live_pcb; [done|exists c1]]. cbn [rbind]. cbn [get_list].
  pose proof (sane_unlink LActive 0 a S1 ltac:(done) Hs1 ltac:(by left)) as Hu. pose proof (home_detached LActive 0 a c1 S1 Hs1 E1 ltac:(by rewrite St1)) as Hd.
  pose proof (ev_unlink LActive a S1) as He. cbn [get_list] in *. set (S2 := set_list LActive _ S1) in *.
  assert (HS : pcbs S2 !! a = Some c1 /\ tcp_active_pcbs S2 = without a (tcp_active_pcbs S)) by (split; [done|]; destruct M1 as [_ _ (_ & _ & <- & _) _ _ _]; done).
  clearbody S2. destruct HS as [E2 A2]. unfold get. rewrite E2. cbn [rbind].
  eapply (post_bind _ _ (mild Stay a S2)); [destruct r; [apply rst_own_mild; by exists c1|apply mild_refl; by exists c1]|]. intros S3 M3. cbn beta.
  eapply post_bind; [apply free_ok; [by eapply sane_mild|by eapply mild_detached|by eapply mild_live]|]. intros S4 (F1 & F2 & F3 & F4 & _).
  assert (Hev : ev S S4) by (etransitivity; [by eapply mild_ev|]; etransitivity; [exact He|]; etransitivity; [by eapply mild_ev|done]).
  assert (A4 : tcp_active_pcbs S4 = without a (tcp_active_pcbs S)) by (rewrite F4, <- A2; by destruct M3 as [_ _ (_ & _ & -> & _) _ _ _]).
  assert (H4 : safe S4) by (split; [done|by rewrite (ev_input _ _ Hev)]). destruct H4 as [H4 H4']. destruct (errf c); (split_and!; [split; [untouched F1|done]|untouched Hev|done|done]).
Qed.

Lemma slow_poll_ok a S : safe S -> is_Some (pcbs S !! a) -> a ∈ tcp_active_pcbs S ->
  post (slow_poll a S) (fun '(again, S') => safe S' /\ ev S S' /\ (again = false -> tcp_active_pcbs S' = tcp_active_pcbs S)).
Proof.
  intros Hs Hl Ha. unfold slow_poll. eapply post_bind; [apply (updc_mild Stay); [done|intros p; kdone]|]. intros S1 M1. cbn beta. destruct (mild_live _ _ _ _ M1) as [c1 E1].
  assert (Hs1 : safe S1) by (by eapply safe_mild). assert (L1 : tcp_active_pcbs S1 = tcp_active_pcbs S) by (by destruct M1 as [_ _ (_ & _ & -> & _) _ _ _]).
  unfold get. rewrite E1. cbn [rbind]. destruct (_ <=? _); [|split_and!; [done|by eapply mild_ev|done]]. set (S2 := S1 <| tcp_active_pcbs_changed := false |>).
  assert (H2 : safe S2) by (destruct Hs1 as [Hs1 Hi1]; split; [untouched Hs1|done]). assert (V2 : ev S S2) by (pose proof (mild_ev _ _ _ _ M1) as V1; untouched V1).
  assert (L2 : tcp_active_pcbs S2 = tcp_active_pcbs S) by done. assert (C2 : tcp_active_pcbs_changed S2 = false) by done. assert (E2 : pcbs S2 !! a = Some c1) by done. clearbody S2.
  eapply post_bind; [apply (updc_mild Stay); [by exists c1|intros p; kdone]|]. intros S3 M3. cbn beta. assert (H3 : safe S3) by (by eapply safe_mild).
  eapply post_bind; [apply (event_poll_ok 0); [apply safe_fit; [done|by eapply mild_live]|by eapply mild_live]|]. intros [e S4] (A1 & A2 & A3). cbn beta.
  assert (H4 : safe S4) by (split; [unfold fate in A1; destruct (pcbs S4 !! a); [by apply held_sane|done]|rewrite (ev_input _ _ A2); apply H3]).
  assert (V4 : ev S S4) by (etransitivity; [exact V2|]; etransitivity; [by eapply mild_ev|done]). destruct (tcp_active_pcbs_changed S4) eqn:C4; [by split_and!|].
  assert (L4 : tcp_active_pcbs S4 = tcp_active_pcbs S). { destruct (A3 C4) as [_ ->]. rewrite <- L2. by destruct M3 as [_ _ (_ & _ & -> & _) _ _ _]. }
  destruct (err_ok e); [|by split_and!]. eapply post_bind; [apply (tcp_output_mild Stay); apply (list_live LActive); [done|done|cbn; by rewrite L4]|]. intros [e5 S5] M5.
  split_and!; [by eapply safe_mild|etransitivity; [exact V4|by eapply mild_ev]|]. intros _. rewrite <- L4. by destruct M5 as [_ _ (_ & _ & -> & _) _ _ _].
Qed.

(** Enough fuel for a walk over [l]. *)
Definition enough (n : nat) (l : list Z) (S : stack) (fuel : nat) : Prop :=
  (length (tcp_active_pcbs S) <= n /\ length l + todo S * (n + 1) <= fuel)%nat.

Lemma without_suffix a pre l : NoDup (pre ++ a :: l) -> without a (pre ++ a :: l) = pre ++ l.
Proof.
  intros Hn. apply NoDup_app in Hn as (_ & Hp & Hn). apply NoDup_cons in Hn as [Ha _]. unfold without. rewrite filter_app, filter_cons_False by (by intros H).
  fold (without a pre). fold (without a l). rewrite !without_other; [done|done|]. intros H. by apply (Hp a H), list_elem_of_here.
Qed.

Lemma slow_active_ok n fuel : forall l S, safe S -> l `suffix_of` tcp_active_pcbs S -> enough n l S fuel -> pending l S -> post (slow_active fuel l S) (fun S' => safe S' /\ pending [] S').
Proof.
  induction fuel as [|fuel IH]; intros l S Hs Hl [Hn Hf] Hp; destruct l as [|a l]; cbn [slow_active]; try done; [cbn in Hf; lia|]. cbn [length] in Hf.
  assert (Ha : a ∈ tcp_active_pcbs S) by (destruct Hl as [pre ->]; rewrite elem_of_app; right; by left).
  destruct (sn_active _ _ (proj1 Hs) a Ha) as (c & E & Hc). unfold get. rewrite E. cbn [rbind]. rewrite Hc.
  assert (Hl' : l `suffix_of` tcp_active_pcbs S) by (by eapply suffix_cons_l). destruct (Z.eqb_spec (last_timer (core c)) (tcp_timer_ctr S)) as [Hm|Hm]; [apply IH; [done|done|split; [done|lia]|by eapply pending_skip]|].
  eapply post_bind; [by apply slow_pcb_ok|]. intros [[rm reset] S1] M1. cbn beta. pose proof (mark_ok a c S Hs E) as Hk. pose proof (mark_todo a c S (proj1 Hs) Ha E Hm) as Ht.
  assert (Hs1 : safe S1) by (by eapply safe_mild). assert (L1 : tcp_active_pcbs S1 = tcp_active_pcbs S) by (by destruct M1 as [_ _ (_ & _ & -> & _) _ _ _]).
  assert (T1 : (todo S1 < todo S)%nat) by (pose proof (todo_ev 0 _ _ (proj1 Hs1) (mild_ev _ _ _ _ M1)); lia).
  assert (P1 : pending l S1) by (eapply pending_ev; [apply Hs1|by eapply mild_ev|by apply pending_mark]).
  assert (Hfit : forall T k, (length (tcp_active_pcbs T) <= n)%nat -> (todo T <= todo S1)%nat -> (length k <= n)%nat -> enough n k T fuel) by (intros T k B1 B2 B3; split; [done|nia]).
  assert (E1 : exists c1, pcbs S1 !! a = Some c1 /\ active_state (state (core c1)) = true).
  { destruct (sn_active _ _ (proj1 Hs1) a) as (c1 & E1 & Hc1); [by rewrite L1|]. by exists c1. }
  destruct E1 as (c1 & E1 & Hc1). assert (Bl : (length l <= length (tcp_active_pcbs S))%nat) by (by apply suffix_length). destruct rm.
  - eapply post_bind; [by apply (slow_remove_ok a reset c1)|]. intros S2 (H2 & V2 & L2 & C2). cbn beta. rewrite C2.
    apply IH; [done| | |eapply pending_ev; [apply H2|done|done]].
    + rewrite L2, L1. destruct Hl as [pre Hpre]. pose proof (sane_nodup LActive 0 S (proj1 Hs)) as Hnd. cbn [get_list] in Hnd. rewrite Hpre in Hnd |- *. rewrite without_suffix by done. by apply suffix_app_r.
    + pose proof (todo_ev 0 _ _ (proj1 H2) V2). pose proof (sublist_length _ _ (ev_active _ _ V2)). rewrite L1 in *. apply Hfit; lia.
  - eapply post_bind; [apply slow_poll_ok; [done|by exists c1|by rewrite L1]|]. intros [again S2] (H2 & V2 & L2). cbn beta.
    pose proof (todo_ev 0 _ _ (proj1 H2) V2). pose proof (sublist_length _ _ (ev_active _ _ V2)). rewrite L1 in *.
    apply IH; [done| | |destruct again; [apply pending_all|eapply pending_ev; [apply H2|done|done]]].
    + destruct again; [done|]. by rewrite L2.
    + apply Hfit; [lia|lia|]. destruct again; lia.
Qed.

Lemma slow_tw_ok l : forall S, safe S -> NoDup l -> (forall y, y ∈ l -> y ∈ tcp_tw_pcbs S) -> post (slow_tw l S) (fun S' => safe S' /\ ev S S').
Proof.
  induction l as [|a l IH]; intros S Hs Hn Hl; cbn [slow_tw]; [done|]. apply NoDup_cons in Hn as [Ha Hn].
  destruct (sn_tw _ _ (proj1 Hs) a) as (c & E & Hc); [apply Hl; by left|]. unfold get. rewrite E. cbn [rbind]. rewrite Hc. unfold state_is. rewrite bool_decide_eq_true_2 by done.
  assert (Hl' : forall y, y ∈ l -> y ∈ tcp_tw_pcbs S) by (intros y Hy; apply Hl; by right). destruct (_ <? _); [|by apply IH].
  eapply post_bind; [apply (purge_mild Stay 0); [apply Hs|by exists c]|]. intros S1 M1. cbn beta. destruct (mild_state a c _ _ M1 E) as (c1 & E1 & St1 & _).
  assert (Hs1 : safe S1) by (by eapply safe_mild). rewrite (RMV_ok LTw 0) by first [apply Hs1 | by apply live_pcb; [done|exists c1]]. cbn [rbind].
  pose proof (sane_unlink LTw 0 a S1 ltac:(done) (proj1 Hs1) ltac:(by left)) as Hu. pose proof (home_detached LTw 0 a c1 S1 (proj1 Hs1) E1 ltac:(cbn; by rewrite St1)) as Hd.
  eapply post_bind; [apply free_ok; [done|done|by exists c1]|]. intros S2 (F1 & F2 & F3 & _ & _ & F6 & _).
  eapply post_mono; [apply IH; [split; [done|rewrite (ev_input _ _ F3); apply Hs1]|done|]|intros S3 [T1 T2]; split; [done|]; etransitivity; [by eapply mild_ev|]; etransitivity; [apply (ev_unlink LTw a)|]; by etransitivity].
  intros y Hy. rewrite F6. cbn. apply elem_without. split; [by intros ->|]. destruct M1 as [_ _ (_ & _ & _ & ->) _ _ _]. auto.
Qed.

Lemma fuel_enough S : enough (length (tcp_active_pcbs S)) (tcp_active_pcbs S) S (slow_fuel S).
Proof. split; [done|]. unfold slow_fuel. pose proof (todo_le S). nia. Qed.

Lemma slowtmr_ok S : safe S -> post (tcp_slowtmr S) (fun S' => safe S' /\ ticked S').
Proof.
  intros [Hs Hi]. unfold tcp_slowtmr. set (S0 := S <| ticks := _ |> <| tcp_timer_ctr := _ |>). assert (H0 : safe S0) by (split; [untouched Hs|done]). clearbody S0.
  eapply post_bind; [eapply slow_active_ok; [done|done|apply fuel_enough|apply pending_all]|]. intros S1 [H1 P1]. cbn beta.
  eapply post_mono; [apply slow_tw_ok; [done|apply (sane_nodup LTw 0), H1|done]|]. intros S2 [H2 V2]. split; [done|]. eapply pending_none; [apply H2|]. eapply pending_ev; [apply H2|done|done].
Qed.

(** ** The fast timer *)
Lemma fast_pcb_ok a c S : safe S -> pcbs S !! a = Some c -> post (fast_pcb a S) (mild Move a (mark a c S)).
Proof.
  intros Hs E. unfold fast_pcb. unfold updc at 1, upd at 1, get at 1. rewrite E. cbn [rbind]. change (put a _ S) with (mark a c S).
  pose proof (mark_ok a c S Hs E) as Hk. assert (Hl : is_Some (pcbs (mark a c S) !! a)) by (unfold mark, put; cbn; rewrite lookup_insert_eq; eauto).
  set (T := mark a c S) in *. clearbody T. destruct Hl as [c1 E1]. unfold get. rewrite E1. cbn [rbind]. eapply (post_bind _ _ (mild Move a T)).
  - destruct (flag_set _ _); [|apply mild_refl; by exists c1]. eapply post_bind; [apply (updc_mild Move); [by exists c1|intros p; kdone]|]. intros S1 M1. cbn beta.
    eapply post_bind; [apply (tcp_output_mild Move); by eapply mild_live|]. intros [e S2] M2. cbn beta.
    eapply post_mono; [apply (updc_mild Move); [by eapply mild_live|intros p; kdone]|]. intros S3 M3. eapply mild_trans; [exact M1|]. by eapply mild_trans.
  - intros S1 M1. eapply post_mono; [apply (closepend_one_ok 0); [eapply sane_mild; [apply Hk|done]|by eapply mild_live]|]. intros S2 M2. by eapply mild_trans.
Qed.

Lemma fast_active_ok n fuel : forall l S, safe S -> l `suffix_of` tcp_active_pcbs S -> enough n l S fuel -> pending l S -> post (fast_active fuel l S) (fun S' => safe S' /\ pending [] S').
Proof.
  induction fuel as [|fuel IH]; intros l S Hs Hl [Hn Hf] Hp; destruct l as [|a l]; cbn [fast_active]; try done; [cbn in Hf; lia|]. cbn [length] in Hf.
  assert (Ha : a ∈ tcp_active_pcbs S) by (destruct Hl as [pre ->]; rewrite elem_of_app; right; by left).
  destruct (sn_active _ _ (proj1 Hs) a Ha) as (c & E & Hc). unfold get at 1. rewrite E. cbn [rbind].
  assert (Hl' : l `suffix_of` tcp_active_pcbs S) by (by eapply suffix_cons_l). destruct (Z.eqb_spec (last_timer (core c)) (tcp_timer_ctr S)) as [Hm|Hm]; [apply IH; [done|done|split; [done|lia]|by eapply pending_skip]|].
  eapply post_bind; [by apply fast_pcb_ok|]. intros S1 M1. cbn beta. pose proof (mark_ok a c S Hs E) as Hk. pose proof (mark_todo a c S (proj1 Hs) Ha E Hm) as Ht.
  assert (Hs1 : safe S1) by (by eapply safe_mild). assert (L1 : tcp_active_pcbs S1 = tcp_active_pcbs S) by (by destruct M1 as [_ _ (_ & _ & -> & _) _ _ _]).
  assert (T1 : (todo S1 < todo S)%nat) by (pose proof (todo_ev 0 _ _ (proj1 Hs1) (mild_ev _ _ _ _ M1)); lia).
  assert (P1 : pending l S1) by (eapply pending_ev; [apply Hs1|by eapply mild_ev|by apply pending_mark]).
  assert (Bl : (length l <= length (tcp_active_pcbs S))%nat) by (by apply suffix_length).
  assert (Hfit : forall T, tcp_active_pcbs T = tcp_active_pcbs S -> (todo T <= todo S1)%nat -> enough n l T fuel) by (intros T B1 B2; split; [by rewrite B1|nia]).
  destruct (mild_live _ _ _ _ M1) as [c1 E1]. unfold get. rewrite E1. cbn [rbind]. destruct (refused_data (core c1)) eqn:Ed; [|apply IH; [done|by rewrite L1|by apply Hfit|done]].
  set (S2 := S1 <| tcp_active_pcbs_changed := false |>). assert (H2 : safe S2) by (destruct Hs1 as [Hs1 Hi1]; split; [untouched Hs1|done]).
  eapply post_bind; [apply (process_refused_ok 0); [apply safe_fit; [done|by exists c1]|exists c1; by rewrite Ed]|]. intros [e S3] [He M3]. cbn beta.
  assert (H3 : safe S3) by (by eapply safe_mild). destruct M3 as [A B (C1 & C2 & C3 & C4) (D1 & D2 & D3) F G] eqn:EM. rewrite D1.
  assert (L3 : tcp_active_pcbs S3 = tcp_active_pcbs S) by (rewrite C3; done). apply IH; [done|by rewrite L3| |eapply pending_ev; [apply H3|by eapply mild_ev|exact P1]]. apply Hfit; [done|]. change (todo S1) with (todo S2). apply (todo_ev 0); [apply H3|by eapply mild_ev].
Qed.

Lemma fasttmr_ok S : safe S -> post (tcp_fasttmr S) (fun S' => safe S' /\ ticked S').
Proof.
  intros [Hs Hi]. unfold tcp_fasttmr. set (S0 := S <| tcp_timer_ctr := _ |>). assert (H0 : safe S0) by (split; [untouched Hs|done]). clearbody S0.
  eapply post_mono; [eapply fast_active_ok; [done|done|apply fuel_enough|apply pending_all]|]. intros S1 [H1 P1]. split; [done|]. eapply pending_none; [apply H1|done].
Qed.

Lemma tmr_ok S : safe S -> post (tcp_tmr S) (fun S' => safe S' /\ ticked S').
Proof.
  intros Hs. unfold tcp_tmr. eapply post_bind; [by apply fasttmr_ok|]. intros S1 [[H1 H1'] K1]. cbn beta. cbv zeta. set (S2 := S1 <| tcp_timer := _ |>).
  assert (H2 : safe S2) by (split; [untouched H1|done]). assert (K2 : ticked S2) by exact K1. clearbody S2. destruct (Z.odd _); [by apply slowtmr_ok|done].
Qed.

Lemma tmr_safe S : safe S -> post (tcp_tmr S) safe.
Proof. intros Hs. eapply post_mono; [by apply tmr_ok|]. by intros S' []. Qed.

Lemma txnow_walk_ok l : forall S, safe S -> (forall y, y ∈ l -> y ∈ tcp_active_pcbs S) -> post (txnow_walk l S) safe.
Proof.
  induction l as [|a l IH]; intros S Hs Hl; cbn [txnow_walk]; [done|]. destruct (list_live LActive S a ltac:(done) Hs) as [c E]; [apply Hl; by left|].
  unfold get. rewrite E. cbn [rbind]. eapply (post_bind _ _ (mild Stay a S)).
  - destruct (flag_set _ _); [|apply mild_refl; by exists c]. eapply post_bind; [apply (tcp_output_mild Stay); by exists c|]. by intros [e S1] M1.
  - intros S1 M1. apply IH; [by eapply safe_mild|]. intros y Hy. destruct M1 as [_ _ (_ & _ & -> & _) _ _ _]. apply Hl. by right.
Qed.
End SafeTimer.
