(* ===== verification/TcpSafeApi.v ===== *)
(** * TcpSafeApi: the API keeps the lists, and the theorem about all runs *)

From S2P Require Import Prelude Ip4Addr Opts TcpPcb TcpOut TcpIn TcpStack TcpInput TcpTimer TcpFrame TcpSafety TcpCalls TcpSafeIn TcpSafeRun TcpSafeTmr.

Section SafeApi.
Context {o : Opts} {ip : IpLayer}.

(** ** Closing *)
Lemma after_safe a S S' : safe S -> after 0 a S S' -> safe S'.
Proof.
  intros [Hs Hi] (A1 & A2 & _). split; [|by rewrite (ev_input _ _ A2)]. unfold fate in A1. destruct (pcbs S' !! a); [by apply held_sane|done].
Qed.

Lemma close_safe a S : safe S -> is_Some (pcbs S !! a) -> post (tcp_close a S) (fun '(_, S') => safe S').
Proof.
  intros Hs Hl. eapply post_mono; [apply (close_ok 0); [by apply safe_fit|done]|]. intros [e S'] [H _]. by eapply after_safe.
Qed.

Lemma shutdown_safe a rx tx S : safe S -> is_Some (pcbs S !! a) -> post (tcp_shutdown a rx tx S) (fun '(_, S') => safe S').
Proof.
  intros Hs Hl. unfold tcp_shutdown. eapply (post_bind _ _ (mild Stay a S)); [destruct rx; [apply updc_mild; [done|intros p; kdone]|by apply mild_refl]|].
  intros S1 M1. cbn beta. assert (Hs1 : safe S1) by (by eapply safe_mild). pose proof (mild_live _ _ _ _ M1) as L1.
  assert (Hclose : forall r T, safe T -> is_Some (pcbs T !! a) -> post (tcp_close_shutdown a r T) (fun '(_, S') => safe S')).
  { intros r T HT LT. eapply post_mono; [apply (close_shutdown_ok 0); [by apply safe_fit|done]|]. intros [e S'] [H _]. by eapply after_safe. }
  destruct (rx && tx); [by apply Hclose|]. eapply (post_bind _ _ (mild Stay a S1)).
  - destruct rx; [|by apply mild_refl]. apply (upd_mild Stay); [done|]. intros c. split_and!; try done; [by left|by unfold rok|by right].
  - intros S2 M2. cbn beta. assert (Hs2 : safe S2) by (by eapply safe_mild). destruct (mild_live _ _ _ _ M2) as [c2 E2]. destruct tx; [|done].
    unfold get. rewrite E2. cbn [rbind]. destruct (state (core c2)); try done; apply Hclose; eauto.
Qed.

(** ** Binding *)

(** A closed pcb without a port is in no list. *)
Lemma closed_detached a c S : sane 0 S -> pcbs S !! a = Some c -> state (core c) = CLOSED -> local_port (core c) = 0 -> detached a S.
Proof.
  intros Hs E Hc Hp. split_and!; intros H; [destruct (sn_bound _ _ Hs a H) as (d & Ed & _ & Hd)|destruct (sn_active _ _ Hs a H) as (d & Ed & Hd)|destruct (sn_tw _ _ Hs a H) as (d & Ed & Hd)];
    assert (d = c) as -> by congruence; try done; by rewrite Hc in Hd.
Qed.

Lemma detached_listener a c S : sane 0 S -> pcbs S !! a = Some c -> detached a S -> listener c = 0.
Proof. intros Hs E (_ & D2 & D3). destruct (sn_pcbs _ _ Hs a c E) as [[J1 _] _ _ _ J5]. by destruct (J5 J1) as [[_ ?]|[?|?]]. Qed.

Lemma ports_of_ok S l : (forall y, y ∈ l -> is_Some (pcbs S !! y)) -> post (ports_of l S) (fun _ => True).
Proof.
  induction l as [|y l IH]; intros Hl; cbn [ports_of]; [done|]. destruct (Hl y ltac:(by left)) as [c E]. unfold get. rewrite E. cbn [rbind].
  eapply post_bind; [apply IH; intros z Hz; apply Hl; by right|]. by intros ps _.
Qed.

Lemma lports_of_ok S l : (forall y, y ∈ l -> is_Some (lpcbs S !! y)) -> post (lports_of l S) (fun _ => True).
Proof.
  induction l as [|y l IH]; intros Hl; cbn [lports_of]; [done|]. destruct (Hl y ltac:(by left)) as [c E]. unfold getl. rewrite E. cbn [rbind].
  eapply post_bind; [apply IH; intros z Hz; apply Hl; by right|]. by intros ps _.
Qed.

Lemma all_ports_ok S : safe S -> post (all_ports S) (fun _ => True).
Proof.
  intros Hs. unfold all_ports. eapply post_bind; [apply lports_of_ok; intros y; apply (sn_listen _ _ (proj1 Hs))|]. intros p1 _. cbn beta.
  eapply post_bind; [apply ports_of_ok; intros y; by apply (list_live LBound)|]. intros p2 _. cbn beta.
  eapply post_bind; [apply ports_of_ok; intros y; by apply (list_live LActive)|]. intros p3 _. cbn beta.
  eapply post_bind; [apply ports_of_ok; intros y; by apply (list_live LTw)|]. by intros p4 _.
Qed.

(** The search for a port ends after at most one round. *)
Lemma new_port_ends used n : forall port k, 0 <= k -> 16384 - k <= Z.of_nat n - 1 -> k <= 16384 -> post (new_port_loop n used port k) (fun _ => True).
Proof.
  unfold TCP_LOCAL_PORT_RANGE_END, TCP_LOCAL_PORT_RANGE_START.
  induction n as [|n IH]; intros port k H1 H2 H3; [cbn in H2; lia|]. cbn [new_port_loop]. cbv zeta. destruct (existsb _ used); [|done].
  unfold TCP_LOCAL_PORT_RANGE_END, TCP_LOCAL_PORT_RANGE_START. assert (u16 (k + 1) = k + 1) as -> by (unfold u16; apply Z.mod_small; lia).
  destruct (Z.ltb_spec (65535 - 49152) (k + 1)); [done|]. apply IH; lia.
Qed.

Lemma new_port_ok S : safe S -> post (tcp_new_port S) (fun '(_, S') => exists q, S' = S <| tcp_port := q |>).
Proof.
  intros Hs. unfold tcp_new_port. eapply post_bind; [by apply all_ports_ok|]. intros ps _. cbn beta. eapply post_bind; [apply new_port_ends; [lia|by apply Z.leb_le; vm_compute|lia]|]. intros [r q] _. cbn. eauto.
Qed.

Lemma reg_bound_ok a c S : sane a S -> detached a S -> pcbs S !! a = Some c -> state (core c) = CLOSED -> local_port (core c) <> 0 -> listener c = 0 -> tcp_input_pcb S = 0 ->
  post (TCP_REG LBound a S) safe.
Proof.
  intros [I1 I2 I3 I4 I5 I6 I7 I8 I9] (D1 & D2 & D3) E Hc Hp Hl Hi. unfold TCP_REG. rewrite live_pcb by (by eauto). cbn [rbind post].
  split; try done. split; try done; cbn.
  - constructor; [|done]. rewrite !elem_of_app. tauto.
  - intros y [->|Hy]%elem_of_cons; [by exists c|auto].
  - intros y d Ed. destruct (I5 y d Ed) as [J1 J2 J3 J4 J5]. split; try done. intros _. destruct (decide (y = a)) as [->|Hy]; [|auto]. left. by assert (d = c) as -> by congruence.
Qed.

Lemma bind_ok a c ipa port S : safe S -> pcbs S !! a = Some c -> local_port (core c) = 0 -> post (tcp_bind a ipa port S) (fun '(_, S') => safe S').
Proof.
  intros Hs E Hp. unfold tcp_bind, get. rewrite E. cbn [rbind]. unfold state_is. case_bool_decide as Hc; cbn [negb]; [|done].
  eapply (post_bind _ _ (fun v => safe (snd v) /\ pcbs (snd v) = pcbs S /\ forall q, fst v = inr q -> q <> 0)).
  - destruct (Z.eqb_spec port 0) as [Hz|Hz].
    + eapply post_bind; [by apply new_port_ok|]. intros [q S1] [k ->]. cbn [post fst snd]. destruct Hs as [Hs Hi]. split_and!; [split; [untouched Hs|done]|done|].
      destruct (Z.eqb_spec q 0); [done|]. by intros q' [= <-].
    + eapply post_bind; [by apply all_ports_ok|]. intros ps _. cbn [post fst snd]. split_and!; [done|done|]. destruct (existsb _ _); [done|]. by intros q' [= <-].
  - intros [[e|q] S1] (H1 & E1 & Hq); cbn [fst snd] in *; [done|]. specialize (Hq q eq_refl). rewrite <- E1 in E. unfold updc, upd, get. rewrite E. cbn [rbind].
    assert (Hd : detached a S1) by (by apply (closed_detached a c); [apply H1|..]). pose proof (detached_listener a c S1 (proj1 H1) E Hd) as Hl.
    destruct (sn_pcbs _ _ (proj1 H1) a c E) as [J1 J2 J3 J4 J5]. set (c1 := c <| core := _ |>).
    assert (Hc1 : state (core c1) = CLOSED /\ local_port (core c1) = q /\ listener c1 = 0 /\ rok c1).
    { unfold c1, rok in *. destruct (ipa =? 0); done. }
    clearbody c1. destruct Hc1 as (K1 & K2 & K3 & K4). eapply post_bind; [apply (reg_bound_ok a c1)|by intros S2 H2]; try done; [|apply lookup_insert_eq|congruence|apply H1].
    apply (sane_detached_put a c); try done; [by apply sane_weaken, H1|congruence|by left].
Qed.

(** ** Listening *)
Lemma listen_ok a bl S : safe S -> is_Some (pcbs S !! a) -> post (tcp_listen_with_backlog_and_err a bl S) (fun '(_, S') => safe S').
Proof.
  intros Hs [c E]. unfold tcp_listen_with_backlog_and_err, get. rewrite E. cbn [rbind]. unfold state_is. case_bool_decide as Hc; cbn [negb]; [|done].
  destruct (lpcb_pool S) as [|l rest] eqn:El; [done|]. cbv zeta. set (S0 := S <| lpcb_pool := rest |>). destruct Hs as [Hs Hi].
  assert (H0 : sane 0 S0 /\ l ∉ rest /\ l <> 0 /\ lpcbs S !! l = None).
  { destruct Hs as [I1 I2 I3 I4 I5 I6 I7 I8 I9]. rewrite El in I8. destruct I8 as (N & Z0 & Hn). apply NoDup_cons in N as [N1 N2]. apply not_elem_of_cons in Z0 as [Z1 Z2].
    split_and!; [|done|done|apply Hn; by left]. split; try done; [|split_and!; [done|done|intros y Hy; apply Hn; by right]]. intros y d Ed. destruct (I5 y d Ed). by split. }
  destruct H0 as (H0 & N1 & N2 & N3). assert (E0 : pcbs S0 !! a = Some c) by done. assert (L0 : lpcbs S0 !! l = None) by done. assert (P0 : lpcb_pool S0 = rest) by done. assert (I0 : tcp_input_pcb S0 = 0) by done.
  clearbody S0. eapply (post_bind _ _ (fun S1 => cut a S0 S1 /\ lpcbs S1 = lpcbs S0 /\ lpcb_pool S1 = lpcb_pool S0)).
  { eapply post_ok; [apply (closed_cut 0 a c); [done|by left|done|done]|]. intros S1 Eq K. split; [done|]. destruct (negb _); [|by injection Eq as <-].
    rewrite (RMV_ok LBound 0) in Eq by first [done | by apply live_pcb; [done|exists c]]. by injection Eq as <-. }
  intros S1 (K1 & L1 & P1). cbn beta. eapply (post_bind _ _ (fun S2 => gone a S0 S2 /\ lpcbs S2 = lpcbs S0 /\ lpcb_pool S2 = lpcb_pool S0)).
  { eapply post_ok; [by apply free_gone|]. intros S2 Eq G. split; [done|]. destruct K1 as (_ & _ & [c1 E1] & _). unfold tcp_free, get in Eq. rewrite E1 in Eq. cbn [rbind] in Eq.
    destruct (negb _); [|done]. injection Eq as <-. destruct (ext_args c1); by rewrite <- L1, <- P1. }
  intros S2 (G & L2 & P2). destruct G as (G1 & _ & G3 & _). unfold TCP_REG. assert (Hlive : forall v, live LListen (putl l v S2) l = true) by (intros v; apply bool_decide_eq_true; unfold putl; cbn; rewrite lookup_insert_eq; eauto).
  rewrite Hlive. cbn [rbind post]. split; [|cbn; by rewrite (ev_input _ _ G3)]. rewrite <- L2 in L0. rewrite <- P2 in P0. destruct G1 as [I1 I2 I3 I4 I5 I6 I7 I8 I9]. split; try done; cbn.
  - intros y d Ed. destruct (I5 y d Ed) as [J1 J2 J3 J4 J5]. split; try done. cbn. destruct J3 as [J3|J3]; [by left|right]. destruct (decide (listener d = l)) as [->|]; [rewrite lookup_insert_eq; eauto|by rewrite lookup_insert_ne].
  - destruct I7 as (M1 & M2 & M3). split_and!.
    + constructor; [|done]. rewrite M2, L0. by intros [].
    + intros y. rewrite elem_of_cons, M2. destruct (decide (y = l)) as [->|Hy]; [rewrite lookup_insert_eq; split; [by eauto|by left]|rewrite lookup_insert_ne by done; tauto].
    + by rewrite lookup_insert_ne.
  - destruct I8 as (M1 & M2 & M3). split_and!; [done|done|]. intros y Hy. rewrite lookup_insert_ne; [auto|]. intros ->. by rewrite P0 in Hy.
Qed.

(** ** Closing a listener *)
Definition forget (lp : Z) (c : pcb_obj) : pcb_obj := if listener c =? lp then c <| listener := 0 |> else c.

Lemma forget_keeps lp c : core (forget lp c) = core c /\ recv (forget lp c) = recv c /\ (listener (forget lp c) = 0 \/ listener (forget lp c) = listener c /\ listener c <> lp).
Proof. unfold forget. destruct (Z.eqb_spec (listener c) lp); auto. Qed.

Lemma forget_twice lp c : lp <> 0 -> forget lp (forget lp c) = forget lp c.
Proof.
  intros Hz. unfold forget. destruct (Z.eqb_spec (listener c) lp) as [E|E].
  - change (listener (c <| listener := 0 |>)) with 0. destruct (Z.eqb_spec 0 lp); [lia|done].
  - by destruct (Z.eqb_spec (listener c) lp).
Qed.

(** The walk changes the pcbs of the list, nothing else. *)
Definition forgets (lp : Z) (l : list Z) (S S' : stack) : Prop :=
  (exists P, S' = S <| pcbs := P |>) /\ forall y, pcbs S' !! y = if decide (y ∈ l) then forget lp <$> pcbs S !! y else pcbs S !! y.

Lemma remove_listener_ok lp l : lp <> 0 -> forall S, (forall y, y ∈ l -> is_Some (pcbs S !! y)) -> post (tcp_remove_listener l lp S) (forgets lp l S).
Proof.
  intros Hz. induction l as [|a l IH]; intros S Hl; cbn [tcp_remove_listener]; [split; [exists (pcbs S); by destruct S|intros y; rewrite decide_False; [done|apply not_elem_of_nil]]|].
  destruct (Hl a ltac:(by left)) as [c E]. unfold upd, get. rewrite E. cbn [rbind]. change (if listener c =? lp then _ else c) with (forget lp c).
  assert (Hput : forall y, pcbs (put a (forget lp c) S) !! y = if decide (y = a) then Some (forget lp c) else pcbs S !! y).
  { intros y. unfold put. cbn. destruct (decide (y = a)) as [->|]; [by rewrite lookup_insert_eq|by rewrite lookup_insert_ne]. }
  eapply post_mono; [apply IH|].
  - intros y Hy. rewrite Hput. destruct (decide (y = a)); [eauto|]. apply Hl. by right.
  - intros S' [[P ->] H]. split; [by exists P|]. intros y. rewrite H, Hput. destruct (decide (y = a)) as [->|Hy].
    + rewrite (decide_True (P := a ∈ a :: l)) by (by left). rewrite E. cbn. destruct (decide (a ∈ l)); [|done]. by rewrite forget_twice.
    + destruct (decide (y ∈ l)) as [Hyl|Hyl]; [by rewrite (decide_True (P := y ∈ a :: l)) by (by right)|rewrite (decide_False (P := y ∈ a :: l)); [done|]]. by rewrite not_elem_of_cons.
Qed.

Lemma forgets_trans lp l1 l2 S1 S2 S3 : lp <> 0 -> forgets lp l1 S1 S2 -> forgets lp l2 S2 S3 -> forgets lp (l1 ++ l2) S1 S3.
Proof.
  intros Hz [[P2 ->] H2] [[P3 ->] H3]. split; [by exists P3|]. intros y. rewrite H3, H2. destruct (decide (y ∈ l1)) as [E1|E1], (decide (y ∈ l2)) as [E2|E2].
  - rewrite decide_True by (rewrite elem_of_app; auto). destruct (pcbs S1 !! y); [|done]. cbn. by rewrite forget_twice.
  - rewrite decide_True by (rewrite elem_of_app; auto). done.
  - rewrite decide_True by (rewrite elem_of_app; auto). done.
  - rewrite decide_False by (rewrite elem_of_app; tauto). done.
Qed.

Lemma listen_closed_ok lp S : lp <> 0 -> safe S -> post (tcp_listen_closed lp S) (forgets lp (tcp_bound_pcbs S ++ tcp_active_pcbs S ++ tcp_tw_pcbs S) S).
Proof.
  intros Hz Hs. unfold tcp_listen_closed. eapply post_bind; [apply remove_listener_ok; [done|intros y; by apply (list_live LBound)]|]. intros S1 F1. cbn beta.
  assert (Hlive : forall l T, forgets lp l S T -> forall y, is_Some (pcbs S !! y) -> is_Some (pcbs T !! y)) by (intros l T [_ F] y [c E]; rewrite F, E; case_decide; cbn; eauto).
  assert (A1 : tcp_active_pcbs S1 = tcp_active_pcbs S) by (by destruct F1 as [[P ->] _]). rewrite A1.
  eapply post_bind; [apply remove_listener_ok; [done|intros y Hy; eapply Hlive; [exact F1|by apply (list_live LActive)]]|]. intros S2 F2. cbn beta.
  assert (A2 : tcp_tw_pcbs S2 = tcp_tw_pcbs S) by (destruct F2 as [[P2 ->] _]; by destruct F1 as [[P ->] _]). rewrite A2. pose proof (forgets_trans lp _ _ _ _ _ Hz F1 F2) as F12.
  eapply post_mono; [apply remove_listener_ok; [done|intros y Hy; eapply Hlive; [exact F12|by apply (list_live LTw)]]|]. intros S3 F3. rewrite app_assoc. by eapply forgets_trans.
Qed.

(** No pcb refers to the listener afterwards. *)
Lemma forgets_pcbs lp S S' : sane 0 S -> forgets lp (tcp_bound_pcbs S ++ tcp_active_pcbs S ++ tcp_tw_pcbs S) S S' -> lp <> 0 ->
  (forall y c, pcbs S !! y = Some c -> exists c', pcbs S' !! y = Some c' /\ core c' = core c) /\
  (forall y c', pcbs S' !! y = Some c' -> exists c, pcbs S !! y = Some c /\ core c' = core c /\ recv c' = recv c /\ (listener c' = 0 \/ listener c' = listener c /\ listener c <> lp)).
Proof.
  intros Hs [_ F] Hz. split.
  - intros y c E. rewrite F, E. case_decide; [|by exists c]. exists (forget lp c). split; [done|apply forget_keeps].
  - intros y c'. rewrite F. case_decide as Hy.
    + destruct (pcbs S !! y) as [c|]; [|done]. intros [= <-]. exists c. destruct (forget_keeps lp c) as (K1 & K2 & K3). by split_and!.
    + intros E. exists c'. split_and!; try done. left. destruct (sn_pcbs _ _ Hs y c' E) as [[J1 _] _ _ _ J5]. rewrite !elem_of_app in Hy. destruct (J5 J1) as [[_ ?]|[?|?]]; tauto.
Qed.

Lemma close_listen_ok lp S : safe S -> is_Some (lpcbs S !! lp) -> post (tcp_close_listen lp S) safe.
Proof.
  intros Hs [l El]. assert (Hz : lp <> 0) by (intros ->; destruct (sn_listen _ _ (proj1 Hs)) as (_ & _ & H); congruence).
  unfold tcp_close_listen, getl. rewrite El. cbn [rbind]. eapply post_bind; [by apply listen_closed_ok|]. intros S1 F. cbn beta. destruct (forgets_pcbs lp S S1 (proj1 Hs) F Hz) as [P1 P2].
  destruct Hs as [Hs Hi]. destruct F as [[P ->] _]. cbn [pcbs] in P1, P2. unfold TCP_RMV. assert (Hlv : forall y, y ∈ tcp_listen_pcbs S -> live LListen (S <| pcbs := P |>) y = true) by (intros y Hy; apply bool_decide_eq_true; by apply (sn_listen _ _ Hs)).
  assert (Hin : lp ∈ tcp_listen_pcbs S) by (apply (sn_listen _ _ Hs); by exists l). rewrite Hlv by done. rewrite (rmv_spec _ lp (get_list LListen (S <| pcbs := P |>))) by first [exact Hlv | apply (sane_nodup LListen 0 S Hs)].
  cbn [rbind]. set (T := _ <| lpcb_pool := _ |>).
  assert (HT : pcbs T = P /\ lpcbs T = delete lp (lpcbs S) /\ tcp_listen_pcbs T = without lp (tcp_listen_pcbs S) /\ tcp_bound_pcbs T = tcp_bound_pcbs S /\ tcp_active_pcbs T = tcp_active_pcbs S
    /\ tcp_tw_pcbs T = tcp_tw_pcbs S /\ pcb_pool T = pcb_pool S /\ lpcb_pool T = lp :: lpcb_pool S /\ app T = app S /\ tcp_input_pcb T = 0) by (unfold T; by destruct (l_ext_args l)).
  clearbody T. destruct HT as (T1 & T2 & T3 & T4 & T5 & T6 & T7 & T8 & T9 & T10). split; [|done]. destruct Hs as [I1 I2 I3 I4 I5 I6 I7 I8 I9]. destruct I7 as (N1 & N2 & N3). destruct I8 as (O1 & O2 & O3). split.
  - by rewrite T4, T5, T6.
  - intros y. rewrite T4, T1. intros Hy. destruct (I2 y Hy) as (c & E & H1 & H2). destruct (P1 y c E) as (c' & E' & Hc). exists c'. by rewrite Hc.
  - intros y. rewrite T5, T1. intros Hy. destruct (I3 y Hy) as (c & E & H1). destruct (P1 y c E) as (c' & E' & Hc). exists c'. by rewrite Hc.
  - intros y. rewrite T6, T1. intros Hy. destruct (I4 y Hy) as (c & E & H1). destruct (P1 y c E) as (c' & E' & Hc). exists c'. by rewrite Hc.
  - intros y c'. rewrite T1. intros E'. destruct (P2 y c' E') as (c & E & Q1 & Q2 & Q3). destruct (I5 y c E) as [J1 J2 J3 J4 J5]. split; rewrite ?T2, ?T5, ?T6, ?T7; try done.
    + by rewrite Q1.
    + destruct Q3 as [->|[-> Q3]]; [by left|]. destruct J3 as [J3|J3]; [by left|right]. by rewrite lookup_delete_ne.
    + unfold rok. by rewrite Q1, Q2.
    + intros Hy. rewrite Q1. destruct (J5 Hy) as [[? J]|?]; [left|by right]. split; [done|]. destruct Q3 as [?|[-> _]]; done.
  - by rewrite T7.
  - rewrite T2, T3. split_and!; [by apply NoDup_filter| |].
    + intros y. rewrite elem_without, N2. destruct (decide (y = lp)) as [->|]; [rewrite lookup_delete_eq; split; [by intros []|by intros []]|rewrite lookup_delete_ne by done; tauto].
    + by rewrite lookup_delete_ne.
  - rewrite T8, T2. split_and!.
    + constructor; [|done]. intros H. by rewrite (O3 lp H) in El.
    + apply not_elem_of_cons. done.
    + intros y [->|Hy]%elem_of_cons; [apply lookup_delete_eq|]. destruct (decide (y = lp)) as [->|]; [apply lookup_delete_eq|rewrite lookup_delete_ne by done; auto].
  - by rewrite T9.
Qed.

(** ** Connecting *)

(** The SYN is queued: the pcb goes from the bound to the active list. *)
Lemma connect_tail a c old (ret : err_t) S : safe S -> pcbs S !! a = Some c -> state (core c) = CLOSED -> (a ∈ tcp_bound_pcbs S -> old <> 0) ->
  post (let+ T := updc a (fun p => p <| state := SYN_SENT |>) S in
        let+ T := (if negb (old =? 0) then TCP_RMV LBound a T else Ok T) in
        let+ T := TCP_REG_ACTIVE a T in
        let+ (_, T) := on a tcp_output T in
        Ok (ret, T)) (fun '(_, S') => safe S').
Proof.
  intros [Hs Hi] E Hc Hb. unfold updc, upd, get. rewrite E. cbn [rbind]. set (c1 := c <| core := _ |>). destruct (sn_pcbs _ _ Hs a c E) as [J1 J2 J3 J4 J5].
  assert (Hnl : a ∉ tcp_active_pcbs S /\ a ∉ tcp_tw_pcbs S).
  { split; intros H; [destruct (sn_active _ _ Hs a H) as (d & E' & H1)|destruct (sn_tw _ _ Hs a H) as (d & E' & H1)]; assert (d = c) as -> by congruence; by rewrite Hc in H1. }
  eapply (post_bind _ _ (fun S2 => sane a S2 /\ detached a S2 /\ pcbs S2 !! a = Some c1 /\ tcp_input_pcb S2 = 0)).
  - destruct (Z.eqb_spec old 0) as [Ho|Ho]; cbn [negb].
    + assert (Hd : detached a S) by (split_and!; [intros H; by apply Hb in H|apply Hnl..]). cbn [post]. split_and!; [|done|apply lookup_insert_eq|done].
      apply (sane_detached_put a c); try done. by apply sane_weaken.
    + unfold TCP_RMV. assert (Hlv : forall y, y ∈ tcp_bound_pcbs S -> live LBound (put a c1 S) y = true).
      { intros y Hy. apply bool_decide_eq_true. unfold put. cbn. destruct (decide (y = a)) as [->|]; [rewrite lookup_insert_eq; eauto|rewrite lookup_insert_ne by done].
        destruct (sn_bound _ _ Hs y Hy) as (d & Ed & _). eauto. }
      assert (Ha : live LBound (put a c1 S) a = true) by (apply bool_decide_eq_true; unfold put; cbn; rewrite lookup_insert_eq; eauto).
      rewrite Ha, (rmv_spec _ a (get_list LBound (put a c1 S))) by first [exact Hlv | apply (sane_nodup LBound 0 S Hs)].
      change (set_list LBound _ (put a c1 S)) with (put a c1 (set_list LBound (without a (tcp_bound_pcbs S)) S)). cbn [post].
      assert (Hd : detached a (set_list LBound (without a (tcp_bound_pcbs S)) S)) by (split_and!; [by intros [? _]%elem_without|apply Hnl..]).
      split_and!; [|exact Hd|apply lookup_insert_eq|done]. apply (sane_detached_put a c); try done. by apply (sane_unlink LBound 0); [..|left].
  - intros S2 (K1 & K2 & K3 & K4). cbn beta. eapply post_bind; [by apply (reg_active_ok a c1)|]. intros S3 [H3 E3]. cbn beta.
    eapply post_bind; [apply (tcp_output_mild Stay); rewrite E3; by exists c1|]. intros [e S4] M4. by eapply safe_mild.
Qed.

Lemma connect_ok a ipa port f S : safe S -> is_Some (pcbs S !! a) -> post (tcp_connect a ipa port f S) (fun '(_, S') => safe S').
Proof.
  intros Hs [c E]. unfold tcp_connect. unfold get at 1. rewrite E. cbn [rbind]. unfold state_is. case_bool_decide as Hc; cbn [negb]; [|done].
  eapply post_bind; [apply (updc_mild Stay); [by exists c|intros p; kdone]|]. intros S1 M1. cbn beta. destruct (mild_state a c _ _ M1 E) as (c1 & E1 & St1 & _).
  assert (H1 : safe S1) by (by eapply safe_mild). unfold get at 1. rewrite E1. cbn [rbind]. destruct (tcp_route _ _ _) as [n|]; [|done].
  eapply (post_bind _ _ (mild Stay a S1)); [destruct (_ =? 0); [apply updc_mild; [by exists c1|intros p; kdone]|apply mild_refl; by exists c1]|]. intros S2 M2. cbn beta. cbv zeta.
  assert (H2 : safe S2) by (by eapply safe_mild). destruct (mild_state a c1 _ _ M2 E1) as (c2 & E2 & St2 & P2 & _).
  assert (Hb : a ∈ tcp_bound_pcbs S2 -> local_port (core c1) <> 0) by (intros Hb; destruct (sn_bound _ _ (proj1 H2) a Hb) as (d & Ed & _ & Hp); assert (d = c2) as -> by congruence; by rewrite <- P2).
  eapply (post_bind _ _ (fun v => safe (snd v) /\ pcbs (snd v) = pcbs S2 /\ tcp_bound_pcbs (snd v) = tcp_bound_pcbs S2 /\ (local_port (core c1) <> 0 -> fst v = local_port (core c1)))).
  { destruct (Z.eqb_spec (local_port (core c1)) 0) as [Ho|Ho]; [|done]. eapply post_mono; [by apply new_port_ok|]. intros [q S3] [k ->]. destruct H2 as [H2 H2'].
    cbn [fst snd]. split_and!; [split; [untouched H2|done]|done|done|done]. }
  intros [q S3] (H3 & E3 & B3 & Hq). cbn [fst snd] in *. cbn beta. rewrite <- E3 in E2. rewrite <- B3 in Hb. unfold updc at 1, upd at 1, get at 1. rewrite E2. cbn [rbind].
  set (c4 := c2 <| core := _ |>). assert (H4 : safe (put a c4 S3)).
  { split; [|apply H3]. apply (sane_put 0 a c2); try done; [apply H3| |apply (sn_pcbs _ _ (proj1 H3) a c2 E2)]. intros B. specialize (Hb B). cbn. by rewrite (Hq Hb). }
  assert (E4 : pcbs (put a c4 S3) !! a = Some c4) by (apply lookup_insert_eq). assert (B4 : tcp_bound_pcbs (put a c4 S3) = tcp_bound_pcbs S3) by done.
  assert (St4 : state (core c4) = CLOSED) by (cbn; congruence). clearbody c4. set (S4 := put a c4 S3) in *. clearbody S4. destruct (q =? 0); [done|].
  destruct (tcp_next_iss S4) as [i S5] eqn:E5. unfold tcp_next_iss in E5. injection E5 as _ E5. assert (H5 : safe S5) by (rewrite <- E5; destruct H4 as [H4 H4']; split; [untouched H4|done]).
  assert (P5 : pcbs S5 !! a = Some c4) by (by rewrite <- E5). assert (B5 : tcp_bound_pcbs S5 = tcp_bound_pcbs S3) by (by rewrite <- E5, <- B4). clear E5.
  eapply post_bind; [apply (upd_mild Stay); [by exists c4|]|]. { intros d. split_and!; try done; [by left|by left]. }
  intros S6 M6. cbn beta. eapply post_bind; [apply (on_mild Stay); [by eapply mild_live|apply keeps_enqueue]|]. intros [ret S7] M7. cbn beta.
  assert (M57 : mild Stay a S5 S7) by (by eapply mild_trans). assert (H7 : safe S7) by (by eapply safe_mild). destruct (mild_state a c4 _ _ M57 P5) as (c7 & E7 & St7 & _).
  destruct (err_ok ret); [|done]. apply (connect_tail a c7); [done|done|congruence|]. destruct M57 as [_ _ (_ & -> & _) _ _ _]. rewrite B5. exact Hb.
Qed.

(** ** All operations *)
Inductive op :=
  | OpInput (src dest : Z) (n : netif) (p : chain) | OpTmr | OpTxnow
  | OpNew | OpBind (a ipaddr port : Z) | OpListen (a backlog : Z) | OpAccept (lp : Z) (f : accept_fn) | OpConnect (a ipaddr port : Z) (f : bool)
  | OpCall (a : Z) (k : api_call) | OpShutdown (a : Z) (rx tx : bool) | OpClose (a : Z) | OpAbort (a : Z) | OpCloseListen (lp : Z)
  | OpSetprio (a pr : Z) | OpBindNetif (a : Z) (n : option netif).

(** The pcbs the application may name are the ones it has, and it binds a pcb
    only once. *)
Definition allowed (x : op) (S : stack) : bool :=
  match x with
  | OpInput _ _ _ _ | OpTmr | OpTxnow | OpNew => true
  | OpBind a _ _ => match pcbs S !! a with Some c => local_port (core c) =? 0 | None => false end
  | OpListen a _ | OpConnect a _ _ _ | OpCall a _ | OpShutdown a _ _ | OpClose a | OpAbort a | OpSetprio a _ | OpBindNetif a _ => bool_decide (is_Some (pcbs S !! a))
  | OpAccept lp _ | OpCloseListen lp => bool_decide (is_Some (lpcbs S !! lp))
  end.

Definition run_op (x : op) (S : stack) : res stack :=
  match x with
  | OpInput src dest n p => tcp_input src dest n p S
  | OpTmr => tcp_tmr S
  | OpTxnow => tcp_txnow S
  | OpNew => let+ (_, S) := tcp_new S in Ok S
  | OpBind a i p => let+ (_, S) := tcp_bind a i p S in Ok S
  | OpListen a b => let+ (_, S) := tcp_listen_with_backlog_and_err a b S in Ok S
  | OpAccept lp f => tcp_accept lp f S
  | OpConnect a i p f => let+ (_, S) := tcp_connect a i p f S in Ok S
  | OpCall a k => run_call a k S
  | OpShutdown a rx tx => let+ (_, S) := tcp_shutdown a rx tx S in Ok S
  | OpClose a => let+ (_, S) := tcp_close a S in Ok S
  | OpAbort a => tcp_abort a S
  | OpCloseListen lp => tcp_close_listen lp S
  | OpSetprio a pr => tcp_setprio a pr S
  | OpBindNetif a n => tcp_bind_netif a n S
  end.

(** A run; what the application may not do it does not do. *)
Fixpoint run_ops (l : list op) (S : stack) : res stack :=
  match l with
  | [] => Ok S
  | x :: l => if allowed x S then let+ S := run_op x S in run_ops l S else run_ops l S
  end.

Lemma run_op_ok x S : safe S -> allowed x S = true -> post (run_op x S) safe.
Proof.
  intros Hs. destruct x; cbn [allowed run_op]; rewrite ?bool_decide_eq_true; intros Ha.
  - by apply tcp_input_ok.
  - by apply tmr_safe.
  - by apply txnow_walk_ok.
  - eapply post_bind; [by apply alloc_ok|]. by intros [a S1] [[H1 _] _].
  - destruct (pcbs S !! a) as [c|] eqn:E; [|done]. apply Z.eqb_eq in Ha. eapply post_bind; [by apply (bind_ok a c)|]. by intros [e S1] H1.
  - eapply post_bind; [by apply listen_ok|]. by intros [e S1] H1.
  - destruct Ha as [l El]. unfold tcp_accept, getl. rewrite El. cbn [rbind post]. destruct Hs as [Hs Hi]. split; [|done].
    destruct Hs as [I1 I2 I3 I4 I5 I6 I7 I8 I9]. assert (Hl : forall y, is_Some (lpcbs (putl lp (l <| accept := f |>) S) !! y) <-> is_Some (lpcbs S !! y)).
    { intros y. unfold putl. cbn. destruct (decide (y = lp)) as [->|]; [rewrite lookup_insert_eq, El; split; eauto|by rewrite lookup_insert_ne]. }
    split; try done.
    + intros y c Ey. destruct (I5 y c Ey) as [J1 J2 J3 J4 J5]. split; try done. by rewrite Hl.
    + destruct I7 as (H1 & H2 & H3). split_and!; [done|intros y; by rewrite Hl|]. rewrite eq_None_not_Some, Hl, H3. by intros [].
    + destruct I8 as (H1 & H2 & H3). split_and!; [done|done|]. intros y Hy%H3. rewrite eq_None_not_Some, Hl, Hy. by intros [].
  - eapply post_bind; [by apply connect_ok|]. by intros [e S1] H1.
  - eapply post_mono; [apply (run_call_mild 0); [apply Hs|done]|]. intros S1 M1. by eapply safe_mild.
  - eapply post_bind; [by apply shutdown_safe|]. by intros [e S1] H1.
  - eapply post_bind; [by apply close_safe|]. by intros [e S1] H1.
  - eapply post_mono; [by apply abandon_trim|]. by intros S1 [H1 _].
  - by apply close_listen_ok.
  - eapply post_mono; [by apply (updc_mild Stay)|]. intros S1 M1. by eapply safe_mild.
  - eapply post_mono; [by apply (updc_mild Stay)|]. intros S1 M1. by eapply safe_mild.
Qed.

Lemma run_ops_ok l : forall S, safe S -> post (run_ops l S) safe.
Proof.
  induction l as [|x l IH]; intros S Hs; cbn [run_ops]; [done|]. destruct (allowed x S) eqn:Ha; [|by apply IH]. eapply post_bind; [by apply run_op_ok|]. intros S1 H1. by apply IH.
Qed.
End SafeApi.
