(* ===== verification/TcpProps.v ===== *)
(** * TcpProps: what the TCP stack guarantees

    The theorems about the stack as a whole, over the lemmas of TcpSafety,
    TcpCalls, TcpSafeIn, TcpSafeRun, TcpSafeTmr and TcpSafeApi, each with a
    concrete run that meets its hypotheses. *)

From S2P Require Import Prelude Def Ip4Addr Opts Chksum TcpPcb TcpOut TcpIn TcpStream TcpRun TcpStack TcpInput TcpTimer TcpFrame TcpSafety TcpCalls TcpSafeIn TcpSafeRun TcpSafeTmr TcpSafeApi.

(** ** The stack after start-up *)

(** No pcb exists; the pools hold the addresses of their free elements. *)
Definition boot (pool lpool : list Z) (al : list bool) (A : application) : stack :=
  mk_stack ∅ ∅ [] [] [] [] false 0 0 0 6510 49152 0 0 pool lpool al [] [] A [].

Record pools_ok (pool lpool : list Z) : Prop := {
  pk_pool : NoDup pool /\ 0 ∉ pool;
  pk_lpool : NoDup lpool /\ 0 ∉ lpool;
}.

Section Props.
Context {o : Opts} {ip : IpLayer}.

Lemma boot_safe pool lpool al A : pools_ok pool lpool -> polite A -> safe (boot pool lpool al A).
Proof.
  intros [[P1 P2] [P3 P4]] Ha. split; [|done]. split; try done; cbn; try (intros a H; by apply not_elem_of_nil in H).
  - constructor.
  - split_and!; [constructor| |done]. intros a. rewrite elem_of_nil, lookup_empty, is_Some_alt. done.
Qed.



(** C12: [tcp_tmr] ends although a poll callback may make both timers start
    over: with at most [(n+1)^2] steps for [n] active pcbs it returns, unless an
    assertion fails, and touches no freed pcb.  Afterwards the stack is sound
    again, and every pcb of the active list has been handled in this tick: it
    carries the number of the tick, by which the walks skip the pcbs they have
    already handled. *)
Theorem tcp_tmr_terminates S : safe S ->
  match tcp_tmr S with
  | Ok S' => safe S' /\ forall a, a ∈ tcp_active_pcbs S' -> exists c, pcbs S' !! a = Some c /\ last_timer (core c) = tcp_timer_ctr S'
  | Failed => True
  | Dangling | Stuck => False
  end.
Proof. intros Hs. pose proof (tmr_ok S Hs) as H. by destruct (tcp_tmr S). Qed.

(** C14: a reset is obeyed exactly when it carries the next expected sequence
    number (RFC 5961); in SYN-SENT, when it acknowledges the SYN ([ackno] is
    [snd_nxt]).  A reset that is not obeyed leaves the connection as it was, but
    for one thing: outside of SYN-SENT, a reset elsewhere in the receive window
    makes the connection answer with an ACK, and only such a one does. *)
Theorem rst_needs_exact_seqno a i c t S e u S' : pcbs S !! a = Some c -> flag_set (in_flags t) TCP_RST = true -> flag_set (in_recv_flags S) TF_RESET = false ->
  tcp_process a i t S = Ok (e, u, S') ->
  let p := core c in
  let syn_sent := state_is (state p) SYN_SENT in
  let exact := if syn_sent then ackno t =? snd_nxt p else seqno t =? rcv_nxt p in
  let challenge := negb syn_sent && TCP_SEQ_BETWEEN (seqno t) (rcv_nxt p) (rcv_nxt p + rcv_wnd p) in
  flag_set (in_recv_flags S') TF_RESET = exact /\ e = (if exact then ERR_RST else ERR_OK)
  /\ (exact = false -> exists c', pcbs S' !! a = Some c' /\ core c' = (if challenge then tcp_ack_now p else p)).
Proof.
  intros E Hr Hf. unfold tcp_process, get. rewrite E. cbn [rbind]. rewrite Hr. unfold process_rst, get. rewrite E. cbn [rbind]. cbv zeta.
  destruct (if state_is _ SYN_SENT then _ else _).
  - destruct (negb _); [|done]. intros (S1 & E1 & [= <- <- <-])%rbind_Ok. unfold updc, upd, get in E1. cbn in E1. rewrite E in E1. injection E1 as <-.
    split; [|done]. cbn. by rewrite flag_lor, orb_true_r.
  - destruct (negb _ && _).
    + intros (S1 & E1 & [= <- <- <-])%rbind_Ok. unfold updc, upd, get in E1. rewrite E in E1. injection E1 as <-. split; [done|]. split; [done|]. intros _. eexists. by split; [apply lookup_insert_eq|].
    + intros [= <- <- <-]. split; [done|]. split; [done|]. intros _. by exists c.
Qed.

(** ** The state diagram *)

(** The edges of RFC 793's diagram that an arriving segment may take from a
    synchronized state. *)
Inductive segment_edge : tcp_state -> tcp_state -> Prop :=
  | edge_stay st : segment_edge st st
  | edge_fin : segment_edge ESTABLISHED CLOSE_WAIT
  | edge_fin_acked : segment_edge FIN_WAIT_1 FIN_WAIT_2
  | edge_both_fins : segment_edge FIN_WAIT_1 CLOSING
  | edge_fin_and_ack : segment_edge FIN_WAIT_1 TIME_WAIT
  | edge_peer_fin : segment_edge FIN_WAIT_2 TIME_WAIT
  | edge_last_fin_acked : segment_edge CLOSING TIME_WAIT.

Definition when {A} (r : res A) (Q : A -> Prop) : Prop := match r with Ok y => Q y | _ => True end.

Lemma when_bind {A B} (r : res A) (k : A -> res B) (P : A -> Prop) (Q : B -> Prop) : when r P -> (forall y, P y -> when (k y) Q) -> when (rbind r k) Q.
Proof. destruct r; cbn; auto. Qed.

Definition in_state (a : Z) (st : tcp_state) (S : stack) : Prop := exists c, pcbs S !! a = Some c /\ state (core c) = st.

Lemma updc_in_state a f st S : (forall p, state p = st -> state (f p) = st) -> in_state a st S -> when (updc a f S) (in_state a st).
Proof. intros Hf (c & E & Hc). unfold updc, upd, get. rewrite E. cbn. eexists. split; [apply lookup_insert_eq|]. by apply Hf. Qed.

Lemma go_in_state a f st next S : in_state a st S -> when (updc a (fun p => (f p) <| state := next |>) S) (in_state a next).
Proof. intros (c & E & Hc). unfold updc, upd, get. rewrite E. cbn. eexists. split; [apply lookup_insert_eq|done]. Qed.

Lemma receive_in_state a st t S : st <> ESTABLISHED -> in_state a st S -> when (run_in a tcp_receive t S) (fun '(_, S') => in_state a st S').
Proof.
  intros Hst (c & E & Hc). unfold run_in, get. rewrite E. cbn [rbind]. destruct (tcp_receive _) as [u|] eqn:Er; [|done]. apply keeps_receive in Er as (_ & _ & _ & K & _).
  cbn. eexists. split; [apply lookup_insert_eq|]. cbn. unfold ipcb in K. cbn in K. destruct K as [->|[K _]]; [done|]. congruence.
Qed.

Lemma receive_established a t S : in_state a ESTABLISHED S -> when (run_in a tcp_receive t S) (fun '(_, S') => in_state a ESTABLISHED S' \/ in_state a CLOSE_WAIT S').
Proof.
  intros (c & E & Hc). unfold run_in, get. rewrite E. cbn [rbind]. destruct (tcp_receive _) as [u|] eqn:Er; [|done]. apply keeps_receive in Er as (_ & _ & _ & K & _).
  unfold ipcb in K. cbn in K. destruct K as [K|[_ K]]; [left|right]; (eexists; split; [apply lookup_insert_eq|]); cbn; congruence.
Qed.

Lemma time_wait_in_state a S : when (to_time_wait a S) (in_state a TIME_WAIT).
Proof.
  unfold to_time_wait. eapply (when_bind _ _ (fun _ => True)); [by destruct (tcp_pcb_purge a S)|]. intros S1 _. eapply (when_bind _ _ (fun _ => True)); [by destruct (TCP_RMV_ACTIVE a S1)|]. intros S2 _.
  unfold updc, upd, get. destruct (pcbs S2 !! a) as [c|] eqn:E; [|done]. cbn [rbind]. unfold TCP_REG. destruct (live _ _ _); [|done]. cbn. eexists. split; [apply lookup_insert_eq|done].
Qed.

Lemma passive_edge a st t S : st = ESTABLISHED \/ st = CLOSE_WAIT -> in_state a st S -> when (receive_passive a t S) (fun '(_, S') => exists st', segment_edge st st' /\ in_state a st' S').
Proof.
  intros Hst H. unfold receive_passive. eapply (when_bind _ _ (fun '(_, S') => exists st', segment_edge st st' /\ in_state a st' S')).
  - destruct Hst as [-> | ->].
    + pose proof (receive_established a t S H) as K. destruct (run_in _ _ _ _) as [[u S']| | |]; try done. destruct K as [K|K]; [exists ESTABLISHED|exists CLOSE_WAIT]; (split; [constructor|done]).
    + pose proof (receive_in_state a CLOSE_WAIT t S ltac:(done) H) as K. destruct (run_in _ _ _ _) as [[u S']| | |]; try done. exists CLOSE_WAIT. by split; [constructor|].
  - intros [u S1] (st' & He & H1). destruct (got_fin_flag S1); [|by exists st']. eapply when_bind; [by apply (go_in_state a tcp_ack_now st' CLOSE_WAIT)|]. intros S2 H2. cbn. exists CLOSE_WAIT.
    split; [|done]. destruct Hst as [-> | ->]; constructor.
Qed.

Ltac stays st := exists st; split; [constructor|assumption].

Lemma fin_wait_1_edge a t S : in_state a FIN_WAIT_1 S -> when (process_fin_wait_1 a t S) (fun '(_, _, S') => exists st', segment_edge FIN_WAIT_1 st' /\ in_state a st' S').
Proof.
  intros H. unfold process_fin_wait_1. eapply when_bind; [by apply (receive_in_state a FIN_WAIT_1)|]. intros [u S1] H1. eapply (when_bind _ _ (fun _ => True)); [by destruct (get a S1)|]. intros c1 _.
  destruct (got_fin_flag S1).
  - eapply when_bind; [apply (updc_in_state a tcp_ack_now FIN_WAIT_1); [done|exact H1]|]. intros S2 H2.
    eapply (when_bind _ _ (fun S' => exists st', segment_edge FIN_WAIT_1 st' /\ in_state a st' S')); [|by intros S3 H3]. destruct (fin_acked _ _).
    + pose proof (time_wait_in_state a S2) as K. destruct (to_time_wait a S2); try done. stays TIME_WAIT.
    + pose proof (go_in_state a (fun p => p) FIN_WAIT_1 CLOSING S2 H2) as K. destruct (updc _ _ S2); try done. stays CLOSING.
  - destruct (fin_acked _ _); [|stays FIN_WAIT_1]. eapply when_bind; [by apply (go_in_state a (fun p => p) FIN_WAIT_1 FIN_WAIT_2)|]. intros S2 H2. stays FIN_WAIT_2.
Qed.

Lemma fin_wait_2_edge a t S : in_state a FIN_WAIT_2 S -> when (process_fin_wait_2 a t S) (fun '(_, _, S') => exists st', segment_edge FIN_WAIT_2 st' /\ in_state a st' S').
Proof.
  intros H. unfold process_fin_wait_2. eapply when_bind; [by apply (receive_in_state a FIN_WAIT_2)|]. intros [u S1] H1. destruct (got_fin_flag S1); [|stays FIN_WAIT_2].
  eapply when_bind; [apply (updc_in_state a tcp_ack_now FIN_WAIT_2); [done|exact H1]|]. intros S2 H2. eapply when_bind; [apply time_wait_in_state|]. intros S3 H3. stays TIME_WAIT.
Qed.

Lemma closing_edge a t S : in_state a CLOSING S -> when (process_closing a t S) (fun '(_, _, S') => exists st', segment_edge CLOSING st' /\ in_state a st' S').
Proof.
  intros H. unfold process_closing. eapply when_bind; [by apply (receive_in_state a CLOSING)|]. intros [u S1] H1. eapply (when_bind _ _ (fun _ => True)); [by destruct (get a S1)|]. intros c1 _.
  destruct (fin_acked _ _); [|stays CLOSING]. eapply when_bind; [apply time_wait_in_state|]. intros S3 H3. stays TIME_WAIT.
Qed.

Lemma last_ack_edge a t S : in_state a LAST_ACK S -> when (process_last_ack a t S) (fun '(_, _, S') => exists st', segment_edge LAST_ACK st' /\ in_state a st' S').
Proof.
  intros H. unfold process_last_ack. eapply when_bind; [by apply (receive_in_state a LAST_ACK)|]. intros [u S1] H1. eapply (when_bind _ _ (fun _ => True)); [by destruct (get a S1)|]. intros c1 _.
  destruct (fin_acked _ _); stays LAST_ACK.
Qed.

(** C13: in a synchronized state, [tcp_process] moves the connection only along
    an edge of the TCP state diagram, whatever the segment carries. *)
Theorem tcp_process_follows_diagram a i c t S e u S' : pcbs S !! a = Some c -> active_state (state (core c)) = true -> state (core c) <> SYN_SENT -> state (core c) <> SYN_RCVD ->
  tcp_process a i t S = Ok (e, u, S') -> exists c', pcbs S' !! a = Some c' /\ segment_edge (state (core c)) (state (core c')).
Proof.
  intros E Ha H1 H2 Hp. assert (H : in_state a (state (core c)) S) by (by exists c). set (st0 := state (core c)) in *.
  cut (when (tcp_process a i t S) (fun '(_, _, S') => exists st', segment_edge st0 st' /\ in_state a st' S')).
  { rewrite Hp. intros (st' & He & c' & E' & <-). by exists c'. }
  unfold tcp_process, get at 1. rewrite E. cbn [rbind]. fold st0. destruct (flag_set _ TCP_RST).
  { unfold process_rst, get. rewrite E. cbn [rbind]. destruct (if state_is _ _ then _ else _).
    - destruct (negb _); [|done]. eapply when_bind; [apply (updc_in_state a (tcp_clear_flags TF_ACK_DELAY) st0); [done|by exists c]|]. intros S1 K. stays st0.
    - destruct (_ && _); [|stays st0]. eapply when_bind; [by apply (updc_in_state a tcp_ack_now st0)|]. intros S1 K. stays st0. }
  destruct (_ && _ && _). { eapply when_bind; [by apply (updc_in_state a tcp_ack_now st0)|]. intros S1 K. stays st0. }
  eapply when_bind; [apply (updc_in_state a _ st0); [|exact H]; intros p Hst; by destruct (flag_set (flags p) _)|]. intros S1 K1. cbn beta.
  eapply (when_bind _ _ (fun '(_, S2) => in_state a st0 S2)).
  { destruct K1 as (c1 & E1 & St1). unfold run_parseopt, get. rewrite E1. cbn [rbind]. destruct (tcp_parseopt _) as [v| | |] eqn:Eo; try done. apply keeps_parseopt in Eo as ((Ks & _) & _).
    cbn. eexists. split; [apply lookup_insert_eq|]. cbn. unfold ipcb in Ks. cbn in Ks. congruence. }
  intros [v S2] K2. clearbody st0. destruct st0; try done; [| | | | |].
  - eapply when_bind; [apply passive_edge; [by left|done]|]. by intros [w S3] K3.
  - by apply fin_wait_1_edge.
  - by apply fin_wait_2_edge.
  - eapply when_bind; [apply passive_edge; [by right|done]|]. by intros [w S3] K3.
  - by apply closing_edge.
  - by apply last_ack_edge.
Qed.
End Props.

(** ** A concrete stack *)
#[local] Existing Instances ios demo_ip.

Definition demo_header (seq ack fl cks : Z) : list Z :=
  be16 5555 ++ be16 80 ++ be16 (seq / 65536) ++ be16 (seq mod 65536) ++ be16 (ack / 65536) ++ be16 (ack mod 65536)
  ++ [80; fl] ++ be16 20000 ++ [cks mod 256; cks / 256; 0; 0].
Definition demo_segment (seq ack fl : Z) (d : list Z) : op :=
  let src := 167772162 in
  let dest := 167772163 in
  OpInput src dest tt [demo_header seq ack fl (tcp_chksum src dest [demo_header seq ack fl 0 ++ d]) ++ d].

(** A listener, a handshake, and data. *)
Definition demo_open : list op := [OpNew; OpBind 1000 0 0; OpListen 1000 255; OpAccept 500 AcceptApp; demo_segment 1000 0 2 []; demo_segment 1001 6511 16 []].
Definition demo_data : list op := demo_open ++ [demo_segment 1001 6511 24 [1; 2; 3]].

Definition demo_setup : reaction := mk_reaction [ABacklogDelayed; ASetup; ABacklogAccepted] (Return ERR_OK).
Definition demo_app : application := mk_app [demo_setup] [] [] [mk_reaction [] (Return ERR_MEM); mk_reaction [] (Return ERR_OK)] [mk_reaction [] (CloseReturn ERR_OK)].

(** The receive callback refuses the data and, when it is offered again, aborts
    and returns [ERR_ABRT], as lwIP asks it to. *)
Definition abort_app : application := demo_app <| on_recv := [mk_reaction [] (Return ERR_MEM); mk_reaction [] (AbortReturn ERR_ABRT)] |>.

Definition demo_boot (A : application) : stack := boot [1000; 2000; 3000] [500] (repeat true 20) A.
Definition demo_run (l : list op) : stack := match run_ops l (demo_boot demo_app) with Ok T => T | _ => demo_boot demo_app end.

Lemma demo_pools_ok : pools_ok [1000; 2000; 3000] [500].
Proof. split; split; (apply (bool_decide_unpack _); vm_compute; exact I). Qed.

Lemma demo_polite : polite demo_app.
Proof. split; repeat constructor; discriminate. Qed.



(** The other direction: the receive callback must not abort when refused
    data is offered to it again, although lwIP allows it to abort if it returns
    [ERR_ABRT].  With such a callback the next segment makes [tcp_input] read
    the freed pcb: "pcb has been aborted" and the test of [pcb->rcv_ann_wnd]
    after it are about the same pcb. *)
Theorem refused_abort_dangles : Forall nice (on_recv abort_app) /\ run_ops (demo_data ++ [demo_segment 1004 6511 24 [4]]) (demo_boot abort_app) = Dangling.
Proof. split; [repeat constructor; discriminate|]. vm_compute. reflexivity. Qed.

Lemma demo_safe l : run_ops (demo_data ++ l) (demo_boot demo_app) = Ok (demo_run (demo_data ++ l)) -> safe (demo_run (demo_data ++ l)).
Proof.
  intros E. pose proof (run_ops_ok (demo_data ++ l) _ (boot_safe [1000; 2000; 3000] [500] (repeat true 20) demo_app demo_pools_ok demo_polite)) as H.
  fold (demo_boot demo_app) in H. by rewrite E in H.
Qed.

(** Two ticks of the timer, so that the slow timer runs as well. *)
Definition demo_ticked : stack := match tcp_tmr (demo_run (demo_data ++ [OpTmr])) with Ok T => T | _ => demo_run demo_data end.

Lemma tcp_tmr_terminates_witness : tcp_tmr (demo_run (demo_data ++ [OpTmr])) = Ok demo_ticked /\ tcp_active_pcbs demo_ticked = [1000]
  /\ exists c, pcbs demo_ticked !! 1000 = Some c /\ last_timer (core c) = tcp_timer_ctr demo_ticked.
Proof.
  assert (E : tcp_tmr (demo_run (demo_data ++ [OpTmr])) = Ok demo_ticked) by (vm_compute; reflexivity). split; [exact E|]. split; [vm_compute; reflexivity|].
  pose proof (tcp_tmr_terminates _ (demo_safe [OpTmr] ltac:(vm_compute; reflexivity))) as H. rewrite E in H. apply H. vm_compute. left.
Defined.

Definition demo_ids : segment_ids := mk_ids 167772162 167772163 5555 80 0.
Definition demo_seg_in (seq fl : Z) : tcp_in :=
  let s0 := mk_st (new_pcb 0 0 0) 0 false [] [] [] in
  mk_in s0 seq 6511 20000 fl (if flag_set fl TCP_FIN then 1 else 0) (mk_seg [[]] 0 0 0 seq 6511 fl 20000 1) 0 0 None 0 0 [] None.

Definition demo_conn : pcb_obj := default (mk_obj (new_pcb 0 0 0) 0 RecvNULL false false false false false false) (pcbs (demo_run demo_data) !! 1000).
Definition demo_out (t : tcp_in) : err_t * tcp_in * stack :=
  match tcp_process 1000 demo_ids t (demo_run demo_data) with Ok v => v | _ => (ERR_VAL, t, demo_run demo_data) end.

(** A reset two bytes ahead is only answered. *)
Lemma rst_needs_exact_seqno_witness : flag_set (in_recv_flags (snd (demo_out (demo_seg_in 1006 4)))) TF_RESET = false
  /\ exists c', pcbs (snd (demo_out (demo_seg_in 1006 4))) !! 1000 = Some c' /\ core c' = tcp_ack_now (core demo_conn).
Proof.
  assert (H1 : pcbs (demo_run demo_data) !! 1000 = Some demo_conn) by (vm_compute; reflexivity).
  assert (H2 : flag_set (in_flags (demo_seg_in 1006 4)) TCP_RST = true) by (vm_compute; reflexivity).
  assert (H3 : flag_set (in_recv_flags (demo_run demo_data)) TF_RESET = false) by (vm_compute; reflexivity).
  assert (H4 : tcp_process 1000 demo_ids (demo_seg_in 1006 4) (demo_run demo_data) = Ok (fst (fst (demo_out (demo_seg_in 1006 4))), snd (fst (demo_out (demo_seg_in 1006 4))), snd (demo_out (demo_seg_in 1006 4))))
    by (vm_compute; reflexivity).
  destruct (rst_needs_exact_seqno _ _ _ _ _ _ _ _ H1 H2 H3 H4) as (H & _ & K). split; [rewrite H; vm_compute; reflexivity|].
  destruct K as (c' & K1 & K2); [vm_compute; reflexivity|]. exists c'. split; [exact K1|]. rewrite K2. vm_compute. reflexivity.
Defined.

(** A FIN in ESTABLISHED. *)
Lemma tcp_process_follows_diagram_witness : exists c', pcbs (snd (demo_out (demo_seg_in 1004 17))) !! 1000 = Some c' /\ segment_edge (state (core demo_conn)) (state (core c')).
Proof.
  assert (H1 : pcbs (demo_run demo_data) !! 1000 = Some demo_conn) by (vm_compute; reflexivity).
  assert (H2 : active_state (state (core demo_conn)) = true) by (vm_compute; reflexivity).
  assert (H3 : state (core demo_conn) <> SYN_SENT) by (vm_compute; discriminate).
  assert (H4 : state (core demo_conn) <> SYN_RCVD) by (vm_compute; discriminate).
  assert (H5 : tcp_process 1000 demo_ids (demo_seg_in 1004 17) (demo_run demo_data) = Ok (fst (fst (demo_out (demo_seg_in 1004 17))), snd (fst (demo_out (demo_seg_in 1004 17))), snd (demo_out (demo_seg_in 1004 17))))
    by (vm_compute; reflexivity).
  exact (tcp_process_follows_diagram _ _ _ _ _ _ _ _ H1 H2 H3 H4 H5).
Defined.

(** The connection after the handshake, with [w] bytes left in its window. *)
Definition demo_low (w : Z) : stack :=
  let S := demo_run demo_open in
  S <| pcbs := (fun c => c <| core := (core c) <| rcv_wnd := w |> <| rcv_ann_wnd := w |> <| rcv_ann_right_edge := rcv_nxt (core c) + w |> |>) <$> pcbs S |>.

(** A segment of [n] bytes that begins five bytes ahead, then the five bytes
    before it. *)
Definition demo_gap (n : nat) : list op := [demo_segment 1006 6511 16 (repeat 7 n); demo_segment 1001 6511 16 (repeat 7 5)].

Definition asserts (r : res stack) : bool := match r with Failed => true | _ => false end.

(** The two segments of TcpOverrun as packets of a run: the assertion of
    [tcp_receive] fails; within the window the same segments are taken. *)
Theorem oos_overrun_run : asserts (run_ops (demo_gap 20) (demo_low 10)) = true /\ asserts (run_ops (demo_gap 5) (demo_low 10)) = false.
Proof. split; vm_compute; reflexivity. Qed.
