(* ===== verification/Ip4Hdr.v ===== *)
(** * Ip4Hdr: IPv4 packets, src/Sources/Lwip/src/include/lwip/prot/ip4.h

    The IP header as the bytes in memory, its fields as the macros read and
    write them (a 16-bit field is loaded in the machine's little-endian order
    and converted with [lwip_ntohs]), and packets as chains of buffers. *)

From S2P Require Import Prelude Def Ip4Addr Chksum TcpPcb.

(** ** Fields of a header *)
Definition ld8 (h : list Z) (i : nat) : Z := default 0 (h !! i).
Definition ld16 (h : list Z) (i : nat) : Z := ld8 h i + 256 * ld8 h (i + 1).
Definition ld32 (h : list Z) (i : nat) : Z := ld16 h i + 65536 * ld16 h (i + 2).
Definition st8 (h : list Z) (i : nat) (v : Z) : list Z := <[i := u8 v]> h.
Definition st16 (h : list Z) (i : nat) (v : Z) : list Z := st8 (st8 h i v) (i + 1) (v / 256).
Definition st32 (h : list Z) (i : nat) (v : Z) : list Z := st16 (st16 h i v) (i + 2) (v / 65536).

Definition IP_RF : Z := 32768.
Definition IP_DF : Z := 16384.
Definition IP_MF : Z := 8192.
Definition IP_OFFMASK : Z := 8191.
Definition IP_HLEN_MAX : Z := 60.
Definition IP_PROTO_ICMP : Z := 1.
Definition IP_PROTO_UDP : Z := 17.
Definition IP_PROTO_TCP : Z := 6.

Definition lwip_ntohs (x : Z) : Z := lwip_htons x.

Definition IPH_V (h : list Z) : Z := Z.shiftr (ld8 h 0) 4.
Definition IPH_HL (h : list Z) : Z := Z.land (ld8 h 0) 15.
Definition IPH_HL_BYTES (h : list Z) : Z := u8 (IPH_HL h * 4).
Definition IPH_TOS (h : list Z) : Z := ld8 h 1.
Definition IPH_LEN (h : list Z) : Z := ld16 h 2.
Definition IPH_ID (h : list Z) : Z := ld16 h 4.
Definition IPH_OFFSET (h : list Z) : Z := ld16 h 6.
Definition IPH_OFFSET_BYTES (h : list Z) : Z := u16 (Z.land (lwip_ntohs (IPH_OFFSET h)) IP_OFFMASK * 8).
Definition IPH_TTL (h : list Z) : Z := ld8 h 8.
Definition IPH_PROTO (h : list Z) : Z := ld8 h 9.
Definition IPH_CHKSUM (h : list Z) : Z := ld16 h 10.
Definition IPH_SRC (h : list Z) : Z := ld32 h 12.
Definition IPH_DEST (h : list Z) : Z := ld32 h 16.

Definition IPH_VHL_SET (h : list Z) (v hl : Z) : list Z := st8 h 0 (Z.lor (Z.shiftl v 4) hl).
Definition IPH_TOS_SET (h : list Z) (v : Z) : list Z := st8 h 1 v.
Definition IPH_LEN_SET (h : list Z) (v : Z) : list Z := st16 h 2 v.
Definition IPH_ID_SET (h : list Z) (v : Z) : list Z := st16 h 4 v.
Definition IPH_OFFSET_SET (h : list Z) (v : Z) : list Z := st16 h 6 v.
Definition IPH_TTL_SET (h : list Z) (v : Z) : list Z := st8 h 8 v.
Definition IPH_PROTO_SET (h : list Z) (v : Z) : list Z := st8 h 9 v.
Definition IPH_CHKSUM_SET (h : list Z) (v : Z) : list Z := st16 h 10 v.

(** ** Packets

    A buffer of a chain is the address of its structure and its data; a packet
    is a chain, the [u16_t] total length its first buffer carries, and what
    memory holds behind the data of the first buffer (the header is read before
    its length is checked). *)
Record buf := mk_buf { b_addr : Z; b_data : list Z }.
Record pkt := mk_pkt { p_tot : Z; p_bufs : list buf; p_rest : list Z }.
#[export] Instance eta_buf : Eta buf := fun b => mk_buf (b_addr b) (b_data b).
#[export] Instance eta_pkt : Eta pkt := fun p => mk_pkt (p_tot p) (p_bufs p) (p_rest p).

Definition p_chain (p : pkt) : chain := map b_data (p_bufs p).
Definition p_bytes (p : pkt) : list Z := cbytes (p_chain p).
Definition p_addrs (p : pkt) : list Z := map b_addr (p_bufs p).
(** [p->len] *)
Definition p_len (p : pkt) : Z := match p_bufs p with b :: _ => lenz (b_data b) | [] => 0 end.
(** What a pointer to [p->payload] can be read at. *)
Definition p_payload (p : pkt) : list Z := match p_bufs p with b :: _ => b_data b ++ p_rest p | [] => p_rest p end.

(** The first [IP_HLEN] bytes at [p->payload], a [struct ip_hdr]. *)
Definition iphdr_of (p : pkt) : list Z := takez IP_HLEN (p_payload p).

(** [SMEMCPY(p->payload, h, IP_HLEN)] *)
Definition set_iphdr (h : list Z) (p : pkt) : pkt :=
  match p_bufs p with b :: l => p <| p_bufs := b <| b_data := h ++ dropz IP_HLEN (b_data b) |> :: l |> | [] => p end.

(** [pbuf_clen], [pbuf_remove_header], [pbuf_cat] *)
Definition pbuf_clen (p : pkt) : Z := u16 (lenz (p_bufs p)).
Definition pbuf_remove_header (n : Z) (p : pkt) : pkt :=
  match p_bufs p with
  | b :: l => if lenz (b_data b) <? n then p else mk_pkt (u16 (p_tot p - n)) (b <| b_data := dropz n (b_data b) |> :: l) (p_rest p)
  | [] => p
  end.
Definition pbuf_cat (p t : pkt) : pkt := mk_pkt (u16 (p_tot p + p_tot t)) (p_bufs p ++ p_bufs t) (p_rest p).

(** A packet whose lengths agree, as the pbuf functions make them. *)
Record pkt_ok (p : pkt) : Prop := {
  pk_tot : p_tot p = lenz (p_bytes p);
  pk_bufs : p_bufs p <> [];
  pk_max : p_tot p <= 65535;
  pk_u8 : Forall is_u8 (p_bytes p ++ p_rest p) }.

(** ** Facts about fields *)
Lemma lenz_st8 h i v : lenz (st8 h i v) = lenz h.
Proof. unfold lenz, st8. by rewrite length_insert. Qed.

Lemma lenz_st16 h i v : lenz (st16 h i v) = lenz h.
Proof. unfold st16. by rewrite !lenz_st8. Qed.

Lemma lenz_st32 h i v : lenz (st32 h i v) = lenz h.
Proof. unfold st32. by rewrite !lenz_st16. Qed.

Lemma ld8_st8_ne h i j v : i <> j -> ld8 (st8 h i v) j = ld8 h j.
Proof. intros H. unfold ld8, st8. by rewrite list_lookup_insert_ne. Qed.

Lemma ld8_st8_eq h i v : Z.of_nat i < lenz h -> ld8 (st8 h i v) i = u8 v.
Proof. intros H. unfold ld8, st8. rewrite list_lookup_insert_eq by (unfold lenz in H; lia). done. Qed.

(** Writing one field and reading another, or the same one. *)
Lemma ld8_st16_ne h i j v : i <> j -> (i + 1)%nat <> j -> ld8 (st16 h i v) j = ld8 h j.
Proof. intros H1 H2. unfold st16. by rewrite !ld8_st8_ne by lia. Qed.

Lemma ld16_st16_ne h i j v : (i + 1 < j \/ j + 1 < i)%nat -> ld16 (st16 h i v) j = ld16 h j.
Proof. intros H. unfold ld16. by rewrite !ld8_st16_ne by lia. Qed.

Lemma ld16_st8_ne h i j v : (i < j \/ j + 1 < i)%nat -> ld16 (st8 h i v) j = ld16 h j.
Proof. intros H. unfold ld16. by rewrite !ld8_st8_ne by lia. Qed.

Lemma ld16_st16_eq h i v : Z.of_nat i + 1 < lenz h -> is_u16 v -> ld16 (st16 h i v) i = v.
Proof.
  intros H Hv. unfold ld16, st16. rewrite ld8_st8_ne, ld8_st8_eq, ld8_st8_eq by (rewrite ?lenz_st8; lia).
  unfold u8, is_u16 in *. lia.
Qed.

Lemma ld32_st16_ne h i j v : (i + 1 < j \/ j + 3 < i)%nat -> ld32 (st16 h i v) j = ld32 h j.
Proof. intros H. unfold ld32. by rewrite !ld16_st16_ne by lia. Qed.

Lemma ld32_st8_ne h i j v : (i < j \/ j + 3 < i)%nat -> ld32 (st8 h i v) j = ld32 h j.
Proof. intros H. unfold ld32. by rewrite !ld16_st8_ne by lia. Qed.

Lemma ld8_st32_ne h i j v : (j < i \/ i + 3 < j)%nat -> ld8 (st32 h i v) j = ld8 h j.
Proof. intros H. unfold st32. by rewrite !ld8_st16_ne by lia. Qed.

Lemma ld16_st32_ne h i j v : (i + 3 < j \/ j + 1 < i)%nat -> ld16 (st32 h i v) j = ld16 h j.
Proof. intros H. unfold st32. by rewrite !ld16_st16_ne by lia. Qed.

Lemma ld32_st32_ne h i j v : (i + 3 < j \/ j + 3 < i)%nat -> ld32 (st32 h i v) j = ld32 h j.
Proof. intros H. unfold st32. by rewrite !ld32_st16_ne by lia. Qed.

Lemma ld32_st32_eq h i v : Z.of_nat i + 3 < lenz h -> is_u32 v -> ld32 (st32 h i v) i = v.
Proof.
  intros H Hv. unfold ld32, st32, ld16, st16.
  rewrite !ld8_st8_ne, !ld8_st8_eq by (rewrite ?lenz_st8; lia).
  rewrite !ld8_st8_ne, !ld8_st8_eq by (rewrite ?lenz_st8; lia).
  rewrite !ld8_st8_ne, !ld8_st8_eq by (rewrite ?lenz_st8; lia).
  unfold u8, is_u32 in *. lia.
Qed.

Lemma st8_u8 h i v : Forall is_u8 h -> Forall is_u8 (st8 h i v).
Proof. intros H. apply Forall_insert; [done|apply u8_range]. Qed.

Lemma st16_u8 h i v : Forall is_u8 h -> Forall is_u8 (st16 h i v).
Proof. intros H. by apply st8_u8, st8_u8. Qed.

Lemma st32_u8 h i v : Forall is_u8 h -> Forall is_u8 (st32 h i v).
Proof. intros H. by apply st16_u8, st16_u8. Qed.

Lemma ld8_range h i : Forall is_u8 h -> is_u8 (ld8 h i).
Proof. intros H. unfold ld8. destruct (h !! i) eqn:E; [|done]. cbn. rewrite Forall_lookup in H. eauto. Qed.

Lemma ld16_range h i : Forall is_u8 h -> is_u16 (ld16 h i).
Proof. intros H. unfold ld16. pose proof (ld8_range h i H). pose proof (ld8_range h (i + 1) H). zlia. Qed.

Lemma ld32_range h i : Forall is_u8 h -> is_u32 (ld32 h i).
Proof. intros H. unfold ld32. pose proof (ld16_range h i H). pose proof (ld16_range h (i + 2) H). zlia. Qed.

Create Rewrite HintDb hdrw.
#[export] Hint Rewrite lenz_st8 lenz_st16 lenz_st32 : hdrw.

(** Read a field of an updated header. *)
Ltac hdr := unfold IPH_TOS, IPH_LEN, IPH_ID, IPH_OFFSET, IPH_TTL, IPH_PROTO, IPH_CHKSUM, IPH_SRC, IPH_DEST, IPH_V, IPH_HL,
    IPH_VHL_SET, IPH_TOS_SET, IPH_LEN_SET, IPH_ID_SET, IPH_OFFSET_SET, IPH_TTL_SET, IPH_PROTO_SET, IPH_CHKSUM_SET in *;
  repeat first
    [ rewrite ld8_st8_ne by lia | rewrite ld8_st16_ne by lia | rewrite ld8_st32_ne by lia
    | rewrite ld16_st8_ne by lia | rewrite ld16_st16_ne by lia | rewrite ld16_st32_ne by lia
    | rewrite ld32_st8_ne by lia | rewrite ld32_st16_ne by lia | rewrite ld32_st32_ne by lia
    | rewrite ld8_st8_eq by (autorewrite with hdrw; lia)
    | rewrite ld16_st16_eq by (autorewrite with hdrw; solve [lia | zlia])
    | rewrite ld32_st32_eq by (autorewrite with hdrw; solve [lia | zlia]) ].

(** Network order. *)
Lemma htons_eq x : is_u16 x -> lwip_htons x = (x mod 256) * 256 + x / 256.
Proof.
  intros Hx. unfold lwip_htons, PP_HTONS. change 0xff with (Z.shiftl 255 0). change 0xff00 with (Z.shiftl 255 8).
  rewrite !land_byte_at by lia. rewrite Z.shiftr_shiftl_l by lia. cbn [Z.sub]. change (8 - 8) with 0. rewrite !Z.shiftl_0_r.
  change (2 ^ 0) with 1. rewrite Z.div_1_r. rewrite lor_shiftl_add by lia. change (2 ^ 8) with 256. zlia.
Qed.

Lemma htons_range x : is_u16 x -> is_u16 (lwip_htons x).
Proof. intros H. rewrite htons_eq by done. zlia. Qed.

Lemma htons_htons x : is_u16 x -> lwip_htons (lwip_htons x) = x.
Proof. intros H. rewrite (htons_eq (lwip_htons x)) by by apply htons_range. rewrite htons_eq by done. zlia. Qed.

(** A flag in network order. *)
Lemma land_pow2 x k : 0 <= k -> Z.land x (2 ^ k) = if Z.testbit x k then 2 ^ k else 0.
Proof.
  intros Hk. apply Z.bits_inj'. intros i Hi. rewrite Z.land_spec, Z.pow2_bits_eqb by lia. destruct (Z.eqb_spec k i) as [->|Hne].
  - rewrite andb_true_r. destruct (Z.testbit x i) eqn:E; [rewrite Z.pow2_bits_true by lia; done|by rewrite Z.bits_0].
  - rewrite andb_false_r. destruct (Z.testbit x k); [by rewrite Z.pow2_bits_false by lia|by rewrite Z.bits_0].
Qed.

(** [IP_MF] tested in network and in host order. *)
Lemma land_mf x : is_u16 x -> Z.land x (PP_HTONS IP_MF) =? 0 = (Z.land (lwip_ntohs x) IP_MF =? 0).
Proof.
  intros Hx. change (PP_HTONS IP_MF) with (2 ^ 5). change IP_MF with (2 ^ 13). unfold lwip_ntohs. rewrite !land_pow2 by lia. rewrite htons_eq by done.
  replace (Z.testbit (x mod 256 * 256 + x / 256) 13) with (Z.testbit x 5); [by destruct (Z.testbit x 5)|].
  rewrite !Z.testbit_eqb by lia. f_equal. change (2 ^ 5) with 32. change (2 ^ 13) with 8192. unfold is_u16 in Hx. lia.
Qed.

Lemma land_offmask x : is_u16 x -> Z.land x IP_OFFMASK = x mod 8192.
Proof. intros Hx. change IP_OFFMASK with (Z.ones 13). by rewrite Z.land_ones by lia. Qed.

Lemma iphdr_len p : 20 <= p_len p -> lenz (iphdr_of p) = 20.
Proof.
  unfold p_len, iphdr_of, p_payload. destruct (p_bufs p) as [|b l]; [cbn; lia|]. intros H. apply lenz_takez. rewrite lenz_app.
  pose proof (lenz_nonneg (p_rest p)). change IP_HLEN with 20. lia.
Qed.

Lemma iphdr_u8 p : Forall is_u8 (p_bytes p ++ p_rest p) -> Forall is_u8 (iphdr_of p).
Proof.
  intros H. unfold iphdr_of, takez. apply Forall_take. unfold p_payload, p_bytes, p_chain, cbytes in *. destruct (p_bufs p) as [|b l]; cbn in *; [done|].
  rewrite !Forall_app in H. apply Forall_app. tauto.
Qed.

Lemma iphdr_bytes p : 20 <= p_len p -> p_bytes p = iphdr_of p ++ dropz 20 (p_bytes p).
Proof.
  intros H. rewrite <- (takez_dropz 20 (p_bytes p)) at 1. f_equal. unfold iphdr_of, p_bytes, p_payload, p_chain, cbytes, p_len in *.
  destruct (p_bufs p) as [|b l]; [cbn in H; lia|]. cbn. change IP_HLEN with 20. rewrite !takez_app by lia. by rewrite !(takez_0 (20 - _)) by lia.
Qed.

(** A header with its checksum filled in checks to 0. *)
Lemma list_20 (h : list Z) : lenz h = 20 -> exists a b x y, h = a ++ [x; y] ++ b /\ lenz a = 10 /\ lenz b = 8.
Proof.
  intros H. do 20 (destruct h as [|? h]; [discriminate|]). destruct h; [|rewrite !lenz_cons in H; pose proof (lenz_nonneg h); lia].
  eexists [_; _; _; _; _; _; _; _; _; _], [_; _; _; _; _; _; _; _], _, _. done.
Qed.

Lemma st16_mid (a : list Z) x y b v : lenz a = 10 -> st16 (a ++ [x; y] ++ b) 10 v = a ++ [u8 v; u8 (v / 256)] ++ b.
Proof. intros H. do 10 (destruct a as [|? a]; [discriminate|]). destruct a; [done|rewrite !lenz_cons in H; pose proof (lenz_nonneg a); lia]. Qed.

Lemma hdr_chksum_ok h d d' : lenz h = 20 -> Forall is_u8 h ->
  let h0 := IPH_CHKSUM_SET h 0 in inet_chksum d' (IPH_CHKSUM_SET h0 (inet_chksum d h0)) = 0.
Proof.
  intros Hl Hu. destruct (list_20 h Hl) as (a & b & x & y & -> & Ha & Hb). unfold IPH_CHKSUM_SET. cbv zeta. rewrite !st16_mid by done. change (u8 0) with 0. change (u8 (0 / 256)) with 0.
  assert (Hu' : Forall is_u8 (a ++ b)) by (rewrite !Forall_app in *; tauto). destruct (chksum_filled d d' a b Hu') as (_ & _ & H); [rewrite lenz_app; lia|by rewrite Ha|].
  cbv zeta in H. set (c := inet_chksum d (a ++ [0; 0] ++ b)) in *. assert (Hc : is_u16 c) by apply u16_range. rewrite (u8_id (c / 256)) by zlia. exact H.
Qed.
