(* ===== verification/Ip4Frag.v ===== *)
(** * Ip4Frag: fragments, src/Sources/Lwip/src/core/ipv4/ip4_frag.c

    Reassembly of incoming fragments and fragmentation of outgoing packets, in
    the configuration of lwipopts.h: [IP_REASS_CHECK_OVERLAP] and
    [IP_REASS_FREE_OLDEST] are on, [LWIP_ICMP] and [LWIP_NETIF_TX_SINGLE_PBUF]
    off.  The list of datagrams under reassembly and, in each, the list of
    fragments linked through the [ip_reass_helper] that overwrites their headers
    are lists; a datagram is known by the address of its [struct ip_reassdata].
    [pbuf_free] of a chain appends the addresses of its buffers to [freed].
    [None] is a failed assertion, a dangling pointer or a loop without end. *)

From S2P Require Import Prelude Def Ip4Addr Opts Chksum TcpPcb Ip4Hdr.

Definition IP_REASS_FLAG_LASTFRAG : Z := 1.
Definition IP_REASS_MAX_PBUFS : Z := 10.
Definition IP_REASS_MAXAGE : Z := 15.

(** ** Data *)

(** A queued fragment: its pbuf and the offsets in its [ip_reass_helper]. *)
Record frag := mk_frag { fr_p : pkt; fr_start : Z; fr_end : Z }.

Record ip_reassdata := mk_rd {
  r_addr : Z; r_p : list frag; r_iphdr : list Z; r_datagram_len : Z; r_flags : Z; r_timer : Z }.
#[export] Instance eta_rd : Eta ip_reassdata := fun r =>
  mk_rd (r_addr r) (r_p r) (r_iphdr r) (r_datagram_len r) (r_flags r) (r_timer r).

Record reass := mk_reass {
  reassdatagrams : list ip_reassdata;
  ip_reass_pbufcount : Z;
  (** free elements of [MEMP_REASSDATA] *)
  reass_pool : list Z;
  (** buffers returned by [pbuf_free] *)
  freed : list Z }.
#[export] Instance eta_reass : Eta reass := fun S =>
  mk_reass (reassdatagrams S) (ip_reass_pbufcount S) (reass_pool S) (freed S).

Definition IP_ADDRESSES_AND_ID_MATCH (a b : list Z) : bool :=
  (IPH_SRC a =? IPH_SRC b) && (IPH_DEST a =? IPH_DEST b) && (IPH_ID a =? IPH_ID b).

(** [pbuf_free] of an unshared chain. *)
Definition pbuf_free (p : pkt) (S : reass) : reass := S <| freed := freed S ++ p_addrs p |>.

(** ** Lists of datagrams *)
Fixpoint find_rd (a : Z) (l : list ip_reassdata) : option ip_reassdata :=
  match l with [] => None | r :: l => if r_addr r =? a then Some r else find_rd a l end.
(** [a->next], 0 at the end of the list. *)
Fixpoint next_rd (a : Z) (l : list ip_reassdata) : option Z :=
  match l with
  | [] => None
  | r :: l => if r_addr r =? a then Some (match l with s :: _ => r_addr s | [] => 0 end) else next_rd a l
  end.
Definition head_rd (l : list ip_reassdata) : Z := match l with r :: _ => r_addr r | [] => 0 end.
Definition upd_rd (a : Z) (f : ip_reassdata -> ip_reassdata) (l : list ip_reassdata) : list ip_reassdata :=
  map (fun r => if r_addr r =? a then f r else r) l.
(** [prev->next = ipr->next]; with a [prev] that does not precede [ipr] the
    list would be broken. *)
Fixpoint unlink_rd (ipr prev : Z) (l : list ip_reassdata) : option (list ip_reassdata) :=
  match l with
  | [] => None
  | r :: l =>
      if r_addr r =? prev then
        match l with s :: l => if r_addr s =? ipr then Some (r :: l) else None | [] => None end
      else let? l := unlink_rd ipr prev l in Some (r :: l)
  end.

Definition ip_reass_dequeue_datagram (ipr prev : Z) (S : reass) : option reass :=
  let l := reassdatagrams S in
  let? l :=
    (if head_rd l =? ipr then Some (tl l)
     else assert! negb (prev =? 0) in unlink_rd ipr prev l) in
  Some (S <| reassdatagrams := l |> <| reass_pool := ipr :: reass_pool S |>).

(** The fragments of a datagram are released one by one. *)
Fixpoint free_frags (l : list frag) (pbufs_freed : Z) (S : reass) : option (Z * reass) :=
  match l with
  | [] => Some (pbufs_freed, S)
  | f :: l =>
      let clen := pbuf_clen (fr_p f) in
      assert! (pbufs_freed + clen <=? 65535) in
      free_frags l (u16 (pbufs_freed + clen)) (pbuf_free (fr_p f) S)
  end.

Definition ip_reass_free_complete_datagram (ipr prev : Z) (S : reass) : option (Z * reass) :=
  assert! negb (prev =? ipr) in
  let? ok := (if prev =? 0 then Some true else let? n := next_rd prev (reassdatagrams S) in Some (n =? ipr)) in
  assert! ok in
  let? r := find_rd ipr (reassdatagrams S) in
  let? (pbufs_freed, S) := free_frags (r_p r) 0 S in
  let? S := ip_reass_dequeue_datagram ipr prev S in
  assert! (pbufs_freed <=? ip_reass_pbufcount S) in
  Some (pbufs_freed, S <| ip_reass_pbufcount := u16 (ip_reass_pbufcount S - pbufs_freed) |>).

(** ** The timer *)
Fixpoint tmr_loop (fuel : nat) (r prev : Z) (S : reass) : option reass :=
  if r =? 0 then Some S
  else match fuel with
  | O => None
  | Datatypes.S fuel =>
      let? rd := find_rd r (reassdatagrams S) in
      let? next := next_rd r (reassdatagrams S) in
      if 0 <? r_timer rd then
        tmr_loop fuel next r (S <| reassdatagrams := upd_rd r (fun rd => rd <| r_timer := r_timer rd - 1 |>) (reassdatagrams S) |>)
      else
        let? (_, S) := ip_reass_free_complete_datagram r prev S in
        tmr_loop fuel next prev S
  end.
Definition ip_reass_tmr (S : reass) : option reass :=
  tmr_loop (length (reassdatagrams S)) (head_rd (reassdatagrams S)) 0 S.

(** ** Making room *)

(** The search for the oldest datagram other than the fragment's own: it, its
    predecessor, and the number of others. *)
Fixpoint oldest_loop (fraghdr : list Z) (l : list ip_reassdata) (prev : Z) (oldest : option ip_reassdata) (oldest_prev others : Z)
  : option ip_reassdata * Z * Z :=
  match l with
  | [] => (oldest, oldest_prev, others)
  | r :: l =>
      let prev' := match l with [] => prev | _ => r_addr r end in
      if negb (IP_ADDRESSES_AND_ID_MATCH (r_iphdr r) fraghdr) then
        match oldest with
        | None => oldest_loop fraghdr l prev' (Some r) prev (others + 1)
        | Some o =>
            if r_timer r <=? r_timer o then oldest_loop fraghdr l prev' (Some r) prev (others + 1)
            else oldest_loop fraghdr l prev' oldest oldest_prev (others + 1)
        end
      else oldest_loop fraghdr l prev' oldest oldest_prev others
  end.

Fixpoint remove_oldest_loop (fuel : nat) (fraghdr : list Z) (pbufs_needed pbufs_freed : Z) (S : reass) : option (Z * reass) :=
  match fuel with
  | O => None
  | Datatypes.S fuel =>
      let '(oldest, oldest_prev, other_datagrams) := oldest_loop fraghdr (reassdatagrams S) 0 None 0 0 in
      let? (pbufs_freed, S) :=
        (match oldest with
         | Some r => let? (cur, S) := ip_reass_free_complete_datagram (r_addr r) oldest_prev S in Some (pbufs_freed + cur, S)
         | None => Some (pbufs_freed, S)
         end) in
      if (pbufs_freed <? pbufs_needed) && (1 <? other_datagrams)
      then remove_oldest_loop fuel fraghdr pbufs_needed pbufs_freed S
      else Some (pbufs_freed, S)
  end.
Definition ip_reass_remove_oldest_datagram (fraghdr : list Z) (pbufs_needed : Z) (S : reass) : option (Z * reass) :=
  remove_oldest_loop (Datatypes.S (length (reassdatagrams S))) fraghdr pbufs_needed 0 S.

(** ** A new datagram *)

(** [memp_malloc(MEMP_REASSDATA)], 0 when the pool is empty. *)
Definition reassdata_malloc (S : reass) : Z * reass :=
  match reass_pool S with a :: l => (a, S <| reass_pool := l |>) | [] => (0, S) end.

(** The new entry's address, 0 on failure. *)
Definition ip_reass_enqueue_new_datagram (fraghdr : list Z) (clen : Z) (S : reass) : option (Z * reass) :=
  let (ipr, S) := reassdata_malloc S in
  let? (ipr, S) :=
    (if ipr =? 0 then
       let? (n, S) := ip_reass_remove_oldest_datagram fraghdr clen S in
       Some (if clen <=? n then reassdata_malloc S else (0, S))
     else Some (ipr, S)) in
  if ipr =? 0 then Some (0, S)
  else Some (ipr, S <| reassdatagrams := mk_rd ipr [] fraghdr 0 0 IP_REASS_MAXAGE :: reassdatagrams S |>).

(** ** Inserting a fragment *)
Inductive validity := TELEGRAM_FINISHED | PBUF_QUEUED | PBUF_DROPPED.

#[export] Instance validity_eq_dec : EqDecision validity.
Proof. solve_decision. Defined.

(** The walk along the queue: [prev] is [iprh_prev].  The result is the new
    queue with the fragments that follow the new one, or [None] inside when the
    fragment is dropped. *)
Fixpoint chain_walk (nw : frag) (prev : option frag) (l : list frag) (valid : bool)
  : option (option (list frag * list frag * bool)) :=
  match l with
  | [] =>
      match prev with
      | Some pv => assert! (fr_end pv <=? fr_start nw) in Some (Some ([nw], [], valid && (fr_end pv =? fr_start nw)))
      | None => Some (Some ([nw], [], valid))
      end
  | t :: l' =>
      if fr_start nw <? fr_start t then
        match prev with
        | Some pv =>
            if (fr_start nw <? fr_end pv) || (fr_start t <? fr_end nw) then Some None
            else Some (Some (nw :: l, l, valid && (fr_end pv =? fr_start nw)))
        | None => if fr_start t <? fr_end nw then Some None else Some (Some (nw :: l, l, valid))
        end
      else if fr_start nw =? fr_start t then Some None
      else if fr_start nw <? fr_end t then Some None
      else
        let valid := match prev with Some pv => valid && (fr_end pv =? fr_start t) | None => valid end in
        let? r := chain_walk nw (Some t) l' valid in
        match r with Some (q, rest, valid) => Some (Some (t :: q, rest, valid)) | None => Some None end
  end.

(** No hole from [prev] on. *)
Fixpoint no_holes (prev : frag) (l : list frag) : bool :=
  match l with [] => true | f :: l => (fr_end prev =? fr_start f) && no_holes f l end.

(** The datagram's queue after the fragment, and the verdict.  The last
    fragment the final check visits must not be the first of the queue. *)
Definition ip_reass_chain_frag_into_datagram_and_validate (ipr : ip_reassdata) (new_p : pkt) (is_last : bool)
  : option (validity * list frag) :=
  let fraghdr := iphdr_of new_p in
  let len := lwip_ntohs (IPH_LEN fraghdr) in
  let hlen := IPH_HL_BYTES fraghdr in
  if len <? hlen then Some (PBUF_DROPPED, r_p ipr)
  else
    let len := u16 (len - hlen) in
    let offset := IPH_OFFSET_BYTES fraghdr in
    let nw := mk_frag new_p offset (u16 (offset + len)) in
    if fr_end nw <? offset then Some (PBUF_DROPPED, r_p ipr)
    else
      let? w := chain_walk nw None (r_p ipr) true in
      match w with
      | None => Some (PBUF_DROPPED, r_p ipr)
      | Some (q, rest, valid) =>
          if is_last || flag_set (r_flags ipr) IP_REASS_FLAG_LASTFRAG then
            match q with
            | f :: tail =>
                if valid && (fr_start f =? 0) && no_holes nw rest then
                  assert! (match tail with [] => false | _ => true end) in Some (TELEGRAM_FINISHED, q)
                else Some (PBUF_QUEUED, q)
            | [] => None
            end
          else Some (PBUF_QUEUED, q)
      end.

(** ** Reassembly *)

(** The packet that a complete queue becomes: the saved header with the new
    length and checksum in the first buffer, the other headers hidden.  (The
    checksum does not depend on the header's address.) *)
Definition join_frags (hdr : list Z) (datagram_len : Z) (q : list frag) : option pkt :=
  match q with
  | [] => None
  | f :: l =>
      let h := IPH_CHKSUM_SET (IPH_OFFSET_SET (IPH_LEN_SET hdr (lwip_htons (u16 (datagram_len + IP_HLEN)))) 0) 0 in
      let h := IPH_CHKSUM_SET h (inet_chksum 0 h) in
      Some (fold_left (fun p g => pbuf_cat p (pbuf_remove_header IP_HLEN (fr_p g))) l (set_iphdr h (fr_p f)))
  end.

(** [ipr_prev]: the entry before [ipr], 0 if it is the first. *)
Fixpoint prev_rd (ipr : Z) (l : list ip_reassdata) : Z :=
  match l with
  | r :: l' => match l' with s :: _ => if r_addr s =? ipr then r_addr r else prev_rd ipr l' | [] => 0 end
  | [] => 0
  end.

Definition reass_nullreturn (p : pkt) (S : reass) : option (option pkt * reass) := Some (None, pbuf_free p S).

(** A dropped fragment whose entry is still empty takes the entry with it. *)
Definition reass_nullreturn_ipr (ipr : Z) (p : pkt) (S : reass) : option (option pkt * reass) :=
  let? r := find_rd ipr (reassdatagrams S) in
  match r_p r with
  | [] =>
      assert! (head_rd (reassdatagrams S) =? ipr) in
      let? S := ip_reass_dequeue_datagram ipr 0 S in
      reass_nullreturn p S
  | _ => reass_nullreturn p S
  end.

(** The datagram is complete. *)
Definition reass_finish (ipr : Z) (S : reass) : option (option pkt * reass) :=
  let? r := find_rd ipr (reassdatagrams S) in
  let? p := join_frags (r_iphdr r) (r_datagram_len r) (r_p r) in
  let ipr_prev := if head_rd (reassdatagrams S) =? ipr then 0 else prev_rd ipr (reassdatagrams S) in
  let? S := ip_reass_dequeue_datagram ipr ipr_prev S in
  let clen := pbuf_clen p in
  assert! (clen <=? ip_reass_pbufcount S) in
  Some (Some p, S <| ip_reass_pbufcount := u16 (ip_reass_pbufcount S - clen) |>).

(** From the entry the fragment belongs to. *)
Definition reass_queue (ipr : Z) (p : pkt) (offset len clen : Z) (S : reass) : option (option pkt * reass) :=
  let fraghdr := iphdr_of p in
  let is_last := Z.land (IPH_OFFSET fraghdr) (PP_HTONS IP_MF) =? 0 in
  let datagram_len := u16 (offset + len) in
  if is_last && ((datagram_len <? offset) || (65535 - IP_HLEN <? datagram_len)) then reass_nullreturn_ipr ipr p S
  else
    let? r := find_rd ipr (reassdatagrams S) in
    let? (valid, q) := ip_reass_chain_frag_into_datagram_and_validate r p is_last in
    match valid with
    | PBUF_DROPPED => reass_nullreturn_ipr ipr p S
    | _ =>
        let S := S <| ip_reass_pbufcount := u16 (ip_reass_pbufcount S + clen) |>
                   <| reassdatagrams := upd_rd ipr (fun r =>
                        let r := r <| r_p := q |> in
                        if is_last then r <| r_datagram_len := datagram_len |> <| r_flags := Z.lor (r_flags r) IP_REASS_FLAG_LASTFRAG |>
                        else r) (reassdatagrams S) |> in
        match valid with TELEGRAM_FINISHED => reass_finish ipr S | _ => Some (None, S) end
    end.

Fixpoint match_rd (fraghdr : list Z) (l : list ip_reassdata) : option ip_reassdata :=
  match l with [] => None | r :: l => if IP_ADDRESSES_AND_ID_MATCH (r_iphdr r) fraghdr then Some r else match_rd fraghdr l end.

Definition ip4_reass (p : pkt) (S : reass) : option (option pkt * reass) :=
  let fraghdr := iphdr_of p in
  if negb (IPH_HL_BYTES fraghdr =? IP_HLEN) then reass_nullreturn p S
  else
    let offset := IPH_OFFSET_BYTES fraghdr in
    let len := lwip_ntohs (IPH_LEN fraghdr) in
    let hlen := IPH_HL_BYTES fraghdr in
    if len <? hlen then reass_nullreturn p S
    else
      let len := u16 (len - hlen) in
      let clen := pbuf_clen p in
      let? (room, S) :=
        (if IP_REASS_MAX_PBUFS <? ip_reass_pbufcount S + clen then
           let? (n, S) := ip_reass_remove_oldest_datagram fraghdr clen S in
           Some (negb (n =? 0) && negb (IP_REASS_MAX_PBUFS <? ip_reass_pbufcount S + clen), S)
         else Some (true, S)) in
      if negb room then reass_nullreturn p S
      else
        match match_rd fraghdr (reassdatagrams S) with
        | None =>
            let? (ipr, S) := ip_reass_enqueue_new_datagram fraghdr clen S in
            if ipr =? 0 then reass_nullreturn p S else reass_queue ipr p offset len clen S
        | Some r =>
            let S :=
              if (Z.land (lwip_ntohs (IPH_OFFSET fraghdr)) IP_OFFMASK =? 0)
                 && negb (Z.land (lwip_ntohs (IPH_OFFSET (r_iphdr r))) IP_OFFMASK =? 0)
              then S <| reassdatagrams := upd_rd (r_addr r) (fun r => r <| r_iphdr := fraghdr |>) (reassdatagrams S) |>
              else S in
            reass_queue (r_addr r) p offset len clen S
        end.

(** ** Fragmentation

    The fragments are sent as a buffer with the header and references into the
    packet's own buffers; allocations succeed or fail as the next element of a
    list says, and what goes to [netif->output] is recorded (its result is
    ignored).  The references to the packet taken for a fragment are dropped
    when the fragment is freed. *)

Definition take_alloc (al : list bool) : bool * list bool := match al with b :: al => (b, al) | [] => (false, []) end.

(** Where the copying stands: the offset in the current buffer, the buffers
    from it on, and the length of the last reference. *)
Record cursor := mk_cursor { poff : Z; cur : chain; newpbuflen : Z }.

(** [while (left_to_copy)]: the referenced pieces, or [None] inside when no
    [pbuf_custom_ref] is left.  ([pbuf_alloced_custom] with [PBUF_RAW] and as
    much memory as the length does not fail.) *)
Fixpoint frag_copy (fuel : nat) (left_to_copy : Z) (c : cursor) (al : list bool) (acc : chain)
  : option (option (chain * cursor) * list bool) :=
  if left_to_copy =? 0 then Some (Some (acc, c), al)
  else match fuel with
  | O => None
  | S fuel =>
      match cur c with
      | [] => None
      | q :: rest =>
          assert! (poff c <=? lenz q) in
          let plen := u16 (lenz q - poff c) in
          let newpbuflen := Z.min left_to_copy plen in
          if newpbuflen =? 0 then frag_copy fuel left_to_copy (mk_cursor 0 rest 0) al acc
          else
            let (ok, al) := take_alloc al in
            if ok : bool then
              let acc := acc ++ [takez newpbuflen (dropz (poff c) q)] in
              let left_to_copy := u16 (left_to_copy - newpbuflen) in
              if negb (left_to_copy =? 0) then frag_copy fuel left_to_copy (mk_cursor 0 rest newpbuflen) al acc
              else frag_copy fuel left_to_copy (mk_cursor (poff c) (cur c) newpbuflen) al acc
            else Some (None, al)
      end
  end.

(** The header of a fragment. *)
Definition frag_hdr (original : list Z) (ofo fragsize : Z) (last mf_set : bool) : list Z :=
  let tmp := Z.land IP_OFFMASK ofo in
  let tmp := if negb last || mf_set then Z.lor tmp IP_MF else tmp in
  let h := IPH_OFFSET_SET original (lwip_htons tmp) in
  let h := IPH_LEN_SET h (lwip_htons (u16 (fragsize + IP_HLEN))) in
  let h := IPH_CHKSUM_SET h 0 in
  IPH_CHKSUM_SET h (inet_chksum 0 h).

(** [while (left)]; [sent] are the fragments given to [netif->output]. *)
Fixpoint frag_loop (fuel : nat) (original : list Z) (mtu nfb : Z) (mf_set : bool) (left ofo : Z) (c : cursor) (al : list bool) (sent : list chain)
  : option (err_t * list chain * list bool) :=
  if left =? 0 then Some (ERR_OK, sent, al)
  else match fuel with
  | O => None
  | S fuel =>
      let fragsize := Z.min left (u16 (nfb * 8)) in
      let (ok, al) := take_alloc al in
      if ok : bool then
        let? (r, al) := frag_copy (length (cur c) + 1) fragsize c al [] in
        match r with
        | None => Some (ERR_MEM, sent, al)
        | Some (pieces, c) =>
            let c := mk_cursor (u16 (poff c + newpbuflen c)) (cur c) (newpbuflen c) in
            let last := left <=? mtu - IP_HLEN in
            let h := frag_hdr original ofo fragsize last mf_set in
            frag_loop fuel original mtu nfb mf_set (u16 (left - fragsize)) (u16 (ofo + nfb)) c al (sent ++ [h :: pieces])
        end
      else Some (ERR_MEM, sent, al)
  end.

(** [fuel] bounds the number of fragments: none is empty, so the length of the
    packet is enough when [nfb] is not 0. *)
Definition ip4_frag (p : pkt) (mtu : Z) (al : list bool) : option (err_t * list chain * list bool) :=
  let iphdr := iphdr_of p in
  let nfb := u16 (Z.quot (mtu - IP_HLEN) 8) in
  if negb (IPH_HL_BYTES iphdr =? IP_HLEN) then Some (ERR_VAL, [], al)
  else if p_len p <? IP_HLEN then Some (ERR_VAL, [], al)
  else
    let tmp := lwip_ntohs (IPH_OFFSET iphdr) in
    let ofo := Z.land tmp IP_OFFMASK in
    let mf_set := negb (Z.land tmp IP_MF =? 0) in
    let left := u16 (p_tot p - IP_HLEN) in
    frag_loop (Z.to_nat left) iphdr mtu nfb mf_set left ofo (mk_cursor IP_HLEN (p_chain p) 0) al [].
