(* ===== verification/Ip4FragFacts.v ===== *)
(** * Ip4FragFacts: the lists of ip4_frag.c

    Every operation of the reassembly code keeps its invariant, for any property
    [P] of single datagrams that queueing a fragment and ageing keep; no
    assertion fails, no list is broken, and no buffer or pool element is lost or
    released twice. *)

From S2P Require Import Prelude Def Ip4Addr Opts Chksum TcpPcb Ip4Hdr Ip4Frag.

(** ** Accounting *)
Definition frag_addrs (l : list frag) : list Z := concat (map (fun f => p_addrs (fr_p f)) l).
Definition nbufs (l : list frag) : Z := lenz (frag_addrs l).
Definition queued (l : list ip_reassdata) : list Z := concat (map (fun r => frag_addrs (r_p r)) l).
Definition total (l : list ip_reassdata) : Z := lenz (queued l).

(** The elements of the pool, used or free; the buffers held or released. *)
Definition elems (S : reass) : list Z := map r_addr (reassdatagrams S) ++ reass_pool S.
Definition held (S : reass) : list Z := queued (reassdatagrams S) ++ freed S.

Arguments frag_addrs _ : simpl never.
Arguments nbufs _ : simpl never.
Arguments queued _ : simpl never.
Arguments total _ : simpl never.

Record inv (P : ip_reassdata -> Prop) (S : reass) : Prop := {
  i_nodup : NoDup (elems S);
  i_nz : 0 ∉ elems S;
  i_count : ip_reass_pbufcount S = total (reassdatagrams S);
  i_max : total (reassdatagrams S) <= IP_REASS_MAX_PBUFS;
  i_P : Forall P (reassdatagrams S);
  i_ne : Forall (fun r => r_p r <> []) (reassdatagrams S) }.

Lemma frags_queued_app l k : queued (l ++ k) = queued l ++ queued k.
Proof. unfold queued. by rewrite map_app, concat_app. Qed.

Lemma queued_cons r l : queued (r :: l) = frag_addrs (r_p r) ++ queued l.
Proof. done. Qed.

Lemma total_app l k : total (l ++ k) = total l + total k.
Proof. unfold total. by rewrite frags_queued_app, lenz_app. Qed.

Lemma total_cons r l : total (r :: l) = nbufs (r_p r) + total l.
Proof. unfold total. by rewrite queued_cons, lenz_app. Qed.

Lemma nbufs_cons f l : nbufs (f :: l) = lenz (p_bufs (fr_p f)) + nbufs l.
Proof. unfold nbufs, frag_addrs. cbn. rewrite lenz_app. unfold p_addrs, lenz. by rewrite length_map. Qed.

Lemma nbufs_nonneg l : 0 <= nbufs l.
Proof. apply lenz_nonneg. Qed.

Lemma total_nonneg l : 0 <= total l.
Proof. apply lenz_nonneg. Qed.

#[local] Hint Resolve nbufs_nonneg total_nonneg : core.

(** ** Lists of datagrams, by address *)
Definition prev_addr (l : list ip_reassdata) : Z := match last l with Some r => r_addr r | None => 0 end.

Lemma find_rd_app l1 r l2 : r_addr r ∉ map r_addr l1 -> find_rd (r_addr r) (l1 ++ r :: l2) = Some r.
Proof.
  induction l1 as [|s l1 IH]; cbn; [by rewrite Z.eqb_refl|]. rewrite not_elem_of_cons. intros [H1 H2].
  destruct (Z.eqb_spec (r_addr s) (r_addr r)); [congruence|]. by apply IH.
Qed.

Lemma next_rd_app l1 r l2 : r_addr r ∉ map r_addr l1 -> next_rd (r_addr r) (l1 ++ r :: l2) = Some (head_rd l2).
Proof.
  induction l1 as [|s l1 IH]; cbn; [by rewrite Z.eqb_refl|]. rewrite not_elem_of_cons. intros [H1 H2].
  destruct (Z.eqb_spec (r_addr s) (r_addr r)); [congruence|]. by apply IH.
Qed.

Lemma unlink_rd_app l1 p r l2 : r_addr p ∉ map r_addr l1 -> unlink_rd (r_addr r) (r_addr p) (l1 ++ p :: r :: l2) = Some (l1 ++ p :: l2).
Proof.
  induction l1 as [|s l1 IH]; cbn; [by rewrite !Z.eqb_refl|]. rewrite not_elem_of_cons. intros [H1 H2].
  destruct (Z.eqb_spec (r_addr s) (r_addr p)); [congruence|]. by rewrite IH.
Qed.

Lemma prev_rd_app l1 r l2 : r_addr r ∉ map r_addr l1 -> l1 <> [] -> prev_rd (r_addr r) (l1 ++ r :: l2) = prev_addr l1.
Proof.
  unfold prev_addr. induction l1 as [|s l1 IH]; [done|]. intros Hn _. cbn in Hn. rewrite not_elem_of_cons in Hn. destruct Hn as [H1 H2].
  destruct l1 as [|t l1]; cbn; [by rewrite Z.eqb_refl|]. cbn in H2. rewrite not_elem_of_cons in H2. destruct (Z.eqb_spec (r_addr t) (r_addr r)); [destruct H2; congruence|].
  apply IH; [cbn; by rewrite not_elem_of_cons|done].
Qed.

Lemma upd_rd_other a f l : a ∉ map r_addr l -> upd_rd a f l = l.
Proof.
  induction l as [|r l IH]; [done|]. cbn. rewrite not_elem_of_cons. intros [H1 H2]. destruct (Z.eqb_spec (r_addr r) a); [congruence|]. f_equal. by apply IH.
Qed.

Lemma upd_rd_app f l1 r l2 : NoDup (map r_addr (l1 ++ r :: l2)) -> upd_rd (r_addr r) f (l1 ++ r :: l2) = l1 ++ f r :: l2.
Proof.
  rewrite map_app. intros H. apply NoDup_app in H as (_ & H1 & H2). cbn in H2. apply NoDup_cons in H2 as [H2 _].
  unfold upd_rd. rewrite map_app. cbn [map]. rewrite Z.eqb_refl. f_equal; [|f_equal]; apply upd_rd_other; [|done].
  intros Hc. apply (H1 _ Hc). left.
Qed.

Lemma prev_addr_snoc l r : prev_addr (l ++ [r]) = r_addr r.
Proof. unfold prev_addr. by rewrite last_snoc. Qed.

(** A datagram somewhere in a list with distinct addresses. *)
Definition at_ (l1 : list ip_reassdata) (r : ip_reassdata) (l2 : list ip_reassdata) (S : reass) : Prop :=
  reassdatagrams S = l1 ++ r :: l2 /\ NoDup (elems S) /\ 0 ∉ elems S.

Lemma at_facts l1 r l2 S : at_ l1 r l2 S ->
  r_addr r ∉ map r_addr l1 /\ r_addr r <> 0 /\ NoDup (map r_addr (l1 ++ r :: l2)) /\ prev_addr l1 <> r_addr r /\ (l1 <> [] -> prev_addr l1 <> 0).
Proof.
  intros (E & Hn & Hz). unfold elems in *. rewrite E in *. apply NoDup_app in Hn as (Hn & _ & _). rewrite not_elem_of_app in Hz. destruct Hz as [Hz _].
  pose proof Hn as Hn'. rewrite map_app in Hn, Hz. apply NoDup_app in Hn as (_ & H1 & _). assert (Hr : r_addr r ∉ map r_addr l1) by (intros Hc; apply (H1 _ Hc); left).
  rewrite not_elem_of_app in Hz. destruct Hz as [Hz1 Hz2]. rewrite map_cons, not_elem_of_cons in Hz2.
  destruct (list_snoc_destruct l1) as [->|(l' & s & ->)]; [split_and!; try done; unfold prev_addr; cbn; intuition congruence|]. rewrite prev_addr_snoc. rewrite map_app in Hr, Hz1.
  assert (r_addr s ∈ map r_addr l' ++ map r_addr [s]) by (apply elem_of_app; right; left). split_and!; try done; [by rewrite map_app|intuition congruence| |]; intros; congruence.
Qed.

Lemma dequeue_at l1 r l2 S : at_ l1 r l2 S ->
  ip_reass_dequeue_datagram (r_addr r) (prev_addr l1) S = Some (S <| reassdatagrams := l1 ++ l2 |> <| reass_pool := r_addr r :: reass_pool S |>).
Proof.
  intros H. destruct (at_facts _ _ _ _ H) as (H1 & H2 & H3 & H4 & H5). destruct H as (E & _). unfold ip_reass_dequeue_datagram. rewrite E.
  destruct l1 as [|s l1]; [cbn; by rewrite Z.eqb_refl|]. cbn [head_rd app]. cbn in H1. rewrite not_elem_of_cons in H1. rewrite (proj2 (Z.eqb_neq _ _)) by (intros ?; destruct H1; congruence).
  rewrite (proj2 (Z.eqb_neq _ _)) by (by apply H5). cbn [negb].
  destruct (list_snoc_destruct (s :: l1)) as [?|(l' & t & Et)]; [done|]. change (s :: l1 ++ r :: l2) with ((s :: l1) ++ r :: l2). change (s :: l1 ++ l2) with ((s :: l1) ++ l2). rewrite Et, prev_addr_snoc, <- !app_assoc. cbn [app].
  rewrite unlink_rd_app; [done|]. change (s :: l1 ++ r :: l2) with ((s :: l1) ++ r :: l2) in H3. rewrite Et, <- app_assoc, map_app in H3.
  apply NoDup_app in H3 as (_ & H3 & _). intros Hc. apply (H3 _ Hc). left.
Qed.

(** ** Removing datagrams *)

(** [S'] is [S] without some of its datagrams, whose buffers and pool elements
    have been released. *)
Record shrinks (S S' : reass) : Prop := {
  sh_sub : sublist (reassdatagrams S') (reassdatagrams S);
  sh_elems : elems S' ≡ₚ elems S;
  sh_held : held S' ≡ₚ held S;
  sh_count : ip_reass_pbufcount S' - total (reassdatagrams S') = ip_reass_pbufcount S - total (reassdatagrams S) }.

#[export] Instance shrinks_preorder : PreOrder shrinks.
Proof.
  split; [by intros S|]. intros S1 S2 S3 [A1 A2 A3 A4] [B1 B2 B3 B4]. split; [by etrans|by etrans|by etrans|lia].
Qed.

Lemma total_sublist l k : sublist l k -> total l <= total k.
Proof. induction 1 as [|r l k _ IH|r l k _ IH]; rewrite ?total_cons; try lia; pose proof (nbufs_nonneg (r_p r)); lia. Qed.

Lemma Forall_sub {A} (P : A -> Prop) l k : sublist l k -> Forall P k -> Forall P l.
Proof. induction 1; [done| |]; rewrite ?Forall_cons; naive_solver. Qed.

Lemma inv_shrinks P S S' : inv P S -> shrinks S S' -> inv P S'.
Proof.
  intros [I1 I2 I3 I4 I5 I6] [A1 A2 A3 A4]. pose proof (total_sublist _ _ A1). split; try lia.
  - by rewrite A2.
  - by rewrite A2.
  - by eapply Forall_sub.
  - by eapply Forall_sub.
Qed.

Lemma free_frags_ok l : forall n S, 0 <= n -> n + nbufs l <= 65535 ->
  free_frags l n S = Some (n + nbufs l, S <| freed := freed S ++ frag_addrs l |>).
Proof.
  induction l as [|f l IH]; intros n S Hn H; cbn [free_frags].
  - unfold nbufs, frag_addrs. cbn. rewrite Z.add_0_r, app_nil_r. by destruct S.
  - rewrite nbufs_cons in H |- *. pose proof (nbufs_nonneg l). pose proof (lenz_nonneg (p_bufs (fr_p f))). unfold pbuf_clen. rewrite (u16_id (lenz _)) by zlia.
    rewrite (proj2 (Z.leb_le _ _)) by lia. rewrite u16_id by zlia. rewrite IH by lia. do 2 f_equal; [lia|]. unfold pbuf_free, frag_addrs. cbn. by rewrite <- app_assoc.
Qed.

Lemma elems_remove l1 r l2 S : reassdatagrams S = l1 ++ r :: l2 ->
  elems (S <| reassdatagrams := l1 ++ l2 |> <| reass_pool := r_addr r :: reass_pool S |>) ≡ₚ elems S.
Proof. intros E. unfold elems. cbn. rewrite E, !map_app. cbn. solve_Permutation. Qed.

Lemma sublist_remove {A} (l1 : list A) r l2 : sublist (l1 ++ l2) (l1 ++ r :: l2).
Proof. apply sublist_app; [done|]. by apply sublist_cons. Qed.

Lemma free_complete_at P l1 r l2 S : inv P S -> reassdatagrams S = l1 ++ r :: l2 ->
  exists S', ip_reass_free_complete_datagram (r_addr r) (prev_addr l1) S = Some (nbufs (r_p r), S') /\ shrinks S S' /\ reassdatagrams S' = l1 ++ l2.
Proof.
  intros I E. assert (Hat : at_ l1 r l2 S) by (split_and!; [done|apply I|apply I]). destruct (at_facts _ _ _ _ Hat) as (H1 & H2 & H3 & H4 & H5).
  pose proof (i_max _ _ I) as Hmax. rewrite E, total_app, total_cons in Hmax. change IP_REASS_MAX_PBUFS with 10 in Hmax. pose proof (total_nonneg l1). pose proof (total_nonneg l2). pose proof (nbufs_nonneg (r_p r)).
  unfold ip_reass_free_complete_datagram. rewrite (proj2 (Z.eqb_neq _ _)) by done. cbn [negb].
  assert (En : (if prev_addr l1 =? 0 then Some true else let? n := next_rd (prev_addr l1) (reassdatagrams S) in Some (n =? r_addr r)) = Some true).
  { destruct (list_snoc_destruct l1) as [->|(l' & s & ->)]; [done|]. rewrite (proj2 (Z.eqb_neq _ _)) by (apply H5; by destruct l'). rewrite prev_addr_snoc, E, <- app_assoc. cbn [app].
    rewrite next_rd_app; [cbn; by rewrite Z.eqb_refl|]. rewrite <- app_assoc, map_app in H3. apply NoDup_app in H3 as (_ & H3 & _). intros Hc. apply (H3 _ Hc). left. }
  rewrite En. rewrite E, find_rd_app by done. rewrite free_frags_ok by lia.
  assert (Hat' : at_ l1 r l2 (S <| freed := freed S ++ frag_addrs (r_p r) |>)) by exact Hat.
  rewrite (dequeue_at _ _ _ _ Hat'). cbn. pose proof (i_count _ _ I) as Hc. rewrite E, total_app, total_cons in Hc. rewrite (proj2 (Z.leb_le _ _)) by lia.
  eexists. split; [done|]. split; [|done]. split; cbn.
  - rewrite E. apply sublist_remove.
  - by apply elems_remove.
  - unfold held. cbn. rewrite E, !frags_queued_app, queued_cons. solve_Permutation.
  - rewrite E, !total_app, total_cons. rewrite u16_id by zlia. lia.
Qed.

(** ** Making room *)
Lemma oldest_ok hdr l2 : forall l1 prev o op n,
  (l2 <> [] -> prev = prev_addr l1) ->
  match o with Some r => exists a b, l1 = a ++ r :: b /\ op = prev_addr a /\ IP_ADDRESSES_AND_ID_MATCH (r_iphdr r) hdr = false | None => n = 0 end ->
  match oldest_loop hdr l2 prev o op n with
  | (Some r, op, _) => exists a b, l1 ++ l2 = a ++ r :: b /\ op = prev_addr a /\ IP_ADDRESSES_AND_ID_MATCH (r_iphdr r) hdr = false
  | (None, _, n) => n = 0
  end.
Proof.
  induction l2 as [|r l2 IH]; intros l1 prev o op n Hp Ho; cbn [oldest_loop].
  - destruct o as [r|]; [|done]. destruct Ho as (a & b & -> & H). exists a, b. by rewrite app_nil_r.
  - specialize (Hp ltac:(done)). assert (Hp' : l2 <> [] -> (match l2 with [] => prev | _ => r_addr r end) = prev_addr (l1 ++ [r])) by (rewrite prev_addr_snoc; by destruct l2).
    assert (Hold : forall m, match o with Some r0 => exists a b, l1 ++ [r] = a ++ r0 :: b /\ op = prev_addr a /\ IP_ADDRESSES_AND_ID_MATCH (r_iphdr r0) hdr = false | None => m = 0 end \/ o = None).
    { intros m. destruct o as [s|]; [left|by right]. destruct Ho as (a & b & -> & H). exists a, (b ++ [r]). by rewrite <- app_assoc. }
    replace (l1 ++ r :: l2) with ((l1 ++ [r]) ++ l2) by by rewrite <- app_assoc.
    destruct (IP_ADDRESSES_AND_ID_MATCH (r_iphdr r) hdr) eqn:E; cbn [negb].
    + apply IH; [done|]. destruct (Hold n) as [H| ->]; done.
    + assert (Hnew : exists a b, l1 ++ [r] = a ++ r :: b /\ prev = prev_addr a /\ IP_ADDRESSES_AND_ID_MATCH (r_iphdr r) hdr = false) by by exists l1, [].
      destruct o as [s|]; [|by apply IH]. destruct (r_timer r <=? r_timer s); (apply IH; [done|]); [done|]. by destruct (Hold n).
Qed.

Lemma remove_oldest_ok P hdr need fuel : forall n S, inv P S -> 0 <= n -> (length (reassdatagrams S) < fuel)%nat ->
  exists n' S', remove_oldest_loop fuel hdr need n S = Some (n', S') /\ shrinks S S' /\ 0 <= n'.
Proof.
  induction fuel as [|fuel IH]; intros n S I Hn Hf; [lia|]. cbn [remove_oldest_loop].
  pose proof (oldest_ok hdr (reassdatagrams S) [] 0 None 0 0 ltac:(done) ltac:(done)) as Ho. destruct (oldest_loop _ _ _ _ _ _) as [[[r|] op] k].
  - destruct Ho as (a & b & E & -> & _). cbn in E. destruct (free_complete_at P a r b S I E) as (S1 & -> & Hsh & E1). pose proof (nbufs_nonneg (r_p r)).
    destruct (_ && _); [|eexists _, _; split_and!; [done|done|lia]]. destruct (IH (n + nbufs (r_p r)) S1) as (n' & S' & -> & Hsh' & Hn'); [by eapply inv_shrinks|lia| |].
    { rewrite E1. rewrite E in Hf. rewrite length_app in *. cbn in Hf. lia. }
    exists n', S'. split; [done|]. split; [by etrans|done].
  - subst k. rewrite andb_false_r. exists n, S. done.
Qed.

(** [memp_malloc] takes an element out of the pool. *)
Lemma malloc_ok S a S' : 0 ∉ elems S -> reassdata_malloc S = (a, S') ->
  (a = 0 /\ S' = S) \/ (a <> 0 /\ reass_pool S = a :: reass_pool S' /\ S' = S <| reass_pool := reass_pool S' |>).
Proof.
  unfold reassdata_malloc, elems. intros Hz. destruct (reass_pool S) as [|x l] eqn:E; intros [= <- <-]; [by left|right]. cbn. split_and!; [|done|done].
  intros ->. apply Hz. apply elem_of_app. right. left.
Qed.

(** A new entry with an empty queue is put first. *)
Lemma enqueue_new_ok P hdr clen S : inv P S ->
  exists a S', ip_reass_enqueue_new_datagram hdr clen S = Some (a, S') /\
    ((a = 0 /\ shrinks S S') \/
     (exists S1, a <> 0 /\ shrinks S S1 /\ reass_pool S1 = a :: reass_pool S' /\ freed S' = freed S1 /\ ip_reass_pbufcount S' = ip_reass_pbufcount S1 /\
        reassdatagrams S' = mk_rd a [] hdr 0 0 IP_REASS_MAXAGE :: reassdatagrams S1)).
Proof.
  intros I. unfold ip_reass_enqueue_new_datagram. destruct (reassdata_malloc S) as [a S0] eqn:Em. apply malloc_ok in Em; [|apply I].
  destruct Em as [[-> ->]|(Ha & Hpool & ES)].
  - cbn [Z.eqb]. destruct (remove_oldest_ok P hdr clen (Datatypes.S (length (reassdatagrams S))) 0 S I) as (n & S1 & Hr & Hsh & _); [lia|lia|].
    unfold ip_reass_remove_oldest_datagram. rewrite Hr. pose proof (inv_shrinks _ _ _ I Hsh) as I1. destruct (clen <=? n); [|exists 0, S1; auto].
    destruct (reassdata_malloc S1) as [a S2] eqn:Em. apply malloc_ok in Em; [|apply I1]. destruct Em as [[-> ->]|(Ha & Hpool & ES)]; [exists 0, S1; auto|].
    rewrite (proj2 (Z.eqb_neq _ _)) by done. eexists _, _. split; [done|]. right. exists S1. cbn. rewrite ES. done.
  - rewrite (proj2 (Z.eqb_neq _ _)) by done. rewrite (proj2 (Z.eqb_neq _ _)) by done. eexists _, _. split; [done|]. right. exists S. cbn. rewrite ES. split_and!; done.
Qed.

(** ** The timer *)
Section Timer.
Context (P : ip_reassdata -> Prop).
Hypothesis P_timer : forall r, P r -> 0 < r_timer r -> P (r <| r_timer := r_timer r - 1 |>).

Lemma inv_upd l1 r r' l2 S : inv P S -> reassdatagrams S = l1 ++ r :: l2 -> r_addr r' = r_addr r -> r_p r' = r_p r -> P r' ->
  inv P (S <| reassdatagrams := l1 ++ r' :: l2 |>) /\ held (S <| reassdatagrams := l1 ++ r' :: l2 |>) = held S /\ elems (S <| reassdatagrams := l1 ++ r' :: l2 |>) = elems S.
Proof.
  intros [I1 I2 I3 I4 I5 I6] E Ha Hq HP. unfold held, elems in *. cbn. rewrite E in *.
  assert (Eq : queued (l1 ++ r' :: l2) = queued (l1 ++ r :: l2)) by (rewrite !frags_queued_app, !queued_cons; congruence).
  assert (Em : map r_addr (l1 ++ r' :: l2) = map r_addr (l1 ++ r :: l2)) by (rewrite !map_app; cbn; congruence).
  rewrite Eq, Em. split_and!; try done. rewrite Forall_app, Forall_cons in I5, I6. split; unfold elems, total; cbn; rewrite ?Eq, ?Em; try done; rewrite Forall_app, Forall_cons; intuition congruence.
Qed.

Lemma tmr_loop_ok l2 : forall l1 fuel S, inv P S -> reassdatagrams S = l1 ++ l2 -> (length l2 <= fuel)%nat ->
  exists S', tmr_loop fuel (head_rd l2) (prev_addr l1) S = Some S' /\ inv P S' /\ held S' ≡ₚ held S /\ elems S' ≡ₚ elems S.
Proof.
  induction l2 as [|r l2 IH]; intros l1 fuel S I E Hf; [destruct fuel; by exists S|].
  assert (Hat : at_ l1 r l2 S) by (split_and!; [done|apply I|apply I]). destruct (at_facts _ _ _ _ Hat) as (H1 & H2 & H3 & H4 & H5).
  destruct fuel as [|fuel]; cbn in Hf; [lia|]. cbn [head_rd tmr_loop]. rewrite (proj2 (Z.eqb_neq _ _)) by done. rewrite E, find_rd_app, next_rd_app by done.
  destruct (Z.ltb_spec 0 (r_timer r)).
  - rewrite upd_rd_app by done. destruct (inv_upd l1 r (r <| r_timer := r_timer r - 1 |>) l2 S I E) as (I1 & Eh & Ee); [done|done|apply P_timer; [|done]; pose proof (i_P _ _ I) as HP; rewrite E, Forall_app, Forall_cons in HP; tauto|].
    destruct (IH (l1 ++ [r <| r_timer := r_timer r - 1 |>]) fuel _ I1) as (S' & Hr & I' & Hh & He); [cbn; by rewrite <- app_assoc|lia|]. rewrite prev_addr_snoc in Hr.
    exists S'. split; [exact Hr|]. split; [done|]. by rewrite Hh, He, Eh, Ee.
  - destruct (free_complete_at P l1 r l2 S I E) as (S1 & -> & Hsh & E1). destruct (IH l1 fuel S1) as (S' & -> & I' & Hh & He); [by eapply inv_shrinks|done|lia|].
    exists S'. split; [done|]. split; [done|]. destruct Hsh as [_ Hse Hsh _]. split; by etrans.
Qed.

Lemma ip_reass_tmr_ok S : inv P S -> exists S', ip_reass_tmr S = Some S' /\ inv P S' /\ held S' ≡ₚ held S /\ elems S' ≡ₚ elems S.
Proof. intros I. by apply (tmr_loop_ok (reassdatagrams S) []). Qed.
End Timer.

(** ** A fragment *)

(** What [ip4_input] has checked of a packet before it calls [ip4_reass]. *)
Record fragment_ok (p : pkt) : Prop := {
  fo_pkt : pkt_ok p;
  fo_hdr : 20 <= p_len p;
  fo_len : lwip_ntohs (IPH_LEN (iphdr_of p)) = p_tot p;
  fo_frag : Z.land (IPH_OFFSET (iphdr_of p)) (PP_HTONS (Z.lor IP_OFFMASK IP_MF)) <> 0;
  fo_bufs : lenz (p_bufs p) <= 65535 }.

Lemma chain_walk_perm nw l : forall prev valid q rest v,
  chain_walk nw prev l valid = Some (Some (q, rest, v)) -> q ≡ₚ nw :: l.
Proof.
  induction l as [|t l IH]; intros prev valid q rest v; cbn [chain_walk].
  - destruct prev as [pv|]; [destruct (_ <=? _); [|done]|]; by intros [= <- <- <-].
  - destruct (_ <? _). { destruct prev as [pv|]; [destruct (_ || _)|destruct (_ <? _)]; [done| |done|]; by intros [= <- <- <-]. }
    destruct (_ =? _); [done|]. destruct (_ <? _); [done|]. destruct (chain_walk _ _ _ _) as [[[[q' rest'] v']|]|] eqn:E; [|done|done].
    intros [= <- <- <-]. apply IH in E. rewrite E. apply perm_swap.
Qed.

(** The assertion of the walk follows from its own tests. *)
Lemma chain_walk_total nw l : forall prev valid, (forall pv, prev = Some pv -> fr_end pv <= fr_start nw) -> chain_walk nw prev l valid <> None.
Proof.
  induction l as [|t l IH]; intros prev valid Hp; cbn [chain_walk].
  - destruct prev as [pv|]; [|done]. by rewrite (proj2 (Z.leb_le _ _)) by auto.
  - destruct (_ <? _). { destruct prev as [pv|]; [by destruct (_ || _)|by destruct (_ <? _)]. }
    destruct (_ =? _); [done|]. destruct (Z.ltb_spec (fr_start nw) (fr_end t)); [done|].
    specialize (IH (Some t) (match prev with Some pv => valid && (fr_end pv =? fr_start t) | None => valid end)).
    destruct (chain_walk _ _ _ _) as [[[[? ?] ?]|]|]; [done|done|]. exfalso. apply IH; [|done]. by intros pv [= <-].
Qed.

Lemma offmask_mf : PP_HTONS (Z.lor IP_OFFMASK IP_MF) = 65343.
Proof. reflexivity. Qed.

(** A fragment that is not the whole datagram: the last one does not start it. *)
Lemma last_not_first p : fragment_ok p -> Z.land (IPH_OFFSET (iphdr_of p)) (PP_HTONS IP_MF) =? 0 = true -> IPH_OFFSET_BYTES (iphdr_of p) <> 0.
Proof.
  intros [Hp Hh _ Hf _] Hm E. pose proof (ld16_range _ 6 (iphdr_u8 _ (pk_u8 _ Hp))) as Hr. fold (IPH_OFFSET (iphdr_of p)) in Hr. set (x := IPH_OFFSET (iphdr_of p)) in *.
  rewrite land_mf in Hm by done. apply Z.eqb_eq in Hm. unfold IPH_OFFSET_BYTES in E. fold x in E. unfold lwip_ntohs in *. pose proof (htons_range x Hr).
  rewrite land_offmask in E by done. assert (E' : lwip_htons x mod 8192 = 0) by zlia. change IP_MF with (2 ^ 13) in Hm. rewrite land_pow2 in Hm by lia.
  assert (Hx : lwip_htons x / 16384 * 16384 = lwip_htons x).
  { destruct (Z.testbit _ 13) eqn:Eb; [done|]. rewrite Z.testbit_eqb in Eb by lia. change (2 ^ 13) with 8192 in Eb. lia. }
  apply Hf. rewrite <- (htons_htons x) by done. rewrite (htons_eq (lwip_htons x)) by done. rewrite offmask_mf. set (y := lwip_htons x) in *.
  assert (Hy : y = 0 \/ y = 16384 \/ y = 32768 \/ y = 49152) by (unfold is_u16 in *; lia). destruct Hy as [-> |[-> |[-> | ->]]]; reflexivity.
Qed.

Lemma p_addrs_set h p : p_addrs (set_iphdr h p) = p_addrs p.
Proof. unfold set_iphdr, p_addrs. destruct (p_bufs p) eqn:E; [by rewrite E|]. done. Qed.

Lemma p_addrs_remove n p : p_addrs (pbuf_remove_header n p) = p_addrs p.
Proof. unfold pbuf_remove_header, p_addrs. destruct (p_bufs p) as [|b l] eqn:E; [by rewrite E|]. destruct (_ <? _); [by rewrite E|done]. Qed.

Lemma p_addrs_cat p q : p_addrs (pbuf_cat p q) = p_addrs p ++ p_addrs q.
Proof. unfold pbuf_cat, p_addrs. cbn. apply map_app. Qed.

Lemma join_addrs h n q d : join_frags h n q = Some d -> p_addrs d = frag_addrs q.
Proof.
  destruct q as [|f l]; [done|]. cbn [join_frags]. intros [= <-]. unfold frag_addrs. cbn [map concat].
  match goal with |- p_addrs (fold_left _ l ?s) = _ => rewrite <- (p_addrs_set _ (fr_p f) : p_addrs s = _); generalize s end.
  induction l as [|g l IH]; intros s; cbn [fold_left map concat]; [by rewrite app_nil_r|]. rewrite IH, p_addrs_cat, p_addrs_remove. by rewrite app_assoc.
Qed.

Lemma clen_addrs p : lenz (p_bufs p) = lenz (p_addrs p).
Proof. unfold p_addrs, lenz. by rewrite length_map. Qed.

(** The entry after a fragment has been queued. *)
Definition queue_rd (is_last : bool) (dlen : Z) (q : list frag) (r : ip_reassdata) : ip_reassdata :=
  let r := r <| r_p := q |> in
  if is_last then r <| r_datagram_len := dlen |> <| r_flags := Z.lor (r_flags r) IP_REASS_FLAG_LASTFRAG |> else r.

Definition is_last_of (p : pkt) : bool := Z.land (IPH_OFFSET (iphdr_of p)) (PP_HTONS IP_MF) =? 0.
Definition dlen_of (p : pkt) : Z := u16 (IPH_OFFSET_BYTES (iphdr_of p) + u16 (lwip_ntohs (IPH_LEN (iphdr_of p)) - IPH_HL_BYTES (iphdr_of p))).

Lemma match_refl h : IP_ADDRESSES_AND_ID_MATCH h h = true.
Proof. unfold IP_ADDRESSES_AND_ID_MATCH. by rewrite !Z.eqb_refl. Qed.

Section Step.
Context (P : ip_reassdata -> Prop) (p : pkt).
Let hdr : list Z := iphdr_of p.
Hypothesis Hp : fragment_ok p.
(** [P] of a new entry, of an entry whose header is replaced by that of its
    first fragment, and of one that the fragment has been queued in. *)
Hypothesis P_new : forall a, P (mk_rd a [] hdr 0 0 IP_REASS_MAXAGE).
Hypothesis P_hdr : forall r, P r -> IP_ADDRESSES_AND_ID_MATCH (r_iphdr r) hdr = true -> IPH_OFFSET_BYTES hdr = 0 -> P (r <| r_iphdr := hdr |>).
Hypothesis P_flag : forall r, P r -> flag_set (r_flags r) IP_REASS_FLAG_LASTFRAG = true -> r_p r <> [].
Definition queueable (r : ip_reassdata) (v : validity) (q : list frag) : Prop :=
  P r /\ IP_ADDRESSES_AND_ID_MATCH (r_iphdr r) hdr = true /\ (IPH_OFFSET_BYTES hdr = 0 -> IPH_OFFSET_BYTES (r_iphdr r) = 0)
  /\ (is_last_of p = true -> dlen_of p <= 65515)
  /\ ip_reass_chain_frag_into_datagram_and_validate r p (is_last_of p) = Some (v, q) /\ v <> PBUF_DROPPED.
Hypothesis P_queue : forall r v q, queueable r v q -> P (queue_rd (is_last_of p) (dlen_of p) q r).

(** The datagram delivered comes from a complete queue. *)
Definition delivered (d : pkt) : Prop :=
  exists r q, queueable r TELEGRAM_FINISHED q /\
    let r' := queue_rd (is_last_of p) (dlen_of p) q r in join_frags (r_iphdr r') (r_datagram_len r') (r_p r') = Some d.

Definition out_addrs (out : option pkt) : list Z := match out with Some d => p_addrs d | None => [] end.

Record post (S : reass) (out : option pkt) (S' : reass) : Prop := {
  po_inv : inv P S';
  po_elems : elems S' ≡ₚ elems S;
  po_held : held S' ++ out_addrs out ≡ₚ held S ++ p_addrs p;
  po_out : forall d, out = Some d -> delivered d }.

Lemma chain_total r : P r -> exists v q, ip_reass_chain_frag_into_datagram_and_validate r p (is_last_of p) = Some (v, q).
Proof.
  intros HP. unfold ip_reass_chain_frag_into_datagram_and_validate. fold hdr. destruct (_ <? _); [eauto|]. destruct (_ <? _); [eauto|].
  set (nw := mk_frag _ _ _). pose proof (chain_walk_total nw (r_p r) None true ltac:(done)) as Ht. destruct (chain_walk nw None (r_p r) true) as [[[[q rest] v]|]|] eqn:E; [|eauto|done].
  apply chain_walk_perm in E. destruct (is_last_of p || flag_set (r_flags r) IP_REASS_FLAG_LASTFRAG) eqn:El; [|eauto]. destruct q as [|f tail]; [by apply Permutation_nil_l in E|].
  destruct (v && _ && _) eqn:Ev; [|eauto]. destruct tail as [|g tail]; [|eauto]. exfalso. apply andb_prop in Ev as [Ev _]. apply andb_prop in Ev as [_ Ev]. apply Z.eqb_eq in Ev.
  pose proof (P_flag r HP) as Hfl. destruct (r_p r); [|by apply Permutation_length in E]. apply Permutation_singleton_inj in E. subst f.
  destruct (flag_set (r_flags r) IP_REASS_FLAG_LASTFRAG); [by apply Hfl|]. rewrite orb_false_r in El. by apply (last_not_first p).
Qed.

(** The state when the fragment's entry [r] has been found or made. *)
Record pre (l1 : list ip_reassdata) (r : ip_reassdata) (l2 : list ip_reassdata) (S : reass) : Prop := {
  pr_at : at_ l1 r l2 S;
  pr_count : ip_reass_pbufcount S = total (l1 ++ r :: l2);
  pr_max : total (l1 ++ r :: l2) + lenz (p_bufs p) <= IP_REASS_MAX_PBUFS;
  pr_P : Forall P (l1 ++ r :: l2);
  pr_ne : Forall (fun r => r_p r <> []) (l1 ++ l2);
  pr_new : r_p r = [] -> l1 = [];
  pr_match : IP_ADDRESSES_AND_ID_MATCH (r_iphdr r) hdr = true;
  pr_off : IPH_OFFSET_BYTES hdr = 0 -> IPH_OFFSET_BYTES (r_iphdr r) = 0 }.

Lemma nullreturn_ipr_ok l1 r l2 S : pre l1 r l2 S -> exists S', reass_nullreturn_ipr (r_addr r) p S = Some (None, S') /\ post S None S'.
Proof.
  intros [Hat Hc Hm HP Hne Hnew _ _]. pose proof Hat as (E & Hn & Hz). destruct (at_facts _ _ _ _ Hat) as (H1 & H2 & H3 & H4 & H5).
  unfold reass_nullreturn_ipr. rewrite E, find_rd_app by done. rewrite total_app, total_cons in Hm, Hc. pose proof (lenz_nonneg (p_bufs p)). pose proof (nbufs_nonneg (r_p r)).
  rewrite Forall_app, Forall_cons in HP. destruct HP as (HP1 & HP2 & HP3). rewrite Forall_app in Hne. destruct Hne as [Hne1 Hne2]. destruct (r_p r) as [|f q] eqn:Eq.
  - rewrite (Hnew eq_refl) in *. cbn [app head_rd]. rewrite Z.eqb_refl. rewrite (dequeue_at [] r l2 S Hat : ip_reass_dequeue_datagram (r_addr r) 0 S = _). unfold reass_nullreturn. eexists. split; [done|].
    assert (He : elems (S <| reassdatagrams := [] ++ l2 |> <| reass_pool := r_addr r :: reass_pool S |>) ≡ₚ elems S) by by apply elems_remove.
    split; [split| | |done]; unfold pbuf_free; cbn.
    + unfold elems in He |- *. cbn in He |- *. by rewrite He.
    + unfold elems in He |- *. cbn in He |- *. by rewrite He.
    + rewrite Hc. unfold total. cbn. done.
    + change (total []) with 0 in Hm. lia.
    + done.
    + done.
    + exact He.
    + unfold held. cbn. rewrite E. cbn [app]. rewrite queued_cons, Eq. rewrite app_nil_r. unfold frag_addrs. cbn. by rewrite app_assoc.
  - unfold reass_nullreturn. eexists. split; [done|]. split; [split| | |done]; unfold pbuf_free; cbn; try done.
    + rewrite E, total_app, total_cons, Eq. done.
    + rewrite E, total_app, total_cons, Eq. lia.
    + rewrite E. rewrite Forall_app, Forall_cons. done.
    + rewrite E. rewrite Forall_app, Forall_cons. rewrite Eq. done.
    + unfold held. cbn. by rewrite app_nil_r, app_assoc.
Qed.

(** The queue of the entry has the new fragment and nothing else is changed. *)
Lemma chain_perm r v q : ip_reass_chain_frag_into_datagram_and_validate r p (is_last_of p) = Some (v, q) -> v <> PBUF_DROPPED ->
  frag_addrs q ≡ₚ frag_addrs (r_p r) ++ p_addrs p /\ q <> [].
Proof.
  unfold ip_reass_chain_frag_into_datagram_and_validate. destruct (_ <? _); [by intros [= <- <-]|]. destruct (_ <? _); [by intros [= <- <-]|]. set (nw := mk_frag _ _ _).
  destruct (chain_walk nw None (r_p r) true) as [[[[q' rest] v']|]|] eqn:E; [|by intros [= <- <-]|done]. apply chain_walk_perm in E.
  intros H Hv. assert (Eq : q = q'). { destruct (_ || _); [|by injection H]. destruct q' as [|f tail]; [done|]. destruct (v' && _ && _); [destruct tail; [done|]|]; by injection H. }
  subst q'. split; [|by intros ->; apply Permutation_nil_l in E]. unfold frag_addrs. rewrite E. cbn. apply Permutation_app_comm.
Qed.

Lemma finish_ok l1 r l2 S d : at_ l1 r l2 S -> inv P S -> join_frags (r_iphdr r) (r_datagram_len r) (r_p r) = Some d ->
  exists S', reass_finish (r_addr r) S = Some (Some d, S') /\ inv P S' /\ elems S' ≡ₚ elems S /\ held S' ++ p_addrs d ≡ₚ held S.
Proof.
  intros Hat I Hj. destruct (at_facts _ _ _ _ Hat) as (H1 & H2 & H3 & H4 & H5). pose proof Hat as (E & Hn & Hz). unfold reass_finish. rewrite E, find_rd_app by done. rewrite Hj.
  assert (Eprev : (if head_rd (l1 ++ r :: l2) =? r_addr r then 0 else prev_rd (r_addr r) (l1 ++ r :: l2)) = prev_addr l1).
  { destruct l1 as [|s l1]; [cbn; by rewrite Z.eqb_refl|]. cbn [head_rd app]. cbn in H1. rewrite not_elem_of_cons in H1. rewrite (proj2 (Z.eqb_neq _ _)) by (intros ?; destruct H1; congruence).
    apply (prev_rd_app (s :: l1) r l2); [cbn; by rewrite not_elem_of_cons|done]. }
  rewrite Eprev, (dequeue_at _ _ _ _ Hat). destruct I as [I1 I2 I3 I4 I5 I6]. rewrite E, total_app, total_cons in I3, I4. change IP_REASS_MAX_PBUFS with 10 in I4.
  pose proof (join_addrs _ _ _ _ Hj) as Ha. pose proof (total_nonneg l1). pose proof (total_nonneg l2). pose proof (nbufs_nonneg (r_p r)).
  assert (Hcl : pbuf_clen d = nbufs (r_p r)) by (unfold pbuf_clen; rewrite clen_addrs, Ha; change (lenz _) with (nbufs (r_p r)); apply u16_id; zlia).
  cbn. rewrite Hcl, (proj2 (Z.leb_le _ _)) by lia. pose proof (elems_remove l1 r l2 S E) as He. eexists. split; [done|]. split_and!; [split; cbn|exact He|].
  - unfold elems in He |- *. cbn in He |- *. by rewrite He.
  - unfold elems in He |- *. cbn in He |- *. by rewrite He.
  - rewrite total_app, u16_id by zlia. lia.
  - rewrite total_app. change IP_REASS_MAX_PBUFS with 10. lia.
  - rewrite E in I5. eapply Forall_sub; [apply sublist_remove|done].
  - rewrite E in I6. eapply Forall_sub; [apply sublist_remove|done].
  - unfold held. cbn. rewrite Ha, E, !frags_queued_app, queued_cons. solve_Permutation.
Qed.

Lemma reass_queue_ok l1 r l2 S : pre l1 r l2 S ->
  exists out S', reass_queue (r_addr r) p (IPH_OFFSET_BYTES hdr) (u16 (lwip_ntohs (IPH_LEN hdr) - IPH_HL_BYTES hdr)) (pbuf_clen p) S = Some (out, S') /\ post S out S'.
Proof.
  intros Hpre. unfold reass_queue. fold hdr. fold (dlen_of p). change (Z.land (IPH_OFFSET hdr) (PP_HTONS IP_MF) =? 0) with (is_last_of p). change (u16 (IPH_OFFSET_BYTES hdr + u16 (lwip_ntohs (IPH_LEN hdr) - IPH_HL_BYTES hdr))) with (dlen_of p).
  destruct (nullreturn_ipr_ok _ _ _ _ Hpre) as (Sn & Hnull & Hpost). destruct (is_last_of p && _) eqn:Eov; [by exists None, Sn|].
  destruct Hpre as [Hat Hc Hm HP Hne Hnew Hmt Hoff]. pose proof Hat as (E & Hn & Hz). destruct (at_facts _ _ _ _ Hat) as (H1 & H2 & H3 & H4 & H5).
  assert (HPr : P r) by (rewrite Forall_app, Forall_cons in HP; tauto). rewrite E, find_rd_app by done. destruct (chain_total r HPr) as (v & q & Hch). rewrite Hch.
  destruct (decide (v = PBUF_DROPPED)) as [->|Hv]; [by exists None, Sn|]. destruct (chain_perm r v q Hch Hv) as [Hperm Hqne].
  assert (Hqu : queueable r v q) by (split_and!; try done; intros El; rewrite El in Eov; cbn in Eov; bprop; change IP_HLEN with 20 in *; lia).
  pose proof (P_queue r v q Hqu) as HPq. set (r' := queue_rd (is_last_of p) (dlen_of p) q r) in *. assert (Ha' : r_addr r' = r_addr r) by (unfold r', queue_rd; by destruct (is_last_of p)).
  assert (Hq' : r_p r' = q) by (unfold r', queue_rd; by destruct (is_last_of p)). rewrite upd_rd_app by done. cbn zeta beta. fold (queue_rd (is_last_of p) (dlen_of p) q r). fold r'.
  assert (Hnb : nbufs q = nbufs (r_p r) + lenz (p_bufs p)) by (unfold nbufs, lenz; rewrite Hperm, length_app; unfold p_addrs; rewrite length_map; lia).
  pose proof (lenz_nonneg (p_bufs p)). rewrite total_app, total_cons in Hc, Hm. pose proof (total_nonneg l1). pose proof (total_nonneg l2). pose proof (nbufs_nonneg (r_p r)). change IP_REASS_MAX_PBUFS with 10 in Hm.
  set (S1 := S <| ip_reass_pbufcount := _ |> <| reassdatagrams := l1 ++ r' :: l2 |>).
  assert (He : elems S1 = elems S) by (unfold elems, S1; cbn; rewrite E, !map_app; cbn; by rewrite Ha').
  assert (Hh : held S1 ≡ₚ held S ++ p_addrs p) by (unfold held, S1; cbn; rewrite E, !frags_queued_app, !queued_cons, Hq', Hperm; solve_Permutation).
  assert (I1 : inv P S1).
  { split; [by rewrite He|by rewrite He| | | |]; cbn; rewrite ?total_app, ?total_cons, ?Hq', ?Hnb; [unfold pbuf_clen; rewrite (u16_id (lenz _)) by zlia; rewrite u16_id by zlia; lia|change IP_REASS_MAX_PBUFS with 10; lia| |].
    - rewrite Forall_app, Forall_cons in HP |- *. tauto.
    - rewrite Forall_app in Hne. rewrite Forall_app, Forall_cons, Hq'. tauto. }
  assert (Hat1 : at_ l1 r' l2 S1) by (split_and!; [done|by rewrite He|by rewrite He]).
  destruct v; [|exists None, S1; split; [done|]; split; [done|by rewrite He|by rewrite app_nil_r|done]|done].
  destruct (join_frags (r_iphdr r') (r_datagram_len r') (r_p r')) as [d|] eqn:Ej; [|rewrite Hq' in Ej; by destruct q].
  destruct (finish_ok l1 r' l2 S1 d Hat1 I1 Ej) as (S2 & Hf & I2 & He2 & Hh2). rewrite <- Ha'. exists (Some d), S2. split; [exact Hf|]. split; [done|by rewrite He2, He|by rewrite <- Hh|].
  intros ? [= <-]. exists r, q. by split.
Qed.

Lemma nullreturn_ok S S1 : inv P S -> shrinks S S1 -> post S None (pbuf_free p S1).
Proof.
  intros I Hsh. destruct (inv_shrinks _ _ _ I Hsh) as [I1 I2 I3 I4 I5 I6]. destruct Hsh as [_ He Hh _]. unfold pbuf_free. split; [by split|done| |done].
  unfold held in *. cbn. rewrite app_nil_r, app_assoc. by rewrite Hh.
Qed.

Lemma match_rd_ok l : match match_rd hdr l with
  | Some r => exists l1 l2, l = l1 ++ r :: l2 /\ IP_ADDRESSES_AND_ID_MATCH (r_iphdr r) hdr = true
  | None => True end.
Proof.
  induction l as [|r l IH]; cbn; [done|]. destruct (IP_ADDRESSES_AND_ID_MATCH (r_iphdr r) hdr) eqn:E; [by exists [], l|].
  destruct (match_rd hdr l) as [s|]; [|done]. destruct IH as (l1 & l2 & -> & H). by exists (r :: l1), l2.
Qed.

(** [post] after datagrams were removed to make room. *)
Lemma post_shrinks S S1 out S' : shrinks S S1 -> post S1 out S' -> post S out S'.
Proof. intros [_ He Hh _] [I E H D]. split; [done|by rewrite E|by rewrite H, Hh|done]. Qed.

Lemma queue_in_ok S r l1 l2 : inv P S -> ip_reass_pbufcount S + lenz (p_bufs p) <= IP_REASS_MAX_PBUFS -> reassdatagrams S = l1 ++ r :: l2 ->
  IP_ADDRESSES_AND_ID_MATCH (r_iphdr r) hdr = true ->
  let S1 := if (Z.land (lwip_ntohs (IPH_OFFSET hdr)) IP_OFFMASK =? 0) && negb (Z.land (lwip_ntohs (IPH_OFFSET (r_iphdr r))) IP_OFFMASK =? 0)
            then S <| reassdatagrams := upd_rd (r_addr r) (fun r => r <| r_iphdr := hdr |>) (reassdatagrams S) |> else S in
  exists out S', reass_queue (r_addr r) p (IPH_OFFSET_BYTES hdr) (u16 (lwip_ntohs (IPH_LEN hdr) - IPH_HL_BYTES hdr)) (pbuf_clen p) S1 = Some (out, S') /\ post S out S'.
Proof.
  intros I Hroom E Hm. assert (Hat : at_ l1 r l2 S) by (split_and!; [done|apply I|apply I]). destruct (at_facts _ _ _ _ Hat) as (H1 & H2 & H3 & H4 & H5).
  pose proof (i_count _ _ I) as Hc. pose proof (i_P _ _ I) as HP. pose proof (i_ne _ _ I) as Hne. rewrite E in Hc, HP, Hne.
  assert (Hne' : Forall (fun r => r_p r <> []) (l1 ++ l2)) by (eapply Forall_sub; [apply sublist_remove|done]).
  assert (Hrne : r_p r <> []) by (rewrite Forall_app, Forall_cons in Hne; tauto). assert (HPr : P r) by (rewrite Forall_app, Forall_cons in HP; tauto).
  destruct (_ && negb _) eqn:Eo; cbv zeta.
  - apply andb_prop in Eo as [Eo _]. apply Z.eqb_eq in Eo. assert (Eoff : IPH_OFFSET_BYTES hdr = 0) by (unfold IPH_OFFSET_BYTES; by rewrite Eo).
    rewrite E, upd_rd_app by done. destruct (inv_upd P l1 r (r <| r_iphdr := hdr |>) l2 S I E) as (I1 & Eh & Ee); [done|done|by apply P_hdr|].
    destruct (reass_queue_ok l1 (r <| r_iphdr := hdr |>) l2 (S <| reassdatagrams := l1 ++ r <| r_iphdr := hdr |> :: l2 |>)) as (out & S' & Hq & [A1 A2 A3 A4]).
    { pose proof (i_count _ _ I1) as Hc1. cbn in Hc1. split; cbn; [split_and!; [done|apply I1|apply I1]|exact Hc1|rewrite <- Hc1; done|apply I1|done|done|apply match_refl|done]. }
    exists out, S'. split; [exact Hq|]. rewrite Ee in A2. rewrite Eh in A3. by split.
  - destruct (reass_queue_ok l1 r l2 S) as (out & S' & Hq & Hpo); [|eauto]. split; try done.
    + by rewrite <- Hc.
    + intros Hz. apply andb_false_iff in Eo. unfold IPH_OFFSET_BYTES in *. pose proof (ld16_range _ 6 (iphdr_u8 _ (pk_u8 _ (fo_pkt _ Hp)))) as Hr. fold (IPH_OFFSET hdr) in Hr.
      pose proof (htons_range _ Hr) as Hr'. unfold lwip_ntohs in *. rewrite land_offmask in Hz by done. rewrite land_offmask in Eo by done. destruct Eo as [Eo|Eo]; bprop; [zlia|]. by rewrite Eo.
Qed.

Theorem ip4_reass_ok S : inv P S -> exists out S', ip4_reass p S = Some (out, S') /\ post S out S'.
Proof.
  intros I. unfold ip4_reass. fold hdr. assert (Hnull : forall S1, shrinks S S1 -> exists out S', reass_nullreturn p S1 = Some (out, S') /\ post S out S').
  { intros S1 Hsh. eexists _, _. split; [done|]. by apply nullreturn_ok. }
  destruct (negb _); [by apply Hnull|]. destruct (_ <? _); [by apply Hnull|]. assert (Hcl : pbuf_clen p = lenz (p_bufs p)) by (apply u16_id; pose proof (fo_bufs _ Hp); pose proof (lenz_nonneg (p_bufs p)); zlia).
  match goal with |- exists _ _, match ?e with _ => _ end = _ /\ _ => assert (Hroom : exists room S1, e = Some (room, S1) /\ shrinks S S1 /\ (room = true -> ip_reass_pbufcount S1 + lenz (p_bufs p) <= IP_REASS_MAX_PBUFS)) end.
  { rewrite Hcl. destruct (Z.ltb_spec IP_REASS_MAX_PBUFS (ip_reass_pbufcount S + lenz (p_bufs p))); [|by exists true, S].
    destruct (remove_oldest_ok P hdr (lenz (p_bufs p)) (Datatypes.S (length (reassdatagrams S))) 0 S I) as (n & S1 & Hr & Hsh & _); [lia|lia|].
    unfold ip_reass_remove_oldest_datagram. rewrite Hr. eexists _, S1. split; [done|]. split; [done|]. intros Hb. bprop. lia. }
  destruct Hroom as (room & S1 & -> & Hsh & Hroom). destruct room; [|by apply Hnull]. specialize (Hroom eq_refl). cbn [negb]. pose proof (inv_shrinks _ _ _ I Hsh) as I1.
  pose proof (match_rd_ok (reassdatagrams S1)) as Hm. destruct (match_rd hdr (reassdatagrams S1)) as [r|].
  - destruct Hm as (l1 & l2 & E & Hm). destruct (queue_in_ok S1 r l1 l2 I1 Hroom E Hm) as (out & S' & Hq & Hpo). exists out, S'. split; [exact Hq|]. by eapply post_shrinks.
  - destruct (enqueue_new_ok P hdr (pbuf_clen p) S1 I1) as (a & S2 & -> & [[-> Hsh2]|(S3 & Ha & Hsh3 & Hpool & Hfr & Hcnt & El)]); [apply Hnull; by etrans|]. rewrite (proj2 (Z.eqb_neq _ _)) by done.
    pose proof (inv_shrinks _ _ _ I1 Hsh3) as I3. assert (He : elems S2 ≡ₚ elems S3) by (unfold elems; rewrite El, Hpool; cbn; solve_Permutation).
    assert (Hcnt3 : ip_reass_pbufcount S3 <= ip_reass_pbufcount S1) by (pose proof (sh_count _ _ Hsh3); pose proof (total_sublist _ _ (sh_sub _ _ Hsh3)); lia).
    destruct (reass_queue_ok [] (mk_rd a [] hdr 0 0 IP_REASS_MAXAGE) (reassdatagrams S3) S2) as (out & S' & Hq & [A1 A2 A3 A4]).
    { split; cbn [app]; rewrite ?total_cons; [split_and!; [by rewrite El| |]; rewrite He; apply I3| | |constructor; [apply P_new|apply I3]|apply I3|done|apply match_refl|done].
      - rewrite Hcnt. apply I3.
      - rewrite <- (i_count _ _ I3). change (nbufs _) with 0. lia. }
    exists out, S'. split; [exact Hq|]. apply (post_shrinks S S3); [by etrans|]. split; [done|by rewrite A2|rewrite A3|done]. unfold held. rewrite El, queued_cons, Hfr. done.
Qed.
End Step.
