(* ===== verification/Ip4Reass.v ===== *)
(** * Ip4Reass: what reassembly guarantees

    A run is any sequence of arriving fragments and timer ticks.  It never
    fails an assertion and neither loses nor duplicates a buffer; if the
    fragments of a datagram are pieces of it, what is delivered is exactly the
    datagram; and the fragments of a datagram, in any order, are reassembled. *)

From S2P Require Import Prelude Def Ip4Addr Opts Chksum TcpPcb Ip4Hdr Ip4Frag Ip4FragFacts.

(** ** Queues *)

(** A fragment before another, not overlapping it. *)
Definition before (f g : frag) : Prop := fr_start f < fr_start g /\ fr_end f <= fr_start g.
Definition ordered : list frag -> Prop := StronglySorted before.
(** No hole from the first fragment on. *)
Definition contiguous (q : list frag) : bool := match q with [] => true | f :: l => no_holes f l end.

Lemma chain_walk_ordered nw l : forall prev valid q rest v,
  fr_start nw <= fr_end nw -> (forall f, f ∈ l -> fr_start f <= fr_end f) -> ordered l ->
  chain_walk nw prev l valid = Some (Some (q, rest, v)) -> ordered q.
Proof.
  induction l as [|t l IH]; intros prev valid q rest v Hnw Hl Hs; cbn [chain_walk].
  - destruct prev as [pv|]; [destruct (_ <=? _); [|done]|]; intros [= <- <- <-]; repeat constructor.
  - inversion Hs as [|? ? Hs' Hf]; subst. destruct (Z.ltb_spec (fr_start nw) (fr_start t)).
    + assert (Hq : fr_end nw <= fr_start t -> ordered (nw :: t :: l)).
      { intros He. constructor; [done|]. constructor; [by split|]. eapply Forall_impl; [exact Hf|]. intros g [Hg1 Hg2]. split; [lia|]. specialize (Hl t ltac:(left)). lia. }
      destruct prev as [pv|]; [destruct (_ || _) eqn:Eo|destruct (_ <? _) eqn:Eo]; [done| |done|]; intros [= <- <- <-]; bprop; by apply Hq.
    + destruct (Z.eqb_spec (fr_start nw) (fr_start t)); [done|]. destruct (Z.ltb_spec (fr_start nw) (fr_end t)); [done|].
      destruct (chain_walk _ _ _ _) as [[[[q' rest'] v']|]|] eqn:E; [|done|done]. intros [= <- <- <-].
      pose proof (chain_walk_perm _ _ _ _ _ _ _ E) as Hp. constructor; [eapply IH; [done| |done|exact E]; intros g Hg; apply Hl; by right|].
      rewrite Hp. constructor; [split; lia|done].
Qed.

(** The flag of the walk together with the final check says that the whole
    queue has no hole. *)
Lemma chain_walk_valid nw l : forall prev valid q rest v, chain_walk nw prev l valid = Some (Some (q, rest, v)) ->
  v && no_holes nw rest = valid && (match prev with Some pv => no_holes pv q | None => contiguous q end).
Proof.
  induction l as [|t l IH]; intros prev valid q rest v; cbn [chain_walk].
  - destruct prev as [pv|]; [destruct (_ <=? _); [|done]|]; intros [= <- <- <-]; cbn; by rewrite ?andb_true_r.
  - destruct (_ <? _).
    + destruct prev as [pv|]; [destruct (_ || _)|destruct (_ <? _)]; [done| |done|]; intros [= <- <- <-]; cbn [no_holes contiguous]; by rewrite ?andb_assoc.
    + destruct (_ =? _); [done|]. destruct (_ <? _); [done|]. destruct (chain_walk _ _ _ _) as [[[[q' rest'] v']|]|] eqn:E; [|done|done]. intros [= <- <- <-].
      apply IH in E. rewrite E. destruct prev as [pv|]; cbn [no_holes contiguous]; [|done]. by rewrite <- andb_assoc.
Qed.

(** What the verdict on a fragment means. *)
Lemma chain_verdict r p v q : ip_reass_chain_frag_into_datagram_and_validate r p (is_last_of p) = Some (v, q) -> v <> PBUF_DROPPED ->
  let nw := mk_frag p (IPH_OFFSET_BYTES (iphdr_of p)) (dlen_of p) in
  q ≡ₚ nw :: r_p r /\ fr_start nw <= fr_end nw
  /\ (ordered (r_p r) -> (forall f, f ∈ r_p r -> fr_start f <= fr_end f) -> ordered q)
  /\ (v = TELEGRAM_FINISHED <-> is_last_of p || flag_set (r_flags r) IP_REASS_FLAG_LASTFRAG = true
        /\ contiguous q = true /\ (exists f, head q = Some f /\ fr_start f = 0)).
Proof.
  unfold ip_reass_chain_frag_into_datagram_and_validate. fold (dlen_of p). destruct (_ <? _); [by intros [= <- <-]|]. set (nw := mk_frag _ _ _). destruct (Z.ltb_spec (fr_end nw) (IPH_OFFSET_BYTES (iphdr_of p))); [by intros [= <- <-]|].
  destruct (chain_walk nw None (r_p r) true) as [[[[q' rest] v']|]|] eqn:E; [|by intros [= <- <-]|done]. pose proof (chain_walk_perm _ _ _ _ _ _ _ E) as Hp. pose proof (chain_walk_valid _ _ _ _ _ _ _ E) as Hv.
  cbn [andb] in Hv. intros Hr Hd. assert (Hn : fr_start nw <= fr_end nw) by (cbn in *; lia).
  assert (Hq : q = q' /\ (v = TELEGRAM_FINISHED <-> is_last_of p || flag_set (r_flags r) IP_REASS_FLAG_LASTFRAG = true /\ contiguous q' = true /\ (exists f, head q' = Some f /\ fr_start f = 0))).
  { destruct (is_last_of p || _); [|injection Hr as <- <-; split; [done|]; split; [done|naive_solver]]. destruct q' as [|f tail]; [done|]. rewrite <- Hv.
    destruct (v' && (fr_start f =? 0) && no_holes nw rest) eqn:Eb.
    - destruct tail; [done|]. injection Hr as <- <-. split; [done|]. apply andb_prop in Eb as [Eb ->]. apply andb_prop in Eb as [-> Eb]. bprop. split; [|done]. intros _. split_and!; [done|done|]. by exists f.
    - injection Hr as <- <-. split; [done|]. split; [done|]. intros (_ & Hb & g & [= <-] & Hg). apply andb_prop in Hb as [E1 E2]. by rewrite E1, E2, Hg in Eb. }
  destruct Hq as [-> Hq]. split_and!; [done|done| |done]. intros Ho Hse. eapply chain_walk_ordered; [done| |done|done]. done.
Qed.

(** ** Runs *)
Inductive reass_op := RFrag (p : pkt) | RTmr.

Fixpoint run_reass (ops : list reass_op) (S : reass) : option (list pkt * reass) :=
  match ops with
  | [] => Some ([], S)
  | RFrag p :: ops =>
      let? (out, S) := ip4_reass p S in
      let? (outs, S) := run_reass ops S in
      Some (match out with Some d => d :: outs | None => outs end, S)
  | RTmr :: ops => let? S := ip_reass_tmr S in run_reass ops S
  end.

(** No datagram yet, the pool of [struct ip_reassdata] full. *)
Definition reass_init (pool : list Z) : reass := mk_reass [] 0 pool [].

(** The buffers of the fragments that arrive. *)
Fixpoint arrived (ops : list reass_op) : list Z :=
  match ops with [] => [] | RFrag p :: ops => p_addrs p ++ arrived ops | RTmr :: ops => arrived ops end.
Definition delivered_addrs (outs : list pkt) : list Z := concat (map p_addrs outs).

Section Runs.
Context (P : ip_reassdata -> Prop).

(** [P] survives the fragment, as section [Step] of Ip4FragFacts asks. *)
Record stable (p : pkt) : Prop := {
  st_new : forall a, P (mk_rd a [] (iphdr_of p) 0 0 IP_REASS_MAXAGE);
  st_hdr : forall r, P r -> IP_ADDRESSES_AND_ID_MATCH (r_iphdr r) (iphdr_of p) = true -> IPH_OFFSET_BYTES (iphdr_of p) = 0 -> P (r <| r_iphdr := iphdr_of p |>);
  st_queue : forall r v q, queueable P p r v q -> P (queue_rd (is_last_of p) (dlen_of p) q r) }.
Hypothesis P_flag : forall r, P r -> flag_set (r_flags r) IP_REASS_FLAG_LASTFRAG = true -> r_p r <> [].
Hypothesis P_timer : forall r, P r -> 0 < r_timer r -> P (r <| r_timer := r_timer r - 1 |>).

Lemma run_inv ops : forall S, inv P S -> (forall p, RFrag p ∈ ops -> fragment_ok p /\ stable p) ->
  exists outs S', run_reass ops S = Some (outs, S') /\ inv P S' /\ elems S' ≡ₚ elems S
    /\ held S' ++ delivered_addrs outs ≡ₚ held S ++ arrived ops
    /\ Forall (fun d => exists p, RFrag p ∈ ops /\ delivered P p d) outs.
Proof.
  induction ops as [|op ops IH]; intros S I Hops; cbn [run_reass arrived]; [by exists [], S|]. destruct op as [p|].
  - destruct (Hops p ltac:(left)) as [Hp [N1 N2 N3]]. destruct (ip4_reass_ok P p Hp N1 N2 P_flag N3 S I) as (out & S1 & -> & [I1 E1 H1 D1]).
    destruct (IH S1 I1) as (outs & S' & -> & I' & E' & H' & D'); [intros q Hq; apply Hops; by right|].
    assert (D'' : Forall (fun d => exists p0, RFrag p0 ∈ RFrag p :: ops /\ delivered P p0 d) outs) by (eapply Forall_impl; [exact D'|]; intros d (q & Hq & Hd); exists q; split; [by right|done]).
    eexists _, S'. split; [done|]. split; [done|]. split; [by rewrite E'|]. destruct out as [d|]; cbn [out_addrs] in H1.
    + split; [|constructor; [exists p; split; [left|by apply D1]|done]]. unfold delivered_addrs in *. cbn. rewrite (Permutation_app_comm (p_addrs d)), app_assoc, H'.
      rewrite (app_assoc (held S)), <- H1. solve_Permutation.
    + split; [|done]. rewrite app_nil_r in H1. rewrite H', H1. by rewrite app_assoc.
  - destruct (ip_reass_tmr_ok P P_timer S I) as (S1 & -> & I1 & H1 & E1). destruct (IH S1 I1) as (outs & S' & -> & I' & E' & H' & D'); [intros q Hq; apply Hops; by right|].
    exists outs, S'. split; [done|]. split; [done|]. split; [by rewrite E'|]. split; [by rewrite H', H1|]. eapply Forall_impl; [exact D'|]. intros d (q & Hq & Hd). exists q. split; [by right|done].
Qed.

Lemma init_inv pool : NoDup pool -> 0 ∉ pool -> inv P (reass_init pool).
Proof. intros H1 H2. split; try done; constructor. Qed.
End Runs.

(** ** Safety *)

(** A datagram under reassembly: its fragments are in order and do not overlap,
    and its counters are in range. *)
Definition rd_wf (r : ip_reassdata) : Prop :=
  ordered (r_p r) /\ (forall f, f ∈ r_p r -> 0 <= fr_start f <= fr_end f /\ fr_end f <= 65535)
  /\ 0 <= r_timer r <= IP_REASS_MAXAGE /\ (r_flags r = 0 \/ r_flags r = IP_REASS_FLAG_LASTFRAG /\ r_p r <> []).

Lemma rd_wf_stable p : fragment_ok p -> stable rd_wf p.
Proof.
  intros Hp. assert (Ho : 0 <= IPH_OFFSET_BYTES (iphdr_of p)) by (unfold IPH_OFFSET_BYTES; zlia). assert (Hd : dlen_of p <= 65535) by (unfold dlen_of; zlia). split.
  - intros a. split_and!; [constructor|by intros f Hf%elem_of_nil|done|done|by left].
  - by intros r Hr _ _.
  - intros r v q (Hr & _ & _ & _ & Hc & Hv). destruct (chain_verdict r p v q Hc Hv) as (Hperm & Hn & Hord & _). destruct Hr as (R1 & R2 & R3 & R4).
    assert (Hq : q <> []) by (intros ->; by apply Permutation_nil_l in Hperm). cbn in Hn.
    assert (W : ordered q /\ (forall f, f ∈ q -> 0 <= fr_start f <= fr_end f /\ fr_end f <= 65535)).
    { split; [apply Hord; [done|]; intros f Hf; apply R2 in Hf; lia|]. intros f. rewrite Hperm, elem_of_cons. intros [->|Hf]; [cbn; lia|by apply R2]. }
    unfold queue_rd. destruct (is_last_of p); (split_and!; [apply W|apply W|apply R3|apply R3|]); cbn; [|destruct R4 as [?|[? ?]]; auto]. right. split; [|done]. by destruct R4 as [->|[-> _]].
Qed.

Lemma rd_wf_flag r : rd_wf r -> flag_set (r_flags r) IP_REASS_FLAG_LASTFRAG = true -> r_p r <> [].
Proof. intros (_ & _ & _ & [->|[_ H]]); [done|by intros _]. Qed.

Lemma rd_wf_timer r : rd_wf r -> 0 < r_timer r -> rd_wf (r <| r_timer := r_timer r - 1 |>).
Proof. intros (A & B & C & D) H. split_and!; try done; cbn; lia. Qed.

(** C20: over any sequence of fragments (of any content, from any number of
    datagrams) and timer ticks, the reassembly code fails no assertion and ends;
    at most 10 buffers wait, and the counter says how many; the entries stay
    well formed; every buffer that arrived is either queued, released or part of
    a delivered datagram, exactly once, and no element of the pool is lost. *)
Theorem reass_safe pool ops : NoDup pool -> 0 ∉ pool -> (forall p, RFrag p ∈ ops -> fragment_ok p) ->
  exists outs S, run_reass ops (reass_init pool) = Some (outs, S)
  /\ arrived ops ≡ₚ queued (reassdatagrams S) ++ freed S ++ delivered_addrs outs
  /\ ip_reass_pbufcount S = lenz (queued (reassdatagrams S)) /\ lenz (queued (reassdatagrams S)) <= IP_REASS_MAX_PBUFS
  /\ map r_addr (reassdatagrams S) ++ reass_pool S ≡ₚ pool
  /\ Forall (fun r => rd_wf r /\ r_p r <> []) (reassdatagrams S).
Proof.
  intros H1 H2 Hops. destruct (run_inv rd_wf rd_wf_flag rd_wf_timer ops (reass_init pool) (init_inv _ pool H1 H2)) as (outs & S & Hr & I & He & Hh & _).
  { intros p Hp. split; [by apply Hops|by apply rd_wf_stable, Hops]. }
  exists outs, S. split_and!; [done| |apply I|apply I|exact He|apply Forall_and; split; apply I]. unfold held in Hh. cbn in Hh. by rewrite <- Hh, app_assoc.
Qed.

(** ** Correctness *)
Definition slice (d : list Z) (s e : Z) : list Z := takez (e - s) (dropz s d).

Lemma data_slice_app d a b c : 0 <= a <= b -> b <= c <= lenz d -> slice d a b ++ slice d b c = slice d a c.
Proof.
  intros H1 H2. unfold slice, takez, dropz, lenz in *. replace (Z.to_nat b) with (Z.to_nat a + Z.to_nat (b - a))%nat by lia. rewrite <- drop_drop.
  replace (Z.to_nat (c - a)) with (Z.to_nat (b - a) + Z.to_nat (c - b))%nat by lia. generalize (drop (Z.to_nat a) d). intros l. revert l.
  generalize (Z.to_nat (b - a)) (Z.to_nat (c - b)). intros n m l. revert l. induction n as [|n IH]; intros l; [done|]. destruct l; cbn; [by rewrite take_nil|]. f_equal. apply IH.
Qed.

Lemma slice_all d : slice d 0 (lenz d) = d.
Proof. unfold slice. rewrite dropz_0 by lia. apply takez_all. lia. Qed.

Lemma lenz_slice d s e : 0 <= s <= e -> e <= lenz d -> lenz (slice d s e) = e - s.
Proof. intros H1 H2. unfold slice. apply lenz_takez. rewrite lenz_dropz by lia. lia. Qed.

(** The data of a fragment. *)
Definition frag_data (f : frag) : list Z := dropz 20 (p_bytes (fr_p f)).

(** [f] is the piece of [d] that its offsets say. *)
Record frag_of (d : list Z) (f : frag) : Prop := {
  ff_len : 20 <= p_len (fr_p f);
  ff_range : 0 <= fr_start f <= fr_end f /\ fr_end f <= lenz d;
  ff_data : frag_data f = slice d (fr_start f) (fr_end f);
  ff_tot : p_tot (fr_p f) = 20 + (fr_end f - fr_start f) }.

Definition last_end (f : frag) (l : list frag) : Z := fr_end (List.last l f).

(** Pieces without holes make a longer piece. *)
Lemma pieces_join d f l : Forall (frag_of d) (f :: l) -> no_holes f l = true ->
  frag_data f ++ concat (map frag_data l) = slice d (fr_start f) (last_end f l) /\ fr_end f <= last_end f l.
Proof.
  revert f. induction l as [|g l IH]; intros f Hf Hn; inversion Hf as [|? ? Hf1 Hf2]; subst.
  - cbn. rewrite app_nil_r, (ff_data _ _ Hf1). split; [done|]. unfold last_end. cbn. lia.
  - cbn [no_holes] in Hn. apply andb_prop in Hn as [Hn1 Hn]. apply Z.eqb_eq in Hn1. destruct (IH g Hf2 Hn) as [E1 E2]. cbn [map concat]. rewrite E1. inversion Hf2 as [|? ? Hg _]; subst.
    assert (El : last_end f (g :: l) = last_end g l) by (unfold last_end; destruct l; [done|]; cbn; clear; revert f g f0; induction l as [|x l IH]; intros; [done|]; cbn in *; apply IH). rewrite El.
    destruct (ff_range _ _ Hf1), (ff_range _ _ Hg). rewrite (ff_data _ _ Hf1), Hn1. assert (last_end g l <= lenz d).
    { unfold last_end. destruct (list_snoc_destruct l) as [->|(l' & x & ->)]; [cbn; lia|]. rewrite List.last_last. rewrite Forall_cons, Forall_app, Forall_cons in Hf2. by apply Hf2. }
    split; [|lia]. rewrite data_slice_app by lia. done.
Qed.

(** In an ordered queue the piece that ends the datagram is the last. *)
Lemma last_end_full d f l : Forall (frag_of d) (f :: l) -> ordered (f :: l) -> (exists g, g ∈ f :: l /\ fr_end g = lenz d) -> last_end f l = lenz d.
Proof.
  intros Hf Ho (g & Hg & Eg). unfold last_end. destruct (list_snoc_destruct l) as [->|(l' & x & ->)]; [cbn; apply list_elem_of_singleton in Hg; congruence|]. rewrite List.last_last.
  rewrite Forall_cons, Forall_app, Forall_cons in Hf. destruct Hf as (Hf1 & _ & [_ [Hx1 Hx2] _ _] & _).
  assert (Hd : g = x \/ before g x).
  { rewrite app_comm_cons in Hg, Ho. apply elem_of_app in Hg as [Hg|Hg%list_elem_of_singleton]; [right|by left]. apply list_elem_of_lookup in Hg as [i Hi].
    eapply (sorted_lookup before _ i (length (f :: l')) g x Ho); [by apply lookup_app_l_Some|by apply list_lookup_middle|by eapply lookup_lt_Some]. }
  destruct Hd as [->|[_ Hd]]; [done|lia].
Qed.

(** The bytes of the packet that a queue becomes. *)
Lemma p_bytes_set h p : 20 <= p_len p -> p_bytes (set_iphdr h p) = h ++ dropz 20 (p_bytes p) /\ p_tot (set_iphdr h p) = p_tot p.
Proof.
  unfold set_iphdr, p_bytes, p_chain, cbytes, p_len. destruct (p_bufs p) as [|b l]; [cbn; lia|]. intros H. split; [|done]. cbn. change IP_HLEN with 20.
  rewrite dropz_app by lia. rewrite (dropz_0 (20 - _)) by lia. by rewrite app_assoc.
Qed.

Lemma p_bytes_remove p : 20 <= p_len p -> p_bytes (pbuf_remove_header 20 p) = dropz 20 (p_bytes p) /\ p_tot (pbuf_remove_header 20 p) = u16 (p_tot p - 20).
Proof.
  unfold pbuf_remove_header, p_bytes, p_chain, cbytes, p_len. destruct (p_bufs p) as [|b l]; [cbn; lia|]. intros H. rewrite (proj2 (Z.ltb_ge _ _)) by lia. split; [|done]. cbn.
  rewrite dropz_app by lia. by rewrite (dropz_0 (20 - _)) by lia.
Qed.

Lemma p_bytes_cat p q : p_bytes (pbuf_cat p q) = p_bytes p ++ p_bytes q.
Proof. unfold pbuf_cat, p_bytes, p_chain, cbytes. cbn. by rewrite map_app, concat_app. Qed.

Lemma fold_cat d l : forall s, Forall (frag_of d) l -> is_u16 (p_tot s) ->
  let r := fold_left (fun p g => pbuf_cat p (pbuf_remove_header IP_HLEN (fr_p g))) l s in
  p_bytes r = p_bytes s ++ concat (map frag_data l) /\ is_u16 (p_tot r) /\ p_tot r = u16 (p_tot s + lenz (concat (map frag_data l))).
Proof.
  induction l as [|g l IH]; intros s Hl Hs; cbn zeta; cbn [fold_left map concat].
  - rewrite app_nil_r. split_and!; [done|done|]. rewrite lenz_nil, Z.add_0_r. by rewrite u16_id.
  - apply Forall_cons in Hl as [Hg Hl]. change IP_HLEN with 20 in *. destruct (p_bytes_remove (fr_p g) (ff_len _ _ Hg)) as [E1 E2].
    destruct (IH (pbuf_cat s (pbuf_remove_header 20 (fr_p g))) Hl) as (A & B & C); [apply u16_range|]. rewrite A, p_bytes_cat, E1. split_and!; [by rewrite <- app_assoc|done|].
    rewrite C. unfold pbuf_cat. cbn [p_tot]. rewrite E2, lenz_app. pose proof (ff_tot _ _ Hg) as Ht. destruct (ff_range _ _ Hg) as [H1 H2].
    assert (Hd : lenz (frag_data g) = p_tot (fr_p g) - 20) by (rewrite (ff_data _ _ Hg), lenz_slice by lia; lia). rewrite Hd. unfold u16. zlia.
Qed.

(** The first buffer of the packet stays the first. *)
Lemma fold_cat_len l : forall s, 20 <= p_len s -> p_len (fold_left (fun p g => pbuf_cat p (pbuf_remove_header IP_HLEN (fr_p g))) l s) = p_len s.
Proof.
  induction l as [|g l IH]; intros s Hs; [done|]. cbn [fold_left]. assert (E : p_len (pbuf_cat s (pbuf_remove_header IP_HLEN (fr_p g))) = p_len s) by (unfold pbuf_cat, p_len in *; cbn; by destruct (p_bufs s)). rewrite IH; lia.
Qed.

Lemma p_len_set h p : 20 <= p_len p -> lenz h = 20 -> p_len (set_iphdr h p) = p_len p.
Proof.
  intros Hl Hh. unfold set_iphdr, p_len in *. destruct (p_bufs p) as [|b l] eqn:E; [by rewrite E|]. cbn. change IP_HLEN with 20. rewrite lenz_app, lenz_dropz by lia. lia.
Qed.

Section Correct.
(** The datagrams in the network, by source, destination and identification:
    protocol and data. *)
Context (D : Z -> Z -> Z -> option (Z * list Z)).
Definition datagram_of (h : list Z) : option (Z * list Z) := D (IPH_SRC h) (IPH_DEST h) (IPH_ID h).

(** The packet is a fragment of its datagram. *)
Definition honest (p : pkt) : Prop :=
  forall pr d, datagram_of (iphdr_of p) = Some (pr, d) ->
    let off := IPH_OFFSET_BYTES (iphdr_of p) in
    let n := p_tot p - 20 in
    lenz d <= 65515 /\ IPH_HL_BYTES (iphdr_of p) = 20 /\ IPH_PROTO (iphdr_of p) = pr
    /\ off + n <= lenz d /\ dropz 20 (p_bytes p) = slice d off (off + n)
    /\ (is_last_of p = true <-> off + n = lenz d).

(** The header of a reassembled datagram. *)
Record whole_hdr (pr : Z) (d h : list Z) : Prop := {
  wh_len : lenz h = 20;
  wh_tot : lwip_ntohs (IPH_LEN h) = 20 + lenz d;
  wh_off : IPH_OFFSET h = 0;
  wh_proto : IPH_PROTO h = pr;
  wh_chk : inet_chksum 0 h = 0 }.

Record rd_honest (r : ip_reassdata) (pr : Z) (d : list Z) : Prop := {
  rh_max : lenz d <= 65515;
  rh_hdr : lenz (r_iphdr r) = 20 /\ Forall is_u8 (r_iphdr r) /\ IPH_PROTO (r_iphdr r) = pr;
  rh_frags : Forall (frag_of d) (r_p r);
  rh_order : ordered (r_p r);
  rh_last : flag_set (r_flags r) IP_REASS_FLAG_LASTFRAG = true -> r_datagram_len r = lenz d /\ exists g, g ∈ r_p r /\ fr_end g = lenz d }.

Definition rd_ok (r : ip_reassdata) : Prop := rd_wf r /\ forall pr d, datagram_of (r_iphdr r) = Some (pr, d) -> rd_honest r pr d.

Lemma match_datagram a b : IP_ADDRESSES_AND_ID_MATCH a b = true -> datagram_of a = datagram_of b.
Proof. unfold IP_ADDRESSES_AND_ID_MATCH, datagram_of. intros H. bprop. congruence. Qed.

(** The new fragment is a piece of the datagram. *)
Lemma honest_frag p pr d : fragment_ok p -> honest p -> datagram_of (iphdr_of p) = Some (pr, d) ->
  frag_of d (mk_frag p (IPH_OFFSET_BYTES (iphdr_of p)) (dlen_of p)) /\ (is_last_of p = true <-> dlen_of p = lenz d).
Proof.
  intros Hp Hh E. destruct (Hh pr d E) as (H1 & H2 & H3 & H4 & H5 & H6). pose proof (fo_hdr _ Hp) as Hl. assert (0 <= IPH_OFFSET_BYTES (iphdr_of p)) by (unfold IPH_OFFSET_BYTES; zlia).
  assert (Ht : 20 <= p_tot p) by (rewrite (pk_tot _ (fo_pkt _ Hp)), iphdr_bytes by done; rewrite lenz_app, iphdr_len by done; pose proof (lenz_nonneg (dropz 20 (p_bytes p))); lia).
  pose proof (pk_max _ (fo_pkt _ Hp)).
  assert (Ed : dlen_of p = IPH_OFFSET_BYTES (iphdr_of p) + (p_tot p - 20)) by (unfold dlen_of; rewrite (fo_len _ Hp), H2; rewrite (u16_id (p_tot p - 20)) by zlia; apply u16_id; zlia).
  rewrite Ed. split; [|done]. split; cbn; [done|lia|done|lia].
Qed.

Lemma rd_ok_stable p : fragment_ok p -> honest p -> stable rd_ok p.
Proof.
  intros Hp Hh. destruct (rd_wf_stable p Hp) as [W1 W2 W3]. assert (Hhdr : lenz (iphdr_of p) = 20 /\ Forall is_u8 (iphdr_of p)) by (split; [by apply iphdr_len, Hp|by apply iphdr_u8, (pk_u8 _ (fo_pkt _ Hp))]).
  destruct Hhdr as [Hl Hu]. split.
  - intros a. split; [done|]. cbn. intros pr d E. destruct (Hh pr d E) as (H1 & H2 & H3 & _). split; cbn; try done; constructor.
  - intros r [Hr1 Hr2] Hm Ho. split; [by apply W2|]. cbn. intros pr d E. rewrite <- (match_datagram _ _ Hm) in E. destruct (Hr2 pr d E) as [A1 A2 A3 A4 A5]. rewrite (match_datagram _ _ Hm) in E.
    destruct (Hh pr d E) as (H1 & H2 & H3 & _). by split.
  - intros r v q ([Hr1 Hr2] & Hm & Ho & Hmax & Hc & Hv). assert (Hq0 : queueable rd_wf p r v q) by (unfold queueable; tauto). split; [by apply W3 in Hq0|]. intros pr d E.
    assert (E0 : datagram_of (r_iphdr r) = Some (pr, d)) by (unfold queue_rd in E; by destruct (is_last_of p)). destruct (Hr2 pr d E0) as [A1 A2 A3 A4 A5]. rewrite (match_datagram _ _ Hm) in E0.
    destruct (honest_frag p pr d Hp Hh E0) as [F1 F2]. destruct (chain_verdict r p v q Hc Hv) as (Hperm & Hn & Hord & _). specialize (Hord A4). cbn in Hn.
    assert (Hfq : Forall (frag_of d) q) by (rewrite Hperm; by constructor). assert (Hoq : ordered q) by (apply Hord; intros f Hf; rewrite Forall_forall in A3; apply A3 in Hf; destruct (ff_range _ _ Hf); lia).
    unfold queue_rd. destruct (is_last_of p) eqn:El; split; try done; cbn.
    + intros _. split; [by apply F2|]. eexists. split; [rewrite Hperm; left|cbn; by apply F2].
    + intros Hf. destruct (A5 Hf) as (B1 & g & B2 & B3). split; [done|]. exists g. split; [|done]. rewrite Hperm. by right.
Qed.

Lemma rd_honest_timer r : (forall pr d, datagram_of (r_iphdr r) = Some (pr, d) -> rd_honest r pr d) ->
  forall pr d, datagram_of (r_iphdr (r <| r_timer := r_timer r - 1 |>)) = Some (pr, d) -> rd_honest (r <| r_timer := r_timer r - 1 |>) pr d.
Proof. intros H pr d E. by destruct (H pr d E). Qed.

(** The delivered packet. *)
Lemma delivered_whole p d pr dg : fragment_ok p -> honest p -> delivered rd_ok p d -> datagram_of (iphdr_of p) = Some (pr, dg) ->
  exists h, p_bytes d = h ++ dg /\ IP_ADDRESSES_AND_ID_MATCH h (iphdr_of p) = true /\ whole_hdr pr dg h /\ p_tot d = 20 + lenz dg /\ 20 <= p_len d.
Proof.
  intros Hp Hh (r & q & Hqu & Hj) E. destruct (rd_ok_stable p Hp Hh) as [_ _ Hst]. pose proof (Hst _ _ _ Hqu) as [_ Hr']. set (r' := queue_rd (is_last_of p) (dlen_of p) q r) in *. cbv zeta in Hj.
  destruct Hqu as (Hr & Hm & _ & _ & Hc & Hv). destruct (chain_verdict r p _ q Hc Hv) as (Hperm & _ & _ & Hfin). destruct (proj1 Hfin eq_refl) as (Hlast & Hcont & f & Hhd & Hs0).
  assert (Er : r_p r' = q /\ r_iphdr r' = r_iphdr r /\ flag_set (r_flags r') IP_REASS_FLAG_LASTFRAG = true).
  { unfold r', queue_rd. destruct (is_last_of p); cbn; split_and!; try done. by rewrite flag_lor, orb_true_r. }
  destruct Er as (Eq & Eh & Ef). assert (E' : datagram_of (r_iphdr r') = Some (pr, dg)) by (rewrite Eh, (match_datagram _ _ Hm); done).
  destruct (Hr' pr dg E') as [A1 (A2 & A3 & A4) A5 A6 A7]. destruct (A7 Ef) as (A8 & A9). rewrite Eq in *. rewrite Eh, A8 in *. destruct q as [|f' l]; [done|]. injection Hhd as ->. cbn in Hcont.
  cbn [join_frags] in Hj. set (h0 := IPH_OFFSET_SET _ 0) in Hj. set (h := IPH_CHKSUM_SET (IPH_CHKSUM_SET h0 0) _) in Hj. injection Hj as Hd.
  assert (Hl0 : lenz h0 = 20 /\ Forall is_u8 h0) by (unfold h0, IPH_OFFSET_SET, IPH_LEN_SET; rewrite !lenz_st16; split; [done|by apply st16_u8, st16_u8]). destruct Hl0 as [Hl0 Hu0].
  apply Forall_cons in A5 as HA. destruct HA as [Hf Hl]. destruct (p_bytes_set h (fr_p f) (ff_len _ _ Hf)) as [B1 B2]. pose proof (ff_range _ _ Hf) as [R1 R2]. pose proof (ff_tot _ _ Hf) as T.
  destruct (fold_cat dg l (set_iphdr h (fr_p f)) Hl) as (C1 & _ & C2); [rewrite B2, T; zlia|]. cbv zeta in C1, C2. rewrite Hd in C1, C2.
  destruct (pieces_join dg f l A5 Hcont) as [J1 _]. rewrite (last_end_full dg f l A5 A6 A9), Hs0, slice_all in J1. fold (frag_data f) in B1.
  assert (Hlh : lenz h = 20) by (by unfold h, IPH_CHKSUM_SET; rewrite !lenz_st16).
  exists h. split_and!; [by rewrite C1, B1, <- app_assoc, J1|revert Hm; unfold IP_ADDRESSES_AND_ID_MATCH, h, h0; by hdr| | |].
  - assert (Hll : is_u16 (u16 (lenz dg + IP_HLEN))) by apply u16_range. pose proof (htons_range _ Hll). split; [done| | |unfold h, h0; hdr; done|].
    + unfold h, h0, lwip_ntohs. hdr. rewrite htons_htons by done. change IP_HLEN with 20. pose proof (lenz_nonneg dg). rewrite u16_id by zlia. lia.
    + unfold h, h0. hdr. done.
    + by apply hdr_chksum_ok.
  - rewrite C2, B2, T. apply (f_equal lenz) in J1. rewrite lenz_app in J1. assert (Hlf : lenz (frag_data f) = fr_end f - fr_start f) by (rewrite (ff_data _ _ Hf); by apply lenz_slice).
    rewrite u16_id; [lia|]. pose proof (lenz_nonneg (concat (map frag_data l))). zlia.
  - rewrite <- Hd, fold_cat_len by (rewrite p_len_set by (done || apply Hf); apply Hf). rewrite p_len_set by (done || apply Hf). apply Hf.
Qed.
End Correct.

(** ** The header of what is delivered *)

(** The stored header and the queued fragments are long enough, whoever sent
    them. *)
Definition rd_hd (r : ip_reassdata) : Prop := lenz (r_iphdr r) = 20 /\ forall f, f ∈ r_p r -> 20 <= p_len (fr_p f).

Lemma rd_hd_stable p : fragment_ok p -> stable rd_hd p.
Proof.
  intros Hp. pose proof (fo_hdr _ Hp) as Hl. split.
  - intros a. split; [by apply iphdr_len|]. by intros f Hf%elem_of_nil.
  - intros r [_ H] _ _. split; [by apply iphdr_len|exact H].
  - intros r v q ([H1 H2] & _ & _ & _ & Hc & Hv). destruct (chain_verdict r p v q Hc Hv) as (Hperm & _).
    assert (Hq : forall f, f ∈ q -> 20 <= p_len (fr_p f)) by (intros f; rewrite Hperm, elem_of_cons; intros [->|Hf]; [done|by apply H2]).
    unfold queue_rd. by destruct (is_last_of p).
Qed.

Lemma queueable_mono (P Q : ip_reassdata -> Prop) p r v q : (forall r, P r -> Q r) -> queueable P p r v q -> queueable Q p r v q.
Proof. intros H (H1 & H2). split; [by apply H|done]. Qed.

Lemma stable_and P Q p : stable P p -> stable Q p -> stable (fun r => P r /\ Q r) p.
Proof.
  intros [P1 P2 P3] [Q1 Q2 Q3]. split; [auto|intros r [H1 H2]; auto|]. intros r v q H.
  split; [apply (P3 _ v)|apply (Q3 _ v)]; (eapply queueable_mono; [|exact H]); by intros ? [].
Qed.

Lemma delivered_mono (P Q : ip_reassdata -> Prop) p d : (forall r, P r -> Q r) -> delivered P p d -> delivered Q p d.
Proof. intros H (r & q & Hq & Hj). exists r, q. split; [by eapply queueable_mono|done]. Qed.

Lemma fold_cat_prefix l : forall s h t, p_bytes s = h ++ t -> exists u, p_bytes (fold_left (fun p g => pbuf_cat p (pbuf_remove_header IP_HLEN (fr_p g))) l s) = h ++ u.
Proof.
  induction l as [|g l IH]; intros s h t E; [by exists t|]. cbn [fold_left]. eapply (IH _ h). by rewrite p_bytes_cat, E, <- app_assoc.
Qed.

(** It begins with a header that matches the fragment that completed it. *)
Lemma delivered_hdr p d : fragment_ok p -> delivered rd_hd p d -> IP_ADDRESSES_AND_ID_MATCH (takez IP_HLEN (p_bytes d)) (iphdr_of p) = true.
Proof.
  intros Hp (r & q & Hqu & Hj). pose proof (st_queue _ _ (rd_hd_stable p Hp) _ _ _ Hqu) as [L1 L2]. cbv zeta in Hj. set (r' := queue_rd _ _ q r) in *.
  destruct Hqu as (_ & Hm & _). assert (Eh : r_iphdr r' = r_iphdr r) by (unfold r', queue_rd; by destruct (is_last_of p)). rewrite Eh in *.
  destruct (r_p r') as [|f l]; [done|]. cbn [join_frags] in Hj. set (h0 := IPH_OFFSET_SET _ 0) in Hj. set (h := IPH_CHKSUM_SET (IPH_CHKSUM_SET h0 0) _) in Hj. injection Hj as <-.
  assert (Hl0 : lenz h0 = 20) by (unfold h0, IPH_OFFSET_SET, IPH_LEN_SET; by rewrite !lenz_st16). assert (Hlh : lenz h = 20) by (by unfold h, IPH_CHKSUM_SET; rewrite !lenz_st16).
  destruct (p_bytes_set h (fr_p f) (L2 f ltac:(left))) as [B1 _]. destruct (fold_cat_prefix l _ _ _ B1) as [u ->].
  change IP_HLEN with 20. rewrite (takez_app_eq 20 h) by done. revert Hm. unfold IP_ADDRESSES_AND_ID_MATCH, h, h0. by hdr.
Qed.

(** C9: every packet that reassembly delivers begins with a header whose
    addresses and identification are those of a fragment that arrived; and if
    the fragments with the addresses and identification of a datagram that [D]
    knows are pieces of it, then a packet delivered with these consists of that
    header, with the datagram's length, offset 0, its protocol and a correct
    checksum, and exactly the datagram's data.  Fragments may come in any order,
    duplicated, overlapping, lost or timed out, and mixed with fragments [D] says
    nothing about, honest or not. *)
Theorem reass_delivers_datagram D pool ops : NoDup pool -> 0 ∉ pool -> (forall p, RFrag p ∈ ops -> fragment_ok p /\ honest D p) ->
  exists outs S, run_reass ops (reass_init pool) = Some (outs, S) /\
  Forall (fun d => let h := takez IP_HLEN (p_bytes d) in
    (exists p, RFrag p ∈ ops /\ IP_ADDRESSES_AND_ID_MATCH h (iphdr_of p) = true) /\
    forall pr dg, datagram_of D h = Some (pr, dg) -> p_bytes d = h ++ dg /\ whole_hdr pr dg h /\ p_tot d = 20 + lenz dg) outs.
Proof.
  intros H1 H2 Hops. set (P := fun r => rd_ok D r /\ rd_hd r).
  destruct (run_inv P (fun r Hr => rd_wf_flag r (proj1 (proj1 Hr))) (fun r Hr Ht => conj (conj (rd_wf_timer r (proj1 (proj1 Hr)) Ht) (rd_honest_timer D r (proj2 (proj1 Hr)))) (proj2 Hr)) ops (reass_init pool) (init_inv _ pool H1 H2))
    as (outs & S & Hr & _ & _ & _ & Hd).
  { intros p Hp. destruct (Hops p Hp). split; [done|]. by apply stable_and; [apply rd_ok_stable|apply rd_hd_stable]. }
  exists outs, S. split; [done|]. eapply Forall_impl; [exact Hd|]. intros d (p & Hp & Hdel). destruct (Hops p Hp) as [Ho Hn]. cbv zeta.
  pose proof (delivered_hdr p d Ho (delivered_mono P rd_hd p d (fun r H => proj2 H) Hdel)) as Hm. split; [by exists p|]. intros pr dg E. rewrite (match_datagram D _ _ Hm) in E.
  destruct (delivered_whole D p d pr dg Ho Hn (delivered_mono P (rd_ok D) p d (fun r H => proj1 H) Hdel) E) as (h & A1 & _ & A3 & A4 & _).
  assert (Eh : takez IP_HLEN (p_bytes d) = h) by (rewrite A1; apply takez_app_eq; symmetry; apply (wh_len _ _ _ A3)). rewrite Eh. by split_and!.
Qed.

(** ** Completeness: all fragments, in any order *)

(** The fragment a packet becomes. *)
Definition fr_of (p : pkt) : frag := mk_frag p (IPH_OFFSET_BYTES (iphdr_of p)) (dlen_of p).

Lemma chain_walk_inserts nw l : forall prev valid, (forall pv, prev = Some pv -> before pv nw) ->
  (forall f, f ∈ l -> before f nw \/ before nw f) -> chain_walk nw prev l valid <> Some None.
Proof.
  induction l as [|t l IH]; intros prev valid Hp Hl; cbn [chain_walk]; [destruct prev as [pv|]; [by destruct (_ <=? _)|done]|].
  pose proof (Hl t ltac:(left)) as Ht. unfold before in *. destruct (Z.ltb_spec (fr_start nw) (fr_start t)).
  - destruct prev as [pv|]; [destruct (Hp pv eq_refl); rewrite (proj2 (Z.ltb_ge _ _)) by lia; cbn [orb]|]; by rewrite (proj2 (Z.ltb_ge _ _)) by lia.
  - rewrite (proj2 (Z.eqb_neq _ _)) by lia. rewrite (proj2 (Z.ltb_ge _ _)) by lia.
    specialize (IH (Some t) (match prev with Some pv => valid && (fr_end pv =? fr_start t) | None => valid end)).
    destruct (chain_walk _ _ _ _) as [[[[? ?] ?]|]|]; [done| |done]. exfalso. apply IH; [| |done]; [intros pv [= <-]; lia|]. intros f Hf. apply Hl. by right.
Qed.

(** A point of a run of pieces without holes lies in one of them. *)
Lemma no_holes_covers f l x : no_holes f l = true -> fr_start f <= x < last_end f l -> exists g, g ∈ f :: l /\ fr_start g <= x < fr_end g.
Proof.
  revert f. induction l as [|g l IH]; intros f Hn Hx; [exists f; split; [left|exact Hx]|]. cbn in Hn. apply andb_prop in Hn as [Hn1 Hn]. apply Z.eqb_eq in Hn1.
  destruct (decide (x < fr_end f)); [exists f; split; [left|lia]|]. destruct (IH g Hn) as (h & Hh & Hx').
  { split; [lia|]. replace (last_end g l) with (last_end f (g :: l)); [lia|]. unfold last_end. destruct l as [|y l]; [done|]. clear. cbn. revert f g y. induction l as [|z l IH]; intros; [done|]. cbn in *. apply (IH f g). }
  exists h. split; [by right|done].
Qed.

#[export] Instance before_antisymm : AntiSymm eq before.
Proof. intros f g [? ?] [? ?]. lia. Qed.

(** The fragments [fs], in order, carry [dg] from offset [off] on; only the last
    has no MF. *)
Fixpoint carries (dg : list Z) (off : Z) (fs : list pkt) : Prop :=
  match fs with
  | [] => off = lenz dg
  | p :: fs =>
      IPH_OFFSET_BYTES (iphdr_of p) = off /\ 20 < p_tot p /\ dropz 20 (p_bytes p) = slice dg off (off + (p_tot p - 20))
      /\ is_last_of p = bool_decide (fs = []) /\ carries dg (off + (p_tot p - 20)) fs
  end.

(** The fragments of one datagram: the same addresses and identification as the
    header [k], no options, at least two, and room for them. *)
Record fragments (k dg : list Z) (fs : list pkt) : Prop := {
  fs_ok : Forall fragment_ok fs;
  fs_key : Forall (fun p => IP_ADDRESSES_AND_ID_MATCH k (iphdr_of p) = true /\ IPH_HL_BYTES (iphdr_of p) = 20) fs;
  fs_max : lenz dg <= 65515;
  fs_two : (2 <= length fs)%nat;
  fs_carries : carries dg 0 fs }.

Lemma carries_le dg fs : forall off, carries dg off fs -> off <= lenz dg.
Proof. induction fs as [|p fs IH]; intros off; cbn; [lia|]. intros (_ & H & _ & _ & Hc). apply IH in Hc. lia. Qed.

Lemma carries_facts dg fs : forall off, 0 <= off -> lenz dg <= 65515 -> Forall fragment_ok fs -> Forall (fun p => IPH_HL_BYTES (iphdr_of p) = 20) fs -> carries dg off fs ->
  ordered (map fr_of fs) /\ contiguous (map fr_of fs) = true
  /\ Forall (fun p => off <= fr_start (fr_of p) < fr_end (fr_of p) /\ frag_of dg (fr_of p) /\ (is_last_of p = true <-> dlen_of p = lenz dg)) fs
  /\ match fs with p :: _ => fr_start (fr_of p) = off | [] => True end
  /\ (fs <> [] -> exists p, p ∈ fs /\ is_last_of p = true).
Proof.
  induction fs as [|p fs IH]; intros off Ho Hmax Hok Hhl Hc; [split_and!; try done; constructor|]. apply Forall_cons in Hok as [Hp Hok]. apply Forall_cons in Hhl as [Hhl1 Hhl]. destruct Hc as (C1 & C2 & C3 & C4 & C5).
  pose proof (carries_le _ _ _ C5) as Hle. destruct (IH (off + (p_tot p - 20))) as (I1 & I2 & I3 & I4 & I5); [lia|done|done|done|done|].
  assert (Ed : dlen_of p = off + (p_tot p - 20)) by (unfold dlen_of; rewrite (fo_len _ Hp), Hhl1, C1; rewrite (u16_id (p_tot p - 20)) by (pose proof (pk_max _ (fo_pkt _ Hp)); zlia); apply u16_id; zlia).
  assert (Hlast : is_last_of p = true <-> dlen_of p = lenz dg).
  { rewrite C4, Ed, bool_decide_eq_true. destruct fs as [|p' fs']; [done|]. split; [done|]. intros E. exfalso. cbn in C5. destruct C5 as (_ & H & _ & _ & Hc). apply carries_le in Hc. lia. }
  split_and!.
  - cbn. constructor; [done|]. rewrite Forall_map. eapply Forall_impl; [exact I3|]. intros q (Hq & _). unfold before. cbn [fr_of fr_start fr_end] in *. lia.
  - cbn. destruct fs as [|p' fs']; [done|]. cbn in I2, I4 |- *. rewrite I2, Ed, I4. by rewrite Z.eqb_refl.
  - constructor.
    + split_and!; try done; cbn; [lia|lia|]. split; cbn; [apply Hp|lia| |lia]. rewrite C1, Ed. exact C3.
    + eapply Forall_impl; [exact I3|]. cbn. intros q (Hq & ?). split; [lia|done].
  - exact C1.
  - intros _. destruct fs as [|p' fs']; [exists p; split; [left|]; by rewrite C4|]. destruct (I5 ltac:(done)) as (q & Hq & Hl). exists q. split; [by right|done].
Qed.

Definition apart (f g : frag) : Prop := before f g \/ before g f.

Lemma ordered_apart l : ordered l -> ForallOrdPairs apart l.
Proof. induction 1 as [|f l Hs IH Hf]; constructor; [|done]. eapply Forall_impl; [exact Hf|]. by left. Qed.

Lemma apart_perm l k : l ≡ₚ k -> ForallOrdPairs apart l -> ForallOrdPairs apart k.
Proof.
  induction 1 as [|f l k Hp IH|f g l|l k m _ IH1 _ IH2]; intros H; [done| | |auto].
  - inversion H as [|? ? Hf Hl]; subst. constructor; [by rewrite <- Hp|auto].
  - inversion H as [|? ? Hg Hl]; subst. inversion Hl as [|? ? Hf Hl']; subst. apply Forall_cons in Hg as [Hg1 Hg2].
    constructor; [constructor; [|done]; destruct Hg1; [by right|by left]|by constructor].
Qed.

Lemma apart_mid l f k : ForallOrdPairs apart (l ++ f :: k) -> (forall g, g ∈ l -> apart g f) /\ (forall g, g ∈ k -> apart f g).
Proof.
  induction l as [|x l IH]; intros H; inversion H as [|? ? Hf Hl]; subst.
  - split; [by intros g Hg%elem_of_nil|by apply Forall_forall].
  - destruct (IH Hl) as [H1 H2]. split; [|done]. intros g [->|Hg]%elem_of_cons; [|auto]. rewrite Forall_forall in Hf. apply Hf. apply elem_of_app. right. left.
Qed.

(** When part of the fragments have been queued in [q], the datagram is found
    complete exactly if none is missing. *)
Lemma complete_iff k dg fs got miss q : fragments k dg fs -> got ++ miss ≡ₚ fs -> q ≡ₚ map fr_of got -> ordered q ->
  ((exists p, p ∈ got /\ is_last_of p = true) /\ contiguous q = true /\ (exists f, head q = Some f /\ fr_start f = 0)) <-> miss = [].
Proof.
  intros [F1 F2 F3 F4 F5] Hp Hq Ho. destruct (carries_facts dg fs 0 ltac:(lia) F3 F1 ltac:(eapply Forall_impl; [exact F2|]; naive_solver) F5) as (C1 & C2 & C3 & C4 & C5).
  rewrite Forall_forall in C3. split.
  - intros ((pl & Hpl & Hlast) & Hc & f & Hf & Hf0). destruct miss as [|m miss]; [done|exfalso]. destruct q as [|f' l]; [done|]. injection Hf as ->. cbn in Hc.
    assert (Hin : forall g, g ∈ f :: l -> exists p, p ∈ got /\ g = fr_of p) by (intros g; rewrite Hq; intros (p & -> & Hg)%list_elem_of_fmap; by exists p).
    assert (Hgot : forall p, p ∈ got -> p ∈ fs) by (intros p Hg; rewrite <- Hp; apply elem_of_app; by left). assert (Hm : m ∈ fs) by (rewrite <- Hp; apply elem_of_app; right; left).
    assert (Hall : Forall (frag_of dg) (f :: l)) by (apply Forall_forall; intros g Hg; destruct (Hin g Hg) as (p & Hg' & ->); by apply C3, Hgot).
    assert (Hend : last_end f l = lenz dg) by (apply (last_end_full dg); [done|done|]; exists (fr_of pl); split; [rewrite Hq; by apply list_elem_of_fmap_2|]; cbn; by apply C3; [apply Hgot|]).
    destruct (C3 m Hm) as (Hm1 & Hm2 & _). destruct (ff_range _ _ Hm2) as [Hm3 Hm4].
    destruct (no_holes_covers f l (fr_start (fr_of m)) Hc) as (g & Hg & Hx); [lia|]. destruct (Hin g Hg) as (p & Hpg & ->).
    assert (Ha : ForallOrdPairs apart (map fr_of (got ++ m :: miss))) by (eapply apart_perm; [|by apply ordered_apart]; by rewrite Hp). rewrite map_app in Ha. cbn in Ha. apply apart_mid in Ha as [Ha _].
    destruct (Ha (fr_of p) ltac:(by apply list_elem_of_fmap_2)) as [[? ?]|[? ?]]; lia.
  - intros ->. rewrite app_nil_r in Hp. assert (Eq : q = map fr_of fs) by (apply (StronglySorted_unique before); [done|done|by rewrite Hq, Hp]). rewrite Eq.
    assert (Hne : fs <> []) by (intros ->; cbn in F4; lia). split_and!; [|done|].
    + destruct (C5 Hne) as (p & H1 & H2). exists p. by rewrite Hp.
    + destruct fs as [|p fs]; [done|]. exists (fr_of p). done.
Qed.

(** The entry after the header of the first fragment replaced that of another. *)
Definition hd_rd (h : list Z) (r : ip_reassdata) : ip_reassdata :=
  if (Z.land (lwip_ntohs (IPH_OFFSET h)) IP_OFFMASK =? 0) && negb (Z.land (lwip_ntohs (IPH_OFFSET (r_iphdr r))) IP_OFFMASK =? 0) then r <| r_iphdr := h |> else r.

Lemma hd_rd_keeps h r : r_addr (hd_rd h r) = r_addr r /\ r_p (hd_rd h r) = r_p r /\ r_flags (hd_rd h r) = r_flags r
  /\ (IP_ADDRESSES_AND_ID_MATCH (r_iphdr r) h = true -> IP_ADDRESSES_AND_ID_MATCH (r_iphdr (hd_rd h r)) h = true).
Proof. unfold hd_rd. destruct (_ && _); split_and!; try done. intros _. apply match_refl. Qed.

(** Queueing in the first entry of the list. *)
Lemma reass_queue_head p S r l0 v q : fragment_ok p -> IPH_HL_BYTES (iphdr_of p) = 20 -> reassdatagrams S = r :: l0 -> NoDup (map r_addr (r :: l0)) -> 0 <= ip_reass_pbufcount S ->
  ip_reass_pbufcount S + lenz (p_bufs p) <= 10 -> (is_last_of p = true -> IPH_OFFSET_BYTES (iphdr_of p) <= dlen_of p <= 65515) ->
  ip_reass_chain_frag_into_datagram_and_validate r p (is_last_of p) = Some (v, q) -> v <> PBUF_DROPPED ->
  reass_queue (r_addr r) p (IPH_OFFSET_BYTES (iphdr_of p)) (u16 (lwip_ntohs (IPH_LEN (iphdr_of p)) - IPH_HL_BYTES (iphdr_of p))) (pbuf_clen p) S
  = let S1 := S <| ip_reass_pbufcount := ip_reass_pbufcount S + lenz (p_bufs p) |> <| reassdatagrams := queue_rd (is_last_of p) (dlen_of p) q r :: l0 |> in
    match v with TELEGRAM_FINISHED => reass_finish (r_addr r) S1 | _ => Some (None, S1) end.
Proof.
  intros Hp Hhl E Hnd Hc0 Hroom Hmax Hch Hv. unfold reass_queue. change (Z.land (IPH_OFFSET (iphdr_of p)) (PP_HTONS IP_MF) =? 0) with (is_last_of p). fold (dlen_of p).
  assert (Eov : is_last_of p && ((dlen_of p <? IPH_OFFSET_BYTES (iphdr_of p)) || (65535 - IP_HLEN <? dlen_of p)) = false).
  { destruct (is_last_of p); [|done]. specialize (Hmax eq_refl). change IP_HLEN with 20. cbn [andb]. apply orb_false_iff. split; apply Z.ltb_ge; lia. }
  rewrite Eov, E. cbn [find_rd]. rewrite Z.eqb_refl, Hch. pose proof (upd_rd_app (fun r => queue_rd (is_last_of p) (dlen_of p) q r) [] r l0 Hnd) as Hu. cbn [app] in Hu. unfold queue_rd at 1 in Hu. cbv zeta in Hu |- *. rewrite Hu.
  pose proof (fo_bufs _ Hp). pose proof (lenz_nonneg (p_bufs p)). unfold pbuf_clen. rewrite (u16_id (lenz _)) by zlia. rewrite u16_id by zlia. by destruct v.
Qed.

Section Complete.
Context (k dg : list Z) (pr : Z) (fs : list pkt) (S0 : reass) (a : Z) (pl : list Z).
Hypothesis Hfs : fragments k dg fs.
Hypothesis Hpr : Forall (fun p => IPH_PROTO (iphdr_of p) = pr) fs.
Hypothesis Hno : Forall (fun r => IP_ADDRESSES_AND_ID_MATCH (r_iphdr r) k = false) (reassdatagrams S0).
Hypothesis Hroom : ip_reass_pbufcount S0 + nbufs (map fr_of fs) <= IP_REASS_MAX_PBUFS.
Hypothesis Hpool : reass_pool S0 = a :: pl.
Hypothesis HI : inv rd_wf S0.

(** The only datagram known of. *)
Definition the_datagram (src dst id : Z) : option (Z * list Z) :=
  if (src =? IPH_SRC k) && (dst =? IPH_DEST k) && (id =? IPH_ID k) then Some (pr, dg) else None.

Lemma the_datagram_key h : datagram_of the_datagram h = if IP_ADDRESSES_AND_ID_MATCH h k then Some (pr, dg) else None.
Proof. done. Qed.

Lemma match_sym h h' : IP_ADDRESSES_AND_ID_MATCH h h' = IP_ADDRESSES_AND_ID_MATCH h' h.
Proof. unfold IP_ADDRESSES_AND_ID_MATCH. by rewrite (Z.eqb_sym (IPH_SRC h)), (Z.eqb_sym (IPH_DEST h)), (Z.eqb_sym (IPH_ID h)). Qed.

Lemma match_trans h h' h'' : IP_ADDRESSES_AND_ID_MATCH h h' = true -> IP_ADDRESSES_AND_ID_MATCH h' h'' = IP_ADDRESSES_AND_ID_MATCH h h''.
Proof. unfold IP_ADDRESSES_AND_ID_MATCH. intros H. bprop. congruence. Qed.

Lemma HI' : inv (rd_ok the_datagram) S0.
Proof.
  destruct HI as [I1 I2 I3 I4 I5 I6]. split; try done. rewrite Forall_forall in *. intros r Hr. split; [by apply I5|]. intros pr' d. rewrite the_datagram_key. specialize (Hno r Hr). by rewrite Hno.
Qed.

(** A fragment of the datagram, as the lemmas about single fragments want it. *)
Lemma fs_member p : p ∈ fs -> fragment_ok p /\ IPH_HL_BYTES (iphdr_of p) = 20 /\ IP_ADDRESSES_AND_ID_MATCH k (iphdr_of p) = true
  /\ honest the_datagram p /\ fr_start (fr_of p) < fr_end (fr_of p) /\ fr_end (fr_of p) <= 65515.
Proof.
  intros Hp. destruct Hfs as [F1 F2 F3 F4 F5]. destruct (carries_facts dg fs 0 ltac:(lia) F3 F1 ltac:(eapply Forall_impl; [exact F2|]; naive_solver) F5) as (_ & _ & C3 & _).
  rewrite Forall_forall in *. destruct (F2 p Hp) as [K1 K2]. destruct (C3 p Hp) as (C4 & C5 & C6). pose proof (F1 p Hp) as Hok. destruct (ff_range _ _ C5) as [R1 R2]. pose proof (ff_tot _ _ C5) as Ht. pose proof (ff_data _ _ C5) as Hd.
  cbn [fr_of fr_start fr_end fr_p] in *. split_and!; try done; try lia. intros pr' d'. rewrite the_datagram_key, match_sym, K1. intros [= <- <-]. cbv zeta.
  assert (E : IPH_OFFSET_BYTES (iphdr_of p) + (p_tot p - 20) = dlen_of p) by lia. rewrite E. split_and!; try done; try lia. by apply Hpr.
Qed.

(** The new fragment is not dropped. *)
Lemma not_dropped r p v q : p ∈ fs -> ip_reass_chain_frag_into_datagram_and_validate r p (is_last_of p) = Some (v, q) ->
  (forall f, f ∈ r_p r -> apart f (fr_of p)) -> v <> PBUF_DROPPED.
Proof.
  intros Hp. destruct (fs_member p Hp) as (Hok & Hhl & _ & _ & Hlt & _). unfold ip_reass_chain_frag_into_datagram_and_validate. fold (dlen_of p). rewrite (fo_len _ Hok), Hhl.
  assert (Ht : 20 <= p_tot p) by (rewrite (pk_tot _ (fo_pkt _ Hok)), iphdr_bytes by apply Hok; rewrite lenz_app, iphdr_len by apply Hok; pose proof (lenz_nonneg (dropz 20 (p_bytes p))); lia).
  rewrite (proj2 (Z.ltb_ge _ _)) by lia. fold (fr_of p). rewrite (proj2 (Z.ltb_ge _ _)) by (cbn in Hlt |- *; lia).
  intros Hc Ha. pose proof (chain_walk_inserts (fr_of p) (r_p r) None true ltac:(done) Ha) as Hi. destruct (chain_walk _ _ _ _) as [[[[q' rest] v']|]|]; [|done|done].
  destruct (_ || _); [|by injection Hc as <- <-]. destruct q' as [|f tail]; [done|]. destruct (_ && _); [destruct tail; [done|]|]; by injection Hc as <- <-.
Qed.

(** The datagram's entry [r], first in the list, when the fragments [got] have
    been queued. *)
Record entry (got : list pkt) (r : ip_reassdata) (S : reass) : Prop := {
  e_list : reassdatagrams S = r :: reassdatagrams S0;
  e_addr : r_addr r = a;
  e_count : ip_reass_pbufcount S = ip_reass_pbufcount S0 + nbufs (map fr_of got);
  e_key : IP_ADDRESSES_AND_ID_MATCH (r_iphdr r) k = true;
  e_q : r_p r ≡ₚ map fr_of got;
  e_ord : ordered (r_p r);
  e_flag : flag_set (r_flags r) IP_REASS_FLAG_LASTFRAG = true <-> exists p, p ∈ got /\ is_last_of p = true }.

Lemma nbufs_snoc got p : nbufs (map fr_of (got ++ [p])) = nbufs (map fr_of got) + lenz (p_bufs p).
Proof. unfold nbufs, frag_addrs. rewrite !map_app, concat_app, lenz_app. cbn. rewrite app_nil_r. unfold p_addrs, lenz. by rewrite length_map. Qed.

Lemma nbufs_part got miss : got ++ miss ≡ₚ fs -> nbufs (map fr_of got) <= nbufs (map fr_of fs).
Proof.
  intros Hp. unfold nbufs, frag_addrs, lenz. rewrite <- Hp, !map_app, concat_app, length_app. lia.
Qed.

Lemma entry_nodup got r S : entry got r S -> NoDup (map r_addr (r :: reassdatagrams S0)).
Proof.
  intros He. cbn. rewrite (e_addr _ _ _ He). pose proof (i_nodup _ _ HI) as Hn. unfold elems in Hn. rewrite Hpool in Hn. apply NoDup_app in Hn as (H1 & H2 & _). constructor; [|done]. intros Hc. apply (H2 a Hc). left.
Qed.

(** One more fragment in the entry. *)
Lemma queue_next got p miss r S : entry got r S -> got ++ p :: miss ≡ₚ fs ->
  (forall f, f ∈ r_p r -> fr_start f <= fr_end f) -> (r_p r = [] -> flag_set (r_flags r) IP_REASS_FLAG_LASTFRAG = false) ->
  exists q S1, entry (got ++ [p]) (queue_rd (is_last_of p) (dlen_of p) q r) S1 /\ reass_pool S1 = reass_pool S /\
  reass_queue (r_addr r) p (IPH_OFFSET_BYTES (iphdr_of p)) (u16 (lwip_ntohs (IPH_LEN (iphdr_of p)) - IPH_HL_BYTES (iphdr_of p))) (pbuf_clen p) S
  = match miss with [] => reass_finish a S1 | _ => Some (None, S1) end.
Proof.
  intros He Hperm Hse Hemp. pose proof (entry_nodup _ _ _ He) as Hnd. destruct He as [E1 E3 E4 E5 E6 E7 E8]. assert (Hp : p ∈ fs) by (rewrite <- Hperm; apply elem_of_app; right; left).
  destruct (fs_member p Hp) as (Hok & Hhl & Hkey & Hh & Hlt & Hmx). cbn [fr_of fr_start fr_end] in Hlt, Hmx.
  assert (Hperm' : (got ++ [p]) ++ miss ≡ₚ fs) by by rewrite <- app_assoc.
  assert (Hapart : forall f, f ∈ r_p r -> apart f (fr_of p)).
  { destruct Hfs as [F1 F2 F3 F4 F5]. destruct (carries_facts dg fs 0 ltac:(lia) F3 F1 ltac:(eapply Forall_impl; [exact F2|]; naive_solver) F5) as (C1 & _).
    intros f. rewrite E6. intros Hf. assert (Ha : ForallOrdPairs apart (map fr_of (got ++ p :: miss))) by (eapply apart_perm; [|by apply ordered_apart]; by rewrite Hperm).
    rewrite map_app in Ha. cbn in Ha. apply apart_mid in Ha as [Ha _]. by apply Ha. }
  assert (Hct : exists v q, ip_reass_chain_frag_into_datagram_and_validate r p (is_last_of p) = Some (v, q)).
  { apply (chain_total (fun r' => r' = r) p Hok); [|done]. intros r' -> Hfl Hnil. rewrite (Hemp Hnil) in Hfl. done. }
  destruct Hct as (v & q & Hch). pose proof (not_dropped r p v q Hp Hch Hapart) as Hv. destruct (chain_verdict r p v q Hch Hv) as (Q1 & Q2 & Q3 & Q4). fold (fr_of p) in Q1.
  assert (Hq : q ≡ₚ map fr_of (got ++ [p])) by (rewrite Q1, E6, map_app; cbn; solve_Permutation). assert (Ho : ordered q) by by apply Q3.
  assert (Hfl : is_last_of p || flag_set (r_flags r) IP_REASS_FLAG_LASTFRAG = true <-> exists x, x ∈ got ++ [p] /\ is_last_of x = true).
  { rewrite orb_true_iff, E8. setoid_rewrite elem_of_app. setoid_rewrite list_elem_of_singleton. naive_solver. }
  assert (Hfin : v = TELEGRAM_FINISHED <-> miss = []) by (rewrite Q4, Hfl; by apply (complete_iff k dg fs (got ++ [p]) miss q)).
  pose proof (nbufs_part _ _ Hperm') as Hnb. rewrite nbufs_snoc in Hnb. pose proof (nbufs_nonneg (map fr_of got)). pose proof (i_count _ _ HI). pose proof (total_nonneg (reassdatagrams S0)). change IP_REASS_MAX_PBUFS with 10 in Hroom.
  exists q, (S <| ip_reass_pbufcount := ip_reass_pbufcount S + lenz (p_bufs p) |> <| reassdatagrams := queue_rd (is_last_of p) (dlen_of p) q r :: reassdatagrams S0 |>). split_and!; [|done|].
  - assert (Er : r_addr (queue_rd (is_last_of p) (dlen_of p) q r) = a /\ r_iphdr (queue_rd (is_last_of p) (dlen_of p) q r) = r_iphdr r /\ r_p (queue_rd (is_last_of p) (dlen_of p) q r) = q
      /\ flag_set (r_flags (queue_rd (is_last_of p) (dlen_of p) q r)) IP_REASS_FLAG_LASTFRAG = is_last_of p || flag_set (r_flags r) IP_REASS_FLAG_LASTFRAG).
    { unfold queue_rd. destruct (is_last_of p); cbn; split_and!; try done. by rewrite flag_lor, orb_true_r. }
    destruct Er as (R1 & R2 & R3 & R4). split; rewrite ?R2, ?R3, ?R4; try done. cbn. rewrite E4, nbufs_snoc. lia.
  - rewrite (reass_queue_head p S r (reassdatagrams S0) v q); [|done|done|done|done|lia|lia|intros; lia|done|done]. cbv zeta. rewrite E3.
    destruct v; [rewrite (proj1 Hfin eq_refl); done| |done]. destruct miss; [|done]. discriminate (proj2 Hfin eq_refl).
Qed.

(** What [ip4_reass] does with a fragment there is room for. *)
Lemma reass_with_room p S : p ∈ fs -> ip_reass_pbufcount S + lenz (p_bufs p) <= 10 ->
  ip4_reass p S =
    match match_rd (iphdr_of p) (reassdatagrams S) with
    | None => let? (ipr, S) := ip_reass_enqueue_new_datagram (iphdr_of p) (pbuf_clen p) S in
              if ipr =? 0 then reass_nullreturn p S
              else reass_queue ipr p (IPH_OFFSET_BYTES (iphdr_of p)) (u16 (lwip_ntohs (IPH_LEN (iphdr_of p)) - IPH_HL_BYTES (iphdr_of p))) (pbuf_clen p) S
    | Some r => reass_queue (r_addr r) p (IPH_OFFSET_BYTES (iphdr_of p)) (u16 (lwip_ntohs (IPH_LEN (iphdr_of p)) - IPH_HL_BYTES (iphdr_of p))) (pbuf_clen p)
        (if (Z.land (lwip_ntohs (IPH_OFFSET (iphdr_of p))) IP_OFFMASK =? 0) && negb (Z.land (lwip_ntohs (IPH_OFFSET (r_iphdr r))) IP_OFFMASK =? 0)
         then S <| reassdatagrams := upd_rd (r_addr r) (fun r => r <| r_iphdr := iphdr_of p |>) (reassdatagrams S) |> else S)
    end.
Proof.
  intros Hp Hr. destruct (fs_member p Hp) as (Hok & Hhl & _). unfold ip4_reass. rewrite Hhl. cbn [negb Z.eqb]. rewrite (fo_len _ Hok). change (20 =? IP_HLEN) with true. cbn [negb].
  assert (Ht : 20 <= p_tot p) by (rewrite (pk_tot _ (fo_pkt _ Hok)), iphdr_bytes by apply Hok; rewrite lenz_app, iphdr_len by apply Hok; pose proof (lenz_nonneg (dropz 20 (p_bytes p))); lia).
  rewrite (proj2 (Z.ltb_ge _ _)) by lia. assert (Hcl : pbuf_clen p = lenz (p_bufs p)) by (apply u16_id; pose proof (fo_bufs _ Hok); pose proof (lenz_nonneg (p_bufs p)); zlia).
  change IP_REASS_MAX_PBUFS with 10. rewrite Hcl, (proj2 (Z.ltb_ge _ _)) by lia. cbn [negb]. done.
Qed.

Lemma room_for got p miss S : ip_reass_pbufcount S = ip_reass_pbufcount S0 + nbufs (map fr_of got) -> got ++ p :: miss ≡ₚ fs -> ip_reass_pbufcount S + lenz (p_bufs p) <= 10.
Proof.
  intros Hc Hp. assert (Hp' : (got ++ [p]) ++ miss ≡ₚ fs) by by rewrite <- app_assoc. pose proof (nbufs_part _ _ Hp') as Hnb. rewrite nbufs_snoc in Hnb. change IP_REASS_MAX_PBUFS with 10 in Hroom. lia.
Qed.

Lemma reass_first p miss : p :: miss ≡ₚ fs ->
  exists r S1, entry [p] r S1 /\ reass_pool S1 = pl /\ ip4_reass p S0 = match miss with [] => reass_finish a S1 | _ => Some (None, S1) end.
Proof.
  intros Hperm. assert (Hp : p ∈ fs) by (rewrite <- Hperm; left). destruct (fs_member p Hp) as (Hok & Hhl & Hkey & _). rewrite reass_with_room by (done || (apply (room_for [] p miss); [|done]; change (nbufs (map fr_of [])) with 0; lia)).
  assert (Hm : match_rd (iphdr_of p) (reassdatagrams S0) = None).
  { revert Hno. generalize (reassdatagrams S0). induction l as [|r l IH]; [done|]. intros [H1 H2]%Forall_cons. cbn. rewrite (match_sym (r_iphdr r)), (match_trans k (iphdr_of p)), (match_sym k), H1 by done. auto. }
  rewrite Hm. unfold ip_reass_enqueue_new_datagram, reassdata_malloc. rewrite Hpool. assert (Ha : a <> 0) by (intros ->; apply (i_nz _ _ HI); unfold elems; rewrite Hpool; apply elem_of_app; right; left).
  rewrite !(proj2 (Z.eqb_neq a 0) Ha). set (r := mk_rd a [] (iphdr_of p) 0 0 IP_REASS_MAXAGE). set (S := S0 <| reass_pool := pl |> <| reassdatagrams := r :: _ |>).
  destruct (queue_next [] p miss r S) as (q & S1 & He & Hpl & Hq); [|done|by intros f Hf%elem_of_nil|done|exists (queue_rd (is_last_of p) (dlen_of p) q r), S1; split_and!; [exact He|exact Hpl|exact Hq]].
  split; try done; [change (nbufs _) with 0; cbn; lia|cbn; rewrite match_sym; done|constructor|]. split; [done|]. by intros (x & Hx%elem_of_nil & _).
Qed.

Lemma reass_next got p miss r S : entry got r S -> got ++ p :: miss ≡ₚ fs -> got <> [] -> inv rd_wf S ->
  exists r1 S1, entry (got ++ [p]) r1 S1 /\ reass_pool S1 = reass_pool S /\ ip4_reass p S = match miss with [] => reass_finish a S1 | _ => Some (None, S1) end.
Proof.
  intros He Hperm Hgot I. assert (Hp : p ∈ fs) by (rewrite <- Hperm; apply elem_of_app; right; left). destruct (fs_member p Hp) as (Hok & Hhl & Hkey & _).
  rewrite reass_with_room by (done || (apply (room_for got p miss); [apply He|done])). pose proof (entry_nodup _ _ _ He) as Hnd. destruct He as [E1 E3 E4 E5 E6 E7 E8]. rewrite E1. cbn [match_rd].
  assert (Hmt : IP_ADDRESSES_AND_ID_MATCH (r_iphdr r) (iphdr_of p) = true) by (rewrite <- (match_trans (r_iphdr r) k) by done; done). rewrite Hmt.
  set (S2 := S <| reassdatagrams := hd_rd (iphdr_of p) r :: reassdatagrams S0 |>). destruct (hd_rd_keeps (iphdr_of p) r) as (K1 & K2 & K3 & K4).
  match goal with |- context [reass_queue _ _ _ _ _ ?X] => assert (ES : X = S2) end.
  { unfold S2, hd_rd. destruct (_ && negb _); [pose proof (upd_rd_app (fun r => r <| r_iphdr := iphdr_of p |>) [] r (reassdatagrams S0) Hnd) as Hu; cbn [app] in Hu; by rewrite Hu|]. rewrite <- E1. by destruct S. }
  rewrite ES, <- K1. pose proof (i_P _ _ I) as HP. rewrite E1, Forall_cons in HP. destruct HP as [(W1 & W2 & W3 & W4) _].
  destruct (queue_next got p miss (hd_rd (iphdr_of p) r) S2) as (q & S1 & He1 & Hpl & Hq).
  - split; rewrite ?K1, ?K2, ?K3; try done. rewrite <- (match_trans _ _ k (K4 Hmt)). by rewrite match_sym.
  - done.
  - rewrite K2. intros f Hf. apply W2 in Hf. lia.
  - rewrite K2. intros Hz. rewrite Hz in E6. apply Permutation_nil_l in E6. by destruct got.
  - exists (queue_rd (is_last_of p) (dlen_of p) q (hd_rd (iphdr_of p) r)), S1. split_and!; [exact He1|exact Hpl|exact Hq].
Qed.

(** The fragments that are left, in any order. *)
Lemma reass_rest miss : forall got r S, entry got r S -> got ++ miss ≡ₚ fs -> got <> [] -> miss <> [] -> inv (rd_ok the_datagram) S ->
  exists d S', run_reass (map RFrag miss) S = Some ([d], S') /\ reassdatagrams S' = reassdatagrams S0 /\ inv (rd_ok the_datagram) S'
    /\ exists p, p ∈ fs /\ delivered (rd_ok the_datagram) p d.
Proof.
  induction miss as [|p miss IH]; intros got r S He Hperm Hgot Hne I; [done|]. assert (Hp : p ∈ fs) by (rewrite <- Hperm; apply elem_of_app; right; left).
  destruct (fs_member p Hp) as (Hok & Hhl & Hkey & Hh & _). assert (Iwf : inv rd_wf S) by (destruct I as [I1 I2 I3 I4 I5 I6]; split; try done; eapply Forall_impl; [exact I5|]; by intros ? [? _]).
  destruct (reass_next got p miss r S He Hperm Hgot Iwf) as (r1 & S1 & He1 & Hpl & Hr). destruct (rd_ok_stable the_datagram p Hok Hh) as [N1 N2 N3].
  destruct (ip4_reass_ok (rd_ok the_datagram) p Hok N1 N2 (fun r Hr => rd_wf_flag r (proj1 Hr)) N3 S I) as (out & S' & Hr' & [A1 A2 A3 A4]). cbn [map run_reass]. rewrite Hr'. destruct miss as [|p' miss].
  - rewrite Hr in Hr'. unfold reass_finish in Hr'. rewrite (e_list _ _ _ He1), <- (e_addr _ _ _ He1) in Hr'. cbn [find_rd] in Hr'. rewrite Z.eqb_refl in Hr'. destruct (join_frags _ _ _) as [d|]; [|done]. cbn [head_rd] in Hr'. rewrite Z.eqb_refl in Hr'.
    unfold ip_reass_dequeue_datagram in Hr'. rewrite (e_list _ _ _ He1) in Hr'. cbn [head_rd] in Hr'. rewrite Z.eqb_refl in Hr'. cbn in Hr'. destruct (_ <=? _); [|done]. injection Hr' as <- <-. exists d. eexists. split; [done|].
    split; [done|]. split; [done|]. exists p. split; [done|]. by apply A4.
  - rewrite Hr in Hr'. injection Hr' as <- <-. destruct (IH (got ++ [p]) r1 S1 He1) as (d & S' & -> & H); [by rewrite <- app_assoc|by destruct got|done|done|]. by exists d, S'.
Qed.

Lemma reass_all ord : ord ≡ₚ fs -> exists d S' h, run_reass (map RFrag ord) S0 = Some ([d], S') /\ reassdatagrams S' = reassdatagrams S0
  /\ p_bytes d = h ++ dg /\ IP_ADDRESSES_AND_ID_MATCH h k = true /\ whole_hdr pr dg h /\ p_tot d = 20 + lenz dg /\ 20 <= p_len d.
Proof.
  intros Hperm. assert (Hlen : (2 <= length ord)%nat) by (rewrite Hperm; apply Hfs). destruct ord as [|p [|p2 miss]]; cbn in Hlen; [lia|lia|]. assert (Hp : p ∈ fs) by (rewrite <- Hperm; left).
  destruct (fs_member p Hp) as (Hok & Hhl & Hkey & Hh & _). destruct (rd_ok_stable the_datagram p Hok Hh) as [N1 N2 N3].
  destruct (ip4_reass_ok (rd_ok the_datagram) p Hok N1 N2 (fun r Hr => rd_wf_flag r (proj1 Hr)) N3 S0 HI') as (out & S1' & Hr' & [A1 A2 A3 A4]).
  destruct (reass_first p (p2 :: miss) Hperm) as (r & S1 & He & _ & Hr). rewrite Hr in Hr'. injection Hr' as <- <-.
  destruct (reass_rest (p2 :: miss) [p] r S1 He Hperm ltac:(done) ltac:(done) A1) as (d & S' & Hrun & Hl & _ & x & Hx & Hdel).
  destruct (fs_member x Hx) as (Xok & _ & Xkey & Xh & _). destruct (delivered_whole the_datagram x d pr dg Xok Xh Hdel) as (h & B1 & B2 & B3 & B4 & B5); [rewrite the_datagram_key, match_sym, Xkey; done|].
  exists d, S', h. split_and!; try done.
  - change (map RFrag (p :: p2 :: miss)) with (RFrag p :: map RFrag (p2 :: miss)). cbn [run_reass]. rewrite Hr. by rewrite Hrun.
  - rewrite <- (match_trans h (iphdr_of x)) by done. by rewrite match_sym.
Qed.
End Complete.
