(* ===== verification/Ip4FragOut.v ===== *)
(** * Ip4FragOut: what fragmentation guarantees

    [ip4_frag] sends the packet in consecutive pieces that fit the MTU, each
    with a correct header, provided that the MTU leaves a multiple of 8 bytes
    for data; reassembly gives the packet back. *)

From S2P Require Import Prelude Def Ip4Addr Opts Chksum TcpPcb Ip4Hdr Ip4Frag Ip4FragFacts Ip4Reass.

(** ** Copying *)

(** The data from the cursor on. *)
Definition rem (c : cursor) : list Z := dropz (poff c) (cbytes (cur c)).
Definition cursor_ok (c : cursor) : Prop :=
  0 <= poff c /\ Forall (fun q => lenz q <= 65535) (cur c) /\ match cur c with q :: _ => poff c <= lenz q | [] => poff c = 0 end.

Lemma rem_cons off q l n : 0 <= off <= lenz q -> rem (mk_cursor off (q :: l) n) = dropz off q ++ cbytes l.
Proof. intros H. unfold rem. cbn. rewrite dropz_app by lia. by rewrite (dropz_0 (off - _)) by lia. Qed.

(** The cursor after the last reference. *)
Definition advance (c : cursor) : cursor := mk_cursor (u16 (poff c + newpbuflen c)) (cur c) (newpbuflen c).

(** The next [m] allocations succeed. *)
Definition plenty (m : nat) (al : list bool) : Prop := exists al0, al = repeat true m ++ al0.

Lemma plenty_take m al ok al1 : plenty (S m) al -> take_alloc al = (ok, al1) -> ok = true /\ plenty m al1.
Proof. intros (al0 & ->). cbn. intros [= <- <-]. split; [done|by exists al0]. Qed.

Lemma plenty_le m n al : (m <= n)%nat -> plenty n al -> plenty m al.
Proof. intros H (al0 & ->). exists (repeat true (n - m) ++ al0). rewrite app_assoc, <- repeat_app. do 2 f_equal. lia. Qed.

Lemma frag_copy_ok l : forall fuel left off n al acc, 0 < left <= 65535 -> cursor_ok (mk_cursor off l n) -> left <= lenz (rem (mk_cursor off l n)) -> (length l <= fuel)%nat ->
  exists r al', frag_copy fuel left (mk_cursor off l n) al acc = Some (r, al') /\
    match r with
    | None => forall m, ~ plenty (length l + m) al
    | Some (pieces, c') => (1 <= length (cur c') <= length l)%nat /\ (forall m, plenty (length l + m) al -> plenty (length (cur c') - 1 + m) al') /\ cbytes pieces = cbytes acc ++ takez left (rem (mk_cursor off l n)) /\ cursor_ok (advance c') /\ rem (advance c') = dropz left (rem (mk_cursor off l n))
    end.
Proof.
  induction l as [|q l IH]; intros fuel left off n al acc Hl Hc Hle Hf; [unfold rem in Hle; cbn in Hle; rewrite dropz_nil, lenz_nil in Hle; lia|].
  destruct Hc as (Ho & Hq & Hoq). cbn in Ho, Hq, Hoq. apply Forall_cons in Hq as [Hq Hql]. rewrite rem_cons in Hle |- * by lia. rewrite lenz_app, lenz_dropz in Hle by lia.
  destruct fuel as [|fuel]; [cbn in Hf; lia|]. cbn [frag_copy]. rewrite (proj2 (Z.eqb_neq _ _)) by lia. cbn [cur poff]. rewrite (proj2 (Z.leb_le _ _)) by lia. rewrite (u16_id (lenz q - off)) by zlia.
  assert (Hr0 : rem (mk_cursor 0 l 0) = cbytes l) by (unfold rem; apply dropz_0; cbn; lia). assert (Hr1 : forall m, rem (mk_cursor 0 l m) = cbytes l) by (intros; unfold rem; apply dropz_0; cbn; lia).
  assert (Hc1 : forall m, cursor_ok (mk_cursor 0 l m)) by (intros m; split_and!; cbn; [lia|done|]; destruct l; [done|apply lenz_nonneg]).
  destruct (Z.eqb_spec (Z.min left (lenz q - off)) 0) as [Ez|Ez].
  - rewrite (dropz_all off q) by lia. cbn [app]. destruct (IH fuel left 0 0 al acc Hl (Hc1 0)) as (r & al' & -> & Hr); [rewrite Hr0; lia|cbn in Hf; lia|]. rewrite Hr0 in Hr. exists r, al'. split; [done|].
    destruct r as [[pieces c']|]; cbn [length]; [|intros m Hm; apply (Hr m); by eapply plenty_le; [|exact Hm]; lia]. destruct Hr as (R1 & R2 & R3). split; [lia|]. split; [|done]. intros m Hm. apply R2. eapply plenty_le; [|exact Hm]. lia.
  - destruct (take_alloc al) as [ok al1] eqn:Ea. destruct ok.
    2:{ exists None, al1. split; [done|]. intros m Hm. cbn in Hm. by destruct (plenty_take _ _ _ _ Hm Ea). }
    destruct (decide (left <= lenz q - off)) as [Hs|Hs].
    + replace (Z.min left (lenz q - off)) with left by lia. replace (u16 (left - left)) with 0 by zlia. cbn [negb Z.eqb].
      assert (E0 : frag_copy fuel 0 (mk_cursor off (q :: l) left) al1 (acc ++ [takez left (dropz off q)]) = Some (Some (acc ++ [takez left (dropz off q)], mk_cursor off (q :: l) left), al1)) by (by destruct fuel).
      rewrite E0. eexists _, _. split; [done|]. cbn beta iota. assert (Hld : lenz (dropz off q) = lenz q - off) by (apply lenz_dropz; lia). cbn [cur length]. split_and!; [lia|lia| | | |].
      * intros m Hm. cbn in Hm. destruct (plenty_take _ _ _ _ Hm Ea) as [_ Hm']. eapply plenty_le; [|exact Hm']. lia.
      * unfold cbytes. rewrite concat_app. cbn. rewrite app_nil_r. f_equal. rewrite takez_app by lia. by rewrite (takez_0 (left - _)), app_nil_r by lia.
      * unfold advance. cbn. rewrite u16_id by zlia. split_and!; cbn; [lia|by constructor|lia].
      * unfold advance. cbn [poff cur newpbuflen]. rewrite u16_id by zlia. rewrite rem_cons by lia. rewrite dropz_app by lia. rewrite (dropz_0 (left - _)) by lia. f_equal.
        unfold dropz. rewrite drop_drop. f_equal. lia.
    + replace (Z.min left (lenz q - off)) with (lenz q - off) by lia. set (m := lenz q - off) in *. rewrite (u16_id (left - m)) by zlia. rewrite (proj2 (Z.eqb_neq _ _)) by lia. cbn [negb].
      rewrite (takez_all m (dropz off q)) by (rewrite lenz_dropz; lia). assert (Hld : lenz (dropz off q) = m) by (apply lenz_dropz; lia).
      destruct (IH fuel (left - m) 0 m al1 (acc ++ [dropz off q]) ltac:(lia) (Hc1 m)) as (r & al' & -> & Hr); [rewrite Hr1; lia|cbn in Hf; lia|]. exists r, al'. split; [done|]. rewrite Hr1 in Hr. destruct r as [[pieces c']|].
      2:{ intros k Hk. cbn in Hk. destruct (plenty_take _ _ _ _ Hk Ea) as [_ Hk']. by apply (Hr k). }
      destruct Hr as (R0 & R4 & R1 & R2 & R3). cbn [length]. split_and!; [lia|lia| | |done|].
      * intros k Hk. cbn in Hk. destruct (plenty_take _ _ _ _ Hk Ea) as [_ Hk']. by apply R4.
      * rewrite R1. unfold cbytes. rewrite concat_app. cbn. rewrite app_nil_r, <- app_assoc. f_equal. rewrite takez_app by lia. rewrite (takez_all left (dropz off q)) by lia. by rewrite Hld.
      * rewrite R3. rewrite dropz_app by lia. rewrite (dropz_all left (dropz off q)) by lia. by rewrite Hld.
Qed.

(** ** The fragments *)

(** [sent] are fragments of the data [d] of a packet with header [original], from
    offset [ofo] (in units of 8 bytes) on, [n] bytes each; all of it if [full]. *)
Fixpoint sent_ok (original : list Z) (mf_set : bool) (n ofo : Z) (d : list Z) (full : bool) (sent : list chain) : Prop :=
  match sent with
  | [] => full = true -> d = []
  | c :: sent =>
      d <> [] /\ (exists pieces, c = frag_hdr original ofo (lenz (takez n d)) (lenz d <=? n) mf_set :: pieces /\ cbytes pieces = takez n d)
      /\ sent_ok original mf_set n (ofo + n / 8) (dropz n d) full sent
  end.

Lemma frag_loop_ok original mtu mf_set : 28 <= mtu <= 65535 -> (mtu - 20) mod 8 = 0 -> forall fuel left ofo c al sent,
  lenz (rem c) = left -> 0 <= left <= 65535 -> 0 <= ofo -> ofo * 8 + left <= 65535 -> cursor_ok c -> (Z.to_nat left <= fuel)%nat ->
  exists e new al', frag_loop fuel original mtu ((mtu - 20) / 8) mf_set left ofo c al sent = Some (e, sent ++ new, al')
    /\ (e = ERR_OK \/ e = ERR_MEM) /\ sent_ok original mf_set (mtu - 20) ofo (rem c) (err_ok e) new
    /\ (plenty (2 * Z.to_nat left + length (cur c)) al -> e = ERR_OK).
Proof.
  intros Hmtu Hmod. set (n := mtu - 20) in *. induction fuel as [|fuel IH]; intros left ofo c al sent Hrem Hl Ho Hmax Hc Hf; cbn [frag_loop].
  - assert (left = 0) as -> by lia. exists ERR_OK, [], al. cbn. rewrite app_nil_r. split_and!; auto. intros _. unfold lenz in Hrem. by destruct (rem c).
  - destruct (Z.eqb_spec left 0) as [->|Hl0]; [exists ERR_OK, [], al; rewrite app_nil_r; split_and!; auto; cbn; intros _; unfold lenz in Hrem; by destruct (rem c)|].
    replace (u16 (n / 8 * 8)) with n by (unfold n in *; zlia). set (fs := Z.min left n). assert (Hfs : 0 < fs <= left) by (unfold fs, n in *; lia).
    destruct (take_alloc al) as [ok al1] eqn:Ea. assert (Hd0 : rem c <> []) by (intros E; rewrite E, lenz_nil in Hrem; lia). destruct ok.
    2:{ exists ERR_MEM, [], al1. rewrite app_nil_r. split_and!; auto; [done|]. intros Hpl. replace (2 * Z.to_nat left + length (cur c))%nat with (S (2 * Z.to_nat left + length (cur c) - 1))%nat in Hpl by lia. by destruct (plenty_take _ _ _ _ Hpl Ea). }
    assert (Hcl : forall m, plenty (2 * Z.to_nat left + length (cur c)) al -> (m <= 2 * Z.to_nat left + length (cur c) - 1)%nat -> plenty m al1).
    { intros m Hpl Hm. replace (2 * Z.to_nat left + length (cur c))%nat with (S (2 * Z.to_nat left + length (cur c) - 1))%nat in Hpl by lia. destruct (plenty_take _ _ _ _ Hpl Ea) as [_ Hp]. by eapply plenty_le; [|exact Hp]. }
    destruct c as [off l nb]. destruct (frag_copy_ok l (length l + 1) fs off nb al1 []) as (r & al2 & Hcp & Hr); [lia|done|lia|lia|]. cbn [cur] in *. rewrite Hcp. destruct r as [[pieces c']|].
    2:{ exists ERR_MEM, [], al2. rewrite app_nil_r. split_and!; auto; [done|]. intros Hpl. exfalso. apply (Hr 0%nat). apply Hcl; [done|lia]. }
    destruct Hr as (R0 & Rp & R1 & R2 & R3). fold (advance c'). assert (Et : takez fs (rem (mk_cursor off l nb)) = takez n (rem (mk_cursor off l nb))).
    { unfold fs. destruct (Z.le_gt_cases left n); [|by rewrite Z.min_r by lia]. rewrite Z.min_l by lia. by rewrite !takez_all by lia. }
    assert (Edr : dropz fs (rem (mk_cursor off l nb)) = dropz n (rem (mk_cursor off l nb))).
    { unfold fs. destruct (Z.le_gt_cases left n); [|by rewrite Z.min_r by lia]. rewrite Z.min_l by lia. by rewrite !dropz_all by lia. }
    assert (Hlt : lenz (takez n (rem (mk_cursor off l nb))) = fs) by (rewrite <- Et; apply lenz_takez; lia).
    destruct (Z.le_gt_cases left n) as [Hlast|Hlast].
    + assert (fs = left) as Efs by (unfold fs; lia). replace (u16 (left - fs)) with 0 by zlia.
      assert (E0 : forall o x y s, frag_loop fuel original mtu (n / 8) mf_set 0 o x y s = Some (ERR_OK, s, y)) by (intros; by destruct fuel). rewrite E0.
      eexists _, [_], _. split; [done|]. split; [by left|]. split; [|done]. cbn [sent_ok]. split; [done|]. split.
      * exists pieces. split; [|by rewrite R1, Et]. rewrite Hlt, Hrem. change IP_HLEN with 20. done.
      * intros _. rewrite <- Edr. apply dropz_all. lia.
    + assert (fs = n) as Efs by (unfold fs; lia). rewrite (u16_id (left - fs)) by zlia. assert (Hn8 : n / 8 * 8 = n) by (unfold n in *; lia). rewrite (u16_id (ofo + n / 8)) by (unfold n in *; zlia).
      destruct (IH (left - fs) (ofo + n / 8) (advance c') al2 (sent ++ [frag_hdr original ofo fs (left <=? mtu - IP_HLEN) mf_set :: pieces])) as (e & new & al' & -> & He & Hs & Hp); try lia; [rewrite R3, lenz_dropz by lia; lia|done|].
      eexists e, (_ :: new), al'. split; [by rewrite <- app_assoc|]. split; [done|]. split.
      * cbn [sent_ok]. split; [done|]. split; [exists pieces; split; [rewrite Hlt, Hrem; done|by rewrite R1, Et]|]. by rewrite <- Edr, <- R3.
      * intros Hpl. apply Hp. cbn [advance cur]. assert (Hq : plenty (length (cur c') - 1 + (2 * Z.to_nat (left - fs) + 1)) al2) by (apply Rp, Hcl; [done|lia]). eapply plenty_le; [|exact Hq]. lia.
Qed.

(** ** Headers of fragments *)
Lemma frag_hdr_facts h ofo fs last : lenz h = 20 -> Forall is_u8 h -> 0 <= ofo -> 0 <= fs -> ofo * 8 + fs <= 65515 -> 0 < fs ->
  let h' := frag_hdr h ofo fs last false in
  lenz h' = 20 /\ Forall is_u8 h' /\ inet_chksum 0 h' = 0 /\ IP_ADDRESSES_AND_ID_MATCH h h' = true /\ IPH_HL_BYTES h' = IPH_HL_BYTES h /\ IPH_PROTO h' = IPH_PROTO h
  /\ lwip_ntohs (IPH_LEN h') = fs + 20 /\ IPH_OFFSET_BYTES h' = ofo * 8
  /\ (Z.land (IPH_OFFSET h') (PP_HTONS IP_MF) =? 0) = last
  /\ (ofo <> 0 \/ last = false -> Z.land (IPH_OFFSET h') (PP_HTONS (Z.lor IP_OFFMASK IP_MF)) <> 0)
  /\ IPH_V h' = IPH_V h.
Proof.
  intros Hl Hu Ho Hf Hm Hf0. cbv zeta. unfold frag_hdr. rewrite Z.land_comm, land_offmask, orb_false_r by zlia. rewrite (Z.mod_small ofo) by lia.
  set (tmp := if negb last then Z.lor ofo IP_MF else ofo). assert (Ht : tmp = ofo + (if last then 0 else 8192)).
  { unfold tmp. destruct last; cbn [negb]; [lia|]. change IP_MF with (Z.shiftl 1 13). rewrite Z.lor_comm, lor_shiftl_add by lia. lia. }
  assert (Htr : is_u16 tmp) by (rewrite Ht; destruct last; zlia). pose proof (htons_range tmp Htr) as Hhr. assert (Hlr : is_u16 (u16 (fs + IP_HLEN))) by apply u16_range. pose proof (htons_range _ Hlr) as Hlr'.
  set (h1 := IPH_LEN_SET (IPH_OFFSET_SET h (lwip_htons tmp)) (lwip_htons (u16 (fs + IP_HLEN)))).
  assert (H1 : lenz h1 = 20 /\ Forall is_u8 h1) by (unfold h1, IPH_LEN_SET, IPH_OFFSET_SET; rewrite !lenz_st16; split; [done|by apply st16_u8, st16_u8]). destruct H1 as [H1 H1'].
  assert (Hoff : forall x, IPH_OFFSET (IPH_CHKSUM_SET (IPH_CHKSUM_SET h1 0) x) = lwip_htons tmp) by (intros x; unfold h1; by hdr).
  split_and!.
  - unfold IPH_CHKSUM_SET. by rewrite !lenz_st16.
  - unfold IPH_CHKSUM_SET. by apply st16_u8, st16_u8.
  - by apply hdr_chksum_ok.
  - unfold IP_ADDRESSES_AND_ID_MATCH, h1. hdr. by rewrite !Z.eqb_refl.
  - unfold IPH_HL_BYTES, h1. by hdr.
  - unfold h1. by hdr.
  - unfold h1, lwip_ntohs. hdr. rewrite htons_htons by done. change IP_HLEN with 20. apply u16_id. zlia.
  - unfold IPH_OFFSET_BYTES. rewrite Hoff. unfold lwip_ntohs. rewrite htons_htons, land_offmask by done. rewrite Ht. replace ((ofo + _) mod 8192) with ofo by (destruct last; lia). apply u16_id. zlia.
  - rewrite Hoff, land_mf by done. unfold lwip_ntohs. rewrite htons_htons by done. change IP_MF with (2 ^ 13). rewrite land_pow2, Z.testbit_eqb by lia. rewrite Ht. change (2 ^ 13) with 8192. destruct last.
    + rewrite (Z.div_small (ofo + 0)) by lia. done.
    + replace ((ofo + 8192) / 8192) with 1 by lia. done.
  - intros Hne. rewrite Hoff, offmask_mf. assert (Hpos : 0 < tmp < 16384) by (rewrite Ht; destruct last, Hne as [?|?]; try done; lia).
    rewrite htons_eq by done. change 65343 with (Z.ldiff (Z.ones 16) (Z.shiftl 3 6)). set (x := tmp mod 256 * 256 + tmp / 256). assert (Hx : 0 <= x < 65536) by (unfold x; lia).
    assert (E : Z.land x (Z.ldiff (Z.ones 16) (Z.shiftl 3 6)) = x); [|rewrite E; unfold x; lia]. apply Z.bits_inj'. intros i Hi. rewrite Z.land_spec, Z.ldiff_spec, Z.testbit_ones_nonneg by lia.
    destruct (Z.ltb_spec i 16); [|rewrite andb_false_r; symmetry; apply (Z.bits_above_log2 x i); [lia|]; destruct (Z.eq_dec x 0) as [->|]; [cbn; lia|]; apply Z.log2_lt_pow2; [lia|]; eapply Z.lt_le_trans; [apply Hx|]; change 65536 with (2 ^ 16); apply Z.pow_le_mono_r; lia].
    cbn [andb]. destruct (Z.testbit (Z.shiftl 3 6) i) eqn:Eb; [|by rewrite andb_true_r]. cbn [negb]. rewrite andb_false_r. symmetry. rewrite Z.testbit_eqb by lia.
    assert (Hi2 : i = 6 \/ i = 7). { rewrite Z.shiftl_spec in Eb by lia. assert (0 <= i - 6 < 2) by (destruct (Z.ltb_spec (i - 6) 0); [by rewrite Z.testbit_neg_r in Eb by lia|]; destruct (Z.ltb_spec (i - 6) 2); [lia|]; rewrite Z.bits_above_log2 in Eb by (cbn; lia); done). lia. }
    apply Z.eqb_neq. unfold x. destruct Hi2 as [-> | ->]; [change (2 ^ 6) with 64|change (2 ^ 7) with 128]; lia.
  - unfold h1. by hdr.
Qed.

(** A fragment as it arrives: the same bytes, in buffers of any shape. *)
Record received (c : chain) (q : pkt) : Prop := {
  rc_bytes : p_bytes q = cbytes c;
  rc_ok : pkt_ok q;
  rc_hdr : 20 <= p_len q;
  rc_bufs : lenz (p_bufs q) <= 65535 }.

Lemma received_hdr c q h : received c q -> lenz h = 20 -> (exists x, cbytes c = h ++ x) -> iphdr_of q = h.
Proof.
  intros [R1 R2 R3 R4] Hl (x & Hx). pose proof (iphdr_bytes q R3) as E. rewrite R1, Hx in E. rewrite <- (takez_app_eq 20 h x), E by lia. symmetry. apply takez_app_eq. by rewrite iphdr_len.
Qed.

(** A fragment of a packet with header [h]. *)
Record piece_of (h : list Z) (q : pkt) : Prop := {
  pc_ok : fragment_ok q;
  pc_key : IP_ADDRESSES_AND_ID_MATCH h (iphdr_of q) = true;
  pc_hl : IPH_HL_BYTES (iphdr_of q) = 20;
  pc_proto : IPH_PROTO (iphdr_of q) = IPH_PROTO h;
  pc_v : IPH_V (iphdr_of q) = IPH_V h;
  pc_chk : inet_chksum 0 (iphdr_of q) = 0 }.

(** The fragments of a packet are the fragments of a datagram. *)
Lemma sent_carries h n dg : lenz h = 20 -> Forall is_u8 h -> IPH_HL_BYTES h = 20 -> 8 <= n -> n mod 8 = 0 -> lenz dg <= 65515 -> forall sent fs ofo,
  0 <= ofo -> (ofo = 0 -> n < lenz dg) -> ofo * 8 <= lenz dg -> sent_ok h false n ofo (dropz (ofo * 8) dg) true sent -> Forall2 received sent fs ->
  carries dg (ofo * 8) fs /\ Forall (piece_of h) fs.
Proof.
  intros Hl Hu Hhl Hn Hn8 Hdg. induction sent as [|c sent IH]; intros fs ofo Ho Hfirst Hle Hs Hr.
  - inversion Hr; subst. cbn. split; [|done]. specialize (Hs eq_refl). apply (f_equal lenz) in Hs. rewrite lenz_dropz, lenz_nil in Hs by lia. lia.
  - inversion Hr as [|? q ? fs' Hcq Hr']; subst. destruct Hs as (Hd & (pieces & Hc & Hp) & Hs). set (d := dropz (ofo * 8) dg) in *. assert (Hld : lenz d = lenz dg - ofo * 8) by (apply lenz_dropz; lia).
    assert (Hd0 : 0 < lenz d) by (unfold lenz; destruct d; [done|cbn; lia]). set (fs := lenz (takez n d)) in *. assert (Hfs : fs = Z.min n (lenz d)).
    { unfold fs. destruct (Z.le_gt_cases n (lenz d)); [rewrite lenz_takez by lia; lia|rewrite takez_all by lia; lia]. }
    destruct (frag_hdr_facts h ofo fs (lenz d <=? n) Hl Hu Ho) as (F1 & F2 & F3 & F4 & F5 & F6 & F7 & F8 & F9 & F10 & F11); [lia|lia|lia|]. set (h' := frag_hdr h ofo fs (lenz d <=? n) false) in *.
    assert (Hcb : cbytes c = h' ++ takez n d) by (rewrite Hc; unfold cbytes; cbn; f_equal; exact Hp). assert (Hh : iphdr_of q = h') by (apply (received_hdr c q); [done|done|by eexists]).
    destruct Hcq as [R1 R2 R3 R4]. assert (Ht : p_tot q = 20 + fs) by (rewrite (pk_tot _ R2), R1, Hcb, lenz_app; fold fs; lia).
    assert (Hdd : dropz n d = dropz ((ofo + n / 8) * 8) dg) by (unfold d, dropz; rewrite drop_drop; f_equal; lia).
    assert (Hlast : (lenz d <=? n) = bool_decide (fs' = [])).
    { destruct (Z.leb_spec (lenz d) n) as [Hx|Hx]; symmetry; [apply bool_decide_eq_true|apply bool_decide_eq_false].
      - rewrite (dropz_all n d) in Hs by lia. destruct sent as [|c' sent]; [by inversion Hr'|]. by destruct Hs as [Hs _].
      - intros ->. inversion Hr'; subst. specialize (Hs eq_refl). apply (f_equal lenz) in Hs. rewrite lenz_dropz, lenz_nil in Hs by lia. lia. }
    assert (Hok : fragment_ok q).
    { split; [done|done|rewrite Hh, F7; lia| |done]. rewrite Hh. apply F10. destruct (Z.eq_dec ofo 0) as [E|E]; [right; apply Z.leb_gt; specialize (Hfirst E); lia|by left]. }
    assert (Htail : carries dg (ofo * 8 + (p_tot q - 20)) fs' /\ Forall (piece_of h) fs').
    { destruct (decide (fs' = [])) as [->|Hne].
      - rewrite bool_decide_eq_true_2 in Hlast by done. apply Z.leb_le in Hlast. cbn. split; [lia|constructor].
      - rewrite bool_decide_eq_false_2 in Hlast by done. apply Z.leb_gt in Hlast. replace (ofo * 8 + (p_tot q - 20)) with ((ofo + n / 8) * 8) by lia. apply IH; [lia|lia|lia|by rewrite <- Hdd|done]. }
    destruct Htail as [Htl1 Htl2]. split; [|constructor; [split; rewrite ?Hh; try done; congruence|done]]. cbn [carries]. split_and!; [by rewrite Hh|lia| |unfold is_last_of; rewrite Hh, F9; exact Hlast|done].
    rewrite R1, Hcb. rewrite (dropz_app_eq 20) by lia. unfold slice. fold d. replace (ofo * 8 + (p_tot q - 20) - ofo * 8) with fs by lia.
    destruct (Z.le_gt_cases n (lenz d)); [by replace fs with n by lia|]. by rewrite !takez_all by lia.
Qed.

(** ** The theorems *)

(** A packet that can be fragmented: lengths agree, the header has no options. *)
Record can_frag (p : pkt) : Prop := {
  cf_ok : pkt_ok p;
  cf_len : 20 <= p_len p;
  cf_hl : IPH_HL_BYTES (iphdr_of p) = 20 }.

Lemma can_frag_tot p : can_frag p -> 20 <= p_tot p <= 65535 /\ lenz (dropz 20 (p_bytes p)) = p_tot p - 20.
Proof.
  intros [Hok Hl _]. pose proof (iphdr_bytes p Hl) as E. pose proof (pk_tot _ Hok) as Ht. rewrite E, lenz_app, iphdr_len in Ht by done. pose proof (lenz_nonneg (dropz 20 (p_bytes p))). pose proof (pk_max _ Hok). lia.
Qed.

Lemma frag_start p mtu : can_frag p -> 28 <= mtu <= 65535 -> (mtu - 20) mod 8 = 0 ->
  forall al ofo (mf_set : bool), Z.land (lwip_ntohs (IPH_OFFSET (iphdr_of p))) IP_OFFMASK = ofo -> negb (Z.land (lwip_ntohs (IPH_OFFSET (iphdr_of p))) IP_MF =? 0) = mf_set ->
  ofo * 8 + (p_tot p - 20) <= 65535 ->
  exists e sent al', ip4_frag p mtu al = Some (e, sent, al') /\ (e = ERR_OK \/ e = ERR_MEM)
    /\ sent_ok (iphdr_of p) mf_set (mtu - 20) ofo (dropz 20 (p_bytes p)) (err_ok e) sent
    /\ (plenty (2 * Z.to_nat (p_tot p - 20) + length (p_bufs p)) al -> e = ERR_OK).
Proof.
  intros Hp Hmtu Hmod al ofo mf Eo Em Hmax. pose proof (can_frag_tot p Hp) as [Ht Hd]. destruct Hp as [Hok Hl Hhl]. unfold ip4_frag. rewrite Hhl. change (20 =? IP_HLEN) with true. cbn [negb]. change IP_HLEN with 20. rewrite (proj2 (Z.ltb_ge _ _)) by lia.
  rewrite Eo, Em. rewrite (u16_id (p_tot p - 20)) by zlia. rewrite (Z.quot_div_nonneg (mtu - 20) 8) by lia. rewrite (u16_id ((mtu - 20) / 8)) by zlia.
  assert (Ho : 0 <= ofo) by (subst ofo; apply Z.land_nonneg; right; done).
  assert (Er : rem (mk_cursor 20 (p_chain p) 0) = dropz 20 (p_bytes p)) by done.
  destruct (frag_loop_ok (iphdr_of p) mtu mf Hmtu Hmod (Z.to_nat (p_tot p - 20)) (p_tot p - 20) ofo (mk_cursor 20 (p_chain p) 0) al []) as (e & sent & al' & Hf & He & Hs & Hp); [by rewrite Er|lia|done|done| |lia|].
  - unfold cursor_ok. cbn [poff cur]. pose proof (pk_tot _ Hok) as Htot. unfold p_bytes, p_chain, p_len in *. destruct (p_bufs p) as [|b l]; [cbn in Hl; lia|]. split; [lia|]. split; [|cbn; lia].
    assert (Hb : Forall (fun q => lenz q <= lenz (cbytes (map b_data (b :: l)))) (map b_data (b :: l))).
    { generalize (map b_data (b :: l)). clear. intros c. apply Forall_forall. intros q Hq. apply list_elem_of_split in Hq as (c1 & c2 & ->). unfold cbytes. rewrite concat_app. cbn. rewrite !lenz_app. pose proof (lenz_nonneg (concat c1)). pose proof (lenz_nonneg (concat c2)). lia. }
    eapply Forall_impl; [exact Hb|]. cbn beta. intros; lia.
  - exists e, sent, al'. rewrite Er in Hs. split_and!; try done. intros Hpl. apply Hp. cbn [cur]. unfold p_chain. by rewrite length_map.
Qed.

(** [ip4_frag] cuts the data of a packet into consecutive pieces of
    [mtu - 20] bytes (the last one may be shorter), sends each behind a header
    with its offset, its length, the right MF flag and a correct checksum, in a
    packet no longer than the MTU; it stops early, with ERR_MEM, only if memory
    runs out. *)
Theorem ip4_frag_cuts p mtu al : can_frag p -> 28 <= mtu <= 65535 -> (mtu - 20) mod 8 = 0 ->
  Z.land (lwip_ntohs (IPH_OFFSET (iphdr_of p))) IP_OFFMASK = 0 -> Z.land (lwip_ntohs (IPH_OFFSET (iphdr_of p))) IP_MF = 0 ->
  exists e sent al', ip4_frag p mtu al = Some (e, sent, al')
    /\ sent_ok (iphdr_of p) false (mtu - 20) 0 (dropz 20 (p_bytes p)) (err_ok e) sent
    /\ Forall (fun c => lenz (cbytes c) <= mtu /\ inet_chksum 0 (takez 20 (cbytes c)) = 0) sent
    /\ (e = ERR_OK \/ e = ERR_MEM) /\ (plenty (2 * Z.to_nat (p_tot p - 20) + length (p_bufs p)) al -> e = ERR_OK).
Proof.
  intros Hp Hmtu Hmod Ho Hm. pose proof (can_frag_tot p Hp) as [Ht Hd]. destruct (frag_start p mtu Hp Hmtu Hmod al 0 false Ho ltac:(by rewrite Hm) ltac:(lia)) as (e & sent & al' & Hf & He & Hs & Hpl).
  exists e, sent, al'. split_and!; try done. assert (Hu : lenz (iphdr_of p) = 20 /\ Forall is_u8 (iphdr_of p)) by (split; [apply iphdr_len, Hp|apply iphdr_u8, (pk_u8 _ (cf_ok _ Hp))]). destruct Hu as [Hu1 Hu2].
  clear Hf Hpl. assert (Hlen : 0 * 8 + lenz (dropz 20 (p_bytes p)) <= 65515) by lia. revert Hlen Hs. generalize (dropz 20 (p_bytes p)). assert (H0 : 0 <= 0) by lia. revert H0. generalize 0 at 2 3 4 as ofo. induction sent as [|c sent IH]; intros ofo Hofo d Hlen Hs; [constructor|].
  destruct Hs as (Hd0 & (pieces & -> & Hpc) & Hs). assert (0 < lenz d) by (unfold lenz; destruct d; [done|cbn; lia]).
  assert (Hfs : lenz (takez (mtu - 20) d) = Z.min (mtu - 20) (lenz d)) by (destruct (Z.le_gt_cases (mtu - 20) (lenz d)); [rewrite lenz_takez by lia; lia|rewrite takez_all by lia; lia]).
  destruct (frag_hdr_facts (iphdr_of p) ofo (lenz (takez (mtu - 20) d)) (lenz d <=? mtu - 20) Hu1 Hu2) as (F1 & _ & F3 & _); [lia|lia|lia|lia|]. constructor.
  - unfold cbytes in *. cbn [concat]. split; [rewrite lenz_app, F1, Hpc, Hfs; lia|by rewrite takez_app_eq by by rewrite F1].
  - destruct (Z.le_gt_cases (lenz d) (mtu - 20)) as [Hle|Hgt]; [rewrite (dropz_all _ d) in Hs by lia; destruct sent as [|? ?]; [constructor|by destruct Hs]|]. apply (IH (ofo + (mtu - 20) / 8)) in Hs; [done|lia|]. rewrite lenz_dropz by lia. lia.
Qed.

(** The fragments, as they are received. *)
Lemma frag_fragments p mtu al : can_frag p -> 28 <= mtu <= 65535 -> (mtu - 20) mod 8 = 0 -> mtu < p_tot p ->
  Z.land (lwip_ntohs (IPH_OFFSET (iphdr_of p))) IP_OFFMASK = 0 -> Z.land (lwip_ntohs (IPH_OFFSET (iphdr_of p))) IP_MF = 0 ->
  plenty (2 * Z.to_nat (p_tot p - 20) + length (p_bufs p)) al ->
  exists sent al', ip4_frag p mtu al = Some (ERR_OK, sent, al') /\
  forall fs, Forall2 received sent fs -> fragments (iphdr_of p) (dropz 20 (p_bytes p)) fs /\ Forall (piece_of (iphdr_of p)) fs.
Proof.
  intros Hp Hmtu Hmod Hbig Ho Hm Hpl. pose proof (can_frag_tot p Hp) as [Ht Hd]. destruct (frag_start p mtu Hp Hmtu Hmod al 0 false Ho ltac:(by rewrite Hm) ltac:(lia)) as (e & sent & al' & Hf & He & Hs & Hok).
  rewrite (Hok Hpl) in *. exists sent, al'. split; [done|]. intros fs Hr. set (dg := dropz 20 (p_bytes p)) in *.
  assert (Hu : lenz (iphdr_of p) = 20 /\ Forall is_u8 (iphdr_of p)) by (split; [apply iphdr_len, Hp|apply iphdr_u8, (pk_u8 _ (cf_ok _ Hp))]). destruct Hu as [Hu1 Hu2].
  destruct (sent_carries (iphdr_of p) (mtu - 20) dg Hu1 Hu2 (cf_hl _ Hp) ltac:(lia) Hmod ltac:(lia) sent fs 0) as [Hc Hall]; [lia|lia|lia|done|done|]. split; [|done].
  split; [eapply Forall_impl; [exact Hall|]; intros q []; naive_solver|eapply Forall_impl; [exact Hall|]; intros q []; naive_solver|lia| |done].
  destruct fs as [|q [|q' fs]]; cbn in Hc |- *; [lia| |lia]. destruct Hc as (_ & _ & _ & _ & Hc). inversion Hr as [|c ? sent' ? Hcq Hr']; subst. inversion Hr'; subst. destruct Hs as (_ & (pieces & -> & Hpc) & Hs).
  specialize (Hs eq_refl). apply (f_equal lenz) in Hs. rewrite lenz_dropz, lenz_nil in Hs by lia. lia.
Qed.

Lemma nbufs_frags fs : nbufs (map fr_of fs) = lenz (concat (map p_bufs fs)).
Proof. unfold nbufs, frag_addrs. induction fs as [|q fs IH]; [done|]. cbn. rewrite !lenz_app, IH. unfold p_addrs, lenz. by rewrite length_map. Qed.

(** Fragmentation followed by reassembly is the identity: the fragments
    [ip4_frag] makes of a packet larger than the MTU, received in any order and
    in buffers of any shape (at most 10 of them), give exactly one packet, when
    the last one arrives, with the same data, protocol, addresses and
    identification. *)
Theorem frag_reass_roundtrip p mtu al a pl : can_frag p -> 28 <= mtu <= 65535 -> (mtu - 20) mod 8 = 0 -> mtu < p_tot p ->
  Z.land (lwip_ntohs (IPH_OFFSET (iphdr_of p))) IP_OFFMASK = 0 -> Z.land (lwip_ntohs (IPH_OFFSET (iphdr_of p))) IP_MF = 0 ->
  plenty (2 * Z.to_nat (p_tot p - 20) + length (p_bufs p)) al -> NoDup (a :: pl) -> 0 ∉ a :: pl ->
  exists sent al', ip4_frag p mtu al = Some (ERR_OK, sent, al') /\
  forall fs ord, Forall2 received sent fs -> ord ≡ₚ fs -> lenz (concat (map p_bufs fs)) <= IP_REASS_MAX_PBUFS ->
  exists d S h, run_reass (map RFrag ord) (reass_init (a :: pl)) = Some ([d], S) /\ reassdatagrams S = []
    /\ p_bytes d = h ++ dropz 20 (p_bytes p) /\ IP_ADDRESSES_AND_ID_MATCH h (iphdr_of p) = true /\ whole_hdr (IPH_PROTO (iphdr_of p)) (dropz 20 (p_bytes p)) h.
Proof.
  intros Hp Hmtu Hmod Hbig Ho Hm Hpl Hnd Hz. destruct (frag_fragments p mtu al Hp Hmtu Hmod Hbig Ho Hm Hpl) as (sent & al' & Hf & Hrc). exists sent, al'. split; [done|]. intros fs ord Hr Hord Hroom. destruct (Hrc fs Hr) as [Hfs Hall].
  destruct (reass_all (iphdr_of p) (dropz 20 (p_bytes p)) (IPH_PROTO (iphdr_of p)) fs (reass_init (a :: pl)) a pl Hfs) with (ord := ord) as (d & S & h & H1 & H2 & H3 & H4 & H5 & _); [eapply Forall_impl; [exact Hall|]; by intros q []|constructor| |done|by apply init_inv|done|].
  - cbn. rewrite nbufs_frags. lia.
  - exists d, S, h. split_and!; done.
Qed.

(** With no room for data the loop makes no progress: it sends fragments
    without data for as long as there is memory. *)
Lemma frag_loop_stuck original mtu mf_set left m : 0 < left <= 65535 -> forall c fuel ofo sent, (m < fuel)%nat ->
  exists new, frag_loop fuel original mtu 0 mf_set left ofo c (repeat true m) sent = Some (ERR_MEM, sent ++ new, [])
    /\ length new = m /\ Forall (fun f => exists h, f = [h]) new.
Proof.
  intros Hl. induction m as [|m IH]; intros c fuel ofo sent Hf; (destruct fuel as [|fuel]; [lia|]); cbn [frag_loop repeat take_alloc]; rewrite (proj2 (Z.eqb_neq _ _)) by lia.
  - exists []. by rewrite app_nil_r.
  - change (u16 (0 * 8)) with 0. rewrite (Z.min_r left 0) by lia. assert (E : forall k, frag_copy k 0 c (repeat true m) [] = Some (Some ([], c), repeat true m)) by (intros k; by destruct k). rewrite E.
    rewrite (u16_id (left - 0)), Z.sub_0_r by zlia. match goal with |- context [frag_loop _ _ _ _ _ _ ?o ?c ?al (sent ++ [?f])] => destruct (IH c fuel o (sent ++ [f]) ltac:(lia)) as (new & -> & Hn & Hf'); exists (f :: new) end.
    split; [by rewrite <- app_assoc|]. split; [cbn; by rewrite Hn|]. constructor; [by eexists|done].
Qed.

(** With an MTU from 20 to 27, less than a header and 8 bytes, the loop of
    [ip4_frag] never gets to the data: it sends as many fragments without data
    as buffers can be allocated, and then returns ERR_MEM.  (The bound on the
    number of allocations is the model's fuel.) *)
Theorem ip4_frag_small_mtu p mtu m : can_frag p -> 20 <= mtu < 28 -> Z.of_nat m < p_tot p - 20 ->
  exists sent, ip4_frag p mtu (repeat true m) = Some (ERR_MEM, sent, []) /\ length sent = m /\ Forall (fun f => exists h, f = [h]) sent.
Proof.
  intros Hp Hmtu Hm. pose proof (can_frag_tot p Hp) as [Ht _]. destruct Hp as [Hok Hl Hhl]. unfold ip4_frag. rewrite Hhl. change (20 =? IP_HLEN) with true. cbn [negb]. change IP_HLEN with 20. rewrite (proj2 (Z.ltb_ge _ _)) by lia.
  rewrite (u16_id (p_tot p - 20)) by zlia. replace (u16 (Z.quot (mtu - 20) 8)) with 0 by (rewrite Z.quot_div_nonneg, Z.div_small by lia; done).
  eapply frag_loop_stuck; lia.
Qed.
