(* ===== verification/Ip4FragProps.v ===== *)
(** * Ip4FragProps: fragments, examples and limits

    Concrete runs that meet the hypotheses of the theorems about fragments, and
    two runs that show where the code does less than it means to. *)

From S2P Require Import Prelude Def Ip4Addr Opts Chksum TcpPcb Ip4Hdr Ip4Frag Ip4FragFacts Ip4Reass Ip4FragOut.

(** ** An example packet: 44 bytes of TCP in two buffers *)
Definition demo_hdr : list Z := [69; 0; 0; 64; 18; 52; 0; 0; 64; 6; 0; 0; 10; 0; 0; 2; 10; 0; 0; 3].
Definition demo_data (n : nat) : list Z := map Z.of_nat (seq 0 n).
Definition demo_pkt : pkt := mk_pkt 64 [mk_buf 1 (demo_hdr ++ takez 10 (demo_data 44)); mk_buf 2 (dropz 10 (demo_data 44))] [].

(** What [ip4_frag] sends, as packets in single buffers from address [a] on. *)
Definition demo_recv (a : Z) (sent : list chain) : list pkt :=
  zip_with (fun i c => mk_pkt (lenz (cbytes c)) [mk_buf (a + Z.of_nat i) (cbytes c)] []) (seq 0 (length sent)) sent.
Definition demo_sent (p : pkt) (mtu : Z) : list chain := match ip4_frag p mtu (repeat true 200) with Some (_, sent, _) => sent | None => [] end.
Definition demo_frags : list pkt := Eval vm_compute in demo_recv 10 (demo_sent demo_pkt 36).

(** Facts about concrete packets, by evaluation. *)
Lemma u8s_b l : forallb (fun x => (0 <=? x) && (x <? 256)) l = true -> Forall is_u8 l.
Proof. rewrite forallb_forall. intros H. apply Forall_forall. intros x Hx. apply list_elem_of_In in Hx. specialize (H x Hx). unfold is_u8. lia. Qed.
Ltac u8s := apply u8s_b; vm_compute; reflexivity.
Ltac concrete_pkt := split; [reflexivity|discriminate|vm_compute; discriminate|u8s].

Lemma demo_can_frag : can_frag demo_pkt.
Proof. split; [concrete_pkt|vm_compute; discriminate|reflexivity]. Qed.

Lemma demo_frags_ok : Forall fragment_ok demo_frags.
Proof. unfold demo_frags. apply Forall_cons; split; [split; [concrete_pkt|vm_compute; discriminate|reflexivity|vm_compute; discriminate|vm_compute; discriminate]|]. repeat (apply Forall_cons; split; [split; [concrete_pkt|vm_compute; discriminate|reflexivity|vm_compute; discriminate|vm_compute; discriminate]|]). constructor. Qed.

(** The three fragments in reverse order, the first of them twice, with a tick
    of the timer in between. *)
Definition demo_ops : list reass_op := match demo_frags with [a; b; c] => [RFrag c; RTmr; RFrag a; RFrag a; RFrag b] | _ => [] end.

Lemma demo_ops_frag p : RFrag p ∈ demo_ops -> p ∈ demo_frags.
Proof. unfold demo_ops, demo_frags. intros H. rewrite !elem_of_cons, elem_of_nil in H. rewrite !elem_of_cons, elem_of_nil. destruct H as [[= ->]|[?|[[= ->]|[[= ->]|[[= ->]|?]]]]]; try discriminate; try contradiction; auto. Qed.

Definition demo_datagrams (src dest id : Z) : option (Z * list Z) :=
  if (src =? IPH_SRC demo_hdr) && (dest =? IPH_DEST demo_hdr) && (id =? IPH_ID demo_hdr) then Some (6, demo_data 44) else None.

Lemma demo_honest : Forall (honest demo_datagrams) demo_frags.
Proof.
  repeat (apply Forall_cons; split; [intros pr d E; vm_compute in E; injection E as <- <-; vm_compute; intuition congruence|]). constructor.
Qed.

Lemma reass_safe_witness : exists outs S, run_reass demo_ops (reass_init [7; 8]) = Some (outs, S) /\ length outs = 1%nat /\ ip_reass_pbufcount S = 0 /\ arrived demo_ops ≡ₚ freed S ++ delivered_addrs outs.
Proof.
  destruct (reass_safe [7; 8] demo_ops) as (outs & S & E & H1 & H2 & _).
  - apply (bool_decide_unpack _). reflexivity.
  - apply (bool_decide_unpack _). reflexivity.
  - intros p Hp. pose proof demo_frags_ok as H. rewrite Forall_forall in H. apply H, demo_ops_frag, Hp.
  - exists outs, S. split; [exact E|]. vm_compute in E. injection E as <- <-. split_and!; [reflexivity|reflexivity|exact H1].
Defined.

Lemma reass_delivers_datagram_witness : exists outs S, run_reass demo_ops (reass_init [7; 8]) = Some (outs, S) /\ exists d h, outs = [d] /\ p_bytes d = h ++ demo_data 44.
Proof.
  destruct (reass_delivers_datagram demo_datagrams [7; 8] demo_ops) as (outs & S & E & H).
  - apply (bool_decide_unpack _). reflexivity.
  - apply (bool_decide_unpack _). reflexivity.
  - intros p Hp. apply demo_ops_frag in Hp. pose proof demo_frags_ok as H1. pose proof demo_honest as H2. rewrite Forall_forall in H1, H2. split; [apply H1, Hp|apply H2, Hp].
  - exists outs, S. split; [exact E|]. vm_compute in E. injection E as <- <-. apply Forall_cons in H as [[_ Hx] _]. destruct (Hx 6 (demo_data 44)) as (Hb & _); [vm_compute; reflexivity|].
    eexists _, _. split; [reflexivity|exact Hb].
Defined.

Lemma ip4_frag_cuts_witness : exists e sent al', ip4_frag demo_pkt 36 (repeat true 200) = Some (e, sent, al') /\ e = ERR_OK /\ length sent = 3%nat
  /\ sent_ok (iphdr_of demo_pkt) false 16 0 (demo_data 44) true sent.
Proof.
  destruct (ip4_frag_cuts demo_pkt 36 (repeat true 200)) as (e & sent & al' & E & H & _).
  - exact demo_can_frag.
  - lia.
  - reflexivity.
  - reflexivity.
  - reflexivity.
  - exists e, sent, al'. split; [exact E|]. assert (He : e = ERR_OK /\ length sent = 3%nat) by (vm_compute in E; injection E as <- <- _; split; reflexivity). destruct He as [-> Hl]. split_and!; [reflexivity|exact Hl|exact H].
Defined.

Lemma frag_reass_roundtrip_witness : exists d S h, run_reass (map RFrag (rev demo_frags)) (reass_init [7; 8]) = Some ([d], S) /\ p_bytes d = h ++ demo_data 44.
Proof.
  destruct (frag_reass_roundtrip demo_pkt 36 (repeat true 200) 7 [8]) as (sent & al' & E & H).
  - exact demo_can_frag.
  - lia.
  - reflexivity.
  - reflexivity.
  - reflexivity.
  - reflexivity.
  - exists (repeat true 110). reflexivity.
  - apply (bool_decide_unpack _). reflexivity.
  - apply (bool_decide_unpack _). reflexivity.
  - destruct (H demo_frags (rev demo_frags)) as (d & S & h & H1 & _ & H2 & _).
    + vm_compute in E. injection E as <- _. repeat constructor; try reflexivity; try discriminate; try (vm_compute; discriminate); try u8s.
    + symmetry. apply Permutation_rev.
    + vm_compute. discriminate.
    + exists d, S, h. split; [exact H1|exact H2].
Defined.

Lemma ip4_frag_small_mtu_witness : exists sent, ip4_frag demo_pkt 27 (repeat true 30) = Some (ERR_MEM, sent, []) /\ length sent = 30%nat.
Proof.
  destruct (ip4_frag_small_mtu demo_pkt 27 30) as (sent & H1 & H2 & _).
  - exact demo_can_frag.
  - lia.
  - vm_compute. reflexivity.
  - exists sent. split; [exact H1|exact H2].
Defined.

(** ** Limits *)

(** A packet with [n] bytes of data in one buffer. *)
Definition one_buf (n : nat) : pkt := mk_pkt (20 + Z.of_nat n) [mk_buf 1 (demo_hdr ++ demo_data n)] [].

(** When [mtu - 20] is not a multiple of 8, [ip4_frag] compares what is left
    with [mtu - 20] to find the last fragment although a fragment carries less:
    the MF flag is cleared one fragment too early.  With an MTU of 39, 35 bytes
    are sent as 16, 16 and 3 bytes, the second and the third both marked as the
    last, and the receiver of the first two delivers a datagram of 32 bytes. *)
Theorem frag_unaligned_mtu_truncates : exists sent al', ip4_frag (one_buf 35) 39 (repeat true 200) = Some (ERR_OK, sent, al')
  /\ map is_last_of (demo_recv 10 sent) = [false; true; true]
  /\ exists d S, run_reass (map RFrag (demo_recv 10 sent)) (reass_init [7; 8]) = Some ([d], S) /\ dropz 20 (p_bytes d) = demo_data 32 /\ length (reassdatagrams S) = 1%nat.
Proof. eexists _, _. split; [vm_compute; reflexivity|]. split; [vm_compute; reflexivity|]. eexists _, _. split; [vm_compute; reflexivity|]. split; vm_compute; reflexivity. Qed.

(** A fragment of [n] bytes at offset [off] with or without the MF flag. *)
Definition any_frag (a off n : Z) (more : bool) : pkt :=
  mk_pkt (20 + n) [mk_buf a (frag_hdr demo_hdr (off / 8) n (negb more) false ++ repeat 0 (Z.to_nat n))] [].

(** Data behind the end that the last fragment declares is not refused: with
    bytes 0-8 and 16-24 queued, a last fragment of bytes 8-16 completes a packet
    whose header says 36 bytes and which has 44. *)
Theorem reass_accepts_data_beyond_end : exists d S,
  run_reass (map RFrag [any_frag 1 0 8 true; any_frag 2 16 8 true; any_frag 3 8 8 false]) (reass_init [7]) = Some ([d], S)
  /\ lwip_ntohs (IPH_LEN (iphdr_of d)) = 36 /\ p_tot d = 44.
Proof. eexists _, _. split; [vm_compute; reflexivity|]. split; vm_compute; reflexivity. Qed.
