(* ===== verification/Raw.v ===== *)
(** * Raw: raw IP sockets, src/Sources/Lwip/src/core/raw.c

    The raw pcbs and every operation on them but the sending ones, which are in
    Ip4Out.  [raw_pcbs] is a list of pcbs that carry their addresses.  The
    receive callback of the application is a parameter: it says for the pcb's
    [recv_arg], the pcb, the packet and the source whether it eats the packet,
    and it does not call the raw API.  TunForge itself opens no raw pcb. *)

From S2P Require Import Prelude Ip4Addr Opts TcpPcb Ip4Hdr.

Definition RAW_FLAGS_CONNECTED : Z := 1.
Definition RAW_FLAGS_HDRINCL : Z := 2.
Definition RAW_TTL : Z := 255.

(** ** Data *)
Record raw_pcb := mk_raw_pcb {
  w_addr : Z;
  w_local_ip : Z; w_remote_ip : Z; w_netif_idx : Z; w_so_options : Z; w_tos : Z; w_ttl : Z;
  w_protocol : Z; w_flags : Z;
  (** [recv] is not NULL *)
  w_recv : bool; w_recv_arg : Z }.
#[export] Instance eta_raw_pcb : Eta raw_pcb := fun w =>
  mk_raw_pcb (w_addr w) (w_local_ip w) (w_remote_ip w) (w_netif_idx w) (w_so_options w) (w_tos w) (w_ttl w) (w_protocol w) (w_flags w) (w_recv w) (w_recv_arg w).

Record raw_st := mk_raw_st {
  raw_pcbs : list raw_pcb;
  (** free elements of [MEMP_RAW_PCB] *)
  raw_pool : list Z }.
#[export] Instance eta_raw_st : Eta raw_st := fun R => mk_raw_st (raw_pcbs R) (raw_pool R).

Inductive raw_input_state_t := RAW_INPUT_NONE | RAW_INPUT_EATEN | RAW_INPUT_DELIVERED.

(** What [raw_input] reads of the packet's context: the addresses of its header,
    the index of the interface it came in on and the test for broadcasts on the
    interface that accepted it. *)
Record raw_ctx := mk_raw_ctx { x_src : Z; x_dest : Z; x_input_idx : Z; x_netif : netif_addr }.

(** ** The operations *)
Definition upd_raw (a : Z) (f : raw_pcb -> raw_pcb) (R : raw_st) : raw_st :=
  R <| raw_pcbs := map (fun w => if w_addr w =? a then f w else w) (raw_pcbs R) |>.

(** The new pcb's address, 0 when there is none. *)
Definition raw_new (proto : Z) (R : raw_st) : Z * raw_st :=
  match raw_pool R with
  | a :: l => (a, mk_raw_st (mk_raw_pcb a 0 0 0 0 0 RAW_TTL proto 0 false 0 :: raw_pcbs R) l)
  | [] => (0, R)
  end.
Definition raw_new_ip_type (type proto : Z) (R : raw_st) : Z * raw_st := raw_new proto R.

(** The walk to the predecessor of [a]. *)
Fixpoint raw_unlink (a : Z) (l : list raw_pcb) : list raw_pcb :=
  match l with [] => [] | w :: l => if w_addr w =? a then l else w :: raw_unlink a l end.
Definition raw_remove (a : Z) (R : raw_st) : raw_st :=
  mk_raw_st (raw_unlink a (raw_pcbs R)) (a :: raw_pool R).

(** [ipaddr] is [None] for NULL. *)
Definition raw_bind (a : Z) (ipaddr : option Z) (R : raw_st) : err_t * raw_st :=
  match ipaddr with
  | Some ip => if a =? 0 then (ERR_VAL, R) else (ERR_OK, upd_raw a (fun w => w <| w_local_ip := ip |>) R)
  | None => (ERR_VAL, R)
  end.
Definition raw_bind_netif (a netif_idx : Z) (R : raw_st) : raw_st :=
  upd_raw a (fun w => w <| w_netif_idx := netif_idx |>) R.
Definition raw_connect (a : Z) (ipaddr : option Z) (R : raw_st) : err_t * raw_st :=
  match ipaddr with
  | Some ip =>
      if a =? 0 then (ERR_VAL, R)
      else (ERR_OK, upd_raw a (fun w => w <| w_remote_ip := ip |> <| w_flags := u8 (Z.lor (w_flags w) RAW_FLAGS_CONNECTED) |>) R)
  | None => (ERR_VAL, R)
  end.
Definition raw_disconnect (a : Z) (R : raw_st) : raw_st :=
  upd_raw a (fun w => w <| w_remote_ip := IPADDR_ANY |> <| w_netif_idx := 0 |>
                        <| w_flags := Z.land (w_flags w) (255 - RAW_FLAGS_CONNECTED) |>) R.
Definition raw_recv (a : Z) (recv : bool) (recv_arg : Z) (R : raw_st) : raw_st :=
  upd_raw a (fun w => w <| w_recv := recv |> <| w_recv_arg := recv_arg |>) R.

Definition ip_addr_isany (a : option Z) : bool := match a with Some x => x =? IPADDR_ANY | None => true end.

Definition raw_netif_ip_addr_changed (old_addr new_addr : option Z) (R : raw_st) : raw_st :=
  match old_addr, new_addr with
  | Some old, Some nw =>
      if negb (ip_addr_isany old_addr) && negb (ip_addr_isany new_addr) then
        R <| raw_pcbs := map (fun w => if w_local_ip w =? old then w <| w_local_ip := nw |> else w) (raw_pcbs R) |>
      else R
  | _, _ => R
  end.

(** ** Input *)
Definition raw_input_local_match (w : raw_pcb) (broadcast : bool) (x : raw_ctx) : bool :=
  if negb (w_netif_idx w =? 0) && negb (w_netif_idx w =? x_input_idx x) then false
  else if broadcast then w_local_ip w =? IPADDR_ANY
  else (w_local_ip w =? IPADDR_ANY) || (w_local_ip w =? x_dest x).

Section Input.
Variable recv : Z -> Z -> pkt -> Z -> bool.

(** [done] are the pcbs passed, in the list's order; the pcbs whose callback ran
    are returned. *)
Fixpoint raw_input_loop (proto : Z) (broadcast : bool) (x : raw_ctx) (p : pkt) (done l : list raw_pcb) (ret : raw_input_state_t)
  : raw_input_state_t * list Z * list raw_pcb :=
  match l with
  | [] => (ret, [], done)
  | w :: l =>
      if (w_protocol w =? proto) && raw_input_local_match w broadcast x
         && (negb (flag_set (w_flags w) RAW_FLAGS_CONNECTED) || (w_remote_ip w =? x_src x)) && w_recv w then
        if recv (w_recv_arg w) (w_addr w) p (x_src x) then (RAW_INPUT_EATEN, [w_addr w], w :: done ++ l)
        else let '(r, cs, l) := raw_input_loop proto broadcast x p (done ++ [w]) l RAW_INPUT_DELIVERED in (r, w_addr w :: cs, l)
      else raw_input_loop proto broadcast x p (done ++ [w]) l ret
  end.

Definition raw_input (p : pkt) (x : raw_ctx) (R : raw_st) : raw_input_state_t * list Z * raw_st :=
  let broadcast := ip4_addr_isbroadcast_u32 (x_dest x) (x_netif x) in
  let proto := IPH_PROTO (iphdr_of p) in
  let '(r, cs, l) := raw_input_loop proto broadcast x p [] (raw_pcbs R) RAW_INPUT_NONE in
  (r, cs, R <| raw_pcbs := l |>).

(** ** What [raw_input] guarantees *)

(** The pcb wants the packet. *)
Definition raw_wants (p : pkt) (x : raw_ctx) (w : raw_pcb) : bool :=
  (w_protocol w =? IPH_PROTO (iphdr_of p)) && raw_input_local_match w (ip4_addr_isbroadcast_u32 (x_dest x) (x_netif x)) x
  && (negb (flag_set (w_flags w) RAW_FLAGS_CONNECTED) || (w_remote_ip w =? x_src x)) && w_recv w.

Definition raw_eats (p : pkt) (x : raw_ctx) (w : raw_pcb) : bool := raw_wants p x w && recv (w_recv_arg w) (w_addr w) p (x_src x).

(** The pcbs up to the first one that satisfies [f], which is the boolean's
    witness. *)
Fixpoint upto (f : raw_pcb -> bool) (l : list raw_pcb) : list raw_pcb :=
  match l with [] => [] | w :: l => w :: if f w then [] else upto f l end.

Lemma raw_input_loop_ok p x l : forall done ret,
  exists r l', raw_input_loop (IPH_PROTO (iphdr_of p)) (ip4_addr_isbroadcast_u32 (x_dest x) (x_netif x)) x p done l ret
    = (r, map w_addr (filter (raw_wants p x) (upto (raw_eats p x) l)), l')
  /\ l' ≡ₚ done ++ l /\ (existsb (raw_eats p x) l = false -> l' = done ++ l)
  /\ r = (if existsb (raw_eats p x) l then RAW_INPUT_EATEN else if existsb (raw_wants p x) l then RAW_INPUT_DELIVERED else ret).
Proof.
  induction l as [|w l IH]; intros done ret; cbn [raw_input_loop upto existsb]; [exists ret, done; rewrite app_nil_r; by split_and!|].
  fold (raw_wants p x w). assert (Ee : raw_eats p x w = raw_wants p x w && recv (w_recv_arg w) (w_addr w) p (x_src x)) by done. rewrite Ee. destruct (raw_wants p x w) eqn:Ew; cbn [andb orb].
  - destruct (recv _ _ _ _) eqn:Er; cbn [orb].
    + eexists _, _. split; [|split; [apply Permutation_middle|done]]. rewrite filter_cons_True by by rewrite Ew. by rewrite filter_nil.
    + destruct (IH (done ++ [w]) RAW_INPUT_DELIVERED) as (r & l' & -> & H1 & H2 & H3). exists r, l'. split; [rewrite filter_cons_True by (by rewrite Ew); reflexivity|]. rewrite <- app_assoc in H1, H2. split_and!; [done|done|].
      rewrite H3. destruct (existsb _ l); [done|]. by destruct (existsb _ l).
  - destruct (IH (done ++ [w]) ret) as (r & l' & -> & H1 & H2 & H3). exists r, l'. split; [rewrite filter_cons_False by (rewrite Ew; by intros []); reflexivity|]. rewrite <- app_assoc in H1, H2. by split_and!.
Qed.

(** The callbacks that run are those of the pcbs that want the packet, in the
    list's order, up to the first that eats it, and that one moves to the front;
    no pcb is lost. *)
Theorem raw_input_ok p x R : exists r R', raw_input p x R = (r, map w_addr (filter (raw_wants p x) (upto (raw_eats p x) (raw_pcbs R))), R')
  /\ raw_pcbs R' ≡ₚ raw_pcbs R /\ raw_pool R' = raw_pool R /\ (r <> RAW_INPUT_EATEN -> R' = R)
  /\ (r = RAW_INPUT_EATEN <-> existsb (raw_eats p x) (raw_pcbs R) = true)
  /\ (r = RAW_INPUT_NONE <-> existsb (raw_wants p x) (raw_pcbs R) = false).
Proof.
  unfold raw_input. destruct (raw_input_loop_ok p x (raw_pcbs R) [] RAW_INPUT_NONE) as (r & l' & -> & H1 & H2 & H3). eexists _, _. split; [done|]. cbn in *.
  assert (He : existsb (raw_eats p x) (raw_pcbs R) = true -> existsb (raw_wants p x) (raw_pcbs R) = true).
  { rewrite !existsb_exists. intros (w & Hw & Hx). exists w. split; [done|]. by apply andb_prop in Hx as [? _]. }
  split_and!; [done|done| | |].
  - intros Hr. destruct (existsb (raw_eats p x) _); [done|]. rewrite H2 by done. by destruct R.
  - rewrite H3. destruct (existsb (raw_eats p x) _); [done|]. by destruct (existsb _ _).
  - rewrite H3. destruct (existsb (raw_eats p x) _); [rewrite He by done; done|]. by destruct (existsb _ _).
Qed.
End Input.

(** ** The pool *)

(** Every pcb of the pool is free or in the list, once. *)
Definition raw_elems (R : raw_st) : list Z := map w_addr (raw_pcbs R) ++ raw_pool R.

Lemma upd_raw_elems a f R : (forall w, w_addr (f w) = w_addr w) -> raw_elems (upd_raw a f R) = raw_elems R.
Proof. intros Hf. unfold raw_elems, upd_raw. cbn. f_equal. rewrite map_map. apply map_ext. intros w. by destruct (_ =? _). Qed.

Lemma raw_new_elems proto R : raw_elems (raw_new proto R).2 ≡ₚ raw_elems R.
Proof. unfold raw_new, raw_elems. destruct (raw_pool R) as [|a l] eqn:E; cbn; [by rewrite E|]. solve_Permutation. Qed.

Lemma raw_remove_elems a R : a ∈ map w_addr (raw_pcbs R) -> raw_elems (raw_remove a R) ≡ₚ raw_elems R.
Proof.
  unfold raw_remove, raw_elems. cbn. generalize (raw_pcbs R). induction l as [|w l IH]; [by intros ?%elem_of_nil|]. cbn. destruct (Z.eqb_spec (w_addr w) a) as [->|Hn]; [intros _; solve_Permutation|].
  rewrite elem_of_cons. intros [->|Hin]; [done|]. cbn. by rewrite IH.
Qed.

Lemma raw_addr_changed_elems o n R : raw_elems (raw_netif_ip_addr_changed o n R) = raw_elems R.
Proof.
  unfold raw_netif_ip_addr_changed, raw_elems. destruct o, n; try done. destruct (_ && _); [|done]. cbn. f_equal. rewrite map_map. apply map_ext. intros w. by destruct (_ =? _).
Qed.
