(* ===== verification/Netif.v ===== *)
(** * Netif: network interfaces, src/Sources/Lwip/src/core/netif.c

    Every function of netif.c that is compiled (IPv4, no loopback, no status or
    link callbacks, no IGMP, ARP or statistics), and the reaction of TCP
    (src/Sources/Lwip/src/core/tcp.c) to a change of address.  The interfaces are
    structures in memory, known by their addresses; [netif_list] is the list
    linked through [next], and a structure may exist without being in it.  The
    driver's [init] is an argument of [netif_add]: it sets fields of its
    interface and returns an error code.

    [net_ip] is the instance of [IpLayer], the interface TCP is modelled
    against, that these interfaces provide. *)

From S2P Require Import Prelude Def Ip4Addr Opts TcpPcb TcpOut TcpIn TcpStack Ip4Hdr Raw.

Definition NETIF_FLAG_UP : Z := 1.
Definition NETIF_FLAG_LINK_UP : Z := 4.
Definition NETIF_NO_INDEX : Z := 0.
Definition NETIF_NAMESIZE : Z := 6.

(** ** Data *)

(** The function an interface sends with: [netif_null_output_ip4], or the
    driver's. *)
Inductive output_fn := Netif_null_output_ip4 | DriverOutput.

Record nif := mk_nif {
  n_ip_addr : Z; n_netmask : Z; n_gw : Z;
  (** [input] is not NULL *)
  n_input : bool;
  n_output : output_fn;
  n_state : Z; n_mtu : Z; n_flags : Z; n_name : Z * Z; n_num : Z }.
#[export] Instance eta_nif : Eta nif := fun n =>
  mk_nif (n_ip_addr n) (n_netmask n) (n_gw n) (n_input n) (n_output n) (n_state n) (n_mtu n) (n_flags n) (n_name n) (n_num n).

(** The interfaces with the protocols that hear of a change of address. *)
Record net := mk_net {
  nifs : gmap Z nif;
  netif_list : list Z;
  (** 0 for NULL *)
  netif_default : Z;
  netif_num : Z;
  raw : raw_st;
  tcp : stack }.
#[export] Instance eta_net : Eta net := fun N =>
  mk_net (nifs N) (netif_list N) (netif_default N) (netif_num N) (raw N) (tcp N).

Definition getn (a : Z) (N : net) : res nif := match nifs N !! a with Some n => Ok n | None => Dangling end.
Definition updn (a : Z) (f : nif -> nif) (N : net) : res net :=
  let+ n := getn a N in Ok (N <| nifs := <[a := f n]> (nifs N) |>).

(** ** Macros of netif.h and ip4_addr.h *)
Definition netif_is_up (n : nif) : bool := flag_set (n_flags n) NETIF_FLAG_UP.
Definition netif_is_link_up (n : nif) : bool := flag_set (n_flags n) NETIF_FLAG_LINK_UP.
Definition netif_set_flags (f : Z) (n : nif) : nif := n <| n_flags := u8 (Z.lor (n_flags n) f) |>.
Definition netif_clear_flags (f : Z) (n : nif) : nif := n <| n_flags := Z.land (n_flags n) (255 - f) |>.
Definition nif_index (n : nif) : Z := u8 (n_num n + 1).
Definition nif_cfg (n : nif) : netif_addr := mk_netif_addr (n_ip_addr n) (n_netmask n) (n_flags n).
Definition ip4_addr_isloopback (a : Z) : bool := Z.land a (IP4_ADDR 255 0 0 0) =? IP4_ADDR 127 0 0 0.

(** ** Looking up interfaces *)

(** [NETIF_FOREACH]: the first interface of the list that satisfies [f]. *)
Fixpoint nif_first (f : nif -> bool) (l : list Z) (N : net) : option (Z * nif) :=
  match l with
  | [] => None
  | a :: l => match nifs N !! a with Some n => if f n then Some (a, n) else nif_first f l N | None => nif_first f l N end
  end.

Definition netif_get_by_index (idx : Z) (N : net) : option (Z * nif) :=
  if negb (idx =? NETIF_NO_INDEX) then nif_first (fun n => idx =? nif_index n) (netif_list N) N else None.

(** The C library's [atoi]. *)
Fixpoint atoi_digits (s : cstr) (v : Z) : Z :=
  match s with c :: s => if lwip_isdigit c then atoi_digits s (v * 10 + (c - 48)) else v | [] => v end.
Fixpoint atoi (s : cstr) : Z :=
  match s with
  | c :: s' => if lwip_isspace c then atoi s' else if c =? 45 then - atoi_digits s' 0 else if c =? 43 then atoi_digits s' 0 else atoi_digits s 0
  | [] => 0
  end.

Definition netif_find (name : option cstr) (N : net) : option (Z * nif) :=
  match name with
  | None => None
  | Some name =>
      let num := u8 (atoi (drop 2 name)) in
      if (num =? 0) && negb (nth 2 name 0 =? 48) then None
      else nif_first (fun n => (num =? n_num n) && (nth 0 name 0 =? fst (n_name n)) && (nth 1 name 0 =? snd (n_name n))) (netif_list N) N
  end.

Definition netif_name_to_index (name : option cstr) (N : net) : Z :=
  match netif_find name N with Some (_, n) => nif_index n | None => NETIF_NO_INDEX end.

(** [name] is the caller's buffer of [NETIF_NAMESIZE] bytes. *)
Definition netif_index_to_name (idx : Z) (name : list Z) (N : net) : option (list Z) :=
  match netif_get_by_index idx N with
  | Some (_, n) => Some (fst (n_name n) :: snd (n_name n) :: lwip_itoa (drop 2 name) (idx - 1))
  | None => None
  end.

(** ** Routing: [ip4_route] of src/Sources/Lwip/src/core/ipv4/ip4.c *)
Definition ip4_route (dest : Z) (N : net) : option (Z * nif) :=
  match nif_first (fun n =>
          netif_is_up n && netif_is_link_up n && negb (n_ip_addr n =? IPADDR_ANY)
          && (ip4_addr_net_eq dest (n_ip_addr n) (n_netmask n)
              || (negb (flag_set (n_flags n) NETIF_FLAG_BROADCAST) && (dest =? n_gw n)))) (netif_list N) N with
  | Some r => Some r
  | None =>
      match nifs N !! netif_default N with
      | Some d =>
          if (netif_default N =? 0) || negb (netif_is_up d) || negb (netif_is_link_up d) || (n_ip_addr d =? IPADDR_ANY) || ip4_addr_isloopback dest
          then None else Some (netif_default N, d)
      | None => None
      end
  end.

(** What the interfaces are to TCP. *)
Definition net_ip (N : net) : IpLayer := {|
  TcpOut.netif := Z * nif;
  TcpOut.ip_route _ dest := ip4_route dest N;
  TcpOut.netif_get_by_index idx := netif_get_by_index idx N;
  TcpOut.netif_mtu n := n_mtu n.2;
  TcpOut.netif_ip_addr4 n := n_ip_addr n.2;
  TcpOut.netif_get_index n := nif_index n.2;
  TcpOut.netif_cfg n := nif_cfg n.2 |}.

(** ** TCP's reaction to a change of address *)
Section TcpChanged.
Context {o : Opts} {ip : IpLayer}.

(** The next pcb is read before the pcb is aborted. *)
Fixpoint tcp_netif_ip_addr_changed_pcblist (old_addr : Z) (l : list Z) (S : stack) : res stack :=
  match l with
  | [] => Ok S
  | a :: l =>
      let+ c := get a S in
      if local_ip (core c) =? old_addr then
        let+ S := tcp_abort a S in tcp_netif_ip_addr_changed_pcblist old_addr l S
      else tcp_netif_ip_addr_changed_pcblist old_addr l S
  end.

Fixpoint listeners_moved (old nw : Z) (l : list Z) (S : stack) : res stack :=
  match l with
  | [] => Ok S
  | a :: l =>
      let+ c := getl a S in
      listeners_moved old nw l (if l_local_ip c =? old then putl a (c <| l_local_ip := nw |>) S else S)
  end.

Definition tcp_netif_ip_addr_changed (old_addr new_addr : option Z) (S : stack) : res stack :=
  match old_addr with
  | Some old =>
      if negb (ip_addr_isany old_addr) then
        let+ S := tcp_netif_ip_addr_changed_pcblist old (tcp_active_pcbs S) S in
        let+ S := tcp_netif_ip_addr_changed_pcblist old (tcp_bound_pcbs S) S in
        match new_addr with
        | Some nw => if negb (ip_addr_isany new_addr) then listeners_moved old nw (tcp_listen_pcbs S) S else Ok S
        | None => Ok S
        end
      else Ok S
  | None => Ok S
  end.
End TcpChanged.

(** ** Addresses *)
Section Netif.
Context {o : Opts}.

Definition netif_do_ip_addr_changed (old_addr new_addr : option Z) (N : net) : res net :=
  let+ t := tcp_netif_ip_addr_changed (ip := net_ip N) old_addr new_addr (tcp N) in
  Ok (N <| tcp := t |> <| raw := raw_netif_ip_addr_changed old_addr new_addr (raw N) |>).

Definition netif_do_set_ipaddr (a ipaddr : Z) (N : net) : res (bool * net) :=
  let+ n := getn a N in
  if negb (ipaddr =? n_ip_addr n) then
    let+ N := netif_do_ip_addr_changed (Some (n_ip_addr n)) (Some ipaddr) N in
    let+ N := updn a (fun n => n <| n_ip_addr := ipaddr |>) N in
    Ok (true, N)
  else Ok (false, N).

Definition netif_set_ipaddr (a : Z) (ipaddr : option Z) (N : net) : res net :=
  if a =? 0 then Ok N
  else let+ (_, N) := netif_do_set_ipaddr a (default IPADDR_ANY ipaddr) N in Ok N.

Definition netif_do_set_netmask (a netmask : Z) (N : net) : res (bool * net) :=
  let+ n := getn a N in
  if negb (netmask =? n_netmask n) then let+ N := updn a (fun n => n <| n_netmask := netmask |>) N in Ok (true, N)
  else Ok (false, N).

Definition netif_set_netmask (a : Z) (netmask : option Z) (N : net) : res net :=
  if a =? 0 then Ok N
  else let+ (_, N) := netif_do_set_netmask a (default IPADDR_ANY netmask) N in Ok N.

Definition netif_do_set_gw (a gw : Z) (N : net) : res (bool * net) :=
  let+ n := getn a N in
  if negb (gw =? n_gw n) then let+ N := updn a (fun n => n <| n_gw := gw |>) N in Ok (true, N)
  else Ok (false, N).

Definition netif_set_gw (a : Z) (gw : option Z) (N : net) : res net :=
  if a =? 0 then Ok N
  else let+ (_, N) := netif_do_set_gw a (default IPADDR_ANY gw) N in Ok N.

(** An address is removed before the rest changes and set after it. *)
Definition netif_set_addr (a : Z) (ipaddr netmask gw : option Z) (N : net) : res net :=
  let ipaddr := default IPADDR_ANY ipaddr in
  let netmask := default IPADDR_ANY netmask in
  let gw := default IPADDR_ANY gw in
  let remove := ipaddr =? IPADDR_ANY in
  let+ N := (if remove then let+ (_, N) := netif_do_set_ipaddr a ipaddr N in Ok N else Ok N) in
  let+ (_, N) := netif_do_set_netmask a netmask N in
  let+ (_, N) := netif_do_set_gw a gw N in
  if negb remove then let+ (_, N) := netif_do_set_ipaddr a ipaddr N in Ok N else Ok N.

(** ** Adding an interface *)

(** The [for] loop of the search for a number: is [num] taken? *)
Fixpoint num_scan (netif num num_netifs : Z) (l : list Z) (N : net) : res bool :=
  match l with
  | [] => Ok false
  | a :: l =>
      check! (negb (a =? netif)) in
      check! (num_netifs + 1 <=? 255) in
      let+ n := getn a N in
      if n_num n =? num then Ok true else num_scan netif num (num_netifs + 1) l N
  end.

(** The [do] loop: the number that is free. *)
Fixpoint num_loop (fuel : nat) (netif num : Z) (N : net) : res Z :=
  match fuel with
  | O => Stuck
  | S fuel =>
      let num := if num =? 255 then 0 else num in
      let+ taken := num_scan netif num 0 (netif_list N) N in
      if taken : bool then num_loop fuel netif (u8 (num + 1)) N else Ok num
  end.

(** There are 255 numbers; [init] is given with [None] for NULL.  The result is
    [netif], 0 on failure. *)
Definition netif_add (netif : Z) (ipaddr netmask gw : option Z) (state : Z) (init : option (nif -> err_t * nif)) (input : bool) (N : net)
  : res (Z * net) :=
  if netif =? 0 then Ok (0, N)
  else match init with
  | None => Ok (0, N)
  | Some init =>
      let+ n := getn netif N in
      let n := mk_nif 0 0 0 input Netif_null_output_ip4 state 0 0 (n_name n) (netif_num N) in
      let+ N := netif_set_addr netif (Some (default IPADDR_ANY ipaddr)) (Some (default IPADDR_ANY netmask)) (Some (default IPADDR_ANY gw))
                  (N <| nifs := <[netif := n]> (nifs N) |>) in
      let+ n := getn netif N in
      let (e, n) := init n in
      let N := N <| nifs := <[netif := n]> (nifs N) |> in
      if negb (err_ok e) then Ok (0, N)
      else
        let+ num := num_loop 256 netif (n_num n) N in
        let+ N := updn netif (fun n => n <| n_num := num |>) N in
        Ok (netif, N <| netif_num := if num =? 254 then 0 else u8 (num + 1) |> <| netif_list := netif :: netif_list N |>)
  end.

Definition netif_add_noaddr (netif state : Z) (init : option (nif -> err_t * nif)) (input : bool) (N : net) : res (Z * net) :=
  netif_add netif None None None state init input N.

(** ** State *)
Definition netif_set_default (netif : Z) (N : net) : net := N <| netif_default := netif |>.

Definition netif_set_up (a : Z) (N : net) : res net :=
  if a =? 0 then Ok N
  else let+ n := getn a N in if negb (flag_set (n_flags n) NETIF_FLAG_UP) then updn a (netif_set_flags NETIF_FLAG_UP) N else Ok N.
Definition netif_set_down (a : Z) (N : net) : res net :=
  if a =? 0 then Ok N
  else let+ n := getn a N in if flag_set (n_flags n) NETIF_FLAG_UP then updn a (netif_clear_flags NETIF_FLAG_UP) N else Ok N.
Definition netif_set_link_up (a : Z) (N : net) : res net :=
  if a =? 0 then Ok N
  else let+ n := getn a N in if negb (flag_set (n_flags n) NETIF_FLAG_LINK_UP) then updn a (netif_set_flags NETIF_FLAG_LINK_UP) N else Ok N.
Definition netif_set_link_down (a : Z) (N : net) : res net :=
  if a =? 0 then Ok N
  else let+ n := getn a N in if flag_set (n_flags n) NETIF_FLAG_LINK_UP then updn a (netif_clear_flags NETIF_FLAG_LINK_UP) N else Ok N.

(** ** Removing an interface *)

(** [a->next] is unlinked; an interface that is not in the list stays out. *)
Fixpoint nif_unlink (a : Z) (l : list Z) : list Z :=
  match l with [] => [] | b :: l => if b =? a then l else b :: nif_unlink a l end.

Definition netif_remove (a : Z) (N : net) : res net :=
  if a =? 0 then Ok N
  else
    let+ n := getn a N in
    let+ N := (if negb (n_ip_addr n =? IPADDR_ANY) then netif_do_ip_addr_changed (Some (n_ip_addr n)) None N else Ok N) in
    let+ n := getn a N in
    let+ N := (if netif_is_up n then netif_set_down a N else Ok N) in
    let N := if netif_default N =? a then netif_set_default 0 N else N in
    Ok (N <| netif_list := nif_unlink a (netif_list N) |>).
End Netif.
