(* ===== verification/NetifFacts.v ===== *)
(** * NetifFacts: what the interfaces guarantee

    Numbers of interfaces are unique, adding one ends while there are fewer than
    255, names and indices correspond, and a change of address ends exactly the
    connections that used the old one. *)

From S2P Require Import Prelude Def Ip4Addr Opts TcpPcb TcpOut TcpIn TcpStack TcpInput TcpTimer TcpFrame TcpSafety TcpCalls TcpSafeIn TcpSafeRun TcpSafeTmr TcpSafeApi TcpProps Ip4Hdr Raw Netif.

(** ** Aborting one connection leaves the others alone *)

(** Of the pcbs only [a] is touched, and lists are only cut. *)
Record others (a : Z) (S S' : stack) : Prop := {
  ot_pcbs : forall y, y <> a -> pcbs S' !! y = pcbs S !! y;
  ot_active : tcp_active_pcbs S' `sublist_of` tcp_active_pcbs S;
  ot_bound : tcp_bound_pcbs S' `sublist_of` tcp_bound_pcbs S;
  ot_listen : tcp_listen_pcbs S' = tcp_listen_pcbs S;
  ot_lpcbs : forall l, l_local_ip <$> lpcbs S' !! l = l_local_ip <$> lpcbs S !! l }.

#[export] Instance others_preorder a : PreOrder (others a).
Proof.
  split; [by intros S; split|]. intros S1 S2 S3 [H1 H2 H3 H4 H5] [K1 K2 K3 K4 K5]. split; [|by etransitivity|by etransitivity|congruence|congruence]. intros y Hy. by rewrite K1, H1.
Qed.

Lemma when_mono {A} (r : res A) (P Q : A -> Prop) : when r P -> (forall a, P a -> Q a) -> when r Q.
Proof. destruct r; cbn; auto. Qed.

(** Sequencing of steps that only touch [a]. *)
Lemma others_bind {A} a (r : res A) (k : A -> res stack) S (f : A -> stack) :
  when r (fun x => others a S (f x)) -> (forall x, when (k x) (others a (f x))) -> when (rbind r k) (others a S).
Proof. intros H1 H2. eapply when_bind; [exact H1|]. intros x Hx. eapply when_mono; [apply H2|]. intros S' H. by transitivity (f x). Qed.

Section Abort.
Context {o : Opts} {ip : IpLayer}.

Lemma sublist_rmv alive a l l' : rmv alive a l = Some l' -> l' `sublist_of` l.
Proof.
  revert l'. induction l as [|x l IH]; intros l'; cbn; [by intros [= <-]|]. destruct (_ =? _); [intros [= <-]; by constructor|]. destruct (alive x); [|done]. destruct (rmv _ _ _) as [l1|]; [|done]. intros [= <-]. constructor. auto.
Qed.

Lemma rmv_others w a S : w <> LListen -> when (TCP_RMV w a S) (others a S).
Proof.
  intros Hw. unfold TCP_RMV. destruct (live _ _ _); [|done]. destruct (rmv _ _ _) as [l|] eqn:E; [|done]. apply sublist_rmv in E. destruct w; cbn in *; [done| | |]; by split.
Qed.

Lemma put_others a c S S' : others a S S' -> others a S (put a c S').
Proof. intros [H1 H2 H3 H4 H5]. split; try done. intros y Hy. cbn. rewrite lookup_insert_ne by congruence. auto. Qed.

Lemma upd_others a f S : when (upd a f S) (others a S).
Proof. unfold upd, get. destruct (pcbs S !! a); [|done]. by apply put_others. Qed.

Lemma on_others {R} a (f : tcp_st -> option (R * tcp_st)) S : when (on a f S) (fun r => others a S r.2).
Proof.
  unfold on, get. destruct (pcbs S !! a) as [c|]; [|done]. cbn [rbind]. destruct (f _) as [[r s]|]; [|done]. cbn. unfold back. destruct (put_others a (c <| core := pcb s |>) S S ltac:(done)) as [H1 H2 H3 H4 H5]. by split.
Qed.

Lemma on__others a f S : when (on_ a f S) (others a S).
Proof. unfold on_. eapply others_bind; [apply on_others|]. by intros [[] S1]. Qed.

Lemma backlog_accepted_others a S : when (tcp_backlog_accepted a S) (others a S).
Proof.
  unfold tcp_backlog_accepted, get. destruct (pcbs S !! a) as [c|]; [|done]. cbn [rbind]. destruct (_ && _); [|done]. unfold getl. destruct (lpcbs S !! listener c) as [l|] eqn:El; [|done]. cbn [rbind]. destruct (negb _); [|done].
  eapply when_mono; [apply upd_others|]. intros S' [H1 H2 H3 H4 H5]. split; try done. intros y. rewrite H5. cbn. destruct (Z.eq_dec y (listener c)) as [->|Hn]; [by rewrite lookup_insert_eq, El|by rewrite lookup_insert_ne].
Qed.

Lemma purge_others a S : when (tcp_pcb_purge a S) (others a S).
Proof.
  unfold tcp_pcb_purge, get. destruct (pcbs S !! a) as [c|]; [|done]. cbn [rbind]. destruct (purgeable _); [|done]. eapply (others_bind a _ _ _ id); [apply backlog_accepted_others|]. intros S1. apply upd_others.
Qed.

Lemma remove_others w a S : w <> LListen -> when (tcp_pcb_remove w a S) (others a S).
Proof.
  intros Hw. unfold tcp_pcb_remove. eapply (others_bind a _ _ _ id); [by apply rmv_others|]. intros S1. eapply (others_bind a _ _ _ id); [apply purge_others|]. intros S2. cbn [id]. unfold get. destruct (pcbs S2 !! a) as [c|]; [|done]. cbn [rbind].
  eapply (others_bind a _ _ _ id).
  - destruct (_ && _); [|done]. eapply (others_bind a _ _ _ id); [apply upd_others|]. intros S3. eapply others_bind; [apply on_others|]. by intros [e S4].
  - intros S3. cbn [id]. destruct (pcbs S3 !! a) as [c3|]; [|done]. cbn [rbind]. destruct (_ || _); [|done]. apply upd_others.
Qed.

Lemma free_others a S : when (tcp_free a S) (others a S).
Proof.
  unfold tcp_free, get. destruct (pcbs S !! a) as [c|]; [|done]. cbn [rbind]. destruct (negb _); [|done]. cbn. split; destruct (ext_args c); cbn; try done; intros y Hy; by rewrite lookup_delete_ne.
Qed.

Lemma abandon_others a r S : when (tcp_abandon a r S) (others a S).
Proof.
  unfold tcp_abandon, get. destruct (pcbs S !! a) as [c|]; [|done]. cbn [rbind]. destruct (negb _); [|done]. destruct (state_is _ TIME_WAIT).
  - eapply (others_bind a _ _ _ id); [by apply remove_others|]. intros S1. apply free_others.
  - eapply (others_bind a _ _ _ id).
    + destruct (state_is _ CLOSED); [destruct (negb _); [by apply rmv_others|done]|]. unfold TCP_PCB_REMOVE_ACTIVE. eapply (others_bind a _ _ _ id); [by apply remove_others|]. intros S1. by split.
    + intros S1. cbn [id]. eapply (others_bind a _ _ _ id); [apply backlog_accepted_others|]. intros S2. cbn [id]. eapply (others_bind a _ _ _ id); [destruct (_ && _); [apply on__others|done]|]. intros S3. cbn [id].
      eapply (others_bind a _ _ _ id); [apply free_others|]. intros S4. cbn. destruct (errf c); by split.
Qed.

Lemma post_when {A} (r : res A) (P Q : A -> Prop) : post r P -> when r Q -> post r (fun a => P a /\ Q a).
Proof. destruct r; cbn; auto. Qed.

(** The pcbs of [l] with local address [old] are gone, all others as before. *)
Record cleared (old : Z) (l : list Z) (S S' : stack) : Prop := {
  cl_safe : safe S';
  cl_keep : forall y c, pcbs S !! y = Some c -> y ∉ l \/ local_ip (core c) <> old -> pcbs S' !! y = Some c;
  cl_old : forall y c, pcbs S' !! y = Some c -> pcbs S !! y = Some c;
  cl_gone : forall y c, y ∈ l -> pcbs S' !! y = Some c -> local_ip (core c) <> old;
  cl_active : tcp_active_pcbs S' `sublist_of` tcp_active_pcbs S;
  cl_bound : tcp_bound_pcbs S' `sublist_of` tcp_bound_pcbs S;
  cl_listen : tcp_listen_pcbs S' = tcp_listen_pcbs S;
  cl_lpcbs : forall x, l_local_ip <$> lpcbs S' !! x = l_local_ip <$> lpcbs S !! x }.

Lemma abort_ok a S : safe S -> is_Some (pcbs S !! a) -> post (tcp_abort a S) (fun S' => (safe S' /\ pcbs S' !! a = None) /\ others a S S').
Proof.
  intros Hs Hl. apply post_when; [|apply abandon_others]. eapply post_mono; [apply (abandon_ok 0); [apply Hs|by left|done]|]. intros S' G. split; [by eapply safe_gone|]. by destruct G as (_ & G & _).
Qed.

Lemma pcblist_ok old l : forall S, NoDup l -> safe S -> (forall y, y ∈ l -> is_Some (pcbs S !! y)) ->
  post (tcp_netif_ip_addr_changed_pcblist old l S) (cleared old l S).
Proof.
  induction l as [|a l IH]; intros S Hnd Hs Hl; cbn [tcp_netif_ip_addr_changed_pcblist].
  { split; try done. by intros y c ?%elem_of_nil. }
  apply NoDup_cons in Hnd as [Hna Hnd]. destruct (Hl a ltac:(left)) as [c E]. unfold get. rewrite E. cbn [rbind]. destruct (Z.eqb_spec (local_ip (core c)) old) as [Heq|Hne].
  - eapply post_bind; [by apply abort_ok|]. intros S1 [[H1 H2] [O1 O2 O3 O4 O5]]. eapply post_mono; [apply (IH S1); [done|done|]|].
    { intros y Hy. rewrite O1 by (by intros ->). apply Hl. by right. }
    intros S2 [K1 K2 K3 K4 K5 K6 K7 K8]. split; try done; try (by etransitivity); try congruence.
    + intros y d Ey Hy. assert (y <> a) by (intros ->; destruct Hy as [Hy|Hy]; [by apply Hy; left|congruence]). apply K2; [by rewrite O1|]. destruct Hy as [Hy|Hy]; [left|by right]. intros Hin. apply Hy. by right.
    + intros y d Ey. apply K3 in Ey. destruct (Z.eq_dec y a) as [->|]; [congruence|by rewrite <- O1].
    + intros y d [->|Hy]%elem_of_cons Ey; [apply K3 in Ey; congruence|by eapply K4].
  - eapply post_mono; [apply (IH S); [done|done|]|]. { intros y Hy. apply Hl. by right. }
    intros S2 [K1 K2 K3 K4 K5 K6 K7 K8]. split; try done.
    + intros y d Ey Hy. apply K2; [done|]. destruct Hy as [Hy|Hy]; [left|by right]. intros Hin. apply Hy. by right.
    + intros y d [->|Hy]%elem_of_cons Ey; [|by eapply K4]. apply K3 in Ey. congruence.
Qed.

(** What a change of TCP's address from [old] to [new] does. *)
Record moved (old : Z) (new : option Z) (S S' : stack) : Prop := {
  mv_safe : safe S';
  mv_gone : forall y c, y ∈ tcp_active_pcbs S' ++ tcp_bound_pcbs S' -> pcbs S' !! y = Some c -> local_ip (core c) <> old;
  mv_old : forall y c, pcbs S' !! y = Some c -> pcbs S !! y = Some c;
  mv_keep : forall y c, pcbs S !! y = Some c -> local_ip (core c) <> old -> pcbs S' !! y = Some c;
  mv_listen : forall x, l_local_ip <$> lpcbs S' !! x
    = (fun i => if i =? old then match new with Some i' => if i' =? IPADDR_ANY then i else i' | None => i end else i) <$> (l_local_ip <$> lpcbs S !! x) }.

Lemma listeners_moved_ok old nw l : forall S, NoDup l -> (forall y, y ∈ l -> is_Some (lpcbs S !! y)) ->
  exists S', listeners_moved old nw l S = Ok S' /\ (S' = S <| lpcbs := lpcbs S' |>) /\ (forall x, is_Some (lpcbs S' !! x) <-> is_Some (lpcbs S !! x))
    /\ (forall x, l_local_ip <$> lpcbs S' !! x = (fun i => if bool_decide (x ∈ l) && (i =? old) then nw else i) <$> (l_local_ip <$> lpcbs S !! x)).
Proof.
  induction l as [|a l IH]; intros S Hnd Hl; cbn [listeners_moved]. { exists S. split_and!; try done; [by destruct S|]. intros x. rewrite bool_decide_eq_false_2 by (by intros ?%elem_of_nil). cbn. by destruct (lpcbs S !! x). }
  apply NoDup_cons in Hnd as [Hna Hnd]. destruct (Hl a ltac:(left)) as [c E]. unfold getl. rewrite E. cbn [rbind]. set (S1 := if _ =? _ then _ else _).
  assert (H1 : forall x, l_local_ip <$> lpcbs S1 !! x = (fun i => if bool_decide (x = a) && (i =? old) then nw else i) <$> (l_local_ip <$> lpcbs S !! x)).
  { intros x. unfold S1. destruct (Z.eq_dec x a) as [->|Hn].
    - rewrite bool_decide_eq_true_2 by done. rewrite E. cbn. destruct (_ =? _); cbn; [by rewrite lookup_insert_eq|by rewrite E].
    - rewrite bool_decide_eq_false_2 by done. cbn. destruct (_ =? _); cbn; [rewrite lookup_insert_ne by done|]; by destruct (lpcbs S !! x). }
  assert (H2 : forall x, is_Some (lpcbs S1 !! x) <-> is_Some (lpcbs S !! x)) by (intros x; specialize (H1 x); destruct (lpcbs S1 !! x), (lpcbs S !! x); try done; by split).
  destruct (IH S1 Hnd) as (S' & E' & Es & Hs & Hx); [intros y Hy; apply H2, Hl; by right|]. exists S'. split_and!; [done| | |].
  - rewrite Es. unfold S1. by destruct (_ =? _).
  - intros x. by rewrite Hs, H2.
  - intros x. rewrite Hx, H1. destruct (lpcbs S !! x) as [d|]; [|done]. cbn. f_equal. destruct (Z.eq_dec x a) as [->|Hn].
    + rewrite (bool_decide_eq_true_2 (a = a)), (bool_decide_eq_false_2 (a ∈ l)), (bool_decide_eq_true_2 (a ∈ a :: l)) by (done || left). done.
    + rewrite (bool_decide_eq_false_2 (x = a)) by done. cbn. replace (bool_decide (x ∈ a :: l)) with (bool_decide (x ∈ l)); [done|]. apply bool_decide_ext. rewrite elem_of_cons. naive_solver.
Qed.

Lemma safe_lpcbs S L : safe S -> (forall x, is_Some (L !! x) <-> is_Some (lpcbs S !! x)) -> safe (S <| lpcbs := L |>).
Proof.
  intros [[H1 H2 H3 H4 H5 H6 H7 H8 H9] Hi] HL. split; [|done]. split; try done; cbn.
  - intros a c E. destruct (H5 a c E) as [A1 A2 A3 A4 A5]. split; try done. destruct A3 as [A3|A3]; [by left|right]. by apply HL.
  - destruct H7 as (B1 & B2 & B3). split_and!; [done| |]. { intros a. by rewrite HL. } specialize (HL 0). rewrite B3 in HL. destruct (L !! 0); [|done]. destruct HL as [HL _]. destruct (HL ltac:(done)). done.
  - destruct H8 as (B1 & B2 & B3). split_and!; [done|done|]. intros a Ha. specialize (HL a). rewrite (B3 a Ha) in HL. destruct (L !! a); [|done]. destruct HL as [HL _]. destruct (HL ltac:(done)). done.
Qed.

Lemma safe_nodup S : safe S -> NoDup (tcp_active_pcbs S) /\ NoDup (tcp_bound_pcbs S) /\ NoDup (tcp_listen_pcbs S).
Proof. intros [Hs _]. pose proof (sn_lists _ _ Hs) as H. apply NoDup_app in H as (H1 & _ & H). apply NoDup_app in H as (H2 & _ & _). split_and!; try done. apply Hs. Qed.

Lemma tcp_changed_ok old new S : safe S -> old <> IPADDR_ANY -> post (tcp_netif_ip_addr_changed (Some old) new S) (moved old new S).
Proof.
  intros Hs Ho. unfold tcp_netif_ip_addr_changed. cbn [ip_addr_isany]. rewrite (proj2 (Z.eqb_neq _ _)) by done. cbn [negb].
  eapply post_bind; [apply pcblist_ok; [by apply safe_nodup|done|]; intros y; by apply (list_live LActive)|]. intros S1 C1.
  eapply post_bind; [apply pcblist_ok; [by apply safe_nodup, C1|apply C1|]; intros y; apply (list_live LBound); [done|apply C1]|]. intros S2 C2.
  assert (Hl : forall x, l_local_ip <$> lpcbs S2 !! x = l_local_ip <$> lpcbs S !! x) by (intros x; rewrite (cl_lpcbs _ _ _ _ C2), (cl_lpcbs _ _ _ _ C1); done).
  assert (M : forall n, match n with Some i => i = IPADDR_ANY | None => True end -> moved old n S S2).
  { intros n Hn. split.
    - apply C2.
    - intros y c [Hy|Hy]%elem_of_app E; [|apply (cl_gone _ _ _ _ C2 y c); [by eapply elem_of_sublist; [|apply C2]|done]].
      apply (cl_gone _ _ _ _ C1 y c); [|by apply C2]. eapply elem_of_sublist; [|apply C1]. by eapply elem_of_sublist; [|apply C2].
    - intros y c E. by apply C1, C2.
    - intros y c E Hne. apply C2; [apply C1|]; auto.
    - intros x. rewrite Hl. destruct (lpcbs S !! x) as [d|]; [|done]. cbn. f_equal. destruct (_ =? _); [|done]. destruct n as [i|]; [|done]. subst i. done. }
  destruct new as [nw|]; [|by apply M]. cbn [ip_addr_isany]. destruct (Z.eqb_spec nw IPADDR_ANY) as [Hnw|Hnw]; cbn [negb]; [by apply M|].
  destruct (listeners_moved_ok old nw (tcp_listen_pcbs S2) S2) as (S3 & -> & Es & Hd & Hx); [by apply safe_nodup, C2| |]. { intros y Hy. destruct (cl_safe _ _ _ _ C2) as [Hs2 _]. by apply (sn_listen _ _ Hs2). }
  destruct (M None I) as [M1 M2 M3 M4 M5]. cbn. rewrite Es. split; cbn; try done; [by apply safe_lpcbs|]. intros x. rewrite Hx, Hl. destruct (lpcbs S2 !! x) as [d2|] eqn:E2.
  - assert (Hin : x ∈ tcp_listen_pcbs S2) by (destruct (cl_safe _ _ _ _ C2) as [Hs2 _]; apply (sn_listen _ _ Hs2); by exists d2). rewrite bool_decide_eq_true_2 by done. destruct (lpcbs S !! x) as [d|]; [|done]. cbn. f_equal. destruct (_ =? _); [|done]. by rewrite (proj2 (Z.eqb_neq _ _)).
  - pose proof (Hl x) as Hx2. rewrite E2 in Hx2. destruct (lpcbs S !! x); [done|done].
Qed.
End Abort.

(** ** The interfaces *)
Record net_ok (N : net) : Prop := {
  no_list : NoDup (netif_list N) /\ 0 ∉ netif_list N;
  no_nifs : forall a, a ∈ netif_list N -> exists n, nifs N !! a = Some n /\ 0 <= n_num n <= 254;
  no_nums : forall a b n m, a ∈ netif_list N -> b ∈ netif_list N -> nifs N !! a = Some n -> nifs N !! b = Some m -> n_num n = n_num m -> a = b;
  no_next : 0 <= netif_num N <= 254;
  no_tcp : safe (tcp N);
  no_raw : NoDup (raw_elems (raw N)) }.

(** The numbers of the interfaces in the list. *)
Definition num_of (N : net) (a : Z) : Z := default 0 (n_num <$> nifs N !! a).
Definition nums (N : net) : list Z := map (num_of N) (netif_list N).

Lemma num_scan_ok netif num N l : forall cnt, netif ∉ l -> (forall a, a ∈ l -> is_Some (nifs N !! a)) -> cnt + lenz l <= 255 ->
  num_scan netif num cnt l N = Ok (bool_decide (num ∈ map (num_of N) l)).
Proof.
  induction l as [|a l IH]; intros cnt Hn Hl Hc; cbn [num_scan map]. { by rewrite bool_decide_eq_false_2 by (by intros ?%elem_of_nil). }
  apply not_elem_of_cons in Hn as [Hna Hn]. rewrite (proj2 (Z.eqb_neq _ _)) by congruence. rewrite lenz_cons in Hc. pose proof (lenz_nonneg l). rewrite (proj2 (Z.leb_le _ _)) by lia. cbn [negb].
  destruct (Hl a ltac:(left)) as [n En]. assert (Hnum : num_of N a = n_num n) by (unfold num_of; by rewrite En). unfold getn. rewrite En. cbn [rbind]. destruct (Z.eqb_spec (n_num n) num) as [<-|Hne]; [rewrite bool_decide_eq_true_2 by (rewrite Hnum; left); done|].
  rewrite (IH (cnt + 1)); [|done|intros b Hb; apply Hl; by right|lia]. f_equal. apply bool_decide_ext. rewrite elem_of_cons, Hnum. naive_solver.
Qed.

(** The numbers tried from [k] on. *)
Definition tried (k : Z) (i : nat) : list Z := map (fun j => (k + Z.of_nat j) mod 255) (seq 0 i).

Lemma tried_nodup k i : (i <= 255)%nat -> NoDup (tried k i).
Proof.
  intros Hi. unfold tried. apply NoDup_fmap_2_strong; [|apply NoDup_seq]. intros x y Hx Hy. rewrite elem_of_seq in Hx, Hy. lia.
Qed.

Lemma num_loop_ok netif N : netif ∉ netif_list N -> (forall a, a ∈ netif_list N -> is_Some (nifs N !! a)) -> lenz (netif_list N) < 255 ->
  forall fuel i num k, (i + fuel = 256)%nat -> (if num =? 255 then 0 else num) = (k + Z.of_nat i) mod 255 -> tried k i ⊆ nums N ->
  exists r, num_loop fuel netif num N = Ok r /\ 0 <= r <= 254 /\ r ∉ nums N.
Proof.
  intros Hn Hl Hlen. induction fuel as [|fuel IH]; intros i num k Hf Hk Ht.
  - exfalso. assert (Hc : (length (tried k 255) <= length (nums N))%nat). { apply NoDup_incl_length; [apply NoDup_ListNoDup, tried_nodup; lia|]. intros x Hx. apply list_elem_of_In, Ht. assert (i = 256%nat) as -> by lia. unfold tried in *. change 256%nat with (255 + 1)%nat. rewrite seq_app, map_app. apply elem_of_app. left. by apply list_elem_of_In. }
    unfold tried, nums in Hc. rewrite !length_map, length_seq in Hc. unfold lenz in Hlen. lia.
  - cbn [num_loop]. rewrite Hk. rewrite num_scan_ok by (done || lia). cbn [rbind]. case_bool_decide as Hin; fold (nums N) in Hin.
    + apply (IH (S i) _ k); [lia| |].
      * rewrite u8_id by zlia. destruct (Z.eqb_spec ((k + Z.of_nat i) mod 255 + 1) 255); lia.
      * unfold tried. rewrite seq_S, map_app. intros x [Hx|Hx]%elem_of_app; [by apply Ht|]. cbn in Hx. by apply list_elem_of_singleton in Hx as ->.
    + eexists. split; [done|]. split; [lia|done].
Qed.

Lemma num_loop_stuck netif N : netif ∉ netif_list N -> (forall a, a ∈ netif_list N -> is_Some (nifs N !! a)) -> lenz (netif_list N) <= 255 ->
  (forall k, 0 <= k <= 254 -> k ∈ nums N) -> forall fuel num, 0 <= num <= 255 -> num_loop fuel netif num N = Stuck.
Proof.
  intros Hn Hl Hlen Hall. induction fuel as [|fuel IH]; intros num Hnum; [done|]. cbn [num_loop]. rewrite num_scan_ok by (done || lia). cbn [rbind]. rewrite bool_decide_eq_true_2.
  - apply IH. destruct (Z.eqb_spec num 255); rewrite u8_id by zlia; lia.
  - apply Hall. destruct (Z.eqb_spec num 255); lia.
Qed.

Section NetOps.
Context {o : Opts}.

(** A change from "no address" concerns no connection. *)
Lemma changed_from_any new N : netif_do_ip_addr_changed (Some IPADDR_ANY) new N = Ok N.
Proof. unfold netif_do_ip_addr_changed. cbn. destruct new; by destruct N. Qed.

(** The interface [a] as it is set. *)
Definition setn (a : Z) (n : nif) (N : net) : net := N <| nifs := <[a := n]> (nifs N) |>.

Lemma setn_id a n N : nifs N !! a = Some n -> setn a n N = N.
Proof. intros E. unfold setn. cbn. rewrite insert_id by done. by destruct N. Qed.
Lemma setn_setn a n m N : setn a n (setn a m N) = setn a n N.
Proof. unfold setn. cbn. by rewrite insert_insert_eq. Qed.
Lemma nifs_setn a n N : nifs (setn a n N) !! a = Some n.
Proof. apply lookup_insert_eq. Qed.
Lemma updn_setn a f n N : nifs N !! a = Some n -> updn a f N = Ok (setn a (f n) N).
Proof. intros E. unfold updn, getn. by rewrite E. Qed.

Lemma do_set_netmask a m n N : nifs N !! a = Some n -> exists b, netif_do_set_netmask a m N = Ok (b, setn a (n <| n_netmask := m |>) N).
Proof.
  intros E. unfold netif_do_set_netmask, getn. rewrite E. cbn [rbind]. destruct (Z.eqb_spec m (n_netmask n)) as [->|Hm]; cbn [negb].
  - exists false. rewrite setn_id; [done|]. rewrite E. by destruct n.
  - exists true. by rewrite (updn_setn a _ n).
Qed.
Lemma do_set_gw a g n N : nifs N !! a = Some n -> exists b, netif_do_set_gw a g N = Ok (b, setn a (n <| n_gw := g |>) N).
Proof.
  intros E. unfold netif_do_set_gw, getn. rewrite E. cbn [rbind]. destruct (Z.eqb_spec g (n_gw n)) as [->|Hm]; cbn [negb].
  - exists false. rewrite setn_id; [done|]. rewrite E. by destruct n.
  - exists true. by rewrite (updn_setn a _ n).
Qed.
Lemma do_set_ipaddr_fresh a i n N : nifs N !! a = Some n -> n_ip_addr n = IPADDR_ANY -> exists b, netif_do_set_ipaddr a i N = Ok (b, setn a (n <| n_ip_addr := i |>) N).
Proof.
  intros E H. unfold netif_do_set_ipaddr, getn. rewrite E. cbn [rbind]. rewrite H. destruct (Z.eqb_spec i IPADDR_ANY) as [->|Hm]; cbn [negb].
  - exists false. rewrite setn_id; [done|]. rewrite E, <- H. by destruct n.
  - exists true. rewrite changed_from_any. cbn [rbind]. by rewrite (updn_setn a _ n).
Qed.

(** A fresh interface gets its addresses. *)
Lemma set_addr_fresh a n i m g N : nifs N !! a = Some n -> n_ip_addr n = IPADDR_ANY ->
  netif_set_addr a (Some i) (Some m) (Some g) N = Ok (setn a (n <| n_ip_addr := i |> <| n_netmask := m |> <| n_gw := g |>) N).
Proof.
  intros E H. unfold netif_set_addr. change (default IPADDR_ANY (Some i)) with i. change (default IPADDR_ANY (Some m)) with m. change (default IPADDR_ANY (Some g)) with g. cbv zeta. destruct (Z.eqb_spec i IPADDR_ANY) as [->|Hi]; cbn [negb].
  - destruct (do_set_ipaddr_fresh a IPADDR_ANY n N E H) as [b ->]. cbn [rbind].
    destruct (do_set_netmask a m _ _ (nifs_setn a (n <| n_ip_addr := IPADDR_ANY |>) N)) as [b2 ->]. cbn [rbind]. rewrite setn_setn.
    destruct (do_set_gw a g _ _ (nifs_setn a (n <| n_ip_addr := IPADDR_ANY |> <| n_netmask := m |>) N)) as [b3 ->]. cbn [rbind]. by rewrite setn_setn.
  - cbn [rbind]. destruct (do_set_netmask a m n N E) as [b2 ->]. cbn [rbind].
    destruct (do_set_gw a g _ _ (nifs_setn a (n <| n_netmask := m |>) N)) as [b3 ->]. cbn [rbind]. rewrite setn_setn.
    match goal with |- context [netif_do_set_ipaddr a i (setn a ?n2 N)] => destruct (do_set_ipaddr_fresh a i n2 (setn a n2 N) (nifs_setn a n2 N) H) as [b ->] end. cbn [rbind]. by rewrite setn_setn.
Qed.

(** The interface [init] is called on. *)
Definition blank (n : nif) (i m g state : Z) (input : bool) (num : Z) : nif := mk_nif i m g input Netif_null_output_ip4 state 0 0 (n_name n) num.

Lemma setn_ok a n N : net_ok N -> a ∉ netif_list N -> net_ok (setn a n N).
Proof.
  intros [H1 H2 H3 H4 H5 H6] Ha. split; try done; cbn.
  - intros b Hb. rewrite lookup_insert_ne by (intros ->; done). auto.
  - intros b c n1 n2 Hb Hc. rewrite !lookup_insert_ne by (intros ->; done). by apply H3.
Qed.

Lemma netif_add_facts a ip mk gw st (init : nif -> err_t * nif) inp n0 N : net_ok N -> a <> 0 -> a ∉ netif_list N -> nifs N !! a = Some n0 ->
  lenz (netif_list N) < 255 -> (forall n, n_num (init n).2 = n_num n) ->
  let (e, n) := init (blank n0 (default IPADDR_ANY ip) (default IPADDR_ANY mk) (default IPADDR_ANY gw) st inp (netif_num N)) in
  exists r N', netif_add a ip mk gw st (Some init) inp N = Ok (r, N') /\ net_ok N' /\ tcp N' = tcp N /\ raw N' = raw N /\ netif_default N' = netif_default N
  /\ (forall b, b <> a -> nifs N' !! b = nifs N !! b)
  /\ if err_ok e then r = a /\ netif_list N' = a :: netif_list N /\ exists k, 0 <= k <= 254 /\ k ∉ nums N /\ nifs N' !! a = Some (n <| n_num := k |>)
     else r = 0 /\ netif_list N' = netif_list N.
Proof.
  intros HN Ha Hl E0 Hlen Hin. destruct (init _) as [e n] eqn:Ei. unfold netif_add. rewrite (proj2 (Z.eqb_neq _ _)) by done. unfold getn at 1. rewrite E0. cbn [rbind].
  set (n1 := mk_nif 0 0 0 inp Netif_null_output_ip4 st 0 0 (n_name n0) (netif_num N)). fold (setn a n1 N). rewrite (set_addr_fresh a n1) by (apply nifs_setn || done). cbn [rbind]. rewrite setn_setn. unfold getn. rewrite nifs_setn. cbn [rbind].
  change (n1 <| n_ip_addr := default IPADDR_ANY ip |> <| n_netmask := default IPADDR_ANY mk |> <| n_gw := default IPADDR_ANY gw |>) with (blank n0 (default IPADDR_ANY ip) (default IPADDR_ANY mk) (default IPADDR_ANY gw) st inp (netif_num N)).
  rewrite Ei. set (N1 := setn a _ N). fold (setn a n N1). unfold N1. rewrite setn_setn. assert (Hnum : n_num n = netif_num N) by (specialize (Hin (blank n0 (default IPADDR_ANY ip) (default IPADDR_ANY mk) (default IPADDR_ANY gw) st inp (netif_num N))); rewrite Ei in Hin; exact Hin).
  pose proof (setn_ok a n N HN Hl) as HN2. assert (Hoth : forall b, b <> a -> nifs (setn a n N) !! b = nifs N !! b) by (intros b Hb; apply lookup_insert_ne; congruence).
  destruct (err_ok e) eqn:Ee; cbn [negb]; [|exists 0, (setn a n N); by split_and!].
  assert (Hnums : nums (setn a n N) = nums N).
  { unfold nums. apply map_ext_in. intros b Hb. unfold num_of. rewrite Hoth; [done|]. intros ->. by apply Hl, list_elem_of_In. }
  pose proof (no_next _ HN) as Hnx. destruct (num_loop_ok a (setn a n N)) with (fuel := 256%nat) (i := 0%nat) (num := n_num n) (k := n_num n) as (k & Hk & Hkr & Hkn); [done| |done|done| | |].
  { intros b Hb. destruct (no_nifs _ HN2 b Hb) as (m & Em & _). by exists m. } { rewrite Hnum. destruct (Z.eqb_spec (netif_num N) 255); lia. } { intros x Hx. by apply elem_of_nil in Hx. }
  rewrite Hk. cbn [rbind]. rewrite (updn_setn a _ n) by apply nifs_setn. cbn [rbind]. rewrite setn_setn. rewrite Hnums in Hkn. eexists a, _. split; [done|]. cbn.
  split_and!; try done; [|intros b Hb; apply lookup_insert_ne; congruence|exists k; split_and!; [lia|lia|done|apply lookup_insert_eq]].
  assert (Hfree : forall b m, b ∈ netif_list N -> nifs N !! b = Some m -> n_num m <> k).
  { intros b m Hb Em <-. apply Hkn. unfold nums. assert (n_num m = num_of N b) as -> by (unfold num_of; by rewrite Em). by apply list_elem_of_In, in_map, list_elem_of_In. }
  destruct HN as [H1 H2 H3 H4 H5 H6]. split; cbn; try done.
  - split; [constructor; [done|apply H1]|]. apply not_elem_of_cons. split; [congruence|]. apply H1.
  - intros b [->|Hb]%elem_of_cons; [rewrite lookup_insert_eq; eexists; split; [done|]; cbn; lia|]. rewrite lookup_insert_ne by (intros ->; done). auto.
  - intros b c n2 n3 [->|Hb]%elem_of_cons [->|Hc]%elem_of_cons; [done| | |].
    + rewrite lookup_insert_eq, lookup_insert_ne by (intros ->; done). intros [= <-] Ec Hx. cbn in Hx. by destruct (Hfree c n3 Hc Ec).
    + rewrite lookup_insert_eq, lookup_insert_ne by (intros ->; done). intros Eb [= <-] Hx. cbn in Hx. by destruct (Hfree b n2 Hb Eb).
    + rewrite !lookup_insert_ne by (intros ->; done). by apply H3.
  - destruct (Z.eqb_spec k 254); [lia|]. rewrite u8_id by zlia. lia.
Qed.

Lemma setn_keep a n n' N : net_ok N -> nifs N !! a = Some n -> n_num n' = n_num n -> net_ok (setn a n' N).
Proof.
  intros [H1 H2 H3 H4 H5 H6] E En. split; try done; cbn.
  - intros b Hb. destruct (H2 b Hb) as (m & Em & Hm). destruct (Z.eq_dec b a) as [->|Hn]; [|by rewrite lookup_insert_ne; eauto]. rewrite lookup_insert_eq. exists n'. split; [done|]. rewrite En. by assert (n = m) as -> by congruence.
  - assert (Hs : forall x m, <[a := n']> (nifs N) !! x = Some m -> exists m', nifs N !! x = Some m' /\ n_num m' = n_num m).
    { intros x m. destruct (Z.eq_dec x a) as [->|Hn]; [rewrite lookup_insert_eq; intros [= <-]; eauto|rewrite lookup_insert_ne by done; eauto]. }
    intros b c n1 n2 Hb Hc (m1 & E1 & K1)%Hs (m2 & E2 & K2)%Hs Hx. apply (H3 b c m1 m2); [done|done|done|done|congruence].
Qed.

(** The interfaces are as before. *)
Definition same_nifs (N N' : net) : Prop :=
  nifs N' = nifs N /\ netif_list N' = netif_list N /\ netif_default N' = netif_default N /\ netif_num N' = netif_num N.

(** What a change of address does to the protocols. *)
Definition addr_changed (old : Z) (new : option Z) (N N' : net) : Prop :=
  raw N' = raw_netif_ip_addr_changed (Some old) new (raw N)
  /\ if old =? IPADDR_ANY then tcp N' = tcp N else moved old new (tcp N) (tcp N').

Lemma ip_addr_changed_ok old new N : net_ok N -> post (netif_do_ip_addr_changed (Some old) new N) (fun N' => net_ok N' /\ same_nifs N N' /\ addr_changed old new N N').
Proof.
  intros HN. unfold netif_do_ip_addr_changed, addr_changed. set (R := raw_netif_ip_addr_changed _ _ _). assert (HR : NoDup (raw_elems R)) by (unfold R; rewrite raw_addr_changed_elems; apply HN). destruct (Z.eqb_spec old IPADDR_ANY) as [->|Ho].
  - cbn. split_and!; try done. destruct HN. by split.
  - eapply post_bind; [apply (tcp_changed_ok (ip := net_ip N)); [apply HN|done]|]. intros t M. cbn. split_and!; try done. destruct HN. split; try done. apply M.
Qed.

Lemma set_ipaddr_ok a i n N : net_ok N -> nifs N !! a = Some n ->
  post (netif_do_set_ipaddr a i N) (fun '(b, N') => net_ok N' /\ netif_list N' = netif_list N /\ netif_default N' = netif_default N
    /\ nifs N' = <[a := n <| n_ip_addr := i |>]> (nifs N) /\ b = negb (i =? n_ip_addr n)
    /\ if i =? n_ip_addr n then tcp N' = tcp N /\ raw N' = raw N else addr_changed (n_ip_addr n) (Some i) N N').
Proof.
  intros HN E. unfold netif_do_set_ipaddr, getn. rewrite E. cbn [rbind]. destruct (Z.eqb_spec i (n_ip_addr n)) as [->|Hi]; cbn [negb].
  - cbn. split_and!; try done. rewrite insert_id; [done|]. rewrite E. by destruct n.
  - eapply post_bind; [by apply ip_addr_changed_ok|]. intros N1 (H1 & (S1 & S2 & S3 & S4) & H3). rewrite (updn_setn a _ n) by (by rewrite S1). cbn. split_and!; try done; [|by rewrite S1]. apply (setn_keep a n); [done|by rewrite S1|done].
Qed.

Lemma netif_remove_ok a n N : net_ok N -> nifs N !! a = Some n -> a <> 0 ->
  post (netif_remove a N) (fun N' => net_ok N' /\ netif_list N' = nif_unlink a (netif_list N) /\ netif_default N' = (if netif_default N =? a then 0 else netif_default N)
    /\ addr_changed (n_ip_addr n) None N N' /\ nifs N' = <[a := if netif_is_up n then netif_clear_flags NETIF_FLAG_UP n else n]> (nifs N)).
Proof.
  intros HN E Ha. unfold netif_remove. rewrite (proj2 (Z.eqb_neq _ _)) by done. unfold getn at 1. rewrite E. cbn [rbind].
  eapply (post_bind _ _ (fun N1 => net_ok N1 /\ same_nifs N N1 /\ addr_changed (n_ip_addr n) None N N1)).
  { destruct (Z.eqb_spec (n_ip_addr n) IPADDR_ANY) as [Hz|Hz]; cbn [negb]; [|by apply ip_addr_changed_ok]. cbn. unfold addr_changed. rewrite Hz. by split_and!. }
  intros N1 (H1 & (S1 & S2 & S3 & S4) & H3). unfold getn at 1. rewrite S1, E. cbn [rbind]. set (n2 := if netif_is_up n then _ else n).
  assert (E2 : (if netif_is_up n then netif_set_down a N1 else Ok N1) = Ok (setn a n2 N1)).
  { unfold n2. destruct (netif_is_up n) eqn:Eu; [|by rewrite setn_id by by rewrite S1]. unfold netif_set_down. rewrite (proj2 (Z.eqb_neq _ _)) by done. unfold getn. rewrite S1, E. cbn [rbind]. unfold netif_is_up in Eu. rewrite Eu. by rewrite (updn_setn a _ n) by by rewrite S1. }
  rewrite E2. cbn [rbind post]. assert (Hu : net_ok (setn a n2 N1)) by (apply (setn_keep a n); [done|by rewrite S1|unfold n2; by destruct (netif_is_up n)]).
  assert (Hsub : nif_unlink a (netif_list N1) `sublist_of` netif_list N1) by (generalize (netif_list N1); induction l as [|b l IH]; [done|]; cbn; destruct (_ =? _); [by constructor|by constructor]).
  split_and!.
  - destruct Hu as [U1 U2 U3 U4 U5 U6]. assert (Hin : forall b, b ∈ nif_unlink a (netif_list N1) -> b ∈ netif_list N1) by (intros b Hb; by eapply elem_of_sublist).
    split; destruct (_ =? a); cbn in *; try done; try (split; [by eapply sublist_NoDup; [|exact Hsub]; apply U1|intros H0; apply U1, Hin, H0]); auto; intros b c m1 m2 Hb Hc; apply U3; auto.
  - destruct (_ =? a); cbn; by rewrite S2.
  - cbn. rewrite S3. destruct (_ =? a); cbn; congruence.
  - unfold addr_changed in *. destruct (_ =? a); by cbn.
  - destruct (_ =? a); cbn; by rewrite S1.
Qed.
End NetOps.
