(* ===== verification/NetifProps.v ===== *)
(** * NetifProps: the theorems about interfaces

    Over the lemmas of NetifFacts, each with a concrete state that meets its
    hypotheses. *)

From S2P Require Import Prelude Def Ip4Addr Opts TcpPcb TcpOut TcpIn TcpRun TcpStack TcpInput TcpTimer TcpSafety TcpSafeIn TcpSafeApi TcpProps Ip4Hdr Raw Netif NetifFacts.

Section Props.
Context {o : Opts}.

(** C30: while there are fewer than 255 interfaces, [netif_add] ends and gives
    the new interface a number from 0 to 254 that no other has (so that the
    index, number plus one, is from 1 to 255 and unique), puts it in front of
    the list and leaves the other interfaces, TCP and the raw pcbs alone; if the
    driver fails, the list stays as it is. *)
Theorem netif_add_unique a ip mk gw st init inp n0 N : net_ok N -> a <> 0 -> a ∉ netif_list N -> nifs N !! a = Some n0 ->
  lenz (netif_list N) < 255 -> (forall n, n_num (init n).2 = n_num n) ->
  exists r N', netif_add a ip mk gw st (Some init) inp N = Ok (r, N') /\ net_ok N' /\ tcp N' = tcp N /\ raw N' = raw N
  /\ (forall b, b <> a -> nifs N' !! b = nifs N !! b)
  /\ (r = 0 -> netif_list N' = netif_list N)
  /\ (r <> 0 -> r = a /\ netif_list N' = a :: netif_list N /\ exists n, nifs N' !! a = Some n /\ 1 <= nif_index n <= 255 /\ nif_index n = n_num n + 1
       /\ forall b m, b ∈ netif_list N -> nifs N !! b = Some m -> n_num m <> n_num n).
Proof.
  intros HN Ha Hl E0 Hlen Hin. pose proof (netif_add_facts a ip mk gw st init inp n0 N HN Ha Hl E0 Hlen Hin) as H. destruct (init _) as [e n]. destruct H as (r & N' & H1 & H2 & H3 & H4 & _ & H6 & H7). exists r, N'. split_and!; try done.
  - intros ->. destruct (err_ok e); [by destruct H7|by destruct H7 as [_ H7]].
  - intros Hr. destruct (err_ok e); [|by destruct H7]. destruct H7 as (-> & Hls & k & Hk & Hkn & Ek). split_and!; try done. eexists. split; [exact Ek|]. unfold nif_index. cbn. rewrite u8_id by zlia. split_and!; [lia|lia|lia|].
    intros b m Hb Em <-. apply Hkn. unfold nums. assert (n_num m = num_of N b) as -> by (unfold num_of; by rewrite Em). by apply list_elem_of_In, in_map, list_elem_of_In.
Qed.

(** With 255 interfaces all numbers are taken, and [netif_add] does not
    fail: the search for a number runs forever (no number of rounds is enough),
    since its inner loop always stops before it has counted more than 255. *)
Theorem netif_add_full a ip mk gw st init inp n0 N : net_ok N -> a <> 0 -> a ∉ netif_list N -> nifs N !! a = Some n0 ->
  lenz (netif_list N) = 255 -> (forall n, n_num (init n).2 = n_num n /\ err_ok (init n).1 = true) ->
  netif_add a ip mk gw st (Some init) inp N = Stuck /\ forall fuel num, 0 <= num <= 255 -> num_loop fuel a num N = Stuck.
Proof.
  intros HN Ha Hl E0 Hlen Hin.
  assert (Hlive : forall b, b ∈ netif_list N -> is_Some (nifs N !! b)) by (intros b Hb; destruct (no_nifs _ HN b Hb) as (m & Em & _); by exists m).
  assert (Hall : forall k, 0 <= k <= 254 -> k ∈ nums N).
  { intros k Hk. assert (Hnd : NoDup (nums N)).
    { unfold nums. apply NoDup_fmap_2_strong; [|apply HN]. intros x y Hx Hy Exy. destruct (no_nifs _ HN x Hx) as (n & En & _), (no_nifs _ HN y Hy) as (m & Em & _). unfold num_of in Exy. rewrite En, Em in Exy. by eapply (no_nums _ HN). }
    assert (Hin' : incl (map Z.of_nat (seq 0 255)) (nums N)); [|apply list_elem_of_In, Hin', in_map_iff; exists (Z.to_nat k); split; [lia|]; apply in_seq; lia].
    apply NoDup_length_incl; [by apply NoDup_ListNoDup| |].
    - unfold nums. rewrite !length_map, length_seq. unfold lenz in Hlen. lia.
    - intros x Hx. unfold nums in Hx. apply in_map_iff in Hx as (b & <- & Hb). apply list_elem_of_In in Hb. destruct (no_nifs _ HN b Hb) as (n & En & Hn). unfold num_of. rewrite En. change (default 0 (n_num <$> Some n)) with (n_num n). apply in_map_iff. exists (Z.to_nat (n_num n)). split; [lia|]. apply in_seq. lia. }
  assert (Hst : forall M, netif_list M = netif_list N -> (forall b, b <> a -> nifs M !! b = nifs N !! b) -> forall fuel num, 0 <= num <= 255 -> num_loop fuel a num M = Stuck).
  { intros M HM HMn. assert (Hnm : nums M = nums N). { unfold nums. rewrite HM. apply map_ext_in. intros b Hb. unfold num_of. rewrite HMn; [done|]. intros ->. by apply Hl, list_elem_of_In. }
    apply num_loop_stuck; [by rewrite HM| |rewrite HM; lia|by rewrite Hnm]. intros b Hb. rewrite HM in Hb. rewrite HMn by (by intros ->). auto. }
  split; [|by apply (Hst N)]. unfold netif_add. rewrite (proj2 (Z.eqb_neq _ _)) by done. unfold getn at 1. rewrite E0. cbn [rbind].
  set (n1 := mk_nif 0 0 0 inp Netif_null_output_ip4 st 0 0 (n_name n0) (netif_num N)). fold (setn a n1 N). rewrite (set_addr_fresh a n1) by (apply nifs_setn || done). cbn [rbind]. rewrite setn_setn. unfold getn. rewrite nifs_setn. cbn [rbind].
  set (n2 := n1 <| n_ip_addr := _ |> <| n_netmask := _ |> <| n_gw := _ |>). destruct (Hin n2) as [Hnum He]. destruct (init n2) as [e n]. cbn [fst snd] in *. rewrite He. cbn [negb]. rewrite Hst; [done|done| |].
  - intros b Hb. cbn. rewrite !lookup_insert_ne by congruence. done.
  - rewrite Hnum. pose proof (no_next _ HN). cbn. lia.
Qed.

(** C31: removing an interface ends every connection that uses its address and
    no other: afterwards no active or bound pcb has that local address, every
    other pcb is exactly as before, listeners and the other interfaces stay, and
    the interface is in no list and not the default. *)
Theorem netif_remove_ends_connections a n N : net_ok N -> nifs N !! a = Some n -> a <> 0 -> n_ip_addr n <> IPADDR_ANY ->
  match netif_remove a N with
  | Ok N' =>
      net_ok N' /\ a ∉ netif_list N' /\ netif_default N' <> a
      /\ (forall b, b <> a -> b ∈ netif_list N -> b ∈ netif_list N' /\ nifs N' !! b = nifs N !! b)
      /\ (forall y c, y ∈ tcp_active_pcbs (tcp N') ++ tcp_bound_pcbs (tcp N') -> pcbs (tcp N') !! y = Some c -> local_ip (core c) <> n_ip_addr n)
      /\ (forall y c, pcbs (tcp N) !! y = Some c -> local_ip (core c) <> n_ip_addr n -> pcbs (tcp N') !! y = Some c)
      /\ (forall y c, pcbs (tcp N') !! y = Some c -> pcbs (tcp N) !! y = Some c)
  | Failed => True
  | _ => False
  end.
Proof.
  intros HN E Ha Hi. pose proof (netif_remove_ok a n N HN E Ha) as H. destruct (netif_remove a N) as [N'| | |]; try done. destruct H as (H1 & H2 & H3 & [_ H4] & H5). rewrite (proj2 (Z.eqb_neq _ _)) in H4 by done.
  pose proof (no_list _ HN) as [Hnd _]. split_and!; try apply H4; try done.
  - rewrite H2. revert Hnd. generalize (netif_list N). induction l as [|b l IH]; [by intros _ ?%elem_of_nil|]. intros [Hb Hnd]%NoDup_cons. cbn. destruct (Z.eqb_spec b a) as [->|Hn]; [done|]. rewrite not_elem_of_cons. split; [congruence|auto].
  - rewrite H3. destruct (Z.eqb_spec (netif_default N) a); congruence.
  - intros b Hb Hin. rewrite H2, H5, lookup_insert_ne by congruence. split; [|done]. revert Hin. generalize (netif_list N). induction l as [|x l IH]; [done|]. cbn. rewrite elem_of_cons. intros [->|Hin]; (destruct (Z.eqb_spec x a); [try done|]).
    + left.
    + right. auto.
Qed.

(** ** Names *)
Lemma nif_first_unique f a n l N : a ∈ l -> nifs N !! a = Some n -> f n = true ->
  (forall b m, b ∈ l -> nifs N !! b = Some m -> f m = true -> b = a) -> nif_first f l N = Some (a, n).
Proof.
  intros Hin E Hf Hu. induction l as [|b l IH]; [by apply elem_of_nil in Hin|]. cbn. destruct (Z.eq_dec b a) as [->|Hn]; [by rewrite E, Hf|].
  assert (Hin' : a ∈ l) by (apply elem_of_cons in Hin as [->|?]; done). assert (Hu' : forall b m, b ∈ l -> nifs N !! b = Some m -> f m = true -> b = a) by (intros c m Hc; apply Hu; by right).
  destruct (nifs N !! b) as [m|] eqn:Eb; [|auto]. destruct (f m) eqn:Ef; [|auto]. destruct Hn. apply (Hu b m); [left|done|done].
Qed.

(** The digits of a number are read back; the rest of the buffer is not read. *)
Lemma itoa_atoi x y z w k : 0 <= k <= 254 -> atoi (lwip_itoa [x; y; z; w] k) = k /\ (k = 0 -> nth 0 (lwip_itoa [x; y; z; w] k) 0 = 48).
Proof.
  intros Hk. assert (H : map (fun i => (atoi (lwip_itoa [x; y; z; w] (Z.of_nat i)), (Z.of_nat i =? 0) && negb (nth 0 (lwip_itoa [x; y; z; w] (Z.of_nat i)) 0 =? 48))) (seq 0 255) = map (fun i => (Z.of_nat i, false)) (seq 0 255)) by (vm_compute; reflexivity).
  assert (Hi : In (Z.to_nat k) (seq 0 255)) by (apply in_seq; lia). pose proof (proj1 map_ext_in_iff H (Z.to_nat k) Hi) as H'. clear H. rename H' into H. cbn beta in H. rewrite Z2Nat.id in H by lia. injection H as H1 H2. split; [done|]. intros ->. cbn [Z.eqb andb] in H2. by apply negb_false_iff, Z.eqb_eq in H2.
Qed.

(** Names and indices of interfaces correspond: the name that
    [netif_index_to_name] writes for an interface's index is found again by
    [netif_find] and [netif_name_to_index], whatever the buffer held. *)
Theorem netif_name_roundtrip a n buf N : net_ok N -> a ∈ netif_list N -> nifs N !! a = Some n -> lenz buf = NETIF_NAMESIZE ->
  netif_get_by_index (nif_index n) N = Some (a, n)
  /\ exists name, netif_index_to_name (nif_index n) buf N = Some name /\ netif_find (Some name) N = Some (a, n) /\ netif_name_to_index (Some name) N = nif_index n.
Proof.
  intros HN Hin E Hb. destruct (no_nifs _ HN a Hin) as (n' & E' & Hn). rewrite E in E'. injection E' as <-. assert (Hx : nif_index n = n_num n + 1) by (apply u8_id; zlia).
  assert (Hg : netif_get_by_index (nif_index n) N = Some (a, n)).
  { unfold netif_get_by_index. rewrite Hx. change NETIF_NO_INDEX with 0. rewrite (proj2 (Z.eqb_neq _ _)) by lia. cbn [negb]. apply nif_first_unique; [done|done|rewrite Hx; lia|]. intros b m Hbl Em Hi. destruct (no_nifs _ HN b Hbl) as (m' & Em' & Hm). rewrite Em in Em'. injection Em' as <-.
    assert (Hxm : nif_index m = n_num m + 1) by (apply u8_id; zlia). apply (no_nums _ HN b a m n); try done. lia. }
  split; [done|]. unfold netif_index_to_name, netif_name_to_index. rewrite Hg. eexists. split; [done|].
  assert (Hf : netif_find (Some ((n_name n).1 :: (n_name n).2 :: lwip_itoa (drop 2 buf) (nif_index n - 1))) N = Some (a, n)); [|by rewrite Hf].
  assert (Hl : exists x y z w, drop 2 buf = [x; y; z; w]) by (destruct buf as [|? [|? [|x [|y [|z [|w [|? ?]]]]]]]; unfold lenz, NETIF_NAMESIZE in Hb; cbn in Hb; try lia; by exists x, y, z, w). destruct Hl as (x & y & z & w & ->).
  rewrite Hx. replace (n_num n + 1 - 1) with (n_num n) by lia. destruct (itoa_atoi x y z w (n_num n) Hn) as [H1 H2]. unfold netif_find. assert (Hd : forall (c d : Z) l, drop 2 (c :: d :: l) = l) by done. rewrite Hd, H1. rewrite (u8_id (n_num n)) by zlia.
  assert (Hz : (n_num n =? 0) && negb (nth 2 ((n_name n).1 :: (n_name n).2 :: lwip_itoa [x; y; z; w] (n_num n)) 0 =? 48) = false).
  { destruct (Z.eqb_spec (n_num n) 0) as [H0|H0]; [|done]. cbn [nth andb]. rewrite (H2 H0). done. }
  rewrite Hz. apply nif_first_unique; [done|done|cbn; by rewrite !Z.eqb_refl|]. intros b m Hbl Em Hi. apply (no_nums _ HN b a m n); try done. cbn in Hi. lia.
Qed.
End Props.

(** ** Examples *)
Section Demo.
#[local] Existing Instances ios.

(** [k] interfaces at the addresses 1 to [k], and a free structure at 1000. *)
Definition demo_nif (i : nat) : nif := mk_nif (IP4_ADDR 198 18 0 1 + Z.of_nat i) (IP4_ADDR 255 255 0 0) 0 true DriverOutput 7 1500 5 (84, 70) (Z.of_nat i).
Definition demo_nifs (k : nat) : gmap Z nif :=
  <[1000 := mk_nif 0 0 0 false Netif_null_output_ip4 0 0 0 (0, 0) 0]> (list_to_map (map (fun i => (Z.of_nat (S i), demo_nif i)) (seq 0 k))).
(** Two pcbs, bound to the addresses of the first interface and of another host. *)
Definition demo_tcp : stack := Eval vm_compute in
  match run_ops (ip := demo_ip) [OpNew; OpBind 10 (IP4_ADDR 198 18 0 1) 80; OpNew; OpBind 11 (IP4_ADDR 10 0 0 1) 81] (boot [10; 11] [20] [] (mk_app [] [] [] [] [])) with
  | Ok t => t | _ => boot [] [] [] (mk_app [] [] [] [] []) end.
Definition demo_net (k : nat) : net := mk_net (demo_nifs k) (map (fun i => Z.of_nat (S i)) (seq 0 k)) 1 (if Nat.eqb k 255 then 0 else Z.of_nat k) (mk_raw_st [] [30; 31]) demo_tcp.

Lemma demo_tcp_safe : safe demo_tcp.
Proof.
  assert (Hb : safe (boot [10; 11] [20] [] (mk_app [] [] [] [] []))) by (apply boot_safe; [split; split; (apply (bool_decide_unpack _); reflexivity) || (cbn; rewrite ?not_elem_of_cons; split_and!; try lia; apply not_elem_of_nil)|split; constructor]).
  assert (E : run_ops (ip := demo_ip) [OpNew; OpBind 10 (IP4_ADDR 198 18 0 1) 80; OpNew; OpBind 11 (IP4_ADDR 10 0 0 1) 81] (boot [10; 11] [20] [] (mk_app [] [] [] [] [])) = Ok demo_tcp) by (vm_compute; reflexivity).
  pose proof (run_ops_ok (ip := demo_ip) [OpNew; OpBind 10 (IP4_ADDR 198 18 0 1) 80; OpNew; OpBind 11 (IP4_ADDR 10 0 0 1) 81] _ Hb) as H. by rewrite E in H.
Qed.

Lemma demo_net_ok k : (k <= 255)%nat -> net_ok (demo_net k).
Proof.
  intros Hk. assert (Hin : forall a, a ∈ netif_list (demo_net k) -> exists i, (i < k)%nat /\ a = Z.of_nat (S i)).
  { intros a Ha. cbn in Ha. apply list_elem_of_In, in_map_iff in Ha as (i & <- & Hi). apply in_seq in Hi. exists i. split; [lia|done]. }
  assert (Hn : forall i, (i < k)%nat -> nifs (demo_net k) !! Z.of_nat (S i) = Some (demo_nif i)).
  { intros i Hi. cbn. unfold demo_nifs. rewrite lookup_insert_ne by lia. apply elem_of_list_to_map_1; [|apply list_elem_of_In, in_map_iff; exists i; split; [done|apply in_seq; lia]].
    rewrite map_map. cbn. apply NoDup_fmap_2_strong; [intros x y _ _; lia|apply NoDup_seq]. }
  split.
  - split; [apply NoDup_fmap_2_strong; [intros x y _ _; lia|apply NoDup_seq]|]. intros (i & _ & Hi)%Hin. lia.
  - intros a (i & Hi & ->)%Hin. exists (demo_nif i). split; [by apply Hn|]. cbn. lia.
  - intros a b n m (i & Hi & ->)%Hin (j & Hj & ->)%Hin. rewrite !Hn by done. intros [= <-] [= <-]. cbn. lia.
  - cbn. destruct (Nat.eqb_spec k 255); lia.
  - exact demo_tcp_safe.
  - cbn. apply (bool_decide_unpack _). reflexivity.
Qed.

Definition demo_init (n : nif) : err_t * nif := (ERR_OK, n <| n_mtu := 1500 |> <| n_flags := 5 |>).

Lemma netif_add_unique_witness : exists r N', netif_add 1000 (Some 5) None None 9 (Some demo_init) true (demo_net 3) = Ok (r, N') /\ r <> 0 /\ netif_list N' = [1000; 1; 2; 3]
  /\ exists n, nifs N' !! 1000 = Some n /\ nif_index n = 4.
Proof.
  destruct (netif_add_unique 1000 (Some 5) None None 9 demo_init true (mk_nif 0 0 0 false Netif_null_output_ip4 0 0 0 (0, 0) 0) (demo_net 3)) as (r & N' & E & _ & _ & _ & _ & _ & H).
  - apply demo_net_ok. lia.
  - lia.
  - apply (bool_decide_unpack _). reflexivity.
  - reflexivity.
  - cbn. unfold lenz. cbn. lia.
  - done.
  - exists r, N'. split; [exact E|]. vm_compute in E. injection E as <- <-. split; [lia|]. split; [reflexivity|]. eexists. split; [reflexivity|]. reflexivity.
Defined.

Lemma netif_add_full_witness : lenz (netif_list (demo_net 255)) = 255 /\ netif_add 1000 (Some 5) None None 9 (Some demo_init) true (demo_net 255) = Stuck.
Proof.
  split; [reflexivity|]. apply (netif_add_full 1000 (Some 5) None None 9 demo_init true (mk_nif 0 0 0 false Netif_null_output_ip4 0 0 0 (0, 0) 0) (demo_net 255)).
  - apply demo_net_ok. lia.
  - lia.
  - apply (bool_decide_unpack _). vm_compute. reflexivity.
  - vm_compute. reflexivity.
  - reflexivity.
  - done.
Defined.

Lemma netif_remove_ends_connections_witness : exists N', netif_remove 1 (demo_net 3) = Ok N' /\ netif_list N' = [2; 3] /\ pcbs (tcp N') !! 10 = None /\ pcbs (tcp N') !! 11 = pcbs demo_tcp !! 11
  /\ net_ok N'.
Proof.
  pose proof (netif_remove_ends_connections 1 (demo_nif 0) (demo_net 3)) as H. destruct (netif_remove 1 (demo_net 3)) as [N'| | |] eqn:E.
  - exists N'. split; [reflexivity|]. assert (Hok : net_ok N') by (apply H; [apply demo_net_ok; lia|reflexivity|lia|vm_compute; lia]). vm_compute in E. injection E as <-. split_and!; [reflexivity|reflexivity|reflexivity|exact Hok].
  - vm_compute in E. discriminate E.
  - vm_compute in E. discriminate E.
  - vm_compute in E. discriminate E.
Defined.

Lemma netif_name_roundtrip_witness : exists name, netif_index_to_name 3 [9; 9; 9; 9; 9; 9] (demo_net 5) = Some name /\ netif_name_to_index (Some name) (demo_net 5) = 3.
Proof.
  destruct (netif_name_roundtrip 3 (demo_nif 2) [9; 9; 9; 9; 9; 9] (demo_net 5)) as [_ (name & H1 & _ & H2)].
  - apply demo_net_ok. lia.
  - apply (bool_decide_unpack _). reflexivity.
  - reflexivity.
  - reflexivity.
  - exists name. split; [exact H1|exact H2].
Defined.
End Demo.
