(* ===== verification/Ip4Out.v ===== *)
(** * Ip4Out: sending IPv4 packets

    The output half of src/Sources/Lwip/src/core/ipv4/ip4.c in the configuration
    of lwipopts.h (header checksum computed inline, no IP options, no loopback,
    the TunForge routing hook), and the sending functions of
    src/Sources/Lwip/src/core/raw.c.  A packet to send is known with the bytes of
    memory in front of its payload, where headers go, and its reference count.
    What goes to the driver's [output] is recorded in [tx]; its result is a
    parameter. *)

From S2P Require Import Prelude Def Ip4Addr Opts Chksum TcpPcb TcpOut TcpStack TcpInput Ip4Hdr Ip4Frag Raw Netif.

Record opkt := mk_opkt { o_room : list Z; o_pkt : pkt; o_ref : Z }.
#[export] Instance eta_opkt : Eta opkt := fun p => mk_opkt (o_room p) (o_pkt p) (o_ref p).

(** [pbuf_add_header]: [None] when it fails. *)
Definition pbuf_add_header (n : Z) (p : opkt) : option opkt :=
  if (u16 (n + p_tot (o_pkt p)) <? n) || (lenz (o_room p) <? n) then None
  else match p_bufs (o_pkt p) with
  | b :: l =>
      let k := lenz (o_room p) - n in
      Some (mk_opkt (takez k (o_room p))
              (mk_pkt (u16 (p_tot (o_pkt p) + n)) (b <| b_data := dropz k (o_room p) ++ b_data b |> :: l) (p_rest (o_pkt p))) (o_ref p))
  | [] => None
  end.
Definition opbuf_remove_header (n : Z) (p : opkt) : option opkt :=
  if p_len (o_pkt p) <? n then None
  else Some (mk_opkt (o_room p ++ takez n (p_payload (o_pkt p))) (pbuf_remove_header n (o_pkt p)) (o_ref p)).

Record ipout := mk_ipout { ip_id : Z; ip_allocs : list bool; tx : list chain }.
#[export] Instance eta_ipout : Eta ipout := fun s => mk_ipout (ip_id s) (ip_allocs s) (tx s).

Section Output.
(** The result of the driver's [output]. *)
Variable driver : chain -> err_t.

Definition netif_output (n : nif) (c : chain) (s : ipout) : err_t * ipout :=
  match n_output n with
  | Netif_null_output_ip4 => (ERR_IF, s)
  | DriverOutput => (driver c, s <| tx := tx s ++ [c] |>)
  end.

(** The header [ip4_output_if_src] writes over [h], with its checksum summed up
    on the way. *)
Definition output_hdr (h : list Z) (src dest ttl tos proto tot_len id : Z) : list Z :=
  let h := IPH_PROTO_SET (IPH_TTL_SET h ttl) proto in
  let chk_sum := u32 (0 + PP_HTONS (Z.lor proto (Z.shiftl ttl 8))) in
  let h := st32 h 16 dest in
  let chk_sum := u32 (chk_sum + Z.land (IPH_DEST h) 65535) in
  let chk_sum := u32 (chk_sum + Z.shiftr (IPH_DEST h) 16) in
  let h := IPH_TOS_SET (IPH_VHL_SET h 4 (IP_HLEN / 4)) tos in
  let chk_sum := u32 (chk_sum + PP_HTONS (Z.lor tos (Z.shiftl (ld8 h 0) 8))) in
  let h := IPH_LEN_SET h (lwip_htons tot_len) in
  let chk_sum := u32 (chk_sum + IPH_LEN h) in
  let h := IPH_ID_SET (IPH_OFFSET_SET h 0) (lwip_htons id) in
  let chk_sum := u32 (chk_sum + IPH_ID h) in
  let h := st32 h 12 src in
  let chk_sum := u32 (chk_sum + Z.land (IPH_SRC h) 65535) in
  let chk_sum := u32 (chk_sum + Z.shiftr (IPH_SRC h) 16) in
  let chk_sum := u32 (Z.shiftr chk_sum 16 + Z.land chk_sum 65535) in
  let chk_sum := u32 (Z.shiftr chk_sum 16 + chk_sum) in
  let chk_sum := u32 (Z.lnot chk_sum) in
  IPH_CHKSUM_SET h (u16 chk_sum).

(** From the check against the MTU on. *)
Definition ip4_transmit (p : opkt) (n : nif) (s : ipout) : option (err_t * opkt * ipout) :=
  if negb (n_mtu n =? 0) && (n_mtu n <? p_tot (o_pkt p)) then
    let? (e, frags, al) := ip4_frag (o_pkt p) (n_mtu n) (ip_allocs s) in
    let s := s <| ip_allocs := al |> in
    Some (e, p, match n_output n with DriverOutput => s <| tx := tx s ++ frags |> | Netif_null_output_ip4 => s end)
  else let (e, s) := netif_output n (p_chain (o_pkt p)) s in Some (e, p, s).

(** [dest] is [None] for [LWIP_IP_HDRINCL], [src] is [None] for NULL.  The packet
    is returned as it is left. *)
Definition ip4_output_if_src (p : opkt) (src dest : option Z) (ttl tos proto : Z) (n : nif) (s : ipout) : option (err_t * opkt * ipout) :=
  assert! (o_ref p =? 1) in
  match dest with
  | Some dest =>
      match pbuf_add_header IP_HLEN p with
      | None => Some (ERR_BUF, p, s)
      | Some p =>
          assert! (IP_HLEN <=? p_len (o_pkt p)) in
          let h := output_hdr (iphdr_of (o_pkt p)) (default IPADDR_ANY src) dest ttl tos proto (p_tot (o_pkt p)) (ip_id s) in
          ip4_transmit (p <| o_pkt := set_iphdr h (o_pkt p) |>) n (s <| ip_id := u16 (ip_id s + 1) |>)
      end
  | None => if p_len (o_pkt p) <? IP_HLEN then Some (ERR_BUF, p, s) else ip4_transmit p n s
  end.

Definition ip4_output_if (p : opkt) (src dest : option Z) (ttl tos proto : Z) (n : nif) (s : ipout) : option (err_t * opkt * ipout) :=
  let src_used := match dest with Some _ => if ip_addr_isany src then Some (n_ip_addr n) else src | None => src end in
  ip4_output_if_src p src_used dest ttl tos proto n s.

(** The TunForge hook: the default interface, else the first one. *)
Definition ip4_output (p : opkt) (src dest : option Z) (ttl tos proto : Z) (N : net) (s : ipout) : option (err_t * opkt * ipout) :=
  let a := if negb (netif_default N =? 0) then netif_default N else hd 0 (netif_list N) in
  match nifs N !! a with
  | Some n => if a =? 0 then Some (ERR_RTE, p, s) else ip4_output_if p src dest ttl tos proto n s
  | None => Some (ERR_RTE, p, s)
  end.

(** ** Raw pcbs *)

(** A buffer for a header: its address and the memory in front of its (empty)
    payload, which [pbuf_alloc(PBUF_IP, 0, PBUF_RAM)] provides. *)
Variable header_buf : Z * list Z.

(** The packet that is sent, and whether it is the caller's. *)
Definition raw_header (p : opkt) (s : ipout) : option (err_t + (opkt * bool)) * ipout :=
  match pbuf_add_header IP_HLEN p with
  | None =>
      let (ok, al) := take_alloc (ip_allocs s) in
      let s := s <| ip_allocs := al |> in
      if ok : bool then
        let q := mk_buf (fst header_buf) [] in
        if negb (p_tot (o_pkt p) =? 0) then
          (Some (inr (mk_opkt (snd header_buf) (mk_pkt (p_tot (o_pkt p)) (q :: p_bufs (o_pkt p)) []) 1, false)), s)
        else (Some (inr (mk_opkt (snd header_buf) (mk_pkt 0 [q] []) 1, false)), s)
      else (Some (inl ERR_MEM), s)
  | Some q => match opbuf_remove_header IP_HLEN q with Some q => (Some (inr (q, true)), s) | None => (None, s) end
  end.

Definition raw_sendto_if_src (w : raw_pcb) (p : opkt) (dst_ip : option Z) (n : option nif) (src_ip : option Z) (s : ipout) : option (err_t * opkt * ipout) :=
  match dst_ip, n, src_ip with
  | Some dst, Some n, Some src =>
      if flag_set (w_flags w) RAW_FLAGS_HDRINCL then
        if p_len (o_pkt p) <? IP_HLEN then Some (ERR_VAL, p, s)
        else ip4_output_if p src_ip None 0 0 0 n s
      else if u16 (p_tot (o_pkt p) + IP_HLEN) <? p_tot (o_pkt p) then Some (ERR_MEM, p, s)
      else
        let (r, s) := raw_header p s in
        let? r := r in
        match r with
        | inl e => Some (e, p, s)
        | inr (q, own) =>
            let? (e, q, s) := ip4_output_if q (Some src) (Some dst) (w_ttl w) (w_tos w) (w_protocol w) n s in
            Some (e, if own : bool then q else p, s)
        end
  | _, _, _ => Some (ERR_VAL, p, s)
  end.

Definition raw_sendto (w : raw_pcb) (p : opkt) (ipaddr : option Z) (N : net) (s : ipout) : option (err_t * opkt * ipout) :=
  match ipaddr with
  | None => Some (ERR_VAL, p, s)
  | Some dst =>
      let netif := if negb (w_netif_idx w =? NETIF_NO_INDEX) then netif_get_by_index (w_netif_idx w) N else ip4_route dst N in
      match netif with
      | None => Some (ERR_RTE, p, s)
      | Some (_, n) =>
          let src_ip := if (w_local_ip w =? IPADDR_ANY) || ip4_addr_ismulticast (w_local_ip w) then n_ip_addr n else w_local_ip w in
          raw_sendto_if_src w p ipaddr (Some n) (Some src_ip) s
      end
  end.

Definition raw_send (w : raw_pcb) (p : opkt) (N : net) (s : ipout) : option (err_t * opkt * ipout) := raw_sendto w p (Some (w_remote_ip w)) N s.
End Output.
