(* ===== verification/Ip4OutFacts.v ===== *)
(** * Ip4OutFacts: what sending IPv4 packets guarantees

    The header [ip4_output_if] writes is correct, its inline checksum included,
    and what is sent is received: [ip4_input] accepts it and hands its data to
    the protocol above. *)

From S2P Require Import Prelude Def Ip4Addr Opts Chksum TcpPcb TcpOut TcpStack TcpInput Ip4Hdr Ip4Frag Ip4FragFacts Ip4Reass Ip4FragOut Raw Netif Ip4Out.

(** ** The header *)

(** What the header must say. *)
Record hdr_ok (h : list Z) (src dest ttl tos proto tot id : Z) : Prop := {
  ho_len : lenz h = 20;
  ho_u8 : Forall is_u8 h;
  ho_v : IPH_V h = 4;
  ho_hl : IPH_HL_BYTES h = 20;
  ho_tos : IPH_TOS h = tos;
  ho_tot : lwip_ntohs (IPH_LEN h) = tot;
  ho_id : lwip_ntohs (IPH_ID h) = id;
  ho_off : IPH_OFFSET h = 0;
  ho_ttl : IPH_TTL h = ttl;
  ho_proto : IPH_PROTO h = proto;
  ho_src : IPH_SRC h = src;
  ho_dest : IPH_DEST h = dest;
  ho_chk : inet_chksum 0 h = 0 }.

Lemma pp_htons_pair x y : is_u8 x -> is_u8 y -> PP_HTONS (Z.lor x (Z.shiftl y 8)) = y + 256 * x.
Proof.
  intros Hx Hy. rewrite Z.lor_comm, lor_shiftl_add by zlia. change (PP_HTONS (y * 2 ^ 8 + x)) with (lwip_htons (y * 2 ^ 8 + x)). rewrite htons_eq by zlia. zlia.
Qed.

(** A word in memory order. *)
Lemma word_split x : is_u32 x -> u8 x + 256 * u8 (x / 256) + (u8 (x / 65536) + 256 * u8 (x / 65536 / 256)) = x mod 65536 + x / 65536.
Proof. intros H. zlia. Qed.

Lemma inline_chksum S : 0 < S < 655360 ->
  let c := u16 (u32 (Z.lnot (u32 (Z.shiftr (u32 (Z.shiftr S 16 + Z.land S 65535)) 16 + u32 (Z.shiftr S 16 + Z.land S 65535))))) in
  0 <= c <= 65535 /\ (S + c) mod 65535 = 0.
Proof.
  intros HS. cbv zeta. assert (HL : Z.land S 65535 = S mod 65536) by (apply (Z.land_ones S 16); lia). rewrite HL, !Z.shiftr_div_pow2 by lia. change (2 ^ 16) with 65536.
  rewrite (u32_id (S / 65536 + S mod 65536)) by zlia. set (k := S / 65536 + S mod 65536). assert (Hk : 0 < k < 65546 /\ k mod 65535 = S mod 65535) by (unfold k; lia).
  rewrite (u32_id (k / 65536 + k)) by zlia. unfold Z.lnot. zlia.
Qed.

Lemma output_hdr_ok h src dest ttl tos proto tot id : lenz h = 20 -> is_u8 ttl -> is_u8 tos -> is_u8 proto -> is_u16 tot -> is_u16 id -> is_u32 src -> is_u32 dest ->
  hdr_ok (output_hdr h src dest ttl tos proto tot id) src dest ttl tos proto tot id.
Proof.
  intros Hl Httl Htos Hpr Htot Hid Hs Hd. pose proof (htons_range tot Htot) as Ht'. pose proof (htons_range id Hid) as Hi'. unfold output_hdr. set (lt := lwip_htons tot) in *. set (li := lwip_htons id) in *. cbv zeta. rewrite pp_htons_pair by done.
  hdr. change (u8 (Z.lor (Z.shiftl 4 4) (IP_HLEN / 4))) with 69. rewrite pp_htons_pair by (done || zlia).
  assert (HL : forall x, Z.land x 65535 = x mod 65536) by (intros x; apply (Z.land_ones x 16); lia). rewrite (HL dest), (HL src), (Z.shiftr_div_pow2 dest 16), (Z.shiftr_div_pow2 src 16) by lia. change (2 ^ 16) with 65536.
  set (S := ttl + 256 * proto + dest mod 65536 + dest / 65536 + (69 + 256 * tos) + lt + li + src mod 65536 + src / 65536). assert (HS : 0 < S < 655360) by (unfold S; zlia).
  match goal with |- context [u32 (Z.shiftr ?e 16 + Z.land ?e 65535)] => assert (ES : e = S); [unfold S; rewrite !u32_id by zlia; lia|] end.
  rewrite ES. pose proof (inline_chksum S HS) as Hc. cbv zeta in Hc. set (c := u16 _) in *. destruct Hc as [Hc Hmod].
  do 20 (destruct h as [|? h]; [discriminate|]). destruct h; [|rewrite !lenz_cons in Hl; pose proof (lenz_nonneg h); lia].
  match goal with |- hdr_ok ?x _ _ _ _ _ _ _ => assert (Hx : x = [69; u8 tos; u8 lt; u8 (lt / 256); u8 li; u8 (li / 256); 0; 0; u8 ttl; u8 proto; u8 c; u8 (c / 256);
    u8 src; u8 (src / 256); u8 (src / 65536); u8 (src / 65536 / 256); u8 dest; u8 (dest / 256); u8 (dest / 65536); u8 (dest / 65536 / 256)]) by reflexivity end.
  rewrite Hx. clear Hx Hl. assert (H32 : forall x, is_u32 x -> u8 x + 256 * u8 (x / 256) + 65536 * (u8 (x / 65536) + 256 * u8 (x / 65536 / 256)) = x) by (intros x Hx; zlia).
  assert (H16 : forall x, is_u16 x -> u8 x + 256 * u8 (x / 256) = x) by (intros x Hx; zlia).
  assert (Hu : forall x, is_u8 (u8 x)) by (intros x; zlia). split; try reflexivity.
  - repeat (apply Forall_cons; split; [apply Hu || (unfold is_u8; lia)|]). constructor.
  - by apply u8_id.
  - change (lwip_ntohs (u8 lt + 256 * u8 (lt / 256)) = tot). rewrite H16 by done. by apply htons_htons.
  - change (lwip_ntohs (u8 li + 256 * u8 (li / 256)) = id). rewrite H16 by done. by apply htons_htons.
  - by apply u8_id.
  - by apply u8_id.
  - by apply H32.
  - by apply H32.
  - match goal with |- inet_chksum 0 ?l = 0 => pose proof (standard_chksum_reduced 0 l) as R end.
    match type of R with _ -> _ -> reduced ?s ?w => assert (Hw : w = S + c) end.
    { cbn [wsum negb]. rewrite (u8_id tos), (u8_id ttl), (u8_id proto) by done. pose proof (word_split src Hs). pose proof (word_split dest Hd). pose proof (H16 lt Ht'). pose proof (H16 li Hi'). pose proof (H16 c ltac:(zlia)). unfold S. lia. }
    rewrite Hw in R. unfold inet_chksum. destruct R as (R1 & R2 & R3 & R4); [repeat (apply Forall_cons; split; [apply Hu || (unfold is_u8; lia)|]); constructor|reflexivity|]. set (s := lwip_standard_chksum _ _) in *.
    assert (s = 65535) as -> by lia. reflexivity.
Qed.

(** ** Adding the header *)

(** A packet that can be sent: its lengths agree, there is room for the header in
    front of it and in its length, and nobody else holds it. *)
Record can_send (p : opkt) : Prop := {
  cs_ok : pkt_ok (o_pkt p);
  cs_ref : o_ref p = 1;
  cs_room : 20 <= lenz (o_room p) /\ Forall is_u8 (o_room p);
  cs_max : p_tot (o_pkt p) + 20 <= 65535 }.

Lemma tot_nonneg p : pkt_ok p -> 0 <= p_tot p.
Proof. intros H. rewrite (pk_tot _ H). apply lenz_nonneg. Qed.

Lemma add_header_ok p : can_send p -> exists p1, pbuf_add_header 20 p = Some p1 /\ pkt_ok (o_pkt p1) /\ p_tot (o_pkt p1) = p_tot (o_pkt p) + 20
  /\ 20 <= p_len (o_pkt p1) /\ dropz 20 (p_bytes (o_pkt p1)) = p_bytes (o_pkt p) /\ o_ref p1 = 1 /\ length (p_bufs (o_pkt p1)) = length (p_bufs (o_pkt p)).
Proof.
  intros [[H1 H2 H3 H4] Hr [Hl Hu] Hm]. pose proof (tot_nonneg (o_pkt p)) as Hn. assert (Hn' : 0 <= p_tot (o_pkt p)) by (rewrite H1; apply lenz_nonneg). unfold pbuf_add_header. rewrite (u16_id (20 + _)) by zlia.
  rewrite (proj2 (Z.ltb_ge (20 + _) 20)), (proj2 (Z.ltb_ge (lenz (o_room p)) 20)) by lia. cbn [orb]. unfold p_bytes, p_chain, cbytes in *. destruct (p_bufs (o_pkt p)) as [|b l]; [done|]. cbn [map concat] in *. rewrite (u16_id (p_tot (o_pkt p) + 20)) by zlia.
  assert (Hd : lenz (dropz (lenz (o_room p) - 20) (o_room p)) = 20) by (rewrite lenz_dropz by lia; lia).
  eexists. split; [done|]. cbn. split_and!; try done.
  - split; unfold p_bytes, p_chain, cbytes; cbn; try done.
    + rewrite !lenz_app, Hd. rewrite lenz_app in H1. lia.
    + rewrite <- !app_assoc. rewrite <- !app_assoc in H4. apply Forall_app. split; [by apply Forall_drop|]. exact H4.
  - unfold p_len. cbn. rewrite lenz_app, Hd. pose proof (lenz_nonneg (b_data b)). lia.
  - rewrite <- app_assoc. by rewrite dropz_app_eq.
Qed.

Lemma set_hdr_ok h p : pkt_ok p -> 20 <= p_len p -> lenz h = 20 -> Forall is_u8 h ->
  pkt_ok (set_iphdr h p) /\ p_bytes (set_iphdr h p) = h ++ dropz 20 (p_bytes p) /\ p_tot (set_iphdr h p) = p_tot p /\ iphdr_of (set_iphdr h p) = h /\ p_len (set_iphdr h p) = p_len p
  /\ length (p_bufs (set_iphdr h p)) = length (p_bufs p).
Proof.
  intros [H1 H2 H3 H4] Hl Hh Hu. destruct (p_bytes_set h p Hl) as [B1 B2]. pose proof (p_len_set h p Hl Hh) as Hlen.
  assert (Hd : 20 <= lenz (p_bytes p)) by (rewrite (iphdr_bytes p Hl), lenz_app, iphdr_len by done; pose proof (lenz_nonneg (dropz 20 (p_bytes p))); lia).
  split_and!; try done.
  - split; [rewrite B2, B1, lenz_app, lenz_dropz by lia; lia|unfold set_iphdr; by destruct (p_bufs p) eqn:E; [rewrite E|]|by rewrite B2|]. rewrite Forall_app in H4. destruct H4 as [H4 H5]. rewrite B1. apply Forall_app. split; [apply Forall_app; split; [done|by apply Forall_drop]|]. unfold set_iphdr. by destruct (p_bufs p).
  - pose proof (iphdr_bytes (set_iphdr h p) ltac:(lia)) as E. rewrite B1 in E at 1. apply (f_equal (takez 20)) in E. rewrite !takez_app_eq in E by (rewrite ?iphdr_len; lia). done.
  - unfold set_iphdr. destruct (p_bufs p) eqn:E; [by rewrite E|done].
Qed.

Section Send.
Context (driver : chain -> err_t).

(** The packet [p'] that goes to the check against the MTU. *)
Record outgoing (p p' : opkt) (src dest ttl tos proto id : Z) (h : list Z) : Prop := {
  og_hdr : hdr_ok h src dest ttl tos proto (p_tot (o_pkt p) + 20) id;
  og_iphdr : iphdr_of (o_pkt p') = h;
  og_ok : pkt_ok (o_pkt p');
  og_tot : p_tot (o_pkt p') = p_tot (o_pkt p) + 20;
  og_len : 20 <= p_len (o_pkt p');
  og_bytes : p_bytes (o_pkt p') = h ++ p_bytes (o_pkt p);
  og_bufs : length (p_bufs (o_pkt p')) = length (p_bufs (o_pkt p)) }.

Lemma output_ok p src dest ttl tos proto n s : can_send p -> is_u8 ttl -> is_u8 tos -> is_u8 proto -> is_u16 (ip_id s) -> is_u32 dest -> is_u32 (default IPADDR_ANY src) -> is_u32 (n_ip_addr n) ->
  exists p' h, ip4_output_if driver p src (Some dest) ttl tos proto n s = ip4_transmit driver p' n (s <| ip_id := u16 (ip_id s + 1) |>)
  /\ outgoing p p' (if ip_addr_isany src then n_ip_addr n else default IPADDR_ANY src) dest ttl tos proto (ip_id s) h.
Proof.
  intros Hp H1 H2 H3 H4 H5 H6 H7. destruct (add_header_ok p Hp) as (p1 & E1 & A1 & A2 & A3 & A4 & A5 & A6). unfold ip4_output_if, ip4_output_if_src. rewrite (cs_ref _ Hp). cbn [Z.eqb Pos.eqb].
  change IP_HLEN with 20. rewrite E1, (proj2 (Z.leb_le _ _)) by lia. set (src' := default IPADDR_ANY _).
  assert (Es : src' = if ip_addr_isany src then n_ip_addr n else default IPADDR_ANY src) by (unfold src'; by destruct (ip_addr_isany src)).
  assert (Hs : is_u32 src') by (rewrite Es; by destruct (ip_addr_isany src)). set (h := output_hdr _ _ _ _ _ _ _ _).
  assert (Hh : hdr_ok h src' dest ttl tos proto (p_tot (o_pkt p) + 20) (ip_id s)). { unfold h. rewrite A2. pose proof (tot_nonneg _ (cs_ok _ Hp)). pose proof (cs_max _ Hp). apply output_hdr_ok; try done; [by apply iphdr_len|zlia]. }
  destruct (set_hdr_ok h (o_pkt p1) A1 A3 (ho_len _ _ _ _ _ _ _ _ Hh) (ho_u8 _ _ _ _ _ _ _ _ Hh)) as (S1 & S2 & S3 & S4 & S5 & S6).
  exists (p1 <| o_pkt := set_iphdr h (o_pkt p1) |>), h. split; [done|]. rewrite <- Es. set (p' := p1 <| o_pkt := _ |>). assert (Eo : o_pkt p' = set_iphdr h (o_pkt p1)) by done. clearbody p'.
  split; rewrite ?Eo; [exact Hh|exact S4|exact S1|by rewrite S3|by rewrite S5|by rewrite S2, A4|by rewrite S6].
Qed.
End Send.
