(* ===== verification/Ip4.v ===== *)
(** * Ip4: receiving IPv4 packets, src/Sources/Lwip/src/core/ipv4/ip4.c

    [ip4_input] (which [ip_input] is) in the configuration of lwipopts.h: no
    forwarding, no IGMP, IP options allowed in received headers, reassembly on,
    TCP and raw as the only protocols above, and the TunForge hook that takes a
    packet of any unicast destination for the interface it came in on.

    [sys] is everything an arriving packet can reach: the interfaces with TCP and
    the raw pcbs, and the datagrams under reassembly.  [freed] of the latter
    collects all buffers given to [pbuf_free], [handed] the packets that
    [tcp_input] or a raw pcb's callback has taken over.  The callback of raw pcbs
    is a parameter, as in Raw. *)

From S2P Require Import Prelude Def Ip4Addr Opts Chksum TcpPcb TcpOut TcpIn TcpStack TcpInput Ip4Hdr Ip4Frag Raw Netif.

Record sys := mk_sys { nw : net; ra : reass; handed : list pkt }.
#[export] Instance eta_sys : Eta sys := fun Y => mk_sys (nw Y) (ra Y) (handed Y).

(** ** [pbuf_realloc] to a smaller length *)

(** The buffers kept and the buffers freed. *)
Fixpoint realloc_bufs (rem_len : Z) (l : list buf) : option (list buf * list buf) :=
  match l with
  | [] => None
  | b :: l =>
      if lenz (b_data b) <? rem_len then
        let? (k, fr) := realloc_bufs (u16 (rem_len - lenz (b_data b))) l in Some (b :: k, fr)
      else Some ([b <| b_data := takez rem_len (b_data b) |>], l)
  end.

(** What is cut off the first buffer stays in memory behind it. *)
Definition pbuf_realloc (new_len : Z) (p : pkt) : option (pkt * list buf) :=
  if p_tot p <=? new_len then Some (p, [])
  else
    let? (k, fr) := realloc_bufs new_len (p_bufs p) in
    let cut := match p_bufs p with b :: _ => dropz new_len (b_data b) | [] => [] end in
    Some (mk_pkt new_len k (cut ++ p_rest p), fr).

Section Input.
Context {o : Opts}.
Variable recv : Z -> Z -> pkt -> Z -> bool.

Definition drop_pkt (p : pkt) (Y : sys) : sys := Y <| ra := pbuf_free p (ra Y) |>.

(** "send to upper layers": [iphdr_hlen] is the length of the received header. *)
Definition ip4_deliver (p : pkt) (iphdr_hlen src dest inp : Z) (n : nif) (Y : sys) : res sys :=
  let N := nw Y in
  let iphdr := iphdr_of p in
  let '(raw_status, _, R) := raw_input recv p (mk_raw_ctx src dest (nif_index n) (nif_cfg n)) (raw N) in
  let Y := Y <| nw := N <| raw := R |> |> in
  match raw_status with
  | RAW_INPUT_EATEN => Ok (Y <| handed := handed Y ++ [p] |>)
  | _ =>
      let p := pbuf_remove_header iphdr_hlen p in
      if IPH_PROTO iphdr =? IP_PROTO_TCP then
        let+ t := tcp_input (ip := net_ip (nw Y)) src dest (inp, n) (p_chain p) (tcp (nw Y)) in
        Ok (Y <| nw := (nw Y) <| tcp := t |> |> <| handed := handed Y ++ [p] |>)
      else Ok (drop_pkt p Y)
  end.

Definition ip4_input (p : pkt) (inp : Z) (Y : sys) : res (err_t * sys) :=
  let iphdr := iphdr_of p in
  if negb (IPH_V iphdr =? 4) then Ok (ERR_OK, drop_pkt p Y)
  else
    let iphdr_hlen := IPH_HL_BYTES iphdr in
    let iphdr_len := lwip_ntohs (IPH_LEN iphdr) in
    let+ (p, fr) := sure (if iphdr_len <? p_tot p then pbuf_realloc iphdr_len p else Some (p, [])) in
    let Y := Y <| ra := (ra Y) <| freed := freed (ra Y) ++ map b_addr fr |> |> in
    if (p_len p <? iphdr_hlen) || (p_tot p <? iphdr_len) || (iphdr_hlen <? IP_HLEN) then Ok (ERR_OK, drop_pkt p Y)
    else if negb (inet_chksum 0 (takez iphdr_hlen (p_payload p)) =? 0) then Ok (ERR_OK, drop_pkt p Y)
    else
      let dest := IPH_DEST iphdr in
      let src := IPH_SRC iphdr in
      let+ n := getn inp (nw Y) in
      let netif := if ip4_addr_ismulticast dest then netif_is_up n && negb (n_ip_addr n =? IPADDR_ANY) else true in
      if ip4_addr_isbroadcast_u32 src (nif_cfg n) || ip4_addr_ismulticast src then Ok (ERR_OK, drop_pkt p Y)
      else if negb netif then Ok (ERR_OK, drop_pkt p Y)
      else if negb (Z.land (IPH_OFFSET iphdr) (PP_HTONS (Z.lor IP_OFFMASK IP_MF)) =? 0) then
        let+ (r, ra') := sure (ip4_reass p (ra Y)) in
        let Y := Y <| ra := ra' |> in
        match r with
        | None => Ok (ERR_OK, Y)
        | Some p => let+ Y := ip4_deliver p iphdr_hlen src dest inp n Y in Ok (ERR_OK, Y)
        end
      else let+ Y := ip4_deliver p iphdr_hlen src dest inp n Y in Ok (ERR_OK, Y).
End Input.
