(* ===== verification/Ip4Facts.v ===== *)
(** * Ip4Facts: what receiving IPv4 packets guarantees *)

From S2P Require Import Prelude Def Ip4Addr Opts Chksum TcpPcb TcpOut TcpIn Ip4Hdr Ip4Frag Ip4FragFacts Ip4Reass TcpStack TcpInput TcpTimer TcpSafety TcpCalls TcpSafeIn TcpSafeRun TcpSafeTmr TcpSafeApi Raw Netif NetifFacts Ip4.

(** ** Trimming *)
Lemma realloc_bufs_ok l : forall rem, l <> [] -> 0 <= rem <= 65535 -> rem <= lenz (cbytes (map b_data l)) ->
  exists k fr, realloc_bufs rem l = Some (k, fr) /\ k <> [] /\ cbytes (map b_data k) = takez rem (cbytes (map b_data l)) /\ map b_addr l = map b_addr k ++ map b_addr fr.
Proof.
  induction l as [|b l IH]; intros rem Hl Hr Hle; [done|]. unfold cbytes in *. cbn [map concat realloc_bufs] in *. rewrite lenz_app in Hle. pose proof (lenz_nonneg (b_data b)). destruct (Z.ltb_spec (lenz (b_data b)) rem) as [Hlt|Hge].
  - rewrite u16_id by zlia. destruct (IH (rem - lenz (b_data b))) as (k & fr & -> & Hk & Hb & Ha); [by destruct l; [cbn in Hle; rewrite lenz_nil in Hle; lia|]|lia|lia|].
    exists (b :: k), fr. split_and!; [done|done| |cbn; by rewrite Ha]. cbn [map concat]. rewrite Hb, takez_app by lia. by rewrite (takez_all rem (b_data b)) by lia.
  - eexists _, _. split; [done|]. split_and!; [done| |done]. cbn [map concat]. cbn. rewrite app_nil_r, takez_app by lia. by rewrite (takez_0 (rem - _)), app_nil_r by lia.
Qed.

Lemma realloc_ok n p : pkt_ok p -> 0 <= n < p_tot p ->
  exists p' fr, pbuf_realloc n p = Some (p', fr) /\ pkt_ok p' /\ p_tot p' = n /\ p_bytes p' = takez n (p_bytes p) /\ p_addrs p = p_addrs p' ++ map b_addr fr
    /\ p_payload p' = p_payload p /\ p_len p' = Z.min (p_len p) n.
Proof.
  intros [H1 H2 H3 H4] Hn. unfold pbuf_realloc. rewrite (proj2 (Z.leb_gt _ _)) by lia. destruct (realloc_bufs_ok (p_bufs p) n H2) as (k & fr & E & Hk & Hb & Ha); [lia|unfold p_bytes, p_chain in H1; lia|]. rewrite E.
  eexists _, fr. split; [done|]. assert (Hl : lenz (takez n (p_bytes p)) = n) by (apply lenz_takez; lia). assert (Ek : forall t r, p_bytes (mk_pkt t k r) = takez n (p_bytes p)) by (intros; exact Hb). split_and!; try done.
  - split; [by rewrite Ek, Hl|done|cbn; lia|]. rewrite Ek. rewrite Forall_app in H4. destruct H4 as [H4 H5]. apply Forall_app. split.
    + by apply Forall_take.
    + apply Forall_app. split; [|done]. unfold p_bytes, p_chain, cbytes in H4. destruct (p_bufs p) as [|b l]; [done|]. cbn in H4. apply Forall_app in H4 as [H4 _]. by apply Forall_drop.
  - unfold p_payload. cbn. destruct (p_bufs p) as [|b l]; [done|]. cbn in E. destruct (Z.ltb_spec (lenz (b_data b)) n) as [Hlt|Hge].
    + destruct (realloc_bufs _ l) as [[k' fr']|]; [|done]. injection E as <- <-. by rewrite dropz_all by lia.
    + injection E as <- <-. cbn. by rewrite app_assoc, takez_dropz.
  - unfold p_len. cbn. destruct (p_bufs p) as [|b l]; [done|]. cbn in E. destruct (Z.ltb_spec (lenz (b_data b)) n) as [Hlt|Hge].
    + destruct (realloc_bufs _ l) as [[k' fr']|]; [|done]. injection E as <- <-. lia.
    + injection E as <- <-. cbn. rewrite lenz_takez by lia. lia.
Qed.

(** ** The invariant *)
Section Facts.
Context {o : Opts} (recv : Z -> Z -> pkt -> Z -> bool).

Record sys_ok (Y : sys) : Prop := {
  so_net : net_ok (nw Y);
  so_reass : inv rd_wf (ra Y) }.

(** The buffers the stack has received: held by reassembly or released, or taken
    over by the protocols above. *)
Definition bufs (Y : sys) : list Z := Ip4FragFacts.held (ra Y) ++ concat (map p_addrs (handed Y)).

(** What receiving a packet may change. *)
Record input_step (p : pkt) (Y Y' : sys) : Prop := {
  is_ok : sys_ok Y';
  is_bufs : bufs Y' ≡ₚ bufs Y ++ p_addrs p;
  is_nifs : same_nifs (nw Y) (nw Y');
  is_raw : raw_pcbs (raw (nw Y')) ≡ₚ raw_pcbs (raw (nw Y)) }.

Lemma free_inv P S l : inv P S -> inv P (S <| freed := l |>).
Proof. by intros []. Qed.

Lemma drop_step p Y : sys_ok Y -> input_step p Y (drop_pkt p Y).
Proof.
  intros [H1 H2]. split; try done; [split; [done|by apply free_inv]|]. unfold bufs, Ip4FragFacts.held, drop_pkt. cbn. solve_Permutation.
Qed.

Lemma remove_header_addrs n p : p_addrs (pbuf_remove_header n p) = p_addrs p.
Proof. unfold pbuf_remove_header, p_addrs. destruct (p_bufs p) as [|b l] eqn:E; [by rewrite E|]. destruct (_ <? _); [by rewrite E|done]. Qed.

Lemma ip4_deliver_ok p hl src dest inp n Y : sys_ok Y -> post (ip4_deliver recv p hl src dest inp n Y) (input_step p Y).
Proof.
  intros [H1 H2]. unfold ip4_deliver. destruct (raw_input_ok recv p (mk_raw_ctx src dest (nif_index n) (nif_cfg n)) (raw (nw Y))) as (r & R & -> & Hp & Hpool & _).
  assert (Hnet : net_ok ((nw Y) <| raw := R |>)). { destruct H1 as [A1 A2 A3 A4 A5 A6]. split; try done. cbn. unfold raw_elems. rewrite Hp, Hpool. exact A6. }
  assert (Hfin : forall q t, p_addrs q = p_addrs p -> safe t -> input_step p Y (Y <| nw := (nw Y) <| raw := R |> <| tcp := t |> |> <| handed := handed Y ++ [q] |>)).
  { intros q t Hq Ht. split; try done; [split; [|done]; destruct Hnet; by split|]. unfold bufs. cbn. rewrite map_app, concat_app. cbn. rewrite Hq, app_nil_r. solve_Permutation. }
  assert (Hrest : post (let p0 := pbuf_remove_header hl p in let Y := Y <| nw := (nw Y) <| raw := R |> |> in if IPH_PROTO (iphdr_of p) =? IP_PROTO_TCP
    then let+ t := tcp_input (ip := net_ip (nw Y)) src dest (inp, n) (p_chain p0) (tcp (nw Y)) in Ok (Y <| nw := (nw Y) <| tcp := t |> |> <| handed := handed Y ++ [p0] |>) else Ok (drop_pkt p0 Y)) (input_step p Y)).
  { cbv zeta. destruct (_ =? _).
    - eapply post_bind; [apply (run_op_ok (ip := net_ip ((nw Y) <| raw := R |>)) (OpInput (ip := net_ip ((nw Y) <| raw := R |>)) src dest (inp, n) (p_chain (pbuf_remove_header hl p)))); [apply H1|done]|]. intros t Ht. cbn. apply (Hfin (pbuf_remove_header hl p) t); [apply remove_header_addrs|done].
    - cbn. destruct (drop_step (pbuf_remove_header hl p) (Y <| nw := (nw Y) <| raw := R |> |>)) as [D1 D2 D3 D4]; [by split|]. split; try done. by rewrite D2, remove_header_addrs. }
  destruct r; [exact Hrest| |exact Hrest]. cbn. apply (Hfin p (tcp (nw Y))); [done|apply H1].
Qed.

(** ** Which packets are accepted *)

(** The packet's length by its header. *)
Definition ip_len (p : pkt) : Z := lwip_ntohs (IPH_LEN (iphdr_of p)).

Definition ip_valid (p : pkt) (n : nif) : bool :=
  let h := iphdr_of p in
  let hl := IPH_HL_BYTES h in
  (IPH_V h =? 4) && (20 <=? hl) && (hl <=? p_len p) && (hl <=? ip_len p) && (ip_len p <=? p_tot p)
  && (inet_chksum 0 (takez hl (p_payload p)) =? 0)
  && negb (ip4_addr_isbroadcast_u32 (IPH_SRC h) (nif_cfg n) || ip4_addr_ismulticast (IPH_SRC h))
  && (negb (ip4_addr_ismulticast (IPH_DEST h)) || netif_is_up n && negb (n_ip_addr n =? IPADDR_ANY)).

Definition is_fragment (p : pkt) : bool := negb (Z.land (IPH_OFFSET (iphdr_of p)) (PP_HTONS (Z.lor IP_OFFMASK IP_MF)) =? 0).

(** [p'] is [p] cut to the length in its header, [fr] are the buffers cut off. *)
Record trimmed (p p' : pkt) (fr : list buf) : Prop := {
  tr_ok : pkt_ok p';
  tr_tot : p_tot p' = ip_len p;
  tr_bytes : p_bytes p' = takez (ip_len p) (p_bytes p);
  tr_addrs : p_addrs p = p_addrs p' ++ map b_addr fr;
  tr_payload : p_payload p' = p_payload p;
  tr_len : p_len p' = Z.min (p_len p) (ip_len p) }.

Definition free_addrs (l : list Z) (Y : sys) : sys := Y <| ra := (ra Y) <| freed := freed (ra Y) ++ l |> |>.

(** What happens to an accepted packet. *)
Definition accept (p p' : pkt) (inp : Z) (n : nif) (Y : sys) : res (err_t * sys) :=
  let h := iphdr_of p in
  if is_fragment p then
    let+ (r, ra') := sure (ip4_reass p' (ra Y)) in
    match r with
    | None => Ok (ERR_OK, Y <| ra := ra' |>)
    | Some d => let+ Y := ip4_deliver recv d (IPH_HL_BYTES h) (IPH_SRC h) (IPH_DEST h) inp n (Y <| ra := ra' |>) in Ok (ERR_OK, Y)
    end
  else let+ Y := ip4_deliver recv p' (IPH_HL_BYTES h) (IPH_SRC h) (IPH_DEST h) inp n Y in Ok (ERR_OK, Y).

Lemma ip_len_range p : 0 <= ip_len p <= 65535.
Proof. unfold ip_len, lwip_ntohs, lwip_htons, PP_HTONS. pose proof (u16_range (Z.lor (Z.shiftl (Z.land (IPH_LEN (iphdr_of p)) 255) 8) (Z.shiftr (Z.land (IPH_LEN (iphdr_of p)) 65280) 8))). zlia. Qed.

Lemma free_drop p fr Y : drop_pkt p (Y <| ra := (ra Y) <| freed := freed (ra Y) ++ map b_addr fr |> |>) = free_addrs (map b_addr fr ++ p_addrs p) Y.
Proof. unfold drop_pkt, free_addrs, pbuf_free. cbn. by rewrite app_assoc. Qed.

Lemma input_cases p inp n Y : pkt_ok p -> nifs (nw Y) !! inp = Some n ->
  if ip_valid p n then exists p' fr, trimmed p p' fr /\ ip4_input recv p inp Y = accept p p' inp n (free_addrs (map b_addr fr) Y)
  else exists l, l ≡ₚ p_addrs p /\ ip4_input recv p inp Y = Ok (ERR_OK, free_addrs l Y).
Proof.
  intros Hp En. pose proof (ip_len_range p) as Hlen. assert (Htl : p_len p <= p_tot p).
  { rewrite (pk_tot _ Hp). unfold p_len, p_bytes, p_chain, cbytes. destruct (p_bufs p) as [|b l]; cbn; [done|]. rewrite lenz_app. pose proof (lenz_nonneg (concat (map b_data l))). lia. }
  unfold ip_valid, ip4_input. fold (ip_len p). destruct (Z.eqb_spec (IPH_V (iphdr_of p)) 4) as [HV|HV]; cbn [negb andb].
  2:{ exists (p_addrs p). by split. }
  set (hl := IPH_HL_BYTES (iphdr_of p)).
  assert (Htr : ip_len p <= p_tot p -> exists p' fr, sure (if ip_len p <? p_tot p then pbuf_realloc (ip_len p) p else Some (p, [])) = Ok (p', fr) /\ trimmed p p' fr).
  { intros Hle. destruct (Z.ltb_spec (ip_len p) (p_tot p)) as [Hlt|Hge].
    - destruct (realloc_ok (ip_len p) p Hp ltac:(lia)) as (p' & fr & -> & H1 & H2 & H3 & H4 & H5 & H6). exists p', fr. split; [done|]. by split.
    - exists p, []. split; [done|]. assert (Et : p_tot p = ip_len p) by lia. split; try done; [by rewrite takez_all by (pose proof (pk_tot _ Hp); lia)|cbn; by rewrite app_nil_r|lia]. }
  destruct (Z.leb_spec (ip_len p) (p_tot p)) as [Hle|Hgt].
  - destruct (Htr Hle) as (p' & fr & E & T). rewrite E. cbn [rbind]. pose proof (tr_tot _ _ _ T) as Ht. pose proof (tr_len _ _ _ T) as Hl'. pose proof (tr_addrs _ _ _ T) as Hadr.
    assert (Hd : exists l, l ≡ₚ p_addrs p /\ Ok (ERR_OK, drop_pkt p' (Y <| ra := (ra Y) <| freed := freed (ra Y) ++ map b_addr fr |> |>)) = Ok (ERR_OK, free_addrs l Y)).
    { exists (map b_addr fr ++ p_addrs p'). split; [rewrite Hadr; apply Permutation_app_comm|]. by rewrite free_drop. }
    assert (Hc : (p_len p' <? hl) || (p_tot p' <? ip_len p) || (hl <? IP_HLEN) = negb ((20 <=? hl) && (hl <=? p_len p) && (hl <=? ip_len p))) by (change IP_HLEN with 20; lia).
    rewrite Hc, andb_true_r. clear Hc Htr. destruct ((20 <=? hl) && (hl <=? p_len p) && (hl <=? ip_len p)); cbn [negb andb]; [|exact Hd]. rewrite (tr_payload _ _ _ T).
    destruct (_ =? 0); cbn [negb andb]; [|exact Hd]. change (getn inp (nw (Y <| ra := _ |>))) with (getn inp (nw Y)). unfold getn. rewrite En. cbn [rbind]. destruct (ip4_addr_isbroadcast_u32 _ _ || _); cbn [negb andb]; [exact Hd|].
    destruct (ip4_addr_ismulticast (IPH_DEST (iphdr_of p))); cbn [negb andb orb]; [destruct (netif_is_up n && _); cbn [negb]; [|exact Hd]|]; exists p', fr; split; [exact T| |exact T|]; unfold accept, is_fragment; fold hl; destruct (negb _); try done; cbn [ra free_addrs]; destruct (sure _) as [[[d|] ra']| | |]; done.
  - rewrite !andb_false_r. cbn [andb]. rewrite (proj2 (Z.ltb_ge _ _)) by lia. cbn [sure rbind]. rewrite (proj2 (Z.ltb_lt (p_tot p) (ip_len p))) by lia. rewrite orb_true_r. cbn [orb]. exists (p_addrs p). split; [done|]. by rewrite (free_drop p [] Y).
Qed.

(** ** Every packet is handled safely *)
Lemma free_step l p Y : sys_ok Y -> l ≡ₚ p_addrs p -> input_step p Y (free_addrs l Y).
Proof.
  intros [H1 H2] Hl. split; try done; [split; [exact H1|apply (free_inv rd_wf _ _ H2)]|]. unfold bufs, Ip4FragFacts.held, free_addrs. cbn. rewrite Hl. solve_Permutation.
Qed.

Lemma trimmed_hdr p p' fr : trimmed p p' fr -> iphdr_of p' = iphdr_of p.
Proof. intros T. unfold iphdr_of. by rewrite (tr_payload _ _ _ T). Qed.

Lemma trimmed_fragment p p' fr n : trimmed p p' fr -> ip_valid p n = true -> is_fragment p = true -> lenz (p_bufs p) <= 65535 -> fragment_ok p'.
Proof.
  intros T Hv Hf Hb. unfold ip_valid in Hv. bprop. pose proof (tr_len _ _ _ T). split; rewrite ?(trimmed_hdr _ _ _ T).
  - apply T.
  - lia.
  - symmetry. apply T.
  - unfold is_fragment in Hf. by bprop.
  - pose proof (f_equal length (tr_addrs _ _ _ T)) as E. rewrite length_app in E. unfold p_addrs in E. rewrite !length_map in E. unfold lenz in *. lia.
Qed.

Lemma input_ok p inp n Y : sys_ok Y -> pkt_ok p -> lenz (p_bufs p) <= 65535 -> nifs (nw Y) !! inp = Some n ->
  post (ip4_input recv p inp Y) (fun '(e, Y') => e = ERR_OK /\ input_step p Y Y').
Proof.
  intros HY Hp Hb En. pose proof (input_cases p inp n Y Hp En) as Hc. destruct (ip_valid p n) eqn:Hv.
  2:{ destruct Hc as (l & Hl & ->). split; [done|by apply free_step]. }
  destruct Hc as (p' & fr & T & ->). set (Y1 := free_addrs (map b_addr fr) Y). pose proof (tr_addrs _ _ _ T) as Ha.
  assert (H1 : sys_ok Y1 /\ bufs Y1 ≡ₚ bufs Y ++ map b_addr fr).
  { destruct HY as [A1 A2]. split; [split; [exact A1|apply (free_inv rd_wf _ _ A2)]|]. unfold bufs, Ip4FragFacts.held, Y1, free_addrs. cbn. solve_Permutation. }
  destruct H1 as [H1 Hb1]. assert (Hstep : forall Y', input_step p' Y1 Y' -> input_step p Y Y'). { intros Y' [S1 S2 S3 S4]. split; try done. rewrite S2, Hb1, Ha. solve_Permutation. }
  unfold accept. destruct (is_fragment p) eqn:Hf.
  - pose proof (trimmed_fragment p p' fr n T Hv Hf Hb) as Hfo. destruct (rd_wf_stable p' Hfo) as [N1 N2 N3].
    destruct (ip4_reass_ok rd_wf p' Hfo N1 N2 rd_wf_flag N3 (ra Y1) (so_reass _ H1)) as (out & ra' & -> & [I1 I2 I3 _]). cbn [sure rbind]. destruct out as [d|].
    + eapply post_bind; [apply ip4_deliver_ok; split; [apply H1|exact I1]|]. intros Y' [S1 S2 S3 S4]. split; [done|]. apply Hstep. split; try done. rewrite S2. unfold bufs in *. cbn [ra handed out_addrs] in *. cbn. rewrite <- app_assoc, (Permutation_app_comm _ (p_addrs d)), app_assoc, I3. solve_Permutation.
    + split; [done|]. apply Hstep. cbn [out_addrs] in I3. rewrite app_nil_r in I3. split; try done; [split; [apply H1|exact I1]|]. unfold bufs. cbn. rewrite I3. solve_Permutation.
  - eapply post_bind; [by apply ip4_deliver_ok|]. intros Y' S. split; [done|]. by apply Hstep.
Qed.
End Facts.
