(* ===== verification/Ip4Props.v ===== *)
(** * Ip4Props: the theorems about IPv4

    Over the lemmas of Ip4Facts and Ip4OutFacts: every packet is handled safely,
    malformed ones only lose their buffers, and what one side sends with
    [ip4_output_if] the other side's [ip4_input] hands to TCP, fragmented or
    not. *)

From S2P Require Import Prelude Def Ip4Addr Opts Chksum TcpPcb TcpOut TcpIn Ip4Hdr Ip4Frag Ip4FragFacts Ip4Reass Ip4FragOut TcpStack TcpInput TcpTimer TcpSafety TcpSafeIn TcpSafeApi TcpProps Raw Netif NetifFacts NetifProps Ip4FragProps Ip4Out Ip4OutFacts Ip4 Ip4Facts.

Section Props.
Context {o : Opts} (recv : Z -> Z -> pkt -> Z -> bool).


(** C29: a packet is dropped, with no other effect than that its buffers are
    released, unless its version is 4, its header has at least 20 bytes and lies
    in the first buffer and in the packet, the packet is as long as its header
    says, the header's checksum is right, the source is a unicast address and
    the interface can receive a multicast destination.  (In particular a packet
    of less than 20 bytes is dropped, whatever lies behind it in memory.) *)
Theorem ip4_input_drops_malformed p inp n Y : pkt_ok p -> nifs (nw Y) !! inp = Some n ->
  ip_valid p n = false \/ p_len p < 20 -> exists l, l ≡ₚ p_addrs p /\ ip4_input recv p inp Y = Ok (ERR_OK, Y <| ra := (ra Y) <| freed := freed (ra Y) ++ l |> |>).
Proof.
  intros Hp En Hv. assert (Hf : ip_valid p n = false).
  { destruct Hv as [Hv|Hv]; [done|]. destruct (ip_valid p n) eqn:E; [|done]. unfold ip_valid in E. bprop. lia. }
  pose proof (input_cases recv p inp n Y Hp En) as H. by rewrite Hf in H.
Qed.

(** ** Delivery to TCP *)
Lemma remove_header_bytes n p : n <= p_len p -> 0 <= n -> p_bytes (pbuf_remove_header n p) = dropz n (p_bytes p).
Proof.
  intros Hn H0. unfold pbuf_remove_header, p_bytes, p_chain, cbytes, p_len in *. destruct (p_bufs p) as [|b l] eqn:E; [rewrite E; cbn; by rewrite dropz_nil|]. rewrite (proj2 (Z.ltb_ge _ _)) by lia. cbn. rewrite dropz_app by lia. by rewrite (dropz_0 (n - _)) by lia.
Qed.

(** TCP takes the packet. *)
Definition to_tcp (p : pkt) (src dest inp : Z) (n : nif) (Y : sys) : res sys :=
  let+ t := tcp_input (ip := net_ip (nw Y)) src dest (inp, n) (p_chain p) (tcp (nw Y)) in
  Ok (Y <| nw := (nw Y) <| tcp := t |> |> <| handed := handed Y ++ [p] |>).

Lemma deliver_tcp p hl src dest inp n Y : raw_pcbs (raw (nw Y)) = [] -> IPH_PROTO (iphdr_of p) = IP_PROTO_TCP ->
  ip4_deliver recv p hl src dest inp n Y = to_tcp (pbuf_remove_header hl p) src dest inp n Y.
Proof.
  intros Hr Hp. unfold ip4_deliver, to_tcp, raw_input. rewrite Hr, Hp. cbn [raw_input_loop]. replace (Y <| nw := (nw Y) <| raw := (raw (nw Y)) <| raw_pcbs := [] |> |> |>) with Y; [done|]. rewrite <- Hr. by destruct Y as [[? ? ? ? [? ?] ?] ? ?].
Qed.

(** A packet as it should be. *)
Record good (h : list Z) (q : pkt) (n : nif) : Prop := {
  gd_hdr : 20 <= p_len q /\ IPH_V (iphdr_of q) = 4 /\ IPH_HL_BYTES (iphdr_of q) = 20 /\ inet_chksum 0 (iphdr_of q) = 0;
  gd_len : ip_len q = p_tot q /\ 20 <= p_tot q;
  gd_src : IPH_SRC (iphdr_of q) = IPH_SRC h /\ ip4_addr_isbroadcast_u32 (IPH_SRC h) (nif_cfg n) || ip4_addr_ismulticast (IPH_SRC h) = false;
  gd_dest : IPH_DEST (iphdr_of q) = IPH_DEST h /\ ip4_addr_ismulticast (IPH_DEST h) = false }.

Lemma input_good h q inp n Y : good h q n -> nifs (nw Y) !! inp = Some n -> ip4_input recv q inp Y =
  if is_fragment q then
    let+ (r, ra') := sure (ip4_reass q (ra Y)) in
    match r with
    | None => Ok (ERR_OK, Y <| ra := ra' |>)
    | Some d => let+ Y := ip4_deliver recv d 20 (IPH_SRC h) (IPH_DEST h) inp n (Y <| ra := ra' |>) in Ok (ERR_OK, Y)
    end
  else let+ Y := ip4_deliver recv q 20 (IPH_SRC h) (IPH_DEST h) inp n Y in Ok (ERR_OK, Y).
Proof.
  intros [(G1 & G2 & G3 & G4) [G5 G6] [G7 G8] [G9 G10]] En. unfold ip4_input. fold (ip_len q). rewrite G2, G3, G5, G7, G9. cbn [negb Z.eqb Pos.eqb]. rewrite Z.ltb_irrefl. cbn [sure rbind map]. rewrite app_nil_r.
  replace (Y <| ra := (ra Y) <| freed := freed (ra Y) |> |>) with Y by (by destruct Y as [? [? ? ? ?] ?]). change IP_HLEN with 20. rewrite (proj2 (Z.ltb_ge (p_len q) 20)), (proj2 (Z.ltb_ge (p_tot q) (p_tot q))) by lia. cbn [orb Z.ltb Z.compare Pos.compare Pos.compare_cont].
  change (takez 20 (p_payload q)) with (iphdr_of q). rewrite G4. cbn [negb Z.eqb]. unfold getn. rewrite En. cbn [rbind]. rewrite G8, G10. cbn [negb]. done.
Qed.

Fixpoint run_input (ps : list pkt) (inp : Z) (Y : sys) : res sys :=
  match ps with [] => Ok Y | p :: ps => let+ (_, Y) := ip4_input recv p inp Y in run_input ps inp Y end.

(** Fragments of TCP packets: what reassembly delivers goes to TCP. *)
Fixpoint all_to_tcp (ds : list pkt) (src dest inp : Z) (n : nif) (Y : sys) : res sys :=
  match ds with [] => Ok Y | d :: ds => let+ Y := to_tcp (pbuf_remove_header 20 d) src dest inp n Y in all_to_tcp ds src dest inp n Y end.

Lemma to_tcp_ra p src dest inp n Y S : to_tcp p src dest inp n (Y <| ra := S |>) = let+ Y := to_tcp p src dest inp n Y in Ok (Y <| ra := S |>).
Proof. unfold to_tcp. cbn. by destruct (tcp_input _ _ _ _ _). Qed.

Lemma run_input_frags h inp n ps : forall Y outs S, raw_pcbs (raw (nw Y)) = [] -> nifs (nw Y) !! inp = Some n -> Forall (fun q => good h q n /\ is_fragment q = true) ps ->
  run_reass (map RFrag ps) (ra Y) = Some (outs, S) -> Forall (fun d => IPH_PROTO (iphdr_of d) = IP_PROTO_TCP) outs ->
  run_input ps inp Y = all_to_tcp outs (IPH_SRC h) (IPH_DEST h) inp n (Y <| ra := S |>).
Proof.
  induction ps as [|p ps IH]; intros Y outs S Hr En Hg HS Ho; cbn [map run_reass run_input] in *.
  - injection HS as <- <-. cbn. by destruct Y.
  - apply Forall_cons in Hg as [[Hg Hf] Hgs]. destruct (ip4_reass p (ra Y)) as [[out S1]|] eqn:E1; [|done]. destruct (run_reass (map RFrag ps) S1) as [[outs' S2]|] eqn:E2; [|done]. injection HS as <- <-.
    rewrite (input_good h p inp n Y Hg En), Hf, E1. cbn [sure rbind]. destruct out as [d|].
    + apply Forall_cons in Ho as [Hd Ho]. rewrite deliver_tcp by done. cbn [all_to_tcp]. rewrite !to_tcp_ra. unfold to_tcp. destruct (tcp_input _ _ _ _ _) as [t| | |]; try done. cbn [rbind].
      rewrite (IH _ outs' S2); [by destruct Y|done|done|done|done|done].
    + cbn [rbind]. rewrite (IH _ outs' S2); [by destruct Y|done|done|done|done|done].
Qed.

Lemma hdr_of_bytes q h d : 20 <= p_len q -> p_bytes q = h ++ d -> lenz h = 20 -> iphdr_of q = h.
Proof.
  intros Hl Hb Hh. pose proof (iphdr_bytes q Hl) as E. rewrite Hb in E. rewrite <- (takez_app_eq 20 h d), E by done. symmetry. apply takez_app_eq. by rewrite iphdr_len.
Qed.

(** A whole packet. *)
Lemma whole_arrives src dest ttl tos tot id h d q inp n Y : hdr_ok h src dest ttl tos IP_PROTO_TCP tot id -> tot = 20 + lenz d -> pkt_ok q -> 20 <= p_len q -> p_bytes q = h ++ d ->
  ip4_addr_isbroadcast_u32 src (nif_cfg n) || ip4_addr_ismulticast src = false -> ip4_addr_ismulticast dest = false ->
  raw_pcbs (raw (nw Y)) = [] -> nifs (nw Y) !! inp = Some n ->
  ip4_input recv q inp Y = let+ Y := to_tcp (pbuf_remove_header 20 q) src dest inp n Y in Ok (ERR_OK, Y).
Proof.
  intros [H1 H2 H3 H4 H5 H6 H7 H8 H9 H10 H11 H12 H13] Htot Hq Hl Hb Hs Hd Hr En. pose proof (hdr_of_bytes q h d Hl Hb H1) as Hh. pose proof (pk_tot _ Hq) as Ht. rewrite Hb, lenz_app in Ht. pose proof (lenz_nonneg d).
  assert (G : good h q n) by (split; rewrite ?Hh, ?H11, ?H12; split_and!; try done; [unfold ip_len; rewrite Hh; lia|lia]). rewrite (input_good h q inp n Y G En). unfold is_fragment. rewrite Hh, H8. cbn [Z.land Z.eqb negb].
  rewrite deliver_tcp by (done || by rewrite Hh). by rewrite H11, H12.
Qed.

Lemma piece_good h q n : piece_of h q -> IPH_V h = 4 -> ip4_addr_isbroadcast_u32 (IPH_SRC h) (nif_cfg n) || ip4_addr_ismulticast (IPH_SRC h) = false -> ip4_addr_ismulticast (IPH_DEST h) = false ->
  good h q n /\ is_fragment q = true.
Proof.
  intros [[P1 P2 P3 P4 P5] K2 K3 K4 K5 K6] HV Hs Hd. unfold IP_ADDRESSES_AND_ID_MATCH in K2. rewrite !andb_true_iff, !Z.eqb_eq in K2. destruct K2 as [[K2a K2b] _]. assert (20 <= p_tot q).
  { rewrite (pk_tot _ P1), (iphdr_bytes q P2), lenz_app, iphdr_len by done. pose proof (lenz_nonneg (dropz 20 (p_bytes q))). lia. }
  split; [split; split_and!; try exact P3; try done; congruence|]. unfold is_fragment. by rewrite (proj2 (Z.eqb_neq _ _)).
Qed.

(** C7: what [ip4_output_if] sends arrives.  The interface's MTU is 0 (no limit) or
    at least 28 and leaves a multiple of 8 bytes for the data; there is memory for
    the fragments.  Then the packets given to the driver, received in any order and
    in buffers of any shape by a stack without raw pcbs, from a unicast source to a
    unicast address, with a free datagram structure, none in use for the same
    addresses and identification, and room for all of their buffers within
    IP_REASS_MAX_PBUFS, make [ip4_input] call [tcp_input] exactly once, with the
    sender's addresses and exactly the bytes that were sent; reassembly is left as
    it was.  The source is the address of the interface if none is given. *)
Theorem ip_roundtrip driver p src dest ttl tos n s inp n' Y a pl : let src' := if ip_addr_isany src then n_ip_addr n else default IPADDR_ANY src in
  can_send p -> is_u8 ttl -> is_u8 tos -> is_u16 (ip_id s) -> is_u32 dest -> is_u32 (default IPADDR_ANY src) -> is_u32 (n_ip_addr n) ->
  n_output n = DriverOutput -> n_mtu n = 0 \/ 28 <= n_mtu n <= 65535 /\ (n_mtu n - 20) mod 8 = 0 ->
  plenty (2 * Z.to_nat (p_tot (o_pkt p)) + length (p_bufs (o_pkt p))) (ip_allocs s) ->
  sys_ok Y -> nifs (nw Y) !! inp = Some n' -> raw_pcbs (raw (nw Y)) = [] ->
  ip4_addr_isbroadcast_u32 src' (nif_cfg n') || ip4_addr_ismulticast src' = false -> ip4_addr_ismulticast dest = false ->
  reass_pool (ra Y) = a :: pl ->
  Forall (fun r => ~ (IPH_SRC (r_iphdr r) = src' /\ IPH_DEST (r_iphdr r) = dest /\ lwip_ntohs (IPH_ID (r_iphdr r)) = ip_id s)) (reassdatagrams (ra Y)) ->
  exists e p' s' new, ip4_output_if driver p src (Some dest) ttl tos IP_PROTO_TCP n s = Some (e, p', s') /\ tx s' = tx s ++ new /\ ip_id s' = u16 (ip_id s + 1) /\
  forall fs ord, Forall2 Ip4FragOut.received new fs -> ord ≡ₚ fs -> ip_reass_pbufcount (ra Y) + lenz (concat (map p_bufs fs)) <= IP_REASS_MAX_PBUFS ->
  exists d S, p_bytes d = p_bytes (o_pkt p) /\ reassdatagrams S = reassdatagrams (ra Y) /\ run_input ord inp Y = to_tcp d src' dest inp n' (Y <| ra := S |>).
Proof.
  cbv zeta. set (src' := if ip_addr_isany src then _ else _). intros Hp H1 H2 H4 H5 H6 H7 Hout Hmtu Hpl HY En Hr Hs Hd Hpool Hno.
  destruct (output_ok driver p src dest ttl tos IP_PROTO_TCP n s Hp H1 H2 ltac:(done) H4 H5 H6 H7) as (p' & h & Eo & Og). fold src' in Og. rewrite Eo. destruct Og as [O1 O2 O3 O4 O5 O6 O7].
  pose proof (pk_tot _ (cs_ok _ Hp)) as Htp. pose proof (ho_len _ _ _ _ _ _ _ _ O1) as Hlh. unfold ip4_transmit. destruct (negb (n_mtu n =? 0) && (n_mtu n <? p_tot (o_pkt p'))) eqn:Em.
  - assert (Hm : 28 <= n_mtu n <= 65535 /\ (n_mtu n - 20) mod 8 = 0 /\ n_mtu n < p_tot (o_pkt p')) by (bprop; destruct Hmtu as [Hz|[? ?]]; [lia|split_and!; lia]). destruct Hm as (M1 & M2 & M3).
    assert (Hcf : can_frag (o_pkt p')) by (split; [done|done|rewrite O2; apply O1]). assert (Hoff : IPH_OFFSET (iphdr_of (o_pkt p')) = 0) by (rewrite O2; apply O1).
    destruct (frag_fragments (o_pkt p') (n_mtu n) (ip_allocs s) Hcf M1 M2 M3) as (sent & al' & Hf & Hrc); [by rewrite Hoff|by rewrite Hoff|by rewrite O4, O7; replace (p_tot (o_pkt p) + 20 - 20) with (p_tot (o_pkt p)) by lia|].
    change (ip_allocs (s <| ip_id := u16 (ip_id s + 1) |>)) with (ip_allocs s). rewrite Hf, Hout. eexists _, _, _, sent. split; [done|]. split; [done|]. split; [done|]. intros fs ord Hrcv Hord Hroom. destruct (Hrc fs Hrcv) as [Hfs Hall]. rewrite O2 in Hfs, Hall.
    assert (Edg : dropz 20 (p_bytes (o_pkt p')) = p_bytes (o_pkt p)) by (rewrite O6; apply dropz_app_eq; lia). rewrite Edg in Hfs.
    destruct (reass_all h (p_bytes (o_pkt p)) IP_PROTO_TCP fs (ra Y) a pl Hfs) with (ord := ord) as (d & S & hh & R1 & R2 & R3 & _ & R5 & _ & R7); try done.
    + eapply Forall_impl; [exact Hall|]. intros q [_ _ _ Hq _ _]. rewrite Hq. apply O1.
    + eapply Forall_impl; [exact Hno|]. cbn beta. intros r Hn. apply not_true_iff_false. intros Hm. apply Hn. unfold IP_ADDRESSES_AND_ID_MATCH in Hm. bprop. rewrite (ho_src _ _ _ _ _ _ _ _ O1) in *. rewrite (ho_dest _ _ _ _ _ _ _ _ O1) in *. split_and!; try done.
      match goal with E : IPH_ID _ = IPH_ID _ |- _ => rewrite E end. apply O1.
    + rewrite nbufs_frags. lia.
    + apply HY.
    + pose proof (hdr_of_bytes d hh _ R7 R3 (wh_len _ _ _ R5)) as Hh. exists (pbuf_remove_header 20 d), S. split; [rewrite remove_header_bytes, R3 by lia; apply dropz_app_eq; pose proof (wh_len _ _ _ R5); lia|]. split; [done|].
      rewrite (run_input_frags h inp n' ord Y [d] S); [|done|done| |done|by repeat constructor; rewrite Hh; apply R5].
      * rewrite (ho_src _ _ _ _ _ _ _ _ O1), (ho_dest _ _ _ _ _ _ _ _ O1). cbn [all_to_tcp]. by destruct (to_tcp _ _ _ _ _ _).
      * rewrite Hord. eapply Forall_impl; [exact Hall|]. intros q Hq. apply piece_good; [done|apply O1|by rewrite (ho_src _ _ _ _ _ _ _ _ O1)|by rewrite (ho_dest _ _ _ _ _ _ _ _ O1)].
  - unfold netif_output. rewrite Hout. eexists _, _, _, [_]. split; [done|]. split; [done|]. split; [done|]. intros fs ord Hrcv Hord Hroom. clear O2. inversion Hrcv as [|? q ? fs0 [Q1 Q2 Q3 Q4] Hnil]; subst. inversion Hnil; subst. apply Permutation_singleton_r in Hord as ->.
    change (cbytes (p_chain (o_pkt p'))) with (p_bytes (o_pkt p')) in Q1. rewrite O6 in Q1. exists (pbuf_remove_header 20 q), (ra Y). split; [rewrite remove_header_bytes, Q1 by lia; apply dropz_app_eq; lia|]. split; [done|].
    cbn [run_input]. rewrite (whole_arrives src' dest ttl tos (p_tot (o_pkt p) + 20) (ip_id s) h (p_bytes (o_pkt p)) q inp n' Y); try done; [|lia]. replace (Y <| ra := ra Y |>) with Y by (by destruct Y). by destruct (to_tcp _ _ _ _ _ _).
Qed.
End Props.

(** A packet that fits the MTU goes to the driver in one piece, behind a
    header that says what it should (version 4, 20 bytes, the length, the next
    identification, no offset or flags, the given type of service, time to live,
    protocol and addresses) whatever the memory held before, and whose checksum,
    which the code sums up inline while it writes the fields, is the one
    [inet_chksum] verifies; the driver's result is returned.  Without room for
    the header, in memory or in the 16-bit length, the result is ERR_BUF and
    nothing changes. *)
Theorem ip4_output_header driver p src dest ttl tos proto n s : is_u8 ttl -> is_u8 tos -> is_u8 proto -> is_u16 (ip_id s) -> is_u32 dest -> is_u32 (default IPADDR_ANY src) -> is_u32 (n_ip_addr n) ->
  n_output n = DriverOutput ->
  (can_send p -> n_mtu n = 0 \/ p_tot (o_pkt p) + 20 <= n_mtu n ->
   exists p' c h, ip4_output_if driver p src (Some dest) ttl tos proto n s = Some (driver c, p', mk_ipout (u16 (ip_id s + 1)) (ip_allocs s) (tx s ++ [c]))
   /\ cbytes c = h ++ p_bytes (o_pkt p)
   /\ hdr_ok h (if ip_addr_isany src then n_ip_addr n else default IPADDR_ANY src) dest ttl tos proto (p_tot (o_pkt p) + 20) (ip_id s))
  /\ (o_ref p = 1 -> 0 <= p_tot (o_pkt p) <= 65535 -> lenz (o_room p) < 20 \/ 65535 < p_tot (o_pkt p) + 20 -> ip4_output_if driver p src (Some dest) ttl tos proto n s = Some (ERR_BUF, p, s)).
Proof.
  intros H1 H2 H3 H4 H5 H6 H7 Ho. split.
  - intros Hp Hm. destruct (output_ok driver p src dest ttl tos proto n s Hp H1 H2 H3 H4 H5 H6 H7) as (p' & h & -> & [O1 O2 O3 O4 O5 O6 O7]). unfold ip4_transmit, netif_output. rewrite Ho.
    assert (Hf : negb (n_mtu n =? 0) && (n_mtu n <? p_tot (o_pkt p')) = false) by lia. rewrite Hf. exists p', (p_chain (o_pkt p')), h. split; [by destruct s|]. split; [exact O6|done].
  - intros Hr Ht Hn. unfold ip4_output_if, ip4_output_if_src, pbuf_add_header. rewrite Hr. cbn [Z.eqb Pos.eqb]. change IP_HLEN with 20. assert (Hb : (u16 (20 + p_tot (o_pkt p)) <? 20) || (lenz (o_room p) <? 20) = true).
    { apply orb_true_iff. destruct Hn as [Hn|Hn]; [right; by apply Z.ltb_lt|left]. apply Z.ltb_lt. zlia. }
    by rewrite Hb.
Qed.

(** ** Examples *)
Section Demo.
#[local] Existing Instances ios.

Ltac range_ok := split; [vm_compute; discriminate|reflexivity].

Definition demo_sys : sys := mk_sys (demo_net 1) (reass_init [7; 8]) [].
Definition no_recv (arg a : Z) (p : pkt) (src : Z) : bool := false.

Lemma demo_sys_ok : sys_ok demo_sys.
Proof. split; [apply demo_net_ok; lia|]. apply init_inv; apply (bool_decide_unpack _); reflexivity. Qed.


Lemma ip4_input_drops_malformed_witness : exists l, l ≡ₚ [9] /\ ip4_input no_recv (mk_pkt 3 [mk_buf 9 [69; 0; 0]] [20; 1; 2; 0; 0; 64; 6; 0; 0; 10; 0; 0; 1; 10; 0; 0; 2]) 1 demo_sys
  = Ok (ERR_OK, demo_sys <| ra := (ra demo_sys) <| freed := freed (ra demo_sys) ++ l |> |>).
Proof.
  apply (ip4_input_drops_malformed no_recv (mk_pkt 3 [mk_buf 9 [69; 0; 0]] [20; 1; 2; 0; 0; 64; 6; 0; 0; 10; 0; 0; 1; 10; 0; 0; 2]) 1 (demo_nif 0) demo_sys).
  - concrete_pkt.
  - reflexivity.
  - right. reflexivity.
Defined.

(** 44 bytes to send, with room for the header. *)
Definition demo_out : opkt := mk_opkt (repeat 255 34) (mk_pkt 44 [mk_buf 1 (takez 10 (demo_data 44)); mk_buf 2 (dropz 10 (demo_data 44))] []) 1.
Definition demo_ipout : ipout := mk_ipout 4660 (repeat true 200) [].

Lemma demo_can_send : can_send demo_out.
Proof. split; [concrete_pkt|reflexivity|split; [vm_compute; discriminate|u8s]|vm_compute; discriminate]. Qed.

Lemma ip4_output_header_witness : exists c h, ip4_output_if (fun _ => ERR_OK) demo_out None (Some (IP4_ADDR 10 0 0 3)) 64 0 6 (demo_nif 0) demo_ipout
    = Some (ERR_OK, mk_opkt (repeat 255 14) (mk_pkt 64 [mk_buf 1 (h ++ takez 10 (demo_data 44)); mk_buf 2 (dropz 10 (demo_data 44))] []) 1, mk_ipout 4661 (repeat true 200) [c])
  /\ cbytes c = h ++ demo_data 44 /\ inet_chksum 0 h = 0.
Proof.
  destruct (ip4_output_header (fun _ => ERR_OK) demo_out None (IP4_ADDR 10 0 0 3) 64 0 6 (demo_nif 0) demo_ipout) as [H _]; [range_ok..|reflexivity|].
  destruct (H demo_can_send) as (p' & c & h & E & Hc & Hh); [right; vm_compute; discriminate|]. exists c, h. rewrite E. pose proof E as E'. vm_compute in E'. injection E' as <- <-. split; [|split; [exact Hc|apply Hh]].
  assert (Eh : h = takez 20 (h ++ demo_data 44)) by (rewrite takez_app_eq; [reflexivity|symmetry; apply Hh]). change (p_bytes (o_pkt demo_out)) with (demo_data 44) in Hc. rewrite <- Hc in Eh. vm_compute in Eh. rewrite Eh. reflexivity.
Defined.

(** The same bytes over a link of 36 bytes: three fragments. *)
Definition demo_small : nif := (demo_nif 0) <| n_mtu := 36 |>.
Definition demo_frags3 : list chain := Eval vm_compute in tx (snd (default (ERR_OK, demo_out, demo_ipout) (ip4_output_if (fun _ => ERR_OK) demo_out None (Some (IP4_ADDR 10 0 0 3)) 64 0 IP_PROTO_TCP demo_small demo_ipout))).
Definition demo_rcv3 : list pkt := Eval vm_compute in demo_recv 10 demo_frags3.

Lemma demo_rcv3_ok : Forall2 Ip4FragOut.received demo_frags3 demo_rcv3.
Proof. unfold demo_frags3, demo_rcv3. repeat (apply Forall2_cons; split); [..|apply Forall2_nil; exact I].
  all: split; [reflexivity|concrete_pkt|vm_compute; discriminate|vm_compute; discriminate].
Qed.

Lemma ip_roundtrip_witness : exists e p' s' d S, ip4_output_if (fun _ => ERR_OK) demo_out None (Some (IP4_ADDR 10 0 0 3)) 64 0 IP_PROTO_TCP demo_small demo_ipout = Some (e, p', s')
  /\ tx s' = demo_frags3 /\ length demo_frags3 = 3%nat /\ p_bytes d = demo_data 44
  /\ run_input no_recv (rev demo_rcv3) 1 demo_sys = to_tcp d (IP4_ADDR 198 18 0 1) (IP4_ADDR 10 0 0 3) 1 (demo_nif 0) (demo_sys <| ra := S |>).
Proof.
  destruct (ip_roundtrip no_recv (fun _ => ERR_OK) demo_out None (IP4_ADDR 10 0 0 3) 64 0 demo_small demo_ipout 1 (demo_nif 0) demo_sys 7 [8]) as (e & p' & s' & new & E & Ht & _ & H); [exact demo_can_send|range_ok|range_ok|range_ok|range_ok|range_ok|range_ok|reflexivity| | |exact demo_sys_ok|reflexivity..|constructor|].
  - right. split; [split; vm_compute; discriminate|reflexivity].
  - exists (repeat true 110). reflexivity.
  - assert (Hn : new = demo_frags3) by (change demo_frags3 with (tx (snd (default (ERR_OK, demo_out, demo_ipout) (ip4_output_if (fun _ => ERR_OK) demo_out None (Some (IP4_ADDR 10 0 0 3)) 64 0 IP_PROTO_TCP demo_small demo_ipout)))); rewrite E; exact (eq_sym Ht)). subst new.
    destruct (H demo_rcv3 (rev demo_rcv3) demo_rcv3_ok) as (d & S & Hd & _ & Hr); [symmetry; apply Permutation_rev|vm_compute; discriminate|].
    exists e, p', s', d, S. split_and!; [exact E|exact Ht|vm_compute; reflexivity|exact Hd|exact Hr].
Defined.
End Demo.
