(* ===== verification/TcpListen.v ===== *)
(** * TcpListen: TCP leaves the listeners alone

    Whatever arrives, whatever the timers and the callbacks do, the listeners are
    the same afterwards but for the order of their list and their counts of
    pending connections; and the log of events only grows.  Only
    [tcp_listen_with_backlog_and_err], [tcp_accept] and [tcp_close_listen] make,
    change and end a listener.  TFIPStack keeps a pointer to its listener over
    all of that. *)

From S2P Require Import Prelude Def Ip4Addr Opts Chksum TcpPcb TcpOut TcpIn TcpStack TcpInput TcpTimer.

(** A listener without its count. *)
Definition still (l : tcp_pcb_listen) : tcp_pcb_listen := l <| accepts_pending := 0 |>.

Record lkeep (S S' : stack) : Prop := {
  lk_list : tcp_listen_pcbs S' ≡ₚ tcp_listen_pcbs S;
  lk_lpcbs : forall x, still <$> lpcbs S' !! x = still <$> lpcbs S !! x;
  lk_pool : lpcb_pool S' = lpcb_pool S;
  lk_events : events S `prefix_of` events S' }.

#[export] Instance lkeep_preorder : PreOrder lkeep.
Proof.
  split; [done|]. intros S1 S2 S3 [H1 H2 H3 H4] [K1 K2 K3 K4]. split; [by rewrite K1|intros x; by rewrite K2|congruence|by etransitivity].
Qed.

(** Results that carry a stack. *)
Class Stacked (A : Type) := stack_of : A -> stack.
#[export] Instance stacked_stack : Stacked stack := id.
#[export] Instance stacked_pair {A} : Stacked (A * stack) := snd.

Definition lk {A} `{Stacked A} (S : stack) (r : res A) : Prop := match r with Ok y => lkeep S (stack_of y) | _ => True end.

Lemma lk_bind {A B} `{Stacked A} `{Stacked B} S (r : res A) (k : A -> res B) : lk S r -> (forall y, lk (stack_of y) (k y)) -> lk S (rbind r k).
Proof. destruct r as [y| | |]; try done. cbn. intros H1 H2. specialize (H2 y). destruct (k y); [|done..]. cbn in *. by etransitivity. Qed.

Lemma lk_read {A B} `{Stacked B} S (r : res A) (k : A -> res B) : (forall y, lk S (k y)) -> lk S (rbind r k).
Proof. destruct r; try done. intros H1. apply H1. Qed.

Lemma lk_pre {A} `{Stacked A} S S1 (r : res A) : lkeep S S1 -> lk S1 r -> lk S r.
Proof. destruct r; try done. cbn. intros H1 H2. by etransitivity. Qed.

Create HintDb lk.

(** Only fields that do not matter differ. *)
Ltac lk_triv := by (split; [done|done|done|first [done|by apply prefix_app_r]]).
Ltac lk_call := first [ solve [eauto 2 with lk nocore] | eapply lk_pre; [|solve [eauto 2 with lk nocore]]; lk_triv ].
Ltac lk_open y := first [destruct y as [[? ?] ?]|destruct y as [? ?]|idtac]; cbn [stack_of stacked_stack stacked_pair snd id] in *.
Ltac lk_step :=
  match goal with
  | |- lk _ (Ok _) => cbn; first [lk_triv|case_match; lk_triv]
  | |- lk _ Failed => exact I
  | |- lk _ Dangling => exact I
  | |- lk _ Stuck => exact I
  | |- lk _ (rbind _ _) => first [eapply lk_bind; [lk_call|intros ?y; lk_open y]|eapply lk_bind; [solve [repeat lk_step]|intros ?y; lk_open y]|apply lk_read; intros ?y; lk_open y]
  | |- _ => lk_call
  | |- lk _ (match ?x with _ => _ end) => destruct x
  end.
Ltac lkw := repeat (cbv zeta; lk_step).

Section Listen.
Context {o : Opts} {ip : IpLayer}.

Lemma upd_lk a f S : lk S (upd a f S).
Proof. unfold upd. lkw. Qed.
Lemma updc_lk a f S : lk S (updc a f S).
Proof. apply upd_lk. Qed.
#[local] Hint Resolve upd_lk updc_lk : lk.

Lemma on_lk {R} a (f : tcp_st -> option (R * tcp_st)) S : lk S (on a f S).
Proof. unfold on. lkw. Qed.
#[local] Hint Resolve on_lk : lk.
Lemma on__lk a f S : lk S (on_ a f S).
Proof. unfold on_. lkw. Qed.
#[local] Hint Resolve on__lk : lk.
Lemma run_in_lk a f t S : lk S (run_in a f t S).
Proof. unfold run_in. lkw. Qed.
Lemma run_parseopt_lk a t S : lk S (run_parseopt a t S).
Proof. unfold run_parseopt. lkw. Qed.
#[local] Hint Resolve run_in_lk run_parseopt_lk : lk.

(** A listener's count changes. *)
Lemma putl_lkeep lp l n S : lpcbs S !! lp = Some l -> lkeep S (putl lp (l <| accepts_pending := n |>) S).
Proof.
  intros E. split; try done. intros x. cbn. destruct (Z.eq_dec x lp) as [->|Hn]; [by rewrite lookup_insert_eq, E|by rewrite lookup_insert_ne].
Qed.

Lemma lk_getl {B} `{Stacked B} lp S (k : tcp_pcb_listen -> res B) : (forall l, lpcbs S !! lp = Some l -> lk S (k l)) -> lk S (rbind (getl lp S) k).
Proof. unfold getl. destruct (lpcbs S !! lp) as [l|]; [|done]. cbn. auto. Qed.

Lemma reg_lk w a S : w <> LListen -> lk S (TCP_REG w a S).
Proof. intros Hw. unfold TCP_REG. destruct (live w S a); [|done]. cbn. destruct w; [done|..]; (split; [done|done|done|by apply prefix_app_r]). Qed.
Lemma rmv_lk w a S : w <> LListen -> lk S (TCP_RMV w a S).
Proof. intros Hw. unfold TCP_RMV. destruct (live w S a); [|done]. destruct (rmv _ _ _); [|done]. by destruct w. Qed.
#[local] Hint Extern 1 (lk _ (TCP_REG _ _ _)) => apply reg_lk; discriminate : lk.
#[local] Hint Extern 1 (lk _ (TCP_RMV _ _ _)) => apply rmv_lk; discriminate : lk.
Lemma reg_active_lk a S : lk S (TCP_REG_ACTIVE a S).
Proof. unfold TCP_REG_ACTIVE. lkw. Qed.
Lemma rmv_active_lk a S : lk S (TCP_RMV_ACTIVE a S).
Proof. unfold TCP_RMV_ACTIVE. lkw. Qed.
#[local] Hint Resolve reg_active_lk rmv_active_lk : lk.

Lemma free_lk a S : lk S (tcp_free a S).
Proof. unfold tcp_free. apply lk_read. intros c. destruct (negb _); [|done]. cbn. destruct (ext_args c); lk_triv. Qed.
Lemma backlog_delayed_lk a S : lk S (tcp_backlog_delayed a S).
Proof.
  unfold tcp_backlog_delayed. apply lk_read. intros c. destruct (_ && _); [|done]. apply lk_getl. intros l E. cbv zeta. destruct (negb _); [|done].
  eapply lk_pre; [by apply putl_lkeep|apply updc_lk].
Qed.
Lemma backlog_accepted_lk a S : lk S (tcp_backlog_accepted a S).
Proof.
  unfold tcp_backlog_accepted. apply lk_read. intros c. destruct (_ && _); [|done]. apply lk_getl. intros l E. destruct (negb _); [|done].
  eapply lk_pre; [by apply putl_lkeep|apply updc_lk].
Qed.
#[local] Hint Resolve free_lk backlog_delayed_lk backlog_accepted_lk : lk.

Lemma purge_lk a S : lk S (tcp_pcb_purge a S).
Proof. unfold tcp_pcb_purge. lkw. Qed.
#[local] Hint Resolve purge_lk : lk.
Lemma pcb_remove_lk w a S : w <> LListen -> lk S (tcp_pcb_remove w a S).
Proof. intros Hw. unfold tcp_pcb_remove. eapply lk_bind; [by apply rmv_lk|]. intros S1. lkw. Qed.
#[local] Hint Extern 1 (lk _ (tcp_pcb_remove _ _ _)) => apply pcb_remove_lk; discriminate : lk.
Lemma remove_active_lk a S : lk S (TCP_PCB_REMOVE_ACTIVE a S).
Proof. unfold TCP_PCB_REMOVE_ACTIVE. lkw. Qed.
#[local] Hint Resolve remove_active_lk : lk.

(** ** Closing and allocating *)
Lemma send_fin_to_lk a next S : lk S (send_fin_to a next S).
Proof. unfold send_fin_to. lkw. Qed.
#[local] Hint Resolve send_fin_to_lk : lk.
Lemma close_fin_lk a S : lk S (tcp_close_shutdown_fin a S).
Proof. unfold tcp_close_shutdown_fin. lkw. Qed.
Lemma rst_own_lk a s k p S : lk S (rst_own a s k p S).
Proof. apply on__lk. Qed.
#[local] Hint Resolve close_fin_lk rst_own_lk : lk.
Lemma close_shutdown_lk a b S : lk S (tcp_close_shutdown a b S).
Proof. unfold tcp_close_shutdown. lkw. Qed.
#[local] Hint Resolve close_shutdown_lk : lk.
Lemma close_lk a S : lk S (tcp_close a S).
Proof. unfold tcp_close. lkw. Qed.
Lemma shutdown_lk a rx tx S : lk S (tcp_shutdown a rx tx S).
Proof. unfold tcp_shutdown. lkw. Qed.
Lemma abandon_lk a b S : lk S (tcp_abandon a b S).
Proof. unfold tcp_abandon. lkw. Qed.
#[local] Hint Resolve close_lk shutdown_lk abandon_lk : lk.
Lemma abort_lk a S : lk S (tcp_abort a S).
Proof. apply abandon_lk. Qed.
#[local] Hint Resolve abort_lk : lk.

Lemma kill_prio_lk p S : lk S (tcp_kill_prio p S).
Proof. unfold tcp_kill_prio. lkw. Qed.
Lemma kill_state_lk st S : lk S (tcp_kill_state st S).
Proof. unfold tcp_kill_state. lkw. Qed.
Lemma kill_timewait_lk S : lk S (tcp_kill_timewait S).
Proof. unfold tcp_kill_timewait. lkw. Qed.
Lemma closepend_one_lk a S : lk S (closepend_one a S).
Proof. unfold closepend_one. lkw. Qed.
#[local] Hint Resolve kill_prio_lk kill_state_lk kill_timewait_lk closepend_one_lk : lk.
Lemma closepend_lk l : forall S, lk S (closepend_walk l S).
Proof. induction l as [|a l IH]; intros S; cbn [closepend_walk]; lkw. Qed.
Lemma handle_closepend_lk S : lk S (tcp_handle_closepend S).
Proof. apply closepend_lk. Qed.
#[local] Hint Resolve handle_closepend_lk : lk.
Lemma malloc_or_lk more S : (forall S, lk S (more S)) -> lk S (pcb_malloc_or more S).
Proof. intros Hm. unfold pcb_malloc_or. destruct (pcb_pool S); [apply Hm|lkw]. Qed.
Lemma alloc_lk p S : lk S (tcp_alloc p S).
Proof.
  unfold tcp_alloc. eapply lk_bind; [|intros [a S1]; cbn; lkw]. repeat first [apply malloc_or_lk; intros ?S|lk_step].
Qed.
#[local] Hint Resolve alloc_lk : lk.

(** ** Callbacks *)
Lemma set_callback_lk a f S : lk S (set_callback a f S).
Proof. unfold set_callback. lkw. Qed.
#[local] Hint Resolve set_callback_lk : lk.
Lemma run_call_lk a k S : lk S (run_call a k S).
Proof. destruct k; cbn [run_call]; unfold tcp_recv, tcp_sent, tcp_err, tcp_poll, tcp_ext_arg_set; lkw. Qed.
#[local] Hint Resolve run_call_lk : lk.
Lemma run_calls_lk a l : forall S, lk S (run_calls a l S).
Proof. induction l as [|k l IH]; intros S; cbn [run_calls]; lkw. Qed.
#[local] Hint Resolve run_calls_lk : lk.
Lemma respond_lk a r S : lk S (respond a r S).
Proof. unfold respond. lkw. Qed.
#[local] Hint Resolve respond_lk : lk.
Lemma recv_null_lk a p S : lk S (tcp_recv_null a p S).
Proof. unfold tcp_recv_null. lkw. Qed.
#[local] Hint Resolve recv_null_lk : lk.
Lemma event_sent_lk a n S : lk S (TCP_EVENT_SENT a n S).
Proof. unfold TCP_EVENT_SENT. lkw. Qed.
Lemma event_recv_lk a d S : lk S (TCP_EVENT_RECV a d S).
Proof. unfold TCP_EVENT_RECV. lkw. Qed.
Lemma event_closed_lk a S : lk S (TCP_EVENT_CLOSED a S).
Proof. unfold TCP_EVENT_CLOSED. lkw. Qed.
Lemma event_connected_lk a S : lk S (TCP_EVENT_CONNECTED a S).
Proof. unfold TCP_EVENT_CONNECTED. lkw. Qed.
Lemma event_poll_lk a S : lk S (TCP_EVENT_POLL a S).
Proof. unfold TCP_EVENT_POLL. lkw. Qed.
Lemma event_accept_lk lp a S : lk S (TCP_EVENT_ACCEPT lp a S).
Proof. unfold TCP_EVENT_ACCEPT. lkw. Qed.
Lemma event_accept_err_lk lp S : lk S (TCP_EVENT_ACCEPT_ERR lp S).
Proof. unfold TCP_EVENT_ACCEPT_ERR. lkw. Qed.
#[local] Hint Resolve event_sent_lk event_recv_lk event_closed_lk event_connected_lk event_poll_lk event_accept_lk event_accept_err_lk : lk.
Lemma refused_loop_lk fuel a : forall S, lk S (refused_loop fuel a S).
Proof. induction fuel as [|fuel IH]; intros S; cbn [refused_loop]; lkw. Qed.
#[local] Hint Resolve refused_loop_lk : lk.
Lemma refused_data_lk a S : lk S (tcp_process_refused_data a S).
Proof. unfold tcp_process_refused_data. lkw. Qed.
#[local] Hint Resolve refused_data_lk : lk.

(** ** A segment *)
Lemma to_time_wait_lk a S : lk S (to_time_wait a S).
Proof. unfold to_time_wait. lkw. Qed.
Lemma rst_answer_lk a i t S : lk S (rst_answer a i t S).
Proof. apply on__lk. Qed.
Lemma rst_netif_lkeep i t S : lkeep S (tcp_rst_netif i t S).
Proof. unfold tcp_rst_netif. destruct (g_allocs S) as [|[] l]; lk_triv. Qed.
#[local] Hint Resolve to_time_wait_lk rst_answer_lk : lk.
Lemma receive_passive_lk a t S : lk S (receive_passive a t S).
Proof. unfold receive_passive. lkw. Qed.
Lemma syn_sent_lk a i t S : lk S (process_syn_sent a i t S).
Proof. unfold process_syn_sent. lkw. Qed.
Lemma syn_rcvd_lk a i t S : lk S (process_syn_rcvd a i t S).
Proof. unfold process_syn_rcvd. lkw. Qed.
Lemma fin_wait_1_lk a t S : lk S (process_fin_wait_1 a t S).
Proof. unfold process_fin_wait_1. lkw. Qed.
Lemma fin_wait_2_lk a t S : lk S (process_fin_wait_2 a t S).
Proof. unfold process_fin_wait_2. lkw. Qed.
Lemma closing_lk a t S : lk S (process_closing a t S).
Proof. unfold process_closing. lkw. Qed.
Lemma last_ack_lk a t S : lk S (process_last_ack a t S).
Proof. unfold process_last_ack. lkw. Qed.
Lemma process_rst_lk a t S : lk S (process_rst a t S).
Proof. unfold process_rst. lkw. Qed.
#[local] Hint Resolve receive_passive_lk syn_sent_lk syn_rcvd_lk fin_wait_1_lk fin_wait_2_lk closing_lk last_ack_lk process_rst_lk : lk.
Lemma process_lk a i t S : lk S (tcp_process a i t S).
Proof. unfold tcp_process. lkw. Qed.
Lemma timewait_input_lk a i t S : lk S (tcp_timewait_input a i t S).
Proof. unfold tcp_timewait_input. lkw. Qed.
#[local] Hint Resolve process_lk timewait_input_lk : lk.

Lemma listen_input_lk lp i t S : lk S (tcp_listen_input lp i t S).
Proof.
  unfold tcp_listen_input. destruct (flag_set _ TCP_RST); [done|]. destruct (flag_set _ TCP_ACK); [apply rst_netif_lkeep|]. destruct (flag_set _ TCP_SYN); [|done].
  apply lk_read. intros l0. destruct (_ <=? _); [done|]. eapply lk_bind; [apply alloc_lk|]. intros [a S1]. cbn. destruct (a =? 0); [apply event_accept_err_lk|].
  apply lk_getl. intros l El. cbv zeta. eapply lk_pre; [by apply (putl_lkeep lp l (u8 (accepts_pending l + 1)))|]. generalize (putl lp (l <| accepts_pending := u8 (accepts_pending l + 1) |>) S1). intros S2.
  unfold tcp_next_iss. cbv zeta. lkw.
Qed.
#[local] Hint Resolve listen_input_lk : lk.

Lemma delayed_close_lk a S : lk S (tcp_input_delayed_close a S).
Proof.
  unfold tcp_input_delayed_close. destruct (flag_set _ _); [|done]. apply lk_read. intros c. cbv zeta. eapply (lk_pre _ (if negb (flag_set (flags (core c)) TF_RXCLOSED) && errf c then note (EvErr a ERR_CLSD) S else S)); [case_match; lk_triv|].
  generalize (if negb (flag_set (flags (core c)) TF_RXCLOSED) && errf c then note (EvErr a ERR_CLSD) S else S). intros S1. lkw.
Qed.
Lemma sent_loop_lk fuel a : forall n S, lk S (sent_loop fuel a n S).
Proof. induction fuel as [|fuel IH]; intros n S; cbn [sent_loop]; lkw. Qed.
Lemma recv_loop_lk fuel a : forall d S, lk S (recv_loop fuel a d S).
Proof. induction fuel as [|fuel IH]; intros d S; cbn [recv_loop]; lkw. Qed.
Lemma deliver_fin_lk a S : lk S (deliver_fin a S).
Proof. unfold deliver_fin. lkw. Qed.
#[local] Hint Resolve delayed_close_lk sent_loop_lk recv_loop_lk deliver_fin_lk : lk.
Lemma deliver_lk a t S : lk S (deliver a t S).
Proof. unfold deliver. lkw. Qed.
Lemma input_reset_lk a S : lk S (input_reset a S).
Proof.
  unfold input_reset. apply lk_read. intros c. cbv zeta. eapply (lk_pre _ (if errf c then note (EvErr a ERR_RST) S else S)); [case_match; lk_triv|].
  generalize (if errf c then note (EvErr a ERR_RST) S else S). intros S1. lkw.
Qed.
#[local] Hint Resolve deliver_lk input_reset_lk : lk.
Lemma input_active_lk a i t S : lk S (input_active a i t S).
Proof. unfold input_active. cbv zeta. eapply (lk_pre _ (S <| in_recv_flags := 0 |>)); [lk_triv|]. generalize (S <| in_recv_flags := 0 |>). intros S1. lkw. Qed.
#[local] Hint Resolve input_active_lk : lk.

Lemma find_one i lp S : find_lpcb i [lp] S = Ok 0 \/ find_lpcb i [lp] S = Ok lp \/ find_lpcb i [lp] S = Dangling.
Proof. cbn. unfold getl. destruct (lpcbs S !! lp); cbn; [|auto]. case_match; auto. Qed.

(** There is one listener at most when a segment is matched with it. *)
Lemma tcp_input_lk src dest n p S : lk S (tcp_input src dest n p S).
Proof.
  unfold tcp_input. apply lk_read. intros [[i t]|]; [|done]. apply lk_read. intros a. destruct (negb (a =? 0)); [eapply lk_pre; [|apply input_active_lk]; lk_triv|].
  apply lk_read. intros b. destruct (negb (b =? 0)); [lk_call|]. assert (Hr : lkeep S (if flag_set (in_flags t) TCP_RST then S else tcp_rst_netif i t S)) by (case_match; [done|apply rst_netif_lkeep]).
  destruct (tcp_listen_pcbs S) as [|lp [|y l]] eqn:El; [exact Hr| |done]. destruct (_ && _); [lk_call|].
  destruct (find_one i lp S) as [-> |[-> | ->]]; cbn [rbind]; [exact Hr| |done]. destruct (negb (lp =? 0)); [|exact Hr].
  eapply lk_pre; [|apply listen_input_lk]. split; try done. cbn. rewrite El. unfold to_front. cbn. by rewrite Z.eqb_refl.
Qed.

(** ** The timers *)
Lemma slow_remove_lk a b S : lk S (slow_remove a b S).
Proof. unfold slow_remove. lkw. Qed.
Lemma slow_poll_lk a S : lk S (slow_poll a S).
Proof. unfold slow_poll. lkw. Qed.
Lemma fast_pcb_lk a S : lk S (fast_pcb a S).
Proof. unfold fast_pcb. lkw. Qed.
#[local] Hint Resolve slow_remove_lk slow_poll_lk fast_pcb_lk : lk.
Lemma slow_active_lk fuel : forall l S, lk S (slow_active fuel l S).
Proof. induction fuel as [|fuel IH]; intros [|a l] S; cbn [slow_active]; lkw. Qed.
Lemma slow_tw_lk l : forall S, lk S (slow_tw l S).
Proof. induction l as [|a l IH]; intros S; cbn [slow_tw]; lkw. Qed.
Lemma fast_active_lk fuel : forall l S, lk S (fast_active fuel l S).
Proof. induction fuel as [|fuel IH]; intros [|a l] S; cbn [fast_active]; lkw. Qed.
#[local] Hint Resolve slow_active_lk slow_tw_lk fast_active_lk : lk.
Lemma slowtmr_lk S : lk S (tcp_slowtmr S).
Proof. unfold tcp_slowtmr. cbv zeta. set (S1 := (S <| ticks := _ |>) <| tcp_timer_ctr := _ |>). eapply (lk_pre _ S1); [lk_triv|]. clearbody S1. lkw. Qed.
Lemma fasttmr_lk S : lk S (tcp_fasttmr S).
Proof. unfold tcp_fasttmr. cbv zeta. set (S1 := S <| tcp_timer_ctr := _ |>). eapply (lk_pre _ S1); [lk_triv|]. apply fast_active_lk. Qed.
#[local] Hint Resolve slowtmr_lk fasttmr_lk : lk.
Lemma tmr_lk S : lk S (tcp_tmr S).
Proof. unfold tcp_tmr. lkw. Qed.
End Listen.
