(* ===== verification/TcpPort.v ===== *)
(** * TcpPort: local ports, [tcp_new_port] of src/Sources/Lwip/src/core/tcp.c

    The search goes round the 16383 local ports once: it finds a free one
    whenever there is one. *)

From S2P Require Import Prelude Def Opts Chksum TcpPcb TcpOut TcpIn TcpStack TcpSafety TcpSafeIn TcpSafeRun TcpSafeApi.

(** The port after [k] steps from [p]. *)
Definition port_after (p k : Z) : Z := 49152 + (p - 49152 + k) mod 16383.

Definition local_range (p : Z) : Prop := TCP_LOCAL_PORT_RANGE_START <= p < TCP_LOCAL_PORT_RANGE_END.

Lemma port_after_range p k : local_range (port_after p k).
Proof. unfold local_range, port_after, TCP_LOCAL_PORT_RANGE_START, TCP_LOCAL_PORT_RANGE_END. pose proof (Z.mod_pos_bound (p - 49152 + k) 16383). lia. Qed.

Lemma port_after_0 p : local_range p -> port_after p 0 = p.
Proof. unfold local_range, port_after, TCP_LOCAL_PORT_RANGE_START, TCP_LOCAL_PORT_RANGE_END. intros H. rewrite Z.mod_small; lia. Qed.

Lemma port_step p k : (let q := u16 (port_after p k + 1) in if q =? TCP_LOCAL_PORT_RANGE_END then TCP_LOCAL_PORT_RANGE_START else q) = port_after p (k + 1).
Proof.
  cbv zeta. unfold port_after, TCP_LOCAL_PORT_RANGE_START, TCP_LOCAL_PORT_RANGE_END. pose proof (Z.mod_pos_bound (p - 49152 + k) 16383 ltac:(lia)) as Hb. rewrite u16_id by zlia.
  rewrite Z.add_assoc, <- (Z.add_mod_idemp_l _ 1) by lia. set (m := (p - 49152 + k) mod 16383) in *. destruct (Z.eqb_spec (49152 + m + 1) 65535); [replace m with 16382 by lia; done|]. rewrite Z.mod_small by lia. lia.
Qed.

Lemma port_after_inj p i j : 1 <= Z.of_nat i <= 16383 -> 1 <= Z.of_nat j <= 16383 -> port_after p (Z.of_nat i) = port_after p (Z.of_nat j) -> i = j.
Proof.
  unfold port_after. intros Hi Hj E. set (x := p - 49152 + Z.of_nat i) in *. set (y := p - 49152 + Z.of_nat j) in *.
  pose proof (Z.div_mod x 16383 ltac:(lia)) as Hx. pose proof (Z.div_mod y 16383 ltac:(lia)) as Hy. assert (Hd : x - y = Z.of_nat i - Z.of_nat j) by lia.
  assert (Em : x mod 16383 = y mod 16383) by lia. rewrite Em in Hx. clear E Em. set (u := x / 16383) in *. set (v := y / 16383) in *. set (r := y mod 16383) in *. clearbody x y u v r. lia.
Qed.

(** After [k] used ports the loop is at the next. *)
Lemma new_port_finds used p fuel : forall k, 0 <= k -> (Z.to_nat (16384 - k) <= fuel)%nat -> k <= 16383 ->
  (exists j, k < j <= 16383 /\ existsb (Z.eqb (port_after p j)) used = false) ->
  exists j, k < j <= 16383 /\ existsb (Z.eqb (port_after p j)) used = false /\ new_port_loop fuel used (port_after p k) k = Ok (port_after p j, port_after p j).
Proof.
  induction fuel as [|fuel IH]; intros k H0 Hf Hk (j & Hj & Ej); [lia|]. cbn [new_port_loop]. pose proof (port_step p k) as Hs. cbv zeta in Hs |- *. rewrite Hs.
  destruct (existsb (Z.eqb (port_after p (k + 1))) used) eqn:Eu; [|exists (k + 1); split_and!; [lia|lia|done|done]].
  assert (k + 1 <> j) by congruence. rewrite u16_id by zlia. unfold TCP_LOCAL_PORT_RANGE_START, TCP_LOCAL_PORT_RANGE_END. rewrite (proj2 (Z.ltb_ge _ _)) by lia.
  destruct (IH (k + 1)) as (i & Hi & Ei & E); [lia|lia|lia|exists j; split; [lia|done]|]. exists i. split_and!; [lia|lia|done|exact E].
Qed.

(** Fewer ports in use than there are: one is free. *)
Lemma some_port_free used p : lenz used < 16383 -> exists j, 0 < j <= 16383 /\ existsb (Z.eqb (port_after p j)) used = false.
Proof.
  intros Hl. set (f := fun i : nat => port_after p (Z.of_nat i)). destruct (decide (Forall (fun i => f i ∈ used) (seq 1 (Z.to_nat 16383)))) as [Hall|Hno].
  - exfalso. assert (Hd : NoDup (map f (seq 1 (Z.to_nat 16383)))).
    { apply NoDup_fmap_2_strong; [|apply NoDup_seq]. intros i j Hi Hj. rewrite elem_of_seq in Hi, Hj. intros E. apply (port_after_inj p); [lia..|exact E]. }
    assert (Hs : map f (seq 1 (Z.to_nat 16383)) ⊆ used). { intros x Hx. apply list_elem_of_fmap in Hx as (i & -> & Hi). rewrite Forall_forall in Hall. by apply Hall. }
    pose proof (submseteq_length _ _ (NoDup_submseteq _ _ Hd Hs)) as Hlen. rewrite length_map, length_seq in Hlen. unfold lenz in Hl. lia.
  - apply not_Forall_Exists in Hno; [|intros i; apply _]. apply Exists_exists in Hno as (i & Hi & Hn). rewrite elem_of_seq in Hi. exists (Z.of_nat i). split; [lia|]. apply not_true_iff_false. intros (x & Hx & E)%existsb_exists. apply Z.eqb_eq in E. apply Hn. unfold f. rewrite E. by apply list_elem_of_In.
Qed.

(** [tcp_new_port] gives a port of the dynamic range that no pcb uses, and
    remembers it, whenever fewer than 16383 ports are in use. *)
Lemma new_port_free ps S : all_ports S = Ok ps -> lenz ps < 16383 -> local_range (tcp_port S) ->
  exists q, tcp_new_port S = Ok (q, S <| tcp_port := q |>) /\ local_range q /\ q ∉ map fst ps.
Proof.
  intros Ep Hl Hr. unfold tcp_new_port. rewrite Ep. cbn [rbind]. assert (Hl' : lenz (map fst ps) < 16383) by (unfold lenz in *; by rewrite length_map).
  destruct (new_port_finds (map fst ps) (tcp_port S) 16385 0) as (j & Hj & Ej & E); [lia|apply Nat.leb_le; vm_compute; reflexivity|lia|by apply some_port_free|]. rewrite port_after_0 in E by done. rewrite E. cbn [rbind].
  exists (port_after (tcp_port S) j). split; [done|]. split; [apply port_after_range|]. intros Hin. apply not_true_iff_false in Ej. apply Ej, existsb_exists. eexists. split; [by apply list_elem_of_In|apply Z.eqb_refl].
Qed.

(** ** Opening a listener *)
Section Listen.
Context {o : Opts} {ip : IpLayer}.

Lemma ports_of_total S l : (forall a, a ∈ l -> is_Some (pcbs S !! a)) -> exists ps, ports_of l S = Ok ps /\ lenz ps = lenz l.
Proof.
  induction l as [|a l IH]; intros H; cbn [ports_of]; [by exists []|]. destruct (H a ltac:(left)) as [c Ec]. destruct IH as (ps & -> & E); [intros b Hb; apply H; by right|]. unfold get. rewrite Ec. cbn [rbind]. eexists. split; [done|]. by rewrite !lenz_cons, E.
Qed.

Lemma all_ports_total S : safe S -> tcp_listen_pcbs S = [] -> exists ps, all_ports S = Ok ps /\ lenz ps = lenz (tcp_bound_pcbs S ++ tcp_active_pcbs S ++ tcp_tw_pcbs S).
Proof.
  intros [Hs _] El. unfold all_ports. rewrite El. cbn [lports_of rbind].
  destruct (ports_of_total S (tcp_bound_pcbs S)) as (p1 & -> & L1); [intros a Ha; destruct (sn_bound _ _ Hs a Ha) as (c & -> & _); by eexists|].
  destruct (ports_of_total S (tcp_active_pcbs S)) as (p2 & -> & L2); [intros a Ha; destruct (sn_active _ _ Hs a Ha) as (c & -> & _); by eexists|].
  destruct (ports_of_total S (tcp_tw_pcbs S)) as (p3 & -> & L3); [intros a Ha; destruct (sn_tw _ _ Hs a Ha) as (c & -> & _); by eexists|].
  cbn [rbind]. eexists. split; [done|]. unfold lenz in *. rewrite !length_app. cbn. lia.
Qed.

Lemma alloc_eq prio a P S : pcb_pool S = a :: P -> a <> 0 ->
  tcp_alloc prio S = Ok (a, put a (mk_obj (new_pcb prio (ticks S) (tcp_timer_ctr S)) 0 Recv_tcp_recv_null false false false false false false) (S <| pcb_pool := P |>)).
Proof. intros E Ha%Z.eqb_neq. unfold tcp_alloc, pcb_malloc_or. rewrite E. cbn [rbind]. by rewrite Ha. Qed.

(** A closed pcb with no port is bound, and can listen then. *)
Lemma bind_listen_ok a c q bl S l L : pcbs S !! a = Some c -> state (core c) = CLOSED -> ext_args c = false -> tcp_new_port S = Ok (q, S <| tcp_port := q |>) -> q <> 0 -> lpcb_pool S = l :: L ->
  exists S1 S2, tcp_bind a 0 0 S = Ok (ERR_OK, S1) /\ tcp_listen_with_backlog_and_err a bl S1 = Ok (l, ERR_OK, S2) /\ is_Some (lpcbs S2 !! l).
Proof.
  intros Ec Es Ex Eq Hq%Z.eqb_neq El. unfold tcp_bind, get. rewrite Ec. cbn [rbind]. rewrite Es. cbn [state_is negb]. change (state_is CLOSED CLOSED) with true. cbn [negb Z.eqb]. rewrite Eq. cbn [rbind]. rewrite Hq. cbn [rbind].
  unfold updc, upd, get. change (pcbs (S <| tcp_port := q |>)) with (pcbs S). rewrite Ec. cbn [rbind]. set (c1 := c <| core := _ |>). unfold TCP_REG, live. set (S0 := put a c1 (S <| tcp_port := q |>)).
  assert (E0 : pcbs S0 !! a = Some c1) by (unfold S0; cbn; apply lookup_insert_eq). rewrite E0. change (bool_decide (is_Some (Some c1))) with true. cbn match. set (S1 := note _ _). exists S1.
  assert (E1 : pcbs S1 !! a = Some c1) by exact E0. unfold tcp_listen_with_backlog_and_err, get. rewrite E1. cbn [rbind]. change (state (core c1)) with (state (core c)). rewrite Es. change (state_is CLOSED CLOSED) with true. cbn [negb].
  change (lpcb_pool S1) with (lpcb_pool S). rewrite El. cbv zeta. change (local_port (core c1)) with q. rewrite Hq. cbn [negb]. set (S2 := S1 <| lpcb_pool := L |>).
  unfold TCP_RMV, live. change (pcbs S2 !! a) with (pcbs S1 !! a). rewrite E1. change (bool_decide (is_Some (Some c1))) with true. cbn match. change (get_list LBound S2) with (a :: tcp_bound_pcbs S). cbn [rmv]. rewrite Z.eqb_refl. cbn [rbind].
  set (S3 := set_list LBound _ S2). unfold tcp_free, get. change (pcbs S3 !! a) with (pcbs S1 !! a). rewrite E1. cbn [rbind]. change (state (core c1)) with (state (core c)). rewrite Es. change (state_is CLOSED LISTEN) with false. cbn [negb]. change (ext_args c1) with (ext_args c). rewrite Ex. cbn [rbind].
  set (S4 := S3 <| pcbs := _ |> <| pcb_pool := _ |>). set (lp := mk_lpcb _ _ _ _ _ _ _ _ _). assert (E4 : lpcbs (putl l lp S4) !! l = Some lp) by (cbn; apply lookup_insert_eq). unfold TCP_REG, live. rewrite E4. change (bool_decide (is_Some (Some lp))) with true. cbn match. cbn [rbind].
  eexists. split; [done|]. split; [done|]. cbn. rewrite lookup_insert_eq. by eexists.
Qed.

(** With a free pcb, a free listener and a free port a listener is opened. *)
Lemma open_listener prio bl a P l L S : safe S -> tcp_listen_pcbs S = [] -> pcb_pool S = a :: P -> lpcb_pool S = l :: L -> local_range (tcp_port S) -> lenz (tcp_bound_pcbs S ++ tcp_active_pcbs S ++ tcp_tw_pcbs S) < 16383 ->
  exists S1 S2 S3, tcp_alloc prio S = Ok (a, S1) /\ a <> 0 /\ tcp_bind a 0 0 S1 = Ok (ERR_OK, S2) /\ tcp_listen_with_backlog_and_err a bl S2 = Ok (l, ERR_OK, S3) /\ is_Some (lpcbs S3 !! l).
Proof.
  intros Hs El Ep Elp Hr Hn. assert (Ha : a <> 0) by (intros ->; destruct (sn_pool _ _ (proj1 Hs)) as [_ H]; apply H; rewrite Ep; left). pose proof (alloc_eq prio a P S Ep Ha) as Ea. set (S1 := put a _ _) in Ea.
  pose proof (alloc_ok prio S Hs) as Hok. rewrite Ea in Hok. destruct Hok as [[Hs1 _] _]. destruct (all_ports_total S1 Hs1 El) as (ps & Eps & Hps). destruct (new_port_free ps S1 Eps ltac:(by rewrite Hps) Hr) as (q & Eq & Hq & _).
  destruct (bind_listen_ok a (mk_obj (new_pcb prio (ticks S) (tcp_timer_ctr S)) 0 Recv_tcp_recv_null false false false false false false) q bl S1 l L) as (S2 & S3 & E2 & E3 & Hl); try done; [unfold S1; cbn; apply lookup_insert_eq|unfold local_range, TCP_LOCAL_PORT_RANGE_START in Hq; lia|].
  by exists S1, S2, S3.
Qed.
End Listen.
