(* ===== verification/TcpWire.v ===== *)
(** * TcpWire: TCP segments as bytes

    The files on TCP output record what is handed to [ip_output_if] field by
    field; here are its bytes, with the checksum, as tcp_out.c writes them into
    memory, and the proof that [tcp_input] reads them back. *)

From S2P Require Import Prelude Def Ip4Addr Opts Pbuf Chksum TcpPcb TcpOut TcpIn TcpStack TcpInput.

(** ** Writing *)
Definition be32 (z : Z) : list Z := be16 (z / 65536) ++ be16 (z mod 65536).

(** [TCPH_HDRLEN_FLAGS_SET] *)
Definition TCPH_HDRLEN_FLAGS (len flags : Z) : Z := Z.lor (u16 (Z.shiftl len 12)) flags.

(** The header and its options with the checksum [chksum]; a 16-bit value in
    network order is stored as it is. *)
Definition tcp_hdr (k : packet) (chksum : Z) : list Z :=
  be16 (pk_sport k) ++ be16 (pk_dport k) ++ be32 (pk_seqno k) ++ be32 (pk_ackno k)
  ++ be16 (TCPH_HDRLEN_FLAGS (5 + lenz (pk_opts k) / 4) (pk_flags k)) ++ be16 (pk_wnd k)
  ++ [chksum mod 256; chksum / 256] ++ [0; 0] ++ pk_opts k.

(** The segment with its checksum over the pseudo header, the header (where the
    checksum is 0 then) and the data. *)
Definition segment_bytes (k : packet) : list Z :=
  let chksum := tcp_chksum (pk_src k) (pk_dst k) [tcp_hdr k 0 ++ pk_data k] in
  tcp_hdr k chksum ++ pk_data k.

(** ** Reading back *)
Record sendable (k : packet) : Prop := {
  sd_ip : is_u32 (pk_src k) /\ is_u32 (pk_dst k);
  sd_ports : is_u16 (pk_sport k) /\ is_u16 (pk_dport k);
  sd_seq : is_u32 (pk_seqno k) /\ is_u32 (pk_ackno k);
  sd_flags : 0 <= pk_flags k < 64;
  sd_wnd : is_u16 (pk_wnd k);
  sd_opts : Forall is_u8 (pk_opts k) /\ lenz (pk_opts k) mod 4 = 0 /\ lenz (pk_opts k) <= 40;
  sd_data : Forall is_u8 (pk_data k) /\ 40 + lenz (pk_opts k) + lenz (pk_data k) <= 65535 }.

Lemma be16_u8 z : is_u16 z -> Forall is_u8 (be16 z).
Proof. intros H. unfold be16. repeat constructor; zlia. Qed.

Lemma lenz_hdr k c : lenz (tcp_hdr k c) = 20 + lenz (pk_opts k).
Proof. unfold tcp_hdr, be32, be16. cbn [Datatypes.app]. rewrite !lenz_cons. lia. Qed.

Lemma hdrlen_flags k : sendable k -> TCPH_HDRLEN_FLAGS (5 + lenz (pk_opts k) / 4) (pk_flags k) = 4096 * (5 + lenz (pk_opts k) / 4) + pk_flags k
  /\ 5 <= 5 + lenz (pk_opts k) / 4 <= 15.
Proof.
  intros [_ _ _ Hf _ (_ & H4 & H40) _]. pose proof (lenz_nonneg (pk_opts k)). set (n := 5 + lenz (pk_opts k) / 4). assert (Hn : 5 <= n <= 15) by (unfold n; lia). split; [|done].
  unfold TCPH_HDRLEN_FLAGS. rewrite Z.shiftl_mul_pow2 by lia. change (2 ^ 12) with 4096. rewrite u16_id by zlia. replace (n * 4096) with (Z.shiftl n 12) by (rewrite Z.shiftl_mul_pow2; lia).
  rewrite lor_shiftl_add by lia. lia.
Qed.

Lemma hdr_u8 k c : sendable k -> 0 <= c <= 65535 -> Forall is_u8 (tcp_hdr k c ++ pk_data k).
Proof.
  intros Hk Hc. destruct (hdrlen_flags k Hk) as [Ef Hn]. destruct Hk as [_ [P1 P2] [S1 S2] Hf Hw (O1 & _ & _) (D1 & _)]. apply Forall_app. split; [|done]. unfold tcp_hdr. rewrite Ef.
  repeat (apply Forall_app; split); try (apply be16_u8; zlia); [..|done]; repeat constructor; zlia.
Qed.

Lemma pseudo_nonneg k : sendable k -> 0 <= pseudo_words 6 (20 + lenz (pk_opts k) + lenz (pk_data k)) (pk_src k) (pk_dst k).
Proof.
  intros [[I1 I2] _ _ _ _ (_ & _ & O3) (_ & D2)]. pose proof (lenz_nonneg (pk_opts k)). pose proof (lenz_nonneg (pk_data k)). unfold pseudo_words.
  pose proof (htons_u16 _ (u16_range 6)) as T1. pose proof (htons_u16 (20 + lenz (pk_opts k) + lenz (pk_data k)) ltac:(zlia)) as T2. unfold is_u16, is_u32 in *. zlia.
Qed.

Lemma segment_u8 k : sendable k -> Forall is_u8 (segment_bytes k).
Proof.
  intros Hk. apply hdr_u8; [done|]. unfold tcp_chksum, tot_len, cbytes. cbn [concat]. rewrite app_nil_r, lenz_app, lenz_hdr. pose proof (pseudo_nonneg k Hk). pose proof (wsum_nonneg false _ (hdr_u8 k 0 Hk ltac:(lia))) as [Hw _].
  pose proof (ones_reduced (pseudo_words 6 (20 + lenz (pk_opts k) + lenz (pk_data k)) (pk_src k) (pk_dst k) + wsum false (tcp_hdr k 0 ++ pk_data k)) ltac:(lia)) as (R & _). lia.
Qed.

(** The checksum makes the segment verify. *)
Lemma segment_chksum k p : sendable k -> cbytes p = segment_bytes k -> tcp_chksum (pk_src k) (pk_dst k) p = 0.
Proof.
  intros Hk Hp. unfold segment_bytes in Hp. cbv zeta in Hp. set (c := tcp_chksum _ _ [_]) in Hp. unfold tcp_chksum, tot_len. rewrite Hp.
  assert (Hl : forall c, lenz (tcp_hdr k c ++ pk_data k) = 20 + lenz (pk_opts k) + lenz (pk_data k)) by (intros c'; by rewrite lenz_app, lenz_hdr).
  assert (W : forall c, wsum false (tcp_hdr k c ++ pk_data k) = wsum false (tcp_hdr k 0 ++ pk_data k) + (c mod 256 + 256 * (c / 256))).
  { intros c'. unfold tcp_hdr, be32, be16. cbn [Datatypes.app wsum negb]. change (0 mod 256) with 0. change (0 / 256) with 0. lia. }
  pose proof (pseudo_nonneg k Hk) as Hpl.
  pose proof (wsum_nonneg false _ (hdr_u8 k 0 Hk ltac:(lia))) as [Hw _]. rewrite Hl. set (x := pseudo_words _ _ _ _) in *. set (w0 := wsum false (tcp_hdr k 0 ++ pk_data k)) in *.
  assert (Ec : c = 65535 - ones_sum (x + w0)) by (unfold c, tcp_chksum, tot_len, cbytes; cbn [concat]; rewrite app_nil_r, Hl; done).
  pose proof (ones_reduced (x + w0) ltac:(lia)) as (O1 & _ & O3 & O4). rewrite W. assert (Hc : 0 <= c <= 65535) by lia. replace (c mod 256 + 256 * (c / 256)) with c by lia.
  pose proof (ones_reduced (x + (w0 + c)) ltac:(lia)) as (Q1 & Q2 & Q3 & Q4). lia.
Qed.

(** Where the header may lie: 20 bytes in the first buffer, the options in it or
    up to the end of the second. *)
Definition header_at (hdrlen : Z) (p : chain) : Prop :=
  match p with
  | [] => False
  | b :: rest => 20 <= lenz b /\ (hdrlen <= lenz b \/ match rest with b2 :: _ => hdrlen - lenz b <= lenz b2 | [] => False end)
  end.

(** The fields of a received segment. *)
Record carries (k : packet) (idx : Z) (i : segment_ids) (t : tcp_in) : Prop := {
  ca_ids : i = mk_ids (pk_src k) (pk_dst k) (pk_sport k) (pk_dport k) idx;
  ca_seq : seqno t = pk_seqno k /\ ackno t = pk_ackno k;
  ca_flags : in_flags t = pk_flags k;
  ca_wnd : hdr_wnd t = pk_wnd k;
  ca_data : cbytes (s_p (inseg t)) = pk_data k /\ s_len (inseg t) = lenz (pk_data k);
  ca_len : tcplen t = lenz (pk_data k) + (if flag_set (pk_flags k) (Z.lor TCP_FIN TCP_SYN) then 1 else 0);
  ca_opts : tcphdr_optlen t = lenz (pk_opts k)
    /\ forall j, 0 <= j < lenz (pk_opts k) -> tcp_get_next_optbyte t j = let? x := getz (pk_opts k) j in Some (x, j + 1) }.

(** The first 20 bytes, by position. *)
Lemma fields_of k b rest : sendable k -> 20 <= lenz b -> b ++ rest = segment_bytes k ->
  u8 (nth 12 b 0) / 16 = 5 + lenz (pk_opts k) / 4 /\ be_at b 0 = pk_sport k /\ be_at b 2 = pk_dport k /\ be32_at b 4 = pk_seqno k /\ be32_at b 8 = pk_ackno k
  /\ Z.land (be_at b 12) 63 = pk_flags k /\ be_at b 14 = pk_wnd k /\ dropz 20 b ++ rest = pk_opts k ++ pk_data k.
Proof.
  intros Hk Hl. destruct (hdrlen_flags k Hk) as [Ef Hn]. destruct Hk as [_ [P1 P2] [S1 S2] Hf Hw _ _]. unfold segment_bytes, tcp_hdr, be32, be16. cbv zeta. set (c := tcp_chksum _ _ _). rewrite Ef. clearbody c.
  do 20 (destruct b as [|? b]; [exfalso; cbv in Hl; lia|]). cbn [Datatypes.app]. intros E. injection E as -> -> -> -> -> -> -> -> -> -> -> -> -> -> -> -> _ _ _ _ E. unfold be32_at, be_at. cbn [nth Nat.add].
  assert (HL : forall x, Z.land x 63 = x mod 64) by (intros x; apply (Z.land_ones x 6); lia). rewrite HL. set (n := 5 + lenz (pk_opts k) / 4) in *. split_and!; try zlia. exact E.
Qed.

Lemma getz_prefix (a b o d : list Z) j : a ++ b = o ++ d -> 0 <= j < lenz o -> j < lenz a -> getz a j = getz o j.
Proof.
  intros E Hj Ha. assert (Hl : forall l r : list Z, 0 <= j < lenz l -> getz (l ++ r) j = getz l j). { intros l r H. unfold getz. destruct (Z.ltb_spec j 0); [lia|]. apply lookup_app_l. unfold lenz in H. lia. }
  rewrite <- (Hl a b), <- (Hl o d) by lia. by rewrite E.
Qed.

Lemma getz_second (a b r o d : list Z) j : a ++ b ++ r = o ++ d -> lenz a <= j < lenz o -> j - lenz a < lenz b -> getz b (j - lenz a) = getz o j.
Proof.
  intros E Hj Hb. pose proof (lenz_nonneg a). rewrite <- (getz_prefix (a ++ b) r o d j); [|by rewrite <- app_assoc|lia|rewrite lenz_app; lia].
  unfold getz. destruct (Z.ltb_spec j 0), (Z.ltb_spec (j - lenz a) 0); try lia. rewrite lookup_app_r by (unfold lenz in *; lia). f_equal. unfold lenz. lia.
Qed.

Section Read.
Context {o : Opts} {ip : IpLayer}.

(** What tcp_out.c writes tcp_in.c reads: a segment with any ports, numbers,
    flags, window, options and data, its checksum filled in, received in buffers
    of any shape (as long as 20 bytes of the header lie in the first and its
    options in the first two), passes the checks of [tcp_input] for a unicast
    destination, and all fields, the bytes of the options and the data are those
    that were sent. *)
Theorem wire_roundtrip k n p : sendable k -> cbytes p = segment_bytes k -> header_at (20 + lenz (pk_opts k)) p ->
  ip4_addr_isbroadcast_u32 (pk_dst k) (netif_cfg n) || ip4_addr_ismulticast (pk_dst k) = false ->
  exists i t, tcp_input_header (pk_src k) (pk_dst k) n p = Ok (Some (i, t)) /\ carries k (netif_get_index n) i t.
Proof.
  intros Hk Hp Hh Hd. pose proof (segment_chksum k p Hk Hp) as Hc. destruct p as [|b rest]; [done|]. destruct Hh as [Hb Hh]. change (cbytes (b :: rest)) with (b ++ concat rest) in Hp.
  destruct (fields_of k b (concat rest) Hk Hb Hp) as (F0 & F1 & F2 & F3 & F4 & F5 & F6 & F7). pose proof (lenz_nonneg (pk_opts k)) as Ho0. pose proof (lenz_nonneg (pk_data k)) as Hd0.
  assert (Htot : tot_len (b :: rest) = 20 + lenz (pk_opts k) + lenz (pk_data k)). { unfold tot_len. change (cbytes (b :: rest)) with (b ++ concat rest). rewrite Hp. unfold segment_bytes. cbv zeta. by rewrite lenz_app, lenz_hdr. }
  destruct Hk as [_ _ _ _ _ (Ob & O4 & O40) (_ & Dmax)].
  assert (Ou : forall j, (let? x := getz (pk_opts k) j in Some (u8 x, j + 1)) = let? x := getz (pk_opts k) j in Some (x, j + 1)).
  { intros j. destruct (getz (pk_opts k) j) as [x|] eqn:Ex; [|done]. rewrite u8_id; [done|]. unfold getz in Ex. destruct (j <? 0); [done|]. by eapply Forall_lookup_1. }
  unfold tcp_input_header. change TCP_HLEN with 20. rewrite (proj2 (Z.ltb_ge _ _)) by lia. rewrite Hd, Hc. cbn [Z.eqb negb]. rewrite F0.
  assert (Eh : 4 * (5 + lenz (pk_opts k) / 4) = 20 + lenz (pk_opts k)) by lia. rewrite Eh, Htot. cbv zeta. rewrite (proj2 (Z.ltb_ge (20 + _) 20)), (proj2 (Z.ltb_ge _ (20 + lenz (pk_opts k)))) by lia. cbn [orb].
  replace (20 + lenz (pk_opts k) - 20) with (lenz (pk_opts k)) by lia. rewrite F1, F2, F3, F4, F5, F6.
  assert (Hfin : forall q, cbytes q = pk_data k -> (65535 <? tot_len q + (if flag_set (pk_flags k) (Z.lor TCP_FIN TCP_SYN) then 1 else 0)) = false /\ tot_len q = lenz (pk_data k)).
  { intros q Eq. unfold tot_len. rewrite Eq. split; [|done]. apply Z.ltb_ge. destruct (flag_set _ _); lia. }
  destruct (Z.leb_spec (20 + lenz (pk_opts k)) (lenz b)) as [Hle|Hgt]; cbn [rbind].
  - assert (Eq : cbytes (dropz (20 + lenz (pk_opts k)) b :: rest) = pk_data k).
    { change (cbytes (?x :: rest)) with (x ++ concat rest). replace (dropz (20 + lenz (pk_opts k)) b) with (dropz (lenz (pk_opts k)) (dropz 20 b)) by (unfold dropz; rewrite drop_drop; f_equal; lia).
      apply (f_equal (dropz (lenz (pk_opts k)))) in F7. rewrite dropz_app, (dropz_app_eq _ (pk_opts k)), lenz_dropz, (dropz_0 (_ - _)) in F7 by lia. exact F7. }
    destruct (Hfin _ Eq) as [-> Ht]. eexists _, _. split; [done|]. split; cbn; try done; [by rewrite Ht|]. split; [done|]. intros j Hj. unfold tcp_get_next_optbyte. cbn [tcphdr_opt2 opt1]. rewrite u16_id by zlia.
    rewrite (getz_prefix _ _ _ _ j F7) by (rewrite ?lenz_dropz by lia; lia). apply Ou.
  - destruct Hh as [Hh|Hh]; [lia|]. destruct rest as [|b2 rest]; [done|]. cbn [concat] in F7. rewrite (u16_id (_ - _)) by zlia. set (o2 := lenz (pk_opts k) - (lenz b - 20)). rewrite (proj2 (Z.ltb_ge (lenz b2) o2)) by (unfold o2; lia). cbn [rbind].
    assert (L1 : lenz (dropz 20 b) = lenz b - 20) by (rewrite lenz_dropz; lia).
    assert (Eq : cbytes ([] :: dropz o2 b2 :: rest) = pk_data k).
    { change (cbytes ([] :: ?x :: rest)) with (x ++ concat rest). apply (f_equal (dropz (lenz (pk_opts k)))) in F7. rewrite dropz_app, (dropz_all _ (dropz 20 b)), L1, dropz_app, (dropz_app_eq _ (pk_opts k)) in F7 by lia. fold o2 in F7. rewrite (dropz_0 (o2 - _)) in F7 by (unfold o2; lia). exact F7. }
    destruct (Hfin _ Eq) as [-> Ht]. eexists _, _. split; [done|]. split; cbn; try done; [by rewrite Ht|]. split; [done|]. intros j Hj. unfold tcp_get_next_optbyte. cbn [tcphdr_opt2 opt1 tcphdr_opt1len]. rewrite u16_id by zlia.
    destruct (Z.ltb_spec j (lenz b - 20)); [rewrite (getz_prefix _ _ _ _ j F7) by lia; apply Ou|]. rewrite (u8_id (j - _)) by zlia. rewrite <- L1. rewrite (getz_second _ _ _ _ _ j F7) by lia. apply Ou.
Qed.
End Read.
