(* ===== verification/TcpWf.v ===== *)
(** * TcpWf: what TCP keeps well-formed

    A type invariant of pcbs and their send queues: addresses, ports, numbers
    and flags have the width of their header fields, the data are bytes, and
    every queued segment, with its options, fits the 1460 bytes the tunnel's MTU
    leaves.  All code for one pcb keeps it, and every packet that code hands to
    [ip_output_if] can be written as a segment of at most 1500 bytes with its
    headers: TCP never needs fragmentation on the tunnel. *)

From S2P Require Import Prelude Ip4Addr Opts Mem TcpPcb TcpOut TcpIn TcpStream TcpRun TcpWrite TcpStack TcpInput TcpTimer TcpFrame TcpWire.

(** ** Flags *)
Lemma lor_range k a b : 0 <= k -> 0 <= a < 2 ^ k -> 0 <= b < 2 ^ k -> 0 <= Z.lor a b < 2 ^ k.
Proof.
  intros Hk Ha Hb. split; [apply Z.lor_nonneg; lia|]. destruct (Z.eq_dec (Z.lor a b) 0) as [->|Hz]; [lia|]. apply Z.log2_lt_pow2; [assert (0 <= Z.lor a b) by (apply Z.lor_nonneg; lia); lia|].
  rewrite Z.log2_lor by lia. assert (Hl : forall x, 0 <= x < 2 ^ k -> k = 0 \/ Z.log2 x < k).
  { intros x Hx. destruct (Z.eq_dec x 0) as [->|]; [cbn; lia|]. right. apply Z.log2_lt_pow2; lia. }
  destruct (Hl a Ha) as [->|]; [|destruct (Hl b Hb) as [->|]; [|lia]]; cbn in *; assert (a = 0) as -> by lia; assert (b = 0) as -> by lia; done.
Qed.

Lemma land_range k a b : 0 <= a < k -> 0 <= Z.land a b < k.
Proof. intros H. pose proof (proj2 (Z.land_nonneg a b) ltac:(lia)). assert (Z.land a b <= a); [|lia]. apply Z.ldiff_le; [lia|]. apply Z.bits_inj'. intros i Hi. rewrite Z.ldiff_spec, Z.land_spec, Z.bits_0. by destruct (Z.testbit a i), (Z.testbit b i). Qed.

Definition six_bits (f : Z) : Prop := 0 <= f < 64.
Lemma six_lor f g : six_bits f -> six_bits g -> six_bits (Z.lor f g).
Proof. apply (lor_range 6). lia. Qed.
Lemma six_land f g : six_bits f -> six_bits (Z.land f g).
Proof. apply land_range. Qed.

(** What the code relies on of interfaces: the address of one has 32 bits. *)
Class IpOk (ip : IpLayer) : Prop := {
  route_u32 src dst n : ip_route src dst = Some n -> is_u32 (netif_ip_addr4 n);
  index_u32 i n : netif_get_by_index i = Some n -> is_u32 (netif_ip_addr4 n) }.

(** The packets that were there before. *)
Class Sent := sent_before : list packet.

Section Wf.
Context {o : Opts} {ook : OptsOk o} {ip : IpLayer} {iok : IpOk ip} {W : Sent}.

(** ** The invariant *)
Definition wf_seg (x : tcp_seg) : Prop :=
  (is_u32 (h_seqno x) /\ six_bits (h_flags x)) /\ (s_p x <> [] /\ Forall is_u8 (cbytes (s_p x)))
  /\ s_len x = tot_len (s_p x) /\ s_len x + LWIP_TCP_OPT_LENGTH (s_flags x) <= TCP_MSS.

Definition wf_pcb (p : tcp_pcb) : Prop :=
  (is_u32 (local_ip p) /\ is_u32 (remote_ip p)) /\ (is_u16 (local_port p) /\ is_u16 (remote_port p)) /\ is_u32 (rcv_nxt p)
  /\ (is_u8 (ttl p) /\ is_u8 (tos p)) /\ mss p <= TCP_MSS /\ Forall wf_seg (unsent p) /\ Forall wf_seg (unacked p).

(** A packet that goes out whole. *)
Definition wf_pkt (k : packet) : Prop :=
  sendable k /\ 40 + lenz (pk_opts k) + lenz (pk_data k) <= TUNFORGE_NETIF_IPV4_MTU /\ is_u8 (pk_ttl k) /\ is_u8 (pk_tos k).

(** Only such packets were added. *)
Definition wf_wire (l : list packet) : Prop := exists new, l = sent_before ++ new /\ Forall wf_pkt new.

Lemma wf_wire_snoc l k : wf_wire l -> wf_pkt k -> wf_wire (l ++ [k]).
Proof. intros (new & -> & Hn) Hk. exists (new ++ [k]). rewrite app_assoc. split; [done|]. apply Forall_app. by split; [|constructor]. Qed.

Definition wfs (s : tcp_st) : Prop := wf_pcb (pcb s) /\ wf_wire (wire s).

(** The pcb with other queues. *)
Lemma wf_queues p p' : wf_pcb p -> local_ip p' = local_ip p /\ remote_ip p' = remote_ip p /\ local_port p' = local_port p /\ remote_port p' = remote_port p
  /\ rcv_nxt p' = rcv_nxt p /\ ttl p' = ttl p /\ tos p' = tos p /\ mss p' = mss p -> Forall wf_seg (unsent p') -> Forall wf_seg (unacked p') -> wf_pcb p'.
Proof. intros (H1 & H2 & H3 & H4 & H5 & _) (E7 & E8 & E1 & E2 & E3 & E4 & E5 & E6) Hu Ha. unfold wf_pcb. rewrite E7, E8, E1, E2, E3, E4, E5, E6. tauto. Qed.

Lemma wf_unsent p : wf_pcb p -> Forall wf_seg (unsent p).
Proof. by intros (_ & _ & _ & _ & _ & H & _). Qed.
Lemma wf_unacked p : wf_pcb p -> Forall wf_seg (unacked p).
Proof. by intros (_ & _ & _ & _ & _ & _ & H). Qed.
Lemma wf_mss p : wf_pcb p -> mss p <= TCP_MSS.
Proof. by intros (_ & _ & _ & _ & H & _). Qed.

Lemma wf_rcv_nxt p n : wf_pcb p -> is_u32 n -> wf_pcb (p <| rcv_nxt := n |>).
Proof. intros (H1 & H2 & _ & H4) Hn. unfold wf_pcb. rsimpl. tauto. Qed.
Lemma wf_set_mss p m : wf_pcb p -> m <= TCP_MSS -> wf_pcb (p <| mss := m |>).
Proof. intros (H1 & H2 & H3 & H4 & _ & H5 & H6) Hm. unfold wf_pcb. rsimpl. tauto. Qed.

Lemma wfs_updp f s : wfs s -> (wf_pcb (pcb s) -> wf_pcb (f (pcb s))) -> wfs (updp f s).
Proof. intros [H1 H2] Hf. split; [by apply Hf|exact H2]. Qed.
Lemma wfs_put p s : wfs s -> wf_pcb p -> wfs (s <| pcb := p |>).
Proof. intros [H1 H2] Hp. by split. Qed.

Lemma wfs_alloc s : wfs s -> wfs (snd (alloc s)).
Proof. unfold alloc. by destruct (allocs s). Qed.

Lemma wfs_ip_output k s : wfs s -> wf_pkt k -> wfs (snd (ip_output_if k s)).
Proof.
  intros [H1 H2] Hk. unfold ip_output_if. cbv zeta. pose proof (wf_wire_snoc _ _ H2 Hk) as Hw.
  destruct (ipres _); split; try exact H1; exact Hw.
Qed.

Lemma wfs_control p k s : wfs s -> wf_pkt k -> wfs (snd (tcp_output_control_segment p k s)).
Proof. intros Hs Hk. unfold tcp_output_control_segment. destruct (tcp_route _ _ _); [by apply wfs_ip_output|done]. Qed.

(** ** Control segments *)

(** A segment without options and at most 1460 bytes of data. *)
Lemma wf_plain src dst sp dp sq ak fl w d tl ts : is_u32 src -> is_u32 dst -> is_u16 sp -> is_u16 dp -> is_u32 sq -> is_u32 ak -> six_bits fl -> is_u16 w -> Forall is_u8 d -> lenz d <= TCP_MSS ->
  is_u8 tl -> is_u8 ts -> wf_pkt (mk_packet src dst sp dp sq ak fl w [] d tl ts).
Proof.
  intros. unfold TCP_MSS in *. split; [|split; [cbn [pk_opts pk_data]; change (lenz (@nil Z)) with 0; unfold TUNFORGE_NETIF_IPV4_MTU; lia|by split]].
  split; cbn [pk_src pk_dst pk_sport pk_dport pk_seqno pk_ackno pk_flags pk_wnd pk_opts pk_data]; change (lenz (@nil Z)) with 0; try done; try (by split); split; [done|lia].
Qed.

Lemma wf_header fl d n s k s' : wfs s -> six_bits fl -> Forall is_u8 d -> lenz d <= TCP_MSS -> tcp_output_alloc_header fl d n s = (k, s') ->
  wfs s' /\ match k with Some k => wf_pkt k | None => True end.
Proof.
  intros Hs Hf Hd Hl. unfold tcp_output_alloc_header. pose proof (wfs_alloc s Hs) as Ha. destruct (alloc s) as [[] s1]; intros [= <- <-]; (split; [exact Ha|]); [|done].
  destruct Hs as [((H1 & H2) & (H3 & H4) & H5 & (H6 & H7) & _) _]. by apply wf_plain; try (apply u32_range || apply u16_range).
Qed.

Lemma wfs_empty_ack s : wfs s -> wfs (snd (tcp_send_empty_ack s)).
Proof.
  intros Hs. unfold tcp_send_empty_ack. destruct (tcp_output_alloc_header _ _ _ _) as [k s1] eqn:E. apply wf_header in E as [H1 Hk]; try done.
  destruct k as [k|]; [|exact H1]. pose proof (wfs_control (Some (pcb s1)) k s1 H1 Hk) as H2. destruct (tcp_output_control_segment _ _ _) as [e s2]. destruct (negb _); exact H2.
Qed.

Lemma wfs_keepalive s : wfs s -> wfs (snd (tcp_keepalive s)).
Proof.
  intros Hs. unfold tcp_keepalive. destruct (tcp_output_alloc_header _ _ _ _) as [k s1] eqn:E. apply wf_header in E as [H1 Hk]; try done. destruct k as [k|]; [|exact H1]. by apply wfs_control.
Qed.

Lemma lenz_takez_le {A} n (l : list A) : lenz (takez n l) <= Z.max 0 n.
Proof. unfold lenz, takez. rewrite length_take. lia. Qed.

Lemma wfs_probe s : wfs s -> wfs (snd (tcp_zero_window_probe s)).
Proof.
  intros Hs. unfold tcp_zero_window_probe. destruct (unsent (pcb s)) as [|x l] eqn:Eu; [done|]. pose proof (wf_unsent _ (proj1 Hs)) as Hu. rewrite Eu in Hu. apply Forall_cons in Hu as [((_ & _) & (_ & Hb) & _) _]. cbv zeta.
  set (s0 := updp _ s). assert (H0 : wfs s0) by exact Hs. clearbody s0. set (fin := _ && _). set (d := if fin then [] else _).
  destruct (tcp_output_alloc_header _ d _ s0) as [k s1] eqn:E. apply wf_header in E as [H1 Hk]; try done; [|destruct fin; done|unfold d; destruct fin; [done|by apply Forall_take, Forall_drop]|unfold d; destruct fin; [done|etransitivity; [apply lenz_takez_le|done]]].
  destruct k as [k|]; [|exact H1]. apply wfs_control; [exact H1|exact Hk].
Qed.

Lemma swap16_u16 z : is_u16 (swap16 z).
Proof. apply u16_range. Qed.

Lemma wfs_rst p sq ak li ri lp rp s : wfs s -> match p with Some p => wf_pcb p | None => True end -> is_u32 li -> is_u32 ri -> is_u16 lp -> is_u16 rp -> wfs (tcp_rst p sq ak li ri lp rp s).
Proof.
  intros Hs Hp H1 H2 H3 H4. unfold tcp_rst. cbv zeta. pose proof (wfs_alloc s Hs) as Ha. destruct (alloc s) as [[] s1]; [|exact Ha]. pose proof tcp_ttl_range.
  apply wfs_control; [exact Ha|]. destruct p as [p|]; [destruct Hp as (_ & _ & _ & (T1 & T2) & _)|]; (apply wf_plain; try done; try (apply u32_range || apply swap16_u16)); unfold is_u8; lia.
Qed.

(** ** Output *)

(** Results that carry the state of one pcb. *)
Definition wfo {R} (r : option (R * tcp_st)) : Prop := match r with Some (_, s) => wfs s | None => True end.
Definition wfo_ (r : option tcp_st) : Prop := match r with Some s => wfs s | None => True end.

Lemma eff_mss_range m n : 0 <= m -> 0 <= tcp_eff_send_mss_netif m n <= m.
Proof. intros H. unfold tcp_eff_send_mss_netif. destruct n as [n|]; [|lia]. cbv zeta. destruct (negb _); [|lia]. destruct (_ <? _); [pose proof (u16_range (netif_mtu n - (IP_HLEN + TCP_HLEN))) as Hu; unfold is_u16 in Hu|]; lia. Qed.

Lemma eff_mss_le m n : tcp_eff_send_mss_netif m n <= m.
Proof. unfold tcp_eff_send_mss_netif. destruct n as [n|]; [|lia]. cbv zeta. destruct (negb _); lia. Qed.

Lemma seg_opts_ok x n : Forall is_u8 (seg_opts x n) /\ lenz (seg_opts x n) mod 4 = 0 /\ lenz (seg_opts x n) <= 40.
Proof.
  split_and!; [|rewrite seg_opts_len; unfold LWIP_TCP_OPT_LENGTH; by repeat case_match|rewrite seg_opts_len; unfold LWIP_TCP_OPT_LENGTH; by repeat case_match].
  pose proof (eff_mss_range TCP_MSS (Some n) ltac:(done)) as Hm. pose proof tcp_rcv_scale_range as Hr. unfold seg_opts, be16, TCP_MSS in *. apply Forall_app. split; case_match; try (by constructor); cbn [Datatypes.app]; repeat (apply Forall_cons; split; [zlia|]); constructor.
Qed.

Lemma wfs_output_segment x n s : wfs s -> wf_seg x -> match tcp_output_segment x n s with Some (_, x', s') => wfs s' /\ wf_seg x' | None => True end.
Proof.
  intros Hs Hx. unfold tcp_output_segment. destruct (tcp_output_segment_busy x); [done|]. cbv zeta. set (x1 := x <| h_ackno := _ |> <| h_wnd := _ |>). set (p0 := (pcb s) <| rcv_ann_right_edge := _ |> <| rtime := _ |>).
  set (p1 := if rttest p0 =? 0 then _ else p0). assert (Hp : wf_pcb p1) by (destruct Hs as [Hs _]; unfold p1; case_match; exact Hs). assert (Ho : h_ackno x1 = rcv_nxt p1) by (unfold p1; by case_match). clearbody p1.
  destruct (_ =? _); [|done]. match goal with |- context [ip_output_if ?k ?t] => assert (Hk : wf_pkt k); [|pose proof (wfs_ip_output k t) as H; destruct (ip_output_if k t) as [e s']] end.
  - destruct Hp as ((H1 & H2) & (H3 & H4) & H5 & (H6 & H7) & _). destruct Hx as ((X1 & X2) & (_ & X3) & X4 & X5). destruct (seg_opts_ok x1 n) as (O1 & O2 & O3). unfold tot_len in X4. unfold TCP_MSS in X5.
    assert (Hl : lenz (seg_opts x1 n) + lenz (cbytes (s_p x1)) <= 1460) by (rewrite seg_opts_len; change (s_flags x1) with (s_flags x); change (s_p x1) with (s_p x); lia).
    split_and!; cbn [pk_opts pk_data pk_ttl pk_tos]; try done; [|unfold TUNFORGE_NETIF_IPV4_MTU; lia]. split; cbn [pk_src pk_dst pk_sport pk_dport pk_seqno pk_ackno pk_flags pk_wnd pk_opts pk_data]; try done; [by rewrite Ho|apply u16_range|split; [exact X3|lia]].
  - cbn [snd] in H. split; [|exact Hx]. apply H; [|done]. destruct Hs as [_ Hs]. split; [exact Hp|exact Hs].
Qed.

Lemma wf_insert x l : wf_seg x -> Forall wf_seg l -> Forall wf_seg (insert_seq x l).
Proof. intros Hx Hl. rewrite insert_seq_perm. by constructor. Qed.
Lemma wf_put_unacked x l : wf_seg x -> Forall wf_seg l -> Forall wf_seg (put_unacked x l).
Proof. intros Hx Hl. rewrite put_unacked_perm. by constructor. Qed.

Lemma wf_flag f x : six_bits f -> wf_seg x -> wf_seg (x <| h_flags := Z.lor (h_flags x) f |>).
Proof. intros Hf ((H1 & H2) & H3). split; [split; [exact H1|by apply six_lor]|exact H3]. Qed.

Lemma wfs_output_loop w n l : forall s, wfs s -> Forall wf_seg l -> wfo (output_loop l w n s).
Proof.
  induction l as [|x l IH]; intros s Hs Hu; cbn [output_loop]; [done|]. apply Forall_cons in Hu as [Hx Hl].
  destruct (negb _); [done|]. destruct (negb _); [|done]. destruct (_ && _); [done|]. cbv zeta. set (x1 := if state_is _ _ then x else _). assert (Hx1 : wf_seg x1) by (unfold x1; case_match; [done|by apply wf_flag]). clearbody x1.
  pose proof (wfs_output_segment x1 n s Hs Hx1) as H. destruct (tcp_output_segment x1 n s) as [[[e x2] s2]|]; [|done]. destruct H as [H2 Hx2]. pose proof (proj1 H2) as Hp. destruct (negb (err_ok e)).
  - apply wfs_updp; [exact H2|]. intros _. eapply wf_queues; [exact Hp|by split_and!|by constructor|exact (wf_unacked _ Hp)].
  - apply IH; [|exact Hl]. apply wfs_put; [exact H2|]. set (x3 := x2 <| s_oversize_left := 0 |>). assert (Hx3 : wf_seg x3) by exact Hx2. clearbody x3.
    set (p0 := (pcb s2) <| unsent := l |>). assert (H0 : wf_pcb p0) by (eapply wf_queues; [exact Hp|by split_and!|exact Hl|exact (wf_unacked _ Hp)]). clearbody p0.
    set (p1 := if state_is _ _ then _ else _). assert (H1 : wf_pcb p1) by (unfold p1; case_match; exact H0).
    clearbody p1. set (p2 := if TCP_SEQ_LT _ _ then _ else p1). assert (H3 : wf_pcb p2) by (unfold p2; case_match; exact H1). clearbody p2. destruct (0 <? _); [|exact H3].
    eapply wf_queues; [exact H3|by split_and!|exact (wf_unsent _ H3)|]. apply wf_put_unacked; [done|exact (wf_unacked _ H3)].
Qed.

Lemma route_addr p src dst n : tcp_route p src dst = Some n -> is_u32 (netif_ip_addr4 n).
Proof. unfold tcp_route. destruct p as [p|]; [destruct (negb _)|]; eauto using index_u32, route_u32. Qed.

Lemma wf_local_ip p i : wf_pcb p -> is_u32 i -> wf_pcb (p <| local_ip := i |>).
Proof. intros ((_ & H2) & H3) Hi. split; [by split|exact H3]. Qed.

Lemma wfs_output s : wfs s -> wfo (tcp_output s).
Proof.
  intros Hs. unfold tcp_output, output_done. destruct (negb _); [|done]. destruct (is_input_pcb s); [done|]. cbv zeta. pose proof (fun s H => wfs_empty_ack s H) as Hack.
  destruct (unsent (pcb s)) as [|x l]; [destruct (flag_set _ _); [specialize (Hack s Hs); cbn; by destruct (tcp_send_empty_ack s)|exact Hs]|].
  destruct (tcp_route _ _ _) as [n|] eqn:En; [|done]. apply route_addr in En. set (s1 := if local_ip (pcb s) =? 0 then _ else s).
  assert (H1 : wfs s1) by (unfold s1; case_match; [apply wfs_updp; [done|]; intros Hl; by apply wf_local_ip|done]). clearbody s1. destruct (_ <? _).
  - set (s2 := if _ && _ && _ then _ else s1). assert (H2 : wfs s2) by (unfold s2; case_match; exact H1). clearbody s2. destruct (flag_set _ _); [specialize (Hack s2 H2); cbn; by destruct (tcp_send_empty_ack s2)|exact H2].
  - set (s2 := updp _ s1). assert (H2 : wfs s2) by exact H1. clearbody s2. pose proof (wfs_output_loop (Z.min (snd_wnd (pcb s)) (cwnd (pcb s))) n (unsent (pcb s2)) s2 H2 (wf_unsent _ (proj1 H2))) as H. destruct (output_loop _ _ _ _) as [[e s3]|]; [|done].
    destruct (negb _); [exact H|]. cbn. cbn in H. apply wfs_updp; [apply wfs_updp; [exact H|]; intros Hp; case_match; exact Hp|]. intros Hp; exact Hp.
Qed.

(** ** Retransmission *)
Lemma wfs_rexmit s : wfs s -> wfs (snd (tcp_rexmit s)).
Proof.
  intros Hs. unfold tcp_rexmit. destruct (unacked (pcb s)) as [|x l] eqn:Eu; [done|]. destruct (tcp_output_segment_busy x); [done|]. cbv zeta. cbn [snd]. pose proof (proj1 Hs) as Hp. pose proof (wf_unacked _ Hp) as Hu. rewrite Eu in Hu. apply Forall_cons in Hu as [Hx Hl].
  apply wfs_put; [done|]. set (p1 := _ <| unsent := _ |>). assert (H1 : wf_pcb p1) by (eapply wf_queues; [exact Hp|by split_and!|apply wf_insert; [done|exact (wf_unsent _ Hp)]|exact Hl]). clearbody p1. repeat case_match; exact H1.
Qed.

Lemma wfs_rexmit_fast s : wfs s -> wfs (tcp_rexmit_fast s).
Proof.
  intros Hs. unfold tcp_rexmit_fast. destruct (_ && _); [|done]. pose proof (wfs_rexmit s Hs) as H. destruct (tcp_rexmit s) as [e s1]. cbn [snd] in H. destruct (err_ok e); [|exact H].
  apply wfs_updp; [exact H|]. intros Hp. cbv zeta. case_match; exact Hp.
Qed.

Lemma wfs_rto_prepare s : wfs s -> wfs (snd (tcp_rexmit_rto_prepare s)).
Proof.
  intros Hs. unfold tcp_rexmit_rto_prepare. destruct (last _); [|done]. destruct (existsb _ _); [done|]. cbv zeta. cbn [snd]. apply wfs_put; [done|]. pose proof (proj1 Hs) as Hp.
  eapply wf_queues; [exact Hp|case_match; by split_and!|case_match; (apply Forall_app; split; [exact (wf_unacked _ Hp)|exact (wf_unsent _ Hp)])|constructor].
Qed.

Lemma wfs_rto_commit s : wfs s -> wfo_ (tcp_rexmit_rto_commit s).
Proof.
  intros Hs. unfold tcp_rexmit_rto_commit. cbv zeta. set (s1 := updp _ s). assert (H1 : wfs s1) by (apply wfs_updp; [done|]; intros Hp; case_match; exact Hp). clearbody s1.
  pose proof (wfs_output s1 H1) as H. by destruct (tcp_output s1) as [[e s2]|].
Qed.

Lemma wfs_rexmit_rto s : wfs s -> wfo_ (tcp_rexmit_rto s).
Proof. intros Hs. unfold tcp_rexmit_rto. pose proof (wfs_rto_prepare s Hs) as H. destruct (tcp_rexmit_rto_prepare s) as [e s1]. destruct (err_ok e); [by apply wfs_rto_commit|exact H]. Qed.

Lemma wf_ann_wnd p n q : wf_pcb p -> tcp_update_rcv_ann_wnd p = Some (n, q) -> wf_pcb q.
Proof. intros Hp. unfold tcp_update_rcv_ann_wnd. cbv zeta. destruct (TCP_SEQ_GEQ _ _); [|destruct (TCP_SEQ_GT _ _); [|destruct (_ || _); [|done]]]; intros [= _ <-]; exact Hp. Qed.

Lemma wfs_recved n s : wfs s -> wfo_ (tcp_recved n s).
Proof.
  intros Hs. unfold tcp_recved, recved_window. destruct (negb _); [|done]. cbv zeta. destruct (tcp_update_rcv_ann_wnd _) as [[k q]|] eqn:E; [|done]. apply wf_ann_wnd in E; [|exact (proj1 Hs)].
  assert (H1 : wfs (s <| pcb := q |>)) by (by apply wfs_put). destruct (_ <=? _); [|exact H1]. set (s1 := updp _ _). assert (H2 : wfs s1) by exact H1. clearbody s1. pose proof (wfs_output s1 H2) as H. by destruct (tcp_output s1) as [[e s2]|].
Qed.

(** ** Queueing *)
Lemma cbytes_one d : cbytes [d] = d.
Proof. apply app_nil_r. Qed.

(** A new segment with [d] as its data. *)
Lemma wf_create d fl sq ofl s x s' : wfs s -> Forall is_u8 d -> six_bits fl -> lenz d + LWIP_TCP_OPT_LENGTH ofl <= TCP_MSS -> tcp_create_segment [d] fl sq ofl s = (x, s') ->
  wfs s' /\ pcb s' = pcb s /\ match x with Some x => wf_seg x | None => True end.
Proof.
  intros Hs Hd Hf Hl. unfold tcp_create_segment. pose proof (wfs_alloc s Hs) as Ha. pose proof (keeps_alloc s) as Ek. destruct (alloc s) as [[] s1]; intros [= <- <-]; (split; [exact Ha|]); (split; [exact Ek|]); [|done].
  unfold wf_seg, tot_len. cbn [s_p s_len s_flags h_seqno h_flags]. rewrite cbytes_one. split_and!; try done. apply u32_range.
Qed.

Lemma wfs_enqueue fl s : wfs s -> six_bits fl -> wfo (tcp_enqueue_flags fl s).
Proof.
  intros Hs Hf. unfold tcp_enqueue_flags. destruct (flag_set fl _); [|done]. cbv zeta. pose proof (wfs_alloc s Hs) as Ha. destruct (alloc s) as [[] s1]; cbn [negb]; [|exact Ha]. cbn [snd] in Ha.
  match goal with |- context [tcp_create_segment ?a ?b ?c ?d s1] => destruct (tcp_create_segment a b c d s1) as [x s2] eqn:E end. apply wf_create in E as (H2 & E2 & Hx); [|done|done|done|unfold LWIP_TCP_OPT_LENGTH; by repeat case_match].
  destruct x as [x|]; [|exact H2]. destruct (_ =? 0); [|done]. destruct (_ || _); [|done]. pose proof (proj1 H2) as Hp. apply wfs_put; [done|]. eapply wf_queues; [exact Hp|case_match; by split_and!|..].
  - case_match; (apply Forall_app; split; [exact (wf_unsent _ Hp)|by constructor]).
  - case_match; exact (wf_unacked _ Hp).
Qed.

Lemma wfs_send_fin s : wfs s -> wfo (tcp_send_fin s).
Proof.
  intros Hs. unfold tcp_send_fin. destruct (last (unsent (pcb s))) as [x|] eqn:El; [|by apply wfs_enqueue]. destruct (negb _); [|by apply wfs_enqueue]. cbv zeta. pose proof (wf_unsent _ (proj1 Hs)) as Hu. rewrite (last_split _ _ El) in Hu. apply Forall_app in Hu as [Hu [Hx _]%Forall_cons].
  apply wfs_updp; [apply wfs_updp; [done|]|intros Hp; exact Hp]. intros Hp. eapply wf_queues; [exact Hp|by split_and!| |exact (wf_unacked _ Hp)]. apply Forall_app. split; [exact Hu|]. constructor; [|constructor]. by apply wf_flag.
Qed.

(** [tcp_pbuf_prealloc] leaves the pcb alone. *)
Lemma wfs_prealloc n m fl b s : wfs s -> wfs (snd (tcp_pbuf_prealloc n m fl b s)).
Proof. intros Hs. unfold tcp_pbuf_prealloc. cbv zeta. pose proof (wfs_alloc s Hs) as Ha. by destruct (alloc s) as [[] s1]. Qed.

Lemma wfs_write_loop arg m fl k : Forall is_u8 arg -> m <= TCP_MSS -> forall pos ov ql q s H, wfs s -> Forall wf_seg q ->
  let (r, s') := write_loop k arg pos m ov ql fl q s H in wfs s' /\ match r with Some (q', _, _) => Forall wf_seg q' | None => True end.
Proof.
  intros Hd Hm. induction k as [|k IH]; intros pos ov ql q s Hr Hs Hq; [lia|]. cbn [write_loop]. cbv zeta. destruct (_ <? _); [|done].
  match goal with |- context [tcp_pbuf_prealloc ?a ?b ?c ?d s] => pose proof (wfs_prealloc a b c d s Hs) as H; destruct (tcp_pbuf_prealloc a b c d s) as [[v|] s1] end; [|done]. destruct (decide _) as [Hd1|Hd1]; [done|]. cbn [snd] in H.
  set (n := Z.min _ _). destruct (tcp_create_segment _ _ _ _ s1) as [x s2] eqn:E. apply wf_create in E as (H2 & _ & Hx); [|done|by apply Forall_take, Forall_drop|done|].
  2: { assert (LWIP_TCP_OPT_LENGTH 0 = 0) as -> by (unfold LWIP_TCP_OPT_LENGTH; by destruct LWIP_WND_SCALE). pose proof (lenz_takez_le n (dropz pos arg)). unfold TCP_MSS in *. unfold n in *. lia. }
  destruct x as [x|]; [|done]. apply IH; [done|]. apply Forall_app. split; [done|]. by constructor.
Qed.

(** What phases 1 and 2 plan for a last segment of length [n] fits the segment
    size. *)
Definition tail_fits (m : Z) (arg : list Z) (t : tail_use) (x : tcp_seg) : Prop :=
  0 <= oversize_used t <= lenz arg
  /\ s_len x + LWIP_TCP_OPT_LENGTH (s_flags x) + oversize_used t + match concat_p t with Some d => lenz d | None => 0 end <= m
  /\ match concat_p t with Some d => Forall is_u8 d | None => True end.

Lemma wfs_write_tail arg m fl s : Forall is_u8 arg -> wfs s ->
  match write_tail arg m fl s with
  | Some (r, s') => wfs s' /\ pcb s' = pcb s /\ match r with Some (t, _, _, _) => forall x, last (unsent (pcb s)) = Some x -> tail_fits m arg t x | None => True end
  | None => True
  end.
Proof.
  intros Hd Hs. unfold write_tail. cbv zeta. pose proof (lenz_nonneg arg) as Ha. destruct (last (unsent (pcb s))) as [x|] eqn:El; [|destruct (_ =? 0); [|done]; split_and!; try done]. destruct (Z.leb_spec (s_len x + LWIP_TCP_OPT_LENGTH (s_flags x)) m); [|done].
  destruct (_ =? _); [|done]. destruct (_ || _); [|done]. set (sp := m - _) in *. set (u := if 0 <? unsent_oversize (pcb s) then _ else 0). assert (Hu : 0 <= u <= lenz arg /\ u <= sp) by (unfold u, sp; destruct (Z.ltb_spec 0 (unsent_oversize (pcb s))); lia).
  destruct (_ && _ && _) eqn:Ec.
  - destruct (_ || _); [|done]. match goal with |- context [tcp_pbuf_prealloc ?a ?b ?c ?d s] => pose proof (wfs_prealloc a b c d s Hs) as Hpa; pose proof (keeps_prealloc a b c d s) as Ek; destruct (tcp_pbuf_prealloc a b c d s) as [[v|] s1] end; (split; [exact Hpa|]); (split; [exact Ek|]); [|done].
    bprop. intros y [= <-]. unfold tail_fits. cbn [oversize_used concat_p]. set (d := takez _ _). assert (lenz d <= sp - u) by (etransitivity; [apply lenz_takez_le|]; lia). split_and!; [lia|lia|unfold sp in *; lia|by apply Forall_take, Forall_drop].
  - destruct (_ || _); [|done]. split_and!; try done. intros y [= <-]. unfold tail_fits. cbn [oversize_used concat_p]. split_and!; unfold sp in *; try done; lia.
Qed.

Lemma opt_len_nonneg f : 0 <= LWIP_TCP_OPT_LENGTH f.
Proof. unfold LWIP_TCP_OPT_LENGTH. repeat case_match; lia. Qed.

(** The last unsent segment grows within the segment size. *)
Lemma wf_extend m arg t x x' : Forall is_u8 arg -> m <= TCP_MSS -> tail_fits m arg t x -> wf_seg x -> extend_last arg t x = Some x' -> wf_seg x'.
Proof.
  intros Hd Hm (F1 & F2 & F3) (H1 & (H2 & H3) & H4 & H5). unfold extend_last. cbv zeta. set (x0 := x <| s_oversize_left := _ |>). pose proof (opt_len_nonneg (s_flags x)) as Ho. unfold TCP_MSS, tot_len in *.
  set (r := if 0 <? oversize_used t then _ else _). assert (Hr : forall y, r = Some y -> wf_seg y /\ s_len y = s_len x + oversize_used t /\ s_flags y = s_flags x).
  { intros y. unfold r. destruct (Z.ltb_spec 0 (oversize_used t)); [|intros [= <-]; split_and!; [done|change (s_len x = s_len x + oversize_used t); lia|done]]. destruct (_ <=? _); [|done]. intros [= <-].
    assert (Hl : s_len x + oversize_used t <= 1460) by (destruct (concat_p t) as [d|]; [pose proof (lenz_nonneg d)|]; lia). pose proof (lenz_nonneg (cbytes (s_p x))).
    destruct (cappend_spec (s_p x) (takez (oversize_used t) arg) H2) as [C1 C2]. change (s_len x0) with (s_len x). rewrite (u16_id (s_len x + _)) by zlia. split_and!; try done. unfold wf_seg, tot_len, TCP_MSS. rsimpl. change (s_p x0) with (s_p x). rewrite C1. split_and!; try apply H1.
    - intros E. rewrite E in C2. destruct (s_p x); [done|]. rewrite lenz_cons in C2. pose proof (lenz_nonneg c). change (lenz (@nil (list Z))) with 0 in C2. lia.
    - apply Forall_app. split; [done|by apply Forall_take].
    - rewrite lenz_app, lenz_takez by lia. lia.
    - change (s_flags x0) with (s_flags x). destruct (concat_p t) as [d|]; [pose proof (lenz_nonneg d)|]; lia. }
  destruct r as [y|]; [|done]. destruct (Hr y eq_refl) as ((Y1 & (Y2 & Y3) & Y4 & Y5) & Yl & Yf). intros [= <-]. destruct (concat_p t) as [d|]; [|exact (conj Y1 (conj (conj Y2 Y3) (conj Y4 Y5)))].
  pose proof (lenz_nonneg d). pose proof (lenz_nonneg (cbytes (s_p y))). unfold tot_len in Y4. unfold wf_seg, tot_len, TCP_MSS. rsimpl. rewrite (u16_id (s_len y + _)) by zlia. rewrite cbytes_app, cbytes_one. split_and!; try apply Y1; [by destruct (s_p y)|by apply Forall_app|rewrite lenz_app; lia|rewrite Yf; lia].
Qed.

Lemma wf_psh_last l : Forall wf_seg l -> Forall wf_seg (psh_last l).
Proof.
  induction l as [|x l IH]; [done|]. intros [Hx Hl]%Forall_cons. cbn [psh_last]. destruct l; [constructor; [by apply wf_flag|done]|]. constructor; [done|by apply IH].
Qed.

Lemma wfs_write_checks n s : wfs s -> wfo (tcp_write_checks n s).
Proof. intros Hs. unfold tcp_write_checks. cbv zeta. repeat (case_match; try done). Qed.

Lemma wfs_write arg fl s : Forall is_u8 arg -> wfs s -> wfo (tcp_write arg fl s).
Proof.
  intros Hd Hs. unfold tcp_write. cbv zeta. fold (mss_local (pcb s)). assert (Hm : mss_local (pcb s) <= TCP_MSS) by (pose proof (wf_mss _ (proj1 Hs)); unfold mss_local; cbv zeta; case_match; lia). pose proof (wfs_write_checks (lenz arg) s Hs) as H0.
  assert (Hc : match tcp_write_checks (lenz arg) s with Some (e, s0) => err_ok e = true -> pcb s0 = pcb s | None => True end).
  { unfold tcp_write_checks. cbv zeta. destruct (_ && _); [by intros Hx|]. destruct (_ =? 0); [done|]. destruct (_ <? _); [by intros Hx|]. destruct (_ <=? _); [by intros Hx|]. destruct (negb _); [destruct (_ || _)|destruct (_ && _)]; done. }
  destruct (tcp_write_checks _ s) as [[e s0]|]; [|done]. destruct (err_ok e); cbn [negb]; [|exact H0]. specialize (Hc eq_refl). cbn in H0. pose proof (wfs_write_tail arg (mss_local (pcb s)) fl s0 Hd H0) as H1. destruct (write_tail _ _ _ _) as [[r s1]|]; [|done]. destruct H1 as (H1 & E1 & Ht).
  assert (Hmem : forall s, wfs s -> wfo (write_memerr s)) by (intros s' H'; unfold write_memerr; cbv zeta; destruct (_ || _); [exact H'|done]). destruct r as [[[[t ov] ql] pos]|]; [|by apply Hmem].
  pose proof (wfs_write_loop arg (mss_local (pcb s)) fl (S (qroom ql)) Hd Hm pos ov ql [] s1 (Nat.lt_succ_diag_r _) H1 ltac:(done)) as H2. destruct (write_loop _ _ _ _ _ _ _ _ _ _) as [q s2] eqn:Ew. apply keeps_write_loop in Ew. destruct H2 as [H2 Hq].
  destruct q as [[[q ov'] ql']|]; [|by apply Hmem]. unfold write_commit, commit_queue. cbv zeta. rewrite Ew, E1. pose proof (wf_unsent _ (proj1 H0)) as Hu. set (old := match last _ with None => _ | Some _ => _ end).
  assert (Ho : forall l, old = Some l -> Forall wf_seg l).
  { intros l. unfold old. destruct (last (unsent (pcb s0))) as [x|] eqn:El; [|by intros [= <-]]. destruct (extend_last arg t x) as [x'|] eqn:Ex; [|done]. intros [= <-]. rewrite (last_split _ _ El) in Hu. apply Forall_app in Hu as [Hu [Hx _]%Forall_cons].
    apply Forall_app. split; [done|]. constructor; [|constructor]. by eapply wf_extend; [..|apply Ht|exact Hx|exact Ex]. }
  destruct old as [l|]; [|done]. specialize (Ho l eq_refl). destruct (_ || _); [|done]. apply wfs_put; [done|]. eapply wf_queues; [exact (proj1 H0)|by split_and!| |exact (wf_unacked _ (proj1 H0))].
  rsimpl. repeat case_match; rewrite ?Forall_app; auto using wf_psh_last.
Qed.

Lemma ctrunc_some n c : c <> [] -> ctrunc n c <> [].
Proof. destruct c; [done|]. cbn. by case_match. Qed.

Lemma wfs_split n s : wfs s -> 0 <= n -> wfo (tcp_split_unsent_seg n s).
Proof.
  intros Hs Hn. unfold tcp_split_unsent_seg. destruct (unsent (pcb s)) as [|x l] eqn:Eu; [done|]. pose proof (wf_unsent _ (proj1 Hs)) as Hu. rewrite Eu in Hu. apply Forall_cons in Hu as [Hx Hl].
  destruct (negb _); [|done]. destruct (Z.leb_spec (s_len x) n); [done|]. destruct (_ <=? _); [|done]. destruct (_ <? _); [|done]. cbv zeta. pose proof (wfs_alloc s Hs) as Ha. destruct (alloc s) as [[] s1]; cbn [negb]; [|exact Ha]. cbn [snd] in Ha.
  destruct Hx as ((X1 & X2) & (X3 & X4) & X5 & X6). set (d := takez _ _). destruct (Z.eqb_spec (lenz d) (s_len x - n)) as [Ed|]; cbn [negb]; [|exact Ha]. destruct (tcp_create_segment _ _ _ _ s1) as [y s2] eqn:E.
  apply wf_create in E as (H2 & _ & Hy); [|done|by apply Forall_take, Forall_drop|apply six_lor; by apply six_land|lia]. destruct y as [y|]; [|exact H2]. apply wfs_put; [done|]. pose proof (proj1 H2) as Hp. set (x' := x <| s_p := _ |> <| s_len := _ |> <| h_flags := _ |> <| s_oversize_left := 0 |>).
  assert (Hx' : wf_seg x').
  { pose proof (lenz_nonneg (cbytes (s_p x))). pose proof (opt_len_nonneg (s_flags x)). unfold wf_seg, x', tot_len in *. rsimpl. rewrite pbuf_realloc_bytes by lia. rewrite lenz_takez by lia. split_and!; [done|apply six_lor; [done|by apply six_land]| |by apply Forall_take|lia|lia].
    unfold pbuf_realloc. case_match; [done|by apply ctrunc_some]. }
  eapply wf_queues; [exact Hp|case_match; by split_and!|case_match; (constructor; [exact Hx'|by constructor])|case_match; exact (wf_unacked _ Hp)].
Qed.

(** ** Timers *)
Lemma wfs_persist s : wfs s -> wfo (slow_persist s).
Proof.
  intros Hs. unfold slow_persist. cbv zeta. destruct (bool_decide _); [|done]. destruct (negb _); [|done]. destruct (_ <=? _); [done|]. destruct (getz _ _) as [k|]; [|done]. set (s1 := updp _ s).
  assert (H1 : wfs s1) by (apply wfs_updp; [done|]; intros Hp; case_match; exact Hp). clearbody s1. destruct (_ <=? _); [|exact H1]. set (r := if snd_wnd _ =? 0 then _ else _).
  assert (Hr : wfo r).
  { unfold r. destruct (_ =? 0); [pose proof (wfs_probe s1 H1) as H2; by destruct (tcp_zero_window_probe s1)|]. pose proof (wfs_split (u16 (snd_wnd (pcb s1))) s1 H1 (proj1 (u16_range _))) as H2. destruct (tcp_split_unsent_seg _ _) as [[e s2]|]; [|done].
    destruct (err_ok e); [|exact H2]. cbn in H2. pose proof (wfs_output s2 H2) as H3. by destruct (tcp_output s2) as [[e2 s3]|]. }
  destruct r as [[nx s2]|]; [|done]. cbn in Hr |- *. destruct nx; [|exact Hr]. apply wfs_updp; [exact Hr|]. intros Hp. cbv zeta. case_match; exact Hp.
Qed.

Lemma wfs_slow_rexmit s : wfs s -> wfo_ (slow_rexmit s).
Proof.
  intros Hs. unfold slow_rexmit. cbv zeta. set (s1 := updp _ s). assert (H1 : wfs s1) by (apply wfs_updp; [done|]; intros Hp; case_match; exact Hp). clearbody s1. destruct (_ <=? _); [|exact H1].
  pose proof (wfs_rto_prepare s1 H1) as H2. destruct (tcp_rexmit_rto_prepare s1) as [e s2]. cbn [snd] in H2. destruct (_ || _); [|exact H2]. set (r := if state_is _ _ then _ else _).
  assert (Hr : wfo_ r) by (unfold r; case_match; [exact H2|]; destruct (getz _ _); [|done]; exact H2). destruct r as [s3|]; [|done]. apply wfs_rto_commit. apply wfs_updp; [exact Hr|]. intros Hp. cbv zeta. case_match; exact Hp.
Qed.

Lemma wfs_slow_keepalive s : wfs s -> wfs (snd (slow_keepalive s)).
Proof.
  intros Hs. unfold slow_keepalive. cbv zeta. destruct (_ && _); [|done]. destruct (_ <? _); [done|]. destruct (_ <? _); [|done]. pose proof (wfs_keepalive s Hs) as H. destruct (tcp_keepalive s) as [e s1]. cbn [snd]. case_match; exact H.
Qed.

Lemma wfs_slow_pcb ctr s : wfs s -> match slow_pcb ctr s with Some (_, _, s') => wfs s' | None => True end.
Proof.
  intros Hs. unfold slow_pcb. cbv zeta. set (s1 := updp _ s). assert (H1 : wfs s1) by exact Hs. clearbody s1. set (r := if _ && _ then _ else _).
  assert (Hr : wfo r) by (unfold r; destruct (_ && _); [exact H1|]; destruct (_ <=? _); [exact H1|]; destruct (0 <? _); [by apply wfs_persist|]; pose proof (wfs_slow_rexmit s1 H1) as H; by destruct (slow_rexmit s1)). destruct r as [[b s2]|]; [|done]. cbn in Hr.
  pose proof (wfs_slow_keepalive s2 Hr) as H3. destruct (slow_keepalive s2) as [b3 s3]. cbn [snd] in H3. case_match; exact H3.
Qed.

(** ** Receiving *)
Definition wfi (r : option tcp_in) : Prop := match r with Some t => wfs (st t) | None => True end.

Lemma wfs_updi f t : wfs (st t) -> (wf_pcb (ipcb t) -> wf_pcb (f (ipcb t))) -> wfs (st (updi f t)).
Proof. apply wfs_updp. Qed.

Lemma wf_parse_ws t d p : wf_pcb p -> match parse_ws t d p with Some q => wf_pcb q | None => True end.
Proof. intros Hp. unfold parse_ws. cbv zeta. destruct (_ && _); [|done]. destruct (_ =? _); [|done]. destruct (_ =? _); [|done]. exact Hp. Qed.

Lemma wf_parseopt_loop fuel t : forall i p, wf_pcb p -> match parseopt_loop fuel t i p with Ok q => wf_pcb q | _ => True end.
Proof.
  induction fuel as [|fuel IH]; intros i p Hp; [done|]. cbn [parseopt_loop]. cbv zeta. destruct (_ <? _); [|done]. destruct (tcp_get_next_optbyte t i) as [[opt i1]|]; [|done]; cbn [lift rbind]. destruct (_ =? 0); [done|]. destruct (_ =? 1); [by apply IH|]. destruct (_ =? 2).
  { destruct (tcp_get_next_optbyte t i1) as [[n i2]|]; [|done]; cbn [lift rbind]. destruct (_ || _); [done|]. destruct (tcp_get_next_optbyte t i2) as [[hi i3]|]; [|done]; cbn [lift rbind]. destruct (tcp_get_next_optbyte t i3) as [[lo i4]|]; [|done]; cbn [lift rbind].
    apply IH. apply wf_set_mss; [done|]. set (m := Z.lor _ _). destruct (Z.ltb_spec TCP_MSS m); cbn [orb]; [lia|]. case_match; lia. }
  destruct (_ && _); (destruct (tcp_get_next_optbyte t i1) as [[n i2]|]; [|done]; cbn [lift rbind]).
  - destruct (_ || _); [done|]. destruct (tcp_get_next_optbyte t i2) as [[d i3]|]; [|done]; cbn [lift rbind]. pose proof (wf_parse_ws t d p Hp) as H. destruct (parse_ws t d p) as [q|]; [|done]; cbn [lift rbind]. by apply IH.
  - destruct (_ <? 2); [done|]. by apply IH.
Qed.

Lemma wf_parseopt t : wfs (st t) -> match tcp_parseopt t with Ok u => wfs (st u) | _ => True end.
Proof.
  intros Hs. unfold tcp_parseopt. destruct (negb _); [|exact Hs]. pose proof (wf_parseopt_loop (S (Z.to_nat (tcphdr_optlen t))) t 0 (ipcb t) (proj1 Hs)) as H. destruct (parseopt_loop _ _ _ _) as [q| | |]; try done. by apply wfs_updi.
Qed.

Lemma wfs_seg_copy x s : wfs s -> wfs (snd (tcp_seg_copy x s)).
Proof. intros Hs. unfold tcp_seg_copy. pose proof (wfs_alloc s Hs) as H. by destruct (alloc s) as [[] s1]. Qed.

Lemma wfs_oos_walk x sq tl l : forall pv s, wfs s -> wfo (oos_walk x sq tl pv l s).
Proof.
  induction l as [|y l IH]; intros pv s Hs; cbn [oos_walk]; cbv zeta; [done|]. assert (Hc := wfs_seg_copy x s Hs). destruct (tcp_seg_copy x s) as [c s1]. cbn [snd] in Hc. destruct (sq =? _).
  { destruct (_ && _); [|exact Hs]. destruct c; exact Hc. }
  destruct (match pv with None => _ | Some _ => _ end); [destruct c; exact Hc|]. destruct (_ && _).
  - destruct (flag_set _ _); [exact Hs|]. destruct c as [c|]; [|exact Hc]. destruct (oos_fit_window _ _ _ _); [exact Hc|done].
  - pose proof (IH (Some y) s Hs) as H. destruct (oos_walk _ _ _ _ l s) as [[l2 s2]|]; [exact H|done].
Qed.

Lemma wf_receive_oos t : wfs (st t) -> wfi (receive_oos t).
Proof.
  intros Hs. unfold receive_oos. cbv zeta. set (r := match ooseq _ with [] => _ | _ => _ end). assert (Hr : wfo_ r).
  { unfold r. destruct (ooseq (pcb (st t))) as [|x l].
    - pose proof (wfs_seg_copy (inseg t) (st t) Hs) as H. destruct (tcp_seg_copy _ _) as [c s1]. exact H.
    - pose proof (wfs_oos_walk (inseg t) (seqno t) (tcplen t) (x :: l) None (st t) Hs) as H. destruct (oos_walk _ _ _ _ _ _) as [[l2 s2]|]; [exact H|done]. }
  destruct r as [s|]; [|done]. cbn in Hr. pose proof (wfs_empty_ack s Hr) as H. destruct (tcp_send_empty_ack s) as [e s1]. exact H.
Qed.

Lemma wf_take_seg x n t : wfs (st t) -> wfi (take_seg x n t).
Proof.
  intros Hs. unfold take_seg. cbv zeta. destruct (_ <=? _); [|done]. destruct (tcp_update_rcv_ann_wnd _) as [[k p]|] eqn:E; [|done].
  apply wf_ann_wnd in E; [|exact (wf_rcv_nxt _ _ (proj1 Hs) (u32_range (h_seqno x + n)))]. assert (H1 : wfs (st (updi (fun _ => p) t))) by (by apply wfs_updi). cbn. repeat case_match; exact H1.
Qed.

Lemma wf_deliver_oos q : forall t, wfs (st t) -> wfi (deliver_oos q t).
Proof.
  induction q as [|x q IH]; intros t Hs; cbn [deliver_oos]; [by apply wfs_updi|]. destruct (_ =? _); [|by apply wfs_updi]. pose proof (wf_take_seg x (TCP_TCPLEN x) t Hs) as H. destruct (take_seg _ _ _) as [t1|]; [|done]. cbn in H.
  apply IH. destruct (_ && _); exact H.
Qed.

Lemma wf_receive_inseq t : wfs (st t) -> wfi (receive_inseq t).
Proof.
  intros Hs. unfold receive_inseq. cbv zeta. destruct (if _ <? _ then _ else _) as [x|]; [|done]. destruct (match ooseq _ with [] => _ | _ => _ end) as [[y q]|]; [|done].
  set (t1 := _ <| tcplen := _ |>). assert (H1 : wfs (st t1)) by exact Hs. clearbody t1. pose proof (wf_take_seg y (tcplen t1) t1 H1) as H2. destruct (take_seg _ _ _) as [t2|]; [|done]. pose proof (wf_deliver_oos q t2 H2) as H3.
  destruct (deliver_oos q t2) as [t3|]; [|done]. apply wfs_updi; [exact H3|]. intros Hp. unfold tcp_ack. case_match; exact Hp.
Qed.

Lemma wf_receive_text t : wfs (st t) -> wfi (receive_text t).
Proof.
  intros Hs. unfold receive_text. cbv zeta. destruct (_ && _); [|destruct (negb _); [by apply wfs_updi|exact Hs]]. set (r := if TCP_SEQ_BETWEEN _ _ _ then _ else _).
  assert (Hr : wfi r) by (unfold r; repeat (case_match; try done); exact Hs). destruct r as [t1|]; [|done]. cbn in Hr. destruct (TCP_SEQ_BETWEEN _ _ _); [|exact (wfs_empty_ack _ Hr)]. destruct (_ =? _); [by apply wf_receive_inseq|by apply wf_receive_oos].
Qed.

Lemma wf_free_acked ack l : forall b n k, Forall wf_seg l -> match tcp_free_acked_segments ack l b n k with Some (l', _, _) => Forall wf_seg l' | None => True end.
Proof. induction l as [|x l IH]; intros b n k Hl; cbn [tcp_free_acked_segments]; [done|]. destruct (TCP_SEQ_LEQ _ _); [|done]. cbv zeta. destruct (_ <=? _); [|done]. destruct (_ || _); [|done]. apply IH. by apply Forall_cons in Hl as [_ Hl]. Qed.

Lemma wf_new_ack t : wfs (st t) -> wfi (new_ack t).
Proof.
  intros Hs. unfold new_ack. cbv zeta. set (p0 := if flag_set _ TF_INFR then _ else _). assert (H0 : wf_pcb p0) by (pose proof (proj1 Hs); unfold p0; case_match; assumption). clearbody p0.
  set (p1 := if _ <=? _ then _ else _). assert (H1 : wf_pcb p1) by (unfold p1, grow_cwnd; cbv zeta; repeat case_match; exact H0). clearbody p1.
  pose proof (wf_free_acked (ackno t) (unacked p1) (negb (bool_decide (unsent p1 = []))) (snd_queuelen p1) (recv_acked t) (wf_unacked _ H1)) as F1. destruct (tcp_free_acked_segments _ _ _ _ _) as [[[l1 q1] a1]|]; [|done].
  set (p2 := p1 <| unacked := l1 |> <| snd_queuelen := q1 |>). assert (H2 : wf_pcb p2) by (eapply wf_queues; [exact H1|by split_and!|exact (wf_unsent _ H1)|exact F1]). clearbody p2.
  pose proof (wf_free_acked (ackno t) (unsent p2) (negb (bool_decide (unacked p2 = []))) (snd_queuelen p2) a1 (wf_unsent _ H2)) as F2. destruct (tcp_free_acked_segments _ _ _ _ _) as [[[l2 q2] a2]|]; [|done].
  set (p3 := p2 <| unsent := l2 |> <| snd_queuelen := q2 |>). assert (H3 : wf_pcb p3) by (eapply wf_queues; [exact H2|by split_and!|exact F2|exact (wf_unacked _ H2)]). clearbody p3.
  apply wfs_updi; [done|]. intros _. match goal with |- wf_pcb (clear_rto ?p) => assert (Hp : wf_pcb p) by (case_match; exact H3); generalize dependent p end. intros p Hp. unfold clear_rto. repeat case_match; exact Hp.
Qed.

Lemma wf_receive_ack t : wfs (st t) -> wfi (receive_ack t).
Proof.
  intros Hs. unfold receive_ack. cbv zeta. set (t1 := updi (update_snd_wnd t) t). assert (H1 : wfs (st t1)) by (apply wfs_updi; [done|]; intros Hp; unfold update_snd_wnd; cbv zeta; repeat case_match; exact Hp). clearbody t1.
  set (r := if TCP_SEQ_LEQ _ _ then _ else _). assert (Hr : wfi r).
  { unfold r. destruct (TCP_SEQ_LEQ _ _); [|destruct (TCP_SEQ_BETWEEN _ _ _); [by apply wf_new_ack|exact (wfs_empty_ack _ H1)]]. unfold dup_ack. cbv zeta. destruct (_ && _); [|exact H1].
    set (t2 := updi _ (updi _ t1)). assert (H2 : wfs (st t2)) by (apply wfs_updi; [by apply wfs_updi|]; intros Hp; case_match; exact Hp). clearbody t2. cbn. destruct (3 <=? _); [|exact H2]. exact (wfs_rexmit_fast _ H2). }
  destruct r as [t2|]; [|done]. cbn in Hr |- *. case_match; [|exact Hr]. by apply wfs_updi.
Qed.

Lemma wf_receive t : wfs (st t) -> wfi (tcp_receive t).
Proof.
  intros Hs. unfold tcp_receive. destruct (_ <=? _); [|done]. destruct (flag_set _ _); [|by apply wf_receive_text]. pose proof (wf_receive_ack t Hs) as H. destruct (receive_ack t) as [t1|]; [|done]. by apply wf_receive_text.
Qed.
End Wf.
