(* ===== verification/TcpWfRun.v ===== *)
(** * TcpWfRun: every operation of the stack keeps TCP well-formed

    The invariant of TcpWf for all pcbs together, through the API, the callbacks,
    [tcp_input] and the timers. *)

From S2P Require Import Prelude Def Ip4Addr Opts Chksum TcpPcb TcpOut TcpIn TcpStream TcpRun TcpStack TcpInput TcpTimer TcpSafety TcpSafeApi TcpProps TcpListen TcpWire TcpWf.

Section WfRun.
Context {o : Opts} {ook : OptsOk o} {ip : IpLayer} {iok : IpOk ip} {W : Sent}.

(** What the application writes are bytes. *)
Definition wf_call (k : api_call) : Prop := match k with AWrite d _ => Forall is_u8 d | _ => True end.
Definition wf_reaction (r : reaction) : Prop := Forall wf_call (calls r).
Definition wf_app (A : application) : Prop :=
  Forall wf_reaction (on_accept A) /\ Forall wf_reaction (on_connected A) /\ Forall wf_reaction (on_sent A) /\ Forall wf_reaction (on_recv A) /\ Forall wf_reaction (on_poll A).

Definition wf (S : stack) : Prop := (forall a c, pcbs S !! a = Some c -> wf_pcb (core c)) /\ wf_wire (g_wire S) /\ wf_app (app S).

Definition wr {A} `{Stacked A} (r : res A) : Prop := match r with Ok y => wf (stack_of y) | _ => True end.

Lemma wr_bind {A B} `{Stacked A} `{Stacked B} (r : res A) (k : A -> res B) : wr r -> (forall y, wf (stack_of y) -> wr (k y)) -> wr (rbind r k).
Proof. destruct r as [y| | |]; try done. cbn. auto. Qed.

Lemma wr_read {A B} `{Stacked B} (r : res A) (k : A -> res B) : (forall y, wr (k y)) -> wr (rbind r k).
Proof. destruct r; try done. intros H1. apply H1. Qed.

Lemma wr_get {B} `{Stacked B} a S (k : pcb_obj -> res B) : wf S -> (forall c, pcbs S !! a = Some c -> wf_pcb (core c) -> wr (k c)) -> wr (rbind (get a S) k).
Proof. intros Hs Hk. unfold get. destruct (pcbs S !! a) as [c|] eqn:E; [|done]. cbn. apply Hk; [done|]. by apply (proj1 Hs a). Qed.

Lemma wf_put a c S : wf S -> wf_pcb (core c) -> wf (put a c S).
Proof.
  intros (H1 & H2 & H3) Hc. split; [|by split]. intros b d. unfold put. cbn. destruct (decide (b = a)) as [->|Hn]; [rewrite lookup_insert_eq; by intros [= <-]|rewrite lookup_insert_ne by done; apply H1].
Qed.

Lemma upd_wr a f S : wf S -> (forall c, wf_pcb (core c) -> wf_pcb (core (f c))) -> wr (upd a f S).
Proof. intros Hs Hf. unfold upd. apply wr_get; [done|]. intros c E Hc. cbn. by apply wf_put; [|apply Hf]. Qed.
Lemma updc_wr a f S : wf S -> (forall p, wf_pcb p -> wf_pcb (f p)) -> wr (updc a f S).
Proof. intros Hs Hf. apply upd_wr; [done|]. intros c Hc. by apply Hf. Qed.

Lemma wf_view a c S : wf S -> wf_pcb (core c) -> wfs (view a c S).
Proof. intros (_ & H2 & _) Hc. by split. Qed.
Lemma wf_back a c s S : wf S -> wfs s -> wf (back a c s S).
Proof. intros Hs [H1 H2]. pose proof (wf_put a (c <| core := pcb s |>) S Hs H1) as (P1 & _ & P3). split; [exact P1|]. split; [exact H2|exact P3]. Qed.

Lemma on_wr {R} a (f : tcp_st -> option (R * tcp_st)) S : wf S -> (forall s, wfs s -> wfo (f s)) -> wr (on a f S).
Proof.
  intros Hs Hf. unfold on. apply wr_get; [done|]. intros c E Hc. pose proof (Hf _ (wf_view a c S Hs Hc)) as H. destruct (f _) as [[r s]|]; [|done]. cbn. by apply wf_back.
Qed.
Lemma on__wr a (f : tcp_st -> option tcp_st) S : wf S -> (forall s, wfs s -> wfo_ (f s)) -> wr (on_ a f S).
Proof. intros Hs Hf. unfold on_. eapply wr_bind; [apply on_wr; [done|]|by intros [u S1]]. intros s H. pose proof (Hf s H) as H1. by destruct (f s). Qed.
Lemma run_in_wr a f t S : wf S -> (forall t, wfs (st t) -> wfi (f t)) -> wr (run_in a f t S).
Proof.
  intros Hs Hf. unfold run_in. apply wr_get; [done|]. intros c E Hc. pose proof (Hf (t <| st := view a c S |> <| recv_flags := in_recv_flags S |>) (wf_view a c S Hs Hc)) as H. destruct (f _) as [u|]; [|done]. cbn in H |- *.
  exact (wf_back a c (st u) S Hs H).
Qed.
Lemma run_parseopt_wr a t S : wf S -> wr (run_parseopt a t S).
Proof.
  intros Hs. unfold run_parseopt. apply wr_get; [done|]. intros c E Hc. pose proof (wf_parseopt (t <| st := view a c S |> <| recv_flags := in_recv_flags S |>) (wf_view a c S Hs Hc)) as H.
  destruct (tcp_parseopt _) as [u| | |]; try done. cbn in H |- *. exact (wf_back a c (st u) S Hs H).
Qed.
End WfRun.

Create HintDb wf.

(** The update keeps the fields that matter. *)
Ltac wf_fields := let p := fresh "p" in let H := fresh "Hp" in intros p H; cbv beta zeta; try unfold tcp_ack; repeat case_match; exact H.
Ltac wf_hyp := match goal with H : wf _ |- wf _ => exact H end.
#[export] Hint Extern 0 (wf _) => wf_hyp : wf.
#[export] Hint Extern 1 (forall p, wf_pcb _ -> wf_pcb _) => wf_fields : wf.
#[export] Hint Resolve upd_wr updc_wr on_wr on__wr run_in_wr run_parseopt_wr : wf.
#[export] Hint Resolve wfs_output wfs_send_fin wfs_recved wf_receive : wf.

Ltac wr_call := solve [eauto 3 with wf nocore].
Ltac wr_open y := first [destruct y as [[? ?] ?]|destruct y as [? ?]|idtac]; cbn [stack_of stacked_stack stacked_pair snd id] in *.
Ltac wr_step :=
  match goal with
  | |- wr (Ok _) => cbn [wr stack_of stacked_stack stacked_pair snd id]; first [wf_hyp|case_match; wf_hyp]
  | |- wr Failed => exact I
  | |- wr Dangling => exact I
  | |- wr Stuck => exact I
  | |- wr (rbind (get _ _) _) => apply wr_get; [wf_hyp|intros ?c ?E ?Hc]
  | |- wr (rbind _ _) => first [eapply wr_bind; [wr_call|intros ?y ?Hy; wr_open y]|eapply wr_bind; [solve [repeat wr_step]|intros ?y ?Hy; wr_open y]|apply wr_read; intros ?y; wr_open y]
  | |- _ => wr_call
  | |- wr (match ?x with _ => _ end) => destruct x
  end.
Ltac wrw := repeat (cbv zeta; wr_step).

Section Keep.
Context {o : Opts} {ook : OptsOk o} {ip : IpLayer} {iok : IpOk ip} {W : Sent}.

(** ** Lists, freeing, the backlog *)
Lemma reg_wr w a S : wf S -> wr (TCP_REG w a S).
Proof. intros Hs. unfold TCP_REG. destruct (live w S a); [|done]. destruct w; exact Hs. Qed.
Lemma rmv_wr w a S : wf S -> wr (TCP_RMV w a S).
Proof. intros Hs. unfold TCP_RMV. destruct (live w S a); [|done]. destruct (rmv _ _ _); [|done]. destruct w; exact Hs. Qed.
#[local] Hint Resolve reg_wr rmv_wr : wf.
Lemma reg_active_wr a S : wf S -> wr (TCP_REG_ACTIVE a S).
Proof. intros Hs. unfold TCP_REG_ACTIVE. wrw. Qed.
Lemma rmv_active_wr a S : wf S -> wr (TCP_RMV_ACTIVE a S).
Proof. intros Hs. unfold TCP_RMV_ACTIVE. wrw. Qed.
#[local] Hint Resolve reg_active_wr rmv_active_wr : wf.
Lemma free_wr a S : wf S -> wr (tcp_free a S).
Proof.
  intros Hs. unfold tcp_free. apply wr_get; [done|]. intros c E Hc. destruct (negb _); [|done]. cbn. destruct Hs as (H1 & H2). destruct (ext_args c); (split; [|exact H2]); cbn; intros b d Ed; apply lookup_delete_Some in Ed as [_ Ed]; by eapply H1.
Qed.
Lemma backlog_delayed_wr a S : wf S -> wr (tcp_backlog_delayed a S).
Proof. intros Hs. unfold tcp_backlog_delayed. wrw. Qed.
Lemma backlog_accepted_wr a S : wf S -> wr (tcp_backlog_accepted a S).
Proof. intros Hs. unfold tcp_backlog_accepted. wrw. Qed.
#[local] Hint Resolve free_wr backlog_delayed_wr backlog_accepted_wr : wf.
Lemma purge_wr a S : wf S -> wr (tcp_pcb_purge a S).
Proof.
  intros Hs. unfold tcp_pcb_purge. apply wr_get; [done|]. intros c E Hc. destruct (purgeable _); [|exact Hs]. eapply wr_bind; [by apply backlog_accepted_wr|]. intros S1 H1. apply updc_wr; [exact H1|]. intros p Hp. eapply wf_queues; [exact Hp|by split_and!|constructor|constructor].
Qed.
#[local] Hint Resolve purge_wr : wf.
Lemma wf_port p n : wf_pcb p -> is_u16 n -> wf_pcb (p <| local_port := n |>).
Proof. intros (H1 & (_ & H3) & H4) Hn. split; [exact H1|]. split; [by split|exact H4]. Qed.
Lemma pcb_remove_wr w a S : wf S -> wr (tcp_pcb_remove w a S).
Proof.
  intros Hs. unfold tcp_pcb_remove. eapply wr_bind; [by apply rmv_wr|]. intros S1 H1. cbn in H1. eapply wr_bind; [by apply purge_wr|]. intros S2 H2. cbn in H2. apply wr_get; [done|]. intros c E Hc.
  eapply (wr_bind (A := stack)); [wrw|]. intros S3 H3. cbn in H3. apply wr_get; [done|]. intros c' E' Hc'. cbv zeta. destruct (_ || _); [|done]. apply updc_wr; [done|]. intros p Hp. apply (wf_port _ 0 Hp). done.
Qed.
#[local] Hint Resolve pcb_remove_wr : wf.
Lemma remove_active_wr a S : wf S -> wr (TCP_PCB_REMOVE_ACTIVE a S).
Proof. intros Hs. unfold TCP_PCB_REMOVE_ACTIVE. wrw. Qed.
#[local] Hint Resolve remove_active_wr : wf.

(** ** Closing *)
Lemma send_fin_to_wr a next S : wf S -> wr (send_fin_to a next S).
Proof. intros Hs. unfold send_fin_to. wrw. Qed.
#[local] Hint Resolve send_fin_to_wr : wf.
Lemma close_fin_wr a S : wf S -> wr (tcp_close_shutdown_fin a S).
Proof. intros Hs. unfold tcp_close_shutdown_fin. wrw. Qed.
#[local] Hint Resolve close_fin_wr : wf.
Lemma rst_own_wr a s k p S : wf S -> is_u16 p -> wr (rst_own a s k p S).
Proof. intros Hs Hp. apply on__wr; [done|]. intros t Ht. pose proof Ht as [((H1 & H2) & (_ & H4) & _) _]. cbn. apply wfs_rst; try done. exact (proj1 Ht). Qed.
Lemma wf_lport p : wf_pcb p -> is_u16 (local_port p).
Proof. by intros (_ & (H & _) & _). Qed.
#[local] Hint Resolve rst_own_wr wf_lport : wf.
#[local] Hint Extern 0 (wf_pcb _) => match goal with H : wf_pcb _ |- wf_pcb _ => exact H end : wf.
Lemma close_shutdown_wr a b S : wf S -> wr (tcp_close_shutdown a b S).
Proof. intros Hs. unfold tcp_close_shutdown. wrw. Qed.
#[local] Hint Resolve close_shutdown_wr : wf.
Lemma close_wr a S : wf S -> wr (tcp_close a S).
Proof. intros Hs. unfold tcp_close. wrw. Qed.
Lemma shutdown_wr a rx tx S : wf S -> wr (tcp_shutdown a rx tx S).
Proof. intros Hs. unfold tcp_shutdown. wrw. Qed.
Lemma abandon_wr a b S : wf S -> wr (tcp_abandon a b S).
Proof. intros Hs. unfold tcp_abandon. wrw. Qed.
#[local] Hint Resolve close_wr shutdown_wr abandon_wr : wf.
Lemma abort_wr a S : wf S -> wr (tcp_abort a S).
Proof. apply abandon_wr. Qed.
#[local] Hint Resolve abort_wr : wf.

(** ** Allocation *)
Lemma kill_prio_wr p S : wf S -> wr (tcp_kill_prio p S).
Proof. intros Hs. unfold tcp_kill_prio. wrw. Qed.
Lemma kill_state_wr st S : wf S -> wr (tcp_kill_state st S).
Proof. intros Hs. unfold tcp_kill_state. wrw. Qed.
Lemma kill_timewait_wr S : wf S -> wr (tcp_kill_timewait S).
Proof. intros Hs. unfold tcp_kill_timewait. wrw. Qed.
Lemma closepend_one_wr a S : wf S -> wr (closepend_one a S).
Proof. intros Hs. unfold closepend_one. wrw. Qed.
#[local] Hint Resolve kill_prio_wr kill_state_wr kill_timewait_wr closepend_one_wr : wf.
Lemma closepend_wr l : forall S, wf S -> wr (closepend_walk l S).
Proof. induction l as [|a l IH]; intros S Hs; cbn [closepend_walk]; wrw. Qed.
Lemma handle_closepend_wr S : wf S -> wr (tcp_handle_closepend S).
Proof. apply closepend_wr. Qed.
#[local] Hint Resolve handle_closepend_wr : wf.
Lemma malloc_or_wr more S : wf S -> (forall S, wf S -> wr (more S)) -> wr (pcb_malloc_or more S).
Proof. intros Hs Hm. unfold pcb_malloc_or. destruct (pcb_pool S); [by apply Hm|wrw]. Qed.

Lemma new_pcb_wf pr tk ct : wf_pcb (new_pcb pr tk ct).
Proof. pose proof tcp_ttl_range. unfold wf_pcb, new_pcb, is_u8, INITIAL_MSS, TCP_MSS. cbn. split_and!; try done; try lia; constructor. Qed.

Lemma alloc_wr p S : wf S -> wr (tcp_alloc p S).
Proof.
  intros Hs. unfold tcp_alloc. eapply wr_bind; [repeat first [apply malloc_or_wr; [wf_hyp|intros ?S ?Hs]|wr_step]|]. intros [a S1] H1. cbn in H1. destruct (a =? 0); [exact H1|]. cbn. apply wf_put; [exact H1|]. apply new_pcb_wf.
Qed.
#[local] Hint Resolve alloc_wr : wf.

(** ** Callbacks *)
Lemma set_callback_wr a f S : wf S -> (forall c, wf_pcb (core c) -> wf_pcb (core (f c))) -> wr (set_callback a f S).
Proof. intros Hs Hf. unfold set_callback. wrw. Qed.
#[local] Hint Resolve set_callback_wr : wf.

Lemma write_wr a d fl S : wf S -> Forall is_u8 d -> wr (on a (tcp_write d fl) S).
Proof. intros Hs Hd. apply on_wr; [done|]. intros s H. by apply wfs_write. Qed.
#[local] Hint Resolve write_wr : wf.

Lemma run_call_wr a k S : wf S -> wf_call k -> wr (run_call a k S).
Proof. intros Hs Hk. destruct k; cbn [run_call wf_call] in *; unfold tcp_recv, tcp_sent, tcp_err, tcp_poll, tcp_ext_arg_set; wrw. Qed.
#[local] Hint Resolve run_call_wr : wf.
Lemma run_calls_wr a l : forall S, wf S -> Forall wf_call l -> wr (run_calls a l S).
Proof. induction l as [|k l IH]; intros S Hs; [done|]. intros [Hk Hl]%Forall_cons. cbn [run_calls]. eapply wr_bind; [by apply run_call_wr|]. intros S1 H1. by apply IH. Qed.
#[local] Hint Resolve run_calls_wr : wf.
Lemma respond_wr a r S : wf S -> wf_reaction r -> wr (respond a r S).
Proof. intros Hs Hr. unfold respond, wf_reaction in *. wrw. Qed.

(** The next reaction of a list of good ones. *)
Lemma next_reaction_wf l r l' : Forall wf_reaction l -> next_reaction l = (r, l') -> wf_reaction r /\ Forall wf_reaction l'.
Proof. unfold next_reaction. destruct l as [|x l]; intros H [= <- <-]; [by split; constructor|]. by apply Forall_cons in H. Qed.

Ltac wr_event :=
  let Hs := fresh in intros Hs; apply wr_get; [exact Hs|]; intros ?c ?E ?Hc; case_match;
  first [(match goal with |- context [next_reaction ?l] => let r := fresh "r" in let l' := fresh "l" in let En := fresh "En" in destruct (next_reaction l) as [r l'] eqn:En;
    apply next_reaction_wf in En as [?Hr ?Hl]; [|apply Hs]; apply respond_wr; [|assumption];
    destruct Hs as (?P1 & ?P2 & ?A1 & ?A2 & ?A3 & ?A4 & ?A5); split; [assumption|]; split; [assumption|]; unfold wf_app; rsimpl; split_and!; assumption end)|wr_step].

Lemma recv_null_wr a p S : wf S -> wr (tcp_recv_null a p S).
Proof. intros Hs. unfold tcp_recv_null. wrw. Qed.
#[local] Hint Resolve recv_null_wr : wf.
Lemma event_sent_wr a n S : wf S -> wr (TCP_EVENT_SENT a n S).
Proof. unfold TCP_EVENT_SENT. wr_event. Qed.
Lemma event_recv_wr a d S : wf S -> wr (TCP_EVENT_RECV a d S).
Proof. unfold TCP_EVENT_RECV. wr_event. Qed.
Lemma event_closed_wr a S : wf S -> wr (TCP_EVENT_CLOSED a S).
Proof. unfold TCP_EVENT_CLOSED. wr_event. Qed.
Lemma event_connected_wr a S : wf S -> wr (TCP_EVENT_CONNECTED a S).
Proof. unfold TCP_EVENT_CONNECTED. wr_event. Qed.
Lemma event_poll_wr a S : wf S -> wr (TCP_EVENT_POLL a S).
Proof. unfold TCP_EVENT_POLL. wr_event. Qed.
Lemma event_accept_wr lp a S : wf S -> wr (TCP_EVENT_ACCEPT lp a S).
Proof.
  intros Hs. unfold TCP_EVENT_ACCEPT. apply wr_read. intros l. destruct (accept l); [exact Hs|wrw|]. destruct (next_reaction _) as [r k] eqn:En. apply next_reaction_wf in En as [Hr Hl]; [|apply Hs]. apply respond_wr; [|done].
  destruct Hs as (P1 & P2 & A1 & A2). split; [exact P1|]. split; [exact P2|]. by split.
Qed.
Lemma event_accept_err_wr lp S : wf S -> wr (TCP_EVENT_ACCEPT_ERR lp S).
Proof. intros Hs. unfold TCP_EVENT_ACCEPT_ERR. wrw. Qed.
#[local] Hint Resolve event_sent_wr event_recv_wr event_closed_wr event_connected_wr event_poll_wr event_accept_wr event_accept_err_wr : wf.
Lemma refused_loop_wr fuel a : forall S, wf S -> wr (refused_loop fuel a S).
Proof. induction fuel as [|fuel IH]; intros S Hs; cbn [refused_loop]; wrw. Qed.
#[local] Hint Resolve refused_loop_wr : wf.
Lemma refused_data_wr a S : wf S -> wr (tcp_process_refused_data a S).
Proof. intros Hs. unfold tcp_process_refused_data. wrw. Qed.
#[local] Hint Resolve refused_data_wr : wf.

(** ** A segment *)

(** The addresses and ports of the packet have their widths. *)
Definition wf_ids (i : segment_ids) : Prop := is_u32 (c_src i) /\ is_u32 (c_dest i) /\ is_u16 (c_sport i) /\ is_u16 (c_dport i).

Lemma to_time_wait_wr a S : wf S -> wr (to_time_wait a S).
Proof. intros Hs. unfold to_time_wait. wrw. Qed.
Lemma rst_answer_wr a i t S : wf S -> wf_ids i -> wr (rst_answer a i t S).
Proof. intros Hs (H1 & H2 & H3 & H4). apply on__wr; [done|]. intros s H. cbn. apply wfs_rst; try done. exact (proj1 H). Qed.
Lemma rst_netif_wf i t S : wf S -> wf_ids i -> wf (tcp_rst_netif i t S).
Proof.
  intros Hs (H1 & H2 & H3 & H4). unfold tcp_rst_netif. cbv zeta. destruct (g_allocs S) as [|[] l]; try exact Hs. destruct Hs as (P1 & P2 & P3). split; [exact P1|]. split; [|exact P3]. apply wf_wire_snoc; [exact P2|].
  pose proof tcp_ttl_range. apply wf_plain; try done; try (apply u32_range || apply swap16_u16). unfold is_u8. lia.
Qed.
#[local] Hint Resolve to_time_wait_wr rst_answer_wr : wf.
Lemma receive_passive_wr a t S : wf S -> wr (receive_passive a t S).
Proof. intros Hs. unfold receive_passive. wrw. Qed.

(** Our SYN is off its queue. *)
Lemma syn_acked_wf p q : wf_pcb p ->
  (let? p := match unacked p, unsent p with _ :: l, _ => Some (p <| unacked := l |>) | [], _ :: l => Some (p <| unsent := l |>) | [], [] => None end in
   Some (if bool_decide (unacked p = []) then p <| rtime := -1 |> else p <| rtime := 0 |> <| nrtx := 0 |>)) = Some q -> wf_pcb q.
Proof.
  intros Hp. pose proof (wf_unacked _ Hp) as Ha. pose proof (wf_unsent _ Hp) as Hu. destruct (unacked p) as [|x l] eqn:E1; [destruct (unsent p) as [|x l] eqn:E2; [done|]|].
  - apply Forall_cons in Hu as [_ Hu]. assert (H6 : wf_pcb (p <| unsent := l |>)) by (eapply wf_queues; [exact Hp|by split_and!|exact Hu|exact (wf_unacked _ Hp)]). intros [= <-]. case_match; exact H6.
  - apply Forall_cons in Ha as [_ Ha]. assert (H6 : wf_pcb (p <| unacked := l |>)) by (eapply wf_queues; [exact Hp|by split_and!|exact (wf_unsent _ Hp)|exact Ha]). intros [= <-]. case_match; exact H6.
Qed.

Lemma syn_sent_wf t p q : wf_pcb p -> syn_sent_pcb t p = Some q -> wf_pcb q.
Proof.
  intros (H1 & H2 & _ & H4 & H5 & H6 & H7). unfold syn_sent_pcb. cbv zeta. destruct (0 <? _); [|done]. apply syn_acked_wf. split; [exact H1|]. split; [exact H2|]. split; [exact (u32_range (seqno t + 1))|]. split; [exact H4|]. split; [|split; [exact H6|exact H7]].
  change (tcp_eff_send_mss (mss p) (local_ip p) (remote_ip p) <= TCP_MSS). etransitivity; [apply eff_mss_le|exact H5].
Qed.

Lemma rexmit_rto_wr f a S : wf S -> (forall p, wf_pcb p -> wf_pcb (f p)) -> wr (on_ a (fun s => tcp_rexmit_rto (updp f s)) S).
Proof. intros Hs Hf. apply on__wr; [done|]. intros s H. apply wfs_rexmit_rto. apply wfs_updp; [done|apply Hf]. Qed.
#[local] Hint Resolve rexmit_rto_wr : wf.

Lemma syn_sent_wr a i t S : wf S -> wf_ids i -> wr (process_syn_sent a i t S).
Proof.
  intros Hs Hi. unfold process_syn_sent. apply wr_get; [done|]. intros c E Hc. cbv zeta. destruct (_ && _); [|wrw]. destruct (syn_sent_pcb t (core c)) as [q|] eqn:Eq; [|done]. cbn [lift rbind]. apply syn_sent_wf in Eq; [|done].
  eapply wr_bind; [apply updc_wr; [done|by intros p _]|]. intros S1 H1. cbn in H1. wrw.
Qed.

Lemma rexmit_wr a S : wf S -> wr (on a (fun s => Some (tcp_rexmit s)) S).
Proof. intros Hs. apply on_wr; [done|]. intros s H. pose proof (wfs_rexmit s H) as H1. cbn. by destruct (tcp_rexmit s). Qed.
Lemma empty_ack_wr a S : wf S -> wr (on a (fun s => Some (tcp_send_empty_ack s)) S).
Proof. intros Hs. apply on_wr; [done|]. intros s H. pose proof (wfs_empty_ack s H) as H1. cbn. by destruct (tcp_send_empty_ack s). Qed.
#[local] Hint Resolve rexmit_wr empty_ack_wr : wf.

Lemma syn_rcvd_wr a i t S : wf S -> wf_ids i -> wr (process_syn_rcvd a i t S).
Proof. intros Hs Hi. unfold process_syn_rcvd. wrw. Qed.
Lemma fin_wait_1_wr a t S : wf S -> wr (process_fin_wait_1 a t S).
Proof. intros Hs. unfold process_fin_wait_1. wrw. Qed.
Lemma fin_wait_2_wr a t S : wf S -> wr (process_fin_wait_2 a t S).
Proof. intros Hs. unfold process_fin_wait_2. wrw. Qed.
Lemma closing_wr a t S : wf S -> wr (process_closing a t S).
Proof. intros Hs. unfold process_closing. wrw. Qed.
Lemma last_ack_wr a t S : wf S -> wr (process_last_ack a t S).
Proof. intros Hs. unfold process_last_ack. wrw. Qed.
Lemma process_rst_wr a t S : wf S -> wr (process_rst a t S).
Proof. intros Hs. unfold process_rst. wrw. Qed.
#[local] Hint Resolve receive_passive_wr syn_sent_wr syn_rcvd_wr fin_wait_1_wr fin_wait_2_wr closing_wr last_ack_wr process_rst_wr : wf.
Lemma process_wr a i t S : wf S -> wf_ids i -> wr (tcp_process a i t S).
Proof. intros Hs Hi. unfold tcp_process. wrw. Qed.
Lemma timewait_input_wr a i t S : wf S -> wf_ids i -> wr (tcp_timewait_input a i t S).
Proof. intros Hs Hi. unfold tcp_timewait_input. wrw. Qed.
#[local] Hint Resolve process_wr timewait_input_wr : wf.

(** ** Passive open *)
Lemma syn_rcvd_wf i t l isn p : wf_pcb p -> wf_ids i -> wf_pcb (syn_rcvd_pcb i t l isn p).
Proof.
  intros (_ & _ & _ & H4 & H5) (I1 & I2 & I3 & I4). split; [exact (conj I2 I1)|]. split; [exact (conj I4 I3)|]. split; [exact (u32_range (seqno t + 1))|]. split; [exact H4|exact H5].
Qed.

Lemma enqueue_wr a fl S : wf S -> six_bits fl -> wr (on a (tcp_enqueue_flags fl) S).
Proof. intros Hs Hf. apply on_wr; [done|]. intros s H. by apply wfs_enqueue. Qed.
#[local] Hint Extern 1 (wr (on _ (tcp_enqueue_flags _) _)) => apply enqueue_wr; [wf_hyp|done] : wf.

Lemma listen_input_wr lp i t S : wf S -> wf_ids i -> wr (tcp_listen_input lp i t S).
Proof.
  intros Hs Hi. unfold tcp_listen_input. destruct (flag_set _ TCP_RST); [exact Hs|]. destruct (flag_set _ TCP_ACK); [by apply rst_netif_wf|]. destruct (flag_set _ TCP_SYN); [|exact Hs]. apply wr_read. intros l0. destruct (_ <=? _); [exact Hs|].
  eapply wr_bind; [by apply alloc_wr|]. intros [a S1] H1. cbn in H1. destruct (a =? 0); [by apply event_accept_err_wr|]. apply wr_read. intros l. cbv zeta. unfold tcp_next_iss. cbv zeta.
  eapply wr_bind; [apply upd_wr; [exact H1|]; intros c Hc; by apply syn_rcvd_wf|]. intros S2 H2. cbn in H2. eapply wr_bind; [wr_call|]. intros S3 H3. cbn in H3. eapply wr_bind; [wr_call|]. intros [u S4] H4. cbn in H4.
  eapply wr_bind; [apply updc_wr; [exact H4|]|]; [|intros S5 H5; cbn in H5; wrw]. intros p Hp. cbv zeta. apply wf_set_mss; [exact Hp|]. unfold tcp_eff_send_mss. etransitivity; [apply eff_mss_le|exact (wf_mss _ Hp)].
Qed.
#[local] Hint Resolve listen_input_wr : wf.

(** ** Delivery *)
Lemma delayed_close_wr a S : wf S -> wr (tcp_input_delayed_close a S).
Proof.
  intros Hs. unfold tcp_input_delayed_close. destruct (flag_set _ _); [|exact Hs]. apply wr_get; [done|]. intros c E Hc. cbv zeta. set (S1 := if _ && _ then _ else S). assert (H1 : wf S1) by (unfold S1; case_match; exact Hs). clearbody S1. wrw.
Qed.
Lemma sent_loop_wr fuel a : forall n S, wf S -> wr (sent_loop fuel a n S).
Proof. induction fuel as [|fuel IH]; intros n S Hs; cbn [sent_loop]; wrw. Qed.
Lemma recv_loop_wr fuel a : forall d S, wf S -> wr (recv_loop fuel a d S).
Proof. induction fuel as [|fuel IH]; intros d S Hs; cbn [recv_loop]; wrw. Qed.
Lemma deliver_fin_wr a S : wf S -> wr (deliver_fin a S).
Proof. intros Hs. unfold deliver_fin. wrw. Qed.
#[local] Hint Resolve delayed_close_wr sent_loop_wr recv_loop_wr deliver_fin_wr : wf.
Lemma deliver_wr a t S : wf S -> wr (deliver a t S).
Proof. intros Hs. unfold deliver. wrw. Qed.
Lemma input_reset_wr a S : wf S -> wr (input_reset a S).
Proof.
  intros Hs. unfold input_reset. apply wr_get; [done|]. intros c E Hc. cbv zeta. set (S1 := if errf c then _ else S). assert (H1 : wf S1) by (unfold S1; case_match; exact Hs). clearbody S1. wrw.
Qed.
#[local] Hint Resolve deliver_wr input_reset_wr : wf.
Lemma input_active_wr a i t S : wf S -> wf_ids i -> wr (input_active a i t S).
Proof. intros Hs Hi. unfold input_active. cbv zeta. set (S1 := S <| in_recv_flags := 0 |>). assert (H1 : wf S1) by exact Hs. clearbody S1. wrw. Qed.

Lemma be_at_u16 b k : Forall is_u8 b -> is_u16 (be_at b k).
Proof.
  intros Hb. assert (Hn : forall j, is_u8 (nth j b 0)). { intros j. destruct (nth_in_or_default j b 0) as [H| ->]; [|done]. rewrite List.Forall_forall in Hb. by apply Hb. }
  unfold be_at. pose proof (Hn k). pose proof (Hn (k + 1)%nat). zlia.
Qed.

Lemma header_wf src dest n p : is_u32 src -> is_u32 dest -> Forall is_u8 (cbytes p) -> match tcp_input_header src dest n p with Ok (Some (i, _)) => wf_ids i | _ => True end.
Proof.
  intros H1 H2 Hp. unfold tcp_input_header. destruct p as [|b rest]; [done|]. destruct (_ <? _); [done|]. destruct (_ || _); [done|]. destruct (negb _); [done|]. cbv zeta. destruct (_ || _); [done|]. destruct (if _ <=? lenz b then _ else _) as [[[[k q] c]|]| | |]; try done. cbn [rbind]. destruct (_ <? _); [done|].
  apply Forall_app in Hp as [Hb _]. split_and!; try done; by apply be_at_u16.
Qed.

Lemma tcp_input_wr src dest n p S : wf S -> is_u32 src -> is_u32 dest -> Forall is_u8 (cbytes p) -> wr (tcp_input src dest n p S).
Proof.
  intros Hs H1 H2 Hp. unfold tcp_input. pose proof (header_wf src dest n p H1 H2 Hp) as Hh. destruct (tcp_input_header src dest n p) as [[[i t]|]| | |]; try done. cbn [rbind]. assert (Hr : wf (if flag_set (in_flags t) TCP_RST then S else tcp_rst_netif i t S)) by (case_match; [done|by apply rst_netif_wf]).
  apply wr_read. intros a. destruct (negb (a =? 0)); [apply input_active_wr; [exact Hs|done]|]. apply wr_read. intros b. destruct (negb (b =? 0)); [wr_call|]. destruct (match tcp_listen_pcbs S with [] => _ | _ => _ end); [|done].
  destruct (tcp_listen_pcbs S) as [|lp l]; [exact Hr|]. destruct (_ && _); [wr_call|]. apply wr_read. intros lp'. destruct (negb (lp' =? 0)); [|exact Hr]. apply listen_input_wr; [exact Hs|done].
Qed.

(** ** The timers *)
Lemma slow_remove_wr a b S : wf S -> wr (slow_remove a b S).
Proof. intros Hs. unfold slow_remove. wrw. Qed.
Lemma slow_poll_wr a S : wf S -> wr (slow_poll a S).
Proof. intros Hs. unfold slow_poll. wrw. Qed.
Lemma fast_pcb_wr a S : wf S -> wr (fast_pcb a S).
Proof. intros Hs. unfold fast_pcb. wrw. Qed.
Lemma slow_pcb_wr a ctr S : wf S -> wr (on a (fun s => let? (rm, reset, s) := slow_pcb ctr s in Some ((rm, reset), s)) S).
Proof. intros Hs. apply on_wr; [done|]. intros s H. pose proof (wfs_slow_pcb ctr s H) as H1. by destruct (slow_pcb ctr s) as [[[rm reset] s1]|]. Qed.
#[local] Hint Resolve slow_remove_wr slow_poll_wr fast_pcb_wr slow_pcb_wr : wf.
Lemma slow_active_wr fuel : forall l S, wf S -> wr (slow_active fuel l S).
Proof.
  induction fuel as [|fuel IH]; intros [|a l] S Hs; cbn [slow_active]; try done. apply wr_get; [done|]. intros c E Hc. destruct (active_state _); [|done]. destruct (_ =? _); [by apply IH|]. eapply wr_bind; [by apply slow_pcb_wr|]. intros [[rm reset] S1] H1. cbn in H1. wrw.
Qed.
Lemma slow_tw_wr l : forall S, wf S -> wr (slow_tw l S).
Proof. induction l as [|a l IH]; intros S Hs; cbn [slow_tw]; wrw. Qed.
Lemma fast_active_wr fuel : forall l S, wf S -> wr (fast_active fuel l S).
Proof. induction fuel as [|fuel IH]; intros [|a l] S Hs; cbn [fast_active]; wrw. Qed.
#[local] Hint Resolve slow_active_wr slow_tw_wr fast_active_wr : wf.
Lemma slowtmr_wr S : wf S -> wr (tcp_slowtmr S).
Proof. intros Hs. unfold tcp_slowtmr. cbv zeta. set (S1 := (S <| ticks := _ |>) <| tcp_timer_ctr := _ |>). assert (H1 : wf S1) by exact Hs. clearbody S1. wrw. Qed.
Lemma fasttmr_wr S : wf S -> wr (tcp_fasttmr S).
Proof. intros Hs. unfold tcp_fasttmr. cbv zeta. by apply fast_active_wr. Qed.
#[local] Hint Resolve slowtmr_wr fasttmr_wr : wf.
Lemma tmr_wr S : wf S -> wr (tcp_tmr S).
Proof. intros Hs. unfold tcp_tmr. wrw. Qed.
Lemma txnow_wr l : forall S, wf S -> wr (txnow_walk l S).
Proof. induction l as [|a l IH]; intros S Hs; cbn [txnow_walk]; wrw. Qed.

(** ** The API *)
Lemma new_port_u16 used fuel : forall port n, match new_port_loop fuel used port n with Ok (q, _) => is_u16 q | _ => True end.
Proof.
  induction fuel as [|fuel IH]; intros port n; [done|]. cbn [new_port_loop]. cbv zeta. set (q := if u16 (port + 1) =? _ then _ else _). assert (Hq : is_u16 q) by (unfold q; case_match; [done|apply u16_range]). clearbody q.
  destruct (existsb _ _); [|exact Hq]. destruct (_ <? _); [done|apply IH].
Qed.

Lemma new_port_wr S : wf S -> match tcp_new_port S with Ok (q, S') => wf S' /\ is_u16 q | _ => True end.
Proof.
  intros Hs. unfold tcp_new_port. destruct (all_ports S) as [ps| | |]; try done. cbn [rbind]. pose proof (new_port_u16 (map fst ps) 16385 (tcp_port S) 0) as H. destruct (new_port_loop _ _ _ _) as [[r q]| | |]; done.
Qed.

Lemma bind_wr a i q S : wf S -> is_u32 i -> is_u16 q -> wr (tcp_bind a i q S).
Proof.
  intros Hs Hi Hq. unfold tcp_bind. apply wr_get; [done|]. intros c E Hc. destruct (negb _); [exact Hs|]. set (r := if q =? 0 then _ else _).
  assert (Hr : match r with Ok (e, S') => wf S' /\ match e with inr q => is_u16 q | inl _ => True end | _ => True end).
  { unfold r. destruct (q =? 0).
    - pose proof (new_port_wr S Hs) as H. destruct (tcp_new_port S) as [[k S1]| | |]; try done. cbn [rbind]. destruct H as [H1 H2]. split; [done|]. by destruct (k =? 0).
    - destruct (all_ports S) as [ps| | |]; try done. cbn [rbind]. split; [done|]. by destruct (existsb _ _). }
  destruct r as [[[e|k] S1]| | |]; try done; destruct Hr as [H1 Hk]; cbn [rbind]; [exact H1|]. eapply wr_bind; [apply updc_wr; [exact H1|]|intros S2 H2; cbn in H2; wrw].
  intros p Hp. apply (wf_port (if i =? 0 then p else p <| local_ip := i |>)); [|exact Hk]. destruct (i =? 0); [exact Hp|by apply wf_local_ip].
Qed.

Lemma listen_wr a b S : wf S -> wr (tcp_listen_with_backlog_and_err a b S).
Proof. intros Hs. unfold tcp_listen_with_backlog_and_err. wrw. Qed.
Lemma accept_wr lp f S : wf S -> wr (tcp_accept lp f S).
Proof. intros Hs. unfold tcp_accept. wrw. Qed.
Lemma remove_listener_wr l lp : forall S, wf S -> wr (tcp_remove_listener l lp S).
Proof.
  induction l as [|a l IH]; intros S Hs; cbn [tcp_remove_listener]; [exact Hs|]. eapply wr_bind; [apply upd_wr; [done|]; intros c Hc; by case_match|]. intros S1 H1. by apply IH.
Qed.
#[local] Hint Resolve remove_listener_wr : wf.
Lemma close_listen_wr lp S : wf S -> wr (tcp_close_listen lp S).
Proof. intros Hs. unfold tcp_close_listen, tcp_listen_closed. wrw. Qed.

Lemma connect_wr a i q f S : wf S -> is_u32 i -> is_u16 q -> wr (tcp_connect a i q f S).
Proof.
  intros Hs Hi Hq. unfold tcp_connect. apply wr_get; [done|]. intros c E Hc. destruct (negb _); [exact Hs|]. eapply wr_bind; [apply updc_wr; [exact Hs|]|].
  { intros p ((P1 & _) & (P3 & _) & P5). split; [exact (conj P1 Hi)|]. split; [exact (conj P3 Hq)|exact P5]. }
  intros S1 H1. cbn in H1. apply wr_get; [done|]. intros c1 E1 Hc1. destruct (tcp_route _ _ _) as [n|] eqn:En; [|exact H1]. apply route_addr in En. eapply (wr_bind (A := stack)); [destruct (_ =? 0); [apply updc_wr; [done|]; intros p Hp; by apply wf_local_ip|exact H1]|]. intros S2 H2. cbn in H2. cbv zeta.
  set (r := if _ =? 0 then tcp_new_port S2 else _). assert (Hr : match r with Ok (k, S') => wf S' /\ is_u16 k | _ => True end) by (unfold r; destruct (_ =? 0); [by apply new_port_wr|split; [done|by apply wf_lport]]).
  destruct r as [[k S3]| | |]; try done. destruct Hr as [H3 Hk]. cbn [rbind]. eapply wr_bind; [apply updc_wr; [exact H3|]; intros p Hp; by apply wf_port|]. intros S4 H4. cbn in H4. destruct (k =? 0); [exact H4|]. unfold tcp_next_iss. cbv zeta. eapply wr_bind; [apply upd_wr; [exact H4|]|].
  { intros d (P1 & P2 & _ & P4 & _ & P6). split; [exact P1|]. split; [exact P2|]. split; [done|]. split; [exact P4|]. split; [|exact P6]. change (tcp_eff_send_mss_netif INITIAL_MSS (Some n) <= TCP_MSS). etransitivity; [apply eff_mss_le|done]. }
  intros S5 H5. cbn in H5. wrw.
Qed.

(** What the arguments of an operation must be. *)
Definition wf_op (x : op) : Prop :=
  match x with
  | OpInput src dest _ p => is_u32 src /\ is_u32 dest /\ Forall is_u8 (cbytes p)
  | OpBind _ i q | OpConnect _ i q _ => is_u32 i /\ is_u16 q
  | OpCall _ k => wf_call k
  | _ => True
  end.

#[local] Hint Resolve bind_wr listen_wr connect_wr : wf.
Lemma run_op_wr x S : wf S -> wf_op x -> wr (run_op x S).
Proof.
  intros Hs Hx. destruct x; cbn [run_op wf_op] in *; try (by wrw).
  - destruct Hx as (H1 & H2 & H3). by apply tcp_input_wr.
  - by apply tmr_wr.
  - by apply txnow_wr.
  - destruct Hx. wrw.
  - by apply accept_wr.
  - destruct Hx. wrw.
  - by apply close_listen_wr.
Qed.

Lemma run_ops_wr l : forall S, wf S -> Forall wf_op l -> wr (run_ops l S).
Proof.
  induction l as [|x l IH]; intros S Hs Hl; [exact Hs|]. apply Forall_cons in Hl as [Hx Hl]. cbn [run_ops]. destruct (allowed x S); [|by apply IH]. eapply wr_bind; [by apply run_op_wr|]. intros S1 H1. by apply IH.
Qed.

End Keep.

Section Fit.
Context {o : Opts} {ook : OptsOk o} {ip : IpLayer} {iok : IpOk ip}.

End Fit.

(** ** Witness *)
#[local] Existing Instances ios demo_ip.

Lemma demo_ip_ok : IpOk demo_ip.
Proof. split; intros; split; vm_compute; congruence. Qed.
#[local] Existing Instance demo_ip_ok.

(** Two thousand bytes written to the example connection. *)
Definition demo_bulk : list op := demo_data ++ [OpTmr; OpCall 1000 (AWrite (repeat 7 (Z.to_nat 2000)) 1); OpCall 1000 AOutput].

