(* ===== verification/IpStack.v ===== *)
(** * IpStack: src/Sources/TunForgeCore/TFIPStack.m

    The object that owns lwIP: it starts and stops the stack, feeds packets of
    the tunnel to [ip4_input], hands packets of lwIP to the outbound handler and
    accepts connections.

    [tun] is the whole of it: the object's properties, the [TFObjectRef] bridges
    with their retain counts (an access to one that is gone is [Dangling]), the
    timers of Timeouts whose environment is the network of Ip4 with a clock, and
    the free buffers of the pool.  The methods run on one queue; each is a
    function on [tun]. *)

From S2P Require Import Prelude Def Ip4Addr Opts Mem Memp Pbuf Timeouts Chksum TcpPcb TcpOut TcpIn TcpStack TcpInput TcpTimer TcpSafeApi TcpProps Ip4Hdr Ip4Frag Ip4Reass Raw Netif Ip4.

(** ** The machine behind the timers *)

(** The clock, the network (or how it failed), and
    [pbuf_free_ooseq_pending]. *)
Record machine := mk_machine { clock : Z; mc_sys : res sys; ooseq_pending : bool }.
#[export] Instance eta_machine : Eta machine := fun m => mk_machine (clock m) (mc_sys m) (ooseq_pending m).

(** [pbuf_free_ooseq] of pbuf.c: the out-of-sequence data of one pcb. *)
Fixpoint free_ooseq_walk (l : list Z) (S : stack) : res stack :=
  match l with
  | [] => Ok S
  | a :: l =>
      let+ c := get a S in
      if negb (bool_decide (ooseq (core c) = [])) then updc a tcp_free_ooseq S else free_ooseq_walk l S
  end.
Definition pbuf_free_ooseq (S : stack) : res stack := free_ooseq_walk (tcp_active_pcbs S) S.

Definition on_tcp (f : stack -> res stack) (Y : sys) : res sys :=
  let+ t := f (tcp (nw Y)) in Ok (Y <| nw := (nw Y) <| tcp := t |> |>).

Definition step_sys (f : sys -> res sys) (m : machine) : machine := m <| mc_sys := let+ Y := mc_sys m in f Y |>.

(** What the timers of lwIP drive here; nobody else registers handlers. *)
Definition tun_env {o : Opts} : TimerEnv := {|
  env := machine;
  sys_now := clock;
  Timeouts.tcp_tmr := step_sys (fun Y => on_tcp (TcpTimer.tcp_tmr (ip := net_ip (nw Y))) Y);
  tcp_pcbs_need_timer m := match mc_sys m with Ok Y => timer_wanted (tcp (nw Y)) | _ => false end;
  Timeouts.ip_reass_tmr := step_sys (fun Y => let+ r := sure (Ip4Frag.ip_reass_tmr (ra Y)) in Ok (Y <| ra := r |>));
  pbuf_check_free_ooseq m := if ooseq_pending m then step_sys (on_tcp pbuf_free_ooseq) (m <| ooseq_pending := false |>) else m;
  other_handler _ m := m |}.
#[export] Existing Instance tun_env.

(** ** Data *)

(** [TFObjectRef]: is it valid, and how often is it retained? *)
Record objref := mk_ref { r_alive : bool; r_rc : Z }.
#[export] Instance eta_ref : Eta objref := fun r => mk_ref (r_alive r) (r_rc r).

(** The properties; pointers are 0 for NULL and nil. *)
Record TFIPStack := mk_ips {
  s_ready : bool; s_stackRef : Z; s_timer : bool; s_listener : Z; s_state : Z;
  (** [outboundHandler] and a usable [delegate] are set *)
  s_handler : bool; s_delegate : bool }.
#[export] Instance eta_ips : Eta TFIPStack := fun s =>
  mk_ips (s_ready s) (s_stackRef s) (s_timer s) (s_listener s) (s_state s) (s_handler s) (s_delegate s).

Section IpStack.
Context {o : Opts}.
(** The callback of raw pcbs, as in Ip4. *)
Variable recv : Z -> Z -> pkt -> Z -> bool.

Record tun := mk_tun {
  self : TFIPStack;
  (** the bridge objects the stack object makes, one per start; those of the
      connection objects are in Connection *)
  refs : gmap Z objref;
  next_ref : Z;
  (** [callback_arg] of the listener *)
  listener_arg : Z;
  tm : timers;
  (** free elements of [MEMP_PBUF_POOL] *)
  pbufs : list Z;
  (** the packets given to the outbound handler *)
  outbound : list (list Z) }.
#[global] Instance eta_tun : Eta tun := fun w =>
  mk_tun (self w) (refs w) (next_ref w) (listener_arg w) (tm w) (pbufs w) (outbound w).

(** [tunforge_virtual_netif] *)
Definition TUN : Z := 1.

(** ** Reference counting *)
Definition getr (a : Z) (w : tun) : res objref := match refs w !! a with Some r => Ok r | None => Dangling end.
Definition retain (a : Z) (w : tun) : res tun :=
  let+ r := getr a w in Ok (w <| refs := <[a := r <| r_rc := r_rc r + 1 |>]> (refs w) |>).
Definition release (a : Z) (w : tun) : res tun :=
  if a =? 0 then Ok w
  else
    let+ r := getr a w in
    Ok (w <| refs := if r_rc r =? 1 then delete a (refs w) else <[a := r <| r_rc := r_rc r - 1 |>]> (refs w) |>).
Definition invalidate (a : Z) (w : tun) : res tun :=
  if a =? 0 then Ok w
  else let+ r := getr a w in Ok (w <| refs := <[a := r <| r_alive := false |>]> (refs w) |>).
Definition is_alive (a : Z) (w : tun) : res bool :=
  if a =? 0 then Ok false else let+ r := getr a w in Ok (r_alive r).

(** [self.stackRef = [[TFObjectRef alloc] initWithObject:self]] *)
Definition new_stackRef (w : tun) : res tun :=
  let a := next_ref w in
  let w := w <| refs := <[a := mk_ref true 1]> (refs w) |> <| next_ref := a + 1 |> in
  let+ w := release (s_stackRef (self w)) w in
  Ok (w <| self := (self w) <| s_stackRef := a |> |>).

(** Is there a stack behind the argument? *)
Definition get_stack_from_arg (arg : Z) (w : tun) : res bool := is_alive arg w.

(** ** Running lwIP *)

(** The calls of [tcp_timer_needed] that code has made, by their conditions. *)
Definition timer_calls (S S' : stack) : list bool :=
  concat (map (fun e => match e with EvTimerNeeded b => [b] | _ => [] end) (drop (length (events S)) (events S'))).

Definition set_sys (Y : sys) (w : tun) : tun := w <| tm := (tm w) <| tenv := (tenv (tm w)) <| mc_sys := Ok Y |> |> |>.

(** Code of lwIP on the network, outside of the timers. *)
Definition on_sys {R} (f : sys -> res (R * sys)) (w : tun) : res (R * tun) :=
  let+ Y := mc_sys (tenv (tm w)) in
  let+ (r, Y') := f Y in
  let w := set_sys Y' w in
  let+ t := sure (run_timer_calls (timer_calls (tcp (nw Y)) (tcp (nw Y'))) (tm w)) in
  Ok (r, w <| tm := t |>).

Definition on_net {R} (f : net -> res (R * net)) (Y : sys) : res (R * sys) := let+ (r, N) := f (nw Y) in Ok (r, Y <| nw := N |>).

(** The freed buffers are back in the pool. *)
Definition recycle (w : tun) : res tun :=
  let+ Y := mc_sys (tenv (tm w)) in
  Ok ((set_sys (Y <| ra := (ra Y) <| freed := [] |> |>) w) <| pbufs := rev (freed (ra Y)) ++ pbufs w |>).

(** ** Construction *)

(** [memset]; nothing reads [output] before [netif_add] has set it. *)
Definition zero_nif : nif := mk_nif 0 0 0 false Netif_null_output_ip4 0 0 0 (0, 0) 0.

(** [lwip_init], with the memory of the pools, the outcome of TCP's allocations,
    what the application's callbacks will do, and the time. *)
Definition lwip_init (descs : memp_t -> memp_desc) (al : list bool) (A : application) (now : Z) : option timers :=
  let ps := memp_init descs in
  let N := mk_net {[TUN := zero_nif]} [] 0 0 (mk_raw_st [] (ps MEMP_RAW_PCB)) (boot (ps MEMP_TCP_PCB) (ps MEMP_TCP_PCB_LISTEN) al A) in
  let Y := mk_sys N (reass_init (ps MEMP_REASSDATA)) [] in
  sys_timeouts_init (mk_timers [] 0 false ps (mk_machine (u32 now) (Ok Y) false) []).

Definition initPrivate (descs : memp_t -> memp_desc) (al : list bool) (A : application) (now : Z) : res tun :=
  let stackRef := 1 in
  let+ t := sure (lwip_init descs al A now) in
  Ok (mk_tun (mk_ips false stackRef false 0 0 false false) {[stackRef := mk_ref true 1]} 2 0 t (memp_init descs MEMP_PBUF_POOL) []).

(** ** Starting *)
Definition TCP_DEFAULT_LISTEN_BACKLOG : Z := 255.

Definition tunforge_netif_init (n : nif) : err_t * nif :=
  (ERR_OK, n <| n_name := (84, 70) |> <| n_mtu := TUNFORGE_NETIF_IPV4_MTU |> <| n_flags := Z.lor NETIF_FLAG_UP NETIF_FLAG_LINK_UP |>
             <| n_output := DriverOutput |>).

Definition tunforge_netif_setup (state : Z) (N : net) : res net :=
  let ip := IP4_ADDR 198 18 0 1 in
  let mask := IP4_ADDR 255 255 0 0 in
  let gw := IP4_ADDR 0 0 0 0 in
  let+ (ret, N) := netif_add TUN (Some ip) (Some mask) (Some gw) state (Some tunforge_netif_init) true N in
  check! (negb (ret =? 0)) in
  let+ n := getn TUN N in
  check! (n_input n) in
  let+ N := netif_set_up TUN N in
  let+ N := netif_set_link_up TUN N in
  Ok (netif_set_default TUN N).

(** The lwIP part of [setupLockedOnLWIPQueue]; the result is the listener. *)
Definition setup_lwip (state : Z) (N : net) : res (Z * net) :=
  let+ N := tunforge_netif_setup state N in
  let+ N := updn TUN (fun n => n <| n_state := state |> <| n_output := DriverOutput |>) N in
  let N := netif_set_default TUN N in
  let+ (pcb, t) := tcp_new (ip := net_ip N) (tcp N) in
  check! (negb (pcb =? 0)) in
  let+ (err, t) := tcp_bind pcb IPADDR_ANY 0 t in
  check! (err_ok err) in
  let+ (lpcb, err, t) := tcp_listen_with_backlog_and_err pcb TCP_DEFAULT_LISTEN_BACKLOG t in
  check! (err_ok err) in
  let+ t := tcp_accept lpcb AcceptApp t in
  Ok (lpcb, N <| tcp := t |>).

Definition setupLockedOnLWIPQueue (w : tun) : res tun :=
  if s_ready (self w) then Ok w
  else
    let w := w <| self := (self w) <| s_ready := true |> |> in
    let state := s_stackRef (self w) in
    let+ w := retain state w in
    let w := w <| self := (self w) <| s_state := state |> |> in
    let+ (lpcb, w) := on_sys (on_net (setup_lwip state)) w in
    Ok (w <| listener_arg := state |> <| self := (self w) <| s_listener := lpcb |> |>).

Definition start (w : tun) : res tun :=
  let+ alive := is_alive (s_stackRef (self w)) w in
  let+ w := (if negb alive then new_stackRef w else Ok w) in
  let w := w <| tm := sys_restart_timeouts (tm w) |> <| self := (self w) <| s_timer := true |> |> in
  setupLockedOnLWIPQueue w.

(** ** Stopping *)

(** The listener is closed. *)
Definition close_listener (lp : Z) (N : net) : res (unit * net) :=
  let+ t := tcp_accept lp AcceptNULL (tcp N) in
  let+ t := tcp_close_listen lp t in
  Ok ((), N <| tcp := t |>).

(** The interface is removed, if it is the one set up for [state]. *)
Definition remove_netif (state : Z) (N : net) : res (unit * net) :=
  let+ n := getn TUN N in
  if n_state n =? state then
    let+ N := netif_set_down TUN N in
    let+ N := netif_remove TUN N in
    let+ N := updn TUN (fun n => n <| n_state := 0 |>) N in
    Ok ((), N)
  else Ok ((), N).

Definition stop (w : tun) : res tun :=
  let w := w <| self := (self w) <| s_timer := false |> |> in
  let+ w := invalidate (s_stackRef (self w)) w in
  let+ w := release (s_stackRef (self w)) w in
  let w := w <| self := (self w) <| s_stackRef := 0 |> <| s_ready := false |> |> in
  let lp := s_listener (self w) in
  let+ w :=
    (if negb (lp =? 0) then
       let+ (_, w) := on_sys (on_net (close_listener lp)) (w <| listener_arg := 0 |>) in
       Ok (w <| self := (self w) <| s_listener := 0 |> |>)
     else Ok w) in
  let+ (_, w) := on_sys (on_net (remove_netif (s_state (self w)))) w in
  let+ w := release (s_state (self w)) w in
  Ok (w <| self := (self w) <| s_state := 0 |> |>).

(** ** Packets from the tunnel *)

(** [pbuf_alloc(PBUF_RAW, len, PBUF_POOL)] and [pbuf_take] of the bytes: buffers
    of the pool, filled one after the other; [None] when the pool runs out. *)
Fixpoint pool_bufs (bytes : list Z) (pool : list Z) : option (list buf * list Z) :=
  match pool with
  | [] => None
  | a :: pool =>
      if lenz bytes <=? PBUF_POOL_BUFSIZE_ALIGNED then Some ([mk_buf a bytes], pool)
      else
        let? (l, rest) := pool_bufs (dropz PBUF_POOL_BUFSIZE_ALIGNED bytes) pool in
        Some (mk_buf a (takez PBUF_POOL_BUFSIZE_ALIGNED bytes) :: l, rest)
  end.

(** [tunforge_accept] for a new connection: what it does with its pcb.
    [connection] tells whether [initWithTCPPcb] succeeds. *)
Definition tunforge_accept (arg : Z) (connection : bool) (w : tun) : res reaction :=
  let+ stack := get_stack_from_arg arg w in
  Ok (if negb stack then mk_reaction [ABacklogDelayed] (AbortReturn ERR_ABRT)
      else if negb connection then mk_reaction [ABacklogDelayed] (AbortReturn ERR_ABRT)
      else if negb (s_delegate (self w)) then mk_reaction [ABacklogDelayed; ASetup] (AbortReturn ERR_ABRT)
      else mk_reaction [ABacklogDelayed; ASetup] (Return ERR_OK)).

Fixpoint accepts (conns : list bool) (w : tun) : res (list reaction) :=
  match conns with
  | [] => Ok []
  | b :: conns => let+ r := tunforge_accept (listener_arg w) b w in let+ l := accepts conns w in Ok (r :: l)
  end.

(** [netif->input], with what [tunforge_accept] will do. *)
Definition netif_input (rs : list reaction) (p : pkt) (Y : sys) : res (err_t * sys) :=
  let t := tcp (nw Y) in
  ip4_input recv p TUN (Y <| nw := (nw Y) <| tcp := t <| app := (app t) <| on_accept := rs |> |> |> |>).

(** [stale] is what the memory behind the first buffer holds, [conns] what
    becomes of the connections that are accepted. *)
Definition inputPacket (packet stale : list Z) (conns : list bool) (w : tun) : res tun :=
  let len := u16 (lenz packet) in
  if (len =? 0) || (65535 <? len) then Ok w
  else
    let+ alive := is_alive (s_stackRef (self w)) w in
    if negb alive then Ok w
    else if negb (s_ready (self w)) then Ok w
    else
      let+ Y := mc_sys (tenv (tm w)) in
      let+ n := getn TUN (nw Y) in
      if negb (n_input n) then Ok w
      else
        match pool_bufs (takez len packet) (pbufs w) with
        | None => Ok (w <| pbufs := rev (pbufs w) |> <| tm := (tm w) <| tenv := (tenv (tm w)) <| ooseq_pending := true |> |> |>)
        | Some (l, pool) =>
            let p := mk_pkt len l stale in
            let+ rs := accepts conns w in
            let+ (err, w) := on_sys (netif_input rs p) (w <| pbufs := pool |>) in
            let+ w := recycle w in
            Ok (if err_ok err then w else w <| pbufs := rev (p_addrs p) ++ pbufs w |>)
        end.

(** ** Packets of lwIP *)
Definition outputPacket (p : pkt) (w : tun) : tun :=
  let len := p_tot p in
  if (len <? 20) || negb (s_handler (self w)) then w
  else
    let data := takez len (p_bytes p) in
    if negb (lenz data =? len) then w else w <| outbound := outbound w ++ [data] |>.

Definition tunforge_output (p : pkt) (w : tun) : res (err_t * tun) :=
  let+ Y := mc_sys (tenv (tm w)) in
  let+ n := getn TUN (nw Y) in
  let+ stack := get_stack_from_arg (n_state n) w in
  Ok (ERR_OK, if negb stack then w else outputPacket p w).

(** ** Runs *)

(** What a connection calls on its pcb. *)
Inductive conn_op := CCall (k : api_call) | CShutdown (rx tx : bool) | CClose | CAbort.
Definition run_conn (a : Z) (k : conn_op) (N : net) : res (unit * net) :=
  let op := match k with CCall k => OpCall a k | CShutdown rx tx => OpShutdown a rx tx | CClose => OpClose a | CAbort => OpAbort a end in
  if allowed (ip := net_ip N) op (tcp N) then let+ t := run_op (ip := net_ip N) op (tcp N) in Ok ((), N <| tcp := t |>) else Ok ((), N).

Inductive tun_op :=
  | TStart | TStop
  | TInput (packet stale : list Z) (conns : list bool)
  (** lwIP sends a packet *)
  | TOutput (p : pkt)
  (** the timer source fires, at a time; the clock may have wrapped *)
  | TTick (now : Z)
  | TClock (now : Z)
  | TConn (a : Z) (k : conn_op)
  (** the buffers of a packet that TCP has taken over are released *)
  | TRelease (i : nat)
  | THandler (b : bool) | TDelegate (b : bool).

Definition set_clock (now : Z) (w : tun) : tun := w <| tm := (tm w) <| tenv := (tenv (tm w)) <| clock := u32 now |> |> |>.

(** The event handler of the timer source. *)
Definition tick (w : tun) : res tun :=
  if s_timer (self w) then
    let+ t := sure (sys_check_timeouts (S (2 * length (next_timeout (tm w)))) (tm w)) in
    recycle (w <| tm := t |>)
  else Ok w.

Definition release_handed (i : nat) (w : tun) : res tun :=
  let+ Y := mc_sys (tenv (tm w)) in
  match handed Y !! i with
  | Some p => Ok ((set_sys (Y <| handed := take i (handed Y) ++ drop (S i) (handed Y) |>) w) <| pbufs := rev (p_addrs p) ++ pbufs w |>)
  | None => Ok w
  end.

Definition run_tun_op (x : tun_op) (w : tun) : res tun :=
  match x with
  | TStart => start w
  | TStop => stop w
  | TInput packet stale conns => inputPacket packet stale conns w
  | TOutput p => let+ (_, w) := tunforge_output p w in Ok w
  | TTick now => tick (set_clock now w)
  | TClock now => Ok (set_clock now w)
  | TConn a k => let+ (_, w) := on_sys (on_net (run_conn a k)) w in Ok w
  | TRelease i => release_handed i w
  | THandler b => Ok (w <| self := (self w) <| s_handler := b |> |>)
  | TDelegate b => Ok (w <| self := (self w) <| s_delegate := b |> |>)
  end.

Fixpoint run_tun (l : list tun_op) (w : tun) : res tun :=
  match l with [] => Ok w | x :: l => let+ w := run_tun_op x w in run_tun l w end.
End IpStack.
