(* ===== verification/IpStackFacts.v ===== *)
(** * IpStackFacts: lemmas about TFIPStack

    The timer list of lwIP stays in shape and a check of it ends, whatever the
    clock does; every method keeps the invariant [tun_ok]. *)

From S2P Require Import Prelude Def Ip4Addr Opts Mem Memp Pbuf Timeouts Chksum TcpPcb TcpOut TcpIn Ip4Hdr Ip4Frag Ip4FragFacts Ip4Reass TcpStack TcpInput TcpTimer TcpSafety TcpCalls TcpSafeIn TcpSafeRun TcpSafeTmr TcpSafeApi TcpProps TcpListen Raw Netif NetifFacts Ip4 Ip4Facts IpStack.

(** ** The timer list, whatever the clock does *)
Section Shape.
Context {te : TimerEnv}.

(** The reassembly timer, and TCP's while it is active. *)
Record tm_ok (s : timers) : Prop := {
  tk_kinds : map h (next_timeout s) ≡ₚ H_lwip_cyclic_timer :: (if tcpip_tcp_timer_active s then [H_tcpip_tcp_timer] else []);
  tk_ok : Forall timer_ok (next_timeout s);
  tk_pool : Forall (fun p => p mod 8 = 0 /\ p <> 0) (tpools s MEMP_SYS_TIMEOUT);
  tk_room : (2 <= length (next_timeout s) + length (tpools s MEMP_SYS_TIMEOUT))%nat }.

Lemma timeout_abs_eq nxt hd a p ps s : tpools s MEMP_SYS_TIMEOUT = p :: ps -> p mod 8 = 0 -> p <> 0 ->
  exists T, sys_timeout_abs nxt hd a s = Some (s <| tpools := T |> <| next_timeout := insert_after (mk_timeo nxt hd a p) (next_timeout s) |>)
  /\ T MEMP_SYS_TIMEOUT = ps.
Proof.
  intros E Ha Hp%Z.eqb_neq. unfold sys_timeout_abs, memp_malloc, do_memp_malloc_pool, MEM_ALIGNMENT. rewrite E, Ha. cbn [Z.eqb].
  unfold MEMP_SIZE. rewrite Z.add_0_r, Hp. cbn [negb]. eexists. split; [rewrite <- insert_after_head; reflexivity|apply set_tab_eq].
Qed.

(** A timer is armed. *)
Lemma rearm_ok nxt hd a p ps s : tpools s MEMP_SYS_TIMEOUT = p :: ps -> Forall (fun p => p mod 8 = 0 /\ p <> 0) (p :: ps) -> Forall timer_ok (next_timeout s) ->
  (hd = H_lwip_cyclic_timer -> 0 <= a < 2) -> map h (next_timeout s) ++ [hd] ≡ₚ H_lwip_cyclic_timer :: (if tcpip_tcp_timer_active s then [H_tcpip_tcp_timer] else []) ->
  (1 <= length (next_timeout s) + length ps)%nat ->
  exists s', sys_timeout_abs nxt hd a s = Some s' /\ tm_ok s' /\ tenv s' = tenv s /\ next_timeout s' = insert_after (mk_timeo nxt hd a p) (next_timeout s).
Proof.
  intros E [[Hp1 Hp2] Hps]%Forall_cons Hok Hh Hk Hl. destruct (timeout_abs_eq nxt hd a p ps s E Hp1 Hp2) as (T & -> & HT). eexists. split; [done|]. split; [|done].
  split; cbn; rewrite ?HT; try done.
  - rewrite insert_after_perm. cbn. rewrite <- Hk. solve_Permutation.
  - rewrite insert_after_perm. by constructor.
  - rewrite (Permutation_length (insert_after_perm _ _)). cbn. lia.
Qed.

(** How often the timer can still run: at the present time [now] a timer that is
    due is run, and once more if it is re-armed for exactly now. *)
Definition late (now : Z) (t : sys_timeo) : nat :=
  if TIME_LESS_THAN now (time t) then 0%nat else if u32 (time t - now) =? 0 then 1%nat else 2%nat.
Definition lates (now : Z) (l : list sys_timeo) : nat := sum_list_with (late now) l.
Arguments late _ _ : simpl never.
Arguments lates _ _ : simpl never.

Lemma lates_insert now x l : lates now (insert_after x l) = (late now x + lates now l)%nat.
Proof. unfold lates. by rewrite insert_after_perm. Qed.

Lemma lates_le now l : (lates now l <= 2 * length l)%nat.
Proof. unfold lates. induction l as [|t l IH]; cbn; [done|]. unfold late at 1. repeat case_match; lia. Qed.

(** A property of the environment that all handlers keep. *)
Record handlers_keep (P : env -> Prop) : Prop := {
  sb_tcp : forall e, P e -> P (Timeouts.tcp_tmr e);
  sb_reass : forall e, P e -> P (Timeouts.ip_reass_tmr e);
  sb_ooseq : forall e, P e -> P (pbuf_check_free_ooseq e);
  sb_other : forall i e, P e -> P (other_handler i e) }.

Lemma handler_total P t s rest ps : handlers_keep P -> clock_stops -> is_u32 (sys_now (tenv s)) -> TIME_LESS_THAN (sys_now (tenv s)) (time t) = false -> timer_ok t ->
  current_timeout_due_time s = time t -> tpools s MEMP_SYS_TIMEOUT = addr t :: ps -> next_timeout s = rest ->
  map h (t :: rest) ≡ₚ H_lwip_cyclic_timer :: (if tcpip_tcp_timer_active s then [H_tcpip_tcp_timer] else []) -> Forall timer_ok rest ->
  Forall (fun p => p mod 8 = 0 /\ p <> 0) (addr t :: ps) -> (1 <= length rest + length ps)%nat -> P (tenv s) ->
  exists s', run_handler t s = Some s' /\ tm_ok s' /\ P (tenv s') /\ sys_now (tenv s') = sys_now (tenv s)
  /\ (lates (sys_now (tenv s)) (next_timeout s') < late (sys_now (tenv s)) t + lates (sys_now (tenv s)) rest)%nat.
Proof.
  intros [B1 B2 B3 B4] (C1 & C2 & C3 & C4) Hu Hdue (Hc & Hal & Ha0) Hcur Hpool Hnext Hk Hrest Hps Hlen HP. set (now := sys_now (tenv s)) in *.
  assert (Hpos : (1 <= late now t)%nat) by (unfold late; rewrite Hdue; destruct (_ =? _); lia). unfold run_handler. destruct t as [tt hh aa ad]. cbn [time h arg addr] in *.
  assert (Hfar : forall k hd a p, 0 < k <= 1000 -> late now (mk_timeo (u32 (now + k)) hd a p) = 0%nat).
  { intros k hd a p Hr. unfold late. cbn. assert (TIME_LESS_THAN now (u32 (now + k)) = true) as -> by (unfold TIME_LESS_THAN, LWIP_MAX_TIMEOUT; apply Z.ltb_lt; zlia). done. }
  destruct hh as [| |id].
  - assert (Hact : tcpip_tcp_timer_active s = true). { destruct (tcpip_tcp_timer_active s); [done|]. apply Permutation_singleton_r in Hk. by injection Hk. }
    rewrite Hact in Hk. unfold tcpip_tcp_timer. cbn [tenv setf]. set (s1 := (s <| called := _ |>) <| tenv := _ |>). destruct (tcp_pcbs_need_timer _).
    + unfold sys_timeout. rewrite (proj2 (Z.leb_le _ _)) by (vm_compute; congruence).
      destruct (rearm_ok (u32 (sys_now (tenv s1) + TCP_TMR_INTERVAL)) H_tcpip_tcp_timer 0 ad ps s1) as (s' & E & K1 & K2 & K3); try done.
      { change (next_timeout s1) with (next_timeout s). by rewrite Hnext. } { change (next_timeout s1) with (next_timeout s). change (tcpip_tcp_timer_active s1) with (tcpip_tcp_timer_active s). rewrite Hnext, Hact, <- Hk. cbn. solve_Permutation. }
      { change (next_timeout s1) with (next_timeout s). by rewrite Hnext. }
      exists s'. rewrite K2, K3. split; [exact E|]. split; [done|]. split; [by apply B1|]. split; [apply C1|]. rewrite lates_insert. change (next_timeout s1) with (next_timeout s). rewrite Hnext. change (sys_now (tenv s1)) with (sys_now (Timeouts.tcp_tmr (tenv s))). rewrite C1. fold now. rewrite Hfar by (unfold TCP_TMR_INTERVAL; lia). lia.
    + eexists. split; [done|]. cbn. rewrite Hnext. split_and!; [|by apply B1|apply C1|lia]. split; cbn; rewrite ?Hnext, ?Hpool; try done; [|cbn; lia].
      apply (Permutation_cons_inv (a := H_tcpip_tcp_timer)). cbn in Hk. rewrite Hk. apply Permutation_swap.
  - unfold lwip_cyclic_timer.
    assert (exists iv, lwip_cyclic_timers !! Z.to_nat aa = Some iv /\ 0 < iv <= 1000) as (iv & -> & Hiv).
    { assert (aa = 0 \/ aa = 1) as [-> | ->] by (specialize (Hc eq_refl); lia); eexists; (split; [done|]); unfold TCP_TMR_INTERVAL, IP_TMR_INTERVAL; lia. }
    set (s1 := (s <| called := _ |>) <| tenv := _ |>). assert (Hnow : sys_now (tenv s1) = now) by (unfold s1; cbn; unfold cyclic_handler; destruct (_ =? _); [apply C1|apply C2]).
    assert (HP1 : P (tenv s1)) by (unfold s1; cbn; unfold cyclic_handler; destruct (_ =? _); auto).
    rewrite Hnow. change (current_timeout_due_time s1) with (current_timeout_due_time s). rewrite Hcur.
    assert (Hstep : forall nxt, (late now (mk_timeo nxt H_lwip_cyclic_timer aa ad) < late now (mk_timeo tt H_lwip_cyclic_timer aa ad))%nat ->
      exists s', sys_timeout_abs nxt H_lwip_cyclic_timer aa s1 = Some s' /\ tm_ok s' /\ P (tenv s') /\ sys_now (tenv s') = now /\ (lates now (next_timeout s') < late now (mk_timeo tt H_lwip_cyclic_timer aa ad) + lates now rest)%nat).
    { intros nxt Hlt. destruct (rearm_ok nxt H_lwip_cyclic_timer aa ad ps s1) as (s' & E & K1 & K2 & K3); try done; try (change (next_timeout s1) with (next_timeout s); by rewrite Hnext).
      { change (next_timeout s1) with (next_timeout s). change (tcpip_tcp_timer_active s1) with (tcpip_tcp_timer_active s). rewrite Hnext, <- Hk. cbn. solve_Permutation. }
      exists s'. rewrite K2, K3. split_and!; try done. rewrite lates_insert. change (next_timeout s1) with (next_timeout s). rewrite Hnext. lia. }
    destruct (TIME_LESS_THAN (u32 (tt + iv)) now) eqn:EL; apply Hstep; [rewrite Hfar by lia; lia|].
    unfold late, TIME_LESS_THAN, LWIP_MAX_TIMEOUT in *. cbn [time]. rewrite Hdue. bprop.
    destruct (Z.ltb_spec 2147483647 (u32 (now - u32 (tt + iv)))), (Z.eqb_spec (u32 (u32 (tt + iv) - now)) 0), (Z.eqb_spec (u32 (tt - now)) 0); try lia; zlia.
  - assert (Hx : H_other id ∈ H_lwip_cyclic_timer :: (if tcpip_tcp_timer_active s then [H_tcpip_tcp_timer] else [])) by (rewrite <- Hk; cbn; left).
    destruct (tcpip_tcp_timer_active s); repeat (apply elem_of_cons in Hx as [Hx|Hx]; [discriminate Hx|]); by apply elem_of_nil in Hx.
Qed.

Lemma check_total P now : handlers_keep P -> clock_stops -> is_u32 now ->
  forall fuel s, sys_now (tenv s) = now -> tm_ok s -> P (tenv s) -> (lates now (next_timeout s) < fuel)%nat ->
  exists s', check_loop fuel now s = Some s' /\ tm_ok s' /\ P (tenv s') /\ sys_now (tenv s') = now.
Proof.
  intros Hst Hcl Hu. induction fuel as [|fuel IH]; intros s Hnow Hok HP Hf; [lia|]. cbn [check_loop].
  set (s0 := s <| tenv := _ |>). assert (Hn0 : sys_now (tenv s0) = now) by (unfold s0; cbn; destruct Hcl as (_ & _ & -> & _); done).
  assert (HP0 : P (tenv s0)) by (by apply Hst). assert (Hok0 : tm_ok s0) by (by destruct Hok). change (next_timeout s0) with (next_timeout s). destruct (next_timeout s) as [|t l] eqn:El; [by exists s0|].
  destruct (TIME_LESS_THAN now (time t)) eqn:Ed; [by exists s0|]. destruct Hok as [K1 K2 K3 K4]. rewrite El in K1, K2, K4. pose proof K2 as [(Ht1 & Ht2 & Ht3) Hl]%Forall_cons.
  set (s1 := (s0 <| next_timeout := l |>) <| current_timeout_due_time := time t |>). pose proof Ht3 as Ha0%Z.eqb_neq. unfold memp_free, do_memp_free_pool, MEM_ALIGNMENT. rewrite Ha0, Ht2. cbn [Z.eqb].
  set (s2 := s1 <| tpools := _ |>). assert (Hp2 : tpools s2 MEMP_SYS_TIMEOUT = addr t :: tpools s MEMP_SYS_TIMEOUT) by (unfold s2; cbn; rewrite set_tab_eq; unfold MEMP_SIZE; by rewrite Z.sub_0_r).
  destruct (handler_total P t s2 l (tpools s MEMP_SYS_TIMEOUT)) as (s3 & -> & H1 & H2 & H3 & H4); try done; try (change (sys_now (tenv s2)) with (sys_now (tenv s0)); by rewrite Hn0).
  { by constructor. } { cbn in K4. lia. }
  change (sys_now (tenv s2)) with (sys_now (tenv s0)) in *. rewrite Hn0 in *. apply IH; [done|done|done|]. change (lates now (t :: l)) with (late now t + lates now l)%nat in Hf. lia.
Qed.

(** [tcp_timer_needed] finds a free structure. *)
Lemma timer_check_total b s : tm_ok s -> exists s', tcp_timer_check b s = Some s' /\ tm_ok s' /\ tenv s' = tenv s.
Proof.
  intros Hok. unfold tcp_timer_check. destruct (negb _ && b) eqn:Eb; [|by exists s]. apply andb_prop in Eb as [Ea%negb_true_iff _]. destruct Hok as [K1 K2 K3 K4]. rewrite Ea in K1.
  assert (Hl : length (next_timeout s) = 1%nat) by (rewrite <- (length_map h), (Permutation_length K1); done). destruct (tpools s MEMP_SYS_TIMEOUT) as [|p ps] eqn:Ep; [cbn in K4; lia|].
  unfold sys_timeout. rewrite (proj2 (Z.leb_le _ _)) by (vm_compute; congruence). set (s1 := s <| tcpip_tcp_timer_active := true |>).
  destruct (rearm_ok (u32 (sys_now (tenv s1) + TCP_TMR_INTERVAL)) H_tcpip_tcp_timer 0 p ps s1) as (s' & E & H1 & H2 & _); try done; [unfold s1; cbn; by rewrite K1|unfold s1; cbn; lia|]. exists s'. by split_and!.
Qed.

Lemma timer_calls_total l : forall s, tm_ok s -> exists s', run_timer_calls l s = Some s' /\ tm_ok s' /\ tenv s' = tenv s.
Proof.
  induction l as [|b l IH]; intros s Hs; cbn [run_timer_calls]; [by exists s|]. destruct (timer_check_total b s Hs) as (s1 & -> & H1 & E1). destruct (IH s1 H1) as (s2 & -> & H2 & E2). exists s2. split_and!; [done|done|congruence].
Qed.

Lemma restart_ok s : tm_ok s -> tm_ok (sys_restart_timeouts s) /\ tenv (sys_restart_timeouts s) = tenv s.
Proof.
  intros Hs. unfold sys_restart_timeouts. destruct (next_timeout s) as [|t l] eqn:El; [done|]. split; [|done]. destruct Hs as [K1 K2 K3 K4]. rewrite El in *. split; cbn -[map]; try done.
  - rewrite <- K1. by rewrite map_map.
  - clear - K2. induction K2 as [|u k Hu Hk IH]; [constructor|]. constructor; [exact Hu|exact IH].
  - cbn [length map] in *. by rewrite length_map.
Qed.
End Shape.

(** ** Listeners and the network *)
#[export] Instance stacked_net : Stacked net := tcp.
#[export] Instance stacked_sys : Stacked sys := fun Y => tcp (nw Y).
#[export] Instance stacked_sys_pair {A} : Stacked (A * sys) := fun r => tcp (nw r.2).

Section Lwip.
Context {o : Opts}.

Lemma deliver_lk4 recv p hl src dest inp n Y : lk (tcp (nw Y)) (ip4_deliver recv p hl src dest inp n Y).
Proof.
  unfold ip4_deliver. destruct (raw_input _ _ _ _) as [[st l] R]. cbv zeta.
  destruct st; try (cbn; done); destruct (_ =? IP_PROTO_TCP); try (cbn; done); (eapply lk_bind; [apply tcp_input_lk|]; intros t; cbn; done).
Qed.

Lemma ip4_input_lk recv p inp Y : lk (tcp (nw Y)) (ip4_input recv p inp Y).
Proof.
  unfold ip4_input. destruct (negb _); [cbn; done|]. apply lk_read. intros [p' fr]. cbv zeta. destruct (_ || _ || _); [cbn; done|]. destruct (negb _); [cbn; done|]. apply lk_read. intros n.
  destruct (_ || _); [cbn; done|]. destruct (negb _); [cbn; done|]. destruct (negb _).
  - apply lk_read. intros [[d|] ra']; [|cbn; done]. eapply lk_bind; [eapply lk_pre; [|apply deliver_lk4]; cbn; done|]. intros Y'. cbn. done.
  - eapply lk_bind; [eapply lk_pre; [|apply deliver_lk4]; cbn; done|]. intros Y'. cbn. done.
Qed.

(** ** Starting *)
Definition tun_nif (r k : Z) : nif :=
  mk_nif (IP4_ADDR 198 18 0 1) (IP4_ADDR 255 255 0 0) (IP4_ADDR 0 0 0 0) true DriverOutput r TUNFORGE_NETIF_IPV4_MTU (Z.lor NETIF_FLAG_UP NETIF_FLAG_LINK_UP) (84, 70) k.

Lemma set_default_ok a N : net_ok N -> net_ok (netif_set_default a N).
Proof. by intros []. Qed.

Lemma netif_setup_ok r n0 N : net_ok N -> netif_list N = [] -> nifs N !! TUN = Some n0 ->
  exists N' k, tunforge_netif_setup r N = Ok N' /\ net_ok N' /\ netif_list N' = [TUN] /\ nifs N' !! TUN = Some (tun_nif r k) /\ netif_default N' = TUN
  /\ tcp N' = tcp N /\ raw N' = raw N /\ 0 <= k <= 254.
Proof.
  intros HN Hl E0. unfold tunforge_netif_setup. cbv zeta.
  pose proof (netif_add_facts TUN (Some (IP4_ADDR 198 18 0 1)) (Some (IP4_ADDR 255 255 0 0)) (Some (IP4_ADDR 0 0 0 0)) r tunforge_netif_init true n0 N HN ltac:(done)) as F.
  rewrite Hl in F. specialize (F ltac:(by apply not_elem_of_nil) E0 ltac:(by vm_compute) ltac:(done)). cbn [tunforge_netif_init] in F. destruct F as (rr & N1 & -> & H1 & H2 & H3 & H4 & _ & H5). change (err_ok ERR_OK) with true in H5. destruct H5 as (-> & Hl1 & k & Hk & _ & En).
  change (_ <| n_num := k |>) with (tun_nif r k) in En. cbn [rbind]. change (negb (TUN =? 0)) with true. cbn match. unfold getn at 1. rewrite En. cbn [rbind]. change (n_input (tun_nif r k)) with true. cbn match.
  unfold netif_set_up, netif_set_link_up, getn. change (TUN =? 0) with false. cbn match. rewrite En. cbn [rbind]. change (flag_set (n_flags (tun_nif r k)) NETIF_FLAG_UP) with true. cbn [negb rbind]. rewrite En. cbn [rbind]. change (flag_set (n_flags (tun_nif r k)) NETIF_FLAG_LINK_UP) with true. cbn [negb rbind].
  exists (netif_set_default TUN N1), k. split_and!; try done; [by apply set_default_ok|lia|lia].
Qed.

Lemma bind_lk a i p S : lk S (tcp_bind a i p S).
Proof.
  unfold tcp_bind. apply lk_read. intros c. destruct (negb _); [cbn; done|]. eapply (lk_bind _ (if p =? 0 then _ else _)).
  - destruct (p =? 0); [|apply lk_read; intros ps; cbn; done]. eapply lk_bind; [unfold tcp_new_port; apply lk_read; intros ps; apply lk_read; intros [r q]; cbn; done|]. intros [q S1]. cbn. done.
  - intros [[e|q] S1]; [cbn; done|]. cbn [stack_of stacked_pair snd]. eapply lk_bind; [apply updc_lk|]. intros S2. eapply lk_bind; [by apply reg_lk|]. intros S3. cbn. done.
Qed.

Lemma bind_live a i p S e S' : tcp_bind a i p S = Ok (e, S') -> err_ok e = true -> is_Some (pcbs S' !! a).
Proof.
  unfold tcp_bind. intros (c & Ec & H)%rbind_Ok. unfold get in Ec. destruct (pcbs S !! a) as [c'|] eqn:E; [|done]. injection Ec as ->. destruct (negb _); [by injection H as <- <-|].
  apply rbind_Ok in H as ([r S1] & Hr & H). destruct r as [e'|q].
  { injection H as <- <-. assert (He : e' = ERR_BUF \/ e' = ERR_USE); [|by destruct He as [-> | ->]].
    destruct (p =? 0); apply rbind_Ok in Hr as (v & _ & Hr); [destruct v as [q S2]|]; injection Hr as Hr _; revert Hr; [destruct (q =? 0)|destruct (existsb _ _)]; intros [= <-]; auto. }
  intros _. apply rbind_Ok in H as (S2 & H2 & H). apply rbind_Ok in H as (S3 & H3 & H). injection H as <- <-.
  unfold updc, upd in H2. apply rbind_Ok in H2 as (d & _ & H2). injection H2 as <-. unfold TCP_REG in H3. destruct (live _ _ _); [|done]. injection H3 as <-. cbn. rewrite lookup_insert_eq. by eexists.
Qed.

Lemma listen_facts a bl S l e S' : tcp_listen_with_backlog_and_err a bl S = Ok (l, e, S') -> err_ok e = true -> tcp_listen_pcbs S = [] ->
  tcp_listen_pcbs S' = [l] /\ is_Some (lpcbs S' !! l).
Proof.
  unfold tcp_listen_with_backlog_and_err. intros (c & _ & H)%rbind_Ok He Hl. destruct (negb _); [by injection H as <- <- <-|]. destruct (lpcb_pool S) as [|x rest] eqn:Ep; [by injection H as <- <- <-|].
  cbv zeta in H. set (S0 := S <| lpcb_pool := rest |>) in *. apply rbind_Ok in H as (S1 & H1 & H). apply rbind_Ok in H as (S2 & H2 & H). apply rbind_Ok in H as (S3 & H3 & H). injection H as <- <- <-.
  assert (K1 : lk S0 (Ok S1)) by (rewrite <- H1; destruct (negb _); [by apply rmv_lk|cbn; done]). assert (K2 : lk S1 (Ok S2)) by (rewrite <- H2; apply free_lk).
  cbn in K1, K2. assert (Hl2 : tcp_listen_pcbs S2 = []). { apply Permutation_nil_r. rewrite (lk_list _ _ K2), (lk_list _ _ K1). change (tcp_listen_pcbs S0) with (tcp_listen_pcbs S). by rewrite Hl. }
  unfold TCP_REG in H3. destruct (live _ _ _); [|done]. injection H3 as <-. cbn. rewrite Hl2, lookup_insert_eq. split; [done|by eexists].
Qed.

Lemma lk_nil {A} `{Stacked A} S (r : res A) y : lk S r -> r = Ok y -> tcp_listen_pcbs S = [] -> tcp_listen_pcbs (stack_of y) = [].
Proof. intros H1 -> Hl. apply Permutation_nil_r. rewrite (lk_list _ _ H1). by rewrite Hl. Qed.

Lemma tcp_ok t N : net_ok N -> safe t -> net_ok (N <| tcp := t |>).
Proof. intros [] Ht. by split. Qed.

(** The listener of a started stack. *)
Definition listens (lp : Z) (S : stack) : Prop :=
  tcp_listen_pcbs S = [lp] /\ lp <> 0 /\ exists l, lpcbs S !! lp = Some l /\ TcpStack.accept l = AcceptApp.

Lemma setup_ok r n0 N : net_ok N -> netif_list N = [] -> nifs N !! TUN = Some n0 -> tcp_listen_pcbs (tcp N) = [] ->
  post (setup_lwip r N) (fun '(lp, N') => net_ok N' /\ netif_list N' = [TUN] /\ (exists k, nifs N' !! TUN = Some (tun_nif r k)) /\ netif_default N' = TUN /\ listens lp (tcp N')).
Proof.
  intros HN Hl E0 Ht. unfold setup_lwip. destruct (netif_setup_ok r n0 N HN Hl E0) as (N1 & k & -> & H1 & L1 & E1 & D1 & T1 & R1 & Hk). cbn [rbind].
  rewrite (updn_setn TUN _ (tun_nif r k)) by done. cbn [rbind]. change (_ <| n_state := r |> <| n_output := DriverOutput |>) with (tun_nif r k). rewrite setn_id by done. cbv zeta. set (N2 := netif_set_default TUN N1).
  assert (H2 : net_ok N2) by (by apply set_default_ok). assert (Ht2 : tcp_listen_pcbs (tcp N2) = []) by (change (tcp N2) with (tcp N1); by rewrite T1).
  eapply post_bind; [eapply (post_ok _ _ (fun '(a, T) => (safe T /\ tcp_listen_pcbs T = []) /\ (a = 0 \/ exists c, pcbs T !! a = Some c /\ local_port (core c) = 0))); [apply (alloc_ok (ip := net_ip N2)); apply H2|]|].
  { intros [a T] E [[Hs _] Ha]. split; [split; [done|]|destruct Ha as [?|(_ & c & Ec & _ & Hp & _)]; eauto]. exact (lk_nil _ _ _ (alloc_lk (ip := net_ip N2) TCP_PRIO_NORMAL (tcp N2)) E Ht2). }
  intros [a S1] [[S1s S1l] Ha]. cbn beta iota. destruct (Z.eqb_spec a 0) as [|Hn]; [done|]. cbn [negb]. destruct Ha as [|(c & Ec & Hp)]; [done|].
  eapply post_bind; [eapply (post_ok _ _ (fun '(e, T) => safe T /\ tcp_listen_pcbs T = [] /\ (err_ok e = true -> is_Some (pcbs T !! a)))); [by apply (bind_ok a c)|]|].
  { intros [e S2] E S2s. split_and!; [done|exact (lk_nil _ _ _ (bind_lk a IPADDR_ANY 0 S1) E S1l)|by apply (bind_live _ _ _ _ _ _ E)]. }
  intros [e S2] (S2s & S2l & S2a). cbn beta iota. destruct (err_ok e); [|done]. specialize (S2a eq_refl).
  eapply post_bind; [eapply (post_ok _ _ (fun '(lp, e, T) => safe T /\ (err_ok e = true -> tcp_listen_pcbs T = [lp] /\ is_Some (lpcbs T !! lp)))); [by apply listen_ok|]|].
  { intros [[lp e3] S3] E S3s. split; [done|]. intros He. by apply (listen_facts _ _ _ _ _ _ E He). }
  intros [[lp e3] S3] [S3s S3l]. cbn beta iota. destruct (err_ok e3); [|done]. destruct (S3l eq_refl) as [L3 [l El]].
  pose proof (run_op_ok (ip := net_ip N2) (OpAccept lp AcceptApp) S3 S3s) as Ho. cbn [allowed run_op] in Ho. specialize (Ho ltac:(apply bool_decide_eq_true; by exists l)).
  unfold tcp_accept, getl in *. rewrite El in *. cbn [rbind post] in *. split_and!; [by apply tcp_ok|done|by exists k|done|]. split; [done|]. split.
  - intros ->. destruct (sn_listen _ _ (proj1 S3s)) as (_ & _ & H0). congruence.
  - eexists. cbn. split; [apply lookup_insert_eq|done].
Qed.

(** ** Stopping *)
Lemma remove_listener_lk lp l : forall S, lk S (tcp_remove_listener l lp S).
Proof. induction l as [|a l IH]; intros S; cbn [tcp_remove_listener]; [cbn; done|]. eapply lk_bind; [apply upd_lk|]. intros S1. apply IH. Qed.

Lemma close_listener_ok lp N : net_ok N -> listens lp (tcp N) ->
  post (close_listener lp N) (fun '(_, N') => net_ok N' /\ same_nifs N N' /\ tcp_listen_pcbs (tcp N') = []).
Proof.
  intros HN (Hl & Hz & l & El & _). unfold close_listener. pose proof (run_op_ok (ip := net_ip N) (OpAccept lp AcceptNULL) (tcp N) (no_tcp _ HN)) as Ho. cbn [allowed run_op] in Ho. specialize (Ho ltac:(apply bool_decide_eq_true; by exists l)).
  unfold tcp_accept, getl in *. rewrite El in *. cbn [rbind post] in *. set (S1 := putl lp _ (tcp N)) in *.
  eapply post_bind; [eapply (post_ok _ _ (fun S => safe S /\ tcp_listen_pcbs S = [])); [apply close_listen_ok; [done|unfold S1; cbn; rewrite lookup_insert_eq; by eexists]|]|].
  - intros S2 E S2s. split; [done|]. unfold tcp_close_listen in E. apply rbind_Ok in E as (l2 & _ & E). apply rbind_Ok in E as (S3 & E3 & E). apply rbind_Ok in E as (S4 & E4 & E). injection E as <-.
    assert (K3 : lk S1 (Ok S3)). { rewrite <- E3. unfold tcp_listen_closed. eapply lk_bind; [apply remove_listener_lk|]. intros A. eapply lk_bind; [apply remove_listener_lk|]. intros B. apply remove_listener_lk. }
    assert (Hl3 : tcp_listen_pcbs S3 = [lp]). { apply Permutation_singleton_r. rewrite (lk_list _ _ K3). unfold S1. cbn. by rewrite Hl. }
    unfold TCP_RMV in E4. destruct (live _ _ _); [|done]. cbn [get_list] in E4. rewrite Hl3 in E4. cbn in E4. rewrite Z.eqb_refl in E4. injection E4 as <-. cbn. by destruct (l_ext_args l2).
  - intros S2 [S2s S2l]. cbn. split_and!; try done. by apply tcp_ok.
Qed.

Lemma no_listener S S' : safe S -> safe S' -> tcp_listen_pcbs S = [] -> (forall x, is_Some (lpcbs S' !! x) -> is_Some (lpcbs S !! x)) -> tcp_listen_pcbs S' = [].
Proof.
  intros [H1 _] [H2 _] Hl Hd. apply elem_of_nil_inv. intros x Hx. apply (sn_listen _ _ H2), Hd, (sn_listen _ _ H1) in Hx. rewrite Hl in Hx. by apply elem_of_nil in Hx.
Qed.

Lemma set_down_eq n N : nifs N !! TUN = Some n -> netif_set_down TUN N = Ok (setn TUN (if netif_is_up n then netif_clear_flags NETIF_FLAG_UP n else n) N).
Proof.
  intros E. unfold netif_set_down, getn. change (TUN =? 0) with false. cbn match. rewrite E. cbn [rbind]. fold (netif_is_up n). destruct (netif_is_up n); [by rewrite (updn_setn TUN _ n)|by rewrite setn_id].
Qed.

Lemma remove_netif_ok n N : net_ok N -> nifs N !! TUN = Some n -> netif_list N = [] \/ netif_list N = [TUN] -> tcp_listen_pcbs (tcp N) = [] ->
  post (remove_netif (n_state n) N) (fun '(_, N') => net_ok N' /\ netif_list N' = [] /\ (exists n', nifs N' !! TUN = Some n' /\ n_state n' = 0) /\ tcp_listen_pcbs (tcp N') = []).
Proof.
  intros HN E Hl Ht. unfold remove_netif, getn. rewrite E. cbn [rbind]. rewrite Z.eqb_refl, (set_down_eq n) by done. cbn [rbind]. set (n1 := if netif_is_up n then _ else n).
  assert (H1 : net_ok (setn TUN n1 N)) by (apply (setn_keep TUN n); [done|done|unfold n1; by destruct (netif_is_up n)]).
  eapply post_bind; [apply (netif_remove_ok TUN n1); [done|apply nifs_setn|done]|]. intros N2 (H2 & L2 & _ & A2 & E2). change (nifs (setn TUN n1 N)) with (<[TUN := n1]> (nifs N)) in E2.
  set (n2 := if netif_is_up n1 then _ else n1) in *. rewrite (updn_setn TUN _ n2) by (by rewrite E2, lookup_insert_eq). cbn [rbind post].
  assert (H3 : net_ok (setn TUN (n2 <| n_state := 0 |>) N2)) by (apply (setn_keep TUN n2); [done|by rewrite E2, lookup_insert_eq|done]). split_and!; [done| | |].
  - cbn. rewrite L2. cbn. by destruct Hl as [-> | ->].
  - eexists. split; [apply nifs_setn|done].
  - change (tcp (setn TUN (n2 <| n_state := 0 |>) N2)) with (tcp N2). destruct A2 as [_ A2]. destruct (n_ip_addr n1 =? IPADDR_ANY); [change (tcp (setn TUN n1 N)) with (tcp N) in A2; congruence|].
    apply (no_listener (tcp N)); [apply HN|apply A2|done|]. intros x Hx. pose proof (mv_listen _ _ _ _ A2 x) as Hm. change (tcp (setn TUN n1 N)) with (tcp N) in Hm. destruct (lpcbs (tcp N) !! x); [by eexists|]. destruct Hx as [y Hy]. by rewrite Hy in Hm.
Qed.

(** ** A connection *)
Lemma run_conn_ok a k N : net_ok N -> post (run_conn a k N) (fun '(_, N') => net_ok N' /\ same_nifs N N' /\ raw N' = raw N /\ lkeep (tcp N) (tcp N')).
Proof.
  intros HN. unfold run_conn. cbv zeta. set (x := match k with CCall k => _ | _ => _ end). destruct (allowed x (tcp N)) eqn:Ea; [|cbn; by split_and!].
  eapply post_bind; [eapply (post_ok _ _ (fun t => safe t /\ lkeep (tcp N) t)); [apply run_op_ok; [apply HN|done]|]|intros t [H1 H2]; cbn; split_and!; try done; by apply tcp_ok].
  intros t E Ht. split; [done|]. assert (K : lk (tcp N) (run_op (ip := net_ip N) x (tcp N))); [|by rewrite E in K].
  unfold x. destruct k; cbn [run_op]; [apply run_call_lk| | |apply abort_lk]; (eapply lk_bind; [apply shutdown_lk || apply close_lk|]; intros [e T]; cbn; done).
Qed.

(** ** The timers *)
Lemma free_ooseq_ok l : forall S, safe S -> (forall a, a ∈ l -> is_Some (pcbs S !! a)) -> post (free_ooseq_walk l S) (fun S' => safe S' /\ lkeep S S').
Proof.
  induction l as [|a l IH]; intros S Hs Hl; cbn [free_ooseq_walk]; [cbn; done|]. destruct (Hl a ltac:(left)) as [c E]. unfold get. rewrite E. cbn [rbind]. destruct (negb _).
  - eapply post_when; [|apply (updc_lk a tcp_free_ooseq S)]. eapply post_mono; [apply (updc_mild Stay); [by exists c|]|intros S' M; by eapply safe_mild]. intros p. by split_and!.
  - apply IH; [done|]. intros b Hb. apply Hl. by right.
Qed.
End Lwip.

(** ** The invariant *)
Section Tun.
Context {o : Opts}.

Record running (w : tun) (N : net) (r lp k : Z) : Prop := {
  rn_ready : s_ready (self w) = true;
  rn_ref : s_stackRef (self w) = r;
  rn_state : s_state (self w) = r;
  rn_lp : s_listener (self w) = lp;
  rn_refs : refs w = {[r := mk_ref true 2]};
  rn_nz : r <> 0;
  rn_arg : listener_arg w = r;
  rn_list : netif_list N = [TUN];
  rn_nif : nifs N !! TUN = Some (tun_nif r k);
  rn_default : netif_default N = TUN;
  rn_listens : listens lp (tcp N) }.

Record stopped (w : tun) (N : net) : Prop := {
  st_ready : s_ready (self w) = false;
  st_state : s_state (self w) = 0;
  st_lp : s_listener (self w) = 0;
  st_arg : listener_arg w = 0;
  st_refs : s_stackRef (self w) = 0 /\ refs w = ∅ \/ s_stackRef (self w) <> 0 /\ refs w = {[s_stackRef (self w) := mk_ref true 1]};
  st_list : netif_list N = [];
  st_nif : exists n, nifs N !! TUN = Some n /\ n_state n = 0;
  st_listen : tcp_listen_pcbs (tcp N) = [] }.

Definition phase (w : tun) (N : net) : Prop := stopped w N \/ exists r lp k, running w N r lp k.

(** [B] are the buffers of the pool. *)
Record tun_at (B : list Z) (w : tun) (Y : sys) : Prop := {
  ta_sys : mc_sys (tenv (tm w)) = Ok Y;
  ta_ok : sys_ok Y;
  ta_freed : freed (ra Y) = [];
  ta_bufs : pbufs w ++ bufs Y ≡ₚ B;
  ta_phase : phase w (nw Y) }.

Record tun_ok (B : list Z) (w : tun) : Prop := {
  tn_tm : tm_ok (tm w);
  tn_clock : is_u32 (clock (tenv (tm w)));
  tn_next : 0 < next_ref w /\ forall x, is_Some (refs w !! x) -> x < next_ref w;
  tn_sys : exists Y, tun_at B w Y }.

(** What the network does by itself. *)
Record quiet (Y0 Y : sys) : Prop := {
  qu_ok : sys_ok Y;
  qu_lk : lkeep (tcp (nw Y0)) (tcp (nw Y));
  qu_nifs : same_nifs (nw Y0) (nw Y);
  qu_bufs : bufs Y ≡ₚ bufs Y0 }.

Definition same_self (w w' : tun) : Prop := self w' = self w /\ refs w' = refs w /\ next_ref w' = next_ref w /\ listener_arg w' = listener_arg w.

Lemma still_listens lp S S' : listens lp S -> lkeep S S' -> listens lp S'.
Proof.
  intros (H1 & H2 & l & H3 & H4) [K1 K2 K3 K4]. split; [|split; [done|]].
  - apply Permutation_singleton_r. by rewrite K1, H1.
  - specialize (K2 lp). rewrite H3 in K2. destruct (lpcbs S' !! lp) as [l'|]; [|done]. exists l'. split; [done|]. injection K2 as K2. destruct l', l. unfold still in K2. cbn in *. congruence.
Qed.

Lemma phase_keep w w' N N' : same_self w w' -> same_nifs N N' -> lkeep (tcp N) (tcp N') -> phase w N -> phase w' N'.
Proof.
  intros (E1 & E2 & E3 & E4) (S1 & S2 & S3 & S4) Hk [[]|(r & lp & k & [])].
  - left. split; rewrite ?E1, ?E2, ?E4, ?S1, ?S2; try done. apply Permutation_nil_r. rewrite (lk_list _ _ Hk). by rewrite st_listen0.
  - right. exists r, lp, k. split; rewrite ?E1, ?E2, ?E4, ?S1, ?S2, ?S3; try done. by eapply still_listens.
Qed.

Lemma on_sys_ok {R} (f : sys -> res (R * sys)) w Y (Q : R -> sys -> Prop) : tm_ok (tm w) -> mc_sys (tenv (tm w)) = Ok Y -> post (f Y) (fun '(r, Y') => Q r Y') ->
  post (on_sys f w) (fun '(r, w') => exists Y', Q r Y' /\ mc_sys (tenv (tm w')) = Ok Y' /\ tm_ok (tm w') /\ clock (tenv (tm w')) = clock (tenv (tm w)) /\ same_self w w' /\ pbufs w' = pbufs w).
Proof.
  intros Ht E Hf. unfold on_sys. rewrite E. cbn [rbind]. eapply post_bind; [exact Hf|]. intros [r Y'] HQ. cbn beta iota. cbv zeta. set (w1 := set_sys Y' w).
  destruct (timer_calls_total (timer_calls (tcp (nw Y)) (tcp (nw Y'))) (tm w1)) as (t & -> & H1 & H2); [by destruct Ht|]. cbn [sure rbind post]. exists Y'. cbn. rewrite H2. by split_and!.
Qed.

Lemma tun_clock_stops : clock_stops (te := tun_env).
Proof. split_and!; try done. intros e. cbn. by destruct (ooseq_pending e). Qed.

Lemma quiet_refl Y : sys_ok Y -> quiet Y Y.
Proof. by split. Qed.

Definition quiet_m (Y0 : sys) (m : machine) : Prop := post (mc_sys m) (quiet Y0).

Lemma step_quiet Y0 f m : (forall Y, sys_ok Y -> post (f Y) (quiet Y)) -> quiet_m Y0 m -> quiet_m Y0 (step_sys f m).
Proof.
  unfold quiet_m, step_sys. intros Hf Hm. cbn. eapply post_bind; [exact Hm|]. intros Y [H1 H2 H3 H4]. eapply post_mono; [by apply Hf|]. intros Y' [K1 K2 K3 K4]. split; [done|by etransitivity| |by rewrite K4].
  destruct H3 as (A1 & A2 & A3 & A4), K3 as (B1 & B2 & B3 & B4). split_and!; congruence.
Qed.

Lemma on_tcp_quiet f Y : sys_ok Y -> post (f (tcp (nw Y))) (fun t => safe t /\ lkeep (tcp (nw Y)) t) -> post (on_tcp f Y) (quiet Y).
Proof. intros [H1 H2] Hf. unfold on_tcp. eapply post_bind; [exact Hf|]. intros t [K1 K2]. cbn. split; try done. split; [by apply tcp_ok|done]. Qed.

Lemma quiet_stable Y0 : handlers_keep (te := tun_env) (quiet_m Y0).
Proof.
  split.
  - intros e. cbn. apply step_quiet. intros Y HY. apply on_tcp_quiet; [done|]. apply post_when; [apply tmr_safe, HY|apply tmr_lk].
  - intros e. cbn. apply step_quiet. intros Y HY. destruct (ip_reass_tmr_ok rd_wf rd_wf_timer (ra Y) (so_reass _ HY)) as (r & -> & H1 & H2 & _). cbn. split; try done; [split; [apply HY|done]|]. unfold bufs. cbn. by rewrite H2.
  - intros e He. cbn. destruct (ooseq_pending e); [|done]. apply step_quiet; [|exact He]. intros Y HY. apply on_tcp_quiet; [done|]. apply free_ooseq_ok; [apply HY|]. intros a Ha.
    destruct (sn_active _ _ (proj1 (no_tcp _ (so_net _ HY))) a Ha) as (c & E & _). by exists c.
  - done.
Qed.

(** All of the invariant but for where the freed buffers are. *)
Record loose (B : list Z) (w : tun) (Y : sys) : Prop := {
  lo_tm : tm_ok (tm w);
  lo_clock : is_u32 (clock (tenv (tm w)));
  lo_next : 0 < next_ref w /\ forall x, is_Some (refs w !! x) -> x < next_ref w;
  lo_sys : mc_sys (tenv (tm w)) = Ok Y;
  lo_ok : sys_ok Y;
  lo_bufs : pbufs w ++ bufs Y ≡ₚ B;
  lo_phase : phase w (nw Y) }.

Lemma loose_tun B w Y : loose B w Y -> freed (ra Y) = [] -> tun_ok B w.
Proof. intros [] Hf. split; try done. by exists Y. Qed.

Lemma tun_loose B w : tun_ok B w -> exists Y, loose B w Y /\ freed (ra Y) = [].
Proof. intros [? ? ? [Y []]]. by exists Y. Qed.

Lemma recycle_ok B w Y : loose B w Y -> exists w', recycle w = Ok w' /\ tun_ok B w'.
Proof.
  intros [H1 H2 H3 H4 H5 H6 H7]. unfold recycle. rewrite H4. cbn [rbind]. eexists. split; [done|]. eapply (loose_tun _ _ (Y <| ra := (ra Y) <| freed := [] |> |>)); [|done]. split; try done.
  - by destruct H1.
  - destruct H5 as [K1 K2]. split; [done|by apply free_inv].
  - rewrite <- H6. unfold bufs, Ip4FragFacts.held. cbn. rewrite app_nil_r. rewrite <- (Permutation_rev (freed (ra Y))). solve_Permutation.
  - eapply (phase_keep w _ (nw Y)); done.
Qed.

Lemma loose_step B w Y w' Y' : loose B w Y -> quiet Y Y' -> tm_ok (tm w') -> clock (tenv (tm w')) = clock (tenv (tm w)) -> same_self w w' -> pbufs w' = pbufs w -> mc_sys (tenv (tm w')) = Ok Y' -> loose B w' Y'.
Proof.
  intros [H1 H2 H3 H4 H5 H6 H7] [Q1 Q2 Q3 Q4] Ht Hc Hs Hp Hm. pose proof Hs as (E1 & E2 & E3 & E4). split; try done.
  - by rewrite Hc.
  - by rewrite E2, E3.
  - by rewrite Hp, Q4.
  - by eapply phase_keep.
Qed.

Lemma tick_ok B w : tun_ok B w -> post (tick w) (tun_ok B).
Proof.
  intros Hw. destruct (tun_loose B w Hw) as (Y & L & _). unfold tick. destruct (s_timer (self w)); [|done]. pose proof L as [H1 H2 H3 H4 H5 H6 H7].
  destruct (check_total (te := tun_env) (quiet_m Y) (clock (tenv (tm w))) (quiet_stable Y) tun_clock_stops H2 (S (2 * length (next_timeout (tm w)))) (tm w)) as (s & Es & K1 & K2 & K3); try done.
  { unfold quiet_m. rewrite H4. by apply quiet_refl. } { pose proof (lates_le (clock (tenv (tm w))) (next_timeout (tm w))). lia. }
  unfold sys_check_timeouts. change (@sys_now tun_env (tenv (tm w))) with (clock (tenv (tm w))). rewrite Es. cbn [sure rbind]. unfold quiet_m in K2. destruct (mc_sys (tenv s)) as [Y'| | |] eqn:Em; try done.
  - destruct (recycle_ok B (w <| tm := s |>) Y') as (w' & -> & Hw'); [|done]. by eapply loose_step.
  - unfold recycle. cbn. by rewrite Em.
Qed.

Lemma conn_ok B a k w : tun_ok B w -> post (on_sys (on_net (run_conn a k)) w) (fun '(_, w') => tun_ok B w').
Proof.
  intros Hw. destruct (tun_loose B w Hw) as (Y & L & Hf). eapply post_mono; [apply (on_sys_ok _ w Y (fun _ Y' => quiet Y Y' /\ freed (ra Y') = [])); [apply L|apply L|]|].
  - unfold on_net. eapply post_bind; [apply run_conn_ok, (lo_ok _ _ _ L)|]. intros [[] N'] (H1 & H2 & H3 & H4). cbn. split; [|done]. split; try done. split; [done|apply L].
  - intros [[] w'] (Y' & [HQ Hf'] & Hm & Ht & Hc & Hs & Hp). eapply (loose_tun B w' Y'); [|done]. by eapply loose_step.
Qed.

Lemma release_handed_ok B i w : tun_ok B w -> post (release_handed i w) (tun_ok B).
Proof.
  intros Hw. destruct (tun_loose B w Hw) as (Y & [H1 H2 H3 H4 H5 H6 H7] & Hf). unfold release_handed. rewrite H4. cbn [rbind]. destruct (handed Y !! i) as [p|] eqn:E; [|done]. cbn.
  eapply (loose_tun B _ (Y <| handed := take i (handed Y) ++ drop (S i) (handed Y) |>)); [|done]. split; try done.
  - by destruct H1.
  - by destruct H5.
  - rewrite <- H6. unfold bufs. cbn. assert (Hh : concat (map p_addrs (handed Y)) = concat (map p_addrs (take i (handed Y))) ++ p_addrs p ++ concat (map p_addrs (drop (S i) (handed Y)))) by (rewrite <- (take_drop_middle _ _ _ E) at 1; by rewrite map_app, concat_app).
    rewrite Hh, map_app, concat_app, <- (Permutation_rev (p_addrs p)). solve_Permutation.
  - by apply (phase_keep w _ (nw Y)).
Qed.

Lemma clock_ok B now w : tun_ok B w -> tun_ok B (set_clock now w).
Proof.
  intros Hw. destruct (tun_loose B w Hw) as (Y & [H1 H2 H3 H4 H5 H6 H7] & Hf). apply (loose_tun B _ Y); [|done]. split; try done; [by destruct H1|cbn; apply u32_range|by apply (phase_keep w _ (nw Y))].
Qed.
(** ** Starting *)
Lemma is_alive_some a r w : a <> 0 -> refs w !! a = Some r -> is_alive a w = Ok (r_alive r).
Proof. intros Ha%Z.eqb_neq E. unfold is_alive, getr. by rewrite Ha, E. Qed.

(** The bridge [start] uses is alive, and nobody else holds it. *)
Lemma ensure_ref B w Y : loose B w Y -> stopped w (nw Y) ->
  exists w', (let+ alive := is_alive (s_stackRef (self w)) w in if negb alive then new_stackRef w else Ok w) = Ok w'
  /\ loose B w' Y /\ stopped w' (nw Y) /\ s_stackRef (self w') <> 0 /\ refs w' = {[s_stackRef (self w') := mk_ref true 1]}.
Proof.
  intros L St. pose proof L as [H1 H2 [H3 H3'] H4 H5 H6 H7]. pose proof St as [K1 K2 K3 K4 [[E1 E2]|[E1 E2]] K6 K7 K8].
  - rewrite E1. cbn [is_alive Z.eqb rbind negb]. unfold new_stackRef, release. cbn [self refs setf]. rewrite E1. cbn [Z.eqb rbind]. eexists. split; [done|]. cbn. rewrite E2, insert_empty.
    assert (St' : stopped (w <| refs := {[next_ref w := mk_ref true 1]} |> <| next_ref := next_ref w + 1 |> <| self := (self w) <| s_stackRef := next_ref w |> |>) (nw Y)) by (split; cbn; try done; right; split; [lia|done]).
    split_and!; [|exact St'|lia|done]. split; try done; [|by left]. cbn. split; [lia|]. intros x [y Hx]. destruct (decide (x = next_ref w)) as [->|Hn]; [lia|]. by rewrite lookup_singleton_ne in Hx by done.
  - exists w. rewrite (is_alive_some _ (mk_ref true 1)) by (rewrite ?E2, ?lookup_singleton_eq; done). by split_and!.
Qed.

Lemma restart_loose B w Y b : loose B w Y -> loose B (w <| tm := sys_restart_timeouts (tm w) |> <| self := (self w) <| s_timer := b |> |>) Y.
Proof.
  intros [H1 H2 H3 H4 H5 H6 H7]. destruct (restart_ok _ H1) as [R1 R2]. split; cbn; rewrite ?R2; try done. destruct H7 as [[]|(r & lp & k & [])]; [left|right; exists r, lp, k]; by split.
Qed.

Lemma setup_locked_ok B w Y : loose B w Y -> freed (ra Y) = [] -> stopped w (nw Y) -> s_stackRef (self w) <> 0 -> refs w = {[s_stackRef (self w) := mk_ref true 1]} ->
  post (setupLockedOnLWIPQueue w) (fun w' => tun_ok B w' /\ s_timer (self w') = s_timer (self w) /\ exists Y' lp k, mc_sys (tenv (tm w')) = Ok Y' /\ running w' (nw Y') (s_stackRef (self w)) lp k).
Proof.
  intros L Hf [K1 K2 K3 K4 K5 K6 (n & K7 & K7') K8] Hr Er. pose proof L as [H1 H2 [H3 H3'] H4 H5 H6 H7]. unfold setupLockedOnLWIPQueue. rewrite K1. cbn [negb].
  unfold retain, getr. cbn [self refs s_stackRef setf]. rewrite Er, lookup_singleton_eq. cbn [rbind]. cbv zeta. set (r := s_stackRef (self w)) in *.
  set (w1 := (w <| self := _ |> <| refs := _ |>) <| self := _ |>). eapply post_bind.
  - apply (on_sys_ok _ w1 Y (fun lp Y' => sys_ok Y' /\ bufs Y' = bufs Y /\ freed (ra Y') = [] /\ netif_list (nw Y') = [TUN] /\ (exists k, nifs (nw Y') !! TUN = Some (tun_nif r k)) /\ netif_default (nw Y') = TUN /\ listens lp (tcp (nw Y')))); [done|done|].
    unfold on_net. eapply post_bind; [apply (setup_ok r n); [apply H5|done|done|done]|]. intros [lp N'] (A1 & A2 & A3 & A4 & A5). cbn. split_and!; try done. split; [done|apply H5].
  - intros [lp w2] (Y' & (A1 & A2 & A3 & A4 & [k A5] & A6 & A7) & Hm & Ht & Hc & (S1 & S2 & S3 & S4) & Hp). cbn [post].
    assert (Hrefs : refs w1 = {[r := mk_ref true 2]}) by (unfold w1; cbn; by rewrite insert_singleton_eq).
    assert (Hrun : running (w2 <| listener_arg := r |> <| self := (self w2) <| s_listener := lp |> |>) (nw Y') r lp k) by (split; cbn; rewrite ?S1, ?S2, ?Hrefs; done).
    split_and!; [|cbn; by rewrite S1|by exists Y', lp, k]. eapply (loose_tun B _ Y'); [|done]. split; cbn; rewrite ?Hc, ?Hp, ?A2, ?S2, ?S3; try done; [|right; by exists r, lp, k].
    rewrite Hrefs. change (next_ref w1) with (next_ref w). split; [done|]. intros x [y Hx]. destruct (decide (x = r)) as [->|Hn]; [|by rewrite lookup_singleton_ne in Hx by done]. apply H3'. rewrite Er, lookup_singleton_eq. by eexists.
Qed.

Lemma start_ok B w : tun_ok B w -> post (start w) (fun w' => tun_ok B w' /\ s_timer (self w') = true /\ exists Y' r lp k, mc_sys (tenv (tm w')) = Ok Y' /\ running w' (nw Y') r lp k).
Proof.
  intros Hw. destruct (tun_loose B w Hw) as (Y & L & Hf). unfold start. destruct (lo_phase _ _ _ L) as [St|(r & lp & k & Rn)].
  - destruct (ensure_ref B w Y L St) as (w1 & E & L1 & St1 & Hr & Er). apply rbind_Ok in E as (alive & -> & E). cbn [rbind]. rewrite E. cbn [rbind]. cbv zeta. set (w2 := w1 <| tm := _ |> <| self := _ |>).
    eapply post_mono; [apply (setup_locked_ok B w2 Y); [by apply restart_loose|done| |done|done]|].
    + destruct St1. by split.
    + intros w' (A1 & A2 & Y' & lp & k & A3 & A4). split_and!; [done|done|]. by exists Y', (s_stackRef (self w2)), lp, k.
  - pose proof Rn as []. rewrite rn_ref0, (is_alive_some r (mk_ref true 2)) by (rewrite ?rn_refs0, ?lookup_singleton_eq; done). cbn [r_alive negb rbind]. cbv zeta. set (w2 := w <| tm := _ |> <| self := _ |>).
    assert (L2 : loose B w2 Y) by (by apply restart_loose). unfold setupLockedOnLWIPQueue. change (s_ready (self w2)) with (s_ready (self w)). rewrite rn_ready0. cbn [post]. split_and!; [by eapply loose_tun|done|].
    exists Y, r, lp, k. split; [apply L2|]. by split.
Qed.
(** ** Stopping *)

(** [stop] after it has dropped its own reference. *)
Record stopping (w : tun) (N : net) : Prop := {
  sg_self : s_ready (self w) = false /\ s_stackRef (self w) = 0 /\ s_timer (self w) = false;
  sg_refs : s_state (self w) = 0 /\ refs w = ∅ \/ s_state (self w) <> 0 /\ refs w = {[s_state (self w) := mk_ref false 1]};
  sg_list : netif_list N = [] \/ netif_list N = [TUN];
  sg_nif : exists n, nifs N !! TUN = Some n /\ n_state n = s_state (self w);
  sg_listen : s_listener (self w) = 0 /\ listener_arg w = 0 /\ tcp_listen_pcbs (tcp N) = [] \/ listens (s_listener (self w)) (tcp N) }.

Definition stop_tail (w : tun) : res tun :=
  let lp := s_listener (self w) in
  let+ w :=
    (if negb (lp =? 0) then
       let+ (_, w) := on_sys (on_net (close_listener lp)) (w <| listener_arg := 0 |>) in
       Ok (w <| self := (self w) <| s_listener := 0 |> |>)
     else Ok w) in
  let+ (_, w) := on_sys (on_net (remove_netif (s_state (self w)))) w in
  let+ w := release (s_state (self w)) w in
  Ok (w <| self := (self w) <| s_state := 0 |> |>).

Lemma stop_split w : stop w =
  let w := w <| self := (self w) <| s_timer := false |> |> in
  let+ w := invalidate (s_stackRef (self w)) w in
  let+ w := release (s_stackRef (self w)) w in
  stop_tail (w <| self := (self w) <| s_stackRef := 0 |> <| s_ready := false |> |>).
Proof. done. Qed.

(** All of the invariant but for the object. *)
Record lwip_at (B : list Z) (w : tun) (Y : sys) : Prop := {
  cr_tm : tm_ok (tm w);
  cr_clock : is_u32 (clock (tenv (tm w)));
  cr_sys : mc_sys (tenv (tm w)) = Ok Y;
  cr_ok : sys_ok Y;
  cr_freed : freed (ra Y) = [];
  cr_bufs : pbufs w ++ bufs Y ≡ₚ B }.

(** Code on the network that leaves the buffers alone. *)
Lemma on_net_core {R} B (f : net -> res (R * net)) w Y (Q : R -> net -> Prop) : lwip_at B w Y -> post (f (nw Y)) (fun '(r, N) => net_ok N /\ Q r N) ->
  post (on_sys (on_net f) w) (fun '(r, w') => exists Y', lwip_at B w' Y' /\ Q r (nw Y') /\ same_self w w').
Proof.
  intros [H1 H2 H3 H4 H5 H6] Hf. eapply post_mono; [apply (on_sys_ok _ w Y (fun r Y' => (sys_ok Y' /\ freed (ra Y') = [] /\ bufs Y' = bufs Y) /\ Q r (nw Y'))); [done|done|]|].
  - unfold on_net. eapply post_bind; [exact Hf|]. intros [r N'] [A1 A2]. cbn. split; [|done]. split_and!; try done. split; [done|apply H4].
  - intros [r w'] (Y' & [(A1 & A2 & A3) A4] & Hm & Ht & Hc & Hs & Hp). exists Y'. split; [|done]. split; rewrite ?Hc, ?Hp, ?A3; done.
Qed.

Lemma close_part B w Y : lwip_at B w Y -> stopping w (nw Y) ->
  post (if negb (s_listener (self w) =? 0) then
       let+ (_, w) := on_sys (on_net (close_listener (s_listener (self w)))) (w <| listener_arg := 0 |>) in
       Ok (w <| self := (self w) <| s_listener := 0 |> |>)
     else Ok w) (fun w' => exists Y', lwip_at B w' Y' /\ stopping w' (nw Y') /\ (s_listener (self w') = 0 /\ listener_arg w' = 0 /\ tcp_listen_pcbs (tcp (nw Y')) = []) /\ next_ref w' = next_ref w).
Proof.
  intros Hc Hs. pose proof Hs as [K1 K2 K3 (n & K4 & K4') [K5|K5]].
  - destruct K5 as (E1 & E2 & E3). rewrite E1. cbn. exists Y. by split_and!.
  - pose proof K5 as (_ & Hz%Z.eqb_neq & _). rewrite Hz. cbn [negb]. eapply post_bind.
    + apply (on_net_core B _ (w <| listener_arg := 0 |>) Y (fun _ N' => same_nifs (nw Y) N' /\ tcp_listen_pcbs (tcp N') = [])); [by destruct Hc|]. by apply close_listener_ok; [apply Hc|].
    + intros [[] w'] (Y' & C' & [(S1 & S2 & S3 & S4) Hl] & (A1 & A2 & A3 & A4)). cbn [post]. exists Y'. split_and!; [by destruct C'| |done|done|done|done].
      split; cbn; rewrite ?A1, ?A2, ?S1, ?S2, ?S3; try done; [by exists n|by left].
Qed.

Lemma stop_tail_ok B w Y : lwip_at B w Y -> stopping w (nw Y) -> 0 < next_ref w ->
  post (stop_tail w) (fun w' => tun_ok B w' /\ s_timer (self w') = false /\ refs w' = ∅ /\ exists Y', mc_sys (tenv (tm w')) = Ok Y' /\ stopped w' (nw Y')).
Proof.
  intros Hc Hs Hn. unfold stop_tail. cbv zeta. eapply post_bind; [by apply (close_part B w Y)|]. intros w1 (Y1 & C1 & [(K1 & K1' & K1'') K2 K3 (n & K4 & K4') K5] & (L1 & L2 & L3) & N1).
  eapply post_bind. { apply (on_net_core B _ w1 Y1 (fun _ N' => netif_list N' = [] /\ (exists n', nifs N' !! TUN = Some n' /\ n_state n' = 0) /\ tcp_listen_pcbs (tcp N') = [])); [done|]. rewrite <- K4'. apply remove_netif_ok; try done. apply C1. }
  intros [[] w2] (Y2 & C2 & (A1 & A2 & A3) & (S1 & S2 & S3 & S4)). cbn beta iota. rewrite <- S1 in *. rewrite <- S2 in *.
  assert (Hend : exists w3, release (s_state (self w2)) w2 = Ok w3 /\ w3 = w2 <| refs := ∅ |>).
  { unfold release, getr. destruct K2 as [[E1 E2]|[E1 E2]]; [rewrite E1|pose proof E1 as ->%Z.eqb_neq; rewrite E2, lookup_singleton_eq].
    - exists w2. split; [done|]. destruct w2. cbn in *. by subst.
    - cbn [rbind r_rc Z.eqb Pos.eqb]. eexists. split; [done|]. by rewrite delete_singleton_eq. }
  destruct Hend as (w3 & -> & ->). cbn [rbind post].
  assert (St : stopped (w2 <| refs := ∅ |> <| self := (self w2) <| s_state := 0 |> |>) (nw Y2)) by (split; cbn; rewrite ?S4; try done; by left).
  split_and!; [|done|done|exists Y2; split; [apply C2|done]]. destruct C2. eapply (loose_tun B _ Y2); [|done]. split; try done; [|by left]. cbn. split; [congruence|]. intros x [y Hx]. done.
Qed.

Lemma drop_ref a rc w : s_stackRef (self w) = a -> a <> 0 -> refs w = {[a := mk_ref true rc]} ->
  (let+ w1 := invalidate (s_stackRef (self w)) w in release (s_stackRef (self w1)) w1) = Ok (w <| refs := if rc =? 1 then ∅ else {[a := mk_ref false (rc - 1)]} |>).
Proof.
  intros Es Ha%Z.eqb_neq E. rewrite Es. unfold invalidate, getr. rewrite Ha, E, lookup_singleton_eq. cbn [rbind]. rewrite insert_singleton_eq. cbn [self setf]. change (self (_ <| refs := _ |>)) with (self w).
  rewrite Es. unfold release, getr. rewrite Ha. cbn [refs setf]. change (refs (_ <| refs := ?R |>)) with R. rewrite lookup_singleton_eq. cbn. rewrite delete_singleton_eq, insert_singleton_eq. by destruct (rc =? 1).
Qed.

Lemma stop_ok B w : tun_ok B w ->
  post (stop w) (fun w' => tun_ok B w' /\ s_timer (self w') = false /\ refs w' = ∅ /\ exists Y', mc_sys (tenv (tm w')) = Ok Y' /\ stopped w' (nw Y')).
Proof.
  intros Hw. destruct (tun_loose B w Hw) as (Y & [H1 H2 [H3 H3'] H4 H5 H6 H7] & Hf). rewrite stop_split. cbv zeta. set (w0 := w <| self := _ |>).
  assert (Hcut : exists R, (let+ w1 := invalidate (s_stackRef (self w0)) w0 in release (s_stackRef (self w1)) w1) = Ok (w0 <| refs := R |>)
    /\ stopping (w0 <| refs := R |> <| self := (self w0) <| s_stackRef := 0 |> <| s_ready := false |> |>) (nw Y)).
  { destruct H7 as [[K1 K2 K3 K4 [[E1 E2]|[E1 E2]] K6 K7 K8]|(r & lp & k & [])].
    - exists ∅. split; [|split; cbn; try done; [by left|by left|by rewrite K2|by left]]. change (s_stackRef (self w0)) with (s_stackRef (self w)). rewrite E1. cbn [invalidate Z.eqb rbind].
      change (s_stackRef (self w0)) with (s_stackRef (self w)). rewrite E1. unfold release. cbn. f_equal. unfold w0. destruct w. cbn in *. by subst.
    - exists ∅. split; [exact (drop_ref _ 1 w0 eq_refl E1 E2)|]. split; cbn; try done; [by left|by left|by rewrite K2|by left].
    - exists {[r := mk_ref false 1]}. split; [exact (drop_ref r 2 w0 rn_ref0 rn_nz0 rn_refs0)|]. split; cbn; rewrite ?rn_state0, ?rn_lp0; try done; [by right|by right|by exists (tun_nif r k)|by right]. }
  destruct Hcut as (R & E & Hs). apply rbind_Ok in E as (w1 & -> & E). cbn [rbind]. rewrite E. cbn [rbind]. by apply (stop_tail_ok B _ Y).
Qed.
(** ** Packets *)
Lemma pool_bufs_ok pool : forall bytes l rest, pool_bufs bytes pool = Some (l, rest) ->
  l <> [] /\ cbytes (map b_data l) = bytes /\ map b_addr l ++ rest = pool /\ lenz l <= Z.max 1 (lenz bytes).
Proof.
  induction pool as [|a pool IH]; intros bytes l rest; cbn [pool_bufs]; [done|]. destruct (Z.leb_spec (lenz bytes) PBUF_POOL_BUFSIZE_ALIGNED) as [Hle|Hgt].
  - intros [= <- <-]. unfold cbytes. cbn. rewrite app_nil_r. split_and!; try done. unfold lenz. cbn. lia.
  - destruct (pool_bufs _ pool) as [[l1 r1]|] eqn:E; [|done]. intros [= <- <-]. destruct (IH _ _ _ E) as (H1 & H2 & H3 & H4). unfold cbytes in *. cbn. rewrite H2, H3, takez_dropz. split_and!; try done.
    assert (PBUF_POOL_BUFSIZE_ALIGNED = 1504) as E1 by done. rewrite lenz_cons. rewrite lenz_dropz in H4 by lia. lia.
Qed.

Lemma accepts_ok w N conns : phase w N -> exists rs, accepts conns w = Ok rs /\ Forall nice rs.
Proof.
  intros Hp. assert (Ha : exists b, is_alive (listener_arg w) w = Ok b).
  { destruct Hp as [[]|(r & lp & k & [])]; [rewrite st_arg0; by exists false|]. exists true. rewrite rn_arg0. by rewrite (is_alive_some r (mk_ref true 2)) by (rewrite ?rn_refs0, ?lookup_singleton_eq; done). }
  destruct Ha as [b Ha]. induction conns as [|c conns (rs & E & IH)]; cbn [accepts]; [by exists []|]. unfold tunforge_accept, get_stack_from_arg. rewrite Ha. cbn [rbind]. rewrite E. cbn [rbind].
  eexists. split; [done|]. constructor; [|done]. destruct b, c, (s_delegate (self w)); done.
Qed.

Lemma nice_sys rs Y : Forall nice rs -> sys_ok Y ->
  sys_ok (Y <| nw := (nw Y) <| tcp := (tcp (nw Y)) <| app := (app (tcp (nw Y))) <| on_accept := rs |> |> |> |>).
Proof.
  intros Hr [H1 H2]. split; [|done]. apply tcp_ok; [done|]. destruct (no_tcp _ H1) as [S1 S2]. split; [|done]. eapply sane_same; [exact S1|done|]. destruct (sn_app _ _ S1). by split.
Qed.

Lemma netif_input_ok recv rs p n Y : Forall nice rs -> sys_ok Y -> pkt_ok p -> lenz (p_bufs p) <= 65535 -> nifs (nw Y) !! TUN = Some n ->
  post (netif_input recv rs p Y) (fun '(e, Y') => e = ERR_OK /\ sys_ok Y' /\ bufs Y' ≡ₚ bufs Y ++ p_addrs p /\ same_nifs (nw Y) (nw Y') /\ lkeep (tcp (nw Y)) (tcp (nw Y'))).
Proof.
  intros Hr HY Hp Hb En. unfold netif_input. cbv zeta. set (Y1 := Y <| nw := _ |>). assert (H1 : sys_ok Y1) by (by apply nice_sys).
  eapply post_mono; [apply post_when; [by apply (input_ok recv p TUN n Y1)|apply ip4_input_lk]|]. intros [e Y'] [(He & [S1 S2 S3 S4]) K]. split_and!; [exact He|exact S1|exact S2|exact S3|]. destruct K. by split.
Qed.

Lemma input_alive w N : phase w N -> exists b, is_alive (s_stackRef (self w)) w = Ok b.
Proof.
  intros [[_ _ _ _ [[E1 E2]|[E1 E2]]]|(r & lp & k & [])]; [rewrite E1; by exists false|exists true; by rewrite (is_alive_some _ (mk_ref true 1)) by (rewrite ?E2, ?lookup_singleton_eq; done)|].
  exists true. rewrite rn_ref0. by rewrite (is_alive_some r (mk_ref true 2)) by (rewrite ?rn_refs0, ?lookup_singleton_eq; done).
Qed.

Lemma phase_nif w N : phase w N -> exists n, nifs N !! TUN = Some n.
Proof. intros [[]|(r & lp & k & [])]; [destruct st_nif0 as (n & E & _)|]; eauto. Qed.

Lemma in_packet packet stale l pool rest len : len = u16 (lenz packet) -> len <> 0 -> Forall is_u8 packet -> Forall is_u8 stale -> pool_bufs (takez len packet) pool = Some (l, rest) ->
  pkt_ok (mk_pkt len l stale) /\ lenz l <= 65535 /\ p_bytes (mk_pkt len l stale) = takez len packet /\ map b_addr l ++ rest = pool.
Proof.
  intros El Hz Hp Hs E. destruct (pool_bufs_ok _ _ _ _ E) as (H1 & H2 & H3 & H4). pose proof (lenz_nonneg packet). assert (Hl : 0 < len <= lenz packet /\ len <= 65535) by zlia.
  assert (Hb : p_bytes (mk_pkt len l stale) = takez len packet) by exact H2. rewrite lenz_takez in H4 by lia. split_and!; [|lia|done|done]. split; rewrite ?Hb; cbn.
  - by rewrite lenz_takez by lia.
  - done.
  - lia.
  - apply Forall_app. split; [|done]. by apply Forall_take.
Qed.

Lemma tun_input_ok recv B packet stale conns w : Forall is_u8 packet -> Forall is_u8 stale -> tun_ok B w -> post (inputPacket recv packet stale conns w) (tun_ok B).
Proof.
  intros Hpk Hst Hw. destruct (tun_loose B w Hw) as (Y & L & Hf). pose proof L as [H1 H2 H3 H4 H5 H6 H7]. unfold inputPacket. cbv zeta. destruct (_ || _) eqn:Elen; [done|]. apply orb_false_iff in Elen as [Ez%Z.eqb_neq _].
  destruct (input_alive w (nw Y) H7) as [b ->]. cbn [rbind]. destruct b; [|done]. cbn [negb]. destruct (s_ready (self w)) eqn:Er; [|done]. cbn [negb]. rewrite H4. cbn [rbind].
  destruct (phase_nif w (nw Y) H7) as [n En]. unfold getn. rewrite En. cbn [rbind]. destruct (n_input n); [|done]. cbn [negb]. destruct (pool_bufs _ _) as [[l rest]|] eqn:E.
  - destruct (in_packet _ _ _ _ _ _ eq_refl Ez Hpk Hst E) as (P1 & P2 & P3 & P4). destruct (accepts_ok w (nw Y) conns H7) as (rs & -> & Hr). cbn [rbind]. set (p := mk_pkt _ l stale) in *.
    eapply post_bind; [apply (on_sys_ok _ (w <| pbufs := rest |>) Y (fun e Y' => e = ERR_OK /\ sys_ok Y' /\ bufs Y' ≡ₚ bufs Y ++ p_addrs p /\ same_nifs (nw Y) (nw Y') /\ lkeep (tcp (nw Y)) (tcp (nw Y')))); [done|done|by apply (netif_input_ok recv rs p n)]|].
    intros [e w2] (Y' & (-> & A1 & A2 & A3 & A4) & Hm & Ht & Hc & Hs & Hp). cbn beta iota. destruct (recycle_ok B w2 Y') as (w3 & -> & Hw3); [|done].
    pose proof Hs as (E1 & E2 & E3 & E4). split; rewrite ?Hc, ?E2, ?E3, ?Hp; try done.
    + rewrite A2, <- H6, <- P4. cbn. change (p_addrs p) with (map b_addr l). solve_Permutation.
    + by apply (phase_keep w _ (nw Y)).
  - cbn [post]. apply (loose_tun B _ Y); [|done]. split; try done; [by destruct H1| |by apply (phase_keep w _ (nw Y))]. cbn. by rewrite <- (Permutation_rev (pbufs w)).
Qed.

Lemma phase_state w N : phase w N -> exists n b, nifs N !! TUN = Some n /\ get_stack_from_arg (n_state n) w = Ok b /\ (b = true -> s_ready (self w) = true).
Proof.
  unfold get_stack_from_arg. intros [[]|(r & lp & k & [])]; [destruct st_nif0 as (n & E & E0); exists n, false; by rewrite E0|]. exists (tun_nif r k), true. split_and!; [done| |done].
  change (n_state (tun_nif r k)) with r. by rewrite (is_alive_some r (mk_ref true 2)) by (rewrite ?rn_refs0, ?lookup_singleton_eq; done).
Qed.

(** What concerns the packets given out and the clients of the object only. *)
Lemma plain_ok B w w' : tun_ok B w -> tm w' = tm w -> pbufs w' = pbufs w -> refs w' = refs w -> next_ref w' = next_ref w -> listener_arg w' = listener_arg w ->
  (exists h d, self w' = (self w) <| s_handler := h |> <| s_delegate := d |>) -> tun_ok B w'.
Proof.
  intros [T1 T2 T3 (Y & [])] E1 E2 E3 E4 E5 (h & d & E6). split; rewrite ?E1, ?E3, ?E4; try done. exists Y. split; rewrite ?E1, ?E2; try done.
  destruct ta_phase0 as [[]|(r & lp & k & [])]; [left|right; exists r, lp, k]; split; rewrite ?E3, ?E5, ?E6; done.
Qed.

Lemma tun_output_ok B p w : tun_ok B w -> post (tunforge_output p w) (fun '(e, w') => e = ERR_OK /\ tun_ok B w').
Proof.
  intros Hw. destruct (tun_loose B w Hw) as (Y & L & Hf). unfold tunforge_output. rewrite (lo_sys _ _ _ L). cbn [rbind]. destruct (phase_state w (nw Y) (lo_phase _ _ _ L)) as (n & b & En & Eb & _). unfold getn. rewrite En. cbn [rbind]. rewrite Eb. cbn [rbind post].
  split; [done|]. destruct b; cbn [negb]; [|done]. unfold outputPacket. cbv zeta. destruct (_ || _); [done|]. destruct (negb _); [done|]. apply (plain_ok B w); try done. by exists (s_handler (self w)), (s_delegate (self w)); destruct w as [[] ? ? ? ? ? ?].
Qed.

(** ** Runs *)
Definition tun_op_ok (x : tun_op) : Prop := match x with TInput packet stale _ => Forall is_u8 packet /\ Forall is_u8 stale | _ => True end.

Lemma run_tun_op_ok recv B x w : tun_op_ok x -> tun_ok B w -> post (run_tun_op recv x w) (tun_ok B).
Proof.
  intros Hx Hw. destruct x; cbn [run_tun_op].
  - eapply post_mono; [by apply start_ok|]. by intros ? [].
  - eapply post_mono; [by apply stop_ok|]. by intros ? [].
  - destruct Hx. by apply tun_input_ok.
  - eapply post_bind; [by apply tun_output_ok|]. by intros [e w'] [_ H].
  - by apply tick_ok, clock_ok.
  - by apply clock_ok.
  - eapply post_bind; [by apply (conn_ok B)|]. by intros [[] w'] H.
  - by apply release_handed_ok.
  - cbn. apply (plain_ok B w); try done. exists b, (s_delegate (self w)). by destruct w as [[] ? ? ? ? ? ?].
  - cbn. apply (plain_ok B w); try done. exists (s_handler (self w)), b. by destruct w as [[] ? ? ? ? ? ?].
Qed.

Lemma run_tun_ok recv B l : forall w, Forall tun_op_ok l -> tun_ok B w -> post (run_tun recv l w) (tun_ok B).
Proof.
  induction l as [|x l IH]; intros w Hl Hw; cbn [run_tun]; [done|]. apply Forall_cons in Hl as [Hx Hl]. eapply post_bind; [by apply (run_tun_op_ok recv B)|]. intros w' Hw'. by apply IH.
Qed.
End Tun.
