(* ===== verification/IpStackProps.v ===== *)
(** * IpStackProps: what TFIPStack guarantees

    Over the lemmas of IpStackFacts: the whole of it, from [initPrivate] on, is
    safe whatever happens; what [start] and [stop] achieve, and what becomes of
    the packets in both directions. *)

From S2P Require Import Prelude Def Ip4Addr Opts Mem Memp Pbuf Timeouts Chksum TcpPcb TcpOut TcpIn Ip4Hdr Ip4Frag Ip4FragFacts Ip4Reass TcpStack TcpInput TcpTimer TcpSafety TcpCalls TcpSafeIn TcpSafeRun TcpSafeTmr TcpSafeApi TcpProps TcpListen TcpPort Raw Netif NetifFacts Ip4Out Ip4 Ip4Facts IpStack IpStackFacts.

(** ** Construction *)
Lemma pool_free d : desc_ok d -> NoDup (memp_init_pool d) /\ 0 ∉ memp_init_pool d /\ Forall (fun p => p mod 8 = 0 /\ p <> 0) (memp_init_pool d) /\ length (memp_init_pool d) = Z.to_nat (d_num d).
Proof.
  intros Hd. rewrite !memp_init_slots. pose proof (slots_aligned d Hd) as Ha. split_and!; [by apply slots_nodup| | |unfold slots; by rewrite length_map, length_seq].
  - intros H. rewrite Forall_forall in Ha. apply Ha in H. lia.
  - eapply Forall_impl; [exact Ha|]. cbn. intros x Hx. lia.
Qed.

Section Props.
Context {o : Opts}.

Lemma init_ok descs al A now : (forall t, desc_ok (descs t)) -> 2 <= d_num (descs MEMP_SYS_TIMEOUT) -> polite A ->
  exists w, initPrivate descs al A now = Ok w /\ tun_ok (memp_init_pool (descs MEMP_PBUF_POOL)) w.
Proof.
  intros Hd Hn HA. unfold initPrivate, lwip_init, sys_timeouts_init, sys_timeout. cbv zeta. set (Y := mk_sys _ _ _). set (s0 := mk_timers _ _ _ _ _ _). rewrite (proj2 (Z.leb_le _ _)) by (vm_compute; congruence).
  destruct (pool_free (descs MEMP_SYS_TIMEOUT) (Hd _)) as (_ & _ & Ht & Hl). change (memp_init_pool (descs MEMP_SYS_TIMEOUT)) with (tpools s0 MEMP_SYS_TIMEOUT) in *. destruct (tpools s0 MEMP_SYS_TIMEOUT) as [|p ps] eqn:Ep; [cbn in Hl; lia|].
  destruct (rearm_ok (u32 (sys_now (tenv s0) + IP_TMR_INTERVAL)) H_lwip_cyclic_timer 1 p ps s0) as (s' & E & K1 & K2 & K3); [done|done|constructor|lia|done|cbn in *; lia|]. cbn [sure rbind]. change (@tun_env o) with tun_env in *. rewrite E. cbn [sure rbind].
  assert (HY : sys_ok Y).
  { split; [split; cbn; try done|apply init_inv; apply pool_free, Hd].
    - split; [constructor|apply not_elem_of_nil].
    - intros a H. by apply not_elem_of_nil in H.
    - intros a b n m H. by apply not_elem_of_nil in H.
    - apply boot_safe; [split; split; apply pool_free, Hd|done].
    - unfold raw_elems. cbn. apply pool_free, Hd. }
  eexists. split; [done|]. apply (loose_tun _ _ Y); [|done]. split; cbn; rewrite ?K2; try done.
  - apply u32_range.
  - split; [lia|]. intros x [y Hx]. destruct (decide (x = 1)) as [->|Hx1]; [lia|by rewrite lookup_singleton_ne in Hx by done].
  - unfold bufs, Ip4FragFacts.held. cbn. by rewrite app_nil_r.
  - left. split; try done; cbn; [right; by split|]. by exists zero_nif.
Qed.


(** ** Starting and stopping *)

(** C22: [start], in whatever state, neither touches freed memory nor loops; when
    it returns, the interface is the only one and the default one, up, with the
    address 198.18.0.1/16, and refers to a live bridge, which the object and the
    interface share; the timer runs, and exactly one pcb listens, with
    [tunforge_accept] as its callback and the bridge as its argument. *)
Theorem start_ready B w : tun_ok B w ->
  match start w with
  | Ok w' => exists Y r lp k, mc_sys (tenv (tm w')) = Ok Y /\ s_ready (self w') = true /\ s_timer (self w') = true
      /\ s_stackRef (self w') = r /\ s_state (self w') = r /\ refs w' = {[r := mk_ref true 2]} /\ listener_arg w' = r
      /\ netif_list (nw Y) = [TUN] /\ netif_default (nw Y) = TUN /\ nifs (nw Y) !! TUN = Some (tun_nif r k) /\ netif_is_up (tun_nif r k) = true
      /\ s_listener (self w') = lp /\ tcp_listen_pcbs (tcp (nw Y)) = [lp] /\ (TcpStack.accept <$> lpcbs (tcp (nw Y)) !! lp) = Some AcceptApp
  | Failed => True
  | _ => False
  end.
Proof.
  intros Hw. pose proof (start_ok B w Hw) as H. destruct (start w) as [w'| | |]; try done. destruct H as (_ & Ht & Y & r & lp & k & E & []). exists Y, r, lp, k. destruct rn_listens as (L1 & _ & l & L2 & L3). split_and!; try done. by rewrite L2, <- L3.
Qed.

(** What [start] needs of TCP: a free pcb, a free listener and a free port. *)
Record room (S : stack) : Prop := {
  rm_pcb : pcb_pool S <> [];
  rm_lpcb : lpcb_pool S <> [];
  rm_port : local_range (tcp_port S);
  rm_used : lenz (tcp_bound_pcbs S ++ tcp_active_pcbs S ++ tcp_tw_pcbs S) < 16383 }.

Lemma setup_total r n0 N : net_ok N -> netif_list N = [] -> nifs N !! TUN = Some n0 -> tcp_listen_pcbs (tcp N) = [] -> room (tcp N) -> exists x, setup_lwip r N = Ok x.
Proof.
  intros HN Hl E0 Ht [R1 R2 R3 R4]. unfold setup_lwip. destruct (netif_setup_ok r n0 N HN Hl E0) as (N1 & k & -> & H1 & L1 & E1 & D1 & T1 & _). cbn [rbind]. rewrite (updn_setn TUN _ (tun_nif r k)) by done. cbn [rbind]. cbv zeta.
  set (N2 := netif_set_default TUN _). change (tcp N2) with (tcp N1). rewrite T1. destruct (pcb_pool (tcp N)) as [|a P] eqn:Ep; [done|]. destruct (lpcb_pool (tcp N)) as [|l L] eqn:Elp; [done|].
  destruct (open_listener (ip := net_ip N2) TCP_PRIO_NORMAL TCP_DEFAULT_LISTEN_BACKLOG a P l L (tcp N)) as (S1 & S2 & S3 & A1 & Ha%Z.eqb_neq & A2 & A3 & [lp A4]); try done; [apply HN|].
  unfold tcp_new. rewrite A1. cbn [rbind]. rewrite Ha. cbn [negb]. change IPADDR_ANY with 0. rewrite A2. cbn [rbind err_ok]. change (err_ok ERR_OK) with true. cbn match. rewrite A3. cbn [rbind]. unfold tcp_accept, getl. rewrite A4. cbn [rbind]. by eexists.
Qed.

Lemma on_sys_total {R} (f : sys -> res (R * sys)) w Y x : tm_ok (tm w) -> mc_sys (tenv (tm w)) = Ok Y -> f Y = Ok x -> exists y, on_sys f w = Ok y.
Proof.
  intros Ht E Ef. unfold on_sys. rewrite E. cbn [rbind]. rewrite Ef. cbn [rbind]. destruct x as [r Y']. cbv zeta. set (w1 := set_sys Y' w).
  destruct (timer_calls_total (timer_calls (tcp (nw Y)) (tcp (nw Y'))) (tm w1)) as (t & -> & _); [by destruct Ht|]. cbn [sure rbind]. by eexists.
Qed.

(** C23: a stopped stack can be started: as long as TCP has a free pcb, a free
    listener structure and a free local port, no assertion of [start] fails. *)
Theorem start_succeeds B w Y : tun_ok B w -> mc_sys (tenv (tm w)) = Ok Y -> s_ready (self w) = false -> room (tcp (nw Y)) -> exists w', start w = Ok w' /\ s_ready (self w') = true.
Proof.
  intros Hw EY Hr Hroom. pose proof (start_ok B w Hw) as Hpost. destruct (tun_loose B w Hw) as (Y0 & L & Hf). assert (Y0 = Y) as -> by (pose proof (lo_sys _ _ _ L); congruence).
  assert (St : stopped w (nw Y)) by (destruct (lo_phase _ _ _ L) as [St|(r & lp & k & Rn)]; [done|]; destruct Rn; congruence). assert (E : exists w', start w = Ok w'); [|destruct E as [w' E]; rewrite E in Hpost; destruct Hpost as (_ & _ & Y' & r & lp & k & _ & []); by exists w'].
  unfold start. destruct (ensure_ref B w Y L St) as (w1 & E & L1 & St1 & Hr1 & Er). apply rbind_Ok in E as (alive & -> & E). cbn [rbind]. rewrite E. cbn [rbind]. cbv zeta. set (w2 := w1 <| tm := _ |> <| self := _ |>).
  assert (L2 : loose B w2 Y) by (by apply restart_loose). unfold setupLockedOnLWIPQueue. pose proof St1 as [K1 K2 K3 K4 K5 K6 (n & K7 & _) K8]. change (s_ready (self w2)) with (s_ready (self w1)). rewrite K1.
  unfold retain, getr. cbv zeta. set (w3 := w2 <| self := _ |>). change (refs w3) with (refs w1). change (s_stackRef (self w3)) with (s_stackRef (self w1)). rewrite Er, lookup_singleton_eq. cbn [rbind]. set (w4 := _ <| self := _ |>).
  destruct (setup_total (s_stackRef (self w1)) n (nw Y) ltac:(apply L) K6 K7 K8 Hroom) as ([lp N'] & Ex). destruct (on_sys_total (on_net (setup_lwip (s_stackRef (self w1)))) w4 Y (lp, Y <| nw := N' |>)) as ([lp' w5] & ->); [apply L2|apply L2|unfold on_net; by rewrite Ex|].
  cbn [rbind]. by eexists.
Qed.

(** C21: [stop], in whatever state, neither touches freed memory nor loops; when
    it returns, every bridge is released, the interface is removed and no pcb
    listens; from then on packets from the tunnel, packets of lwIP and ticks of
    the timer do nothing at all, and neither does a second [stop] do harm. *)
Theorem stop_silences (recv : Z -> Z -> pkt -> Z -> bool) B w : tun_ok B w ->
  match stop w with
  | Ok w' => refs w' = ∅ /\ (exists Y, mc_sys (tenv (tm w')) = Ok Y /\ netif_list (nw Y) = [] /\ tcp_listen_pcbs (tcp (nw Y)) = [])
      /\ (forall packet stale conns, inputPacket recv packet stale conns w' = Ok w') /\ (forall p, tunforge_output p w' = Ok (ERR_OK, w')) /\ tick w' = Ok w'
      /\ stop w' <> Dangling /\ stop w' <> Stuck
  | Failed => True
  | _ => False
  end.
Proof.
  intros Hw. pose proof (stop_ok B w Hw) as H. destruct (stop w) as [w'| | |]; try done. destruct H as (Hw' & Ht & Hr & Y & E & []). split_and!; [done|by exists Y| | | | |].
  - intros packet stale conns. unfold inputPacket. cbv zeta. destruct (_ || _); [done|]. destruct st_refs as [[E1 _]|[_ E2]]; [by rewrite E1|]. exfalso. rewrite Hr in E2. apply (f_equal (fun m => m !! s_stackRef (self w'))) in E2. by rewrite lookup_singleton_eq in E2.
  - intros p. unfold tunforge_output, getn. rewrite E. cbn [rbind]. destruct st_nif as (n & -> & En). cbn [rbind]. by rewrite En.
  - unfold tick. by rewrite Ht.
  - intros Es. pose proof (stop_ok B w' Hw') as H. by rewrite Es in H.
  - intros Es. pose proof (stop_ok B w' Hw') as H. by rewrite Es in H.
Qed.

(** ** Packets *)

Lemma output_eq B p w : tun_ok B w -> pkt_ok p ->
  tunforge_output p w = Ok (ERR_OK, w <| outbound := outbound w ++ (if s_ready (self w) && s_handler (self w) && (20 <=? lenz (p_bytes p)) then [p_bytes p] else []) |>).
Proof.
  intros [_ _ _ (Y & [T1 T2 T3 T4 T5])] [P1 P2 P3 P4]. assert (Hid : w <| outbound := outbound w ++ [] |> = w) by (rewrite app_nil_r; by destruct w).
  unfold tunforge_output, getn. rewrite T1. cbn [rbind]. destruct T5 as [[]|(r & lp & k & [])].
  - destruct st_nif as (n & -> & En). cbn [rbind]. rewrite En, st_ready. cbn [andb]. by rewrite Hid.
  - rewrite rn_nif. cbn [rbind]. unfold get_stack_from_arg. change (n_state (tun_nif r k)) with r. rewrite (is_alive_some r (mk_ref true 2)) by (rewrite ?rn_refs, ?lookup_singleton_eq; done). cbn [rbind r_alive negb]. rewrite rn_ready. cbn [andb].
    unfold outputPacket. cbv zeta. rewrite P1. destruct (s_handler (self w)); cbn [negb andb orb]; [|by rewrite orb_true_r, Hid]. rewrite orb_false_r. rewrite takez_all by lia. rewrite Z.eqb_refl. cbn [negb].
    destruct (Z.ltb_spec (lenz (p_bytes p)) 20), (Z.leb_spec 20 (lenz (p_bytes p))); try lia; [by rewrite Hid|done].
Qed.

(** A packet of lwIP reaches the outbound handler byte for byte, exactly
    when the stack is started, a handler is set and the packet has at least the
    20 bytes of a header; otherwise it is dropped silently. *)
Theorem output_delivers B p w : tun_ok B w -> pkt_ok p ->
  tunforge_output p w = Ok (ERR_OK, w <| outbound := outbound w ++ (if s_ready (self w) && s_handler (self w) && (20 <=? lenz (p_bytes p)) then [p_bytes p] else []) |>).
Proof. apply output_eq. Qed.

(** C27: [inputPacket] keeps the length in 16 bits before it compares it with
    UINT16_MAX, so a packet of 65536 bytes or more is not rejected: its first
    (length mod 65536) bytes are taken for the packet. *)
Theorem input_truncates (recv : Z -> Z -> pkt -> Z -> bool) packet stale conns w : inputPacket recv packet stale conns w = inputPacket recv (takez (lenz packet mod 65536) packet) stale conns w.
Proof.
  pose proof (lenz_nonneg packet). assert (Hm : u16 (lenz packet) = lenz packet mod 65536) by done. assert (Hle : 0 <= lenz packet mod 65536 <= lenz packet) by (split; [by apply Z.mod_pos_bound|by apply Z.mod_le]).
  unfold inputPacket. cbv zeta. rewrite Hm. rewrite lenz_takez by done. assert (u16 (lenz packet mod 65536) = lenz packet mod 65536) as -> by zlia. rewrite (takez_all _ (takez _ packet)) by (rewrite lenz_takez; lia). done.
Qed.
End Props.

(** ** Witnesses *)
#[local] Existing Instances ios.

Definition demo_descs (t : memp_t) : memp_desc :=
  mk_desc 64 4 (match t with MEMP_RAW_PCB => 1000 | MEMP_TCP_PCB => 2000 | MEMP_TCP_PCB_LISTEN => 3000 | MEMP_TCP_SEG => 4000 | MEMP_REASSDATA => 5000
    | MEMP_FRAG_PBUF => 6000 | MEMP_SYS_TIMEOUT => 7000 | MEMP_PBUF => 8000 | MEMP_PBUF_POOL => 9000 end).

(** An IP packet with a TCP segment, from 10.0.0.2 to 93.184.216.34. *)
Definition demo_packet (seq ack fl : Z) (d : list Z) : list Z :=
  let src := IP4_ADDR 10 0 0 2 in
  let dest := IP4_ADDR 93 184 216 34 in
  let seg := demo_header seq ack fl (tcp_chksum src dest [demo_header seq ack fl 0 ++ d]) ++ d in
  output_hdr (repeat 0 20) src dest 64 0 IP_PROTO_TCP (20 + lenz seg) 1 ++ seg.

Definition no_raw (arg a : Z) (p : pkt) (src : Z) : bool := false.
Definition demo_output : pkt := mk_pkt 40 [mk_buf 1 (demo_packet 1 1 16 [])] [].

(** A connection is opened to the tunnel and receives data. *)
Definition demo_life : list tun_op :=
  [TStart; THandler true; TDelegate true; TInput (demo_packet 1000 0 2 []) [] []; TInput (demo_packet 1001 6511 16 []) [] [true];
   TInput (demo_packet 1001 6511 24 [1; 2; 3]) [] []; TTick 250; TTick 500; TRelease 0; TOutput demo_output].
Definition demo_tun : res tun :=
  let+ w := initPrivate demo_descs (repeat true 20) (mk_app [] [] [] [mk_reaction [] (Return ERR_OK)] []) 0 in run_tun no_raw demo_life w.
Definition demo_w : tun :=
  match demo_tun with Ok w => w | _ => mk_tun (mk_ips false 0 false 0 0 false false) ∅ 1 0 (mk_timers [] 0 false (fun _ => []) (mk_machine 0 Failed false) []) [] [] end.

Lemma demo_tun_eq : demo_tun = Ok demo_w.
Proof. vm_compute. reflexivity. Qed.

Lemma demo_descs_ok t : desc_ok (demo_descs t).
Proof. destruct t; vm_compute; intuition congruence. Qed.

Lemma demo_recv_polite : polite (mk_app [] [] [] [mk_reaction [] (Return ERR_OK)] []).
Proof. split; repeat constructor; discriminate. Qed.

Lemma demo_life_ok : Forall tun_op_ok demo_life.
Proof. repeat (apply Forall_cons; split); try exact I; try (split; [apply (bool_decide_unpack _); vm_compute; exact I|constructor]). constructor. Qed.

Lemma demo_w_ok : tun_ok (memp_init_pool (demo_descs MEMP_PBUF_POOL)) demo_w.
Proof.
  destruct (init_ok demo_descs (repeat true 20) (mk_app [] [] [] [mk_reaction [] (Return ERR_OK)] []) 0 demo_descs_ok ltac:(vm_compute; discriminate) demo_recv_polite) as (w0 & E & H0).
  pose proof demo_tun_eq as Ed. unfold demo_tun in Ed. rewrite E in Ed. cbn [rbind] in Ed. pose proof (run_tun_ok no_raw _ demo_life w0 demo_life_ok H0) as H. by rewrite Ed in H.
Qed.


Lemma start_ready_witness : exists w' Y lp, (let+ w := stop demo_w in start w) = Ok w' /\ mc_sys (tenv (tm w')) = Ok Y /\ s_stackRef (self w') = 2 /\ tcp_listen_pcbs (tcp (nw Y)) = [lp].
Proof.
  pose proof (stop_ok _ _ demo_w_ok) as Hs. assert (E : match (let+ w := stop demo_w in start w) with Ok w => s_stackRef (self w) =? 2 | _ => false end = true) by (vm_compute; reflexivity).
  destruct (stop demo_w) as [w1| | |]; try discriminate E. destruct Hs as [H1 _]. cbn [rbind] in *. pose proof (start_ready _ w1 H1) as H. destruct (start w1) as [w'| | |]; try discriminate E.
  destruct H as (Y & r & lp & k & E1 & H). exists w', Y, lp. split; [reflexivity|]. split; [exact E1|]. split; [apply Z.eqb_eq, E|apply H].
Defined.

Definition demo_fresh : res tun := initPrivate demo_descs (repeat true 20) (mk_app [] [] [] [mk_reaction [] (Return ERR_OK)] []) 0.

Lemma start_succeeds_witness : exists w w', demo_fresh = Ok w /\ start w = Ok w' /\ s_ready (self w') = true.
Proof.
  destruct (init_ok demo_descs (repeat true 20) (mk_app [] [] [] [mk_reaction [] (Return ERR_OK)] []) 0 demo_descs_ok ltac:(vm_compute; discriminate) demo_recv_polite) as (w & E & H). fold demo_fresh in E.
  assert (Em : match demo_fresh with Ok w => negb (s_ready (self w)) && match mc_sys (tenv (tm w)) with Ok Y => (lenz (pcb_pool (tcp (nw Y))) =? 4) && (lenz (lpcb_pool (tcp (nw Y))) =? 4) && (tcp_port (tcp (nw Y)) =? 49152) && (lenz (tcp_bound_pcbs (tcp (nw Y)) ++ tcp_active_pcbs (tcp (nw Y)) ++ tcp_tw_pcbs (tcp (nw Y))) =? 0) | _ => false end | _ => false end = true) by (vm_compute; reflexivity).
  rewrite E in Em. apply andb_prop in Em as [Er%negb_true_iff Em]. destruct (mc_sys (tenv (tm w))) as [Y| | |] eqn:EY; try discriminate Em. repeat (apply andb_prop in Em as [Em ?%Z.eqb_eq]). apply Z.eqb_eq in Em.
  destruct (start_succeeds _ w Y H EY Er) as (w' & Es & Hs); [|exists w, w'; split; [exact E|split; [exact Es|exact Hs]]].
  split; [intros E0; rewrite E0 in *; discriminate|intros E0; rewrite E0 in *; discriminate| |lia]. unfold local_range, TCP_LOCAL_PORT_RANGE_START, TCP_LOCAL_PORT_RANGE_END. lia.
Defined.

Lemma stop_silences_witness : exists w', stop demo_w = Ok w' /\ refs w' = ∅ /\ (forall packet stale conns, inputPacket no_raw packet stale conns w' = Ok w').
Proof.
  pose proof (stop_silences no_raw _ _ demo_w_ok) as H. assert (E : match stop demo_w with Ok _ => true | _ => false end = true) by (vm_compute; reflexivity). destruct (stop demo_w) as [w'| | |]; try discriminate E.
  exists w'. split; [reflexivity|]. destruct H as (H1 & _ & H2 & _). split; [exact H1|exact H2].
Defined.

Lemma output_delivers_witness : tunforge_output demo_output demo_w = Ok (ERR_OK, demo_w <| outbound := outbound demo_w ++ [demo_packet 1 1 16 []] |>).
Proof.
  rewrite (output_delivers _ demo_output demo_w demo_w_ok).
  - assert (s_ready (self demo_w) && s_handler (self demo_w) && (20 <=? lenz (p_bytes demo_output)) = true) as -> by (vm_compute; reflexivity). reflexivity.
  - split; [reflexivity|discriminate|vm_compute; discriminate|]. apply (bool_decide_unpack _). vm_compute. exact I.
Defined.
