(* ===== verification/PoolBufs.v ===== *)
(** * PoolBufs: the buffers of a packet from the tunnel

    IpStack describes what [inputPacket] gets from [pbuf_alloc] and [pbuf_take]
    by the function [pool_bufs] on the free elements of the pool.  Here it is
    proved to be what the functions of pbuf.c, as modelled in Pbuf on memory
    with addresses, do. *)

From S2P Require Import Prelude Def Opts Mem Memp Ip4Hdr IpStack Pbuf PbufFacts.

(** A chain in memory as buffers with their bytes. *)
Definition view (m : gmap Z Z) (l : list node) : list buf := map (fun x => mk_buf x.1 (mread m (payload x.2) (len x.2))) l.

(** An element of the pool is a [struct pbuf] and its buffer. *)
Definition POOL_ELEM : Z := SIZEOF_STRUCT_PBUF + PBUF_POOL_BUFSIZE_ALIGNED.
Definition spaced (pool : list Z) : Prop := forall a b, a ∈ pool -> b ∈ pool -> a < b -> a + POOL_ELEM <= b.

Lemma room_0 : u16 (PBUF_POOL_BUFSIZE_ALIGNED - LWIP_MEM_ALIGN_SIZE 0) = 1504.
Proof. reflexivity. Qed.

(** The same elements are taken, and the lengths agree. *)
Lemma plan_bufs pool : forall bs, 0 < lenz bs ->
  match pool_bufs bs pool with
  | Some (bl, rest) => exists l, plan pool (lenz bs) 0 = Some l /\ map b_addr bl = map fst l /\ map (fun b => lenz (b_data b)) bl = map (fun x => len x.2) l /\ concat (map b_data bl) = bs
      /\ drop (length l) pool = rest
  | None => plan pool (lenz bs) 0 = None
  end.
Proof.
  induction pool as [|a pool IH]; intros bs Hb; cbn [pool_bufs plan]; [done|]. rewrite room_0. change PBUF_POOL_BUFSIZE_ALIGNED with 1504. destruct (Z.leb_spec (lenz bs) 1504) as [Hle|Hgt].
  - destruct (Z.ltb_spec 0 (lenz bs - Z.min (lenz bs) 1504)); [lia|]. eexists. split; [done|]. cbn. rewrite room_0, app_nil_r. split_and!; try done. f_equal. lia.
  - destruct (Z.ltb_spec 0 (lenz bs - Z.min (lenz bs) 1504)); [|lia]. replace (lenz bs - Z.min (lenz bs) 1504) with (lenz (dropz 1504 bs)) by (rewrite lenz_dropz by lia; lia).
    specialize (IH (dropz 1504 bs) ltac:(rewrite lenz_dropz by lia; lia)). destruct (pool_bufs (dropz 1504 bs) pool) as [[bl rest]|]; [|by rewrite IH].
    destruct IH as (l & -> & I1 & I2 & I3 & I4). eexists. split; [done|]. cbn. rewrite room_0, I1, I2, I3, I4, takez_dropz, lenz_takez by lia. split_and!; try done. f_equal. lia.
Qed.

(** Pieces with the same bytes and lengths are the same. *)
Lemma pieces_eq m l : forall bl, map b_addr bl = map fst l -> map (fun b => lenz (b_data b)) bl = map (fun x => len x.2) l -> cdata m l = concat (map b_data bl) -> view m l = bl.
Proof.
  induction l as [|[a b] l IH]; intros [|[c d] bl]; cbn; try done. intros [= -> H1] [= H2 H3] H4. unfold cdata in H4. cbn in H4.
  apply app_inj_1 in H4 as [H4 H5]; [|unfold mread, lenz in *; rewrite length_map, length_seq; lia]. rewrite H4. f_equal. by apply IH.
Qed.

Lemma plan_nodes pool : forall rem off l, plan pool rem off = Some l -> layer_off off -> off = 0 -> Forall (fun q => q mod 8 = 0) pool ->
  Forall (fun x => x.1 ∈ pool /\ payload x.2 = x.1 + SIZEOF_STRUCT_PBUF /\ len x.2 <= PBUF_POOL_BUFSIZE_ALIGNED) l.
Proof.
  induction pool as [|q pool IH]; intros rem off l; cbn [plan]; [done|]. intros E Ho -> [Hq Hp]%Forall_cons. rewrite room_0 in E.
  assert (Hn : forall n, payload (pool_node q 0 rem n).2 = q + SIZEOF_STRUCT_PBUF /\ len (pool_node q 0 rem n).2 <= PBUF_POOL_BUFSIZE_ALIGNED).
  { intros n. unfold pool_node. cbn [snd payload len]. rewrite room_0, align_eq. change PBUF_POOL_BUFSIZE_ALIGNED with 1504. change SIZEOF_STRUCT_PBUF with 24. split; zlia. }
  destruct (0 <? _).
  - destruct (plan pool _ 0) as [l'|] eqn:El; [|done]. injection E as <-. constructor; [split; [left|apply Hn]|]. eapply Forall_impl; [by apply (IH _ _ _ El)|]. intros x (H1 & H2 & H3). split_and!; [by right|done|done].
  - injection E as <-. constructor; [split; [left|apply Hn]|constructor].
Qed.

Lemma spaced_disjoint pool l : spaced pool -> NoDup (map fst l) -> Forall (fun x => x.1 ∈ pool /\ payload x.2 = x.1 + SIZEOF_STRUCT_PBUF /\ len x.2 <= PBUF_POOL_BUFSIZE_ALIGNED) l -> disjoint_payloads l.
Proof.
  intros Hs. induction l as [|[a b] l IH]; cbn; [done|]. intros [Ha Hn]%NoDup_cons [(H1 & H2 & H3) Hl]%Forall_cons. cbn in *. split; [|by apply IH].
  rewrite Forall_forall in Hl |- *. intros [c d] Hc. destruct (Hl _ Hc) as (K1 & K2 & K3). cbn in *. assert (a <> c). { intros ->. apply Ha. by apply (list_elem_of_fmap_2 fst _ (c, d)). }
  unfold apart. rewrite H2, K2. unfold spaced, POOL_ELEM in Hs. change SIZEOF_STRUCT_PBUF with 24 in *. change PBUF_POOL_BUFSIZE_ALIGNED with 1504 in *. destruct (Z.lt_total a c) as [Hlt|[->|Hlt]]; [specialize (Hs a c H1 K1 Hlt)|done|specialize (Hs c a K1 H1 Hlt)]; lia.
Qed.

Section Refine.
Context {o : Opts} {cf : CustomFree}.

(** C26: the buffers [inputPacket] works with are those of pbuf.c.  With the free
    elements of the pool in memory, distinct, aligned and as far apart as their
    size, [pbuf_alloc(PBUF_RAW, len, PBUF_POOL)] followed by [pbuf_take] gives
    the chain of structures whose addresses and bytes [pool_bufs] describes, with
    lengths that add up, and leaves the rest of the pool; and it fails exactly
    when [pool_bufs] does, with all elements back in the pool and the request to
    drop out-of-sequence data set. *)
Theorem pool_bufs_refines h bs : free_ok h (pools h MEMP_PBUF_POOL) -> spaced (pools h MEMP_PBUF_POOL) -> 0 < lenz bs < 65536 ->
  match pool_bufs bs (pools h MEMP_PBUF_POOL) with
  | Some (bl, rest) => exists p h1 h2 l, pbuf_alloc PBUF_RAW (lenz bs) PBUF_POOL h = Some (p, h1) /\ pbuf_take p bs h1 = Some (ERR_OK, h2)
      /\ chain (pbufs h2) p l /\ ok_chain l /\ ltot l = lenz bs /\ view (bytes h2) l = bl /\ pools h2 MEMP_PBUF_POOL = rest
  | None => exists h1, pbuf_alloc PBUF_RAW (lenz bs) PBUF_POOL h = Some (0, h1) /\ pools h1 MEMP_PBUF_POOL ≡ₚ pools h MEMP_PBUF_POOL
      /\ pbufs h1 = pbufs h /\ pbuf_free_ooseq_pending h1 = true
  end.
Proof.
  intros Hf Hs Hb. unfold pbuf_alloc. change (u16 (pbuf_layer_val PBUF_RAW)) with 0. set (free := pools h MEMP_PBUF_POOL) in *. assert (Ho : layer_off 0) by (unfold layer_off; lia).
  pose proof (alloc_pool_loop_ok (S (List.length free)) h 0 [] 0 (lenz bs) 0 free eq_refl ltac:(done) (Forall_nil_2 _) eq_refl Hf ltac:(lia) ltac:(lia) Ho) as H.
  pose proof (plan_bufs free bs ltac:(lia)) as P. destruct (pool_bufs bs free) as [[bl rest]|].
  - destruct P as (l & El & P1 & P2 & P3 & P4). rewrite El in H. destruct H as (h1 & E & C1 & C2 & C3 & C4 & _). destruct (plan_spec _ _ _ _ El ltac:(lia) Ho) as (L1 & L2 & L3 & L4 & _).
    cbn [app relink] in *. assert (Hok : ok_chain l) by (split; [done|lia]). assert (Hnd : NoDup (map fst l)) by (rewrite L4; eapply sublist_NoDup; [apply Hf|apply sublist_take]).
    assert (Hd : disjoint_payloads l). { apply (spaced_disjoint free); [done|done|]. apply (plan_nodes _ _ _ _ El); [done|done|]. eapply Forall_impl; [apply Hf|]. by intros q [Hq _]. }
    destruct (pbuf_take_ok h1 l _ bs C1 Hok L1 Hd ltac:(lia)) as (m & Et & Ed & _). rewrite dropz_all, app_nil_r in Ed.
    2:{ apply Z.eq_le_incl. rewrite <- L3. clear - L2. revert L2. induction l as [|[a b] l IH]; cbn; [done|]. intros (T1 & _ & T3). unfold cdata in *. cbn. rewrite lenz_app, IH by done. unfold mread, lenz. rewrite length_map, length_seq. rewrite Z2Nat.id by done. done. }
    exists (first l), h1, (h1 <| bytes := m |>), l. split_and!; try done; [apply pieces_eq; [done|done|by rewrite P3]|]. cbn. by rewrite C3, set_tab_eq.
  - rewrite P in H. destruct H as (h1 & E & C1 & C2 & _ & _ & _ & C6). exists h1. split_and!; try done. apply map_eq. intros a. by rewrite C1.
Qed.
End Refine.

#[local] Existing Instance ios.
#[local] Instance no_custom : CustomFree := fun _ h => Some h.

(** Three free elements; the packet needs two. *)
Definition tun_heap : heap := mk_heap ∅ ∅ (set_tab MEMP_PBUF_POOL [1000; 2528; 4056] (fun _ => [])) (mk_mem 0 ∅ 0) false.
Definition tun_bytes : list Z := repeat 69 1600.

Lemma pool_bufs_refines_witness : exists p h1 h2 l, pbuf_alloc PBUF_RAW 1600 PBUF_POOL tun_heap = Some (p, h1) /\ pbuf_take p tun_bytes h1 = Some (ERR_OK, h2)
  /\ chain (pbufs h2) p l /\ view (bytes h2) l = [mk_buf 1000 (repeat 69 1504); mk_buf 2528 (repeat 69 96)] /\ pools h2 MEMP_PBUF_POOL = [4056].
Proof.
  assert (H1 : free_ok tun_heap (pools tun_heap MEMP_PBUF_POOL)) by (split; [apply (bool_decide_unpack _); vm_compute; exact I|repeat constructor; vm_compute; reflexivity]).
  assert (H2 : spaced (pools tun_heap MEMP_PBUF_POOL)).
  { change (pools tun_heap MEMP_PBUF_POOL) with [1000; 2528; 4056]. unfold spaced, POOL_ELEM. change (SIZEOF_STRUCT_PBUF + PBUF_POOL_BUFSIZE_ALIGNED) with 1528. intros a b Ha Hb. rewrite !elem_of_cons, elem_of_nil in Ha, Hb. lia. }
  pose proof (pool_bufs_refines tun_heap tun_bytes H1 H2 ltac:(vm_compute; split; reflexivity)) as H.
  assert (E : pool_bufs tun_bytes (pools tun_heap MEMP_PBUF_POOL) = Some ([mk_buf 1000 (repeat 69 1504); mk_buf 2528 (repeat 69 96)], [4056])) by (vm_compute; reflexivity).
  rewrite E in H. destruct H as (p & h1 & h2 & l & A1 & A2 & A3 & _ & _ & A4 & A5). exists p, h1, h2, l. split; [exact A1|]. split; [exact A2|]. split; [exact A3|]. split; [exact A4|exact A5].
Defined.
