(* ===== verification/TunPath.v ===== *)
(** * TunPath: a segment on its way through two tunnels

    TCP's segments (TcpWire), IP output (Ip4Out), the packets of the tunnel and
    IP input (IpStack, Ip4) together. *)

From S2P Require Import Prelude Def Ip4Addr Opts Mem Memp Pbuf Timeouts Chksum TcpPcb TcpOut TcpIn Ip4Hdr Ip4Frag Ip4FragFacts Ip4Reass TcpStack TcpInput TcpTimer TcpSafety TcpSafeIn TcpSafeApi TcpProps TcpListen TcpWire Raw Netif NetifFacts Ip4Out Ip4OutFacts Ip4 Ip4Facts Ip4Props IpStack IpStackFacts IpStackProps.

Section Path.
Context {o : Opts}.

(** TCP, with what [tunforge_accept] will do with new connections. *)
Definition offer (rs : list reaction) (Y : sys) : sys :=
  Y <| nw := (nw Y) <| tcp := (tcp (nw Y)) <| app := (TcpStack.app (tcp (nw Y))) <| on_accept := rs |> |> |> |>.

(** One buffer is enough for a packet of the tunnel. *)
Lemma one_buf bs a pool : lenz bs <= 1504 -> pool_bufs bs (a :: pool) = Some ([mk_buf a bs], pool).
Proof. intros H. cbn [pool_bufs]. change PBUF_POOL_BUFSIZE_ALIGNED with 1504. by rewrite (proj2 (Z.leb_le _ _)) by lia. Qed.

(** C8: a segment crosses the tunnel.  What TCP hands to [ip4_output_if] on the
    tunnel's interface, a segment of at most 1460 bytes with its options, goes to
    the driver as one packet; when another started stack gets these bytes as
    [inputPacket], in one buffer of the pool, exactly that segment reaches its
    [tcp_input]: the checksums of both headers verify and addresses, ports,
    numbers, flags, window, options and data are those that were sent. *)
Theorem tunnel_roundtrip recv driver k p r j s w Y r' lp j' stale conns a pool :
  sendable k -> 40 + lenz (pk_opts k) + lenz (pk_data k) <= TUNFORGE_NETIF_IPV4_MTU -> is_u8 (pk_ttl k) -> is_u8 (pk_tos k) -> pk_src k <> IPADDR_ANY ->
  can_send p -> p_bytes (o_pkt p) = segment_bytes k -> is_u16 (ip_id s) ->
  mc_sys (tenv (tm w)) = Ok Y -> running w (nw Y) r' lp j' -> raw_pcbs (raw (nw Y)) = [] -> pbufs w = a :: pool -> Forall is_u8 stale ->
  ip4_addr_isbroadcast_u32 (pk_src k) (nif_cfg (tun_nif r' j')) || ip4_addr_ismulticast (pk_src k) = false ->
  ip4_addr_isbroadcast_u32 (pk_dst k) (nif_cfg (tun_nif r' j')) || ip4_addr_ismulticast (pk_dst k) = false ->
  exists c p', ip4_output_if driver p (Some (pk_src k)) (Some (pk_dst k)) (pk_ttl k) (pk_tos k) IP_PROTO_TCP (tun_nif r j) s
      = Some (driver c, p', mk_ipout (u16 (ip_id s + 1)) (ip_allocs s) (tx s ++ [c]))
  /\ exists rs d i t, accepts conns w = Ok rs
     /\ tcp_input_header (ip := net_ip (nw Y)) (pk_src k) (pk_dst k) (TUN, tun_nif r' j') (p_chain d) = Ok (Some (i, t)) /\ carries k (nif_index (tun_nif r' j')) i t
     /\ inputPacket recv (cbytes c) stale conns w
        = let+ (_, w) := on_sys (fun Y => let+ Y := to_tcp d (pk_src k) (pk_dst k) TUN (tun_nif r' j') (offer rs Y) in Ok (ERR_OK, Y)) (w <| pbufs := pool |>) in recycle w.
Proof.
  intros Hk Hmtu Httl Htos Hsrc Hp Hb Hid HY Hrun Hraw Hpool Hst Hs Hd. pose proof Hk as [[I1 I2] _ _ _ _ _ [D1 D2]]. change TUNFORGE_NETIF_IPV4_MTU with 1500 in Hmtu.
  assert (Hseg : lenz (segment_bytes k) = 20 + lenz (pk_opts k) + lenz (pk_data k)) by (unfold segment_bytes; cbv zeta; by rewrite lenz_app, lenz_hdr).
  pose proof (lenz_nonneg (pk_opts k)). pose proof (lenz_nonneg (pk_data k)). pose proof (pk_tot _ (cs_ok _ Hp)) as Htot. rewrite Hb, Hseg in Htot.
  destruct (Ip4OutFacts.output_ok driver p (Some (pk_src k)) (pk_dst k) (pk_ttl k) (pk_tos k) IP_PROTO_TCP (tun_nif r j) s Hp Httl Htos ltac:(done) Hid I2 I1 ltac:(split; [vm_compute; discriminate|reflexivity])) as (p' & h & -> & [O1 O2 O3 O4 O5 O6 O7]).
  assert (Esrc : (if ip_addr_isany (Some (pk_src k)) then n_ip_addr (tun_nif r j) else default IPADDR_ANY (Some (pk_src k))) = pk_src k) by (unfold ip_addr_isany; by rewrite (proj2 (Z.eqb_neq _ _) Hsrc)). rewrite Esrc in O1.
  unfold ip4_transmit, netif_output. change (n_mtu (tun_nif r j)) with 1500. change (n_output (tun_nif r j)) with DriverOutput. rewrite O4, Htot, (proj2 (Z.ltb_ge 1500 _)) by lia. cbn [Z.eqb negb andb].
  exists (p_chain (o_pkt p')), p'. split; [by destruct s|]. change (cbytes (p_chain (o_pkt p'))) with (p_bytes (o_pkt p')). rewrite O6, Hb.
  pose proof (ho_len _ _ _ _ _ _ _ _ O1) as Hh. assert (Hlen : lenz (h ++ segment_bytes k) = 40 + lenz (pk_opts k) + lenz (pk_data k)) by (rewrite lenz_app; lia).
  assert (Hu8 : Forall is_u8 (h ++ segment_bytes k)). { pose proof (pk_u8 _ O3) as Hu. rewrite O6, Hb in Hu. by apply Forall_app in Hu as [Hu _]. }
  destruct (accepts_ok w (nw Y) conns ltac:(right; by eauto)) as (rs & Ers & _). exists rs.
  set (q := mk_pkt (lenz (h ++ segment_bytes k)) [mk_buf a (h ++ segment_bytes k)] stale).
  assert (Eq : p_bytes q = h ++ segment_bytes k) by (unfold q, p_bytes, p_chain, cbytes; cbn; by rewrite app_nil_r).
  assert (Hq : pkt_ok q) by (split; rewrite ?Eq; [done|done|cbn [p_tot q]; lia|apply Forall_app; done]). assert (Hql : p_len q = lenz (h ++ segment_bytes k)) by done.
  exists (pbuf_remove_header 20 q). assert (Echain : p_chain (pbuf_remove_header 20 q) = [segment_bytes k]).
  { unfold pbuf_remove_header, q. cbn [p_bufs b_data p_chain map]. unfold p_len. cbn [p_bufs b_data]. rewrite (proj2 (Z.ltb_ge _ _)) by lia. unfold p_chain. cbn. by rewrite dropz_app_eq by lia. }
  rewrite Echain. destruct (wire_roundtrip (ip := net_ip (nw Y)) k (TUN, tun_nif r' j') [segment_bytes k] Hk) as (i & t & Et & Ct); [apply app_nil_r|split; [lia|left; lia]|exact Hd|].
  exists i, t. split; [done|]. split; [exact Et|]. split; [exact Ct|]. destruct Hrun as []. unfold inputPacket. cbv zeta. rewrite Hlen, (u16_id (40 + _ + _)) by zlia.
  rewrite (proj2 (Z.eqb_neq _ _)), (proj2 (Z.ltb_ge 65535 _)) by lia. cbn [orb]. rewrite rn_ref, (is_alive_some r' (mk_ref true 2)) by (rewrite ?rn_refs, ?lookup_singleton_eq; done). cbn [rbind r_alive negb]. rewrite rn_ready. cbn [negb]. rewrite HY. cbn [rbind]. unfold getn. rewrite rn_nif. cbn [rbind]. change (n_input (tun_nif r' j')) with true. cbn [negb].
  rewrite takez_all by lia. rewrite Hpool, one_buf by lia. rewrite Ers. cbn [rbind]. rewrite <- Hlen. fold q. unfold on_sys. cbn [tm setf]. change (tm (w <| pbufs := pool |>)) with (tm w). rewrite HY. cbn [rbind].
  unfold netif_input. cbv zeta. fold (offer rs Y). rewrite (whole_arrives recv (pk_src k) (pk_dst k) (pk_ttl k) (pk_tos k) (p_tot (o_pkt p) + 20) (ip_id s) h (segment_bytes k) q TUN (tun_nif r' j') (offer rs Y)); try done; [|lia|lia|by apply orb_false_iff in Hd as [_ Hd]].
  destruct (to_tcp _ _ _ _ _ _) as [Y'| | |]; try done. cbn [rbind]. destruct (sure _) as [tt| | |]; try done. cbn [rbind]. by destruct (recycle _).
Qed.
End Path.

(** ** Witness *)
#[local] Existing Instances ios.

(** The next three bytes for the connection of the example. *)
Definition path_k : packet := mk_packet (IP4_ADDR 10 0 0 2) (IP4_ADDR 93 184 216 34) 5555 80 1004 6511 24 20000 [] [4; 5; 6] 64 0.
Definition path_out : opkt := mk_opkt (repeat 0 34) (mk_pkt 23 [mk_buf 1 (segment_bytes path_k)] []) 1.

Lemma path_k_sendable : sendable path_k.
Proof. split; vm_compute; repeat split; try discriminate; repeat constructor; discriminate. Qed.

Lemma path_can_send : can_send path_out.
Proof.
  split; [split; [reflexivity|discriminate|vm_compute; discriminate|]|reflexivity|split; [vm_compute; discriminate|]|vm_compute; discriminate]; apply (bool_decide_unpack _); vm_compute; exact I.
Qed.

Lemma tunnel_roundtrip_witness : exists c p' d i t w', ip4_output_if (fun _ => ERR_OK) path_out (Some (pk_src path_k)) (Some (pk_dst path_k)) 64 0 IP_PROTO_TCP (tun_nif 1 0) (mk_ipout 7 [] []) = Some (ERR_OK, p', mk_ipout 8 [] [c])
  /\ (exists Y r lp j, running demo_w (nw Y) r lp j /\ tcp_input_header (ip := net_ip (nw Y)) (pk_src path_k) (pk_dst path_k) (TUN, tun_nif r j) d = Ok (Some (i, t)) /\ carries path_k (nif_index (tun_nif r j)) i t)
  /\ inputPacket no_raw (cbytes c) [] [] demo_w = Ok w'.
Proof.
  destruct demo_w_ok as [_ _ _ (Y & [T1 _ _ _ T5])]. destruct T5 as [St|(r & lp & j & Rn)]; [exfalso; pose proof (st_ready _ _ St) as E; vm_compute in E; discriminate|].
  assert (Er : match mc_sys (tenv (tm demo_w)) with Ok Y => raw_pcbs (raw (nw Y)) | _ => [] end = []) by (vm_compute; reflexivity). rewrite T1 in Er.
  destruct (tunnel_roundtrip no_raw (fun _ => ERR_OK) path_k path_out 1 0 (mk_ipout 7 [] []) demo_w Y r lp j [] [] 9192 [9000] path_k_sendable) as (c & p' & E & rs & d & i & t & _ & Et & Ct & Ei);
    [vm_compute; discriminate|split; [vm_compute; discriminate|reflexivity]..|vm_compute; discriminate|exact path_can_send|reflexivity|split; [vm_compute; discriminate|reflexivity]|exact T1|exact Rn|exact Er|vm_compute; reflexivity|constructor|vm_compute; reflexivity|vm_compute; reflexivity|].
  assert (Hw : exists w', inputPacket no_raw (cbytes c) [] [] demo_w = Ok w').
  { pose proof E as E'. vm_compute in E'. injection E' as _ <-. match goal with |- exists w', ?x = Ok w' => assert (Hx : match x with Ok _ => true | _ => false end = true) by (vm_compute; reflexivity); destruct x as [w'| | |]; try discriminate Hx end. exists w'. reflexivity. }
  destruct Hw as [w' Hw]. exists c, p', (p_chain d), i, t, w'. split; [exact E|]. split; [|exact Hw]. exists Y, r, lp, j. split; [exact Rn|]. split; [exact Et|exact Ct].
Defined.
