(* ===== verification/TunWf.v ===== *)
(** * TunWf: the whole stack keeps TCP well-formed

    The invariant of TcpWfRun through the interfaces, IP input with reassembly,
    the timers and every method of TFIPStack: whatever the object is asked to
    do, the segments TCP adds to the wire are bytes of at most 1500 with their
    headers. *)

From S2P Require Import Prelude Def Ip4Addr Opts Mem Memp Pbuf Timeouts Chksum TcpPcb TcpOut TcpIn Ip4Hdr Ip4Frag Ip4FragFacts Ip4Reass TcpStack TcpInput TcpTimer TcpSafety TcpCalls TcpSafeIn TcpSafeRun TcpSafeTmr TcpSafeApi TcpProps TcpListen TcpWire TcpWf TcpWfRun Raw Netif NetifFacts Ip4 Ip4Facts IpStack IpStackFacts.

Lemma when_get {A B} (r : res A) (k : A -> res B) Q : (forall y, r = Ok y -> when (k y) Q) -> when (rbind r k) Q.
Proof. destruct r; cbn; auto. Qed.

(** ** Interfaces *)

(** The address has 32 bits; no MTU is set, or that of the tunnel. *)
Definition nif_ok (n : nif) : Prop := is_u32 (n_ip_addr n) /\ (n_mtu n = 0 \/ n_mtu n = TUNFORGE_NETIF_IPV4_MTU).
Definition nifs_ok (N : net) : Prop := forall a n, nifs N !! a = Some n -> nif_ok n.

Lemma first_nif f N l : forall a n, nif_first f l N = Some (a, n) -> nifs N !! a = Some n.
Proof.
  induction l as [|b l IH]; intros a n; cbn; [done|]. destruct (nifs N !! b) as [m|] eqn:E; [|apply IH]. destruct (f m); [intros [= <- <-]; exact E|apply IH].
Qed.

Lemma net_ip_ok N : nifs_ok N -> IpOk (net_ip N).
Proof.
  intros H. split; cbn.
  - intros _ dst [a n]. unfold ip4_route. destruct (nif_first _ _ _) as [[b m]|] eqn:E; [intros [= <- <-]; apply (proj1 (H _ _ (first_nif _ _ _ _ _ E)))|].
    destruct (nifs N !! netif_default N) as [d|] eqn:E'; [|done]. destruct (_ || _); [done|]. intros [= <- <-]. exact (proj1 (H _ _ E')).
  - intros i [a n]. unfold netif_get_by_index. destruct (negb _); [|done]. intros E. exact (proj1 (H _ _ (first_nif _ _ _ _ _ E))).
Qed.

Section Wf.
Context {o : Opts} {ook : OptsOk o} {W : Sent}.

Definition wfn (N : net) : Prop := wf (tcp N) /\ nifs_ok N.

Lemma wfn_tcp t N : wfn N -> wf t -> wfn (N <| tcp := t |>).
Proof. intros [_ H] Ht. by split. Qed.

(** Code of TCP on the network. *)
Lemma wfn_run {A B} `{Stacked A} (r : res A) (k : A -> res B) Q : wr r -> (forall y, wf (stack_of y) -> when (k y) Q) -> when (rbind r k) Q.
Proof. destruct r as [y| | |]; cbn; auto. Qed.

Lemma wfn_nif a n N : wfn N -> nif_ok n -> wfn (N <| nifs := <[a := n]> (nifs N) |>).
Proof.
  intros [H1 H2] Hn. split; [exact H1|]. intros b m. cbn. destruct (decide (b = a)) as [->|Hb]; [rewrite lookup_insert_eq; by intros [= <-]|rewrite lookup_insert_ne by done; apply H2].
Qed.

Lemma wfn_updn a f N : wfn N -> (forall n, nif_ok n -> nif_ok (f n)) -> when (updn a f N) wfn.
Proof. intros HN Hf. unfold updn, getn. destruct (nifs N !! a) as [n|] eqn:E; [|done]. cbn. apply wfn_nif; [done|]. apply Hf, (proj2 HN _ _ E). Qed.

Lemma wfn_pcblist N old l : IpOk (net_ip N) -> forall S, wf S -> wr (tcp_netif_ip_addr_changed_pcblist (ip := net_ip N) old l S).
Proof.
  intros Hi. induction l as [|a l IH]; intros S Hs; cbn [tcp_netif_ip_addr_changed_pcblist]; [exact Hs|]. apply wr_get; [done|]. intros c E Hc. destruct (_ =? _); [|by apply IH]. eapply wr_bind; [by apply abort_wr|]. intros S1 H1. by apply IH.
Qed.

Lemma wfn_moved old nw l : forall S, wf S -> wr (listeners_moved old nw l S).
Proof.
  induction l as [|a l IH]; intros S Hs; cbn [listeners_moved]; [exact Hs|]. apply wr_read. intros c. apply IH. destruct (_ =? _); exact Hs.
Qed.

Lemma wfn_changed old new N : wfn N -> when (netif_do_ip_addr_changed old new N) wfn.
Proof.
  intros HN. pose proof (net_ip_ok N (proj2 HN)) as Hi. unfold netif_do_ip_addr_changed. apply (wfn_run (A := stack)).
  - unfold tcp_netif_ip_addr_changed. destruct old as [old|]; [|apply HN]. destruct (negb _); [|apply HN]. eapply wr_bind; [apply wfn_pcblist; [done|apply HN]|]. intros S1 H1. cbn in H1.
    eapply wr_bind; [by apply wfn_pcblist|]. intros S2 H2. cbn in H2. destruct new as [nw|]; [|exact H2]. destruct (negb _); [by apply wfn_moved|exact H2].
  - intros t Ht. cbn. exact (wfn_tcp t N HN Ht).
Qed.

Lemma wfn_set_ipaddr a i N : wfn N -> is_u32 i -> when (netif_do_set_ipaddr a i N) (fun '(_, N) => wfn N).
Proof.
  intros HN Hi. unfold netif_do_set_ipaddr. apply when_get. intros n _. destruct (negb _); [|exact HN]. eapply when_bind; [by apply wfn_changed|]. intros N1 H1. eapply when_bind; [apply wfn_updn; [done|by intros m []]|]. by intros N2 H2.
Qed.

Lemma wfn_set_addr a i m g N : wfn N -> is_u32 (default IPADDR_ANY i) -> when (netif_set_addr a i m g N) wfn.
Proof.
  intros HN Hi. unfold netif_set_addr. cbv zeta. eapply (when_bind _ _ wfn).
  { destruct (_ =? _); [|exact HN]. eapply when_bind; [by apply wfn_set_ipaddr|]. by intros [_ N1] H1. }
  intros N1 H1. eapply (when_bind _ _ (fun '(_, N) => wfn N)).
  { unfold netif_do_set_netmask. apply when_get. intros n _. destruct (negb _); [|exact H1]. eapply when_bind; [by apply wfn_updn|]. by intros N2 H2. }
  intros [_ N2] H2. eapply (when_bind _ _ (fun '(_, N) => wfn N)).
  { unfold netif_do_set_gw. apply when_get. intros n _. destruct (negb _); [|exact H2]. eapply when_bind; [by apply wfn_updn|]. by intros N3 H3. }
  intros [_ N3] H3. destruct (negb _); [|exact H3]. eapply when_bind; [by apply wfn_set_ipaddr|]. by intros [_ N4] H4.
Qed.

Lemma wfn_add a i m g st (init : nif -> err_t * nif) inp N : wfn N -> is_u32 (default IPADDR_ANY i) -> (forall n, nif_ok n -> nif_ok (init n).2) ->
  when (netif_add a i m g st (Some init) inp N) (fun '(_, N) => wfn N).
Proof.
  intros HN Hi Hinit. unfold netif_add. destruct (a =? 0); [exact HN|]. apply when_get. intros n0 _. cbv zeta. eapply when_bind; [apply wfn_set_addr; [apply wfn_nif; [done|by split; [|left]]|exact Hi]|]. intros N1 H1.
  apply when_get. intros n En. unfold getn in En. destruct (nifs N1 !! a) as [n'|] eqn:E; [|done]. injection En as ->. pose proof (Hinit n (proj2 H1 _ _ E)) as Hn. destruct (init n) as [e n2]. cbn in Hn.
  assert (H2 : wfn (N1 <| nifs := <[a := n2]> (nifs N1) |>)) by (by apply wfn_nif). destruct (negb _); [exact H2|]. apply when_get. intros num _. eapply when_bind; [by apply wfn_updn|]. by intros N3 H3.
Qed.

Lemma wfn_set_up a N : wfn N -> when (netif_set_up a N) wfn.
Proof. intros HN. unfold netif_set_up. destruct (a =? 0); [exact HN|]. apply when_get. intros n _. destruct (negb _); [by apply wfn_updn|exact HN]. Qed.
Lemma wfn_set_down a N : wfn N -> when (netif_set_down a N) wfn.
Proof. intros HN. unfold netif_set_down. destruct (a =? 0); [exact HN|]. apply when_get. intros n _. destruct (flag_set _ _); [by apply wfn_updn|exact HN]. Qed.
Lemma wfn_set_link_up a N : wfn N -> when (netif_set_link_up a N) wfn.
Proof. intros HN. unfold netif_set_link_up. destruct (a =? 0); [exact HN|]. apply when_get. intros n _. destruct (negb _); [by apply wfn_updn|exact HN]. Qed.

Lemma wfn_remove a N : wfn N -> when (netif_remove a N) wfn.
Proof.
  intros HN. unfold netif_remove. destruct (a =? 0); [exact HN|]. apply when_get. intros n _. eapply (when_bind _ _ wfn); [destruct (negb _); [by apply wfn_changed|exact HN]|]. intros N1 H1. apply when_get. intros n1 _.
  eapply (when_bind _ _ wfn); [destruct (netif_is_up n1); [by apply wfn_set_down|exact H1]|]. intros N2 H2. cbn. destruct (_ =? _); exact H2.
Qed.

(** ** Starting and stopping *)
Lemma wfn_setup r N : wfn N -> when (setup_lwip r N) (fun '(_, N) => wfn N).
Proof.
  intros HN. unfold setup_lwip. eapply (when_bind _ _ wfn).
  { unfold tunforge_netif_setup. cbv zeta. eapply when_bind; [apply wfn_add; [done|done|by intros n [Hn _]; split; [|right]]|]. intros [ret N1] H1. destruct (negb _); [|done]. apply when_get. intros n _. destruct (n_input n); [|done].
    eapply when_bind; [by apply wfn_set_up|]. intros N2 H2. eapply when_bind; [by apply wfn_set_link_up|]. by intros N3 H3. }
  intros N1 H1. eapply when_bind; [by apply wfn_updn|]. intros N2 H2. cbv zeta. set (N3 := netif_set_default TUN N2). assert (H3 : wfn N3) by exact H2. pose proof (net_ip_ok N3 (proj2 H3)) as Hi. apply wfn_run; [apply alloc_wr, H3|]. intros [pcb t] Ht. cbn in Ht.
  destruct (negb _); [|done]. apply wfn_run; [by apply bind_wr|]. intros [e t1] Ht1. cbn in Ht1. destruct (err_ok e); [|done]. apply wfn_run; [by apply listen_wr|]. intros [[lp e'] t2] Ht2. cbn in Ht2. destruct (err_ok e'); [|done].
  apply wfn_run; [by apply accept_wr|]. intros t3 Ht3. cbn. exact (wfn_tcp t3 N3 H3 Ht3).
Qed.

Lemma wfn_close_listener lp N : wfn N -> when (close_listener lp N) (fun '(_, N) => wfn N).
Proof.
  intros HN. unfold close_listener. apply wfn_run; [apply accept_wr, HN|]. intros t Ht. cbn in Ht. apply wfn_run; [by apply close_listen_wr|]. intros t1 Ht1. cbn. exact (wfn_tcp t1 N HN Ht1).
Qed.

Lemma wfn_remove_netif st N : wfn N -> when (remove_netif st N) (fun '(_, N) => wfn N).
Proof.
  intros HN. unfold remove_netif. apply when_get. intros n _. destruct (_ =? _); [|exact HN]. eapply when_bind; [by apply wfn_set_down|]. intros N1 H1. eapply when_bind; [by apply wfn_remove|]. intros N2 H2. eapply when_bind; [by apply wfn_updn|]. by intros N3 H3.
Qed.

(** ** A connection *)
Definition wf_conn (k : conn_op) : Prop := match k with CCall k => wf_call k | _ => True end.

Lemma wfn_conn a k N : wfn N -> wf_conn k -> when (run_conn a k N) (fun '(_, N) => wfn N).
Proof.
  intros HN Hk. pose proof (net_ip_ok N (proj2 HN)) as Hi. unfold run_conn. cbv zeta. set (x := match k with CCall k => _ | _ => _ end). destruct (allowed _ _); [|exact HN]. apply (wfn_run (A := stack)); [apply run_op_wr; [apply HN|by destruct k]|].
  intros t Ht. cbn. exact (wfn_tcp t N HN Ht).
Qed.

(** ** Reassembly *)

(** Headers and fragments are bytes. *)
Definition rd_u8 (r : ip_reassdata) : Prop := Forall is_u8 (r_iphdr r) /\ Forall (fun f => Forall is_u8 (p_bytes (fr_p f))) (r_p r).
Definition rd_bytes (r : ip_reassdata) : Prop := rd_wf r /\ rd_u8 r.

Lemma rd_bytes_stable p : fragment_ok p -> stable rd_bytes p.
Proof.
  intros Hp. destruct (rd_wf_stable p Hp) as [W1 W2 W3]. pose proof (pk_u8 _ (fo_pkt _ Hp)) as Hu. pose proof (iphdr_u8 _ Hu) as Hh. apply Forall_app in Hu as [Hu _]. split.
  - intros a. split; [done|]. by split; [|constructor].
  - intros r [Hr [_ Hf]] Hm Ho. split; [by apply W2|]. by split.
  - intros r v q ([Hr [Hi Hf]] & Hm & Ho & Hmax & Hc & Hv). split; [apply (W3 r v q); unfold queueable; tauto|]. destruct (chain_verdict r p v q Hc Hv) as (Hperm & _).
    assert (Hq : Forall (fun f => Forall is_u8 (p_bytes (fr_p f))) q) by (rewrite Hperm; by constructor). unfold queue_rd. destruct (is_last_of p); split; done.
Qed.

Lemma set_iphdr_u8 h p : Forall is_u8 h -> Forall is_u8 (p_bytes p) -> Forall is_u8 (p_bytes (set_iphdr h p)).
Proof.
  intros Hh Hp. unfold p_bytes, p_chain, cbytes, set_iphdr in *. destruct (p_bufs p) as [|b l] eqn:E; [by rewrite E|]. cbn in *. apply Forall_app in Hp as [H1 H2]. rewrite !Forall_app. split; [|done]. split; [done|by apply Forall_drop].
Qed.

Lemma remove_header_u8 n p : Forall is_u8 (p_bytes p) -> Forall is_u8 (p_bytes (pbuf_remove_header n p)).
Proof.
  intros Hp. unfold p_bytes, p_chain, cbytes, pbuf_remove_header in *. destruct (p_bufs p) as [|b l] eqn:E; [by rewrite E|]. destruct (_ <? _); [by rewrite E|]. cbn in *. apply Forall_app in Hp as [H1 H2]. apply Forall_app. split; [by apply Forall_drop|done].
Qed.

Lemma join_u8 hdr n q d : Forall is_u8 hdr -> Forall (fun f => Forall is_u8 (p_bytes (fr_p f))) q -> join_frags hdr n q = Some d -> Forall is_u8 (p_bytes d).
Proof.
  intros Hh Hq. destruct q as [|f l]; [done|]. apply Forall_cons in Hq as [Hf Hl]. cbn [join_frags]. set (h := IPH_CHKSUM_SET _ (inet_chksum _ _)). intros [= <-].
  assert (Hs : Forall is_u8 (p_bytes (set_iphdr h (fr_p f)))) by (apply set_iphdr_u8; [unfold h, IPH_CHKSUM_SET, IPH_OFFSET_SET, IPH_LEN_SET; by repeat apply st16_u8|done]). revert Hs. generalize (set_iphdr h (fr_p f)).
  induction Hl as [|g l Hg Hl IH]; intros p Hp; [exact Hp|]. cbn. apply IH. rewrite p_bytes_cat. apply Forall_app. split; [done|by apply remove_header_u8].
Qed.

Lemma delivered_u8 p d : fragment_ok p -> delivered rd_bytes p d -> Forall is_u8 (p_bytes d).
Proof.
  intros Hp (r & q & Hq & Hj). destruct (rd_bytes_stable p Hp) as [_ _ Hst]. destruct (Hst _ _ _ Hq) as [_ [H1 H2]]. by apply (join_u8 _ _ _ _ H1 H2 Hj).
Qed.

Lemma inv_bytes S : inv rd_wf S -> Forall rd_u8 (reassdatagrams S) -> inv rd_bytes S.
Proof. intros [] H. split; try done. apply Forall_forall. intros r Hr. rewrite Forall_forall in *. by split; auto. Qed.
Lemma inv_u8 S : inv rd_bytes S -> Forall rd_u8 (reassdatagrams S).
Proof. intros I. apply (Forall_impl rd_bytes); [apply I|]. by intros r [_ H]. Qed.

(** ** Receiving *)
Definition wfy (Y : sys) : Prop := wfn (nw Y) /\ Forall rd_u8 (reassdatagrams (ra Y)).

Section Receive.
Variable recv : Z -> Z -> pkt -> Z -> bool.

Lemma wfy_deliver p hl src dest inp n Y : wfy Y -> Forall is_u8 (p_bytes p) -> is_u32 src -> is_u32 dest -> when (ip4_deliver recv p hl src dest inp n Y) wfy.
Proof.
  intros [HN HR] Hp Hs Hd. unfold ip4_deliver. destruct (raw_input _ _ _ _) as [[st l] R]. cbv zeta. set (Y1 := Y <| nw := _ |>). assert (H1 : wfn (nw Y1)) by exact HN. pose proof (net_ip_ok (nw Y1) (proj2 H1)) as Hi.
  assert (Hrest : when (let p0 := pbuf_remove_header hl p in if IPH_PROTO (iphdr_of p) =? IP_PROTO_TCP
    then let+ t := tcp_input (ip := net_ip (nw Y1)) src dest (inp, n) (p_chain p0) (tcp (nw Y1)) in Ok (Y1 <| nw := (nw Y1) <| tcp := t |> |> <| handed := handed Y1 ++ [p0] |>) else Ok (drop_pkt p0 Y1)) wfy).
  { cbv zeta. destruct (_ =? _); [|by split]. apply (wfn_run (A := stack)); [apply (tcp_input_wr (ip := net_ip (nw Y1))); [apply H1|done|done|by apply remove_header_u8]|]. intros t Ht. cbn. split; [exact (wfn_tcp t (nw Y1) H1 Ht)|exact HR]. }
  destruct st; [exact Hrest|by split|exact Hrest].
Qed.

Lemma wfy_input p inp n Y : sys_ok Y -> wfy Y -> pkt_ok p -> lenz (p_bufs p) <= 65535 -> nifs (nw Y) !! inp = Some n -> when (ip4_input recv p inp Y) (fun '(_, Y) => wfy Y).
Proof.
  intros HY Hw Hp Hb En. pose proof (input_cases recv p inp n Y Hp En) as Hc. destruct (ip_valid p n) eqn:Hv; [|by destruct Hc as (l & Hl & ->)].
  destruct Hc as (p' & fr & T & ->). set (Y1 := free_addrs _ Y). assert (H1 : wfy Y1) by exact Hw. pose proof (iphdr_u8 _ (pk_u8 _ Hp)) as Hh. pose proof (pk_u8 _ (tr_ok _ _ _ T)) as Hu. apply Forall_app in Hu as [Hu _].
  assert (Hs : is_u32 (IPH_SRC (iphdr_of p)) /\ is_u32 (IPH_DEST (iphdr_of p))) by (split; by apply ld32_range). destruct Hs as [Hs Hd]. unfold accept. destruct (is_fragment p) eqn:Hf.
  - pose proof (trimmed_fragment recv p p' fr n T Hv Hf Hb) as Hfo. destruct (rd_bytes_stable p' Hfo) as [N1 N2 N3].
    destruct (ip4_reass_ok rd_bytes p' Hfo N1 N2 (fun r H => rd_wf_flag r (proj1 H)) N3 (ra Y1)) as (out & ra' & -> & [I1 _ _ I4]); [apply inv_bytes; [apply (free_inv rd_wf _ _ (so_reass _ HY))|apply H1]|]. cbn [sure rbind]. destruct out as [d|].
    + eapply when_bind; [apply wfy_deliver; [split; [apply H1|exact (inv_u8 _ I1)]|by apply (delivered_u8 p'); [|apply I4]|done|done]|]. by intros Y2 H2.
    + split; [apply H1|exact (inv_u8 _ I1)].
  - eapply when_bind; [by apply wfy_deliver|]. by intros Y2 H2.
Qed.

Lemma wfy_netif_input rs p n Y : Forall nice rs -> Forall wf_reaction rs -> sys_ok Y -> wfy Y -> pkt_ok p -> lenz (p_bufs p) <= 65535 -> nifs (nw Y) !! TUN = Some n ->
  when (netif_input recv rs p Y) (fun '(_, Y) => wfy Y).
Proof.
  intros Hn Hr HY [[(H1 & H2 & A1 & A2 & A3 & A4 & A5) H3] H4] Hp Hb En. unfold netif_input. cbv zeta. apply (wfy_input p TUN n); [by apply nice_sys| |done|done|done]. split; [|exact H4]. split; [|exact H3]. split; [exact H1|]. split; [exact H2|]. by repeat split.
Qed.
End Receive.

(** ** The timers *)
Lemma wf_free_ooseq l : forall S, wf S -> wr (free_ooseq_walk l S).
Proof.
  induction l as [|a l IH]; intros S Hs; cbn [free_ooseq_walk]; [exact Hs|]. apply wr_get; [done|]. intros c E Hc. destruct (negb _); [|by apply IH]. apply updc_wr; [done|]. intros p Hp. exact Hp.
Qed.

Definition good_m (Y0 : sys) (m : machine) : Prop := quiet_m Y0 m /\ when (mc_sys m) wfy.

Lemma step_good Y0 f m : (forall Y, sys_ok Y -> wfy Y -> when (f Y) wfy) -> quiet_m Y0 m -> when (mc_sys m) wfy -> when (mc_sys (step_sys f m)) wfy.
Proof. unfold quiet_m, step_sys. intros Hf Hq Hw. cbn. destruct (mc_sys m) as [Y| | |]; try done. cbn in *. apply Hf; [apply Hq|done]. Qed.

Lemma on_tcp_good f Y : wfy Y -> wr (f (tcp (nw Y))) -> when (on_tcp f Y) wfy.
Proof. intros [H1 H2] Hf. unfold on_tcp. apply (wfn_run (A := stack)); [exact Hf|]. intros t Ht. cbn. split; [exact (wfn_tcp t (nw Y) H1 Ht)|exact H2]. Qed.

Lemma good_stable Y0 : handlers_keep (te := tun_env) (good_m Y0).
Proof.
  destruct (quiet_stable Y0) as [Q1 Q2 Q3 Q4]. split.
  - intros e [Hq Hw]. split; [by apply Q1|]. cbn. apply (step_good Y0); [|done|done]. intros Y _ HY. apply on_tcp_good; [done|]. apply (tmr_wr (iok := net_ip_ok (nw Y) (proj2 (proj1 HY)))), HY.
  - intros e [Hq Hw]. split; [by apply Q2|]. cbn. apply (step_good Y0); [|done|done]. intros Y HY [H1 H2].
    destruct (ip_reass_tmr_ok rd_bytes (fun r H Ht => conj (rd_wf_timer r (proj1 H) Ht) (proj2 H)) (ra Y) (inv_bytes _ (so_reass _ HY) H2)) as (r & -> & K1 & _). cbn. split; [exact H1|exact (inv_u8 _ K1)].
  - intros e [Hq Hw]. split; [by apply Q3|]. cbn. destruct (ooseq_pending e); [|done]. apply (step_good Y0); [|done|done]. intros Y _ HY. apply on_tcp_good; [done|]. apply wf_free_ooseq, HY.
  - done.
Qed.

(** ** The object *)
Definition wft (w : tun) : Prop := tm_ok (tm w) /\ exists Y, mc_sys (tenv (tm w)) = Ok Y /\ wfy Y.

Lemma wft_same w w' : wft w -> tm w' = tm w -> wft w'.
Proof. unfold wft. by intros H ->. Qed.

Lemma on_sys_wf {R} (f : sys -> res (R * sys)) w : wft w -> (forall Y, mc_sys (tenv (tm w)) = Ok Y -> wfy Y -> when (f Y) (fun '(_, Y) => wfy Y)) -> when (on_sys f w) (fun '(_, w) => wft w).
Proof.
  intros (Ht & Y & E & HY) Hf. unfold on_sys. rewrite E. cbn [rbind]. eapply when_bind; [by apply Hf|]. intros [r Y'] HY'. cbn beta iota. cbv zeta. set (w1 := set_sys Y' w).
  destruct (timer_calls_total (timer_calls (tcp (nw Y)) (tcp (nw Y'))) (tm w1)) as (t & -> & H1 & H2); [by destruct Ht|]. cbn [sure rbind when]. split; [exact H1|]. exists Y'. split; [|done]. change (mc_sys (tenv t) = Ok Y'). by rewrite H2.
Qed.

Lemma on_net_wf {R} (f : net -> res (R * net)) w : wft w -> (forall N, wfn N -> when (f N) (fun '(_, N) => wfn N)) -> when (on_sys (on_net f) w) (fun '(_, w) => wft w).
Proof. intros Hw Hf. apply on_sys_wf; [done|]. intros Y _ [H1 H2]. unfold on_net. eapply when_bind; [by apply Hf|]. intros [r N] HN. by split. Qed.

Lemma release_tm a w : when (release a w) (fun w' => tm w' = tm w).
Proof. unfold release. destruct (a =? 0); [done|]. by apply when_get. Qed.
Lemma invalidate_tm a w : when (invalidate a w) (fun w' => tm w' = tm w).
Proof. unfold invalidate. destruct (a =? 0); [done|]. by apply when_get. Qed.

Lemma release_wf a w : wft w -> when (release a w) wft.
Proof. intros Hw. eapply when_mono; [apply release_tm|]. intros w' E. by apply (wft_same w). Qed.

Lemma start_wf w : wft w -> when (start w) wft.
Proof.
  intros Hw. unfold start. apply when_get. intros alive _. eapply (when_bind _ _ wft).
  { destruct (negb alive); [|exact Hw]. unfold new_stackRef. cbv zeta. eapply when_bind; [by apply release_wf|]. by intros w1 H1. }
  intros w1 [T1 (Y1 & E1 & H1)]. destruct (restart_ok _ T1) as [R1 R2]. cbv zeta. set (w2 := w1 <| tm := _ |> <| self := _ |>). assert (H2 : wft w2) by (split; [exact R1|exists Y1; split; [change (tm w2) with (sys_restart_timeouts (tm w1)); by rewrite R2|done]]).
  unfold setupLockedOnLWIPQueue. destruct (s_ready _); [exact H2|]. cbv zeta. eapply (when_bind _ _ wft); [unfold retain; apply when_get; intros r _; exact H2|]. intros w3 H3. eapply when_bind; [apply on_net_wf; [exact H3|intros N; apply wfn_setup]|]. by intros [lp w4] H4.
Qed.

Lemma stop_wf w : wft w -> when (stop w) wft.
Proof.
  intros Hw. unfold stop. cbv zeta. eapply (when_bind _ _ wft); [eapply when_mono; [apply invalidate_tm|]; intros w' E; by apply (wft_same w)|]. intros w1 H1. eapply when_bind; [by apply release_wf|]. intros w2 H2. eapply (when_bind _ _ wft).
  { destruct (negb _); [|exact H2]. eapply when_bind; [apply on_net_wf; [exact H2|intros N; apply wfn_close_listener]|]. by intros [_ w3] H3. }
  intros w3 H3. eapply when_bind; [apply on_net_wf; [exact H3|intros N; apply wfn_remove_netif]|]. intros [_ w4] H4. eapply when_bind; [by apply release_wf|]. by intros w5 H5.
Qed.

Lemma recycle_wf w : wft w -> when (recycle w) wft.
Proof. intros (Ht & Y & E & HY). unfold recycle. rewrite E. cbn. split; [by destruct Ht|]. by exists (Y <| ra := (ra Y) <| freed := [] |> |>). Qed.

Lemma accepts_wf conns w : when (accepts conns w) (Forall wf_reaction).
Proof.
  induction conns as [|b conns IH]; cbn [accepts]; [constructor|]. unfold tunforge_accept. apply when_get. intros r Hr. apply rbind_Ok in Hr as (s & _ & [= <-]). eapply when_bind; [exact IH|]. intros l Hl. cbn. constructor; [|done]. repeat case_match; repeat constructor.
Qed.

Lemma input_wf recv B packet stale conns w : Forall is_u8 packet -> Forall is_u8 stale -> tun_ok B w -> wft w -> when (inputPacket recv packet stale conns w) wft.
Proof.
  intros Hpk Hst Hok Hw. destruct (tun_loose B w Hok) as (Y & L & _). unfold inputPacket. cbv zeta. destruct (_ || _) eqn:Elen; [exact Hw|]. apply orb_false_iff in Elen as [Ez%Z.eqb_neq _]. apply when_get. intros alive _. destruct (negb alive); [exact Hw|].
  destruct (negb _); [exact Hw|]. rewrite (lo_sys _ _ _ L). cbn [rbind]. apply when_get. intros n En. unfold getn in En. destruct (nifs (nw Y) !! TUN) as [n'|] eqn:E; [|done]. destruct (negb _); [exact Hw|]. destruct (pool_bufs _ _) as [[l rest]|] eqn:Ep.
  - destruct (in_packet _ _ _ _ _ _ eq_refl Ez Hpk Hst Ep) as (P1 & P2 & _ & _). pose proof (accepts_wf conns w) as Hrs. destruct (accepts_ok w (nw Y) conns (lo_phase _ _ _ L)) as (rs & Ers & Hnice). rewrite Ers in Hrs |- *. cbn [rbind]. cbn in Hrs.
    eapply when_bind; [apply (on_sys_wf _ (w <| pbufs := rest |>)); [exact Hw|]|].
    + intros Y' EY. change (mc_sys (tenv (tm w)) = Ok Y') in EY. rewrite (lo_sys _ _ _ L) in EY. injection EY as <-. intros HY. apply (wfy_netif_input recv rs _ n'); try done. apply L.
    + intros [e w2] H2. eapply when_bind; [by apply recycle_wf|]. intros w3 H3. cbn. by destruct (err_ok e).
  - destruct Hw as (Ht & Y' & E' & HY'). cbn. split; [by destruct Ht|]. by exists Y'.
Qed.

Lemma tick_wf B w : tun_ok B w -> wft w -> when (tick w) wft.
Proof.
  intros Hok (_ & Y' & E' & HY'). destruct (tun_loose B w Hok) as (Y & L & _). unfold tick. destruct (s_timer (self w)); [|split; [apply L|by exists Y']]. pose proof L as [H1 H2 H3 H4 H5 H6 H7]. rewrite H4 in E'. injection E' as <-.
  destruct (check_total (te := tun_env) (good_m Y) (clock (tenv (tm w))) (good_stable Y) tun_clock_stops H2 (S (2 * length (next_timeout (tm w)))) (tm w)) as (s & Es & K1 & [_ K2] & K3); try done.
  { unfold good_m, quiet_m. rewrite H4. split; [by apply quiet_refl|exact HY']. } { pose proof (lates_le (clock (tenv (tm w))) (next_timeout (tm w))). lia. }
  unfold sys_check_timeouts. change (@sys_now tun_env (tenv (tm w))) with (clock (tenv (tm w))). rewrite Es. cbn [sure rbind]. destruct (mc_sys (tenv s)) as [Y2| | |] eqn:Em.
  - apply recycle_wf. split; [exact K1|]. by exists Y2.
  - unfold recycle. cbn. by rewrite Em.
  - unfold recycle. cbn. by rewrite Em.
  - unfold recycle. cbn. by rewrite Em.
Qed.

(** What the arguments of an operation must be: bytes. *)
Definition wf_tun_op (x : tun_op) : Prop := tun_op_ok x /\ match x with TConn _ k => wf_conn k | _ => True end.

Lemma run_tun_op_wf recv B x w : wf_tun_op x -> tun_ok B w -> wft w -> when (run_tun_op recv x w) wft.
Proof.
  intros [Hx Hk] Hok Hw. destruct x; cbn [run_tun_op].
  - by apply start_wf.
  - by apply stop_wf.
  - destruct Hx. by apply (input_wf recv B).
  - eapply (when_bind _ _ (fun '(_, w) => wft w)); [|by intros [e w'] H]. unfold tunforge_output. apply when_get. intros Y _. apply when_get. intros n _. apply when_get. intros b _. cbn. destruct (negb b); [exact Hw|]. unfold outputPacket. cbv zeta. by repeat case_match.
  - apply (tick_wf B); [by apply clock_ok|]. destruct Hw as (Ht & Y & E & HY). split; [by destruct Ht|]. by exists Y.
  - destruct Hw as (Ht & Y & E & HY). split; [by destruct Ht|]. by exists Y.
  - eapply when_bind; [apply on_net_wf; [exact Hw|intros N HN; by apply wfn_conn]|]. by intros [_ w'] H.
  - destruct Hw as (Ht & Y & E & HY). unfold release_handed. rewrite E. cbn [rbind]. destruct (handed Y !! i) as [p|]; cbn; (split; [by destruct Ht|]); eexists; by split.
  - exact Hw.
  - exact Hw.
Qed.
End Wf.
