(* ===== verification/Tunnel.v ===== *)
(** * Tunnel: from TCP to the outbound handler

    What TCP hands to [ip_output_if] while the object does something goes on
    through [ip4_output_if] (src/Sources/Lwip/src/core/ipv4/ip4.c) and
    [tunforge_output] (src/Sources/TunForgeCore/TFIPStack.m) to the outbound
    handler; [step] is an operation of the object with these packets.  None of
    the operations makes the handler reachable or unreachable between the
    packets it causes and its end ([stop] invalidates the bridge first, [start]
    has set it up before TCP is touched), so they are handed on in the order in
    which TCP made them when the operation is over.

    Where in memory TCP writes a segment is a parameter, [Layout]. *)

From S2P Require Import Prelude Def Ip4Addr Opts Mem Memp Pbuf Timeouts Chksum TcpPcb TcpOut TcpIn Ip4Hdr Ip4Frag Ip4FragFacts Ip4Reass TcpStack TcpInput TcpTimer TcpSafety TcpCalls TcpSafeIn TcpSafeRun TcpSafeTmr TcpSafeApi TcpProps TcpListen TcpWire TcpWf TcpWfRun Raw Netif NetifFacts Ip4Out Ip4OutFacts Ip4 Ip4Facts IpStack IpStackFacts IpStackProps TunWf.

(** The buffers of a segment: unshared, with room for the IP header in front. *)
Class Layout := {
  lay : packet -> opkt;
  lay_send k : wf_pkt k -> can_send (lay k);
  lay_bytes k : wf_pkt k -> p_bytes (o_pkt (lay k)) = segment_bytes k }.

Section Tunnel.
Context {o : Opts} {L : Layout}.
Variable recv : Z -> Z -> pkt -> Z -> bool.

(** ** Definitions *)

(** The object, and [ip_id] of ip4.c. *)
Record tunnel := mk_tunnel { tu : tun; tu_id : Z }.

(** What [netif->output] gets, as a pbuf. *)
Definition of_chain (c : chain) : pkt := mk_pkt (lenz (cbytes c)) (map (mk_buf 0) c) [].

Fixpoint outputs (cs : list chain) (w : tun) : res tun :=
  match cs with [] => Ok w | c :: cs => let+ (_, w) := tunforge_output (of_chain c) w in outputs cs w end.

(** [ip_output_if] of a segment of TCP on the tunnel's interface. *)
Definition send_segment (k : packet) (x : tunnel) : res (err_t * tunnel) :=
  let+ Y := mc_sys (tenv (tm (tu x))) in
  let+ n := getn TUN (nw Y) in
  let+ (e, _, s) := sure (ip4_output_if (fun _ => ERR_OK) (lay k) (Some (pk_src k)) (Some (pk_dst k)) (pk_ttl k) (pk_tos k) IP_PROTO_TCP n (mk_ipout (tu_id x) [] [])) in
  let+ w := outputs (tx s) (tu x) in
  Ok (e, mk_tunnel w (ip_id s)).

Fixpoint send_segments (ks : list packet) (x : tunnel) : res (list err_t * tunnel) :=
  match ks with
  | [] => Ok ([], x)
  | k :: ks => let+ (e, x) := send_segment k x in let+ (es, x) := send_segments ks x in Ok (e :: es, x)
  end.

(** The segments an operation has added. *)
Definition sent_by (w w' : tun) : list packet :=
  match mc_sys (tenv (tm w)), mc_sys (tenv (tm w')) with
  | Ok Y, Ok Y' => drop (length (g_wire (tcp (nw Y)))) (g_wire (tcp (nw Y')))
  | _, _ => []
  end.

Definition step (op : tun_op) (x : tunnel) : res (list err_t * tunnel) :=
  let+ w := run_tun_op recv op (tu x) in send_segments (sent_by (tu x) w) (mk_tunnel w (tu_id x)).

Fixpoint steps (ops : list tun_op) (x : tunnel) : res tunnel :=
  match ops with [] => Ok x | op :: ops => let+ (_, x) := step op x in steps ops x end.

(** ** One segment *)

(** The source address in the header. *)
Definition hdr_src (k : packet) (n : nif) : Z := if ip_addr_isany (Some (pk_src k)) then n_ip_addr n else pk_src k.

Definition listening (w : tun) : bool := s_ready (self w) && s_handler (self w).

Lemma of_chain_bytes c : p_bytes (of_chain c) = cbytes c.
Proof. unfold p_bytes, p_chain, of_chain. cbn. rewrite map_map. cbn. by rewrite map_id. Qed.

Lemma segment_len k : lenz (segment_bytes k) = 20 + lenz (pk_opts k) + lenz (pk_data k).
Proof. unfold segment_bytes. cbv zeta. by rewrite lenz_app, lenz_hdr. Qed.

Lemma outbound_nil (w : tun) : w <| outbound := outbound w ++ [] |> = w.
Proof. rewrite app_nil_r. by destruct w. Qed.

Lemma send_ok B k x Y n : tun_ok B (tu x) -> mc_sys (tenv (tm (tu x))) = Ok Y -> nifs (nw Y) !! TUN = Some n -> nif_ok n -> wf_pkt k -> is_u16 (tu_id x) ->
  exists e h, send_segment k x = Ok (e, mk_tunnel ((tu x) <| outbound := outbound (tu x) ++ (if listening (tu x) then [h ++ segment_bytes k] else []) |>) (u16 (tu_id x + 1)))
  /\ hdr_ok h (hdr_src k n) (pk_dst k) (pk_ttl k) (pk_tos k) IP_PROTO_TCP (lenz (h ++ segment_bytes k)) (tu_id x) /\ (s_ready (self (tu x)) = true -> e = ERR_OK).
Proof.
  intros Hok EY En [Hu Hmtu] Hk Hid. pose proof (lay_send k Hk) as Hs. pose proof (lay_bytes k Hk) as Hb. destruct Hk as ([[I1 I2] _ _ _ _ _ _] & Hfit & Ht1 & Ht2).
  pose proof (pk_tot _ (cs_ok _ Hs)) as Htot. rewrite Hb, segment_len in Htot. change TUNFORGE_NETIF_IPV4_MTU with 1500 in *. pose proof (lenz_nonneg (pk_opts k)). pose proof (lenz_nonneg (pk_data k)).
  destruct (Ip4OutFacts.output_ok (fun _ => ERR_OK) (lay k) (Some (pk_src k)) (pk_dst k) (pk_ttl k) (pk_tos k) IP_PROTO_TCP n (mk_ipout (tu_id x) [] []) Hs Ht1 Ht2 ltac:(done) Hid I2 I1 Hu) as (p & h & Eo & [O1 O2 O3 O4 O5 O6 O7]).
  pose proof (ho_len _ _ _ _ _ _ _ _ O1) as Hh. rewrite Hb in O6. assert (Hlen : lenz (h ++ segment_bytes k) = p_tot (o_pkt (lay k)) + 20) by (rewrite lenz_app, segment_len; lia).
  unfold send_segment. rewrite EY. cbn [rbind]. unfold getn. rewrite En. cbn [rbind]. rewrite Eo. unfold ip4_transmit. rewrite O4, Htot.
  assert (negb (n_mtu n =? 0) && (n_mtu n <? 20 + lenz (pk_opts k) + lenz (pk_data k) + 20) = false) as -> by (destruct Hmtu as [-> | ->]; cbn; [done|]; apply Z.ltb_ge; lia).
  unfold netif_output. destruct (n_output n) eqn:Eout; cbn [sure rbind tx setf outputs].
  - (* not set up: nothing reaches the driver *)
    assert (Hr : s_ready (self (tu x)) = false). { destruct Hok as [_ _ _ (Y' & [T1 _ _ _ T5])]. rewrite EY in T1. injection T1 as <-. destruct T5 as [[]|(r & lp & j & [])]; [done|]. rewrite En in rn_nif. injection rn_nif as ->. done. }
    eexists _, h. split; [unfold listening; rewrite Hr; cbn [andb]; rewrite outbound_nil; done|]. split; [rewrite Hlen; exact O1|by rewrite Hr].
  - change ([] ++ [p_chain (o_pkt p)]) with [p_chain (o_pkt p)]. cbn [outputs]. rewrite (output_eq B (of_chain (p_chain (o_pkt p))) (tu x)); [|exact Hok|].
    2:{ pose proof (pk_bufs _ O3) as Hne. pose proof (pk_u8 _ O3) as Hu8. rewrite Forall_app in Hu8. destruct Hu8 as [Hu8 _]. split; rewrite ?of_chain_bytes.
        - done.
        - unfold of_chain, p_chain. cbn. by destruct (p_bufs (o_pkt p)).
        - cbn. change (cbytes (p_chain (o_pkt p))) with (p_bytes (o_pkt p)). rewrite O6, Hlen. lia.
        - by rewrite app_nil_r. }
    cbn [rbind]. rewrite of_chain_bytes. change (cbytes (p_chain (o_pkt p))) with (p_bytes (o_pkt p)). rewrite O6, Hlen, (proj2 (Z.leb_le 20 _)) by lia. rewrite andb_true_r.
    exists ERR_OK, h. split; [done|]. split; [rewrite Hlen; exact O1|done].
Qed.

(** ** An operation *)

(** [out] is a segment of TCP behind an IP header with the identification [id],
    in one packet of the tunnel. *)
Definition packet_of (n : nif) (id : Z) (k : packet) (out : list Z) : Prop :=
  exists h, out = h ++ segment_bytes k /\ hdr_ok h (hdr_src k n) (pk_dst k) (pk_ttl k) (pk_tos k) IP_PROTO_TCP (lenz out) id /\ lenz out <= TUNFORGE_NETIF_IPV4_MTU.

(** One packet for each segment, in order, numbered from [id] on. *)
Fixpoint packets_of (n : nif) (id : Z) (ks : list packet) (outs : list (list Z)) : Prop :=
  match ks, outs with
  | [], [] => True
  | k :: ks, out :: outs => packet_of n id k out /\ packets_of n (u16 (id + 1)) ks outs
  | _, _ => False
  end.

Lemma packet_fits n id k h : wf_pkt k -> hdr_ok h (hdr_src k n) (pk_dst k) (pk_ttl k) (pk_tos k) IP_PROTO_TCP (lenz (h ++ segment_bytes k)) id -> packet_of n id k (h ++ segment_bytes k).
Proof. intros (_ & Hfit & _) Hh. exists h. split_and!; [done|done|]. rewrite lenz_app, segment_len, (ho_len _ _ _ _ _ _ _ _ Hh). lia. Qed.

Lemma output_tun_ok B (w : tun) l : tun_ok B w -> tun_ok B (w <| outbound := l |>).
Proof. intros Hw. apply (plain_ok B w); try done. exists (s_handler (self w)), (s_delegate (self w)). by destruct w as [[] ? ? ? ? ? ?]. Qed.

Lemma send_all B ks : forall x Y n, tun_ok B (tu x) -> mc_sys (tenv (tm (tu x))) = Ok Y -> nifs (nw Y) !! TUN = Some n -> nif_ok n -> Forall wf_pkt ks -> is_u16 (tu_id x) ->
  exists es outs, send_segments ks x = Ok (es, mk_tunnel ((tu x) <| outbound := outbound (tu x) ++ (if listening (tu x) then outs else []) |>) (u16 (tu_id x + lenz ks)))
  /\ packets_of n (tu_id x) ks outs /\ (s_ready (self (tu x)) = true -> Forall (eq ERR_OK) es).
Proof.
  induction ks as [|k ks IH]; intros x Y n Hok EY En Hn Hks Hid; cbn [send_segments].
  - exists [], []. split_and!; [|done|constructor]. rewrite (fun b : bool => match b return (if b then [] else []) = [] with true => eq_refl | false => eq_refl end). rewrite outbound_nil, Z.add_0_r, u16_id by exact Hid. by destruct x.
  - apply Forall_cons in Hks as [Hk Hks]. destruct (send_ok B k x Y n Hok EY En Hn Hk Hid) as (e & h & -> & Hh & He). cbn [rbind]. set (x1 := mk_tunnel _ _).
    destruct (IH x1 Y n) as (es & outs & -> & Hp & Hes); try done; [by apply output_tun_ok|apply u16_range|]. cbn [rbind].
    exists (e :: es), ((h ++ segment_bytes k) :: outs). split_and!.
    + f_equal. f_equal. unfold x1. cbn [tu tu_id]. f_equal; [|rewrite lenz_cons; unfold u16; rewrite Zplus_mod_idemp_l; f_equal; lia].
      change (listening (_ <| outbound := _ |>)) with (listening (tu x)). destruct (listening (tu x)); cbn; [by rewrite <- app_assoc|by rewrite !app_nil_r].
    + cbn. split; [by apply packet_fits|exact Hp].
    + intros Hr. constructor; [by rewrite He|by apply Hes].
Qed.

(** What TCP has sent so far. *)
Definition wire (w : tun) : list packet := match mc_sys (tenv (tm w)) with Ok Y => g_wire (tcp (nw Y)) | _ => [] end.

(** The object is consistent, and its TCP well-formed. *)
Definition sound (B : list Z) (w : tun) : Prop := tun_ok B w /\ wft (W := wire w) w.

Lemma sound_any B (W : Sent) w : tun_ok B w -> wft (W := W) w -> sound B w.
Proof.
  intros H1 (Ht & Y & E & ((P & (new & Ew & Hn) & A) & HN) & HR). split; [done|]. split; [done|]. exists Y. split; [done|]. split; [|done]. split; [|done]. split; [done|]. split; [|done]. exists []. split; [|constructor]. unfold sent_before, wire. by rewrite E, app_nil_r.
Qed.

(** Only [tunforge_output] gives packets to the handler. *)
Definition own_op (op : tun_op) : Prop := match op with TOutput _ => False | _ => True end.

Lemma on_sys_outbound {R} (f : sys -> res (R * sys)) w : when (on_sys f w) (fun '(_, w') => outbound w' = outbound w).
Proof. unfold on_sys. apply when_get. intros Y _. apply when_get. intros [r Y'] _. apply when_get. by intros t _. Qed.

Lemma release_outbound a w : when (release a w) (fun w' => outbound w' = outbound w).
Proof. unfold release. destruct (a =? 0); [done|]. by apply when_get. Qed.

Lemma recycle_outbound w : when (recycle w) (fun w' => outbound w' = outbound w).
Proof. unfold recycle. by apply when_get. Qed.

Lemma start_outbound w : when (start w) (fun w' => outbound w' = outbound w).
Proof.
  unfold start. apply when_get. intros alive _. eapply (when_bind _ _ (fun w' => outbound w' = outbound w)).
  { destruct (negb alive); [|done]. unfold new_stackRef. cbv zeta. eapply when_bind; [apply release_outbound|]. by intros w1 H1. }
  intros w1 H1. unfold setupLockedOnLWIPQueue. cbv zeta. destruct (s_ready _); [exact H1|]. apply when_get. intros w2 E2. unfold retain in E2. apply rbind_Ok in E2 as (r & _ & [= <-]). eapply when_bind; [apply on_sys_outbound|]. intros [lp w3] H3. exact (eq_trans H3 H1).
Qed.

Lemma stop_outbound w : when (stop w) (fun w' => outbound w' = outbound w).
Proof.
  unfold stop. cbv zeta. eapply (when_bind _ _ (fun w' => outbound w' = outbound w)); [unfold invalidate; destruct (_ =? 0); [done|by apply when_get]|]. intros w1 H1. eapply when_bind; [apply release_outbound|]. intros w2 H2. rewrite <- H1, <- H2. clear w H1 w1 H2.
  eapply (when_bind _ _ (fun w' => outbound w' = outbound w2)). { destruct (negb _); [|done]. eapply when_bind; [apply on_sys_outbound|]. by intros [u w3] H3. }
  intros w3 H3. eapply when_bind; [apply on_sys_outbound|]. intros [u w4] H4. eapply when_bind; [apply release_outbound|]. intros w5 H5. exact (eq_trans H5 (eq_trans H4 H3)).
Qed.

Lemma input_outbound packet stale conns w : when (inputPacket recv packet stale conns w) (fun w' => outbound w' = outbound w).
Proof.
  unfold inputPacket. cbv zeta. destruct (_ || _); [done|]. apply when_get. intros alive _. destruct (negb alive); [done|]. destruct (negb _); [done|]. apply when_get. intros Y _. apply when_get. intros n _. destruct (negb _); [done|]. destruct (pool_bufs _ _) as [[l pool]|]; [|done].
  apply when_get. intros rs _. eapply when_bind; [apply on_sys_outbound|]. intros [e w1] H1. eapply when_bind; [apply recycle_outbound|]. intros w2 H2. cbn [when]. destruct (err_ok e); exact (eq_trans H2 H1).
Qed.

Lemma run_outbound op w : own_op op -> when (run_tun_op recv op w) (fun w' => outbound w' = outbound w).
Proof.
  destruct op; intros Hop; cbn [run_tun_op]; try done.
  - apply start_outbound.
  - apply stop_outbound.
  - apply input_outbound.
  - unfold tick. destruct (s_timer _); [|done]. apply when_get. intros t _. exact (recycle_outbound _).
  - eapply when_bind; [apply on_sys_outbound|]. by intros [u w'] H.
  - unfold release_handed. apply when_get. intros Y _. by destruct (handed Y !! i).
Qed.

Lemma sent_by_sound {ook : OptsOk o} B op w w' : sound B w -> wf_tun_op op -> run_tun_op recv op w = Ok w' ->
  sound B w' /\ Forall wf_pkt (sent_by w w') /\ wire w' = wire w ++ sent_by w w' /\ exists Y n, mc_sys (tenv (tm w')) = Ok Y /\ nifs (nw Y) !! TUN = Some n /\ nif_ok n.
Proof.
  intros [H1 H2] Hop E. pose proof (run_tun_op_ok recv B op w (proj1 Hop) H1) as K1. pose proof (run_tun_op_wf (W := wire w) recv B op w Hop H1 H2) as K2. rewrite E in K1, K2. cbn in K1, K2. split; [by eapply sound_any|].
  destruct K2 as (_ & Y & EY & ((_ & (new & Ew & Hn) & _) & HN) & _). unfold sent_before in Ew. destruct H2 as (_ & Y0 & E0 & _). assert (Hs : sent_by w w' = new) by (unfold sent_by; rewrite E0, EY, Ew; unfold wire; rewrite E0; apply drop_app_length).
  rewrite Hs. split; [done|]. split; [unfold wire at 1; by rewrite EY|]. destruct K1 as [_ _ _ (Y' & [T1 _ _ _ T5])]. rewrite EY in T1. injection T1 as <-. destruct (phase_nif w' (nw Y) T5) as [n En]. exists Y, n. split_and!; [done|done|by apply (HN TUN)].
Qed.

Lemma step_ok {ook : OptsOk o} B op x w' : sound B (tu x) -> is_u16 (tu_id x) -> wf_tun_op op -> own_op op -> run_tun_op recv op (tu x) = Ok w' ->
  exists es outs n, step op x = Ok (es, mk_tunnel (w' <| outbound := outbound (tu x) ++ (if listening w' then outs else []) |>) (u16 (tu_id x + lenz (sent_by (tu x) w'))))
  /\ packets_of n (tu_id x) (sent_by (tu x) w') outs /\ Forall wf_pkt (sent_by (tu x) w') /\ (s_ready (self w') = true -> Forall (eq ERR_OK) es) /\ sound B w'.
Proof.
  intros Hs Hid Hop Hown E. destruct (sent_by_sound B op _ w' Hs Hop E) as (S1 & S2 & S3 & Y & n & E1 & E2 & E3). pose proof (run_outbound op (tu x) Hown) as Ho. rewrite E in Ho. cbn in Ho. unfold step. rewrite E. cbn [rbind].
  destruct (send_all B (sent_by (tu x) w') (mk_tunnel w' (tu_id x)) Y n (proj1 S1) E1 E2 E3 S2 Hid) as (es & outs & -> & Hp & He). exists es, outs, n. cbn [tu tu_id] in *. rewrite Ho. by split_and!.
Qed.

Lemma sound_outbound B w l : sound B w -> sound B (w <| outbound := l |>).
Proof. intros [H1 H2]. split; [by apply output_tun_ok|exact H2]. Qed.

Lemma packets_length n ks : forall id outs, packets_of n id ks outs -> lenz outs = lenz ks.
Proof. induction ks as [|k ks IH]; intros id [|out outs] H; try done. destruct H as [_ H]. by rewrite !lenz_cons, (IH _ _ H). Qed.

Lemma packets_each n ks : forall id outs, packets_of n id ks outs -> Forall wf_pkt ks -> Forall (fun out => exists n id k, packet_of n id k out /\ wf_pkt k) outs.
Proof.
  induction ks as [|k ks IH]; intros id [|out outs] H Hks; try done. destruct H as [H1 H2]. apply Forall_cons in Hks as [Hk Hks]. constructor; [by exists n, id, k|by apply (IH (u16 (id + 1)))].
Qed.

Lemma steps_ok {ook : OptsOk o} B ops : forall x, sound B (tu x) -> is_u16 (tu_id x) -> Forall wf_tun_op ops -> Forall own_op ops -> Forall (fun out => exists n id k, packet_of n id k out /\ wf_pkt k) (outbound (tu x)) ->
  post (steps ops x) (fun x' => sound B (tu x') /\ Forall (fun out => exists n id k, packet_of n id k out /\ wf_pkt k) (outbound (tu x'))).
Proof.
  induction ops as [|op ops IH]; intros x Hs Hid Hops Hown Hout; cbn [steps]; [by split|]. apply Forall_cons in Hops as [Hop Hops], Hown as [Ho Hown]. pose proof (run_tun_op_ok recv B op (tu x) (proj1 Hop) (proj1 Hs)) as Hp.
  destruct (run_tun_op recv op (tu x)) as [w'| | |] eqn:E; [|unfold step; rewrite E; exact Hp..]. destruct (step_ok B op x w' Hs Hid Hop Ho E) as (es & outs & n & -> & K1 & K2 & _ & K3). cbn [rbind]. apply IH; try done; [by apply sound_outbound|apply u16_range|].
  cbn [tu]. apply Forall_app. split; [exact Hout|]. destruct (listening w'); [|constructor]. by apply (packets_each n _ _ _ K1).
Qed.

(** ** The theorems *)
Context {ook : OptsOk o}.

(** C4: every segment leaves.  Whatever the object does (a packet arrives, a
    timer fires, a connection writes or closes, the stack starts or stops),
    each segment TCP hands down meanwhile is accepted and becomes exactly one
    packet of at most 1500 bytes, the segment's bytes behind an IPv4 header with
    its addresses, TTL and TOS, a verifying checksum and the next
    identification; while the stack is started and a handler is set, the handler
    gets these packets, all of them, in the order TCP made them, and nothing
    else; otherwise it gets none. *)
Theorem tunnel_step B op x w' : sound B (tu x) -> is_u16 (tu_id x) -> wf_tun_op op -> own_op op -> run_tun_op recv op (tu x) = Ok w' ->
  exists es outs n, step op x = Ok (es, mk_tunnel (w' <| outbound := outbound (tu x) ++ (if s_ready (self w') && s_handler (self w') then outs else []) |>) (u16 (tu_id x + lenz outs)))
  /\ wire w' = wire (tu x) ++ sent_by (tu x) w' /\ packets_of n (tu_id x) (sent_by (tu x) w') outs /\ (s_ready (self w') = true -> Forall (eq ERR_OK) es).
Proof.
  intros Hs Hid Hop Hown E. destruct (step_ok B op x w' Hs Hid Hop Hown E) as (es & outs & n & K1 & K2 & _ & K3 & _). destruct (sent_by_sound B op _ w' Hs Hop E) as (_ & _ & K4 & _). exists es, outs, n. rewrite (packets_length _ _ _ _ K2). by split_and!.
Qed.

Lemma init_sound descs al A now w B : wf_app A -> initPrivate descs al A now = Ok w -> tun_ok B w -> sound B w.
Proof.
  intros HA E Hok. apply (sound_any B ([] : Sent)); [done|]. destruct Hok as [T1 _ _ (Y & [T2 _ _ _ _])]. split; [done|]. exists Y. split; [done|]. unfold initPrivate, lwip_init, sys_timeouts_init, sys_timeout, sys_timeout_abs in E. cbv zeta in E.
  set (Y0 := mk_sys _ _ _) in E. set (s0 := mk_timers _ _ _ _ _ _) in E. destruct (_ <=? _); [|done]. destruct (memp_malloc _ _) as [[a ps]|]; [|done]. destruct (negb _); [|done]. injection E as <-. injection T2 as <-.
  split; [|constructor]. split; [split; [intros a' c Ea; cbn in Ea; by rewrite lookup_empty in Ea|split; [by exists []|exact HA]]|]. intros a' n Hn. change (({[TUN := zero_nif]} : gmap Z nif) !! a' = Some n) in Hn. destruct (decide (a' = TUN)) as [->|Ha]; [rewrite lookup_singleton_eq in Hn; injection Hn as <-; split; [done|by left]|by rewrite lookup_singleton_ne in Hn].
Qed.

End Tunnel.

(** ** Witnesses *)
#[local] Existing Instances ios.

(** The simplest layout: one buffer, with room for the headers below TCP. *)
Definition one_buffer (k : packet) : opkt := mk_opkt (repeat 0 34) (mk_pkt (lenz (segment_bytes k)) [mk_buf 1 (segment_bytes k)] []) 1.

Lemma one_buffer_bytes k : p_bytes (o_pkt (one_buffer k)) = segment_bytes k.
Proof. change (segment_bytes k ++ [] = segment_bytes k). apply app_nil_r. Qed.

#[local] Instance one_buffer_layout : Layout.
Proof.
  refine {| lay := one_buffer |}; [|intros k _; apply one_buffer_bytes]. intros k (Hs & Hfit & _). change TUNFORGE_NETIF_IPV4_MTU with 1500 in Hfit. pose proof (segment_len k) as Hl. pose proof (lenz_nonneg (pk_opts k)). pose proof (lenz_nonneg (pk_data k)).
  split; [split; rewrite ?one_buffer_bytes; [done|done|unfold one_buffer; cbn [o_pkt p_tot]; lia|]|done|split; [vm_compute; discriminate|]|unfold one_buffer; cbn [o_pkt p_tot]; lia].
  - change (Forall is_u8 (segment_bytes k ++ [])). rewrite app_nil_r. by apply segment_u8.
  - apply (bool_decide_unpack _). vm_compute. exact I.
Defined.

(** The connection of the example answers with three bytes. *)
Definition tunnel_ops : list tun_op := take 9 demo_life ++ [TConn 2192 (CCall (AWrite [7; 8; 9] 1)); TConn 2192 (CCall AOutput)].

Lemma tunnel_ops_ok : Forall wf_tun_op tunnel_ops /\ Forall own_op tunnel_ops.
Proof.
  split; repeat (apply Forall_cons; split); try apply Forall_nil; try exact I; (split; [first [exact I|split; [apply (bool_decide_unpack _); vm_compute; exact I|constructor]]|first [exact I|apply (bool_decide_unpack _); vm_compute; exact I]]).
Qed.

Definition demo_events : application := mk_app [] [] [] [mk_reaction [] (Return ERR_OK)] [].


Lemma run_tun_sound recv B ops : forall w w', Forall wf_tun_op ops -> sound B w -> run_tun recv ops w = Ok w' -> sound B w'.
Proof.
  induction ops as [|op ops IH]; intros w w' Hops Hs E; [by injection E as <-|]. apply Forall_cons in Hops as [Hop Hops]. cbn [run_tun] in E. apply rbind_Ok in E as (w1 & E1 & E). apply (IH w1 w' Hops); [|done]. apply (sent_by_sound recv B op w w1 Hs Hop E1).
Qed.

Lemma demo_w_sound : sound (memp_init_pool (demo_descs MEMP_PBUF_POOL)) demo_w.
Proof.
  destruct (init_ok demo_descs (repeat true 20) demo_events 0 demo_descs_ok ltac:(vm_compute; discriminate) demo_recv_polite) as (w0 & E & H0). pose proof demo_tun_eq as Ed. unfold demo_tun in Ed. fold demo_events in Ed. rewrite E in Ed. cbn [rbind] in Ed.
  apply (run_tun_sound no_raw _ demo_life w0); [|apply (init_sound demo_descs (repeat true 20) demo_events 0); [split_and!; repeat constructor|done|done]|done].
  apply Forall_and. split; [exact demo_life_ok|]. repeat constructor.
Qed.

(** A byte ahead of the sequence: it is answered at once. *)
Definition next_op : tun_op := TInput (demo_packet 1005 6511 24 [5]) [] [].

Lemma tunnel_step_witness : exists w' es outs n x', run_tun_op no_raw next_op demo_w = Ok w' /\ step no_raw next_op (mk_tunnel demo_w 7) = Ok (es, x')
  /\ outbound (tu x') = outbound demo_w ++ outs /\ packets_of n 7 (sent_by demo_w w') outs /\ lenz (sent_by demo_w w') = 1.
Proof.
  assert (E : match run_tun_op no_raw next_op demo_w with Ok w' => listening w' && (lenz (sent_by demo_w w') =? 1) | _ => false end = true) by (vm_compute; reflexivity).
  destruct (run_tun_op no_raw next_op demo_w) as [w'| | |] eqn:Ew; try discriminate E. apply andb_prop in E as [E1 E2].
  destruct (tunnel_step no_raw _ next_op (mk_tunnel demo_w 7) w' demo_w_sound ltac:(split; [vm_compute; discriminate|reflexivity])) as (es & outs & n & Es & _ & Hp & _); [split; [split; [apply (bool_decide_unpack _); vm_compute; exact I|constructor]|exact I]|exact I|exact Ew|].
  eexists w', es, outs, n, _. split; [reflexivity|]. split; [exact Es|]. split; [unfold listening in E1; rewrite E1; reflexivity|]. split; [exact Hp|apply Z.eqb_eq, E2].
Defined.
