(* ===== verification/Log.v ===== *)
(** * Log: the platform's log and assertion hooks, src/Sources/Lwip/custom/tf_lwip_log.c

    The logging library (ForgeLogKit) is a parameter: whether [FLLogCCreate]
    gives a handle.  Strings are the addresses [strdup] returns (0 for NULL);
    the state also says which of them are allocated. *)

From S2P Require Import Prelude.

Inductive tf_lwip_log_level_t :=
  | TF_LWIP_LOG_LEVEL_DEBUG | TF_LWIP_LOG_LEVEL_INFO | TF_LWIP_LOG_LEVEL_WARN | TF_LWIP_LOG_LEVEL_ERROR | TF_LWIP_LOG_LEVEL_OFF.

#[export] Instance log_level_eq_dec : EqDecision tf_lwip_log_level_t.
Proof. solve_decision. Defined.

Definition level_val (l : tf_lwip_log_level_t) : Z :=
  match l with
  | TF_LWIP_LOG_LEVEL_DEBUG => 0 | TF_LWIP_LOG_LEVEL_INFO => 1 | TF_LWIP_LOG_LEVEL_WARN => 2
  | TF_LWIP_LOG_LEVEL_ERROR => 3 | TF_LWIP_LOG_LEVEL_OFF => 4
  end.

Inductive FLLogLevel := FL_LOG_LEVEL_DEBUG | FL_LOG_LEVEL_INFO | FL_LOG_LEVEL_WARN | FL_LOG_LEVEL_ERROR | FL_LOG_LEVEL_FAULT.

Record log_state := mk_log {
  (** the handle exists; the block of [dispatch_once] has run *)
  g_lwip_log : bool; once : bool;
  g_subsystem : Z; s_enabled : bool; s_level : tf_lwip_log_level_t;
  (** allocated strings, those given to [FLLogCCreate], and the lines written *)
  strings : list Z; created_for : list Z; written : list FLLogLevel }.
#[export] Instance eta_log : Eta log_state := fun s =>
  mk_log (g_lwip_log s) (once s) (g_subsystem s) (s_enabled s) (s_level s) (strings s) (created_for s) (written s).

Definition log_initial : log_state := mk_log false false 0 false TF_LWIP_LOG_LEVEL_WARN [] [] [].

Section Log.
(** Does [FLLogCCreate] succeed? *)
Variable FLLogCCreate : Z -> bool.
(** 0, 1 (the default) or 2; lwipopts.h defines [LWIP_DEBUG] as 0 for the first. *)
Variable TUNFORGE_LWIP_DEBUG_PROFILE : Z.
Definition LWIP_DEBUG : bool := negb (TUNFORGE_LWIP_DEBUG_PROFILE =? 0).
Definition profile_level : tf_lwip_log_level_t :=
  if TUNFORGE_LWIP_DEBUG_PROFILE =? 2 then TF_LWIP_LOG_LEVEL_DEBUG
  else if TUNFORGE_LWIP_DEBUG_PROFILE =? 1 then TF_LWIP_LOG_LEVEL_WARN
  else if TUNFORGE_LWIP_DEBUG_PROFILE =? 0 then TF_LWIP_LOG_LEVEL_OFF
  else TF_LWIP_LOG_LEVEL_WARN.

Definition tf_should_log (level : tf_lwip_log_level_t) (s : log_state) : bool :=
  if negb (s_enabled s) || negb (g_lwip_log s) then false
  else if decide (s_level s = TF_LWIP_LOG_LEVEL_OFF) then false
  else level_val (s_level s) <=? level_val level.

Definition tf_map_level (level : tf_lwip_log_level_t) : FLLogLevel :=
  match level with
  | TF_LWIP_LOG_LEVEL_DEBUG => FL_LOG_LEVEL_DEBUG
  | TF_LWIP_LOG_LEVEL_INFO => FL_LOG_LEVEL_INFO
  | TF_LWIP_LOG_LEVEL_WARN => FL_LOG_LEVEL_WARN
  | TF_LWIP_LOG_LEVEL_ERROR => FL_LOG_LEVEL_ERROR
  | TF_LWIP_LOG_LEVEL_OFF => FL_LOG_LEVEL_INFO
  end.

(** The handle is created by the first call. *)
Definition lwip_log (s : log_state) : log_state :=
  if once s then s
  else s <| once := true |> <| g_lwip_log := FLLogCCreate (g_subsystem s) |> <| created_for := g_subsystem s :: created_for s |>.

(** [copy] is what [strdup] returns; [subsystem] is 0 for NULL. *)
Definition tf_log_init (subsystem copy : Z) (s : log_state) : log_state :=
  if subsystem =? 0 then s
  else
    let s := if negb (g_subsystem s =? 0) then s <| strings := filter (fun x => x <> g_subsystem s) (strings s) |> <| g_subsystem := 0 |> else s in
    let s := s <| g_subsystem := copy |> in
    if copy =? 0 then s <| s_enabled := false |>
    else lwip_log (s <| strings := copy :: strings s |> <| s_enabled := true |> <| s_level := profile_level |>).

Definition tf_log_set_level (level : tf_lwip_log_level_t) (s : log_state) : log_state := s <| s_level := level |>.
Definition tf_log_get_level (s : log_state) : tf_lwip_log_level_t := s_level s.

Definition write (level : FLLogLevel) (s : log_state) : log_state := s <| written := written s ++ [level] |>.

(** [format] is not NULL. *)
Definition lwip_platform_log (format : bool) (s : log_state) : log_state :=
  if negb format then s
  else if negb (tf_should_log TF_LWIP_LOG_LEVEL_INFO s) then s
  else write (tf_map_level TF_LWIP_LOG_LEVEL_INFO) (lwip_log s).

(** How the function ends: it returns, hits the trap of the debugger, or aborts. *)
Inductive hook := Returns | Traps | Aborts.
Definition lwip_platform_assert (s : log_state) : hook * log_state :=
  if negb (s_enabled s) || bool_decide (s_level s = TF_LWIP_LOG_LEVEL_OFF) then (Returns, s)
  else (if LWIP_DEBUG then Traps else Aborts, write FL_LOG_LEVEL_FAULT (lwip_log s)).

(** ** Runs *)
Inductive log_op := LInit (subsystem copy : Z) | LLevel (l : tf_lwip_log_level_t) | LLog (format : bool).
Definition run_log_op (x : log_op) (s : log_state) : log_state :=
  match x with LInit sub copy => tf_log_init sub copy s | LLevel l => tf_log_set_level l s | LLog f => lwip_platform_log f s end.
Definition run_log : list log_op -> log_state -> log_state := fold_left (fun s x => run_log_op x s).

Record log_ok (s : log_state) : Prop := {
  lg_strings : strings s = if g_subsystem s =? 0 then [] else [g_subsystem s];
  lg_enabled : s_enabled s = true -> g_subsystem s <> 0 /\ once s = true;
  lg_once : length (created_for s) = if once s then 1%nat else 0%nat;
  lg_handle : g_lwip_log s = true -> once s = true }.

Lemma lwip_log_ok s : strings s = (if g_subsystem s =? 0 then [] else [g_subsystem s]) -> (s_enabled s = true -> g_subsystem s <> 0) ->
  length (created_for s) = (if once s then 1%nat else 0%nat) -> log_ok (lwip_log s).
Proof. intros H1 H2 H3. unfold lwip_log. destruct (once s) eqn:E; split; cbn; rewrite ?E; auto. Qed.

Lemma run_log_op_ok x s : log_ok s -> log_ok (run_log_op x s).
Proof.
  intros [H1 H2 H3 H4]. destruct x as [sub copy|l|f]; cbn [run_log_op].
  - unfold tf_log_init. destruct (sub =? 0); [by split|]. set (s1 := if negb _ then _ else s).
    assert (K : strings s1 = [] /\ once s1 = once s /\ created_for s1 = created_for s /\ g_lwip_log s1 = g_lwip_log s).
    { unfold s1. destruct (Z.eqb_spec (g_subsystem s) 0) as [E|E]; cbn [negb]; [by rewrite H1|]. cbn. rewrite H1, filter_cons_False by (intros Hn; by apply Hn). done. }
    destruct K as (K1 & K2 & K3 & K4). destruct (Z.eqb_spec copy 0) as [->|Hc]; [split; cbn; rewrite ?K1, ?K2, ?K3, ?K4; done|].
    apply lwip_log_ok; cbn; rewrite ?K1, ?K2, ?K3; try done. by apply Z.eqb_neq in Hc as ->.
  - by split.
  - unfold lwip_platform_log. destruct (negb f); [by split|]. destruct (negb _); [by split|]. destruct (lwip_log_ok s H1 (fun E => proj1 (H2 E)) H3). by split.
Qed.

(** Over any sequence of initializations, level changes and log calls at most
    one copy of the subsystem's name is allocated, and it is the one in use; the
    handle is created once; and an assertion stops the program exactly when logging is
    enabled and the level is not OFF: with the level OFF, or before
    initialization, the caller continues behind the failed assertion. *)
Theorem log_run_ok l : let s := run_log l log_initial in
  strings s = (if g_subsystem s =? 0 then [] else [g_subsystem s]) /\ (length (created_for s) <= 1)%nat
  /\ ((lwip_platform_assert s).1 <> Returns <-> s_enabled s = true /\ s_level s <> TF_LWIP_LOG_LEVEL_OFF).
Proof.
  cbv zeta. assert (H : log_ok (run_log l log_initial)).
  { unfold run_log. assert (H0 : log_ok log_initial) by by split. revert H0. generalize log_initial. induction l as [|x l IH]; intros s Hs; cbn; [done|]. apply IH. by apply run_log_op_ok. }
  destruct H as [H1 H2 H3 H4]. split_and!; [done|rewrite H3; destruct (once _); lia|]. unfold lwip_platform_assert. destruct (s_enabled _); cbn [negb orb]; [|split; [done|by intros []]]. case_bool_decide; cbn; [split; [done|by intros []]|]. destruct LWIP_DEBUG; done.
Qed.
End Log.
