(* ===== verification/OcLog.v ===== *)
(** * OcLog: the log of the Objective-C layer, src/Sources/TunForgeCore/TFTunForgeLog.m

    Its own switch, level and handle, and its initialization, which also
    initializes the log of the platform ([Log]).  The logging library is a
    parameter: does [FLLogOCCreate] give a handle. *)

From S2P Require Import Prelude Log.

Inductive TFTunForgeLogLevel :=
  | TFTunForgeLogLevelDebug | TFTunForgeLogLevelInfo | TFTunForgeLogLevelWarn | TFTunForgeLogLevelError | TFTunForgeLogLevelOff.

#[export] Instance oc_level_eq_dec : EqDecision TFTunForgeLogLevel.
Proof. solve_decision. Defined.

Definition oc_level_val (l : TFTunForgeLogLevel) : Z :=
  match l with
  | TFTunForgeLogLevelDebug => 0 | TFTunForgeLogLevelInfo => 1 | TFTunForgeLogLevelWarn => 2
  | TFTunForgeLogLevelError => 3 | TFTunForgeLogLevelOff => 4
  end.

Record oc_log := mk_oc {
  (** the file's statics; the block of [dispatch_once] has run *)
  oc_enabled : bool; oc_handle : bool; oc_level : TFTunForgeLogLevel; oc_once : bool;
  (** the log of the platform, and the lines written here: level and message *)
  oc_lwip : log_state; oc_lines : list (TFTunForgeLogLevel * list Z) }.
#[export] Instance eta_oc : Eta oc_log := fun s =>
  mk_oc (oc_enabled s) (oc_handle s) (oc_level s) (oc_once s) (oc_lwip s) (oc_lines s).

Definition oc_initial : oc_log := mk_oc false false TFTunForgeLogLevelWarn false log_initial [].

Section OcLog.
Variable FLLogCCreate : Z -> bool.
Variable FLLogOCCreate : bool.
Variable TUNFORGE_LWIP_DEBUG_PROFILE : Z.

Definition oc_should_log (level : TFTunForgeLogLevel) (s : oc_log) : bool :=
  if decide (oc_level s = TFTunForgeLogLevelOff) then false
  else if negb (oc_enabled s) || negb (oc_handle s) then false
  else oc_level_val (oc_level s) <=? oc_level_val level.

(** [info:], [debug:], [warn:] and [error:], which differ in the level. *)
Definition oc_write (level : TFTunForgeLogLevel) (message : list Z) (s : oc_log) : oc_log :=
  if negb (oc_should_log level s) then s else s <| oc_lines := oc_lines s ++ [(level, message)] |>.
Definition info : list Z -> oc_log -> oc_log := oc_write TFTunForgeLogLevelInfo.
Definition debug : list Z -> oc_log -> oc_log := oc_write TFTunForgeLogLevelDebug.
Definition warn : list Z -> oc_log -> oc_log := oc_write TFTunForgeLogLevelWarn.
Definition error : list Z -> oc_log -> oc_log := oc_write TFTunForgeLogLevelError.

(** The text of the line that [initializeLogging] writes: TunForge logging initialized. *)
Definition msg_initialized : list Z :=
  [84;117;110;70;111;114;103;101;32;108;111;103;103;105;110;103;32;105;110;105;116;105;97;108;105;122;101;100].

(** [name] is the address of the literal TunForge.lwip, [copy] what [strdup]
    returns for it. *)
Definition initializeLogging (name copy : Z) (s : oc_log) : oc_log :=
  if oc_once s then s
  else
    let s := s <| oc_once := true |> <| oc_enabled := true |> <| oc_level := TFTunForgeLogLevelWarn |> in
    let s := s <| oc_lwip := tf_log_init FLLogCCreate TUNFORGE_LWIP_DEBUG_PROFILE name copy (oc_lwip s) |> in
    let s := s <| oc_handle := FLLogOCCreate |> in
    info msg_initialized s.

Definition setEnabled (enabled : bool) (s : oc_log) : oc_log := s <| oc_enabled := enabled |>.
Definition setLevel (level : TFTunForgeLogLevel) (s : oc_log) : oc_log := s <| oc_level := level |>.
Definition level (s : oc_log) : TFTunForgeLogLevel := oc_level s.

(** ** Runs *)
Inductive oc_op := OInit (name copy : Z) | OEnable (b : bool) | OLevel (l : TFTunForgeLogLevel) | OWrite (l : TFTunForgeLogLevel) (m : list Z).
Definition run_oc (x : oc_op) (s : oc_log) : oc_log :=
  match x with
  | OInit name copy => initializeLogging name copy s | OEnable b => setEnabled b s | OLevel l => setLevel l s | OWrite l m => oc_write l m s
  end.

Lemma initializeLogging_lines name copy s : oc_lines (initializeLogging name copy s) = oc_lines s.
Proof. unfold initializeLogging. destruct (oc_once s); [done|]. unfold info, oc_write, oc_should_log. cbn. by destruct FLLogOCCreate. Qed.

Lemma oc_handle_once l s : (oc_handle s = true -> oc_once s = true) -> let t := fold_left (fun s x => run_oc x s) l s in oc_handle t = true -> oc_once t = true.
Proof.
  revert s. induction l as [|x l IH]; intros s H; cbn; [done|]. apply IH. destruct x; cbn; try done.
  - unfold initializeLogging. destruct (oc_once s) eqn:E; [by rewrite E|]. unfold info, oc_write. by destruct (negb _).
  - unfold oc_write. by destruct (negb _).
Qed.

(** A message is written exactly when logging has been initialized with a
    handle, is enabled, and the level in force is not above the message's and
    not OFF; nothing is written before initialization; and the line that
    [initializeLogging] itself asks for is never written, since it is an info
    line and the level has just been set to Warn. *)
Theorem oc_log_lines ops x : let s := fold_left (fun s x => run_oc x s) ops oc_initial in
  oc_lines (run_oc x s) =
    oc_lines s ++ match x with
    | OWrite l m => if decide (oc_once s = true /\ oc_handle s = true /\ oc_enabled s = true /\ oc_level s <> TFTunForgeLogLevelOff /\ oc_level_val (oc_level s) <= oc_level_val l) then [(l, m)] else []
    | _ => [] end.
Proof.
  cbv zeta. pose proof (oc_handle_once ops oc_initial) as H. cbv zeta in H. set (s := fold_left _ _ _) in *. specialize (H ltac:(done)).
  destruct x as [n c|b|l|l m]; cbn [run_oc]; rewrite ?app_nil_r; try done; [apply initializeLogging_lines|].
  unfold oc_write, oc_should_log. destruct (decide (oc_level s = _)) as [E|E]; cbn.
  { rewrite decide_False by tauto. by rewrite app_nil_r. }
  destruct (oc_enabled s); cbn; [|rewrite decide_False by naive_solver; by rewrite app_nil_r].
  destruct (oc_handle s); cbn; [|rewrite decide_False by naive_solver; by rewrite app_nil_r].
  destruct (Z.leb_spec (oc_level_val (oc_level s)) (oc_level_val l)); cbn; [by rewrite decide_True by auto|rewrite decide_False by lia; by rewrite app_nil_r].
Qed.
End OcLog.
