(* ===== verification/ConnInfo.v ===== *)
(** * ConnInfo: what a connection says about its ends

    src/Sources/TunForgeCore/TFTCPConnectionInfo.m and the part of
    [initWithTCPPcb:] (TFTCPConnection.m) that fills it in.  The C library's
    [inet_ntoa] writes the four bytes of an address in decimal, with dots. *)

From S2P Require Import Prelude Def Ip4Addr Opts TcpPcb.

Record TFTCPConnectionInfo := mk_info { srcIP : cstr; srcPort : Z; dstIP : cstr; dstPort : Z }.

Definition initWithSrcIP (srcIP : cstr) (srcPort : Z) (dstIP : cstr) (dstPort : Z) : TFTCPConnectionInfo := mk_info srcIP srcPort dstIP dstPort.

(** [None] stands for NULL, which [inet_ntoa] does not return. *)
Definition inet_ntoa (addr : Z) : option cstr := Some (dotted addr).
Definition placeholderIPv4 : cstr := [48; 46; 48; 46; 48; 46; 48].
Definition tf_ipv4_to_string (addr_network_order : Z) : cstr := match inet_ntoa addr_network_order with Some s => s | None => placeholderIPv4 end.

(** The client behind the tunnel is the pcb's remote end: it is the source. *)
Definition connection_info (p : tcp_pcb) : TFTCPConnectionInfo :=
  let localIP := tf_ipv4_to_string (remote_ip p) in
  let remoteIP := tf_ipv4_to_string (local_ip p) in
  initWithSrcIP localIP (remote_port p) remoteIP (local_port p).

(** The text of an address is read back by [ip4addr_aton], so it determines it. *)
Lemma aton_dotted a : is_u32 a -> ip4addr_aton (dotted a) = Some a.
Proof.
  intros Ha. destruct (ip4addr_aton_ntoa a 16 Ha ltac:(done)) as (s & E1 & _ & E2). rewrite ip4addr_ntoa_r_dotted in E1 by (lia || done). congruence.
Qed.
Lemma dotted_inj a b : is_u32 a -> is_u32 b -> dotted a = dotted b -> a = b.
Proof. intros Ha%aton_dotted Hb%aton_dotted E. congruence. Qed.

(** The info identifies the connection.  Its texts are the dotted-decimal
    addresses, the source being the pcb's remote end; [ip4addr_aton] reads them
    back, and two connections with the same info have the same addresses and
    ports. *)
Theorem info_identifies p q : is_u32 (local_ip p) -> is_u32 (remote_ip p) -> is_u32 (local_ip q) -> is_u32 (remote_ip q) ->
  ip4addr_aton (srcIP (connection_info p)) = Some (remote_ip p) /\ ip4addr_aton (dstIP (connection_info p)) = Some (local_ip p)
  /\ (connection_info p = connection_info q <-> remote_ip p = remote_ip q /\ remote_port p = remote_port q /\ local_ip p = local_ip q /\ local_port p = local_port q).
Proof.
  intros H1 H2 H3 H4. split; [by apply aton_dotted|]. split; [by apply aton_dotted|]. split.
  - unfold connection_info, initWithSrcIP, tf_ipv4_to_string. cbn. intros [= E1 E2 E3 E4]. split_and!; try done; by apply dotted_inj.
  - unfold connection_info, initWithSrcIP, tf_ipv4_to_string. cbn. by intros (-> & -> & -> & ->).
Qed.
