(* ===== verification/Clock.v ===== *)
(** * Clock: the time in milliseconds, src/Sources/Lwip/custom/sys_arch.c

    [sys_now] computes in double precision.  A double is modelled by the
    integer of its multiples of 2^-1074, the smallest positive double; an
    operation rounds the exact result to the nearest double, ties to the one
    with the even significand.  All values here are non-negative and far below
    2^1024, so there are no infinities.  The ticks that [mach_absolute_time]
    returns and the fraction of [mach_timebase_info] are inputs. *)

From S2P Require Import Prelude.

Module Double.
(** 1.0 *)
Definition one : Z := 2 ^ 1074.

(** [n / d] rounded to an integer, ties to even. *)
Definition nearest (n d : Z) : Z :=
  let q := n / d in let r := n mod d in
  if 2 * r <? d then q else if d <? 2 * r then q + 1 else if Z.even q then q else q + 1.

(** [n / d] rounded to a multiple of the smallest double with a significand of 53 bits. *)
Definition round (n d : Z) : Z :=
  let e := Z.max 0 (Z.log2 (n / d) - 52) in nearest n (d * 2 ^ e) * 2 ^ e.

Definition of_int (i : Z) : Z := round (i * one) 1.
Definition mul (a b : Z) : Z := round (a * b) one.
Definition div (a b : Z) : Z := round (a * one) b.
(** The conversion to a 32-bit integer, undefined for values that do not fit. *)
Definition to_u32 (a : Z) : option Z := let i := a / one in if i <? 2 ^ 32 then Some i else None.
End Double.

Record clock := mk_clock { start_ticks : Z; ticks_to_ms : Z }.
#[export] Instance eta_clock : Eta clock := fun s => mk_clock (start_ticks s) (ticks_to_ms s).
Definition clock_initial : clock := mk_clock 0 0.

(** Milliseconds per tick; a tick lasts [numer / denom] nanoseconds. *)
Definition factor (numer denom : Z) : Z := Double.div (Double.of_int numer) (Double.mul (Double.of_int denom) (Double.of_int 1000000)).

Section Clock.
(** The timebase. *)
Variables numer denom : Z.

(** [t0] is what [mach_absolute_time] returns when the start is recorded, [t]
    what it returns for the elapsed time. *)
Definition sys_now (t0 t : Z) (s : clock) : option Z * clock :=
  let s := if start_ticks s =? 0
    then mk_clock t0 (factor numer denom)
    else s in
  let elapsed := (t - start_ticks s) mod 2 ^ 64 in
  (Double.to_u32 (Double.mul (Double.of_int elapsed) (ticks_to_ms s)), s).

Definition sys_jiffies : Z -> Z -> clock -> option Z * clock := sys_now.
End Clock.

(** ** Rounding *)
Lemma one_big : 2 ^ 200 <= Double.one.
Proof. vm_compute. discriminate. Qed.
Lemma one_pow : Double.one = 2 ^ 1074.
Proof. reflexivity. Qed.
#[global] Opaque Double.one.

Lemma nearest_mono n m d : 0 < d -> n <= m -> Double.nearest n d <= Double.nearest m d.
Proof.
  intros Hd H. pose proof (Z.div_mod n d ltac:(lia)). pose proof (Z.div_mod m d ltac:(lia)).
  pose proof (Z.mod_pos_bound n d Hd). pose proof (Z.mod_pos_bound m d Hd). pose proof (Z.div_le_mono n m d Hd H) as [Hlt|Heq]%Zle_lt_or_eq.
  - assert (A : Double.nearest n d <= n / d + 1) by (unfold Double.nearest; repeat case_match; lia).
    assert (B : m / d <= Double.nearest m d) by (unfold Double.nearest; repeat case_match; lia). lia.
  - unfold Double.nearest. rewrite Heq in *. repeat case_match; lia.
Qed.

Lemma nearest_exact k d : 0 < d -> Double.nearest (k * d) d = k.
Proof. intros Hd. unfold Double.nearest. rewrite Z.div_mul, Z.mod_mul by lia. by destruct (Z.ltb_spec (2 * 0) d); [|lia]. Qed.

Lemma nearest_err n d : 0 < d -> 2 * Z.abs (Double.nearest n d * d - n) <= d.
Proof.
  intros Hd. unfold Double.nearest. pose proof (Z.div_mod n d ltac:(lia)). pose proof (Z.mod_pos_bound n d Hd).
  destruct (Z.ltb_spec (2 * (n mod d)) d); [nia|]. destruct (Z.ltb_spec d (2 * (n mod d))); [nia|]. destruct (Z.even _); nia.
Qed.

Lemma round_mono n m d : 0 < d -> 0 <= n <= m -> Double.round n d <= Double.round m d.
Proof.
  intros Hd H. unfold Double.round. pose proof (Z.div_le_mono n m d Hd ltac:(lia)) as Hx. pose proof (Z.div_pos n d ltac:(lia) Hd).
  pose proof (Z.log2_le_mono _ _ Hx). set (e1 := Z.max 0 (Z.log2 (n / d) - 52)) in *. set (e2 := Z.max 0 (Z.log2 (m / d) - 52)) in *.
  destruct (Z.eq_dec e1 e2) as [->|Hne]; [apply Z.mul_le_mono_nonneg_r; [lia|]; apply nearest_mono; nia|].
  assert (E1 : 0 <= e1 < e2) by lia. assert (E2 : e2 = Z.log2 (m / d) - 52) by lia.
  assert (A : Double.nearest n (d * 2 ^ e1) <= 2 ^ 53).
  { rewrite <- (nearest_exact (2 ^ 53) (d * 2 ^ e1)) by nia. apply nearest_mono; [nia|].
    assert (n / d < 2 ^ (e1 + 53)).
    { destruct (Z.eq_dec (n / d) 0) as [->|Hn]; [nia|]. pose proof (Z.log2_spec (n / d) ltac:(lia)) as [_ Hl].
      eapply Z.lt_le_trans; [exact Hl|]. apply Z.pow_le_mono_r; lia. }
    rewrite Z.pow_add_r in * by lia. pose proof (Z.mul_succ_div_gt n d Hd). nia. }
  assert (B : 2 ^ 52 <= Double.nearest m (d * 2 ^ e2)).
  { rewrite <- (nearest_exact (2 ^ 52) (d * 2 ^ e2)) at 1 by nia. apply nearest_mono; [nia|].
    assert (Hp : 0 < m / d) by (destruct (Z.le_gt_cases (m / d) 0) as [Hle|]; [rewrite Z.log2_nonpos in E2 by lia; lia|lia]).
    pose proof (Z.log2_spec (m / d) Hp) as [Hl _]. replace (Z.log2 (m / d)) with (52 + e2) in Hl by lia. rewrite Z.pow_add_r in Hl by lia. pose proof (Z.mul_div_le m d Hd). nia. }
  assert (C : 2 * 2 ^ e1 <= 2 ^ e2) by (rewrite <- Z.pow_succ_r by lia; apply Z.pow_le_mono_r; lia).
  assert (0 < 2 ^ e1) by lia. nia.
Qed.

(** In the normal range the error is at most half a unit in the last place. *)
Lemma round_err n d : 0 < d -> 2 ^ 52 * d <= n -> 2 ^ 53 * Z.abs (Double.round n d * d - n) <= n.
Proof.
  intros Hd Hn. unfold Double.round. assert (Hx : 2 ^ 52 <= n / d) by (apply Z.div_le_lower_bound; lia).
  assert (Hl : 52 <= Z.log2 (n / d)) by (apply Z.log2_le_pow2; lia). set (e := Z.max 0 (Z.log2 (n / d) - 52)).
  assert (He : 2 ^ 52 * 2 ^ e <= n / d).
  { rewrite <- Z.pow_add_r by lia. replace (52 + e) with (Z.log2 (n / d)) by lia. by apply Z.log2_spec; lia. }
  pose proof (nearest_err n (d * 2 ^ e) ltac:(nia)) as Hr. pose proof (Z.mul_div_le n d Hd).
  replace (Double.nearest n (d * 2 ^ e) * 2 ^ e * d) with (Double.nearest n (d * 2 ^ e) * (d * 2 ^ e)) by ring. nia.
Qed.

Lemma round_0 d : 0 < d -> Double.round 0 d = 0.
Proof. intros Hd. unfold Double.round. rewrite Z.div_0_l by lia. cbn. unfold Double.nearest. by rewrite Z.div_0_l, Z.mod_0_l, (proj2 (Z.ltb_lt _ _)) by lia. Qed.

(** A number with at most 53 significant bits is a double. *)
Lemma round_exact k j d : 0 < d -> 0 <= k < 2 ^ 53 -> 0 <= j -> Double.round (k * 2 ^ j * d) d = k * 2 ^ j.
Proof.
  intros Hd Hk Hj. unfold Double.round. rewrite Z.div_mul by lia. set (e := Z.max 0 _).
  assert (He : 0 <= e <= j).
  { split; [lia|]. apply Z.max_lub; [lia|]. destruct (Z.eq_dec k 0) as [->|Hk0]; [by rewrite Z.mul_0_l; cbn; lia|].
    rewrite Z.log2_mul_pow2 by lia. assert (Z.log2 k < 53) by (apply Z.log2_lt_pow2; lia). lia. }
  replace (k * 2 ^ j * d) with (k * 2 ^ (j - e) * (d * 2 ^ e)).
  - rewrite nearest_exact by nia. rewrite <- Z.mul_assoc, <- Z.pow_add_r by lia. do 2 f_equal. lia.
  - replace j with (j - e + e) at 2 by lia. rewrite Z.pow_add_r by lia. ring.
Qed.

Lemma of_int_exact i : 0 <= i < 2 ^ 53 -> Double.of_int i = i * Double.one.
Proof. intros Hi. unfold Double.of_int. rewrite one_pow. rewrite <- (Z.mul_1_r (i * _)) at 1. by apply round_exact. Qed.

(** The denominator of the timebase times 10^6 is computed exactly, and the factor has one rounding. *)
Lemma factor_err numer denom : 0 < numer < 2 ^ 32 -> 0 < denom < 2 ^ 32 ->
  let D := denom * 1000000 in 2 ^ 53 * Z.abs (factor numer denom * D - numer * Double.one) <= numer * Double.one.
Proof.
  intros Hn Hd D. unfold factor, Double.div, Double.mul. rewrite !of_int_exact by lia. pose proof one_big.
  assert (E : Double.round (denom * Double.one * (1000000 * Double.one)) Double.one = D * Double.one).
  { replace (denom * Double.one * (1000000 * Double.one)) with (D * Double.one * Double.one) by (unfold D; ring).
    rewrite one_pow at 1 3. by apply round_exact; [lia|unfold D; lia|]. }
  rewrite E. pose proof (round_err (numer * Double.one * Double.one) (D * Double.one) ltac:(unfold D; nia)) as Hr.
  assert (Hl : 2 ^ 52 * (D * Double.one) <= numer * Double.one * Double.one) by (unfold D; nia). specialize (Hr Hl).
  revert Hr. generalize (Double.round (numer * Double.one * Double.one) (D * Double.one)). intros r Hr.
  assert (K : Z.abs (r * (D * Double.one) - numer * Double.one * Double.one) = Z.abs (r * D - numer * Double.one) * Double.one).
  { rewrite <- (Z.abs_eq Double.one) at 5 by lia. rewrite <- Z.abs_mul. f_equal. ring. }
  rewrite K in Hr. nia.
Qed.

(** Three bounds on factors bound the product. *)
Lemma chain_le a b x y l z w v D k : 0 <= a -> 0 <= b -> 0 <= x -> 0 <= y -> 0 <= D -> z = k * D ->
  a * x <= b * l -> a * y <= b * z -> a * (l * k) <= b * v -> w = v * D -> a ^ 3 * (x * y) <= b ^ 3 * w.
Proof.
  intros Ha Hb Hx Hy HD -> H1 H2 H3 ->. transitivity (a * ((b * l) * (b * (k * D)))).
  - replace (a ^ 3 * (x * y)) with (a * ((a * x) * (a * y))) by ring. apply Z.mul_le_mono_nonneg_l; [done|]. apply Z.mul_le_mono_nonneg; auto using Z.mul_nonneg_nonneg.
  - replace (a * ((b * l) * (b * (k * D)))) with (b * b * D * (a * (l * k))) by ring. replace (b ^ 3 * (v * D)) with (b * b * D * (b * v)) by ring.
    apply Z.mul_le_mono_nonneg_l; auto using Z.mul_nonneg_nonneg.
Qed.
Lemma chain_ge a b x y l z w v D k : 0 <= a -> 0 <= b -> 0 <= l -> 0 <= z -> 0 <= D -> z = k * D ->
  b * l <= a * x -> b * z <= a * y -> b * v <= a * (l * k) -> w = v * D -> b ^ 3 * w <= a ^ 3 * (x * y).
Proof.
  intros Ha Hb Hx Hy HD -> H1 H2 H3 ->. transitivity (a * ((b * l) * (b * (k * D)))).
  - replace (a * ((b * l) * (b * (k * D)))) with (b * b * D * (a * (l * k))) by ring. replace (b ^ 3 * (v * D)) with (b * b * D * (b * v)) by ring.
    apply Z.mul_le_mono_nonneg_l; auto using Z.mul_nonneg_nonneg.
  - replace (a ^ 3 * (x * y)) with (a * ((a * x) * (a * y))) by ring. apply Z.mul_le_mono_nonneg_l; [done|]. apply Z.mul_le_mono_nonneg; auto using Z.mul_nonneg_nonneg.
Qed.

(** The three roundings together: the relative error is at most [(1 + 2^-53)^3 - 1]. *)
Lemma product_err numer denom E : 0 < numer < 2 ^ 32 -> 0 < denom < 2 ^ 32 -> 0 < E < 2 ^ 64 ->
  let P := Double.mul (Double.of_int E) (factor numer denom) in let D := denom * 1000000 in
  (2 ^ 53 - 1) ^ 3 * (E * numer * Double.one) <= 2 ^ 159 * (P * D) <= (2 ^ 53 + 1) ^ 3 * (E * numer * Double.one).
Proof.
  intros Hn Hd He P D. pose proof one_big as Hone. pose proof (factor_err numer denom Hn Hd) as Hk. cbv zeta in Hk. fold D in Hk.
  set (k := factor numer denom) in *. assert (HD : 0 < D < 2 ^ 52) by (unfold D; lia).
  assert (Hl : 2 ^ 53 * Z.abs (Double.of_int E - E * Double.one) <= E * Double.one).
  { unfold Double.of_int. pose proof (round_err (E * Double.one) 1 ltac:(lia) ltac:(nia)). by rewrite Z.mul_1_r in *. }
  set (l := Double.of_int E) in *.
  assert (K1 : (2 ^ 53 - 1) * (numer * Double.one) <= 2 ^ 53 * (k * D) <= (2 ^ 53 + 1) * (numer * Double.one)) by lia.
  assert (L1 : (2 ^ 53 - 1) * (E * Double.one) <= 2 ^ 53 * l <= (2 ^ 53 + 1) * (E * Double.one)) by lia.
  assert (K0 : 2 ^ 100 <= k) by nia. assert (L0 : Double.one <= 2 * l) by nia.
  pose proof (round_err (l * k) Double.one ltac:(lia) ltac:(nia)) as Hp. change (Double.round (l * k) Double.one) with P in Hp.
  assert (P1 : (2 ^ 53 - 1) * (l * k) <= 2 ^ 53 * (P * Double.one) <= (2 ^ 53 + 1) * (l * k)) by lia.
  assert (0 < k * D) by (apply Z.mul_pos_pos; lia). assert (0 <= numer * Double.one) by (apply Z.mul_nonneg_nonneg; lia). assert (0 <= E * Double.one) by (apply Z.mul_nonneg_nonneg; lia).
  split; apply (Z.mul_le_mono_pos_r _ _ Double.one ltac:(lia)); rewrite <- !Z.mul_assoc; change (2 ^ 159) with ((2 ^ 53) ^ 3);
    replace (E * (numer * (Double.one * Double.one))) with (E * Double.one * (numer * Double.one)) by ring.
  - apply (chain_le _ _ _ _ l (k * D) _ (P * Double.one) D k); try done; try lia.
  - apply (chain_ge _ _ _ _ l (k * D) _ (P * Double.one) D k); try done; try lia.
Qed.

(** The milliseconds of [E] ticks, as a double. *)
Definition millis (numer denom E : Z) : Z := Double.mul (Double.of_int E) (factor numer denom).

Lemma millis_0 numer denom : millis numer denom 0 = 0.
Proof. unfold millis, Double.mul. pose proof one_big. rewrite (of_int_exact 0), !Z.mul_0_l by lia. apply round_0. lia. Qed.

Lemma round_nonneg n d : 0 < d -> 0 <= n -> 0 <= Double.round n d.
Proof. intros Hd Hn. rewrite <- (round_0 d Hd). apply round_mono; lia. Qed.

Lemma millis_mono numer denom E F : 0 < numer < 2 ^ 32 -> 0 < denom < 2 ^ 32 -> 0 <= E <= F -> 0 <= millis numer denom E <= millis numer denom F.
Proof.
  intros Hn Hd HE. pose proof one_big as Ho. pose proof (factor_err numer denom Hn Hd) as Hk. cbv zeta in Hk. assert (0 <= factor numer denom) by nia.
  unfold millis, Double.mul, Double.of_int. assert (0 <= Double.round (E * Double.one) 1) by (apply round_nonneg; nia).
  assert (Double.round (E * Double.one) 1 <= Double.round (F * Double.one) 1) by (apply round_mono; nia). split; [apply round_nonneg|apply round_mono]; nia.
Qed.

(** As long as the time is below 2^33 ms, the rounding errors stay below 1 ms. *)
Lemma millis_close numer denom E : 0 < numer < 2 ^ 32 -> 0 < denom < 2 ^ 32 -> 0 < E < 2 ^ 64 -> E * numer < 2 ^ 33 * (denom * 1000000) ->
  let D := denom * 1000000 in Double.one * (E * numer - D) <= millis numer denom E * D <= Double.one * (E * numer + D).
Proof.
  intros Hn Hd HE Hs D. destruct (product_err numer denom E Hn Hd HE) as [H1 H2]. fold (millis numer denom E) D in H1, H2. fold D in Hs.
  pose proof one_big. assert (0 < D) by lia. assert (K : E * numer * Double.one <= 2 ^ 33 * (D * Double.one)) by nia.
  set (A := E * numer * Double.one) in *. set (B := D * Double.one) in *. set (M := millis numer denom E * D) in *.
  replace (Double.one * (E * numer - D)) with (A - B) by (unfold A, B; ring). replace (Double.one * (E * numer + D)) with (A + B) by (unfold A, B; ring).
  assert (0 < B) by (unfold B; nia). assert (0 <= A) by (unfold A; nia). clearbody A B M. lia.
Qed.

Lemma millis_late numer denom E : 0 < numer < 2 ^ 32 -> 0 < denom < 2 ^ 32 -> 0 < E < 2 ^ 64 -> (2 ^ 32 + 1) * (denom * 1000000) <= E * numer ->
  2 ^ 32 * Double.one <= millis numer denom E.
Proof.
  intros Hn Hd HE Hs. destruct (product_err numer denom E Hn Hd HE) as [H1 _]. fold (millis numer denom E) in H1. set (D := denom * 1000000) in *. assert (0 < D) by lia.
  pose proof one_big. assert (K : (2 ^ 32 + 1) * (D * Double.one) <= E * numer * Double.one) by nia. apply (Z.mul_le_mono_pos_r _ _ D); [done|].
  replace (2 ^ 32 * Double.one * D) with (2 ^ 32 * (D * Double.one)) by ring. set (A := E * numer * Double.one) in *. set (B := D * Double.one) in *.
  assert (0 < B) by (unfold B; nia). generalize dependent (millis numer denom E * D). intros M. clearbody A B. lia.
Qed.

Lemma to_u32_mono a b v : 0 <= a <= b -> Double.to_u32 b = Some v -> exists u, Double.to_u32 a = Some u /\ u <= v.
Proof.
  intros H. unfold Double.to_u32. pose proof one_big. pose proof (Z.div_le_mono a b Double.one ltac:(lia) ltac:(lia)).
  destruct (Z.ltb_spec (b / Double.one) (2 ^ 32)); [|done]. intros [= <-]. exists (a / Double.one). split; [|lia]. by rewrite (proj2 (Z.ltb_lt _ _)) by lia.
Qed.

(** A later call of [sys_now] than the one that set the clock up. *)
Lemma sys_now_later numer denom t0 t1 r t : 0 < t0 <= t -> t < 2 ^ 64 -> let s := (sys_now numer denom t0 t1 clock_initial).2 in
  sys_now numer denom r t s = (Double.to_u32 (millis numer denom (t - t0)), s).
Proof.
  intros H0 H1. cbn [sys_now clock_initial start_ticks snd]. unfold sys_now at 1. rewrite Z.eqb_refl. cbn [start_ticks ticks_to_ms snd].
  rewrite (proj2 (Z.eqb_neq t0 0)) by lia. cbn [start_ticks ticks_to_ms snd]. by rewrite Z.mod_small by lia.
Qed.

(** C28: [sys_now] is a clock of milliseconds: once set up it keeps its start,
    its results never decrease, and up to 2^32 ms (49.7 days) they differ from
    the exact time by at most 1; but it does not wrap around: from then on the
    double does not fit the 32-bit result, and the conversion is undefined. *)
Theorem sys_now_clock numer denom t0 t1 t t' r r' : 0 < numer < 2 ^ 32 -> 0 < denom < 2 ^ 32 -> 0 < t0 <= t -> t <= t' < 2 ^ 64 ->
  let s := (sys_now numer denom t0 t1 clock_initial).2 in let now := sys_now numer denom r t s in let later := sys_now numer denom r' t' now.2 in
  let ms := (t - t0) * numer / (denom * 1000000) in
  later.2 = s
  /\ (forall v', later.1 = Some v' -> exists v, now.1 = Some v /\ v <= v')
  /\ (ms < 2 ^ 32 - 1 -> exists v, now.1 = Some v /\ ms - 1 <= v <= ms + 1)
  /\ (2 ^ 32 < ms -> now.1 = None /\ later.1 = None).
Proof.
  intros Hn Hd H0 H1 s now later ms. pose proof one_big as Ho. set (D := denom * 1000000) in *. assert (HD : 0 < D) by lia.
  assert (E : now = (Double.to_u32 (millis numer denom (t - t0)), s)) by (apply sys_now_later; lia).
  assert (F : later = (Double.to_u32 (millis numer denom (t' - t0)), s)) by (unfold later; rewrite E; apply sys_now_later; lia).
  rewrite E, F. cbn [fst snd]. pose proof (millis_mono numer denom (t - t0) (t' - t0) Hn Hd ltac:(lia)) as Hm.
  assert (L : 2 ^ 32 < ms -> Double.to_u32 (millis numer denom (t - t0)) = None).
  { intros Hms. unfold Double.to_u32. destruct (Z.ltb_spec (millis numer denom (t - t0) / Double.one) (2 ^ 32)) as [Hlt|]; [|done].
    pose proof (Z.mul_div_le ((t - t0) * numer) D HD) as Hq. fold ms in Hq. assert (t - t0 <> 0) by (intros Z0; unfold ms in Hms; rewrite Z0, Z.mul_0_l, Z.div_0_l in Hms; lia).
    pose proof (millis_late numer denom (t - t0) Hn Hd ltac:(lia) ltac:(fold D; nia)) as Hl. apply (Z.div_le_mono _ _ Double.one) in Hl; [|lia]. rewrite Z.div_mul in Hl by lia. lia. }
  split_and!; [done|intros v' Hv; by eapply to_u32_mono| |].
  - intros Hms. destruct (Z.eq_dec (t - t0) 0) as [Z0|Hne].
    { unfold ms. rewrite Z0, millis_0, Z.mul_0_l, Z.div_0_l by lia. exists 0. split; [|lia]. unfold Double.to_u32. by rewrite Z.div_0_l by lia. }
    pose proof (Z.mul_succ_div_gt ((t - t0) * numer) D HD) as Hu. pose proof (Z.mul_div_le ((t - t0) * numer) D HD) as Hq. fold ms in Hu, Hq.
    pose proof (millis_close numer denom (t - t0) Hn Hd ltac:(lia) ltac:(fold D; nia)) as [C1 C2]. fold D in C1, C2. set (X := (t - t0) * numer) in *. set (M := millis numer denom (t - t0)) in *.
    assert (B1 : ms - 1 <= M / Double.one) by (apply Z.div_le_lower_bound; [lia|]; apply (Z.mul_le_mono_pos_r _ _ D HD); nia).
    assert (B2 : M / Double.one < ms + 2) by (apply Z.div_lt_upper_bound; [lia|]; apply (Z.mul_lt_mono_pos_r D _ _ HD); nia).
    exists (M / Double.one). split; [|lia]. unfold Double.to_u32. by rewrite (proj2 (Z.ltb_lt _ _)) by lia.
  - intros Hms. split; [by apply L|]. destruct (Double.to_u32 (millis numer denom (t' - t0))) eqn:Ev; [|done]. destruct (to_u32_mono _ _ _ Hm Ev) as (u & Eu & _). rewrite L in Eu by done. done.
Qed.

(** The clock of an ARM machine, 24 MHz, one second after its start and 50 days later. *)
Lemma sys_now_clock_witness :
  let s := (sys_now 125 3 1000 1010 clock_initial).2 in
  (sys_now 125 3 0 24001000 s).1 = Some 1000
  /\ (forall v', (sys_now 125 3 0 103680000001000 (sys_now 125 3 0 24001000 s).2).1 = Some v' -> exists v, (sys_now 125 3 0 24001000 s).1 = Some v /\ v <= v')
  /\ (sys_now 125 3 0 103680000001000 s).1 = None.
Proof.
  cbv zeta. split; [vm_compute; reflexivity|].
  pose proof (sys_now_clock 125 3 1000 1010 24001000 103680000001000 0 0 ltac:(lia) ltac:(lia) ltac:(lia) ltac:(lia)) as H. cbv zeta in H. split; [exact (proj1 (proj2 H))|]. clear H.
  pose proof (sys_now_clock 125 3 1000 1010 103680000001000 103680000001000 0 0 ltac:(lia) ltac:(lia) ltac:(lia) ltac:(lia)) as H. cbv zeta in H.
  refine (proj1 (proj2 (proj2 (proj2 H)) _)). vm_compute. reflexivity.
Defined.
