(* ===== verification/Scheduler.v ===== *)
(** * Scheduler: the two queues

    src/Sources/TunForgeCore/TFGlobalScheduler.m, TFQueueHelpers.m and
    include/TFQueueHelpers.h.  libdispatch is not part of the program: what
    [dispatch_get_specific] answers in a context is a parameter of the model, and
    [dispatch_sync] and [dispatch_async] appear only as the calls the code makes.
    A block is a function from the context it runs in to what it does there; of
    libdispatch it is assumed that a block given to a queue runs on that queue,
    and documented that [dispatch_sync] on the current queue is a deadlock.

    What the code checks is whether the current queue has a value for the key, so
    whether the keys have been bound decides about everything below. *)

From S2P Require Import Prelude.

(** ** Data *)
Inductive queue := PacketsQueue | ConnectionsQueue.
#[export] Instance queue_eq_dec : EqDecision queue.
Proof. solve_decision. Defined.

(** The keys are the addresses of two static variables. *)
Inductive queue_key := kProcessKey | kDelegateKey.
Definition TFGetPacketsQueueKey : queue_key := kProcessKey.
Definition TFGetConnectionsQueueKey : queue_key := kDelegateKey.

(** Where code runs: on a queue, or on a thread of the application. *)
Inductive ctx := OnQueue (q : queue) | OnThread (i : nat).
#[export] Instance ctx_eq_dec : EqDecision ctx.
Proof. solve_decision. Defined.

(** What code does: a piece of work of its own, or a call of libdispatch, made in
    context [c], with what the block does when it runs. *)
Inductive effect :=
  | Did (c : ctx) (n : Z)
  | dispatch_sync (c : ctx) (q : queue) (block : list effect)
  | dispatch_async (c : ctx) (q : queue) (block : list effect)
  | dispatch_queue_set_specific (q : queue) (k : queue_key) (value : Z).

Definition block := ctx -> list effect.

Section Queues.
(** The value the current queue has for a key; 0 is NULL. *)
Variable dispatch_get_specific : ctx -> queue_key -> Z.

(** ** TFQueueHelpers *)
Definition tf_on_specific_queue (c : ctx) (k : queue_key) : bool := negb (dispatch_get_specific c k =? 0).

Definition tf_perform_sync (c : ctx) (q : queue) (k : queue_key) (b : block) : list effect :=
  if tf_on_specific_queue c k then b c else [dispatch_sync c q (b (OnQueue q))].

Definition tf_perform_async (c : ctx) (q : queue) (k : queue_key) (b : block) : list effect :=
  if tf_on_specific_queue c k then b c else [dispatch_async c q (b (OnQueue q))].

Definition TFBindQueueSpecific (q : queue) (k : queue_key) (value : Z) : list effect := [dispatch_queue_set_specific q k value].
Definition TFIsOnQueue (c : ctx) (k : queue_key) : bool := negb (dispatch_get_specific c k =? 0).

(** [None] when the process stops; [DEBUG] is the build. *)
Definition TFAssertOnQueue (DEBUG : bool) (c : ctx) (k : queue_key) : option unit := if DEBUG then assert! TFIsOnQueue c k in Some () else Some ().
Definition TFAssertOnPACKETSQueue (DEBUG : bool) (c : ctx) : option unit :=
  if DEBUG then assert! TFIsOnQueue c TFGetPacketsQueueKey in Some () else Some ().

(** ** TFGlobalScheduler.m *)

(** The object: [configured], whether [packetsQueue] and [connectionsQueue] are
    set, and whether [_configLock] is held. *)
Record scheduler := mk_sched { configured : bool; has_packets : bool; has_connections : bool; config_lock : bool }.
#[export] Instance eta_sched : Eta scheduler := fun s => mk_sched (configured s) (has_packets s) (has_connections s) (config_lock s).
Definition scheduler_initPrivate : scheduler := mk_sched false false false false.

(** The arguments are [nil] or not; the flag is true when the assertion throws
    (which [@finally] unlocks behind), [None] stands for a lock taken twice. *)
Definition configureWithPacketsQueue (packetsQueue connectionsQueue : bool) (s : scheduler) : option (bool * scheduler) :=
  assert! negb (config_lock s) in
  let s := s <| config_lock := true |> in
  let (threw, s) := if configured s then (true, s) else (false, s <| has_packets := packetsQueue |> <| has_connections := connectionsQueue |> <| configured := true |>) in
  Some (threw, s <| config_lock := false |>).

(** [None]: an assertion fails. *)
Definition packetsPerformAsync (s : scheduler) (c : ctx) (b : block) : option (list effect) :=
  assert! has_packets s in Some (tf_perform_async c PacketsQueue TFGetPacketsQueueKey b).
Definition packetsPerformSync (s : scheduler) (c : ctx) (b : block) : option (list effect) :=
  assert! has_packets s in Some (tf_perform_sync c PacketsQueue TFGetPacketsQueueKey b).
Definition connectionsPerformSync (s : scheduler) (c : ctx) (b : block) : option (list effect) :=
  assert! has_connections s in Some (tf_perform_sync c ConnectionsQueue TFGetConnectionsQueueKey b).
Definition connectionsPerformAsync (s : scheduler) (c : ctx) (b : block) : option (list effect) :=
  assert! has_connections s in Some (tf_perform_async c ConnectionsQueue TFGetConnectionsQueueKey b).

Definition perform (sync : bool) (q : queue) (s : scheduler) (c : ctx) (b : block) : option (list effect) :=
  match q, sync with
  | PacketsQueue, true => packetsPerformSync s c b
  | PacketsQueue, false => packetsPerformAsync s c b
  | ConnectionsQueue, true => connectionsPerformSync s c b
  | ConnectionsQueue, false => connectionsPerformAsync s c b
  end.

(** ** Programs that use the scheduler *)

(** Pieces of work, and blocks performed on a queue, nested in any way. *)
Inductive act := Work (n : Z) | Perform (sync : bool) (q : queue) (b : list act).

(** What an action does in a context; an assertion that fails does nothing more. *)
Fixpoint effects (s : scheduler) (a : act) (c : ctx) : list effect :=
  match a with
  | Work n => [Did c n]
  | Perform sync q b => default [] (perform sync q s c (fun c => flat_map (fun a => effects s a c) b))
  end.

(** The work done, with where it is done. *)
Fixpoint done_by (e : effect) : list (ctx * Z) :=
  match e with
  | Did c n => [(c, n)]
  | dispatch_sync _ _ b | dispatch_async _ _ b => flat_map done_by b
  | dispatch_queue_set_specific _ _ _ => []
  end.

(** Where it belongs: on the queue the program named last. *)
Fixpoint belongs (a : act) (c : ctx) : list (ctx * Z) :=
  match a with
  | Work n => [(c, n)]
  | Perform _ q b => flat_map (fun a => belongs a (OnQueue q)) b
  end.

(** No [dispatch_sync] on the queue it is called from. *)
Fixpoint no_self_wait (e : effect) : bool :=
  match e with
  | dispatch_sync c q b => negb (bool_decide (c = OnQueue q)) && forallb no_self_wait b
  | dispatch_async _ _ b => forallb no_self_wait b
  | _ => true
  end.

(** Each queue has a value for its own key, and nothing else has. *)
Definition key_of (q : queue) : queue_key := match q with PacketsQueue => TFGetPacketsQueueKey | ConnectionsQueue => TFGetConnectionsQueueKey end.
Definition keys_bound : Prop := forall c q, dispatch_get_specific c (key_of q) <> 0 <-> c = OnQueue q.
Definition keys_unbound : Prop := forall c k, dispatch_get_specific c k = 0.

Lemma on_queue_bound c q : keys_bound -> tf_on_specific_queue c (key_of q) = bool_decide (c = OnQueue q).
Proof.
  intros H. unfold tf_on_specific_queue. case_bool_decide as E; [by apply negb_true_iff, Z.eqb_neq, H|].
  apply negb_false_iff, Z.eqb_eq. destruct (Z.eq_dec (dispatch_get_specific c (key_of q)) 0) as [|Hn]; [done|]. by apply H in Hn.
Qed.

Lemma perform_eq sync q s c b : has_packets s = true -> has_connections s = true ->
  perform sync q s c b = Some (if tf_on_specific_queue c (key_of q) then b c else [(if sync then dispatch_sync else dispatch_async) c q (b (OnQueue q))]).
Proof. intros H1 H2. unfold perform, packetsPerformSync, packetsPerformAsync, connectionsPerformSync, connectionsPerformAsync. rewrite H1, H2. by destruct q, sync. Qed.

Section ActInd.
Variable P : act -> Prop.
Hypothesis P_work : forall n, P (Work n).
Hypothesis P_perform : forall sync q b, Forall P b -> P (Perform sync q b).
Fixpoint act_nested_ind (a : act) : P a :=
  match a with
  | Work n => P_work n
  | Perform sync q b => P_perform sync q b ((fix go l : Forall P l := match l with [] => Forall_nil_2 P | x :: l => Forall_cons_2 P x l (act_nested_ind x) (go l) end) b)
  end.
End ActInd.

Definition settled (s : scheduler) (a : act) : Prop := forall c, flat_map done_by (effects s a c) = belongs a c /\ forallb no_self_wait (effects s a c) = true.

Lemma settled_list s l c : Forall (settled s) l ->
  flat_map done_by (flat_map (fun a => effects s a c) l) = flat_map (fun a => belongs a c) l /\ forallb no_self_wait (flat_map (fun a => effects s a c) l) = true.
Proof.
  induction 1 as [|a l Ha _ [IH1 IH2]]; [done|]. cbn [flat_map]. destruct (Ha c) as [H1 H2]. by rewrite flat_map_app, forallb_app, H1, H2, IH1, IH2.
Qed.

Lemma bound_settled s a : keys_bound -> has_packets s = true -> has_connections s = true -> settled s a.
Proof.
  intros Hk H1 H2. induction a as [n|sync q b IH] using act_nested_ind; intros c; [done|]. cbn [effects belongs]. rewrite perform_eq by done. cbn [default from_option id].
  destruct (settled_list s b (OnQueue q) IH) as [B1 B2]. rewrite on_queue_bound by done. case_bool_decide as E; [by subst c|].
  destruct sync; cbn [flat_map done_by forallb no_self_wait]; rewrite app_nil_r, B2, ?bool_decide_eq_false_2 by done; by split.
Qed.

(** The first call decides; every other one throws, changes nothing, and leaves
    the lock free. *)
Fixpoint configures (l : list (bool * bool)) (s : scheduler) : option (list bool * scheduler) :=
  match l with
  | [] => Some ([], s)
  | (p, c) :: l => let? (threw, s) := configureWithPacketsQueue p c s in let? (ts, s) := configures l s in Some (threw :: ts, s)
  end.

Theorem configure_once p c l : configures ((p, c) :: l) scheduler_initPrivate = Some (false :: map (fun _ => true) l, mk_sched true p c false).
Proof.
  change (configures ((p, c) :: l) scheduler_initPrivate) with (let? (ts, s) := configures l (mk_sched true p c false) in Some (false :: ts, s)).
  assert (H : configures l (mk_sched true p c false) = Some (map (fun _ => true) l, mk_sched true p c false)); [|by rewrite H]. induction l as [|[p' c'] l IH]; [done|].
  change (configures ((p', c') :: l) (mk_sched true p c false)) with (let? (ts, s) := configures l (mk_sched true p c false) in Some (true :: ts, s)). by rewrite IH.
Qed.

(** C24: what binding the keys is needed for.  The upper layer must bind each key
    to its queue (nothing in the repository calls [TFBindQueueSpecific]).  If it
    has, then for any program of blocks performed on the queues, synchronously or
    not and nested in any way, on a configured scheduler: every piece of work is
    done on the queue it was meant for, in the program's order within each block,
    and [dispatch_sync] is never called on the queue it targets, which would be a
    deadlock.  If it has not, then a synchronous call within a synchronous call of
    the same queue is one, and the assertion that code runs on the packets queue
    fails everywhere. *)
Theorem sync_needs_bound_keys s : has_packets s = true -> has_connections s = true ->
  (keys_bound -> forall l c, flat_map done_by (flat_map (fun a => effects s a c) l) = flat_map (fun a => belongs a c) l
     /\ forallb no_self_wait (flat_map (fun a => effects s a c) l) = true
     /\ (TFAssertOnPACKETSQueue true c = Some () <-> c = OnQueue PacketsQueue))
  /\ (keys_unbound -> forall q b c, forallb no_self_wait (effects s (Perform true q [Perform true q b]) c) = false /\ TFAssertOnPACKETSQueue true c = None).
Proof.
  intros H1 H2. split.
  - intros Hk l c. destruct (settled_list s l c) as [E1 E2]; [apply Forall_true; intros a; by apply bound_settled|]. split_and!; [done|done|]. unfold TFAssertOnPACKETSQueue.
    change (TFIsOnQueue c TFGetPacketsQueueKey) with (tf_on_specific_queue c (key_of PacketsQueue)). rewrite on_queue_bound by done. case_bool_decide; naive_solver.
  - intros Hu q b c. assert (Hn : forall c k, tf_on_specific_queue c k = false) by (intros c' k; unfold tf_on_specific_queue; by rewrite Hu). split.
    + cbn [effects]. rewrite perform_eq, Hn by done. cbn [default from_option id forallb no_self_wait flat_map effects]. rewrite perform_eq, Hn by done.
      cbn [default from_option id forallb no_self_wait app]. rewrite (bool_decide_eq_true_2 (OnQueue q = OnQueue q)) by done. cbn [negb andb forallb]. by rewrite !andb_false_r.
    + unfold TFAssertOnPACKETSQueue, TFIsOnQueue. by rewrite Hu.
Qed.
End Queues.

(** ** Witness *)

(** The keys bound as the upper layer is meant to. *)
Definition demo_specific (c : ctx) (k : queue_key) : Z :=
  match c, k with OnQueue PacketsQueue, kProcessKey | OnQueue ConnectionsQueue, kDelegateKey => 1 | _, _ => 0 end.

(** A packet is handed in, its delivery calls back on the connections queue, from
    which the packets queue is called again. *)
Definition demo_program : list act :=
  [Perform false PacketsQueue [Work 1; Perform true PacketsQueue [Work 2]; Perform false ConnectionsQueue [Work 3; Perform true PacketsQueue [Work 4]; Work 5]]; Work 6].

Lemma demo_bound : keys_bound demo_specific.
Proof. intros [[]|i] []; cbn; naive_solver. Qed.

Lemma sync_needs_bound_keys_witness : let s := mk_sched true true true false in
  flat_map done_by (flat_map (fun a => effects demo_specific s a (OnThread 0)) demo_program)
    = [(OnQueue PacketsQueue, 1); (OnQueue PacketsQueue, 2); (OnQueue ConnectionsQueue, 3); (OnQueue PacketsQueue, 4); (OnQueue ConnectionsQueue, 5); (OnThread 0, 6)]
  /\ forallb no_self_wait (flat_map (fun a => effects demo_specific s a (OnThread 0)) demo_program) = true
  /\ forallb no_self_wait (effects (fun _ _ => 0) s (Perform true PacketsQueue [Perform true PacketsQueue [Work 1]]) (OnThread 0)) = false.
Proof.
  cbv zeta. destruct (sync_needs_bound_keys demo_specific (mk_sched true true true false) eq_refl eq_refl) as [H _]. destruct (H demo_bound demo_program (OnThread 0)) as (E1 & E2 & _).
  split; [rewrite E1; reflexivity|]. split; [exact E2|].
  destruct (sync_needs_bound_keys (fun _ _ => 0) (mk_sched true true true false) eq_refl eq_refl) as [_ K]. apply K. intros c k. reflexivity.
Defined.
