(* ===== verification/ConnLwip.v ===== *)
(** * ConnLwip: lwIP as the connection object sees it

    The model of the connection object ([Connection], TFTCPConnection.m) calls
    lwIP through the class [TcpApi] and relies on the laws [TcpApiOk].  Here the
    stack of [TcpStack] (src/Sources/Lwip/src/core/tcp.c, tcp_out.c), with the
    address of the object's pcb, is an instance, and keeps the laws: what the
    theorems about the object assume of lwIP, lwIP does. *)

From S2P Require Import Prelude Opts Connection ConnectionFacts ConnectionProps Ip4Addr Mem TcpPcb TcpOut TcpIn TcpRun TcpStack TcpInput TcpFrame TcpProps.

(** ** What keeps the receive window *)

(** The window and its maximum are the same. *)
Definition same_wnd `{o : Opts} (p q : tcp_pcb) : Prop := rcv_wnd q = rcv_wnd p /\ TCP_WND_MAX q = TCP_WND_MAX p.

#[export] Instance same_wnd_preorder `{o : Opts} : PreOrder same_wnd.
Proof. split; [done|]. intros p q r [H1 H2] [K1 K2]. split; congruence. Qed.

Lemma scale_bit x : flag_set x TF_WND_SCALE = Z.testbit x 8.
Proof.
  unfold flag_set. change TF_WND_SCALE with (2 ^ 8). destruct (Z.testbit x 8) eqn:E.
  - apply negb_true_iff, Z.eqb_neq. intros H. apply (f_equal (fun z => Z.testbit z 8)) in H. rewrite Z.land_spec, Z.pow2_bits_true, Z.bits_0, E in H by lia. done.
  - apply negb_false_iff, Z.eqb_eq. apply Z.bits_inj'. intros n Hn. rewrite Z.land_spec, Z.bits_0. destruct (Z.eq_dec n 8) as [->|Hne]; [by rewrite E|]. by rewrite (Z.pow2_bits_false 8 n), andb_false_r by lia.
Qed.

Section Kept.
Context {o : Opts} {ip : IpLayer}.

Lemma wnd_flag (p q : tcp_pcb) : rcv_wnd q = rcv_wnd p -> Z.testbit (flags q) 8 = Z.testbit (flags p) 8 -> same_wnd p q.
Proof. intros H1 H2. split; [done|]. unfold TCP_WND_MAX. by rewrite !scale_bit, H2. Qed.
Lemma wnd_set f p : Z.testbit f 8 = false -> same_wnd p (tcp_set_flags f p).
Proof.
  intros Hf. apply wnd_flag; [done|]. change (flags (tcp_set_flags f p)) with (Z.lor (flags p) f mod 2 ^ 16). by rewrite Z.mod_pow2_bits_low, Z.lor_spec, Hf, orb_false_r by lia.
Qed.
Lemma wnd_clear f p : Z.testbit f 8 = false -> same_wnd p (tcp_clear_flags f p).
Proof.
  intros Hf. apply wnd_flag; [done|]. change (flags (tcp_clear_flags f p)) with (Z.land (flags p) (Z.land (Z.lnot f) 65535)).
  rewrite !Z.land_spec, Z.lnot_spec, Hf by lia. by rewrite andb_true_r.
Qed.

(** Every change in the code below is a field of its own or a flag. *)
Ltac wdone := first [done | by apply wnd_set | by apply wnd_clear | split; reflexivity].
Ltac wcases := repeat (case_match; try discriminate); simplify_eq; try wdone.

Lemma wnd_alloc_header fl d n s : same_wnd (pcb s) (pcb (snd (tcp_output_alloc_header fl d n s))).
Proof.
  unfold tcp_output_alloc_header. pose proof (keeps_alloc s) as H. destruct (alloc s) as [b s1]. cbn [snd] in H. destruct b; cbn [snd]; [|by rewrite H].
  rewrite pcb_updp, H. wdone.
Qed.

Lemma wnd_empty_ack s : same_wnd (pcb s) (pcb (snd (tcp_send_empty_ack s))).
Proof.
  unfold tcp_send_empty_ack. pose proof (wnd_alloc_header TCP_ACK [] (snd_nxt (pcb s)) s) as H. destruct (tcp_output_alloc_header _ _ _ s) as [[k|] s1]; cbn [snd] in *.
  2: { etransitivity; [exact H|]. rewrite pcb_updp. wdone. }
  pose proof (keeps_control (Some (pcb s1)) k s1) as H2. destruct (tcp_output_control_segment _ _ _) as [e s2]. cbn [snd] in H2. etransitivity; [exact H|]. rewrite <- H2.
  destruct (negb _); cbn [snd]; rewrite pcb_updp; wdone.
Qed.

Lemma wnd_output_segment x n s e x' s' : tcp_output_segment x n s = Some (e, x', s') -> same_wnd (pcb s) (pcb s').
Proof.
  unfold tcp_output_segment. destruct (tcp_output_segment_busy x); [by intros [= <- <- <-]|].
  destruct (_ =? _); [|done]. match goal with |- context [ip_output_if ?k ?s] => pose proof (keeps_ip_output k s) as H; destruct (ip_output_if k s) as [e1 s1] end.
  intros [= <- <- <-]. cbn [snd] in H. rewrite H. rsimpl. destruct (_ =? 0); wdone.
Qed.

Lemma wnd_output_loop w n l : forall s e s', output_loop l w n s = Some (e, s') -> same_wnd (pcb s) (pcb s').
Proof.
  induction l as [|x l IH]; intros s e s'; cbn [output_loop]; [by intros [= <- <-]|].
  destruct (negb _); [by intros [= <- <-]|]. destruct (negb _); [|done]. destruct (_ && _); [by intros [= <- <-]|].
  match goal with |- context [tcp_output_segment ?x n s] => destruct (tcp_output_segment x n s) as [[[e1 x1] s1]|] eqn:E1; [|done] end.
  apply wnd_output_segment in E1. destruct (negb (err_ok e1)).
  - intros [= <- <-]. etransitivity; [exact E1|]. rewrite pcb_updp. etransitivity; [|by apply wnd_set]. wdone.
  - intros E2%IH. etransitivity; [exact E1|]. etransitivity; [|exact E2]. set (p := (pcb s1) <| unsent := l |>). change (pcb (s1 <| pcb := ?q |>)) with q.
    set (p2 := if state_is _ _ then p else _). assert (H2 : same_wnd (pcb s1) p2) by (unfold p2; destruct (state_is _ _); [wdone|]; etransitivity; [|by apply wnd_clear]; wdone).
    clearbody p2. etransitivity; [exact H2|]. clear E2. repeat case_match; wdone.
Qed.

Lemma wnd_output s e s' : tcp_output s = Some (e, s') -> same_wnd (pcb s) (pcb s').
Proof.
  unfold tcp_output, output_done. destruct (negb _); [|done]. destruct (is_input_pcb s); [by intros [= <- <-]|].
  destruct (unsent (pcb s)) as [|x l]; [destruct (flag_set _ _)|].
  { intros [= E]. pose proof (wnd_empty_ack s) as H. by rewrite E in H. }
  { intros [= <- <-]. rewrite pcb_updp. wdone. }
  destruct (tcp_route _ _ _) as [n|]; [|by intros [= <- <-]].
  set (s1 := if local_ip (pcb s) =? 0 then _ else s). assert (H1 : same_wnd (pcb s) (pcb s1)) by (unfold s1; case_match; wdone). clearbody s1.
  destruct (_ <? _).
  - set (s2 := if _ && _ && _ then _ else s1). assert (H2 : same_wnd (pcb s) (pcb s2)) by (etransitivity; [exact H1|]; unfold s2; case_match; wdone). clearbody s2.
    destruct (flag_set _ _); intros [= E]; (etransitivity; [exact H2|]); [pose proof (wnd_empty_ack s2) as H; by rewrite E in H|subst; rewrite pcb_updp; wdone].
  - destruct (output_loop _ _ _ _) as [[e1 s2]|] eqn:E; [|done]. apply wnd_output_loop in E. assert (H2 : same_wnd (pcb s) (pcb s2)) by (etransitivity; [exact H1|exact E]).
    destruct (negb _); intros [= <- <-]; [exact H2|]. etransitivity; [exact H2|]. rewrite !pcb_updp. etransitivity; [|by apply wnd_clear]. case_match; wdone.
Qed.

Lemma wnd_enqueue fl s e s' : tcp_enqueue_flags fl s = Some (e, s') -> same_wnd (pcb s) (pcb s').
Proof.
  unfold tcp_enqueue_flags. destruct (flag_set fl _); [|done]. pose proof (keeps_alloc s) as H. destruct (alloc s) as [b s1]. cbn [snd] in H.
  destruct b; cbn [negb]; [|intros [= <- <-]; rewrite pcb_updp, H; wdone].
  match goal with |- context [tcp_create_segment ?a ?b ?c ?d s1] => pose proof (keeps_create a b c d s1) as H2; destruct (tcp_create_segment a b c d s1) as [[x|] s2] end; cbn [snd] in H2.
  - destruct (_ =? 0); [|done]. destruct (_ || _); [|done]. intros [= <- <-]. change (pcb (s2 <| pcb := ?p |>)) with p. rewrite H2, H.
    set (p0 := _ <| snd_lbb := _ |>). assert (H0 : same_wnd (pcb s) p0) by wdone. destruct (flag_set _ _); [|exact H0]. destruct (wnd_set TF_FIN p0 ltac:(done)) as [L1 L2]. destruct H0. split; etransitivity; [exact L1|done|exact L2|done].
  - intros [= <- <-]. rewrite pcb_updp, H2, H. wdone.
Qed.

Lemma wnd_send_fin s e s' : tcp_send_fin s = Some (e, s') -> same_wnd (pcb s) (pcb s').
Proof.
  unfold tcp_send_fin. destruct (last _) as [x|]; [|apply wnd_enqueue]. destruct (negb _); [|apply wnd_enqueue]. intros [= <- <-]. rewrite !pcb_updp. etransitivity; [|by apply wnd_set]. wdone.
Qed.

Lemma wnd_write arg fl s e s' : TcpOut.tcp_write arg fl s = Some (e, s') -> same_wnd (pcb s) (pcb s').
Proof.
  unfold TcpOut.tcp_write. destruct (tcp_write_checks _ _) as [[e0 s0]|] eqn:E0; [|done].
  assert (H0 : same_wnd (pcb s) (pcb s0)).
  { revert E0. unfold tcp_write_checks. destruct (_ && _); [by intros [= <- <-]|]. destruct (_ =? 0); [by intros [= <- <-]|].
    destruct (_ <? _); [intros [= <- <-]; wdone|]. destruct (_ <=? _); [intros [= <- <-]; wdone|].
    destruct (negb _); [destruct (_ || _)|destruct (_ && _)]; try done; by intros [= <- <-]. }
  destruct (negb _); [by intros [= <- <-]|]. destruct (write_tail _ _ _ _) as [[r s1]|] eqn:E1; [|done]. apply keeps_write_tail in E1. rewrite <- E1 in H0.
  assert (Hm : forall s2, pcb s2 = pcb s1 -> forall e s', write_memerr s2 = Some (e, s') -> same_wnd (pcb s) (pcb s')).
  { intros s2 E2 e2 s3. unfold write_memerr. destruct (_ || _); [|done]. intros [= <- <-]. etransitivity; [exact H0|]. rewrite pcb_updp, E2. wdone. }
  destruct r as [[[[t ov] ql] pos]|]; [|by apply Hm]. destruct (write_loop _ _ _ _ _ _ _ _ _ _) as [q s2] eqn:E2. apply keeps_write_loop in E2.
  destruct q as [[[q ov'] ql']|]; [|by apply Hm]. unfold write_commit, commit_queue. destruct (match last _ with None => _ | Some _ => _ end) as [old|]; [|done].
  destruct (_ || _); [|done]. intros [= <- <-]. etransitivity; [exact H0|]. change (pcb (s2 <| pcb := ?p |>)) with p. rewrite E2. wdone.
Qed.

(** [tcp_recved] credits the window up to its maximum, which stays. *)
Lemma recved_fields n s s' : TcpOut.tcp_recved n s = Some s' ->
  let w := tcpwnd (rcv_wnd (pcb s) + n) in
  rcv_wnd (pcb s') = (if (TCP_WND_MAX (pcb s) <? w) || (w <? rcv_wnd (pcb s)) then TCP_WND_MAX (pcb s) else w) /\ TCP_WND_MAX (pcb s') = TCP_WND_MAX (pcb s).
Proof.
  unfold TcpOut.tcp_recved, recved_window. destruct (negb _); [|done]. cbv zeta. set (w := if _ || _ then _ else _).
  destruct (tcp_update_rcv_ann_wnd _) as [[k q]|] eqn:E; [|done].
  assert (Hq : rcv_wnd q = w /\ TCP_WND_MAX q = TCP_WND_MAX (pcb s)) by (unfold tcp_update_rcv_ann_wnd in E; repeat (case_match; try done); by injection E as <- <-).
  destruct (_ <=? _); [|by intros [= <-]]. destruct (tcp_output _) as [[e s1]|] eqn:E1; [|done]. intros [= <-]. apply wnd_output in E1 as [K1 K2]. rewrite pcb_updp in K1, K2.
  destruct (wnd_set TF_ACK_NOW q ltac:(done)) as [L1 L2]. destruct Hq as [<- <-]. rewrite <- L1, <- L2. by split.
Qed.
Lemma recved_max n s s' : TcpOut.tcp_recved n s = Some s' -> TCP_WND_MAX (pcb s') = TCP_WND_MAX (pcb s).
Proof. by intros [_ H]%recved_fields. Qed.

Lemma wnd_recved `{ook : !OptsOk o} n s s' : 0 <= n <= 65535 -> 0 <= rcv_wnd (pcb s) <= TCP_WND_MAX (pcb s) -> TcpOut.tcp_recved n s = Some s' ->
  rcv_wnd (pcb s') = Z.min (rcv_wnd (pcb s) + n) (TCP_WND_MAX (pcb s)).
Proof.
  intros Hn Hw [-> _]%recved_fields.
  assert (Hmax : TCP_WND_MAX (pcb s) <= 65535) by (pose proof tcp_wnd_range; assert (0 <= TCP_WND) by (change TCP_MSS with 1460 in *; lia); unfold TCP_WND_MAX; repeat case_match; zlia).
  unfold tcpwnd, u32, u16. destruct LWIP_WND_SCALE; [rewrite Z.mod_small by lia; repeat case_match; lia|]. destruct (Z.lt_ge_cases (rcv_wnd (pcb s) + n) 65536) as [Hs|Hs]; [rewrite Z.mod_small by lia; repeat case_match; lia|].
  replace ((rcv_wnd (pcb s) + n) mod 65536) with (rcv_wnd (pcb s) + n - 65536) by (apply (Z.mod_unique _ _ 1); lia). repeat case_match; lia.
Qed.
End Kept.

(** ** On the stack *)
Section Lwip.
Context {o : Opts} {ip : IpLayer}.

(** The pcb is still there, with the same window. *)
Definition wnd_kept (a : Z) (S S' : stack) : Prop := exists c c', pcbs S !! a = Some c /\ pcbs S' !! a = Some c' /\ same_wnd (core c) (core c').

Lemma wnd_kept_trans a S1 S2 S3 : wnd_kept a S1 S2 -> wnd_kept a S2 S3 -> wnd_kept a S1 S3.
Proof. intros (c1 & c2 & H1 & H2 & H3) (c2' & c3 & K1 & K2 & K3). rewrite H2 in K1. injection K1 as <-. exists c1, c3. split_and!; [done|done|by etransitivity]. Qed.

Lemma on_kept {R} a (f : tcp_st -> option (R * tcp_st)) S r S' : (forall s r s', f s = Some (r, s') -> same_wnd (pcb s) (pcb s')) -> on a f S = Ok (r, S') -> wnd_kept a S S'.
Proof.
  intros Hf. unfold on, get. destruct (pcbs S !! a) as [c|] eqn:E; [|done]. cbn [rbind]. destruct (f (view a c S)) as [[r' s]|] eqn:Ef; [|done]. cbn [lift rbind]. intros [= _ <-].
  exists c, (c <| core := pcb s |>). split_and!; [done|cbn; by rewrite lookup_insert_eq|]. apply (Hf _ _ _ Ef).
Qed.

Lemma updc_kept a f S S' : (forall p, same_wnd p (f p)) -> updc a f S = Ok S' -> wnd_kept a S S'.
Proof.
  intros Hf. unfold updc, upd, get. destruct (pcbs S !! a) as [c|] eqn:E; [|done]. cbn [rbind]. intros [= <-].
  exists c, (c <| core := f (core c) |>). split_and!; [done|cbn; by rewrite lookup_insert_eq|apply Hf].
Qed.

Lemma kept_refl a S c : pcbs S !! a = Some c -> wnd_kept a S S.
Proof. intros E. by exists c, c. Qed.

Lemma backlog_kept a S S' : tcp_backlog_accepted a S = Ok S' -> wnd_kept a S S'.
Proof.
  unfold tcp_backlog_accepted, get. destruct (pcbs S !! a) as [c|] eqn:E; [|done]. cbn [rbind]. destruct (_ && _); [|intros [= <-]; by apply (kept_refl a S c)].
  unfold getl. destruct (lpcbs S !! _) as [l|]; [|done]. cbn [rbind]. destruct (negb _); [|done]. intros H. apply updc_kept in H; [exact H|]. intros p. by apply wnd_clear.
Qed.

(** Sending a FIN. *)
Lemma send_fin_kept a st S e S' : send_fin_to a st S = Ok (e, S') -> wnd_kept a S S'.
Proof.
  unfold send_fin_to. destruct (on a tcp_send_fin S) as [[e1 S1]| | |] eqn:E; try done. cbn [rbind]. apply (on_kept a _ S e1) in E; [|apply wnd_send_fin].
  destruct (err_ok e1); [|by intros [= _ <-]]. destruct (updc a _ S1) as [S2| | |] eqn:E2; try done. cbn [rbind]. intros [= _ <-]. apply (wnd_kept_trans a S S1); [exact E|]. apply updc_kept in E2; [exact E2|]. by split.
Qed.

(** What follows the FIN. *)
Lemma finish_kept a S r e S' : (forall e1 S1, r = Ok (e1, S1) -> wnd_kept a S S1) ->
  (let+ (err, S) := r in
    if err_ok err then let+ (_, S) := on a tcp_output S in Ok (err, S)
    else if bool_decide (err = ERR_MEM) then let+ S := updc a (tcp_set_flags TF_CLOSEPEND) S in Ok (ERR_OK, S)
    else Ok (err, S)) = Ok (e, S') -> wnd_kept a S S'.
Proof.
  intros Hr. destruct r as [[e1 S1]| | |]; try done. cbn [rbind]. specialize (Hr e1 S1 eq_refl). destruct (err_ok e1).
  - destruct (on a tcp_output S1) as [[e2 S2]| | |] eqn:E2; try done. cbn [rbind]. intros [= _ <-]. apply (wnd_kept_trans a S S1); [exact Hr|]. apply (on_kept a _ S1 e2) in E2; [exact E2|apply wnd_output].
  - case_bool_decide; [|by intros [= _ <-]]. destruct (updc a _ S1) as [S2| | |] eqn:E2; try done. cbn [rbind]. intros [= _ <-]. apply (wnd_kept_trans a S S1); [exact Hr|]. apply updc_kept in E2; [exact E2|]. intros p. by apply wnd_set.
Qed.

Lemma close_fin_kept a S e S' : tcp_close_shutdown_fin a S = Ok (e, S') -> wnd_kept a S S'.
Proof.
  unfold tcp_close_shutdown_fin, get. destruct (pcbs S !! a) as [c|] eqn:Ec; [|done]. cbn [rbind].
  destruct (state (core c)); try (intros [= _ <-]; by apply (kept_refl a S c)); apply finish_kept; [|intros e1 S1; apply send_fin_kept..].
  intros e1 S1. destruct (on a tcp_send_fin S) as [[e2 S2]| | |] eqn:E2; try done. cbn [rbind]. apply (on_kept a _ S e2) in E2; [|apply wnd_send_fin]. destruct (err_ok e2); [|by intros [= _ <-]].
  destruct (tcp_backlog_accepted a S2) as [S3| | |] eqn:E3; try done. cbn [rbind]. destruct (updc a _ S3) as [S4| | |] eqn:E4; try done. cbn [rbind]. intros [= _ <-]. apply (wnd_kept_trans a S S2); [exact E2|].
  apply (wnd_kept_trans a S2 S3); [by apply backlog_kept|]. apply updc_kept in E4; [exact E4|]. by split.
Qed.

Lemma shutdown_tx_kept a S e S' : tcp_shutdown a false true S = Ok (e, S') -> wnd_kept a S S'.
Proof.
  unfold tcp_shutdown, tcp_close_shutdown, get. cbn [andb rbind]. destruct (pcbs S !! a) as [c|] eqn:Ec; [|done]. cbn [rbind].
  destruct (state (core c)); try (intros [= _ <-]; by apply (kept_refl a S c)); cbn [rbind]; apply close_fin_kept.
Qed.

Lemma close_freed a S e S' : tcp_close a S = Ok (e, S') -> pcbs S' !! a = None -> e = ERR_OK.
Proof.
  unfold tcp_close. destruct (updc a _ S) as [S1| | |]; try done. cbn [rbind]. unfold tcp_close_shutdown, get. destruct (pcbs S1 !! a) as [c|]; [|done]. cbn [rbind].
  assert (Hfin : tcp_close_shutdown_fin a S1 = Ok (e, S') -> pcbs S' !! a = None -> e = ERR_OK) by (intros (c1 & c2 & _ & E & _)%close_fin_kept; by rewrite E).
  assert (Hb : forall (r : res stack), (let+ S2 := r in Ok (ERR_OK, S2)) = Ok (e, S') -> e = ERR_OK) by (intros [| | |]; cbn; [by intros [= <- _]|done..]).
  destruct (_ && _ && _); [|destruct (state (core c)); try exact Hfin; (match goal with |- context [rbind ?r _] => destruct r as [S2| | |]; try done end); cbn [rbind]; intros H _; by apply Hb in H].
  destruct (flag_set _ _); [|done]. do 3 (match goal with |- context [rbind ?r _] => destruct r as [?| | |]; try done end; cbn [rbind]). intros H _. by apply Hb in H.
Qed.

(** ** The instance *)

(** The address of the connection's pcb. *)
Variable a : Z.

(** A failed assertion, or the use of a freed pcb, ends the process: what the
    object sees then does not matter, and is chosen to be [d]. *)
Definition settle {A} (d : A) (r : res A) : A := match r with Ok x => x | _ => d end.

(** [tcp_sndbuf] shows at most 16 bits. *)
Definition TCPWND16 (x : Z) : Z := if LWIP_WND_SCALE then u16 (Z.min x 65535) else x.
Definition tcp_sndbuf (p : tcp_pcb) : Z := TCPWND16 (snd_buf p).

(** What the object reads of its pcb. *)
Definition field (f : tcp_pcb -> Z) (S : stack) : Z := match pcbs S !! a with Some c => f (core c) | None => 0 end.

Definition lwip_recved (S : stack) (len : Z) : stack :=
  settle (match pcbs S !! a with Some c => put a (c <| core := (core c) <| rcv_wnd := Z.min (rcv_wnd (core c) + len) (TCP_WND_MAX (core c)) |> |>) S | None => S end)
    (on_ a (TcpOut.tcp_recved len) S).

#[export] Instance lwip_api : TcpApi := {|
  Connection.tcp := stack;
  Connection.pcb_mss := field mss;
  Connection.tcp_sndbuf := field tcp_sndbuf;
  Connection.rcv_wnd := field rcv_wnd;
  Connection.wnd_max := field TCP_WND_MAX;
  Connection.tcp_recved := lwip_recved;
  Connection.tcp_write S d := settle (ERR_OK, S) (on a (TcpOut.tcp_write d TCP_WRITE_FLAG_COPY) S);
  Connection.tcp_output S := snd (settle (ERR_OK, S) (on a tcp_output S));
  Connection.tcp_shutdown S rx tx := snd (settle (ERR_OK, S) (tcp_shutdown a rx tx S));
  Connection.tcp_close S := match tcp_close a S with Ok (e, S') => (e, bool_decide (pcbs S' !! a = None), S') | _ => (ERR_OK, false, S) end;
  Connection.tcp_abort S := settle S (tcp_abort a S);
  Connection.tcp_backlog_accepted S := settle S (tcp_backlog_accepted a S) |}.

Lemma kept_fields S S' : wnd_kept a S S' -> field rcv_wnd S' = field rcv_wnd S /\ field TCP_WND_MAX S' = field TCP_WND_MAX S.
Proof. intros (c & c' & E & E' & H). unfold field. by rewrite E, E'. Qed.

Lemma lwip_recved_max S len : field TCP_WND_MAX (lwip_recved S len) = field TCP_WND_MAX S.
Proof.
  unfold lwip_recved, field, on_, on, get. destruct (pcbs S !! a) as [c|] eqn:E; cbn [rbind settle]; [|by rewrite E].
  destruct (TcpOut.tcp_recved len (view a c S)) as [s|] eqn:Er; cbn [mbind option_bind lift rbind settle]; cbn [back put pcbs setf]; rewrite lookup_insert_eq; [exact (recved_max _ _ _ Er)|reflexivity].
Qed.

Lemma lwip_recved_wnd `{ook : !OptsOk o} S len : 0 <= len <= 65535 -> 0 <= field rcv_wnd S <= field TCP_WND_MAX S ->
  field rcv_wnd (lwip_recved S len) = Z.min (field rcv_wnd S + len) (field TCP_WND_MAX S).
Proof.
  intros Hl. unfold lwip_recved, field, on_, on, get. destruct (pcbs S !! a) as [c|] eqn:E; cbn [rbind settle]; [|rewrite E; lia].
  intros Hw. destruct (TcpOut.tcp_recved len (view a c S)) as [s|] eqn:Er; cbn [mbind option_bind lift rbind settle]; cbn [back put pcbs setf]; rewrite lookup_insert_eq; [|reflexivity].
  by apply (wnd_recved len (view a c S) s) in Er.
Qed.

#[export] Instance lwip_api_ok `{ook : !OptsOk o} : TcpApiOk lwip_api.
Proof.
  split; cbn [Connection.tcp Connection.rcv_wnd Connection.wnd_max Connection.tcp_recved Connection.tcp_write Connection.tcp_output Connection.tcp_shutdown Connection.tcp_close Connection.tcp_backlog_accepted lwip_api].
  - apply lwip_recved_wnd.
  - apply lwip_recved_max.
  - intros S d. destruct (on a _ S) as [[e S']| | |] eqn:E; cbn [settle snd]; [|done..]. apply kept_fields. eapply on_kept; [|exact E]. apply wnd_write.
  - intros S. destruct (on a _ S) as [[e S']| | |] eqn:E; cbn [settle snd]; [|done..]. apply kept_fields. eapply on_kept; [|exact E]. apply wnd_output.
  - intros S. destruct (tcp_shutdown a _ _ S) as [[e S']| | |] eqn:E; cbn [settle snd]; [|done..]. apply kept_fields. by eapply shutdown_tx_kept.
  - intros S. destruct (tcp_backlog_accepted a S) as [S'| | |] eqn:E; cbn [settle]; [|done..]. apply kept_fields. by apply backlog_kept.
  - intros S. destruct (tcp_close a S) as [[e S']| | |] eqn:E; cbn; try done. intros H%bool_decide_eq_true. by apply (close_freed a S e S').
Qed.

(** C15: lwIP does what the connection object relies on.  Whatever state the stack
    is in, [tcp_recved] adds to the receive window of the object's pcb up to its
    maximum, [tcp_write], [tcp_output], a shutdown of the sending side and
    [tcp_backlog_accepted] leave it, and [tcp_close] succeeds when it frees the
    pcb; and each call of the object is the call of lwIP's model whenever that one
    returns.  So what is proved of the object holds on top of lwIP. *)
Theorem lwip_implements_api `{ook : !OptsOk o} : TcpApiOk lwip_api
  /\ (forall S len S', on_ a (TcpOut.tcp_recved len) S = Ok S' -> Connection.tcp_recved S len = S')
  /\ (forall S d r, on a (TcpOut.tcp_write d TCP_WRITE_FLAG_COPY) S = Ok r -> Connection.tcp_write S d = r)
  /\ (forall S e S', on a tcp_output S = Ok (e, S') -> Connection.tcp_output S = S')
  /\ (forall S rx tx e S', tcp_shutdown a rx tx S = Ok (e, S') -> Connection.tcp_shutdown S rx tx = S')
  /\ (forall S e S', tcp_close a S = Ok (e, S') -> Connection.tcp_close S = (e, bool_decide (pcbs S' !! a = None), S'))
  /\ (forall S S', tcp_abort a S = Ok S' -> Connection.tcp_abort S = S')
  /\ (forall S S', tcp_backlog_accepted a S = Ok S' -> Connection.tcp_backlog_accepted S = S').
Proof.
  split; [exact _|]. cbn [Connection.tcp Connection.tcp_recved Connection.tcp_write Connection.tcp_output Connection.tcp_shutdown Connection.tcp_close Connection.tcp_abort Connection.tcp_backlog_accepted lwip_api].
  unfold lwip_recved. split_and!; intros *; intros ->; done.
Qed.
End Lwip.

(** ** Witness *)
#[local] Existing Instances ios demo_ip.

(** The object on the example connection of [TcpProps], which has received three
    bytes, active and with these in flight. *)
Definition demo_hs : handlers := mk_handlers true true true true true true true.
Definition demo_object : Connection.world (api := lwip_api 1000) :=
  Connection.upd (api := lwip_api 1000) (fun c => c <| Connection.state := TFTCPConnectionActive |> <| inflightAckBytes := 3 |>) (Connection.connect (api := lwip_api 1000) 1000 0 demo_hs (demo_run demo_data)).

(** Acknowledging them opens the window of the pcb again. *)
Lemma lwip_implements_api_witness :
  field 1000 rcv_wnd (lw (api := lwip_api 1000) demo_object) = TCP_WND - 3
  /\ field 1000 rcv_wnd (lw (api := lwip_api 1000) (acknowledgeDeliveredBytes (api := lwip_api 1000) 3 demo_object)) = TCP_WND.
Proof.
  split; [vm_compute; reflexivity|]. destruct (lwip_implements_api (o := ios) (ip := demo_ip) 1000) as [Hok _].
  destruct (acknowledge_credits (api := lwip_api 1000) (apiok := Hok) 3 demo_object) as [H _]; [reflexivity|vm_compute; discriminate|reflexivity|lia|vm_compute; discriminate|vm_compute; split; discriminate|]. vm_compute in H. vm_compute. exact H.
Defined.
